(* ===== verification/_CoqProject ===== *)
-Q . S2P
Prelude.v
Crc.v
Sha256.v
BootImage.v
Nvm.v
DfuTypes.v
DfuPolicy.v
DfuInit.v
FlashNrf5x.v
SingleBank.v
SingleBankSerial.v
SingleBankSafety.v
Settings.v
ImageSwap.v
MemPool.v
Slip.v
HciTransport.v
Uf2.v
Uf2App.v
Uf2Boot.v
Uf2Transfer.v
Uf2Install.v
GhostFat.v
Uf2Restore.v
Msc.v
MscSafety.v
Detools.v
DetoolsSpec.v
DetoolsStream.v
DetoolsTotal.v
DetoolsCorrect.v
OtaFlash.v
OtaMota.v
OtaState.v
OtaBoot.v
OtaDemo.v
OtaGeometry.v
OtaDelta.v
OtaSteps.v
OtaCache.v
OtaSafety.v
OtaCrash.v
OtaBootSafety.v
OtaInstall.v
Scheduler.v
SerialQueue.v
SerialSession.v
Pstorage.v
PstorageStores.v
Boot.v
BootDecision.v
BootDemo.v
