(* ===== verification/Prelude.v ===== *)
(** * A verification of the OTAFIX nRF52 bootloader

    This library models the update paths of the bootloader in the C code's
    own shape (records for the file statics, one function per C function, machine words
    as integers with their wrap-around written out) and proves what makes them
    safe: which bytes can ever be installed, when they are reported valid, what a
    power loss leaves, and that an honest sender gets its image installed.

    ** The program

    The bootloader starts before the application.  An image reaches it over one of
    several paths: the serial DFU protocol (SLIP frames carrying acknowledged
    HCI packets, which feed the legacy DFU engine), the same engine over
    Bluetooth, the UF2 mass-storage drive, or a container the running application
    received by radio and staged in flash, with a delta against itself or a new
    bootloader inside.  Each path ends in flash through a
    page-cached writer and in a request to the settings module, whose record on the
    settings page decides what the next boot starts.  A received SoftDevice or
    bootloader is moved into place by the MBR after a reset.

    ** The files

    - [Prelude]: words, byte strings, little-endian fields, and the lemmas, hints
      and tactics the rest shares.  [Crc], [Sha256]: [crc16.c], [crc32.h],
      [sha256.c].  [Nvm]: flash as bytes, the NVMC driver as the class [Nvmc].
    - [BootImage]: the identity a bootloader image carries
      ([usb/uf2/bootloader_image.c]).  [DfuTypes], [DfuPolicy], [DfuInit]:
      [dfu_types.h], [dfu_image_policy.c], [dfu_init.c].
    - [FlashNrf5x]: the cached writer [flash_nrf5x.c].
    - [SingleBank]: the engine [dfu_single_bank.c] with [dfu_bank_internal.h];
      [SingleBankSerial] has its serial data path, [SingleBankSafety] its safety
      over every interleaving of events.  The BLE build stores through the class
      [PStorage].
    - [Settings]: the settings record, its seal and the order it is programmed in
      ([bootloader_settings_guard.c], [bootloader_types.h], parts of
      [bootloader.c]).  [ImageSwap]: the SoftDevice and bootloader moves of
      [dfu_single_bank.c] and [bootloader.c], over the class [Mbr]; every step reads
      the settings record again from the flash of that moment, as the code does.
    - [Boot]: one boot from reset to hand-over, [main.c] with [dfu_entry.h],
      [dfu_timeout.h] and [usb_wait.c], and the session control of [bootloader.c]
      (start, wait loop, settings save, callbacks).  The engines and transports are
      the events that arrive while the loop waits; the SoftDevice move and the
      updater of staged containers are arguments.  [BootDecision] has its theorems,
      [BootDemo] a concrete device and boots of it.
    - [MemPool], [Slip], [HciTransport]: [hci_mem_pool.c], [hci_slip.c] and
      [hci_transport.c], each proved against the interface of the next ([Serial]
      is the byte port).
    - [Scheduler], [SerialQueue], [SerialSession]: [app_scheduler.c] and
      [dfu_transport_serial.c], the queue between the HCI transport and the engine;
      [SerialSession] composes line, pool, transport, queue, scheduler and engine.
    - [Pstorage]: the flash queue of the BLE build, [pstorage_raw.c] with its lazy
      erase, over the class [SoftDevice]; [PstorageStores] has its contract.
    - [Uf2]: the write half of [usb/uf2/ghostfat.c] with [uf2_transfer_state.h]
      and [uf2_app_flash.h]; [Uf2App] and [Uf2Boot] hold its invariants for the
      two kinds of transfer, [Uf2Transfer] the safety of any sequence of sectors,
      [Uf2Install] the honest host.  [GhostFat]: the read half, with a FAT16 reader
      as reference; [Uf2Restore] composes the two halves.  [Msc], [MscSafety]:
      the mass-storage session [usb/msc_uf2.c] around the writer.
    - [Detools]: the decoder of in-place patches [detools/detools.c], over memory
      callbacks (class [MemCallbacks]).  [DetoolsSpec] is the one-pass meaning of a
      patch; [DetoolsStream] (the chunks never matter), [DetoolsTotal] (it returns)
      and [DetoolsCorrect] (it makes the image) hold the proofs.
    - The updater of staged containers, [ota_delta.c], in its internal nRF52840
      profile: [OtaFlash] has the flash port, verified page changes and the page
      cache, [OtaMota] the retained handoff ([ota_hybrid_handoff.h]), the container
      parser and scan and the check of the patch's header, [OtaState] the state its
      functions share, [OtaBoot] the bootloader update, [OtaDelta] the decoder's
      callbacks and [ota_delta_check_and_apply].  [OtaSteps], [OtaCache] and
      [OtaGeometry] hold their lemmas, [OtaSafety], [OtaCrash], [OtaBootSafety] and
      [OtaInstall] the theorems, [OtaDemo] a concrete device for the witnesses.

    ** What the theorems show

    - Nothing unvalidated is activated: [activation_validated] (DFU engine),
      [signed_chain] and [signed_flash_authenticated] (signed builds),
      [uf2_application_sound], [uf2_bootloader_vetted] and
      [msc_completion_sound] (UF2), [update_one_shot] and
      [boot_update_vetted] (staged containers), [accepted_set_compatible] and
      [strict_identity] (policy and identity).  [only_valid_started] closes the
      chain: what a boot jumps to was valid at that moment.
    - Writes stay where they belong: [transfer_bounded], [uf2_writes_only_application],
      [rx_stays_in_buffer], [poison_is_final].
    - The honest sender succeeds: [serial_transfer_exact],
      [serial_session_exact], [image_over_the_wire], [pstorage_stores_exact],
      [uf2_installs],
      [update_installs], [slip_roundtrip], [packets_delivered_once],
      [current_file_readable], [current_uf2_restores]; [completed_update_boots]
      takes a completed update to the start of that application.
    - The device stays reachable: [boot_recovers] (without an application a session
      starts, at the latest after one reset), [double_reset_recovers].
    - Power losses: [update_crash_safe], [settings_commit_atomic], [sd_swap_resumable],
      [sd_update_continue_installs].
    - Optimised code equals its reference: [sha256_stream_correct],
      [crc16_compute_ccitt], [flash_writes_refine], [pool_is_queue],
      [scheduler_is_fifo],
      [decoder_correct] (with [decoder_returns] for every patch); error
      detection: [crc32_detects_burst].

    ** Hypotheses, bounds and fuel

    Hardware and external code are classes or section variables with their
    documented laws: [Nvmc] (erase gives ones, a word write clears bits), [Mbr]
    (copy and compare), [PStorage] (operations of the flash queue complete in order),
    [Serial] (a byte port that may refuse), TinyCrypt and uECC in [DfuInit],
    [FlashPort] (an operation on a page leaves the other pages alone; [ReliableFlash]
    adds that it works), [SoftDeviceSpec] (one flash request at a time, each ended by
    one event; [reliable] adds that it succeeds), [OtaEnv] and [BootEnv] (what the build and the reset leave
    constant; the MBR's answer).
    Each has a concrete instance the witnesses compute with.  [device_ok] (in
    [Uf2App]) says a SoftDevice is installed and the application base is a
    page-aligned address below the bootloader staging area.

    Recursion that is not structural takes fuel: the SoftDevice swap
    ([SWAP_FUEL], one round per block and [block_swap_total] that it suffices), the
    engine's store loop and the SLIP and HCI re-entrancy depth (a result is [None]
    only when the depth is exceeded; the theorems give a depth that is enough), and
    the CRC loop of the mass-storage session (one round per page).  The decoder's
    loops run at most [PROCESS_FUEL] = 2^60 rounds, counted in binary ([iterate]);
    [process_total] and [finalize_total] bound them by a potential below that, as a
    few bytes of a patch can announce runs of 2^28.  The updater's loops count
    pages, bytes or 256-byte chunks of a range they are given.  Loops over a
    bounded range count down that range.

    ** Not modelled

    The SoftDevice and its GATT services, the boards' pin tables, USB descriptors
    and TinyUSB, the display, the external SPI flash and SD card drivers (and the
    profiles of [ota_delta.c] that read from them), the RTC timer list and the UART driver: register-level glue or code that is
    not in the tree.  The dual-bank engine is compiled by no board.  [Boot]
    describes the chips with USB: the timed serial session of the nRF52832, LEDs, the
    watchdog and the start of the SoftDevice are left out of it.
    The single-bank engine meets the flash queue through the class [PStorage] of
    [SingleBank]; [Pstorage] is proved on its own and not yet an instance of it. *)
From stdpp Require Export base tactics numbers list option.
From Stdlib Require Export ZArith Lia.
#[global] Open Scope Z_scope.

(** * Machine words *)

(** An unsigned C integer is a [Z]; [uN] is the conversion to an N-bit
    unsigned type, written out wherever an operation can leave the range. *)
Definition u8 (x : Z) : Z := x mod 256.
Definition u16 (x : Z) : Z := x mod 65536.
Definition u32 (x : Z) : Z := x mod 4294967296.
Definition u64 (x : Z) : Z := x mod 18446744073709551616.

Definition UINT16_MAX : Z := 65535.
Definition UINT32_MAX : Z := 4294967295.

Declare Scope c_scope.
Delimit Scope c_scope with c.
Notation "a +32 b" := (u32 (a + b)) (at level 50, left associativity) : c_scope.
Notation "a -32 b" := (u32 (a - b)) (at level 50, left associativity) : c_scope.
Notation "~32 a" := (Z.lxor a UINT32_MAX) (at level 35, right associativity) : c_scope.
Notation "a <<32 b" := (u32 (Z.shiftl a b)) (at level 42, left associativity) : c_scope.

Lemma u8_pow x : u8 x = x mod 2 ^ 8. Proof. reflexivity. Qed.
Lemma u16_pow x : u16 x = x mod 2 ^ 16. Proof. reflexivity. Qed.
Lemma u32_pow x : u32 x = x mod 2 ^ 32. Proof. reflexivity. Qed.
Lemma u64_pow x : u64 x = x mod 2 ^ 64. Proof. reflexivity. Qed.

Create HintDb words discriminated.

Lemma u8_range x : 0 <= u8 x < 2 ^ 8.
Proof. apply Z.mod_pos_bound. lia. Qed.
Lemma u16_range x : 0 <= u16 x < 2 ^ 16.
Proof. apply Z.mod_pos_bound. lia. Qed.
Lemma u32_range x : 0 <= u32 x < 2 ^ 32.
Proof. apply Z.mod_pos_bound. lia. Qed.
Lemma u32_small x : 0 <= x < 2 ^ 32 -> u32 x = x.
Proof. apply Z.mod_small. Qed.
Lemma u16_small x : 0 <= x < 2 ^ 16 -> u16 x = x.
Proof. apply Z.mod_small. Qed.
Lemma u8_small x : 0 <= x < 2 ^ 8 -> u8 x = x.
Proof. apply Z.mod_small. Qed.
#[export] Hint Resolve u8_range u16_range u32_range u32_small u16_small u8_small : words.

(** [zlia] is [lia] on goals with [/], [mod] and the conversions above. *)
Ltac eval_pow2 :=
  repeat match goal with
  | |- context [2 ^ Zpos ?p] =>
      let v := eval vm_compute in (2 ^ Zpos p) in change (2 ^ Zpos p) with v
  | H : context [2 ^ Zpos ?p] |- _ =>
      let v := eval vm_compute in (2 ^ Zpos p) in change (2 ^ Zpos p) with v in H
  end.
Ltac zlia := unfold u8, u16, u32, u64, UINT16_MAX, UINT32_MAX in *; eval_pow2;
             Z.div_mod_to_equations; lia.

(** Case analysis on the boolean comparisons of a translated condition. *)
Ltac bool_cases :=
  repeat match goal with
  | H : _ && _ = true |- _ => apply andb_prop in H; destruct H
  | H : _ || _ = false |- _ => apply orb_false_elim in H; destruct H
  | H : negb _ = true |- _ => apply negb_true_iff in H
  | H : negb _ = false |- _ => apply negb_false_iff in H
  | H : (_ =? _) = true |- _ => apply Z.eqb_eq in H
  | H : (_ =? _) = false |- _ => apply Z.eqb_neq in H
  | H : (_ <=? _) = true |- _ => apply Z.leb_le in H
  | H : (_ <=? _) = false |- _ => apply Z.leb_gt in H
  | H : (_ <? _) = true |- _ => apply Z.ltb_lt in H
  | H : (_ <? _) = false |- _ => apply Z.ltb_ge in H
  | H : bool_decide _ = true |- _ => apply bool_decide_eq_true in H
  | H : bool_decide _ = false |- _ => apply bool_decide_eq_false in H
  end.

(** C's [&&] and [||] do not evaluate their right operand when the left one
    decides: written as a conditional, an evaluation skips the rest too. *)
Notation "a &&& b" := (if a then b else false) (at level 40, left associativity, only parsing) : c_scope.
Notation "a ||| b" := (if a then true else b) (at level 50, left associativity, only parsing) : c_scope.

Lemma land_if (a b : bool) : (if a then b else false) = a && b.
Proof. done. Qed.
Lemma lor_if (a b : bool) : (if a then true else b) = a || b.
Proof. done. Qed.

(** * Bits below a power of two *)

Lemma testbit_high x n i : 0 <= x < 2 ^ n -> n <= i -> Z.testbit x i = false.
Proof.
  intros Hx Hi. destruct (decide (0 <= n)) as [Hn|Hn].
  - rewrite <- (Z.mod_small x (2 ^ n)) by lia. by apply Z.mod_pow2_bits_high.
  - rewrite Z.pow_neg_r in Hx by lia. lia.
Qed.

Lemma bits_below x n :
  0 <= n -> 0 <= x -> (forall i, n <= i -> Z.testbit x i = false) -> x < 2 ^ n.
Proof.
  intros Hn Hx H. enough (x = x mod 2 ^ n) as ->.
  { apply Z.mod_pos_bound. lia. }
  apply Z.bits_inj'. intros i Hi. rewrite Z.testbit_mod_pow2 by done.
  destruct (Z.ltb_spec i n); [done|]. simpl. apply H. lia.
Qed.

Lemma lxor_range n x y : 0 <= n -> 0 <= x < 2 ^ n -> 0 <= y < 2 ^ n ->
  0 <= Z.lxor x y < 2 ^ n.
Proof.
  intros Hn Hx Hy. assert (0 <= Z.lxor x y) by (apply Z.lxor_nonneg; lia).
  split; [done|]. apply bits_below; [done..|]. intros i Hi.
  rewrite Z.lxor_spec, (testbit_high x n), (testbit_high y n) by lia. done.
Qed.

Lemma lor_range n x y : 0 <= n -> 0 <= x < 2 ^ n -> 0 <= y < 2 ^ n ->
  0 <= Z.lor x y < 2 ^ n.
Proof.
  intros Hn Hx Hy. assert (0 <= Z.lor x y) by (apply Z.lor_nonneg; lia).
  split; [done|]. apply bits_below; [done..|]. intros i Hi.
  rewrite Z.lor_spec, (testbit_high x n), (testbit_high y n) by lia. done.
Qed.

Lemma land_range_r n x y : 0 <= n -> 0 <= y < 2 ^ n -> 0 <= Z.land x y < 2 ^ n.
Proof.
  intros Hn Hy. assert (0 <= Z.land x y) by (apply Z.land_nonneg; lia).
  split; [done|]. apply bits_below; [done..|]. intros i Hi.
  rewrite Z.land_spec, (testbit_high y n) by lia. apply andb_false_r.
Qed.

Lemma shiftr_range n x k : 0 <= n -> 0 <= k -> 0 <= x < 2 ^ n ->
  0 <= Z.shiftr x k < 2 ^ n.
Proof.
  intros Hn Hk Hx. rewrite Z.shiftr_div_pow2 by done.
  assert (0 < 2 ^ k) by lia. split; [apply Z.div_pos; lia|].
  apply Z.le_lt_trans with x; [|lia]. apply Z.div_le_upper_bound; [lia|]. nia.
Qed.

Lemma lor_disjoint_add x y n : 0 <= n -> 0 <= x < 2 ^ n -> Z.lor x (Z.shiftl y n) = x + y * 2 ^ n.
Proof.
  intros Hn Hx. rewrite <- Z.shiftl_mul_pow2 by done. symmetry. apply Z.add_nocarry_lor.
  apply Z.bits_inj'. intros i Hi. rewrite Z.land_spec, Z.bits_0.
  destruct (Z.lt_ge_cases i n).
  - rewrite Z.shiftl_spec_low by done. apply andb_false_r.
  - rewrite (testbit_high x n) by lia. done.
Qed.

Lemma land_ones_mod x n : 0 <= n -> Z.land x (2 ^ n - 1) = x mod 2 ^ n.
Proof. intros. rewrite <- Z.land_ones by done. by rewrite Z.ones_equiv, Z.sub_1_r. Qed.
Lemma land_1 x : Z.land x 1 = x mod 2. Proof. apply (land_ones_mod x 1). lia. Qed.
Lemma land_7 x : Z.land x 7 = x mod 8. Proof. apply (land_ones_mod x 3). lia. Qed.
Lemma land_15 x : Z.land x 15 = x mod 16. Proof. apply (land_ones_mod x 4). lia. Qed.
Lemma land_255 x : Z.land x 255 = x mod 256. Proof. apply (land_ones_mod x 8). lia. Qed.
Lemma land_4095 x : Z.land x 4095 = x mod 4096. Proof. apply (land_ones_mod x 12). lia. Qed.

(** [x & ~(2^n - 1)] on a 32-bit word: round down to a multiple of [2^n]. *)
Lemma land_not_mask x n : 0 <= n <= 32 -> 0 <= x < 2 ^ 32 ->
  Z.land x (Z.lxor (2 ^ n - 1) UINT32_MAX) = x - x mod 2 ^ n.
Proof.
  intros Hn Hx. assert (x - x mod 2 ^ n = Z.shiftl (Z.shiftr x n) n) as ->.
  { rewrite Z.shiftl_mul_pow2, Z.shiftr_div_pow2 by lia.
    pose proof (Z.div_mod x (2 ^ n)). lia. }
  apply Z.bits_inj'. intros i Hi.
  change UINT32_MAX with (Z.ones 32). replace (2 ^ n - 1) with (Z.ones n) by (rewrite Z.ones_equiv; lia).
  rewrite Z.land_spec, Z.lxor_spec, !Z.testbit_ones_nonneg by lia.
  destruct (Z.ltb_spec i n).
  - rewrite Z.shiftl_spec_low by lia. replace (i <? 32) with true by (symmetry; apply Z.ltb_lt; lia).
    apply andb_false_r.
  - rewrite Z.shiftl_spec, Z.shiftr_spec by lia. replace (i - n + n) with i by lia.
    destruct (Z.ltb_spec i 32); cbn [xorb]; [apply andb_true_r|].
    rewrite (testbit_high x 32) by lia. done.
Qed.

#[export] Hint Resolve lxor_range lor_range land_range_r shiftr_range : words.

(** * Byte strings *)

Definition is_byte (b : Z) : Prop := 0 <= b < 256.
#[global] Instance is_byte_dec b : Decision (is_byte b).
Proof. unfold is_byte. apply _. Defined.
Abbreviation bytes := (Forall is_byte).

Definition lenZ {A} (l : list A) : Z := Z.of_nat (length l).

(** [nthZ l i] is [l[i]] where the code has checked (or a theorem shows) that
    [i] is in range. *)
Definition nthZ (l : list Z) (i : Z) : Z := nth (Z.to_nat i) l 0.

(** [sliceZ l off n]: the [n] bytes of [l] at [off]. *)
Definition sliceZ {A} (l : list A) (off n : Z) : list A :=
  take (Z.to_nat n) (drop (Z.to_nat off) l).

(** [memcmp(a, b, n) == 0] on two byte strings of equal length. *)
Definition bytes_eqb (a b : list Z) : bool := bool_decide (a = b).

Lemma bytes_eqb_eq a b : bytes_eqb a b = true <-> a = b.
Proof. apply bool_decide_eq_true. Qed.
Lemma bytes_eqb_refl a : bytes_eqb a a = true.
Proof. by apply bytes_eqb_eq. Qed.

Lemma lenZ_nonneg {A} (l : list A) : 0 <= lenZ l.
Proof. unfold lenZ. lia. Qed.
Lemma lenZ_app {A} (l k : list A) : lenZ (l ++ k) = lenZ l + lenZ k.
Proof. unfold lenZ. rewrite length_app. lia. Qed.
Lemma lenZ_cons {A} (x : A) l : lenZ (x :: l) = 1 + lenZ l.
Proof. unfold lenZ. simpl. lia. Qed.
Lemma lenZ_nil {A} : lenZ (@nil A) = 0.
Proof. done. Qed.
Create Rewrite HintDb lenZ.
#[export] Hint Rewrite @lenZ_app @lenZ_cons @lenZ_nil : lenZ.

Lemma lenZ_sliceZ {A} (l : list A) off n :
  0 <= off -> 0 <= n -> off + n <= lenZ l -> lenZ (sliceZ l off n) = n.
Proof. unfold lenZ, sliceZ. intros. rewrite length_take, length_drop. lia. Qed.

Lemma sliceZ_split {A} (l : list A) off n m :
  0 <= off -> 0 <= n -> 0 <= m ->
  sliceZ l off (n + m) = sliceZ l off n ++ sliceZ l (off + n) m.
Proof.
  intros. unfold sliceZ.
  rewrite (Z2Nat.inj_add off n), <- drop_drop, Z2Nat.inj_add by done.
  generalize (drop (Z.to_nat off) l) as k. intros k.
  rewrite <- (take_drop (Z.to_nat n) k) at 1.
  destruct (decide (Z.to_nat n <= length k)%nat).
  - rewrite take_app_ge by (rewrite length_take; lia).
    rewrite length_take. by replace (_ + _ - _)%nat with (Z.to_nat m) by lia.
  - rewrite (drop_ge k) by lia. rewrite !app_nil_r, take_nil, app_nil_r.
    rewrite (take_ge k) by lia. by rewrite take_ge by lia.
Qed.

Lemma sliceZ_sliceZ {A} (l : list A) a k o j : 0 <= a -> 0 <= o -> 0 <= j -> o + j <= k ->
  sliceZ (sliceZ l a k) o j = sliceZ l (a + o) j.
Proof.
  intros. unfold sliceZ. rewrite skipn_firstn_comm, firstn_firstn, drop_drop.
  f_equal; [lia|]. f_equal. lia.
Qed.

Lemma sliceZ_all {A} (l : list A) n : lenZ l <= n -> sliceZ l 0 n = l.
Proof. unfold sliceZ, lenZ. intros. simpl. rewrite drop_0. apply take_ge. lia. Qed.

Lemma sliceZ_nil {A} (l : list A) off n : n <= 0 -> sliceZ l off n = [].
Proof. unfold sliceZ. intros. replace (Z.to_nat n) with 0%nat by lia. apply take_0. Qed.

Lemma sliceZ_bytes l off n : bytes l -> bytes (sliceZ l off n).
Proof. intros H. by apply Forall_take, Forall_drop. Qed.

Lemma nthZ_byte l i : bytes l -> is_byte (nthZ l i).
Proof.
  intros H. unfold nthZ. destruct (decide (Z.to_nat i < length l)%nat) as [Hi|Hi].
  - destruct (lookup_lt_is_Some_2 l (Z.to_nat i) Hi) as [x Hx].
    rewrite (nth_lookup_Some _ _ _ _ Hx). by eapply Forall_lookup_1.
  - rewrite nth_overflow by lia. unfold is_byte. lia.
Qed.

Lemma nthZ_app_l l k i : 0 <= i < lenZ l -> nthZ (l ++ k) i = nthZ l i.
Proof. unfold nthZ, lenZ. intros. by rewrite app_nth1 by lia. Qed.
Lemma nthZ_app_r l k i : lenZ l <= i -> nthZ (l ++ k) i = nthZ k (i - lenZ l).
Proof.
  unfold nthZ, lenZ. intros. rewrite app_nth2 by lia. f_equal. lia.
Qed.

(** * Loops *)

(** [f] from [a] until it answers [inr], at most [p] times; the rounds are
    counted in binary, so that a bound far above any run costs nothing. *)
Fixpoint iterate {A B} (p : positive) (f : A -> A + B) (a : A) : A + B :=
  match p with
  | xH => f a
  | xO p => match iterate p f a with inl a => iterate p f a | r => r end
  | xI p => match f a with
            | inl a => match iterate p f a with inl a => iterate p f a | r => r end
            | r => r
            end
  end.

(** A loop whose rounds lower a measure ends within that many rounds, and an
    invariant of the rounds holds of the result. *)
Lemma iterate_measure {A B} (f : A -> A + B) (P : A -> Prop) (Q : B -> Prop) (mu : A -> Z) p a :
  (forall a a', P a -> f a = inl a' -> P a' /\ 0 <= mu a' < mu a) ->
  (forall a b, P a -> f a = inr b -> Q b) ->
  P a -> match iterate p f a with inl a' => P a' /\ 0 <= mu a' <= mu a - Z.pos p | inr b => Q b end.
Proof.
  intros Hl Hr. revert a. induction p as [p IH|p IH|]; intros a Ha; cbn [iterate].
  - destruct (f a) as [a1|b] eqn:E; [|by eapply Hr]. destruct (Hl _ _ Ha E) as [Ha1 ?].
    specialize (IH a1 Ha1) as H1. destruct (iterate p f a1) as [a2|b]; [|done]. destruct H1 as [Ha2 ?].
    specialize (IH a2 Ha2) as H2. destruct (iterate p f a2) as [a3|b]; [|done]. destruct H2. split; [done|lia].
  - specialize (IH a Ha) as H1. destruct (iterate p f a) as [a2|b]; [|done]. destruct H1 as [Ha2 ?].
    specialize (IH a2 Ha2) as H2. destruct (iterate p f a2) as [a3|b]; [|done]. destruct H2. split; [done|lia].
  - destruct (f a) as [a1|b] eqn:E; [|by eapply Hr]. destruct (Hl _ _ Ha E). split; [done|lia].
Qed.

Lemma iterate_ends {A B} (f : A -> A + B) (P : A -> Prop) (Q : B -> Prop) (mu : A -> Z) p a :
  (forall a a', P a -> f a = inl a' -> P a' /\ 0 <= mu a' < mu a) ->
  (forall a b, P a -> f a = inr b -> Q b) ->
  P a -> mu a < Z.pos p -> exists b, iterate p f a = inr b /\ Q b.
Proof.
  intros Hl Hr Ha Hp. pose proof (iterate_measure f P Q mu p a Hl Hr Ha) as H.
  destruct (iterate p f a) as [a'|b]; [lia|]. by exists b.
Qed.

(** An invariant of the rounds, whether the loop ends or not. *)
Lemma iterate_inv {A B} (f : A -> A + B) (P : A -> Prop) (Q : B -> Prop) p a :
  (forall a a', P a -> f a = inl a' -> P a') -> (forall a b, P a -> f a = inr b -> Q b) ->
  P a -> match iterate p f a with inl a' => P a' | inr b => Q b end.
Proof.
  intros Hl Hr. revert a. induction p as [p IH|p IH|]; intros a Ha; cbn [iterate].
  - destruct (f a) as [a1|b] eqn:E; [|by eapply Hr]. specialize (IH a1 (Hl _ _ Ha E)) as H1.
    destruct (iterate p f a1); [by apply IH|done].
  - specialize (IH a Ha) as H1. destruct (iterate p f a); [by apply IH|done].
  - destruct (f a) as [a1|b] eqn:E; [by eapply Hl|by eapply Hr].
Qed.

(** Used as a rewrite, so that folds are unrolled without conversion. *)
Lemma fold_left_cons {A B} (f : A -> B -> A) x l a :
  fold_left f (x :: l) a = fold_left f l (f a x).
Proof. reflexivity. Qed.

(** * Little-endian fields *)

(** [(uint32_t)p[0] | ((uint32_t)p[1] << 8) | ...] *)
Definition le16 (b0 b1 : Z) : Z := Z.lor b0 (Z.shiftl b1 8).
Definition le32 (b0 b1 b2 b3 : Z) : Z :=
  Z.lor (Z.lor (Z.lor b0 (Z.shiftl b1 8)) (Z.shiftl b2 16)) (Z.shiftl b3 24).

Definition read_le16 (p : list Z) : Z := le16 (nthZ p 0) (nthZ p 1).
Definition read_le32 (p : list Z) : Z := le32 (nthZ p 0) (nthZ p 1) (nthZ p 2) (nthZ p 3).

(** The bytes of a word in memory order on the little-endian target. *)
Definition bytes16 (z : Z) : list Z := [u8 z; u8 (Z.shiftr z 8)].
Definition bytes32 (z : Z) : list Z :=
  [u8 z; u8 (Z.shiftr z 8); u8 (Z.shiftr z 16); u8 (Z.shiftr z 24)].

Lemma le16_add b0 b1 : is_byte b0 -> le16 b0 b1 = b0 + b1 * 2 ^ 8.
Proof. intros. apply lor_disjoint_add; [lia|]. unfold is_byte in *. lia. Qed.

Lemma le32_add b0 b1 b2 b3 : is_byte b0 -> is_byte b1 -> is_byte b2 ->
  le32 b0 b1 b2 b3 = b0 + b1 * 2 ^ 8 + b2 * 2 ^ 16 + b3 * 2 ^ 24.
Proof.
  unfold is_byte. intros. unfold le32.
  rewrite (lor_disjoint_add b0 b1 8), (lor_disjoint_add _ b2 16), (lor_disjoint_add _ b3 24) by lia.
  lia.
Qed.

(** [bytes] of a concrete list, by evaluation. *)
Lemma bytes_by_forallb (l : list Z) : forallb (fun b => (0 <=? b) && (b <? 256)) l = true -> bytes l.
Proof.
  intros H. induction l as [|x l IH]; [constructor|]. cbn [forallb] in H. bool_cases.
  constructor; [unfold is_byte; lia | auto].
Qed.

Lemma read_le32_range p : bytes p -> 0 <= read_le32 p < 2 ^ 32.
Proof.
  intros H. unfold read_le32. pose proof (nthZ_byte p 0 H). pose proof (nthZ_byte p 1 H).
  pose proof (nthZ_byte p 2 H). pose proof (nthZ_byte p 3 H).
  rewrite le32_add by done. unfold is_byte in *. lia.
Qed.

Lemma read_le16_range p : bytes p -> 0 <= read_le16 p < 2 ^ 16.
Proof.
  intros H. unfold read_le16. pose proof (nthZ_byte p 0 H). pose proof (nthZ_byte p 1 H).
  rewrite le16_add by done. unfold is_byte in *. lia.
Qed.

Lemma bytes32_bytes z : bytes (bytes32 z).
Proof. unfold bytes32, is_byte. repeat constructor; apply u8_range. Qed.

Lemma read_le32_cons b0 b1 b2 b3 k : read_le32 (b0 :: b1 :: b2 :: b3 :: k) = le32 b0 b1 b2 b3.
Proof. reflexivity. Qed.
Lemma read_le16_cons b0 b1 k : read_le16 (b0 :: b1 :: k) = le16 b0 b1.
Proof. reflexivity. Qed.

Lemma read_le32_bytes32 z k : 0 <= z < 2 ^ 32 -> read_le32 (bytes32 z ++ k) = z.
Proof.
  intros H. unfold bytes32. cbn [app]. rewrite read_le32_cons.
  rewrite le32_add by (unfold is_byte; apply u8_range).
  rewrite !Z.shiftr_div_pow2 by lia. zlia.
Qed.

Lemma read_le16_bytes16 z k : 0 <= z < 2 ^ 16 -> read_le16 (bytes16 z ++ k) = z.
Proof.
  intros H. unfold bytes16. cbn [app]. rewrite read_le16_cons.
  rewrite le16_add by (unfold is_byte; apply u8_range).
  rewrite !Z.shiftr_div_pow2 by lia. zlia.
Qed.

#[export] Hint Resolve read_le32_range read_le16_range bytes32_bytes sliceZ_bytes nthZ_byte : words.
