(* ===== verification/Crc.v ===== *)
(** The two checksums of the bootloader: the reflected IEEE CRC-32 of
    [src/crc32.h], used by every retained handoff record and by the
    bootloader manifest, and the CRC-16 of
    [lib/sdk/components/libraries/crc16/crc16.c], used by Legacy DFU init
    packets and by the bootloader settings. *)
From S2P Require Import Prelude.

(** * CRC-32 ([otafix_crc32_update]) *)

Definition CRC32_POLY : Z := 0xEDB88320.

(** [crc = (crc >> 1) ^ (0xEDB88320u & (0u - (crc & 1u)))] *)
Definition crc32_bit (crc : Z) : Z :=
  Z.lxor (Z.shiftr crc 1) (Z.land CRC32_POLY (0 -32 (Z.land crc 1))%c).

(** One byte of the loop: [crc ^= *data++] and eight bit steps. *)
Definition crc32_byte (crc b : Z) : Z := Nat.iter 8 crc32_bit (Z.lxor crc b).

Definition otafix_crc32_update (crc : Z) (data : list Z) : Z :=
  (~32 (fold_left crc32_byte data (~32 crc)))%c.

(** * CRC-16 ([crc16_compute]) *)

Definition crc16_byte (crc b : Z) : Z :=
  let crc := Z.lor (u8 (Z.shiftr crc 8)) (u16 (Z.shiftl crc 8)) in
  let crc := Z.lxor crc b in
  let crc := Z.lxor crc (Z.shiftr (u8 (Z.land crc 0xFF)) 4) in
  let crc := Z.lxor crc (u16 (Z.shiftl (Z.shiftl crc 8) 4)) in
  Z.lxor crc (u16 (Z.shiftl (Z.shiftl (Z.land crc 0xFF) 4) 1)).

Definition crc16_compute (p_data : list Z) (p_crc : option Z) : Z :=
  fold_left crc16_byte p_data (match p_crc with None => 0xFFFF | Some c => c end).

(** The reference the byte step is an optimisation of: CRC-16/CCITT with
    polynomial 0x1021, one bit at a time, most significant bit first. *)
Definition ccitt_bit (crc : Z) : Z :=
  let shifted := u16 (Z.shiftl crc 1) in
  if Z.testbit crc 15 then Z.lxor shifted 0x1021 else shifted.
Definition ccitt_byte (crc b : Z) : Z := Nat.iter 8 ccitt_bit (Z.lxor crc (Z.shiftl b 8)).
Definition ccitt (data : list Z) (init : Z) : Z := fold_left ccitt_byte data init.

Lemma crc32_byte_eq c b : crc32_byte c b = Nat.iter 8 crc32_bit (Z.lxor c b).
Proof. reflexivity. Qed.
#[global] Arguments crc32_byte : simpl never.
#[global] Arguments crc16_byte : simpl never.

(** * CRC-32 lemmas *)

Definition reg32 (x : Z) : Prop := 0 <= x < 2 ^ 32.

Lemma not32_invol x : (~32 (~32 x))%c = x.
Proof. by rewrite Z.lxor_assoc, Z.lxor_nilpotent, Z.lxor_0_r. Qed.
Lemma not32_reg x : reg32 x -> reg32 (~32 x)%c.
Proof. unfold reg32, UINT32_MAX. intros H. apply lxor_range; lia. Qed.

Lemma lxor_reg32 x y : reg32 x -> reg32 y -> reg32 (Z.lxor x y).
Proof. unfold reg32. intros. apply lxor_range; lia. Qed.

(** The mask form is the conditional xor. *)
Lemma crc32_bit_odd x :
  crc32_bit x = Z.lxor (Z.shiftr x 1) (if Z.odd x then CRC32_POLY else 0).
Proof.
  unfold crc32_bit. f_equal. change 1 with (Z.ones 1) at 1. rewrite Z.land_ones by lia.
  change (2 ^ 1) with 2. rewrite Zmod_odd. by destruct (Z.odd x).
Qed.

Lemma crc32_bit_lxor x y : crc32_bit (Z.lxor x y) = Z.lxor (crc32_bit x) (crc32_bit y).
Proof.
  rewrite !crc32_bit_odd, Z.shiftr_lxor.
  assert (Z.odd (Z.lxor x y) = xorb (Z.odd x) (Z.odd y)) as ->.
  { rewrite <- !Z.bit0_odd. apply Z.lxor_spec. }
  apply Z.bits_inj'. intros i _.
  rewrite !Z.lxor_spec. destruct (Z.odd x), (Z.odd y); simpl; rewrite ?Z.bits_0;
    repeat match goal with |- context [Z.testbit ?a i] => destruct (Z.testbit a i) end; done.
Qed.

Lemma crc32_bit_shl y : crc32_bit (Z.shiftl y 1) = y.
Proof.
  rewrite crc32_bit_odd, Z.shiftl_mul_pow2 by lia. change (2 ^ 1) with 2.
  rewrite Z.odd_mul, andb_false_r, Z.lxor_0_r.
  rewrite Z.shiftr_div_pow2 by lia. by apply Z.div_mul.
Qed.

Lemma crc32_bit_reg x : reg32 x -> reg32 (crc32_bit x).
Proof.
  intros H. rewrite crc32_bit_odd. apply lxor_range; [lia| |].
  - apply shiftr_range; [lia..|exact H].
  - destruct (Z.odd x); unfold CRC32_POLY; lia.
Qed.

Lemma crc32_bit_zero x : reg32 x -> crc32_bit x = 0 -> x = 0.
Proof.
  unfold reg32. intros Hx. rewrite crc32_bit_odd.
  destruct (Z.odd x) eqn:Ho; intros H.
  - apply Z.lxor_eq in H. exfalso. unfold CRC32_POLY in H.
    rewrite Z.shiftr_div_pow2 in H by lia. zlia.
  - rewrite Z.lxor_0_r, Z.shiftr_div_pow2 in H by lia. change (2 ^ 1) with 2 in H.
    pose proof (Z.div_mod x 2). rewrite Zmod_odd, Ho in *. lia.
Qed.

Lemma crc32_bit_inj x y : reg32 x -> reg32 y -> crc32_bit x = crc32_bit y -> x = y.
Proof.
  intros Hx Hy H. apply Z.lxor_eq, crc32_bit_zero.
  - by apply lxor_range.
  - rewrite crc32_bit_lxor, H. apply Z.lxor_nilpotent.
Qed.

Lemma crc32_bits_reg n x : reg32 x -> reg32 (Nat.iter n crc32_bit x).
Proof. intros H. induction n; simpl; auto using crc32_bit_reg. Qed.

Lemma crc32_bits_inj n x y : reg32 x -> reg32 y ->
  Nat.iter n crc32_bit x = Nat.iter n crc32_bit y -> x = y.
Proof.
  intros Hx Hy. induction n as [|n IH]; simpl; [done|]. intros H.
  apply IH, crc32_bit_inj; auto using crc32_bits_reg.
Qed.

(** Message bits that have not reached the feedback position shift down. *)
Lemma crc32_bits_shl n x y :
  Nat.iter n crc32_bit (Z.lxor x (Z.shiftl y (Z.of_nat n))) =
  Z.lxor (Nat.iter n crc32_bit x) y.
Proof.
  revert x y. induction n as [|n IH]; intros x y.
  { simpl. by rewrite Z.shiftl_0_r. }
  rewrite !Nat.iter_succ. replace (Z.of_nat (S n)) with (1 + Z.of_nat n) by lia.
  rewrite <- Z.shiftl_shiftl by lia. rewrite IH.
  by rewrite crc32_bit_lxor, crc32_bit_shl.
Qed.

Lemma byte_reg32 b : is_byte b -> reg32 b.
Proof. unfold is_byte, reg32. lia. Qed.

Lemma crc32_byte_reg s b : reg32 s -> is_byte b -> reg32 (crc32_byte s b).
Proof. intros. rewrite crc32_byte_eq. apply crc32_bits_reg. auto using lxor_reg32, byte_reg32. Qed.

Lemma crc32_fold_reg bs s : reg32 s -> bytes bs -> reg32 (fold_left crc32_byte bs s).
Proof.
  revert s. induction bs as [|b bs IH]; intros s Hs Hb; [done|]. rewrite fold_left_cons.
  inversion Hb; subst. auto using crc32_byte_reg.
Qed.

Lemma crc32_fold_inj bs s t : reg32 s -> reg32 t -> bytes bs ->
  fold_left crc32_byte bs s = fold_left crc32_byte bs t -> s = t.
Proof.
  revert s t. induction bs as [|b bs IH]; intros s t Hs Ht Hb; [done|]. rewrite !fold_left_cons.
  inversion Hb as [|? ? Hb1 Hb2]; subst. intros H. apply IH in H; auto using crc32_byte_reg.
  rewrite !crc32_byte_eq in H. apply crc32_bits_inj in H; [|auto using lxor_reg32, byte_reg32..].
  apply (f_equal (fun z => Z.lxor z b)) in H.
  by rewrite !Z.lxor_assoc, !Z.lxor_nilpotent, !Z.lxor_0_r in H.
Qed.

(** The little-endian value of a byte window. *)
Fixpoint le_value (bs : list Z) : Z :=
  match bs with [] => 0 | b :: t => Z.lor b (Z.shiftl (le_value t) 8) end.

Lemma le_value_add b t : is_byte b -> le_value (b :: t) = b + le_value t * 2 ^ 8.
Proof. intros H. apply lor_disjoint_add; [lia|exact H]. Qed.

Lemma le_value_range bs : bytes bs -> 0 <= le_value bs < 2 ^ (8 * lenZ bs).
Proof.
  induction 1 as [|b t Hb Ht IH]; [done|]. rewrite le_value_add by done.
  rewrite lenZ_cons, Z.mul_add_distr_l, Z.pow_add_r by (pose proof (lenZ_nonneg t); lia).
  unfold is_byte in Hb. lia.
Qed.

Lemma le_value_inj bs cs : length bs = length cs -> bytes bs -> bytes cs ->
  le_value bs = le_value cs -> bs = cs.
Proof.
  intros Hl Hb. revert cs Hl. induction Hb as [|b t Hb Ht IH]; intros [|c cs] Hl Hc; try done.
  inversion Hc; subst. rewrite !le_value_add by done. intros E. unfold is_byte in *.
  assert (b = c /\ le_value t = le_value cs) as [-> E'] by lia.
  f_equal. apply IH; auto.
Qed.

Lemma crc32_window bs s : bytes bs ->
  fold_left crc32_byte bs s = Nat.iter (8 * length bs) crc32_bit (Z.lxor s (le_value bs)).
Proof.
  intros H. revert s. induction H as [|b t Hb Ht IH]; intros s.
  { simpl. by rewrite Z.lxor_0_r. }
  rewrite fold_left_cons, IH.
  replace (8 * length (b :: t))%nat with (8 * length t + 8)%nat by (simpl; lia).
  rewrite Nat.iter_add. apply f_equal. rewrite crc32_byte_eq.
  rewrite <- (crc32_bits_shl 8). apply f_equal. change (Z.of_nat 8) with 8.
  rewrite Z.lxor_assoc. f_equal. cbn [le_value]. rewrite lor_disjoint_add by (unfold is_byte in *; lia).
  rewrite Z.shiftl_mul_pow2 by lia. symmetry. apply Z.add_nocarry_lxor.
  rewrite <- Z.shiftl_mul_pow2 by lia. apply Z.bits_inj'. intros i Hi.
  rewrite Z.land_spec, Z.bits_0. destruct (Z.lt_ge_cases i 8).
  - rewrite Z.shiftl_spec_low by done. apply andb_false_r.
  - rewrite (testbit_high b 8); [done|unfold is_byte in *; lia|lia].
Qed.

Lemma crc32_window_inj bs cs s : reg32 s -> bytes bs -> bytes cs ->
  length bs = length cs -> (length bs <= 4)%nat ->
  fold_left crc32_byte bs s = fold_left crc32_byte cs s -> bs = cs.
Proof.
  intros Hs Hb Hc Hl H4. rewrite !crc32_window by done. rewrite <- Hl. intros E.
  assert (forall ds, bytes ds -> length ds = length bs -> reg32 (le_value ds)) as Hr.
  { intros ds Hd El. pose proof (le_value_range ds Hd). unfold reg32.
    assert (2 ^ (8 * lenZ ds) <= 2 ^ 32) by (apply Z.pow_le_mono_r; unfold lenZ; lia). lia. }
  apply crc32_bits_inj in E; [|auto using lxor_reg32..].
  apply (f_equal (Z.lxor s)) in E.
  rewrite <- !Z.lxor_assoc, !Z.lxor_nilpotent, !Z.lxor_0_l in E.
  by apply le_value_inj.
Qed.

Lemma crc32_update_app c a b :
  otafix_crc32_update (otafix_crc32_update c a) b = otafix_crc32_update c (a ++ b).
Proof. unfold otafix_crc32_update. by rewrite not32_invol, fold_left_app. Qed.

Lemma crc32_update_reg c a : reg32 c -> bytes a -> reg32 (otafix_crc32_update c a).
Proof. intros. by apply not32_reg, crc32_fold_reg; [apply not32_reg|]. Qed.

(** * CRC-16 lemmas *)

Definition crc16_swap (x : Z) : Z := Z.lor (u8 (Z.shiftr x 8)) (u16 (Z.shiftl x 8)).

(** The part of the byte step after the byte has been folded in. *)
Definition crc16_mix (crc : Z) : Z :=
  let crc := Z.lxor crc (Z.shiftr (u8 (Z.land crc 0xFF)) 4) in
  let crc := Z.lxor crc (u16 (Z.shiftl (Z.shiftl crc 8) 4)) in
  Z.lxor crc (u16 (Z.shiftl (Z.shiftl (Z.land crc 0xFF) 4) 1)).

Definition byte_list : list Z := Z.of_nat <$> seq 0 256.

Lemma crc16_mix_ccitt_all :
  forallb (fun hi => forallb (fun lo => let x := lo + hi * 256 in
             crc16_mix (crc16_swap x) =? Nat.iter 8 ccitt_bit x) byte_list) byte_list = true.
Proof. vm_cast_no_check (eq_refl true). Qed.

Lemma byte_list_in b : is_byte b -> In b byte_list.
Proof.
  unfold is_byte. intros H. apply in_map_iff. exists (Z.to_nat b).
  rewrite in_seq. lia.
Qed.

Lemma crc16_mix_ccitt x : 0 <= x < 2 ^ 16 -> crc16_mix (crc16_swap x) = Nat.iter 8 ccitt_bit x.
Proof.
  intros H. pose proof crc16_mix_ccitt_all as F. rewrite forallb_forall in F.
  specialize (F (x / 256)). rewrite forallb_forall in F.
  specialize (F ltac:(apply byte_list_in; unfold is_byte; zlia) (x mod 256)).
  specialize (F ltac:(apply byte_list_in; unfold is_byte; zlia)). cbn zeta in F.
  replace (x mod 256 + x / 256 * 256) with x in F by zlia. by apply Z.eqb_eq.
Qed.

Lemma crc16_swap_lxor crc b : 0 <= crc < 2 ^ 16 -> is_byte b ->
  crc16_swap (Z.lxor crc (Z.shiftl b 8)) = Z.lxor (crc16_swap crc) b.
Proof.
  intros Hc Hb. unfold crc16_swap. rewrite !u8_pow, !u16_pow. apply Z.bits_inj'. intros i Hi.
  repeat first [rewrite Z.lxor_spec | rewrite Z.lor_spec | rewrite Z.testbit_mod_pow2 by lia].
  rewrite !Z.shiftr_spec by lia.
  destruct (Z.lt_ge_cases i 8) as [H|H].
  - rewrite !(Z.shiftl_spec_low _ 8) by lia. rewrite !andb_false_r, !orb_false_r.
    rewrite Z.lxor_spec, Z.shiftl_spec by lia. replace (i + 8 - 8) with i by lia.
    by replace (i <? 8) with true by (symmetry; apply Z.ltb_lt; lia).
  - replace (i <? 8) with false by (symmetry; apply Z.ltb_ge; lia). cbn [andb orb].
    rewrite !(Z.shiftl_spec _ 8 i) by lia.
    rewrite (testbit_high b 8) by (unfold is_byte in *; lia). rewrite xorb_false_r.
    destruct (Z.ltb_spec i 16); [|done]. cbn [andb].
    by rewrite Z.lxor_spec, Z.shiftl_spec_low, xorb_false_r by lia.
Qed.

Lemma crc16_byte_ccitt crc b : 0 <= crc < 2 ^ 16 -> is_byte b -> crc16_byte crc b = ccitt_byte crc b.
Proof.
  intros Hc Hb. unfold ccitt_byte. rewrite <- crc16_mix_ccitt.
  - rewrite crc16_swap_lxor by done. reflexivity.
  - apply lxor_range; [lia..|]. unfold is_byte in Hb. rewrite Z.shiftl_mul_pow2 by lia. lia.
Qed.

Lemma ccitt_bit_range x : 0 <= x < 2 ^ 16 -> 0 <= ccitt_bit x < 2 ^ 16.
Proof.
  intros H. unfold ccitt_bit. destruct (Z.testbit x 15); [|apply u16_range].
  apply lxor_range; [lia|apply u16_range|lia].
Qed.

Lemma ccitt_byte_range crc b : 0 <= crc < 2 ^ 16 -> is_byte b -> 0 <= ccitt_byte crc b < 2 ^ 16.
Proof.
  intros Hc Hb. unfold ccitt_byte. apply Nat.iter_invariant; [apply ccitt_bit_range|].
  apply lxor_range; [lia..|]. unfold is_byte in Hb. rewrite Z.shiftl_mul_pow2 by lia. lia.
Qed.

Lemma crc16_fold_ccitt bs c : 0 <= c < 2 ^ 16 -> bytes bs ->
  fold_left crc16_byte bs c = ccitt bs c /\ 0 <= ccitt bs c < 2 ^ 16.
Proof.
  intros Hc H. revert c Hc. induction H as [|b t Hb Ht IH]; intros c Hc; [done|].
  unfold ccitt. rewrite !fold_left_cons. rewrite crc16_byte_ccitt by done. apply IH. by apply ccitt_byte_range.
Qed.

Lemma crc16_compute_range bs : bytes bs -> 0 <= crc16_compute bs None < 2 ^ 16.
Proof.
  intros H. unfold crc16_compute. destruct (crc16_fold_ccitt bs 0xFFFF) as [-> ?]; done || lia.
Qed.

Lemma crc32_burst seed pre w w' post :
  0 <= seed < 2 ^ 32 -> bytes (pre ++ w ++ post) -> bytes w' ->
  length w = length w' -> (length w <= 4)%nat -> w <> w' ->
  otafix_crc32_update seed (pre ++ w ++ post) <> otafix_crc32_update seed (pre ++ w' ++ post).
Proof.
  intros Hs Hb Hw' Hl H4 Hne E. apply Hne.
  apply Forall_app in Hb as [Hp [Hw Ho]%Forall_app].
  unfold otafix_crc32_update in E.
  apply (f_equal (fun z => (~32 z)%c)) in E. rewrite !not32_invol, !fold_left_app in E.
  assert (reg32 (fold_left crc32_byte pre (~32 seed)%c)).
  { apply crc32_fold_reg; [by apply not32_reg|done]. }
  apply crc32_fold_inj in E; auto using crc32_fold_reg.
  by apply crc32_window_inj in E.
Qed.

(** * Properties *)

(** C34: a change confined to any window of at most four bytes of a message, at
    any byte offset, changes the CRC-32 that [otafix_crc32_update] returns,
    whatever the seed and the surrounding bytes: the checksum of a handoff
    record or a boot image detects every such burst. *)
Theorem crc32_detects_burst seed pre w w' post :
  0 <= seed < 2 ^ 32 -> bytes (pre ++ w ++ post) -> bytes w' ->
  length w = length w' -> (length w <= 4)%nat -> w <> w' ->
  otafix_crc32_update seed (pre ++ w ++ post) <> otafix_crc32_update seed (pre ++ w' ++ post).
Proof. apply crc32_burst. Qed.

Lemma crc32_detects_burst_witness :
  otafix_crc32_update 0 ([1; 2] ++ ([3; 4; 5; 6] ++ [7])) <>
  otafix_crc32_update 0 ([1; 2] ++ ([3; 4; 5; 7] ++ [7])).
Proof.
  apply (crc32_detects_burst 0 [1; 2] [3; 4; 5; 6] [3; 4; 5; 7] [7]);
    [lia | repeat constructor; lia.. | reflexivity | simpl; lia | discriminate].
Defined.

(** C35: the shift-and-xor byte step of [crc16_compute] is the bitwise
    CRC-16/CCITT (polynomial 0x1021, most significant bit first): on every
    byte string, from any 16-bit seed, the code returns the reference value,
    and a stream may be checksummed in pieces through [p_crc]. *)
Theorem crc16_compute_ccitt a b seed :
  0 <= seed < 2 ^ 16 -> bytes (a ++ b) ->
  crc16_compute (a ++ b) (Some seed) = ccitt (a ++ b) seed /\
  crc16_compute (a ++ b) None = ccitt (a ++ b) 0xFFFF /\
  crc16_compute b (Some (crc16_compute a None)) = crc16_compute (a ++ b) None.
Proof.
  intros Hs Hb. unfold crc16_compute. rewrite <- fold_left_app. repeat split.
  - by apply crc16_fold_ccitt.
  - by apply crc16_fold_ccitt; [lia|].
Qed.

Lemma crc16_compute_ccitt_witness :
  crc16_compute ([0x31; 0x32; 0x33] ++ [0x34]) (Some 0x1D0F) = ccitt ([0x31; 0x32; 0x33] ++ [0x34]) 0x1D0F /\
  crc16_compute ([0x31; 0x32; 0x33] ++ [0x34]) None = ccitt ([0x31; 0x32; 0x33] ++ [0x34]) 0xFFFF /\
  crc16_compute [0x34] (Some (crc16_compute [0x31; 0x32; 0x33] None)) =
    crc16_compute ([0x31; 0x32; 0x33] ++ [0x34]) None.
Proof.
  apply (crc16_compute_ccitt [0x31; 0x32; 0x33] [0x34] 0x1D0F); [lia | repeat constructor; lia].
Defined.

(** The published check values of both checksums ("123456789"). *)
Example crc32_check :
  otafix_crc32_update 0 [0x31; 0x32; 0x33; 0x34; 0x35; 0x36; 0x37; 0x38; 0x39] = 0xCBF43926.
Proof. vm_compute. reflexivity. Qed.
Example crc16_check :
  crc16_compute [0x31; 0x32; 0x33; 0x34; 0x35; 0x36; 0x37; 0x38; 0x39] None = 0x29B1.
Proof. vm_compute. reflexivity. Qed.
