(* ===== verification/Sha256.v ===== *)
(** The streaming SHA-256 of [src/sha256.c]: the context record with its
    64-byte block buffer, [sha256_transform], [sha256_update] and
    [sha256_final] as the code runs them, the one-shot definition of the
    standard (pad the message, compress the blocks in order), and the
    refinement theorem between the two. *)
From S2P Require Import Prelude.

(** * The round function *)

Definition ROTR (a b : Z) : Z := Z.lor (Z.shiftr a b) (a <<32 (32 - b))%c.
Definition CH (x y z : Z) : Z := Z.lxor (Z.land x y) (Z.land (~32 x)%c z).
Definition MAJ (x y z : Z) : Z :=
  Z.lxor (Z.lxor (Z.land x y) (Z.land x z)) (Z.land y z).
Definition EP0 (x : Z) : Z := Z.lxor (Z.lxor (ROTR x 2) (ROTR x 13)) (ROTR x 22).
Definition EP1 (x : Z) : Z := Z.lxor (Z.lxor (ROTR x 6) (ROTR x 11)) (ROTR x 25).
Definition SIG0 (x : Z) : Z := Z.lxor (Z.lxor (ROTR x 7) (ROTR x 18)) (Z.shiftr x 3).
Definition SIG1 (x : Z) : Z := Z.lxor (Z.lxor (ROTR x 17) (ROTR x 19)) (Z.shiftr x 10).

Definition K : list Z :=
  [1116352408;1899447441;3049323471;3921009573;961987163;1508970993;2453635748;2870763221;
   3624381080;310598401;607225278;1426881987;1925078388;2162078206;2614888103;3248222580;
   3835390401;4022224774;264347078;604807628;770255983;1249150122;1555081692;1996064986;
   2554220882;2821834349;2952996808;3210313671;3336571891;3584528711;113926993;338241895;
   666307205;773529912;1294757372;1396182291;1695183700;1986661051;2177026350;2456956037;
   2730485921;2820302411;3259730800;3345764771;3516065817;3600352804;4094571909;275423344;
   430227734;506948616;659060556;883997877;958139571;1322822218;1537002063;1747873779;
   1955562222;2024104815;2227730452;2361852424;2428436474;2756734187;3204031479;3329325298].

(** The eight chaining variables [state[0..7]]. *)
Record sha_state := mk_state { sa : Z; sb : Z; sc : Z; sd : Z; se : Z; sf : Z; sg : Z; sh : Z }.

(** The message schedule: [m] grows from 16 to 64 words, [m[i]] computed from
    [m[i-2]], [m[i-7]], [m[i-15]] and [m[i-16]]. *)
Definition sched_word (d : list Z) (i : nat) : Z :=
  Z.lor (Z.lor (Z.lor (Z.shiftl (nth (4 * i) d 0) 24) (Z.shiftl (nth (4 * i + 1) d 0) 16))
               (Z.shiftl (nth (4 * i + 2) d 0) 8))
        (nth (4 * i + 3) d 0).
Definition sched_next (m : list Z) : list Z :=
  let i := length m in
  m ++ [u32 (SIG1 (nth (i - 2) m 0) + nth (i - 7) m 0 + SIG0 (nth (i - 15) m 0) + nth (i - 16) m 0)].
Definition schedule (d : list Z) : list Z :=
  Nat.iter 48 sched_next (sched_word d <$> seq 0 16).

Definition sha_round (s : sha_state) (km : Z * Z) : sha_state :=
  let '(k, m) := km in
  let t1 := u32 (sh s + EP1 (se s) + CH (se s) (sf s) (sg s) + k + m) in
  let t2 := u32 (EP0 (sa s) + MAJ (sa s) (sb s) (sc s)) in
  mk_state (u32 (t1 + t2)) (sa s) (sb s) (sc s) (u32 (sd s + t1)) (se s) (sf s) (sg s).

(** [sha256_transform] on the chaining state and one 64-byte block. *)
Definition sha256_transform (st : sha_state) (d : list Z) : sha_state :=
  let r := fold_left sha_round (combine K (schedule d)) st in
  mk_state (u32 (sa st + sa r)) (u32 (sb st + sb r)) (u32 (sc st + sc r)) (u32 (sd st + sd r))
           (u32 (se st + se r)) (u32 (sf st + sf r)) (u32 (sg st + sg r)) (u32 (sh st + sh r)).

(** * The streaming context *)

Record sha256_ctx := mk_ctx {
  data : list Z;      (** [uint8_t data[64]] *)
  datalen : Z;        (** [uint32_t] *)
  bitlen : Z;         (** [uint64_t] *)
  state : sha_state
}.

Definition initial_state : sha_state :=
  mk_state 1779033703 3144134277 1013904242 2773480762 1359893119 2600822924 528734635 1541459225.

(** [sha256_init] leaves [data] as it was. *)
Definition sha256_init (buf : list Z) : sha256_ctx := mk_ctx buf 0 0 initial_state.

Definition sha256_byte (c : sha256_ctx) (b : Z) : sha256_ctx :=
  let d := <[Z.to_nat (datalen c) := b]> (data c) in
  let n := u32 (datalen c + 1) in
  if n =? 64 then mk_ctx d 0 (u64 (bitlen c + 512)) (sha256_transform (state c) d)
  else mk_ctx d n (bitlen c) (state c).

Definition sha256_update (c : sha256_ctx) (bs : list Z) : sha256_ctx := fold_left sha256_byte bs c.

(** [memset(data + i, 0, n)]. *)
Definition zero_range (d : list Z) (i n : nat) : list Z :=
  take i d ++ replicate n 0 ++ drop (i + n) d.

(** [data[63 - k] = (uint8_t)bitlen; bitlen >>= 8] for [k] = 0..7. *)
Definition put_bitlen (d : list Z) (bl : Z) : list Z :=
  fold_left (fun d k => <[(63 - k)%nat := u8 (Z.shiftr bl (8 * Z.of_nat k))]> d) (seq 0 8) d.

Definition word_be (w : Z) : list Z :=
  [u8 (Z.shiftr w 24); u8 (Z.shiftr w 16); u8 (Z.shiftr w 8); u8 w].
Definition digest (s : sha_state) : list Z :=
  word_be (sa s) ++ word_be (sb s) ++ word_be (sc s) ++ word_be (sd s) ++
  word_be (se s) ++ word_be (sf s) ++ word_be (sg s) ++ word_be (sh s).

Definition sha256_final (c : sha256_ctx) : list Z :=
  let i := Z.to_nat (datalen c) in
  let d := <[i := 0x80]> (data c) in
  let i := S i in
  let '(d, i, st) :=
    if (56 <? i)%nat then
      let d := zero_range d i (64 - i) in (d, 0%nat, sha256_transform (state c) d)
    else (d, i, state c) in
  let d := zero_range d i (56 - i) in
  let bl := u64 (bitlen c + datalen c * 8) in
  let d := put_bitlen d bl in
  digest (sha256_transform st d).

(** The way every caller hashes one buffer. *)
Definition sha256_stream (buf : list Z) (chunks : list (list Z)) : list Z :=
  sha256_final (fold_left sha256_update chunks (sha256_init buf)).

(** * The standard's one-shot definition *)

Definition be64 (z : Z) : list Z :=
  (fun k => u8 (Z.shiftr z (8 * (7 - Z.of_nat k)))) <$> seq 0 8.

(** [0x80], then zeros up to 56 modulo 64, then the bit length. *)
Definition pad_zeros (n : nat) : nat := ((119 - n mod 64) mod 64)%nat.
Definition padded (msg : list Z) : list Z :=
  msg ++ [0x80] ++ replicate (pad_zeros (length msg)) 0 ++ be64 (8 * lenZ msg).

Fixpoint blocks (n : nat) (l : list Z) : list (list Z) :=
  match n with O => [] | S n => take 64 l :: blocks n (drop 64 l) end.

Definition compress (st : sha_state) (l : list Z) : sha_state :=
  fold_left sha256_transform (blocks (length l / 64) l) st.
Definition sha256 (msg : list Z) : list Z := digest (compress initial_state (padded msg)).

#[global] Arguments sha256_transform : simpl never.

Example sha256_abc :
  sha256 [0x61; 0x62; 0x63] =
  [0xba;0x78;0x16;0xbf;0x8f;0x01;0xcf;0xea;0x41;0x41;0x40;0xde;0x5d;0xae;0x22;0x23;
   0xb0;0x03;0x61;0xa3;0x96;0x17;0x7a;0x9c;0xb4;0x10;0xff;0x61;0xf2;0x00;0x15;0xad].
Proof. vm_compute. reflexivity. Qed.

(** * Blocks *)

Lemma blocks_app n m l k : length l = (64 * n)%nat -> blocks (n + m) (l ++ k) = blocks n l ++ blocks m k.
Proof.
  revert l. induction n as [|n IH]; intros l Hl.
  { apply nil_length_inv in Hl as ->. done. }
  cbn [blocks Nat.add]. rewrite take_app_le, drop_app_le by lia. cbn. f_equal.
  apply IH. rewrite length_drop. lia.
Qed.

Lemma blocks_one d : length d = 64%nat -> blocks 1 d = [d].
Proof. intros H. cbn. by rewrite take_ge by lia. Qed.

Lemma compress_blocks st l n : length l = (64 * n)%nat ->
  compress st l = fold_left sha256_transform (blocks n l) st.
Proof.
  intros H. unfold compress. do 2 f_equal. rewrite H, Nat.mul_comm. by apply Nat.div_mul.
Qed.

#[global] Arguments blocks : simpl never.

(** * The streaming invariant *)

(** The context has absorbed [full ++ rest]: the [n] complete blocks of [full]
    are in the chaining state, [rest] is at the front of the buffer. *)
Record absorbed (c : sha256_ctx) (n : nat) (full rest : list Z) : Prop := {
  ab_full_len : length full = (64 * n)%nat;
  ab_rest_len : (length rest < 64)%nat;
  ab_datalen : datalen c = lenZ rest;
  ab_bitlen : bitlen c = u64 (512 * Z.of_nat n);
  ab_state : state c = fold_left sha256_transform (blocks n full) initial_state;
  ab_data_len : length (data c) = 64%nat;
  ab_data : take (length rest) (data c) = rest
}.

Lemma absorbed_init buf : length buf = 64%nat -> absorbed (sha256_init buf) 0 [] [].
Proof. intros H. split; simpl; done || lia. Qed.

Lemma take_S_insert {A} (d : list A) i b :
  (i < length d)%nat -> take (S i) (<[i := b]> d) = take i d ++ [b].
Proof.
  intros H. rewrite (take_S_r _ _ b) by (by apply list_lookup_insert_eq).
  by rewrite take_insert_ge by lia.
Qed.

Lemma absorbed_byte c n full rest b : absorbed c n full rest ->
  exists n' full' rest', full ++ rest ++ [b] = full' ++ rest' /\ absorbed (sha256_byte c b) n' full' rest'.
Proof.
  intros [Hf Hr Hdl Hbl Hst Hd Hdr]. unfold sha256_byte.
  set (d := <[_ := b]> (data c)).
  assert (take (S (length rest)) d = rest ++ [b]) as Hd'.
  { unfold d. rewrite Hdl. unfold lenZ. rewrite Nat2Z.id, take_S_insert by lia. by rewrite Hdr. }
  assert (length d = 64%nat) as Hd64 by (unfold d; by rewrite length_insert).
  rewrite Hdl. unfold lenZ. rewrite u32_small by lia.
  destruct (Z.eqb_spec (Z.of_nat (length rest) + 1) 64) as [E|E].
  - exists (S n), (full ++ rest ++ [b]), []. split; [by rewrite app_nil_r|].
    assert (d = rest ++ [b]) as Ed by (rewrite <- Hd'; by rewrite take_ge by lia).
    split; cbn [datalen bitlen state data]; try done.
    + rewrite !length_app. simpl. lia.
    + simpl. lia.
    + rewrite Hbl. zlia.
    + replace (S n) with (n + 1)%nat by lia. rewrite blocks_app by done.
      rewrite <- Ed, blocks_one by done. by rewrite fold_left_app, Hst.
  - exists n, full, (rest ++ [b]). split; [done|]. split; cbn [datalen bitlen state data]; try done.
    + rewrite length_app. simpl. lia.
    + by rewrite lenZ_app.
    + rewrite length_app. simpl. by rewrite Nat.add_1_r.
Qed.

Lemma absorbed_update c n full rest bs : absorbed c n full rest ->
  exists n' full' rest', full ++ rest ++ bs = full' ++ rest' /\ absorbed (sha256_update c bs) n' full' rest'.
Proof.
  revert c n full rest. induction bs as [|b bs IH]; intros c n full rest H.
  { exists n, full, rest. by rewrite app_nil_r. }
  destruct (absorbed_byte c n full rest b H) as (n1 & f1 & r1 & E1 & H1).
  destruct (IH _ _ _ _ H1) as (n2 & f2 & r2 & E2 & H2).
  exists n2, f2, r2. split; [|exact H2].
  rewrite <- E2, (app_assoc f1), <- E1, <- !app_assoc. done.
Qed.

Lemma absorbed_chunks c n full rest chunks : absorbed c n full rest ->
  exists n' (full' rest' : list Z), full ++ rest ++ concat chunks = full' ++ rest' /\
    absorbed (fold_left sha256_update chunks c) n' full' rest'.
Proof.
  revert c n full rest. induction chunks as [|bs cs IH]; intros c n full rest H.
  { exists n, full, rest. simpl. by rewrite app_nil_r. }
  destruct (absorbed_update c n full rest bs H) as (n1 & f1 & r1 & E1 & H1).
  destruct (IH _ _ _ _ H1) as (n2 & f2 & r2 & E2 & H2).
  exists n2, f2, r2. split; [|exact H2].
  rewrite <- E2, (app_assoc f1), <- E1, <- !app_assoc. done.
Qed.

(** * Finalisation *)

Lemma put_bitlen_spec d bl : length d = 64%nat -> put_bitlen d bl = take 56 d ++ be64 bl.
Proof.
  intros H. rewrite <- (take_drop 56 d) at 1.
  assert (length (take 56 d) = 56%nat) as Hp by (rewrite length_take; lia).
  assert (length (drop 56 d) = 8%nat) as Ht by (rewrite length_drop; lia).
  revert Hp Ht. generalize (take 56 d) as p, (drop 56 d) as t. intros p t Hp Ht.
  do 8 (destruct t as [|? t]; [done|]). destruct t; [|done].
  unfold put_bitlen. cbn [seq fold_left].
  repeat (rewrite (insert_app_r_alt p) by lia). rewrite Hp. reflexivity.
Qed.

Lemma zero_range_spec d i n : (i + n <= length d)%nat ->
  zero_range d i n = take i d ++ replicate n 0 ++ drop (i + n) d.
Proof. done. Qed.

Lemma take_zero_range d i n : (i + n <= length d)%nat ->
  take (i + n) (zero_range d i n) = take i d ++ replicate n 0.
Proof.
  intros H. unfold zero_range. rewrite app_assoc. apply take_app_length'.
  rewrite length_app, length_take, length_replicate. lia.
Qed.

Lemma length_zero_range d i n : (i + n <= length d)%nat -> length (zero_range d i n) = length d.
Proof.
  intros H. unfold zero_range. rewrite !length_app, length_take, length_replicate, length_drop. lia.
Qed.

Lemma be64_u64 z : be64 (u64 z) = be64 z.
Proof.
  unfold be64. apply map_ext_in. intros k Hk%in_seq. rewrite !u8_pow, u64_pow.
  apply Z.bits_inj'. intros i Hi. rewrite !Z.testbit_mod_pow2 by lia.
  destruct (Z.ltb_spec i 8); [|done]. rewrite !Z.shiftr_spec, Z.testbit_mod_pow2 by lia.
  by replace (_ <? 64) with true by (symmetry; apply Z.ltb_lt; lia).
Qed.

Lemma sha256_final_spec c n full rest : absorbed c n full rest ->
  sha256_final c = sha256 (full ++ rest).
Proof.
  intros [Hf Hr Hdl Hbl Hst Hd Hdr]. unfold sha256_final, sha256, padded.
  assert (u64 (bitlen c + datalen c * 8) = u64 (8 * lenZ (full ++ rest))) as ->.
  { rewrite Hbl, Hdl, lenZ_app. unfold lenZ at 2. rewrite Hf. zlia. }
  set (z := 8 * lenZ (full ++ rest)).
  rewrite Hdl. unfold lenZ. rewrite Nat2Z.id.
  set (r := length rest) in *. set (d := <[r := 0x80]> (data c)).
  assert (length d = 64%nat) as Hd64 by (unfold d; by rewrite length_insert).
  assert (take (S r) d = rest ++ [0x80]) as Hd'.
  { unfold d. rewrite take_S_insert by lia. by rewrite Hdr. }
  assert (pad_zeros (length (full ++ rest)) = ((119 - r) mod 64)%nat) as ->.
  { unfold pad_zeros. rewrite length_app, Hf. fold r.
    replace (64 * n + r)%nat with (r + n * 64)%nat by lia.
    rewrite Nat.Div0.mod_add, (Nat.mod_small r) by lia. done. }
  destruct (Nat.ltb_spec 56 (S r)) as [E|E].
  - replace ((119 - r) mod 64)%nat with (119 - r)%nat by (symmetry; apply Nat.mod_small; lia).
    set (d1 := zero_range d (S r) (64 - S r)).
    assert (d1 = rest ++ [0x80] ++ replicate (63 - r) 0) as Ed1.
    { pose proof (take_zero_range d (S r) (64 - S r)) as T. rewrite take_ge in T.
      - unfold d1. rewrite T, Hd', <- app_assoc by lia. do 3 f_equal.
      - rewrite length_zero_range by lia. lia. }
    assert (length d1 = 64%nat) as L1 by (unfold d1; rewrite length_zero_range; lia).
    set (d2 := zero_range d1 0 (56 - 0)).
    assert (length d2 = 64%nat) as L2 by (unfold d2; rewrite length_zero_range; lia).
    rewrite put_bitlen_spec, be64_u64 by done.
    assert (take 56 d2 = replicate 56 0) as ->.
    { pose proof (take_zero_range d1 0 56) as T. apply T. lia. }
    rewrite (compress_blocks _ _ (n + (1 + 1))).
    + f_equal. rewrite <- app_assoc, blocks_app, fold_left_app, <- Hst by done.
      replace (rest ++ [0x80] ++ replicate (119 - r) 0 ++ be64 z)
        with (d1 ++ (replicate 56 0 ++ be64 z)).
      * rewrite blocks_app by lia. rewrite !blocks_one by done. done.
      * rewrite Ed1, <- !app_assoc. do 2 f_equal. rewrite app_assoc, <- replicate_add.
        do 2 f_equal. lia.
    + rewrite !length_app, length_replicate. simpl. fold r. lia.
  - replace ((119 - r) mod 64)%nat with (55 - r)%nat
      by (replace (119 - r)%nat with ((55 - r) + 1 * 64)%nat by lia;
          rewrite Nat.Div0.mod_add, Nat.mod_small by lia; done).
    set (d2 := zero_range d (S r) (56 - S r)).
    assert (length d2 = 64%nat) as L2 by (unfold d2; rewrite length_zero_range; lia).
    rewrite put_bitlen_spec, be64_u64 by done.
    assert (take 56 d2 = rest ++ [0x80] ++ replicate (55 - r) 0) as ->.
    { pose proof (take_zero_range d (S r) (56 - S r)) as T.
      replace (S r + (56 - S r))%nat with 56%nat in T by lia.
      unfold d2. rewrite T, Hd', <- app_assoc by lia. do 3 f_equal. }
    rewrite (compress_blocks _ _ (n + 1)).
    + f_equal. rewrite <- (app_assoc full), blocks_app, fold_left_app, <- Hst by done.
      rewrite blocks_one; [by rewrite <- !app_assoc|].
      rewrite !length_app, length_replicate. simpl. fold r. lia.
    + rewrite !length_app, length_replicate. simpl. fold r. lia.
Qed.

Lemma length_digest s : length (digest s) = 32%nat.
Proof. reflexivity. Qed.
Lemma digest_bytes s : bytes (digest s).
Proof. unfold digest, word_be, is_byte. repeat constructor; apply u8_range. Qed.

(** Hashing the chunks of a message one after the other is hashing the message. *)
Lemma sha256_stream_eq buf chunks : length buf = 64%nat ->
  sha256_stream buf chunks = sha256 (concat chunks).
Proof.
  intros H. destruct (absorbed_chunks _ _ _ _ chunks (absorbed_init buf H)) as (n & f & r & E & Ha).
  unfold sha256_stream. rewrite (sha256_final_spec _ _ _ _ Ha). by rewrite <- E.
Qed.

(** C28: [sha256_init], any sequence of [sha256_update] calls and [sha256_final]
    return the SHA-256 of the concatenation of the chunks, as the standard
    defines it (padding to a multiple of 64 bytes, big-endian bit length, the
    blocks compressed in order), whatever the chunk boundaries and whatever the
    block buffer held before; the digest is 32 bytes. *)
Theorem sha256_stream_correct buf chunks :
  length buf = 64%nat ->
  sha256_stream buf chunks = sha256 (concat chunks) /\
  length (sha256_stream buf chunks) = 32%nat.
Proof.
  intros H. split; [by apply sha256_stream_eq|]. rewrite sha256_stream_eq by done. apply length_digest.
Qed.

Lemma sha256_stream_correct_witness :
  sha256_stream (replicate 64 0xA5) [replicate 50 1; replicate 80 2; []; [3]] =
    sha256 (concat [replicate 50 1; replicate 80 2; []; [3]]) /\
  length (sha256_stream (replicate 64 0xA5) [replicate 50 1; replicate 80 2; []; [3]]) = 32%nat.
Proof. apply sha256_stream_correct. reflexivity. Defined.
