(* ===== verification/BootImage.v ===== *)
(** Bootloader image identity: [src/usb/uf2/bootloader_image.c] and the record
    layouts of [bootloader_image.h].  An image is the byte string behind the
    [image] pointer; the manifest and extension records are decoded from it
    field by field at the offsets of the packed structures. *)
From S2P Require Import Prelude Crc.

(** The build's target MCU, which fixes the RAM size. *)
Inductive mcu := NRF52832 | NRF52833 | NRF52840.

Definition ram_end (m : mcu) : Z :=
  match m with NRF52832 => 0x20010000 | NRF52833 => 0x20020000 | NRF52840 => 0x20040000 end.

(** * Layout ([bootloader_image.h]) *)

Definition BOOTLOADER_UPDATE_MANIFEST_VERSION : Z := 1.
Definition BOOTLOADER_UPDATE_DEVICE_NAME_SIZE : Z := 16.
Definition BOOTLOADER_UPDATE_EXTENSION_MAGIC0 : Z := 0x324D4C42.
Definition BOOTLOADER_UPDATE_EXTENSION_MAGIC1 : Z := 0x54464F53.
Definition BOOTLOADER_UPDATE_EXTENSION_VERSION : Z := 2.
Definition BOOTLOADER_UPDATE_LAYOUT_ABI : Z := 1.

(** [sizeof] of the three records. *)
Definition MANIFEST_SIZE : Z := 44.
Definition EXTENSION_SIZE : Z := 32.
Definition ENVELOPE_SIZE : Z := 76.
(** [offsetof(bootloader_update_manifest_t, crc32)] *)
Definition MANIFEST_CRC_OFFSET : Z := 40.

Record bootloader_update_manifest := mk_manifest {
  man_magic0 : Z; man_magic1 : Z; man_version : Z; man_header_size : Z; man_image_start : Z; man_image_size : Z;
  man_board_id : Z; man_device_name : list Z; man_crc32 : Z
}.

Record bootloader_update_extension := mk_extension {
  ext_magic0 : Z; ext_magic1 : Z; ext_version : Z; ext_header_size : Z; ext_boot_version : Z;
  ext_softdevice_family : Z; ext_softdevice_fwid : Z; ext_app_base : Z; ext_layout_abi : Z;
  ext_compat_flags : Z; ext_reserved : Z
}.

Record bootloader_image_info := mk_info {
  boot_version : Z; softdevice_family : Z; softdevice_fwid : Z; app_base : Z; layout_abi : Z
}.

Inductive bootloader_image_format := BOOTLOADER_IMAGE_INVALID | BOOTLOADER_IMAGE_LEGACY | BOOTLOADER_IMAGE_V2.

(** Fields of a record that starts at byte [off] of [p]. *)
Definition field16 (p : list Z) (off : Z) : Z := read_le16 (sliceZ p off 2).
Definition field32 (p : list Z) (off : Z) : Z := read_le32 (sliceZ p off 4).

Definition manifest_at (image : list Z) (off : Z) : bootloader_update_manifest :=
  mk_manifest (field32 image off) (field32 image (off + 4)) (field16 image (off + 8)) (field16 image (off + 10)) (field32 image (off + 12))
    (field32 image (off + 16)) (field32 image (off + 20)) (sliceZ image (off + 24) 16)
    (field32 image (off + MANIFEST_CRC_OFFSET)).

Definition extension_at (image : list Z) (off : Z) : bootloader_update_extension :=
  mk_extension (field32 image off) (field32 image (off + 4)) (field16 image (off + 8))
    (field16 image (off + 10)) (field32 image (off + 12)) (field16 image (off + 16))
    (field16 image (off + 18)) (field32 image (off + 20)) (field16 image (off + 24))
    (field16 image (off + 26)) (field32 image (off + 28)).

(** * Operations *)

Definition SIZE_MAX : Z := UINT32_MAX.

(** The CRC-32 of the image with the four bytes at [crc_offset] read as zero. *)
Definition bootloader_image_crc32 (image : list Z) (image_size crc_offset : Z) : Z :=
  if ((crc_offset >=? image_size) || (crc_offset >? SIZE_MAX - 4)) then
    otafix_crc32_update 0 (sliceZ image 0 image_size)
  else
    let tail := image_size - crc_offset in
    let masked := if tail <? 4 then tail else 4 in
    let crc := otafix_crc32_update 0 (sliceZ image 0 crc_offset) in
    let crc := otafix_crc32_update crc (replicate (Z.to_nat masked) 0) in
    otafix_crc32_update crc (sliceZ image (crc_offset + masked) (tail - masked)).

Definition bootloader_image_vectors_valid (m : mcu) (image : list Z)
    (image_size code_start code_size : Z) : bool :=
  if (image_size <? 8) || (code_size <? 8) || (code_start >? UINT32_MAX - code_size) then false
  else
    let initial_sp := read_le32 (sliceZ image 0 4) in
    let reset := read_le32 (sliceZ image 4 4) in
    let reset_addr := Z.land reset (~32 1)%c in
    (Z.land initial_sp 7 =? 0) && (initial_sp >=? 0x20000000) && (initial_sp <=? ram_end m) &&
    negb (Z.land reset 1 =? 0) && (reset_addr >=? code_start) && (reset_addr <? u32 (code_start + code_size)).

Definition bootloader_extension_validate (e : bootloader_update_extension) : bool :=
  let version := ext_boot_version e in
  (ext_magic0 e =? BOOTLOADER_UPDATE_EXTENSION_MAGIC0) &&
  (ext_magic1 e =? BOOTLOADER_UPDATE_EXTENSION_MAGIC1) &&
  (ext_version e =? BOOTLOADER_UPDATE_EXTENSION_VERSION) &&
  (ext_header_size e =? EXTENSION_SIZE) && negb (version =? UINT32_MAX) &&
  negb (Z.land version 0xFF =? 0) && negb (ext_softdevice_family e =? 0) &&
  negb (ext_softdevice_fwid e =? 0) && negb (ext_app_base e =? 0) &&
  negb (ext_layout_abi e =? 0) && (ext_compat_flags e =? 0) && (ext_reserved e =? 0).

(** The identity rule of a recovery bridge ([RECOVERY_ALLOW_ALL_BOARDS]). *)
Definition recovery_identity_valid (m : bootloader_update_manifest) : bool :=
  let first := nthZ (man_device_name m) 0 in
  negb (man_board_id m =? 0) && negb (man_board_id m =? UINT32_MAX) &&
  (first >=? 0x21) && (first <=? 0x7E) && (nthZ (man_device_name m) 15 =? 0).

(** ['B','L','M','F','C','R','C','1'] *)
Definition manifest_magic : list Z := [0x42; 0x4C; 0x4D; 0x46; 0x43; 0x52; 0x43; 0x31].

Section Manifest.
Context (m : mcu) (RECOVERY_ALLOW_ALL_BOARDS : bool).

(** The body of the scan loop up to its last [continue]. *)
Definition candidate_valid (image : list Z) (image_start image_size expected_board_id : Z)
    (expected_device_name : list Z) (allow_other_boards : bool) (offset : Z) : bool :=
  if negb (bytes_eqb (sliceZ image offset 8) manifest_magic) then false else
  let c := manifest_at image offset in
  if negb (man_version c =? BOOTLOADER_UPDATE_MANIFEST_VERSION) ||
     negb (man_header_size c =? MANIFEST_SIZE) || negb (man_image_start c =? image_start) ||
     negb (man_image_size c =? image_size) then false else
  let identity_matches :=
    if RECOVERY_ALLOW_ALL_BOARDS && allow_other_boards then recovery_identity_valid c
    else (man_board_id c =? expected_board_id) &&
         bytes_eqb (man_device_name c) expected_device_name in
  if negb identity_matches then false else
  bootloader_image_crc32 image image_size (offset + MANIFEST_CRC_OFFSET) =? man_crc32 c.

(** The scan loop, [offset] in steps of four; [valid] is [valid_offset].
    [fuel] bounds the number of iterations. *)
Fixpoint manifest_scan (fuel : nat) (image : list Z) (image_start image_size expected_board_id : Z)
    (expected_device_name : list Z) (allow_other_boards : bool) (offset : Z)
    (valid : option Z) : option Z :=
  match fuel with
  | O => None
  | S fuel =>
    if u32 (offset + MANIFEST_SIZE) <=? image_size then
      if candidate_valid image image_start image_size expected_board_id expected_device_name
           allow_other_boards offset then
        match valid with
        | Some _ => None
        | None => manifest_scan fuel image image_start image_size expected_board_id
                    expected_device_name allow_other_boards (u32 (offset + 4)) (Some offset)
        end
      else manifest_scan fuel image image_start image_size expected_board_id
             expected_device_name allow_other_boards (u32 (offset + 4)) valid
    else valid
  end.

Definition scan_fuel (image_size : Z) : nat := S (Z.to_nat (image_size / 4)).

(** [image == NULL] is [None]; the result is the manifest offset. *)
Definition bootloader_manifest_find (image : option (list Z)) (image_start image_size expected_board_id : Z)
    (expected_device_name : option (list Z)) (allow_other_boards : bool) : option Z :=
  match image, expected_device_name with
  | Some image, Some name =>
    if image_size <? MANIFEST_SIZE then None else
    if (image_size >? UINT32_MAX - image_start) ||
       negb (bootloader_image_vectors_valid m image image_size image_start image_size) then None
    else manifest_scan (scan_fuel image_size) image image_start image_size expected_board_id
           name allow_other_boards 0 None
  | _, _ => None
  end.

Definition bootloader_image_classify_impl (image : option (list Z)) (image_start image_size expected_board_id : Z)
    (expected_device_name : option (list Z)) (allow_other_boards : bool)
    : bootloader_image_format * option bootloader_image_info :=
  match bootloader_manifest_find image image_start image_size expected_board_id
          expected_device_name allow_other_boards with
  | None => (BOOTLOADER_IMAGE_INVALID, None)
  | Some manifest_offset =>
    if (image_size <? ENVELOPE_SIZE) || negb (manifest_offset =? image_size - ENVELOPE_SIZE)
    then (BOOTLOADER_IMAGE_LEGACY, None)
    else
      let e := extension_at (default [] image) (manifest_offset + MANIFEST_SIZE) in
      if negb (bootloader_extension_validate e) then (BOOTLOADER_IMAGE_INVALID, None)
      else (BOOTLOADER_IMAGE_V2,
            Some (mk_info (ext_boot_version e) (ext_softdevice_family e) (ext_softdevice_fwid e)
                    (ext_app_base e) (ext_layout_abi e)))
  end.

Definition bootloader_image_classify image image_start image_size expected_board_id expected_device_name :=
  bootloader_image_classify_impl image image_start image_size expected_board_id expected_device_name false.

Definition bootloader_image_classify_manual image image_start image_size expected_board_id expected_device_name :=
  bootloader_image_classify_impl image image_start image_size expected_board_id expected_device_name
    RECOVERY_ALLOW_ALL_BOARDS.

(** [Some info] when the C function returns true. *)
Definition bootloader_image_info_get image image_start image_size expected_board_id expected_device_name
    : option bootloader_image_info :=
  match bootloader_image_classify image image_start image_size expected_board_id expected_device_name with
  | (BOOTLOADER_IMAGE_V2, info) => info
  | _ => None
  end.

Definition bootloader_image_validate image image_start image_size expected_board_id expected_device_name : bool :=
  match bootloader_manifest_find image image_start image_size expected_board_id expected_device_name false with
  | Some _ => true
  | None => false
  end.
End Manifest.

(** * The scan finds the unique valid manifest *)

Section ScanLemmas.
Context (m : mcu) (rec : bool) (image : list Z) (start size board : Z) (name : list Z) (allow : bool).

Abbreviation cand := (candidate_valid rec image start size board name allow).

(** An offset the loop visits. *)
Definition visited (o : Z) : Prop := 0 <= o /\ o mod 4 = 0 /\ o + MANIFEST_SIZE <= size.

Lemma manifest_scan_spec fuel off valid r :
  0 <= off -> off mod 4 = 0 -> size + 48 < 2 ^ 32 -> size < off + 4 * Z.of_nat fuel ->
  off <= size ->
  manifest_scan rec fuel image start size board name allow off valid = Some r <->
  (valid = Some r /\ forall o, visited o -> off <= o -> cand o = false) \/
  (valid = None /\ visited r /\ off <= r /\ cand r = true /\
     forall o, visited o -> off <= o -> cand o = true -> o = r).
Proof.
  intros H0 H4 Hsz. revert off valid H0 H4.
  induction fuel as [|fuel IH]; intros off valid H0 H4 Hf Hle.
  { exfalso. lia. }
  cbn [manifest_scan]. unfold MANIFEST_SIZE. rewrite u32_small by lia.
  assert (forall o, visited o -> off <= o -> o = off \/ off + 4 <= o) as Hstep.
  { intros o (? & ? & ?) ?. zlia. }
  destruct (Z.leb_spec (off + 44) size) as [Hin|Hin].
  - assert (visited off) as Hv by (unfold visited, MANIFEST_SIZE; lia).
    rewrite u32_small by lia.
    assert ((off + 4) mod 4 = 0) as H4' by zlia.
    destruct (cand off) eqn:Hc.
    + destruct valid as [v|].
      * split; [done|]. intros [[_ H]|[? _]]; [|done].
        rewrite (H off Hv) in Hc by lia. done.
      * rewrite IH by lia. split.
        -- intros [[[= <-] H]|[? _]]; [right|done].
           split; [done|]. split; [done|]. split; [lia|]. split; [done|]. intros o Ho Hge Hco.
           destruct (Hstep o Ho Hge) as [->|]; [done|]. rewrite H in Hco by done. done.
        -- intros [[? _]|(_ & Hr & Hge & Hcr & Hu)]; [done|]. left.
           assert (off = r) as <- by (apply Hu; done || lia).
           split; [done|]. intros o Ho Hgo. destruct (cand o) eqn:E; [|done].
           apply Hu in E; [lia|done|lia].
    + rewrite IH by lia. split.
      * intros [[-> H]|(-> & Hr & Hge & Hcr & Hu)].
        -- left. split; [done|]. intros o Ho Hgo. destruct (Hstep o Ho Hgo) as [->|]; auto.
        -- right. split; [done|]. split; [done|]. split; [lia|]. split; [done|]. intros o Ho Hgo Hco.
           destruct (Hstep o Ho Hgo) as [->|]; [congruence|auto].
      * intros [[-> H]|(-> & Hr & Hge & Hcr & Hu)].
        -- left. split; [done|]. intros o Ho Hgo. apply H; [done|lia].
        -- right. destruct (Hstep r Hr Hge) as [->|]; [congruence|].
           split; [done|]. split; [done|]. split; [done|]. split; [done|].
           intros o Ho Hgo Hco. apply Hu; done || lia.
  - assert (forall o, visited o -> off <= o -> False) as Hno.
    { intros o (? & ? & ?) ?. unfold MANIFEST_SIZE in *. lia. }
    split; [intros ->; left; split; [done|]; intros; exfalso; eauto|].
    intros [[-> _]|(_ & Hr & Hge & _)]; [done|]. exfalso. eauto.
Qed.

Lemma manifest_find_iff off :
  size + 48 < 2 ^ 32 ->
  bootloader_manifest_find m rec (Some image) start size board (Some name) allow = Some off <->
  MANIFEST_SIZE <= size /\ size <= UINT32_MAX - start /\
  bootloader_image_vectors_valid m image size start size = true /\
  visited off /\ cand off = true /\
  forall o, visited o -> cand o = true -> o = off.
Proof.
  intros Hsz. unfold bootloader_manifest_find.
  destruct (Z.ltb_spec size MANIFEST_SIZE) as [H1|H1].
  { split; [done|]. intros. lia. }
  rewrite Z.gtb_ltb. destruct (Z.ltb_spec (UINT32_MAX - start) size) as [H2|H2].
  { split; [done|]. intros. lia. }
  destruct (bootloader_image_vectors_valid m image size start size); cbn [negb orb].
  2: { split; [done|]. by intros (_ & _ & ? & _). }
  assert (size < 0 + 4 * Z.of_nat (scan_fuel size)).
  { unfold scan_fuel. rewrite Nat2Z.inj_succ, Z2Nat.id by (apply Z.div_pos; unfold MANIFEST_SIZE in *; lia). zlia. }
  rewrite manifest_scan_spec by (unfold MANIFEST_SIZE in *; done || lia).
  split.
  - intros [[? _]|(_ & Hv & ? & Hc & Hu)]; [done|]. repeat split; try done; try apply Hv.
    intros o Ho Hco. apply Hu; [done|apply Ho|done].
  - intros (_ & _ & _ & Hv & Hc & Hu). right. split; [done|]. split; [done|].
    split; [apply Hv|]. split; [done|]. intros. by apply Hu.
Qed.
End ScanLemmas.

(** * The manifest CRC protects every byte *)

(** The message the CRC is computed over: the crc32 field read as zero. *)
Definition masked_image (image : list Z) (c : Z) : list Z :=
  sliceZ image 0 c ++ replicate 4 0 ++ sliceZ image (c + 4) (lenZ image - c - 4).

Lemma bootloader_image_crc32_masked image c :
  lenZ image < 2 ^ 31 -> 0 <= c -> c + 4 <= lenZ image ->
  bootloader_image_crc32 image (lenZ image) c = otafix_crc32_update 0 (masked_image image c).
Proof.
  intros Hs Hc Hl. unfold bootloader_image_crc32, SIZE_MAX, UINT32_MAX.
  rewrite Z.geb_leb, Z.gtb_ltb.
  destruct (Z.leb_spec (lenZ image) c); [lia|].
  destruct (Z.ltb_spec (4294967295 - 4) c); [lia|]. cbn [orb].
  destruct (Z.ltb_spec (lenZ image - c) 4); [lia|].
  change (Z.to_nat 4) with 4%nat.
  rewrite !crc32_update_app. unfold masked_image. do 2 f_equal.
Qed.

Lemma sliceZ_app_l {A} (a b : list A) off n :
  0 <= off -> 0 <= n -> off + n <= lenZ a -> sliceZ (a ++ b) off n = sliceZ a off n.
Proof.
  unfold lenZ, sliceZ. intros. rewrite drop_app_le by lia.
  apply take_app_le. rewrite length_drop. lia.
Qed.

Lemma sliceZ_app_r {A} (a b : list A) off n :
  lenZ a <= off -> sliceZ (a ++ b) off n = sliceZ b (off - lenZ a) n.
Proof.
  unfold lenZ, sliceZ. intros. rewrite drop_app_ge by lia. do 2 f_equal. lia.
Qed.

Lemma sliceZ_prefix {A} (l : list A) n : sliceZ l 0 n = take (Z.to_nat n) l.
Proof. unfold sliceZ. by rewrite drop_0. Qed.
Lemma sliceZ_suffix {A} (l : list A) off : 0 <= off -> sliceZ l off (lenZ l - off) = drop (Z.to_nat off) l.
Proof. unfold sliceZ, lenZ. intros. apply take_ge. rewrite length_drop. lia. Qed.

(** Masking a field to the right of, or to the left of, a window. *)
Lemma masked_right pre w post c :
  0 <= c -> c + 4 <= lenZ pre ->
  masked_image (pre ++ w ++ post) c = masked_image pre c ++ w ++ post.
Proof.
  intros H0 H. unfold masked_image. rewrite <- !app_assoc.
  rewrite !sliceZ_prefix. unfold lenZ in H. rewrite take_app_le by lia. do 2 f_equal.
  rewrite <- !Z.sub_add_distr, !sliceZ_suffix by lia.
  by rewrite drop_app_le by lia.
Qed.

Lemma masked_left pre w post c : lenZ pre + lenZ w <= c ->
  masked_image (pre ++ w ++ post) c = pre ++ w ++ masked_image post (c - lenZ pre - lenZ w).
Proof.
  intros H. pose proof (lenZ_nonneg pre). pose proof (lenZ_nonneg w).
  unfold masked_image. rewrite <- !Z.sub_add_distr, !sliceZ_prefix, !sliceZ_suffix by lia.
  unfold lenZ in *. rewrite take_app_ge, drop_app_ge by lia. rewrite take_app_ge, drop_app_ge by lia.
  rewrite <- !app_assoc. do 3 f_equal.
  - f_equal. lia.
  - do 2 f_equal. lia.
Qed.

(** Replacing bytes inside the crc32 field does not change the masked image. *)
Lemma masked_inside pre w w' post c :
  0 <= c -> c <= lenZ pre -> lenZ pre + lenZ w <= c + 4 -> length w = length w' ->
  masked_image (pre ++ w ++ post) c = masked_image (pre ++ w' ++ post) c.
Proof.
  intros H0 H1 H2 Hl. unfold masked_image. rewrite <- !Z.sub_add_distr, !sliceZ_prefix, !sliceZ_suffix by lia.
  unfold lenZ in *. rewrite !take_app_le by lia. do 2 f_equal.
  rewrite !drop_app_ge by lia. by rewrite Hl.
Qed.

Lemma length_masked image c : 0 <= c -> c + 4 <= lenZ image -> lenZ (masked_image image c) = lenZ image.
Proof.
  intros. unfold masked_image. rewrite !lenZ_app, !lenZ_sliceZ by lia.
  unfold lenZ at 1. rewrite length_replicate. lia.
Qed.

Lemma read_le32_inj p q : bytes p -> bytes q -> length p = 4%nat -> length q = 4%nat ->
  read_le32 p = read_le32 q -> p = q.
Proof.
  intros Hp Hq Lp Lq. do 4 (destruct p as [|? p]; [done|]). do 4 (destruct q as [|? q]; [done|]).
  destruct p, q; try done. rewrite !read_le32_cons.
  repeat match goal with H : bytes (_ :: _) |- _ => inversion H; subst; clear H end.
  unfold is_byte in *. rewrite !le32_add by (unfold is_byte; lia). intros E.
  repeat f_equal; lia.
Qed.

Lemma sliceZ_window_ne {A} (pre w w' post : list A) c :
  0 <= c -> c <= lenZ pre -> lenZ pre + lenZ w <= c + 4 -> length w = length w' -> w <> w' ->
  c + 4 <= lenZ (pre ++ w ++ post) ->
  sliceZ (pre ++ w ++ post) c 4 <> sliceZ (pre ++ w' ++ post) c 4.
Proof.
  intros H0 H1 H2 Hl Hne H4 E. apply Hne. unfold sliceZ, lenZ in *.
  rewrite !drop_app_le in E by lia.
  rewrite !take_app_ge in E by (rewrite length_drop; lia).
  apply app_inv_head in E.
  rewrite Hl in E. by apply app_inv_tail in E.
Qed.

Lemma masked_bytes image c : bytes image -> bytes (masked_image image c).
Proof.
  intros H. unfold masked_image. rewrite !Forall_app.
  split; [by apply sliceZ_bytes|split; [|by apply sliceZ_bytes]].
  apply Forall_replicate. unfold is_byte. lia.
Qed.

(** A window of at most four bytes that lies beside or inside the CRC field
    at [c] changes the masked CRC or the stored one, but not both. *)
Lemma burst_breaks_crc pre w w' post c :
  let image := pre ++ w ++ post in
  let image' := pre ++ w' ++ post in
  bytes image -> bytes w' -> length w = length w' -> (length w <= 4)%nat -> w <> w' ->
  lenZ image < 2 ^ 31 -> 0 <= c -> c + 4 <= lenZ image ->
  lenZ pre + lenZ w <= c \/ c + 4 <= lenZ pre \/ (c <= lenZ pre /\ lenZ pre + lenZ w <= c + 4) ->
  bootloader_image_crc32 image (lenZ image) c = read_le32 (sliceZ image c 4) ->
  bootloader_image_crc32 image' (lenZ image') c <> read_le32 (sliceZ image' c 4).
Proof.
  intros image image' Hb Hw' Hl H4 Hne Hs H0 Hin Hpos Hc.
  assert (lenZ w' = lenZ w) as Hlw by (unfold lenZ; lia).
  pose proof (lenZ_nonneg w). pose proof (lenZ_nonneg pre).
  assert (lenZ image' = lenZ image) as Hli by (unfold image, image'; rewrite !lenZ_app; lia).
  assert (bytes pre /\ bytes w /\ bytes post) as (Bp & Bw & Bo).
  { unfold image in Hb. by rewrite !Forall_app in Hb. }
  rewrite bootloader_image_crc32_masked in Hc by lia. rewrite bootloader_image_crc32_masked by lia.
  unfold image, image' in *. destruct Hpos as [Hp|[Hp|[Hp1 Hp2]]].
  - rewrite masked_left in Hc by lia. rewrite masked_left by lia. rewrite Hlw.
    replace (sliceZ (pre ++ w' ++ post) c 4) with (sliceZ (pre ++ w ++ post) c 4)
      by (rewrite !sliceZ_app_r by lia; by rewrite Hlw).
    rewrite <- Hc. apply not_eq_sym, crc32_burst; try done.
    rewrite !Forall_app. auto using masked_bytes.
  - rewrite masked_right in Hc by lia. rewrite masked_right by lia.
    replace (sliceZ (pre ++ w' ++ post) c 4) with (sliceZ (pre ++ w ++ post) c 4)
      by (by rewrite !sliceZ_app_l by lia).
    rewrite <- Hc. apply not_eq_sym, crc32_burst; try done.
    rewrite !Forall_app. auto using masked_bytes.
  - rewrite <- (masked_inside pre w w') by lia. rewrite Hc. intros E.
    apply read_le32_inj in E.
    + by apply sliceZ_window_ne in E.
    + by apply sliceZ_bytes.
    + apply sliceZ_bytes. rewrite !Forall_app. auto.
    + pose proof (lenZ_sliceZ (pre ++ w ++ post) c 4). unfold lenZ in *. lia.
    + pose proof (lenZ_sliceZ (pre ++ w' ++ post) c 4). unfold lenZ in *. lia.
Qed.

(** What the CRC step of the scan body leaves when the other checks are known. *)
Lemma candidate_valid_crc rec image image_start size board name allow off :
  candidate_valid rec image image_start size board name allow off = true ->
  bootloader_image_crc32 image size (off + MANIFEST_CRC_OFFSET) =
    read_le32 (sliceZ image (off + MANIFEST_CRC_OFFSET) 4).
Proof.
  unfold candidate_valid. cbn zeta. repeat (destruct (negb _ || _) || destruct (negb _)); try done.
  intros H. by apply Z.eqb_eq in H.
Qed.

(** * Specification *)

(** The image carries exactly one acceptable manifest, at [off]. *)
Definition unique_manifest (m : mcu) (rec : bool) (image : list Z) (start size board : Z)
    (name : list Z) (allow : bool) (off : Z) : Prop :=
  MANIFEST_SIZE <= size /\ size <= UINT32_MAX - start /\
  bootloader_image_vectors_valid m image size start size = true /\
  visited size off /\ candidate_valid rec image start size board name allow off = true /\
  forall o, visited size o -> candidate_valid rec image start size board name allow o = true -> o = off.

Definition info_of (e : bootloader_update_extension) : bootloader_image_info :=
  mk_info (ext_boot_version e) (ext_softdevice_family e) (ext_softdevice_fwid e) (ext_app_base e)
    (ext_layout_abi e).

Lemma manifest_find_unique m rec image start size board name allow off :
  size + 48 < 2 ^ 32 ->
  bootloader_manifest_find m rec (Some image) start size board (Some name) allow = Some off <->
  unique_manifest m rec image start size board name allow off.
Proof. apply manifest_find_iff. Qed.

Lemma unique_manifest_fun m rec image start size board name allow o o' :
  unique_manifest m rec image start size board name allow o ->
  unique_manifest m rec image start size board name allow o' -> o = o'.
Proof. intros (_ & _ & _ & Hv & Hc & _) (_ & _ & _ & _ & _ & Hu). by apply Hu. Qed.

Lemma clear_bit0 x : 0 <= x < 2 ^ 32 -> Z.land x (~32 1)%c = x - x mod 2.
Proof. apply (land_not_mask x 1). lia. Qed.

(** * Properties *)

(** the vector-table test of every boot or application image is exactly:
    both sizes hold the two vectors, the code range does not wrap, the initial
    stack pointer is 8-byte aligned inside the RAM of the MCU, and the reset
    vector is a Thumb address inside the code range. *)
Theorem vectors_valid_iff m image image_size code_start code_size :
  bytes image -> 0 <= code_start -> 0 <= code_size ->
  bootloader_image_vectors_valid m image image_size code_start code_size = true <->
  8 <= image_size /\ 8 <= code_size /\ code_start + code_size <= UINT32_MAX /\
  (let sp := read_le32 (sliceZ image 0 4) in sp mod 8 = 0 /\ 0x20000000 <= sp <= ram_end m) /\
  (let reset := read_le32 (sliceZ image 4 4) in
   reset mod 2 = 1 /\ code_start <= reset - 1 < code_start + code_size).
Proof.
  intros Hb Hcs Hcz. unfold bootloader_image_vectors_valid. cbn zeta.
  pose proof (read_le32_range _ (sliceZ_bytes image 0 4 Hb)) as Rs.
  pose proof (read_le32_range _ (sliceZ_bytes image 4 4 Hb)) as Rr.
  set (sp := read_le32 (sliceZ image 0 4)) in *. set (rst := read_le32 (sliceZ image 4 4)) in *.
  rewrite land_7, land_1, clear_bit0 by done. rewrite Z.gtb_ltb, !Z.geb_leb.
  destruct (Z.ltb_spec image_size 8), (Z.ltb_spec code_size 8),
    (Z.ltb_spec (UINT32_MAX - code_size) code_start); cbn [orb];
    try (split; [done|lia]).
  rewrite u32_small by (unfold UINT32_MAX in *; lia).
  split.
  - intros H2. bool_cases. pose proof (Z.mod_pos_bound rst 2). repeat split; lia.
  - intros (_ & _ & _ & (? & ?) & (? & ?)).
    repeat (apply andb_true_intro; split);
      rewrite ?negb_true_iff, ?Z.eqb_eq, ?Z.eqb_neq, ?Z.leb_le, ?Z.ltb_lt; lia.
Qed.

Lemma vectors_valid_iff_witness :
  bootloader_image_vectors_valid NRF52840 ([0; 0; 4; 0x20] ++ [1; 0x41; 0x0F; 0]) 8 0xF4000 0xA000 = true <->
  8 <= 8 /\ 8 <= 0xA000 /\ 0xF4000 + 0xA000 <= UINT32_MAX /\
  (let sp := read_le32 (sliceZ ([0; 0; 4; 0x20] ++ [1; 0x41; 0x0F; 0]) 0 4) in
   sp mod 8 = 0 /\ 0x20000000 <= sp <= ram_end NRF52840) /\
  (let reset := read_le32 (sliceZ ([0; 0; 4; 0x20] ++ [1; 0x41; 0x0F; 0]) 4 4) in
   reset mod 2 = 1 /\ 0xF4000 <= reset - 1 < 0xF4000 + 0xA000).
Proof. apply vectors_valid_iff; [repeat constructor; lia | lia | lia]. Defined.

(** Classification is exact. An image is V2 iff it has exactly one
    acceptable manifest, that manifest is the canonical final envelope and the
    extension validates (and then the reported fields are the extension's); it
    is LEGACY iff its one manifest lies elsewhere; in every other case,
    including two acceptable manifests and a damaged canonical extension, it is
    INVALID. *)
Theorem classify_spec m rec image start size board name allow fmt info :
  size + 48 < 2 ^ 32 ->
  bootloader_image_classify_impl m rec (Some image) start size board (Some name) allow = (fmt, info) <->
  match fmt with
  | BOOTLOADER_IMAGE_V2 =>
      unique_manifest m rec image start size board name allow (size - ENVELOPE_SIZE) /\
      ENVELOPE_SIZE <= size /\
      let e := extension_at image (size - EXTENSION_SIZE) in
      bootloader_extension_validate e = true /\ info = Some (info_of e)
  | BOOTLOADER_IMAGE_LEGACY =>
      info = None /\ exists off, unique_manifest m rec image start size board name allow off /\
        (size < ENVELOPE_SIZE \/ off <> size - ENVELOPE_SIZE)
  | BOOTLOADER_IMAGE_INVALID =>
      info = None /\
      ((forall off, ~ unique_manifest m rec image start size board name allow off) \/
       (unique_manifest m rec image start size board name allow (size - ENVELOPE_SIZE) /\
        ENVELOPE_SIZE <= size /\
        bootloader_extension_validate (extension_at image (size - EXTENSION_SIZE)) = false))
  end.
Proof.
  intros Hs. unfold bootloader_image_classify_impl.
  destruct (bootloader_manifest_find _ _ _ _ _ _ _ _) as [off|] eqn:Hf.
  - rewrite manifest_find_unique in Hf by done.
    assert (forall o, unique_manifest m rec image start size board name allow o -> o = off) as Hu.
    { intros. by eapply unique_manifest_fun. }
    destruct ((size <? ENVELOPE_SIZE) || negb (off =? size - ENVELOPE_SIZE)) eqn:Hc.
    { assert (size < ENVELOPE_SIZE \/ off <> size - ENVELOPE_SIZE) as Hcan.
      { apply orb_prop in Hc as [?|?]; bool_cases; auto. }
      split; [intros [= <- <-]; eauto|]. destruct fmt.
      - intros [-> [Hn|(Hq & ? & ?)]]; [by destruct (Hn off)|]. apply Hu in Hq. lia.
      - by intros [-> _].
      - intros (Hq & ? & _). apply Hu in Hq. lia. }
    bool_cases. unfold ENVELOPE_SIZE, EXTENSION_SIZE, MANIFEST_SIZE in *. cbn [default].
    subst off. replace (size - 76 + 44) with (size - 32) by lia.
    destruct (bootloader_extension_validate _) eqn:He; cbn [negb].
    + split; [by intros [= <- <-]|]. destruct fmt.
      * intros [_ [Hn|(_ & _ & ?)]]; [by destruct (Hn (size - 76))|done].
      * intros [_ (o & Ho & [?|?])]; [lia|]. by apply Hu in Ho.
      * intros (_ & _ & _ & ->). done.
    + split; [intros [= <- <-]; eauto|]. destruct fmt.
      * by intros [-> _].
      * intros [_ (o & Ho & [?|?])]; [lia|]. by apply Hu in Ho.
      * by intros (_ & _ & ? & _).
  - assert (forall o, ~ unique_manifest m rec image start size board name allow o) as Hn.
    { intros o Ho. apply manifest_find_unique in Ho; [congruence|done]. }
    split; [intros [= <- <-]; eauto|]. destruct fmt; [by intros [-> _]| |].
    + intros [_ (o & Ho & _)]. by destruct (Hn o).
    + intros [Ho _]. by destruct (Hn (size - ENVELOPE_SIZE)).
Qed.

(** A complete 84-byte V2 image: vectors, manifest and extension. *)
Definition demo_name : list Z := [0x58; 0x49; 0x41; 0x4F; 0; 0; 0; 0; 0; 0; 0; 0; 0; 0; 0; 0].
Definition demo_body (crc : Z) : list Z :=
  bytes32 0x20040000 ++ bytes32 0xF4009 ++
  manifest_magic ++ bytes16 1 ++ bytes16 44 ++ bytes32 0xF4000 ++ bytes32 84 ++
  bytes32 0x28860044 ++ demo_name ++ bytes32 crc ++
  bytes32 BOOTLOADER_UPDATE_EXTENSION_MAGIC0 ++ bytes32 BOOTLOADER_UPDATE_EXTENSION_MAGIC1 ++
  bytes16 2 ++ bytes16 32 ++ bytes32 0x020406FF ++ bytes16 140 ++ bytes16 0xB6 ++
  bytes32 0x26000 ++ bytes16 1 ++ bytes16 0 ++ bytes32 0.
Definition demo_image : list Z :=
  Eval vm_compute in demo_body (bootloader_image_crc32 (demo_body 0) 84 48).
Definition demo_info : bootloader_image_info := mk_info 0x020406FF 140 0xB6 0x26000 1.

Lemma demo_classified :
  bootloader_image_classify_impl NRF52840 false (Some demo_image) 0xF4000 84 0x28860044 (Some demo_name) false =
  (BOOTLOADER_IMAGE_V2, Some demo_info).
Proof. vm_compute. reflexivity. Qed.

Lemma classify_spec_witness :
  unique_manifest NRF52840 false demo_image 0xF4000 84 0x28860044 demo_name false 8 /\
  ENVELOPE_SIZE <= 84 /\
  let e := extension_at demo_image (84 - EXTENSION_SIZE) in
  bootloader_extension_validate e = true /\ Some demo_info = Some (info_of e).
Proof.
  apply (classify_spec NRF52840 false demo_image 0xF4000 84 0x28860044 demo_name false
           BOOTLOADER_IMAGE_V2 (Some demo_info)); [lia | exact demo_classified].
Defined.

(** No burst survives. If the scan accepts the manifest at [off] of an
    image, then after any change confined to at most four consecutive bytes,
    beside or inside the manifest's CRC field, the scan never accepts that
    manifest again. *)
Theorem manifest_burst_detected m rec start board name allow pre w w' post off :
  let image := pre ++ w ++ post in
  let image' := pre ++ w' ++ post in
  let c := off + MANIFEST_CRC_OFFSET in
  bytes image -> bytes w' -> length w = length w' -> (length w <= 4)%nat -> w <> w' ->
  lenZ image < 2 ^ 31 ->
  lenZ pre + lenZ w <= c \/ c + 4 <= lenZ pre \/ (c <= lenZ pre /\ lenZ pre + lenZ w <= c + 4) ->
  bootloader_manifest_find m rec (Some image) start (lenZ image) board (Some name) allow = Some off ->
  bootloader_manifest_find m rec (Some image') start (lenZ image) board (Some name) allow <> Some off.
Proof.
  intros image image' c Hb Hw' Hl H4 Hne Hs Hpos Hf Hf'.
  apply manifest_find_unique in Hf as (_ & _ & _ & (Hv0 & _ & Hv) & Hc & _); [|lia].
  apply manifest_find_unique in Hf' as (_ & _ & _ & _ & Hc' & _); [|lia].
  apply candidate_valid_crc in Hc, Hc'. fold c in Hc, Hc'.
  assert (lenZ image = lenZ image') as Hli.
  { unfold image, image'. rewrite !lenZ_app. unfold lenZ. lia. }
  rewrite Hli in Hc'. revert Hc'. apply (burst_breaks_crc pre w w' post c); try done.
  - unfold c, MANIFEST_CRC_OFFSET. lia.
  - fold image. unfold c, MANIFEST_CRC_OFFSET, MANIFEST_SIZE in *. lia.
Qed.

(** The demo image with its stack pointer moved by eight bytes. *)
Lemma manifest_burst_detected_witness :
  bootloader_manifest_find NRF52840 false (Some ([] ++ [8] ++ drop 1 demo_image)) 0xF4000
    (lenZ ([] ++ [0] ++ drop 1 demo_image)) 0x28860044 (Some demo_name) false <> Some 8.
Proof.
  apply (manifest_burst_detected NRF52840 false 0xF4000 0x28860044 demo_name false [] [0] [8]
           (drop 1 demo_image) 8).
  - vm_compute. repeat (constructor; [split; [discriminate | reflexivity] | ]). constructor.
  - repeat constructor; lia.
  - reflexivity.
  - simpl. lia.
  - discriminate.
  - reflexivity.
  - left. vm_compute. discriminate.
  - vm_compute. reflexivity.
Defined.

(** Outside the relaxed manual path, whatever classifies carries the expected
    board id, name, start and size. *)
Lemma classify_identity m rec image start size board name allow :
  size + 48 < 2 ^ 32 -> rec && allow = false ->
  fst (bootloader_image_classify_impl m rec (Some image) start size board (Some name) allow) <> BOOTLOADER_IMAGE_INVALID ->
  exists off, visited size off /\ sliceZ image off 8 = manifest_magic /\
    man_board_id (manifest_at image off) = board /\
    man_device_name (manifest_at image off) = name /\
    man_image_start (manifest_at image off) = start /\ man_image_size (manifest_at image off) = size.
Proof.
  intros Hs Hr. unfold bootloader_image_classify_impl.
  destruct (bootloader_manifest_find _ _ _ _ _ _ _ _) as [off|] eqn:E; [|done]. intros _.
  apply manifest_find_unique in E as (_ & _ & _ & Hv & Hcv & _); [|done].
  exists off. split; [done|]. unfold candidate_valid in Hcv. rewrite Hr in Hcv.
  destruct (bytes_eqb _ _) eqn:E1; [|done]. apply bytes_eqb_eq in E1.
  cbn [negb] in Hcv. destruct (_ || _) eqn:E2 in Hcv; [done|]. bool_cases.
  destruct (negb _) eqn:E3 in Hcv; [done|]. bool_cases. by rewrite bytes_eqb_eq in *.
Qed.

(** C33: only the manual entry point relaxes identity, and only in a recovery
    build: the strict API used by remote updates returns the same result in
    every build, and whatever it accepts carries the expected board id and the
    expected 16-byte name. *)
Theorem strict_identity m rec image start size board name :
  size + 48 < 2 ^ 32 ->
  bootloader_image_classify m rec (Some image) start size board (Some name) =
    bootloader_image_classify m false (Some image) start size board (Some name) /\
  bootloader_image_classify_manual m false (Some image) start size board (Some name) =
    bootloader_image_classify m false (Some image) start size board (Some name) /\
  (fst (bootloader_image_classify m rec (Some image) start size board (Some name)) <> BOOTLOADER_IMAGE_INVALID ->
   exists off, visited size off /\ sliceZ image off 8 = manifest_magic /\
     man_board_id (manifest_at image off) = board /\
     man_device_name (manifest_at image off) = name /\
     man_image_start (manifest_at image off) = start /\ man_image_size (manifest_at image off) = size).
Proof.
  intros Hs.
  assert (forall o, candidate_valid rec image start size board name false o =
                    candidate_valid false image start size board name false o) as Hc.
  { intros o. unfold candidate_valid. by rewrite andb_false_r. }
  assert (forall fuel o v, manifest_scan rec fuel image start size board name false o v =
                           manifest_scan false fuel image start size board name false o v) as Hscan.
  { induction fuel as [|f IH]; intros o v; [done|]. cbn [manifest_scan]. rewrite Hc.
    destruct (u32 _ <=? _); [|done]. destruct (candidate_valid _ _ _ _ _ _ _ _); [destruct v|]; auto. }
  assert (bootloader_manifest_find m rec (Some image) start size board (Some name) false =
          bootloader_manifest_find m false (Some image) start size board (Some name) false) as Hf.
  { unfold bootloader_manifest_find. by rewrite Hscan. }
  split; [|split].
  - unfold bootloader_image_classify, bootloader_image_classify_impl. by rewrite Hf.
  - reflexivity.
  - apply classify_identity; [done|]. apply andb_false_r.
Qed.

Lemma strict_identity_witness :
  bootloader_image_classify NRF52840 true (Some demo_image) 0xF4000 84 0x28860044 (Some demo_name) =
    (BOOTLOADER_IMAGE_V2, Some demo_info).
Proof.
  destruct (strict_identity NRF52840 true demo_image 0xF4000 84 0x28860044 demo_name) as (H & _); [lia|].
  rewrite H. exact demo_classified.
Defined.
