(* ===== verification/Nvm.v ===== *)
(** Flash memory as bytes and the hardware interfaces the code drives it with.
    The NVMC driver (nrfx) is not part of the repository: [Nvmc] states the
    documented effect of a page erase (all ones) and of a word write (bits can
    only be cleared), and every theorem that depends on them is proved against
    the class.  [nvmc_model] is a concrete instance. *)
From S2P Require Import Prelude.

Definition mem := Z -> Z.

(** The [n] bytes at address [a]. *)
Definition mem_read (m : mem) (a n : Z) : list Z := map (fun i => m (a + i)) (seqZ 0 n).

(** [memcpy(buf + off, s, |s|)] *)
Definition put {A} (buf : list A) (off : Z) (s : list A) : list A :=
  take (Z.to_nat off) buf ++ s ++ drop (Z.to_nat off + length s) buf.

(** The aligned word at [a], as the CPU reads it. *)
Definition mem_word (m : mem) (a : Z) : Z := le32 (m a) (m (a + 1)) (m (a + 2)) (m (a + 3)).

Definition PAGE : Z := 4096.

Class Nvmc := {
  nvmc_page_erase : mem -> Z -> mem;
  nvmc_words_write : mem -> Z -> list Z -> mem;
  page_erase_spec m a x : a mod PAGE = 0 ->
    nvmc_page_erase m a x = if (a <=? x) && (x <? a + PAGE) then 255 else m x;
  words_write_spec m a bs x : a mod 4 = 0 -> lenZ bs mod 4 = 0 ->
    nvmc_words_write m a bs x =
      if (a <=? x) && (x <? a + lenZ bs) then Z.land (m x) (nthZ bs (x - a)) else m x
}.

#[local] Instance nvmc_model : Nvmc := {|
  nvmc_page_erase m a x := if (a <=? x) && (x <? a + PAGE) then 255 else m x;
  nvmc_words_write m a bs := let b := a + lenZ bs in fun x =>
    if (if a <=? x then x <? b else false) then Z.land (m x) (nthZ bs (x - a)) else m x;
  page_erase_spec _ _ _ _ := eq_refl;
  words_write_spec _ _ _ _ _ _ := eq_refl
|}.

(** * Lemmas *)

Lemma in_range_dec a n x : (a <=? x) && (x <? a + n) = true <-> a <= x < a + n.
Proof. rewrite andb_true_iff, Z.leb_le, Z.ltb_lt. lia. Qed.
Lemma not_in_range a n x : (a <=? x) && (x <? a + n) = false <-> ~ (a <= x < a + n).
Proof. rewrite <- not_true_iff_false, in_range_dec. lia. Qed.

(** Case analysis on an address-range test of the goal. *)
Ltac range_case :=
  match goal with |- context [(?a <=? ?x) && (?x <? ?b)] =>
    let E := fresh "Hr" in
    destruct ((a <=? x) && (x <? b)) eqn:E;
    [rewrite andb_true_iff, Z.leb_le, Z.ltb_lt in E | rewrite andb_false_iff, Z.leb_gt, Z.ltb_ge in E]
  end.

Lemma lenZ_mem_read m a n : 0 <= n -> lenZ (mem_read m a n) = n.
Proof. intros. unfold lenZ, mem_read. rewrite length_map, length_seqZ. lia. Qed.

Lemma nthZ_mem_read m a n i : 0 <= i < n -> nthZ (mem_read m a n) i = m (a + i).
Proof.
  intros Hi. unfold nthZ. apply nth_lookup_Some. unfold mem_read.
  rewrite list_lookup_fmap. assert (seqZ 0 n !! Z.to_nat i = Some (0 + Z.of_nat (Z.to_nat i))) as ->
    by (apply lookup_seqZ; lia).
  simpl. do 2 f_equal. lia.
Qed.

Lemma mem_read_ext m m' a n :
  (forall x, a <= x < a + n -> m x = m' x) -> mem_read m a n = mem_read m' a n.
Proof.
  intros H. unfold mem_read. apply map_ext_in. intros i Hi. apply list_elem_of_In, elem_of_seqZ in Hi.
  apply H. lia.
Qed.

Lemma eq_by_nthZ (l k : list Z) : lenZ l = lenZ k ->
  (forall i, 0 <= i < lenZ l -> nthZ l i = nthZ k i) -> l = k.
Proof.
  unfold lenZ, nthZ. intros Hl H. apply (nth_ext _ _ 0 0); [lia|].
  intros n Hn. specialize (H (Z.of_nat n)). rewrite Nat2Z.id in H. apply H. lia.
Qed.

Lemma mem_read_split m a n k : 0 <= n -> 0 <= k ->
  mem_read m a (n + k) = mem_read m a n ++ mem_read m (a + n) k.
Proof.
  intros. apply eq_by_nthZ.
  - rewrite lenZ_app, !lenZ_mem_read by lia. lia.
  - rewrite lenZ_mem_read by lia. intros i Hi. rewrite nthZ_mem_read by lia.
    destruct (Z.lt_ge_cases i n).
    + by rewrite nthZ_app_l, nthZ_mem_read by (rewrite ?lenZ_mem_read; lia).
    + rewrite nthZ_app_r, lenZ_mem_read, nthZ_mem_read by (rewrite ?lenZ_mem_read; lia). f_equal. lia.
Qed.

Lemma mem_read_eq m a bs :
  (forall i, 0 <= i < lenZ bs -> m (a + i) = nthZ bs i) -> mem_read m a (lenZ bs) = bs.
Proof.
  intros H. pose proof (lenZ_nonneg bs). apply eq_by_nthZ; rewrite lenZ_mem_read by done; [done|].
  intros i Hi. rewrite nthZ_mem_read by lia. by apply H.
Qed.

Lemma lenZ_put {A} (buf : list A) off s : 0 <= off -> off + lenZ s <= lenZ buf ->
  lenZ (put buf off s) = lenZ buf.
Proof. unfold put, lenZ. intros. rewrite !length_app, length_take, length_drop. lia. Qed.

Lemma nthZ_put buf off s i : 0 <= off -> off + lenZ s <= lenZ buf -> 0 <= i ->
  nthZ (put buf off s) i = if (off <=? i) && (i <? off + lenZ s) then nthZ s (i - off) else nthZ buf i.
Proof.
  intros H0 Hl Hi. unfold put. pose proof (lenZ_nonneg s).
  assert (lenZ (take (Z.to_nat off) buf) = off) as Ht by (unfold lenZ in *; rewrite length_take; lia).
  range_case.
  - rewrite nthZ_app_r by lia. rewrite Ht. by rewrite nthZ_app_l by lia.
  - destruct Hr as [Hr|Hr].
    + rewrite nthZ_app_l by lia. unfold nthZ. rewrite !nth_lookup.
      f_equal. apply lookup_take_lt. lia.
    + rewrite nthZ_app_r by lia. rewrite Ht, nthZ_app_r by lia. unfold nthZ. rewrite !nth_lookup.
      rewrite lookup_drop. do 2 f_equal. unfold lenZ in *. lia.
Qed.

Lemma nthZ_sliceZ l off n i : 0 <= off -> 0 <= i < n -> nthZ (sliceZ l off n) i = nthZ l (off + i).
Proof.
  intros. unfold nthZ, sliceZ. rewrite !nth_lookup, lookup_take_lt, lookup_drop by lia.
  do 2 f_equal. lia.
Qed.

Lemma sliceZ_mem_read m a n off k : 0 <= off -> 0 <= k -> off + k <= n ->
  sliceZ (mem_read m a n) off k = mem_read m (a + off) k.
Proof.
  intros. apply eq_by_nthZ.
  - rewrite lenZ_sliceZ, lenZ_mem_read; rewrite ?lenZ_mem_read; lia.
  - rewrite lenZ_sliceZ by (rewrite ?lenZ_mem_read; lia). intros i Hi.
    rewrite nthZ_sliceZ, !nthZ_mem_read by lia. f_equal. lia.
Qed.
