(* ===== verification/DfuTypes.v ===== *)
(** Shared vocabulary of the DFU code: the flash layout and packet constants of
    [dfu_types.h], the error codes the code returns, and the view of the
    installed SoftDevice through flash ([is_sd_existed], [CODE_REGION_1_START]). *)
From S2P Require Import Prelude BootImage.

(** * Error codes ([nrf_error.h]) *)
Definition NRF_SUCCESS : Z := 0.
Definition NRF_ERROR_INTERNAL : Z := 3.
Definition NRF_ERROR_NO_MEM : Z := 4.
Definition NRF_ERROR_NOT_FOUND : Z := 5.
Definition NRF_ERROR_NOT_SUPPORTED : Z := 6.
Definition NRF_ERROR_INVALID_PARAM : Z := 7.
Definition NRF_ERROR_INVALID_STATE : Z := 8.
Definition NRF_ERROR_INVALID_LENGTH : Z := 9.
Definition NRF_ERROR_INVALID_DATA : Z := 11.
Definition NRF_ERROR_DATA_SIZE : Z := 12.
Definition NRF_ERROR_TIMEOUT : Z := 13.
Definition NRF_ERROR_NULL : Z := 14.
Definition NRF_ERROR_FORBIDDEN : Z := 15.
Definition NRF_ERROR_INVALID_ADDR : Z := 16.
Definition NRF_ERROR_BUSY : Z := 17.

(** * Layout *)
Definition MBR_SIZE : Z := 0x1000.
Definition SOFTDEVICE_REGION_START : Z := MBR_SIZE.
Definition CODE_PAGE_SIZE : Z := 0x1000.
Definition EMPTY_FLASH_MASK : Z := UINT32_MAX.

Definition BOOTLOADER_REGION_START (m : mcu) : Z :=
  match m with NRF52840 => 0xF4000 | _ => 0x74000 end.
Definition BOOTLOADER_MBR_PARAMS_PAGE_ADDRESS (m : mcu) : Z :=
  match m with NRF52840 => 0xFE000 | _ => 0x7E000 end.
Definition BOOTLOADER_SETTINGS_ADDRESS (m : mcu) : Z :=
  match m with NRF52840 => 0xFF000 | _ => 0x7F000 end.
Definition DFU_BL_IMAGE_MAX_SIZE (m : mcu) : Z :=
  BOOTLOADER_MBR_PARAMS_PAGE_ADDRESS m - BOOTLOADER_REGION_START m.

(** SoftDevice information structure. *)
Definition SOFTDEVICE_INFO_STRUCT_OFFSET : Z := 0x2000.
Definition SD_INFO_STRUCT_SIZE_OFFSET : Z := 0x2000.
Definition SD_SIZE_OFFSET : Z := 0x2008.
Definition SD_FWID_OFFSET : Z := 0x200C.
Definition SD_ID_OFFSET : Z := 0x2010.
Definition SD_UNIQUE_STR_OFFSET : Z := 0x2018.
Definition SD_UNIQUE_STR_SIZE : Z := 20.
Definition SD_MAGIC_NUMBER : Z := 0x51B1E5DB.

(** Internal flash as the CPU reads it: a word per word-aligned address. *)
Definition flash := Z -> Z.

Definition is_sd_existed (fl : flash) : bool :=
  fl (MBR_SIZE + SOFTDEVICE_INFO_STRUCT_OFFSET + 4) =? SD_MAGIC_NUMBER.
Definition CODE_REGION_1_START (fl : flash) : Z :=
  if is_sd_existed fl then fl (MBR_SIZE + SD_SIZE_OFFSET) else MBR_SIZE.

(** Application region and bank sizes; [reserved] is [DFU_APP_DATA_RESERVED]. *)
Definition DFU_REGION_TOTAL_SIZE (m : mcu) (fl : flash) : Z :=
  u32 (BOOTLOADER_REGION_START m - CODE_REGION_1_START fl).
Definition DFU_IMAGE_MAX_SIZE_FULL (m : mcu) (reserved : Z) (fl : flash) : Z :=
  u32 (DFU_REGION_TOTAL_SIZE m fl - reserved).
Definition DFU_BANK_0_REGION_START (fl : flash) : Z := CODE_REGION_1_START fl.
Definition DFU_IMAGE_MAX_SIZE_BANKED (m : mcu) (reserved : Z) (fl : flash) : Z :=
  u32 (DFU_IMAGE_MAX_SIZE_FULL m reserved fl -
       DFU_IMAGE_MAX_SIZE_FULL m reserved fl mod (2 * CODE_PAGE_SIZE)) / 2.
Definition DFU_BANK_1_REGION_START (m : mcu) (reserved : Z) (fl : flash) : Z :=
  u32 (DFU_BANK_0_REGION_START fl + DFU_IMAGE_MAX_SIZE_BANKED m reserved fl).

(** * Packets *)
Definition INVALID_PACKET : Z := 0.
Definition INIT_PACKET : Z := 1.
Definition STOP_INIT_PACKET : Z := 2.
Definition START_PACKET : Z := 3.
Definition DATA_PACKET : Z := 4.
Definition STOP_DATA_PACKET : Z := 5.

Definition DFU_UPDATE_SD : Z := 1.
Definition DFU_UPDATE_BL : Z := 2.
Definition DFU_UPDATE_APP : Z := 4.

Record dfu_start_packet := mk_start {
  dfu_update_mode : Z; sd_image_size : Z; bl_image_size : Z; app_image_size : Z
}.

(** [__builtin_add_overflow] on [uint32_t]: [None] when it reports overflow. *)
Definition add_overflow (a b : Z) : option Z :=
  if a + b >? UINT32_MAX then None else Some (a + b).

Lemma add_overflow_Some a b c : add_overflow a b = Some c <-> c = a + b /\ a + b <= UINT32_MAX.
Proof.
  unfold add_overflow. rewrite Z.gtb_ltb. destruct (Z.ltb_spec UINT32_MAX (a + b)).
  - split; [done|]. lia.
  - split; [by intros [= <-]|]. by intros [-> _].
Qed.

(** A packet as the wire format's C types bound it. *)
Definition start_wf (p : dfu_start_packet) : Prop :=
  0 <= dfu_update_mode p < 256 /\ 0 <= sd_image_size p < 2 ^ 32 /\
  0 <= bl_image_size p < 2 ^ 32 /\ 0 <= app_image_size p < 2 ^ 32.
