(* ===== verification/DfuPolicy.v ===== *)
(** The role and compatibility policy of a legacy DFU transfer:
    [src/dfu_image_policy.c].  The START tuple is checked before any flash is
    prepared, the received bytes after their transport check. *)
From S2P Require Import Prelude Crc BootImage DfuTypes.

(** The build's identity: [DEVICE_NAME] as the running bootloader's manifest
    stores it, the USB ids and the SoftDevice family. *)
Record policy_build := mk_build {
  b_mcu : mcu; b_recovery : bool; b_device_name : list Z;
  USB_DESC_VID : Z; USB_DESC_UF2_PID : Z; MOTA_SOFTDEVICE_FAMILY : Z
}.

Record softdevice_image_info := mk_sd_info { sd_family : Z; sd_fwid : Z; sd_app_base : Z }.

Definition dfu_start_packet_validate (m : mcu) (p : dfu_start_packet) : Z * option Z :=
  let populated_mode :=
    Z.lor (Z.lor (if negb (sd_image_size p =? 0) then DFU_UPDATE_SD else 0)
                 (if negb (bl_image_size p =? 0) then DFU_UPDATE_BL else 0))
          (if negb (app_image_size p =? 0) then DFU_UPDATE_APP else 0) in
  if (populated_mode =? 0) || (populated_mode >? DFU_UPDATE_APP) ||
     negb (dfu_update_mode p =? populated_mode) ||
     negb (Z.land (Z.lor (Z.lor (sd_image_size p) (bl_image_size p)) (app_image_size p)) (4 - 1) =? 0)
  then (NRF_ERROR_NOT_SUPPORTED, None)
  else if bl_image_size p >? DFU_BL_IMAGE_MAX_SIZE m then (NRF_ERROR_DATA_SIZE, None)
  else match add_overflow (sd_image_size p) (bl_image_size p) with
       | None => (NRF_ERROR_DATA_SIZE, None)
       | Some image_size =>
         match add_overflow image_size (app_image_size p) with
         | None => (NRF_ERROR_DATA_SIZE, None)
         | Some image_size => (NRF_SUCCESS, Some image_size)
         end
       end.

Definition dfu_policy_runtime_app_base (fl : flash) : Z := CODE_REGION_1_START fl.
Definition dfu_policy_runtime_softdevice_fwid (fl : flash) : Z :=
  if is_sd_existed fl then Z.land (fl (MBR_SIZE + SD_FWID_OFFSET)) 0xFFFF else 0.

Section Policy.
Context (b : policy_build) (fl : flash).

Definition softdevice_info (image : list Z) (image_size : Z) : option softdevice_image_info :=
  let required_size := SD_UNIQUE_STR_OFFSET + SD_UNIQUE_STR_SIZE in
  if (image_size <? required_size) ||
     (nthZ image SD_INFO_STRUCT_SIZE_OFFSET <=? SD_ID_OFFSET - SOFTDEVICE_INFO_STRUCT_OFFSET) ||
     negb (field32 image (SOFTDEVICE_INFO_STRUCT_OFFSET + 4) =? SD_MAGIC_NUMBER)
  then None
  else
    let family := field32 image SD_ID_OFFSET in
    let fwid := field16 image SD_FWID_OFFSET in
    let app_base := field32 image SD_SIZE_OFFSET in
    if negb (family =? MOTA_SOFTDEVICE_FAMILY b) || (fwid =? 0) || (fwid =? UINT16_MAX) ||
       (app_base <=? MBR_SIZE) || (app_base >=? BOOTLOADER_REGION_START (b_mcu b)) ||
       negb (Z.land app_base (CODE_PAGE_SIZE - 1) =? 0) || (image_size >? app_base - MBR_SIZE)
    then None
    else if bootloader_image_vectors_valid (b_mcu b) image image_size MBR_SIZE image_size
    then Some (mk_sd_info family fwid app_base)
    else None.

Definition expected_board : Z := Z.lor (u32 (Z.shiftl (USB_DESC_VID b) 16)) (USB_DESC_UF2_PID b).

Definition bootloader_info (image : list Z) (image_size : Z) (incoming_sd : option softdevice_image_info) : bool :=
  if b_recovery b then
    (image_size <=? DFU_BL_IMAGE_MAX_SIZE (b_mcu b)) &&
    bootloader_image_vectors_valid (b_mcu b) image image_size (BOOTLOADER_REGION_START (b_mcu b)) image_size
  else if negb (image_size =? DFU_BL_IMAGE_MAX_SIZE (b_mcu b)) then false
  else
    match bootloader_image_classify_manual (b_mcu b) (b_recovery b) (Some image)
            (BOOTLOADER_REGION_START (b_mcu b)) image_size expected_board (Some (b_device_name b)) with
    | (BOOTLOADER_IMAGE_V2, Some candidate) =>
        let expected_fwid := match incoming_sd with
          | Some sd => sd_fwid sd | None => dfu_policy_runtime_softdevice_fwid fl end in
        let expected_app_base := match incoming_sd with
          | Some sd => sd_app_base sd | None => dfu_policy_runtime_app_base fl end in
        (softdevice_family candidate =? MOTA_SOFTDEVICE_FAMILY b) &&
        (softdevice_fwid candidate =? expected_fwid) &&
        (app_base candidate =? expected_app_base) &&
        (layout_abi candidate =? BOOTLOADER_UPDATE_LAYOUT_ABI)
    | (BOOTLOADER_IMAGE_LEGACY, _) =>
        match incoming_sd with
        | None => true
        | Some sd => (sd_fwid sd =? dfu_policy_runtime_softdevice_fwid fl) &&
                     (sd_app_base sd =? dfu_policy_runtime_app_base fl)
        end
    | _ => false
    end.

Definition dfu_image_policy_validate (image : option (list Z)) (image_len : Z)
    (start_packet : option dfu_start_packet) : Z :=
  match image, start_packet with
  | Some image, Some p =>
    match dfu_start_packet_validate (b_mcu b) p with
    | (err, Some declared_size) =>
      if negb (err =? NRF_SUCCESS) || negb (image_len =? declared_size) then NRF_ERROR_INVALID_DATA
      else if dfu_update_mode p =? DFU_UPDATE_APP then
        if bootloader_image_vectors_valid (b_mcu b) image image_len (dfu_policy_runtime_app_base fl) image_len
        then NRF_SUCCESS else NRF_ERROR_INVALID_DATA
      else
        let bl_step (incoming_sd : option softdevice_image_info) :=
          if negb (Z.land (dfu_update_mode p) DFU_UPDATE_BL =? 0) &&
             negb (bootloader_info (drop (Z.to_nat (sd_image_size p)) image) (bl_image_size p) incoming_sd)
          then NRF_ERROR_INVALID_DATA else NRF_SUCCESS in
        if negb (Z.land (dfu_update_mode p) DFU_UPDATE_SD =? 0) then
          match softdevice_info image (sd_image_size p) with
          | None => NRF_ERROR_INVALID_DATA
          | Some sd =>
            if (dfu_update_mode p =? DFU_UPDATE_SD) &&
               (negb (sd_fwid sd =? dfu_policy_runtime_softdevice_fwid fl) ||
                negb (sd_app_base sd =? dfu_policy_runtime_app_base fl))
            then NRF_ERROR_INVALID_DATA
            else bl_step (Some sd)
          end
        else bl_step None
    | (_, None) => NRF_ERROR_INVALID_DATA
    end
  | _, _ => NRF_ERROR_NULL
  end.

(** * What the START tuple may say *)

(** Exactly one of the four roles, with exactly its components present. *)
Definition role_exact (p : dfu_start_packet) : Prop :=
  (dfu_update_mode p = 1 /\ 0 < sd_image_size p /\ bl_image_size p = 0 /\ app_image_size p = 0) \/
  (dfu_update_mode p = 2 /\ sd_image_size p = 0 /\ 0 < bl_image_size p /\ app_image_size p = 0) \/
  (dfu_update_mode p = 3 /\ 0 < sd_image_size p /\ 0 < bl_image_size p /\ app_image_size p = 0) \/
  (dfu_update_mode p = 4 /\ sd_image_size p = 0 /\ bl_image_size p = 0 /\ 0 < app_image_size p).

Definition aligned_sizes (p : dfu_start_packet) : Prop :=
  sd_image_size p mod 4 = 0 /\ bl_image_size p mod 4 = 0 /\ app_image_size p mod 4 = 0.
End Policy.

Lemma land_3 x : Z.land x 3 = x mod 4.
Proof. apply (land_ones_mod x 2). lia. Qed.

Lemma lor3_aligned x y z : Z.land (Z.lor (Z.lor x y) z) 3 = 0 <-> x mod 4 = 0 /\ y mod 4 = 0 /\ z mod 4 = 0.
Proof.
  rewrite !Z.land_lor_distr_l, !Z.lor_eq_0_iff, !land_3. tauto.
Qed.

Lemma start_validate_success m p n : start_wf p ->
  dfu_start_packet_validate m p = (NRF_SUCCESS, Some n) <->
  role_exact p /\ aligned_sizes p /\ bl_image_size p <= DFU_BL_IMAGE_MAX_SIZE m /\
  n = sd_image_size p + bl_image_size p + app_image_size p /\ n <= UINT32_MAX.
Proof.
  intros (Hm & Hs & Hb & Ha). unfold dfu_start_packet_validate, role_exact, aligned_sizes.
  destruct p as [md sd bl app]; cbn [dfu_update_mode sd_image_size bl_image_size app_image_size] in *.
  change (4 - 1) with 3. rewrite <- lor3_aligned.
  generalize (Z.land (Z.lor (Z.lor sd bl) app) 3) as al. intros al.
  destruct (Z.eqb_spec al 0) as [Hal|Hal]; cbn [negb].
  2: { rewrite !orb_true_r. split; [done|]. tauto. }
  rewrite orb_false_r, !Z.gtb_ltb.
  set (tail := if DFU_BL_IMAGE_MAX_SIZE m <? bl then _ else _).
  assert (tail = (NRF_SUCCESS, Some n) <->
    bl <= DFU_BL_IMAGE_MAX_SIZE m /\ n = sd + bl + app /\ n <= UINT32_MAX) as Hsz.
  { unfold tail. destruct (Z.ltb_spec (DFU_BL_IMAGE_MAX_SIZE m) bl); [split; [done|]; lia|].
    destruct (add_overflow sd bl) as [s1|] eqn:E1.
    - apply add_overflow_Some in E1 as [-> ?]. destruct (add_overflow _ app) as [s2|] eqn:E2.
      + apply add_overflow_Some in E2 as [-> ?].
        split; [intros E; inversion E; auto with lia|]. by intros (_ & -> & _).
      + split; [done|]. intros (_ & -> & ?). exfalso.
        assert (add_overflow (sd + bl) app = Some (sd + bl + app)) by (by apply add_overflow_Some).
        congruence.
    - split; [done|]. intros (_ & -> & ?). exfalso.
      assert (add_overflow sd bl = Some (sd + bl)) by (apply add_overflow_Some; lia). congruence. }
  clearbody tail. unfold DFU_UPDATE_SD, DFU_UPDATE_BL, DFU_UPDATE_APP.
  destruct (Z.eqb_spec sd 0), (Z.eqb_spec bl 0), (Z.eqb_spec app 0); cbn [negb];
    match goal with |- context [Z.lor ?x ?y] =>
      let v := eval vm_compute in (Z.lor x y) in change (Z.lor x y) with v end;
    cbn [Z.eqb Pos.eqb Z.ltb Z.compare Pos.compare Pos.compare_cont orb];
    try (split; [done|]; lia).
  all: match goal with |- context [negb (?x =? ?k)] => destruct (Z.eqb_spec x k) end; cbn [negb orb];
    try (split; [done|]; lia).
  all: rewrite Hsz; lia.
Qed.

(** * What an accepted transfer leaves installed *)

Lemma land_1_mode md : md = 1 \/ md = 2 \/ md = 3 -> negb (Z.land md DFU_UPDATE_SD =? 0) = negb (md =? 2).
Proof. intros [H|[H|H]]; by rewrite H. Qed.
Lemma land_2_mode md : md = 1 \/ md = 2 \/ md = 3 -> negb (Z.land md DFU_UPDATE_BL =? 0) = negb (md =? 1).
Proof. intros [H|[H|H]]; by rewrite H. Qed.

Section Accepted.
Context (b : policy_build) (fl : flash).

(** The layout a bootloader will run on: the incoming SoftDevice's, or else
    the installed one's. *)
Definition target_layout (sd : option softdevice_image_info) : Z * Z :=
  match sd with
  | Some i => (sd_fwid i, sd_app_base i)
  | None => (dfu_policy_runtime_softdevice_fwid fl, dfu_policy_runtime_app_base fl)
  end.
Definition running_layout : Z * Z := target_layout None.

(** The bytes at [image] are a bootloader for this board, made for [target]. *)
Definition bootloader_for (image : list Z) (size : Z) (target : Z * Z) : Prop :=
  size = DFU_BL_IMAGE_MAX_SIZE (b_mcu b) /\
  (exists off, visited size off /\ sliceZ image off 8 = manifest_magic /\
     man_board_id (manifest_at image off) = expected_board b /\
     man_device_name (manifest_at image off) = b_device_name b /\
     man_image_start (manifest_at image off) = BOOTLOADER_REGION_START (b_mcu b) /\
     man_image_size (manifest_at image off) = size) /\
  (target = running_layout \/
   exists i, bootloader_image_classify_manual (b_mcu b) false (Some image)
               (BOOTLOADER_REGION_START (b_mcu b)) size (expected_board b) (Some (b_device_name b)) =
             (BOOTLOADER_IMAGE_V2, Some i) /\
     softdevice_family i = MOTA_SOFTDEVICE_FAMILY b /\ (softdevice_fwid i, app_base i) = target /\
     layout_abi i = BOOTLOADER_UPDATE_LAYOUT_ABI).

(** A SoftDevice of the build's family that fits below the application base it
    declares, page-aligned below the bootloader. *)
Definition softdevice_fits (i : softdevice_image_info) (size : Z) : Prop :=
  sd_family i = MOTA_SOFTDEVICE_FAMILY b /\ sd_fwid i <> 0 /\ sd_fwid i <> UINT16_MAX /\
  MBR_SIZE + size <= sd_app_base i /\ sd_app_base i < BOOTLOADER_REGION_START (b_mcu b) /\
  sd_app_base i mod CODE_PAGE_SIZE = 0.

Lemma softdevice_info_fits image size i :
  softdevice_info b image size = Some i -> softdevice_fits i size.
Proof.
  unfold softdevice_info, softdevice_fits.
  destruct (_ || _); [done|]. destruct (_ || _) eqn:E; [done|].
  destruct (bootloader_image_vectors_valid _ _ _ _ _); [|done]. intros [= <-]. cbn [sd_family sd_fwid sd_app_base].
  rewrite Z.gtb_ltb, Z.geb_leb in E. bool_cases.
  change (CODE_PAGE_SIZE - 1) with 4095 in *. rewrite land_4095 in *. unfold CODE_PAGE_SIZE.
  split; [done|]. split; [done|]. split; [done|]. lia.
Qed.

Lemma bootloader_info_for image size sd :
  b_recovery b = false -> 0 <= size -> bootloader_info b fl image size sd = true ->
  bootloader_for image size (target_layout sd).
Proof.
  intros Hr H0. unfold bootloader_info, bootloader_for. rewrite Hr.
  destruct (negb (size =? _)) eqn:Hsz; [done|]. bool_cases.
  set (cl := bootloader_image_classify_manual _ _ _ _ _ _ _). intros Hb. split; [done|].
  assert (size + 48 < 2 ^ 32).
  { rewrite Hsz. unfold DFU_BL_IMAGE_MAX_SIZE. by destruct (b_mcu b). }
  split.
  - apply (classify_identity (b_mcu b) false image _ size _ _ false); [done|done|].
    change (fst cl <> BOOTLOADER_IMAGE_INVALID). by destruct cl as [[] i].
  - destruct cl as [[| |] [i|]] eqn:E; try done; unfold cl in E; rewrite ?E.
    + destruct sd as [i'|]; [|by left]. bool_cases. left. cbn [target_layout running_layout].
      unfold running_layout, target_layout. congruence.
    + destruct sd as [i'|]; [|by left]. bool_cases. left.
      unfold running_layout, target_layout. congruence.
    + right. exists i. split; [done|]. bool_cases. split; [done|]. split; [|done].
      destruct sd; unfold target_layout; congruence.
Qed.
End Accepted.

(** A bootloader alone, of the declared size. *)
Lemma policy_bl_only b fl image n : 0 < n ->
  dfu_image_policy_validate b fl (Some image) n (Some (mk_start DFU_UPDATE_BL 0 n 0)) = NRF_SUCCESS ->
  bootloader_info b fl image n None = true.
Proof.
  intros Hn. unfold dfu_image_policy_validate.
  destruct (dfu_start_packet_validate _ _) as [err [k|]]; [|done]. destruct (_ || _); [done|].
  cbn [dfu_update_mode sd_image_size bl_image_size]. change (drop (Z.to_nat 0) image) with image.
  change (Z.land DFU_UPDATE_BL DFU_UPDATE_BL =? 0) with false. change (Z.land DFU_UPDATE_BL DFU_UPDATE_SD =? 0) with true.
  change (DFU_UPDATE_BL =? DFU_UPDATE_APP) with false. cbn [negb andb].
  by destruct (bootloader_info _ _ _ _ _).
Qed.

(** The START tuple is accepted exactly when its mode names one of the four
    roles, precisely the components of that role are non-empty, every size is a
    multiple of four, the bootloader fits its region and the total does not
    overflow 32 bits; the total is reported only then. *)
Theorem start_packet_exact m p : start_wf p ->
  let '(err, size) := dfu_start_packet_validate m p in
  let total := sd_image_size p + bl_image_size p + app_image_size p in
  (err = NRF_SUCCESS <-> role_exact p /\ aligned_sizes p /\ bl_image_size p <= DFU_BL_IMAGE_MAX_SIZE m /\ total <= UINT32_MAX) /\
  size = (if err =? NRF_SUCCESS then Some total else None).
Proof.
  intros Hwf. pose proof (fun n => start_validate_success m p n Hwf) as Hx.
  assert ((exists n, dfu_start_packet_validate m p = (NRF_SUCCESS, Some n)) \/
    (exists e, dfu_start_packet_validate m p = (e, None) /\ e <> NRF_SUCCESS)) as Hc.
  { unfold dfu_start_packet_validate. destruct (_ || _); [right; by eexists|]. destruct (_ >? _); [right; by eexists|].
    destruct (add_overflow _ _) as [n|]; [|right; by eexists]. destruct (add_overflow _ _) as [k|]; [left|right]; by eexists. }
  destruct Hc as [[n E]|(e & E & He)]; rewrite E in *; cbv zeta.
  - destruct (proj1 (Hx n) eq_refl) as (H1 & H2 & H3 & -> & H5). split; [by split|done].
  - rewrite (proj2 (Z.eqb_neq _ _) He). split; [|done]. split; [done|]. intros (H1 & H2 & H3 & H4).
    by pose proof (proj2 (Hx _) (conj H1 (conj H2 (conj H3 (conj eq_refl H4))))).
Qed.

(** C38: a strict build installs only compatible sets. When the policy accepts,
    the received length is the declared one and an incoming SoftDevice is of
    the build's family and fits under a page-aligned application base. A SoftDevice alone must be the
    installed layout exactly; a bootloader, alone or behind a SoftDevice, is a
    full-size image bound to this board, and whenever the layout it will run on
    differs from the running one it was built for that layout. *)
Theorem accepted_set_compatible b fl image len p :
  b_recovery b = false -> start_wf p ->
  dfu_image_policy_validate b fl (Some image) len (Some p) = NRF_SUCCESS ->
  len = sd_image_size p + bl_image_size p + app_image_size p /\
  ((dfu_update_mode p = DFU_UPDATE_APP /\
    bootloader_image_vectors_valid (b_mcu b) image len (dfu_policy_runtime_app_base fl) len = true) \/
   (dfu_update_mode p = DFU_UPDATE_BL /\
    bootloader_for b fl image (bl_image_size p) (running_layout fl)) \/
   exists i, softdevice_info b image (sd_image_size p) = Some i /\ softdevice_fits b i (sd_image_size p) /\
     ((dfu_update_mode p = DFU_UPDATE_SD /\ target_layout fl (Some i) = running_layout fl) \/
      (dfu_update_mode p = 3 /\
       bootloader_for b fl (drop (Z.to_nat (sd_image_size p)) image) (bl_image_size p)
         (target_layout fl (Some i))))).
Proof.
  intros Hr Hwf. unfold dfu_image_policy_validate.
  destruct (dfu_start_packet_validate _ p) as [err [n|]] eqn:Hst; [|done].
  destruct (negb _ || negb _) eqn:Hn; [done|]. bool_cases. subst err len.
  apply start_validate_success in Hst as (Hrole & _ & _ & -> & _); [|done].
  destruct Hwf as (_ & _ & Hbl & _).
  destruct (Z.eqb_spec (dfu_update_mode p) DFU_UPDATE_APP) as [Ha|Ha].
  { destruct (bootloader_image_vectors_valid _ _ _ _ _) eqn:?; [|done]. auto. }
  assert (dfu_update_mode p = 1 \/ dfu_update_mode p = 2 \/ dfu_update_mode p = 3) as Hmd
    by (destruct Hrole as [?|[?|[?|?]]]; unfold DFU_UPDATE_APP in *; lia).
  rewrite land_1_mode, land_2_mode by done. intros H. split; [done|]. right. revert H.
  destruct Hmd as [Hm|[Hm|Hm]]; rewrite !Hm; cbn [Z.eqb Pos.eqb negb andb].
  - destruct (softdevice_info _ _ _) as [i|] eqn:Hi; [|done].
    change (1 =? DFU_UPDATE_SD) with true. cbn [andb].
    destruct (negb _ || negb _) eqn:Hx; [done|]. bool_cases. intros _. right. exists i.
    split; [done|]. split; [by eapply softdevice_info_fits|]. left. split; [done|].
    unfold running_layout, target_layout. congruence.
  - assert (sd_image_size p = 0) as Hz by (destruct Hrole as [?|[?|[?|?]]]; lia).
    rewrite Hz. destruct (bootloader_info _ _ _ _ _) eqn:Hb; [|done]. intros _. left.
    split; [done|]. apply bootloader_info_for in Hb; [done|done|lia].
  - destruct (softdevice_info _ _ _) as [i|] eqn:Hi; [|done].
    change (3 =? DFU_UPDATE_SD) with false. cbn [andb].
    destruct (bootloader_info _ _ _ _ _) eqn:Hb; [|done]. intros _. right. exists i.
    split; [done|]. split; [by eapply softdevice_info_fits|]. right. split; [done|].
    apply bootloader_info_for in Hb; [done|done|lia].
Qed.

(** A reinstall of the running SoftDevice: 8240 bytes with vectors at the front
    and the information structure at 0x2000. *)
Definition demo_build : policy_build := mk_build NRF52840 false demo_name 0x2886 0x0044 140.
Definition demo_sd_image : list Z :=
  bytes32 0x20040000 ++ bytes32 0x1101 ++ replicate (Z.to_nat 0x1FF8) 0 ++
  [0x30; 0; 0; 0] ++ bytes32 SD_MAGIC_NUMBER ++ bytes32 0x26000 ++ bytes32 0xB6 ++ bytes32 140 ++
  replicate 28 0.
Definition demo_flash : flash := fun a =>
  if a =? 0x3004 then SD_MAGIC_NUMBER else if a =? 0x3008 then 0x26000 else
  if a =? 0x300C then 0xB6 else UINT32_MAX.

Lemma accepted_set_compatible_witness :
  exists i, softdevice_info demo_build demo_sd_image 8240 = Some i /\ softdevice_fits demo_build i 8240 /\
     target_layout demo_flash (Some i) = running_layout demo_flash.
Proof.
  destruct (accepted_set_compatible demo_build demo_flash demo_sd_image 8240 (mk_start 1 8240 0 0))
    as (_ & [[H _]|[[H _]|(i & H1 & H2 & [[_ H3]|[H _]])]]).
  - reflexivity.
  - unfold start_wf; cbn; lia.
  - vm_compute. reflexivity.
  - discriminate H.
  - discriminate H.
  - exists i. auto.
  - discriminate H.
Defined.
