(* ===== verification/DfuInit.v ===== *)
(** The init packet of a legacy DFU transfer: [src/dfu_init.c], in its unsigned
    (CRC-16) and signed ([SIGNED_FW]: SHA-256 and ECDSA P-256) builds.  The
    TinyCrypt functions are arguments of the model; the file's static
    [m_extended_packet] is explicit state. *)
From S2P Require Import Prelude Crc BootImage DfuTypes DfuPolicy.

Definition ADAFRUIT_DEVICE_TYPE : Z := 0x0052.
Definition ADAFRUIT_DEV_REV (m : mcu) : Z :=
  match m with NRF52840 => 52840 | NRF52833 => 52833 | NRF52832 => 0xADAF end.
Definition DFU_SOFTDEVICE_ANY : Z := 0xFFFE.

(** [sizeof(dfu_init_packet_t)] and the offsets of its fields. *)
Definition DFU_INIT_PACKET_SIZE : Z := 12.
Definition OFF_device_type : Z := 0.
Definition OFF_device_rev : Z := 2.
Definition OFF_softdevice_len : Z := 8.
Definition OFF_softdevice : Z := 10.

Definition DFU_INIT_PACKET_POS_EXT_IDENTIFIER : Z := 0.
Definition DFU_INIT_PACKET_POS_EXT_IMAGE_LENGTH : Z := 4.
Definition DFU_INIT_PACKET_POS_EXT_IMAGE_HASH256 : Z := 8.
Definition DFU_INIT_PACKET_POS_EXT_INIT_SIGNATURE_R : Z := 40.
Definition DFU_INIT_PACKET_EXT_LENGTH_SIGNED : Z := 40.
Definition DFU_SHA256_DIGEST_LENGTH : Z := 32.
Definition DFU_INIT_PACKET_USES_ECDS : Z := 2.
Definition DFU_INIT_PACKET_EXT_LENGTH_MIN : Z := 2.
Definition DFU_INIT_PACKET_EXT_LENGTH_MAX : Z := 104.
Definition DFU_INIT_PACKET_PADDING_MAX : Z := 3.

Record init_state := mk_init { m_extended_packet : list Z; m_extended_packet_length : Z }.
Definition init_state0 : init_state := mk_init (replicate 104 0) 0.

Section Init.
(** TinyCrypt: hash steps return [None] when they report failure. *)
Context {tc_state : Type} (tc_sha256_init : option tc_state)
  (tc_sha256_update : tc_state -> list Z -> option tc_state)
  (tc_sha256_final : tc_state -> option (list Z))
  (uECC_valid_public_key : list Z -> Z) (uECC_verify : list Z -> list Z -> list Z -> Z).
(** The build: MCU, [SIGNED_FW] and the public key. *)
Context (m : mcu) (SIGNED_FW : bool) (pk : list Z).

(** The init/update/final sequence both functions run. *)
Definition tc_hash (msg : list Z) : option (list Z) :=
  match tc_sha256_init with
  | None => None
  | Some s => match tc_sha256_update s msg with
              | None => None
              | Some s => tc_sha256_final s
              end
  end.

(** The supported-SoftDevice loop from index [i], with [fuel] entries left:
    the index where it stops. *)
Fixpoint softdevice_search (fl : flash) (p : list Z) (fuel : nat) (i : Z) : Z :=
  match fuel with
  | O => i
  | S fuel =>
    let required_softdevice := field16 p (OFF_softdevice + i * 2) in
    if (required_softdevice =? DFU_SOFTDEVICE_ANY) ||
       (required_softdevice =? Z.land (fl (MBR_SIZE + SD_FWID_OFFSET)) 0xFFFF)
    then i
    else softdevice_search fl p fuel (i + 1)
  end.

(** The checks after the SoftDevice loop in a signed build. *)
Definition prevalidate_signature (st : init_state) (p : list Z) (init_data_len image_size : Z) : Z :=
  let ext := m_extended_packet st in
  if negb (field32 ext DFU_INIT_PACKET_POS_EXT_IDENTIFIER =? DFU_INIT_PACKET_USES_ECDS)
  then NRF_ERROR_INVALID_DATA
  else
    let msg_len := init_data_len - m_extended_packet_length st + DFU_INIT_PACKET_EXT_LENGTH_SIGNED in
    match tc_hash (sliceZ p 0 msg_len) with
    | None => NRF_ERROR_INVALID_DATA
    | Some digest =>
      if negb (uECC_valid_public_key pk =? 0) then NRF_ERROR_INVALID_DATA
      else if negb (uECC_verify pk digest (sliceZ ext DFU_INIT_PACKET_POS_EXT_INIT_SIGNATURE_R 64) =? 1) ||
              negb (field32 ext DFU_INIT_PACKET_POS_EXT_IMAGE_LENGTH =? image_size)
      then NRF_ERROR_INVALID_DATA
      else NRF_SUCCESS
    end.

Definition required_extended_length : Z :=
  if SIGNED_FW then DFU_INIT_PACKET_EXT_LENGTH_MAX else DFU_INIT_PACKET_EXT_LENGTH_MIN.

Definition dfu_init_prevalidate (fl : flash) (st : init_state) (p_init_data : option (list Z))
    (init_data_len image_type image_size : Z) : Z * init_state :=
  match p_init_data with
  | None => (NRF_ERROR_NULL, st)
  | Some p =>
    if init_data_len <? DFU_INIT_PACKET_SIZE then (NRF_ERROR_INVALID_LENGTH, st) else
    let softdevice_count := field16 p OFF_softdevice_len in
    let softdevice_length := softdevice_count * 2 in
    if (softdevice_count =? 0) || (softdevice_length >? init_data_len - OFF_softdevice)
    then (NRF_ERROR_INVALID_LENGTH, st) else
    let extended_packet_offset := OFF_softdevice + softdevice_length in
    let extended_packet_length := init_data_len - extended_packet_offset in
    if (extended_packet_length <? required_extended_length) ||
       (extended_packet_length >? required_extended_length + DFU_INIT_PACKET_PADDING_MAX)
    then (NRF_ERROR_INVALID_LENGTH, st) else
    let st := mk_init
      (sliceZ p extended_packet_offset required_extended_length ++
       drop (Z.to_nat required_extended_length) (m_extended_packet st))
      (u8 extended_packet_length) in
    if negb (field16 p OFF_device_type =? ADAFRUIT_DEVICE_TYPE) then (NRF_ERROR_FORBIDDEN, st) else
    if negb (Z.land image_type (Z.lor DFU_UPDATE_SD DFU_UPDATE_BL) =? 0) &&
       negb (field16 p OFF_device_rev =? ADAFRUIT_DEV_REV m) then (NRF_ERROR_FORBIDDEN, st) else
    let i := softdevice_search fl p (Z.to_nat softdevice_count) 0 in
    if i >=? softdevice_count then (NRF_ERROR_INVALID_DATA, st)
    else if SIGNED_FW then (prevalidate_signature st p init_data_len image_size, st)
    else (NRF_SUCCESS, st)
  end.

(** [p_crc_out]: whether the caller's pointer is non-null; the second result
    is what is stored through it. *)
Definition dfu_init_postvalidate (st : init_state) (p_image : list Z) (image_len : Z) (p_crc_out : bool)
    : Z * option Z :=
  if negb p_crc_out then (NRF_ERROR_NULL, None) else
  let image := sliceZ p_image 0 image_len in
  let image_crc := crc16_compute image None in
  if SIGNED_FW then
    if negb (image_len =? field32 (m_extended_packet st) DFU_INIT_PACKET_POS_EXT_IMAGE_LENGTH)
    then (NRF_ERROR_INVALID_DATA, None)
    else match tc_hash image with
         | None => (NRF_ERROR_INVALID_DATA, None)
         | Some image_digest =>
           if negb (bytes_eqb (sliceZ image_digest 0 DFU_SHA256_DIGEST_LENGTH)
                      (sliceZ (m_extended_packet st) DFU_INIT_PACKET_POS_EXT_IMAGE_HASH256 DFU_SHA256_DIGEST_LENGTH))
           then (NRF_ERROR_INVALID_DATA, None)
           else (NRF_SUCCESS, Some image_crc)
         end
  else if negb (image_crc =? field16 (m_extended_packet st) 0) then (NRF_ERROR_INVALID_DATA, None)
  else (NRF_SUCCESS, Some image_crc).

(** * Lemmas *)

Lemma softdevice_search_lt fl p fuel i :
  softdevice_search fl p fuel i < i + Z.of_nat fuel <->
  exists k, i <= k < i + Z.of_nat fuel /\
    (field16 p (OFF_softdevice + k * 2) = DFU_SOFTDEVICE_ANY \/
     field16 p (OFF_softdevice + k * 2) = Z.land (fl (MBR_SIZE + SD_FWID_OFFSET)) 0xFFFF).
Proof.
  revert i. induction fuel as [|fuel IH]; intros i; cbn [softdevice_search].
  { split; [lia|]. intros (k & ? & _). lia. }
  destruct (_ || _) eqn:E.
  - split; [|lia]. intros _. exists i. split; [lia|].
    apply orb_prop in E as [?|?]; bool_cases; auto.
  - bool_cases. replace (i + Z.of_nat (S fuel)) with (i + 1 + Z.of_nat fuel) by lia. rewrite IH. split.
    + intros (k & ? & ?). exists k. split; [lia|done].
    + intros (k & ? & Hk). exists k. split; [|done].
      destruct (decide (k = i)) as [->|]; [|lia]. by destruct Hk.
Qed.

(** The length checks: the list of SoftDevices lies inside the packet and is
    followed by the extension and at most three padding bytes. *)
Definition packet_lengths_ok (p : list Z) (len : Z) : Prop :=
  let count := field16 p OFF_softdevice_len in
  0 < count /\
  OFF_softdevice + count * 2 + required_extended_length <= len /\
  len <= OFF_softdevice + count * 2 + required_extended_length + DFU_INIT_PACKET_PADDING_MAX.

Definition extension_offset (p : list Z) : Z := OFF_softdevice + field16 p OFF_softdevice_len * 2.

Definition device_ok (p : list Z) (image_type : Z) : Prop :=
  field16 p OFF_device_type = ADAFRUIT_DEVICE_TYPE /\
  (Z.land image_type 3 <> 0 -> field16 p OFF_device_rev = ADAFRUIT_DEV_REV m).

Definition softdevice_listed (fl : flash) (p : list Z) : Prop :=
  exists k, 0 <= k < field16 p OFF_softdevice_len /\
    (field16 p (OFF_softdevice + k * 2) = DFU_SOFTDEVICE_ANY \/
     field16 p (OFF_softdevice + k * 2) = Z.land (fl (MBR_SIZE + SD_FWID_OFFSET)) 0xFFFF).

Lemma required_extended_length_range : 2 <= required_extended_length <= 104.
Proof. unfold required_extended_length, DFU_INIT_PACKET_EXT_LENGTH_MAX, DFU_INIT_PACKET_EXT_LENGTH_MIN. destruct SIGNED_FW; lia. Qed.

Lemma prevalidate_success fl st p len ty size st' :
  bytes p ->
  dfu_init_prevalidate fl st (Some p) len ty size = (NRF_SUCCESS, st') <->
  packet_lengths_ok p len /\ device_ok p ty /\ softdevice_listed fl p /\
  st' = mk_init (sliceZ p (extension_offset p) required_extended_length ++
                 drop (Z.to_nat required_extended_length) (m_extended_packet st))
                (len - extension_offset p) /\
  (SIGNED_FW = true -> prevalidate_signature st' p len size = NRF_SUCCESS).
Proof.
  intros Hb. unfold dfu_init_prevalidate, packet_lengths_ok, device_ok, softdevice_listed, extension_offset.
  pose proof (read_le16_range _ (sliceZ_bytes p OFF_softdevice_len 2 Hb)) as Hc.
  fold (field16 p OFF_softdevice_len) in Hc. set (count := field16 p OFF_softdevice_len) in *.
  pose proof required_extended_length_range as Hreq.
  change (Z.lor DFU_UPDATE_SD DFU_UPDATE_BL) with 3.
  rewrite !Z.gtb_ltb. unfold OFF_softdevice, DFU_INIT_PACKET_SIZE, DFU_INIT_PACKET_PADDING_MAX.
  destruct (Z.ltb_spec len 12); [split; [done|]; lia|].
  destruct (Z.eqb_spec count 0); cbn [orb]; [split; [done|]; lia|].
  destruct (Z.ltb_spec (len - 10) (count * 2)); [split; [done|]; lia|].
  destruct (Z.ltb_spec (len - (10 + count * 2)) required_extended_length); cbn [orb]; [split; [done|]; lia|].
  destruct (Z.ltb_spec (required_extended_length + 3) (len - (10 + count * 2))); [split; [done|]; lia|].
  rewrite u8_small by lia.
  destruct (Z.eqb_spec (field16 p OFF_device_type) ADAFRUIT_DEVICE_TYPE); cbn [negb]; [|split; [done|]; tauto].
  destruct (Z.eqb_spec (Z.land ty 3) 0), (Z.eqb_spec (field16 p OFF_device_rev) (ADAFRUIT_DEV_REV m)); cbn [negb andb];
    try (split; [done|]; tauto).
  all: rewrite Z.geb_leb; pose proof (softdevice_search_lt fl p (Z.to_nat count) 0) as Hs;
    unfold OFF_softdevice in Hs; rewrite Z.add_0_l, Z2Nat.id in Hs by lia;
    destruct (Z.leb_spec count (softdevice_search fl p (Z.to_nat count) 0));
    [split; [done|]; intros (_ & _ & Hl & _); apply Hs in Hl; lia|];
    apply Hs in H3.
  all: destruct SIGNED_FW.
  all: rewrite pair_equal_spec; (split; [intros [? <-] | intros (_ & _ & _ & -> & Hsig)]).
  all: try (rewrite Hsig by done; done).
  all: try done.
  all: split; [lia|]; split; [tauto|]; split; [done|]; split; done.
Qed.

(** Reading the stored extension is reading the packet behind its list. *)
Lemma stored_field st p o n :
  0 <= o -> 0 <= n -> o + n <= required_extended_length ->
  extension_offset p + required_extended_length <= lenZ p -> bytes p ->
  sliceZ (sliceZ p (extension_offset p) required_extended_length ++
          drop (Z.to_nat required_extended_length) (m_extended_packet st)) o n =
  sliceZ p (extension_offset p + o) n.
Proof.
  intros Ho Hn Hon Hl Hb.
  pose proof (read_le16_range _ (sliceZ_bytes p OFF_softdevice_len 2 Hb)) as Hc.
  fold (field16 p OFF_softdevice_len) in Hc.
  assert (0 <= extension_offset p) by (unfold extension_offset, OFF_softdevice; lia).
  rewrite sliceZ_app_l by (rewrite ?lenZ_sliceZ; lia).
  unfold sliceZ. rewrite skipn_firstn_comm, drop_drop, firstn_firstn. f_equal; [lia|]. f_equal. lia.
Qed.
End Init.

Section Chain.
Context {tc_state : Type} (tc_sha256_init : option tc_state)
  (tc_sha256_update : tc_state -> list Z -> option tc_state)
  (tc_sha256_final : tc_state -> option (list Z))
  (uECC_valid_public_key : list Z -> Z) (uECC_verify : list Z -> list Z -> list Z -> Z)
  (m : mcu) (pk : list Z).

Abbreviation tc_hash' := (tc_hash tc_sha256_init tc_sha256_update tc_sha256_final).
Abbreviation pre SIGNED_FW := (dfu_init_prevalidate tc_sha256_init tc_sha256_update tc_sha256_final
  uECC_valid_public_key uECC_verify m SIGNED_FW pk).
Abbreviation post SIGNED_FW := (dfu_init_postvalidate tc_sha256_init tc_sha256_update tc_sha256_final SIGNED_FW).

(** The extension's fields, as they lie in the packet. *)
Definition signed_length (p : list Z) : Z := field32 p (extension_offset p + 4).
Definition signed_image_hash (p : list Z) : list Z := sliceZ p (extension_offset p + 8) 32.
Definition packet_signature (p : list Z) : list Z := sliceZ p (extension_offset p + 40) 64.
(** The prefix of the packet the signature covers: it ends with the image
    length and the image hash. *)
Definition signed_message (p : list Z) : list Z := sliceZ p 0 (extension_offset p + 40).

(** A digest of the signed message that verifies under the build's key. *)
Definition signature_verifies (p : list Z) : Prop :=
  exists digest, tc_hash' (signed_message p) = Some digest /\ uECC_valid_public_key pk = 0 /\
    uECC_verify pk digest (packet_signature p) = 1.

Lemma prevalidate_signature_success p st len size :
  bytes p -> packet_lengths_ok true p len -> len <= lenZ p ->
  prevalidate_signature tc_sha256_init tc_sha256_update tc_sha256_final uECC_valid_public_key uECC_verify pk
    (mk_init (sliceZ p (extension_offset p) 104 ++ drop (Z.to_nat 104) (m_extended_packet st))
             (len - extension_offset p)) p len size = NRF_SUCCESS <->
  field32 p (extension_offset p) = DFU_INIT_PACKET_USES_ECDS /\ signature_verifies p /\ signed_length p = size.
Proof.
  intros Hb (Hc & Hl & _) Hlen. unfold prevalidate_signature.
  cbn [m_extended_packet m_extended_packet_length].
  unfold DFU_INIT_PACKET_POS_EXT_IDENTIFIER, DFU_INIT_PACKET_POS_EXT_INIT_SIGNATURE_R,
    DFU_INIT_PACKET_POS_EXT_IMAGE_LENGTH, field32.
  pose proof (stored_field true st p) as Hst. cbn [required_extended_length] in Hst, Hl.
  unfold DFU_INIT_PACKET_EXT_LENGTH_MAX in Hst, Hl. fold (extension_offset p) in Hl.
  rewrite !Hst by (done || lia). clear Hst. rewrite Z.add_0_r.
  unfold signature_verifies, signed_message, signed_length, packet_signature, field32.
  replace (len - (len - extension_offset p) + DFU_INIT_PACKET_EXT_LENGTH_SIGNED) with (extension_offset p + 40)
    by (unfold DFU_INIT_PACKET_EXT_LENGTH_SIGNED; lia).
  destruct (Z.eqb_spec (read_le32 (sliceZ p (extension_offset p) 4)) DFU_INIT_PACKET_USES_ECDS);
    cbn [negb]; [|split; [done|]; tauto].
  destruct (tc_hash' _) as [d|]; [|split; [done|]; by intros (_ & (? & ? & _) & _)].
  destruct (Z.eqb_spec (uECC_valid_public_key pk) 0); cbn [negb];
    [|split; [done|]; by intros (_ & (? & _ & ? & _) & _)].
  destruct (Z.eqb_spec (uECC_verify pk d (sliceZ p (extension_offset p + 40) 64)) 1) as [Hv|Hv]; cbn [negb orb].
  - destruct (Z.eqb_spec (read_le32 (sliceZ p (extension_offset p + 4) 4)) size); cbn [negb];
      [|split; [done|]; tauto].
    split; [|done]. intros _. split; [done|]. split; [|done]. by exists d.
  - split; [done|]. intros (_ & (d' & [= <-] & _ & ?) & _). done.
Qed.

(** C11: in a signed build nothing is installed that the key did not sign. If a
    transfer passes [dfu_init_prevalidate] for the length START declared and its
    image then passes [dfu_init_postvalidate], the packet names the ECDS
    scheme, its signature verifies over a prefix that contains the image
    length and the image hash, the declared length, the signed length and the
    received length are equal, and the image's hash is the signed one. *)
Theorem signed_chain fl st st' p len ty size image image_len crc :
  bytes p -> len <= lenZ p ->
  pre true fl st (Some p) len ty size = (NRF_SUCCESS, st') ->
  post true st' image image_len true = (NRF_SUCCESS, Some crc) ->
  field32 p (extension_offset p) = DFU_INIT_PACKET_USES_ECDS /\
  signature_verifies p /\
  sliceZ (signed_message p) (extension_offset p + 8) 32 = signed_image_hash p /\
  sliceZ (signed_message p) (extension_offset p + 4) 4 = sliceZ p (extension_offset p + 4) 4 /\
  signed_length p = size /\ image_len = size /\
  (exists digest, tc_hash' (sliceZ image 0 image_len) = Some digest /\
     sliceZ digest 0 32 = signed_image_hash p) /\
  crc = crc16_compute (sliceZ image 0 image_len) None.
Proof.
  intros Hb Hlen Hpre Hpost.
  apply prevalidate_success in Hpre as (Hok & _ & _ & -> & Hsig); [|done].
  pose proof Hok as (Hc & Hl & _). cbn [required_extended_length] in Hsig, Hl, Hpost.
  unfold DFU_INIT_PACKET_EXT_LENGTH_MAX in *.
  specialize (Hsig eq_refl). apply prevalidate_signature_success in Hsig as (Hid & Hver & Hsz); [|done..].
  split; [done|]. split; [done|].
  assert (0 <= extension_offset p) by (unfold extension_offset, OFF_softdevice in *; lia).
  fold (extension_offset p) in Hl.
  assert (forall o n, 0 <= o -> 0 <= n -> o + n <= 40 -> 
    sliceZ (signed_message p) (extension_offset p + o) n = sliceZ p (extension_offset p + o) n) as Hin.
  { intros o n ???. unfold signed_message, sliceZ. cbn [Z.to_nat drop].
    rewrite skipn_firstn_comm, firstn_firstn. f_equal. lia. }
  split; [by apply Hin|]. split; [by apply Hin|]. split; [done|].
  unfold dfu_init_postvalidate in Hpost. cbn [negb m_extended_packet] in Hpost.
  pose proof (stored_field true st p) as Hst. cbn [required_extended_length] in Hst.
  unfold DFU_INIT_PACKET_EXT_LENGTH_MAX in Hst. unfold field32 in Hpost.
  rewrite !Hst in Hpost by (unfold DFU_INIT_PACKET_POS_EXT_IMAGE_LENGTH, DFU_INIT_PACKET_POS_EXT_IMAGE_HASH256, DFU_SHA256_DIGEST_LENGTH; done || lia).
  destruct (negb _) eqn:E1 in Hpost; [done|]. destruct (tc_hash' _) as [d|] eqn:Ed; [|done].
  destruct (negb _) eqn:E2 in Hpost; [done|]. injection Hpost as <-. bool_cases. apply bytes_eqb_eq in E2.
  split; [by rewrite E1, <- Hsz|]. split; [|done]. by exists d.
Qed.

(** An unsigned transfer is accepted on exactly its CRC: after a successful
    [dfu_init_prevalidate], [dfu_init_postvalidate] succeeds iff the CRC-16 of
    the received image is the one behind the packet's SoftDevice list, and the
    CRC it reports for the bootloader settings is that value. *)
Theorem unsigned_crc_exact fl st st' p len ty size image image_len r :
  bytes p -> len <= lenZ p ->
  pre false fl st (Some p) len ty size = (NRF_SUCCESS, st') ->
  post false st' image image_len true = (NRF_SUCCESS, r) <->
  crc16_compute (sliceZ image 0 image_len) None = field16 p (extension_offset p) /\
  r = Some (field16 p (extension_offset p)).
Proof.
  intros Hb Hlen Hpre.
  apply prevalidate_success in Hpre as ((Hc & Hl & _) & _ & _ & -> & _); [|done].
  unfold dfu_init_postvalidate. cbn [negb m_extended_packet].
  pose proof (stored_field false st p 0 2) as Hst. fold (extension_offset p) in Hl.
  cbn [required_extended_length] in Hst, Hl |- *. unfold DFU_INIT_PACKET_EXT_LENGTH_MIN in *.
  unfold field16 at 1. rewrite Hst by (done || lia). rewrite Z.add_0_r. fold (field16 p (extension_offset p)).
  destruct (Z.eqb_spec (crc16_compute (sliceZ image 0 image_len) None) (field16 p (extension_offset p))) as [E|E]; cbn [negb].
  - rewrite E. split; [intros [= <-]; done|]. by intros [_ ->].
  - split; [done|]. tauto.
Qed.
End Chain.

(** The init packet's checks in both builds. *)
Section Exact.
Context {tc_state : Type} (tc_sha256_init : option tc_state)
  (tc_sha256_update : tc_state -> list Z -> option tc_state)
  (tc_sha256_final : tc_state -> option (list Z))
  (uECC_valid_public_key : list Z -> Z) (uECC_verify : list Z -> list Z -> list Z -> Z)
  (m : mcu) (pk : list Z).

(** C37: [dfu_init_prevalidate] accepts a packet exactly when its SoftDevice
    list and extension fill it up to at most three padding bytes, the device
    type is Adafruit's, a SoftDevice or bootloader update names this MCU's
    revision, the list contains the installed SoftDevice or the wildcard, and,
    in a signed build, the ECDS extension verifies and signs the declared
    length. *)
Theorem prevalidate_exact signed fl st p len ty size :
  bytes p -> len <= lenZ p ->
  fst (dfu_init_prevalidate tc_sha256_init tc_sha256_update tc_sha256_final uECC_valid_public_key
         uECC_verify m signed pk fl st (Some p) len ty size) = NRF_SUCCESS <->
  packet_lengths_ok signed p len /\ device_ok m p ty /\ softdevice_listed fl p /\
  (signed = true ->
     field32 p (extension_offset p) = DFU_INIT_PACKET_USES_ECDS /\
     signature_verifies tc_sha256_init tc_sha256_update tc_sha256_final uECC_valid_public_key uECC_verify pk p /\
     signed_length p = size).
Proof.
  intros Hb Hlen. set (r := dfu_init_prevalidate _ _ _ _ _ _ _ _ _ _ _ _ _ _).
  split.
  - destruct r as [e st'] eqn:E; cbn [fst]. intros ->.
    apply prevalidate_success in E as (H1 & H2 & H3 & -> & H4); [|done].
    split; [done|]. split; [done|]. split; [done|]. intros ->. specialize (H4 eq_refl).
    by apply prevalidate_signature_success in H4.
  - intros (H1 & H2 & H3 & H4).
    enough (exists st', r = (NRF_SUCCESS, st')) as [? ->] by done.
    eexists. apply prevalidate_success; [done|].
    split; [done|]. split; [done|]. split; [done|]. split; [done|].
    intros ->. apply prevalidate_signature_success; auto.
Qed.
End Exact.

(** * Concrete packets *)

(** A toy hash and a "signature" that is the digest itself: enough to run the
    signed path, with the packet built so that it verifies. *)
Definition toy_hash (msg : list Z) : list Z :=
  replicate 30 0 ++ bytes16 (crc16_compute msg None).
Definition toy_verify (pk digest sig : list Z) : Z :=
  if bytes_eqb (digest ++ pk) sig then 1 else 0.
Definition toy_pk : list Z := replicate 32 7.
Definition toy_image : list Z := [1; 2; 3; 4; 5; 6; 7; 8].
Definition toy_signed_part : list Z :=
  bytes16 0x52 ++ bytes16 52840 ++ bytes32 0 ++ bytes16 1 ++ bytes16 0xFFFE ++
  bytes32 2 ++ bytes32 8 ++ toy_hash toy_image.
Definition toy_packet : list Z := toy_signed_part ++ toy_hash toy_signed_part ++ toy_pk.

Definition toy_unsigned : list Z :=
  bytes16 0x52 ++ bytes16 52840 ++ bytes32 0 ++ bytes16 2 ++ bytes16 0x1234 ++ bytes16 0xB6 ++
  bytes16 (crc16_compute toy_image None).

Lemma signed_chain_witness :
  signed_length toy_packet = 8 /\ toy_hash toy_image = signed_image_hash toy_packet.
Proof.
  destruct (signed_chain (Some []) (fun s d => Some (s ++ d)) (fun s => Some (toy_hash s)) (fun _ => 0)
    toy_verify NRF52840 toy_pk demo_flash init_state0
    (mk_init (drop 12 toy_packet) 104) toy_packet (lenZ toy_packet) 3 8
    toy_image 8 (crc16_compute toy_image None)) as (_ & _ & _ & _ & H1 & _ & (d & H2 & H3) & _).
  - apply bytes_by_forallb. vm_compute. reflexivity.
  - vm_compute. discriminate.
  - vm_compute. reflexivity.
  - vm_compute. reflexivity.
  - split; [exact H1|]. rewrite <- H3. injection H2 as <-. vm_compute. reflexivity.
Defined.

Lemma unsigned_crc_exact_witness :
  dfu_init_postvalidate (Some []) (fun s d => Some (s ++ d)) (fun s => Some (toy_hash s)) false
    (mk_init (bytes16 (crc16_compute toy_image None) ++ replicate 102 0) 2) toy_image 8 true =
  (NRF_SUCCESS, Some (field16 toy_unsigned (extension_offset toy_unsigned))).
Proof.
  apply (unsigned_crc_exact (Some []) (fun s d => Some (s ++ d)) (fun s => Some (toy_hash s)) (fun _ => 0)
    toy_verify NRF52840 toy_pk demo_flash init_state0 _ toy_unsigned (lenZ toy_unsigned) 4 8).
  - apply bytes_by_forallb. vm_compute. reflexivity.
  - vm_compute. discriminate.
  - vm_compute. reflexivity.
  - vm_compute. split; reflexivity.
Defined.

Lemma prevalidate_exact_witness :
  packet_lengths_ok true toy_packet (lenZ toy_packet) /\ device_ok NRF52840 toy_packet 3.
Proof.
  destruct (prevalidate_exact (Some []) (fun s d => Some (s ++ d)) (fun s => Some (toy_hash s)) (fun _ => 0)
    toy_verify NRF52840 toy_pk true demo_flash init_state0 toy_packet (lenZ toy_packet) 3 8) as [H _].
  - apply bytes_by_forallb. vm_compute. reflexivity.
  - vm_compute. discriminate.
  - destruct H as (H1 & H2 & _); [vm_compute; reflexivity|]. split; [exact H1 | exact H2].
Defined.
