(* ===== verification/FlashNrf5x.v ===== *)
(** The page-cached flash writer: [src/flash_nrf5x.c].  One flash page is
    staged in RAM ([_fl_addr], [_fl_buf]); a write moves through it and
    programs the previous page when it leaves it. *)
From S2P Require Import Prelude Nvm BootImage DfuTypes.

Definition FLASH_CACHE_INVALID_ADDR : Z := 0xFFFFFFFF.

Record flash_state := mk_flash { fmem : mem; fl_addr : Z; fl_buf : list Z }.
Definition flash_state0 (m : mem) : flash_state :=
  mk_flash m FLASH_CACHE_INVALID_ADDR (replicate 4096 0).

Section Flash.
Context `{Nvmc}.

Definition flash_nrf5x_discard (st : flash_state) : flash_state :=
  mk_flash (fmem st) FLASH_CACHE_INVALID_ADDR (fl_buf st).

Definition page_of (a : Z) : Z := Z.land a (~32 (CODE_PAGE_SIZE - 1))%c.
Definition ceil_div (a b : Z) : Z := (a + b - 1) / b.

(** [page_count] iterations from index [i]. *)
Fixpoint erase_pages (m : mem) (page_addr i : Z) (page_count : nat) : mem :=
  match page_count with
  | O => m
  | S n => erase_pages (nvmc_page_erase m (u32 (page_addr + i * CODE_PAGE_SIZE))) page_addr (i + 1) n
  end.

Definition flash_nrf5x_erase (st : flash_state) (dst len : Z) : flash_state :=
  let page_count := ceil_div len CODE_PAGE_SIZE in
  mk_flash (erase_pages (fmem st) (page_of dst) 0 (Z.to_nat page_count)) (fl_addr st) (fl_buf st).

(** The 256-byte writes from [offset] on; [n] are left. *)
Fixpoint write_chunks (m : mem) (addr : Z) (buf : list Z) (offset : Z) (n : nat) : mem :=
  match n with
  | O => m
  | S n => write_chunks (nvmc_words_write m (u32 (addr + offset)) (sliceZ buf offset 256)) addr buf
             (offset + 256) n
  end.

Definition flash_nrf5x_flush (st : flash_state) (need_erase : bool) : flash_state :=
  if fl_addr st =? FLASH_CACHE_INVALID_ADDR then st
  else
    let m := fmem st in
    let m :=
      if negb (bytes_eqb (fl_buf st) (mem_read m (fl_addr st) CODE_PAGE_SIZE)) then
        let m := if need_erase then nvmc_page_erase m (fl_addr st) else m in
        write_chunks m (fl_addr st) (fl_buf st) 0 (Z.to_nat (CODE_PAGE_SIZE / 256))
      else m in
    mk_flash m FLASH_CACHE_INVALID_ADDR (fl_buf st).

(** The body of the loop before the copy: the cache moved to [page_addr]. *)
Definition select_page (st : flash_state) (page_addr : Z) (need_erase : bool) : flash_state :=
  if negb (page_addr =? fl_addr st) then
    let st := flash_nrf5x_flush st need_erase in
    mk_flash (fmem st) page_addr (mem_read (fmem st) page_addr CODE_PAGE_SIZE)
  else st.

(** The loop; every round consumes at least one byte, so [len] rounds are
    enough. *)
Fixpoint flash_write_loop (fuel : nat) (st : flash_state) (dst : Z) (src : list Z) (len : Z)
    (need_erase : bool) : flash_state :=
  match fuel with
  | O => st
  | S fuel =>
    if len >? 0 then
      let page_addr := page_of dst in
      let st := select_page st page_addr need_erase in
      let offset_in_page := Z.land dst (CODE_PAGE_SIZE - 1) in
      let bytes_to_end := CODE_PAGE_SIZE - offset_in_page in
      let max_bytes := if bytes_to_end <? len then bytes_to_end else len in
      let st := mk_flash (fmem st) (fl_addr st) (put (fl_buf st) offset_in_page (sliceZ src 0 max_bytes)) in
      flash_write_loop fuel st (u32 (dst + max_bytes)) (drop (Z.to_nat max_bytes) src) (len - max_bytes) need_erase
    else st
  end.

Definition flash_nrf5x_write (st : flash_state) (dst : Z) (src : list Z) (len : Z) (need_erase : bool) : flash_state :=
  flash_write_loop (Z.to_nat len) st dst src len need_erase.

Definition flash_nrf5x_write_erased (st : flash_state) (dst : Z) (src : list Z) (len : Z) : flash_state :=
  mk_flash (nvmc_words_write (fmem st) dst (sliceZ src 0 (len / 4 * 4))) (fl_addr st) (fl_buf st).

Definition flash_nrf5x_invalidate_app_settings (mc : mcu) (st : flash_state) : flash_state :=
  mk_flash (nvmc_words_write (fmem st) (BOOTLOADER_SETTINGS_ADDRESS mc) (bytes32 0)) (fl_addr st) (fl_buf st).

(** * The view through the cache *)

(** What the flash will hold once the cache is flushed. *)
Definition view (st : flash_state) (x : Z) : Z :=
  if negb (fl_addr st =? FLASH_CACHE_INVALID_ADDR) && (fl_addr st <=? x) && (x <? fl_addr st + PAGE)
  then nthZ (fl_buf st) (x - fl_addr st) else fmem st x.

(** The staged page is a page of a non-wrapping address, and without an erase
    its bytes can be programmed over what the flash holds. *)
Definition cache_ok (need_erase : bool) (st : flash_state) : Prop :=
  (forall x, 0 <= fmem st x < 256) /\ bytes (fl_buf st) /\
  (fl_addr st = FLASH_CACHE_INVALID_ADDR \/
   (0 <= fl_addr st /\ fl_addr st + PAGE <= 2 ^ 32 /\ fl_addr st mod PAGE = 0 /\ lenZ (fl_buf st) = PAGE /\
    (need_erase = false -> forall i, 0 <= i < PAGE ->
       fmem st (fl_addr st + i) = 255 \/ nthZ (fl_buf st) i = fmem st (fl_addr st + i)))).

Lemma page_of_eq a : 0 <= a < 2 ^ 32 -> page_of a = a - a mod PAGE.
Proof. apply (land_not_mask a 12). lia. Qed.

Lemma write_chunks_spec n : forall m addr buf offset x,
  addr mod PAGE = 0 -> offset mod 256 = 0 -> 0 <= addr -> 0 <= offset -> addr + PAGE <= 2 ^ 32 ->
  lenZ buf = PAGE -> offset + 256 * Z.of_nat n = PAGE ->
  write_chunks m addr buf offset n x =
    if (addr + offset <=? x) && (x <? addr + PAGE) then Z.land (m x) (nthZ buf (x - addr)) else m x.
Proof.
  induction n as [|n IH]; intros m addr buf offset x Ha Ho H0 H0' H32 Hl Hn; cbn [write_chunks].
  { range_case; [|done]. lia. }
  assert (lenZ (sliceZ buf offset 256) = 256) as Hs by (rewrite lenZ_sliceZ; lia).
  rewrite IH by (done || lia || (unfold PAGE in *; zlia)).
  rewrite u32_small by lia.
  rewrite words_write_spec, Hs by (try rewrite Hs; unfold PAGE in *; zlia).
  repeat range_case; try done; try lia.
  rewrite nthZ_sliceZ by lia. do 2 f_equal. lia.
Qed.

Lemma land_bytes_255 b : is_byte b -> Z.land 255 b = b.
Proof. intros. rewrite Z.land_comm, land_255. apply Z.mod_small. done. Qed.

(** A flush makes the flash equal to the view and empties the cache. *)
Lemma flush_spec ne st : cache_ok ne st ->
  (forall x, fmem (flash_nrf5x_flush st ne) x = view st x) /\
  (forall x, 0 <= fmem (flash_nrf5x_flush st ne) x < 256) /\
  fl_addr (flash_nrf5x_flush st ne) = FLASH_CACHE_INVALID_ADDR /\
  fl_buf (flash_nrf5x_flush st ne) = fl_buf st.
Proof.
  intros (Hm & Hb & Hc). unfold flash_nrf5x_flush, view.
  destruct (Z.eqb_spec (fl_addr st) FLASH_CACHE_INVALID_ADDR) as [E|E]; cbn [negb andb]; [auto|].
  destruct Hc as [?|(H0 & H32 & Ha & Hl & Hp)]; [done|]. cbn [fmem fl_addr fl_buf].
  match goal with |- (forall x, ?m x = _) /\ _ => assert (forall x, m x =
    (if (fl_addr st <=? x) && (x <? fl_addr st + PAGE) then nthZ (fl_buf st) (x - fl_addr st) else fmem st x)) as Hw end.
  2: { split; [done|]. split; [|done]. intros x. rewrite Hw. range_case; [|done].
       by apply nthZ_byte. }
  intros x. destruct (bytes_eqb _ _) eqn:Heq; cbn [negb].
  - apply bytes_eqb_eq in Heq. range_case; [|done]. rewrite Heq, nthZ_mem_read by (unfold PAGE, CODE_PAGE_SIZE in *; lia).
    f_equal. lia.
  - rewrite write_chunks_spec by (done || lia). rewrite Z.add_0_r. destruct ne.
    + rewrite page_erase_spec by done. range_case; [|done]. apply land_bytes_255. by apply nthZ_byte.
    + range_case; [|done]. destruct (Hp eq_refl (x - fl_addr st)) as [Hx|Hx]; [lia|..];
        replace (fl_addr st + (x - fl_addr st)) with x in Hx by lia; rewrite Hx.
      * apply land_bytes_255. by apply nthZ_byte.
      * apply Z.land_diag.
Qed.

(** Moving the cache flushes the old page and loads the new one: the view does
    not change. *)
Lemma select_page_spec ne st a :
  cache_ok ne st -> 0 <= a < 2 ^ 32 ->
  let st' := select_page st (page_of a) ne in
  cache_ok ne st' /\ fl_addr st' = a - a mod PAGE /\ (forall x, view st' x = view st x) /\
  (forall x, fmem st x = 255 -> view st x = 255 -> fmem st' x = 255).
Proof.
  intros Hok Ha. unfold select_page. rewrite page_of_eq by done.
  destruct (Z.eqb_spec (a - a mod PAGE) (fl_addr st)) as [E|E]; cbn [negb]; [auto|].
  pose proof (flush_spec ne st Hok) as (Hf & Hr & Hia & Hbuf). cbn zeta.
  set (st1 := flash_nrf5x_flush st ne) in *.
  assert (lenZ (mem_read (fmem st1) (a - a mod PAGE) CODE_PAGE_SIZE) = PAGE) as Hl by by rewrite lenZ_mem_read.
  assert (forall i, 0 <= i < PAGE ->
    nthZ (mem_read (fmem st1) (a - a mod PAGE) CODE_PAGE_SIZE) i = fmem st1 (a - a mod PAGE + i)) as Hn.
  { intros. by rewrite nthZ_mem_read by (unfold PAGE, CODE_PAGE_SIZE in *; lia). }
  split; [|split; [done|split]].
  - split; [done|]. cbn [fmem fl_addr fl_buf]. split.
    + apply Forall_forall. intros b Hb. unfold mem_read in Hb. apply in_map_iff in Hb as (i & <- & _).
      unfold is_byte. apply Hr.
    + right. unfold PAGE in *. split; [zlia|]. split; [zlia|]. split; [zlia|]. split; [done|]. auto.
  - intros x. rewrite <- Hf. unfold view. cbn [fmem fl_addr fl_buf].
    destruct (negb _); cbn [andb]; [|done]. range_case; [|done]. rewrite Hn by lia. f_equal. lia.
  - intros x _ Hv. cbn [fmem]. by rewrite Hf.
Qed.

(** Copying into the staged page changes the view there and nowhere else. *)
Lemma put_view ne st dst s :
  cache_ok ne st -> 0 <= dst < 2 ^ 32 -> fl_addr st = dst - dst mod PAGE ->
  bytes s -> dst mod PAGE + lenZ s <= PAGE ->
  (ne = false -> forall x, dst <= x < dst + lenZ s -> fmem st x = 255) ->
  let st' := mk_flash (fmem st) (fl_addr st) (put (fl_buf st) (dst mod PAGE) s) in
  cache_ok ne st' /\
  (forall x, view st' x = if (dst <=? x) && (x <? dst + lenZ s) then nthZ s (x - dst) else view st x).
Proof.
  intros (Hm & Hb & Hc) Hd Ha Hs Hl He. pose proof (lenZ_nonneg s) as Hs0.
  pose proof (Z.mod_pos_bound dst PAGE ltac:(done)) as Hmod.
  destruct Hc as [Hc|(H0 & H32 & Hal & Hbl & Hp)].
  { unfold FLASH_CACHE_INVALID_ADDR, PAGE in *. exfalso. zlia. }
  assert (fl_addr st <> FLASH_CACHE_INVALID_ADDR) as Hv by (unfold FLASH_CACHE_INVALID_ADDR, PAGE in *; zlia).
  assert (forall i, 0 <= i -> nthZ (put (fl_buf st) (dst mod PAGE) s) i =
    if (dst mod PAGE <=? i) && (i <? dst mod PAGE + lenZ s) then nthZ s (i - dst mod PAGE) else nthZ (fl_buf st) i) as Hn
    by (intros; apply nthZ_put; lia).
  split.
  - split; [done|]. cbn [fmem fl_addr fl_buf]. split.
    + unfold put. rewrite !Forall_app. split; [by apply Forall_take|]. split; [done|]. by apply Forall_drop.
    + right. split; [done|]. split; [done|]. split; [done|]. split; [rewrite lenZ_put; lia|].
      intros Hne i Hi. rewrite Hn by lia. range_case; [|by apply Hp].
      left. apply He; [done|]. lia.
  - intros x. unfold view. cbn [fmem fl_addr fl_buf].
    destruct (Z.eqb_spec (fl_addr st) FLASH_CACHE_INVALID_ADDR); [done|]. cbn [negb andb].
    destruct ((fl_addr st <=? x) && (x <? fl_addr st + PAGE)) eqn:Hp1.
    + apply in_range_dec in Hp1. rewrite Hn by lia. repeat range_case; try done; try lia. f_equal. lia.
    + apply not_in_range in Hp1. range_case; [|done]. lia.
Qed.

Lemma flash_write_loop_spec ne fuel : forall st dst src len,
  cache_ok ne st -> 0 <= dst -> len <= Z.of_nat fuel -> 0 <= len -> dst + len <= 2 ^ 32 -> bytes src -> len <= lenZ src ->
  (ne = false -> forall x, dst <= x < dst + len -> fmem st x = 255 /\ view st x = 255) ->
  let st' := flash_write_loop fuel st dst src len ne in
  cache_ok ne st' /\
  (forall x, view st' x = if (dst <=? x) && (x <? dst + len) then nthZ src (x - dst) else view st x) /\
  (forall x, fmem st x = 255 -> view st x = 255 -> ~ (dst <= x < dst + len) -> fmem st' x = 255).
Proof.
  induction fuel as [|fuel IH]; intros st dst src len Hok Hd Hf Hl H32 Hs Hls He; cbn [flash_write_loop].
  { split; [done|]. split; [|done]. intros x. range_case; [|done]. lia. }
  rewrite Z.gtb_ltb. destruct (Z.ltb_spec 0 len).
  2: { split; [done|]. split; [|done]. intros x. range_case; [|done]. lia. }
  cbn zeta. set (st1 := select_page st (page_of dst) ne).
  destruct (select_page_spec ne st dst Hok) as (Hok1 & Ha1 & Hv1 & Hm1); [lia|]. fold st1 in Hok1, Ha1, Hv1, Hm1.
  change (CODE_PAGE_SIZE - 1) with 4095. rewrite land_4095. change (dst mod 4096) with (dst mod PAGE).
  change CODE_PAGE_SIZE with PAGE.
  pose proof (Z.mod_pos_bound dst PAGE ltac:(done)) as Hmod.
  set (mx := if PAGE - dst mod PAGE <? len then PAGE - dst mod PAGE else len).
  assert (1 <= mx <= len /\ mx <= PAGE - dst mod PAGE) as Hmx.
  { unfold mx. destruct (Z.ltb_spec (PAGE - dst mod PAGE) len); lia. }
  clearbody mx.
  assert (lenZ (sliceZ src 0 mx) = mx) as Hsl by (rewrite lenZ_sliceZ; lia).
  destruct (put_view ne st1 dst (sliceZ src 0 mx)) as (Hok2 & Hv2); try done; try lia.
  { by apply sliceZ_bytes. }
  { intros Hne x Hx. rewrite Hsl in Hx. apply Hm1; apply (He Hne x); lia. }
  set (st2 := mk_flash _ _ _) in *. rewrite Hsl in Hv2.
  assert (flash_write_loop fuel st2 (u32 (dst + mx)) (drop (Z.to_nat mx) src) (len - mx) ne =
          flash_write_loop fuel st2 (dst + mx) (drop (Z.to_nat mx) src) (len - mx) ne) as ->.
  { destruct (decide (dst + mx = 2 ^ 32)) as [E|]; [|by rewrite u32_small by lia].
    destruct fuel; cbn [flash_write_loop]; [done|]. replace (len - mx >? 0) with false; [done|].
    symmetry. rewrite Z.gtb_ltb. apply Z.ltb_ge. lia. }
  destruct (IH st2 (dst + mx) (drop (Z.to_nat mx) src) (len - mx)) as (Hok3 & Hv3 & Hm3); try done; try lia.
  { by apply Forall_drop. }
  { unfold lenZ in *. rewrite length_drop. lia. }
  { intros Hne x Hx. split.
    - apply Hm1; apply (He Hne x); lia.
    - rewrite Hv2, Hv1. range_case; [lia|]. apply (He Hne x). lia. }
  split; [done|]. split.
  - intros x. rewrite Hv3, Hv2, Hv1. repeat range_case; try done; try lia.
    + unfold nthZ. rewrite !nth_lookup, lookup_drop. do 2 f_equal. lia.
    + rewrite nthZ_sliceZ by lia. done.
  - intros x Hx Hvx Hnx. apply Hm3; [by apply Hm1| |lia]. rewrite Hv2, Hv1. range_case; [lia|done].
Qed.

(** Writes at or above a page boundary [low] leave everything below it alone. *)
Lemma flash_write_below ne low fuel : forall st dst src len,
  cache_ok ne st -> low mod PAGE = 0 -> 0 <= low <= dst -> dst + len <= 2 ^ 32 -> len <= Z.of_nat fuel ->
  0 <= len <= lenZ src -> bytes src ->
  (ne = false -> forall x, dst <= x < dst + len -> fmem st x = 255 /\ view st x = 255) ->
  (fl_addr st = FLASH_CACHE_INVALID_ADDR \/ low <= fl_addr st) ->
  let st' := flash_write_loop fuel st dst src len ne in
  (forall x, x < low -> fmem st' x = fmem st x) /\
  (fl_addr st' = FLASH_CACHE_INVALID_ADDR \/ low <= fl_addr st').
Proof.
  induction fuel as [|fuel IH]; intros st dst src len Hok Ha Hd H32 Hf Hl Hs He Hc; cbn [flash_write_loop].
  { split; [done|done]. }
  rewrite Z.gtb_ltb. destruct (Z.ltb_spec 0 len); [|split; done].
  cbn zeta. change (CODE_PAGE_SIZE - 1) with 4095. rewrite land_4095. change (dst mod 4096) with (dst mod PAGE).
  change CODE_PAGE_SIZE with PAGE.
  pose proof (Z.mod_pos_bound dst PAGE ltac:(done)) as Hmod.
  set (mx := if PAGE - dst mod PAGE <? len then PAGE - dst mod PAGE else len).
  assert (1 <= mx <= len /\ mx <= PAGE - dst mod PAGE) as Hmx.
  { unfold mx. destruct (Z.ltb_spec (PAGE - dst mod PAGE) len); lia. }
  clearbody mx. set (st1 := select_page st (page_of dst) ne).
  destruct (select_page_spec ne st dst Hok) as (Hok1 & Ha1 & Hv1 & Hm1); [lia|]. fold st1 in Hok1, Ha1, Hv1, Hm1.
  assert (forall x, x < low -> fmem st1 x = fmem st x) as Hb1.
  { intros x Hx. unfold st1, select_page. destruct (negb _); [|done]. cbn [fmem].
    destruct (flush_spec ne st Hok) as (Hfl & _). rewrite Hfl. unfold view.
    destruct (Z.eqb_spec (fl_addr st) FLASH_CACHE_INVALID_ADDR); [done|]. cbn [negb andb].
    range_case; [|done]. destruct Hc; [done|lia]. }
  destruct (put_view ne st1 dst (sliceZ src 0 mx)) as (Hok2 & Hv2); try done; try lia.
  { by apply sliceZ_bytes. }
  { rewrite lenZ_sliceZ; lia. }
  { intros Hne x Hx. rewrite lenZ_sliceZ in Hx by lia. apply Hm1; apply (He Hne x); lia. }
  rewrite lenZ_sliceZ in Hv2 by lia. set (st2 := mk_flash _ _ _) in *.
  destruct (decide (len - mx = 0)) as [E|E].
  { destruct fuel; cbn [flash_write_loop]; [split; [exact Hb1|right; cbn; unfold PAGE in *; zlia]|].
    replace (len - mx >? 0) with false by (symmetry; rewrite Z.gtb_ltb; apply Z.ltb_ge; lia).
    split; [exact Hb1|right; cbn; unfold PAGE in *; zlia]. }
  rewrite u32_small by lia.
  destruct (IH st2 (dst + mx) (drop (Z.to_nat mx) src) (len - mx)) as (Hb3 & Hc3); try done; try lia.
  { unfold lenZ in *. rewrite length_drop. lia. }
  { by apply Forall_drop. }
  { intros Hne x Hx. split.
    - apply Hm1; apply (He Hne x); lia.
    - rewrite Hv2, Hv1. range_case; [lia|]. apply (He Hne x). lia. }
  { right. cbn. unfold PAGE in *. zlia. }
  split; [|done]. intros x Hx. rewrite Hb3 by done. by apply Hb1.
Qed.

Lemma erase_pages_spec n : forall m page_addr i x,
  page_addr mod PAGE = 0 -> 0 <= i -> 0 <= page_addr -> page_addr + (i + Z.of_nat n) * PAGE <= 2 ^ 32 ->
  erase_pages m page_addr i n x =
    if (page_addr + i * PAGE <=? x) && (x <? page_addr + (i + Z.of_nat n) * PAGE) then 255 else m x.
Proof.
  induction n as [|n IH]; intros m pa i x Ha Hi Hp H32; cbn [erase_pages].
  { range_case; [lia|done]. }
  change CODE_PAGE_SIZE with PAGE.
  rewrite IH by lia. rewrite u32_small by (unfold PAGE in *; lia).
  rewrite page_erase_spec by (unfold PAGE in *; zlia).
  repeat range_case; try done; unfold PAGE in *; lia.
Qed.

(** A sequence of contiguous writes from [dst]. *)
Fixpoint write_all (st : flash_state) (dst : Z) (chunks : list (list Z)) (need_erase : bool) : flash_state :=
  match chunks with
  | [] => st
  | c :: cs => write_all (flash_nrf5x_write st dst c (lenZ c) need_erase) (dst + lenZ c) cs need_erase
  end.

Lemma write_all_spec ne chunks : forall st dst,
  cache_ok ne st -> 0 <= dst -> dst + lenZ (concat chunks) <= 2 ^ 32 -> Forall bytes chunks ->
  (ne = false -> forall x, dst <= x < dst + lenZ (concat chunks) -> fmem st x = 255 /\ view st x = 255) ->
  let st' := write_all st dst chunks ne in
  cache_ok ne st' /\
  (forall x, view st' x = if (dst <=? x) && (x <? dst + lenZ (concat chunks))
                          then nthZ (concat chunks) (x - dst) else view st x).
Proof.
  induction chunks as [|c cs IH]; intros st dst Hok Hd H32 Hb He; cbn [write_all concat] in *.
  { split; [done|]. intros x. rewrite lenZ_nil. range_case; [lia|done]. }
  rewrite lenZ_app in *. pose proof (lenZ_nonneg c). pose proof (lenZ_nonneg (concat cs)).
  inversion Hb as [|? ? Hbc Hbs]; subst.
  destruct (flash_write_loop_spec ne (Z.to_nat (lenZ c)) st dst c (lenZ c)) as (Hok1 & Hv1 & Hm1); try done; try lia.
  { intros Hne x Hx. apply (He Hne). lia. }
  unfold flash_nrf5x_write. set (st1 := flash_write_loop _ _ _ _ _ _) in *.
  destruct (IH st1 (dst + lenZ c)) as (Hok2 & Hv2); try done; try lia.
  { intros Hne x Hx. destruct (He Hne x) as (? & ?); [lia|]. split; [apply Hm1; (done || lia)|].
    rewrite Hv1. range_case; [lia|done]. }
  split; [done|]. intros x. rewrite Hv2, Hv1. repeat range_case; try done; try lia.
  - rewrite nthZ_app_r by lia. f_equal. lia.
  - by rewrite nthZ_app_l by lia.
Qed.

(** C39: the cached writer stores exactly what it is given. Whatever the sizes
    and alignment of the writes, a sequence of contiguous [flash_nrf5x_write]
    calls followed by [flash_nrf5x_flush] leaves the concatenated data in flash
    and every other byte as the flash and the cache held it, with no page left
    staged. Without [need_erase] the target must be erased beforehand. *)
Theorem flash_writes_refine ne st dst chunks :
  cache_ok ne st -> 0 <= dst -> dst + lenZ (concat chunks) <= 2 ^ 32 -> Forall bytes chunks ->
  (ne = false -> forall x, dst <= x < dst + lenZ (concat chunks) -> fmem st x = 255 /\ view st x = 255) ->
  let st' := flash_nrf5x_flush (write_all st dst chunks ne) ne in
  mem_read (fmem st') dst (lenZ (concat chunks)) = concat chunks /\
  (forall x, ~ (dst <= x < dst + lenZ (concat chunks)) -> fmem st' x = view st x) /\
  fl_addr st' = FLASH_CACHE_INVALID_ADDR.
Proof.
  intros Hok Hd H32 Hb He. destruct (write_all_spec ne chunks st dst Hok Hd H32 Hb He) as (Hok' & Hv).
  destruct (flush_spec ne _ Hok') as (Hf & _ & Hi & _). split; [|split; [|done]].
  - apply mem_read_eq. intros i Hx. rewrite Hf, Hv. range_case; [|lia]. f_equal. lia.
  - intros x Hx. rewrite Hf, Hv. range_case; [lia|done].
Qed.

(** preparing the bank and streaming an image into it, as the serial DFU
    path does: after [flash_nrf5x_erase] of the image's pages with an empty
    cache, any split of the image into contiguous writes without erase,
    followed by a flush, leaves the image at its address; only pages of the
    erased range changed. *)
Theorem erase_then_stream m dst chunks :
  (forall x, 0 <= m x < 256) -> 0 <= dst -> dst mod PAGE = 0 ->
  dst + ceil_div (lenZ (concat chunks)) PAGE * PAGE <= 2 ^ 32 -> Forall bytes chunks ->
  let st := flash_nrf5x_erase (flash_state0 m) dst (lenZ (concat chunks)) in
  let st' := flash_nrf5x_flush (write_all st dst chunks false) false in
  mem_read (fmem st') dst (lenZ (concat chunks)) = concat chunks /\
  (forall x, ~ (dst <= x < dst + ceil_div (lenZ (concat chunks)) PAGE * PAGE) -> fmem st' x = m x).
Proof.
  intros Hm Hd Ha H32 Hb. pose proof (lenZ_nonneg (concat chunks)) as Hl0.
  set (len := lenZ (concat chunks)) in *.
  assert (0 <= ceil_div len PAGE /\ len <= ceil_div len PAGE * PAGE) as (Hc0 & Hcl)
    by (unfold ceil_div, PAGE in *; zlia).
  assert (forall x, erase_pages m (page_of dst) 0 (Z.to_nat (ceil_div len CODE_PAGE_SIZE)) x =
    if (dst <=? x) && (x <? dst + ceil_div len PAGE * PAGE) then 255 else m x) as Her.
  { intros x. change CODE_PAGE_SIZE with PAGE.
    destruct (decide (ceil_div len PAGE = 0)) as [E|E].
    { rewrite E. cbn [Z.to_nat erase_pages]. range_case; [lia|done]. }
    rewrite page_of_eq by (unfold PAGE in *; lia). rewrite Ha, Z.sub_0_r.
    rewrite erase_pages_spec by lia. rewrite Z2Nat.id, Z.add_0_l, Z.add_0_r by done. done. }
  intros st.
  assert (forall x, fmem st x = if (dst <=? x) && (x <? dst + ceil_div len PAGE * PAGE) then 255 else m x) as Hst
    by exact Her.
  assert (cache_ok false st) as Hok.
  { split; [|split].
    - intros x. rewrite Hst. range_case; [lia|apply Hm].
    - apply Forall_replicate. unfold is_byte. lia.
    - by left. }
  assert (forall x, view st x = fmem st x) as Hview by done.
  destruct (write_all_spec false chunks st dst Hok Hd) as (Hok' & Hv); [fold len; lia|done| |].
  { intros _ x Hx. rewrite Hview, Hst. fold len in Hx. range_case; [done|lia]. }
  destruct (flush_spec false _ Hok') as (Hf & _). fold len in Hv. cbn zeta. split.
  - apply mem_read_eq. intros i Hx. rewrite Hf, Hv. fold len in Hx. range_case; [|lia]. f_equal. lia.
  - intros x Hx. rewrite Hf, Hv. range_case; [lia|]. rewrite Hview, Hst. range_case; [lia|done].
Qed.
End Flash.

#[local] Existing Instance nvmc_model.

Lemma flash_writes_refine_witness :
  mem_read (fmem (flash_nrf5x_flush (write_all (flash_state0 (fun _ => 7)) 0x1FFE [[1; 2; 3]; [4]] true) true)) 0x1FFE 4 =
  [1; 2; 3; 4].
Proof.
  destruct (flash_writes_refine true (flash_state0 (fun _ => 7)) 0x1FFE [[1; 2; 3]; [4]]) as (E & _ & _).
  - split; [intros; cbn; lia|]. split; [apply Forall_replicate; unfold is_byte; lia|]. by left.
  - lia.
  - vm_compute. discriminate.
  - repeat (constructor; [apply bytes_by_forallb; reflexivity|]); constructor.
  - discriminate.
  - exact E.
Defined.

Lemma erase_then_stream_witness :
  mem_read (fmem (flash_nrf5x_flush (write_all
    (flash_nrf5x_erase (flash_state0 (fun _ => 7)) 0x2000 4) 0x2000 [[1; 2; 3]; [4]] false) false)) 0x2000 4 =
  [1; 2; 3; 4].
Proof.
  apply (erase_then_stream (fun _ => 7) 0x2000 [[1; 2; 3]; [4]]); try reflexivity; try lia.
  - vm_compute. discriminate.
  - repeat (constructor; [apply bytes_by_forallb; reflexivity|]); constructor.
Defined.
