(* ===== verification/SingleBank.v ===== *)
(** The single-bank DFU engine: [lib/sdk11/.../dfu_single_bank.c] with the
    state machine of [dfu_bank_internal.h].  The file's statics are one state
    record; an operation returns the C result code and the new state, or
    [None] when it does not return (an [APP_ERROR_CHECK] on a failed call ends
    in the error handler, which resets the device).  Calls into the bootloader
    and into the transport's callback are recorded in [trace] in the order they
    are made. *)
From S2P Require Import Prelude Crc Nvm BootImage DfuTypes DfuPolicy DfuInit FlashNrf5x.

Inductive dfu_state :=
| DFU_STATE_INIT_ERROR | DFU_STATE_IDLE | DFU_STATE_PREPARING | DFU_STATE_RDY
| DFU_STATE_RX_INIT_PKT | DFU_STATE_RX_DATA_PKT | DFU_STATE_VALIDATE | DFU_STATE_WAIT_4_ACTIVATE.
#[global] Instance dfu_state_eq_dec : EqDecision dfu_state.
Proof. solve_decision. Defined.

(** [dfu_update_status_t], with the fields the engine assigns for each code. *)
Inductive dfu_update_status :=
| DFU_UPDATE_APP_COMPLETE (app_crc app_size : Z)
| DFU_UPDATE_SD_COMPLETE (app_crc sd_image_start sd_size bl_size app_size : Z)
| DFU_UPDATE_BOOT_COMPLETE (app_crc sd_size bl_size app_size : Z)
| DFU_BANK_0_ERASED
| DFU_TIMEOUT
| DFU_RESET (restart_into_bootloader : bool).

(** What the engine tells the rest of the bootloader, and the flash requests
    it makes. *)
Inductive dfu_output :=
| DataPktCb (packet result : Z)               (* m_data_pkt_cb *)
| UpdateProcess (status : dfu_update_status)  (* bootloader_dfu_update_process *)
| EraseRequest (address size : Z)             (* flash_nrf5x_erase / pstorage_clear *)
| StoreRequest (address : Z) (data : list Z). (* flash_nrf5x_write / pstorage_store *)

(** [m_functions.activate] *)
Inductive activate_func := Activate_none | Activate_sd | Activate_bl | Activate_app.

(** The lazy-erase bookkeeping shared with the storage module. *)
Record lazy_erase := mk_lazy {
  dfu_page_erased : option (list Z); dfu_image_page_count : Z; dfu_base_address : Z
}.

(** * What the engine calls *)

(** The raw persistent-storage module over the SoftDevice flash API, as
    [pstorage.h] presents it.  Completed requests are reported by [proc_soc] as
    (op code, result) in the order the callbacks are made. *)
Definition PSTORAGE_STORE_OP_CODE : Z := 1.
Definition PSTORAGE_CLEAR_OP_CODE : Z := 3.

Class PStorage := {
  ps : Type;
  pstorage_register : ps -> Z * ps;
  pstorage_clear : ps * lazy_erase * mem -> Z -> Z -> Z * (ps * lazy_erase * mem);
  pstorage_store : ps * lazy_erase * mem -> Z -> list Z -> Z -> Z -> Z * (ps * lazy_erase * mem);
  proc_soc : ps * lazy_erase * mem -> Z * (ps * lazy_erase * mem) * list (Z * Z)
}.

Record data_packet := mk_packet { packet_length : Z; word_aligned : bool; p_data_packet : list Z }.

Section Engine.
Context `{Nvmc, PStorage}.

Record sb_state := mk_sb {
  m_dfu_state : dfu_state; m_image_size : Z; m_start_packet : dfu_start_packet;
  m_init_packet : list Z; m_init_packet_length : Z; m_image_crc : Z;
  m_dfu_timed_out : bool; m_storage_handle_app : Z; mp_storage_handle_active : bool;
  m_data_pkt_cb : bool; m_activate : activate_func; m_data_received : Z;
  lazy : lazy_erase; dfu_page_erased_static : list Z;
  sb_init : init_state; sb_flash : flash_state; sb_ps : ps; trace : list dfu_output
}.

(** Field updates. *)
Definition set_state (s : dfu_state) (st : sb_state) : sb_state :=
  mk_sb s (m_image_size st) (m_start_packet st) (m_init_packet st) (m_init_packet_length st)
    (m_image_crc st) (m_dfu_timed_out st) (m_storage_handle_app st) (mp_storage_handle_active st)
    (m_data_pkt_cb st) (m_activate st) (m_data_received st) (lazy st) (dfu_page_erased_static st)
    (sb_init st) (sb_flash st) (sb_ps st) (trace st).
Definition set_received (n : Z) (st : sb_state) : sb_state :=
  mk_sb (m_dfu_state st) (m_image_size st) (m_start_packet st) (m_init_packet st) (m_init_packet_length st)
    (m_image_crc st) (m_dfu_timed_out st) (m_storage_handle_app st) (mp_storage_handle_active st)
    (m_data_pkt_cb st) (m_activate st) n (lazy st) (dfu_page_erased_static st)
    (sb_init st) (sb_flash st) (sb_ps st) (trace st).
Definition set_start (size : Z) (p : dfu_start_packet) (st : sb_state) : sb_state :=
  mk_sb (m_dfu_state st) size p (m_init_packet st) (m_init_packet_length st)
    (m_image_crc st) (m_dfu_timed_out st) (m_storage_handle_app st) (mp_storage_handle_active st)
    (m_data_pkt_cb st) (m_activate st) (m_data_received st) (lazy st) (dfu_page_erased_static st)
    (sb_init st) (sb_flash st) (sb_ps st) (trace st).
Definition set_init_packet (buf : list Z) (len : Z) (st : sb_state) : sb_state :=
  mk_sb (m_dfu_state st) (m_image_size st) (m_start_packet st) buf len
    (m_image_crc st) (m_dfu_timed_out st) (m_storage_handle_app st) (mp_storage_handle_active st)
    (m_data_pkt_cb st) (m_activate st) (m_data_received st) (lazy st) (dfu_page_erased_static st)
    (sb_init st) (sb_flash st) (sb_ps st) (trace st).
Definition set_init_state (i : init_state) (crc : Z) (st : sb_state) : sb_state :=
  mk_sb (m_dfu_state st) (m_image_size st) (m_start_packet st) (m_init_packet st) (m_init_packet_length st)
    crc (m_dfu_timed_out st) (m_storage_handle_app st) (mp_storage_handle_active st)
    (m_data_pkt_cb st) (m_activate st) (m_data_received st) (lazy st) (dfu_page_erased_static st)
    i (sb_flash st) (sb_ps st) (trace st).
Definition set_timed_out (st : sb_state) : sb_state :=
  mk_sb (m_dfu_state st) (m_image_size st) (m_start_packet st) (m_init_packet st) (m_init_packet_length st)
    (m_image_crc st) true (m_storage_handle_app st) (mp_storage_handle_active st)
    (m_data_pkt_cb st) (m_activate st) (m_data_received st) (lazy st) (dfu_page_erased_static st)
    (sb_init st) (sb_flash st) (sb_ps st) (trace st).
Definition set_activate (a : activate_func) (st : sb_state) : sb_state :=
  mk_sb (m_dfu_state st) (m_image_size st) (m_start_packet st) (m_init_packet st) (m_init_packet_length st)
    (m_image_crc st) (m_dfu_timed_out st) (m_storage_handle_app st) (mp_storage_handle_active st)
    (m_data_pkt_cb st) a (m_data_received st) (lazy st) (dfu_page_erased_static st)
    (sb_init st) (sb_flash st) (sb_ps st) (trace st).
Definition set_lazy (active : bool) (l : lazy_erase) (static : list Z) (st : sb_state) : sb_state :=
  mk_sb (m_dfu_state st) (m_image_size st) (m_start_packet st) (m_init_packet st) (m_init_packet_length st)
    (m_image_crc st) (m_dfu_timed_out st) (m_storage_handle_app st) active
    (m_data_pkt_cb st) (m_activate st) (m_data_received st) l static
    (sb_init st) (sb_flash st) (sb_ps st) (trace st).
Definition set_flash (f : flash_state) (st : sb_state) : sb_state :=
  mk_sb (m_dfu_state st) (m_image_size st) (m_start_packet st) (m_init_packet st) (m_init_packet_length st)
    (m_image_crc st) (m_dfu_timed_out st) (m_storage_handle_app st) (mp_storage_handle_active st)
    (m_data_pkt_cb st) (m_activate st) (m_data_received st) (lazy st) (dfu_page_erased_static st)
    (sb_init st) f (sb_ps st) (trace st).
(** The storage module's state, the lazy-erase globals and the flash bytes
    after a storage call. *)
Definition set_world (w : ps * lazy_erase * mem) (st : sb_state) : sb_state :=
  mk_sb (m_dfu_state st) (m_image_size st) (m_start_packet st) (m_init_packet st) (m_init_packet_length st)
    (m_image_crc st) (m_dfu_timed_out st) (m_storage_handle_app st) (mp_storage_handle_active st)
    (m_data_pkt_cb st) (m_activate st) (m_data_received st) (snd (fst w)) (dfu_page_erased_static st)
    (sb_init st) (mk_flash (snd w) (fl_addr (sb_flash st)) (fl_buf (sb_flash st))) (fst (fst w)) (trace st).
Definition emit (o : dfu_output) (st : sb_state) : sb_state :=
  mk_sb (m_dfu_state st) (m_image_size st) (m_start_packet st) (m_init_packet st) (m_init_packet_length st)
    (m_image_crc st) (m_dfu_timed_out st) (m_storage_handle_app st) (mp_storage_handle_active st)
    (m_data_pkt_cb st) (m_activate st) (m_data_received st) (lazy st) (dfu_page_erased_static st)
    (sb_init st) (sb_flash st) (sb_ps st) (trace st ++ [o]).
Definition world (st : sb_state) : ps * lazy_erase * mem := (sb_ps st, lazy st, fmem (sb_flash st)).
Definition sb_word (st : sb_state) : flash := mem_word (fmem (sb_flash st)).

(** The build ([SIGNED_FW], the policy identity, [DFU_APP_DATA_RESERVED]), the
    transport ([is_ota]), the crypto library and the timer module's results. *)
Context (SIGNED_FW : bool) (build : policy_build) (DFU_APP_DATA_RESERVED : Z) (is_ota : bool).
Context {tc_state : Type} (tc_sha256_init : option tc_state)
  (tc_sha256_update : tc_state -> list Z -> option tc_state)
  (tc_sha256_final : tc_state -> option (list Z))
  (uECC_valid_public_key : list Z -> Z) (uECC_verify : list Z -> list Z -> list Z -> Z) (pk : list Z).
Context (app_timer_create app_timer_stop app_timer_start : sb_state -> Z).

Definition APP_ERROR_CHECK (err : Z) : option unit := if err =? NRF_SUCCESS then Some tt else None.

Definition data_pkt_cb (packet result : Z) (st : sb_state) : sb_state :=
  if m_data_pkt_cb st then emit (DataPktCb packet result) st else st.

(** [m_functions.cleared]: always [dfu_cleared_func_app]. *)
Definition dfu_cleared_func_app (st : sb_state) : sb_state := emit (UpdateProcess DFU_BANK_0_ERASED) st.

(** [dfu_page_erased[0] = 1] when a lazy erase is set up. *)
Definition mark_first_page (l : lazy_erase) : lazy_erase :=
  match dfu_page_erased l with
  | Some e => if dfu_image_page_count l >? 0
              then mk_lazy (Some (put e 0 [1])) (dfu_image_page_count l) (dfu_base_address l) else l
  | None => l
  end.

Definition pstorage_callback_handler (op_code result : Z) (st : sb_state) : option sb_state :=
  let st :=
    if op_code =? PSTORAGE_STORE_OP_CODE then
      if bool_decide (m_dfu_state st = DFU_STATE_RX_DATA_PKT) then data_pkt_cb DATA_PACKET result st else st
    else if op_code =? PSTORAGE_CLEAR_OP_CODE then
      if bool_decide (m_dfu_state st = DFU_STATE_PREPARING) then
        let st := set_lazy (mp_storage_handle_active st) (mark_first_page (lazy st)) (dfu_page_erased_static st) st in
        let st := dfu_cleared_func_app st in
        if SIGNED_FW then data_pkt_cb INIT_PACKET result (set_state DFU_STATE_RX_DATA_PKT st)
        else data_pkt_cb START_PACKET result (set_state DFU_STATE_RDY st)
      else st
    else st in
  _ ← APP_ERROR_CHECK result; Some st.

Definition dfu_timeout_handler (st : sb_state) : sb_state :=
  emit (UpdateProcess DFU_TIMEOUT) (set_timed_out st).

Definition dfu_timer_restart (st : sb_state) : option Z :=
  if m_dfu_timed_out st then Some NRF_ERROR_INVALID_STATE
  else _ ← APP_ERROR_CHECK (app_timer_stop st);
       _ ← APP_ERROR_CHECK (app_timer_start st);
       Some (app_timer_start st).

Definition dfu_prepare_func_app_erase (st : sb_state) : option sb_state :=
  let st := set_state DFU_STATE_PREPARING st in
  if is_ota then
    let count := ceil_div (m_image_size st) CODE_PAGE_SIZE in
    let count := if count <? 1 then 1 else count in
    let static := put (dfu_page_erased_static st) 0 (replicate (Z.to_nat count) 0) in
    let st := set_lazy true (mk_lazy (Some static) count (m_storage_handle_app st)) static st in
    let '(err, w) := pstorage_clear (world st) (m_storage_handle_app st) CODE_PAGE_SIZE in
    let st := set_world w (emit (EraseRequest (m_storage_handle_app st) CODE_PAGE_SIZE) st) in
    _ ← APP_ERROR_CHECK err; Some st
  else
    let l := mk_lazy (dfu_page_erased (lazy st)) (dfu_image_page_count (lazy st)) (m_storage_handle_app st) in
    let st := set_lazy true l (dfu_page_erased_static st) st in
    let start := DFU_BANK_0_REGION_START (sb_word st) in
    let st := set_flash (flash_nrf5x_erase (sb_flash st) start (m_image_size st)) (emit (EraseRequest start (m_image_size st)) st) in
    pstorage_callback_handler PSTORAGE_CLEAR_OP_CODE NRF_SUCCESS st.

(** [offset_calculate] (kept from the dual-bank engine). *)
Definition offset_calculate (st : sb_state) : Z :=
  let bank0 := DFU_BANK_0_REGION_START (sb_word st) in
  let sd := sd_image_size (m_start_packet st) in
  if sd >? bank0 then
    let page_mask := CODE_PAGE_SIZE - 1 in
    let diff := sd - bank0 in
    let offset := Z.land diff (~32 page_mask)%c in
    if Z.land diff page_mask >? 0 then u32 (offset + CODE_PAGE_SIZE) else offset
  else 0.

Definition dfu_activate_sd (st : sb_state) : sb_state :=
  let p := m_start_packet st in
  emit (UpdateProcess (DFU_UPDATE_SD_COMPLETE (m_image_crc st) (DFU_BANK_0_REGION_START (sb_word st))
          (sd_image_size p) (bl_image_size p) (app_image_size p))) st.
Definition dfu_activate_app (st : sb_state) : sb_state :=
  emit (UpdateProcess (DFU_UPDATE_APP_COMPLETE (m_image_crc st) (app_image_size (m_start_packet st)))) st.
Definition dfu_activate_bl (st : sb_state) : sb_state :=
  let p := m_start_packet st in
  emit (UpdateProcess (DFU_UPDATE_BOOT_COMPLETE (m_image_crc st) (sd_image_size p) (bl_image_size p) (app_image_size p))) st.

Definition dfu_init (st : sb_state) : option (Z * sb_state) :=
  let st := set_init_packet (m_init_packet st) 0 (set_init_state (sb_init st) 0 st) in
  let st := set_lazy (mp_storage_handle_active st) (mk_lazy None 0 0) (dfu_page_erased_static st) st in
  let '(err, p) := pstorage_register (sb_ps st) in
  let st := set_world (p, lazy st, fmem (sb_flash st)) st in
  if negb (err =? NRF_SUCCESS) then Some (err, set_state DFU_STATE_INIT_ERROR st) else
  let st := mk_sb (m_dfu_state st) (m_image_size st) (m_start_packet st) (m_init_packet st) (m_init_packet_length st)
    (m_image_crc st) (m_dfu_timed_out st) (DFU_BANK_0_REGION_START (sb_word st)) (mp_storage_handle_active st)
    (m_data_pkt_cb st) (m_activate st) (m_data_received st) (lazy st) (dfu_page_erased_static st)
    (sb_init st) (sb_flash st) (sb_ps st) (trace st) in
  _ ← APP_ERROR_CHECK (app_timer_create st);
  _ ← APP_ERROR_CHECK (app_timer_start st);
  Some (NRF_SUCCESS, set_state DFU_STATE_IDLE (set_received 0 st)).

Definition dfu_register_callback (st : sb_state) : sb_state :=
  mk_sb (m_dfu_state st) (m_image_size st) (m_start_packet st) (m_init_packet st) (m_init_packet_length st)
    (m_image_crc st) (m_dfu_timed_out st) (m_storage_handle_app st) (mp_storage_handle_active st)
    true (m_activate st) (m_data_received st) (lazy st) (dfu_page_erased_static st)
    (sb_init st) (sb_flash st) (sb_ps st) (trace st).

Definition dfu_start_pkt_handle (p : dfu_start_packet) (st : sb_state) : option (Z * sb_state) :=
  if negb (bool_decide (m_dfu_state st = DFU_STATE_IDLE)) then Some (NRF_ERROR_INVALID_STATE, st) else
  let '(err, size) := dfu_start_packet_validate (b_mcu build) p in
  let st := set_start (default (m_image_size st) size) p st in
  if negb (err =? NRF_SUCCESS) then Some (err, st) else
  if m_image_size st >? DFU_IMAGE_MAX_SIZE_FULL (b_mcu build) DFU_APP_DATA_RESERVED (sb_word st)
  then Some (NRF_ERROR_DATA_SIZE, st) else
  let st :=
    if negb (Z.land (dfu_update_mode p) DFU_UPDATE_SD =? 0) then set_activate Activate_sd st
    else if negb (Z.land (dfu_update_mode p) DFU_UPDATE_BL =? 0) then set_activate Activate_bl st
    else set_activate Activate_app st in
  err ← dfu_timer_restart st;
  if negb (err =? NRF_SUCCESS) then Some (err, st) else
  if SIGNED_FW then Some (NRF_SUCCESS, data_pkt_cb START_PACKET NRF_SUCCESS (set_state DFU_STATE_RDY st))
  else st ← dfu_prepare_func_app_erase st; Some (NRF_SUCCESS, st).

(** The callbacks of completed flash requests. *)
Fixpoint deliver (evs : list (Z * Z)) (st : sb_state) : option sb_state :=
  match evs with
  | [] => Some st
  | (op, r) :: evs => st ← pstorage_callback_handler op r st; deliver evs st
  end.

(** [while (NRF_ERROR_NOT_FOUND != proc_soc())]; no fuel left is a wait that
    does not end. *)
Fixpoint drain_soc (fuel : nat) (st : sb_state) : option sb_state :=
  match fuel with
  | O => None
  | S fuel =>
    let '(r, w, evs) := proc_soc (world st) in
    st ← deliver evs (set_world w st);
    if r =? NRF_ERROR_NOT_FOUND then Some st else drain_soc fuel st
  end.

(** The [while(1)] around [pstorage_store]. *)
Fixpoint store_loop (fuel : nat) (data : list Z) (offset : Z) (st : sb_state) : option (Z * sb_state) :=
  match fuel with
  | O => None
  | S fuel' =>
    let '(err, w) := pstorage_store (world st) (m_storage_handle_app st) data (lenZ data) offset in
    let st := set_world w st in
    if negb (err =? NRF_ERROR_NO_MEM) then Some (err, st)
    else st ← drain_soc fuel st; store_loop fuel' data offset st
  end.

Definition dfu_data_pkt_handle (fuel : nat) (p_packet : option data_packet) (st : sb_state) : option (Z * sb_state) :=
  match p_packet with
  | None => Some (NRF_ERROR_NULL, st)
  | Some p =>
    if negb (word_aligned p) then Some (NRF_ERROR_INVALID_ADDR, st) else
    match m_dfu_state st with
    | DFU_STATE_RX_DATA_PKT =>
      if (m_data_received st >? m_image_size st) ||
         (packet_length p >? (m_image_size st - m_data_received st) / 4)
      then Some (NRF_ERROR_DATA_SIZE, set_received 0xFFFFFFFF st) else
      let data_length := u32 (packet_length p * 4) in
      let data := sliceZ (p_data_packet p) 0 data_length in
      err ← dfu_timer_restart st;
      if negb (err =? NRF_SUCCESS) then Some (err, st) else
      r ← (if is_ota then
             '(err, st') ← store_loop fuel data (m_data_received st) st;
             if negb (err =? NRF_SUCCESS) then Some (inl (err, st'))
             else Some (inr (emit (StoreRequest (u32 (m_storage_handle_app st' + m_data_received st)) data) st'))
           else
             let dst := u32 (DFU_BANK_0_REGION_START (sb_word st) + m_data_received st) in
             let st := set_flash (flash_nrf5x_write (sb_flash st) dst data data_length false) (emit (StoreRequest dst data) st) in
             st ← pstorage_callback_handler PSTORAGE_STORE_OP_CODE NRF_SUCCESS st;
             Some (inr st));
      match r with
      | inl out => Some out
      | inr st =>
        let st := set_received (u32 (m_data_received st + data_length)) st in
        if negb (m_data_received st =? m_image_size st) then Some (NRF_ERROR_INVALID_LENGTH, st)
        else Some (NRF_SUCCESS, if is_ota then st else set_flash (flash_nrf5x_flush (sb_flash st) false) st)
      end
    | _ => Some (NRF_ERROR_INVALID_STATE, st)
    end
  end.

Definition prevalidate (st : sb_state) : Z * init_state :=
  dfu_init_prevalidate tc_sha256_init tc_sha256_update tc_sha256_final uECC_valid_public_key uECC_verify
    (b_mcu build) SIGNED_FW pk (sb_word st) (sb_init st) (Some (m_init_packet st))
    (m_init_packet_length st) (dfu_update_mode (m_start_packet st)) (m_image_size st).

Definition dfu_init_pkt_complete (st : sb_state) : option (Z * sb_state) :=
  if m_data_received st >? 0 then Some (NRF_ERROR_INVALID_STATE, st) else
  match m_dfu_state st with
  | DFU_STATE_RX_INIT_PKT =>
    let '(err, i) := prevalidate st in
    let st := set_init_state i (m_image_crc st) st in
    if err =? NRF_SUCCESS then
      if SIGNED_FW then st ← dfu_prepare_func_app_erase st; Some (err, st)
      else Some (err, set_state DFU_STATE_RX_DATA_PKT st)
    else Some (err, set_init_packet (m_init_packet st) 0 st)
  | _ => Some (NRF_ERROR_INVALID_STATE, st)
  end.

Definition INIT_PACKET_BUF : Z := 128.

Definition dfu_init_pkt_handle (p : data_packet) (st : sb_state) : option (Z * sb_state) :=
  match m_dfu_state st with
  | DFU_STATE_RDY | DFU_STATE_RX_INIT_PKT =>
    let st := set_state DFU_STATE_RX_INIT_PKT st in
    if m_data_received st >? 0 then Some (NRF_ERROR_INVALID_STATE, st) else
    err ← dfu_timer_restart st;
    if negb (err =? NRF_SUCCESS) then Some (err, st) else
    if packet_length p >? INIT_PACKET_BUF / 4 then Some (NRF_ERROR_INVALID_LENGTH, st) else
    let length := packet_length p * 4 in
    if m_init_packet_length st >? INIT_PACKET_BUF - length then Some (NRF_ERROR_INVALID_LENGTH, st) else
    let buf := put (m_init_packet st) (m_init_packet_length st) (sliceZ (p_data_packet p) 0 length) in
    Some (NRF_SUCCESS, set_init_packet buf (u8 (m_init_packet_length st + length)) st)
  | _ => Some (NRF_ERROR_INVALID_STATE, st)
  end.

(** The bytes at [mp_storage_handle_active->block_id]. *)
Definition stored_image (st : sb_state) : list Z :=
  mem_read (fmem (sb_flash st)) (m_storage_handle_app st) (m_image_size st).

Definition dfu_image_validate (st : sb_state) : option (Z * sb_state) :=
  match m_dfu_state st with
  | DFU_STATE_RX_DATA_PKT =>
    if negb (m_data_received st =? m_image_size st) then Some (NRF_ERROR_INVALID_STATE, st) else
    let st := set_state DFU_STATE_VALIDATE st in
    err ← dfu_timer_restart st;
    if negb (err =? NRF_SUCCESS) then Some (err, st) else
    let '(err, crc) := dfu_init_postvalidate tc_sha256_init tc_sha256_update tc_sha256_final SIGNED_FW
                         (sb_init st) (stored_image st) (m_image_size st) true in
    let st := set_init_state (sb_init st) (default (m_image_crc st) crc) st in
    if negb (err =? NRF_SUCCESS) then Some (err, st) else
    let err := dfu_image_policy_validate build (sb_word st) (Some (stored_image st)) (m_image_size st)
                 (Some (m_start_packet st)) in
    if negb (err =? NRF_SUCCESS) then Some (err, st)
    else Some (NRF_SUCCESS, set_state DFU_STATE_WAIT_4_ACTIVATE st)
  | _ => Some (NRF_ERROR_INVALID_STATE, st)
  end.

(** [m_functions.activate()]; a null function pointer does not return. *)
Definition run_activate (st : sb_state) : option sb_state :=
  match m_activate st with
  | Activate_none => None
  | Activate_sd => Some (dfu_activate_sd st)
  | Activate_bl => Some (dfu_activate_bl st)
  | Activate_app => Some (dfu_activate_app st)
  end.

Definition dfu_image_activate (st : sb_state) : option (Z * sb_state) :=
  match m_dfu_state st with
  | DFU_STATE_WAIT_4_ACTIVATE =>
    _ ← APP_ERROR_CHECK (app_timer_stop st);
    st ← run_activate st; Some (NRF_SUCCESS, st)
  | _ => Some (NRF_ERROR_INVALID_STATE, st)
  end.

Definition dfu_reset (st : sb_state) : sb_state :=
  let restart := bool_decide (m_dfu_state st = DFU_STATE_RX_DATA_PKT) && negb (m_data_received st =? m_image_size st) in
  emit (UpdateProcess (DFU_RESET restart)) st.

(** * The engine as a transition system *)

(** What its callers invoke: the transport's packets and commands, the timer,
    and one round of the main loop's [proc_soc]. *)
Inductive dfu_event :=
| EvStart (p : dfu_start_packet) | EvInitPacket (p : data_packet) | EvInitComplete
| EvData (p : option data_packet) | EvValidate | EvActivate | EvReset | EvTimeout | EvSoc.

Definition handle (fuel : nat) (e : dfu_event) (st : sb_state) : option (Z * sb_state) :=
  match e with
  | EvStart p => dfu_start_pkt_handle p st
  | EvInitPacket p => dfu_init_pkt_handle p st
  | EvInitComplete => dfu_init_pkt_complete st
  | EvData p => dfu_data_pkt_handle fuel p st
  | EvValidate => dfu_image_validate st
  | EvActivate => dfu_image_activate st
  | EvReset => Some (NRF_SUCCESS, dfu_reset st)
  | EvTimeout => Some (NRF_SUCCESS, dfu_timeout_handler st)
  | EvSoc => let '(r, w, evs) := proc_soc (world st) in
             st ← deliver evs (set_world w st); Some (r, st)
  end.

(** What the callers guarantee: the START tuple comes from the wire format, and
    a packet's buffer holds the words it announces. *)
Definition packet_wf (p : data_packet) : Prop :=
  0 <= packet_length p /\ packet_length p * 4 <= lenZ (p_data_packet p).
Definition event_wf (e : dfu_event) : Prop :=
  match e with
  | EvStart p => start_wf p
  | EvInitPacket p | EvData (Some p) => packet_wf p
  | _ => True
  end.

(** States reachable after a successful [dfu_init]; [trace] starts there. *)
Inductive reachable : sb_state -> Prop :=
| reach_init st0 st : trace st0 = [] -> dfu_init st0 = Some (NRF_SUCCESS, st) -> reachable st
| reach_step fuel e st r st' :
    reachable st -> event_wf e -> handle fuel e st = Some (r, st') -> reachable st'.
End Engine.
