(* ===== verification/SingleBankSerial.v ===== *)
(** Functional correctness of the single-bank engine's serial path: what a
    complete transfer leaves in flash, and where the bank's base address comes
    from. *)
From S2P Require Import Prelude Crc Nvm BootImage DfuTypes DfuPolicy DfuInit FlashNrf5x SingleBank.

Section Serial.
Context `{Nvmc, PStorage}.
Context (SIGNED_FW : bool) (app_timer_stop app_timer_start : sb_state -> Z).
Hypothesis stop_ok : forall st, app_timer_stop st = NRF_SUCCESS.
Hypothesis start_ok : forall st, app_timer_start st = NRF_SUCCESS.

Abbreviation data_handle := (dfu_data_pkt_handle SIGNED_FW false app_timer_stop app_timer_start 0).

(** The SoftDevice information structure lies below this address; a bank at or
    above it cannot move itself. *)
Definition SD_INFO_END : Z := 0x4000.

(** A transfer in progress: the flash behind the cache holds [data] at the start
    of the bank and the rest of the image's range is erased. *)
Definition bank_ready (st : sb_state) (data : list Z) : Prop :=
  let b := m_storage_handle_app st in
  let f := sb_flash st in
  m_dfu_state st = DFU_STATE_RX_DATA_PKT /\ m_dfu_timed_out st = false /\
  DFU_BANK_0_REGION_START (sb_word st) = b /\ SD_INFO_END <= b /\ b mod PAGE = 0 /\
  b + m_image_size st <= 2 ^ 32 /\ m_image_size st mod 4 = 0 /\
  m_data_received st = lenZ data /\ m_data_received st <= m_image_size st /\
  cache_ok false f /\ (fl_addr f = FLASH_CACHE_INVALID_ADDR \/ b <= fl_addr f) /\
  (forall i, 0 <= i < lenZ data -> view f (b + i) = nthZ data i) /\
  (forall x, b + lenZ data <= x < b + m_image_size st -> fmem f x = 255 /\ view f x = 255).

Lemma sd_info_below (m m' : mem) : (forall x, x < SD_INFO_END -> m x = m' x) ->
  DFU_BANK_0_REGION_START (mem_word m) = DFU_BANK_0_REGION_START (mem_word m').
Proof.
  intros Hm. unfold DFU_BANK_0_REGION_START, CODE_REGION_1_START, is_sd_existed, mem_word.
  unfold MBR_SIZE, SOFTDEVICE_INFO_STRUCT_OFFSET, SD_SIZE_OFFSET, SD_INFO_END in *. cbn.
  by rewrite !Hm by lia.
Qed.

Definition packet_data (p : data_packet) : list Z := sliceZ (p_data_packet p) 0 (packet_length p * 4).

Lemma store_cb_serial (st : sb_state) : m_dfu_state st = DFU_STATE_RX_DATA_PKT ->
  pstorage_callback_handler SIGNED_FW PSTORAGE_STORE_OP_CODE NRF_SUCCESS st =
  Some (data_pkt_cb DATA_PACKET NRF_SUCCESS st).
Proof. intros E. unfold pstorage_callback_handler. by rewrite E. Qed.

(** One data packet that fits: it is accepted, and the bank holds one more
    piece. *)
Lemma data_step st data p :
  bank_ready st data -> packet_wf p -> bytes (p_data_packet p) -> word_aligned p = true ->
  lenZ data + packet_length p * 4 <= m_image_size st ->
  exists st', data_handle (Some p) st =
      Some (if lenZ data + packet_length p * 4 =? m_image_size st then NRF_SUCCESS else NRF_ERROR_INVALID_LENGTH, st') /\
    bank_ready st' (data ++ packet_data p) /\ m_image_size st' = m_image_size st /\
    m_storage_handle_app st' = m_storage_handle_app st /\
    (lenZ data + packet_length p * 4 = m_image_size st -> fl_addr (sb_flash st') = FLASH_CACHE_INVALID_ADDR).
Proof.
  intros (Hd & Ht & Hb & Hlo & Hal & H32 & H4 & Hr & Hle & Hok & Hfa & Hv & He) (W0 & W1) Wb Wa Hfit.
  pose proof (lenZ_nonneg data) as Hld. set (b := m_storage_handle_app st) in *.
  assert (lenZ (packet_data p) = packet_length p * 4) as Hlp by (apply lenZ_sliceZ; lia).
  unfold dfu_data_pkt_handle. rewrite Wa, Hd. cbn [negb]. rewrite Hr, !Z.gtb_ltb.
  destruct (Z.ltb_spec (m_image_size st) (lenZ data)); [lia|]. cbn [orb].
  destruct (Z.ltb_spec ((m_image_size st - lenZ data) / 4) (packet_length p)); [zlia|].
  unfold dfu_timer_restart, APP_ERROR_CHECK. rewrite Ht, stop_ok, start_ok. cbn [mbind option_bind Z.eqb NRF_SUCCESS negb].
  assert (SD_INFO_END <= b) by done. unfold SD_INFO_END in *.
  rewrite (u32_small (packet_length p * 4)) by lia. fold (packet_data p).
  rewrite Hb.
  assert (forall x, b + lenZ data <= x < b + lenZ data + packet_length p * 4 -> fmem (sb_flash st) x = 255 /\ view (sb_flash st) x = 255) as He'
    by (intros; apply He; lia).
  assert (bytes (packet_data p)) as Hpb by by apply sliceZ_bytes.
  assert (flash_nrf5x_write (sb_flash st) (u32 (b + lenZ data)) (packet_data p) (packet_length p * 4) false =
          flash_nrf5x_write (sb_flash st) (b + lenZ data) (packet_data p) (packet_length p * 4) false) as ->.
  { destruct (decide (packet_length p = 0)) as [E0|E0]; [by rewrite E0|]. by rewrite u32_small by lia. }
  destruct (flash_write_loop_spec false (Z.to_nat (packet_length p * 4)) (sb_flash st) (b + lenZ data) (packet_data p) (packet_length p * 4))
    as (Hok1 & Hv1 & Hm1); try done; try lia.
  destruct (flash_write_below false b (Z.to_nat (packet_length p * 4)) (sb_flash st) (b + lenZ data) (packet_data p) (packet_length p * 4))
    as (Hb1 & Hf1); try done; try lia.
  unfold flash_nrf5x_write. set (f1 := flash_write_loop _ _ _ _ _ _) in *.
  rewrite store_cb_serial by done. cbn [mbind option_bind].
  set (st2 := data_pkt_cb _ _ _).
  assert (m_data_received st2 = lenZ data /\ m_image_size st2 = m_image_size st /\ m_dfu_state st2 = DFU_STATE_RX_DATA_PKT /\
    m_dfu_timed_out st2 = false /\ m_storage_handle_app st2 = b /\ sb_flash st2 = f1) as (R2 & Z2 & D2 & T2 & B2 & F2).
  { unfold st2, data_pkt_cb. destruct (m_data_pkt_cb _); done. }
  clearbody st2. rewrite R2, u32_small by lia. cbn [m_data_received set_received m_image_size]. rewrite Z2.
  set (d2 := data ++ packet_data p). assert (lenZ d2 = lenZ data + packet_length p * 4) as Hd2 by (unfold d2; rewrite lenZ_app; lia).
  rewrite <- Hd2 in *. set (st3 := set_received (lenZ d2) st2).
  assert (forall i, 0 <= i < lenZ d2 -> view f1 (b + i) = nthZ d2 i) as Hv2.
  { intros i Hi. rewrite Hv1. range_case.
    - unfold d2. rewrite nthZ_app_r by lia. f_equal. lia.
    - unfold d2. rewrite nthZ_app_l by lia. apply Hv. lia. }
  assert (forall x, b + lenZ d2 <= x < b + m_image_size st -> fmem f1 x = 255 /\ view f1 x = 255) as He2.
  { intros x Hx. destruct (He x) as [? ?]; [lia|]. split; [apply Hm1; (done || lia)|]. rewrite Hv1. range_case; [lia|done]. }
  assert (DFU_BANK_0_REGION_START (mem_word (fmem f1)) = b) as Hb2.
  { rewrite <- Hb. apply sd_info_below. intros x Hx. apply Hb1. unfold SD_INFO_END in *. lia. }
  assert (bank_ready st3 d2) as Hready.
  { unfold bank_ready, sb_word, st3. cbn [m_dfu_state set_received m_dfu_timed_out sb_flash m_storage_handle_app m_image_size m_data_received].
    rewrite D2, T2, B2, F2, Z2, Hb2. unfold SD_INFO_END. split_and!; auto; lia. }
  destruct (Z.eqb_spec (lenZ d2) (m_image_size st)) as [Efull|Efull]; cbn [negb].
  2: { exists st3. split; [done|]. split; [exact Hready|]. split; [exact Z2|]. split; [exact B2|]. done. }
  exists (set_flash (flash_nrf5x_flush (sb_flash st3) false) st3). split; [done|].
  change (sb_flash st3) with (sb_flash st2). rewrite F2.
  destruct (flush_spec false f1 Hok1) as (Hfl & Hrng & Hinv & Hbuf).
  split; [|split; [exact Z2|split; [exact B2|done]]].
  assert (forall x, view (flash_nrf5x_flush f1 false) x = view f1 x) as Hvf.
  { intros x. unfold view at 1. rewrite Hinv. cbn. apply Hfl. }
  unfold bank_ready, sb_word, st3.
  cbn [m_dfu_state set_received set_flash m_dfu_timed_out sb_flash m_storage_handle_app m_image_size m_data_received].
  rewrite D2, T2, B2, Z2.
  assert (DFU_BANK_0_REGION_START (mem_word (fmem (flash_nrf5x_flush f1 false))) = b) as ->.
  { rewrite <- Hb2. apply sd_info_below. intros x Hx. rewrite Hfl. unfold view.
    destruct (Z.eqb_spec (fl_addr f1) FLASH_CACHE_INVALID_ADDR); [done|]. cbn [negb andb].
    range_case; [|done]. destruct Hf1; [done|]. unfold SD_INFO_END in *. lia. }
  unfold SD_INFO_END. split_and!; auto; try lia.
  - split; [exact Hrng|]. split; [rewrite Hbuf; apply Hok1|by left].
  - intros i Hi. rewrite Hvf. by apply Hv2.
Qed.

(** A run of data packets: the codes returned and the final state. *)
Fixpoint data_packets (ps : list data_packet) (st : sb_state) : option (list Z * sb_state) :=
  match ps with
  | [] => Some ([], st)
  | p :: ps =>
    '(r, st) ← data_handle (Some p) st;
    '(rs, st) ← data_packets ps st;
    Some (r :: rs, st)
  end.

Lemma data_packets_run ps : forall st data,
  bank_ready st data -> 
  Forall (fun p => packet_wf p /\ 0 < packet_length p /\ bytes (p_data_packet p) /\ word_aligned p = true) ps ->
  lenZ data + lenZ (concat (map packet_data ps)) = m_image_size st -> ps <> [] ->
  exists st', data_packets ps st = Some (replicate (length ps - 1) NRF_ERROR_INVALID_LENGTH ++ [NRF_SUCCESS], st') /\
    bank_ready st' (data ++ concat (map packet_data ps)) /\ m_image_size st' = m_image_size st /\
    m_storage_handle_app st' = m_storage_handle_app st /\ fl_addr (sb_flash st') = FLASH_CACHE_INVALID_ADDR.
Proof.
  induction ps as [|p ps IH]; intros st data Hr Hps Hsum Hne; [done|]. clear Hne.
  inversion Hps as [|? ? (Wf & W1 & Wb & Wa) Hps']; subst. cbn [map concat] in *. rewrite lenZ_app in Hsum.
  assert (lenZ (packet_data p) = packet_length p * 4) as Hlp by (apply lenZ_sliceZ; destruct Wf; lia).
  pose proof (lenZ_nonneg (concat (map packet_data ps))) as Hn.
  destruct (data_step st data p Hr Wf Wb Wa) as (st1 & E & Hr1 & Z1 & B1 & F1); [lia|].
  cbn [data_packets]. rewrite E. cbn [mbind option_bind].
  destruct ps as [|q ps].
  - cbn [data_packets map concat] in *. rewrite lenZ_nil in Hsum. cbn [mbind option_bind].
    replace (lenZ data + packet_length p * 4 =? m_image_size st) with true by (symmetry; apply Z.eqb_eq; lia).
    rewrite app_nil_r. exists st1. split; [done|]. split; [done|]. split; [done|]. split; [done|]. apply F1. lia.
  - assert (0 < lenZ (concat (map packet_data (q :: ps)))) as Hpos.
    { inversion Hps' as [|? ? ((Q0 & Q1) & Q2 & _) _]; subst. cbn [map concat]. rewrite lenZ_app.
      pose proof (lenZ_nonneg (concat (map packet_data ps))).
      assert (lenZ (packet_data q) = packet_length q * 4) by (apply lenZ_sliceZ; lia). lia. }
    destruct (IH st1 (data ++ packet_data p) Hr1 Hps') as (st' & E' & Hr' & Z' & B' & F'); [rewrite lenZ_app, Z1; lia|done|].
    rewrite E'. cbn [mbind option_bind].
    replace (lenZ data + packet_length p * 4 =? m_image_size st) with false by (symmetry; apply Z.eqb_neq; lia).
    exists st'. split; [|split; [by rewrite app_assoc|split; [congruence|split; [congruence|done]]]].
    cbn [length]. replace (S (S (length ps)) - 1)%nat with (S (S (length ps) - 1)) by lia. done.
Qed.

Lemma bank_ready_stored st data : bank_ready st data -> lenZ data = m_image_size st ->
  fl_addr (sb_flash st) = FLASH_CACHE_INVALID_ADDR -> stored_image st = data.
Proof.
  intros (_ & _ & _ & _ & _ & _ & _ & _ & _ & _ & _ & Hv & _) Hl Hf. unfold stored_image. rewrite <- Hl.
  apply mem_read_eq. intros i Hi. rewrite <- Hv by done. unfold view. by rewrite Hf.
Qed.

(** What the erase of [dfu_prepare_func_app_erase] leaves is a ready bank. *)
Lemma prepared_bank st :
  let b := DFU_BANK_0_REGION_START (sb_word st) in
  let f := sb_flash st in
  let f' := flash_nrf5x_erase f b (m_image_size st) in
  (forall x, 0 <= fmem f x < 256) -> bytes (fl_buf f) -> fl_addr f = FLASH_CACHE_INVALID_ADDR ->
  SD_INFO_END <= b -> b mod PAGE = 0 -> 0 <= m_image_size st ->
  b + ceil_div (m_image_size st) PAGE * PAGE <= 2 ^ 32 ->
  DFU_BANK_0_REGION_START (mem_word (fmem f')) = b /\
  cache_ok false f' /\ fl_addr f' = FLASH_CACHE_INVALID_ADDR /\
  (forall x, b <= x < b + m_image_size st -> fmem f' x = 255 /\ view f' x = 255).
Proof.
  intros b f f' Hm Hbuf Hfa Hlo Hal Hsz H32.
  assert (0 <= ceil_div (m_image_size st) PAGE /\ m_image_size st <= ceil_div (m_image_size st) PAGE * PAGE) as (Hc0 & Hcl)
    by (unfold ceil_div, PAGE in *; zlia).
  assert (forall x, fmem f' x = if (b <=? x) && (x <? b + ceil_div (m_image_size st) PAGE * PAGE) then 255 else fmem f x) as Her.
  { intros x. unfold f', flash_nrf5x_erase. cbn [fmem]. change CODE_PAGE_SIZE with PAGE.
    destruct (decide (ceil_div (m_image_size st) PAGE = 0)) as [E|E].
    { rewrite E. cbn [Z.to_nat erase_pages]. range_case; [lia|done]. }
    unfold SD_INFO_END in *. rewrite page_of_eq by (unfold PAGE in *; lia). rewrite Hal, Z.sub_0_r.
    rewrite erase_pages_spec by lia. by rewrite Z2Nat.id, Z.add_0_l, Z.add_0_r by done. }
  assert (fl_addr f' = FLASH_CACHE_INVALID_ADDR) as Hfa' by exact Hfa.
  assert (forall x, view f' x = fmem f' x) as Hvw by (intros x; unfold view; by rewrite Hfa').
  split; [|split; [|split; [done|]]].
  - transitivity (DFU_BANK_0_REGION_START (mem_word (fmem f))); [|done]. apply sd_info_below. intros x Hx. rewrite Her. unfold SD_INFO_END in *. range_case; [lia|done].
  - split; [intros x; rewrite Her; range_case; [lia|apply Hm]|]. split; [exact Hbuf|by left].
  - intros x Hx. rewrite Hvw, Her. range_case; [done|lia].
Qed.

Lemma prepared_ready st0 st :
  (forall x, 0 <= fmem (sb_flash st0) x < 256) -> bytes (fl_buf (sb_flash st0)) ->
  fl_addr (sb_flash st0) = FLASH_CACHE_INVALID_ADDR ->
  m_storage_handle_app st0 = DFU_BANK_0_REGION_START (sb_word st0) ->
  SD_INFO_END <= m_storage_handle_app st0 -> m_storage_handle_app st0 mod PAGE = 0 ->
  m_storage_handle_app st0 + ceil_div (m_image_size st0) PAGE * PAGE <= 2 ^ 32 ->
  m_data_received st0 = 0 -> m_dfu_timed_out st0 = false -> 0 < m_image_size st0 -> m_image_size st0 mod 4 = 0 ->
  dfu_prepare_func_app_erase SIGNED_FW false st0 = Some st ->
  bank_ready (set_state DFU_STATE_RX_DATA_PKT st) [] /\ m_image_size st = m_image_size st0.
Proof.
  intros Hm Hbuf Hfa Hh Hlo Hal H32 Hr Ht Hsz H4 Hp.
  destruct (prepared_bank st0) as (Pb & Pc & Pf & Pe); try rewrite <- Hh; try done; [lia|].
  rewrite <- Hh in Pb, Pc, Pf, Pe.
  assert (sb_flash st = flash_nrf5x_erase (sb_flash st0) (m_storage_handle_app st0) (m_image_size st0) /\
    m_image_size st = m_image_size st0 /\ m_storage_handle_app st = m_storage_handle_app st0 /\
    m_data_received st = 0 /\ m_dfu_timed_out st = false) as (EF & EZ & EB & ER & ET).
  { revert Hp. unfold dfu_prepare_func_app_erase. cbn zeta.
    change (sb_word (set_lazy _ _ _ _)) with (sb_word st0). rewrite <- Hh.
    unfold pstorage_callback_handler. cbn [Z.eqb Pos.eqb PSTORAGE_CLEAR_OP_CODE PSTORAGE_STORE_OP_CODE].
    match goal with |- context [bool_decide ?P] => rewrite (bool_decide_eq_true_2 P) by reflexivity end.
    unfold APP_ERROR_CHECK. cbn [mbind option_bind Z.eqb NRF_SUCCESS]. intros [= <-].
    unfold data_pkt_cb. destruct SIGNED_FW; destruct (m_data_pkt_cb _); cbn; auto. }
  split; [|exact EZ].
  unfold bank_ready, sb_word. cbn [set_state m_dfu_state m_dfu_timed_out sb_flash m_storage_handle_app m_image_size m_data_received].
  rewrite EF, EZ, EB, ER, ET. change (lenZ (@nil Z)) with 0. split_and!; auto; try lia.
  - assert (m_image_size st0 <= ceil_div (m_image_size st0) PAGE * PAGE) by (unfold ceil_div, PAGE in *; zlia). lia.
  - intros x Hx. apply Pe. lia.
Qed.

(** C10: a serial transfer stores the image it was sent. Take a device with a
    SoftDevice, so that the bank starts above the SoftDevice's information page
    ([SD_INFO_END]; without one the start can move with the data,
    [sdless_base_moves]), page-aligned and with room for the image below 4 GiB; the
    timer module succeeds, the DFU timer has not expired, and the page cache is empty. In a data-receiving
    engine whose bank was just prepared by [dfu_prepare_func_app_erase] for a size of whole words, any
    split of the image into word-sized packets is accepted: every packet but
    the last answers [NRF_ERROR_INVALID_LENGTH] (more expected), the last one
    answers [NRF_SUCCESS], and then the bytes the validation will read from
    flash are exactly the concatenated packet data. *)
Theorem serial_transfer_exact st0 st ps :
  (forall x, 0 <= fmem (sb_flash st0) x < 256) -> bytes (fl_buf (sb_flash st0)) ->
  fl_addr (sb_flash st0) = FLASH_CACHE_INVALID_ADDR ->
  m_storage_handle_app st0 = DFU_BANK_0_REGION_START (sb_word st0) ->
  SD_INFO_END <= m_storage_handle_app st0 -> m_storage_handle_app st0 mod PAGE = 0 ->
  m_storage_handle_app st0 + ceil_div (m_image_size st0) PAGE * PAGE <= 2 ^ 32 ->
  m_data_received st0 = 0 -> m_dfu_timed_out st0 = false -> 0 < m_image_size st0 -> m_image_size st0 mod 4 = 0 ->
  dfu_prepare_func_app_erase SIGNED_FW false st0 = Some st ->
  Forall (fun p => packet_wf p /\ 0 < packet_length p /\ bytes (p_data_packet p) /\ word_aligned p = true) ps ->
  lenZ (concat (map packet_data ps)) = m_image_size st0 ->
  exists st', data_packets ps (set_state DFU_STATE_RX_DATA_PKT st) =
      Some (replicate (length ps - 1) NRF_ERROR_INVALID_LENGTH ++ [NRF_SUCCESS], st') /\
    m_data_received st' = m_image_size st0 /\ stored_image st' = concat (map packet_data ps).
Proof.
  intros Hm Hbuf Hfa Hh Hlo Hal H32 Hr Ht Hsz H4 Hp Hps Hsum.
  destruct (prepared_ready st0 st) as (Hready & EZ); try done.
  assert (ps <> []) as Hne by (intros ->; cbn in Hsum; unfold lenZ in Hsum; cbn in Hsum; lia).
  destruct (data_packets_run ps _ [] Hready Hps) as (st' & E & Hr' & Z' & B' & F'); [change (0 + lenZ (concat (map packet_data ps)) = m_image_size st); lia|done|].
  exists st'. split; [exact E|]. rewrite app_nil_l in Hr'.
  pose proof Hr' as (_ & _ & _ & _ & _ & _ & _ & Hrec & _).
  split; [rewrite Hrec; lia|]. apply bank_ready_stored; [done|rewrite Z', Hsum; by symmetry|done].
Qed.
End Serial.

(** * Concrete transfers *)

#[local] Existing Instance nvmc_model.

(** A storage module that is never used: the serial path writes flash itself. *)
#[local] Instance pstorage_none : PStorage := {|
  ps := unit;
  pstorage_register s := (NRF_SUCCESS, s);
  pstorage_clear w _ _ := (NRF_ERROR_NOT_SUPPORTED, w);
  pstorage_store w _ _ _ _ := (NRF_ERROR_NOT_SUPPORTED, w);
  proc_soc w := (NRF_ERROR_NOT_FOUND, w, [])
|}.

(** Flash with a SoftDevice below 0x26000, and flash without one. *)
Definition flash_with_sd : mem := fun a =>
  nthZ (bytes32 SD_MAGIC_NUMBER ++ bytes32 0x26000 ++ bytes32 0xB6) (a - 0x3004) .
Definition sd_mem : mem := fun a => if (0x3004 <=? a) && (a <? 0x3010) then flash_with_sd a else 255.

Definition engine_at (m : mem) (s : dfu_state) (size handle : Z) : sb_state :=
  mk_sb s size (mk_start 4 0 0 size) (replicate 128 0) 0 0 false handle false true Activate_app 0
    (mk_lazy None 0 0) (replicate 256 0) init_state0 (flash_state0 m) tt [].

Definition ok_timer (st : sb_state) : Z := NRF_SUCCESS.

Definition words (n : Z) (data : list Z) : data_packet := mk_packet n true data.

Lemma default_Some {A} (o : option A) y : (if o is Some _ then true else false) = true -> o = Some (default y o).
Proof. by destruct o. Qed.

Lemma serial_transfer_exact_witness :
  exists st', data_packets false ok_timer ok_timer [words 1 [1; 2; 3; 4]; words 1 [5; 6; 7; 8]]
      (set_state DFU_STATE_RX_DATA_PKT (default (engine_at sd_mem DFU_STATE_RX_INIT_PKT 8 0x26000)
         (dfu_prepare_func_app_erase false false (engine_at sd_mem DFU_STATE_IDLE 8 0x26000)))) =
      Some ([NRF_ERROR_INVALID_LENGTH; NRF_SUCCESS], st') /\
    stored_image st' = [1; 2; 3; 4; 5; 6; 7; 8].
Proof.
  destruct (serial_transfer_exact false ok_timer ok_timer (fun _ => eq_refl) (fun _ => eq_refl)
    (engine_at sd_mem DFU_STATE_IDLE 8 0x26000)
    (default (engine_at sd_mem DFU_STATE_RX_INIT_PKT 8 0x26000)
       (dfu_prepare_func_app_erase false false (engine_at sd_mem DFU_STATE_IDLE 8 0x26000)))
    [words 1 [1; 2; 3; 4]; words 1 [5; 6; 7; 8]]) as (st' & E & _ & S).
  - intros x. cbn. unfold sd_mem. destruct (_ && _); [|lia]. apply nthZ_byte. apply bytes_by_forallb. vm_compute. reflexivity.
  - apply bytes_by_forallb. vm_compute. reflexivity.
  - reflexivity.
  - vm_compute. reflexivity.
  - vm_compute. discriminate.
  - vm_compute. reflexivity.
  - vm_compute. discriminate.
  - reflexivity.
  - reflexivity.
  - vm_compute. reflexivity.
  - reflexivity.
  - apply default_Some. vm_compute. reflexivity.
  - repeat constructor; try (vm_compute; congruence); apply bytes_by_forallb; reflexivity.
  - reflexivity.
  - exists st'. split; [exact E | exact S].
Defined.

(** The demo engine with its bank erased, waiting for eight bytes. *)
Definition demo_waiting : sb_state (H0 := pstorage_none) :=
  set_state DFU_STATE_RX_DATA_PKT (default (engine_at sd_mem DFU_STATE_RX_INIT_PKT 8 0x26000)
    (dfu_prepare_func_app_erase false false (engine_at sd_mem DFU_STATE_IDLE 8 0x26000))).

Lemma demo_bank_ready : bank_ready demo_waiting [] /\ m_image_size demo_waiting = 8.
Proof.
  destruct (prepared_ready false (engine_at sd_mem DFU_STATE_IDLE 8 0x26000)
    (default (engine_at sd_mem DFU_STATE_RX_INIT_PKT 8 0x26000)
       (dfu_prepare_func_app_erase false false (engine_at sd_mem DFU_STATE_IDLE 8 0x26000)))) as (R & Z).
  - intros x. cbn. unfold sd_mem. destruct (_ && _); [|lia]. apply nthZ_byte. apply bytes_by_forallb. vm_compute. reflexivity.
  - apply bytes_by_forallb. vm_compute. reflexivity.
  - reflexivity.
  - vm_compute. reflexivity.
  - vm_compute. discriminate.
  - vm_compute. reflexivity.
  - vm_compute. discriminate.
  - reflexivity.
  - reflexivity.
  - vm_compute. reflexivity.
  - reflexivity.
  - apply default_Some. vm_compute. reflexivity.
  - unfold demo_waiting. split; [exact R|vm_compute; reflexivity].
Qed.

(** The flash page at 0x3000 of a device without a SoftDevice, about to be
    programmed with a SoftDevice information structure that announces 0x26000
    bytes, or with zeros. *)
Definition sd_info_page : list Z := [0x30; 0; 0; 0] ++ bytes32 SD_MAGIC_NUMBER ++ bytes32 0x26000 ++ replicate 4084 0.

(** Where the engine puts the next two one-word packets of a transfer into the
    bank at 0x1000 whose first 0x3000 bytes were received, with [page] staged. *)
Definition next_stores (page : list Z) : list Z :=
  let st := set_received 0x3000 (set_flash (mk_flash (fun _ => 255) 0x3000 page)
              (engine_at (fun _ => 255) DFU_STATE_RX_DATA_PKT 0x5000 0x1000)) in
  match data_packets false ok_timer ok_timer [words 1 [1; 2; 3; 4]; words 1 [5; 6; 7; 8]] st with
  | Some (_, st) => omap (fun o => match o with StoreRequest a _ => Some a | _ => None end) (trace st)
  | None => []
  end.

(** Without a SoftDevice the serial engine follows a moving base. When the
    bank starts right behind the MBR, programming the page that carries a
    SoftDevice information structure makes [DFU_BANK_0_REGION_START] read that
    structure: the next store lands above the announced SoftDevice size instead
    of behind the previous data. An image without the structure is stored
    contiguously. *)
Theorem sdless_base_moves :
  next_stores (replicate 4096 0) = [0x4000; 0x4004] /\
  next_stores sd_info_page = [0x4000; 0x26000 + 0x3004].
Proof. split; vm_compute; reflexivity. Qed.
