(* ===== verification/SingleBankSafety.v ===== *)
(** Safety of the single-bank DFU engine over all interleavings of packets,
    commands, timeouts and storage completions. *)
From S2P Require Import Prelude Crc Nvm BootImage DfuTypes DfuPolicy DfuInit FlashNrf5x SingleBank SingleBankSerial.

Section Safety.
Context `{Nvmc, PStorage}.
Context (SIGNED_FW : bool) (build : policy_build) (DFU_APP_DATA_RESERVED : Z) (is_ota : bool).
Context {tc_state : Type} (tc_sha256_init : option tc_state)
  (tc_sha256_update : tc_state -> list Z -> option tc_state)
  (tc_sha256_final : tc_state -> option (list Z))
  (uECC_valid_public_key : list Z -> Z) (uECC_verify : list Z -> list Z -> list Z -> Z) (pk : list Z).
Context (app_timer_create app_timer_stop app_timer_start : sb_state -> Z).

Abbreviation cb := (pstorage_callback_handler SIGNED_FW).
Abbreviation prepare := (dfu_prepare_func_app_erase SIGNED_FW is_ota).
Abbreviation handle' := (handle SIGNED_FW build DFU_APP_DATA_RESERVED is_ota tc_sha256_init tc_sha256_update
  tc_sha256_final uECC_valid_public_key uECC_verify pk app_timer_stop app_timer_start).
Abbreviation reachable' := (reachable SIGNED_FW build DFU_APP_DATA_RESERVED is_ota tc_sha256_init tc_sha256_update
  tc_sha256_final uECC_valid_public_key uECC_verify pk app_timer_create app_timer_stop app_timer_start).

(** The fields no storage callback touches. *)
Definition core (st : sb_state) :=
  (m_image_size st, m_start_packet st, m_init_packet st, m_init_packet_length st, m_image_crc st,
   m_storage_handle_app st, m_activate st, m_data_received st, sb_init st, m_data_pkt_cb st).

(** Outputs that are notifications, not flash requests or completions. *)
Definition quiet (o : dfu_output) : Prop :=
  match o with
  | DataPktCb _ _ | UpdateProcess DFU_BANK_0_ERASED => True
  | _ => False
  end.

(** [st'] is [st] after storage callbacks: same core, at most the move out of
    [PREPARING], and only notifications. *)
Definition called_back (st st' : sb_state) : Prop :=
  core st' = core st /\
  (m_dfu_state st' = m_dfu_state st \/
   (m_dfu_state st = DFU_STATE_PREPARING /\
    m_dfu_state st' = if SIGNED_FW then DFU_STATE_RX_DATA_PKT else DFU_STATE_RDY)) /\
  exists l, trace st' = trace st ++ l /\ Forall quiet l.

Lemma called_back_refl st : called_back st st.
Proof. split; [done|]. split; [by left|]. exists []. by rewrite app_nil_r. Qed.

Lemma called_back_trans st1 st2 st3 : called_back st1 st2 -> called_back st2 st3 -> called_back st1 st3.
Proof.
  intros (C1 & S1 & l1 & T1 & Q1) (C2 & S2 & l2 & T2 & Q2). split; [congruence|]. split.
  - destruct S1 as [E|[? E]], S2 as [E2|[? E2]]; [left|right|right|]; try (split; congruence); try congruence.
    destruct SIGNED_FW; congruence.
  - exists (l1 ++ l2). rewrite T2, T1, app_assoc. split; [done|]. by apply Forall_app.
Qed.

Lemma set_world_called w st : called_back st (set_world w st).
Proof. split; [done|]. split; [by left|]. exists []. by rewrite app_nil_r. Qed.

Lemma data_pkt_cb_fields pkt r st :
  core (data_pkt_cb pkt r st) = core st /\ m_dfu_state (data_pkt_cb pkt r st) = m_dfu_state st /\
  exists l, trace (data_pkt_cb pkt r st) = trace st ++ l /\ Forall quiet l.
Proof.
  unfold data_pkt_cb. destruct (m_data_pkt_cb st).
  - split; [done|]. split; [done|]. eexists. split; [done|]. by repeat constructor.
  - split; [done|]. split; [done|]. exists []. by rewrite app_nil_r.
Qed.

Lemma cb_called op r st st' : cb op r st = Some st' -> called_back st st'.
Proof.
  unfold pstorage_callback_handler, APP_ERROR_CHECK. destruct (r =? NRF_SUCCESS); [|done]. cbn [mbind option_bind].
  intros [= <-]. destruct (op =? PSTORAGE_STORE_OP_CODE).
  { destruct (bool_decide _); [|apply called_back_refl].
    destruct (data_pkt_cb_fields DATA_PACKET r st) as (? & ? & ?). split; [done|]. split; [by left|done]. }
  destruct (op =? PSTORAGE_CLEAR_OP_CODE); [|apply called_back_refl].
  destruct (bool_decide _) eqn:E; [|apply called_back_refl]. apply bool_decide_eq_true in E.
  set (st1 := dfu_cleared_func_app _).
  assert (core st1 = core st /\ trace st1 = trace st ++ [UpdateProcess DFU_BANK_0_ERASED]) as (C1 & T1) by done.
  destruct SIGNED_FW eqn:ES.
  - destruct (data_pkt_cb_fields INIT_PACKET r (set_state DFU_STATE_RX_DATA_PKT st1)) as (C & S & l & T & Q).
    split; [rewrite C; exact C1|]. split; [right; rewrite S, ES; done|].
    exists ([UpdateProcess DFU_BANK_0_ERASED] ++ l). 
    split; [etrans; [exact T|]; etrans; [|symmetry; apply app_assoc]; f_equal; exact T1|]. by constructor.
  - destruct (data_pkt_cb_fields START_PACKET r (set_state DFU_STATE_RDY st1)) as (C & S & l & T & Q).
    split; [rewrite C; exact C1|]. split; [right; rewrite S, ES; done|].
    exists ([UpdateProcess DFU_BANK_0_ERASED] ++ l). 
    split; [etrans; [exact T|]; etrans; [|symmetry; apply app_assoc]; f_equal; exact T1|]. by constructor.
Qed.

Lemma deliver_called evs : forall st st', deliver SIGNED_FW evs st = Some st' -> called_back st st'.
Proof.
  induction evs as [|[op r] evs IH]; intros st st'; cbn [deliver].
  { intros [= <-]. apply called_back_refl. }
  destruct (cb op r st) as [st1|] eqn:E; [|done]. cbn [mbind option_bind]. intros E2.
  eapply called_back_trans; [by eapply cb_called|by apply IH].
Qed.

Lemma drain_called fuel : forall st st', drain_soc SIGNED_FW fuel st = Some st' -> called_back st st'.
Proof.
  induction fuel as [|fuel IH]; intros st st'; cbn [drain_soc]; [done|].
  destruct (proc_soc (world st)) as [[r w] evs].
  destruct (deliver _ _ _) as [st1|] eqn:E; [|done]. cbn [mbind option_bind].
  apply deliver_called in E. pose proof (called_back_trans _ _ _ (set_world_called w st) E).
  destruct (r =? NRF_ERROR_NOT_FOUND); [by intros [= <-]|]. intros E2.
  eapply called_back_trans; [done|by apply IH].
Qed.

Lemma store_loop_called fuel : forall data off st r st',
  store_loop SIGNED_FW fuel data off st = Some (r, st') -> called_back st st'.
Proof.
  induction fuel as [|fuel IH]; intros data off st r st'; [done|]. cbn [store_loop].
  destruct (pstorage_store _ _ _ _ _) as [err w].
  destruct (negb _); [intros [= <- <-]; apply set_world_called|].
  destruct (drain_soc _ _ _) as [st1|] eqn:E; [|done]. cbn [mbind option_bind]. intros E2.
  apply drain_called in E. eapply called_back_trans; [apply set_world_called|].
  eapply called_back_trans; [done|by eapply IH].
Qed.

(** * What each operation can do *)

Definition activate_of (p : dfu_start_packet) : activate_func :=
  if negb (Z.land (dfu_update_mode p) DFU_UPDATE_SD =? 0) then Activate_sd
  else if negb (Z.land (dfu_update_mode p) DFU_UPDATE_BL =? 0) then Activate_bl else Activate_app.

Abbreviation full_size st := (DFU_IMAGE_MAX_SIZE_FULL (b_mcu build) DFU_APP_DATA_RESERVED (sb_word st)).

(** State and outputs of [prepare]: one erase request, then storage callbacks. *)
Definition prepared (st st' : sb_state) : Prop :=
  core st' = core st /\
  (m_dfu_state st' = DFU_STATE_PREPARING \/
   m_dfu_state st' = if SIGNED_FW then DFU_STATE_RX_DATA_PKT else DFU_STATE_RDY) /\
  exists a l, trace st' = trace st ++ [EraseRequest a (if is_ota then CODE_PAGE_SIZE else m_image_size st)] ++ l /\
    Forall quiet l.

Lemma prepare_prepared st st' : prepare st = Some st' -> prepared st st'.
Proof.
  unfold dfu_prepare_func_app_erase, prepared. destruct is_ota.
  - destruct (pstorage_clear _ _ _) as [err w]. unfold APP_ERROR_CHECK.
    destruct (err =? NRF_SUCCESS); [|done]. cbn [mbind option_bind]. intros [= <-].
    split; [done|]. split; [by left|]. eexists _, []. by rewrite app_nil_r.
  - intros H1. apply cb_called in H1 as (C & S & l & T & Q).
    split; [exact C|]. split.
    + destruct S as [->|[_ ->]]; [by left|by right].
    + cbn [trace set_flash emit set_lazy set_state] in T. rewrite <- app_assoc in T. eauto.
Qed.

Lemma start_inv p st r st' :
  dfu_start_pkt_handle SIGNED_FW build DFU_APP_DATA_RESERVED is_ota app_timer_stop app_timer_start p st = Some (r, st') ->
  (m_dfu_state st <> DFU_STATE_IDLE /\ r = NRF_ERROR_INVALID_STATE /\ st' = st) \/
  (m_dfu_state st = DFU_STATE_IDLE /\ m_data_received st' = m_data_received st /\
   m_init_packet_length st' = m_init_packet_length st /\ m_start_packet st' = p /\
   ((r <> NRF_SUCCESS /\ m_dfu_state st' = DFU_STATE_IDLE /\ trace st' = trace st) \/
    (r = NRF_SUCCESS /\ dfu_start_packet_validate (b_mcu build) p = (NRF_SUCCESS, Some (m_image_size st')) /\
     m_image_size st' <= full_size st /\ m_activate st' = activate_of p /\
     if SIGNED_FW then m_dfu_state st' = DFU_STATE_RDY /\ exists l, trace st' = trace st ++ l /\ Forall quiet l
     else exists st1, prepared st1 st' /\ m_image_size st1 = m_image_size st' /\ trace st1 = trace st))).
Proof.
  unfold dfu_start_pkt_handle. destruct (bool_decide _) eqn:Es; cbn [negb].
  2: { apply bool_decide_eq_false in Es. intros [= <- <-]. by left. }
  apply bool_decide_eq_true in Es. intros Hh. right. split; [done|]. revert Hh.
  destruct (dfu_start_packet_validate _ p) as [err size] eqn:Hv.
  destruct (Z.eqb_spec err NRF_SUCCESS) as [->|Hne]; cbn [negb]; [|intros [= <- <-]; repeat split; auto].
  rewrite Z.gtb_ltb. set (st1 := set_start _ p st). 
  destruct (Z.ltb_spec (DFU_IMAGE_MAX_SIZE_FULL (b_mcu build) DFU_APP_DATA_RESERVED (sb_word st1)) (m_image_size st1)) as [Hf|Hf].
  { intros [= <- <-]. repeat split; auto. }
  set (st2 := if negb _ then _ else _).
  assert (exists a, st2 = set_activate a st1 /\ a = activate_of p) as (a & E2 & Ha).
  { unfold st2, activate_of. repeat destruct (negb _); eauto. }
  rewrite E2. clear st2 E2. unfold dfu_timer_restart, APP_ERROR_CHECK.
  destruct (m_dfu_timed_out _).
  { cbn [mbind option_bind]. intros [= <- <-]. repeat split; auto. }
  destruct (app_timer_stop _ =? NRF_SUCCESS); [|done].
  destruct (Z.eqb_spec (app_timer_start (set_activate a st1)) NRF_SUCCESS) as [Ht|]; [|done].
  cbn [mbind option_bind]. rewrite Ht. cbn [negb Z.eqb NRF_SUCCESS].
  assert (exists n, size = Some n) as (n & ->).
  { unfold dfu_start_packet_validate in Hv. destruct (_ || _) in Hv; [done|].
    destruct (_ >? _) in Hv; [done|]. destruct (add_overflow _ _) in Hv; [|done].
    destruct (add_overflow _ _) in Hv; [|done]. injection Hv as <-. eauto. }
  destruct SIGNED_FW eqn:ES.
  - intros [= <- <-]. set (st3 := set_state DFU_STATE_RDY _).
    destruct (data_pkt_cb_fields START_PACKET NRF_SUCCESS st3) as (C & S & l & T & Q).
    assert (core st3 = core (set_activate a st1)) as C3 by done. rewrite C3 in C. clear C3.
    unfold core in C. cbn in C. injection C as -> -> _ -> _ _ -> -> _ _.
    split; [done|]. split; [done|]. split; [done|]. right. repeat split; eauto.
  - rewrite <- ES. destruct (prepare _) as [st'1|] eqn:Hp; [|done]. cbn [mbind option_bind]. intros [= <- <-].
    apply prepare_prepared in Hp as Hp'. destruct Hp' as (C & _).
    unfold core in C. cbn in C. injection C as C1 C2 _ C3 _ _ C4 C5 _ _.
    rewrite C1, C2, C3, C4, C5. split; [done|]. split; [done|]. split; [done|]. right.
    split; [done|]. split; [done|]. split; [done|]. split; [done|].
    eexists. split; [exact (prepare_prepared _ _ Hp)|]. split; done.
Qed.

(** What a session has fixed since START. *)
Definition session (st : sb_state) :=
  (m_image_size st, m_start_packet st, m_storage_handle_app st, m_activate st, m_data_received st).

Definition quietly (st st' : sb_state) : Prop := exists l, trace st' = trace st ++ l /\ Forall quiet l.

Lemma quietly_refl st : quietly st st.
Proof. exists []. by rewrite app_nil_r. Qed.
Lemma quietly_eq st st' : trace st' = trace st -> quietly st st'.
Proof. unfold quietly. intros ->. exists []. by rewrite app_nil_r. Qed.
Lemma called_session st st' : called_back st st' -> session st' = session st /\ quietly st st' /\ sb_init st' = sb_init st /\ m_image_crc st' = m_image_crc st.
Proof. intros (C & _ & T). unfold core in C. injection C as ? ? ? ? ? ? ? ? ? ?. unfold session. split; [congruence|auto]. Qed.

(** [dfu_timer_restart] either reports the earlier timeout or succeeds. *)
Lemma timer_restart_result st err : dfu_timer_restart app_timer_stop app_timer_start st = Some err ->
  (m_dfu_timed_out st = true /\ err = NRF_ERROR_INVALID_STATE) \/ err = NRF_SUCCESS.
Proof.
  unfold dfu_timer_restart, APP_ERROR_CHECK. destruct (m_dfu_timed_out st).
  { intros [= <-]. by left. }
  destruct (app_timer_stop st =? NRF_SUCCESS); [|done].
  destruct (Z.eqb_spec (app_timer_start st) NRF_SUCCESS); [|done]. cbn. intros [= <-]. by right.
Qed.

Lemma init_pkt_inv p st r st' :
  dfu_init_pkt_handle app_timer_stop app_timer_start p st = Some (r, st') ->
  session st' = session st /\ sb_init st' = sb_init st /\ m_image_crc st' = m_image_crc st /\ trace st' = trace st /\
  (m_dfu_state st' = m_dfu_state st \/
   (m_dfu_state st = DFU_STATE_RDY /\ m_dfu_state st' = DFU_STATE_RX_INIT_PKT)).
Proof.
  unfold dfu_init_pkt_handle. set (st1 := set_state DFU_STATE_RX_INIT_PKT st).
  destruct (m_dfu_state st) eqn:E; try (intros [= <- <-]; rewrite E; split_and!; by auto).
  all: assert (session st1 = session st /\ sb_init st1 = sb_init st /\ m_image_crc st1 = m_image_crc st /\
    trace st1 = trace st /\ m_dfu_state st1 = DFU_STATE_RX_INIT_PKT) as (S1 & I1 & C1 & T1 & D1) by done;
    clearbody st1; destruct (m_data_received st1 >? 0); [intros [= <- <-]; rewrite D1; tauto|];
    destruct (dfu_timer_restart _ _ _) as [err|]; [|done]; cbn [mbind option_bind];
    destruct (negb _); [intros [= <- <-]; rewrite D1; tauto|];
    destruct (_ >? _); [intros [= <- <-]; rewrite D1; tauto|];
    destruct (_ >? _); [intros [= <- <-]; rewrite D1; tauto|];
    intros [= <- <-]; unfold session in *; cbn; rewrite D1; tauto.
Qed.

Abbreviation prevalidate' := (prevalidate SIGNED_FW build tc_sha256_init tc_sha256_update tc_sha256_final
  uECC_valid_public_key uECC_verify pk).

Lemma prepared_session st st' : prepared st st' ->
  session st' = session st /\ sb_init st' = sb_init st /\ m_image_crc st' = m_image_crc st /\
  exists a l, trace st' = trace st ++ [EraseRequest a (if is_ota then CODE_PAGE_SIZE else m_image_size st)] ++ l /\ Forall quiet l.
Proof. intros (C & _ & T). unfold core in C. injection C as ? ? ? ? ? ? ? ? ? ?. unfold session. split; [congruence|auto]. Qed.

Lemma init_complete_inv st r st' :
  dfu_init_pkt_complete SIGNED_FW build is_ota tc_sha256_init tc_sha256_update tc_sha256_final
    uECC_valid_public_key uECC_verify pk st = Some (r, st') ->
  session st' = session st /\ m_image_crc st' = m_image_crc st /\
  ((m_dfu_state st' = m_dfu_state st /\ trace st' = trace st) \/
   (m_dfu_state st = DFU_STATE_RX_INIT_PKT /\ m_data_received st <= 0 /\
    fst (prevalidate' st) = NRF_SUCCESS /\ sb_init st' = snd (prevalidate' st) /\
    if SIGNED_FW then prepared (set_init_state (snd (prevalidate' st)) (m_image_crc st) st) st'
    else m_dfu_state st' = DFU_STATE_RX_DATA_PKT /\ trace st' = trace st)).
Proof.
  unfold dfu_init_pkt_complete. rewrite Z.gtb_ltb. destruct (Z.ltb_spec 0 (m_data_received st)).
  { intros [= <- <-]. auto. }
  destruct (m_dfu_state st) eqn:E; try (intros [= <- <-]; by rewrite ?E; auto).
  destruct (prevalidate' st) as [err i] eqn:Hp. cbn [fst snd].
  destruct (Z.eqb_spec err NRF_SUCCESS) as [->|].
  2: { intros [= <- <-]. cbn. split; [done|]. split; [done|]. left. by rewrite E. }
  destruct SIGNED_FW eqn:ES.
  - rewrite <- ES at 1. destruct (prepare _) as [st1|] eqn:Hpr; [|done]. cbn [mbind option_bind]. intros [= <- <-].
    apply prepare_prepared in Hpr. pose proof (prepared_session _ _ Hpr) as (S & I & C & _).
    split; [exact S|]. split; [exact C|]. right. split; [done|]. split; [done|]. split; [done|].
    split; [exact I|]. exact Hpr.
  - intros [= <- <-]. split; [done|]. split; [done|]. right. repeat split; auto.
Qed.

Lemma data_inv fuel p st r st' :
  dfu_data_pkt_handle SIGNED_FW is_ota app_timer_stop app_timer_start fuel p st = Some (r, st') ->
  sb_init st' = sb_init st /\ m_image_crc st' = m_image_crc st /\ m_dfu_state st' = m_dfu_state st /\
  ((session st' = session st /\ quietly st st') \/
   (m_dfu_state st = DFU_STATE_RX_DATA_PKT /\ r = NRF_ERROR_DATA_SIZE /\ st' = set_received 0xFFFFFFFF st) \/
   (m_dfu_state st = DFU_STATE_RX_DATA_PKT /\ exists q, p = Some q /\
      m_data_received st <= m_image_size st /\
      packet_length q <= (m_image_size st - m_data_received st) / 4 /\
      session st' = session (set_received (u32 (m_data_received st + u32 (packet_length q * 4))) st) /\
      r = (if u32 (m_data_received st + u32 (packet_length q * 4)) =? m_image_size st then NRF_SUCCESS else NRF_ERROR_INVALID_LENGTH) /\
      exists l1 l2,
        trace st' = trace st ++ l1 ++
          [StoreRequest (u32 ((if is_ota then m_storage_handle_app st else DFU_BANK_0_REGION_START (sb_word st)) + m_data_received st))
             (sliceZ (p_data_packet q) 0 (u32 (packet_length q * 4)))] ++ l2 /\
        Forall quiet l1 /\ Forall quiet l2)).
Proof.
  assert (forall x, Some (x, st) = Some (r, st') -> sb_init st' = sb_init st /\ m_image_crc st' = m_image_crc st /\
    m_dfu_state st' = m_dfu_state st /\ session st' = session st /\ quietly st st') as Hsame.
  { intros x [= _ <-]. split_and!; auto using quietly_refl. }
  unfold dfu_data_pkt_handle. destruct p as [q|]; [|intros Hx; apply Hsame in Hx; tauto].
  destruct (word_aligned q); cbn [negb]; [|intros Hx; apply Hsame in Hx; tauto].
  destruct (m_dfu_state st) eqn:E; try (intros Hx; apply Hsame in Hx; tauto).
  rewrite !Z.gtb_ltb.
  destruct (Z.ltb_spec (m_image_size st) (m_data_received st)) as [H1|H1]; cbn [orb].
  { intros [= <- <-]. cbn. split_and!; auto. }
  destruct (Z.ltb_spec ((m_image_size st - m_data_received st) / 4) (packet_length q)) as [H2|H2].
  { intros [= <- <-]. cbn. split_and!; auto. }
  destruct (dfu_timer_restart _ _ st) as [err|]; [|done]. cbn [mbind option_bind].
  destruct (negb (err =? NRF_SUCCESS)); [intros Hx; apply Hsame in Hx; tauto|].
  set (dl := u32 (packet_length q * 4)). set (data := sliceZ (p_data_packet q) 0 dl).
  assert (forall st1 : sb_state, called_back st st1 -> 
    m_dfu_state st1 = DFU_STATE_RX_DATA_PKT) as Hstate.
  { intros st1 (_ & [->|[? _]] & _); congruence. }
  destruct is_ota eqn:EO.
  - destruct (store_loop _ _ _ _ _) as [[err2 st1]|] eqn:Hs; [|done]. cbn [mbind option_bind].
    apply store_loop_called in Hs. apply Hstate in Hs as Hd.
    destruct (called_session _ _ Hs) as (S1 & (l & T & Q) & I1 & C1).
    destruct (negb (err2 =? NRF_SUCCESS)); [intros [= <- <-]; split; [done|]; split; [done|]; split; [done|]; left; split; [done|]; by exists l|].
    cbn [mbind option_bind].
    pose proof S1 as S1'. unfold session in S1'. injection S1' as _ _ Hh _ Hrec. rewrite Hh.
    set (st2 := emit _ st1).
    assert (m_data_received st2 = m_data_received st /\ m_image_size st2 = m_image_size st) as (R2 & Z2).
    { unfold session in S1. injection S1 as Hz _ _ _ Hr. split; [exact Hr|exact Hz]. }
    rewrite R2. set (st3 := set_received (u32 (m_data_received st + dl)) st2).
    assert (m_image_size st3 = m_image_size st) as Z3 by exact Z2.
    assert (m_data_received st3 = u32 (m_data_received st + dl)) as R3 by done.
    intros Hret. assert (r = (if u32 (m_data_received st + dl) =? m_image_size st then NRF_SUCCESS else NRF_ERROR_INVALID_LENGTH) /\ st' = st3) as (-> & ->).
    { rewrite R3, Z3 in Hret.
      destruct (Z.eqb_spec (u32 (m_data_received st + dl)) (m_image_size st)); cbn [negb] in Hret; injection Hret as <- <-; auto. }
    split; [exact I1|]. split; [exact C1|]. split; [exact Hd|]. right. right. split; [done|].
    exists q. split; [done|]. split; [done|]. split; [done|]. split.
    { unfold session in *. cbn. by injection S1 as -> -> -> -> _. }
    split; [done|]. exists l, []. rewrite app_nil_r. split; [|done].
    change (trace st3) with (trace st1 ++ [StoreRequest (u32 (m_storage_handle_app st + m_data_received st)) data]).
    by rewrite T, app_assoc.
  - set (st1 := set_flash _ _). destruct (cb _ _ _) as [st2|] eqn:Hc; [|done]. cbn [mbind option_bind].
    apply cb_called in Hc. destruct (called_session _ _ Hc) as (S1 & (l & T & Q) & I1 & C1).
    assert (m_dfu_state st2 = DFU_STATE_RX_DATA_PKT) as Hd.
    { destruct Hc as (_ & [Hd|[Hd _]] & _); cbn in Hd; congruence. }
    assert (m_data_received st2 = m_data_received st /\ m_image_size st2 = m_image_size st) as (R2 & Z3).
    { unfold session in S1. injection S1 as ? _ _ _ ?. done. }
    rewrite R2. cbn [m_data_received set_received m_image_size]. rewrite Z3.
    intros Hret. 
    assert (r = (if u32 (m_data_received st + dl) =? m_image_size st then NRF_SUCCESS else NRF_ERROR_INVALID_LENGTH) /\
      session st' = session (set_received (u32 (m_data_received st + dl)) st) /\ trace st' = trace st2 /\
      sb_init st' = sb_init st2 /\ m_image_crc st' = m_image_crc st2 /\ m_dfu_state st' = m_dfu_state st2) as (-> & S' & T' & I' & C' & D').
    { unfold session in S1. injection S1 as Hz Hsp Hh Ha Hr. unfold session. cbn.
      destruct (Z.eqb_spec (u32 (m_data_received st + dl)) (m_image_size st)); cbn [negb] in Hret;
        injection Hret as <- <-; cbn; rewrite ?Hz, ?Hsp, ?Hh, ?Ha; done. }
    rewrite I', C', D', I1, C1. split; [done|]. split; [done|]. split; [done|]. right. right. split; [done|].
    exists q. split; [done|]. split; [done|]. split; [done|]. split; [done|]. split; [done|].
    exists [], l. rewrite T', T. split; [|done]. cbn [app].
    change (trace st1) with (trace st ++ [StoreRequest (u32 (DFU_BANK_0_REGION_START (sb_word st) + m_data_received st)) data]).
    by rewrite <- app_assoc.
Qed.

Abbreviation postvalidate' st := (dfu_init_postvalidate tc_sha256_init tc_sha256_update tc_sha256_final SIGNED_FW
  (sb_init st) (stored_image st) (m_image_size st) true).
Abbreviation policy' st := (dfu_image_policy_validate build (sb_word st) (Some (stored_image st)) (m_image_size st)
  (Some (m_start_packet st))).
Abbreviation validate' := (dfu_image_validate SIGNED_FW build tc_sha256_init tc_sha256_update tc_sha256_final
  app_timer_stop app_timer_start).

Lemma postvalidate_fields st err crc :
  postvalidate' st = (err, crc) -> err = NRF_SUCCESS -> exists c, crc = Some c.
Proof.
  unfold dfu_init_postvalidate. cbn [negb]. destruct SIGNED_FW.
  - destruct (negb _); [by intros [= <- <-]|]. destruct (tc_hash _ _ _ _); [|by intros [= <- <-]].
    destruct (negb _); [by intros [= <- <-]|]. intros [= <- <-]. eauto.
  - destruct (negb _); [by intros [= <- <-]|]. intros [= <- <-]. eauto.
Qed.

Lemma validate_inv st r st' : validate' st = Some (r, st') ->
  session st' = session st /\ sb_init st' = sb_init st /\ trace st' = trace st /\
  ((r <> NRF_SUCCESS /\ (st' = st \/
      (m_dfu_state st = DFU_STATE_RX_DATA_PKT /\ m_dfu_state st' = DFU_STATE_VALIDATE))) \/
   (r = NRF_SUCCESS /\ m_dfu_state st = DFU_STATE_RX_DATA_PKT /\ m_dfu_state st' = DFU_STATE_WAIT_4_ACTIVATE /\
    m_data_received st = m_image_size st /\
    postvalidate' st = (NRF_SUCCESS, Some (m_image_crc st')) /\ policy' st = NRF_SUCCESS)).
Proof.
  unfold dfu_image_validate. destruct (m_dfu_state st) eqn:E;
    try (intros [= <- <-]; split_and!; auto; fail).
  destruct (Z.eqb_spec (m_data_received st) (m_image_size st)); cbn [negb];
    [|intros [= <- <-]; split_and!; by auto].
  destruct (dfu_timer_restart _ _ _) as [err|]; [|done]. cbn [mbind option_bind].
  destruct (Z.eqb_spec err NRF_SUCCESS); cbn [negb]; [|intros [= <- <-]; split_and!; by auto].
  change (stored_image (set_state DFU_STATE_VALIDATE st)) with (stored_image st).
  cbn [sb_init m_image_size set_state].
  destruct (postvalidate' st) as [err2 crc] eqn:Hp.
  destruct (Z.eqb_spec err2 NRF_SUCCESS) as [->|]; cbn [negb]; [|intros [= <- <-]; split_and!; by auto].
  destruct (postvalidate_fields _ _ _ Hp eq_refl) as (c & ->).
  set (st1 := set_init_state _ _ _). 
  change (stored_image st1) with (stored_image st). change (sb_word st1) with (sb_word st).
  change (m_image_size st1) with (m_image_size st). change (m_start_packet st1) with (m_start_packet st).
  destruct (Z.eqb_spec (policy' st) NRF_SUCCESS) as [Hpol|]; cbn [negb];
    [|intros [= <- <-]; split_and!; by auto].
  intros [= <- <-]. split; [done|]. split; [done|]. split; [done|]. right. split_and!; done.
Qed.

(** The completion the engine reports for the update in [st]. *)
Definition completion (st : sb_state) : dfu_update_status :=
  let p := m_start_packet st in
  match activate_of p with
  | Activate_sd => DFU_UPDATE_SD_COMPLETE (m_image_crc st) (DFU_BANK_0_REGION_START (sb_word st))
                     (sd_image_size p) (bl_image_size p) (app_image_size p)
  | Activate_bl => DFU_UPDATE_BOOT_COMPLETE (m_image_crc st) (sd_image_size p) (bl_image_size p) (app_image_size p)
  | _ => DFU_UPDATE_APP_COMPLETE (m_image_crc st) (app_image_size p)
  end.

Lemma activate_inv st r st' : dfu_image_activate app_timer_stop st = Some (r, st') ->
  session st' = session st /\ m_dfu_state st' = m_dfu_state st /\ sb_init st' = sb_init st /\
  m_image_crc st' = m_image_crc st /\
  ((r = NRF_ERROR_INVALID_STATE /\ m_dfu_state st <> DFU_STATE_WAIT_4_ACTIVATE /\ trace st' = trace st) \/
   (r = NRF_SUCCESS /\ m_dfu_state st = DFU_STATE_WAIT_4_ACTIVATE /\
    (m_activate st = activate_of (m_start_packet st) -> trace st' = trace st ++ [UpdateProcess (completion st)]) /\
    exists s, trace st' = trace st ++ [UpdateProcess s])).
Proof.
  unfold dfu_image_activate. destruct (m_dfu_state st) eqn:E;
    try (intros [= <- <-]; rewrite E; split_and!; auto; fail).
  unfold APP_ERROR_CHECK. destruct (app_timer_stop st =? NRF_SUCCESS); [|done]. cbn [mbind option_bind].
  unfold run_activate, completion. destruct (m_activate st) eqn:Ea; [done|..]; cbn [mbind option_bind];
    intros [= <- <-]; (split_and!; [done|done|done|done|]); right; (split_and!; [done|done| |eauto]);
    by intros <-.
Qed.

(** * Invariants of reachable states *)

Definition started (s : dfu_state) : Prop := s <> DFU_STATE_INIT_ERROR /\ s <> DFU_STATE_IDLE.

Definition POISON : Z := 0xFFFFFFFF.

(** The store requests made since [dfu_init], and their total size. *)
Fixpoint stores (t : list dfu_output) : list (Z * list Z) :=
  match t with
  | [] => []
  | StoreRequest a d :: t => (a, d) :: stores t
  | _ :: t => stores t
  end.
Definition total (l : list (Z * list Z)) : Z := lenZ (concat (map snd l)).

(** Each store starts where the one before it ended. *)
Fixpoint contiguous (a : Z) (l : list (Z * list Z)) : Prop :=
  match l with
  | [] => True
  | (b, d) :: l => b = u32 a /\ contiguous (a + lenZ d) l
  end.

Lemma stores_app t1 t2 : stores (t1 ++ t2) = stores t1 ++ stores t2.
Proof. induction t1 as [|[] t1 IH]; cbn; congruence. Qed.
Lemma stores_quiet l : Forall quiet l -> stores l = [].
Proof. induction 1 as [|[] l Hq _ IH]; by cbn in *. Qed.
Lemma total_app l k : total (l ++ k) = total l + total k.
Proof. unfold total. by rewrite map_app, concat_app, lenZ_app. Qed.
Lemma contiguous_app l : forall a k, contiguous a (l ++ k) <-> contiguous a l /\ contiguous (a + total l) k.
Proof.
  induction l as [|[b d] l IH]; intros a k; cbn.
  { rewrite Z.add_0_r. tauto. }
  rewrite IH. unfold total. cbn [map concat snd]. rewrite lenZ_app, Z.add_assoc. tauto.
Qed.
Lemma stores_quietly st st' : quietly st st' -> stores (trace st') = stores (trace st).
Proof. intros (l & -> & Q). by rewrite stores_app, (stores_quiet l), app_nil_r. Qed.

(** The accepted START, and the transfer's progress. *)
Definition session_ok (st : sb_state) : Prop :=
  started (m_dfu_state st) ->
  start_wf (m_start_packet st) /\
  dfu_start_packet_validate (b_mcu build) (m_start_packet st) = (NRF_SUCCESS, Some (m_image_size st)) /\
  m_activate st = activate_of (m_start_packet st).

Definition progress_ok (st : sb_state) : Prop :=
  let s := stores (trace st) in
  (is_ota = true -> contiguous (m_storage_handle_app st) s) /\
  (~ started (m_dfu_state st) -> s = [] /\ m_data_received st = 0) /\
  (started (m_dfu_state st) -> total s <= m_image_size st) /\
  (m_data_received st = total s \/ (m_data_received st = POISON /\ m_dfu_state st <> DFU_STATE_WAIT_4_ACTIVATE)).

Definition validated (st : sb_state) : Prop :=
  m_dfu_state st = DFU_STATE_WAIT_4_ACTIVATE ->
  exists s0, reachable' s0 /\ m_dfu_state s0 = DFU_STATE_RX_DATA_PKT /\ session s0 = session st /\
    m_data_received s0 = m_image_size s0 /\
    postvalidate' s0 = (NRF_SUCCESS, Some (m_image_crc st)) /\ policy' s0 = NRF_SUCCESS.

Definition inv (st : sb_state) : Prop := session_ok st /\ progress_ok st /\ validated st.

(** Steps that keep the session and make no store. *)
Lemma inv_same st st' : inv st -> session st' = session st -> stores (trace st') = stores (trace st) ->
  (m_dfu_state st' = m_dfu_state st /\ m_image_crc st' = m_image_crc st) \/
  (started (m_dfu_state st) /\ started (m_dfu_state st') /\ m_dfu_state st' <> DFU_STATE_WAIT_4_ACTIVATE) ->
  inv st'.
Proof.
  intros (Hs & (P1 & P2 & P3 & P4) & Hv) S T D. pose proof S as S'. unfold session in S'. injection S' as Hz Hp Hh Ha Hr.
  unfold inv, session_ok, progress_ok, validated. rewrite S, T, Hz, Hp, Hh, Ha, Hr.
  destruct D as [[-> ->]|(D1 & D2 & D3)]; [done|].
  assert (m_data_received st = total (stores (trace st)) \/
    m_data_received st = POISON /\ m_dfu_state st' <> DFU_STATE_WAIT_4_ACTIVATE) by (destruct P4 as [?|[? _]]; auto).
  split_and!; auto; done.
Qed.

Lemma quiet_stores t l t' : t' = t ++ l -> Forall quiet l -> stores t' = stores t.
Proof. intros -> Q. by rewrite stores_app, (stores_quiet l), app_nil_r. Qed.

Lemma dfu_init_inv st0 st : trace st0 = [] ->
  dfu_init app_timer_create app_timer_start st0 = Some (NRF_SUCCESS, st) -> inv st.
Proof.
  intros Ht. unfold dfu_init. destruct (pstorage_register _) as [err p].
  destruct (Z.eqb_spec err NRF_SUCCESS) as [->|]; cbn [negb]; [|intros [= ? _]; congruence].
  unfold APP_ERROR_CHECK. destruct (app_timer_create _ =? NRF_SUCCESS); [|done]. cbn [mbind option_bind].
  destruct (app_timer_start _ =? NRF_SUCCESS); [|done]. cbn [mbind option_bind]. intros [= <-].
  unfold inv, session_ok, progress_ok, validated, started. cbn. rewrite Ht. cbn. unfold total. cbn.
  split_and!; try done; try tauto.
Qed.

(** The size START fixed: word-sized, positive and below the poison value. *)
Lemma session_size st : session_ok st -> started (m_dfu_state st) ->
  0 < m_image_size st /\ m_image_size st mod 4 = 0 /\ m_image_size st < POISON.
Proof.
  intros Hs D. destruct (Hs D) as (Hwf & Hv & _). apply start_validate_success in Hv as (Hr & (A1 & A2 & A3) & _ & -> & Hm); [|done].
  destruct Hwf as (_ & W1 & W2 & W3). unfold role_exact, POISON, UINT32_MAX in *. split; [lia|]. 
  split; [zlia|]. assert ((sd_image_size (m_start_packet st) + bl_image_size (m_start_packet st) + app_image_size (m_start_packet st)) mod 4 = 0) by zlia.
  zlia.
Qed.

Lemma data_step_inv fuel p st r st' : inv st -> event_wf (EvData p) ->
  dfu_data_pkt_handle SIGNED_FW is_ota app_timer_stop app_timer_start fuel p st = Some (r, st') -> inv st'.
Proof.
  intros Hi Hwf Hd. apply data_inv in Hd as (I & C & D & [[S Q]|[(D1 & _ & ->)|(D1 & q & -> & R1 & R2 & S & _ & l1 & l2 & T & Q1 & Q2)]]).
  - apply inv_same with st; auto using stores_quietly.
  - destruct Hi as (Hs & (P1 & P2 & P3 & P4) & Hv). unfold inv, session_ok, progress_ok, validated. cbn.
    unfold session_ok in Hs. rewrite D1 in *. split_and!; auto; try done.
    intros Hn. exfalso. by apply Hn.
  - destruct Hi as (Hs & (P1 & P2 & P3 & P4) & Hv). destruct Hwf as [W0 W1].
    assert (started (m_dfu_state st)) as Hst by (rewrite D1; done).
    destruct (session_size st Hs Hst) as (Z0 & Z4 & Zp). specialize (P3 Hst).
    destruct P4 as [P4|[P4 _]]; [|unfold POISON in *; lia].
    assert (packet_length q * 4 <= m_image_size st - m_data_received st) as Hle by zlia.
    pose proof (lenZ_nonneg (concat (map snd (stores (trace st))))) as Ht0. fold (total (stores (trace st))) in Ht0.
    rewrite (u32_small (packet_length q * 4)) in T, S by (unfold POISON in *; lia).
    rewrite u32_small in S by (unfold POISON in *; lia).
    pose proof S as S'. unfold session in S'. cbn in S'. injection S' as Hz Hp Hh Ha Hrec.
    set (d := sliceZ (p_data_packet q) 0 (packet_length q * 4)) in *.
    assert (lenZ d = packet_length q * 4) as Hld by (apply lenZ_sliceZ; lia).
    assert (exists a, stores (trace st') = stores (trace st) ++ [(a, d)] /\
      (is_ota = true -> a = u32 (m_storage_handle_app st + m_data_received st))) as (a & Est & Ea).
    { eexists. rewrite T. cbn [app]. rewrite stores_app, stores_app, (stores_quiet l1) by done. cbn [stores app].
      rewrite (stores_quiet l2) by done. split; [done|]. by intros ->. }
    assert (total (stores (trace st')) = m_data_received st + packet_length q * 4) as Htot.
    { rewrite Est, total_app, <- P4. f_equal. unfold total. cbn. by rewrite app_nil_r. }
    unfold inv, session_ok, progress_ok, validated. unfold session_ok in Hs.
    rewrite D, D1 in *. rewrite Htot, Hz, Hp, Hh, Ha, Hrec.
    split_and!; auto; try done; try lia.
    intros Ho. rewrite Est. apply contiguous_app. split; [by apply P1|]. cbn.
    rewrite <- P4. split; [by apply Ea|done].
Qed.

Lemma handle_inv fuel e st r st' : reachable' st -> inv st -> event_wf e -> handle' fuel e st = Some (r, st') -> inv st'.
Proof.
  intros Hre Hi Hwf. destruct e as [p|p| |p| | | | |]; cbn [handle].
  - intros Hh. apply start_inv in Hh as [(_ & _ & ->)|(D & R & IL & SP & Hc)]; [done|].
    destruct Hi as (_ & (P1 & P2 & P3 & P4) & _). destruct (P2) as (Es & Er); [rewrite D; unfold started; tauto|].
    assert (exists l, trace st' = trace st ++ l /\ stores l = []) as (l & Et & El).
    { destruct Hc as [(_ & _ & ->)|(_ & _ & _ & _ & Hb)]; [exists []; by rewrite app_nil_r|].
      destruct SIGNED_FW.
      - destruct Hb as (_ & l & -> & Q). exists l. split; [done|by apply stores_quiet].
      - destruct Hb as (st1 & (_ & _ & a & l & -> & Q) & _ & ->). eexists. split; [done|]. cbn. by apply stores_quiet. }
    assert (stores (trace st') = []) as Es' by by rewrite Et, stores_app, Es, El.
    unfold inv, session_ok, progress_ok, validated. rewrite Es', R, Er, SP. unfold total. cbn.
    destruct Hc as [(_ & D' & _)|(_ & Hv & _ & Ha & Hb)].
    + rewrite D'. unfold started. split_and!; try done; try tauto.
    + assert (m_dfu_state st' <> DFU_STATE_WAIT_4_ACTIVATE /\ started (m_dfu_state st')) as (D1 & D2).
      { destruct SIGNED_FW eqn:ES; [destruct Hb as (-> & _); done|].
        destruct Hb as (st1 & (_ & [->|D'] & _) & _); [done|]. rewrite ES in D'. by rewrite D'. }
      pose proof Hv as Hv'. apply start_validate_success in Hv' as (_ & _ & _ & Hsz & _); [|exact Hwf].
      pose proof Hwf as (_ & W1 & W2 & W3). cbn [event_wf] in Hwf.
      split_and!; try done; try tauto; unfold lenZ; cbn; lia.
  - intros Hh. apply init_pkt_inv in Hh as (S & _ & C & T & D). apply inv_same with st; [done|done|congruence|].
    destruct D as [->|[-> ->]]; [by left|right; done].
  - intros Hh. apply init_complete_inv in Hh as (S & C & [[D T]|(D & _ & _ & _ & Hb)]).
    { apply inv_same with st; [done|done|congruence|by left]. }
    apply inv_same with st; [done|done| |].
    + destruct SIGNED_FW; [|destruct Hb as [_ ->]; done].
      destruct Hb as (_ & _ & a & l & -> & Q). cbn [trace set_init_state]. rewrite stores_app. cbn. by rewrite (stores_quiet l), app_nil_r.
    + right. rewrite D. destruct SIGNED_FW eqn:ES; [|destruct Hb as [-> _]; done].
      destruct Hb as (_ & [->|D'] & _); [done|]. rewrite ES in D'. by rewrite D'.
  - by apply data_step_inv.
  - intros Hh. apply validate_inv in Hh as (S & I & T & [[_ D]|(_ & D & D' & R & Hp & Hpol)]).
    { destruct D as [->|[D D']]; [done|]. apply inv_same with st; [done|done|congruence|right; rewrite D, D'; done]. }
    destruct Hi as (Hs & (P1 & P2 & P3 & P4) & _).
    assert (started (m_dfu_state st)) as Hst by by rewrite D.
    destruct (session_size st Hs Hst) as (_ & _ & Hz).
    pose proof S as S'. unfold session in S'. injection S' as Ez Ep Eh Ea Er.
    unfold inv, session_ok, progress_ok, validated. rewrite D', T, Ez, Ep, Eh, Ea, Er. split_and!; auto; try done.
    + intros Hn. exfalso. by apply Hn.
    + destruct P4 as [?|[? _]]; [by left|]. lia.
    + intros _. exists st. rewrite S. split_and!; try done; by symmetry.
  - intros Hh. apply activate_inv in Hh as (S & D & _ & C & Hb). apply inv_same with st; [done|done| |by left].
    destruct Hb as [(_ & _ & ->)|(_ & _ & _ & s & ->)]; [done|]. by rewrite stores_app, app_nil_r.
  - intros [= <- <-]. apply inv_same with st; [done|done| |by left].
    cbn. by rewrite stores_app, app_nil_r.
  - intros [= <- <-]. apply inv_same with st; [done|done| |by left].
    cbn. by rewrite stores_app, app_nil_r.
  - destruct (proc_soc (world st)) as [[r0 w] evs]. destruct (deliver _ _ _) as [st1|] eqn:E; [|done].
    cbn [mbind option_bind]. intros [= <- <-]. apply deliver_called in E.
    pose proof (called_back_trans _ _ _ (set_world_called w st) E) as Hc.
    destruct (called_session _ _ Hc) as (S & Q & _ & C). apply inv_same with st; [done|done|by apply stores_quietly|].
    destruct Hc as (_ & [D|[D D']] & _); [by left|]. right. rewrite D, D'. by destruct SIGNED_FW.
Qed.

Lemma reachable_inv st : reachable' st -> inv st.
Proof.
  induction 1 as [st0 st Ht Hi|fuel e st r st' Hr IH Hwf Hh]; [by eapply dfu_init_inv|by eapply handle_inv].
Qed.

(** * The way to activation *)

(** A run of the engine from one state to another. *)
Inductive steps : sb_state -> list dfu_event -> sb_state -> Prop :=
| steps_nil st : steps st [] st
| steps_snoc st evs st1 fuel e r st2 :
    steps st evs st1 -> event_wf e -> handle' fuel e st1 = Some (r, st2) -> steps st (evs ++ [e]) st2.

(** No flash request was made between two states of a run. *)
Definition no_request (o : dfu_output) : Prop := match o with EraseRequest _ _ | StoreRequest _ _ => False | _ => True end.
Definition idle_between (st st' : sb_state) : Prop := exists l, trace st' = trace st ++ l /\ Forall no_request l.

Lemma idle_same st st' : trace st' = trace st -> idle_between st st'.
Proof. intros E. exists []. by rewrite E, app_nil_r. Qed.
Lemma idle_trans s1 s2 s3 : idle_between s1 s2 -> idle_between s2 s3 -> idle_between s1 s3.
Proof. intros (l1 & T1 & Q1) (l2 & T2 & Q2). exists (l1 ++ l2). rewrite T2, T1, app_assoc. split; [done|]. by apply Forall_app. Qed.
Lemma idle_emit o st : no_request o -> idle_between st (emit o st).
Proof. intros Ho. exists [o]. split; [done|by repeat constructor]. Qed.
Lemma quiet_idle st st' : quietly st st' -> idle_between st st'.
Proof. intros (l & T & Q). exists l. split; [done|]. by eapply Forall_impl; [|exact Q]; intros []. Qed.

(** Waiting for activation, a step keeps the session and makes no flash request. *)
Definition keeps_waiting (e : dfu_event) (st st' : sb_state) : Prop :=
  session st' = session st /\ sb_init st' = sb_init st /\ m_image_crc st' = m_image_crc st /\ idle_between st st' /\
  (e <> EvSoc -> sb_flash st' = sb_flash st).

Lemma waiting_step fuel e st r st' : m_dfu_state st = DFU_STATE_WAIT_4_ACTIVATE -> handle' fuel e st = Some (r, st') -> keeps_waiting e st st'.
Proof.
  intros D. assert (forall x y : Z, Some (x, st) = Some (y, st') -> keeps_waiting e st st') as Hsame.
  { intros x y [= _ <-]. split_and!; [done..|by apply idle_same|done]. }
  destruct e as [p|p| |p| | | | |]; cbn [handle].
  - unfold dfu_start_pkt_handle. rewrite D. apply Hsame.
  - unfold dfu_init_pkt_handle. rewrite D. apply Hsame.
  - unfold dfu_init_pkt_complete. rewrite D. destruct (m_data_received st >? 0); apply Hsame.
  - unfold dfu_data_pkt_handle. rewrite D. destruct p as [q|]; [destruct (negb (word_aligned q))|]; apply Hsame.
  - unfold dfu_image_validate. rewrite D. apply Hsame.
  - unfold dfu_image_activate, run_activate, APP_ERROR_CHECK. rewrite D. destruct (app_timer_stop st =? NRF_SUCCESS); [|done]. cbn [mbind option_bind].
    destruct (m_activate st); [done|..]; cbn [mbind option_bind]; intros [= _ <-]; (split_and!; [done..|by apply idle_emit|done]).
  - intros [= _ <-]. split_and!; [done..|by apply idle_emit|done].
  - intros [= _ <-]. split_and!; [done..| |done]. exact (idle_emit (UpdateProcess DFU_TIMEOUT) (set_timed_out st) I).
  - destruct (proc_soc (world st)) as [[r0 w] evs]. destruct (deliver _ _ _) as [st1|] eqn:E; [|done]. cbn [mbind option_bind]. intros [= _ <-].
    apply deliver_called in E. destruct (called_session _ _ (called_back_trans _ _ _ (set_world_called w st) E)) as (S & Q & I & C).
    split_and!; [done..|by apply quiet_idle|done].
Qed.

(** Only a successful validation leads there. *)
Lemma enters_waiting fuel e st r st' : m_dfu_state st <> DFU_STATE_WAIT_4_ACTIVATE -> handle' fuel e st = Some (r, st') ->
  m_dfu_state st' = DFU_STATE_WAIT_4_ACTIVATE -> e = EvValidate /\ r = NRF_SUCCESS.
Proof.
  intros D Hh D'. assert (forall s : bool, (if s then DFU_STATE_RX_DATA_PKT else DFU_STATE_RDY) <> DFU_STATE_WAIT_4_ACTIVATE) as Hif by by intros [].
  assert (forall st1, prepared st1 st' -> False) as Hprep.
  { intros st1 (_ & [E|E] & _); rewrite D' in E; [done|by eapply Hif]. }
  destruct e as [p|p| |p| | | | |]; cbn [handle] in Hh; try (by injection Hh as _ <-).
  - exfalso. apply start_inv in Hh as [(_ & _ & ->)|(_ & _ & _ & _ & [(_ & E & _)|(_ & _ & _ & _ & Hb)])]; [done|congruence|].
    destruct SIGNED_FW eqn:ES; [destruct Hb; congruence|]. destruct Hb as (st1 & Hp & _). by apply (Hprep st1).
  - exfalso. apply init_pkt_inv in Hh as (_ & _ & _ & _ & [E|[_ E]]); congruence.
  - exfalso. apply init_complete_inv in Hh as (_ & _ & [[E _]|(_ & _ & _ & _ & Hb)]); [congruence|].
    destruct SIGNED_FW eqn:ES; [by eapply Hprep|]. destruct Hb; congruence.
  - exfalso. apply data_inv in Hh as (_ & _ & E & _). congruence.
  - apply validate_inv in Hh as (_ & _ & _ & [[_ [->|[_ E]]]|[-> _]]); [done|congruence|done].
  - exfalso. apply activate_inv in Hh as (_ & E & _). congruence.
  - exfalso. destruct (proc_soc (world st)) as [[r0 w] evs]. destruct (deliver _ _ _) as [st1|] eqn:E; [|done]. cbn [mbind option_bind] in Hh.
    injection Hh as _ <-. apply deliver_called in E. destruct (called_back_trans _ _ _ (set_world_called w st) E) as (_ & [E1|[_ E1]] & _); [congruence|].
    rewrite D' in E1. by eapply Hif.
Qed.

(** The history of a state that waits for activation. *)
Definition validated_run (st : sb_state) : Prop :=
  exists fuel s0 s1 evs, reachable' s0 /\ handle' fuel EvValidate s0 = Some (NRF_SUCCESS, s1) /\ steps s1 evs st /\
    session st = session s1 /\ sb_init st = sb_init s1 /\ m_image_crc st = m_image_crc s1 /\ idle_between s1 st /\
    (~ In EvSoc evs -> sb_flash st = sb_flash s1).

Lemma reachable_validated st : reachable' st -> m_dfu_state st = DFU_STATE_WAIT_4_ACTIVATE -> validated_run st.
Proof.
  induction 1 as [st0 st Ht Hi|fuel e st r st' Hr IH Hwf Hh]; intros D.
  { exfalso. revert Hi D. unfold dfu_init. destruct (pstorage_register _) as [err p].
    destruct (Z.eqb_spec err NRF_SUCCESS) as [->|]; cbn [negb]; [|intros [= ? _]; congruence].
    unfold APP_ERROR_CHECK. destruct (app_timer_create _ =? NRF_SUCCESS); [|done]. cbn [mbind option_bind].
    destruct (app_timer_start _ =? NRF_SUCCESS); [|done]. cbn [mbind option_bind]. by intros [= <-]. }
  destruct (decide (m_dfu_state st = DFU_STATE_WAIT_4_ACTIVATE)) as [Dw|Dw].
  - destruct (waiting_step _ _ _ _ _ Dw Hh) as (S & I & C & Q & F). destruct (IH Dw) as (fu & s0 & s1 & evs & R & V & P & S0 & I0 & C0 & Q0 & F0).
    exists fu, s0, s1, (evs ++ [e]). split; [done|]. split; [done|]. split; [by eapply steps_snoc|]. split_and!; [congruence..|by eapply idle_trans|].
    intros Hn. rewrite F, F0; [done| |]; intros Hin; apply Hn, in_or_app; [by left|right; by left].
  - destruct (enters_waiting _ _ _ _ _ Dw Hh D) as [-> ->]. exists fuel, st, st', []. split; [done|]. split; [done|]. split; [constructor|].
    split_and!; [done..|by apply idle_same|done].
Qed.

Lemma validate_flash st r st' : validate' st = Some (r, st') -> sb_flash st' = sb_flash st.
Proof.
  unfold dfu_image_validate. destruct (m_dfu_state st); try (by intros [= _ <-]). destruct (negb _); [by intros [= _ <-]|].
  destruct (dfu_timer_restart _ _ _) as [err|]; [|done]. cbn [mbind option_bind]. destruct (negb _); [by intros [= _ <-]|].
  destruct (dfu_init_postvalidate _ _ _ _ _ _ _ _) as [e2 c]. destruct (negb _); [by intros [= _ <-]|]. destruct (negb _); by intros [= _ <-].
Qed.

(** * Properties *)

(** C6: an update is activated only after the stored image was validated.
    Whenever [dfu_image_activate] hands a reachable engine's update to the
    bootloader, the run has passed through a successful [dfu_image_validate]: in the state
    [s0] before it the image was complete, and its bytes then in flash passed the transport
    check of the init packet accepted in that run and the policy for the START tuple in force. From there the run went on to [st]
    without another START being accepted, an erase or a store, so that the completion reported is
    the one for that tuple with the CRC of those bytes, and flash is still the one
    validated unless the storage module completed older requests meanwhile. *)
Theorem activation_validated st r st' :
  reachable' st -> dfu_image_activate app_timer_stop st = Some (r, st') -> trace st' <> trace st ->
  r = NRF_SUCCESS /\ trace st' = trace st ++ [UpdateProcess (completion st)] /\
  dfu_start_packet_validate (b_mcu build) (m_start_packet st) = (NRF_SUCCESS, Some (m_image_size st)) /\
  exists fuel s0 s1 evs, reachable' s0 /\ m_dfu_state s0 = DFU_STATE_RX_DATA_PKT /\
    handle' fuel EvValidate s0 = Some (NRF_SUCCESS, s1) /\ steps s1 evs st /\
    session st = session s0 /\ sb_init st = sb_init s0 /\ m_data_received s0 = m_image_size s0 /\
    postvalidate' s0 = (NRF_SUCCESS, Some (m_image_crc st)) /\ policy' s0 = NRF_SUCCESS /\
    idle_between s0 st /\ (~ In EvSoc evs -> sb_flash st = sb_flash s0).
Proof.
  intros Hr Ha Ht. pose proof Hr as Hr'. apply reachable_inv in Hr as (Hs & _).
  apply activate_inv in Ha as (_ & _ & _ & _ & [(_ & _ & ?)|(-> & D & Hc & _)]); [done|].
  destruct Hs as (_ & Hst & Hact); [by rewrite D|]. split; [done|]. split; [by apply Hc|]. split; [done|].
  destruct (reachable_validated st Hr' D) as (fuel & s0 & s1 & evs & R & V & P & S & I & C & Q & F). exists fuel, s0, s1, evs.
  pose proof V as V'. cbn [handle] in V'. pose proof (validate_flash _ _ _ V') as Fv.
  apply validate_inv in V' as (Sv & Iv & Tv & [[? _]|(_ & D0 & _ & E0 & Hp & Hpol)]); [done|].
  split; [done|]. split; [done|]. split; [done|]. split; [done|]. split_and!; [congruence|congruence|done|congruence|done| |].
  - eapply idle_trans; [by apply idle_same|exact Q].
  - intros Hn. by rewrite F.
Qed.

Lemma quiet_no_erase l a n : Forall quiet l -> ~ In (EraseRequest a n) l.
Proof. induction 1 as [|x l Hx _ IH]; [intros []|]. intros [->|Hin]; [destruct Hx|auto]. Qed.
Lemma quiet_no_store l a d : Forall quiet l -> ~ In (StoreRequest a d) l.
Proof. induction 1 as [|x l Hx _ IH]; [intros []|]. intros [->|Hin]; [destruct Hx|auto]. Qed.

(** C7: a signed build never touches flash for an unauthenticated peer. In one
    step of the engine, an erase is requested only by [dfu_init_pkt_complete]
    on an init packet that passes [dfu_init_prevalidate] for the size START
    declared, the states that prepare flash or accept data are entered only by
    that step (or left standing), and a store is requested only in the
    data-receiving state. *)
Theorem signed_flash_authenticated fuel e st r st' :
  SIGNED_FW = true -> handle' fuel e st = Some (r, st') ->
  exists l, trace st' = trace st ++ l /\
    (forall a n, In (EraseRequest a n) l -> 
       e = EvInitComplete /\ m_dfu_state st = DFU_STATE_RX_INIT_PKT /\ m_data_received st <= 0 /\
       fst (prevalidate' st) = NRF_SUCCESS /\ n = (if is_ota then CODE_PAGE_SIZE else m_image_size st)) /\
    (forall a d, In (StoreRequest a d) l -> m_dfu_state st = DFU_STATE_RX_DATA_PKT) /\
    (m_dfu_state st' = DFU_STATE_PREPARING \/ m_dfu_state st' = DFU_STATE_RX_DATA_PKT ->
       m_dfu_state st = DFU_STATE_PREPARING \/ m_dfu_state st = DFU_STATE_RX_DATA_PKT \/
       (e = EvInitComplete /\ fst (prevalidate' st) = NRF_SUCCESS)).
Proof.
  intros HS. destruct e as [p|p| |p| | | | |]; cbn [handle].
  - intros Hh. apply start_inv in Hh as [(_ & _ & ->)|(D & _ & _ & _ & [(_ & D' & ->)|(_ & _ & _ & _ & Hb)])].
    + exists []. rewrite app_nil_r. split; [done|]. split; [done|]. split; [done|]. tauto.
    + exists []. rewrite app_nil_r. split; [done|]. split; [done|]. split; [done|]. rewrite D'. by intros [?|?].
    + rewrite HS in Hb. destruct Hb as (D' & l & T & Q). exists l. split; [done|].
      split; [intros a n Hin; by eapply quiet_no_erase in Hin|]. split; [intros a n Hin; by eapply quiet_no_store in Hin|].
      rewrite D'. by intros [?|?].
  - intros Hh. apply init_pkt_inv in Hh as (_ & _ & _ & T & D). exists []. rewrite app_nil_r.
    split; [done|]. split; [done|]. split; [done|]. destruct D as [->|[_ ->]]; [tauto|]. by intros [?|?].
  - intros Hh. apply init_complete_inv in Hh as (_ & _ & [[D T]|(D & R & Hp & _ & Hb)]).
    { exists []. rewrite app_nil_r, D. split; [done|]. split; [done|]. split; [done|]. tauto. }
    rewrite HS in Hb. destruct Hb as (_ & _ & a & l & T & Q). eexists. split; [exact T|].
    split; [|split].
    + intros a' n [E|Hin]; [|by eapply quiet_no_erase in Hin]. injection E as <- <-. done.
    + intros a' n [E|Hin]; [done|by eapply quiet_no_store in Hin].
    + intros _. right. right. done.
  - intros Hh. apply data_inv in Hh as (_ & _ & D & [[_ (l & T & Q)]|[(D1 & _ & ->)|(D1 & q & _ & _ & _ & _ & _ & l1 & l2 & T & Q1 & Q2)]]).
    + exists l. split; [done|]. split; [intros a n Hin; by eapply quiet_no_erase in Hin|]. split; [intros a n Hin; by eapply quiet_no_store in Hin|].
      rewrite D. tauto.
    + exists []. rewrite app_nil_r. split; [done|]. split; [done|]. split; [done|]. tauto.
    + eexists. split; [exact T|]. split; [|split; [done|tauto]].
      intros a n [Hin|[[E|[]]|Hin]%in_app_or]%in_app_or; [by eapply quiet_no_erase in Hin|done|by eapply quiet_no_erase in Hin].
  - intros Hh. apply validate_inv in Hh as (_ & _ & T & [[_ D]|(_ & D & D' & _)]); exists []; rewrite app_nil_r;
      (split; [done|]); (split; [done|]); (split; [done|]).
    + destruct D as [->|[-> _]]; tauto.
    + rewrite D. tauto.
  - intros Hh. apply activate_inv in Hh as (_ & D & _ & _ & [(_ & _ & T)|(_ & _ & _ & s & T)]).
    + exists []. rewrite app_nil_r, D. split; [done|]. split; [done|]. split; [done|]. tauto.
    + exists [UpdateProcess s]. rewrite D. split; [done|]. split; [by intros a n [?|[]]|]. split; [by intros a n [?|[]]|]. tauto.
  - intros [= <- <-]. eexists. split; [done|]. split; [by intros a n [?|[]]|]. split; [by intros a n [?|[]]|]. cbn. tauto.
  - intros [= <- <-]. eexists. split; [done|]. split; [by intros a n [?|[]]|]. split; [by intros a n [?|[]]|]. cbn. tauto.
  - destruct (proc_soc (world st)) as [[r0 w] evs]. destruct (deliver _ _ _) as [st1|] eqn:E; [|done].
    cbn [mbind option_bind]. intros [= <- <-]. apply deliver_called in E.
    destruct (called_back_trans _ _ _ (set_world_called w st) E) as (_ & D & l & T & Q).
    exists l. split; [done|]. split; [intros a n Hin; by eapply quiet_no_erase in Hin|]. split; [intros a n Hin; by eapply quiet_no_store in Hin|].
    destruct D as [->|[-> _]]; tauto.
Qed.

(** C36: the transfer is bounded and in order. In every reachable state after
    START the stores requested so far never exceed the declared image size, the
    received count is their total (or the poison value after an oversized
    packet), and over BLE each one starts exactly where the previous one ended,
    from the start of the bank. *)
Theorem transfer_bounded st :
  reachable' st -> started (m_dfu_state st) ->
  let s := stores (trace st) in
  total s <= m_image_size st /\
  (m_data_received st = total s \/ m_data_received st = POISON) /\
  (is_ota = true -> contiguous (m_storage_handle_app st) s).
Proof.
  intros Hr Hd. apply reachable_inv in Hr as (_ & (P1 & _ & P3 & P4) & _).
  split; [by apply P3|]. split; [tauto|done].
Qed.

(** C30: an oversized packet ends the transfer for good: once the received count
    is poisoned, no step of the engine stores another byte, restores the count,
    validates the image or reaches the activation state. *)
Theorem poison_is_final fuel e st r st' :
  reachable' st -> started (m_dfu_state st) -> m_data_received st = POISON ->
  handle' fuel e st = Some (r, st') ->
  m_data_received st' = POISON /\ m_dfu_state st' <> DFU_STATE_WAIT_4_ACTIVATE /\
  stores (trace st') = stores (trace st) /\ (e = EvValidate -> r <> NRF_SUCCESS).
Proof.
  intros Hr Hd Hp. apply reachable_inv in Hr as (Hs & (_ & _ & P3 & P4) & _).
  destruct (session_size st Hs Hd) as (Z0 & _ & Zp). specialize (P3 Hd).
  assert (m_dfu_state st <> DFU_STATE_WAIT_4_ACTIVATE) as Hw by (destruct P4 as [?|[_ ?]]; [lia|done]). clear P4.
  assert (forall s : sb_state, session s = session st -> m_data_received s = POISON) as Hses.
  { intros s E. unfold session in E. injection E as _ _ _ _ ->. done. }
  destruct e as [p|p| |p| | | | |]; cbn [handle].
  - intros Hh. apply start_inv in Hh as [(_ & _ & ->)|(D & _)]; [done|]. by destruct Hd.
  - intros Hh. apply init_pkt_inv in Hh as (S & _ & _ & T & D). split_and!; [by apply Hses| |by rewrite T|done].
    destruct D as [->|[_ ->]]; done.
  - intros Hh. apply init_complete_inv in Hh as (S & _ & [[D T]|(_ & R & _)]); [|unfold POISON in *; lia].
    split_and!; [by apply Hses|by rewrite D|by rewrite T|done].
  - intros Hh. apply data_inv in Hh as (_ & _ & D & [[S Q]|[(D1 & _ & ->)|(D1 & q & _ & R & _)]]); [..|lia].
    + split_and!; [by apply Hses|by rewrite D|by apply stores_quietly|done].
    + split_and!; done.
  - intros Hh. apply validate_inv in Hh as (S & _ & T & [[Hn D]|(_ & _ & _ & R & _)]); [|lia].
    split_and!; [by apply Hses| |by rewrite T|done]. destruct D as [->|[_ ->]]; done.
  - intros Hh. apply activate_inv in Hh as (S & D & _ & _ & [(_ & _ & T)|(_ & ? & _)]); [|done].
    split_and!; [by apply Hses|by rewrite D|by rewrite T|done].
  - intros [= <- <-]. split_and!; try done. cbn. by rewrite stores_app, app_nil_r.
  - intros [= <- <-]. split_and!; try done. cbn. by rewrite stores_app, app_nil_r.
  - destruct (proc_soc (world st)) as [[r0 w] evs]. destruct (deliver _ _ _) as [st1|] eqn:E; [|done].
    cbn [mbind option_bind]. intros [= <- <-]. apply deliver_called in E.
    pose proof (called_back_trans _ _ _ (set_world_called w st) E) as Hc.
    destruct (called_session _ _ Hc) as (S & Q & _). split_and!; [by apply Hses| |by apply stores_quietly|done].
    destruct Hc as (_ & [D|[_ D]] & _); rewrite D; [done|]. by destruct SIGNED_FW.
Qed.
End Safety.

(** * Concrete runs *)

#[local] Existing Instance nvmc_model.
#[local] Existing Instance pstorage_none.

Abbreviation demo_handle signed := (handle signed demo_build 0xA000 false (Some []) (fun s d => Some (s ++ d))
  (fun s => Some (toy_hash s)) (fun _ => 0) toy_verify toy_pk ok_timer ok_timer 0).
Abbreviation demo_reachable := (reachable false demo_build 0xA000 false (Some []) (fun s d => Some (s ++ d))
  (fun s => Some (toy_hash s)) (fun _ => 0) toy_verify toy_pk ok_timer ok_timer ok_timer).

Fixpoint run_events (evs : list dfu_event) (st : sb_state) : option sb_state :=
  match evs with
  | [] => Some st
  | e :: evs => '(_, st) ← demo_handle false e st; run_events evs st
  end.

Lemma run_reachable evs : forall st st', demo_reachable st -> Forall event_wf evs ->
  run_events evs st = Some st' -> demo_reachable st'.
Proof.
  induction evs as [|e evs IH]; intros st st' Hr Hw; cbn [run_events]; [by intros [= <-]|].
  inversion Hw; subst. destruct (demo_handle false e st) as [[r st1]|] eqn:E; [|done].
  cbn [mbind option_bind]. apply IH; [|done]. by eapply reach_step.
Qed.

Definition demo_boot : sb_state := engine_at sd_mem DFU_STATE_IDLE 0 0.
Definition after (evs : list dfu_event) : sb_state :=
  default demo_boot ('(_, st) ← dfu_init ok_timer ok_timer demo_boot; run_events evs st).

Lemma after_reachable evs : Forall event_wf evs ->
  (if ('(_, st) ← dfu_init ok_timer ok_timer demo_boot; run_events evs st) is Some _ then true else false) = true ->
  demo_reachable (after evs).
Proof.
  intros Hw. unfold after. destruct (dfu_init ok_timer ok_timer demo_boot) as [[r st]|] eqn:E; [|done].
  assert (default 99 ('(r, _) ← dfu_init ok_timer ok_timer demo_boot; Some r) = NRF_SUCCESS) as D by (vm_compute; reflexivity).
  rewrite E in D. cbn in D. subst r.
  cbn [mbind option_bind]. destruct (run_events evs st) as [st'|] eqn:E'; [|done]. intros _. cbn [default from_option id].
  eapply run_reachable; [|done..]. eapply reach_init; [|exact E]. reflexivity.
Qed.

(** An eight-byte application: its two vectors. *)
Definition demo_app : list Z := bytes32 0x20040000 ++ bytes32 0x26005.
Definition demo_init_packet : list Z :=
  bytes16 0x52 ++ bytes16 52840 ++ bytes32 0 ++ bytes16 1 ++ bytes16 0xFFFE ++ bytes16 (crc16_compute demo_app None) ++ [0; 0].
Definition demo_transfer : list dfu_event :=
  [EvStart (mk_start 4 0 0 8); EvInitPacket (words 4 demo_init_packet); EvInitComplete;
   EvData (Some (words 2 demo_app)); EvValidate].

Lemma demo_transfer_wf : Forall event_wf demo_transfer.
Proof.
  repeat constructor; try (vm_compute; congruence); cbn; lia.
Qed.

(** The engine after the complete transfer. *)
Lemma demo_transfer_end : exists st, demo_reachable st /\ m_dfu_state st = DFU_STATE_WAIT_4_ACTIVATE /\
  m_activate st = Activate_app /\ m_image_size st = 8 /\ m_data_received st = 8.
Proof.
  exists (after demo_transfer). split; [apply after_reachable; [exact demo_transfer_wf | vm_compute; reflexivity]|].
  split; [vm_compute; reflexivity|]. split; [vm_compute; reflexivity|]. split; vm_compute; reflexivity.
Qed.

Lemma activation_validated_witness :
  exists st s0, m_dfu_state st = DFU_STATE_WAIT_4_ACTIVATE /\ demo_reachable s0 /\
    session st = session s0 /\ m_data_received s0 = m_image_size s0.
Proof.
  destruct demo_transfer_end as (st & Hr & Hd & Ha & _). exists st.
  destruct (activation_validated false demo_build 0xA000 false (Some []) (fun s d => Some (s ++ d))
    (fun s => Some (toy_hash s)) (fun _ => 0) toy_verify toy_pk ok_timer ok_timer ok_timer st NRF_SUCCESS
    (dfu_activate_app st)) as (_ & _ & _ & fuel & s0 & s1 & evs & R & _ & _ & _ & S & _ & E & _).
  - exact Hr.
  - unfold dfu_image_activate. rewrite Hd. cbn [APP_ERROR_CHECK mbind option_bind]. unfold run_activate. rewrite Ha. reflexivity.
  - cbn [trace dfu_activate_app emit]. intros E. apply (f_equal length) in E. rewrite length_app in E. simpl in E. lia.
  - exists s0. split; [exact Hd|]. split; [exact R|]. split; [exact S | exact E].
Defined.

(** A signed engine holding the toy packet of [DfuInit]. *)
Definition signed_demo : sb_state :=
  set_init_packet (put (replicate 128 0) 0 toy_packet) (lenZ toy_packet)
    (set_start 8 (mk_start 3 4 4 0) (engine_at sd_mem DFU_STATE_RX_INIT_PKT 8 0x26000)).

Lemma signed_flash_authenticated_witness :
  fst (prevalidate true demo_build (Some []) (fun s d => Some (s ++ d)) (fun s => Some (toy_hash s)) (fun _ => 0)
    toy_verify toy_pk signed_demo) = NRF_SUCCESS.
Proof.
  destruct (demo_handle true EvInitComplete signed_demo) as [[r st']|] eqn:E.
  - destruct (signed_flash_authenticated true demo_build 0xA000 false (Some []) (fun s d => Some (s ++ d))
      (fun s => Some (toy_hash s)) (fun _ => 0) toy_verify toy_pk ok_timer ok_timer ok_timer 0%nat EvInitComplete
      signed_demo r st' eq_refl E) as (l & _ & _ & _ & H3).
    assert (m_dfu_state st' = DFU_STATE_RX_DATA_PKT) as D.
    { assert (default DFU_STATE_IDLE ('(_, s) ← demo_handle true EvInitComplete signed_demo; Some (m_dfu_state s)) = DFU_STATE_RX_DATA_PKT) as D
        by (vm_compute; reflexivity). rewrite E in D. exact D. }
    destruct (H3 (or_intror D)) as [H4|[H4|[_ H4]]]; [discriminate H4 | discriminate H4 | exact H4].
  - exfalso. assert ((if demo_handle true EvInitComplete signed_demo is Some _ then true else false) = true) as D
      by (vm_compute; reflexivity). rewrite E in D. discriminate D.
Defined.

Lemma transfer_bounded_witness :
  exists st, m_data_received st = 8 /\ total (stores (trace st)) <= 8.
Proof.
  destruct demo_transfer_end as (st & Hr & Hd & _ & Hz & Hrec). exists st. split; [exact Hrec|].
  destruct (transfer_bounded false demo_build 0xA000 false (Some []) (fun s d => Some (s ++ d))
    (fun s => Some (toy_hash s)) (fun _ => 0) toy_verify toy_pk ok_timer ok_timer ok_timer st) as (H1 & _).
  - exact Hr.
  - rewrite Hd. split; discriminate.
  - rewrite Hz in H1. exact H1.
Defined.

(** One word too many. *)
Definition demo_oversized : list dfu_event :=
  [EvStart (mk_start 4 0 0 8); EvInitPacket (words 4 demo_init_packet); EvInitComplete;
   EvData (Some (words 3 (demo_app ++ [0; 0; 0; 0])))].

Lemma demo_oversized_end : exists st, demo_reachable st /\ m_dfu_state st = DFU_STATE_RX_DATA_PKT /\
  m_data_received st = POISON.
Proof.
  exists (after demo_oversized). split; [|split; vm_compute; reflexivity].
  apply after_reachable; [|vm_compute; reflexivity]. repeat constructor; try (vm_compute; congruence); cbn; lia.
Qed.

Lemma poison_is_final_witness : exists st, m_data_received (dfu_reset st) = POISON.
Proof.
  destruct demo_oversized_end as (st & Hr & Hd & Hp). exists st.
  destruct (poison_is_final false demo_build 0xA000 false (Some []) (fun s d => Some (s ++ d))
    (fun s => Some (toy_hash s)) (fun _ => 0) toy_verify toy_pk ok_timer ok_timer ok_timer 0%nat EvReset st
    NRF_SUCCESS (dfu_reset st)) as (H1 & _).
  - exact Hr.
  - rewrite Hd. split; discriminate.
  - exact Hp.
  - reflexivity.
  - exact H1.
Defined.
