(* ===== verification/Settings.v ===== *)
(** The bootloader settings record: [bootloader_types.h],
    [src/bootloader_settings_guard.c] and the parts of
    [lib/sdk11/.../bootloader.c] that write it ([bootloader_settings_save],
    [bootloader_dfu_update_process]) and read it ([bootloader_app_is_valid],
    [bootloader_update_settings_valid], [bootloader_settings_get]).  The page is
    eight words of flash; a power loss leaves a prefix of the word writes. *)
From S2P Require Import Prelude Crc Nvm BootImage DfuTypes.

Definition BANK_VALID_APP : Z := 0x01.
Definition BANK_VALID_SD : Z := 0xA5.
Definition BANK_VALID_BOOT : Z := 0xAA.
Definition BANK_ERASED : Z := 0xFE.
Definition BANK_INVALID_APP : Z := 0xFF.
Definition BOOTLOADER_SETTINGS_FORMAT_VERSION : Z := 1.

Record bootloader_settings := mk_settings {
  bank_0 : Z; bank_0_crc : Z; bank_1 : Z; format_version : Z; bank_0_size : Z;
  set_sd_image_size : Z; set_bl_image_size : Z; set_app_image_size : Z; set_sd_image_start : Z;
  record_crc : Z; record_crc_inv : Z
}.

(** The 28 bytes before [record_crc], and the whole record, as they lie in memory. *)
Definition settings_prefix (s : bootloader_settings) : list Z :=
  bytes16 (bank_0 s) ++ bytes16 (bank_0_crc s) ++ bytes16 (bank_1 s) ++ bytes16 (format_version s) ++
  bytes32 (bank_0_size s) ++ bytes32 (set_sd_image_size s) ++ bytes32 (set_bl_image_size s) ++
  bytes32 (set_app_image_size s) ++ bytes32 (set_sd_image_start s).
Definition settings_bytes (s : bootloader_settings) : list Z :=
  settings_prefix s ++ bytes16 (record_crc s) ++ bytes16 (record_crc_inv s).
Definition SETTINGS_SIZE : Z := 32.

(** The record behind a [bootloader_settings_t] pointer. *)
Definition settings_of_bytes (p : list Z) : bootloader_settings :=
  mk_settings (field16 p 0) (field16 p 2) (field16 p 4) (field16 p 6) (field32 p 8) (field32 p 12)
    (field32 p 16) (field32 p 20) (field32 p 24) (field16 p 28) (field16 p 30).

(** * Integrity ([bootloader_settings_guard.c]) *)

Definition bootloader_settings_is_legacy (s : bootloader_settings) : bool :=
  (record_crc s =? UINT16_MAX) && (record_crc_inv s =? UINT16_MAX).

Definition bootloader_settings_integrity_valid (s : bootloader_settings) : bool :=
  if bootloader_settings_is_legacy s then true
  else if negb (format_version s =? BOOTLOADER_SETTINGS_FORMAT_VERSION) ||
          negb (record_crc_inv s =? u16 (Z.lxor (record_crc s) UINT32_MAX)) then false
  else crc16_compute (settings_prefix s) None =? record_crc s.

Definition set_format_version (v : Z) (s : bootloader_settings) : bootloader_settings :=
  mk_settings (bank_0 s) (bank_0_crc s) (bank_1 s) v (bank_0_size s) (set_sd_image_size s)
    (set_bl_image_size s) (set_app_image_size s) (set_sd_image_start s) (record_crc s) (record_crc_inv s).
Definition set_record_crc (c ci : Z) (s : bootloader_settings) : bootloader_settings :=
  mk_settings (bank_0 s) (bank_0_crc s) (bank_1 s) (format_version s) (bank_0_size s) (set_sd_image_size s)
    (set_bl_image_size s) (set_app_image_size s) (set_sd_image_start s) c ci.

Definition bootloader_settings_seal (s : bootloader_settings) : bootloader_settings :=
  let s := set_format_version BOOTLOADER_SETTINGS_FORMAT_VERSION s in
  let crc := crc16_compute (settings_prefix s) None in
  set_record_crc crc (u16 (Z.lxor crc UINT32_MAX)) s.

(** * Reading the record ([bootloader.c]) *)

Definition bootloader_update_settings_valid (m : mcu) (fl : flash) (s : bootloader_settings) : bool :=
  if negb (bootloader_settings_integrity_valid s) then false
  else if bank_0 s =? BANK_VALID_SD then
    if (set_sd_image_size s =? 0) || negb (set_app_image_size s =? 0) ||
       (set_bl_image_size s >? DFU_BL_IMAGE_MAX_SIZE m) || negb (bank_1 s =? BANK_INVALID_APP) ||
       negb (set_sd_image_start s =? DFU_BANK_0_REGION_START fl) ||
       (set_sd_image_size s >? UINT32_MAX - set_bl_image_size s)
    then false
    else
      let total := u32 (set_sd_image_size s + set_bl_image_size s) in
      (bank_0_size s =? total) && (total <=? u32 (BOOTLOADER_REGION_START m - set_sd_image_start s))
  else
    (bank_1 s =? BANK_VALID_BOOT) && (set_sd_image_size s =? 0) && (set_app_image_size s =? 0) &&
    negb (set_bl_image_size s =? 0) && (set_bl_image_size s <=? DFU_BL_IMAGE_MAX_SIZE m).

Definition empty_settings : bootloader_settings :=
  mk_settings BANK_INVALID_APP 0 BANK_INVALID_APP 0 0 0 0 0 0 0 0.

Definition bootloader_settings_get (m : mcu) (fl : flash) (s : bootloader_settings) : bootloader_settings :=
  if negb (bootloader_update_settings_valid m fl s) then empty_settings else s.

(** [image size] is the application as flash holds it from [app_addr] on, and
    [ram_kb] the FICR's RAM size. *)
Definition bootloader_app_is_valid (m : mcu) (ram_kb : Z) (fl : flash) (image : Z -> list Z)
    (s : bootloader_settings) : bool :=
  let app_addr := DFU_BANK_0_REGION_START fl in
  let sp_addr := fl app_addr in
  let reset_addr := fl (app_addr + 4) in
  let ram_start := 0x20000000 in
  let ram_end := u32 (ram_start + u32 (Z.shiftl ram_kb 10)) in
  let reset_code_addr := Z.land reset_addr (~32 1)%c in
  let vector_valid :=
    negb (sp_addr =? 0xFFFFFFFF) && negb (reset_addr =? 0xFFFFFFFF) && (sp_addr >=? ram_start) &&
    (sp_addr <=? ram_end) && (Z.land sp_addr 7 =? 0) && negb (Z.land reset_addr 1 =? 0) &&
    (reset_code_addr >=? app_addr) && (reset_code_addr <? BOOTLOADER_REGION_START m) in
  if negb vector_valid then false
  else if bank_0 s =? BANK_VALID_APP then
    if negb (bootloader_settings_integrity_valid s) then false
    else
      let image_size := bank_0_size s in
      let maximum_size := u32 (BOOTLOADER_REGION_START m - app_addr) in
      let legacy_without_crc :=
        bootloader_settings_is_legacy s && (bank_0_crc s =? 0) && (image_size =? 0) in
      if negb legacy_without_crc &&
         ((image_size =? 0) || (image_size >? maximum_size) || (reset_code_addr >=? u32 (app_addr + image_size)))
      then false
      else
        let image_crc := if negb legacy_without_crc then crc16_compute (image image_size) None else 0 in
        image_crc =? bank_0_crc s
  else bank_0 s =? 0xFFFF.

(** * Writing the record *)

(** What each completion stores ([update_status] fields as arguments); [None]
    when the completion saves no settings. *)
Inductive save_status :=
| Save_app_complete (app_crc app_size : Z)
| Save_sd_complete (app_crc sd_image_start sd_size bl_size app_size : Z)
| Save_boot_complete (sd_size bl_size app_size : Z)
| Save_sd_swapped
| Save_bank_0_erased.

Definition zero_settings : bootloader_settings := mk_settings 0 0 0 0 0 0 0 0 0 0 0.

(** The record [bootloader_dfu_update_process] builds from the status and the
    record now in flash. *)
Definition update_settings (st : save_status) (p : bootloader_settings) : bootloader_settings :=
  match st with
  | Save_app_complete crc size =>
      mk_settings BANK_VALID_APP crc BANK_INVALID_APP 0 size 0 0 0 0 0 0
  | Save_sd_complete crc start sd bl app =>
      mk_settings BANK_VALID_SD crc BANK_INVALID_APP 0 (u32 (u32 (sd + bl) + app)) sd bl app start 0 0
  | Save_boot_complete sd bl app =>
      if bootloader_settings_integrity_valid p then
        mk_settings (bank_0 p) (bank_0_crc p) BANK_VALID_BOOT 0 (bank_0_size p) sd bl app 0 0 0
      else mk_settings BANK_INVALID_APP 0 BANK_VALID_BOOT 0 0 sd bl app 0 0 0
  | Save_sd_swapped =>
      if bank_0 p =? BANK_VALID_SD then mk_settings BANK_INVALID_APP 0 BANK_INVALID_APP 0 0 0 0 0 0 0 0
      else if bootloader_settings_integrity_valid p then
        mk_settings (bank_0 p) (bank_0_crc p) BANK_INVALID_APP 0 (bank_0_size p) 0 0 0 0 0 0
      else mk_settings BANK_INVALID_APP 0 BANK_INVALID_APP 0 0 0 0 0 0 0 0
  | Save_bank_0_erased =>
      mk_settings BANK_INVALID_APP 0
        (if bootloader_settings_integrity_valid p then bank_1 p else BANK_INVALID_APP) 0 0 0 0 0 0 0 0
  end.

(** [bootloader_settings_save] over the NVMC (serial and USB): erase the page,
    program the geometry and the trailer (words 2 to 7), then the two marker
    words.  Each flash operation is one step; [settings_writes] lists them in
    order as (word index, bytes), after the erase. *)
Definition GEOMETRY_WORD : Z := 2.
Definition word_at (s : bootloader_settings) (i : Z) : list Z := sliceZ (settings_bytes s) (4 * i) 4.
Definition settings_writes (s : bootloader_settings) : list (Z * list Z) :=
  map (fun i => (i, word_at s i)) (seqZ GEOMETRY_WORD (SETTINGS_SIZE / 4 - GEOMETRY_WORD) ++ seqZ 0 GEOMETRY_WORD).

(** The page's first 32 bytes after the erase and the first [n] word writes. *)
Fixpoint program_words (ws : list (Z * list Z)) (page : list Z) : list Z :=
  match ws with
  | [] => page
  | (i, w) :: ws => program_words ws (put page (4 * i) w)
  end.
Definition settings_after (s : bootloader_settings) (n : nat) : list Z :=
  program_words (take n (settings_writes s)) (replicate 32 255).

Definition bootloader_settings_save (s : bootloader_settings) : list Z :=
  let s := bootloader_settings_seal s in settings_after s (length (settings_writes s)).

(** * Lemmas *)

Definition settings_wf (s : bootloader_settings) : Prop :=
  0 <= bank_0 s < 2 ^ 16 /\ 0 <= bank_0_crc s < 2 ^ 16 /\ 0 <= bank_1 s < 2 ^ 16 /\
  0 <= format_version s < 2 ^ 16 /\ 0 <= bank_0_size s < 2 ^ 32 /\ 0 <= set_sd_image_size s < 2 ^ 32 /\
  0 <= set_bl_image_size s < 2 ^ 32 /\ 0 <= set_app_image_size s < 2 ^ 32 /\
  0 <= set_sd_image_start s < 2 ^ 32 /\ 0 <= record_crc s < 2 ^ 16 /\ 0 <= record_crc_inv s < 2 ^ 16.

Lemma field16_bytes16 z k : 0 <= z < 2 ^ 16 -> field16 (bytes16 z ++ k) 0 = z.
Proof. intros. unfold field16, sliceZ, bytes16. cbn [app Z.to_nat drop take]. by apply (read_le16_bytes16 z []). Qed.
Lemma field32_bytes32 z k : 0 <= z < 2 ^ 32 -> field32 (bytes32 z ++ k) 0 = z.
Proof. intros. unfold field32, sliceZ, bytes32. cbn [app Z.to_nat drop take]. by apply (read_le32_bytes32 z []). Qed.
Lemma field16_exact z : 0 <= z < 2 ^ 16 -> field16 (bytes16 z) 0 = z.
Proof. intros. rewrite <- (app_nil_r (bytes16 z)). by apply field16_bytes16. Qed.
Lemma field16_skip16 z k o : 2 <= o -> field16 (bytes16 z ++ k) o = field16 k (o - 2).
Proof. intros. unfold field16. by rewrite sliceZ_app_r by (unfold bytes16, lenZ; cbn; lia). Qed.
Lemma field32_skip16 z k o : 2 <= o -> field32 (bytes16 z ++ k) o = field32 k (o - 2).
Proof. intros. unfold field32. by rewrite sliceZ_app_r by (unfold bytes16, lenZ; cbn; lia). Qed.
Lemma field16_skip32 z k o : 4 <= o -> field16 (bytes32 z ++ k) o = field16 k (o - 4).
Proof. intros. unfold field16. by rewrite sliceZ_app_r by (unfold bytes32, lenZ; cbn; lia). Qed.
Lemma field32_skip32 z k o : 4 <= o -> field32 (bytes32 z ++ k) o = field32 k (o - 4).
Proof. intros. unfold field32. by rewrite sliceZ_app_r by (unfold bytes32, lenZ; cbn; lia). Qed.

(** Read a field of a concatenation of encoded fields. *)
Ltac read_field :=
  repeat first [rewrite field16_skip16 by lia | rewrite field32_skip16 by lia
               | rewrite field16_skip32 by lia | rewrite field32_skip32 by lia];
  match goal with |- context [field16 _ ?o] => replace o with 0 by lia; apply field16_bytes16
                | |- context [field32 _ ?o] => replace o with 0 by lia; apply field32_bytes32 end.

Lemma settings_roundtrip s k : settings_wf s -> settings_of_bytes (settings_bytes s ++ k) = s.
Proof.
  intros (W0 & W1 & W2 & W3 & W4 & W5 & W6 & W7 & W8 & W9 & W10).
  unfold settings_of_bytes, settings_bytes, settings_prefix. rewrite <- !app_assoc.
  destruct s as [a b c d e f g h i j l]; cbn [bank_0 bank_0_crc bank_1 format_version bank_0_size
    set_sd_image_size set_bl_image_size set_app_image_size set_sd_image_start record_crc record_crc_inv] in *.
  f_equal; read_field; lia.
Qed.

Lemma trailer_field s :
  (0 <= record_crc s < 2 ^ 16 -> read_le16 (sliceZ (settings_bytes s) 28 2) = record_crc s) /\
  (0 <= record_crc_inv s < 2 ^ 16 -> read_le16 (sliceZ (settings_bytes s) 30 2) = record_crc_inv s).
Proof.
  unfold settings_bytes. assert (lenZ (settings_prefix s) = 28) as Hl by reflexivity.
  rewrite !sliceZ_app_r by (rewrite Hl; lia). rewrite Hl. split; intros H.
  - apply (field16_bytes16 (record_crc s)). done.
  - change (30 - 28) with 2. transitivity (field16 (bytes16 (record_crc s) ++ bytes16 (record_crc_inv s)) 2); [done|].
    rewrite field16_skip16 by lia. by apply field16_exact.
Qed.

Lemma bytes16_bytes z : bytes (bytes16 z).
Proof. unfold bytes16, is_byte. repeat constructor; apply u8_range. Qed.

Lemma settings_prefix_bytes s : bytes (settings_prefix s).
Proof. unfold settings_prefix. rewrite !Forall_app. auto 20 using bytes16_bytes, bytes32_bytes. Qed.

Lemma crc16_range l : bytes l -> 0 <= crc16_compute l None < 2 ^ 16.
Proof. apply crc16_compute_range. Qed.

Lemma seal_prefix s : settings_prefix (bootloader_settings_seal s) =
  settings_prefix (set_format_version BOOTLOADER_SETTINGS_FORMAT_VERSION s).
Proof. reflexivity. Qed.

Lemma seal_wf s : settings_wf s -> settings_wf (bootloader_settings_seal s).
Proof.
  intros (W0 & W1 & W2 & W3 & W4 & W5 & W6 & W7 & W8 & W9 & W10).
  unfold bootloader_settings_seal, settings_wf. set (c := crc16_compute _ _).
  assert (0 <= c < 2 ^ 16) by apply crc16_range, settings_prefix_bytes.
  cbn -[Z.pow c]. unfold BOOTLOADER_SETTINGS_FORMAT_VERSION. split_and!; try lia; apply u16_range.
Qed.

(** The inverse trailer of a sealed record: never the erased pattern. *)
Lemma not_crc c : 0 <= c < 2 ^ 16 -> u16 (Z.lxor c UINT32_MAX) = 65535 - c.
Proof.
  intros Hc. change UINT32_MAX with (Z.ones 32).
  assert (Z.lxor c (Z.ones 32) = Z.ones 32 - c) as ->.
  { rewrite Z.sub_nocarry_ldiff.
    2: { apply Z.bits_inj'. intros i Hi. rewrite Z.ldiff_spec, Z.bits_0.
         destruct (Z.lt_ge_cases i 32); [rewrite Z.ones_spec_low by lia; apply andb_false_r|].
         by rewrite (testbit_high c 32) by lia. }
    apply Z.bits_inj'. intros i Hi. rewrite Z.lxor_spec, Z.ldiff_spec.
    destruct (Z.lt_ge_cases i 32).
    - rewrite Z.ones_spec_low by lia. by destruct (Z.testbit c i).
    - rewrite Z.ones_spec_high by lia. by rewrite (testbit_high c 32) by lia. }
  change (Z.ones 32) with 4294967295. zlia.
Qed.

Lemma seal_not_legacy s : bootloader_settings_is_legacy (bootloader_settings_seal s) = false.
Proof.
  unfold bootloader_settings_is_legacy, bootloader_settings_seal. cbn [record_crc record_crc_inv set_record_crc].
  set (c := crc16_compute _ _). assert (0 <= c < 2 ^ 16) by apply crc16_range, settings_prefix_bytes.
  rewrite not_crc by done. unfold UINT16_MAX.
  destruct (Z.eqb_spec c 65535); [|done]. cbn [andb]. apply Z.eqb_neq. lia.
Qed.

Lemma seal_crc_range s : 0 <= record_crc (bootloader_settings_seal s) < 2 ^ 16 /\
  0 <= record_crc_inv (bootloader_settings_seal s) < 2 ^ 16.
Proof.
  unfold bootloader_settings_seal. cbn [record_crc record_crc_inv set_record_crc].
  split; [apply crc16_range, settings_prefix_bytes|apply u16_range].
Qed.

Lemma seal_integrity s : bootloader_settings_integrity_valid (bootloader_settings_seal s) = true.
Proof.
  unfold bootloader_settings_integrity_valid. rewrite seal_not_legacy, seal_prefix.
  cbn [record_crc record_crc_inv format_version bootloader_settings_seal set_record_crc set_format_version].
  by rewrite !Z.eqb_refl.
Qed.

Lemma settings_bytes_length s : length (settings_bytes s) = 32%nat.
Proof. reflexivity. Qed.

Lemma settings_writes_length s : length (settings_writes s) = 8%nat.
Proof. unfold settings_writes. by rewrite length_map, length_app, !length_seqZ. Qed.

(** The page after the first [n] word writes, as slices of the record's bytes. *)
Lemma settings_after_slices s n : (n < 8)%nat ->
  let p := settings_after s n in
  sliceZ p 4 2 = [255; 255] /\ sliceZ p 6 2 = [255; 255] /\
  ((n < 7)%nat -> sliceZ p 0 2 = [255; 255]) /\
  ((6 <= n)%nat -> sliceZ p 28 2 = sliceZ (settings_bytes s) 28 2 /\ sliceZ p 30 2 = sliceZ (settings_bytes s) 30 2).
Proof.
  intros Hn. unfold settings_after, settings_writes, word_at.
  pose proof (settings_bytes_length s) as Hl. revert Hl. generalize (settings_bytes s). intros l Hl.
  do 32 (destruct l as [|? l]; [discriminate Hl|]). destruct l; [clear Hl|discriminate Hl].
  do 8 (destruct n as [|n]; [vm_compute; split_and!; try done; lia|]). lia.
Qed.

Lemma settings_after_all s : settings_after s 8 = settings_bytes s.
Proof.
  unfold settings_after, settings_writes, word_at.
  pose proof (settings_bytes_length s) as Hl. revert Hl. generalize (settings_bytes s). intros l Hl.
  do 32 (destruct l as [|? l]; [discriminate Hl|]). destruct l; [clear Hl|discriminate Hl].
  vm_compute. reflexivity.
Qed.

Lemma legacy_by_trailer r r' : record_crc r = record_crc r' -> record_crc_inv r = record_crc_inv r' ->
  bootloader_settings_is_legacy r' = false -> bootloader_settings_is_legacy r = false.
Proof. unfold bootloader_settings_is_legacy. by intros -> ->. Qed.

(** A record whose second word is still erased. *)
Lemma unfinished_record m fl r :
  bank_1 r = 0xFFFF -> format_version r = 0xFFFF ->
  bank_0 r = 0xFFFF \/ bootloader_settings_is_legacy r = false ->
  bootloader_update_settings_valid m fl r = false /\
  bootloader_settings_get m fl r = empty_settings /\
  (bank_0 r = 0xFFFF \/
   forall ram_kb image, bank_0 r = BANK_VALID_APP -> bootloader_app_is_valid m ram_kb fl image r = false).
Proof.
  intros H1 H2 Hb.
  assert (bootloader_settings_is_legacy r = false -> bootloader_settings_integrity_valid r = false) as Hint.
  { unfold bootloader_settings_integrity_valid. intros ->. by rewrite H2. }
  assert (bootloader_update_settings_valid m fl r = false) as Hu.
  { unfold bootloader_update_settings_valid. destruct Hb as [Hb|Hb]; [|by rewrite Hint].
    destruct (negb _); [done|]. rewrite Hb. change (0xFFFF =? BANK_VALID_SD) with false. by rewrite H1. }
  split; [exact Hu|]. split; [unfold bootloader_settings_get; by rewrite Hu|].
  destruct Hb as [Hb|Hb]; [by left|]. right. intros ram image Hv.
  unfold bootloader_app_is_valid. cbn zeta. destruct (negb _); [done|]. by rewrite Hv, Z.eqb_refl, Hint.
Qed.

(** * Properties *)

(** A sealed record survives the write and is recognised. Whatever the
    eleven fields, the page [bootloader_settings_save] programs reads back as
    the sealed record, which passes the integrity check, is never taken for a
    legacy record and keeps every field the caller set. *)
Theorem settings_save_roundtrip s : settings_wf s ->
  let r := settings_of_bytes (bootloader_settings_save s) in
  r = bootloader_settings_seal s /\
  bootloader_settings_integrity_valid r = true /\ bootloader_settings_is_legacy r = false /\
  bank_0 r = bank_0 s /\ bank_0_crc r = bank_0_crc s /\ bank_1 r = bank_1 s /\ bank_0_size r = bank_0_size s /\
  set_sd_image_size r = set_sd_image_size s /\ set_bl_image_size r = set_bl_image_size s /\
  set_app_image_size r = set_app_image_size s /\ set_sd_image_start r = set_sd_image_start s.
Proof.
  intros Hwf. unfold bootloader_settings_save. rewrite settings_writes_length, settings_after_all.
  rewrite <- (app_nil_r (settings_bytes _)), settings_roundtrip by by apply seal_wf.
  split; [done|]. split; [apply seal_integrity|]. split; [apply seal_not_legacy|]. split_and!; reflexivity.
Qed.

Lemma settings_save_roundtrip_witness :
  bank_0_size (settings_of_bytes (bootloader_settings_save (update_settings (Save_app_complete 0x1234 0x8000) zero_settings))) = 0x8000.
Proof.
  destruct (settings_save_roundtrip (update_settings (Save_app_complete 0x1234 0x8000) zero_settings))
    as (_ & _ & _ & _ & _ & _ & H & _).
  - unfold settings_wf. split_and!; vm_compute; congruence.
  - exact H.
Defined.

(** C14: an interrupted save never looks like a finished one. If power fails
    before the last of the eight word writes, the record found at the next boot
    announces no update to continue, and it does not make an application valid
    through the recorded bank either: its marker is still erased, or is
    rejected by the integrity check. *)
Theorem settings_commit_atomic m fl s n : (n < length (settings_writes (bootloader_settings_seal s)))%nat ->
  let r := settings_of_bytes (settings_after (bootloader_settings_seal s) n) in
  bootloader_update_settings_valid m fl r = false /\
  bootloader_settings_get m fl r = empty_settings /\
  (bank_0 r = 0xFFFF \/
   forall ram_kb image, bank_0 r = BANK_VALID_APP -> bootloader_app_is_valid m ram_kb fl image r = false).
Proof.
  rewrite settings_writes_length. intros Hn.
  destruct (settings_after_slices (bootloader_settings_seal s) n Hn) as (H1 & H2 & H3 & H5).
  apply unfinished_record; unfold settings_of_bytes;
    cbn [bank_0 bank_1 format_version]; unfold field16; [by rewrite H1|by rewrite H2|].
  destruct (decide (n < 7)%nat) as [Hlt|Hge]; [left; by rewrite H3|right].
  destruct (H5 ltac:(lia)) as (E1 & E2).
  destruct (seal_crc_range s) as (Hr1 & Hr2).
  apply (legacy_by_trailer _ (bootloader_settings_seal s)); [..|apply seal_not_legacy];
    cbn [record_crc record_crc_inv]; [rewrite E1|rewrite E2]; by apply trailer_field.
Qed.

Lemma settings_commit_atomic_witness :
  bootloader_update_settings_valid NRF52840 (fun _ => 0)
    (settings_of_bytes (settings_after (bootloader_settings_seal
       (update_settings (Save_boot_complete 0 0xA000 0) zero_settings)) 7)) = false.
Proof.
  destruct (settings_commit_atomic NRF52840 (fun _ => 0) (update_settings (Save_boot_complete 0 0xA000 0) zero_settings) 7)
    as (H & _); [vm_compute; lia | exact H].
Defined.

(** What the boot decision asks of an image: its vector table, and the record. *)
Definition plausible_vectors (m : mcu) (ram_kb : Z) (fl : flash) : Prop :=
  let a := DFU_BANK_0_REGION_START fl in
  (fl a <> 0xFFFFFFFF /\ fl (a + 4) <> 0xFFFFFFFF) /\
  (0x20000000 <= fl a <= u32 (0x20000000 + u32 (Z.shiftl ram_kb 10)) /\ fl a mod 8 = 0) /\
  (fl (a + 4) mod 2 = 1 /\ a <= Z.land (fl (a + 4)) (~32 1)%c < BOOTLOADER_REGION_START m).
Definition bootable_record (m : mcu) (fl : flash) (image : Z -> list Z) (s : bootloader_settings) : Prop :=
  let a := DFU_BANK_0_REGION_START fl in
  bank_0 s = 0xFFFF \/
  (bank_0 s = BANK_VALID_APP /\ bootloader_settings_integrity_valid s = true /\
   ((bootloader_settings_is_legacy s = true /\ bank_0_crc s = 0 /\ bank_0_size s = 0) \/
    (bank_0_size s <> 0 /\ bank_0_size s <= u32 (BOOTLOADER_REGION_START m - a) /\
     Z.land (fl (a + 4)) (~32 1)%c < u32 (a + bank_0_size s) /\
     crc16_compute (image (bank_0_size s)) None = bank_0_crc s))).

(** What the boot decision accepts. [bootloader_app_is_valid] accepts exactly
    a bank with a plausible vector table (neither vector erased, the stack pointer in
    RAM and a multiple of eight, the reset vector odd and into the region) when the settings are
    intact, name a valid application whose size fits the region and covers the
    reset vector, and whose CRC over the flash bytes is the recorded one; the
    two exceptions are the legacy record without CRC and the erased marker of a
    debugger-flashed device. *)
Theorem app_valid_checked m ram_kb fl image s :
  bootloader_app_is_valid m ram_kb fl image s = true <-> plausible_vectors m ram_kb fl /\ bootable_record m fl image s.
Proof.
  unfold bootloader_app_is_valid, plausible_vectors, bootable_record. cbn zeta. set (a := DFU_BANK_0_REGION_START fl). rewrite land_7, land_1.
  assert (fl (a + 4) mod 2 = 0 \/ fl (a + 4) mod 2 = 1) as Hodd by zlia. split.
  - destruct (negb _) eqn:Hv; [done|]. apply negb_false_iff in Hv. rewrite !Z.geb_leb in Hv. bool_cases.
    intros Hs. split; [split_and!; lia|].
    destruct (Z.eqb_spec (bank_0 s) BANK_VALID_APP) as [Hb|Hb]; [|left; by apply Z.eqb_eq].
    right. split; [done|]. destruct (bootloader_settings_integrity_valid s); [|done]. split; [done|]. cbn [negb] in Hs.
    destruct (bootloader_settings_is_legacy s && (bank_0_crc s =? 0) && (bank_0_size s =? 0)) eqn:Hl; cbn [negb andb] in Hs.
    + left. bool_cases. auto.
    + right. destruct (_ || _ || _) eqn:E in Hs; [done|]. rewrite Z.gtb_ltb, Z.geb_leb in E. bool_cases. split_and!; lia.
  - intros (((V1 & V2) & ((V3 & V4) & V5) & V6 & V7 & V8) & Hr).
    rewrite (proj2 (Z.eqb_neq _ _) V1), (proj2 (Z.eqb_neq _ _) V2), V5, V6, !Z.geb_leb.
    rewrite (proj2 (Z.leb_le _ _) V3), (proj2 (Z.leb_le _ _) V4), (proj2 (Z.leb_le _ _) V7), (proj2 (Z.ltb_lt _ _) V8).
    change (0 =? 0) with true. change (1 =? 0) with false. cbn [negb andb].
    destruct Hr as [Hb|(Hb & Hi & Hrec)]; [by rewrite Hb|]. rewrite Hb, Z.eqb_refl, Hi. cbn [negb].
    destruct Hrec as [(Hl & Hc & Hz)|(Hz & Hmax & Hcov & Hcrc)]; [by rewrite Hl, Hc, Hz|].
    rewrite (proj2 (Z.eqb_neq _ _) Hz), andb_false_r, Z.gtb_ltb, (proj2 (Z.ltb_ge _ _) Hmax). cbn [negb andb orb].
    rewrite (proj2 (Z.leb_gt _ _) Hcov). by apply Z.eqb_eq.
Qed.


(** Every completion the engine can report is continued after the reset. The
    record [bootloader_dfu_update_process] seals for a validated SoftDevice (with
    or without a bootloader) stored at the bank start, or for a bootloader alone
    when no SoftDevice update was pending, is accepted by
    [bootloader_update_settings_valid] and returned by [bootloader_settings_get];
    after the swap, or when bank 0 is being erased, no record announces an
    update of a SoftDevice. *)
Theorem completion_settings_accepted m fl p crc sd bl :
  0 <= bl <= DFU_BL_IMAGE_MAX_SIZE m -> 0 <= sd < 2 ^ 32 ->
  let seal st := bootloader_settings_seal (update_settings st p) in
  (0 < sd -> DFU_BANK_0_REGION_START fl + sd + bl <= BOOTLOADER_REGION_START m -> 0 <= DFU_BANK_0_REGION_START fl ->
   bootloader_update_settings_valid m fl (seal (Save_sd_complete crc (DFU_BANK_0_REGION_START fl) sd bl 0)) = true /\
   bootloader_settings_get m fl (seal (Save_sd_complete crc (DFU_BANK_0_REGION_START fl) sd bl 0)) =
     seal (Save_sd_complete crc (DFU_BANK_0_REGION_START fl) sd bl 0)) /\
  (0 < bl -> bank_0 p <> BANK_VALID_SD ->
   bootloader_update_settings_valid m fl (seal (Save_boot_complete 0 bl 0)) = true) /\
  bootloader_update_settings_valid m fl (seal Save_sd_swapped) = false /\
  bootloader_update_settings_valid m fl (seal Save_bank_0_erased) = false.
Proof.
  intros Hbl Hsd. cbn zeta. unfold bootloader_settings_get, bootloader_update_settings_valid.
  rewrite !seal_integrity. cbn [negb].
  assert (BOOTLOADER_REGION_START m < 2 ^ 31) by by destruct m.
  split; [|split; [|split]].
  - intros H0 Hfit Hb. cbn [bank_0 bank_1 set_sd_image_size set_bl_image_size set_app_image_size set_sd_image_start bank_0_size
      bootloader_settings_seal update_settings set_record_crc set_format_version].
    rewrite !Z.eqb_refl. cbn [negb orb]. rewrite !Z.gtb_ltb.
    replace (sd =? 0) with false by (symmetry; apply Z.eqb_neq; lia).
    replace (DFU_BL_IMAGE_MAX_SIZE m <? bl) with false by (symmetry; apply Z.ltb_ge; lia).
    replace (UINT32_MAX - bl <? sd) with false by (symmetry; apply Z.ltb_ge; unfold UINT32_MAX; lia).
    rewrite Z.add_0_r, (u32_small (sd + bl)) by lia. rewrite (u32_small (sd + bl)) by lia.
    rewrite Z.eqb_refl, u32_small by lia. replace (sd + bl <=? _) with true by (symmetry; apply Z.leb_le; lia).
    done.
  - intros H0 Hp. cbn [bootloader_settings_seal update_settings].
    assert (negb (bl =? 0) && (bl <=? DFU_BL_IMAGE_MAX_SIZE m) = true) as Hb.
    { apply andb_true_intro. split; [apply negb_true_iff, Z.eqb_neq; lia|apply Z.leb_le; lia]. }
    destruct (bootloader_settings_integrity_valid p); cbn; [|exact Hb].
    replace (bank_0 p =? BANK_VALID_SD) with false by (symmetry; by apply Z.eqb_neq). exact Hb.
  - cbn [bootloader_settings_seal update_settings]. destruct (Z.eqb_spec (bank_0 p) BANK_VALID_SD) as [E|E].
    + reflexivity.
    + destruct (bootloader_settings_integrity_valid p); [|reflexivity].
      cbn. replace (bank_0 p =? BANK_VALID_SD) with false by (symmetry; by apply Z.eqb_neq). reflexivity.
  - cbn [bootloader_settings_seal update_settings bank_0 bank_1 set_record_crc set_format_version set_sd_image_size
      set_app_image_size set_bl_image_size]. cbn. by rewrite andb_false_r.
Qed.

Lemma completion_settings_accepted_witness :
  bootloader_update_settings_valid NRF52840 (fun _ => 0)
    (bootloader_settings_seal (update_settings (Save_sd_complete 7 0x1000 0x25000 0xA000 0) zero_settings)) = true.
Proof.
  destruct (completion_settings_accepted NRF52840 (fun _ => 0) zero_settings 7 0x25000 0xA000) as (H & _).
  - split; [lia|]. vm_compute. discriminate.
  - lia.
  - apply H; [lia | vm_compute; discriminate | vm_compute; discriminate].
Defined.
