(* ===== verification/ImageSwap.v ===== *)
(** Moving a received SoftDevice or bootloader into place after the reset:
    [dfu_sd_image_swap], [dfu_sd_image_validate], [dfu_bl_image_swap] and
    [dfu_bl_image_validate] of [dfu_single_bank.c], and their caller
    [bootloader_dfu_sd_update_continue] of [bootloader.c].  Copying and comparing
    is done by the MBR, which is not part of the repository; [Mbr] states its
    documented commands. *)
From S2P Require Import Prelude Nvm BootImage DfuTypes Settings.

(** Rounding to flash pages, as the MBR erases them. *)
Definition page_floor (a : Z) : Z := a - a mod PAGE.
Definition page_ceil (a : Z) : Z := page_floor (a + PAGE - 1).

Class Mbr := {
  mbr_compare : mem -> Z -> Z -> Z -> Z;
  mbr_copy_sd : mem -> Z -> Z -> Z -> Z * mem;
  mbr_copy_bl : mem -> Z -> Z -> Z * mem;
  mbr_compare_spec m a b n : 0 <= n ->
    mbr_compare m a b n = NRF_SUCCESS <-> mem_read m a (4 * n) = mem_read m b (4 * n);
  mbr_copy_sd_frame m src dst n x : ~ (page_floor dst <= x < page_ceil (dst + 4 * n)) ->
    snd (mbr_copy_sd m src dst n) x = m x;
  mbr_copy_sd_spec m src dst n : 0 <= n ->
    src + 4 * n <= page_floor dst \/ page_ceil (dst + 4 * n) <= src ->
    fst (mbr_copy_sd m src dst n) = NRF_SUCCESS ->
    mem_read (snd (mbr_copy_sd m src dst n)) dst (4 * n) = mem_read m src (4 * n)
}.

Section Swap.
Context `{Mbr} (mc : mcu).

Definition dfu_compare_block (m : mem) (ptr1 ptr2 len : Z) : Z := mbr_compare m ptr1 ptr2 (len / 4).
Definition dfu_copy_sd (m : mem) (src dst len : Z) : Z * mem := mbr_copy_sd m src dst (len / 4).

(** The recursion goes one block down until [dst] is the start of the region. *)
Fixpoint dfu_sd_img_block_swap (fuel : nat) (m : mem) (src dst len block_size : Z) : option (Z * mem) :=
  match fuel with
  | O => None
  | S fuel =>
    let err_code := dfu_compare_block m src dst len in
    if err_code =? NRF_SUCCESS then Some (err_code, m) else
    '(err_code, m) ←
      (if dst >? SOFTDEVICE_REGION_START then
         dfu_sd_img_block_swap fuel m (u32 (src - block_size)) (u32 (dst - block_size)) block_size block_size
       else Some (NRF_SUCCESS, m));
    if negb (err_code =? NRF_SUCCESS) then Some (err_code, m) else
    let '(err_code, m) := dfu_copy_sd m src dst len in
    if negb (err_code =? NRF_SUCCESS) then Some (err_code, m)
    else Some (dfu_compare_block m src dst len, m)
  end.

(** The depth of the recursion from two blocks up. *)
Definition SWAP_FUEL : nat := 3.

Definition block_size_of (sd_image_start : Z) : Z :=
  Z.land (u32 (sd_image_start - SOFTDEVICE_REGION_START) / 2) (~32 (CODE_PAGE_SIZE - 1))%c.

(** The settings page, and what [bootloader_settings_get] makes of it: every
    function below calls it anew, and it gives an update only when the record
    agrees with the SoftDevice flash announces at that moment. *)
Definition stored_settings (m : mem) : bootloader_settings :=
  settings_of_bytes (mem_read m (BOOTLOADER_SETTINGS_ADDRESS mc) SETTINGS_SIZE).
Definition settings_get (m : mem) : bootloader_settings := bootloader_settings_get mc (mem_word m) (stored_settings m).

Definition dfu_sd_image_swap (m : mem) : option (Z * mem) :=
  let s := settings_get m in
  if set_sd_image_size s =? 0 then Some (NRF_SUCCESS, m) else
  if u32 (SOFTDEVICE_REGION_START + set_sd_image_size s) >? set_sd_image_start s then
    let sd_start := SOFTDEVICE_REGION_START in
    let block_size := block_size_of (set_sd_image_start s) in
    let image_end := u32 (set_sd_image_start s + set_sd_image_size s) in
    let img_block_start := u32 (set_sd_image_start s + 2 * block_size) in
    let sd_block_start := u32 (sd_start + 2 * block_size) in
    '(err_code, m) ←
      (if mem_word m (MBR_SIZE + SD_SIZE_OFFSET) <? set_sd_image_size s then
         let '(err_code, m) := dfu_copy_sd m (u32 (sd_start + block_size)) (u32 (sd_start + block_size)) 4 in
         if negb (err_code =? NRF_SUCCESS) then Some (err_code, m)
         else Some (dfu_copy_sd m sd_start sd_start 4)
       else Some (NRF_SUCCESS, m));
    if negb (err_code =? NRF_SUCCESS) then Some (err_code, m)
    else dfu_sd_img_block_swap SWAP_FUEL m img_block_start sd_block_start (u32 (image_end - img_block_start)) block_size
  else Some (dfu_copy_sd m (set_sd_image_start s) SOFTDEVICE_REGION_START (set_sd_image_size s)).

Definition dfu_sd_image_validate (m : mem) : option (Z * mem) :=
  let s := settings_get m in
  if set_sd_image_size s =? 0 then Some (NRF_SUCCESS, m) else
  if u32 (SOFTDEVICE_REGION_START + set_sd_image_size s) >? set_sd_image_start s then
    let sd_start := SOFTDEVICE_REGION_START in
    let block_size := block_size_of (set_sd_image_start s) in
    let image_end := u32 (set_sd_image_start s + set_sd_image_size s) in
    let img_block_start := u32 (set_sd_image_start s + 2 * block_size) in
    let sd_block_start := u32 (sd_start + 2 * block_size) in
    if mem_word m (MBR_SIZE + SD_SIZE_OFFSET) <? set_sd_image_size s then Some (NRF_ERROR_NULL, m)
    else dfu_sd_img_block_swap SWAP_FUEL m img_block_start sd_block_start (u32 (image_end - img_block_start)) block_size
  else Some (mbr_compare m SOFTDEVICE_REGION_START (set_sd_image_start s) (set_sd_image_size s / 4), m).

(** Where a pending bootloader lies. *)
Definition bl_image_start (s : bootloader_settings) (alone : Z) : Z :=
  if set_sd_image_size s =? 0 then alone else u32 (set_sd_image_start s + set_sd_image_size s).

Definition dfu_bl_image_swap (m : mem) : Z * mem :=
  let s := settings_get m in
  if negb (set_bl_image_size s =? 0) then
    mbr_copy_bl m (bl_image_start s (DFU_BANK_0_REGION_START (mem_word m))) (set_bl_image_size s / 4)
  else (NRF_SUCCESS, m).

Definition dfu_bl_image_validate (reserved : Z) (m : mem) : Z :=
  let s := settings_get m in
  if negb (set_bl_image_size s =? 0) then
    let bl_image_start_1 := bl_image_start s (DFU_BANK_0_REGION_START (mem_word m)) in
    let err_code := mbr_compare m (BOOTLOADER_REGION_START mc) bl_image_start_1 (set_bl_image_size s / 4) in
    if err_code =? NRF_SUCCESS then NRF_SUCCESS else
    let bl_image_start_2 := bl_image_start s (DFU_BANK_1_REGION_START mc reserved (mem_word m)) in
    mbr_compare m (BOOTLOADER_REGION_START mc) bl_image_start_2 (set_bl_image_size s / 4)
  else NRF_SUCCESS.

(** [bootloader_dfu_sd_update_continue]: [None] when an [APP_ERROR_CHECK] fails
    (or the MBR has started the new bootloader). *)
Definition bootloader_dfu_sd_update_continue (reserved : Z) (m : mem) : option (Z * mem) :=
  '(r1, m) ← dfu_sd_image_validate m;
  if (r1 =? NRF_SUCCESS) && (dfu_bl_image_validate reserved m =? NRF_SUCCESS) then Some (NRF_SUCCESS, m) else
  '(err, m) ← dfu_sd_image_swap m;
  if negb (err =? NRF_SUCCESS) then None else
  '(err, m) ← dfu_sd_image_validate m;
  if negb (err =? NRF_SUCCESS) then None else
  let '(err, m) := dfu_bl_image_swap m in
  if negb (err =? NRF_SUCCESS) then None else Some (err, m).

(** * Termination *)

Lemma block_swap_S fuel m src dst len bs :
  dfu_sd_img_block_swap (S fuel) m src dst len bs =
    (if dfu_compare_block m src dst len =? NRF_SUCCESS then Some (dfu_compare_block m src dst len, m) else
     r ← (if dst >? SOFTDEVICE_REGION_START then
            dfu_sd_img_block_swap fuel m (u32 (src - bs)) (u32 (dst - bs)) bs bs
          else Some (NRF_SUCCESS, m));
     if negb (fst r =? NRF_SUCCESS) then Some r else
     let c := dfu_copy_sd (snd r) src dst len in
     if negb (fst c =? NRF_SUCCESS) then Some c else Some (dfu_compare_block (snd c) src dst len, snd c)).
Proof.
  cbn [dfu_sd_img_block_swap]. destruct (_ =? NRF_SUCCESS); [done|].
  destruct (if dst >? SOFTDEVICE_REGION_START then _ else _) as [[e m']|]; [|done].
  cbn [mbind option_bind fst snd]. destruct (negb _); [done|].
  by destruct (dfu_copy_sd m' src dst len) as [e2 m2].
Qed.

(** From [k] blocks above the region's start, [k + 1] levels are enough. *)
Lemma block_swap_total k : forall m src dst len bs,
  0 <= bs -> dst = SOFTDEVICE_REGION_START + Z.of_nat k * bs -> dst < 2 ^ 32 ->
  exists r, dfu_sd_img_block_swap (S k) m src dst len bs = Some r.
Proof.
  assert (forall (r : option (Z * mem)) src dst len, (exists x, r = Some x) ->
    exists x, (r ← r; if negb (fst r =? NRF_SUCCESS) then Some r else
     let c := dfu_copy_sd (snd r) src dst len in
     if negb (fst c =? NRF_SUCCESS) then Some c else Some (dfu_compare_block (snd c) src dst len, snd c)) = Some x) as Hk.
  { intros r src dst len ([e m'] & ->). cbn [mbind option_bind fst snd].
    destruct (negb _); [eauto|]. cbn zeta. destruct (negb _); eauto. }
  induction k as [|k IH]; intros m src dst len bs Hbs Hd H32; rewrite block_swap_S;
    (destruct (_ =? NRF_SUCCESS); [eauto|]); rewrite Z.gtb_ltb; apply Hk.
  - destruct (Z.ltb_spec SOFTDEVICE_REGION_START dst); [lia|eauto].
  - destruct (Z.ltb_spec SOFTDEVICE_REGION_START dst); [|eauto].
    rewrite (u32_small (dst - bs)) by (unfold SOFTDEVICE_REGION_START, MBR_SIZE in *; nia). apply IH; nia.
Qed.

(** * Interruption *)

(** The flash a power loss can leave behind during the call: nothing written,
    an interruption further down, or after a completed lower part an arbitrary
    content of the pages being copied. *)
Fixpoint interrupted (fuel : nat) (m : mem) (src dst len bs : Z) (m' : mem) : Prop :=
  match fuel with
  | O => False
  | S fuel =>
    m' = m \/
    (dfu_compare_block m src dst len <> NRF_SUCCESS /\
     ((dst > SOFTDEVICE_REGION_START /\
       interrupted fuel m (u32 (src - bs)) (u32 (dst - bs)) bs bs m') \/
      exists m1,
        (if dst >? SOFTDEVICE_REGION_START then
           dfu_sd_img_block_swap fuel m (u32 (src - bs)) (u32 (dst - bs)) bs bs
         else Some (NRF_SUCCESS, m)) = Some (NRF_SUCCESS, m1) /\
        forall x, ~ (page_floor dst <= x < page_ceil (dst + len)) -> m' x = m1 x))
  end.

(** [m'] differs from [m] only inside [[a, b)]. *)
Definition changed_only (a b : Z) (m m' : mem) : Prop := forall x, ~ (a <= x < b) -> m' x = m x.

Lemma changed_read a b m m' c n : changed_only a b m m' -> c + n <= a \/ b <= c -> mem_read m' c n = mem_read m c n.
Proof. intros H1 H2. apply mem_read_ext. intros x Hx. apply H1. lia. Qed.

Lemma page_floor_id a : a mod PAGE = 0 -> page_floor a = a.
Proof. unfold page_floor. lia. Qed.
Lemma page_ceil_id a : a mod PAGE = 0 -> page_ceil a = a.
Proof. unfold page_ceil, page_floor, PAGE. zlia. Qed.

Lemma compare_success m a b len : 0 <= len -> len mod 4 = 0 ->
  dfu_compare_block m a b len = NRF_SUCCESS <-> mem_read m a len = mem_read m b len.
Proof.
  intros H0 H4. unfold dfu_compare_block. rewrite mbr_compare_spec by zlia.
  by replace (4 * (len / 4)) with len by zlia.
Qed.

Lemma copy_frame m src dst len : len mod 4 = 0 ->
  changed_only (page_floor dst) (page_ceil (dst + len)) m (snd (dfu_copy_sd m src dst len)).
Proof.
  intros H4 x Hx. unfold dfu_copy_sd. apply mbr_copy_sd_frame. by replace (4 * (len / 4)) with len by zlia.
Qed.

Lemma copy_read m src dst len : 0 <= len -> len mod 4 = 0 ->
  src + len <= page_floor dst \/ page_ceil (dst + len) <= src ->
  fst (dfu_copy_sd m src dst len) = NRF_SUCCESS ->
  mem_read (snd (dfu_copy_sd m src dst len)) dst len = mem_read m src len.
Proof.
  intros H0 H4 Hd Hs. unfold dfu_copy_sd in *.
  pose proof (mbr_copy_sd_spec m src dst (len / 4)) as Hsp. replace (4 * (len / 4)) with len in Hsp by zlia.
  apply Hsp; [zlia|done|done].
Qed.

(** The words of the SoftDevice's information page that give its end. *)
Lemma same_info m m' : mem_read m' 0x3000 16 = mem_read m 0x3000 16 -> DFU_BANK_0_REGION_START (mem_word m') = DFU_BANK_0_REGION_START (mem_word m).
Proof.
  intros E. assert (forall i, 0 <= i < 16 -> m' (0x3000 + i) = m (0x3000 + i)) as Hb.
  { intros i Hi. rewrite <- (nthZ_mem_read m' 0x3000 16 i), <- (nthZ_mem_read m 0x3000 16 i) by lia. by rewrite E. }
  assert (forall o, o = 4 \/ o = 8 -> mem_word m' (0x3000 + o) = mem_word m (0x3000 + o)) as Hw.
  { intros o Ho. unfold mem_word. rewrite <- !Z.add_assoc, !Hb by lia. done. }
  pose proof (Hw 4) as H4. pose proof (Hw 8) as H8. unfold DFU_BANK_0_REGION_START, CODE_REGION_1_START, is_sd_existed.
  change (MBR_SIZE + SOFTDEVICE_INFO_STRUCT_OFFSET + 4) with (0x3000 + 4). change (MBR_SIZE + SD_SIZE_OFFSET) with (0x3000 + 8).
  by rewrite H4, H8 by auto.
Qed.

Section Install.
(** The geometry of an overlapping swap: the image at [img], [size] bytes, the
    block size of [dfu_sd_image_swap]; the copy of the last part stays below the
    image's second block, so that an interrupted copy can be resumed. *)
Context (img size : Z).
Abbreviation s0 := SOFTDEVICE_REGION_START.
Abbreviation bs := (block_size_of img).
Abbreviation tl := (size - 2 * bs).
Context (image : list Z).
Hypothesis img_range : s0 <= img /\ img + size < 2 ^ 32.
Hypothesis img_page : img mod PAGE = 0.
Hypothesis size_words : size mod 4 = 0.
Hypothesis overlap : s0 + size > img.
Hypothesis resumable : page_ceil (s0 + size) <= img + bs.
Hypothesis image_size : lenZ image = size.

Lemma bs_facts : 0 <= bs /\ bs mod PAGE = 0 /\ s0 + 2 * bs <= img.
Proof.
  destruct img_range as [H1 H2]. unfold SOFTDEVICE_REGION_START, MBR_SIZE in *. unfold block_size_of.
  rewrite (u32_small (img - SOFTDEVICE_REGION_START)) by (unfold SOFTDEVICE_REGION_START, MBR_SIZE; lia).
  unfold SOFTDEVICE_REGION_START, MBR_SIZE. change (CODE_PAGE_SIZE - 1) with (2 ^ 12 - 1).
  rewrite land_not_mask by zlia. unfold PAGE. zlia.
Qed.

Definition img_ok (m : mem) : Prop := mem_read m img size = image.
Definition dst0 (m : mem) : Prop := mem_read m s0 bs = sliceZ image 0 bs.
Definition dst1 (m : mem) : Prop := mem_read m (s0 + bs) bs = sliceZ image bs bs.
Definition dstt (m : mem) : Prop := mem_read m (s0 + 2 * bs) tl = sliceZ image (2 * bs) tl.
Definition src1 (m : mem) : Prop := mem_read m (img + bs) bs = sliceZ image bs bs.
Definition srct (m : mem) : Prop := mem_read m (img + 2 * bs) tl = sliceZ image (2 * bs) tl.

(** Either the received image is whole and no upper part of the region matches
    it unless the lower parts do, or the lower two blocks are in place and what
    is still needed of the image is whole. *)
Definition in_progress (m : mem) : Prop :=
  (img_ok m /\ (dstt m -> dst1 m) /\ (dst1 m -> dst0 m)) \/
  (dst0 m /\ dst1 m /\ src1 m /\ srct m).

Lemma img_parts m : img_ok m -> mem_read m img bs = sliceZ image 0 bs /\ src1 m /\ srct m.
Proof.
  intros E. destruct bs_facts as (B0 & B1 & B2). unfold img_ok in E. unfold src1, srct. rewrite <- E.
  rewrite !sliceZ_mem_read by lia. by rewrite Z.add_0_r.
Qed.

(** A returned memory is one an interruption could have left. *)
Lemma result_interrupted fuel : forall m src dst len e m', len mod 4 = 0 -> bs mod 4 = 0 ->
  dfu_sd_img_block_swap fuel m src dst len bs = Some (e, m') ->
  interrupted fuel m src dst len bs m'.
Proof.
  induction fuel as [|fuel IH]; intros m src dst len e m' H4 Hb4; [done|]. rewrite block_swap_S. cbn [interrupted].
  destruct (Z.eqb_spec (dfu_compare_block m src dst len) NRF_SUCCESS) as [Hc|Hc].
  { intros [= _ <-]. by left. }
  destruct (if dst >? s0 then _ else _) as [[e1 m1]|] eqn:Er; [|done]. cbn [mbind option_bind fst snd].
  destruct (Z.eqb_spec e1 NRF_SUCCESS) as [->|He]; cbn [negb].
  - intros Hr. right. split; [done|]. right. exists m1. split; [done|].
    assert (m' = snd (dfu_copy_sd m1 src dst len)) as ->.
    { cbn zeta in Hr. destruct (negb _) in Hr; [|by injection Hr].
      destruct (dfu_copy_sd m1 src dst len) as [e2 m2]. by injection Hr as _ <-. }
    by apply copy_frame.
  - intros [= <- <-]. right. split; [done|]. left.
    rewrite Z.gtb_ltb in Er. destruct (Z.ltb_spec s0 dst); [|by injection Er]. split; [lia|].
    by eapply IH.
Qed.

Lemma bs_mod4 : bs mod 4 = 0.
Proof. destruct bs_facts as (_ & B & _). unfold PAGE in B. zlia. Qed.

(** The lowest block. *)
Lemma level0 fuel m m' e : img_ok m -> 
  (interrupted (S fuel) m img s0 bs bs m' -> changed_only s0 (s0 + bs) m m') /\
  (dfu_sd_img_block_swap (S fuel) m img s0 bs bs = Some (e, m') -> e = NRF_SUCCESS -> dst0 m').
Proof.
  intros Hi. destruct bs_facts as (B0 & B1 & B2). destruct (img_parts m Hi) as (Hs0 & _).
  pose proof bs_mod4 as B4.
  assert (page_floor s0 = s0) as Hf by done.
  assert (page_ceil (s0 + bs) = s0 + bs) as Hc by (apply page_ceil_id; unfold PAGE, SOFTDEVICE_REGION_START, MBR_SIZE in *; zlia).
  split.
  - cbn [interrupted]. intros [->|(_ & [[? _]|(m1 & E & Hm)])]; [done|lia|].
    replace (s0 >? s0) with false in E by done. injection E as <-. rewrite Hf, Hc in Hm. exact Hm.
  - rewrite block_swap_S. replace (s0 >? s0) with false by done. cbn [mbind option_bind fst snd].
    destruct (Z.eqb_spec (dfu_compare_block m img s0 bs) NRF_SUCCESS) as [E|E].
    + intros [= _ <-] _. apply compare_success in E; [|done..]. unfold dst0. congruence.
    + change (NRF_SUCCESS =? NRF_SUCCESS) with true. cbn [negb]. cbn zeta.
      destruct (Z.eqb_spec (fst (dfu_copy_sd m img s0 bs)) NRF_SUCCESS) as [Ec|Ec]; cbn [negb].
      * intros [= _ <-] _. unfold dst0. rewrite copy_read; [done|done|done| |done]. rewrite Hc. right. lia.
      * intros E2 He. injection E2 as E2. rewrite E2 in Ec. by cbn in Ec.
Qed.

(** The two lower blocks. *)
Lemma level1 m m' e : in_progress m ->
  (interrupted 2 m (img + bs) (s0 + bs) bs bs m' -> ~ dstt m -> in_progress m' /\ ~ dstt m') /\
  (dfu_sd_img_block_swap 2 m (img + bs) (s0 + bs) bs bs = Some (e, m') -> e = NRF_SUCCESS ->
   dst0 m' /\ dst1 m' /\ src1 m' /\ srct m').
Proof.
  intros Hin. destruct bs_facts as (B0 & B1 & B2). pose proof bs_mod4 as B4.
  destruct img_range as (G1 & G2).
  assert (0 <= s0) as Hs0 by done.
  assert (page_floor (s0 + bs) = s0 + bs) as Hf by (apply page_floor_id; unfold PAGE, SOFTDEVICE_REGION_START, MBR_SIZE in *; zlia).
  assert (page_ceil (s0 + bs + bs) = s0 + 2 * bs) as Hc
    by (replace (s0 + bs + bs) with (s0 + 2 * bs) by lia; apply page_ceil_id; unfold PAGE, SOFTDEVICE_REGION_START, MBR_SIZE in *; zlia).
  assert (u32 (img + bs - bs) = img) as Ei by (rewrite u32_small by lia; lia).
  assert (u32 (s0 + bs - bs) = s0) as Es by (rewrite u32_small by lia; lia).
  assert (src1 m) as Hs1 by (destruct Hin as [[Hi _]|(_ & _ & ? & _)]; [|done]; by destruct (img_parts m Hi) as (_ & ? & _)).
  (* comparing equal means block 1 is in place *)
  assert (dfu_compare_block m (img + bs) (s0 + bs) bs = NRF_SUCCESS <-> dst1 m) as Hcmp.
  { rewrite compare_success by done. unfold dst1, src1 in *. rewrite Hs1. split; congruence. }
  (* what is left of the image and the upper part after writes below s0 + 2 bs *)
  assert (forall m1 m2, changed_only s0 (s0 + 2 * bs) m1 m2 -> img_ok m1 -> img_ok m2) as Fimg.
  { intros m1 m2 Hch E. unfold img_ok. rewrite (changed_read _ _ _ _ _ _ Hch); [done|lia]. }
  assert (forall m1 m2, changed_only s0 (s0 + 2 * bs) m1 m2 -> dstt m2 -> dstt m1) as Fdst.
  { intros m1 m2 Hch E. unfold dstt. rewrite <- (changed_read _ _ _ _ (s0 + 2 * bs) tl Hch); [done|lia]. }
  assert (forall a b m1 m2, s0 <= a -> b <= s0 + 2 * bs -> changed_only a b m1 m2 -> changed_only s0 (s0 + 2 * bs) m1 m2) as Fw.
  { intros a b m1 m2 ?? Hch x Hx. apply Hch. lia. }
  split.
  - cbn [interrupted]. rewrite Ei, Es. intros [->|(Hne & Hcase)] Hnt; [done|].
    destruct Hin as [(Hi & _ & _)|(_ & Hd1 & _)]; [|by apply Hcmp in Hd1].
    assert (~ dst1 m) as Hn1 by (intros ?; by apply Hne, Hcmp).
    destruct Hcase as [[Hgt Hint]|(m1 & E & Hm)].
    + assert (changed_only s0 (s0 + bs) m m') as Hch by by apply (level0 0 m m' 0).
      assert (changed_only s0 (s0 + 2 * bs) m m') as Hch2 by (eapply Fw; [| |exact Hch]; lia).
      assert (~ dstt m') as Hnt' by (intros Ht; by apply Hnt, (Fdst m m')).
      split; [|done]. left. split; [by apply (Fimg m)|]. split; [done|].
      intros Hd1. exfalso. apply Hn1. unfold dst1 in *. rewrite <- (changed_read _ _ _ _ (s0 + bs) bs Hch); [done|lia].
    + assert (dst0 m1 /\ changed_only s0 (s0 + bs) m m1) as (Hd0 & Hch1).
      { rewrite Z.gtb_ltb in E. destruct (Z.ltb_spec s0 (s0 + bs)).
        - split; [by eapply (level0 0 m m1)|].
          apply (level0 0 m m1 0); [done|]. apply (result_interrupted 1) with NRF_SUCCESS; done.
        - injection E as <-. split; [|done]. unfold dst0. replace bs with 0 by lia. done. }
      rewrite Hf, Hc in Hm.
      assert (changed_only s0 (s0 + 2 * bs) m m') as Hch2.
      { intros x Hx. rewrite Hm by lia. apply Hch1. lia. }
      assert (~ dstt m') as Hnt' by (intros Ht; by apply Hnt, (Fdst m m')).
      split; [|done]. left. split; [by apply (Fimg m)|]. split; [done|].
      intros _. unfold dst0 in *. rewrite <- Hd0. apply (changed_read (s0 + bs) (s0 + 2 * bs)); [exact Hm|lia].
  - rewrite block_swap_S, Ei, Es.
    destruct (Z.eqb_spec (dfu_compare_block m (img + bs) (s0 + bs) bs) NRF_SUCCESS) as [E|E].
    { intros [= _ <-] _. apply Hcmp in E. destruct Hin as [(Hi & _ & H10)|?]; [|tauto].
      destruct (img_parts m Hi) as (_ & ? & ?). split_and!; auto. }
    destruct Hin as [(Hi & _ & _)|(_ & Hd1 & _)]; [|by apply Hcmp in Hd1].
    destruct (if s0 + bs >? s0 then _ else _) as [[e1 m1]|] eqn:Er; [|done]. cbn [mbind option_bind fst snd].
    destruct (Z.eqb_spec e1 NRF_SUCCESS) as [->|He]; cbn [negb]; [|intros [= <- <-]; done].
    assert (dst0 m1 /\ changed_only s0 (s0 + bs) m m1) as (Hd0 & Hch1).
    { rewrite Z.gtb_ltb in Er. destruct (Z.ltb_spec s0 (s0 + bs)).
      - split; [by eapply (level0 0 m m1)|].
        apply (level0 0 m m1 0); [done|]. apply (result_interrupted 1) with NRF_SUCCESS; done.
      - injection Er as <-. split; [|done]. unfold dst0. replace bs with 0 by lia. done. }
    cbn zeta. destruct (Z.eqb_spec (fst (dfu_copy_sd m1 (img + bs) (s0 + bs) bs)) NRF_SUCCESS) as [Ec|Ec]; cbn [negb].
    2: { intros E2 He. injection E2 as E2. rewrite E2 in Ec. by cbn in Ec. }
    intros [= _ <-] _. set (m2 := snd (dfu_copy_sd m1 (img + bs) (s0 + bs) bs)).
    pose proof (copy_frame m1 (img + bs) (s0 + bs) bs B4) as Hch2. rewrite Hf, Hc in Hch2. fold m2 in Hch2.
    assert (img_ok m1) as Hi1 by (apply (Fimg m); [|done]; eapply Fw; [| |exact Hch1]; lia).
    assert (img_ok m2) as Hi2 by (apply (Fimg m1); [|done]; eapply Fw; [| |exact Hch2]; lia).
    destruct (img_parts m2 Hi2) as (_ & ? & ?). destruct (img_parts m1 Hi1) as (_ & Hs1' & _).
    split_and!; try done.
    + unfold dst0 in *. rewrite <- Hd0. apply (changed_read (s0 + bs) (s0 + 2 * bs)); [exact Hch2|lia].
    + unfold dst1, m2. rewrite copy_read; [exact Hs1'|done|done| |done]. rewrite Hf, Hc. right. lia.
Qed.

Lemma tail_facts : 0 <= tl /\ tl mod 4 = 0.
Proof. destruct bs_facts as (B0 & B1 & B2). pose proof bs_mod4. split; [lia|zlia]. Qed.

Lemma dst_frames : page_floor (s0 + 2 * bs) = s0 + 2 * bs /\ page_ceil (s0 + 2 * bs + tl) = page_ceil (s0 + size).
Proof.
  destruct bs_facts as (B0 & B1 & B2). split; [|f_equal; lia].
  apply page_floor_id. unfold PAGE, SOFTDEVICE_REGION_START, MBR_SIZE in *. zlia.
Qed.

(** Reading the whole region from its parts. *)
Lemma parts_installed m : dst0 m -> dst1 m -> dstt m -> mem_read m s0 size = image.
Proof.
  intros H0 H1 H2. destruct bs_facts as (B0 & B1 & B2). destruct tail_facts as (T0 & _).
  pose proof (mem_read_split m s0 bs (bs + tl)) as E1. pose proof (mem_read_split m (s0 + bs) bs tl) as E2.
  pose proof (sliceZ_split image 0 bs (bs + tl)) as E3. pose proof (sliceZ_split image bs bs tl) as E4.
  pose proof (sliceZ_all image size) as E5.
  replace (bs + (bs + tl)) with size in E1, E3 by lia. replace (s0 + bs + bs) with (s0 + 2 * bs) in E2 by lia.
  replace (bs + bs) with (2 * bs) in E4 by lia. replace (0 + bs) with bs in E3 by lia.
  unfold dst0, dst1, dstt in *. rewrite <- E5 by lia. rewrite E1, E2, E3, E4 by lia. congruence.
Qed.

(** The third level: what precedes the copy of the last part. *)
Lemma level2_lower m m1 : in_progress m -> 
  (if s0 + 2 * bs >? s0 then
     dfu_sd_img_block_swap 2 m (u32 (img + 2 * bs - bs)) (u32 (s0 + 2 * bs - bs)) bs bs
   else Some (NRF_SUCCESS, m)) = Some (NRF_SUCCESS, m1) ->
  dst0 m1 /\ dst1 m1 /\ src1 m1 /\ srct m1.
Proof.
  intros Hin. destruct bs_facts as (B0 & B1 & B2). destruct img_range as (G1 & G2). destruct tail_facts as (T0 & _).
  assert (0 <= s0) by done.
  rewrite !u32_small by lia. replace (img + 2 * bs - bs) with (img + bs) by lia.
  replace (s0 + 2 * bs - bs) with (s0 + bs) by lia. rewrite Z.gtb_ltb.
  destruct (Z.ltb_spec s0 (s0 + 2 * bs)).
  - intros E. by apply (level1 m m1 NRF_SUCCESS).
  - intros [= <-]. assert (bs = 0) as E0 by lia.
    destruct Hin as [(Hi & _ & _)|?]; [|done]. destruct (img_parts m Hi) as (_ & ? & ?).
    unfold dst0, dst1. rewrite E0. split_and!; done.
Qed.

Lemma level2_interrupted m m' : in_progress m ->
  interrupted SWAP_FUEL m (img + 2 * bs) (s0 + 2 * bs) tl bs m' -> in_progress m'.
Proof.
  intros Hin. destruct bs_facts as (B0 & B1 & B2). destruct img_range as (G1 & G2).
  destruct tail_facts as (T0 & T4). destruct dst_frames as (Ff & Fc). assert (0 <= s0) by done.
  assert (srct m) as Hst by (destruct Hin as [[Hi _]|(_ & _ & _ & ?)]; [|done]; by destruct (img_parts m Hi) as (_ & _ & ?)).
  unfold SWAP_FUEL. intros [->|(Hne & Hcase)]; [done|].
  assert (~ dstt m) as Hnt.
  { intros Ht. apply Hne. rewrite compare_success by done. unfold dstt, srct in *. congruence. }
  destruct Hcase as [[Hgt Hint]|(m1 & E & Hm)].
  - rewrite !u32_small in Hint by lia. replace (img + 2 * bs - bs) with (img + bs) in Hint by lia.
    replace (s0 + 2 * bs - bs) with (s0 + bs) in Hint by lia. by apply (level1 m m' 0).
  - apply level2_lower in E as (D0 & D1 & S1 & ST); [|done]. rewrite Ff, Fc in Hm.
    fold (changed_only (s0 + 2 * bs) (page_ceil (s0 + size)) m1 m') in Hm.
    right. unfold dst0, dst1, src1, srct in *. split_and!.
    + rewrite <- D0. apply (changed_read _ _ _ _ _ _ Hm). lia.
    + rewrite <- D1. apply (changed_read _ _ _ _ _ _ Hm). lia.
    + rewrite <- S1. apply (changed_read _ _ _ _ _ _ Hm). lia.
    + rewrite <- ST. apply (changed_read _ _ _ _ _ _ Hm). lia.
Qed.

Lemma level2_success m m' : in_progress m ->
  dfu_sd_img_block_swap SWAP_FUEL m (img + 2 * bs) (s0 + 2 * bs) tl bs = Some (NRF_SUCCESS, m') ->
  mem_read m' s0 size = image.
Proof.
  intros Hin. destruct bs_facts as (B0 & B1 & B2). destruct tail_facts as (T0 & T4). destruct dst_frames as (Ff & Fc).
  unfold SWAP_FUEL. rewrite block_swap_S.
  destruct (Z.eqb_spec (dfu_compare_block m (img + 2 * bs) (s0 + 2 * bs) tl) NRF_SUCCESS) as [E|E].
  { intros [= _ <-]. apply compare_success in E; [|done..].
    destruct Hin as [(Hi & H1 & H2)|(D0 & D1 & S1 & ST)].
    - destruct (img_parts m Hi) as (_ & S1 & ST). assert (dstt m) as Ht by (unfold dstt, srct in *; congruence).
      apply parts_installed; auto.
    - apply parts_installed; [done..|]. unfold dstt, srct in *. congruence. }
  destruct (if s0 + 2 * bs >? s0 then _ else _) as [[e1 m1]|] eqn:Er; [|done]. cbn [mbind option_bind fst snd].
  destruct (Z.eqb_spec e1 NRF_SUCCESS) as [->|He]; cbn [negb]; [|intros [= ? <-]; done].
  apply level2_lower in Er as (D0 & D1 & S1 & ST); [|done]. cbn zeta.
  destruct (Z.eqb_spec (fst (dfu_copy_sd m1 (img + 2 * bs) (s0 + 2 * bs) tl)) NRF_SUCCESS) as [Ec|Ec]; cbn [negb].
  2: { intros E2. injection E2 as E2. rewrite E2 in Ec. by cbn in Ec. }
  intros [= _ <-]. pose proof (copy_frame m1 (img + 2 * bs) (s0 + 2 * bs) tl T4) as Hm. rewrite Ff, Fc in Hm.
  apply parts_installed; unfold dst0, dst1, dstt in *.
  - rewrite <- D0. apply (changed_read _ _ _ _ _ _ Hm). lia.
  - rewrite <- D1. apply (changed_read _ _ _ _ _ _ Hm). lia.
  - rewrite copy_read; [exact ST|done|done| |done]. rewrite Ff, Fc. right. lia.
Qed.

(** An interruption stays inside the region and the pages its last part ends in. *)
Lemma interrupted_frame k : forall m dst src len m', dst = s0 + Z.of_nat k * bs -> dst < 2 ^ 32 -> 0 <= len -> len mod 4 = 0 ->
  interrupted (S k) m src dst len bs m' -> changed_only s0 (page_ceil (dst + len)) m m'.
Proof.
  destruct bs_facts as (B0 & B1 & _). pose proof bs_mod4 as B4. assert (s0 mod PAGE = 0 /\ 0 <= s0) as [S0 S1] by done.
  assert (forall j, (s0 + Z.of_nat j * bs) mod PAGE = 0) as Hal.
  { intros j. rewrite Z.add_mod, Z.mul_mod, S0, B1 by done. by rewrite Z.mul_0_r. }
  induction k as [|k IH]; intros m dst src len m' Hd H32 Hl Hl4 Hi;
    (assert (page_floor dst = dst) as Hf by (apply page_floor_id; rewrite Hd; apply Hal));
    (assert (s0 <= dst <= page_ceil (dst + len)) as Hle by (unfold page_ceil, page_floor, PAGE; split; [nia|zlia]));
    (destruct Hi as [->|(_ & [[Hgt Hlow]|(m1 & E & Hm)])]; [done| |]).
  - by destruct Hlow.
  - rewrite Z.gtb_ltb in E. destruct (Z.ltb_spec s0 dst); [lia|]. injection E as <-. intros x Hx. apply Hm. lia.
  - rewrite (u32_small (dst - bs)) in Hlow by nia. pose proof (IH m (dst - bs) (u32 (src - bs)) bs m') as Hc.
    assert (page_ceil (dst - bs + bs) = dst) as Ep by (replace (dst - bs + bs) with dst by lia; apply page_ceil_id; rewrite Hd; apply Hal).
    rewrite Ep in Hc. intros x Hx. apply Hc; [nia|nia|done..|lia].
  - assert (changed_only s0 dst m m1) as Hc.
    { rewrite Z.gtb_ltb in E. destruct (Z.ltb_spec s0 dst); [|by injection E as <-].
      rewrite (u32_small (dst - bs)) in E by nia. apply result_interrupted in E; [|done..].
      pose proof (IH m (dst - bs) (u32 (src - bs)) bs m1) as Hc.
      assert (page_ceil (dst - bs + bs) = dst) as Ep by (replace (dst - bs + bs) with dst by lia; apply page_ceil_id; rewrite Hd; apply Hal).
      rewrite Ep in Hc. apply Hc; [nia|nia|done..]. }
    intros x Hx. rewrite Hm by lia. apply Hc. lia.
Qed.

(** The record that announces this image, in a flash that accepts it. *)
Definition announced (m : mem) : Prop :=
  let s := stored_settings m in
  bootloader_update_settings_valid mc (mem_word m) s = true /\ bank_0 s = BANK_VALID_SD /\
  set_sd_image_start s = img /\ set_sd_image_size s = size.

Lemma announced_get m : announced m -> settings_get m = stored_settings m.
Proof. intros (E & _). unfold settings_get, bootloader_settings_get. by rewrite E. Qed.

Lemma announced_base m : announced m -> DFU_BANK_0_REGION_START (mem_word m) = img.
Proof.
  intros (Hv & Hb & E1 & _). revert Hv. unfold bootloader_update_settings_valid. destruct (negb (bootloader_settings_integrity_valid _)); [done|].
  rewrite Hb, Z.eqb_refl. destruct (_ || _ || _ || _ || negb (_ =? DFU_BANK_0_REGION_START _) || _) eqn:E; [done|]. intros _.
  apply orb_false_iff in E as [E _]. apply orb_false_iff in E as [_ E]. rewrite E1 in E. apply negb_false_iff, Z.eqb_eq in E. by symmetry.
Qed.

(** The record depends on the rest of flash only through the SoftDevice's end. *)
Lemma announced_again m m' : announced m -> stored_settings m' = stored_settings m ->
  (announced m' <-> DFU_BANK_0_REGION_START (mem_word m') = img).
Proof.
  intros Ha Es. split; [apply announced_base|]. intros Eb. pose proof (announced_base m Ha) as Em. destruct Ha as (Hv & Hb & E1 & E2).
  unfold announced. rewrite Es. split_and!; [|done..]. revert Hv. unfold bootloader_update_settings_valid. by rewrite Eb, Em.
Qed.

Lemma not_announced m m' : announced m -> stored_settings m' = stored_settings m -> ~ announced m' -> settings_get m' = empty_settings.
Proof.
  intros (_ & Hb & E1 & E2) Es Hn. unfold settings_get, bootloader_settings_get.
  destruct (bootloader_update_settings_valid mc (mem_word m') (stored_settings m')) eqn:E; [|done].
  destruct Hn. unfold announced. by rewrite E, Es.
Qed.

(** Where the settings page is out of the region's way. *)
Lemma settings_kept m m' b : b <= BOOTLOADER_SETTINGS_ADDRESS mc -> changed_only s0 b m m' -> stored_settings m' = stored_settings m.
Proof.
  intros Hb Hc. unfold stored_settings. rewrite (changed_read _ _ _ _ _ SETTINGS_SIZE Hc); [done|]. right. lia.
Qed.

Lemma sd_swap_is_block_swap m : announced m -> s0 < img -> size <= img ->
  dfu_sd_image_swap m = dfu_sd_img_block_swap SWAP_FUEL m (img + 2 * bs) (s0 + 2 * bs) tl bs /\
  dfu_sd_image_validate m = dfu_sd_img_block_swap SWAP_FUEL m (img + 2 * bs) (s0 + 2 * bs) tl bs.
Proof.
  intros Ha Hi Hsz. pose proof (announced_base m Ha) as Hbase.
  assert (mem_word m (MBR_SIZE + SD_SIZE_OFFSET) = img) as Hw.
  { revert Hbase. unfold DFU_BANK_0_REGION_START, CODE_REGION_1_START. destruct (is_sd_existed _); [done|].
    unfold SOFTDEVICE_REGION_START in Hi. lia. }
  destruct bs_facts as (B0 & B1 & B2). destruct img_range as (G1 & G2).
  destruct tail_facts as (T0 & T4). assert (0 <= s0) by done.
  unfold dfu_sd_image_swap, dfu_sd_image_validate. rewrite (announced_get m Ha), Hw. destruct Ha as (_ & _ & -> & ->).
  replace (size =? 0) with false by (symmetry; apply Z.eqb_neq; lia).
  rewrite (u32_small (s0 + size)) by lia. replace (s0 + size >? img) with true by (symmetry; rewrite Z.gtb_ltb; apply Z.ltb_lt; lia).
  replace (img <? size) with false by (symmetry; apply Z.ltb_ge; lia).
  cbn [mbind option_bind]. change (NRF_SUCCESS =? NRF_SUCCESS) with true. cbn [negb].
  rewrite (u32_small (img + size)), (u32_small (img + 2 * bs)), (u32_small (s0 + 2 * bs)) by lia.
  replace (img + size - (img + 2 * bs)) with tl by lia. rewrite (u32_small tl) by lia. done.
Qed.
End Install.

(** Nothing is done for a record that is not accepted. *)
Lemma nothing_pending reserved m : settings_get m = empty_settings ->
  dfu_sd_image_validate m = Some (NRF_SUCCESS, m) /\ dfu_bl_image_validate reserved m = NRF_SUCCESS /\ dfu_bl_image_swap m = (NRF_SUCCESS, m).
Proof. intros E. unfold dfu_sd_image_validate, dfu_bl_image_validate, dfu_bl_image_swap. by rewrite E. Qed.
Lemma continue_nothing reserved m : settings_get m = empty_settings -> bootloader_dfu_sd_update_continue reserved m = Some (NRF_SUCCESS, m).
Proof.
  intros E. destruct (nothing_pending reserved m E) as (E1 & E2 & _). unfold bootloader_dfu_sd_update_continue.
  rewrite E1. cbn [mbind option_bind]. by rewrite E2.
Qed.

(** C13: the SoftDevice swap across power losses. Take an overlapping swap whose
    last part ends below the image's second block, of an image no larger than the
    end address of the installed SoftDevice (which then is not cleared first), announced by a settings
    record that flash accepts. From a flash that holds the received image (and no
    upper part already matching above a lower part that does not), both
    [dfu_sd_image_swap] and [dfu_sd_image_validate] return, and success means that
    the whole SoftDevice region holds the image. Whatever an interruption at any
    copy leaves in the pages being written, what is still needed of the image is
    intact and the settings page is untouched; the next boot accepts the record
    again, and so starts again from such a state, exactly when the information page
    still gives the old end of the SoftDevice, as it does when the sixteen bytes
    at its start are unchanged; otherwise [bootloader_dfu_sd_update_continue]
    reports success without touching flash. *)
Theorem sd_swap_resumable reserved img size image m :
  SOFTDEVICE_REGION_START < img /\ img + size <= BOOTLOADER_REGION_START mc -> img mod PAGE = 0 -> size mod 4 = 0 ->
  SOFTDEVICE_REGION_START + size > img -> size <= img ->
  page_ceil (SOFTDEVICE_REGION_START + size) <= img + block_size_of img ->
  lenZ image = size -> announced img size m -> in_progress img size image m ->
  (exists e m', dfu_sd_image_swap m = Some (e, m') /\ dfu_sd_image_validate m = Some (e, m') /\
     in_progress img size image m' /\
     (e = NRF_SUCCESS -> mem_read m' SOFTDEVICE_REGION_START size = image)) /\
  (forall m', interrupted SWAP_FUEL m (img + 2 * block_size_of img) (SOFTDEVICE_REGION_START + 2 * block_size_of img)
                (size - 2 * block_size_of img) (block_size_of img) m' ->
     in_progress img size image m' /\ stored_settings m' = stored_settings m /\
     (announced img size m' <-> DFU_BANK_0_REGION_START (mem_word m') = img) /\
     (mem_read m' 0x3000 16 = mem_read m 0x3000 16 -> announced img size m') /\
     (DFU_BANK_0_REGION_START (mem_word m') <> img -> bootloader_dfu_sd_update_continue reserved m' = Some (NRF_SUCCESS, m'))).
Proof.
  intros [G1 G2] Ga G3 G4 G5 G6 Hs Ha Hin.
  assert (SOFTDEVICE_REGION_START <= img /\ img + size < 2 ^ 32) as G by (unfold BOOTLOADER_REGION_START in G2; destruct mc; lia).
  destruct (bs_facts img size G Ga G4) as (B0 & B1 & B2).
  destruct (sd_swap_is_block_swap img size G Ga G3 G4 m Ha G1 G5) as (E1 & E2).
  destruct (tail_facts img size G Ga G3 G4) as (T0 & T4).
  destruct (block_swap_total 2 m (img + 2 * block_size_of img) (SOFTDEVICE_REGION_START + 2 * block_size_of img)
    (size - 2 * block_size_of img) (block_size_of img)) as ([e m'] & E); [exact B0|lia|lia|].
  split.
  - exists e, m'. rewrite E1, E2. split; [exact E|]. split; [exact E|]. split.
    + eapply level2_interrupted; [done..|]. eapply result_interrupted; [done..| | |exact E]; [done|]. by apply (bs_mod4 img size).
    + intros ->. eapply level2_success; done.
  - intros m'' Hi. split; [by eapply level2_interrupted|].
    pose proof (interrupted_frame img size G Ga G4 2 m _ _ _ m'' eq_refl ltac:(lia) T0 T4 Hi) as Hc.
    assert (stored_settings m'' = stored_settings m) as Es.
    { apply (settings_kept m m'' _) with (2 := Hc).
      replace (SOFTDEVICE_REGION_START + Z.of_nat 2 * block_size_of img + (size - 2 * block_size_of img)) with (SOFTDEVICE_REGION_START + size) by lia.
      unfold BOOTLOADER_REGION_START, BOOTLOADER_SETTINGS_ADDRESS in *. destruct mc; lia. }
    pose proof (announced_again img size m m'' Ha Es) as Hiff. split; [exact Es|]. split; [exact Hiff|]. split.
    + intros Ei. apply Hiff. rewrite <- (announced_base img size m Ha). by apply same_info.
    + intros Hne. apply continue_nothing. apply (not_announced img size m); [done..|]. intros Hy. by apply Hne, Hiff.
Qed.

Lemma bootloader_below_settings : BOOTLOADER_REGION_START mc <= BOOTLOADER_SETTINGS_ADDRESS mc /\ BOOTLOADER_REGION_START mc < 2 ^ 32.
Proof. by destruct mc. Qed.

(** A pending SoftDevice is announced by an accepted record. *)
Lemma pending_announced m : 0 < set_sd_image_size (settings_get m) ->
  announced (set_sd_image_start (settings_get m)) (set_sd_image_size (settings_get m)) m.
Proof.
  unfold settings_get, bootloader_settings_get, announced.
  destruct (bootloader_update_settings_valid mc (mem_word m) (stored_settings m)) eqn:Hv; cbn [negb]; [|done]. intros H0. split_and!; [done| |done..].
  revert Hv. unfold bootloader_update_settings_valid. destruct (negb _); [done|].
  destruct (Z.eqb_spec (bank_0 (stored_settings m)) BANK_VALID_SD); [done|].
  rewrite (proj2 (Z.eqb_neq (set_sd_image_size (stored_settings m)) 0)) by lia. by rewrite andb_false_r.
Qed.

(** What the two routines do with an image that lies above the region. *)
Lemma sd_image_disjoint m size img : announced img size m -> 0 < size -> size mod 4 = 0 ->
  page_ceil (SOFTDEVICE_REGION_START + size) <= img -> img + size < 2 ^ 32 ->
  dfu_sd_image_swap m = Some (dfu_copy_sd m img SOFTDEVICE_REGION_START size) /\
  dfu_sd_image_validate m = Some (dfu_compare_block m SOFTDEVICE_REGION_START img size, m).
Proof.
  intros Ha H0 H4 Hd H32. unfold dfu_sd_image_swap, dfu_sd_image_validate, dfu_compare_block. rewrite (announced_get img size m Ha).
  destruct Ha as (_ & _ & -> & ->). replace (size =? 0) with false by (symmetry; apply Z.eqb_neq; lia).
  assert (SOFTDEVICE_REGION_START + size <= page_ceil (SOFTDEVICE_REGION_START + size))
    by (unfold page_ceil, page_floor, PAGE; zlia).
  rewrite u32_small by (unfold SOFTDEVICE_REGION_START, MBR_SIZE in *; lia).
  by replace (SOFTDEVICE_REGION_START + size >? img) with false by (symmetry; rewrite Z.gtb_ltb; apply Z.ltb_ge; lia).
Qed.

Section Continue.
Context (reserved : Z) (m : mem).
Abbreviation img := (set_sd_image_start (settings_get m)).
Abbreviation size := (set_sd_image_size (settings_get m)).
Hypothesis size_range : 0 < size.
Hypothesis size_words : size mod 4 = 0.
Hypothesis above : page_ceil (SOFTDEVICE_REGION_START + size) <= img.
Hypothesis below_bootloader : img + size <= BOOTLOADER_REGION_START mc.

(** After a copy into the region the record is the same, and either accepted
    as before or no longer accepted. *)
Lemma record_after m1 : changed_only SOFTDEVICE_REGION_START (page_ceil (SOFTDEVICE_REGION_START + size)) m m1 ->
  stored_settings m1 = stored_settings m /\
  ((announced img size m1 /\ settings_get m1 = settings_get m) \/
   (DFU_BANK_0_REGION_START (mem_word m1) <> img /\ settings_get m1 = empty_settings)).
Proof.
  intros Hc. pose proof (pending_announced m size_range) as Ha.
  assert (stored_settings m1 = stored_settings m) as Es.
  { apply (settings_kept m m1 _) with (2 := Hc). pose proof bootloader_below_settings. lia. }
  split; [exact Es|]. pose proof (announced_again img size m m1 Ha Es) as Hiff.
  destruct (decide (DFU_BANK_0_REGION_START (mem_word m1) = img)) as [Hb|Hb].
  - left. apply Hiff in Hb. split; [exact Hb|]. by rewrite (announced_get _ _ _ Hb), (announced_get _ _ _ Ha).
  - right. split; [exact Hb|]. apply (not_announced img size m m1); [done..|]. intros Hy. by apply Hb, Hiff.
Qed.

(** The copy, when it is needed and the MBR reports success. *)
Lemma copied : let '(e, m1) := dfu_copy_sd m img SOFTDEVICE_REGION_START size in
  changed_only SOFTDEVICE_REGION_START (page_ceil (SOFTDEVICE_REGION_START + size)) m m1 /\
  (e = NRF_SUCCESS -> mem_read m1 SOFTDEVICE_REGION_START size = mem_read m img size /\ mem_read m1 img size = mem_read m img size).
Proof.
  pose proof (copy_frame m img SOFTDEVICE_REGION_START size size_words) as Hf. pose proof (copy_read m img SOFTDEVICE_REGION_START size) as Hr.
  change (page_floor SOFTDEVICE_REGION_START) with SOFTDEVICE_REGION_START in Hf.
  destruct (dfu_copy_sd m img SOFTDEVICE_REGION_START size) as [e m1]. cbn [fst snd] in *. split; [exact Hf|]. intros E.
  split; [apply Hr; [lia|done|by right|done]|]. apply (changed_read _ _ _ _ _ _ Hf). by right.
Qed.

(** A bootloader that comes with a SoftDevice of another size is dropped: once
    the SoftDevice is in place, flash gives another bank start than the record,
    which is no longer accepted; the routine reports success and the bootloader
    region is as before. *)
Lemma bootloader_dropped : dfu_compare_block m SOFTDEVICE_REGION_START img size <> NRF_SUCCESS ->
  let '(e, m1) := dfu_copy_sd m img SOFTDEVICE_REGION_START size in
  e = NRF_SUCCESS -> DFU_BANK_0_REGION_START (mem_word m1) <> img ->
  bootloader_dfu_sd_update_continue reserved m = Some (NRF_SUCCESS, m1) /\ settings_get m1 = empty_settings /\
  (forall x, BOOTLOADER_REGION_START mc <= x -> m1 x = m x).
Proof.
  intros Hne. pose proof copied as Hc. assert (img + size < 2 ^ 32) as H32 by (pose proof bootloader_below_settings; lia).
  destruct (sd_image_disjoint m size img (pending_announced m size_range) size_range size_words above H32) as [Es Ev].
  destruct (dfu_copy_sd m img SOFTDEVICE_REGION_START size) as [e m1]. destruct Hc as [Hf _]. intros -> Hb.
  destruct (record_after m1 Hf) as (_ & [[Ha _]|[_ He]]); [by apply announced_base in Ha|].
  split; [|split; [exact He|]].
  - unfold bootloader_dfu_sd_update_continue. rewrite Ev. cbn [mbind option_bind]. rewrite (proj2 (Z.eqb_neq _ _) Hne). cbn [andb].
    destruct (nothing_pending reserved m1 He) as (E1 & _ & E2). rewrite Es. cbn [mbind option_bind].
    change (negb (NRF_SUCCESS =? NRF_SUCCESS)) with false. cbn [mbind option_bind]. rewrite E1. cbn [mbind option_bind]. by rewrite E2.
  - intros x Hx. apply Hf. lia.
Qed.
End Continue.

(** C26: continuing a SoftDevice-only update. When the record on the settings
    page is accepted and its image lies above
    the SoftDevice region, [bootloader_dfu_sd_update_continue] writes nothing
    outside the pages of the region, and when it returns (no [APP_ERROR_CHECK]
    failed) the region holds the received image, whether it was already
    installed or copied now, whatever end the new SoftDevice announces; run again,
    it returns at once and changes nothing. *)
Theorem sd_update_continue_installs reserved m e m' :
  let s := settings_get m in
  set_bl_image_size s = 0 -> 0 < set_sd_image_size s -> set_sd_image_size s mod 4 = 0 ->
  page_ceil (SOFTDEVICE_REGION_START + set_sd_image_size s) <= set_sd_image_start s ->
  set_sd_image_start s + set_sd_image_size s <= BOOTLOADER_REGION_START mc ->
  bootloader_dfu_sd_update_continue reserved m = Some (e, m') ->
  e = NRF_SUCCESS /\ stored_settings m' = stored_settings m /\
  mem_read m' SOFTDEVICE_REGION_START (set_sd_image_size s) = mem_read m (set_sd_image_start s) (set_sd_image_size s) /\
  changed_only SOFTDEVICE_REGION_START (page_ceil (SOFTDEVICE_REGION_START + set_sd_image_size s)) m m' /\
  bootloader_dfu_sd_update_continue reserved m' = Some (NRF_SUCCESS, m').
Proof.
  intros s Hbl H0 H4 Hd Hb. assert (set_sd_image_start s + set_sd_image_size s < 2 ^ 32) as H32 by (pose proof bootloader_below_settings; lia).
  pose proof (pending_announced m H0) as Ha. fold s in Ha. set (size := set_sd_image_size s) in *. set (img := set_sd_image_start s) in *.
  assert (forall m1, settings_get m1 = s \/ settings_get m1 = empty_settings ->
    dfu_bl_image_swap m1 = (NRF_SUCCESS, m1) /\ dfu_bl_image_validate reserved m1 = NRF_SUCCESS) as Hbls.
  { intros m1 Hm. unfold dfu_bl_image_swap, dfu_bl_image_validate. destruct Hm as [-> | ->]; [by rewrite Hbl|done]. }
  assert (forall m1, announced img size m1 -> settings_get m1 = s -> mem_read m1 SOFTDEVICE_REGION_START size = mem_read m1 img size ->
    bootloader_dfu_sd_update_continue reserved m1 = Some (NRF_SUCCESS, m1)) as Hdone.
  { intros m1 Ha1 Hs1 E. unfold bootloader_dfu_sd_update_continue. destruct (sd_image_disjoint m1 size img Ha1 H0 H4 Hd H32) as [_ ->].
    cbn [mbind option_bind]. destruct (Hbls m1 (or_introl Hs1)) as [_ ->]. by apply compare_success in E as ->; [|lia|]. }
  destruct (sd_image_disjoint m size img Ha H0 H4 Hd H32) as [Es Ev].
  destruct (Z.eq_dec (dfu_compare_block m SOFTDEVICE_REGION_START img size) NRF_SUCCESS) as [Ec|Ec].
  - apply compare_success in Ec; [|lia|done]. pose proof (Hdone m Ha eq_refl Ec) as Hm. rewrite Hm. intros [= <- <-].
    split; [done|]. split; [done|]. split; [exact Ec|]. split; [done|exact Hm].
  - unfold bootloader_dfu_sd_update_continue at 1. rewrite Ev. cbn [mbind option_bind]. rewrite (proj2 (Z.eqb_neq _ _) Ec). cbn [andb].
    rewrite Es. cbn [mbind option_bind]. pose proof (copied m H0 H4 Hd) as Hc. fold s in Hc. fold size img in Hc.
    destruct (dfu_copy_sd m img SOFTDEVICE_REGION_START size) as [e1 m1]. destruct Hc as [Hf Hr].
    destruct (Z.eqb_spec e1 NRF_SUCCESS) as [->|]; [|done]. cbn [negb]. destruct (Hr eq_refl) as [E1 E2].
    destruct (record_after m H0 Hd Hb m1 Hf) as [Est Hrec].
    assert (settings_get m1 = s \/ settings_get m1 = empty_settings) as Hor by (destruct Hrec as [[_ ?]|[_ ?]]; auto).
    assert (exists e2, dfu_sd_image_validate m1 = Some (e2, m1)) as [e2 Ev1].
    { destruct Hrec as [[Ha1 _]|[_ He]].
      - destruct (sd_image_disjoint m1 size img Ha1 H0 H4 Hd H32) as [_ ->]. by eexists.
      - unfold dfu_sd_image_validate. rewrite He. by eexists. }
    rewrite Ev1. cbn [mbind option_bind]. destruct (negb (e2 =? NRF_SUCCESS)); [done|]. destruct (Hbls m1 Hor) as [-> _].
    intros [= <- <-]. split; [done|]. split; [exact Est|]. split; [exact E1|]. split; [exact Hf|].
    destruct Hrec as [[Ha1 Hs1]|[_ He]]; [|by apply continue_nothing]. apply Hdone; [exact Ha1|exact Hs1|]. by rewrite E1, E2.
Qed.
End Swap.

(** * A concrete swap *)

(** An MBR that copies byte by byte and compares by reading. *)
Definition demo_copy (m : mem) (src dst n : Z) : Z * mem :=
  (NRF_SUCCESS, fun x => if (dst <=? x) && (x <? dst + 4 * n) then m (src + (x - dst)) else m x).

#[local] Program Instance demo_mbr : Mbr := {
  mbr_compare m a b n := if decide (mem_read m a (4 * n) = mem_read m b (4 * n)) then NRF_SUCCESS else NRF_ERROR_NULL;
  mbr_copy_sd := demo_copy;
  mbr_copy_bl m src n := (NRF_SUCCESS, m)
}.
Next Obligation. intros m a b n Hn. cbn. case_decide; split; done. Qed.
Next Obligation.
  intros m src dst n x Hx. cbn. destruct (Z.leb_spec dst x), (Z.ltb_spec x (dst + 4 * n)); try done.
  destruct Hx. unfold page_floor, page_ceil, page_floor, PAGE. zlia.
Qed.
Next Obligation.
  intros m src dst n Hn Hd _. cbn. apply eq_by_nthZ; [by rewrite !lenZ_mem_read by lia|].
  rewrite lenZ_mem_read by lia. intros i Hi. rewrite !nthZ_mem_read by lia.
  destruct (Z.leb_spec dst (dst + i)), (Z.ltb_spec (dst + i) (dst + 4 * n)); try lia. f_equal. lia.
Qed.

(** An erased flash with a SoftDevice that ends at [0x5000], an image from there
    on, and on the settings page a record that announces [size] bytes of it. *)
Definition sd_info : list Z := bytes32 SD_MAGIC_NUMBER ++ bytes32 0x5000.
Definition demo_record (size : Z) : list Z :=
  settings_bytes (bootloader_settings_seal (update_settings (Save_sd_complete 0 0x5000 size 0 0) zero_settings)).
Definition demo_flash_of (record : list Z) : mem := fun x =>
  if (0x3004 <=? x) && (x <? 0x300C) then nthZ sd_info (x - 0x3004)
  else if (0xFF000 <=? x) && (x <? 0xFF020) then nthZ record (x - 0xFF000)
  else if x <? 0x5000 then 255 else x mod 251.
Definition demo_swap_mem : mem := demo_flash_of (demo_record 0x4004).

Lemma sd_swap_resumable_witness :
  exists image, lenZ image = 0x4004 /\ in_progress 0x5000 0x4004 image demo_swap_mem /\ announced NRF52840 0x5000 0x4004 demo_swap_mem /\
  exists e m', dfu_sd_image_swap NRF52840 demo_swap_mem = Some (e, m') /\
    in_progress 0x5000 0x4004 image m' /\ (e = NRF_SUCCESS -> mem_read m' SOFTDEVICE_REGION_START 0x4004 = image).
Proof.
  exists (mem_read demo_swap_mem 0x5000 0x4004).
  assert (lenZ (mem_read demo_swap_mem 0x5000 0x4004) = 0x4004) as Hl by (by rewrite lenZ_mem_read by lia).
  assert (block_size_of 0x5000 = 0x2000) as Hbs by (vm_compute; reflexivity).
  assert (in_progress 0x5000 0x4004 (mem_read demo_swap_mem 0x5000 0x4004) demo_swap_mem) as Hp.
  { left. split; [reflexivity|]. unfold dstt, dst1, dst0. rewrite Hbs, !sliceZ_mem_read by lia. split; intros E; exfalso.
    - apply (f_equal (fun l => nthZ l 0)) in E. rewrite !nthZ_mem_read in E by lia. vm_compute in E. discriminate E.
    - apply (f_equal (fun l => nthZ l 0)) in E. rewrite !nthZ_mem_read in E by lia. vm_compute in E. discriminate E. }
  assert (announced NRF52840 0x5000 0x4004 demo_swap_mem) as Ha by (split_and!; vm_compute; reflexivity).
  split; [exact Hl|]. split; [exact Hp|]. split; [exact Ha|].
  destruct (sd_swap_resumable NRF52840 0 0x5000 0x4004 (mem_read demo_swap_mem 0x5000 0x4004) demo_swap_mem)
    as ((e & m' & E1 & _ & E3 & E4) & _); [vm_compute; split; congruence|vm_compute; reflexivity|vm_compute; reflexivity|vm_compute; reflexivity|
      vm_compute; congruence|vm_compute; congruence|exact Hl|exact Ha|exact Hp|].
  exists e, m'. split; [exact E1|]. split; [exact E3|exact E4].
Defined.

Definition demo_disjoint_mem : mem := demo_flash_of (demo_record 16).

Lemma sd_update_continue_installs_witness :
  exists e m',
    bootloader_dfu_sd_update_continue NRF52840 0 demo_disjoint_mem = Some (e, m') /\
    mem_read m' SOFTDEVICE_REGION_START 16 = mem_read demo_disjoint_mem 0x5000 16 /\
    mem_read m' SOFTDEVICE_REGION_START 16 <> mem_read demo_disjoint_mem SOFTDEVICE_REGION_START 16.
Proof.
  assert (match bootloader_dfu_sd_update_continue NRF52840 0 demo_disjoint_mem with
          | Some _ => true | None => false end = true) as Hsome by (vm_compute; reflexivity).
  destruct (bootloader_dfu_sd_update_continue NRF52840 0 demo_disjoint_mem) as [[e m']|] eqn:E; [|discriminate Hsome].
  assert (set_sd_image_size (settings_get NRF52840 demo_disjoint_mem) = 16 /\ set_sd_image_start (settings_get NRF52840 demo_disjoint_mem) = 0x5000)
    as [Es Ei] by (split; vm_compute; reflexivity).
  destruct (sd_update_continue_installs NRF52840 0 demo_disjoint_mem e m') as (-> & _ & E1 & _);
    [vm_compute; reflexivity|vm_compute; reflexivity|vm_compute; reflexivity|vm_compute; congruence|vm_compute; congruence|exact E|].
  rewrite Es, Ei in E1. exists NRF_SUCCESS, m'. split; [reflexivity|]. split; [exact E1|]. rewrite E1. vm_compute. congruence.
Defined.

(** The same with a bootloader behind a SoftDevice that ends one page earlier:
    the routine succeeds without having copied the bootloader. *)
Definition demo_combined_mem : mem := fun x =>
  if (0x7004 <=? x) && (x <? 0x700C) then nthZ (bytes32 SD_MAGIC_NUMBER ++ bytes32 0x4000) (x - 0x7004)
  else demo_flash_of (settings_bytes (bootloader_settings_seal (update_settings (Save_sd_complete 0 0x5000 0x2010 16 0) zero_settings))) x.

Lemma demo_bootloader_dropped : exists m',
  set_bl_image_size (settings_get NRF52840 demo_combined_mem) = 16 /\
  bootloader_dfu_sd_update_continue NRF52840 0 demo_combined_mem = Some (NRF_SUCCESS, m') /\ settings_get NRF52840 m' = empty_settings /\
  mem_read m' (BOOTLOADER_REGION_START NRF52840) 16 <> mem_read demo_combined_mem (0x5000 + 0x2010) 16.
Proof.
  assert (set_sd_image_size (settings_get NRF52840 demo_combined_mem) = 0x2010 /\ set_sd_image_start (settings_get NRF52840 demo_combined_mem) = 0x5000)
    as [Es Ei] by (split; vm_compute; reflexivity).
  pose proof (bootloader_dropped NRF52840 0 demo_combined_mem) as P. rewrite Es, Ei in P. unfold dfu_copy_sd in P. cbn [mbr_copy_sd demo_mbr demo_copy] in P.
  eexists. split; [vm_compute; reflexivity|]. destruct P as (P1 & P2 & P3); [done|done|vm_compute; congruence|vm_compute; congruence|vm_compute; congruence|done|vm_compute; congruence|].
  split; [exact P1|]. split; [exact P2|]. intros E. apply (f_equal (fun l => nthZ l 0)) in E.
  rewrite !nthZ_mem_read in E by lia. rewrite P3 in E by done. vm_compute in E. discriminate E.
Qed.
