(* ===== verification/MemPool.v ===== *)
(** The receive buffer pool of the serial transport: [hci_mem_pool.c], with the
    sizes of [sdk_config.h].  A buffer is named by its index in
    [m_rx_buffer_elem_queue]; the bytes in it belong to whoever holds it and are
    not part of this state. *)
From S2P Require Import Prelude DfuTypes.

Definition HCI_RX_BUF_SIZE : Z := 600.
Definition HCI_RX_BUF_QUEUE_SIZE : Z := 16.

(** [rx_buffer_queue_t] with [m_is_tx_allocated]; [lengths] are the [length]
    members of the elements. *)
Record pool := mk_pool {
  m_is_tx_allocated : bool; lengths : list Z;
  free_window_count : Z; free_available_count : Z; read_available_count : Z;
  write_index : Z; read_index : Z; free_index : Z
}.

Definition hci_mem_pool_open (q : pool) : Z * pool :=
  (NRF_SUCCESS, mk_pool false (lengths q) HCI_RX_BUF_QUEUE_SIZE 0 0 0 0 0).
Definition hci_mem_pool_close (q : pool) : Z * pool := (NRF_SUCCESS, q).

(** [pp] is false for a NULL [pp_buffer]; the second result tells whether
    [*pp_buffer] is set to the buffer. *)
Definition hci_mem_pool_tx_alloc (pp : bool) (q : pool) : Z * bool * pool :=
  if negb pp then (NRF_ERROR_NULL, false, q) else
  if negb (m_is_tx_allocated q) then
    (NRF_SUCCESS, true,
     mk_pool true (lengths q) (free_window_count q) (free_available_count q) (read_available_count q)
       (write_index q) (read_index q) (free_index q))
  else (NRF_ERROR_NO_MEM, false, q).

Definition hci_mem_pool_tx_free (q : pool) : Z * pool :=
  (NRF_SUCCESS,
   mk_pool false (lengths q) (free_window_count q) (free_available_count q) (read_available_count q)
     (write_index q) (read_index q) (free_index q)).

Definition hci_mem_pool_rx_produce (pp : bool) (length : Z) (q : pool) : Z * option Z * pool :=
  if negb pp then (NRF_ERROR_NULL, None, q) else
  if negb (free_window_count q =? 0) then
    if length <=? HCI_RX_BUF_SIZE then
      (NRF_SUCCESS, Some (write_index q),
       mk_pool (m_is_tx_allocated q) (lengths q) (free_window_count q -32 1)%c (free_available_count q)
         (read_available_count q +32 1)%c
         (Z.land (write_index q + 1) (HCI_RX_BUF_QUEUE_SIZE - 1)) (read_index q)
         (Z.lor (free_index q) (1 <<32 write_index q)%c))
    else (NRF_ERROR_DATA_SIZE, None, q)
  else (NRF_ERROR_NO_MEM, None, q).

Definition in_use (free_index i : Z) : bool := negb (Z.land free_index (1 <<32 i)%c =? 0).

(** The [do ... while] over the extracted buffers: whether [p_buffer] is one of
    them, and where [consume_index] stops. *)
Fixpoint consume_search (fuel : nat) (p_buffer : option Z) (read_index consume_index : Z) : bool * Z :=
  match fuel with
  | O => (false, consume_index)
  | S fuel =>
    if bool_decide (p_buffer = Some consume_index) then (true, consume_index) else
    let consume_index := Z.land (consume_index + 1) (HCI_RX_BUF_QUEUE_SIZE - 1) in
    if negb (consume_index =? read_index) then consume_search fuel p_buffer read_index consume_index
    else (false, consume_index)
  end.

(** The second loop: how many buffers return to the window. *)
Fixpoint release_loop (fuel : nat) (free_index consume_index start_index window available : Z) : Z * Z :=
  match fuel with
  | O => (window, available)
  | S fuel =>
    if negb (in_use free_index start_index) && negb (available =? 0) then
      release_loop fuel free_index consume_index
        (Z.land (consume_index + 1) (HCI_RX_BUF_QUEUE_SIZE - 1)) (window +32 1)%c (available -32 1)%c
    else (window, available)
  end.

Definition hci_mem_pool_rx_consume (p_buffer : option Z) (q : pool) : Z * pool :=
  if negb (free_available_count q =? 0) then
    let start_index := Z.land (read_index q -32 free_available_count q)%c (HCI_RX_BUF_QUEUE_SIZE - 1) in
    let '(found, consume_index) := consume_search (Z.to_nat HCI_RX_BUF_QUEUE_SIZE) p_buffer (read_index q) start_index in
    let free_index := if found then Z.lxor (free_index q) (1 <<32 consume_index)%c else free_index q in
    let '(window, available) :=
      release_loop (Z.to_nat (free_available_count q)) free_index consume_index start_index
        (free_window_count q) (free_available_count q) in
    (if found then NRF_SUCCESS else NRF_ERROR_INVALID_ADDR,
     mk_pool (m_is_tx_allocated q) (lengths q) window available (read_available_count q)
       (write_index q) (read_index q) free_index)
  else (NRF_ERROR_NO_MEM, q).

Definition hci_mem_pool_rx_data_size_set (length : Z) (q : pool) : Z * pool :=
  let index := Z.land (write_index q -32 1)%c (HCI_RX_BUF_QUEUE_SIZE - 1) in
  (NRF_SUCCESS,
   mk_pool (m_is_tx_allocated q) (<[Z.to_nat index := length]> (lengths q)) (free_window_count q)
     (free_available_count q) (read_available_count q) (write_index q) (read_index q) (free_index q)).

Definition hci_mem_pool_rx_extract (pp : bool) (q : pool) : Z * option (Z * Z) * pool :=
  if negb pp then (NRF_ERROR_NULL, None, q) else
  if negb (read_available_count q =? 0) then
    (NRF_SUCCESS, Some (read_index q, nthZ (lengths q) (read_index q)),
     mk_pool (m_is_tx_allocated q) (lengths q) (free_window_count q) (free_available_count q +32 1)%c
       (read_available_count q -32 1)%c (write_index q)
       (Z.land (read_index q + 1) (HCI_RX_BUF_QUEUE_SIZE - 1)) (free_index q))
  else (NRF_ERROR_NO_MEM, None, q).

(** * The contract: a bounded queue *)

(** [extracted] buffers are being processed, [filled] ones wait for extraction,
    oldest first; [next] is the slot handed out next. *)
Record queue := mk_queue { q_tx : bool; extracted : list Z; filled : list Z; next : Z; q_lengths : list Z }.

Inductive pool_op :=
| Open | Close | TxAlloc (pp : bool) | TxFree
| Produce (pp : bool) (length : Z) | DataSizeSet (length : Z) | Extract (pp : bool) | Consume (p : option Z).

(** Result code and what is handed out: buffer and length. *)
Definition answer : Type := Z * option (Z * Z).

Definition pool_step (o : pool_op) (q : pool) : answer * pool :=
  match o with
  | Open => let '(e, q) := hci_mem_pool_open q in ((e, None), q)
  | Close => let '(e, q) := hci_mem_pool_close q in ((e, None), q)
  | TxAlloc pp => let '(e, b, q) := hci_mem_pool_tx_alloc pp q in ((e, if b then Some (0, 0) else None), q)
  | TxFree => let '(e, q) := hci_mem_pool_tx_free q in ((e, None), q)
  | Produce pp n => let '(e, b, q) := hci_mem_pool_rx_produce pp n q in ((e, (fun i => (i, 0)) <$> b), q)
  | DataSizeSet n => let '(e, q) := hci_mem_pool_rx_data_size_set n q in ((e, None), q)
  | Extract pp => let '(e, b, q) := hci_mem_pool_rx_extract pp q in ((e, b), q)
  | Consume p => let '(e, q) := hci_mem_pool_rx_consume p q in ((e, None), q)
  end.

Definition queue_step (o : pool_op) (a : queue) : answer * queue :=
  match o with
  | Open => ((NRF_SUCCESS, None), mk_queue false [] [] 0 (q_lengths a))
  | Close => ((NRF_SUCCESS, None), a)
  | TxAlloc pp =>
    if negb pp then ((NRF_ERROR_NULL, None), a) else
    if q_tx a then ((NRF_ERROR_NO_MEM, None), a)
    else ((NRF_SUCCESS, Some (0, 0)), mk_queue true (extracted a) (filled a) (next a) (q_lengths a))
  | TxFree => ((NRF_SUCCESS, None), mk_queue false (extracted a) (filled a) (next a) (q_lengths a))
  | Produce pp n =>
    if negb pp then ((NRF_ERROR_NULL, None), a) else
    if lenZ (extracted a ++ filled a) =? HCI_RX_BUF_QUEUE_SIZE then ((NRF_ERROR_NO_MEM, None), a) else
    if n >? HCI_RX_BUF_SIZE then ((NRF_ERROR_DATA_SIZE, None), a) else
    ((NRF_SUCCESS, Some (next a, 0)),
     mk_queue (q_tx a) (extracted a) (filled a ++ [next a]) ((next a + 1) mod HCI_RX_BUF_QUEUE_SIZE) (q_lengths a))
  | DataSizeSet n =>
    ((NRF_SUCCESS, None),
     mk_queue (q_tx a) (extracted a) (filled a) (next a)
       (<[Z.to_nat ((next a - 1) mod HCI_RX_BUF_QUEUE_SIZE) := n]> (q_lengths a)))
  | Extract pp =>
    if negb pp then ((NRF_ERROR_NULL, None), a) else
    match filled a with
    | [] => ((NRF_ERROR_NO_MEM, None), a)
    | i :: rest => ((NRF_SUCCESS, Some (i, nthZ (q_lengths a) i)),
                    mk_queue (q_tx a) (extracted a ++ [i]) rest (next a) (q_lengths a))
    end
  | Consume p =>
    match extracted a with
    | [] => ((NRF_ERROR_NO_MEM, None), a)
    | i :: rest =>
      if bool_decide (p = Some i) then
        ((NRF_SUCCESS, None), mk_queue (q_tx a) rest (filled a) (next a) (q_lengths a))
      else ((NRF_ERROR_INVALID_ADDR, None), a)
    end
  end.

(** A caller that frees what it extracted in the order it extracted it (or
    passes a pointer that is not an extracted buffer). *)
Definition in_order (o : pool_op) (a : queue) : bool :=
  match o with
  | Consume (Some i) => bool_decide (i ∉ tail (extracted a))
  | _ => true
  end.

Section Run.
Context {S : Type} (step : pool_op -> S -> answer * S).
Fixpoint run (ops : list pool_op) (s : S) : list answer * S :=
  match ops with
  | [] => ([], s)
  | o :: ops => let '(r, s) := step o s in let '(rs, s) := run ops s in (r :: rs, s)
  end.
End Run.

Fixpoint all_in_order (ops : list pool_op) (a : queue) : bool :=
  match ops with
  | [] => true
  | o :: ops => in_order o a && all_in_order ops (snd (queue_step o a))
  end.

(** * Ring arithmetic *)

(** [n] consecutive slots from [s] on. *)
Definition ring (s n : Z) : list Z := (fun k => (s + k) mod HCI_RX_BUF_QUEUE_SIZE) <$> seqZ 0 n.

Lemma lenZ_ring s n : 0 <= n -> lenZ (ring s n) = n.
Proof. intros. unfold lenZ, ring. rewrite length_fmap, length_seqZ. lia. Qed.

Lemma elem_of_ring x s n : x ∈ ring s n <-> exists k, 0 <= k < n /\ x = (s + k) mod HCI_RX_BUF_QUEUE_SIZE.
Proof.
  unfold ring. rewrite list_elem_of_fmap. setoid_rewrite elem_of_seqZ. split; intros (k & H1 & H2); exists k; split; (lia || done).
Qed.

Lemma ring_app s n m : 0 <= n -> 0 <= m -> ring s (n + m) = ring s n ++ ring (s + n) m.
Proof.
  intros. unfold ring. rewrite (seqZ_app 0 n m), fmap_app by done. f_equal. apply list_eq. intros i.
  rewrite !list_lookup_fmap. destruct (decide (Z.of_nat i < m)).
  - rewrite !lookup_seqZ_lt by lia. cbn. do 2 f_equal. lia.
  - by rewrite !lookup_seqZ_ge by lia.
Qed.

Lemma ring_1 s : ring s 1 = [s mod HCI_RX_BUF_QUEUE_SIZE].
Proof. unfold ring. cbn [seqZ]. change (seqZ 0 1) with [0]. cbn [fmap list_fmap]. by rewrite Z.add_0_r. Qed.

Lemma ring_cons s n : 0 < n -> ring s n = s mod HCI_RX_BUF_QUEUE_SIZE :: ring (s + 1) (n - 1).
Proof. intros. replace n with (1 + (n - 1)) at 1 by lia. by rewrite ring_app, ring_1 by lia. Qed.

Lemma ring_mod s n : ring (s mod HCI_RX_BUF_QUEUE_SIZE) n = ring s n.
Proof.
  unfold ring. apply list_fmap_ext. intros i k _. unfold HCI_RX_BUF_QUEUE_SIZE. zlia.
Qed.

Lemma ring_nodup s n : n <= HCI_RX_BUF_QUEUE_SIZE -> NoDup (ring s n).
Proof.
  intros Hn. unfold ring. apply NoDup_fmap_2_strong; [|apply NoDup_seqZ].
  intros x y Hx Hy E. apply elem_of_seqZ in Hx, Hy. unfold HCI_RX_BUF_QUEUE_SIZE in *. zlia.
Qed.

(** * The free mask *)

Lemma shift_bit i j : 0 <= i < HCI_RX_BUF_QUEUE_SIZE -> 0 <= j ->
  Z.testbit (1 <<32 i)%c j = bool_decide (i = j).
Proof.
  unfold HCI_RX_BUF_QUEUE_SIZE. intros Hi Hj. rewrite Z.shiftl_1_l, u32_small.
  2: { split; [lia|]. apply Z.pow_lt_mono_r; lia. }
  case_bool_decide as E; [subst; by apply Z.pow2_bits_true|]. by apply Z.pow2_bits_false.
Qed.

Lemma in_use_testbit m i : 0 <= i < HCI_RX_BUF_QUEUE_SIZE -> in_use m i = Z.testbit m i.
Proof.
  intros Hi. unfold in_use. destruct (Z.testbit m i) eqn:E.
  - apply negb_true_iff, Z.eqb_neq. intros H. apply (f_equal (fun x => Z.testbit x i)) in H.
    rewrite Z.land_spec, E, shift_bit, Z.bits_0 in H by lia. by rewrite bool_decide_true in H.
  - apply negb_false_iff, Z.eqb_eq, Z.bits_inj'. intros j Hj. rewrite Z.land_spec, shift_bit, Z.bits_0 by lia.
    case_bool_decide; [subst; by rewrite E|apply andb_false_r].
Qed.

(** * The pool implements the queue *)

(** [r] is where the oldest buffer lies, [h] and [f] how many are extracted and
    filled; the mask marks exactly these. *)
Record represents (a : queue) (q : pool) (r h f : Z) : Prop := {
  rep_bounds : 0 <= h /\ 0 <= f /\ h + f <= HCI_RX_BUF_QUEUE_SIZE;
  rep_extracted : extracted a = ring r h;
  rep_filled : filled a = ring (r + h) f;
  rep_next : next a = (r + h + f) mod HCI_RX_BUF_QUEUE_SIZE;
  rep_write : write_index q = (r + h + f) mod HCI_RX_BUF_QUEUE_SIZE;
  rep_read : read_index q = (r + h) mod HCI_RX_BUF_QUEUE_SIZE;
  rep_counts : free_window_count q = HCI_RX_BUF_QUEUE_SIZE - h - f /\
               free_available_count q = h /\ read_available_count q = f;
  rep_lengths : q_lengths a = lengths q;
  rep_tx : q_tx a = m_is_tx_allocated q;
  rep_mask i : 0 <= i < HCI_RX_BUF_QUEUE_SIZE -> Z.testbit (free_index q) i = bool_decide (i ∈ ring r (h + f))
}.

Lemma slot_in_ring r n k : 0 <= k < HCI_RX_BUF_QUEUE_SIZE -> 0 <= n <= HCI_RX_BUF_QUEUE_SIZE ->
  (r + k) mod HCI_RX_BUF_QUEUE_SIZE ∈ ring r n <-> k < n.
Proof.
  intros Hk Hn. rewrite elem_of_ring. unfold HCI_RX_BUF_QUEUE_SIZE in *. split.
  - intros (j & Hj & E). zlia.
  - intros. exists k. split; [lia|done].
Qed.

Lemma consume_search_hit i rd : consume_search (Z.to_nat HCI_RX_BUF_QUEUE_SIZE) (Some i) rd i = (true, i).
Proof. change (Z.to_nat HCI_RX_BUF_QUEUE_SIZE) with 16%nat. cbn [consume_search]. by rewrite bool_decide_true. Qed.

(** The search stops at the buffer, or comes round to [read_index]. *)
Lemma consume_search_spec p r h : forall j fuel, h - j <= Z.of_nat fuel -> 0 <= j < h -> h <= HCI_RX_BUF_QUEUE_SIZE ->
  (forall i, p = Some i -> i ∉ ring (r + j) (h - j)) ->
  consume_search fuel p ((r + h) mod HCI_RX_BUF_QUEUE_SIZE) ((r + j) mod HCI_RX_BUF_QUEUE_SIZE) =
    (false, (r + h) mod HCI_RX_BUF_QUEUE_SIZE).
Proof.
  intros j fuel. revert j. induction fuel as [|fuel IH]; intros j Hf Hj Hh Hp; [lia|]. cbn [consume_search].
  rewrite bool_decide_false.
  2: { intros E. apply (Hp _ E). rewrite ring_cons by lia. left. }
  change (HCI_RX_BUF_QUEUE_SIZE - 1) with 15. rewrite land_15.
  assert (((r + j) mod HCI_RX_BUF_QUEUE_SIZE + 1) mod 16 = (r + (j + 1)) mod HCI_RX_BUF_QUEUE_SIZE) as E
    by (unfold HCI_RX_BUF_QUEUE_SIZE; zlia).
  rewrite E. destruct (Z.eqb_spec ((r + (j + 1)) mod HCI_RX_BUF_QUEUE_SIZE) ((r + h) mod HCI_RX_BUF_QUEUE_SIZE)) as [E2|E2]; cbn.
  - by rewrite E2.
  - assert (j + 1 <> h) by (intros Hx; apply E2; by rewrite Hx). apply IH; [lia|lia|done|].
    intros i Hi Hin. apply (Hp i Hi). rewrite ring_cons by lia. right.
    replace (r + j + 1) with (r + (j + 1)) by lia. by replace (h - j - 1) with (h - (j + 1)) by lia.
Qed.

Lemma ring_range r n x : x ∈ ring r n -> 0 <= x < HCI_RX_BUF_QUEUE_SIZE.
Proof. rewrite elem_of_ring. intros (k & _ & ->). unfold HCI_RX_BUF_QUEUE_SIZE. zlia. Qed.

(** Releasing after the oldest buffer was freed gives back just that one. *)
Lemma release_one m s h w : 0 <= s < HCI_RX_BUF_QUEUE_SIZE -> 0 < h -> 0 <= w -> w + h <= HCI_RX_BUF_QUEUE_SIZE ->
  Z.testbit m s = false -> (1 < h -> Z.testbit m ((s + 1) mod HCI_RX_BUF_QUEUE_SIZE) = true) ->
  release_loop (Z.to_nat h) m s s w h = (w + 1, h - 1).
Proof.
  intros Hs Hh Hw Hwh H0 H1. destruct (Z.to_nat h) as [|fuel] eqn:Ef; [lia|]. cbn [release_loop].
  rewrite in_use_testbit, H0 by done. replace (h =? 0) with false by (symmetry; apply Z.eqb_neq; lia). cbn [negb andb].
  unfold HCI_RX_BUF_QUEUE_SIZE in *. rewrite !u32_small by lia.
  destruct fuel as [|fuel]; [done|]. cbn [release_loop]. change (16 - 1) with 15. rewrite land_15.
  rewrite in_use_testbit by (unfold HCI_RX_BUF_QUEUE_SIZE; zlia). rewrite H1 by lia. done.
Qed.

Lemma release_none fuel m s c w h : 0 <= s < HCI_RX_BUF_QUEUE_SIZE -> Z.testbit m s = true ->
  release_loop fuel m c s w h = (w, h).
Proof. intros Hs H. destruct fuel; [done|]. cbn. by rewrite in_use_testbit, H by done. Qed.

Ltac index_mod :=
  unfold HCI_RX_BUF_QUEUE_SIZE in *; change (16 - 1) with 15 in *; rewrite ?land_15; zlia.

Lemma mark_app (l : list Z) x i : bool_decide (i ∈ l) || bool_decide (x = i) = bool_decide (i ∈ l ++ [x]).
Proof.
  rewrite <- bool_decide_or. apply bool_decide_ext. rewrite elem_of_app, list_elem_of_singleton.
  split; (intros [?|?]; [by left|by right]).
Qed.

Lemma mark_cons (l : list Z) x i : x ∉ l -> xorb (bool_decide (i ∈ x :: l)) (bool_decide (x = i)) = bool_decide (i ∈ l).
Proof.
  intros Hx. destruct (decide (x = i)) as [->|Hi].
  - by rewrite !bool_decide_true, bool_decide_false by (done || left).
  - rewrite (bool_decide_false (x = i)), xorb_false_r by done. apply bool_decide_ext.
    rewrite elem_of_cons. split; [intros [?|?]; done|by right].
Qed.

(** One operation: the answers agree and the pool represents the new queue. *)
Lemma produce_refines a q r h f pp n : represents a q r h f ->
  fst (pool_step (Produce pp n) q) = fst (queue_step (Produce pp n) a) /\
  exists f', represents (snd (queue_step (Produce pp n) a)) (snd (pool_step (Produce pp n) q)) r h f'.
Proof.
  intros R. pose proof R as [Rb Re Rf Rn Rw Rr (Rc1 & Rc2 & Rc3) Rl Rt Rm].
  cbn [pool_step queue_step]. unfold hci_mem_pool_rx_produce. destruct pp; cbn [negb]; [|by eauto].
  rewrite Re, Rf, <- ring_app, lenZ_ring, Rc1 by lia.
  replace (HCI_RX_BUF_QUEUE_SIZE - h - f =? 0) with (h + f =? HCI_RX_BUF_QUEUE_SIZE)
    by (destruct (Z.eqb_spec (h + f) HCI_RX_BUF_QUEUE_SIZE), (Z.eqb_spec (HCI_RX_BUF_QUEUE_SIZE - h - f) 0); lia).
  destruct (Z.eqb_spec (h + f) HCI_RX_BUF_QUEUE_SIZE) as [E|E]; cbn [negb fmap option_fmap option_map]; [by eauto|].
  rewrite Z.gtb_ltb, Z.leb_antisym. destruct (Z.ltb_spec HCI_RX_BUF_SIZE n); cbn [negb fmap option_fmap option_map]; [by eauto|].
  split; [by rewrite Rw, Rn|]. exists (f + 1). cbn [fst snd]. constructor; cbn; try done.
  - lia.
  - by rewrite ring_app, ring_1, Rn by lia.
  - rewrite Rn. index_mod.
  - rewrite Rw. index_mod.
  - unfold HCI_RX_BUF_QUEUE_SIZE in *. rewrite Rc3, !u32_small by lia. lia.
  - intros i Hi. rewrite Z.lor_spec, Rm, Rw by done. rewrite shift_bit by (unfold HCI_RX_BUF_QUEUE_SIZE in *; zlia).
    replace (h + (f + 1)) with (h + f + 1) by lia. rewrite (ring_app r (h + f) 1), ring_1, Z.add_assoc by lia.
    apply mark_app.
Qed.

Lemma extract_refines a q r h f pp : represents a q r h f ->
  fst (pool_step (Extract pp) q) = fst (queue_step (Extract pp) a) /\
  exists h' f', represents (snd (queue_step (Extract pp) a)) (snd (pool_step (Extract pp) q)) r h' f'.
Proof.
  intros R. pose proof R as [Rb Re Rf Rn Rw Rr (Rc1 & Rc2 & Rc3) Rl Rt Rm].
  cbn [pool_step queue_step]. unfold hci_mem_pool_rx_extract. destruct pp; cbn [negb]; [|by eauto].
  rewrite Rc3, Rf. destruct (Z.eqb_spec f 0) as [->|Ef]; cbn [negb]; [by eauto|].
  rewrite ring_cons by lia. split; [by rewrite Rr, Rl|]. exists (h + 1), (f - 1). constructor; cbn; try done.
  - lia.
  - by rewrite Re, ring_app, ring_1 by lia.
  - f_equal. lia.
  - rewrite Rn. f_equal. lia.
  - rewrite Rw. f_equal. lia.
  - rewrite Rr. index_mod.
  - rewrite Rc2. unfold HCI_RX_BUF_QUEUE_SIZE in *. rewrite !u32_small by lia. lia.
  - replace (h + 1 + (f - 1)) with (h + f) by lia. exact Rm.
Qed.

Lemma consume_refines a q r h f p : represents a q r h f -> in_order (Consume p) a = true ->
  fst (pool_step (Consume p) q) = fst (queue_step (Consume p) a) /\
  exists r' h', represents (snd (queue_step (Consume p) a)) (snd (pool_step (Consume p) q)) r' h' f.
Proof.
  intros R Ho. pose proof R as [Rb Re Rf Rn Rw Rr (Rc1 & Rc2 & Rc3) Rl Rt Rm].
  cbn [pool_step queue_step in_order] in *. unfold hci_mem_pool_rx_consume. rewrite Rc2, Re in *.
  destruct (Z.eqb_spec h 0) as [->|Eh]; cbn [negb]; [by eauto|].
  rewrite (ring_cons r h) in * by lia. cbn [tail] in Ho.
  assert (Z.land (read_index q -32 h)%c (HCI_RX_BUF_QUEUE_SIZE - 1) = (r + 0) mod HCI_RX_BUF_QUEUE_SIZE) as Es
    by (rewrite Rr; index_mod).
  rewrite Es, Rr. case_bool_decide as Ep.
  - subst p. rewrite Z.add_0_r, consume_search_hit.
    rewrite release_one; [|unfold HCI_RX_BUF_QUEUE_SIZE; zlia|lia|lia|lia| |].
    + split; [done|]. exists (r + 1), (h - 1). constructor; cbn; try done.
      * lia.
      * rewrite Rf. f_equal. lia.
      * rewrite Rn. f_equal. lia.
      * rewrite Rw. f_equal. lia.
      * f_equal. lia.
      * lia.
      * intros i Hi. rewrite Z.lxor_spec, Rm, shift_bit by (unfold HCI_RX_BUF_QUEUE_SIZE in *; zlia).
        pose proof (ring_nodup r (h + f) ltac:(lia)) as Hnd. rewrite (ring_cons r (h + f)) in * by lia.
        replace (h + f - 1) with (h - 1 + f) in * by lia.
        inversion Hnd; subst. by apply mark_cons.
    + rewrite Z.lxor_spec, Rm, shift_bit by (unfold HCI_RX_BUF_QUEUE_SIZE in *; zlia).
      rewrite !bool_decide_true; [done|done|]. rewrite ring_cons by lia. left.
    + intros Hh. rewrite Z.lxor_spec, Rm, shift_bit by (unfold HCI_RX_BUF_QUEUE_SIZE in *; zlia).
      rewrite bool_decide_true, bool_decide_false; [done| |].
      * unfold HCI_RX_BUF_QUEUE_SIZE; zlia.
      * rewrite elem_of_ring. exists 1. split; [lia|]. unfold HCI_RX_BUF_QUEUE_SIZE; zlia.
  - rewrite consume_search_spec; [|unfold HCI_RX_BUF_QUEUE_SIZE in *; lia|lia|lia|].
    + rewrite release_none; [split; [done|]; exists r, h; constructor; cbn; (done || lia || apply R)|unfold HCI_RX_BUF_QUEUE_SIZE; zlia|].
      rewrite Rm by (unfold HCI_RX_BUF_QUEUE_SIZE; zlia). apply bool_decide_true. apply slot_in_ring; lia.
    + intros i ->. rewrite Z.add_0_r, Z.sub_0_r, ring_cons by lia. intros Hin. apply elem_of_cons in Hin as [->|Hin]; [done|].
      apply bool_decide_eq_true in Ho. done.
Qed.

Lemma step_refines o a q r h f : represents a q r h f -> in_order o a = true ->
  fst (pool_step o q) = fst (queue_step o a) /\
  exists r' h' f', represents (snd (queue_step o a)) (snd (pool_step o q)) r' h' f'.
Proof.
  intros R Ho. pose proof R as [Rb Re Rf Rn Rw Rr (Rc1 & Rc2 & Rc3) Rl Rt Rm]. destruct o.
  - split; [done|]. exists 0, 0, 0. constructor; cbn; try done. intros i Hi. by rewrite Z.bits_0.
  - by eauto 6.
  - cbn. unfold hci_mem_pool_tx_alloc. rewrite Rt. destruct pp, (m_is_tx_allocated q); cbn; (split; [done|]); exists r, h, f; done || (constructor; done).
  - split; [done|]. exists r, h, f. by constructor.
  - destruct (produce_refines a q r h f pp length R) as (E & f' & R'). eauto 6.
  - split; [done|]. exists r, h, f. constructor; cbn; try done. rewrite Rl, Rn, Rw. do 3 f_equal. index_mod.
  - destruct (extract_refines a q r h f pp R) as (E & h' & f' & R'). eauto 6.
  - destruct (consume_refines a q r h f p R Ho) as (E & r' & h' & R'). eauto 6.
Qed.

Lemma run_refines ops : forall a q r h f, represents a q r h f -> all_in_order ops a = true ->
  fst (run pool_step ops q) = fst (run queue_step ops a) /\
  exists r' h' f', represents (snd (run queue_step ops a)) (snd (run pool_step ops q)) r' h' f'.
Proof.
  induction ops as [|o ops IH]; intros a q r h f R Ho; [by eauto 6|]. cbn [all_in_order run] in *.
  apply andb_prop in Ho as [H1 H2]. destruct (step_refines o a q r h f R H1) as (E & r' & h' & f' & R').
  destruct (pool_step o q) as [x q'], (queue_step o a) as [y a']. cbn [fst snd] in *. subst y.
  destruct (IH _ _ _ _ _ R' H2) as (E2 & R2).
  destruct (run pool_step ops q'), (run queue_step ops a'). cbn [fst snd] in *. by subst.
Qed.

(** The pool while SLIP fills buffer [b] and the buffers [ex] are being
    processed, oldest first. *)
Definition pool_at (q : pool) (ex : list Z) (b : Z) : Prop :=
  exists a r h f, represents a q r h f /\ extracted a = ex /\ filled a = [b] /\ lenZ (q_lengths a) = HCI_RX_BUF_QUEUE_SIZE.

Lemma pool_at_apart q ex b : pool_at q ex b ->
  NoDup (ex ++ [b]) /\ lenZ ex < HCI_RX_BUF_QUEUE_SIZE /\ forall x, x ∈ ex ++ [b] -> 0 <= x < HCI_RX_BUF_QUEUE_SIZE.
Proof.
  intros (a & r & h & f & [Rb Re Rf _ _ _ _ _ _ _] & <- & E & _). rewrite <- E, Re, Rf, <- ring_app by lia.
  split; [apply ring_nodup; lia|]. split; [rewrite lenZ_ring by lia|intros x Hx; by apply (ring_range r (h + f))].
  rewrite Rf in E. apply (f_equal lenZ) in E. rewrite lenZ_ring in E by lia. change (lenZ [b]) with 1 in E. lia.
Qed.

(** A packet of [len] bytes has arrived in [b]. *)
Lemma pool_arrival q ex b len : pool_at q ex b -> lenZ ex < HCI_RX_BUF_QUEUE_SIZE - 1 ->
  exists q1 b' q2 q3,
    hci_mem_pool_rx_data_size_set len q = (NRF_SUCCESS, q1) /\
    hci_mem_pool_rx_produce true HCI_RX_BUF_SIZE q1 = (NRF_SUCCESS, Some b', q2) /\
    hci_mem_pool_rx_extract true q2 = (NRF_SUCCESS, Some (b, len), q3) /\ pool_at q3 (ex ++ [b]) b'.
Proof.
  intros Hat Hroom. pose proof (proj2 (proj2 (pool_at_apart _ _ _ Hat)) b ltac:(apply elem_of_app; right; by apply list_elem_of_singleton)) as Hb.
  destruct Hat as (a & r & h & f & R & <- & Hfi & Hlen). destruct a as [tx ex fi nx le]. cbn in Hfi, Hlen, Hroom. subst fi.
  pose proof R as [Rb _ Rf Rn _ _ _ _ _ _]. cbn in Rf, Rn. pose proof (f_equal lenZ Rf) as Hf.
  rewrite lenZ_ring in Hf by lia. change (lenZ [b]) with 1 in Hf. subst f. rewrite ring_1 in Rf. injection Rf as Rf.
  assert ((nx - 1) mod HCI_RX_BUF_QUEUE_SIZE = b) as Eidx by (subst nx b; unfold HCI_RX_BUF_QUEUE_SIZE; zlia).
  destruct (step_refines (DataSizeSet len) _ _ _ _ _ R eq_refl) as (E1 & r1 & h1 & f1 & R1).
  cbn [pool_step queue_step q_tx extracted filled next q_lengths snd fst] in E1, R1. rewrite Eidx in R1.
  destruct (hci_mem_pool_rx_data_size_set len q) as [e1 q1] eqn:Q1. cbn [fst snd] in E1, R1. injection E1 as ->.
  destruct (step_refines (Produce true HCI_RX_BUF_SIZE) _ _ _ _ _ R1 eq_refl) as (E2 & r2 & h2 & f2 & R2).
  cbn [pool_step queue_step q_tx extracted filled next q_lengths snd fst negb] in E2, R2.
  replace (lenZ (ex ++ [b]) =? HCI_RX_BUF_QUEUE_SIZE) with false in *
    by (symmetry; apply Z.eqb_neq; rewrite lenZ_app; change (lenZ [b]) with 1; lia).
  change (HCI_RX_BUF_SIZE >? HCI_RX_BUF_SIZE) with false in *.
  destruct (hci_mem_pool_rx_produce true HCI_RX_BUF_SIZE q1) as [[e2 b2] q2] eqn:Q2. cbn [fst snd] in E2, R2.
  destruct b2 as [b2|]; [|discriminate]. injection E2 as -> ->.
  destruct (step_refines (Extract true) _ _ _ _ _ R2 eq_refl) as (E3 & r3 & h3 & f3 & R3).
  cbn [pool_step queue_step q_tx extracted filled next q_lengths snd fst negb app] in E3, R3.
  destruct (hci_mem_pool_rx_extract true q2) as [[e3 b3] q3] eqn:Q3. cbn [fst snd] in E3, R3. injection E3 as -> ->.
  exists q1, nx, q2, q3. split_and!; try done.
  - rewrite Q3. do 3 f_equal. unfold nthZ. rewrite nth_lookup, list_lookup_insert_eq; [done|].
    unfold lenZ, HCI_RX_BUF_QUEUE_SIZE in *. lia.
  - eexists _, r3, h3, f3. split; [exact R3|]. cbn. split; [done|]. split; [done|]. unfold lenZ in *. by rewrite length_insert.
Qed.

(** The oldest buffer is freed. *)
Lemma pool_release q x ex b : pool_at q (x :: ex) b ->
  exists q', hci_mem_pool_rx_consume (Some x) q = (NRF_SUCCESS, q') /\ pool_at q' ex b.
Proof.
  intros Hat. pose proof (proj1 (pool_at_apart _ _ _ Hat)) as Hnd. destruct Hat as (a & r & h & f & R & Hex & Hfi & Hlen).
  destruct (step_refines (Consume (Some x)) _ _ _ _ _ R) as (E & r' & h' & f' & R').
  { cbn. rewrite Hex. apply bool_decide_true. cbn. inversion Hnd as [|? ? Hni]; subst. intros Hin. apply Hni, elem_of_app. by left. }
  cbn [pool_step queue_step] in E, R'. rewrite Hex in E, R'. rewrite bool_decide_true in E, R' by done.
  destruct (hci_mem_pool_rx_consume (Some x) q) as [e q'] eqn:Q. cbn [fst snd] in E, R'. injection E as ->.
  exists q'. split; [done|]. eexists _, r', h', f'. by split; [exact R'|].
Qed.

(** C32: the receive pool is a bounded queue of sixteen buffers. From
    [hci_mem_pool_open] on, as long as the caller frees extracted buffers in the
    order it got them, every call answers what the queue answers, so buffers come
    out in the order they were handed in, with the length last set; and no buffer
    is ever in two hands: those filled and those being processed are all
    different, and the pool's window counts exactly the others. *)
Theorem pool_is_queue ops q a : q_lengths a = lengths q -> all_in_order (Open :: ops) a = true ->
  fst (run pool_step (Open :: ops) q) = fst (run queue_step (Open :: ops) a) /\
  let a' := snd (run queue_step (Open :: ops) a) in
  let q' := snd (run pool_step (Open :: ops) q) in
  NoDup (extracted a' ++ filled a') /\
  free_window_count q' = HCI_RX_BUF_QUEUE_SIZE - lenZ (extracted a' ++ filled a').
Proof.
  intros Hl Ho. cbn [run pool_step queue_step hci_mem_pool_open all_in_order in_order andb snd] in *.
  assert (represents (mk_queue false [] [] 0 (q_lengths a)) (mk_pool false (lengths q) HCI_RX_BUF_QUEUE_SIZE 0 0 0 0 0) 0 0 0)
    as R by (constructor; cbn; try done; intros i Hi; by rewrite Z.bits_0).
  destruct (run_refines ops _ _ _ _ _ R Ho) as (E & r & h & f & R').
  destruct (run pool_step ops _) as [xs q'], (run queue_step ops _) as [ys a']. cbn [fst snd] in *. subst ys.
  split; [done|]. cbn zeta. destruct R' as [Rb Re Rf _ _ _ (Rc & _) _ _ _].
  rewrite Re, Rf, <- ring_app, lenZ_ring by lia. split; [apply ring_nodup; lia|lia].
Qed.

Definition pool0 : pool := mk_pool false (replicate 16 0) 0 0 0 0 0 0.
Definition queue0 : queue := mk_queue false [] [] 0 (replicate 16 0).
Definition demo_ops : list pool_op :=
  [Produce true 600; DataSizeSet 7; Produce true 600; DataSizeSet 9; Extract true; Consume (Some 5);
   Extract true; Consume (Some 0); Extract true; Consume (Some 1); Consume (Some 1)].

Lemma pool_is_queue_witness :
  fst (run pool_step (Open :: demo_ops) pool0) =
    [(NRF_SUCCESS, None); (NRF_SUCCESS, Some (0, 0)); (NRF_SUCCESS, None); (NRF_SUCCESS, Some (1, 0)); (NRF_SUCCESS, None);
     (NRF_SUCCESS, Some (0, 7)); (NRF_ERROR_INVALID_ADDR, None); (NRF_SUCCESS, Some (1, 9)); (NRF_SUCCESS, None);
     (NRF_ERROR_NO_MEM, None); (NRF_SUCCESS, None); (NRF_ERROR_NO_MEM, None)].
Proof. destruct (pool_is_queue demo_ops pool0 queue0) as (E & _); [done|done|]. rewrite E. done. Defined.

(** Freeing out of order loses the books. With buffers 0, 1 and 2 extracted,
    freeing 1 and then 0 gives back three buffers, because the release loop
    recomputes its position from the freed buffer instead of advancing: from then
    on sixteen buffers can be handed out while buffer 2 is still being processed,
    and the last of them is buffer 2 itself. *)
Theorem consume_out_of_order_overfrees :
  let setup := [Open; Produce true 600; Produce true 600; Produce true 600; Extract true; Extract true; Extract true;
                Consume (Some 1); Consume (Some 0)] in
  let q := snd (run pool_step setup pool0) in
  in_use (free_index q) 2 = true /\ free_window_count q = 16 /\ free_available_count q = 0 /\
  fst (run pool_step (replicate 16 (Produce true 600)) q) !! 15%nat = Some (NRF_SUCCESS, Some (2, 0)).
Proof. by vm_compute. Qed.
