(* ===== verification/Slip.v ===== *)
(** SLIP framing of the serial transport: [hci_slip.c].  Bytes leave through
    the serial port, which can refuse one when its buffer is full; received
    bytes are decoded into a buffer the upper layer registers.  The module's
    statics are the record [slip]; the registered event handler is the upper
    layer's and can call back into the module, so operations run on the pair of
    the SLIP state and the upper layer's state [W] and return [None] when the
    handler does not return. *)
From S2P Require Import Prelude DfuTypes Nvm.

Definition APP_SLIP_END : Z := 0xC0.
Definition APP_SLIP_ESC : Z := 0xDB.
Definition APP_SLIP_ESC_END : Z := 0xDC.
Definition APP_SLIP_ESC_ESC : Z := 0xDD.

(** [serial_put]: [app_uart_put], or the CDC wrapper of [tud_cdc_write_char].
    A byte is taken, or refused with [NRF_ERROR_NO_MEM] when there is no room;
    [sent] is what the port has taken so far. *)
Class Serial := {
  port : Type;
  serial_put : port -> Z -> Z * port;
  sent : port -> list Z;
  serial_put_spec p c :
    (fst (serial_put p c) = NRF_SUCCESS /\ sent (snd (serial_put p c)) = sent p ++ [c]) \/
    (fst (serial_put p c) = NRF_ERROR_NO_MEM /\ sent (snd (serial_put p c)) = sent p)
}.

Inductive slip_states := SLIP_OFF | SLIP_READY | SLIP_TRANSMITTING.
#[global] Instance slip_states_eq_dec : EqDecision slip_states.
Proof. solve_decision. Defined.
(** The targets of the function pointers [send_tx_byte] and [handle_rx_byte]. *)
Inductive sender := send_tx_byte_default | send_tx_byte_esc | send_tx_byte_encoded | send_tx_byte_end.
#[global] Instance sender_eq_dec : EqDecision sender.
Proof. solve_decision. Defined.
Inductive receiver := handle_rx_byte_wait_start | handle_rx_byte_default | handle_rx_byte_esc.

Inductive hci_slip_evt :=
| HCI_SLIP_RX_RDY (packet : option Z) (packet_length : Z)
| HCI_SLIP_TX_DONE (packet : list Z) (packet_length : Z)
| HCI_SLIP_RX_OVERFLOW (packet : option Z) (packet_length : Z)
| HCI_SLIP_ERROR.

Section Slip.
Context `{Serial}.

(** A receive buffer is named by a number; [rx_mem b i] is its byte [i].  The
    bytes of the transmit buffer are read while it is transmitted and stay
    unchanged until then. *)
Record slip := mk_slip {
  m_current_state : slip_states; m_slip_event_handler : bool;
  mp_tx_buffer : list Z; m_tx_buffer_length : Z; m_tx_buffer_index : Z; send_tx_byte : sender;
  mp_rx_buffer : option Z; m_rx_buffer_length : Z; m_rx_received_count : Z; handle_rx_byte : receiver;
  sl_port : port; rx_mem : Z -> Z -> Z
}.

Definition set_tx (s : slip_states) (buf : list Z) (len idx : Z) (f : sender) (p : port) (st : slip) : slip :=
  mk_slip s (m_slip_event_handler st) buf len idx f (mp_rx_buffer st) (m_rx_buffer_length st)
    (m_rx_received_count st) (handle_rx_byte st) p (rx_mem st).
Definition set_rx (b : option Z) (len count : Z) (f : receiver) (m : Z -> Z -> Z) (st : slip) : slip :=
  mk_slip (m_current_state st) (m_slip_event_handler st) (mp_tx_buffer st) (m_tx_buffer_length st)
    (m_tx_buffer_index st) (send_tx_byte st) b len count f (sl_port st) m.
(** One [serial_put]; [f] and [idx] are the sender and index after it. *)
Definition after_put (p : port) (f : sender) (idx : Z) (st : slip) : slip :=
  set_tx (m_current_state st) (mp_tx_buffer st) (m_tx_buffer_length st) idx f p st.

Definition tx_byte (st : slip) : Z := nthZ (mp_tx_buffer st) (m_tx_buffer_index st).

Definition do_send_tx_byte_end (st : slip) : Z * slip :=
  let '(err, p) := serial_put (sl_port st) APP_SLIP_END in
  (err, after_put p (if (err =? NRF_SUCCESS) && (m_tx_buffer_index st =? 0) then send_tx_byte_default else send_tx_byte st)
          (m_tx_buffer_index st) st).

Definition do_send_tx_byte_default (st : slip) : Z * slip :=
  let '(err, p) := serial_put (sl_port st) (tx_byte st) in
  (err, after_put p (send_tx_byte st) (if err =? NRF_SUCCESS then m_tx_buffer_index st +32 1 else m_tx_buffer_index st)%c st).

Definition do_send_tx_byte_encoded (st : slip) : Z * slip :=
  let '(err, p) :=
    if tx_byte st =? APP_SLIP_END then serial_put (sl_port st) APP_SLIP_ESC_END
    else if tx_byte st =? APP_SLIP_ESC then serial_put (sl_port st) APP_SLIP_ESC_ESC
    else (NRF_ERROR_NO_MEM, sl_port st) in
  if err =? NRF_SUCCESS then (err, after_put p send_tx_byte_default (m_tx_buffer_index st +32 1)%c st)
  else (err, after_put p (send_tx_byte st) (m_tx_buffer_index st) st).

Definition do_send_tx_byte_esc (st : slip) : Z * slip :=
  let '(err, p) := serial_put (sl_port st) APP_SLIP_ESC in
  (err, after_put p (if err =? NRF_SUCCESS then send_tx_byte_encoded else send_tx_byte st) (m_tx_buffer_index st) st).

Definition do_send_tx_byte (st : slip) : Z * slip :=
  match send_tx_byte st with
  | send_tx_byte_default => do_send_tx_byte_default st
  | send_tx_byte_esc => do_send_tx_byte_esc st
  | send_tx_byte_encoded => do_send_tx_byte_encoded st
  | send_tx_byte_end => do_send_tx_byte_end st
  end.

(** The loop of [transmit_buffer]: false when it aborts to wait for room. *)
Fixpoint transmit_loop (fuel : nat) (st : slip) : bool * slip :=
  match fuel with
  | O => (false, st)
  | S fuel =>
    if m_tx_buffer_index st <? m_tx_buffer_length st then
      let st :=
        if ((tx_byte st =? APP_SLIP_END) || (tx_byte st =? APP_SLIP_ESC)) && bool_decide (send_tx_byte st = send_tx_byte_default)
        then after_put (sl_port st) send_tx_byte_esc (m_tx_buffer_index st) st else st in
      let '(err_code, st) := do_send_tx_byte st in
      if (err_code =? NRF_ERROR_NO_MEM) || (err_code =? NRF_ERROR_BUSY) then (false, st)
      else transmit_loop fuel st
    else (true, st)
  end.

(** Each byte takes at most two rounds, and the opening END one more. *)
Definition transmit_fuel (st : slip) : nat := Z.to_nat (2 * (m_tx_buffer_length st - m_tx_buffer_index st) + 2).

Section Handler.
Context {W : Type} (handler : hci_slip_evt -> slip * W -> option (slip * W)).

Definition notify (e : hci_slip_evt) (sw : slip * W) : option (slip * W) :=
  if m_slip_event_handler (fst sw) then handler e sw else Some sw.

Definition transmit_buffer (sw : slip * W) : option (slip * W) :=
  let '(st, w) := sw in
  let '(done, st) := transmit_loop (transmit_fuel st) st in
  if negb done then Some (st, w) else
  let st := after_put (sl_port st) send_tx_byte_end (m_tx_buffer_index st) st in
  let '(err_code, st) := do_send_tx_byte st in
  if err_code =? NRF_SUCCESS then
    let st := set_tx SLIP_READY (mp_tx_buffer st) (m_tx_buffer_length st) (m_tx_buffer_index st) (send_tx_byte st) (sl_port st) st in
    notify (HCI_SLIP_TX_DONE (mp_tx_buffer st) (m_tx_buffer_index st)) (st, w)
  else Some (st, w).

Definition handle_slip_end (sw : slip * W) : option (slip * W) :=
  let '(st, w) := sw in
  if m_rx_received_count st >? 0 then
    if m_slip_event_handler st then
      handler (HCI_SLIP_RX_RDY (mp_rx_buffer st) (m_rx_received_count st))
        (set_rx None (m_rx_buffer_length st) 0 (handle_rx_byte st) (rx_mem st) st, w)
    else Some sw
  else Some sw.

(** [mp_rx_buffer[m_rx_received_count++] = byte]; [None] through a NULL buffer. *)
Definition rx_store (byte : Z) (st : slip) : option slip :=
  match mp_rx_buffer st with
  | Some b =>
    Some (set_rx (Some b) (m_rx_buffer_length st) (m_rx_received_count st +32 1)%c (handle_rx_byte st)
      (fun b' i => if (b' =? b) && (i =? m_rx_received_count st) then byte else rx_mem st b' i) st)
  | None => None
  end.

Definition set_receiver (f : receiver) (st : slip) : slip :=
  set_rx (mp_rx_buffer st) (m_rx_buffer_length st) (m_rx_received_count st) f (rx_mem st) st.

Definition do_handle_rx_byte_esc (byte : Z) (sw : slip * W) : option (slip * W) :=
  '(st, w) ←
    (if byte =? APP_SLIP_END then handle_slip_end sw
     else st ← rx_store (if byte =? APP_SLIP_ESC_END then APP_SLIP_END
                         else if byte =? APP_SLIP_ESC_ESC then APP_SLIP_ESC else byte) (fst sw);
          Some (st, snd sw));
  Some (set_receiver handle_rx_byte_default st, w).

Definition do_handle_rx_byte_default (byte : Z) (sw : slip * W) : option (slip * W) :=
  if byte =? APP_SLIP_END then handle_slip_end sw
  else if byte =? APP_SLIP_ESC then Some (set_receiver handle_rx_byte_esc (fst sw), snd sw)
  else st ← rx_store byte (fst sw); Some (st, snd sw).

Definition do_handle_rx_byte_wait_start (byte : Z) (sw : slip * W) : option (slip * W) :=
  if byte =? APP_SLIP_END then Some (set_receiver handle_rx_byte_default (fst sw), snd sw) else Some sw.

Definition do_handle_rx_byte (byte : Z) (sw : slip * W) : option (slip * W) :=
  match handle_rx_byte (fst sw) with
  | handle_rx_byte_wait_start => do_handle_rx_byte_wait_start byte sw
  | handle_rx_byte_default => do_handle_rx_byte_default byte sw
  | handle_rx_byte_esc => do_handle_rx_byte_esc byte sw
  end.

Definition rx_buffer_overflowed (sw : slip * W) : option (bool * (slip * W)) :=
  let st := fst sw in
  if bool_decide (mp_rx_buffer st = None) || (m_rx_received_count st >=? m_rx_buffer_length st) then
    sw ← notify (HCI_SLIP_RX_OVERFLOW (mp_rx_buffer st) (m_rx_received_count st)) sw; Some (true, sw)
  else Some (false, sw).

(** The UART build handles one byte per interrupt and drops it on overflow. *)
Definition slip_uart_rx (byte : Z) (sw : slip * W) : option (slip * W) :=
  '(over, sw) ← rx_buffer_overflowed sw;
  if (over : bool) then Some sw else do_handle_rx_byte byte sw.
Definition slip_uart_tx_empty (sw : slip * W) : option (slip * W) :=
  if bool_decide (m_current_state (fst sw) = SLIP_TRANSMITTING) then transmit_buffer sw else Some sw.

(** The USB build reads the CDC receive FIFO until it is empty or the buffer is
    full; what it does not read stays in the FIFO. *)
Fixpoint hci_slip_process_pending_rx (fifo : list Z) (sw : slip * W) : option (list Z * (slip * W)) :=
  match fifo with
  | [] => Some ([], sw)
  | ch :: rest =>
    '(over, sw) ← rx_buffer_overflowed sw;
    if (over : bool) then Some (fifo, sw) else
    sw ← do_handle_rx_byte ch sw; hci_slip_process_pending_rx rest sw
  end.

Definition hci_slip_write (p_buffer : option (list Z)) (length : Z) (sw : slip * W) : option (Z * (slip * W)) :=
  match p_buffer with
  | None => Some (NRF_ERROR_INVALID_ADDR, sw)
  | Some buf =>
    match m_current_state (fst sw) with
    | SLIP_READY =>
      sw ← transmit_buffer (set_tx SLIP_TRANSMITTING buf length 0 send_tx_byte_end (sl_port (fst sw)) (fst sw), snd sw);
      Some (NRF_SUCCESS, sw)
    | SLIP_TRANSMITTING => Some (NRF_ERROR_NO_MEM, sw)
    | SLIP_OFF => Some (NRF_ERROR_INVALID_STATE, sw)
    end
  end.
End Handler.

Definition hci_slip_evt_handler_register (event_handler : bool) (st : slip) : Z * slip :=
  (NRF_SUCCESS,
   mk_slip (m_current_state st) event_handler (mp_tx_buffer st) (m_tx_buffer_length st) (m_tx_buffer_index st)
     (send_tx_byte st) (mp_rx_buffer st) (m_rx_buffer_length st) (m_rx_received_count st) (handle_rx_byte st)
     (sl_port st) (rx_mem st)).

Definition set_current_state (s : slip_states) (st : slip) : slip :=
  set_tx s (mp_tx_buffer st) (m_tx_buffer_length st) (m_tx_buffer_index st) (send_tx_byte st) (sl_port st) st.

(** [slip_uart_open] of the USB build always succeeds; [init] is the result of
    [app_uart_init] in the UART build. *)
Definition slip_uart_open (init : Z) (st : slip) : Z * slip :=
  (init, if init =? NRF_SUCCESS then set_current_state SLIP_READY st else st).
Definition hci_slip_open (init : Z) (st : slip) : Z * slip :=
  match m_current_state st with SLIP_OFF => slip_uart_open init st | _ => (NRF_SUCCESS, st) end.
Definition hci_slip_close (close : Z) (st : slip) : Z * slip := (close, set_current_state SLIP_OFF st).

Definition hci_slip_rx_buffer_register (p_buffer : option Z) (length : Z) (st : slip) : Z * slip :=
  (NRF_SUCCESS, set_rx p_buffer length 0 handle_rx_byte_wait_start (rx_mem st) st).

(** * What is sent *)

Definition is_special (c : Z) : bool := (c =? APP_SLIP_END) || (c =? APP_SLIP_ESC).
Definition escape_byte (c : Z) : list Z :=
  if c =? APP_SLIP_END then [APP_SLIP_ESC; APP_SLIP_ESC_END]
  else if c =? APP_SLIP_ESC then [APP_SLIP_ESC; APP_SLIP_ESC_ESC] else [c].
Definition escape (p : list Z) : list Z := concat (escape_byte <$> p).
(** The frame of a packet on the line. *)
Definition slip_frame (p : list Z) : list Z :=
  match p with [] => [APP_SLIP_END] | _ => APP_SLIP_END :: escape p ++ [APP_SLIP_END] end.

(** The payload bytes not yet taken, and the line bytes still to come. *)
Definition tx_data (st : slip) : list Z :=
  sliceZ (mp_tx_buffer st) (m_tx_buffer_index st) (m_tx_buffer_length st - m_tx_buffer_index st).
Definition tx_rem (st : slip) : list Z :=
  match send_tx_byte st with
  | send_tx_byte_default | send_tx_byte_esc => escape (tx_data st) ++ [APP_SLIP_END]
  | send_tx_byte_encoded => tail (escape (tx_data st)) ++ [APP_SLIP_END]
  | send_tx_byte_end =>
    (if m_tx_buffer_index st <? m_tx_buffer_length st then APP_SLIP_END :: escape (tx_data st) else []) ++ [APP_SLIP_END]
  end.

Record tx_wf (st : slip) : Prop := {
  tw_range : 0 <= m_tx_buffer_index st <= m_tx_buffer_length st;
  tw_len : m_tx_buffer_length st <= lenZ (mp_tx_buffer st) /\ m_tx_buffer_length st < 2 ^ 32;
  tw_special : send_tx_byte st = send_tx_byte_esc \/ send_tx_byte st = send_tx_byte_encoded ->
    m_tx_buffer_index st < m_tx_buffer_length st /\ is_special (tx_byte st) = true;
  tw_end : send_tx_byte st = send_tx_byte_end -> m_tx_buffer_index st = 0 \/ m_tx_buffer_index st = m_tx_buffer_length st
}.

(** What sending a byte leaves alone. *)
Definition rest (st : slip) :=
  (m_current_state st, m_slip_event_handler st, mp_tx_buffer st, m_tx_buffer_length st,
   mp_rx_buffer st, m_rx_buffer_length st, m_rx_received_count st, handle_rx_byte st, rx_mem st).

Definition tx_measure (st : slip) : Z :=
  2 * (m_tx_buffer_length st - m_tx_buffer_index st) +
  match send_tx_byte st with send_tx_byte_encoded => -1 | send_tx_byte_end => 1 | _ => 0 end.

Lemma tx_data_cons st : tx_wf st -> m_tx_buffer_index st < m_tx_buffer_length st ->
  tx_data st = tx_byte st :: sliceZ (mp_tx_buffer st) (m_tx_buffer_index st + 1) (m_tx_buffer_length st - (m_tx_buffer_index st + 1)).
Proof.
  intros [Hr Hl _ _] Hi. unfold tx_data, tx_byte.
  replace (m_tx_buffer_length st - m_tx_buffer_index st) with (1 + (m_tx_buffer_length st - (m_tx_buffer_index st + 1))) by lia.
  rewrite sliceZ_split by lia. change (nthZ ?l ?i :: ?k) with ([nthZ l i] ++ k). f_equal.
  unfold sliceZ, nthZ, lenZ in *. change (Z.to_nat 1) with 1%nat.
  destruct (lookup_lt_is_Some_2 (mp_tx_buffer st) (Z.to_nat (m_tx_buffer_index st))) as [x Hx]; [lia|].
  by rewrite (nth_lookup_Some _ _ _ _ Hx), (drop_S _ _ _ Hx).
Qed.

Lemma escape_cons c p : escape (c :: p) = escape_byte c ++ escape p.
Proof. done. Qed.

Lemma escape_plain c : is_special c = false -> escape_byte c = [c].
Proof. unfold is_special, escape_byte. intros [-> ->]%orb_false_elim. done. Qed.

(** The port has refused a byte at some time. *)
Definition refuses : Prop := exists p c, fst (serial_put p c) = NRF_ERROR_NO_MEM.

Lemma serial_put_cases p c : exists p',
  (serial_put p c = (NRF_SUCCESS, p') /\ sent p' = sent p ++ [c]) \/
  ((serial_put p c = (NRF_ERROR_NO_MEM, p') /\ sent p' = sent p) /\ refuses).
Proof.
  pose proof (serial_put_spec p c) as Hp. destruct (serial_put p c) as [e p'] eqn:E. exists p'. cbn in Hp.
  destruct Hp as [[-> ?]|[-> ?]]; [by left|right]. split; [done|]. exists p, c. by rewrite E.
Qed.

Ltac tx_wf_tac :=
  constructor; cbn;
  [lia | tauto | intros [?|?]; first [discriminate | congruence | split; [lia|assumption]] |
   intros; first [discriminate | congruence | lia]].

(** One byte: taken, and the rest of the frame shrinks by it, or refused. *)
Lemma send_step st : tx_wf st -> m_tx_buffer_index st < m_tx_buffer_length st ->
  (send_tx_byte st = send_tx_byte_default -> is_special (tx_byte st) = false) ->
  exists err st', do_send_tx_byte st = (err, st') /\ rest st' = rest st /\ tx_wf st' /\
    sent (sl_port st') ++ tx_rem st' = sent (sl_port st) ++ tx_rem st /\
    ((err = NRF_SUCCESS /\ tx_measure st' < tx_measure st) \/ (err = NRF_ERROR_NO_MEM /\ refuses)).
Proof.
  intros Hwf Hi Hd. pose proof Hwf as [Hr Hl Hs He]. pose proof (tx_data_cons st Hwf Hi) as Hdata.
  assert (u32 (m_tx_buffer_index st + 1) = m_tx_buffer_index st + 1) as Hu by (apply u32_small; lia).
  assert (forall f, escape (tx_data (after_put f send_tx_byte_default (m_tx_buffer_index st + 1) st)) =
    escape (sliceZ (mp_tx_buffer st) (m_tx_buffer_index st + 1) (m_tx_buffer_length st - (m_tx_buffer_index st + 1)))) as Hnext by done.
  unfold do_send_tx_byte. destruct (send_tx_byte st) eqn:Ef.
  - unfold do_send_tx_byte_default. rewrite Ef, Hu.
    destruct (serial_put_cases (sl_port st) (tx_byte st)) as (p' & [(-> & Hp)|((-> & Hp) & Hrf)]); do 2 eexists; (split; [reflexivity|]).
    + split; [done|]. split; [tx_wf_tac|]. split.
      * unfold tx_rem at 1. cbn [send_tx_byte after_put set_tx sl_port]. rewrite Hp.
        unfold tx_rem. rewrite Ef, Hdata, escape_cons, escape_plain by auto. cbn [app]. by rewrite <- app_assoc.
      * left. split; [done|]. unfold tx_measure. cbn. rewrite Ef. lia.
    + split; [done|]. split; [tx_wf_tac|]. split; [|right; split; [done|exact Hrf]].
      unfold tx_rem. cbn. rewrite Hp, Ef. done.
  - unfold do_send_tx_byte_esc. rewrite Ef. destruct Hs as (_ & Hs); [auto|].
    destruct (serial_put_cases (sl_port st) APP_SLIP_ESC) as (p' & [(-> & Hp)|((-> & Hp) & Hrf)]); do 2 eexists; (split; [reflexivity|]).
    + split; [done|]. split; [tx_wf_tac|]. split.
      * unfold tx_rem. cbn [send_tx_byte after_put set_tx sl_port]. rewrite Hp, Ef.
        change (tx_data (after_put _ _ _ _)) with (tx_data st). rewrite Hdata, escape_cons.
        unfold is_special, escape_byte in *. destruct (tx_byte st =? APP_SLIP_END); [cbn; by rewrite <- app_assoc|].
        cbn in Hs. rewrite Hs. cbn. by rewrite <- app_assoc.
      * left. split; [done|]. unfold tx_measure. cbn. rewrite Ef. lia.
    + split; [done|]. split; [tx_wf_tac|]. split; [|right; split; [done|exact Hrf]].
      unfold tx_rem. cbn. rewrite Hp, Ef. done.
  - destruct Hs as (_ & Hs); [auto|]. unfold do_send_tx_byte_encoded. rewrite Ef, Hu.
    assert (exists c, escape_byte (tx_byte st) = [APP_SLIP_ESC; c] /\
      (if tx_byte st =? APP_SLIP_END then serial_put (sl_port st) APP_SLIP_ESC_END
       else if tx_byte st =? APP_SLIP_ESC then serial_put (sl_port st) APP_SLIP_ESC_ESC
       else (NRF_ERROR_NO_MEM, sl_port st)) = serial_put (sl_port st) c) as (c & Hc & ->).
    { unfold is_special, escape_byte in *. destruct (tx_byte st =? APP_SLIP_END); [by eexists|].
      cbn in Hs. rewrite Hs. by eexists. }
    destruct (serial_put_cases (sl_port st) c) as (p' & [(-> & Hp)|((-> & Hp) & Hrf)]); do 2 eexists; (split; [reflexivity|]).
    + split; [done|]. split; [tx_wf_tac|]. split.
      * unfold tx_rem at 1. cbn [send_tx_byte after_put set_tx sl_port]. rewrite Hp.
        unfold tx_rem. rewrite Ef, Hdata, escape_cons, Hc. cbn [app tail]. by rewrite <- app_assoc.
      * left. split; [done|]. unfold tx_measure. cbn. rewrite Ef. lia.
    + split; [done|]. split; [tx_wf_tac|]. split; [|right; split; [done|exact Hrf]].
      unfold tx_rem. cbn. rewrite Hp, Ef. done.
  - unfold do_send_tx_byte_end. rewrite Ef. destruct (He eq_refl) as [H0|H0]; [|lia].
    replace (m_tx_buffer_index st =? 0) with true by (symmetry; by apply Z.eqb_eq).
    destruct (serial_put_cases (sl_port st) APP_SLIP_END) as (p' & [(-> & Hp)|((-> & Hp) & Hrf)]); do 2 eexists; (split; [reflexivity|]).
    + split; [done|]. split; [tx_wf_tac|]. split.
      * unfold tx_rem at 1. cbn [send_tx_byte after_put set_tx sl_port andb Z.eqb NRF_SUCCESS]. rewrite Hp.
        unfold tx_rem. rewrite Ef. replace (_ <? _) with true by (symmetry; by apply Z.ltb_lt). by rewrite <- app_assoc.
      * left. split; [done|]. unfold tx_measure. cbn. rewrite Ef. lia.
    + split; [done|]. split; [tx_wf_tac|]. split; [|right; split; [done|exact Hrf]].
      unfold tx_rem. cbn. rewrite Hp, Ef. done.
Qed.

(** Choosing the escape sender does not change what remains. *)
Lemma escape_choice st : tx_wf st -> m_tx_buffer_index st < m_tx_buffer_length st ->
  exists st',
    (if ((tx_byte st =? APP_SLIP_END) || (tx_byte st =? APP_SLIP_ESC)) && bool_decide (send_tx_byte st = send_tx_byte_default)
     then after_put (sl_port st) send_tx_byte_esc (m_tx_buffer_index st) st else st) = st' /\
    rest st' = rest st /\ tx_wf st' /\ m_tx_buffer_index st' = m_tx_buffer_index st /\
    sent (sl_port st') ++ tx_rem st' = sent (sl_port st) ++ tx_rem st /\ tx_measure st' = tx_measure st /\
    (send_tx_byte st' = send_tx_byte_default -> is_special (tx_byte st') = false).
Proof.
  intros Hwf Hi. pose proof Hwf as [Hr Hl Hs He]. fold (is_special (tx_byte st)).
  destruct (is_special (tx_byte st)) eqn:Es; cbn [andb]; [|by exists st].
  case_bool_decide as Ed; [|exists st; split_and!; try done].
  eexists. split; [reflexivity|]. split; [done|]. split; [tx_wf_tac|].
  split; [done|]. unfold tx_rem, tx_measure. cbn. rewrite Ed. done.
Qed.

Lemma rest_length st st' : rest st' = rest st ->
  m_tx_buffer_length st' = m_tx_buffer_length st /\ mp_tx_buffer st' = mp_tx_buffer st /\ m_current_state st' = m_current_state st.
Proof. unfold rest. intros [= ? ? ? ? ?]. done. Qed.

Lemma transmit_loop_spec fuel : forall st, tx_wf st -> tx_measure st < Z.of_nat fuel ->
  exists done st', transmit_loop fuel st = (done, st') /\ rest st' = rest st /\ tx_wf st' /\
    sent (sl_port st') ++ tx_rem st' = sent (sl_port st) ++ tx_rem st /\
    (done = true -> m_tx_buffer_index st' = m_tx_buffer_length st') /\ (done = false -> refuses).
Proof.
  induction fuel as [|fuel IH]; intros st Hwf Hm.
  { pose proof Hwf as [Hr _ _ _]. unfold tx_measure in Hm. destruct (send_tx_byte st) eqn:E; try lia.
    destruct (tw_special st Hwf); [auto|]. lia. }
  cbn [transmit_loop]. destruct (Z.ltb_spec (m_tx_buffer_index st) (m_tx_buffer_length st)) as [Hi|Hi].
  2: { exists true, st. split_and!; try done. destruct Hwf. lia. }
  destruct (escape_choice st Hwf Hi) as (st1 & -> & Hrest1 & Hwf1 & Hi1 & Hs1 & Hm1 & Hd1).
  destruct (rest_length _ _ Hrest1) as (Hl1 & _).
  destruct (send_step st1 Hwf1) as (err & st2 & -> & Hrest2 & Hwf2 & Hs2 & Herr); [lia|done|].
  destruct Herr as [(-> & Hm2)|(-> & Hrf)].
  - cbn [orb Z.eqb NRF_SUCCESS NRF_ERROR_NO_MEM NRF_ERROR_BUSY].
    destruct (IH st2) as (d & st3 & -> & Hrest3 & Hwf3 & Hs3 & Hd3 & Hf3); [done|lia|].
    exists d, st3. split_and!; try done; congruence.
  - exists false, st2. split_and!; try done; congruence.
Qed.

(** [transmit_buffer] sends everything that remains and reports it, or is
    suspended by a refusal. *)
Lemma transmit_buffer_spec {W} (handler : hci_slip_evt -> slip * W -> option (slip * W)) st w : tx_wf st ->
  (exists st', transmit_buffer handler (st, w) = Some (st', w) /\ rest st' = rest st /\ tx_wf st' /\
     sent (sl_port st') ++ tx_rem st' = sent (sl_port st) ++ tx_rem st /\ refuses) \/
  (exists st', transmit_buffer handler (st, w) =
       notify handler (HCI_SLIP_TX_DONE (mp_tx_buffer st) (m_tx_buffer_length st)) (st', w) /\
     rest st' = rest (set_current_state SLIP_READY st) /\
     sent (sl_port st') = sent (sl_port st) ++ tx_rem st).
Proof.
  intros Hwf. unfold transmit_buffer. destruct (transmit_loop_spec (transmit_fuel st) st Hwf) as (d & st1 & -> & Hr1 & Hwf1 & Hs1 & Hd1 & Hf1).
  { pose proof Hwf as [Hr _ _ _]. unfold transmit_fuel, tx_measure. destruct (send_tx_byte st); lia. }
  destruct d; cbn [negb]; [|left; exists st1; split_and!; auto]. specialize (Hd1 eq_refl).
  set (st2 := after_put (sl_port st1) send_tx_byte_end (m_tx_buffer_index st1) st1).
  assert (tx_rem st1 = [APP_SLIP_END]) as Hrem1.
  { unfold tx_rem. assert (escape (tx_data st1) = []) as Hnil.
    { unfold tx_data. by rewrite Hd1, Z.sub_diag, sliceZ_nil. }
    pose proof (tw_special st1 Hwf1) as Hsp. rewrite Hnil.
    destruct (send_tx_byte st1); [done| | |]; [destruct Hsp; [auto|lia].. |].
    replace (_ <? _) with false by (symmetry; apply Z.ltb_ge; lia). done. }
  destruct (rest_length _ _ Hr1) as (Hl1 & Hb1 & _).
  change (do_send_tx_byte st2) with (do_send_tx_byte_end st2). unfold do_send_tx_byte_end.
  destruct (serial_put_cases (sl_port st2) APP_SLIP_END) as (p' & [(-> & Hp)|((-> & Hp) & Hrf)]).
  - right. eexists. split; [|split].
    + cbn [Z.eqb NRF_SUCCESS andb]. cbn -[notify]. rewrite Hb1, Hd1, Hl1. reflexivity.
    + unfold rest in *. cbn. injection Hr1 as ? ? ? ? ? ? ? ? ?. congruence.
    + cbn. rewrite Hp, <- Hs1, Hrem1. done.
  - left. eexists. split; [reflexivity|]. split; [done|]. split_and!; [| |exact Hrf].
    + pose proof Hwf1 as [Hr _ _ _]. destruct Hwf1. constructor; cbn; [lia|tauto|intros [?|?]; discriminate|intros _; by right].
    + unfold tx_rem at 1. cbn. rewrite Hp, <- Hs1, Hrem1. replace (_ <? _) with false by (symmetry; apply Z.ltb_ge; lia). done.
Qed.

(** * What is received *)

Section Receive.
Context {W : Type} (handler : hci_slip_evt -> slip * W -> option (slip * W)).

Fixpoint slip_uart_rx_all (bytes : list Z) (sw : slip * W) : option (slip * W) :=
  match bytes with [] => Some sw | c :: bytes => sw ← slip_uart_rx handler c sw; slip_uart_rx_all bytes sw end.

(** The bytes are taken one by one, none of them on a full buffer. *)
Fixpoint feeds (bytes : list Z) (sw sw' : slip * W) : Prop :=
  match bytes with
  | [] => sw' = sw
  | c :: bytes => rx_buffer_overflowed handler sw = Some (false, sw) /\
                  exists sw1, do_handle_rx_byte handler c sw = Some sw1 /\ feeds bytes sw1 sw'
  end.

Lemma feeds_app k l sw sw1 sw2 : feeds k sw sw1 -> feeds l sw1 sw2 -> feeds (k ++ l) sw sw2.
Proof.
  revert sw. induction k as [|c k IH]; intros sw; cbn; [by intros ->|].
  intros (Ho & sw' & E & Hf) Hl. split; [done|]. exists sw'. split; [done|]. by apply IH.
Qed.

Lemma feeds_pending bytes more sw sw' : feeds bytes sw sw' ->
  hci_slip_process_pending_rx handler (bytes ++ more) sw = hci_slip_process_pending_rx handler more sw' /\
  slip_uart_rx_all (bytes ++ more) sw = slip_uart_rx_all more sw'.
Proof.
  revert sw. induction bytes as [|c bytes IH]; intros sw; cbn; [by intros ->|].
  intros (Ho & sw1 & E & Hf). unfold slip_uart_rx. rewrite Ho. cbn [mbind option_bind]. rewrite E. cbn [mbind option_bind]. by apply IH.
Qed.

Lemma no_overflow st w b : mp_rx_buffer st = Some b -> m_rx_received_count st < m_rx_buffer_length st ->
  rx_buffer_overflowed handler (st, w) = Some (false, (st, w)).
Proof.
  intros Hb Hc. unfold rx_buffer_overflowed. cbn [fst]. rewrite Hb. cbn [bool_decide_false].
  rewrite bool_decide_false, Z.geb_leb by done. replace (_ <=? _) with false by (symmetry; apply Z.leb_gt; lia). done.
Qed.

(** What receiving leaves alone. *)
Definition tx_part (st : slip) :=
  (m_current_state st, m_slip_event_handler st, mp_tx_buffer st, m_tx_buffer_length st, m_tx_buffer_index st,
   send_tx_byte st, sl_port st).

(** [q] is decoded so far into buffer [b] of [len] bytes. *)
Record receiving (st0 st : slip) (b len : Z) (q : list Z) : Prop := {
  rc_buffer : mp_rx_buffer st = Some b;
  rc_length : m_rx_buffer_length st = len;
  rc_count : m_rx_received_count st = lenZ q;
  rc_default : handle_rx_byte st = handle_rx_byte_default;
  rc_tx : tx_part st = tx_part st0;
  rc_mem b' i : rx_mem st b' i = if (b' =? b) && (0 <=? i) && (i <? lenZ q) then nthZ q i else rx_mem st0 b' i
}.

Lemma nthZ_snoc (q : list Z) c : nthZ (q ++ [c]) (lenZ q) = c.
Proof. rewrite nthZ_app_r by lia. by rewrite Z.sub_diag. Qed.

Lemma rx_store_receiving st0 st b len q c : receiving st0 st b len q -> lenZ q < len -> len < 2 ^ 32 ->
  exists st', rx_store c st = Some st' /\ receiving st0 st' b len (q ++ [c]).
Proof.
  intros [Hb Hl Hc Hd Ht Hm] Hq H32. unfold rx_store. rewrite Hb. eexists. split; [reflexivity|].
  assert (0 <= lenZ q) as Hq0 by (unfold lenZ; lia).
  assert (lenZ (q ++ [c]) = lenZ q + 1) as Hlen by (rewrite lenZ_app; done).
  constructor; cbn; try done; [rewrite Hc, Hlen; apply u32_small; lia|].
  intros b' i. rewrite Hm, Hc, Hlen. destruct (Z.eqb_spec b' b); cbn [andb]; [|done].
  destruct (Z.eqb_spec i (lenZ q)) as [->|Hi].
  - replace (0 <=? lenZ q) with true by (symmetry; apply Z.leb_le; lia).
    replace (lenZ q <? lenZ q + 1) with true by (symmetry; apply Z.ltb_lt; lia). by rewrite nthZ_snoc.
  - destruct (Z.leb_spec 0 i); cbn [andb]; [|done].
    destruct (Z.ltb_spec i (lenZ q)), (Z.ltb_spec i (lenZ q + 1)); try lia. by rewrite nthZ_app_l by lia.
Qed.

Lemma receiving_set st0 st b len q : receiving st0 st b len q ->
  receiving st0 (set_receiver handle_rx_byte_default (set_receiver handle_rx_byte_esc st)) b len q.
Proof. intros []. by constructor. Qed.

(** One payload byte, escaped or not. *)
Lemma feed_escaped st0 st w b len q c : receiving st0 st b len q -> lenZ q < len -> len < 2 ^ 32 ->
  exists st', feeds (escape_byte c) (st, w) (st', w) /\ receiving st0 st' b len (q ++ [c]).
Proof.
  intros R Hq H32. pose proof R as [Hb Hl Hc Hd Ht Hm].
  assert (forall s, mp_rx_buffer s = Some b -> m_rx_received_count s = lenZ q -> m_rx_buffer_length s = len ->
    rx_buffer_overflowed handler (s, w) = Some (false, (s, w))) as Ho by (intros; eapply no_overflow; [done|lia]).
  assert (forall s x, feeds [APP_SLIP_ESC; x] (st, w) s <-> exists s1,
     do_handle_rx_byte_esc handler x (set_receiver handle_rx_byte_esc st, w) = Some s1 /\ s = s1) as Hesc.
  { intros s x. cbn [feeds]. split.
    - intros (_ & s1 & E1 & _ & s2 & E2 & ->). unfold do_handle_rx_byte in E1. cbn in E1. rewrite Hd in E1.
      injection E1 as <-. by exists s2.
    - intros (s1 & E & ->). split; [by apply Ho|]. eexists. split; [unfold do_handle_rx_byte; cbn; rewrite Hd; reflexivity|].
      split; [by apply Ho|]. by exists s1. }
  destruct (rx_store_receiving st0 (set_receiver handle_rx_byte_default (set_receiver handle_rx_byte_esc st)) b len q c)
    as (st' & E & R'); [by apply receiving_set|done|done|].
  assert (exists st1, rx_store c (set_receiver handle_rx_byte_esc st) = Some st1 /\ set_receiver handle_rx_byte_default st1 = st') as (st1 & E1 & Est').
  { unfold rx_store in *. cbn in *. rewrite Hb in *. injection E as <-. by eexists. }
  unfold escape_byte. destruct (Z.eqb_spec c APP_SLIP_END) as [->|Hn1]; [|destruct (Z.eqb_spec c APP_SLIP_ESC) as [->|Hn2]].
  - exists st'. split; [|done]. apply Hesc. eexists. split; [|reflexivity]. unfold do_handle_rx_byte_esc. cbn [Z.eqb APP_SLIP_ESC_END APP_SLIP_END Pos.eqb fst snd].
    cbn [set_receiver] in E1. rewrite E1. cbn. by rewrite Est'.
  - exists st'. split; [|done]. apply Hesc. eexists. split; [|reflexivity]. unfold do_handle_rx_byte_esc. cbn [Z.eqb APP_SLIP_ESC_ESC APP_SLIP_ESC_END APP_SLIP_END Pos.eqb fst snd].
    cbn [set_receiver] in E1. rewrite E1. cbn. by rewrite Est'.
  - destruct (rx_store_receiving st0 st b len q c R Hq H32) as (st2 & E2 & R2). exists st2. split; [|done].
    cbn [feeds]. split; [by apply Ho|]. eexists. split; [|reflexivity].
    unfold do_handle_rx_byte, do_handle_rx_byte_default. cbn [fst snd]. rewrite Hd.
    replace (c =? APP_SLIP_END) with false by (symmetry; by apply Z.eqb_neq).
    replace (c =? APP_SLIP_ESC) with false by (symmetry; by apply Z.eqb_neq). by rewrite E2.
Qed.

Lemma feed_payload p : forall st0 st w b len q, receiving st0 st b len q -> lenZ q + lenZ p <= len -> len < 2 ^ 32 ->
  exists st', feeds (escape p) (st, w) (st', w) /\ receiving st0 st' b len (q ++ p).
Proof.
  induction p as [|c p IH]; intros st0 st w b len q R Hq H32.
  - exists st. rewrite app_nil_r. done.
  - rewrite lenZ_cons in Hq. assert (0 <= lenZ p) by (unfold lenZ; lia).
    destruct (feed_escaped st0 st w b len q c R) as (st1 & F1 & R1); [lia|done|].
    destruct (IH st0 st1 w b len (q ++ [c])) as (st2 & F2 & R2); [done|rewrite lenZ_app; change (lenZ [c]) with 1; lia|done|].
    exists st2. rewrite escape_cons, <- app_assoc in *. split; [|done]. by eapply feeds_app.
Qed.

(** A whole frame: up to the closing END the bytes are stored; the closing END
    hands the buffer up. *)
Lemma feed_frame st w b p : p <> [] -> mp_rx_buffer st = Some b -> m_rx_received_count st = 0 ->
  handle_rx_byte st <> handle_rx_byte_esc -> lenZ p < m_rx_buffer_length st < 2 ^ 32 ->
  exists st1 pre, slip_frame p = pre ++ [APP_SLIP_END] /\ feeds pre (st, w) (st1, w) /\
    receiving st st1 b (m_rx_buffer_length st) p /\
    rx_buffer_overflowed handler (st1, w) = Some (false, (st1, w)) /\
    do_handle_rx_byte handler APP_SLIP_END (st1, w) =
      notify handler (HCI_SLIP_RX_RDY (Some b) (lenZ p))
        ((if m_slip_event_handler st then set_rx None (m_rx_buffer_length st) 0 handle_rx_byte_default (rx_mem st1) st1 else st1), w).
Proof.
  intros Hp Hb Hc Hh [Hl H32].
  assert (receiving st (set_receiver handle_rx_byte_default st) b (m_rx_buffer_length st) []) as R0.
  { constructor; cbn; try done. intros b' i. change (lenZ []) with 0.
    destruct (b' =? b), (Z.leb_spec 0 i), (Z.ltb_spec i 0); done || lia. }
  assert (0 <= lenZ p) as Hp0 by (unfold lenZ; lia).
  assert (feeds [APP_SLIP_END] (st, w) (set_receiver handle_rx_byte_default st, w)) as F0.
  { cbn [feeds]. split; [eapply no_overflow; [done|lia]|]. eexists. split; [|reflexivity].
    unfold do_handle_rx_byte. cbn [fst snd]. destruct (handle_rx_byte st) eqn:Eh; [done| |done].
    unfold do_handle_rx_byte_default, handle_slip_end. cbn [Z.eqb APP_SLIP_END Pos.eqb]. rewrite Hc. cbn.
    unfold set_receiver, set_rx. destruct st; cbn in *. by subst. }
  destruct (feed_payload p st _ w b _ [] R0) as (st1 & F1 & R1); [change (lenZ []) with 0; lia|done|]. cbn [app] in R1.
  exists st1, (APP_SLIP_END :: escape p). split; [by destruct p|]. split; [by eapply (feeds_app [_])|]. split; [done|].
  pose proof R1 as [Rb Rl Rc Rd Rt Rm]. split; [eapply no_overflow; [done|lia]|].
  unfold do_handle_rx_byte, do_handle_rx_byte_default, handle_slip_end, notify. cbn [fst snd]. rewrite Rd.
  cbn [Z.eqb APP_SLIP_END Pos.eqb]. rewrite Rc, Rb, Rl.
  replace (lenZ p >? 0) with true by (symmetry; rewrite Z.gtb_ltb; apply Z.ltb_lt; destruct p; [done|unfold lenZ; cbn; lia]).
  unfold tx_part in Rt. injection Rt as _ Et _ _ _ _ _. rewrite Et. destruct (m_slip_event_handler st) eqn:Ee; cbn; by rewrite ?Ee, ?Et.
Qed.
End Receive.

(** * The transmitter *)

(** An upper layer that records what it is told. *)
Definition log_handler (e : hci_slip_evt) (sw : slip * list hci_slip_evt) : option (slip * list hci_slip_evt) :=
  Some (fst sw, snd sw ++ [e]).
Fixpoint tx_empty_events (n : nat) (sw : slip * list hci_slip_evt) : option (slip * list hci_slip_evt) :=
  match n with O => Some sw | S n => sw ← slip_uart_tx_empty log_handler sw; tx_empty_events n sw end.

Definition sent_frame (st : slip) (sw : slip * list hci_slip_evt) (frame : list Z) (e : hci_slip_evt) : Prop :=
  sw.2 = [e] /\ m_current_state sw.1 = SLIP_READY /\ sent (sl_port sw.1) = sent (sl_port st) ++ frame.
Definition sending_frame (st : slip) (sw : slip * list hci_slip_evt) (frame : list Z) : Prop :=
  sw.2 = [] /\ m_current_state sw.1 = SLIP_TRANSMITTING /\ tx_wf sw.1 /\
  sent (sl_port sw.1) ++ tx_rem sw.1 = sent (sl_port st) ++ frame /\ refuses.

Lemma tx_rem_start st buf len p :
  0 <= len -> len <= lenZ buf -> tx_rem (set_tx SLIP_TRANSMITTING buf len 0 send_tx_byte_end p st) = slip_frame (sliceZ buf 0 len).
Proof.
  intros H0 Hl. unfold tx_rem, tx_data. cbn [send_tx_byte set_tx m_tx_buffer_index m_tx_buffer_length mp_tx_buffer]. rewrite Z.sub_0_r.
  pose proof (lenZ_sliceZ buf 0 len ltac:(lia) H0 Hl) as Hlen.
  destruct (Z.ltb_spec 0 len); destruct (sliceZ buf 0 len) as [|c q] eqn:E; try done.
  - change (lenZ []) with 0 in Hlen. lia.
  - rewrite lenZ_cons in Hlen. unfold lenZ in Hlen. lia.
Qed.

(** One round of transmission towards [frame]. *)
Lemma transmit_outcome st0 st frame e : tx_wf st -> m_slip_event_handler st = true ->
  m_current_state st = SLIP_TRANSMITTING ->
  sent (sl_port st) ++ tx_rem st = sent (sl_port st0) ++ frame -> e = HCI_SLIP_TX_DONE (mp_tx_buffer st) (m_tx_buffer_length st) ->
  exists sw, transmit_buffer log_handler (st, []) = Some sw /\
    mp_tx_buffer sw.1 = mp_tx_buffer st /\ m_tx_buffer_length sw.1 = m_tx_buffer_length st /\ m_slip_event_handler sw.1 = true /\
    (sent_frame st0 sw frame e \/ sending_frame st0 sw frame).
Proof.
  intros Hwf Hh Hs Hf ->. destruct (transmit_buffer_spec log_handler st [] Hwf) as
    [(st' & E & Hr & Hwf' & Hs' & Href)|(st' & E & Hr & Hs')].
  - exists (st', []). unfold rest in Hr. injection Hr as R1 R2 R3 R4 R5 R6 R7 R8 R9.
    split; [exact E|]. cbn [fst]. split_and!; [done|done|by rewrite R2|]. right. split_and!; cbn; try done; congruence.
  - unfold rest in Hr. cbn in Hr. injection Hr as R1 R2 R3 R4 R5 R6 R7 R8 R9.
    unfold notify in E. cbn [fst] in E. rewrite R2, Hh in E. eexists. split; [exact E|].
    cbn. split_and!; [done|done|by rewrite R2|]. left. split_and!; cbn; [done|done|congruence].
Qed.

Lemma write_outcome st buf len : m_current_state st = SLIP_READY -> m_slip_event_handler st = true ->
  0 <= len -> len <= lenZ buf -> len < 2 ^ 32 ->
  exists sw, hci_slip_write log_handler (Some buf) len (st, []) = Some (NRF_SUCCESS, sw) /\
    mp_tx_buffer sw.1 = buf /\ m_tx_buffer_length sw.1 = len /\ m_slip_event_handler sw.1 = true /\
    (sent_frame st sw (slip_frame (sliceZ buf 0 len)) (HCI_SLIP_TX_DONE buf len) \/
     sending_frame st sw (slip_frame (sliceZ buf 0 len))).
Proof.
  intros Hs Hh H0 Hl H32. unfold hci_slip_write. cbn [fst snd]. rewrite Hs.
  set (st1 := set_tx SLIP_TRANSMITTING buf len 0 send_tx_byte_end (sl_port st) st).
  destruct (transmit_outcome st st1 (slip_frame (sliceZ buf 0 len)) (HCI_SLIP_TX_DONE buf len)) as (sw & E & R); try done.
  - constructor; cbn; [lia|done|intros [?|?]; discriminate|intros _; by left].
  - f_equal. by apply tx_rem_start.
  - exists sw. rewrite E. done.
Qed.

Lemma resumes_outcome n : forall st sw frame buf len, mp_tx_buffer sw.1 = buf -> m_tx_buffer_length sw.1 = len ->
  m_slip_event_handler sw.1 = true ->
  sent_frame st sw frame (HCI_SLIP_TX_DONE buf len) \/ sending_frame st sw frame ->
  exists sw', tx_empty_events n sw = Some sw' /\
    (sent_frame st sw' frame (HCI_SLIP_TX_DONE buf len) \/ sending_frame st sw' frame).
Proof.
  induction n as [|n IH]; intros st sw frame buf len Hb Hl Hh Hcase; [by eauto|]. cbn [tx_empty_events].
  unfold slip_uart_tx_empty. destruct sw as [s w]. destruct Hcase as [(E1 & E2 & E3)|(E1 & E2 & E3 & E4 & E5)]; cbn [fst snd] in *.
  - rewrite E2, bool_decide_false by done. cbn [mbind option_bind]. apply IH; try done. by left.
  - rewrite E2, bool_decide_true by done. subst w.
    destruct (transmit_outcome st s frame (HCI_SLIP_TX_DONE buf len)) as (sw' & E & H1 & H2 & H3 & Hout); try done; [congruence|].
    rewrite E. cbn [mbind option_bind]. apply IH; try done; congruence.
Qed.

(** C27: what is written arrives. A packet that [hci_slip_write] accepts leaves
    the serial port as one SLIP frame, whatever the port refuses meanwhile and
    however often transmission is resumed: what has been taken is always a prefix
    of the frame, completion is reported exactly when all of it is out, and a port
    that refuses nothing takes it in one go. A receiver with a large enough buffer
    that reads the frame from its FIFO hands up exactly the packet, whatever
    follows in the FIFO. *)
Theorem slip_roundtrip st buf len n :
  m_current_state st = SLIP_READY -> m_slip_event_handler st = true ->
  0 < len -> len <= lenZ buf -> len < 2 ^ 32 ->
  let frame := slip_frame (sliceZ buf 0 len) in
  (exists sw sw', hci_slip_write log_handler (Some buf) len (st, []) = Some (NRF_SUCCESS, sw) /\
     tx_empty_events n sw = Some sw' /\
     ((sw'.2 = [HCI_SLIP_TX_DONE buf len] /\ m_current_state sw'.1 = SLIP_READY /\ sent (sl_port sw'.1) = sent (sl_port st) ++ frame) \/
      (sw'.2 = [] /\ m_current_state sw'.1 = SLIP_TRANSMITTING /\ refuses /\
       exists more, sent (sl_port sw'.1) ++ more = sent (sl_port st) ++ frame))) /\
  forall (W : Type) (handler : hci_slip_evt -> slip * W -> option (slip * W)) rx w b more,
    mp_rx_buffer rx = Some b -> m_rx_received_count rx = 0 -> handle_rx_byte rx <> handle_rx_byte_esc ->
    m_slip_event_handler rx = true -> len < m_rx_buffer_length rx < 2 ^ 32 ->
    exists rx', (forall i, 0 <= i < len -> rx_mem rx' b i = nthZ buf i) /\
      (forall b' i, b' <> b \/ i < 0 \/ len <= i -> rx_mem rx' b' i = rx_mem rx b' i) /\
      tx_part rx' = tx_part rx /\ mp_rx_buffer rx' = None /\
      hci_slip_process_pending_rx handler (frame ++ more) (rx, w) =
        (sw ← handler (HCI_SLIP_RX_RDY (Some b) len) (rx', w); hci_slip_process_pending_rx handler more sw).
Proof.
  intros Hs Hh H0 Hl H32 frame. pose proof (lenZ_sliceZ buf 0 len ltac:(lia) ltac:(lia) Hl) as Hlen. split.
  - destruct (write_outcome st buf len) as (sw & E & Hb & Hn & Hh' & Hout); [done|done|lia|done|done|].
    destruct (resumes_outcome n st sw frame buf len) as (sw' & E' & Hout'); [done..|].
    exists sw, sw'. split; [done|]. split; [done|].
    destruct Hout' as [?|(E1 & E2 & E3 & E4 & E5)]; [by left|right]. split_and!; try done. by eexists.
  - intros W handler rx w b more Rb Rc Rd Re Rl.
    destruct (feed_frame handler rx w b (sliceZ buf 0 len)) as (st1 & pre & Ef & Hf & R & Ho & Hend); try done.
    { intros E. rewrite E in Hlen. change (lenZ []) with 0 in Hlen. lia. }
    { by rewrite Hlen. }
    rewrite Re, Hlen in Hend. eexists. split; [|split; [|split; [|split; [|]]]].
    5: { subst frame. rewrite Ef, <- app_assoc. rewrite (proj1 (feeds_pending handler _ _ _ _ Hf)). cbn [app hci_slip_process_pending_rx].
         rewrite Ho. cbn [mbind option_bind]. rewrite Hend. unfold notify. cbn [fst m_slip_event_handler set_rx].
         destruct R as [_ _ _ _ Rt _]. unfold tx_part in Rt. injection Rt as _ Et _ _ _ _ _. rewrite Et, Re. reflexivity. }
    + intros i Hi. cbn. rewrite (rc_mem _ _ _ _ _ R), Hlen, Z.eqb_refl.
      replace (0 <=? i) with true by (symmetry; apply Z.leb_le; lia).
      replace (i <? len) with true by (symmetry; apply Z.ltb_lt; lia). cbn. by rewrite nthZ_sliceZ by lia.
    + intros b' i Hi. cbn. rewrite (rc_mem _ _ _ _ _ R), Hlen.
      destruct (Z.eqb_spec b' b), (Z.leb_spec 0 i), (Z.ltb_spec i len); done || lia.
    + exact (rc_tx _ _ _ _ _ R).
    + done.
Qed.

(** * Where received bytes go *)

Section Bounds.
Context {W : Type} (handler : hci_slip_evt -> slip * W -> option (slip * W)).
(** The bytes the upper layer has given away, and the memory elsewhere. *)
Context (allowed : Z -> Z -> Prop) (m0 : Z -> Z -> Z).

Record rx_inv (st : slip) : Prop := {
  ri_count : 0 <= m_rx_received_count st;
  ri_length : m_rx_buffer_length st < 2 ^ 32;
  ri_buffer b i : mp_rx_buffer st = Some b -> 0 <= i < m_rx_buffer_length st -> allowed b i;
  ri_mem b i : ~ allowed b i -> rx_mem st b i = m0 b i
}.
Hypothesis handler_inv : forall e sw sw', rx_inv (fst sw) -> handler e sw = Some sw' -> rx_inv (fst sw').

Lemma notify_inv e sw sw' : rx_inv (fst sw) -> notify handler e sw = Some sw' -> rx_inv (fst sw').
Proof. intros Hi. unfold notify. destruct (m_slip_event_handler (fst sw)); [by apply handler_inv|]. by intros [= <-]. Qed.

Lemma overflow_inv sw over sw' : rx_inv (fst sw) -> rx_buffer_overflowed handler sw = Some (over, sw') ->
  rx_inv (fst sw') /\ (over = false -> sw' = sw /\ m_rx_received_count (fst sw) < m_rx_buffer_length (fst sw)).
Proof.
  intros Hi. unfold rx_buffer_overflowed. rewrite Z.geb_leb.
  destruct (bool_decide _ || _) eqn:E; cbn [mbind option_bind].
  - destruct (notify handler _ sw) as [sw1|] eqn:En; [|done]. intros [= <- <-]. split; [by eapply notify_inv|done].
  - intros [= <- <-]. apply orb_false_elim in E as [_ E]. by apply Z.leb_gt in E.
Qed.

Lemma store_inv st c st' : rx_inv st -> m_rx_received_count st < m_rx_buffer_length st -> rx_store c st = Some st' -> rx_inv st'.
Proof.
  intros [I1 I2 I3 I4] Hlt. unfold rx_store. destruct (mp_rx_buffer st) as [b|] eqn:Eb; [|done].
  intros [= <-]. constructor; cbn; [apply u32_range|done|intros b0 i [= <-]; by apply I3|].
  intros b' i Hna. rewrite <- I4 by done.
  destruct (Z.eqb_spec b' b) as [->|], (Z.eqb_spec i (m_rx_received_count st)) as [->|]; try done.
  destruct Hna. apply I3; [done|lia].
Qed.

Lemma slip_end_inv sw sw' : rx_inv (fst sw) -> handle_slip_end handler sw = Some sw' -> rx_inv (fst sw').
Proof.
  destruct sw as [st w]. intros Hi. unfold handle_slip_end. destruct (_ >? 0); [|by intros [= <-]].
  destruct (m_slip_event_handler st); [|by intros [= <-]]. apply handler_inv. destruct Hi. by constructor.
Qed.

Lemma receiver_inv f st : rx_inv st -> rx_inv (set_receiver f st).
Proof. intros []. by constructor. Qed.

Lemma byte_inv c sw sw' : rx_inv (fst sw) -> m_rx_received_count (fst sw) < m_rx_buffer_length (fst sw) ->
  do_handle_rx_byte handler c sw = Some sw' -> rx_inv (fst sw').
Proof.
  intros Hi Hlt. unfold do_handle_rx_byte. destruct (handle_rx_byte (fst sw)).
  - unfold do_handle_rx_byte_wait_start. destruct (c =? _); intros [= <-]; by try apply receiver_inv.
  - unfold do_handle_rx_byte_default. destruct (c =? _); [by apply slip_end_inv|].
    destruct (c =? _); [intros [= <-]; by apply receiver_inv|].
    destruct (rx_store c (fst sw)) eqn:E; [|done]. intros [= <-]. by eapply store_inv.
  - unfold do_handle_rx_byte_esc. destruct (c =? _).
    + destruct (handle_slip_end handler sw) as [[st w]|] eqn:E; [|done]. intros [= <-].
      apply slip_end_inv in E; [by apply receiver_inv|done].
    + destruct (rx_store _ (fst sw)) eqn:E; [|done]. intros [= <-]. apply receiver_inv. by eapply store_inv.
Qed.
End Bounds.

(** C40: received bytes never leave the registered buffer. Let [allowed] be the
    bytes the upper layer has given away. As long as its handler only registers
    allowed buffers and writes nothing else, then whatever arrives on the line, and
    however the framing is broken, [hci_slip_process_pending_rx] and the UART
    handler change no byte outside [allowed]. *)
Theorem rx_stays_in_buffer {W} (handler : hci_slip_evt -> slip * W -> option (slip * W)) (allowed : Z -> Z -> Prop) m0 :
  (forall e sw sw', rx_inv allowed m0 (fst sw) -> handler e sw = Some sw' -> rx_inv allowed m0 (fst sw')) ->
  forall bytes sw, rx_inv allowed m0 (fst sw) ->
  (forall rest sw', hci_slip_process_pending_rx handler bytes sw = Some (rest, sw') -> rx_inv allowed m0 (fst sw')) /\
  (forall sw', slip_uart_rx_all handler bytes sw = Some sw' -> rx_inv allowed m0 (fst sw')).
Proof.
  intros Hh. induction bytes as [|c bytes IH]; intros sw Hi; [split; [by intros ? ? [= _ <-]|by intros ? [= <-]]|].
  cbn [hci_slip_process_pending_rx slip_uart_rx_all]. unfold slip_uart_rx.
  destruct (rx_buffer_overflowed handler sw) as [[over sw1]|] eqn:E; [|done]. cbn [mbind option_bind].
  destruct (overflow_inv handler allowed m0 Hh _ _ _ Hi E) as (Hi1 & Hf). destruct over.
  - split; [by intros ? ? [= _ <-]|]. cbn [mbind option_bind]. by apply IH.
  - destruct (Hf eq_refl) as (-> & Hlt). destruct (do_handle_rx_byte handler c sw) as [sw2|] eqn:E2; [|done].
    cbn [mbind option_bind]. apply IH. by eapply byte_inv.
Qed.
End Slip.

(** * A concrete line *)

(** A port with a schedule: [false] refuses the next byte, an exhausted schedule
    takes everything. *)
Definition demo_put (p : list Z * list bool) (c : Z) : Z * (list Z * list bool) :=
  match p.2 with
  | false :: rest => (NRF_ERROR_NO_MEM, (p.1, rest))
  | _ :: rest => (NRF_SUCCESS, (p.1 ++ [c], rest))
  | [] => (NRF_SUCCESS, (p.1 ++ [c], []))
  end.
#[local] Program Instance demo_serial : Serial := {
  port := list Z * list bool; serial_put := demo_put; sent := fst
}.
Next Obligation. intros [l [|[] r]] c; cbn; [by left|by left|by right]. Qed.

Definition demo_slip (schedule : list bool) : slip :=
  mk_slip SLIP_READY true [] 0 0 send_tx_byte_default (Some 3) 10 0 handle_rx_byte_wait_start ([], schedule) (fun _ _ => 0).

Lemma slip_roundtrip_witness :
  exists sw, hci_slip_write log_handler (Some [1; 0xC0; 2]) 3 (demo_slip [true; true; true; false; true; false], []) = Some (NRF_SUCCESS, sw) /\
  sent (sl_port sw.1) = [0xC0; 1; 0xDB] /\
  (exists sw', tx_empty_events 2 sw = Some sw' /\ sent (sl_port sw'.1) = [0xC0; 1; 0xDB; 0xDC; 2; 0xC0]) /\
  exists rx', rx_mem rx' 3 1 = 0xC0 /\ hci_slip_process_pending_rx log_handler ([0xC0; 1; 0xDB; 0xDC; 2; 0xC0] ++ []) (demo_slip [], []) =
    Some ([], (rx', [HCI_SLIP_RX_RDY (Some 3) 3])).
Proof.
  destruct (slip_roundtrip (demo_slip [true; true; true; false; true; false]) [1; 0xC0; 2] 3 2) as ((sw & sw' & E & E' & Hout) & Hrx);
    [done|done|lia|done|done|].
  exists sw. split; [done|].
  assert (sent (sl_port sw.1) = [0xC0; 1; 0xDB] /\ sent (sl_port sw'.1) = [0xC0; 1; 0xDB; 0xDC; 2; 0xC0]) as (E1 & E2).
  { vm_compute in E. injection E as <-. vm_compute in E'. by injection E' as <-. }
  split; [done|]. split; [by exists sw'|].
  destruct (Hrx _ log_handler (demo_slip []) [] 3 []) as (rx' & Hm & _ & _ & _ & Hp); [done..|].
  exists rx'. split; [by apply (Hm 1)|]. exact Hp.
Defined.

(** An upper layer that registers the same ten bytes again after every event. *)
Definition demo_reregister (e : hci_slip_evt) (sw : slip * unit) : option (slip * unit) :=
  Some (snd (hci_slip_rx_buffer_register (Some 3) 10 (fst sw)), snd sw).

Lemma rx_stays_in_buffer_witness :
  exists rest sw', hci_slip_process_pending_rx demo_reregister (0xC0 :: replicate 30 7) (demo_slip [], tt) = Some (rest, sw') /\
    rx_mem (fst sw') 3 9 = 7 /\ rx_mem (fst sw') 3 10 = 0.
Proof.
  destruct (rx_stays_in_buffer demo_reregister (fun b i => b = 3 /\ 0 <= i < 10) (fun _ _ => 0)) with
    (bytes := 0xC0 :: replicate 30 7) (sw := (demo_slip [], tt)) as (Hp & _).
  - intros e [st w] sw' [I1 I2 I3 I4] [= <-]. constructor; cbn; [lia|lia| |done]. intros b i [= <-] Hi. done.
  - constructor; cbn; [lia|lia| |done]. intros b i [= <-] Hi. done.
  - assert (match hci_slip_process_pending_rx demo_reregister (0xC0 :: replicate 30 7) (demo_slip [], tt) with
            | Some r => rx_mem (fst (snd r)) 3 9 =? 7 | None => false end = true) as Hv by by vm_compute.
    destruct (hci_slip_process_pending_rx demo_reregister (0xC0 :: replicate 30 7) (demo_slip [], tt)) as [[rest sw']|] eqn:E; [|done].
    exists rest, sw'. split; [done|]. split; [by apply Z.eqb_eq|]. apply (ri_mem _ _ _ (Hp _ _ eq_refl)). lia.
Defined.
