(* ===== verification/HciTransport.v ===== *)
(** The reliable packet layer of the serial transport: [hci_transport.c], over
    [hci_slip.c] and [hci_mem_pool.c].  It acknowledges valid packets, delivers
    each sequence number once and retransmits its own packets.  The statics of the
    file are the record [transport]; [upper] is the state of the layer above. *)
From S2P Require Import Prelude Crc DfuTypes Nvm MemPool Slip.

Definition PKT_HDR_SIZE : Z := 4.
Definition PKT_CRC_SIZE : Z := 2.
Definition PKT_TYPE_VENDOR_SPECIFIC : Z := 14.
Definition PKT_TYPE_ACK : Z := 0.
Definition DATA_INTEGRITY_MASK : Z := 0x40.
Definition RELIABLE_PKT_MASK : Z := 0x80.
Definition INITIAL_ACK_NUMBER_EXPECTED : Z := 1.
Definition INITIAL_ACK_NUMBER_TX : Z := INITIAL_ACK_NUMBER_EXPECTED.
Definition INVALID_PKT_TYPE : Z := 0xFFFFFFFF.
Definition MAX_RETRY_COUNT : Z := 5.
Definition ACK_BUF_SIZE : Z := 5.
(** The receive buffer [m_rx_ack_buffer], named behind the pool's buffers. *)
Definition m_rx_ack_buffer : Z := 16.

Inductive tx_state_t := TX_STATE_IDLE | TX_STATE_PENDING | TX_STATE_ACTIVE.
Inductive tx_event_t := TX_EVENT_STATE_ENTRY | TX_EVENT_SLIP_TX_DONE | TX_EVENT_TIMEOUT | TX_EVENT_VALID_RX_ACK.

Definition is_rx_pkt_valid (p_buffer : list Z) (length : Z) : bool :=
  if length <? PKT_HDR_SIZE + PKT_CRC_SIZE then false else
  if Z.land (nthZ p_buffer 0) DATA_INTEGRITY_MASK =? 0 then false else
  if Z.land (nthZ p_buffer 0) RELIABLE_PKT_MASK =? 0 then false else
  if negb (Z.land (nthZ p_buffer 1) 0x0F =? PKT_TYPE_VENDOR_SPECIFIC) then false else
  let expected_checksum :=
    Z.land (nthZ p_buffer 0 + nthZ p_buffer 1 + nthZ p_buffer 2 + nthZ p_buffer 3) 0xFF in
  if negb (expected_checksum =? 0) then false else
  let payload_length := Z.shiftr (le16 (nthZ p_buffer 1) (nthZ p_buffer 2)) 4 in
  if (payload_length <? 4) || negb (payload_length =? length - PKT_HDR_SIZE - PKT_CRC_SIZE) then false else
  let crc_calculated := crc16_compute (sliceZ p_buffer 0 (length - PKT_CRC_SIZE)) None in
  let crc_received := read_le16 (sliceZ p_buffer (length - PKT_CRC_SIZE) PKT_CRC_SIZE) in
  crc_calculated =? crc_received.

Definition header_checksum_calculate (p_hdr : list Z) : Z :=
  u8 (~32 (Z.land (nthZ p_hdr 0 + nthZ p_hdr 1 + nthZ p_hdr 2) 0xFF) +32 1)%c.

Definition packet_seq_nmbr_extract (p_buffer : list Z) : Z := Z.land (nthZ p_buffer 0) 0x07.

Definition packet_type_decode (p_buffer : list Z) (length : Z) : Z :=
  if length >=? PKT_HDR_SIZE then Z.land (nthZ p_buffer 1) 0x0F else INVALID_PKT_TYPE.

Section Transport.
Context `{Serial} {U : Type}.

Record transport := mk_transport {
  m_tx_state : tx_state_t;
  m_transport_tx_done_handle : bool; m_transport_event_handle : bool;
  mp_slip_used_rx_buffer : option Z;
  m_packet_expected_seq_number : Z; m_packet_transmit_seq_number : Z;
  hci_tx_buffer : list Z; hci_tx_buffer_length : Z;
  m_is_slip_decode_ready : bool; m_tx_retry_counter : Z;
  m_tx_done_result_code : bool; (* true for HCI_TRANSPORT_TX_DONE_SUCCESS *)
  mem_pool : pool; upper : U
}.
Definition world : Type := slip * transport.

(** Field updates. *)
Definition set_tx_state (s : tx_state_t) (t : transport) : transport :=
  mk_transport s (m_transport_tx_done_handle t) (m_transport_event_handle t) (mp_slip_used_rx_buffer t)
    (m_packet_expected_seq_number t) (m_packet_transmit_seq_number t) (hci_tx_buffer t) (hci_tx_buffer_length t)
    (m_is_slip_decode_ready t) (m_tx_retry_counter t) (m_tx_done_result_code t) (mem_pool t) (upper t).
Definition set_handles (done event : bool) (t : transport) : transport :=
  mk_transport (m_tx_state t) done event (mp_slip_used_rx_buffer t)
    (m_packet_expected_seq_number t) (m_packet_transmit_seq_number t) (hci_tx_buffer t) (hci_tx_buffer_length t)
    (m_is_slip_decode_ready t) (m_tx_retry_counter t) (m_tx_done_result_code t) (mem_pool t) (upper t).
Definition set_seq (expected transmit : Z) (t : transport) : transport :=
  mk_transport (m_tx_state t) (m_transport_tx_done_handle t) (m_transport_event_handle t) (mp_slip_used_rx_buffer t)
    expected transmit (hci_tx_buffer t) (hci_tx_buffer_length t)
    (m_is_slip_decode_ready t) (m_tx_retry_counter t) (m_tx_done_result_code t) (mem_pool t) (upper t).
Definition set_tx_buffer (buf : list Z) (len : Z) (t : transport) : transport :=
  mk_transport (m_tx_state t) (m_transport_tx_done_handle t) (m_transport_event_handle t) (mp_slip_used_rx_buffer t)
    (m_packet_expected_seq_number t) (m_packet_transmit_seq_number t) buf len
    (m_is_slip_decode_ready t) (m_tx_retry_counter t) (m_tx_done_result_code t) (mem_pool t) (upper t).
Definition set_retry (n : Z) (done : bool) (t : transport) : transport :=
  mk_transport (m_tx_state t) (m_transport_tx_done_handle t) (m_transport_event_handle t) (mp_slip_used_rx_buffer t)
    (m_packet_expected_seq_number t) (m_packet_transmit_seq_number t) (hci_tx_buffer t) (hci_tx_buffer_length t)
    (m_is_slip_decode_ready t) n done (mem_pool t) (upper t).
Definition set_rx_side (ready : bool) (b : option Z) (q : pool) (t : transport) : transport :=
  mk_transport (m_tx_state t) (m_transport_tx_done_handle t) (m_transport_event_handle t) b
    (m_packet_expected_seq_number t) (m_packet_transmit_seq_number t) (hci_tx_buffer t) (hci_tx_buffer_length t)
    ready (m_tx_retry_counter t) (m_tx_done_result_code t) q (upper t).
Definition set_upper (u : U) (t : transport) : transport :=
  mk_transport (m_tx_state t) (m_transport_tx_done_handle t) (m_transport_event_handle t) (mp_slip_used_rx_buffer t)
    (m_packet_expected_seq_number t) (m_packet_transmit_seq_number t) (hci_tx_buffer t) (hci_tx_buffer_length t)
    (m_is_slip_decode_ready t) (m_tx_retry_counter t) (m_tx_done_result_code t) (mem_pool t) u.

(** The callbacks registered by the layer above, and the results of the timer
    module's calls. *)
Context (event_handle : world -> option world) (tx_done_handle : bool -> world -> option world).
Context (app_timer_create app_timer_start app_timer_stop : world -> Z).

Definition APP_ERROR_CHECK (err : Z) : option unit := if err =? NRF_SUCCESS then Some tt else None.

Definition packet_number_expected_get (t : transport) : Z := u8 (m_packet_expected_seq_number t).
Definition packet_number_expected_inc (t : transport) : transport :=
  set_seq (Z.land (m_packet_expected_seq_number t +32 1)%c 0x07) (m_packet_transmit_seq_number t) t.
Definition packet_number_to_transmit_get (t : transport) : Z := u8 (m_packet_transmit_seq_number t).
Definition expected_ack_number_get (t : transport) : Z := Z.land (u8 (packet_number_to_transmit_get t + 1)) 0x07.
Definition packet_number_tx_inc (t : transport) : transport :=
  set_seq (m_packet_expected_seq_number t) (Z.land (m_packet_transmit_seq_number t +32 1)%c 0x07) t.

Definition ack_packet (expected : Z) : list Z :=
  let hdr := [u8 (Z.shiftl expected 3); 0; 0] in hdr ++ [header_checksum_calculate hdr].

(** The bytes of a receive buffer. *)
Definition packet_bytes (st : slip) (b : option Z) (length : Z) : list Z :=
  match b with Some b => (fun i => rx_mem st b i) <$> seqZ 0 length | None => [] end.

Definition rx_ack_pkt_type_handle (p_buffer : list Z) (t : transport) : bool :=
  let expected_checksum :=
    Z.land (nthZ p_buffer 0 + nthZ p_buffer 1 + nthZ p_buffer 2 + nthZ p_buffer 3) 0xFF in
  if negb (expected_checksum =? 0) then false else
  let ack_number := Z.land (Z.shiftr (nthZ p_buffer 0) 3) 0x07 in
  ack_number =? expected_ack_number_get t.

Section Handlers.
(** The handler SLIP calls, which is [slip_event_handle] itself. *)
Context (slip_handler : hci_slip_evt -> world -> option world).

Definition ack_transmit (w : world) : option world :=
  let p := ack_packet (packet_number_expected_get (snd w)) in
  '(_, w) ← hci_slip_write slip_handler (Some p) PKT_HDR_SIZE w; Some w.

Definition slip_register (b : option Z) (length : Z) (w : world) : option world :=
  let '(err_code, st) := hci_slip_rx_buffer_register b length (fst w) in
  _ ← APP_ERROR_CHECK err_code; Some (st, snd w).

(** Take a fresh pool buffer for SLIP, or the acknowledgement buffer. *)
Definition produce_and_register (ready : bool) (w : world) : option world :=
  let '(err_code, b, q) := hci_mem_pool_rx_produce true HCI_RX_BUF_SIZE (mem_pool (snd w)) in
  let w := (fst w, set_rx_side ready b q (snd w)) in
  if (err_code =? NRF_SUCCESS) || (err_code =? NRF_ERROR_NO_MEM) then
    if err_code =? NRF_SUCCESS then slip_register b HCI_RX_BUF_SIZE w
    else slip_register (Some m_rx_ack_buffer) ACK_BUF_SIZE w
  else None.

Definition rx_vendor_specific_pkt_type_handle (p_buffer : list Z) (length : Z) (w : world) : option world :=
  if is_rx_pkt_valid p_buffer length then
    let rx_seq_number := packet_seq_nmbr_extract p_buffer in
    if packet_number_expected_get (snd w) =? rx_seq_number then
      w ← ack_transmit (fst w, packet_number_expected_inc (snd w));
      let '(err_code, q) := hci_mem_pool_rx_data_size_set length (mem_pool (snd w)) in
      let w := (fst w, set_rx_side true (mp_slip_used_rx_buffer (snd w)) q (snd w)) in
      _ ← APP_ERROR_CHECK err_code;
      w ← produce_and_register true w;
      if m_transport_event_handle (snd w) then event_handle w else Some w
    else
      w ← slip_register (mp_slip_used_rx_buffer (snd w)) HCI_RX_BUF_SIZE w;
      ack_transmit w
  else slip_register (mp_slip_used_rx_buffer (snd w)) HCI_RX_BUF_SIZE w.

(** [tx_sm_state_change]: the state and its entry action. *)
Definition tx_sm_state_change (new_state : tx_state_t) (w : world) : option world :=
  let w := (fst w, set_tx_state new_state (snd w)) in
  match new_state with
  | TX_STATE_IDLE =>
    _ ← APP_ERROR_CHECK (app_timer_stop w);
    if m_transport_tx_done_handle (snd w) then tx_done_handle (m_tx_done_result_code (snd w)) w else Some w
  | TX_STATE_PENDING => Some w
  | TX_STATE_ACTIVE =>
    let w := (fst w, set_retry 0 (m_tx_done_result_code (snd w)) (snd w)) in
    _ ← APP_ERROR_CHECK (app_timer_start w); Some w
  end.

Definition write_tx_buffer (w : world) : option (Z * world) :=
  hci_slip_write slip_handler (Some (hci_tx_buffer (snd w))) (hci_tx_buffer_length (snd w) +32 PKT_HDR_SIZE +32 PKT_CRC_SIZE)%c w.

Definition tx_sm_event_handle (event : tx_event_t) (w : world) : option world :=
  match m_tx_state (snd w), event with
  | TX_STATE_PENDING, TX_EVENT_SLIP_TX_DONE =>
    '(err_code, w) ← write_tx_buffer w;
    _ ← APP_ERROR_CHECK err_code;
    tx_sm_state_change TX_STATE_ACTIVE w
  | TX_STATE_ACTIVE, TX_EVENT_VALID_RX_ACK =>
    tx_sm_state_change TX_STATE_IDLE (fst w, packet_number_tx_inc (snd w))
  | TX_STATE_ACTIVE, TX_EVENT_TIMEOUT =>
    if negb (m_tx_retry_counter (snd w) =? MAX_RETRY_COUNT) then
      '(_, w) ← write_tx_buffer (fst w, set_retry (m_tx_retry_counter (snd w) +32 1)%c (m_tx_done_result_code (snd w)) (snd w));
      Some w
    else tx_sm_state_change TX_STATE_IDLE (fst w, set_retry (m_tx_retry_counter (snd w)) false (snd w))
  | _, TX_EVENT_STATE_ENTRY => tx_sm_state_change (m_tx_state (snd w)) w
  | _, _ => Some w
  end.

(** The [default] of the packet type switch: drop the packet, keep a buffer. *)
Definition rx_pkt_dropped (w : world) : option world :=
  match mp_slip_used_rx_buffer (snd w) with
  | Some b => slip_register (Some b) HCI_RX_BUF_SIZE w
  | None => produce_and_register (m_is_slip_decode_ready (snd w)) w
  end.

Definition slip_event (event : hci_slip_evt) (w : world) : option world :=
  match event with
  | HCI_SLIP_TX_DONE _ _ => tx_sm_event_handle TX_EVENT_SLIP_TX_DONE w
  | HCI_SLIP_RX_RDY packet packet_length =>
    let p := packet_bytes (fst w) packet packet_length in
    let return_code := packet_type_decode p packet_length in
    if return_code =? PKT_TYPE_VENDOR_SPECIFIC then rx_vendor_specific_pkt_type_handle p packet_length w
    else if return_code =? PKT_TYPE_ACK then
      w ← (if rx_ack_pkt_type_handle p (snd w)
           then tx_sm_event_handle TX_EVENT_VALID_RX_ACK
                  (fst w, set_retry (m_tx_retry_counter (snd w)) true (snd w))
           else Some w);
      rx_pkt_dropped w
    else rx_pkt_dropped w
  | HCI_SLIP_RX_OVERFLOW _ _ => slip_register (Some m_rx_ack_buffer) ACK_BUF_SIZE w
  | HCI_SLIP_ERROR => None
  end.
End Handlers.

(** [slip_event_handle], calling itself through SLIP: each level of [depth] is
    one nested event. *)
Fixpoint slip_event_handle (depth : nat) (event : hci_slip_evt) (w : world) : option world :=
  match depth with O => None | S depth => slip_event (slip_event_handle depth) event w end.

(** An event sent for an acknowledgement ends one level down. *)
Definition EVENT_DEPTH : nat := 2.

Definition hci_transport_evt_handler_reg (event_handler : bool) (w : world) : option (Z * world) :=
  let '(err_code, st) := hci_slip_evt_handler_register true (fst w) in
  _ ← APP_ERROR_CHECK err_code;
  Some (if event_handler then NRF_SUCCESS else NRF_ERROR_NULL,
        (st, set_handles (m_transport_tx_done_handle (snd w)) event_handler (snd w))).

Definition hci_transport_tx_done_register (event_handler : bool) (w : world) : option (Z * world) :=
  let '(err_code, st) := hci_slip_evt_handler_register true (fst w) in
  _ ← APP_ERROR_CHECK err_code;
  Some (if event_handler then NRF_SUCCESS else NRF_ERROR_NULL,
        (st, set_handles event_handler (m_transport_event_handle (snd w)) (snd w))).

Definition hci_transport_timeout_handle (w : world) : option world :=
  tx_sm_event_handle (slip_event_handle EVENT_DEPTH) TX_EVENT_TIMEOUT w.

(** [uart_init] is the result of opening the port. *)
Definition hci_transport_open (uart_init : Z) (w : world) : Z * world :=
  let '(st, t) := w in
  let t := mk_transport TX_STATE_IDLE (m_transport_tx_done_handle t) (m_transport_event_handle t) (mp_slip_used_rx_buffer t)
    INITIAL_ACK_NUMBER_EXPECTED INITIAL_ACK_NUMBER_TX [] 0 false 0 false (mem_pool t) (upper t) in
  if negb (app_timer_create (st, t) =? NRF_SUCCESS) then (NRF_ERROR_INTERNAL, (st, t)) else
  let '(err_code, q) := hci_mem_pool_open (mem_pool t) in
  let t := set_rx_side false (mp_slip_used_rx_buffer t) q t in
  if negb (err_code =? NRF_SUCCESS) then (err_code, (st, t)) else
  let '(err_code, st) := hci_slip_open uart_init st in
  if negb (err_code =? NRF_SUCCESS) then (err_code, (st, t)) else
  let '(err_code, b, q) := hci_mem_pool_rx_produce true HCI_RX_BUF_SIZE (mem_pool t) in
  let t := set_rx_side false b q t in
  if negb (err_code =? NRF_SUCCESS) then (NRF_ERROR_INTERNAL, (st, t)) else
  let '(err_code, st) := hci_slip_rx_buffer_register b HCI_RX_BUF_SIZE st in (err_code, (st, t)).

Definition hci_transport_close (uart_close : Z) (w : world) : option (Z * world) :=
  let t := set_handles false false (snd w) in
  let '(err_code, q) := hci_mem_pool_close (mem_pool t) in
  _ ← APP_ERROR_CHECK err_code;
  let '(err_code, st) := hci_slip_close uart_close (fst w) in
  _ ← APP_ERROR_CHECK err_code;
  let w := (st, set_rx_side (m_is_slip_decode_ready t) (mp_slip_used_rx_buffer t) q t) in
  if negb (app_timer_stop w =? NRF_ERROR_NO_MEM) then Some (NRF_SUCCESS, w) else None.

Definition hci_transport_tx_alloc (pp : bool) (t : transport) : Z * bool * transport :=
  let '(err_code, b, q) := hci_mem_pool_tx_alloc pp (mem_pool t) in
  (err_code, b, set_rx_side (m_is_slip_decode_ready t) (mp_slip_used_rx_buffer t) q t).
Definition hci_transport_tx_free (t : transport) : Z * transport :=
  let '(err_code, q) := hci_mem_pool_tx_free (mem_pool t) in
  (err_code, set_rx_side (m_is_slip_decode_ready t) (mp_slip_used_rx_buffer t) q t).

Definition tx_packet_byte_zero_construct (t : transport) : Z :=
  u8 (Z.lor (Z.lor (Z.lor DATA_INTEGRITY_MASK RELIABLE_PKT_MASK) (Z.shiftl (packet_number_expected_get t) 3))
        (packet_number_to_transmit_get t)).

(** The packet around a payload: header, payload, CRC. *)
Definition build_packet (byte0 : Z) (payload : list Z) (length : Z) : list Z :=
  let fields := u16 (Z.lor (Z.shiftl length 4) PKT_TYPE_VENDOR_SPECIFIC) in
  let hdr := byte0 :: bytes16 fields in
  let p := hdr ++ [header_checksum_calculate hdr] ++ payload in
  p ++ bytes16 (crc16_compute p None).

Definition pkt_write_handle (payload : list Z) (w : world) : option (Z * world) :=
  let t := snd w in
  let p := build_packet (tx_packet_byte_zero_construct t) payload (hci_tx_buffer_length t) in
  '(err_code, w) ← write_tx_buffer (slip_event_handle EVENT_DEPTH) (fst w, set_tx_buffer p (hci_tx_buffer_length t) t);
  if err_code =? NRF_SUCCESS then w ← tx_sm_state_change TX_STATE_ACTIVE w; Some (err_code, w)
  else if err_code =? NRF_ERROR_NO_MEM then w ← tx_sm_state_change TX_STATE_PENDING w; Some (NRF_SUCCESS, w)
  else Some (err_code, w).

Definition hci_transport_pkt_write (p_buffer : option (list Z)) (length : Z) (w : world) : option (Z * world) :=
  match p_buffer with
  | Some payload =>
    match m_tx_state (snd w) with
    | TX_STATE_IDLE => pkt_write_handle payload (fst w, set_tx_buffer (hci_tx_buffer (snd w)) length (snd w))
    | _ => Some (NRF_ERROR_NO_MEM, w)
    end
  | None => Some (NRF_ERROR_NULL, w)
  end.

(** The extracted buffer, with the pointer already advanced past the header, and
    the payload length. *)
Definition hci_transport_rx_pkt_extract (t : transport) : Z * option Z * Z * transport :=
  if m_is_slip_decode_ready t then
    let '(err_code, bl, q) := hci_mem_pool_rx_extract true (mem_pool t) in
    let length := match bl with Some (_, l) => l | None => 0 end in
    (err_code, fst <$> bl, u16 (length -32 (PKT_HDR_SIZE + PKT_CRC_SIZE))%c, set_rx_side false (mp_slip_used_rx_buffer t) q t)
  else (NRF_ERROR_NO_MEM, None, 0, t).

Definition hci_transport_rx_pkt_consume (b : option Z) (t : transport) : Z * transport :=
  let '(err_code, q) := hci_mem_pool_rx_consume b (mem_pool t) in
  (err_code, set_rx_side (m_is_slip_decode_ready t) (mp_slip_used_rx_buffer t) q t).

(** * Acknowledging *)

(** What transmitting leaves alone. *)
Definition rx_part (st : slip) :=
  (m_slip_event_handler st, mp_rx_buffer st, m_rx_buffer_length st, m_rx_received_count st, handle_rx_byte st, rx_mem st).

Lemma tx_done_ignored d w buf n : m_tx_state (snd w) <> TX_STATE_PENDING ->
  notify (slip_event_handle (S d)) (HCI_SLIP_TX_DONE buf n) w = Some w.
Proof.
  intros Hs. unfold notify. destruct (m_slip_event_handler (fst w)); [|done].
  cbn [slip_event_handle slip_event]. unfold tx_sm_event_handle. by destruct (m_tx_state (snd w)).
Qed.

(** An acknowledgement goes out in full, or is cut off by a refusal, or is not
    started because SLIP is busy or off; reception goes on either way. *)
Lemma ack_transmit_spec d w : m_tx_state (snd w) <> TX_STATE_PENDING ->
  exists st', ack_transmit (slip_event_handle (S d)) w = Some (st', snd w) /\ rx_part st' = rx_part (fst w) /\
    ((m_current_state (fst w) = SLIP_READY /\ m_current_state st' = SLIP_READY /\
        sent (sl_port st') = sent (sl_port (fst w)) ++ slip_frame (ack_packet (packet_number_expected_get (snd w)))) \/
     (m_current_state (fst w) = SLIP_READY /\ m_current_state st' = SLIP_TRANSMITTING /\ refuses /\
        exists more, sent (sl_port st') ++ more =
          sent (sl_port (fst w)) ++ slip_frame (ack_packet (packet_number_expected_get (snd w)))) \/
     (m_current_state (fst w) <> SLIP_READY /\ st' = fst w)).
Proof.
  intros Hs. destruct w as [st t]. cbn [fst snd] in *. unfold ack_transmit, hci_slip_write. cbn [fst snd].
  set (p := ack_packet (packet_number_expected_get t)).
  destruct (m_current_state st) eqn:Est; cbn [mbind option_bind].
  - exists st. split; [done|]. split; [done|]. by right; right.
  - set (st1 := set_tx SLIP_TRANSMITTING p PKT_HDR_SIZE 0 send_tx_byte_end (sl_port st) st).
    assert (tx_wf st1) as Hwf.
    { constructor; cbn; [unfold PKT_HDR_SIZE; lia|done|intros [?|?]; discriminate|intros _; by left]. }
    assert (tx_rem st1 = slip_frame p) as Hrem.
    { subst st1. rewrite tx_rem_start by done. f_equal. }
    destruct (transmit_buffer_spec (slip_event_handle (S d)) st1 t Hwf) as
      [(st' & E & Hr & _ & Hs' & Href)|(st' & E & Hr & Hs')]; unfold rest in Hr; cbn in Hr;
      injection Hr as R1 R2 R3 R4 R5 R6 R7 R8 R9; rewrite E; cbn [mbind option_bind].
    + exists st'. split; [done|]. split; [unfold rx_part; congruence|]. right; left. split_and!; try done.
      exists (tx_rem st'). by rewrite Hs', Hrem.
    + rewrite tx_done_ignored by done. cbn [mbind option_bind]. exists st'. split; [done|].
      split; [unfold rx_part; congruence|]. left. split_and!; [done|done|]. by rewrite Hs', Hrem.
  - exists st. split; [done|]. split; [done|]. by right; right.
Qed.
End Transport.

(** * Exactly-once delivery *)

(** The pool while SLIP listens: one buffer filled-to-be, none extracted. *)
Definition pool_listening (q : pool) (b : Z) : Prop := pool_at q [] b.

Lemma pool_round q b n : pool_listening q b ->
  exists q1 b' q2 q3 q4,
    hci_mem_pool_rx_data_size_set n q = (NRF_SUCCESS, q1) /\
    hci_mem_pool_rx_produce true HCI_RX_BUF_SIZE q1 = (NRF_SUCCESS, Some b', q2) /\
    hci_mem_pool_rx_extract true q2 = (NRF_SUCCESS, Some (b, n), q3) /\
    hci_mem_pool_rx_consume (Some b) q3 = (NRF_SUCCESS, q4) /\ pool_listening q4 b'.
Proof.
  intros Hp. destruct (pool_arrival q [] b n Hp) as (q1 & b' & q2 & q3 & Q1 & Q2 & Q3 & Hp3); [done|].
  destruct (pool_release q3 b [] b' Hp3) as (q4 & Q4 & Hp4). by exists q1, b', q2, q3, q4.
Qed.

(** The receiver's contract: what one packet changes. *)
Definition accepts (e : Z) (p : list Z) : bool := is_rx_pkt_valid p (lenZ p) && (packet_seq_nmbr_extract p =? e).
Definition next_expected (e : Z) (p : list Z) : Z := if accepts e p then (e + 1) mod 8 else e.
Definition payload_of (p : list Z) : list Z := sliceZ p PKT_HDR_SIZE (lenZ p - (PKT_HDR_SIZE + PKT_CRC_SIZE)).
Definition acks_of (e : Z) (p : list Z) : list Z :=
  if is_rx_pkt_valid p (lenZ p) then slip_frame (ack_packet (next_expected e p)) else [].

Fixpoint deliveries (e : Z) (ps : list (list Z)) : list (list Z) :=
  match ps with
  | [] => []
  | p :: ps => (if accepts e p then [payload_of p] else []) ++ deliveries (next_expected e p) ps
  end.
Fixpoint acknowledgements (e : Z) (ps : list (list Z)) : list Z :=
  match ps with [] => [] | p :: ps => acks_of e p ++ acknowledgements (next_expected e p) ps end.

(** Memory [m] holds the bytes [p] at the start of buffer [b]. *)
Definition buffer_holds (m : Z -> Z -> Z) (b : Z) (p : list Z) : Prop :=
  forall k n, 0 <= k -> 0 <= n -> k + n <= lenZ p -> (fun i => m b (k + i)) <$> seqZ 0 n = sliceZ p k n.

(** What the transport asks of the layer above. [ready a b q m u]: in the
    abstract state [a] of that layer, with [b] the buffer SLIP writes into, [q]
    the pool, [m] the memory of the buffers and [u] the layer's state. Only a
    change of [b] may touch the memory; and a payload the layer can take leaves
    the pool able to hand out a next buffer, and the layer ready again after its
    handler has run. *)
Class Client `{Serial} (U A : Type) (event_handle : @world _ U -> option (@world _ U)) := {
  ready : A -> Z -> pool -> (Z -> Z -> Z) -> U -> Prop;
  take_payload : list Z -> A -> option A;
  ready_mem a b q m m' u : ready a b q m u -> (forall b' i, b' <> b -> m' b' i = m b' i) -> ready a b q m' u;
  ready_step a a' b q m u p : ready a b q m u -> 10 <= lenZ p < HCI_RX_BUF_SIZE -> buffer_holds m b p ->
    take_payload (payload_of p) a = Some a' ->
    exists q1 b' q2, hci_mem_pool_rx_data_size_set (lenZ p) q = (NRF_SUCCESS, q1) /\
      hci_mem_pool_rx_produce true HCI_RX_BUF_SIZE q1 = (NRF_SUCCESS, Some b', q2) /\
      forall st t, rx_mem st = m -> mem_pool t = q2 -> upper t = u -> m_is_slip_decode_ready t = true ->
        mp_slip_used_rx_buffer t = Some b' ->
        exists q' u', event_handle (st, t) = Some (st, set_upper u' (set_rx_side false (Some b') q' t)) /\ ready a' b' q' m u'
}.

Section Delivery.
Context `{Serial} {U A : Type} {event_handle : @world _ U -> option (@world _ U)} {C : Client U A event_handle}.
Abbreviation hworld := (@world _ U).
Context (tx_done_handle : bool -> hworld -> option (hworld)).
Context (timer_start timer_stop : hworld -> Z).
Abbreviation handler := (slip_event_handle event_handle tx_done_handle timer_start timer_stop EVENT_DEPTH).

Fixpoint take_payloads (ps : list (list Z)) (a : A) : option A :=
  match ps with [] => Some a | p :: ps => a ← take_payload p a; take_payloads ps a end.

(** SLIP listens on a pool buffer; [e] is the next sequence number. *)
Record listening_to (a : A) (e : Z) (w : hworld) : Prop := {
  ls_handler : m_slip_event_handler (fst w) = true;
  ls_buffer : exists b, mp_rx_buffer (fst w) = Some b /\ mp_slip_used_rx_buffer (snd w) = Some b /\
                ready a b (mem_pool (snd w)) (rx_mem (fst w)) (upper (snd w));
  ls_length : m_rx_buffer_length (fst w) = HCI_RX_BUF_SIZE;
  ls_count : m_rx_received_count (fst w) = 0;
  ls_receiver : handle_rx_byte (fst w) <> handle_rx_byte_esc;
  ls_idle : m_tx_state (snd w) = TX_STATE_IDLE;
  ls_event : m_transport_event_handle (snd w) = true;
  ls_expected : m_packet_expected_seq_number (snd w) = e /\ 0 <= e < 8
}.

Lemma valid_vendor p : is_rx_pkt_valid p (lenZ p) = true ->
  packet_type_decode p (lenZ p) = PKT_TYPE_VENDOR_SPECIFIC /\ 10 <= lenZ p.
Proof.
  unfold is_rx_pkt_valid, packet_type_decode, PKT_HDR_SIZE, PKT_CRC_SIZE. intros Hv.
  destruct (Z.ltb_spec (lenZ p) (4 + 2)); [done|]. rewrite Z.geb_leb. replace (4 <=? lenZ p) with true by (symmetry; apply Z.leb_le; lia).
  destruct (_ =? 0); [done|]. destruct (_ =? 0); [done|].
  destruct (Z.eqb_spec (Z.land (nthZ p 1) 0x0F) PKT_TYPE_VENDOR_SPECIFIC); cbn [negb] in Hv; [|done]. split; [done|].
  cbn zeta in Hv. destruct (negb _); [done|]. destruct (_ || _) eqn:E; [done|]. apply orb_false_elim in E as [E1 E2].
  apply Z.ltb_ge in E1. apply negb_false_iff, Z.eqb_eq in E2. lia.
Qed.

Lemma nthZ_fmap_seqZ (f : Z -> Z) n i : 0 <= i < n -> nthZ (f <$> seqZ 0 n) i = f i.
Proof. intros. unfold nthZ. rewrite nth_lookup, list_lookup_fmap, lookup_seqZ_lt by lia. cbn. f_equal. lia. Qed.
Lemma lenZ_fmap_seqZ (f : Z -> Z) n : 0 <= n -> lenZ (f <$> seqZ 0 n) = n.
Proof. intros. unfold lenZ. rewrite length_fmap, length_seqZ. lia. Qed.

Lemma received_bytes st0 st b len p k n : receiving st0 st b len p -> 0 <= k -> 0 <= n -> k + n <= lenZ p ->
  (fun i => rx_mem st b (k + i)) <$> seqZ 0 n = sliceZ p k n.
Proof.
  intros R Hk Hn Hp. apply eq_by_nthZ; [by rewrite lenZ_fmap_seqZ, lenZ_sliceZ|]. rewrite lenZ_fmap_seqZ by done.
  intros i Hi. rewrite nthZ_fmap_seqZ, nthZ_sliceZ, (rc_mem _ _ _ _ _ R), Z.eqb_refl by done.
  replace (0 <=? k + i) with true by (symmetry; apply Z.leb_le; lia).
  by replace (k + i <? lenZ p) with true by (symmetry; apply Z.ltb_lt; lia).
Qed.

(** A decoded packet [p] is being handed up from buffer [b]. *)
Record heard (a : A) (e b : Z) (p : list Z) (w : hworld) : Prop := {
  hd_handler : m_slip_event_handler (fst w) = true;
  hd_used : mp_slip_used_rx_buffer (snd w) = Some b;
  hd_ready : ready a b (mem_pool (snd w)) (rx_mem (fst w)) (upper (snd w));
  hd_idle : m_tx_state (snd w) = TX_STATE_IDLE;
  hd_event : m_transport_event_handle (snd w) = true;
  hd_expected : m_packet_expected_seq_number (snd w) = e /\ 0 <= e < 8;
  hd_bytes : buffer_holds (rx_mem (fst w)) b p
}.

(** What the layer above makes of it. *)
Definition taken (e : Z) (p : list Z) (a : A) : option A := if accepts e p then take_payload (payload_of p) a else Some a.

(** What the handler's run on it gives. *)
Definition handled (a' : A) (e : Z) (p : list Z) (w w' : hworld) : Prop :=
  listening_to a' (next_expected e p) w' /\
  (m_current_state (fst w) = SLIP_READY -> ~ refuses ->
   m_current_state (fst w') = SLIP_READY /\ sent (sl_port (fst w')) = sent (sl_port (fst w)) ++ acks_of e p).

Lemma register_listening a e b w : m_slip_event_handler (fst w) = true -> mp_slip_used_rx_buffer (snd w) = Some b ->
  ready a b (mem_pool (snd w)) (rx_mem (fst w)) (upper (snd w)) ->
  m_tx_state (snd w) = TX_STATE_IDLE -> m_transport_event_handle (snd w) = true ->
  m_packet_expected_seq_number (snd w) = e /\ 0 <= e < 8 ->
  exists w', slip_register (Some b) HCI_RX_BUF_SIZE w = Some w' /\ listening_to a e w' /\ snd w' = snd w /\
    m_current_state (fst w') = m_current_state (fst w) /\ sl_port (fst w') = sl_port (fst w).
Proof. intros. eexists. split; [reflexivity|]. split_and!; try done. constructor; cbn; try done. by exists b. Qed.

(** A packet that is not accepted: the buffer is registered again. *)
Lemma rejected_heard a e b p w : heard a e b p w -> accepts e p = false -> acks_of e p = [] ->
  exists w', slip_register (mp_slip_used_rx_buffer (snd w)) HCI_RX_BUF_SIZE w = Some w' /\ handled a e p w w'.
Proof.
  intros [? Hu ? ? ? ? _] Ha Hk. rewrite Hu.
  destruct (register_listening a e b w) as (w' & E & L & Et & Es & Ep); [done..|]. exists w'. split; [exact E|].
  unfold handled, next_expected. rewrite Ha, Hk, Es, Ep, !app_nil_r. done.
Qed.

Lemma acknowledged (w w' : hworld) e p ack :
  (m_current_state (fst w) = SLIP_READY /\ m_current_state (fst w') = SLIP_READY /\
     sent (sl_port (fst w')) = sent (sl_port (fst w)) ++ slip_frame (ack_packet ack)) \/
  (m_current_state (fst w) = SLIP_READY /\ m_current_state (fst w') = SLIP_TRANSMITTING /\ refuses /\
     exists more, sent (sl_port (fst w')) ++ more = sent (sl_port (fst w)) ++ slip_frame (ack_packet ack)) \/
  (m_current_state (fst w) <> SLIP_READY /\ fst w' = fst w) ->
  is_rx_pkt_valid p (lenZ p) = true -> ack = next_expected e p ->
  m_current_state (fst w) = SLIP_READY -> ~ refuses ->
  m_current_state (fst w') = SLIP_READY /\ sent (sl_port (fst w')) = sent (sl_port (fst w)) ++ acks_of e p.
Proof.
  intros Hc Hv -> Hs Hr. unfold acks_of. rewrite Hv. destruct Hc as [(_ & ? & ?)|[(_ & _ & ? & _)|(? & _)]]; done.
Qed.

(** A valid packet out of sequence: acknowledged again, not delivered. *)
Lemma repeated_heard a e b p w : heard a e b p w -> is_rx_pkt_valid p (lenZ p) = true -> packet_seq_nmbr_extract p <> e ->
  exists w', (w ← slip_register (mp_slip_used_rx_buffer (snd w)) HCI_RX_BUF_SIZE w; ack_transmit (slip_event_handle event_handle tx_done_handle timer_start timer_stop 1) w) = Some w' /\
    handled a e p w w'.
Proof.
  intros [? Hu ? Hi ? [He1 He2] _] Hv Hseq. rewrite Hu.
  destruct (register_listening a e b w) as (w1 & E & L & Et & Es & Ep); [done..|]. rewrite E. cbn [mbind option_bind].
  destruct (ack_transmit_spec event_handle tx_done_handle timer_start timer_stop 0 w1) as (st' & E2 & Hr & Hc); [by rewrite Et, Hi|].
  exists (st', snd w1). split; [exact E2|].
  assert (accepts e p = false) as Ha by (unfold accepts; rewrite Hv; by apply Z.eqb_neq).
  assert (next_expected e p = e) as Hn by (unfold next_expected; by rewrite Ha).
  unfold rx_part in Hr. injection Hr as R1 R2 R3 R4 R5 R6. split.
  - rewrite Hn. destruct L as [L1 (b' & L2 & L3 & L4) L5 L6 L7 L8 L9 L10].
    constructor; cbn [fst snd]; try congruence; try (by rewrite R5). exists b'. rewrite R2, R6. done.
  - cbn [fst]. rewrite <- Es, <- Ep. apply (acknowledged w1 (st', snd w1) e p _ Hc Hv).
    rewrite Hn. unfold packet_number_expected_get. rewrite Et, He1. apply u8_small. lia.
Qed.

(** An accepted packet: acknowledged, delivered, and SLIP listens on the next
    buffer of the pool. *)
Lemma accepted_heard a a' e b p w : heard a e b p w -> accepts e p = true -> lenZ p < HCI_RX_BUF_SIZE ->
  take_payload (payload_of p) a = Some a' ->
  exists w', rx_vendor_specific_pkt_type_handle event_handle (slip_event_handle event_handle tx_done_handle timer_start timer_stop 1) p (lenZ p) w = Some w' /\
    handled a' e p w w'.
Proof.
  intros [Hh Hu Hrd Hi Hev [He1 He2] Hb] Ha Hlen Htk. pose proof Ha as Ha'. unfold accepts in Ha'. apply andb_prop in Ha' as [Hv Hseq].
  apply Z.eqb_eq in Hseq. destruct (valid_vendor p Hv) as (_ & H10).
  assert (next_expected e p = (e + 1) mod 8) as Hn by (unfold next_expected; by rewrite Ha).
  unfold rx_vendor_specific_pkt_type_handle. rewrite Hv.
  replace (packet_number_expected_get (snd w) =? packet_seq_nmbr_extract p) with true
    by (symmetry; apply Z.eqb_eq; unfold packet_number_expected_get; rewrite He1, Hseq; apply u8_small; lia).
  set (w1 := (fst w, packet_number_expected_inc (snd w))).
  assert (packet_number_expected_get (snd w1) = next_expected e p) as Eack.
  { unfold w1, packet_number_expected_get, packet_number_expected_inc. cbn [snd set_seq m_packet_expected_seq_number].
    rewrite He1, land_7, Hn. zlia. }
  destruct (ack_transmit_spec event_handle tx_done_handle timer_start timer_stop 0 w1) as (st' & E2 & Hr & Hc); [cbn; by rewrite Hi|].
  rewrite E2. cbn [mbind option_bind fst snd]. unfold rx_part in Hr. injection Hr as R1 R2 R3 R4 R5 R6.
  destruct (ready_step a a' b _ _ _ p Hrd (conj H10 Hlen) Hb Htk) as (q1 & b' & q2 & Q1 & Q2 & Hstep).
  cbn [w1 snd packet_number_expected_inc set_seq mem_pool]. rewrite Q1. cbn [APP_ERROR_CHECK mbind option_bind Z.eqb NRF_SUCCESS].
  unfold produce_and_register. cbn [fst snd set_rx_side mem_pool]. rewrite Q2. cbn [orb Z.eqb NRF_SUCCESS].
  unfold slip_register, hci_slip_rx_buffer_register. cbn [fst snd APP_ERROR_CHECK mbind option_bind Z.eqb NRF_SUCCESS m_transport_event_handle set_rx_side].
  change (m_transport_event_handle (packet_number_expected_inc (snd w))) with (m_transport_event_handle (snd w)). rewrite Hev.
  match goal with |- context [event_handle (?st, ?t)] => destruct (Hstep st t) as (q' & u' & Eh & Hrd') end; [cbn; done..|].
  rewrite Eh. eexists. split; [reflexivity|]. split.
  - rewrite Hn. constructor; cbn; try done; try congruence.
    + exists b'. rewrite R6. done.
    + split; [rewrite He1, land_7; zlia|zlia].
  - cbn [fst snd sl_port m_current_state set_rx]. intros Hs Hr. rewrite Eack in Hc.
    by apply (acknowledged w1 (st', snd w1) e p _ Hc Hv eq_refl Hs Hr).
Qed.

Lemma event_heard a a' e b p w : heard a e b p w -> lenZ p < HCI_RX_BUF_SIZE -> taken e p a = Some a' ->
  exists w', handler (HCI_SLIP_RX_RDY (Some b) (lenZ p)) w = Some w' /\ handled a' e p w w'.
Proof.
  unfold taken. intros Hh Hlen Htk. pose proof Hh as [H1 H2 H3 H4 H5 H6 H7].
  unfold EVENT_DEPTH. cbn [slip_event_handle]. cbn [slip_event packet_bytes].
  replace ((fun i => rx_mem (fst w) b i) <$> seqZ 0 (lenZ p)) with p.
  2: { rewrite <- (sliceZ_all p (lenZ p)) at 1 by lia. symmetry. apply (H7 0 (lenZ p)); unfold lenZ; lia. }
  destruct (packet_type_decode p (lenZ p) =? PKT_TYPE_VENDOR_SPECIFIC) eqn:Et.
  - destruct (accepts e p) eqn:Ha; [by apply (accepted_heard a a' e b p w)|]. injection Htk as <-.
    unfold rx_vendor_specific_pkt_type_handle. destruct (is_rx_pkt_valid p (lenZ p)) eqn:Hv.
    + assert (packet_seq_nmbr_extract p <> e) as Hn by (unfold accepts in Ha; rewrite Hv in Ha; by apply Z.eqb_neq).
      replace (packet_number_expected_get (snd w) =? packet_seq_nmbr_extract p) with false
        by (symmetry; apply Z.eqb_neq; unfold packet_number_expected_get; rewrite (proj1 H6), u8_small by lia; done).
      by apply repeated_heard with (b := b).
    + apply rejected_heard with (b := b); [done|done|]. unfold acks_of. by rewrite Hv.
  - assert (is_rx_pkt_valid p (lenZ p) = false) as Hv.
    { destruct (is_rx_pkt_valid p (lenZ p)) eqn:Hv; [|done]. apply valid_vendor in Hv as [Hv _]. by rewrite Hv in Et. }
    assert (accepts e p = false /\ acks_of e p = []) as [Ha Hk] by (unfold accepts, acks_of; by rewrite Hv).
    rewrite Ha in Htk. injection Htk as <-.
    assert (forall w2, heard a e b p w2 -> fst w2 = fst w ->
      exists w', rx_pkt_dropped w2 = Some w' /\ handled a e p w w') as Hdrop.
    { intros w2 Hh2 Ef. pose proof (hd_used _ _ _ _ _ Hh2) as Hu. unfold rx_pkt_dropped. rewrite Hu, <- Hu.
      destruct (rejected_heard a e b p w2 Hh2 Ha Hk) as (w' & E & L & Ak). exists w'. split; [exact E|].
      unfold handled. by rewrite <- Ef. }
    destruct (_ =? PKT_TYPE_ACK); [|by apply Hdrop].
    destruct (rx_ack_pkt_type_handle p (snd w)); cbn [mbind option_bind]; [|by apply Hdrop].
    unfold tx_sm_event_handle. cbn [snd set_retry m_tx_state]. rewrite H4. cbn [mbind option_bind].
    apply Hdrop; [by constructor|done].
Qed.

Lemma frame_heard a a' e w p : listening_to a e w -> p <> [] -> lenZ p < HCI_RX_BUF_SIZE -> taken e p a = Some a' ->
  exists w', handled a' e p w w' /\ forall more,
    hci_slip_process_pending_rx handler (slip_frame p ++ more) w = hci_slip_process_pending_rx handler more w'.
Proof.
  intros [L1 (b & L2 & L3 & L4) L5 L6 L7 L8 L9 L10] Hp Hlen Htk. destruct w as [st t]. cbn [fst snd] in *.
  destruct (feed_frame handler st t b p Hp L2 L6 L7) as (st1 & pre & Ef & Hf & R & Ho & Hend);
    [rewrite L5; unfold HCI_RX_BUF_SIZE in *; lia|].
  rewrite L1 in Hend. pose proof (rc_tx _ _ _ _ _ R) as Rt. unfold tx_part in Rt. injection Rt as T1 T2 T3 T4 T5 T6 T7.
  set (w1 := (set_rx None (m_rx_buffer_length st) 0 handle_rx_byte_default (rx_mem st1) st1, t)) in *.
  destruct (event_heard a a' e b p w1) as (w' & E & H1 & H3).
  { constructor; cbn; try done; [congruence| |].
    - apply (ready_mem _ _ _ _ _ _ L4). intros b' i Hne. rewrite (rc_mem _ _ _ _ _ R). by rewrite (proj2 (Z.eqb_neq b' b) Hne).
    - intros k n Hk Hn Hkn. by apply (received_bytes st st1 b _ p k n R). }
  { done. }
  { done. }
  exists w'. split; [|].
  - split; [done|]. cbn [w1 fst m_current_state sl_port set_rx] in *. rewrite T1, T7 in H3. exact H3.
  - intros more. rewrite Ef, <- app_assoc, (proj1 (feeds_pending handler _ _ _ _ Hf)). cbn [app hci_slip_process_pending_rx].
    rewrite Ho. cbn [mbind option_bind]. rewrite Hend. unfold notify, w1. cbn [fst m_slip_event_handler set_rx]. rewrite T2, L1.
    fold w1. rewrite E. done.
Qed.

(** Frames sent one after the other, as long as the layer above can take what
    they carry. *)
Lemma frames_delivered ps : forall a a' e w, listening_to a e w ->
  Forall (fun p => p <> [] /\ lenZ p < HCI_RX_BUF_SIZE) ps -> take_payloads (deliveries e ps) a = Some a' ->
  exists w', hci_slip_process_pending_rx handler (concat (slip_frame <$> ps)) w = Some ([], w') /\
    listening_to a' (foldl next_expected e ps) w' /\
    (m_current_state (fst w) = SLIP_READY -> ~ refuses ->
     m_current_state (fst w') = SLIP_READY /\ sent (sl_port (fst w')) = sent (sl_port (fst w)) ++ acknowledgements e ps).
Proof.
  induction ps as [|p ps IH]; intros a a' e w L Hps Htk; cbn [deliveries fmap list_fmap concat foldl acknowledgements] in *.
  - cbn in Htk. injection Htk as <-. exists w. rewrite !app_nil_r. done.
  - inversion Hps as [|? ? [Hp Hlen] Hps']; subst.
    assert (exists a1, taken e p a = Some a1 /\ take_payloads (deliveries (next_expected e p) ps) a1 = Some a') as (a1 & T1 & T2).
    { unfold taken. destruct (accepts e p); cbn [app take_payloads] in Htk; [|by exists a].
      destruct (take_payload (payload_of p) a) as [a1|]; [by exists a1|done]. }
    destruct (frame_heard a a1 e w p L Hp Hlen T1) as (w1 & (L1 & A1) & E1).
    destruct (IH _ a' _ w1 L1 Hps' T2) as (w2 & E2 & L2 & A2). exists w2.
    rewrite E1. split; [exact E2|]. split; [done|].
    intros Hs Hr. destruct (A1 Hs Hr) as (S1 & P1). destruct (A2 S1 Hr) as (S2 & P2).
    split; [done|]. by rewrite P2, P1, <- app_assoc.
Qed.
End Delivery.

(** * A layer that takes every packet as it arrives *)

Section Collect.
Context `{Serial}.
Abbreviation hworld := (@world _ (list (list Z))).

(** Extract, copy the payload, free the buffer. *)
Definition deliver (w : hworld) : option (hworld) :=
  let '(err, b, len, t) := hci_transport_rx_pkt_extract (snd w) in
  if err =? NRF_SUCCESS then
    match b with
    | Some b' =>
      let payload := (fun i => rx_mem (fst w) b' (PKT_HDR_SIZE + i)) <$> seqZ 0 len in
      let '(err, t) := hci_transport_rx_pkt_consume b t in
      if err =? NRF_SUCCESS then Some (fst w, set_upper (upper t ++ [payload]) t) else None
    | None => None
    end
  else None.

#[global] Program Instance collect : Client (list (list Z)) (list (list Z)) deliver := {
  ready a b q _ u := pool_listening q b /\ u = a;
  take_payload p a := Some (a ++ [p])
}.
Next Obligation. done. Qed.
Next Obligation.
  intros a a' b q m u p [Hp ->] [H10 Hlen] Hb [= <-].
  destruct (pool_round _ _ (lenZ p) Hp) as (q1 & b' & q2 & q3 & q4 & Q1 & Q2 & Q3 & Q4 & Hp4).
  exists q1, b', q2. split; [done|]. split; [done|]. intros st t Em Eq Eu Er Es. exists q4, (a ++ [payload_of p]).
  split; [|done]. unfold deliver, hci_transport_rx_pkt_extract. cbn [fst snd]. rewrite Er, Eq, Q3.
  cbn [fmap option_fmap option_map fst Z.eqb NRF_SUCCESS]. unfold hci_transport_rx_pkt_consume.
  cbn [mem_pool set_rx_side]. rewrite Q4. cbn [Z.eqb NRF_SUCCESS]. rewrite Em, Es.
  replace (u16 (lenZ p -32 (PKT_HDR_SIZE + PKT_CRC_SIZE))%c) with (lenZ p - (PKT_HDR_SIZE + PKT_CRC_SIZE))
    by (unfold PKT_HDR_SIZE, PKT_CRC_SIZE, HCI_RX_BUF_SIZE in *; zlia).
  rewrite Hb by (unfold PKT_HDR_SIZE, PKT_CRC_SIZE; lia). cbn. by rewrite Eu.
Qed.

Lemma collect_all ps : forall a, take_payloads ps a = Some (a ++ ps).
Proof. induction ps as [|p ps IH]; intros a; cbn; [by rewrite app_nil_r|]. by rewrite IH, <- app_assoc. Qed.

Context (tx_done_handle : bool -> hworld -> option (hworld)).
Context (timer_start timer_stop : hworld -> Z).
Abbreviation handler := (slip_event_handle deliver tx_done_handle timer_start timer_stop EVENT_DEPTH).
Definition listening (e : Z) (w : hworld) : Prop := listening_to (upper (snd w)) e w.

(** C12: every packet is delivered once, in order. Let a peer send any packets that
    fit a buffer, valid or not, repeated or not, framed one after the other. Then
    the layer above receives exactly the payloads of those that are valid and
    carry the next sequence number, in order and unchanged; the transport is
    listening again for the number after the last of them; and if the serial port
    takes what it is given, every valid packet, and only those, is answered by an
    acknowledgement of the number expected next. *)
Theorem packets_delivered_once ps : forall e w, listening e w ->
  Forall (fun p => p <> [] /\ lenZ p < HCI_RX_BUF_SIZE) ps ->
  exists w', hci_slip_process_pending_rx handler (concat (slip_frame <$> ps)) w = Some ([], w') /\
    listening (foldl next_expected e ps) w' /\
    upper (snd w') = upper (snd w) ++ deliveries e ps /\
    (m_current_state (fst w) = SLIP_READY -> ~ refuses ->
     m_current_state (fst w') = SLIP_READY /\ sent (sl_port (fst w')) = sent (sl_port (fst w)) ++ acknowledgements e ps).
Proof.
  intros e w L Hps. destruct (frames_delivered tx_done_handle timer_start timer_stop ps _ _ e w L Hps (collect_all _ _)) as (w' & E & L' & A').
  destruct (ls_buffer _ _ _ L') as (b & _ & _ & _ & Hu). exists w'. split; [exact E|]. split; [|by split].
  unfold listening. rewrite Hu. exact L'.
Qed.
End Collect.

(** * Packets this side builds *)

Lemma not32_small x : 0 <= x < 2 ^ 32 -> (~32 x)%c = 2 ^ 32 - 1 - x.
Proof.
  intros Hx. assert (Z.land x (~32 x)%c = 0) as H0.
  { apply Z.bits_inj'. intros i Hi. rewrite Z.land_spec, Z.lxor_spec, Z.bits_0.
    destruct (Z.ltb_spec i 32).
    - change UINT32_MAX with (Z.ones 32). rewrite Z.testbit_ones_nonneg by lia.
      replace (i <? 32) with true by (symmetry; by apply Z.ltb_lt). by destruct (Z.testbit x i).
    - by rewrite (testbit_high x 32). }
  pose proof (Z.add_nocarry_lxor x (~32 x)%c H0) as E. rewrite <- Z.lxor_assoc, Z.lxor_nilpotent, Z.lxor_0_l in E.
  unfold UINT32_MAX in *. lia.
Qed.

Lemma checksum_closes a b c : is_byte a -> is_byte b -> is_byte c ->
  is_byte (header_checksum_calculate [a; b; c]) /\
  Z.land (a + b + c + header_checksum_calculate [a; b; c]) 0xFF = 0.
Proof.
  intros Ha Hb Hc. unfold header_checksum_calculate. change (nthZ [a; b; c] 0) with a.
  change (nthZ [a; b; c] 1) with b. change (nthZ [a; b; c] 2) with c. rewrite !land_255.
  rewrite not32_small by zlia. unfold is_byte in *. split; zlia.
Qed.

Lemma byte_zero_fields e s : 0 <= e < 8 -> 0 <= s < 8 ->
  let b := u8 (Z.lor (Z.lor (Z.lor DATA_INTEGRITY_MASK RELIABLE_PKT_MASK) (Z.shiftl (u8 e) 3)) (u8 s)) in
  Z.land b DATA_INTEGRITY_MASK <> 0 /\ Z.land b RELIABLE_PKT_MASK <> 0 /\ Z.land b 0x07 = s.
Proof.
  intros He Hs.
  assert (forallb (fun e => forallb (fun s =>
    let b := u8 (Z.lor (Z.lor (Z.lor DATA_INTEGRITY_MASK RELIABLE_PKT_MASK) (Z.shiftl (u8 e) 3)) (u8 s)) in
    negb (Z.land b DATA_INTEGRITY_MASK =? 0) && negb (Z.land b RELIABLE_PKT_MASK =? 0) && (Z.land b 0x07 =? s))
    (seqZ 0 8)) (seqZ 0 8) = true) as H by by vm_compute.
  rewrite forallb_forall in H. specialize (H e). rewrite forallb_forall in H.
  specialize (H ltac:(apply list_elem_of_In, elem_of_seqZ; lia) s ltac:(apply list_elem_of_In, elem_of_seqZ; lia)).
  cbn zeta in *. bool_cases. done.
Qed.

(** What this side sends as a packet is what the other side accepts. For a
    payload of 4 to 4095 bytes, the packet [pkt_write_handle] builds passes
    [is_rx_pkt_valid], carries the transmit sequence number, so that a receiver
    expecting that number accepts it, and the payload it hands up is the one
    written. *)
Theorem built_packet_accepted {U} (t : transport (U := U)) payload :
  bytes payload -> 4 <= lenZ payload < 4096 ->
  0 <= m_packet_expected_seq_number t < 8 -> 0 <= m_packet_transmit_seq_number t < 8 ->
  let p := build_packet (tx_packet_byte_zero_construct t) payload (lenZ payload) in
  accepts (m_packet_transmit_seq_number t) p = true /\ payload_of p = payload /\
  lenZ p = lenZ payload + (PKT_HDR_SIZE + PKT_CRC_SIZE).
Proof.
  intros Hb Hl He Hs p.
  destruct (byte_zero_fields _ _ He Hs) as (F1 & F2 & F3). fold (packet_number_expected_get t) in F1, F2, F3.
  fold (packet_number_to_transmit_get t) in F1, F2, F3. fold (tx_packet_byte_zero_construct t) in F1, F2, F3.
  assert (is_byte (tx_packet_byte_zero_construct t)) as Hb0 by apply u8_range.
  revert F1 F2 F3 Hb0. subst p. generalize (tx_packet_byte_zero_construct t) as b0. intros b0 F1 F2 F3 Hb0.
  unfold build_packet.
  set (f := u16 (Z.lor (Z.shiftl (lenZ payload) 4) PKT_TYPE_VENDOR_SPECIFIC)).
  assert (f = lenZ payload * 16 + 14) as Ef.
  { unfold f, PKT_TYPE_VENDOR_SPECIFIC. rewrite Z.lor_comm, (lor_disjoint_add 14 (lenZ payload) 4) by lia. zlia. }
  change (b0 :: bytes16 f) with [b0; u8 f; u8 (Z.shiftr f 8)].
  destruct (checksum_closes b0 (u8 f) (u8 (Z.shiftr f 8)) Hb0 (u8_range _) (u8_range _)) as (Hk & Hsum).
  set (k := header_checksum_calculate _) in *. cbn [app].
  set (body := b0 :: u8 f :: u8 (Z.shiftr f 8) :: k :: payload).
  assert (lenZ body = lenZ payload + 4) as Lb by (unfold body; rewrite !lenZ_cons; lia).
  assert (bytes body) as Bb by (unfold body; repeat apply Forall_cons_2; try done; apply u8_range).
  pose proof (crc16_compute_range body Bb) as Hcrc. set (crc := crc16_compute body None) in *.
  assert (lenZ (body ++ bytes16 crc) = lenZ payload + (PKT_HDR_SIZE + PKT_CRC_SIZE)) as Lp
    by (rewrite lenZ_app, Lb; change (lenZ (bytes16 crc)) with 2; unfold PKT_HDR_SIZE, PKT_CRC_SIZE; lia).
  change (b0 :: u8 f :: u8 (Z.shiftr f 8) :: k :: payload ++ bytes16 crc) with (body ++ bytes16 crc).
  assert (sliceZ (body ++ bytes16 crc) 0 (lenZ body) = body) as Sb.
  { unfold sliceZ, lenZ. cbn [Z.to_nat drop]. rewrite Nat2Z.id. apply take_app_length. }
  assert (sliceZ (body ++ bytes16 crc) (lenZ body) 2 = bytes16 crc) as Sc.
  { unfold sliceZ, lenZ. rewrite Nat2Z.id, drop_app_length. done. }
  split; [|split; [|exact Lp]].
  - unfold accepts, is_rx_pkt_valid, packet_seq_nmbr_extract. rewrite Lp.
    change (nthZ (body ++ bytes16 crc) 0) with b0. change (nthZ (body ++ bytes16 crc) 1) with (u8 f).
    change (nthZ (body ++ bytes16 crc) 2) with (u8 (Z.shiftr f 8)). change (nthZ (body ++ bytes16 crc) 3) with k.
    unfold PKT_HDR_SIZE, PKT_CRC_SIZE. replace (lenZ payload + (4 + 2) <? 4 + 2) with false by (symmetry; apply Z.ltb_ge; lia).
    replace (Z.land b0 DATA_INTEGRITY_MASK =? 0) with false by (symmetry; by apply Z.eqb_neq).
    replace (Z.land b0 RELIABLE_PKT_MASK =? 0) with false by (symmetry; by apply Z.eqb_neq).
    replace (Z.land (u8 f) 0x0F =? PKT_TYPE_VENDOR_SPECIFIC) with true
      by (symmetry; apply Z.eqb_eq; rewrite land_15, Ef; unfold PKT_TYPE_VENDOR_SPECIFIC; zlia).
    rewrite Hsum. cbn zeta. cbn [negb Z.eqb].
    assert (le16 (u8 f) (u8 (Z.shiftr f 8)) = f) as E16.
    { rewrite <- (read_le16_bytes16 f []) at 3 by (rewrite Ef; lia). done. }
    rewrite E16. replace (Z.shiftr f 4) with (lenZ payload) by (rewrite Z.shiftr_div_pow2, Ef by lia; zlia).
    replace (lenZ payload <? 4) with false by (symmetry; apply Z.ltb_ge; lia).
    replace (lenZ payload =? lenZ payload + (4 + 2) - 4 - 2) with true by (symmetry; apply Z.eqb_eq; lia). cbn [negb orb].
    replace (lenZ payload + (4 + 2) - 2) with (lenZ body) by lia. rewrite Sb, Sc. fold crc.
    rewrite <- (app_nil_r (bytes16 crc)), read_le16_bytes16, Z.eqb_refl, F3, Z.eqb_refl by done. done.
  - unfold payload_of. rewrite Lp. unfold PKT_HDR_SIZE, PKT_CRC_SIZE.
    replace (lenZ payload + (4 + 2) - (4 + 2)) with (lenZ payload) by lia.
    change (body ++ bytes16 crc) with ([b0; u8 f; u8 (Z.shiftr f 8); k] ++ payload ++ bytes16 crc).
    unfold sliceZ, lenZ. change (Z.to_nat 4) with (length [b0; u8 f; u8 (Z.shiftr f 8); k]).
    rewrite drop_app_length, Nat2Z.id. apply take_app_length.
Qed.

(** * Two ways not to come back *)

Section Stuck.
Context `{Serial} {U : Type}.
Context (event_handle : world (U := U) -> option (world (U := U))) (tx_done_handle : bool -> world (U := U) -> option (world (U := U))).
Context (timer_start timer_stop : world (U := U) -> Z).
Abbreviation slip_events := (slip_event_handle event_handle tx_done_handle timer_start timer_stop).

(** a packet written while SLIP is busy, on a port that then takes everything,
    never comes back. [pkt_write_handle] leaves it in [TX_STATE_PENDING] for the
    event that ends the transmission in progress; that event writes it, and since
    the state only changes after [hci_slip_write] has returned, the event of its own
    completion finds the state still pending and writes it again: the handler calls
    itself without bound, whatever depth is allowed. *)
Theorem pending_write_recurses depth : forall w buf n,
  ~ refuses -> m_tx_state (snd w) = TX_STATE_PENDING -> m_current_state (fst w) = SLIP_READY ->
  m_slip_event_handler (fst w) = true ->
  0 <= hci_tx_buffer_length (snd w) -> hci_tx_buffer_length (snd w) + 6 <= lenZ (hci_tx_buffer (snd w)) ->
  hci_tx_buffer_length (snd w) + 6 < 2 ^ 32 ->
  slip_events depth (HCI_SLIP_TX_DONE buf n) w = None.
Proof.
  induction depth as [|depth IH]; intros [st t] buf n Hr Hp Hs Hh H0 Hl H32; [done|].
  cbn [fst snd] in *. cbn [slip_event_handle slip_event]. unfold tx_sm_event_handle. cbn [fst snd]. rewrite Hp.
  unfold write_tx_buffer. cbn [fst snd]. replace (hci_tx_buffer_length t +32 PKT_HDR_SIZE +32 PKT_CRC_SIZE)%c
    with (hci_tx_buffer_length t + 6) by (unfold PKT_HDR_SIZE, PKT_CRC_SIZE; zlia).
  unfold hci_slip_write. cbn [fst snd]. rewrite Hs.
  set (st1 := set_tx SLIP_TRANSMITTING _ _ _ _ _ _).
  assert (tx_wf st1) as Hwf.
  { constructor; cbn; [lia|done|intros [?|?]; discriminate|intros _; by left]. }
  destruct (transmit_buffer_spec (slip_events depth) st1 t Hwf) as [(st' & _ & _ & _ & _ & Href)|(st' & E & R & _)]; [done|].
  rewrite E. unfold rest in R. cbn in R. injection R as R1 R2 R3 R4 R5 R6 R7 R8 R9.
  unfold notify. cbn [fst]. rewrite R2, Hh. rewrite (IH (st', t)); try done. cbn. congruence.
Qed.

(** What holds once a transmission is cut off in a layer that sends nothing but
    acknowledgements. *)
Definition cut_off (p0 : port) (w : world (U := U)) : Prop :=
  m_current_state (fst w) = SLIP_TRANSMITTING /\ sl_port (fst w) = p0 /\ m_tx_state (snd w) = TX_STATE_IDLE.
Context (p0 : port).
Hypothesis upper_keeps : forall w w', cut_off p0 w -> event_handle w = Some w' -> cut_off p0 w'.

Lemma cut_off_write {h : hci_slip_evt -> world (U := U) -> option world} b n w : cut_off p0 w ->
  hci_slip_write h (Some b) n w = Some (NRF_ERROR_NO_MEM, w).
Proof. intros (Hs & _). unfold hci_slip_write. by rewrite Hs. Qed.

Lemma cut_off_register b n w w' : cut_off p0 w -> slip_register b n w = Some w' -> cut_off p0 w'.
Proof. intros Hc. unfold slip_register. cbn. by intros [= <-]. Qed.

Lemma cut_off_produce r w w' : cut_off p0 w -> produce_and_register r w = Some w' -> cut_off p0 w'.
Proof.
  intros Hc. unfold produce_and_register. destruct (hci_mem_pool_rx_produce _ _ _) as [[e b] q].
  destruct (_ || _); [|done]. destruct (_ =? _); by intros [= <-].
Qed.

Lemma cut_off_dropped w w' : cut_off p0 w -> rx_pkt_dropped w = Some w' -> cut_off p0 w'.
Proof.
  intros Hc. unfold rx_pkt_dropped. destruct (mp_slip_used_rx_buffer _); [by apply cut_off_register|by apply cut_off_produce].
Qed.

Lemma cut_off_event d e w w' : cut_off p0 w -> slip_events d e w = Some w' -> cut_off p0 w'.
Proof.
  intros Hc. destruct d as [|d]; [done|]. cbn [slip_event_handle]. pose proof Hc as (Hs & Hp & Hi).
  destruct e as [b n|buf n|b n|]; cbn [slip_event]; [| |by apply cut_off_register|done].
  2: { unfold tx_sm_event_handle. rewrite Hi. by intros [= <-]. }
  destruct (_ =? PKT_TYPE_VENDOR_SPECIFIC).
  - unfold rx_vendor_specific_pkt_type_handle, ack_transmit. destruct (is_rx_pkt_valid _ _); [|by apply cut_off_register].
    destruct (_ =? _).
    + rewrite cut_off_write by done. cbn [mbind option_bind]. destruct (hci_mem_pool_rx_data_size_set _ _) as [e1 q].
      unfold APP_ERROR_CHECK. destruct (_ =? _); [|done]. cbn [mbind option_bind].
      destruct (produce_and_register _ _) as [w1|] eqn:E1; [|done]. cbn [mbind option_bind].
      apply cut_off_produce in E1; [|done]. destruct (m_transport_event_handle _); [by apply upper_keeps|by intros [= <-]].
    + destruct (slip_register _ _ w) as [w1|] eqn:E1; [|done]. cbn [mbind option_bind].
      apply cut_off_register in E1; [|done]. rewrite cut_off_write by done. by intros [= <-].
  - destruct (_ =? PKT_TYPE_ACK); [|by apply cut_off_dropped].
    destruct (rx_ack_pkt_type_handle _ _); cbn [mbind option_bind]; [|by apply cut_off_dropped].
    unfold tx_sm_event_handle. cbn [snd set_retry m_tx_state]. rewrite Hi. cbn [mbind option_bind]. by apply cut_off_dropped.
Qed.

Lemma cut_off_byte c w w' : cut_off p0 w -> do_handle_rx_byte (slip_events EVENT_DEPTH) c w = Some w' -> cut_off p0 w'.
Proof.
  intros Hc. assert (forall w2, cut_off p0 w2 -> forall w3, handle_slip_end (slip_events EVENT_DEPTH) w2 = Some w3 -> cut_off p0 w3) as He.
  { intros [st t] Hc2 w3. unfold handle_slip_end. destruct (_ >? 0); [|by intros [= <-]].
    destruct (m_slip_event_handler st); [|by intros [= <-]]. by apply cut_off_event. }
  assert (forall c st', rx_store c (fst w) = Some st' -> cut_off p0 (st', snd w)) as Hst.
  { intros c' st'. unfold rx_store. destruct (mp_rx_buffer (fst w)); [|done]. by intros [= <-]. }
  unfold do_handle_rx_byte. destruct (handle_rx_byte (fst w)).
  - unfold do_handle_rx_byte_wait_start. destruct (c =? _); by intros [= <-].
  - unfold do_handle_rx_byte_default. destruct (c =? _); [by apply He|]. destruct (c =? _); [by intros [= <-]|].
    destruct (rx_store c (fst w)) eqn:E; [|done]. intros [= <-]. by apply (Hst c).
  - unfold do_handle_rx_byte_esc. destruct (c =? _).
    + destruct (handle_slip_end _ w) as [[st t]|] eqn:E; [|done]. intros [= <-]. by apply He in E.
    + destruct (rx_store _ (fst w)) eqn:E; [|done]. intros [= <-]. by apply Hst in E.
Qed.

(** on USB a cut-off acknowledgement is the last one. When the CDC FIFO refuses
    a byte, SLIP stays in [SLIP_TRANSMITTING] waiting for an event that only the
    UART build delivers. In the USB build nothing the transport does on received
    bytes, in whatever order and number, leaves that state: not one further byte
    is sent, so no later packet is acknowledged until the transport is reopened. *)
Theorem usb_cut_off_is_final fifos : forall w w', cut_off p0 w ->
  foldl (fun r fifo => w ← r; '(_, w) ← hci_slip_process_pending_rx (slip_events EVENT_DEPTH) fifo w; Some w) (Some w) fifos = Some w' ->
  m_current_state (fst w') = SLIP_TRANSMITTING /\ sent (sl_port (fst w')) = sent p0.
Proof.
  assert (forall bytes w rest w', cut_off p0 w -> hci_slip_process_pending_rx (slip_events EVENT_DEPTH) bytes w = Some (rest, w') -> cut_off p0 w') as Hpend.
  { induction bytes as [|c bytes IH]; intros w rest w' Hc; cbn [hci_slip_process_pending_rx]; [by intros [= _ <-]|].
    unfold rx_buffer_overflowed. destruct (bool_decide _ || _); cbn [mbind option_bind].
    - unfold notify. destruct (m_slip_event_handler (fst w)); cbn [mbind option_bind]; [|by intros [= _ <-]].
      destruct (slip_events EVENT_DEPTH _ w) as [w1|] eqn:E; [|done]. cbn [mbind option_bind]. intros [= _ <-]. by eapply cut_off_event.
    - destruct (do_handle_rx_byte _ c w) as [w1|] eqn:E; [|done]. cbn [mbind option_bind]. apply IH. by eapply cut_off_byte. }
  assert (forall w', cut_off p0 w' -> m_current_state (fst w') = SLIP_TRANSMITTING /\ sent (sl_port (fst w')) = sent p0) as Hend
    by (intros w' (? & <- & _); done).
  induction fifos as [|fifo fifos IH]; intros w w' Hc; cbn [foldl]; [intros [= <-]; by apply Hend|].
  cbn [mbind option_bind]. destruct (hci_slip_process_pending_rx _ fifo w) as [[rest w1]|] eqn:E; cbn [mbind option_bind].
  - apply IH. by eapply Hpend.
  - clear. induction fifos; [done|exact IHfifos].
Qed.
End Stuck.

(** * A concrete exchange *)

(** A line that takes every byte. *)
Module Line.
#[export] Program Instance line_serial : Serial := {
  port := list Z; serial_put p c := (NRF_SUCCESS, p ++ [c]); sent p := p
}.
Next Obligation. intros p c. by left. Qed.
Lemma line_never_refuses : ~ refuses.
Proof. intros (p & c & H). cbn in H. discriminate. Qed.

Definition slip0 : slip := mk_slip SLIP_OFF false [] 0 0 send_tx_byte_default None 0 0 handle_rx_byte_wait_start [] (fun _ _ => 0).
Definition transport0 : transport (U := list (list Z)) :=
  mk_transport TX_STATE_IDLE false false None 0 0 [] 0 false 0 false pool0 [].
Definition no_tx_done (r : bool) (w : world (U := list (list Z))) : option (world (U := list (list Z))) := Some w.
Definition timer_ok (w : world (U := list (list Z))) : Z := NRF_SUCCESS.
(** [hci_transport_open], then [hci_transport_evt_handler_reg]. *)
Definition opened : option (Z * world) :=
  hci_transport_evt_handler_reg true (snd (hci_transport_open timer_ok NRF_SUCCESS (slip0, transport0))).
Definition start : world := match opened with Some (_, w) => w | None => (slip0, transport0) end.
Definition sender_at (n : Z) : transport (U := list (list Z)) := set_seq 1 n transport0.
Definition demo_packet (n : Z) (payload : list Z) : list Z :=
  build_packet (tx_packet_byte_zero_construct (sender_at n)) payload (lenZ payload).

Lemma start_listening : listening 1 start.
Proof.
  constructor; try done. exists 0. split; [done|]. split; [done|]. split; [|done].
  exists (mk_queue false [] [0] 1 (replicate 16 0)), 0, 0, 1. split; [|done]. constructor; try done.
  intros i Hi. change (ring 0 (0 + 1)) with [0]. change (free_index (mem_pool (snd start))) with 1.
  destruct (decide (i = 0)) as [->|Hn]; [done|].
  rewrite bool_decide_false; [|intros H; apply list_elem_of_singleton in H; done].
  change 1 with (2 ^ 0). by apply Z.pow2_bits_false.
Qed.
End Line.
Import Line.

(** Two packets, with noise and a repetition between them. *)
Definition demo_stream : list (list Z) :=
  [demo_packet 1 [4; 0; 0; 0; 0xC0]; [1; 2; 3]; demo_packet 1 [4; 0; 0; 0; 0xC0]; demo_packet 2 [5; 0; 0; 0]].

Lemma packets_delivered_once_witness :
  exists w', hci_slip_process_pending_rx (slip_event_handle deliver no_tx_done timer_ok timer_ok EVENT_DEPTH)
      (concat (slip_frame <$> demo_stream)) start = Some ([], w') /\
    upper (snd w') = [[4; 0; 0; 0; 0xC0]; [5; 0; 0; 0]] /\
    sent (sl_port (fst w')) = [0xC0; 16; 0; 0; 240; 0xC0; 0xC0; 16; 0; 0; 240; 0xC0; 0xC0; 24; 0; 0; 232; 0xC0].
Proof.
  destruct (packets_delivered_once no_tx_done timer_ok timer_ok demo_stream 1 start start_listening) as (w' & E & _ & U & A).
  { repeat constructor; done. }
  exists w'. split; [exact E|]. clear E. destruct (A eq_refl line_never_refuses) as (_ & As). split; [rewrite U; vm_compute; reflexivity|rewrite As; vm_compute; reflexivity].
Defined.

Lemma built_packet_accepted_witness : accepts 3 (demo_packet 3 [9; 8; 7; 6]) = true.
Proof. apply (built_packet_accepted (sender_at 3) [9; 8; 7; 6]); [by apply bytes_by_forallb|by vm_compute..]. Defined.

(** A packet of four zero bytes waiting behind an acknowledgement. *)
Definition pending_transport : transport (U := list (list Z)) :=
  set_tx_buffer (demo_packet 1 [0; 0; 0; 0]) 4 (set_tx_state TX_STATE_PENDING transport0).

Lemma pending_write_recurses_witness :
  slip_event_handle deliver no_tx_done timer_ok timer_ok 100 (HCI_SLIP_TX_DONE [] 4) (fst start, pending_transport) = None.
Proof. apply pending_write_recurses; [exact line_never_refuses|done|done|done|by vm_compute..]. Defined.

(** The layer above of [packets_delivered_once] keeps a cut-off port cut off. *)
Lemma deliver_keeps_cut_off p0 (w w' : world (U := list (list Z))) : cut_off p0 w -> deliver w = Some w' -> cut_off p0 w'.
Proof.
  intros Hc. unfold deliver, hci_transport_rx_pkt_extract, hci_transport_rx_pkt_consume.
  destruct (m_is_slip_decode_ready _); [|done]. destruct (hci_mem_pool_rx_extract _ _) as [[e [[b l]|]] q]; cbn [fmap option_fmap option_map fst].
  - destruct (_ =? _); [|done]. destruct (hci_mem_pool_rx_consume _ _) as [e2 q2]. destruct (_ =? _); [|done]. by intros [= <-].
  - by destruct (_ =? _).
Qed.

Definition cut_off_start : world (U := list (list Z)) := (set_current_state SLIP_TRANSMITTING (fst start), snd start).

Lemma cut_off_start_listening : listening 1 cut_off_start.
Proof. destruct start_listening. by constructor. Qed.

Lemma foldl_one {A B} (g : B -> A -> option (B * A)) fifo w r w' : g fifo w = Some (r, w') ->
  foldl (fun r fifo => w ← r; '(_, w) ← g fifo w; Some w) (Some w) [fifo] = Some w'.
Proof. intros E. cbn. by rewrite E. Qed.

Lemma cut_off_start_cut : cut_off [] cut_off_start.
Proof. split_and!; reflexivity. Qed.

Lemma usb_cut_off_is_final_witness :
  exists w', hci_slip_process_pending_rx (slip_event_handle deliver no_tx_done timer_ok timer_ok EVENT_DEPTH)
      (concat (slip_frame <$> demo_stream)) cut_off_start = Some ([], w') /\ sent (sl_port (fst w')) = [].
Proof.
  destruct (packets_delivered_once no_tx_done timer_ok timer_ok demo_stream 1 cut_off_start cut_off_start_listening) as (w' & E & _).
  { repeat constructor; done. }
  exists w'. split; [exact E|].
  exact (proj2 (usb_cut_off_is_final deliver no_tx_done timer_ok timer_ok [] (deliver_keeps_cut_off [])
    [concat (slip_frame <$> demo_stream)] cut_off_start w' cut_off_start_cut (foldl_one _ _ _ _ _ E))).
Defined.
