(* ===== verification/Uf2.v ===== *)
(** The writer behind the UF2 drive: [src/usb/uf2/ghostfat.c] (its write
    half), [uf2_transfer_state.h], [uf2_app_flash.h], [uf2_current_echo.h] and
    the constants of [uf2.h] and [uf2cfg.h].  This is the build without the
    [MOTA_*] options.  A sector is the 512 bytes the host writes; a call returns the code's
    result and the new transfer state and flash. *)
From S2P Require Import Prelude BootImage Nvm DfuTypes DfuPolicy FlashNrf5x.

(** * Constants *)

Definition UF2_MAGIC_START0 : Z := 0x0A324655.
Definition UF2_MAGIC_START1 : Z := 0x9E5D5157.
Definition UF2_MAGIC_END : Z := 0x0AB16F30.
Definition UF2_FLAG_NOFLASH : Z := 0x00000001.
Definition UF2_FLAG_FAMILYID : Z := 0x00002000.
Definition UF2_FIRMWARE_BYTES_PER_SECTOR : Z := 256.
Definition UF2_TRANSFER_BLOCK_SIZE : Z := 256.
Definition BPB_SECTOR_SIZE : Z := 512.

Definition CFG_UF2_FAMILY_BOOT_ID : Z := 0xd663823c.
(** UF2 is built for the two parts with USB; the nRF52832 has neither constant
    and shares the nRF52833's here. *)
Definition CFG_UF2_FAMILY_APP_ID (m : mcu) : Z :=
  match m with NRF52840 => 0xADA52840 | _ => 0x621E937A end.
Definition CFG_UF2_FLASH_SIZE (m : mcu) : Z :=
  match m with NRF52840 => 1024 * 1024 | _ => 512 * 1024 end.
Definition USER_FLASH_START : Z := MBR_SIZE.
Definition USER_FLASH_END (m : mcu) (reserved : Z) : Z := BOOTLOADER_REGION_START m - reserved.
Definition BOOTLOADER_ADDR_NEW_RECEIVED (m : mcu) (reserved : Z) : Z :=
  USER_FLASH_END m reserved - DFU_BL_IMAGE_MAX_SIZE m.
Definition MAX_BLOCKS (m : mcu) : Z := CFG_UF2_FLASH_SIZE m / 256 + 100.
Definition UF2_FLASH_BLOCK_COUNT (m : mcu) : Z := CFG_UF2_FLASH_SIZE m / 256.
Definition UF2_APP_PAGE_COUNT (m : mcu) (reserved : Z) : Z :=
  (USER_FLASH_END m reserved - USER_FLASH_START) / CODE_PAGE_SIZE.

Definition UF2_UPDATE_KIND_NONE : Z := 0.
Definition UF2_UPDATE_KIND_APPLICATION : Z := 1.
Definition UF2_UPDATE_KIND_BOOTLOADER : Z := 2.

(** * Data *)

Record UF2_Block := mk_uf2_block {
  bl_magicStart0 : Z; bl_magicStart1 : Z; bl_flags : Z; bl_targetAddr : Z; bl_payloadSize : Z;
  bl_blockNo : Z; bl_numBlocks : Z; bl_familyID : Z; bl_data : list Z; bl_magicEnd : Z
}.

(** [(UF2_Block const* )data] *)
Definition uf2_block_of (p : list Z) : UF2_Block :=
  mk_uf2_block (field32 p 0) (field32 p 4) (field32 p 8) (field32 p 12) (field32 p 16) (field32 p 20)
    (field32 p 24) (field32 p 28) (sliceZ p 32 476) (field32 p 508).

Record WriteState := mk_ws {
  numBlocks : Z; numWritten : Z; bootloaderEraseOffset : Z; appMaximumWrittenEnd : Z; appStart : Z; appSize : Z;
  updateKind : Z; aborted : bool; has_uicr : bool; bootloaderStagingErased : bool;
  appSettingsInvalidated : bool; appValidated : bool;
  writtenMask : list Z; targetMask : list Z; appErasedMask : list Z
}.

Definition set_latched (nb uk : Z) (ab : bool) (st : WriteState) : WriteState :=
  mk_ws nb (numWritten st) (bootloaderEraseOffset st) (appMaximumWrittenEnd st) (appStart st) (appSize st) uk ab
    (has_uicr st) (bootloaderStagingErased st) (appSettingsInvalidated st) (appValidated st) (writtenMask st)
    (targetMask st) (appErasedMask st).

Definition set_aborted (st : WriteState) : WriteState :=
  mk_ws (numBlocks st) (numWritten st) (bootloaderEraseOffset st) (appMaximumWrittenEnd st) (appStart st) (appSize
    st) (updateKind st) true (has_uicr st) (bootloaderStagingErased st) (appSettingsInvalidated st)
    (appValidated st) (writtenMask st) (targetMask st) (appErasedMask st).

Definition set_app_flash (inv : bool) (em : list Z) (st : WriteState) : WriteState :=
  mk_ws (numBlocks st) (numWritten st) (bootloaderEraseOffset st) (appMaximumWrittenEnd st) (appStart st) (appSize
    st) (updateKind st) (aborted st) (has_uicr st) (bootloaderStagingErased st) inv (appValidated st)
    (writtenMask st) (targetMask st) em.

Definition set_erase_offset (off : Z) (done : bool) (st : WriteState) : WriteState :=
  mk_ws (numBlocks st) (numWritten st) off (appMaximumWrittenEnd st) (appStart st) (appSize st) (updateKind st)
    (aborted st) (has_uicr st) done (appSettingsInvalidated st) (appValidated st) (writtenMask st) (targetMask
    st) (appErasedMask st).

Definition set_has_uicr (st : WriteState) : WriteState :=
  mk_ws (numBlocks st) (numWritten st) (bootloaderEraseOffset st) (appMaximumWrittenEnd st) (appStart st) (appSize
    st) (updateKind st) (aborted st) true (bootloaderStagingErased st) (appSettingsInvalidated st) (appValidated
    st) (writtenMask st) (targetMask st) (appErasedMask st).

Definition set_target (tm : list Z) (mx : Z) (st : WriteState) : WriteState :=
  mk_ws (numBlocks st) (numWritten st) (bootloaderEraseOffset st) mx (appStart st) (appSize st) (updateKind st)
    (aborted st) (has_uicr st) (bootloaderStagingErased st) (appSettingsInvalidated st) (appValidated st)
    (writtenMask st) tm (appErasedMask st).

Definition set_written (nw : Z) (wm : list Z) (st : WriteState) : WriteState :=
  mk_ws (numBlocks st) nw (bootloaderEraseOffset st) (appMaximumWrittenEnd st) (appStart st) (appSize st)
    (updateKind st) (aborted st) (has_uicr st) (bootloaderStagingErased st) (appSettingsInvalidated st)
    (appValidated st) wm (targetMask st) (appErasedMask st).

Definition set_app_valid (start size : Z) (st : WriteState) : WriteState :=
  mk_ws (numBlocks st) (numWritten st) (bootloaderEraseOffset st) (appMaximumWrittenEnd st) start size (updateKind
    st) (aborted st) (has_uicr st) (bootloaderStagingErased st) (appSettingsInvalidated st) true (writtenMask
    st) (targetMask st) (appErasedMask st).


(** [memset] of the whole record ([uf2_transfer_reset]). *)
Definition uf2_transfer_reset (m : mcu) (reserved : Z) : WriteState :=
  mk_ws 0 0 0 0 0 0 UF2_UPDATE_KIND_NONE false false false false false
    (replicate (Z.to_nat (MAX_BLOCKS m / 8 + 1)) 0)
    (replicate (Z.to_nat ((UF2_FLASH_BLOCK_COUNT m + 7) / 8)) 0)
    (replicate (Z.to_nat ((UF2_APP_PAGE_COUNT m reserved + 7) / 8)) 0).

Inductive uf2_transfer_result_t := UF2_TRANSFER_ACCEPT | UF2_TRANSFER_DUPLICATE | UF2_TRANSFER_ABORTED.
Inductive uf2_application_target_t :=
  UF2_APPLICATION_TARGET_SKIP | UF2_APPLICATION_TARGET_REQUIRE_MATCH
| UF2_APPLICATION_TARGET_PROGRAM | UF2_APPLICATION_TARGET_ABORT.
Inductive uf2_app_flash_action_t :=
  UF2_APP_FLASH_INVALIDATE_SETTINGS | UF2_APP_FLASH_ERASE_PAGE | UF2_APP_FLASH_PROGRAM_BLOCK.

#[global] Instance uf2_transfer_result_eq_dec : EqDecision uf2_transfer_result_t.
Proof. solve_decision. Defined.

(** * Bit masks in byte arrays *)

(** [mask[i / 8] & (uint8_t)(1U << (i % 8))], and setting that bit. *)
Definition mask_bit (i : Z) : Z := u8 (Z.shiftl 1 (i mod 8)).
Definition mask_test (mask : list Z) (i : Z) : bool := negb (Z.land (nthZ mask (i / 8)) (mask_bit i) =? 0).
Definition mask_set (mask : list Z) (i : Z) : list Z :=
  <[Z.to_nat (i / 8) := Z.lor (nthZ mask (i / 8)) (mask_bit i)]> mask.

(** * The transfer state ([uf2_transfer_state.h]) *)

Definition uf2_application_target_classify (target_addr user_start app_start app_limit : Z)
  : uf2_application_target_t :=
  if target_addr <? user_start then UF2_APPLICATION_TARGET_SKIP
  else if target_addr <? app_start then UF2_APPLICATION_TARGET_REQUIRE_MATCH
  else if target_addr <? app_limit then UF2_APPLICATION_TARGET_PROGRAM
  else UF2_APPLICATION_TARGET_ABORT.

(** The result and what is left in [*num_blocks], [*update_kind], [*aborted]. *)
Definition uf2_transfer_prepare (incoming_num_blocks block_no incoming_kind max_blocks : Z)
    (num_blocks update_kind : Z) (aborted : bool) (written_mask : list Z)
  : uf2_transfer_result_t * (Z * Z * bool) :=
  if aborted then (UF2_TRANSFER_ABORTED, (num_blocks, update_kind, aborted))
  else if (incoming_num_blocks =? 0) || (incoming_num_blocks >? max_blocks) || (block_no >=? incoming_num_blocks)
  then (UF2_TRANSFER_ABORTED, (num_blocks, update_kind, true))
  else if negb (num_blocks =? 0) && negb (num_blocks =? incoming_num_blocks)
  then (UF2_TRANSFER_ABORTED, (num_blocks, update_kind, true))
  else
    let num_blocks := if num_blocks =? 0 then incoming_num_blocks else num_blocks in
    if negb (update_kind =? 0) && negb (update_kind =? incoming_kind)
    then (UF2_TRANSFER_ABORTED, (num_blocks, update_kind, true))
    else
      let update_kind := if update_kind =? 0 then incoming_kind else update_kind in
      if mask_test written_mask block_no
      then (UF2_TRANSFER_DUPLICATE, (num_blocks, update_kind, aborted))
      else (UF2_TRANSFER_ACCEPT, (num_blocks, update_kind, aborted)).

(** The new [num_written] and [written_mask]. *)
Definition uf2_transfer_commit (block_no num_written : Z) (written_mask : list Z) : Z * list Z :=
  if negb (mask_test written_mask block_no)
  then (u32 (num_written + 1), mask_set written_mask block_no)
  else (num_written, written_mask).

(** [false] is [UF2_TRANSFER_ABORTED] (with [*aborted] set), [true]
    [UF2_TRANSFER_ACCEPT]. *)
Definition uf2_transfer_target_prepare (target_addr target_limit : Z) (target_mask : list Z)
    (target_mask_size : Z) (aborted : bool) : bool :=
  if aborted || negb (Z.land target_addr (UF2_TRANSFER_BLOCK_SIZE - 1) =? 0) || (target_addr >=? target_limit)
  then false
  else
    let target_block := target_addr / UF2_TRANSFER_BLOCK_SIZE in
    let pos := target_block / 8 in
    if (pos >=? target_mask_size) || mask_test target_mask target_block then false else true.

Definition uf2_transfer_target_commit (target_addr : Z) (target_mask : list Z) : list Z :=
  mask_set target_mask (target_addr / UF2_TRANSFER_BLOCK_SIZE).

(** The loop from [address]; [n] iterations are left. *)
Fixpoint range_loop (n : nat) (target_mask : list Z) (target_mask_size address end_ : Z) : bool :=
  match n with
  | O => true
  | S n =>
    if address <? end_ then
      let block := address / UF2_TRANSFER_BLOCK_SIZE in
      let pos := block / 8 in
      if (pos >=? target_mask_size) || negb (mask_test target_mask block) then false
      else range_loop n target_mask target_mask_size (u32 (address + UF2_TRANSFER_BLOCK_SIZE)) end_
    else true
  end.

Definition uf2_transfer_target_range_written (target_mask : list Z) (target_mask_size start end_ : Z) : bool :=
  if (start >=? end_) || negb (Z.land start (UF2_TRANSFER_BLOCK_SIZE - 1) =? 0) ||
     negb (Z.land end_ (UF2_TRANSFER_BLOCK_SIZE - 1) =? 0)
  then false
  else range_loop (Z.to_nat ((end_ - start) / UF2_TRANSFER_BLOCK_SIZE)) target_mask target_mask_size start end_.

(** [None] is [false]; [Some size] is [true] with [*app_size = size]. *)
Definition uf2_application_finalize (target_mask : list Z) (target_mask_size app_start app_limit
    maximum_written_end initial_sp reset_vector ram_end : Z) : option Z :=
  if (app_start <? UF2_TRANSFER_BLOCK_SIZE) || (maximum_written_end >? app_limit) ||
     (maximum_written_end <=? app_start) ||
     negb (uf2_transfer_target_range_written target_mask target_mask_size app_start maximum_written_end)
  then None
  else
    let reset_address := Z.land reset_vector (~32 1)%c in
    let size := maximum_written_end - app_start in
    if (size <? 8) || (initial_sp <? 0x20000000) || (initial_sp >? ram_end) ||
       negb (Z.land initial_sp 7 =? 0) || (Z.land reset_vector 1 =? 0) ||
       (reset_address <? app_start) || (reset_address >=? maximum_written_end)
    then None
    else Some size.

(** The result and the new [*aborted]. *)
Definition uf2_transfer_validate_duplicate (result : uf2_transfer_result_t) (destination_matches aborted : bool)
  : uf2_transfer_result_t * bool :=
  if bool_decide (result = UF2_TRANSFER_DUPLICATE) && negb destination_matches
  then (UF2_TRANSFER_ABORTED, true) else (result, aborted).

(** * One step of flash work per call ([uf2_app_flash.h]) *)

Definition uf2_app_flash_next_action (settings_invalidated : bool) (erased_mask : list Z) (page : Z)
  : uf2_app_flash_action_t * (bool * list Z) :=
  if negb settings_invalidated then (UF2_APP_FLASH_INVALIDATE_SETTINGS, (true, erased_mask))
  else if negb (mask_test erased_mask page)
  then (UF2_APP_FLASH_ERASE_PAGE, (settings_invalidated, mask_set erased_mask page))
  else (UF2_APP_FLASH_PROGRAM_BLOCK, (settings_invalidated, erased_mask)).

(** [uf2_current_echo.h] *)
Definition uf2_current_lba_is_synthetic (disk_lba current_first_lba current_sector_count : Z) : bool :=
  if disk_lba <? current_first_lba then false
  else disk_lba - current_first_lba <? current_sector_count.

(** * [ghostfat.c] *)

Definition is_uf2_block (bl : UF2_Block) : bool :=
  (bl_magicStart0 bl =? UF2_MAGIC_START0) && (bl_magicStart1 bl =? UF2_MAGIC_START1) &&
  (bl_magicEnd bl =? UF2_MAGIC_END) && negb (Z.land (bl_flags bl) UF2_FLAG_FAMILYID =? 0) &&
  (Z.land (bl_flags bl) UF2_FLAG_NOFLASH =? 0) &&
  (bl_payloadSize bl =? UF2_FIRMWARE_BYTES_PER_SECTOR) && (Z.land (bl_targetAddr bl) 0xff =? 0).

Definition in_bootloader_space (m : mcu) (addr : Z) : bool :=
  (BOOTLOADER_REGION_START m <=? addr) && (addr <? BOOTLOADER_MBR_PARAMS_PAGE_ADDRESS m).
Definition in_uicr_space (addr : Z) : bool := addr =? 0x10001000.

(** The CPU's word view of the flash. *)
Definition words_of (fs : flash_state) : flash := mem_word (fmem fs).

Section Writer.
Context `{Nvmc} (b : policy_build) (reserved ram_kb : Z) (CURRENT_UF2_FIRST_LBA current_uf2_sectors : Z).

Definition USER_END : Z := USER_FLASH_END (b_mcu b) reserved.
Definition NEW_RECEIVED : Z := BOOTLOADER_ADDR_NEW_RECEIVED (b_mcu b) reserved.
Definition CFG_UF2_BOARD_APP_ID : Z := expected_board b.

(** The update kind of a family, [None] for the families the drive ignores. *)
Definition family_kind (familyID : Z) : option Z :=
  if familyID =? CFG_UF2_BOARD_APP_ID then Some UF2_UPDATE_KIND_APPLICATION
  else if familyID =? CFG_UF2_FAMILY_APP_ID (b_mcu b) then Some UF2_UPDATE_KIND_APPLICATION
  else if familyID =? CFG_UF2_FAMILY_BOOT_ID then Some UF2_UPDATE_KIND_BOOTLOADER
  else None.

Definition erase_bootloader_staging (st : WriteState) (fs : flash_state) : bool * (WriteState * flash_state) :=
  if bootloaderStagingErased st then (true, (st, fs))
  else
    let page_addr := u32 (NEW_RECEIVED + bootloaderEraseOffset st) in
    let fs := flash_nrf5x_erase fs page_addr CODE_PAGE_SIZE in
    let off := u32 (bootloaderEraseOffset st + CODE_PAGE_SIZE) in
    (false, (set_erase_offset off (off >=? DFU_BL_IMAGE_MAX_SIZE (b_mcu b)) st, fs)).

Definition prepare_app_block (block : UF2_Block) (st : WriteState) (fs : flash_state)
  : bool * (WriteState * flash_state) :=
  let page := (bl_targetAddr block - USER_FLASH_START) / CODE_PAGE_SIZE in
  let '(action, (inv, em)) :=
    uf2_app_flash_next_action (appSettingsInvalidated st) (appErasedMask st) page in
  let st := set_app_flash inv em st in
  match action with
  | UF2_APP_FLASH_INVALIDATE_SETTINGS =>
      (false, (st, flash_nrf5x_invalidate_app_settings (b_mcu b) (flash_nrf5x_discard fs)))
  | UF2_APP_FLASH_ERASE_PAGE => (false, (st, flash_nrf5x_erase fs (bl_targetAddr block) CODE_PAGE_SIZE))
  | UF2_APP_FLASH_PROGRAM_BLOCK => (true, (st, fs))
  end.

(** [memcmp(targetAddr, data, payloadSize) == 0] *)
Definition destination_holds (block : UF2_Block) (fs : flash_state) : bool :=
  bytes_eqb (mem_read (fmem fs) (bl_targetAddr block) (bl_payloadSize block))
    (sliceZ (bl_data block) 0 (bl_payloadSize block)).

Definition destination_matches (block : UF2_Block) (update_kind app_start : Z) (fs : flash_state) : bool :=
  negb (update_kind =? UF2_UPDATE_KIND_APPLICATION) ||
  match uf2_application_target_classify (bl_targetAddr block) USER_FLASH_START app_start USER_END with
  | UF2_APPLICATION_TARGET_REQUIRE_MATCH | UF2_APPLICATION_TARGET_PROGRAM => destination_holds block fs
  | _ => true
  end.

(** The [switch (update_kind)]: what one accepted block does.  [Ret z] leaves
    [write_block] with result [z], [Go] falls through to the commit. *)
Inductive outcome := Ret (z : Z) | Go.

Definition write_app_block (block : UF2_Block) (app_start : Z) (st : WriteState) (fs : flash_state)
  : outcome * (WriteState * flash_state) :=
  let target_kind :=
    uf2_application_target_classify (bl_targetAddr block) USER_FLASH_START app_start USER_END in
  if (bl_targetAddr block <? USER_END) &&
     negb (uf2_transfer_target_prepare (bl_targetAddr block) (CFG_UF2_FLASH_SIZE (b_mcu b)) (targetMask st)
             (lenZ (targetMask st)) (aborted st))
  then (Ret (-1), (set_aborted st, fs))
  else
    match target_kind with
    | UF2_APPLICATION_TARGET_PROGRAM =>
        match prepare_app_block block st fs with
        | (false, s) => (Ret 0, s)
        | (true, (st, fs)) =>
            (Go, (st, flash_nrf5x_write_erased fs (bl_targetAddr block) (bl_data block) (bl_payloadSize block)))
        end
    | UF2_APPLICATION_TARGET_REQUIRE_MATCH =>
        if negb (destination_holds block fs) then (Ret (-1), (set_aborted st, fs)) else (Go, (st, fs))
    | UF2_APPLICATION_TARGET_SKIP => (Go, (st, fs))
    | UF2_APPLICATION_TARGET_ABORT => (Ret (-1), (set_aborted st, fs))
    end.

Definition write_bootloader_block (block : UF2_Block) (st : WriteState) (fs : flash_state)
  : outcome * (WriteState * flash_state) :=
  if in_uicr_space (bl_targetAddr block) then
    let uicr_boot_addr := field32 (bl_data block) 0x14 in
    let uicr_mbr_param := field32 (bl_data block) 0x18 in
    if negb (uicr_boot_addr =? BOOTLOADER_REGION_START (b_mcu b)) ||
       negb (uicr_mbr_param =? BOOTLOADER_MBR_PARAMS_PAGE_ADDRESS (b_mcu b))
    then (Ret (-1), (set_aborted st, fs))
    else (Go, (set_has_uicr st, fs))
  else if in_bootloader_space (b_mcu b) (bl_targetAddr block) then
    match erase_bootloader_staging st fs with
    | (false, s) => (Ret 0, s)
    | (true, (st, fs)) =>
        let staging_addr := u32 (NEW_RECEIVED + (bl_targetAddr block - BOOTLOADER_REGION_START (b_mcu b))) in
        (Go, (st, flash_nrf5x_write fs staging_addr (bl_data block) (bl_payloadSize block) false))
    end
  else if bl_targetAddr block <? USER_FLASH_START then (Go, (st, fs))
  else (Ret (-1), (set_aborted st, fs)).

(** Committing the block's target and number. *)
Definition commit_block (block : UF2_Block) (update_kind app_start : Z) (st : WriteState) : WriteState :=
  let st :=
    if update_kind =? UF2_UPDATE_KIND_APPLICATION then
      let block_end := u32 (bl_targetAddr block + UF2_FIRMWARE_BYTES_PER_SECTOR) in
      set_target (uf2_transfer_target_commit (bl_targetAddr block) (targetMask st))
        (if (bl_targetAddr block >=? app_start) && (block_end >? appMaximumWrittenEnd st)
         then block_end else appMaximumWrittenEnd st) st
    else st in
  let '(nw, wm) := uf2_transfer_commit (bl_blockNo block) (numWritten st) (writtenMask st) in
  set_written nw wm st.

(** Everything received: validate the staged bootloader or the application. *)
Definition complete_bootloader (st : WriteState) (fs : flash_state) : WriteState * flash_state :=
  let fs := flash_nrf5x_flush fs false in
  let size := DFU_BL_IMAGE_MAX_SIZE (b_mcu b) in
  let staged_image := mem_read (fmem fs) NEW_RECEIVED size in
  let start_packet := mk_start DFU_UPDATE_BL 0 size 0 in
  (if negb (has_uicr st) || negb (bootloaderStagingErased st) ||
      negb (dfu_image_policy_validate b (words_of fs) (Some staged_image) size (Some start_packet) =? NRF_SUCCESS)
   then set_aborted st else st, fs).

Definition complete_application (app_start : Z) (st : WriteState) (fs : flash_state) : WriteState * flash_state :=
  let fs := flash_nrf5x_discard fs in
  let '(initial_sp, reset_vector) :=
    if app_start <? USER_END then (words_of fs app_start, words_of fs (app_start + 4)) else (0, 0) in
  let ram_end := u32 (0x20000000 + u32 (Z.shiftl ram_kb 10)) in
  (if negb (appSettingsInvalidated st) then set_aborted st
   else match uf2_application_finalize (targetMask st) (lenZ (targetMask st)) app_start USER_END
                (appMaximumWrittenEnd st) initial_sp reset_vector ram_end with
        | None => set_aborted st
        | Some size => set_app_valid app_start size st
        end, fs).

Definition write_block (block_no : Z) (data : list Z) (st : WriteState) (fs : flash_state)
  : Z * (WriteState * flash_state) :=
  let block := uf2_block_of data in
  if aborted st then (-1, (st, fs))
  else if uf2_current_lba_is_synthetic block_no CURRENT_UF2_FIRST_LBA current_uf2_sectors
  then (BPB_SECTOR_SIZE, (st, fs))
  else if negb (is_uf2_block block) then (-1, (st, fs))
  else
  match family_kind (bl_familyID block) with
  | None => (-1, (st, fs))
  | Some update_kind =>
    let app_start := DFU_BANK_0_REGION_START (words_of fs) in
    let '(transfer_result, (nb, uk, ab)) :=
      uf2_transfer_prepare (bl_numBlocks block) (bl_blockNo block) update_kind (MAX_BLOCKS (b_mcu b))
        (numBlocks st) (updateKind st) (aborted st) (writtenMask st) in
    let st := set_latched nb uk ab st in
    match transfer_result with
    | UF2_TRANSFER_ABORTED => (-1, (st, fs))
    | UF2_TRANSFER_DUPLICATE =>
        let '(r, ab) := uf2_transfer_validate_duplicate transfer_result
                          (destination_matches block update_kind app_start fs) (aborted st) in
        let st := set_latched nb uk ab st in
        if bool_decide (r = UF2_TRANSFER_ABORTED) then (-1, (st, fs)) else (BPB_SECTOR_SIZE, (st, fs))
    | UF2_TRANSFER_ACCEPT =>
        let '(o, (st, fs)) :=
          if update_kind =? UF2_UPDATE_KIND_APPLICATION then write_app_block block app_start st fs
          else write_bootloader_block block st fs in
        match o with
        | Ret z => (z, (st, fs))
        | Go =>
            let st := commit_block block update_kind app_start st in
            let s :=
              if numWritten st >=? numBlocks st then
                if updateKind st =? UF2_UPDATE_KIND_BOOTLOADER then complete_bootloader st fs
                else complete_application app_start st fs
              else (st, fs) in
            (BPB_SECTOR_SIZE, s)
        end
    end
  end.
End Writer.
