(* ===== verification/Uf2App.v ===== *)
(** The application side of the UF2 drive, proved against an adversarial host:
    an invariant of [Uf2.write_block] over the blocks accepted so far, what an
    accepted image leaves in flash, what a transfer can never touch, and that
    an honest host gets its image installed in whatever order and however often
    it sends the sectors. *)
From S2P Require Import Prelude BootImage Nvm DfuTypes DfuPolicy FlashNrf5x Uf2.

(** * Masks *)

Lemma mask_bit_pow i : 0 <= i -> mask_bit i = 2 ^ (i mod 8).
Proof.
  intros Hi. unfold mask_bit. rewrite Z.shiftl_1_l. apply u8_small.
  pose proof (Z.mod_pos_bound i 8 ltac:(lia)). split; [lia|]. apply Z.pow_lt_mono_r; lia.
Qed.

Lemma mask_test_bit mask i : 0 <= i -> mask_test mask i = Z.testbit (nthZ mask (i / 8)) (i mod 8).
Proof.
  intros Hi. unfold mask_test. rewrite mask_bit_pow by done.
  pose proof (Z.mod_pos_bound i 8 ltac:(lia)) as Hm.
  destruct (Z.testbit _ _) eqn:E.
  - apply negb_true_iff, Z.eqb_neq. intros H0.
    assert (Z.testbit (Z.land (nthZ mask (i / 8)) (2 ^ (i mod 8))) (i mod 8) = true) as Hc.
    { rewrite Z.land_spec, E, Z.pow2_bits_true by lia. done. }
    rewrite H0, Z.bits_0 in Hc. done.
  - apply negb_false_iff, Z.eqb_eq. apply Z.bits_inj'. intros k Hk. rewrite Z.land_spec, Z.bits_0.
    destruct (decide (k = i mod 8)) as [->|Hne]; [by rewrite E|].
    rewrite Z.pow2_bits_false by lia. apply andb_false_r.
Qed.

Lemma nthZ_insert (l : list Z) p q v : 0 <= p < lenZ l -> 0 <= q ->
  nthZ (<[Z.to_nat p := v]> l) q = if p =? q then v else nthZ l q.
Proof.
  unfold nthZ, lenZ. intros Hp Hq. rewrite !nth_lookup. destruct (Z.eqb_spec p q) as [->|Hne].
  - rewrite list_lookup_insert_eq by lia. done.
  - rewrite list_lookup_insert_ne by lia. done.
Qed.

Lemma lenZ_mask_set mask i : lenZ (mask_set mask i) = lenZ mask.
Proof. unfold lenZ, mask_set. by rewrite length_insert. Qed.

Lemma mask_test_set mask i j : 0 <= i -> 0 <= j -> i / 8 < lenZ mask ->
  mask_test (mask_set mask i) j = (i =? j) || mask_test mask j.
Proof.
  intros Hi Hj Hl. rewrite !mask_test_bit by done. unfold mask_set.
  assert (0 <= i / 8 /\ 0 <= j / 8) by zlia.
  rewrite nthZ_insert by lia. pose proof (Z.mod_pos_bound i 8 ltac:(lia)). pose proof (Z.mod_pos_bound j 8 ltac:(lia)).
  destruct (Z.eqb_spec (i / 8) (j / 8)) as [E|E].
  - rewrite Z.lor_spec, mask_bit_pow, Z.pow2_bits_eqb by lia. rewrite orb_comm, E. f_equal.
    destruct (Z.eqb_spec (i mod 8) (j mod 8)), (Z.eqb_spec i j); try done; exfalso; zlia.
  - destruct (Z.eqb_spec i j) as [->|]; done.
Qed.

Lemma mask_test_zero n j : mask_test (replicate n 0) j = false.
Proof.
  unfold mask_test. assert (nthZ (replicate n 0) (j / 8) = 0) as ->; [|done].
  unfold nthZ. apply nth_repeat_lt || (rewrite nth_lookup; destruct (_ !! _) eqn:E; [|done];
    by apply lookup_replicate in E as [-> _]).
Qed.

(** Block numbers below [n]: at most [n] of them, and [n] of them are all. *)
Lemma count_le nos n : NoDup nos -> (forall k, k ∈ nos -> 0 <= k < n) -> 0 <= n -> lenZ nos <= n.
Proof.
  intros Hnd Hr Hn. assert (incl nos (seqZ 0 n)) as Hincl.
  { intros i Hi. apply list_elem_of_In, elem_of_seqZ. apply list_elem_of_In, Hr in Hi. lia. }
  apply NoDup_incl_length in Hincl; [|by apply NoDup_ListNoDup]. rewrite length_seqZ in Hincl. unfold lenZ. lia.
Qed.

Lemma count_full nos n i : NoDup nos -> (forall k, k ∈ nos -> 0 <= k < n) -> lenZ nos = n -> 0 <= i < n -> i ∈ nos.
Proof.
  intros Hnd Hr Hl Hi. assert (incl (seqZ 0 n) nos) as Hincl.
  { apply NoDup_length_incl; [by apply NoDup_ListNoDup| |].
    - rewrite length_seqZ. unfold lenZ in Hl. lia.
    - intros k Hk. apply list_elem_of_In, elem_of_seqZ. apply list_elem_of_In, Hr in Hk. lia. }
  apply list_elem_of_In, Hincl, list_elem_of_In, elem_of_seqZ. lia.
Qed.

(** * Contiguity and finalization *)

Lemma range_loop_spec mask n : forall addr end_, 0 <= addr -> addr mod 256 = 0 -> end_ = addr + 256 * Z.of_nat n ->
  end_ <= 2 ^ 32 ->
  range_loop n mask (lenZ mask) addr end_ = true <->
  forall a, addr <= a < end_ -> a mod 256 = 0 -> a / 2048 < lenZ mask /\ mask_test mask (a / 256) = true.
Proof.
  induction n as [|n IH]; intros addr end_ H0 Hal He H32; cbn [range_loop].
  { split; [|done]. intros _ a Ha. lia. }
  destruct (Z.ltb_spec addr end_); [|lia]. unfold UF2_TRANSFER_BLOCK_SIZE. rewrite Z.geb_leb.
  assert (forall a, a / 256 / 8 = a / 2048) as Hd by (intros; by rewrite Z.div_div by lia). rewrite Hd.
  destruct (Z.leb_spec (lenZ mask) (addr / 2048)) as [Hl|Hl]; cbn [orb].
  { split; [done|]. intros Hall. destruct (Hall addr) as [? _]; [lia|done|]. lia. }
  destruct (mask_test mask (addr / 256)) eqn:Hm; cbn [negb].
  2: { split; [done|]. intros Hall. destruct (Hall addr) as [_ ?]; [lia|done|]. congruence. }
  destruct (decide (n = 0%nat)) as [->|Hn].
  { split; [|done]. intros _ a Ha Hma. assert (a = addr) as -> by zlia. done. }
  rewrite u32_small by lia. rewrite IH by (lia || zlia). split; intros Hall a Ha Hma.
  - destruct (decide (a = addr)) as [->|Hne]; [done|]. apply Hall; [zlia|done].
  - apply Hall; [lia|done].
Qed.

Lemma range_written_spec mask start end_ : 0 <= start -> end_ < 2 ^ 32 ->
  uf2_transfer_target_range_written mask (lenZ mask) start end_ = true <->
  start < end_ /\ start mod 256 = 0 /\ end_ mod 256 = 0 /\
  forall a, start <= a < end_ -> a mod 256 = 0 -> a / 2048 < lenZ mask /\ mask_test mask (a / 256) = true.
Proof.
  intros H0 H32. unfold uf2_transfer_target_range_written, UF2_TRANSFER_BLOCK_SIZE. change (256 - 1) with 255.
  rewrite !land_255, Z.geb_leb. destruct (Z.leb_spec end_ start); cbn [orb]; [split; [done|lia]|].
  destruct (Z.eqb_spec (start mod 256) 0) as [Hs|]; cbn [negb orb]; [|split; [done|lia]].
  destruct (Z.eqb_spec (end_ mod 256) 0) as [He|]; cbn [negb orb]; [|split; [done|lia]].
  rewrite range_loop_spec by (done || lia || zlia). tauto.
Qed.

(** The vector table the finalization accepts. *)
Definition vectors_fit (start end_ sp rv ram_end : Z) : Prop :=
  0x20000000 <= sp <= ram_end /\ sp mod 8 = 0 /\ rv mod 2 = 1 /\ start <= rv - 1 < end_.

Lemma finalize_spec mask start limit mx sp rv ram_end size : 0 <= start -> mx < 2 ^ 32 -> 0 <= rv < 2 ^ 32 ->
  uf2_application_finalize mask (lenZ mask) start limit mx sp rv ram_end = Some size <->
  256 <= start < mx /\ mx <= limit /\ size = mx - start /\ start mod 256 = 0 /\ mx mod 256 = 0 /\
  (forall a, start <= a < mx -> a mod 256 = 0 -> a / 2048 < lenZ mask /\ mask_test mask (a / 256) = true) /\
  vectors_fit start mx sp rv ram_end.
Proof.
  intros H0 H32 Hrv. pose proof (range_written_spec mask start mx H0 H32) as Hr.
  unfold uf2_application_finalize, vectors_fit, UF2_TRANSFER_BLOCK_SIZE. rewrite !Z.gtb_ltb.
  destruct (Z.ltb_spec start 256); cbn [orb]; [split; [done|lia]|].
  destruct (Z.ltb_spec limit mx); cbn [orb]; [split; [done|lia]|].
  destruct (Z.leb_spec mx start); cbn [orb]; [split; [done|lia]|].
  destruct (uf2_transfer_target_range_written _ _ _ _); cbn [negb].
  2: { split; [done|]. intros (_ & _ & _ & Hs & He & Ha & _). assert (false = true) as ?; [|done]. apply Hr. split_and!; auto. }
  destruct (proj1 Hr eq_refl) as (_ & Hs & He & Ha). rewrite land_7, land_1, !Z.geb_leb.
  change (Z.lxor 1 UINT32_MAX) with (Z.lxor (2 ^ 1 - 1) UINT32_MAX). rewrite land_not_mask by lia.
  change (2 ^ 1) with 2.
  destruct (Z.ltb_spec (mx - start) 8); cbn [orb]; [zlia|].
  destruct (Z.ltb_spec sp 0x20000000); cbn [orb]; [split; [done|lia]|].
  destruct (Z.ltb_spec ram_end sp); cbn [orb]; [split; [done|lia]|].
  destruct (Z.eqb_spec (sp mod 8) 0); cbn [negb orb]; [|split; [done|lia]].
  destruct (Z.eqb_spec (rv mod 2) 0); cbn [orb]; [split; [done|lia]|].
  destruct (Z.ltb_spec (rv - rv mod 2) start); cbn [orb]; [split; [done|zlia]|].
  destruct (Z.leb_spec mx (rv - rv mod 2)); cbn [orb]; [split; [done|zlia]|].
  split; [|by intros (_ & _ & -> & _)]. intros [= <-]. split_and!; try done; zlia.
Qed.

(** * One call of [write_block] *)

Definition sector_ok (data : list Z) : Prop := bytes data /\ lenZ data = 512.

Record block_wf (bl : UF2_Block) : Prop := {
  wf_target : 0 <= bl_targetAddr bl < 2 ^ 32;
  wf_no : 0 <= bl_blockNo bl;
  wf_blocks : 0 <= bl_numBlocks bl;
  wf_bytes : bytes (bl_data bl);
  wf_len : lenZ (bl_data bl) = 476
}.

Lemma field32_range p o : bytes p -> 0 <= field32 p o < 2 ^ 32.
Proof. intros. unfold field32. auto with words. Qed.

Lemma uf2_block_of_wf data : sector_ok data -> block_wf (uf2_block_of data).
Proof.
  intros [Hb Hl]. pose proof (field32_range data) as Hf.
  split; cbn [uf2_block_of bl_targetAddr bl_blockNo bl_numBlocks bl_data]; try apply Hf; try done.
  - by apply sliceZ_bytes.
  - apply lenZ_sliceZ; lia.
Qed.

Lemma is_uf2_target bl : is_uf2_block bl = true ->
  bl_targetAddr bl mod 256 = 0 /\ bl_payloadSize bl = 256.
Proof.
  unfold is_uf2_block, UF2_FIRMWARE_BYTES_PER_SECTOR. intros H. bool_cases.
  by rewrite land_255 in *.
Qed.

(** The payload of a block. *)
Definition payload (bl : UF2_Block) : list Z := sliceZ (bl_data bl) 0 256.

Lemma lenZ_payload bl : block_wf bl -> lenZ (payload bl) = 256.
Proof. intros []. apply lenZ_sliceZ; lia. Qed.
Lemma payload_bytes bl : block_wf bl -> bytes (payload bl).
Proof. intros []. by apply sliceZ_bytes. Qed.

Section Steps.
Context `{Nvmc} (b : policy_build) (reserved ram_kb lba0 sectors : Z).
Abbreviation m := (b_mcu b).
Abbreviation wb := (write_block b reserved ram_kb lba0 sectors).

(** The geometry the first block latches. *)
Definition latch_ok (bl : UF2_Block) (k : Z) (st : WriteState) (nb uk : Z) : Prop :=
  (nb = numBlocks st \/ (numBlocks st = 0 /\ nb = bl_numBlocks bl /\ bl_numBlocks bl <> 0 /\ nb <= MAX_BLOCKS m)) /\
  (uk = updateKind st \/ (updateKind st = 0 /\ uk = k)) /\ (uk = 0 -> nb = numBlocks st).

(** The block is new and fits the transfer under way. *)
Record fresh_block (bl : UF2_Block) (k : Z) (st : WriteState) : Prop := {
  fr_alive : aborted st = false;
  fr_uf2 : is_uf2_block bl = true;
  fr_family : family_kind b (bl_familyID bl) = Some k;
  fr_nonzero : bl_numBlocks bl <> 0;
  fr_max : bl_numBlocks bl <= MAX_BLOCKS m;
  fr_no : bl_blockNo bl < bl_numBlocks bl;
  fr_blocks : numBlocks st = 0 \/ numBlocks st = bl_numBlocks bl;
  fr_kind : updateKind st = 0 \/ updateKind st = k;
  fr_new : mask_test (writtenMask st) (bl_blockNo bl) = false
}.

(** What a fresh block of kind [k] does. *)
Definition accept_block (bl : UF2_Block) (k : Z) (st : WriteState) (fs : flash_state)
  : Z * (WriteState * flash_state) :=
  let app_start := DFU_BANK_0_REGION_START (words_of fs) in
  let '(o, (st, fs)) :=
    if k =? UF2_UPDATE_KIND_APPLICATION then write_app_block b reserved bl app_start st fs
    else write_bootloader_block b reserved bl st fs in
  match o with
  | Ret z => (z, (st, fs))
  | Go =>
      let st := commit_block bl k app_start st in
      (BPB_SECTOR_SIZE,
        if numWritten st >=? numBlocks st then
          if updateKind st =? UF2_UPDATE_KIND_BOOTLOADER then complete_bootloader b reserved st fs
          else complete_application b reserved ram_kb app_start st fs
        else (st, fs))
  end.

Lemma family_kind_cases f k : family_kind b f = Some k -> k = 1 \/ k = 2.
Proof. unfold family_kind. repeat case_match; intros [= <-]; auto. Qed.

(** Either the call leaves the flash alone and changes at most the latched
    geometry and the abort flag, or it works on a fresh block. *)
Lemma write_block_cases lba data st fs : let bl := uf2_block_of data in
  (exists z nb uk ab k, wb lba data st fs = (z, (set_latched nb uk ab st, fs)) /\ latch_ok bl k st nb uk /\
     (uk = updateKind st \/ mask_test (writtenMask st) (bl_blockNo bl) = true) /\
     (k = 1 \/ k = 2) /\ z <> 0 /\ (aborted st = true -> ab = true /\ nb = numBlocks st /\ uk = updateKind st)) \/
  (exists k, fresh_block bl k st /\
     uf2_current_lba_is_synthetic lba lba0 sectors = false /\
     wb lba data st fs = accept_block bl k (set_latched (bl_numBlocks bl) k false st) fs).
Proof.
  cbn zeta. unfold write_block. cbn zeta. set (bl := uf2_block_of data).
  assert (forall z, z <> 0 -> exists z' nb uk ab k, (z, (st, fs)) = (z', (set_latched nb uk ab st, fs)) /\ latch_ok bl k st nb uk /\
     (uk = updateKind st \/ mask_test (writtenMask st) (bl_blockNo bl) = true) /\
     (k = 1 \/ k = 2) /\ z' <> 0 /\ (aborted st = true -> ab = true /\ nb = numBlocks st /\ uk = updateKind st)) as Hsame.
  { intros z Hz. exists z, (numBlocks st), (updateKind st), (aborted st), 1. destruct st; unfold latch_ok; cbn. auto 10. }
  destruct (aborted st) eqn:Hab; [left; by apply Hsame|].
  destruct (uf2_current_lba_is_synthetic _ _ _); [left; by apply Hsame|].
  destruct (is_uf2_block bl) eqn:Hu; cbn [negb]; [|left; by apply Hsame].
  destruct (family_kind b _) as [k|] eqn:Hk; [|left; by apply Hsame].
  pose proof (family_kind_cases _ _ Hk) as Hk12. unfold uf2_transfer_prepare.
  destruct (_ || _ || _) eqn:Hgeo.
  { left. exists (-1), (numBlocks st), (updateKind st), true, k. unfold latch_ok. split_and!; auto; done. }
  rewrite Z.gtb_ltb, Z.geb_leb in Hgeo. bool_cases.
  destruct (negb (numBlocks st =? 0) && negb (numBlocks st =? bl_numBlocks bl)) eqn:Hnb.
  { left. exists (-1), (numBlocks st), (updateKind st), true, k. unfold latch_ok. split_and!; auto; done. }
  set (nb := if numBlocks st =? 0 then bl_numBlocks bl else numBlocks st).
  assert (nb = numBlocks st \/ (numBlocks st = 0 /\ nb = bl_numBlocks bl /\ bl_numBlocks bl <> 0 /\
            nb <= MAX_BLOCKS m)) as Hl1.
  { unfold nb. destruct (Z.eqb_spec (numBlocks st) 0); auto 10. }
  assert (nb = bl_numBlocks bl /\ (numBlocks st = 0 \/ numBlocks st = bl_numBlocks bl)) as [Hnb' Hnb2].
  { unfold nb. destruct (Z.eqb_spec (numBlocks st) 0); [auto|].
    cbn [negb andb] in Hnb. bool_cases. auto. }
  destruct (negb (updateKind st =? 0) && negb (updateKind st =? k)) eqn:Huk.
  { left. exists (-1), nb, (updateKind st), true, k. bool_cases. unfold latch_ok.
    split_and!; auto; done. }
  set (uk := if updateKind st =? 0 then k else updateKind st).
  assert (latch_ok bl k st nb uk) as Hl2.
  { split; [done|]. unfold uk. destruct (Z.eqb_spec (updateKind st) 0); split; auto; lia. }
  assert (uk = k /\ (updateKind st = 0 \/ updateKind st = k)) as [Huk' Huk2].
  { unfold uk. destruct (Z.eqb_spec (updateKind st) 0); [auto|].
    cbn [negb andb] in Huk. bool_cases. auto. }
  destruct (mask_test _ _) eqn:Hmt.
  - left. destruct (uf2_transfer_validate_duplicate _ _ _) as [r ab] eqn:Hv.
    destruct (bool_decide _).
    + exists (-1), nb, uk, ab, k. split_and!; auto; done.
    + exists 512, nb, uk, ab, k. split_and!; auto; done.
  - right. exists k. split; [by split|]. split; [done|]. rewrite Hnb', Huk'. reflexivity.
Qed.

(** The latch of a block that fits, and the two ways on from it. *)
Lemma prepare_fits bl k st : aborted st = false -> bl_numBlocks bl <> 0 -> bl_numBlocks bl <= MAX_BLOCKS m ->
  bl_blockNo bl < bl_numBlocks bl -> (numBlocks st = 0 \/ numBlocks st = bl_numBlocks bl) ->
  (updateKind st = 0 \/ updateKind st = k) ->
  uf2_transfer_prepare (bl_numBlocks bl) (bl_blockNo bl) k (MAX_BLOCKS m) (numBlocks st) (updateKind st) (aborted st)
    (writtenMask st) =
  (if mask_test (writtenMask st) (bl_blockNo bl) then UF2_TRANSFER_DUPLICATE else UF2_TRANSFER_ACCEPT,
   (bl_numBlocks bl, k, false)).
Proof.
  intros -> Hnz Hmax Hno Hb Hk. unfold uf2_transfer_prepare. rewrite Z.gtb_ltb, Z.geb_leb.
  destruct (Z.eqb_spec (bl_numBlocks bl) 0); [done|]. destruct (Z.ltb_spec (MAX_BLOCKS m) (bl_numBlocks bl)); [lia|].
  destruct (Z.leb_spec (bl_numBlocks bl) (bl_blockNo bl)); [lia|]. cbn [orb].
  assert (negb (numBlocks st =? 0) && negb (numBlocks st =? bl_numBlocks bl) = false) as ->.
  { destruct Hb as [-> | ->]; [done|]. by rewrite Z.eqb_refl, andb_false_r. }
  assert (negb (updateKind st =? 0) && negb (updateKind st =? k) = false) as ->.
  { destruct Hk as [-> | ->]; [done|]. by rewrite Z.eqb_refl, andb_false_r. }
  assert ((if numBlocks st =? 0 then bl_numBlocks bl else numBlocks st) = bl_numBlocks bl) as ->
    by (destruct (Z.eqb_spec (numBlocks st) 0); lia).
  assert ((if updateKind st =? 0 then k else updateKind st) = k) as ->
    by (destruct (Z.eqb_spec (updateKind st) 0); lia).
  by destruct (mask_test _ _).
Qed.

Lemma write_block_fresh lba data k st fs : let bl := uf2_block_of data in
  fresh_block bl k st -> uf2_current_lba_is_synthetic lba lba0 sectors = false ->
  wb lba data st fs = accept_block bl k (set_latched (bl_numBlocks bl) k false st) fs.
Proof.
  cbn zeta. set (bl := uf2_block_of data). intros [Hal Hu Hf Hnz Hmax Hno Hb Hk Hnew] Hs.
  unfold write_block. cbn zeta. fold bl. rewrite Hal, Hs, Hu, Hf. cbn [negb].
  pose proof (prepare_fits bl k st Hal Hnz Hmax Hno Hb Hk) as Hp. rewrite Hal, Hnew in Hp. rewrite Hp. reflexivity.
Qed.

Lemma write_block_duplicate lba data st fs : let bl := uf2_block_of data in
  aborted st = false -> uf2_current_lba_is_synthetic lba lba0 sectors = false -> is_uf2_block bl = true ->
  family_kind b (bl_familyID bl) = Some 1 -> bl_numBlocks bl <> 0 -> bl_numBlocks bl <= MAX_BLOCKS m ->
  bl_blockNo bl < bl_numBlocks bl -> numBlocks st = bl_numBlocks bl -> updateKind st = 1 ->
  mask_test (writtenMask st) (bl_blockNo bl) = true ->
  (USER_FLASH_START <= bl_targetAddr bl -> destination_holds bl fs = true) ->
  wb lba data st fs = (512, (st, fs)).
Proof.
  cbn zeta. set (bl := uf2_block_of data). intros Hal Hs Hu Hf Hnz Hmax Hno Hb Hk Hw Hd.
  unfold write_block. cbn zeta. fold bl. rewrite Hal, Hs, Hu, Hf. cbn [negb].
  pose proof (prepare_fits bl 1 st Hal Hnz Hmax Hno (or_intror Hb) (or_intror Hk)) as Hp.
  rewrite Hal, Hw in Hp. rewrite Hp.
  assert (destination_matches b reserved bl 1 (DFU_BANK_0_REGION_START (words_of fs)) fs = true) as ->.
  { unfold destination_matches, uf2_application_target_classify. cbn [Z.eqb Pos.eqb UF2_UPDATE_KIND_APPLICATION negb orb].
    destruct (Z.ltb_spec (bl_targetAddr bl) USER_FLASH_START); [done|]. rewrite Hd by done.
    by repeat case_match. }
  unfold uf2_transfer_validate_duplicate. rewrite andb_false_r. cbn [set_latched aborted].
  rewrite bool_decide_eq_false_2 by done. unfold BPB_SECTOR_SIZE. do 2 f_equal.
  destruct st; cbn in *. by subst.
Qed.
End Steps.

(** * The application invariant *)

(** The page of the application region with index [p], as [appErasedMask]
    counts them. *)
Definition page_addr (p : Z) : Z := USER_FLASH_START + p * PAGE.
Definition page_index (a : Z) : Z := (a - USER_FLASH_START) / CODE_PAGE_SIZE.
Definition in_page (p x : Z) : Prop := page_addr p <= x < page_addr p + PAGE.
Definition covers (bl : UF2_Block) (x : Z) : Prop := bl_targetAddr bl <= x < bl_targetAddr bl + 256.

Definition in_settings_word (m : mcu) (x : Z) : bool :=
  (BOOTLOADER_SETTINGS_ADDRESS m <=? x) && (x <? BOOTLOADER_SETTINGS_ADDRESS m + 4).

(** What the writer assumes of the device: the reserved pages fit, flash holds
    bytes, and a SoftDevice is installed below the page-aligned application
    base [A]. *)
Record device_ok (m : mcu) (reserved : Z) (m0 : mem) (A : Z) : Prop := {
  dv_reserved : 0 <= reserved /\ reserved mod PAGE = 0;
  dv_end : USER_FLASH_START + PAGE <= BOOTLOADER_ADDR_NEW_RECEIVED m reserved;
  dv_bytes : forall x, 0 <= m0 x < 256;
  dv_sd : is_sd_existed (mem_word m0) = true;
  dv_base : CODE_REGION_1_START (mem_word m0) = A;
  dv_low : 0x4000 <= A <= BOOTLOADER_ADDR_NEW_RECEIVED m reserved;
  dv_page : A mod PAGE = 0
}.

Section App.
Context `{Nvmc} (b : policy_build) (reserved ram_kb lba0 sectors : Z) (m0 : mem) (A : Z).
Hypothesis Hdev : device_ok (b_mcu b) reserved m0 A.
Abbreviation m := (b_mcu b).
Abbreviation wb := (write_block b reserved ram_kb lba0 sectors).
Abbreviation UEND := (USER_END b reserved).

(** [hist]: the blocks accepted so far, newest first. *)
Record app_masks (hist : list UF2_Block) (st : WriteState) : Prop := {
  am_wlen : lenZ (writtenMask st) = MAX_BLOCKS m / 8 + 1;
  am_tlen : lenZ (targetMask st) = (UF2_FLASH_BLOCK_COUNT m + 7) / 8;
  am_elen : lenZ (appErasedMask st) = (UF2_APP_PAGE_COUNT m reserved + 7) / 8;
  am_kind : updateKind st = 1 \/
            (updateKind st = 0 /\ numBlocks st = 0 /\ hist = [] /\ appSettingsInvalidated st = false);
  am_blocks : (numBlocks st = 0 /\ hist = []) \/ 0 < numBlocks st <= MAX_BLOCKS m;
  am_hist bl : bl ∈ hist -> block_wf bl /\ is_uf2_block bl = true /\ family_kind b (bl_familyID bl) = Some 1 /\
    bl_blockNo bl < numBlocks st /\ bl_targetAddr bl < UEND;
  am_nos : NoDup (bl_blockNo <$> hist);
  am_targets : NoDup (bl_targetAddr <$> hist);
  am_written i : 0 <= i -> mask_test (writtenMask st) i = true <-> i ∈ bl_blockNo <$> hist;
  am_count : numWritten st = lenZ hist;
  am_target t : 0 <= t -> mask_test (targetMask st) t = true <-> 256 * t ∈ bl_targetAddr <$> hist;
  am_max : (forall bl, bl ∈ hist -> A <= bl_targetAddr bl -> bl_targetAddr bl + 256 <= appMaximumWrittenEnd st) /\
           (appMaximumWrittenEnd st = 0 \/
            exists bl, bl ∈ hist /\ A <= bl_targetAddr bl /\ appMaximumWrittenEnd st = bl_targetAddr bl + 256);
  am_pages p : 0 <= p -> mask_test (appErasedMask st) p = true ->
    appSettingsInvalidated st = true /\ A <= page_addr p /\ page_addr p + PAGE <= UEND;
  am_erased bl : bl ∈ hist -> A <= bl_targetAddr bl ->
    mask_test (appErasedMask st) (page_index (bl_targetAddr bl)) = true
}.

Record app_flash (hist : list UF2_Block) (st : WriteState) (fm : mem) : Prop := {
  af_data bl : bl ∈ hist -> USER_FLASH_START <= bl_targetAddr bl -> mem_read fm (bl_targetAddr bl) 256 = payload bl;
  af_blank p x : 0 <= p -> mask_test (appErasedMask st) p = true -> in_page p x ->
    fm x = 255 \/ exists bl, bl ∈ hist /\ covers bl x;
  af_frame x : (forall p, 0 <= p -> mask_test (appErasedMask st) p = true -> ~ in_page p x) ->
    fm x = if appSettingsInvalidated st && in_settings_word m x then 0 else m0 x;
  af_bytes x : 0 <= fm x < 256
}.

Definition app_inv (hist : list UF2_Block) (st : WriteState) (fs : flash_state) : Prop :=
  app_masks hist st /\ app_flash hist st (fmem fs).

(** ** Geometry *)

Lemma m_facts : USER_FLASH_START = 4096 /\ UEND = BOOTLOADER_REGION_START m - reserved /\ UEND mod PAGE = 0 /\
  UEND <= BOOTLOADER_REGION_START m /\ 0x8000 <= UEND /\
  BOOTLOADER_REGION_START m + 0x2000 < BOOTLOADER_SETTINGS_ADDRESS m /\ BOOTLOADER_SETTINGS_ADDRESS m mod PAGE = 0 /\
  BOOTLOADER_SETTINGS_ADDRESS m + PAGE <= CFG_UF2_FLASH_SIZE m /\ CFG_UF2_FLASH_SIZE m mod 2048 = 0 /\
  CFG_UF2_FLASH_SIZE m <= 2 ^ 20.
Proof.
  destruct Hdev as [[Hr0 Hr1] He _ _ _ _ _].
  unfold USER_FLASH_START, USER_END, USER_FLASH_END, BOOTLOADER_ADDR_NEW_RECEIVED, USER_FLASH_END, MBR_SIZE, PAGE,
    DFU_BL_IMAGE_MAX_SIZE, BOOTLOADER_SETTINGS_ADDRESS, BOOTLOADER_MBR_PARAMS_PAGE_ADDRESS, BOOTLOADER_REGION_START,
    CFG_UF2_FLASH_SIZE in *.
  destruct m; split_and!; try lia; zlia.
Qed.

Lemma base_in : 0x4000 <= A <= UEND /\ A <= NEW_RECEIVED b reserved /\
  NEW_RECEIVED b reserved + DFU_BL_IMAGE_MAX_SIZE m = UEND /\ NEW_RECEIVED b reserved mod PAGE = 0.
Proof.
  pose proof m_facts as (_ & HE & HE2 & _). destruct Hdev as [_ _ _ _ _ [H1 H2] _].
  unfold NEW_RECEIVED, BOOTLOADER_ADDR_NEW_RECEIVED in *. fold UEND in *. change (USER_FLASH_END m reserved) with UEND in *.
  assert (DFU_BL_IMAGE_MAX_SIZE m mod PAGE = 0 /\ 0 < DFU_BL_IMAGE_MAX_SIZE m) as [? ?]
    by (unfold DFU_BL_IMAGE_MAX_SIZE; by destruct m).
  unfold PAGE in *. split_and!; try lia. zlia.
Qed.

(** A 256-byte block that starts in the region ends in it. *)
Lemma block_room a : a mod 256 = 0 -> a < UEND -> a + 256 <= UEND.
Proof. pose proof m_facts as (_ & _ & H2 & _). unfold PAGE in *. intros. zlia. Qed.

Lemma page_index_in a : A <= a -> 0 <= page_index a /\ in_page (page_index a) a /\
  (A mod PAGE = 0 -> A <= page_addr (page_index a)) /\ (a < UEND -> page_addr (page_index a) + PAGE <= UEND).
Proof.
  destruct Hdev as [_ _ _ _ _ Hl _]. pose proof m_facts as (H1 & _ & H2 & _). intros Ha.
  unfold page_index, in_page, page_addr, CODE_PAGE_SIZE, PAGE in *. rewrite H1 in *. zlia.
Qed.

Lemma page_unique p q x : in_page p x -> in_page q x -> p = q.
Proof. unfold in_page, page_addr, PAGE. lia. Qed.

(** A 256-byte block lies in one page. *)
Lemma covers_page bl x : bl_targetAddr bl mod 256 = 0 -> A <= bl_targetAddr bl -> covers bl x ->
  in_page (page_index (bl_targetAddr bl)) x.
Proof.
  intros Hm Ha Hx. destruct (page_index_in _ Ha) as (_ & Hp & _).
  pose proof m_facts as (H1 & _). unfold covers, in_page, page_addr, PAGE in *. rewrite H1 in *. zlia.
Qed.

(** Nothing below [A] or from [UEND] on changes, the settings word apart. *)
Lemma flash_outside hist st fm x : app_masks hist st -> app_flash hist st fm -> ~ (A <= x < UEND) ->
  fm x = if appSettingsInvalidated st && in_settings_word m x then 0 else m0 x.
Proof.
  intros Hm Hf Hx. apply (af_frame _ _ _ Hf). intros p Hp Ht Hin.
  destruct (am_pages _ _ Hm p Hp Ht) as (_ & ? & ?). unfold in_page in Hin. lia.
Qed.

Lemma mem_word_ext fm fm' a : (forall i, 0 <= i < 4 -> fm (a + i) = fm' (a + i)) -> mem_word fm a = mem_word fm' a.
Proof.
  intros E. pose proof (E 0 ltac:(lia)) as E0. rewrite !Z.add_0_r in E0.
  unfold mem_word. rewrite E0, !E by lia. done.
Qed.

(** The application base is read from pages the transfer never changes. *)
Lemma base_stable hist st fs : app_inv hist st fs -> DFU_BANK_0_REGION_START (words_of fs) = A.
Proof.
  intros [Hm Hf]. pose proof m_facts as (_ & HE & _ & HE2 & _ & HS & _).
  destruct Hdev as [_ _ _ Hsd Hb Hl _].
  assert (forall a, 0x3000 <= a < 0x3010 -> words_of fs a = mem_word m0 a) as Hw.
  { intros a Ha. apply mem_word_ext. intros i Hi. rewrite (flash_outside hist st) by (done || lia).
    unfold in_settings_word. range_case; [|by rewrite andb_false_r].
    unfold BOOTLOADER_REGION_START in *. destruct m; lia. }
  unfold DFU_BANK_0_REGION_START, CODE_REGION_1_START, is_sd_existed in *.
  change (MBR_SIZE + SOFTDEVICE_INFO_STRUCT_OFFSET + 4) with 0x3004 in *.
  change (MBR_SIZE + SD_SIZE_OFFSET) with 0x3008 in *. rewrite !Hw by lia. done.
Qed.

(** ** Steps that accept no block *)

Lemma initial_inv fs : fmem fs = m0 -> app_inv [] (uf2_transfer_reset m reserved) fs.
Proof.
  intros E. assert (forall n p, mask_test (replicate n 0) p = true -> False) as Hz
    by (intros n p; by rewrite mask_test_zero).
  assert (forall z, 0 <= z -> lenZ (replicate (Z.to_nat z) 0) = z) as Hl
    by (intros; unfold lenZ; rewrite length_replicate; lia).
  pose proof m_facts as (HU & HE & HE2 & _ & HE3 & _ & _ & _ & HF & _).
  unfold uf2_transfer_reset. split; split; cbn -[replicate MAX_BLOCKS UF2_FLASH_BLOCK_COUNT UF2_APP_PAGE_COUNT].
  - apply Hl. unfold MAX_BLOCKS, CFG_UF2_FLASH_SIZE. destruct m; zlia.
  - apply Hl. unfold UF2_FLASH_BLOCK_COUNT, CFG_UF2_FLASH_SIZE. destruct m; zlia.
  - apply Hl. unfold UF2_APP_PAGE_COUNT, CODE_PAGE_SIZE. fold (UEND). unfold USER_END in *. zlia.
  - auto.
  - auto.
  - intros bl Hi. inversion Hi.
  - constructor.
  - constructor.
  - intros i _. split; [by intros ?%Hz|]. intros Hi. inversion Hi.
  - done.
  - intros i _. split; [by intros ?%Hz|]. intros Hi. inversion Hi.
  - split; [|auto]. intros bl Hi. inversion Hi.
  - intros p _ ?%Hz. done.
  - intros bl Hi. inversion Hi.
  - intros bl Hi. inversion Hi.
  - intros p x _ ?%Hz. done.
  - intros x _. by rewrite E.
  - intros x. rewrite E. apply (dv_bytes _ _ _ _ Hdev).
Qed.

(** Latching the geometry, with or without an abort. *)
Lemma latch_inv hist st fs bl k nb uk ab : app_inv hist st fs -> block_wf bl ->
  latch_ok b bl k st nb uk ->
  (uk = updateKind st \/ mask_test (writtenMask st) (bl_blockNo bl) = true \/ (k = 1 /\ nb <> 0)) ->
  app_inv hist (set_latched nb uk ab st) fs.
Proof.
  intros [Hm Hf] Hwf (Hnb & Huk & Hz) Hd. destruct Hm, Hf. split; [|by split].
  assert (hist = [] \/ nb = numBlocks st) as Hc by (destruct Hnb as [->|(? & ->& ?)]; [auto|]; destruct am_blocks0 as [[]|]; [auto|lia]).
  split; try done; cbn [set_latched updateKind numBlocks appSettingsInvalidated].
  - destruct Huk as [->|[H0 ->]].
    + destruct am_kind0 as [->|(H0 & H1 & H2 & H3)]; [auto|]. rewrite H0 in *. right. split_and!; auto. by rewrite Hz.
    + destruct am_kind0 as [?|(_ & H1 & H2 & H3)]; [lia|]. destruct Hd as [->|[Hmt|[-> _]]]; [|exfalso|auto].
      * right. split_and!; auto. by rewrite Hz.
      * rewrite am_written0 in Hmt by apply Hwf. rewrite H2 in Hmt. inversion Hmt.
  - destruct Hnb as [->|(H0 & -> & ? & ?)]; [done|]. right. destruct Hwf. lia.
  - intros bl' Hin. destruct Hc as [->| ->]; [inversion Hin|auto].
Qed.

Lemma abort_inv hist st fs : app_inv hist st fs -> app_inv hist (set_aborted st) fs.
Proof. intros [[] []]. by split; split. Qed.

(** Invalidating the settings. *)
Lemma invalidate_inv hist st fs : app_inv hist st fs -> updateKind st = 1 -> appSettingsInvalidated st = false ->
  app_inv hist (set_app_flash true (appErasedMask st) st)
    (flash_nrf5x_invalidate_app_settings m (flash_nrf5x_discard fs)).
Proof.
  intros [Hm Hf] Hk Hi. pose proof m_facts as (HU & HE & HE2 & HE3 & HE4 & HS & HSp & _).
  destruct Hm, Hf. set (fs' := flash_nrf5x_invalidate_app_settings _ _).
  assert (forall x, fmem fs' x = if in_settings_word m x then 0 else fmem fs x) as Hx.
  { intros x. cbn [fs' flash_nrf5x_invalidate_app_settings flash_nrf5x_discard fmem].
    rewrite words_write_spec by (done || unfold PAGE in *; zlia). change (lenZ (bytes32 0)) with 4.
    unfold in_settings_word. range_case; [|done].
    assert (nthZ (bytes32 0) (x - BOOTLOADER_SETTINGS_ADDRESS m) = 0) as ->; [|by rewrite Z.land_0_r].
    assert (x - BOOTLOADER_SETTINGS_ADDRESS m = 0 \/ x - BOOTLOADER_SETTINGS_ADDRESS m = 1 \/
            x - BOOTLOADER_SETTINGS_ADDRESS m = 2 \/ x - BOOTLOADER_SETTINGS_ADDRESS m = 3) as Hc by lia.
    by destruct Hc as [->|[->|[->| ->]]]. }
  assert (forall p, 0 <= p -> mask_test (appErasedMask st) p = true -> False) as Hno.
  { intros p Hp Ht. destruct (am_pages0 p Hp Ht) as (Ht' & _). congruence. }
  assert (forall x, fmem fs x = m0 x) as Hfr.
  { intros x. rewrite af_frame0 by (intros p Hp Ht; exfalso; eauto). by rewrite Hi. }
  split; split; try done; cbn [set_app_flash updateKind numBlocks appSettingsInvalidated appErasedMask].
  - auto.
  - intros p Hp Ht. exfalso. eauto.
  - intros bl Hb Hst. rewrite <- af_data0 by done. apply mem_read_ext. intros x Hxr. rewrite Hx.
    unfold in_settings_word. range_case; [|done].
    destruct (am_hist0 bl Hb) as (Hw & Hu & _ & _ & Ht).
    apply is_uf2_target in Hu as [Hu _]. pose proof (block_room _ Hu Ht). lia.
  - intros p x Hp Ht. exfalso. eauto.
  - intros x _. rewrite Hx, Hfr. unfold in_settings_word. done.
  - intros x. rewrite Hx. case_match; [lia|apply af_bytes0].
Qed.

(** Erasing the page of a target. *)
Lemma erase_page_spec fs a x : A <= a < UEND ->
  fmem (flash_nrf5x_erase fs a CODE_PAGE_SIZE) x =
    if bool_decide (in_page (page_index a) x) then 255 else fmem fs x.
Proof.
  intros Ha. pose proof m_facts as (HU & _ & HE2 & HE3 & _ & HS & _ & HF & _ & HF2).
  destruct Hdev as [_ _ _ _ _ Hl _].
  assert (page_of a = page_addr (page_index a)) as Hp.
  { rewrite page_of_eq by (unfold PAGE in *; lia). unfold page_addr, page_index, CODE_PAGE_SIZE, PAGE. rewrite HU. zlia. }
  cbn [flash_nrf5x_erase fmem]. change (Z.to_nat (ceil_div CODE_PAGE_SIZE CODE_PAGE_SIZE)) with 1%nat.
  destruct (page_index_in a) as (H0 & Hin & _ & He); [lia|]. specialize (He (proj2 Ha)).
  rewrite Hp, erase_pages_spec; try (unfold page_addr, PAGE in *; rewrite HU in *; zlia).
  rewrite Z.mul_0_l, Z.add_0_r. change (0 + Z.of_nat 1) with 1. rewrite Z.mul_1_l.
  unfold in_page. range_case; case_bool_decide; (done || lia).
Qed.

Lemma mask_pos_pages a : A <= a < UEND -> page_index a / 8 < (UF2_APP_PAGE_COUNT m reserved + 7) / 8.
Proof.
  intros Ha. pose proof m_facts as (HU & _ & HE2 & _). destruct Hdev as [_ _ _ _ _ Hl _].
  unfold page_index, UF2_APP_PAGE_COUNT, CODE_PAGE_SIZE, PAGE in *. fold UEND. fold (USER_END b reserved).
  rewrite HU in *. zlia.
Qed.

Lemma erase_inv hist st fs a : app_inv hist st fs -> updateKind st = 1 -> appSettingsInvalidated st = true ->
  A <= a < UEND -> a mod 256 = 0 -> mask_test (appErasedMask st) (page_index a) = false ->
  app_inv hist (set_app_flash true (mask_set (appErasedMask st) (page_index a)) st)
    (flash_nrf5x_erase fs a CODE_PAGE_SIZE).
Proof.
  intros [Hm Hf] Hk Hi Ha Ha2 Hnew. pose proof (dv_page _ _ _ _ Hdev) as HpA.
  destruct (page_index_in a) as (H0 & Hin & Hlo & Hhi); [lia|]. specialize (Hlo HpA). specialize (Hhi (proj2 Ha)).
  assert (forall p, 0 <= p -> mask_test (mask_set (appErasedMask st) (page_index a)) p =
    (page_index a =? p) || mask_test (appErasedMask st) p) as Hms.
  { intros p Hp. apply mask_test_set; try done. rewrite (am_elen _ _ Hm). by apply mask_pos_pages. }
  destruct Hm, Hf. set (fs' := flash_nrf5x_erase _ _ _).
  assert (forall x, fmem fs' x = if bool_decide (in_page (page_index a) x) then 255 else fmem fs x) as Hx
    by (intros; by apply erase_page_spec).
  split; split; try done; cbn [set_app_flash updateKind numBlocks appSettingsInvalidated appErasedMask].
  - by rewrite lenZ_mask_set.
  - auto.
  - intros p Hp Ht. rewrite Hms in Ht by done. apply orb_prop in Ht as [Ht|Ht]; [|by destruct (am_pages0 _ Hp Ht) as (_ & ?)].
    apply Z.eqb_eq in Ht as <-. auto.
  - intros bl Hb Hba. pose proof (proj1 (page_index_in _ Hba)).
    rewrite Hms, am_erased0 by done. apply orb_true_r.
  - intros bl Hb Hst. rewrite <- af_data0 by done. apply mem_read_ext. intros x Hxr. rewrite Hx.
    case_bool_decide as Hpx; [|done]. exfalso. destruct (am_hist0 bl Hb) as (Hw & Hu & _ & _ & Ht).
    apply is_uf2_target in Hu as [Hu _]. destruct (decide (A <= bl_targetAddr bl)) as [HA|HA].
    + pose proof (covers_page bl x Hu HA Hxr) as Hc. pose proof (page_unique _ _ _ Hpx Hc) as E.
      specialize (am_erased0 bl Hb HA). congruence.
    + assert (bl_targetAddr bl + 256 <= A) by (unfold PAGE in *; zlia). unfold in_page in Hpx. lia.
  - intros p x Hp Ht Hpx. rewrite Hx. case_bool_decide as Hc; [auto|].
    rewrite Hms in Ht by done. apply orb_prop in Ht as [Ht|Ht]; [|by eapply af_blank0].
    apply Z.eqb_eq in Ht as <-. done.
  - intros x Hno. rewrite Hx. case_bool_decide as Hc.
    + exfalso. apply (Hno (page_index a)); try done. rewrite Hms by done. by rewrite Z.eqb_refl.
    + rewrite <- Hi. apply af_frame0. intros p Hp Ht. apply Hno; [done|]. rewrite Hms, Ht by done. apply orb_true_r.
  - intros x. rewrite Hx. case_bool_decide; [lia|auto].
Qed.

(** ** Accepting a block *)

Lemma commit_fields bl st : let st' := commit_block bl 1 A st in
  numBlocks st' = numBlocks st /\ updateKind st' = updateKind st /\ aborted st' = aborted st /\
  appSettingsInvalidated st' = appSettingsInvalidated st /\ appErasedMask st' = appErasedMask st /\
  targetMask st' = mask_set (targetMask st) (bl_targetAddr bl / 256).
Proof. unfold commit_block. cbn zeta. by destruct (uf2_transfer_commit _ _ _). Qed.

(** The flash [fm'] holds the block and is otherwise what [fm] was. *)
Record stored (bl : UF2_Block) (st : WriteState) (fm fm' : mem) : Prop := {
  sd_data : USER_FLASH_START <= bl_targetAddr bl -> mem_read fm' (bl_targetAddr bl) 256 = payload bl;
  sd_frame x : ~ covers bl x -> fm' x = fm x;
  sd_low x : bl_targetAddr bl < A -> fm' x = fm x;
  sd_page : A <= bl_targetAddr bl -> mask_test (appErasedMask st) (page_index (bl_targetAddr bl)) = true;
  sd_bytes x : 0 <= fm' x < 256
}.

Lemma commit_masks hist st bl : app_masks hist st -> updateKind st = 1 -> numBlocks st = bl_numBlocks bl ->
  block_wf bl -> is_uf2_block bl = true -> family_kind b (bl_familyID bl) = Some 1 ->
  0 < bl_numBlocks bl <= MAX_BLOCKS m -> bl_blockNo bl < bl_numBlocks bl ->
  mask_test (writtenMask st) (bl_blockNo bl) = false -> bl_targetAddr bl < UEND ->
  mask_test (targetMask st) (bl_targetAddr bl / 256) = false ->
  (A <= bl_targetAddr bl -> mask_test (appErasedMask st) (page_index (bl_targetAddr bl)) = true) ->
  app_masks (bl :: hist) (commit_block bl 1 A st).
Proof.
  intros Hm Hk Hn Hwf Hu Hfam Hnb Hno Hw Ht Htm Hpg. pose proof (is_uf2_target bl Hu) as [Hal _].
  pose proof m_facts as (HU & HE & HE2 & HE3 & HE4 & HS & HSp & HF & HFm & HF2).
  pose proof (block_room _ Hal Ht) as Hroom.
  destruct Hwf as [Ht0 Hb0 ? ? ?]. destruct Hm.
  assert (bl_blockNo bl ∉ bl_blockNo <$> hist) as Hnew.
  { intros Hin. apply am_written0 in Hin; [congruence|done]. }
  assert (bl_targetAddr bl ∉ bl_targetAddr <$> hist) as Hnewt.
  { intros Hin. assert (0 <= bl_targetAddr bl / 256) as Hq by zlia. specialize (am_target0 _ Hq).
    replace (256 * (bl_targetAddr bl / 256)) with (bl_targetAddr bl) in am_target0 by zlia.
    apply am_target0 in Hin. congruence. }
  assert (forall i, 0 <= i -> mask_test (mask_set (writtenMask st) (bl_blockNo bl)) i =
            (bl_blockNo bl =? i) || mask_test (writtenMask st) i) as Hws.
  { intros i Hi. apply mask_test_set; try done. rewrite am_wlen0. zlia. }
  assert (forall i, 0 <= i -> mask_test (mask_set (targetMask st) (bl_targetAddr bl / 256)) i =
            (bl_targetAddr bl / 256 =? i) || mask_test (targetMask st) i) as Hts.
  { intros i Hi. apply mask_test_set; try done; [zlia|]. rewrite am_tlen0. unfold UF2_FLASH_BLOCK_COUNT.
    unfold PAGE in *. zlia. }
  assert (0 <= lenZ hist <= MAX_BLOCKS m) as Hcount.
  { split; [apply lenZ_nonneg|]. destruct am_blocks0 as [[_ ->]|[Hp Hle]]; [rewrite lenZ_nil; lia|].
    transitivity (numBlocks st); [|done]. unfold lenZ. rewrite <- (length_fmap bl_blockNo). apply count_le; [done| |lia].
    intros i Hi. apply list_elem_of_fmap in Hi as (bl' & -> & Hi). destruct (am_hist0 bl' Hi) as ([] & _ & _ & ? & _). lia. }
  assert (MAX_BLOCKS m < 2 ^ 31) by (unfold MAX_BLOCKS; zlia).
  unfold commit_block, uf2_transfer_commit, uf2_transfer_target_commit, UF2_TRANSFER_BLOCK_SIZE, UF2_FIRMWARE_BYTES_PER_SECTOR.
  cbn [Z.eqb Pos.eqb UF2_UPDATE_KIND_APPLICATION set_target writtenMask numWritten]. rewrite Hw. cbn [negb].
  rewrite (u32_small (bl_targetAddr bl + 256)), (u32_small (numWritten st + 1)) by (unfold PAGE in *; lia).
  split; cbn [set_written set_target writtenMask targetMask appErasedMask updateKind numBlocks appSettingsInvalidated
              numWritten appMaximumWrittenEnd]; rewrite ?lenZ_mask_set, ?fmap_cons; auto.
  - right. lia.
  - intros bl' Hin. apply elem_of_cons in Hin as [->|Hin]; [|auto]. split_and!; auto; [by split|lia].
  - by constructor.
  - by constructor.
  - intros i Hi. rewrite Hws, elem_of_cons, <- am_written0, orb_true_iff, Z.eqb_eq by done. intuition.
  - rewrite lenZ_cons, am_count0. lia.
  - intros i Hi. rewrite Hts, elem_of_cons, <- am_target0, orb_true_iff, Z.eqb_eq by done.
    assert (bl_targetAddr bl / 256 = i <-> 256 * i = bl_targetAddr bl) as -> by zlia. reflexivity.
  - destruct am_max0 as [Hmx Hex]. rewrite Z.geb_leb, Z.gtb_ltb.
    destruct (Z.leb_spec A (bl_targetAddr bl)); cbn [andb].
    + destruct (Z.ltb_spec (appMaximumWrittenEnd st) (bl_targetAddr bl + 256)).
      * split; [|right; exists bl; split_and!; [constructor|done|done]].
        intros bl' Hin Ha. apply elem_of_cons in Hin as [->|Hin]; [lia|]. specialize (Hmx _ Hin Ha). lia.
      * split.
        { intros bl' Hin Ha. apply elem_of_cons in Hin as [->|Hin]; [lia|]. by apply Hmx. }
        destruct Hex as [?|(bl' & ? & ?)]; [left; lia|]. right. exists bl'. split; [by constructor|done].
    + split.
      { intros bl' Hin Ha. apply elem_of_cons in Hin as [->|Hin]; [lia|]. by apply Hmx. }
      destruct Hex as [?|(bl' & ? & ?)]; [by left|]. right. exists bl'. split; [by constructor|done].
  - intros bl' Hin Ha. apply elem_of_cons in Hin as [->|Hin]; auto.
Qed.

Lemma commit_flash hist st bl fm fm' : app_masks hist st -> app_flash hist st fm -> stored bl st fm fm' ->
  bl_targetAddr bl mod 256 = 0 -> bl_targetAddr bl < UEND ->
  (forall bl', bl' ∈ hist -> bl_targetAddr bl' <> bl_targetAddr bl) ->
  app_flash (bl :: hist) (commit_block bl 1 A st) fm'.
Proof.
  intros Hm Hf [] Hal Ht Hne. pose proof m_facts as (HU & _).
  destruct (commit_fields bl st) as (_ & _ & _ & Ei & Ee & _). destruct Hf.
  split; rewrite ?Ei, ?Ee.
  - intros bl' Hin Hst. apply elem_of_cons in Hin as [->|Hin]; [auto|].
    rewrite <- (af_data0 bl') by done. apply mem_read_ext. intros x Hx. apply sd_frame0. unfold covers.
    specialize (Hne _ Hin). destruct (am_hist _ _ Hm _ Hin) as (_ & Hu & _). apply is_uf2_target in Hu as [Hu _]. zlia.
  - intros p x Hp Hpt Hpx. destruct (decide (bl_targetAddr bl <= x < bl_targetAddr bl + 256)) as [Hc|Hc].
    + right. exists bl. split; [constructor|done].
    + rewrite sd_frame0 by done. destruct (af_blank0 p x) as [?|(bl' & ? & ?)]; auto.
      right. exists bl'. split; [by constructor|done].
  - intros x Hno. destruct (decide (A <= bl_targetAddr bl)) as [HA|HA].
    + rewrite sd_frame0; [by apply af_frame0|]. intros Hc. destruct (page_index_in _ HA) as (H0 & _).
      apply (Hno (page_index (bl_targetAddr bl))); auto. by apply covers_page.
    + rewrite sd_low0 by lia. by apply af_frame0.
  - done.
Qed.

(** Programming a block of an erased page stores it. *)
Lemma program_stored hist st fs bl : app_inv hist st fs -> block_wf bl -> is_uf2_block bl = true ->
  A <= bl_targetAddr bl < UEND -> mask_test (appErasedMask st) (page_index (bl_targetAddr bl)) = true ->
  (forall bl', bl' ∈ hist -> bl_targetAddr bl' <> bl_targetAddr bl) ->
  stored bl st (fmem fs)
    (fmem (flash_nrf5x_write_erased fs (bl_targetAddr bl) (bl_data bl) (bl_payloadSize bl))).
Proof.
  intros [Hm Hf] Hwf Hu Ha Hpg Hne. pose proof (is_uf2_target bl Hu) as [Hal Hps]. rewrite Hps.
  pose proof (lenZ_payload bl Hwf) as Hlp. pose proof (payload_bytes bl Hwf) as Hbp.
  cbn [flash_nrf5x_write_erased fmem]. change (256 / 4 * 4) with 256. fold (payload bl).
  assert (forall x, nvmc_words_write (fmem fs) (bl_targetAddr bl) (payload bl) x =
    if (bl_targetAddr bl <=? x) && (x <? bl_targetAddr bl + 256) then nthZ (payload bl) (x - bl_targetAddr bl)
    else fmem fs x) as Hw.
  { intros x. rewrite words_write_spec by (rewrite ?Hlp; zlia). rewrite Hlp. range_case; [|done].
    assert (fmem fs x = 255) as ->; [|apply land_bytes_255; by apply nthZ_byte].
    assert (covers bl x) as Hc by done. pose proof (covers_page bl x Hal (proj1 Ha) Hc) as Hp.
    destruct (page_index_in _ (proj1 Ha)) as (H0 & _).
    destruct (af_blank _ _ _ Hf _ x H0 Hpg Hp) as [?|(bl' & Hin & Hc')]; [done|]. exfalso.
    apply (Hne bl' Hin). destruct (am_hist _ _ Hm _ Hin) as (_ & Hu' & _). apply is_uf2_target in Hu' as [Hal' _].
    unfold covers in *. zlia. }
  split.
  - intros _. rewrite <- Hlp. apply mem_read_eq. intros i Hi. rewrite Hw. range_case; [|lia]. f_equal. lia.
  - intros x Hx. rewrite Hw. unfold covers in Hx. range_case; [lia|done].
  - intros x Hx. lia.
  - done.
  - intros x. rewrite Hw. range_case; [|apply (af_bytes _ _ _ Hf)]. by apply (nthZ_byte (payload bl)).
Qed.

(** A block outside the writable region only has to match what is there. *)
Lemma same_stored st fs bl : is_uf2_block bl = true -> bl_targetAddr bl < A ->
  (USER_FLASH_START <= bl_targetAddr bl -> destination_holds bl fs = true) ->
  (forall x, 0 <= fmem fs x < 256) -> stored bl st (fmem fs) (fmem fs).
Proof.
  intros Hu Ha Hd Hb. apply is_uf2_target in Hu as [_ Hps]. split; try done; [|lia].
  intros Hs. specialize (Hd Hs). unfold destination_holds in Hd. rewrite Hps in Hd. by apply bytes_eqb_eq in Hd.
Qed.

Lemma complete_inv hist st fs : app_inv hist st fs ->
  let s := complete_application b reserved ram_kb A st fs in app_inv hist (fst s) (snd s).
Proof.
  intros [[] []]. unfold complete_application. cbn zeta.
  destruct (if A <? UEND then _ else _) as [sp rv].
  destruct (negb _); [by split; split|]. destruct (uf2_application_finalize _ _ _ _ _ _ _ _); by split; split.
Qed.

(** ** A fresh application block *)

(** The state after the switch, before completion. *)
Definition abort_cause (bl : UF2_Block) (st : WriteState) (fs : flash_state) : Prop :=
  aborted st = true \/ UEND <= bl_targetAddr bl \/ mask_test (targetMask st) (bl_targetAddr bl / 256) = true \/
  (USER_FLASH_START <= bl_targetAddr bl < A /\ destination_holds bl fs = false).

Inductive app_block (bl : UF2_Block) (st : WriteState) (fs : flash_state) : Z -> WriteState -> flash_state -> Prop :=
| Ab_abort : abort_cause bl st fs -> app_block bl st fs (-1) (set_aborted st) fs
| Ab_invalidate : appSettingsInvalidated st = false ->
    app_block bl st fs 0 (set_app_flash true (appErasedMask st) st)
      (flash_nrf5x_invalidate_app_settings m (flash_nrf5x_discard fs))
| Ab_erase : appSettingsInvalidated st = true -> A <= bl_targetAddr bl < UEND ->
    mask_test (appErasedMask st) (page_index (bl_targetAddr bl)) = false ->
    app_block bl st fs 0 (set_app_flash true (mask_set (appErasedMask st) (page_index (bl_targetAddr bl))) st)
      (flash_nrf5x_erase fs (bl_targetAddr bl) CODE_PAGE_SIZE)
| Ab_commit fs' : stored bl st (fmem fs) (fmem fs') -> bl_targetAddr bl < UEND ->
    mask_test (targetMask st) (bl_targetAddr bl / 256) = false ->
    app_block bl st fs 512 (commit_block bl 1 A st) fs'.

Lemma set_app_flash_id st : set_app_flash (appSettingsInvalidated st) (appErasedMask st) st = st.
Proof. by destruct st. Qed.

Definition finish (st : WriteState) (fs : flash_state) : WriteState * flash_state :=
  if numWritten st >=? numBlocks st then complete_application b reserved ram_kb A st fs else (st, fs).

Lemma target_prepare_spec hist st bl : app_masks hist st -> block_wf bl -> bl_targetAddr bl mod 256 = 0 ->
  bl_targetAddr bl < UEND ->
  uf2_transfer_target_prepare (bl_targetAddr bl) (CFG_UF2_FLASH_SIZE m) (targetMask st) (lenZ (targetMask st)) (aborted st) =
    negb (aborted st || mask_test (targetMask st) (bl_targetAddr bl / 256)).
Proof.
  intros Hm [] Hal Ht. pose proof m_facts as (_ & _ & _ & HE3 & _ & HS & _ & HF & HFm & _).
  unfold uf2_transfer_target_prepare, UF2_TRANSFER_BLOCK_SIZE. change (256 - 1) with 255.
  rewrite land_255, Hal, (am_tlen _ _ Hm), !Z.geb_leb. cbn [Z.eqb negb].
  assert ((CFG_UF2_FLASH_SIZE m <=? bl_targetAddr bl) = false) as -> by (apply Z.leb_gt; unfold PAGE in *; lia).
  assert (((UF2_FLASH_BLOCK_COUNT m + 7) / 8 <=? bl_targetAddr bl / 256 / 8) = false) as ->.
  { apply Z.leb_gt. unfold UF2_FLASH_BLOCK_COUNT. unfold PAGE in *. zlia. }
  destruct (aborted st); [done|]. cbn [orb]. by destruct (mask_test _ _).
Qed.

Lemma accept_app hist st fs bl : app_inv hist st fs -> updateKind st = 1 -> block_wf bl -> is_uf2_block bl = true ->
  exists z st1 fs1, app_block bl st fs z st1 fs1 /\
    accept_block b reserved ram_kb bl 1 st fs = (z, if z =? 512 then finish st1 fs1 else (st1, fs1)).
Proof.
  intros Hinv Hk Hwf Hu. pose proof (base_stable hist st fs Hinv) as HA. pose proof (is_uf2_target bl Hu) as [Hal Hps].
  pose proof m_facts as (HU & _). pose proof base_in as (Hlow & _). destruct Hinv as [Hm Hf].
  unfold accept_block. rewrite HA. change (1 =? UF2_UPDATE_KIND_APPLICATION) with true. cbn match.
  unfold write_app_block, uf2_application_target_classify.
  set (bad := (bl_targetAddr bl <? UEND) && _).
  destruct bad eqn:Hbad.
  { exists (-1), (set_aborted st), fs. split; [|done]. constructor. unfold bad in Hbad. bool_cases.
    rewrite (target_prepare_spec hist) in * by done. bool_cases.
    destruct (aborted st) eqn:Hab0; [by left|]. right. right. left.
    by destruct (mask_test _ _). }
  assert (forall st1 fs1, updateKind st1 = 1 ->
    (if updateKind st1 =? UF2_UPDATE_KIND_BOOTLOADER then complete_bootloader b reserved st1 fs1
     else complete_application b reserved ram_kb A st1 fs1) = complete_application b reserved ram_kb A st1 fs1) as Hcomp
    by (by intros st1 fs1 ->).
  assert (forall st1 fs1, updateKind st1 = 1 ->
    (BPB_SECTOR_SIZE, if numWritten (commit_block bl 1 A st1) >=? numBlocks (commit_block bl 1 A st1)
       then if updateKind (commit_block bl 1 A st1) =? UF2_UPDATE_KIND_BOOTLOADER
            then complete_bootloader b reserved (commit_block bl 1 A st1) fs1
            else complete_application b reserved ram_kb A (commit_block bl 1 A st1) fs1
       else (commit_block bl 1 A st1, fs1)) =
    (512, if 512 =? 512 then finish (commit_block bl 1 A st1) fs1 else (commit_block bl 1 A st1, fs1))) as Hgo.
  { intros st1 fs1 Hk1. unfold finish. change (512 =? 512) with true. rewrite Hcomp; [done|].
    by destruct (commit_fields bl st1) as (_ & -> & _). }
  destruct (Z.ltb_spec (bl_targetAddr bl) UEND) as [HtE|HtE]; cbn [andb] in bad.
  2: { exists (-1), (set_aborted st), fs. split; [constructor; right; by left|].
       change (USER_FLASH_END m reserved) with UEND in *.
       assert ((bl_targetAddr bl <? USER_FLASH_START) = false) as -> by (apply Z.ltb_ge; lia).
       assert ((bl_targetAddr bl <? A) = false) as -> by (apply Z.ltb_ge; lia).
       done. }
  assert (mask_test (targetMask st) (bl_targetAddr bl / 256) = false) as Htm.
  { unfold bad in Hbad. rewrite (target_prepare_spec hist) in Hbad by done.
    rewrite negb_involutive in Hbad. by apply orb_false_elim in Hbad as [_ ?]. }
  destruct (Z.ltb_spec (bl_targetAddr bl) USER_FLASH_START).
  { exists 512, (commit_block bl 1 A st), fs. split; [|by apply Hgo].
    constructor; [|done..]. apply same_stored; [done|lia|lia|apply (af_bytes _ _ _ Hf)]. }
  destruct (Z.ltb_spec (bl_targetAddr bl) A).
  { destruct (destination_holds bl fs) eqn:Hd; cbn [negb].
    - exists 512, (commit_block bl 1 A st), fs. split; [|by apply Hgo].
      constructor; [|done..]. apply same_stored; [done|lia|done|apply (af_bytes _ _ _ Hf)].
    - exists (-1), (set_aborted st), fs. split; [|done]. constructor. right. right. right. done. }
  unfold prepare_app_block, uf2_app_flash_next_action. fold (page_index (bl_targetAddr bl)).
  destruct (appSettingsInvalidated st) eqn:Hi; cbn [negb].
  2: { eexists 0, _, _. split; [by apply Ab_invalidate|done]. }
  destruct (mask_test (appErasedMask st) _) eqn:Hpg; cbn [negb].
  2: { eexists 0, _, _. split; [apply Ab_erase; (done || lia)|done]. }
  exists 512, (commit_block bl 1 A st), (flash_nrf5x_write_erased fs (bl_targetAddr bl) (bl_data bl) (bl_payloadSize bl)).
  rewrite <- Hi, set_app_flash_id. split; [|by apply Hgo].
  constructor; [|done..]. eapply program_stored; try done. intros bl' Hin E.
  destruct Hwf. assert (0 <= bl_targetAddr bl / 256) as Hq by zlia.
  assert (mask_test (targetMask st) (bl_targetAddr bl / 256) = true) as Hc; [|congruence].
  apply (am_target _ _ Hm); [done|]. replace (256 * (bl_targetAddr bl / 256)) with (bl_targetAddr bl) by zlia.
  apply list_elem_of_fmap. eauto.
Qed.

(** ** Completion *)

Definition RAM_END : Z := u32 (0x20000000 + u32 (Z.shiftl ram_kb 10)).

(** What a validated application has passed. *)
Definition app_final (st : WriteState) (fm : mem) : Prop :=
  appValidated st = true ->
  numWritten st = numBlocks st /\ 0 < numBlocks st /\ appSettingsInvalidated st = true /\ appStart st = A /\
  uf2_application_finalize (targetMask st) (lenZ (targetMask st)) A UEND (appMaximumWrittenEnd st)
    (if A <? UEND then mem_word fm A else 0) (if A <? UEND then mem_word fm (A + 4) else 0) RAM_END = Some (appSize st).

Lemma hist_range hist st k : app_masks hist st -> k ∈ bl_blockNo <$> hist -> 0 <= k < numBlocks st.
Proof.
  intros Hm Hi. apply list_elem_of_fmap in Hi as (bl' & -> & Hi).
  destruct (am_hist _ _ Hm bl' Hi) as ([] & _ & _ & ? & _). lia.
Qed.

Lemma hist_count hist st : app_masks hist st -> lenZ hist <= numBlocks st \/ hist = [].
Proof.
  intros Hm. destruct (am_blocks _ _ Hm) as [[_ ?]|[Hp _]]; [auto|]. left.
  unfold lenZ. rewrite <- (length_fmap bl_blockNo).
  apply count_le; [apply (am_nos _ _ Hm)| |lia]. intros k. by apply hist_range.
Qed.

(** Once every block is counted, no block number is new. *)
Lemma all_written hist st i : app_masks hist st -> numWritten st = numBlocks st -> 0 <= i < numBlocks st ->
  mask_test (writtenMask st) i = true.
Proof.
  intros Hm Hn Hi. apply (am_written _ _ Hm); [lia|]. eapply count_full; [apply (am_nos _ _ Hm)| | |exact Hi].
  - intros k. by apply hist_range.
  - rewrite (am_count _ _ Hm) in Hn. unfold lenZ in *. by rewrite length_fmap.
Qed.

Lemma finish_inv hist st fs : app_inv hist st fs -> appValidated st = false -> 0 < numBlocks st ->
  let s := finish st fs in app_inv hist (fst s) (snd s) /\ app_final (fst s) (fmem (snd s)).
Proof.
  intros Hinv Hv Hn. unfold finish. cbn zeta. destruct (Z.geb_spec (numWritten st) (numBlocks st)).
  2: { split; [done|]. cbn. intros Hc. congruence. }
  split; [by apply complete_inv|]. unfold complete_application. cbn zeta.
  assert ((if A <? UEND then (words_of (flash_nrf5x_discard fs) A, words_of (flash_nrf5x_discard fs) (A + 4)) else (0, 0)) =
    ((if A <? UEND then mem_word (fmem fs) A else 0), (if A <? UEND then mem_word (fmem fs) (A + 4) else 0))) as ->
    by (by destruct (A <? UEND)).
  destruct (appSettingsInvalidated st) eqn:Hi; cbn [negb fst snd].
  2: { unfold app_final. cbn. intros Hc. congruence. }
  destruct (uf2_application_finalize _ _ _ _ _ _ _ _) as [size|] eqn:Hf; cbn [fst snd]; unfold app_final; cbn.
  2: { intros Hc. congruence. }
  intros _. destruct Hinv as [Hm _]. pose proof (hist_count _ _ Hm). pose proof (am_count _ _ Hm) as Hc.
  assert (numWritten st <= numBlocks st).
  { destruct (hist_count _ _ Hm) as [?| ->]; [lia|]. rewrite lenZ_nil in Hc. lia. }
  split_and!; try done. lia.
Qed.

(** ** One sector, and a whole transfer *)

Lemma app_block_inv hist st fs bl z st1 fs1 : app_inv hist st fs -> updateKind st = 1 ->
  numBlocks st = bl_numBlocks bl -> block_wf bl -> is_uf2_block bl = true ->
  family_kind b (bl_familyID bl) = Some 1 -> 0 < bl_numBlocks bl <= MAX_BLOCKS m -> bl_blockNo bl < bl_numBlocks bl ->
  mask_test (writtenMask st) (bl_blockNo bl) = false ->
  app_block bl st fs z st1 fs1 ->
  app_inv (if z =? 512 then bl :: hist else hist) st1 fs1 /\ numBlocks st1 = numBlocks st /\
  appValidated st1 = appValidated st /\ updateKind st1 = 1.
Proof.
  intros Hinv Hk Hnb Hwf Hu Hfam Hb Hno Hw Hab. pose proof (is_uf2_target bl Hu) as [Hal _].
  destruct Hab as [|Hi|Hi Ha Hpg|fs' Hs Ht Htm]; cbn [Z.eqb Pos.eqb].
  - split; [by apply abort_inv|done].
  - split; [by apply invalidate_inv|done].
  - split; [by apply erase_inv|done].
  - split; [|unfold commit_block; by destruct (uf2_transfer_commit _ _ _)]. destruct Hinv as [Hm Hf].
    split; [apply commit_masks; try done; by apply (sd_page _ _ _ _ Hs)|].
    eapply commit_flash; try done. intros bl' Hin E.
    destruct Hwf. assert (0 <= bl_targetAddr bl / 256) as Hq by zlia.
    assert (mask_test (targetMask st) (bl_targetAddr bl / 256) = true) as Hc; [|congruence].
    apply (am_target _ _ Hm); [done|]. replace (256 * (bl_targetAddr bl / 256)) with (bl_targetAddr bl) by zlia.
    apply list_elem_of_fmap. eauto.
Qed.

Lemma app_sector hist st fs lba data : app_inv hist st fs -> app_final st (fmem fs) -> sector_ok data ->
  let '(z, (st', fs')) := wb lba data st fs in
  (exists hist', app_inv hist' st' fs' /\ app_final st' (fmem fs') /\ (updateKind st' = 0 -> fs' = fs /\ exists ab, st' = set_latched (numBlocks st) (updateKind st) ab st) /\
     (hist' = hist \/ (z = 512 /\ hist' = uf2_block_of data :: hist))) \/
  (fresh_block b (uf2_block_of data) 2 st /\ updateKind st = 0 /\ uf2_current_lba_is_synthetic lba lba0 sectors = false).
Proof.
  intros Hinv Hfin Hs. pose proof (uf2_block_of_wf data Hs) as Hwf.
  destruct (write_block_cases b reserved ram_kb lba0 sectors lba data st fs) as
    [(z & nb & uk & ab & k & -> & Hl & Hd & Hk & _)|(k & Hfr & Hsyn & ->)].
  { left. exists hist. split; [|split; [|split; [|by left]]].
    - eapply latch_inv; try done. destruct Hd; auto.
    - intros Hv. destruct (Hfin Hv) as (H1 & H2 & H3). cbn [set_latched numWritten numBlocks].
      destruct Hl as ([->|[? _]] & _); [done|lia].
    - cbn. intros E. split; [done|]. exists ab. destruct Hl as (_ & [Huk|[_ Huk]] & Hz); [|lia].
      by rewrite <- Huk, Hz. }
  destruct Hfr as [Hal Hu Hfam Hnz Hmax Hno Hb Hk Hnew].
  destruct (family_kind_cases _ _ _ Hfam) as [->| ->].
  2: { destruct (accept_block _ _ _ _ _ _ _) as [z [st' fs']].
       destruct (am_kind _ _ (proj1 Hinv)) as [E|(E & _)]; [exfalso; lia|]. right. split; [by split|]. auto. }
  set (st0 := set_latched _ _ _ _).
  assert (app_inv hist st0 fs) as Hinv0.
  { eapply latch_inv; try done; [|right; right; split; [done|destruct Hwf; lia]].
    unfold latch_ok. split; [|split; [|lia]]; destruct Hb, Hk; auto. }
  assert (appValidated st = false) as Hv.
  { destruct (appValidated st) eqn:Hv; [|done]. destruct (Hfin Hv) as (H1 & H2 & _).
    assert (mask_test (writtenMask st) (bl_blockNo (uf2_block_of data)) = true); [|congruence].
    eapply all_written; [apply Hinv|done|]. destruct Hwf. lia. }
  assert (0 < bl_numBlocks (uf2_block_of data) <= MAX_BLOCKS m) as Hpos by (destruct Hwf; lia).
  destruct (accept_app hist st0 fs _ Hinv0 eq_refl Hwf Hu) as (z & st1 & fs1 & Hab & ->).
  apply (app_block_inv hist) in Hab as (Hinv1 & Hn1 & Hv1 & Hk1); try done.
  change (appValidated st0) with (appValidated st) in Hv1. rewrite Hv in Hv1.
  destruct (Z.eqb_spec z 512) as [->|Hz].
  - destruct (finish_inv _ _ _ Hinv1 Hv1) as [Hi Hf]; [rewrite Hn1; apply Hpos|].
    destruct (finish st1 fs1) as [st' fs']. left. exists (uf2_block_of data :: hist).
    split; [done|]. split; [done|]. split; [|auto]. intros E.
    destruct (am_kind _ _ (proj1 Hi)) as [?|(_ & _ & [=] & _)]. cbn [fst] in *. lia.
  - left. exists hist. split; [done|]. split; [|split; [lia|by left]]. intros Hc. congruence.
Qed.
End App.
