(* ===== verification/Uf2Boot.v ===== *)
(** The bootloader side of the UF2 drive: a bootloader-family transfer only
    ever changes the staging area below the reserved pages, and what it reports
    complete has passed the image policy from flash. *)
From S2P Require Import Prelude BootImage Nvm DfuTypes DfuPolicy FlashNrf5x Uf2 Uf2App.

Section Frame.
Context `{Nvmc}.

(** The cache is empty or holds a whole page of [lo, hi). *)
Definition staged_in (lo hi : Z) (fs : flash_state) : Prop :=
  fl_addr fs = FLASH_CACHE_INVALID_ADDR \/
  (lo <= fl_addr fs /\ fl_addr fs + PAGE <= hi /\ fl_addr fs mod PAGE = 0 /\ lenZ (fl_buf fs) = PAGE /\
   bytes (fl_buf fs)).
Definition mem_bytes (fm : mem) : Prop := forall x, 0 <= fm x < 256.

Lemma flush_frame lo hi fs ne : staged_in lo hi fs -> 0 <= lo -> hi <= 2 ^ 32 -> mem_bytes (fmem fs) ->
  fl_addr (flash_nrf5x_flush fs ne) = FLASH_CACHE_INVALID_ADDR /\
  (forall x, ~ (lo <= x < hi) -> fmem (flash_nrf5x_flush fs ne) x = fmem fs x) /\
  mem_bytes (fmem (flash_nrf5x_flush fs ne)).
Proof.
  intros Hs Hlo Hhi Hmb. unfold flash_nrf5x_flush.
  destruct (Z.eqb_spec (fl_addr fs) FLASH_CACHE_INVALID_ADDR) as [E|E]; [done|].
  destruct Hs as [?|(H1 & H2 & H3 & H4 & H5)]; [done|]. split; [done|]. cbn [fmem].
  set (m1 := if ne then _ else _).
  assert (mem_bytes m1 /\ forall x, ~ (lo <= x < hi) -> m1 x = fmem fs x) as [Hb1 Hf1].
  { unfold m1, mem_bytes in *. destruct ne; [|done].
    split; intros x; rewrite page_erase_spec by done; range_case; try done; lia. }
  clearbody m1. destruct (negb _); [|done]. split.
  - intros x Hx. rewrite write_chunks_spec by (done || lia). range_case; [lia|auto].
  - intros x. rewrite write_chunks_spec by (done || lia). range_case; [|auto].
    apply (land_range_r 8); [lia|]. by apply (nthZ_byte (fl_buf fs)).
Qed.

Lemma select_frame lo hi fs a ne : staged_in lo hi fs -> 0 <= lo -> hi <= 2 ^ 32 -> lo mod PAGE = 0 -> hi mod PAGE = 0 ->
  lo <= a < hi -> mem_bytes (fmem fs) ->
  let fs' := select_page fs (page_of a) ne in
  fl_addr fs' = a - a mod PAGE /\ lo <= fl_addr fs' /\ fl_addr fs' + PAGE <= hi /\ lenZ (fl_buf fs') = PAGE /\
  bytes (fl_buf fs') /\ mem_bytes (fmem fs') /\ (forall x, ~ (lo <= x < hi) -> fmem fs' x = fmem fs x).
Proof.
  intros Hs Hlo Hhi Hl Hh Ha Hmb. cbn zeta. unfold select_page. rewrite page_of_eq by lia.
  assert (lo <= a - a mod PAGE /\ a - a mod PAGE + PAGE <= hi) as [? ?] by (unfold PAGE in *; zlia).
  destruct (Z.eqb_spec (a - a mod PAGE) (fl_addr fs)) as [E|E]; cbn [negb].
  - rewrite <- E. destruct Hs as [Hs|(_ & _ & _ & ? & ?)]; [|split_and!; done].
    exfalso. unfold FLASH_CACHE_INVALID_ADDR, PAGE in *. rewrite Hs in E. zlia.
  - cbn [fl_addr fl_buf fmem]. split; [done|]. split; [done|]. split; [done|].
    destruct (flush_frame lo hi fs ne Hs Hlo Hhi Hmb) as (_ & Hf & Hb).
    split; [by apply lenZ_mem_read|]. split; [|done].
    unfold mem_read. apply Forall_forall. intros x Hx. apply in_map_iff in Hx as (k & <- & _). apply Hb.
Qed.

Lemma write_frame ne lo hi fuel : forall fs dst src len,
  staged_in lo hi fs -> 0 <= lo -> hi <= 2 ^ 32 -> lo mod PAGE = 0 -> hi mod PAGE = 0 ->
  lo <= dst -> dst + len <= hi -> 0 <= len <= lenZ src -> bytes src -> mem_bytes (fmem fs) ->
  let fs' := flash_write_loop fuel fs dst src len ne in
  staged_in lo hi fs' /\ (forall x, ~ (lo <= x < hi) -> fmem fs' x = fmem fs x) /\ mem_bytes (fmem fs').
Proof.
  induction fuel as [|fuel IH]; intros fs dst src len Hs Hlo Hhi Hl Hh Hd Hdl Hlen Hsrc Hmb; cbn [flash_write_loop]; [done|].
  rewrite Z.gtb_ltb. destruct (Z.ltb_spec 0 len); [|done]. cbn zeta.
  destruct (select_frame lo hi fs dst ne) as (Ha & Ha1 & Ha2 & Hb & Hbb & Hmb1 & Hf); try done; [lia|].
  set (fs1 := select_page _ _ _) in *.
  change (CODE_PAGE_SIZE - 1) with 4095. rewrite land_4095. change (dst mod 4096) with (dst mod PAGE).
  change CODE_PAGE_SIZE with PAGE. pose proof (Z.mod_pos_bound dst PAGE ltac:(done)) as Hmod.
  set (mx := if PAGE - dst mod PAGE <? len then PAGE - dst mod PAGE else len).
  assert (1 <= mx <= len /\ mx <= PAGE - dst mod PAGE) as Hmx.
  { unfold mx. destruct (Z.ltb_spec (PAGE - dst mod PAGE) len); lia. }
  clearbody mx. assert (lenZ (sliceZ src 0 mx) = mx) as Hsl by (rewrite lenZ_sliceZ; lia).
  set (fs2 := mk_flash _ _ _).
  assert (staged_in lo hi fs2) as Hs2.
  { right. cbn [fs2 fl_addr fl_buf]. split_and!; [done|done|rewrite Ha; unfold PAGE in *; zlia| |].
    - rewrite lenZ_put by lia. done.
    - unfold put. apply Forall_app. split; [by apply Forall_take|]. apply Forall_app.
      split; [by apply sliceZ_bytes|by apply Forall_drop]. }
  destruct (decide (len - mx = 0)) as [E|E].
  { destruct fuel; cbn [flash_write_loop]; [done|].
    replace (len - mx >? 0) with false by (symmetry; rewrite Z.gtb_ltb; apply Z.ltb_ge; lia). done. }
  rewrite u32_small by lia.
  destruct (IH fs2 (dst + mx) (drop (Z.to_nat mx) src) (len - mx)) as (Hs3 & Hf3 & Hmb3); try done; try lia.
  { unfold lenZ in *. rewrite length_drop. lia. }
  { by apply Forall_drop. }
  split; [done|]. split; [|done]. intros x Hx. rewrite Hf3 by done. by apply Hf.
Qed.
End Frame.

Section Boot.
Context `{Nvmc} (b : policy_build) (reserved ram_kb lba0 sectors : Z) (m0 : mem) (A : Z).
Hypothesis Hdev : device_ok (b_mcu b) reserved m0 A.
Abbreviation m := (b_mcu b).
Abbreviation wb := (write_block b reserved ram_kb lba0 sectors).
Abbreviation UEND := (USER_END b reserved).
Abbreviation NEWR := (NEW_RECEIVED b reserved).
Abbreviation BLMAX := (DFU_BL_IMAGE_MAX_SIZE m).

(** A finished transfer has passed the policy, from flash. *)
Definition boot_final (st : WriteState) (fs : flash_state) : Prop :=
  aborted st = false -> numBlocks st <= numWritten st ->
  has_uicr st = true /\ bootloaderStagingErased st = true /\
  dfu_image_policy_validate b (words_of fs) (Some (mem_read (fmem fs) NEWR BLMAX)) BLMAX
    (Some (mk_start DFU_UPDATE_BL 0 BLMAX 0)) = NRF_SUCCESS.

(** [nos]: the block numbers accepted so far. *)
Record boot_inv (nos : list Z) (st : WriteState) (fs : flash_state) : Prop := {
  bi_kind : updateKind st = 2;
  bi_blocks : 0 < numBlocks st <= MAX_BLOCKS m;
  bi_wlen : lenZ (writtenMask st) = MAX_BLOCKS m / 8 + 1;
  bi_nos : NoDup nos;
  bi_range k : k ∈ nos -> 0 <= k < numBlocks st;
  bi_written i : 0 <= i -> mask_test (writtenMask st) i = true <-> i ∈ nos;
  bi_count : numWritten st = lenZ nos;
  bi_offset : 0 <= bootloaderEraseOffset st <= BLMAX /\ bootloaderEraseOffset st mod PAGE = 0;
  bi_erased : bootloaderStagingErased st = (bootloaderEraseOffset st >=? BLMAX);
  bi_staged : staged_in NEWR UEND fs;
  bi_bytes : mem_bytes (fmem fs);
  bi_frame x : ~ (NEWR <= x < UEND) -> fmem fs x = m0 x;
  bi_noapp : appValidated st = false /\ appSettingsInvalidated st = false
}.

Lemma boot_geometry : NEWR + BLMAX = UEND /\ NEWR mod PAGE = 0 /\ UEND mod PAGE = 0 /\ BLMAX mod PAGE = 0 /\
  0 <= NEWR /\ UEND <= 2 ^ 20 /\ BLMAX = BOOTLOADER_MBR_PARAMS_PAGE_ADDRESS m - BOOTLOADER_REGION_START m /\ 0 < BLMAX.
Proof.
  pose proof (m_facts b reserved m0 A Hdev) as (_ & _ & H1 & H2 & _ & H3 & _ & H4 & _ & H5).
  pose proof (base_in b reserved m0 A Hdev) as (? & ? & ? & ?).
  assert (BLMAX mod PAGE = 0 /\ 0 < BLMAX) as [? ?] by (unfold DFU_BL_IMAGE_MAX_SIZE; by destruct m).
  unfold PAGE in *. split_and!; try done; lia.
Qed.

Lemma boot_erase nos st fs : boot_inv nos st fs -> bootloaderStagingErased st = false ->
  let s := snd (erase_bootloader_staging b reserved st fs) in boot_inv nos (fst s) (snd s) /\
  numWritten (fst s) = numWritten st.
Proof.
  intros [] He. pose proof boot_geometry as (HN & HNp & HUp & HBp & HN0 & HU & _).
  unfold erase_bootloader_staging. rewrite He in bi_erased0 |- *. cbn zeta. cbn [fst snd].
  symmetry in bi_erased0. rewrite Z.geb_leb in bi_erased0. apply Z.leb_gt in bi_erased0. destruct bi_offset0 as [? Hop].
  assert (bootloaderEraseOffset st + PAGE <= BLMAX) by (unfold PAGE in *; zlia).
  change CODE_PAGE_SIZE with PAGE. rewrite !u32_small by (unfold PAGE in *; lia).
  assert (forall x, fmem (flash_nrf5x_erase fs (NEWR + bootloaderEraseOffset st) PAGE) x =
    if (NEWR + bootloaderEraseOffset st <=? x) && (x <? NEWR + bootloaderEraseOffset st + PAGE) then 255 else fmem fs x) as Her.
  { intros x. cbn [flash_nrf5x_erase fmem]. change (Z.to_nat (ceil_div PAGE CODE_PAGE_SIZE)) with 1%nat.
    rewrite page_of_eq by (unfold PAGE in *; lia).
    replace ((NEWR + bootloaderEraseOffset st) mod PAGE) with 0 by (unfold PAGE in *; zlia).
    rewrite Z.sub_0_r, erase_pages_spec by (unfold PAGE in *; zlia).
    rewrite Z.mul_0_l, Z.add_0_r. change (0 + Z.of_nat 1) with 1. by rewrite Z.mul_1_l. }
  split; [|done]. split; try done; cbn [set_erase_offset bootloaderEraseOffset].
  - unfold PAGE in *. zlia.
  - intros x. rewrite Her. range_case; [lia|apply bi_bytes0].
  - intros x Hx. rewrite Her. range_case; [unfold PAGE in *; lia|auto].
Qed.

(** The switch for a fresh block: the transfer aborts, erases one page, or goes
    on with an unchanged mask. *)
Lemma boot_switch nos st fs bl : boot_inv nos st fs -> block_wf bl -> is_uf2_block bl = true ->
  let '(o, (st1, fs1)) := write_bootloader_block b reserved bl st fs in
  boot_inv nos st1 fs1 /\ numWritten st1 = numWritten st /\ numBlocks st1 = numBlocks st /\
  writtenMask st1 = writtenMask st /\ (o = Go \/ o = Ret 0 \/ (o = Ret (-1) /\ aborted st1 = true)).
Proof.
  intros Hinv Hwf Hu. pose proof (is_uf2_target bl Hu) as [Hal Hps].
  pose proof boot_geometry as (HN & HNp & HUp & HBp & HN0 & HU & HBL & HB0).
  assert (boot_inv nos (set_aborted st) fs) as Hab by (by destruct Hinv; split).
  unfold write_bootloader_block. destruct (in_uicr_space _).
  { destruct (_ || _); [split_and!; auto|]. split; [by destruct Hinv; split|]. split_and!; auto. }
  destruct (in_bootloader_space _ _) eqn:Hin.
  2: { destruct (_ <? _); split_and!; auto. }
  destruct (bootloaderStagingErased st) eqn:He.
  2: { pose proof (boot_erase nos st fs Hinv He) as [H1 H2]. unfold erase_bootloader_staging in *. rewrite He in *.
       cbn [fst snd] in *. split_and!; auto. }
  unfold erase_bootloader_staging. rewrite He. unfold in_bootloader_space in Hin. bool_cases.
  set (off := bl_targetAddr bl - BOOTLOADER_REGION_START m) in *. rewrite Hps.
  assert (0 <= off /\ off + 256 <= BLMAX) as [? ?].
  { unfold off. rewrite HBL. assert (BOOTLOADER_MBR_PARAMS_PAGE_ADDRESS m mod 256 = 0) by (by destruct m). zlia. }
  rewrite u32_small by lia. destruct Hwf as [_ _ _ Hdb Hlen].
  destruct (write_frame false NEWR UEND (Z.to_nat 256) fs (NEWR + off) (bl_data bl) 256) as (Hs & Hf & Hmb);
    try done; try lia; [apply (bi_staged _ _ _ Hinv)|apply (bi_bytes _ _ _ Hinv)|].
  split; [|split_and!; auto]. destruct Hinv. split; try done.
  intros x Hx. unfold flash_nrf5x_write. rewrite Hf by done. auto.
Qed.

Lemma boot_commit nos st fs bl : boot_inv nos st fs -> block_wf bl -> bl_blockNo bl < numBlocks st ->
  mask_test (writtenMask st) (bl_blockNo bl) = false -> boot_inv (bl_blockNo bl :: nos) (commit_block bl 2 A st) fs.
Proof.
  intros [] [_ Hn0 _ _ _] Hlt Hnew.
  assert (bl_blockNo bl ∉ nos) as Hnin by (intros Hin; apply bi_written0 in Hin; [congruence|done]).
  assert (forall i, 0 <= i -> mask_test (mask_set (writtenMask st) (bl_blockNo bl)) i =
            (bl_blockNo bl =? i) || mask_test (writtenMask st) i) as Hws.
  { intros i Hi. apply mask_test_set; try done. rewrite bi_wlen0. zlia. }
  assert (0 <= lenZ nos <= numBlocks st) by (split; [apply lenZ_nonneg|apply count_le; (done || lia)]).
  assert (MAX_BLOCKS m < 2 ^ 31) by (unfold MAX_BLOCKS, CFG_UF2_FLASH_SIZE; destruct m; zlia).
  unfold commit_block, uf2_transfer_commit. change (2 =? UF2_UPDATE_KIND_APPLICATION) with false. cbn match.
  rewrite Hnew. cbn [negb]. rewrite u32_small by lia.
  split; try done; cbn [set_written writtenMask numWritten numBlocks]; rewrite ?lenZ_mask_set, ?lenZ_cons; try done.
  - by constructor.
  - intros k Hk. apply elem_of_cons in Hk as [->|Hk]; [lia|auto].
  - intros i Hi. rewrite Hws, elem_of_cons, <- bi_written0, orb_true_iff, Z.eqb_eq by done. intuition.
  - lia.
Qed.

Lemma boot_complete nos st fs : boot_inv nos st fs ->
  let s := complete_bootloader b reserved st fs in boot_inv nos (fst s) (snd s) /\ boot_final (fst s) (snd s).
Proof.
  intros Hinv. pose proof boot_geometry as (_ & _ & _ & _ & HN0 & HU & _).
  unfold complete_bootloader. cbn zeta.
  destruct (flush_frame NEWR UEND fs false) as (Hi & Hf & Hmb);
    [apply (bi_staged _ _ _ Hinv)|lia|lia|apply (bi_bytes _ _ _ Hinv)|].
  set (fs' := flash_nrf5x_flush fs false) in *.
  assert (boot_inv nos st fs') as Hinv'.
  { destruct Hinv. split; try done; [by left|]. intros x Hx. rewrite Hf by done. auto. }
  destruct (_ || _) eqn:Hc; cbn [fst snd].
  - split; [by destruct Hinv'; split|]. intros Hx. done.
  - bool_cases. split; [done|]. intros _ _. auto.
Qed.

Lemma boot_sector nos st fs lba data : boot_inv nos st fs -> boot_final st fs -> sector_ok data ->
  let '(z, (st', fs')) := wb lba data st fs in exists nos', boot_inv nos' st' fs' /\ boot_final st' fs'.
Proof.
  intros Hinv Hfin Hs. pose proof (uf2_block_of_wf data Hs) as Hwf.
  destruct (write_block_cases b reserved ram_kb lba0 sectors lba data st fs) as
    [(z & nb & uk & ab & k & -> & Hl & _ & _ & _ & Hab)|(k & Hfr & _ & ->)].
  { exists nos. destruct Hinv. destruct Hl as ([->|[? _]] & [->|[? _]] & _); try lia.
    split; [by split|]. intros Ha Hn. cbn in Ha. apply Hfin; [|done].
    destruct (aborted st); [|done]. destruct Hab as (-> & _); done. }
  destruct Hfr as [Hal Hu Hfam Hnz Hmax Hno Hb Hk Hnew].
  destruct Hk as [Hk|Hk]; [destruct Hinv; lia|]. rewrite (bi_kind _ _ _ Hinv) in Hk. subst k.
  destruct Hb as [Hb|Hb]; [destruct Hinv; lia|]. rewrite <- Hb.
  set (st0 := set_latched _ _ _ _). assert (boot_inv nos st0 fs) as Hinv0 by (by destruct Hinv; split).
  assert (numWritten st < numBlocks st) as Hlt.
  { destruct Hinv. apply Z.nle_gt. intros Hle. rewrite bi_count0 in Hle.
    assert (lenZ nos <= numBlocks st) by (apply count_le; (done || lia)).
    destruct Hwf. assert (bl_blockNo (uf2_block_of data) ∈ nos) as Hin by (apply (count_full nos (numBlocks st)); (done || lia)).
    apply bi_written0 in Hin; [congruence|lia]. }
  unfold accept_block. change (2 =? UF2_UPDATE_KIND_APPLICATION) with false. cbn match.
  pose proof (boot_switch nos st0 fs _ Hinv0 Hwf Hu) as Hsw.
  destruct (write_bootloader_block b reserved (uf2_block_of data) st0 fs) as [o [st1 fs1]].
  destruct Hsw as (Hinv1 & Hw1 & Hn1 & Hm1 & Ho).
  destruct Ho as [->|Ho].
  2: { destruct Ho as [->|[-> Ha]]; exists nos; (split; [done|]); intros Hx Hy;
         [rewrite Hw1, Hn1 in Hy; cbn in Hy; lia|congruence]. }
  assert (boot_inv (bl_blockNo (uf2_block_of data) :: nos)
    (commit_block (uf2_block_of data) 2 (DFU_BANK_0_REGION_START (words_of fs)) st1) fs1) as Hinv2.
  { change (commit_block ?x 2 ?y ?z) with (commit_block x 2 A z).
    apply boot_commit; try done; [rewrite Hn1; unfold st0; cbn [set_latched numBlocks]; lia|].
    by rewrite Hm1. }
  set (st2 := commit_block _ _ _ _) in *.
  rewrite (bi_kind _ _ _ Hinv2). change (2 =? UF2_UPDATE_KIND_BOOTLOADER) with true. cbn match.
  destruct (Z.geb_spec (numWritten st2) (numBlocks st2)).
  - pose proof (boot_complete _ _ _ Hinv2) as Hc.
    destruct (complete_bootloader b reserved st2 fs1) as [st' fs']. by eexists.
  - eexists. split; [done|]. intros _ Hy. lia.
Qed.

(** The two words of the UICR that a bootloader file carries: where the
    bootloader and the MBR's parameter page lie on this chip. *)
Definition uicr_block (bl : UF2_Block) : Prop :=
  is_uf2_block bl = true /\ family_kind b (bl_familyID bl) = Some UF2_UPDATE_KIND_BOOTLOADER /\
  in_uicr_space (bl_targetAddr bl) = true /\
  field32 (bl_data bl) 0x14 = BOOTLOADER_REGION_START m /\ field32 (bl_data bl) 0x18 = BOOTLOADER_MBR_PARAMS_PAGE_ADDRESS m.

Lemma app_block_uicr bl a st fs : has_uicr (fst (snd (write_app_block b reserved bl a st fs))) = has_uicr st.
Proof. unfold write_app_block, prepare_app_block, uf2_app_flash_next_action. repeat (case_match; simplify_eq/=; try done). Qed.
Lemma boot_block_uicr bl st fs : has_uicr (fst (snd (write_bootloader_block b reserved bl st fs))) = true ->
  has_uicr st = true \/
  (in_uicr_space (bl_targetAddr bl) = true /\ field32 (bl_data bl) 0x14 = BOOTLOADER_REGION_START m /\
   field32 (bl_data bl) 0x18 = BOOTLOADER_MBR_PARAMS_PAGE_ADDRESS m).
Proof.
  unfold write_bootloader_block. destruct (in_uicr_space _).
  - cbn zeta. destruct (_ || _) eqn:E; cbn [fst snd]; intros Hu; [left; exact Hu|]. bool_cases. auto.
  - destruct (in_bootloader_space _ _).
    + unfold erase_bootloader_staging. repeat (case_match; simplify_eq/=); auto.
    + destruct (_ <? _); auto.
Qed.
Lemma commit_uicr bl k a st : has_uicr (commit_block bl k a st) = has_uicr st.
Proof. unfold commit_block. destruct (k =? _); by destruct (uf2_transfer_commit _ _ _). Qed.

Lemma complete_boot_uicr st fs : has_uicr (fst (complete_bootloader b reserved st fs)) = has_uicr st.
Proof. unfold complete_bootloader. by destruct (_ || _). Qed.
Lemma complete_app_uicr a st fs : has_uicr (fst (complete_application b reserved ram_kb a st fs)) = has_uicr st.
Proof. unfold complete_application. repeat (case_match; simplify_eq/=; try done). Qed.

Lemma write_block_uicr lba data st fs : has_uicr (fst (snd (wb lba data st fs))) = true -> has_uicr st = true \/ uicr_block (uf2_block_of data).
Proof.
  destruct (write_block_cases b reserved ram_kb lba0 sectors lba data st fs) as
    [(z & nb & uk & ab & k & -> & _)|(k & [Hal Hu Hfam _ _ _ _ _ _] & _ & ->)]; [by left|].
  unfold accept_block. set (st0 := set_latched _ _ _ _). set (bl := uf2_block_of data) in *.
  assert (forall o st1 fs1, has_uicr (fst (snd (match o with
      | Ret z => (z, (st1, fs1))
      | Go => let st := commit_block bl k (DFU_BANK_0_REGION_START (words_of fs)) st1 in
          (BPB_SECTOR_SIZE, if numWritten st >=? numBlocks st then
             if updateKind st =? UF2_UPDATE_KIND_BOOTLOADER then complete_bootloader b reserved st fs1
             else complete_application b reserved ram_kb (DFU_BANK_0_REGION_START (words_of fs)) st fs1 else (st, fs1))
      end))) = has_uicr st1) as Hafter.
  { intros o st1 fs1. destruct o; [done|]. cbn zeta. cbn [fst snd]. destruct (_ >=? _); [|apply commit_uicr].
    destruct (_ =? _); [rewrite complete_boot_uicr|rewrite complete_app_uicr]; apply commit_uicr. }
  destruct (family_kind_cases _ _ _ Hfam) as [->| ->].
  - change (1 =? UF2_UPDATE_KIND_APPLICATION) with true. cbn match.
    pose proof (app_block_uicr bl (DFU_BANK_0_REGION_START (words_of fs)) st0 fs) as E.
    destruct (write_app_block _ _ _ _ _ _) as [o [st1 fs1]]. cbn [fst snd] in E. rewrite Hafter, E. by left.
  - change (2 =? UF2_UPDATE_KIND_APPLICATION) with false. cbn match.
    pose proof (boot_block_uicr bl st0 fs) as E. destruct (write_bootloader_block _ _ _ _ _) as [o [st1 fs1]]. cbn [fst snd] in E.
    rewrite Hafter. intros H1. destruct (E H1) as [?|?]; [by left|]. right. split; [exact Hu|]. by split.
Qed.

(** The first bootloader block starts from an idle transfer. *)
Lemma boot_start st fs bl : app_inv b reserved m0 A [] st fs -> updateKind st = 0 ->
  bootloaderEraseOffset st = 0 -> bootloaderStagingErased st = false -> appValidated st = false ->
  fl_addr fs = FLASH_CACHE_INVALID_ADDR -> block_wf bl -> fresh_block b bl 2 st ->
  boot_inv [] (set_latched (bl_numBlocks bl) 2 false st) fs.
Proof.
  intros [Hm Hf] Hk He1 He2 Hv Hfl Hwf Hfr. pose proof boot_geometry as (_ & _ & _ & _ & _ & _ & _ & HB0).
  destruct (am_kind _ _ _ _ _ Hm) as [?|(_ & Hn & _ & Hi)]; [lia|].
  split; try done; cbn [set_latched numBlocks numWritten writtenMask].
  - destruct Hwf, Hfr. lia.
  - apply (am_wlen _ _ _ _ _ Hm).
  - constructor.
  - intros k Hin. inversion Hin.
  - apply (am_written _ _ _ _ _ Hm).
  - apply (am_count _ _ _ _ _ Hm).
  - cbn. unfold PAGE. rewrite He1. split; [lia|done].
  - cbn. rewrite He1, He2. symmetry. rewrite Z.geb_leb. apply Z.leb_gt. lia.
  - by left.
  - intros x. apply (af_bytes _ _ _ _ _ Hf).
  - intros x _. rewrite (af_frame _ _ _ _ _ Hf).
    + by rewrite Hi.
    + intros p Hp Ht. destruct (am_pages _ _ _ _ _ Hm p Hp Ht) as (? & _). congruence.
Qed.
End Boot.
