(* ===== verification/Uf2Transfer.v ===== *)
(** Whole transfers through the UF2 drive: any sequence of sectors a host may
    write, from the reset of the session on. *)
From S2P Require Import Prelude BootImage Nvm DfuTypes DfuPolicy FlashNrf5x Uf2 Uf2App Uf2Boot.

Section Transfer.
Context `{Nvmc} (b : policy_build) (reserved ram_kb lba0 sectors : Z) (fs0 : flash_state) (A : Z).
Abbreviation m := (b_mcu b).
Abbreviation m0 := (fmem fs0).
Abbreviation wb := (write_block b reserved ram_kb lba0 sectors).
Abbreviation UEND := (USER_END b reserved).
Abbreviation NEWR := (NEW_RECEIVED b reserved).
Abbreviation BLMAX := (DFU_BL_IMAGE_MAX_SIZE m).

(** The host's sectors, each with its disk address, in the order they come. *)
Definition sector : Type := Z * list Z.
Definition uf2_run (ss : list sector) (s : WriteState * flash_state) : WriteState * flash_state :=
  fold_left (fun s x => snd (wb (fst x) (snd x) (fst s) (snd s))) ss s.

(** The mass-storage layer repeats a sector while the answer is "busy". *)
Fixpoint deliver (fuel : nat) (x : sector) (s : WriteState * flash_state) : option (Z * (WriteState * flash_state)) :=
  match fuel with
  | O => None
  | S fuel =>
    let '(z, s) := wb (fst x) (snd x) (fst s) (snd s) in
    if z =? 0 then deliver fuel x s else Some (z, s)
  end.

Definition fresh_session : WriteState * flash_state := (uf2_transfer_reset m reserved, fs0).
Definition block_of (x : sector) : UF2_Block := uf2_block_of (snd x).

Hypothesis Hdev : device_ok m reserved m0 A.
Hypothesis Hcache : fl_addr fs0 = FLASH_CACHE_INVALID_ADDR.

Definition run_inv (ss : list sector) (st : WriteState) (fs : flash_state) : Prop :=
  (exists hist, app_inv b reserved m0 A hist st fs /\ app_final b reserved ram_kb A st (fmem fs) /\
     (forall bl, bl ∈ hist -> exists x, x ∈ ss /\ bl = block_of x) /\
     (updateKind st = 0 -> fs = fs0 /\ bootloaderEraseOffset st = 0 /\ bootloaderStagingErased st = false /\
        appValidated st = false)) \/
  (exists nos, boot_inv b reserved m0 nos st fs /\ boot_final b reserved st fs).

Lemma run_inv_reset : run_inv [] (uf2_transfer_reset m reserved) fs0.
Proof.
  left. exists []. split; [by apply initial_inv|]. split; [done|]. split; [|done]. intros bl Hin. inversion Hin.
Qed.

Lemma run_inv_step ss st fs x : run_inv ss st fs -> sector_ok (snd x) ->
  let s := snd (wb (fst x) (snd x) st fs) in run_inv (ss ++ [x]) (fst s) (snd s).
Proof.
  intros Hinv Hx. cbn zeta. destruct Hinv as [(hist & Hi & Hf & Hh & H0)|(nos & Hi & Hf)].
  2: { pose proof (boot_sector b reserved ram_kb lba0 sectors m0 A Hdev nos st fs (fst x) (snd x) Hi Hf Hx) as Hb.
       destruct (wb _ _ _ _) as [z [st' fs']]. right. exact Hb. }
  pose proof (app_sector b reserved ram_kb lba0 sectors m0 A Hdev hist st fs (fst x) (snd x) Hi Hf Hx) as Hs.
  destruct (wb (fst x) (snd x) st fs) as [z [st' fs']] eqn:E. cbn [fst snd].
  destruct Hs as [(hist' & Hi' & Hf' & Hz & Hc)|(Hfr & Hk & Hsyn)].
  - left. exists hist'. split; [done|]. split; [done|]. split.
    + intros bl Hin. assert (bl ∈ hist \/ bl = block_of x) as [Hin'|Hbl].
      { destruct Hc as [->|[_ ->]]; [auto|]. apply elem_of_cons in Hin as [?|?]; auto. }
      * destruct (Hh bl Hin') as (y & Hy & ->). exists y. split; [|done]. apply elem_of_app. auto.
      * exists x. split; [|done]. apply elem_of_app. right. constructor.
    + intros Hk'. destruct (Hz Hk') as (-> & ab & ->). cbn in *. by apply H0.
  - right. destruct (H0 Hk) as (-> & He1 & He2 & Hv).
    assert (hist = []) as -> by (destruct (am_kind _ _ _ _ _ (proj1 Hi)) as [?|(_ & _ & ? & _)]; [lia|done]).
    pose proof (uf2_block_of_wf _ Hx) as Hwf.
    assert (boot_inv b reserved m0 [] (set_latched (bl_numBlocks (block_of x)) 2 false st) fs0) as Hb
      by (by eapply boot_start).
    pose proof (boot_sector b reserved ram_kb lba0 sectors m0 A Hdev [] _ fs0 (fst x) (snd x) Hb) as Hbs.
    rewrite write_block_fresh with (k := 2) in Hbs, E; try done; [|by destruct Hfr; split; auto].
    unfold block_of in *. set (n := bl_numBlocks _) in *.
    change (set_latched n 2 false (set_latched n 2 false st)) with (set_latched n 2 false st) in Hbs.
    rewrite E in Hbs. apply Hbs; [|done]. intros _ Hle. exfalso. cbn [set_latched numBlocks numWritten] in Hle.
    rewrite (am_count _ _ _ _ _ (proj1 Hi)), lenZ_nil in Hle. subst n. destruct Hfr, Hwf. lia.
Qed.

Lemma run_inv_run ss : Forall sector_ok (snd <$> ss) -> forall pre st fs, run_inv pre st fs ->
  let s := uf2_run ss (st, fs) in run_inv (pre ++ ss) (fst s) (snd s).
Proof.
  induction ss as [|x ss IH]; intros Hok pre st fs Hinv; cbn zeta; [by rewrite app_nil_r|].
  inversion Hok as [|? ? Hx Hss]; subst. unfold uf2_run. rewrite fold_left_cons. cbn [fst snd].
  pose proof (run_inv_step pre st fs x Hinv Hx) as Hs. cbn zeta in Hs.
  destruct (snd (wb (fst x) (snd x) st fs)) as [st' fs']. specialize (IH Hss _ _ _ Hs).
  by rewrite <- app_assoc in IH.
Qed.

Lemma run_inv_fresh ss : Forall sector_ok (snd <$> ss) ->
  let s := uf2_run ss fresh_session in run_inv ss (fst s) (snd s).
Proof. intros Hok. apply (run_inv_run ss Hok []), run_inv_reset. Qed.

(** C18: Whatever a host writes to the drive, the MBR, the SoftDevice, the
    bootloader, the reserved application data and everything behind them keep
    their contents. Any sequence of sectors, with any block numbers, targets,
    families and repetitions, changes flash only inside the application region;
    the one exception is the first word of the settings page, which an
    application transfer clears before its first erase so that the old
    application can no longer be started. *)
Theorem uf2_writes_only_application ss : Forall sector_ok (snd <$> ss) ->
  let '(st, fs) := uf2_run ss fresh_session in
  forall x, ~ (A <= x < UEND) ->
    fmem fs x = if appSettingsInvalidated st && in_settings_word m x then 0 else m0 x.
Proof.
  intros Hok. pose proof (run_inv_fresh ss Hok) as Hr. destruct (uf2_run ss fresh_session) as [st fs].
  cbn [fst snd] in Hr. intros x Hx. destruct Hr as [(hist & [Hm Hf] & _)|(nos & Hb & _)].
  - by eapply flash_outside.
  - destruct (bi_noapp _ _ _ _ _ _ Hb) as [_ ->]. apply (bi_frame _ _ _ _ _ _ Hb).
    pose proof (base_in b reserved m0 A Hdev). lia.
Qed.

Lemma final_word hist st fs a : app_inv b reserved m0 A hist st fs -> 0 <= mem_word (fmem fs) a < 2 ^ 32.
Proof.
  intros [_ Hf]. pose proof (af_bytes _ _ _ _ _ Hf) as Hb. unfold mem_word.
  rewrite le32_add by (unfold is_byte; apply Hb).
  pose proof (Hb a). pose proof (Hb (a + 1)). pose proof (Hb (a + 2)). pose proof (Hb (a + 3)). lia.
Qed.

Lemma max_below hist st : app_masks b reserved A hist st -> appMaximumWrittenEnd st <= UEND.
Proof.
  intros Hm. pose proof (base_in b reserved m0 A Hdev).
  destruct (am_max _ _ _ _ _ Hm) as [_ [?|(bl & Hin & _ & ->)]]; [lia|].
  destruct (am_hist _ _ _ _ _ Hm bl Hin) as (_ & Hu & _ & _ & Ht). apply is_uf2_target in Hu as [Hu _].
  by apply (block_room b reserved m0 A Hdev).
Qed.

(** What an application validated in a run satisfies, for the sectors [ss]. *)
Definition validated_image (ss : list sector) (st : WriteState) (fs : flash_state) : Prop :=
  appStart st = A /\ 0 < appSize st /\ appSize st mod 256 = 0 /\ A + appSize st <= UEND /\
  numWritten st = numBlocks st /\
  (forall a, A <= a < A + appSize st -> a mod 256 = 0 -> exists x, x ∈ ss /\ is_uf2_block (block_of x) = true /\
     family_kind b (bl_familyID (block_of x)) = Some UF2_UPDATE_KIND_APPLICATION /\
     bl_targetAddr (block_of x) = a /\ mem_read (fmem fs) a 256 = payload (block_of x)) /\
  vectors_fit A (A + appSize st) (mem_word (fmem fs) A) (mem_word (fmem fs) (A + 4)) (RAM_END ram_kb) /\
  (forall x, in_settings_word m x = true -> fmem fs x = 0).

Lemma run_inv_validated ss st fs : run_inv ss st fs -> appValidated st = true -> validated_image ss st fs.
Proof.
  intros Hr Hv. unfold validated_image.
  destruct Hr as [(hist & Hinv & Hf & Hh & _)|(nos & Hb & _)].
  2: { destruct (bi_noapp _ _ _ _ _ _ Hb). congruence. }
  destruct (Hf Hv) as (Hn & _ & Hi & Hs & Hfin). pose proof Hinv as [Hm Hfl].
  pose proof (base_in b reserved m0 A Hdev) as (HA & _). pose proof (max_below hist st Hm) as Hmx.
  pose proof (m_facts b reserved m0 A Hdev) as (_ & _ & _ & HE & _ & HS & _ & HF & _ & HF2).
  apply finalize_spec in Hfin as (Ha & Hl & Hsz & _ & He & Hcov & Hvec).
  2: lia. 2: unfold PAGE in *; lia. 2: destruct (A <? UEND); [by eapply final_word|lia].
  assert ((A <? UEND) = true) as E by (apply Z.ltb_lt; lia). rewrite E in Hvec.
  replace (A + appSize st) with (appMaximumWrittenEnd st) by lia.
  assert (A mod 256 = 0) by (pose proof (dv_page _ _ _ _ Hdev); unfold PAGE in *; zlia).
  split_and!; try done; try lia; [zlia| |].
  - intros a Har Hal. destruct (Hcov a Har Hal) as [_ Ht]. assert (0 <= a / 256) as Hq by zlia.
    apply (am_target _ _ _ _ _ Hm) in Ht; [|done]. replace (256 * (a / 256)) with a in Ht by zlia.
    apply list_elem_of_fmap in Ht as (bl & Hbl & Hin). destruct (Hh bl Hin) as (x & Hx & ->). exists x.
    destruct (am_hist _ _ _ _ _ Hm _ Hin) as (_ & Hu & Hfam & _). split_and!; try done.
    rewrite Hbl. apply (af_data _ _ _ _ _ Hfl); [done|]. rewrite <- Hbl. unfold USER_FLASH_START, MBR_SIZE. lia.
  - intros x Hx. rewrite (flash_outside b reserved m0 A hist st) by
      (try done; unfold in_settings_word in Hx; bool_cases; lia). by rewrite Hi, Hx.
Qed.

(** C5: What the drive reports as a valid application is what the host sent. After
    any sequence of sectors, if the transfer state says the application is
    validated then every block of its file has arrived, the application starts
    at the installed SoftDevice's boundary, and each 256-byte block of it holds
    the payload of an application block the host wrote for exactly that
    address; its vector table names a stack in RAM and an entry point inside
    it, and the settings record is still invalid, so the image only becomes
    bootable when the completion stores its length and checksum. *)
Theorem uf2_application_sound ss : Forall sector_ok (snd <$> ss) ->
  let '(st, fs) := uf2_run ss fresh_session in
  appValidated st = true ->
  appStart st = A /\ 0 < appSize st /\ appSize st mod 256 = 0 /\ A + appSize st <= UEND /\
  numWritten st = numBlocks st /\
  (forall a, A <= a < A + appSize st -> a mod 256 = 0 -> exists x, x ∈ ss /\ is_uf2_block (block_of x) = true /\
     family_kind b (bl_familyID (block_of x)) = Some UF2_UPDATE_KIND_APPLICATION /\
     bl_targetAddr (block_of x) = a /\ mem_read (fmem fs) a 256 = payload (block_of x)) /\
  vectors_fit A (A + appSize st) (mem_word (fmem fs) A) (mem_word (fmem fs) (A + 4)) (RAM_END ram_kb) /\
  (forall x, in_settings_word m x = true -> fmem fs x = 0).
Proof.
  intros Hok. pose proof (run_inv_fresh ss Hok) as Hr. destruct (uf2_run ss fresh_session) as [st fs].
  by apply run_inv_validated.
Qed.

Lemma run_uicr ss : forall s, has_uicr (fst (uf2_run ss s)) = true ->
  has_uicr (fst s) = true \/ exists x, x ∈ ss /\ uicr_block b (block_of x).
Proof.
  induction ss as [|x ss IH]; intros s; [by left|]. unfold uf2_run. rewrite fold_left_cons. intros Hh.
  destruct (IH _ Hh) as [H1|(y & Hy & Hu)]; [|right; exists y; split; [by right|done]].
  apply write_block_uicr in H1 as [?|?]; [by left|]. right. exists x. split; [by left|done].
Qed.

(** C29: A bootloader reaches the MBR's copy command only from the staging area
    and only after the policy accepted it there. After any sequence of sectors,
    if a bootloader transfer is complete and not aborted, one of the host's blocks
    was a bootloader-family block for the UICR that carries this chip's bootloader
    start and MBR parameter page, the policy accepts the bytes that lie in the staging area, and
    everything outside it (the running bootloader, the SoftDevice, the settings,
    the rest of the application) is unchanged; on a strict build the staged
    bytes are a full-size image bound to this board and made for the installed
    SoftDevice. *)
Theorem uf2_bootloader_vetted ss : Forall sector_ok (snd <$> ss) ->
  let '(st, fs) := uf2_run ss fresh_session in
  updateKind st = UF2_UPDATE_KIND_BOOTLOADER -> aborted st = false -> numBlocks st <= numWritten st ->
  let image := mem_read (fmem fs) NEWR BLMAX in
  (exists x, x ∈ ss /\ is_uf2_block (block_of x) = true /\
     family_kind b (bl_familyID (block_of x)) = Some UF2_UPDATE_KIND_BOOTLOADER /\ in_uicr_space (bl_targetAddr (block_of x)) = true /\
     field32 (bl_data (block_of x)) 0x14 = BOOTLOADER_REGION_START m /\
     field32 (bl_data (block_of x)) 0x18 = BOOTLOADER_MBR_PARAMS_PAGE_ADDRESS m) /\
  has_uicr st = true /\
  dfu_image_policy_validate b (words_of fs) (Some image) BLMAX (Some (mk_start DFU_UPDATE_BL 0 BLMAX 0)) = NRF_SUCCESS /\
  (forall x, ~ (NEWR <= x < UEND) -> fmem fs x = m0 x) /\
  (b_recovery b = false -> bootloader_for b (words_of fs) image BLMAX (running_layout (words_of fs))).
Proof.
  intros Hok. pose proof (run_inv_fresh ss Hok) as Hr. pose proof (run_uicr ss fresh_session) as Hx. destruct (uf2_run ss fresh_session) as [st fs].
  cbn [fst snd] in Hr, Hx. intros Hk Hab Hn.
  destruct Hr as [(hist & [Hm _] & _)|(nos & Hb & Hf)].
  { destruct (am_kind _ _ _ _ _ Hm) as [?|[? _]]; unfold UF2_UPDATE_KIND_BOOTLOADER in *; lia. }
  destruct (Hf Hab Hn) as (Hu & _ & Hp). pose proof (boot_geometry b reserved m0 A Hdev) as (_ & _ & _ & _ & _ & _ & _ & H0).
  cbn zeta. split; [by destruct (Hx Hu)|]. split; [done|]. split; [done|]. split; [apply (bi_frame _ _ _ _ _ _ Hb)|]. intros Hrec.
  apply policy_bl_only in Hp; [|done]. apply bootloader_info_for in Hp; [|done|lia]. done.
Qed.
End Transfer.

(** * Witnesses: an nRF52840 with a small SoftDevice below 0x4000 *)

#[local] Existing Instance nvmc_model.

Definition demo_memory : mem := fun x =>
  if (0x3004 <=? x) && (x <? 0x3010)
  then nthZ (bytes32 SD_MAGIC_NUMBER ++ bytes32 0x4000 ++ bytes32 0xB6) (x - 0x3004) else 255.
Definition demo_drive (recovery : bool) : policy_build := mk_build NRF52840 recovery demo_name 0x2886 0x0044 140.
Definition demo_fs : flash_state := mk_flash demo_memory FLASH_CACHE_INVALID_ADDR (replicate 4096 0).

(** A sector for block [no] of [n]. *)
Definition demo_sector (target no n family : Z) (data : list Z) : list Z :=
  bytes32 UF2_MAGIC_START0 ++ bytes32 UF2_MAGIC_START1 ++ bytes32 UF2_FLAG_FAMILYID ++ bytes32 target ++
  bytes32 256 ++ bytes32 no ++ bytes32 n ++ bytes32 family ++ data ++ bytes32 UF2_MAGIC_END.
Definition demo_vectors (reset : Z) : list Z := bytes32 0x20008000 ++ bytes32 reset ++ replicate 468 0.
Definition demo_app_sector : Z * list Z :=
  (2000, demo_sector 0x4000 0 1 (CFG_UF2_FAMILY_APP_ID NRF52840) (demo_vectors 0x4009)).

Lemma demo_device recovery : device_ok (b_mcu (demo_drive recovery)) 0x7000 (fmem demo_fs) 0x4000.
Proof.
  split; try (vm_compute; (reflexivity || (split; discriminate) || discriminate)).
  - split; [lia|reflexivity].
  - intros x. cbn [demo_fs fmem]. unfold demo_memory. range_case; [|lia].
    apply (nthZ_byte _ (x - 0x3004)). apply bytes_by_forallb. reflexivity.
Qed.

Lemma demo_ok (x : sector) : forallb (fun b => (0 <=? b) && (b <? 256)) (snd x) && (lenZ (snd x) =? 512) = true -> sector_ok (snd x).
Proof. intros E. bool_cases. split; [by apply bytes_by_forallb|done]. Qed.

Lemma uf2_writes_only_application_witness :
  fmem (snd (uf2_run (demo_drive true) 0x7000 256 500 10 [demo_app_sector; demo_app_sector; demo_app_sector]
    (fresh_session (demo_drive true) 0x7000 demo_fs))) 0x3004 = fmem demo_fs 0x3004.
Proof.
  assert (Forall sector_ok (snd <$> [demo_app_sector; demo_app_sector; demo_app_sector])) as Hok
    by (repeat (constructor; [apply demo_ok; vm_compute; reflexivity|]); constructor).
  pose proof (uf2_writes_only_application (demo_drive true) 0x7000 256 500 10 demo_fs 0x4000
    (demo_device true) eq_refl [demo_app_sector; demo_app_sector; demo_app_sector] Hok) as Hw.
  destruct (uf2_run _ _ _ _ _ _ _) as [st fs]. cbn [snd]. rewrite Hw by lia.
  assert (in_settings_word (b_mcu (demo_drive true)) 0x3004 = false) as -> by reflexivity.
  rewrite andb_false_r. reflexivity.
Defined.

Lemma uf2_application_sound_witness :
  let s := uf2_run (demo_drive true) 0x7000 256 500 10 [demo_app_sector; demo_app_sector; demo_app_sector]
    (fresh_session (demo_drive true) 0x7000 demo_fs) in
  appValidated (fst s) = true /\ appStart (fst s) = 0x4000.
Proof.
  assert (Forall sector_ok (snd <$> [demo_app_sector; demo_app_sector; demo_app_sector])) as Hok
    by (repeat (constructor; [apply demo_ok; vm_compute; reflexivity|]); constructor).
  pose proof (uf2_application_sound (demo_drive true) 0x7000 256 500 10 demo_fs 0x4000
    (demo_device true) eq_refl [demo_app_sector; demo_app_sector; demo_app_sector] Hok) as Hw.
  assert (appValidated (fst (uf2_run (demo_drive true) 0x7000 256 500 10 [demo_app_sector; demo_app_sector; demo_app_sector]
    (fresh_session (demo_drive true) 0x7000 demo_fs))) = true) as Hv by (vm_compute; reflexivity).
  destruct (uf2_run _ _ _ _ _ _ _) as [st fs]. cbn [fst] in *. split; [exact Hv|].
  destruct (Hw Hv) as (E & _). exact E.
Defined.

(** A two-block bootloader file: its UICR block and its vectors; the second is
    repeated while the ten staging pages are erased. *)
Definition demo_boot_file : list sector :=
  (2000, demo_sector 0x10001000 0 2 CFG_UF2_FAMILY_BOOT_ID
    (replicate 20 255 ++ bytes32 0xF4000 ++ bytes32 0xFE000 ++ replicate 448 255)) ::
  replicate 11 (2001, demo_sector 0xF4000 1 2 CFG_UF2_FAMILY_BOOT_ID (demo_vectors 0xF4009)).

Lemma uf2_bootloader_vetted_witness :
  let s := uf2_run (demo_drive true) 0x7000 256 500 10 demo_boot_file (fresh_session (demo_drive true) 0x7000 demo_fs) in
  has_uicr (fst s) = true /\ fmem (snd s) 0xF4000 = 255.
Proof.
  assert (Forall sector_ok (snd <$> demo_boot_file)) as Hok
    by (repeat (constructor; [apply (demo_ok (0, _)); vm_compute; reflexivity|]); constructor).
  pose proof (uf2_bootloader_vetted (demo_drive true) 0x7000 256 500 10 demo_fs 0x4000
    (demo_device true) eq_refl demo_boot_file Hok) as Hw.
  assert (let st := fst (uf2_run (demo_drive true) 0x7000 256 500 10 demo_boot_file
    (fresh_session (demo_drive true) 0x7000 demo_fs)) in
    (updateKind st =? 2) && negb (aborted st) && (numBlocks st <=? numWritten st) = true) as Hv by reflexivity.
  destruct (uf2_run _ _ _ _ _ _ _) as [st fs]. cbn [fst snd] in *. cbn zeta in Hv. bool_cases.
  destruct Hw as (_ & E & _ & F & _); [done|done|done|]. split; [exact E|]. rewrite F; [reflexivity|].
  unfold NEW_RECEIVED, BOOTLOADER_ADDR_NEW_RECEIVED, USER_END, USER_FLASH_END, DFU_BL_IMAGE_MAX_SIZE. cbn. lia.
Defined.
