(* ===== verification/Uf2Install.v ===== *)
(** The honest host: an application image split into UF2 blocks is installed
    whatever the order of the blocks and however often they are repeated, and
    no sector is answered "busy" more than twice. *)
From S2P Require Import Prelude BootImage Nvm DfuTypes DfuPolicy FlashNrf5x Uf2 Uf2App Uf2Boot Uf2Transfer.

Section Install.
Context `{Nvmc} (b : policy_build) (reserved ram_kb lba0 sectors : Z) (fs0 : flash_state) (A : Z).
Abbreviation m := (b_mcu b).
Abbreviation m0 := (fmem fs0).
Abbreviation wb := (write_block b reserved ram_kb lba0 sectors).
Abbreviation UEND := (USER_END b reserved).
Abbreviation deliver := (deliver b reserved ram_kb lba0 sectors).
Hypothesis Hdev : device_ok m reserved m0 A.

(** The whole image delivered: every sector answered 512 within three calls. *)
Fixpoint deliver_all (ss : list sector) (s : WriteState * flash_state) : option (WriteState * flash_state) :=
  match ss with
  | [] => Some s
  | x :: ss =>
    match deliver 3 x s with
    | Some (z, s) => if z =? 512 then deliver_all ss s else None
    | None => None
    end
  end.

(** A UF2 file for the application [A, E): numbered blocks with distinct
    targets that cover it, outside the extent of CURRENT.UF2; it may repeat the
    installed SoftDevice and may have blocks for the MBR. *)
Record honest (img : list sector) (E : Z) : Prop := {
  ho_sector x : x ∈ img -> sector_ok (snd x);
  ho_blocks : lenZ img <= MAX_BLOCKS m;
  ho_place x : x ∈ img -> uf2_current_lba_is_synthetic (fst x) lba0 sectors = false;
  ho_block x : x ∈ img -> is_uf2_block (block_of x) = true /\
    family_kind b (bl_familyID (block_of x)) = Some UF2_UPDATE_KIND_APPLICATION /\
    bl_numBlocks (block_of x) = lenZ img /\ bl_blockNo (block_of x) < lenZ img /\ bl_targetAddr (block_of x) < E;
  ho_nos : NoDup (bl_blockNo ∘ block_of <$> img);
  ho_targets : NoDup (bl_targetAddr ∘ block_of <$> img);
  ho_range : A < E <= UEND /\ E mod 256 = 0;
  ho_cover a : A <= a < E -> a mod 256 = 0 -> exists x, x ∈ img /\ bl_targetAddr (block_of x) = a;
  ho_softdevice x : x ∈ img -> USER_FLASH_START <= bl_targetAddr (block_of x) < A ->
    mem_read m0 (bl_targetAddr (block_of x)) 256 = payload (block_of x);
  ho_vectors x : x ∈ img -> bl_targetAddr (block_of x) = A ->
    vectors_fit A E (field32 (payload (block_of x)) 0) (field32 (payload (block_of x)) 4) (RAM_END ram_kb)
}.

Lemma NoDup_fmap_eq {B} (f : sector -> B) (img : list sector) x y :
  NoDup (f <$> img) -> x ∈ img -> y ∈ img -> f x = f y -> x = y.
Proof.
  intros Hnd Hx Hy E. apply list_elem_of_lookup in Hx as (i & Hi), Hy as (j & Hj).
  assert (i = j) as ->; [|congruence].
  eapply (proj1 (NoDup_alt (f <$> img)) Hnd); rewrite list_lookup_fmap; [by rewrite Hi|]. by rewrite Hj, E.
Qed.

Section Image.
Context (img : list sector) (E : Z).
Hypothesis Hh : honest img E.

Definition from_image (hist : list UF2_Block) : Prop := forall bl, bl ∈ hist -> exists x, x ∈ img /\ bl = block_of x.

(** Where a delivery stands. *)
Record under_way (hist : list UF2_Block) (st : WriteState) (fs : flash_state) : Prop := {
  uw_inv : app_inv b reserved m0 A hist st fs;
  uw_final : app_final b reserved ram_kb A st (fmem fs);
  uw_alive : aborted st = false;
  uw_from : from_image hist;
  uw_blocks : numBlocks st = 0 \/ numBlocks st = lenZ img;
  uw_done : 0 < numBlocks st <= numWritten st -> appValidated st = true
}.

Lemma word_of_payload fm a l o : mem_read fm a 256 = l -> 0 <= o <= 252 -> field32 l o = mem_word fm (a + o).
Proof.
  intros <- Ho. unfold field32. rewrite sliceZ_mem_read by lia. unfold read_le32, mem_word.
  rewrite !nthZ_mem_read by lia. by rewrite Z.add_0_r.
Qed.

(** When every block of the file is in, the finalization accepts. *)
Lemma image_finalizes hist st fs : app_inv b reserved m0 A hist st fs -> from_image hist ->
  (forall x, x ∈ img -> block_of x ∈ hist) ->
  appSettingsInvalidated st = true /\
  uf2_application_finalize (targetMask st) (lenZ (targetMask st)) A UEND (appMaximumWrittenEnd st)
    (if A <? UEND then mem_word (fmem fs) A else 0) (if A <? UEND then mem_word (fmem fs) (A + 4) else 0)
    (RAM_END ram_kb) = Some (E - A).
Proof.
  intros Hinv Hfrom Hall. pose proof Hinv as [Hm Hf]. destruct Hh as [_ _ _ Hbl _ _ [Hr HEm] Hcov _ Hvec].
  pose proof (base_in b reserved m0 A Hdev) as (HA & _).
  pose proof (m_facts b reserved m0 A Hdev) as (_ & _ & _ & HE & _ & HS & _ & HF & HFm & HF2).
  assert (A mod 256 = 0) as HAm by (pose proof (dv_page _ _ _ _ Hdev); unfold PAGE in *; zlia).
  destruct (Hcov A) as (xa & Hxa & Hta); [lia|done|].
  destruct (Hcov (E - 256)) as (xe & Hxe & Hte); [zlia|zlia|].
  assert (appMaximumWrittenEnd st = E) as Hmx.
  { destruct (am_max _ _ _ _ _ Hm) as [Hle Hex]. specialize (Hle _ (Hall _ Hxe)). rewrite Hte in Hle.
    destruct Hex as [?|(bl & Hin & Hba & Hb)]; [zlia|]. destruct (Hfrom bl Hin) as (x & Hx & ->).
    destruct (Hbl x Hx) as (Hu & _ & _ & _ & Ht). apply is_uf2_target in Hu as [Hu _]. zlia. }
  split.
  - assert (A <= bl_targetAddr (block_of xa)) as Hge by lia.
    pose proof (am_erased _ _ _ _ _ Hm _ (Hall _ Hxa) Hge) as Her.
    apply (am_pages _ _ _ _ _ Hm) in Her; [by destruct Her|].
    by apply (page_index_in b reserved m0 A Hdev).
  - assert ((A <? UEND) = true) as -> by (apply Z.ltb_lt; lia). rewrite Hmx.
    apply finalize_spec; [lia|unfold PAGE in *; lia|by eapply final_word|].
    split_and!; try done; try lia; [|].
    + intros a Ha Hal. destruct (Hcov a Ha Hal) as (x & Hx & Ht). split.
      * rewrite (am_tlen _ _ _ _ _ Hm). unfold UF2_FLASH_BLOCK_COUNT. unfold PAGE in *. zlia.
      * apply (am_target _ _ _ _ _ Hm); [zlia|]. replace (256 * (a / 256)) with a by zlia.
        apply list_elem_of_fmap. exists (block_of x). auto.
    + assert (USER_FLASH_START <= bl_targetAddr (block_of xa)) as Hst by (unfold USER_FLASH_START, MBR_SIZE; lia).
      pose proof (af_data _ _ _ _ _ Hf _ (Hall _ Hxa) Hst) as Hd. rewrite Hta in Hd.
      pose proof (word_of_payload _ _ _ 0 Hd ltac:(lia)) as W0. rewrite Z.add_0_r in W0.
      rewrite <- W0, <- (word_of_payload _ _ _ 4 Hd) by lia. by apply Hvec.
Qed.

(** Two blocks of the file with one number, or one target, are one block. *)
Lemma same_no hist x bl : from_image hist -> x ∈ img -> bl ∈ hist -> bl_blockNo bl = bl_blockNo (block_of x) ->
  bl = block_of x.
Proof.
  intros Hfrom Hx Hin Eq. destruct (Hfrom bl Hin) as (y & Hy & ->). f_equal.
  by apply (NoDup_fmap_eq (bl_blockNo ∘ block_of) img); [apply (ho_nos _ _ Hh)|..].
Qed.
Lemma same_target hist x bl : from_image hist -> x ∈ img -> bl ∈ hist ->
  bl_targetAddr bl = bl_targetAddr (block_of x) -> bl = block_of x.
Proof.
  intros Hfrom Hx Hin Eq. destruct (Hfrom bl Hin) as (y & Hy & ->). f_equal.
  by apply (NoDup_fmap_eq (bl_targetAddr ∘ block_of) img); [apply (ho_targets _ _ Hh)|..].
Qed.

(** A block of the file that is not in yet is fresh, and nothing aborts it. *)
Lemma file_block_fresh hist st fs x : under_way hist st fs -> x ∈ img ->
  mask_test (writtenMask st) (bl_blockNo (block_of x)) = false -> fresh_block b (block_of x) 1 st.
Proof.
  intros [[Hm _] _ Hal _ Hb _] Hx Hw. destruct (ho_block _ _ Hh x Hx) as (Hu & Hf & Hn & Hno & _).
  pose proof (uf2_block_of_wf _ (ho_sector _ _ Hh x Hx)) as [_ H0 _ _ _]. fold (block_of x) in H0.
  pose proof (ho_blocks _ _ Hh).
  split; try done; try lia. destruct (am_kind _ _ _ _ _ Hm) as [?|[? _]]; auto.
Qed.

Lemma file_block_safe hist st fs x : under_way hist st fs -> x ∈ img ->
  mask_test (writtenMask st) (bl_blockNo (block_of x)) = false ->
  ~ abort_cause b reserved A (block_of x) (set_latched (bl_numBlocks (block_of x)) 1 false st) fs.
Proof.
  intros [Hinv _ Hal Hfrom _ _] Hx Hw Hc. pose proof Hinv as [Hm Hf].
  destruct (ho_block _ _ Hh x Hx) as (Hu & Hfam & Hn & Hno & Ht).
  pose proof (uf2_block_of_wf _ (ho_sector _ _ Hh x Hx)) as [Ht0 H0 _ _ _]. fold (block_of x) in H0, Ht0.
  pose proof (is_uf2_target _ Hu) as [Hum Hps]. destruct (ho_range _ _ Hh) as [Hr _].
  destruct Hc as [?|[?|[Htm|[Hst Hd]]]]; [done|lia| |].
  - cbn [set_latched targetMask] in Htm. apply (am_target _ _ _ _ _ Hm) in Htm; [|zlia].
    apply list_elem_of_fmap in Htm as (bl & Hbl & Hin).
    replace (256 * (bl_targetAddr (block_of x) / 256)) with (bl_targetAddr (block_of x)) in Hbl by zlia.
    apply (same_target hist x bl) in Hin as Heq; try done. subst bl.
    assert (mask_test (writtenMask st) (bl_blockNo (block_of x)) = true) as Hc; [|congruence].
    apply (am_written _ _ _ _ _ Hm); [done|]. apply list_elem_of_fmap. eauto.
  - assert (destination_holds (block_of x) fs = true) as Hc; [|congruence]. unfold destination_holds. rewrite Hps.
    apply bytes_eqb_eq. fold (payload (block_of x)). rewrite <- (ho_softdevice _ _ Hh x Hx Hst). apply mem_read_ext. intros a Ha.
    pose proof (dv_page _ _ _ _ Hdev). pose proof (base_in b reserved m0 A Hdev) as (HA & _).
    pose proof (m_facts b reserved m0 A Hdev) as (_ & _ & _ & HE & _ & HS & _).
    assert (bl_targetAddr (block_of x) + 256 <= A) by (unfold PAGE in *; zlia).
    rewrite (flash_outside b reserved m0 A hist st) by (done || lia).
    unfold in_settings_word. range_case; [lia|]. by rewrite andb_false_r.
Qed.

(** How many calls a block still needs. *)
Definition calls_left (st : WriteState) (bl : UF2_Block) : nat :=
  if appSettingsInvalidated st then
    if mask_test (appErasedMask st) (page_index (bl_targetAddr bl)) then 1 else 2
  else 3.

(** A repetition of a block that is in changes nothing. *)
Lemma deliver_again hist st fs x n : under_way hist st fs -> x ∈ img ->
  mask_test (writtenMask st) (bl_blockNo (block_of x)) = true ->
  deliver (S n) x (st, fs) = Some (512, (st, fs)) /\ block_of x ∈ hist.
Proof.
  intros [[Hm Hf] _ Hal Hfrom Hb _] Hx Hw. destruct (ho_block _ _ Hh x Hx) as (Hu & Hfam & Hn & Hno & Ht).
  pose proof (uf2_block_of_wf _ (ho_sector _ _ Hh x Hx)) as [_ H0 _ _ _]. fold (block_of x) in H0.
  pose proof (is_uf2_target _ Hu) as [_ Hps]. pose proof (ho_blocks _ _ Hh).
  pose proof Hw as Hin. apply (am_written _ _ _ _ _ Hm) in Hin; [|done]. apply list_elem_of_fmap in Hin as (bl & Hno' & Hin).
  apply (same_no hist x bl) in Hin as Heq; try done. subst bl. split; [|done].
  assert (updateKind st = 1) as Hk.
  { destruct (am_kind _ _ _ _ _ Hm) as [?|(_ & _ & -> & _)]; [done|inversion Hin]. }
  assert (numBlocks st = bl_numBlocks (block_of x)) as Hnb.
  { destruct (am_blocks _ _ _ _ _ Hm) as [[_ ->]|?]; [inversion Hin|lia]. }
  cbn [Uf2Transfer.deliver fst snd]. unfold block_of in *. rewrite write_block_duplicate; try done; try lia.
  - by apply (ho_place _ _ Hh).
  - intros Hst. unfold destination_holds. rewrite Hps. apply bytes_eqb_eq. by apply (af_data _ _ _ _ _ Hf).
Qed.

(** While a block is missing the transfer is neither complete nor validated. *)
Lemma not_complete hist st fs x : app_inv b reserved m0 A hist st fs -> from_image hist ->
  (numBlocks st = 0 \/ numBlocks st = lenZ img) -> x ∈ img ->
  mask_test (writtenMask st) (bl_blockNo (block_of x)) = false ->
  ~ (0 < numBlocks st <= numWritten st).
Proof.
  intros [Hm _] Hfrom Hb Hx Hw Hc. destruct (ho_block _ _ Hh x Hx) as (_ & _ & _ & Hno & _).
  pose proof (uf2_block_of_wf _ (ho_sector _ _ Hh x Hx)) as [_ H0 _ _ _]. fold (block_of x) in H0.
  assert (mask_test (writtenMask st) (bl_blockNo (block_of x)) = true); [|congruence].
  eapply all_written; [exact Hm| |lia]. pose proof (am_count _ _ _ _ _ Hm) as Hn.
  destruct (hist_count b reserved A hist st Hm) as [?| ->]; [lia|]. rewrite lenZ_nil in Hn. lia.
Qed.

Lemma finish_alive hist st fs : app_inv b reserved m0 A hist st fs -> from_image hist -> aborted st = false ->
  appValidated st = false -> numBlocks st = lenZ img -> 0 < lenZ img ->
  let s := finish b reserved ram_kb A st fs in
  under_way hist (fst s) (snd s).
Proof.
  intros Hinv Hfrom Hal Hv Hn Hpos. cbn zeta.
  destruct (finish_inv b reserved ram_kb m0 A hist st fs Hinv Hv) as [Hi Hf]; [lia|].
  revert Hi Hf. unfold finish. destruct (Z.geb_spec (numWritten st) (numBlocks st)) as [Hge|Hlt].
  2: { cbn [fst snd]. intros Hi Hf. split; auto. lia. }
  pose proof Hinv as [Hm _].
  assert (forall x, x ∈ img -> block_of x ∈ hist) as Hall.
  { intros x Hx. destruct (ho_block _ _ Hh x Hx) as (_ & _ & _ & Hno & _).
    pose proof (uf2_block_of_wf _ (ho_sector _ _ Hh x Hx)) as [_ H0 _ _ _]. fold (block_of x) in H0.
    assert (mask_test (writtenMask st) (bl_blockNo (block_of x)) = true) as Hw.
    { eapply all_written; [exact Hm| |lia]. pose proof (am_count _ _ _ _ _ Hm).
      destruct (hist_count b reserved A hist st Hm) as [?| ->]; [lia|]. rewrite lenZ_nil in *. lia. }
    apply (am_written _ _ _ _ _ Hm) in Hw; [|done]. apply list_elem_of_fmap in Hw as (bl & Hno' & Hin).
    by apply (same_no hist x bl) in Hin as Heq; subst. }
  destruct (image_finalizes hist st fs Hinv Hfrom Hall) as [Hi2 Hfin].
  unfold complete_application. cbn zeta. rewrite Hi2. cbn [negb].
  assert ((if A <? UEND then (words_of (flash_nrf5x_discard fs) A, words_of (flash_nrf5x_discard fs) (A + 4)) else (0, 0)) =
    ((if A <? UEND then mem_word (fmem fs) A else 0), (if A <? UEND then mem_word (fmem fs) (A + 4) else 0))) as ->
    by (by destruct (A <? UEND)).
  unfold RAM_END in Hfin. rewrite Hfin. cbn [fst snd]. intros Hi Hf. split; auto.
Qed.

Lemma deliver_fresh n : forall hist st fs x, under_way hist st fs -> x ∈ img ->
  mask_test (writtenMask st) (bl_blockNo (block_of x)) = false -> (calls_left st (block_of x) <= n)%nat ->
  exists st' fs', deliver n x (st, fs) = Some (512, (st', fs')) /\ under_way (block_of x :: hist) st' fs'.
Proof.
  induction n as [|n IH]; intros hist st fs x Huw Hx Hw Hn.
  { unfold calls_left in Hn. repeat case_match; lia. }
  pose proof (file_block_fresh hist st fs x Huw Hx Hw) as Hfr. pose proof (file_block_safe hist st fs x Huw Hx Hw) as Hsafe.
  destruct (ho_block _ _ Hh x Hx) as (Hu & Hfam & Hnb & Hno & Ht). pose proof (ho_blocks _ _ Hh) as Hmax.
  pose proof (uf2_block_of_wf _ (ho_sector _ _ Hh x Hx)) as Hwf. fold (block_of x) in Hwf.
  assert (0 < lenZ img) as Hpos by (destruct Hwf; lia).
  cbn [Uf2Transfer.deliver fst snd]. unfold block_of in *.
  rewrite write_block_fresh with (k := 1); [|done|by apply (ho_place _ _ Hh)].
  fold (block_of x) in *. set (st0 := set_latched _ _ _ _) in *.
  destruct Huw as [Hinv Hfin Hal Hfrom Hb Hdone].
  assert (app_inv b reserved m0 A hist st0 fs) as Hinv0.
  { eapply latch_inv; try done; [|right; right; split; [done|lia]]. destruct Hfr as [_ _ _ ? ? _ Hb2 Hk2 _].
    unfold latch_ok. split; [|split; [|lia]]; [destruct Hb2|destruct Hk2]; auto. }
  pose proof (not_complete hist st0 fs x Hinv0 Hfrom (or_intror Hnb) Hx Hw) as Hnc.
  assert (appValidated st = false) as Hv.
  { destruct (appValidated st) eqn:Hv; [|done]. destruct (Hfin Hv) as (H1 & H2 & _).
    destruct (not_complete hist st fs x Hinv Hfrom Hb Hx Hw). lia. }
  destruct (accept_app b reserved ram_kb m0 A Hdev hist st0 fs _ Hinv0 eq_refl Hwf Hu) as (z & st1 & fs1 & Hab & ->).
  assert (0 < bl_numBlocks (block_of x) <= MAX_BLOCKS m) as Hb1 by lia.
  assert (bl_blockNo (block_of x) < bl_numBlocks (block_of x)) as Hno1 by lia.
  destruct (app_block_inv b reserved m0 A Hdev hist st0 fs _ z st1 fs1 Hinv0 eq_refl eq_refl Hwf Hu Hfam Hb1 Hno1 Hw Hab)
    as (Hinv1 & Hn1 & Hv1 & Hk1).
  change (numBlocks st0) with (bl_numBlocks (block_of x)) in Hn1. change (appValidated st0) with (appValidated st) in Hv1.
  rewrite Hnb in Hn1. rewrite Hv in Hv1.
  assert (forall st2 fs2, app_inv b reserved m0 A hist st2 fs2 -> aborted st2 = false -> numBlocks st2 = lenZ img ->
    appValidated st2 = false -> numWritten st2 = numWritten st0 -> under_way hist st2 fs2) as Hbusy.
  { intros st2 fs2 Hi2 Ha2 Hn2 Hv2 Hw2. split; auto; [by intros ?; congruence|].
    rewrite Hn2, Hw2. change (numBlocks st0) with (bl_numBlocks (block_of x)) in Hnc. rewrite Hnb in Hnc. done. }
  destruct Hab as [Hc|Hi|Hi Ha Hpg|fs' Hst Ht' Htm]; cbn [Z.eqb Pos.eqb] in *.
  - done.
  - apply IH; try done; [by apply Hbusy|]. unfold calls_left in *. cbn. change (appSettingsInvalidated st0) with (appSettingsInvalidated st) in Hi.
    rewrite Hi in Hn. case_match; lia.
  - apply IH; try done; [by apply Hbusy|]. unfold calls_left in *. cbn [set_app_flash appSettingsInvalidated appErasedMask].
    change (appSettingsInvalidated st0) with (appSettingsInvalidated st) in Hi.
    change (appErasedMask st0) with (appErasedMask st) in *. rewrite Hi, Hpg in Hn.
    destruct (page_index_in b reserved m0 A Hdev (bl_targetAddr (block_of x))) as (H0 & _); [lia|].
    rewrite mask_test_set, Z.eqb_refl; [cbn; lia|done|done|].
    rewrite (am_elen _ _ _ _ _ (proj1 Hinv)). by apply (mask_pos_pages b reserved m0 A Hdev).
  - assert (from_image (block_of x :: hist)) as Hfrom'.
    { intros bl Hin. apply elem_of_cons in Hin as [->|Hin]; eauto. }
    assert (aborted (commit_block (block_of x) 1 A st0) = false) as Ha1 by (by destruct (commit_fields A (block_of x) st0) as (_ & _ & -> & _)).
    pose proof (finish_alive _ _ _ Hinv1 Hfrom' Ha1 Hv1 Hn1 Hpos) as Hd. cbn zeta in Hd.
    destruct (finish b reserved ram_kb A _ fs') as [st' fs'']. cbn [Z.eqb Pos.eqb]. eauto.
Qed.

Lemma deliver_any hist st fs x : under_way hist st fs -> x ∈ img ->
  exists hist' st' fs', deliver 3 x (st, fs) = Some (512, (st', fs')) /\ under_way hist' st' fs' /\
    block_of x ∈ hist' /\ (forall bl, bl ∈ hist -> bl ∈ hist').
Proof.
  intros Huw Hx. destruct (mask_test (writtenMask st) (bl_blockNo (block_of x))) eqn:Hw.
  - destruct (deliver_again hist st fs x 2 Huw Hx Hw) as [Hd Hin]. exists hist, st, fs. auto.
  - destruct (deliver_fresh 3 hist st fs x Huw Hx Hw) as (st' & fs' & Hd & Huw').
    { unfold calls_left. repeat case_match; lia. }
    exists (block_of x :: hist), st', fs'. split_and!; try done; [constructor|]. intros bl Hin. by constructor.
Qed.

Lemma deliver_all_inv ss : (forall x, x ∈ ss -> x ∈ img) -> forall hist st fs, under_way hist st fs ->
  exists hist' st' fs', deliver_all ss (st, fs) = Some (st', fs') /\ under_way hist' st' fs' /\
    (forall x, x ∈ ss -> block_of x ∈ hist') /\ (forall bl, bl ∈ hist -> bl ∈ hist').
Proof.
  induction ss as [|x ss IH]; intros Hin hist st fs Huw.
  { exists hist, st, fs. split_and!; try done. intros x Hx. inversion Hx. }
  destruct (deliver_any hist st fs x Huw) as (h1 & st1 & fs1 & Hd & Huw1 & Hx1 & Hk1); [apply Hin; constructor|].
  destruct (IH (fun y Hy => Hin y (list_elem_of_further _ _ _ Hy)) h1 st1 fs1 Huw1) as (h2 & st2 & fs2 & Hd2 & Huw2 & Hx2 & Hk2).
  exists h2, st2, fs2. cbn [deliver_all]. rewrite Hd. cbn [Z.eqb Pos.eqb]. split_and!; auto.
  intros y Hy. apply elem_of_cons in Hy as [->|Hy]; auto.
Qed.

Lemma under_way_reset : under_way [] (uf2_transfer_reset m reserved) fs0.
Proof.
  split; try done; [by apply initial_inv|intros bl Hin; inversion Hin|by left|]. cbn. lia.
Qed.

Lemma all_in_complete hist st : app_masks b reserved A hist st -> (numBlocks st = 0 \/ numBlocks st = lenZ img) ->
  (forall x, x ∈ img -> block_of x ∈ hist) -> 0 < lenZ img -> 0 < numBlocks st <= numWritten st.
Proof.
  intros Hm Hb Hall Hpos. destruct img as [|x0 l] eqn:Himg; [done|]. rewrite <- Himg in *.
  assert (x0 ∈ img) as Hx0 by (rewrite Himg; constructor).
  assert (numBlocks st = lenZ img) as Hnb.
  { destruct Hb as [Hb|?]; [|done]. destruct (am_blocks _ _ _ _ _ Hm) as [[_ Hnil]|?]; [|lia].
    specialize (Hall _ Hx0). rewrite Hnil in Hall. inversion Hall. }
  rewrite Hnb, (am_count _ _ _ _ _ Hm). split; [done|]. unfold lenZ. apply inj_le.
  rewrite <- (length_fmap (bl_blockNo ∘ block_of) img), <- (length_fmap bl_blockNo hist).
  apply NoDup_incl_length; [apply NoDup_ListNoDup, (ho_nos _ _ Hh)|].
  intros k Hk. apply list_elem_of_In, list_elem_of_fmap in Hk as (x & -> & Hx).
  apply list_elem_of_In, list_elem_of_fmap. exists (block_of x). split; [done|]. by apply Hall.
Qed.

Lemma image_nonempty : 0 < lenZ img.
Proof.
  pose proof (base_in b reserved m0 A Hdev). pose proof (dv_page _ _ _ _ Hdev). destruct (ho_range _ _ Hh) as [Hr _].
  destruct (ho_cover _ _ Hh A) as (x & Hx & _); [lia|unfold PAGE in *; zlia|].
  destruct img; [inversion Hx|]. rewrite lenZ_cons. pose proof (lenZ_nonneg l). lia.
Qed.
End Image.

(** The honest delivery, for any order and repetition. *)
Lemma honest_delivery img E ss : honest img E ->
  (forall x, x ∈ ss -> x ∈ img) -> (forall x, x ∈ img -> x ∈ ss) ->
  exists st fs, deliver_all ss (fresh_session b reserved fs0) = Some (st, fs) /\
    aborted st = false /\ appValidated st = true /\ appStart st = A /\ appSize st = E - A /\
    (forall x, x ∈ img -> USER_FLASH_START <= bl_targetAddr (block_of x) ->
       mem_read (fmem fs) (bl_targetAddr (block_of x)) 256 = payload (block_of x)).
Proof.
  intros Hh Hss Hall.
  destruct (deliver_all_inv img E Hh ss Hss _ _ _ (under_way_reset img)) as (hist & st & fs & Hd & Huw & Hin & _).
  exists st, fs. split; [exact Hd|]. destruct Huw as [Hinv Hfin Hal Hfrom Hb Hdone]. pose proof Hinv as [Hm Hf].
  assert (forall x, x ∈ img -> block_of x ∈ hist) as Hin' by auto.
  pose proof (image_nonempty img E Hh) as Hpos.
  pose proof (Hdone (all_in_complete img E Hh hist st Hm Hb Hin' Hpos)) as Hv.
  destruct (Hfin Hv) as (_ & _ & _ & Hs & Hsz).
  destruct (image_finalizes img E Hh hist st fs Hinv Hfrom Hin') as [_ Hsz']. rewrite Hsz' in Hsz. injection Hsz as Hsz.
  split_and!; try done. intros x Hx Hst. apply (af_data _ _ _ _ _ Hf); auto.
Qed.

(** C9: An honest transfer always succeeds. Take any UF2 file of an application
    (consecutively numbered blocks with distinct targets that cover [A, E), with
    a sane vector table, optionally repeating the installed SoftDevice or
    covering the MBR) and write its sectors in any order, any number of times
    each: every sector is accepted within three calls, nothing aborts, and once
    each has been written at least once the application is validated with
    exactly its extent and the flash holds every block of the file. *)
Theorem uf2_installs img E ss : honest img E ->
  (forall x, x ∈ ss -> x ∈ img) -> (forall x, x ∈ img -> x ∈ ss) ->
  exists st fs, deliver_all ss (fresh_session b reserved fs0) = Some (st, fs) /\
    aborted st = false /\ appValidated st = true /\ appStart st = A /\ appSize st = E - A /\
    (forall x, x ∈ img -> USER_FLASH_START <= bl_targetAddr (block_of x) ->
       mem_read (fmem fs) (bl_targetAddr (block_of x)) 256 = payload (block_of x)).
Proof. apply honest_delivery. Qed.

(** ** "Busy" ends *)

Lemma app_deliver n : forall hist st fs x, app_inv b reserved m0 A hist st fs -> sector_ok (snd x) ->
  ~ fresh_block b (block_of x) 2 st -> (calls_left st (block_of x) <= n)%nat ->
  exists r, deliver n x (st, fs) = Some r.
Proof.
  induction n as [|n IH]; intros hist st fs x Hinv Hx H2 Hn.
  { unfold calls_left in Hn. repeat case_match; lia. }
  cbn [Uf2Transfer.deliver fst snd]. pose proof (uf2_block_of_wf _ Hx) as Hwf.
  destruct (write_block_cases b reserved ram_kb lba0 sectors (fst x) (snd x) st fs) as
    [(z & nb & uk & ab & k & -> & _ & _ & _ & Hz & _)|(k & Hfr & Hsyn & ->)].
  { destruct (Z.eqb_spec z 0); [done|]. eauto. }
  pose proof Hfr as [Hal Hu Hfam Hnz Hmax Hno Hb Hk Hw].
  destruct (family_kind_cases _ _ _ Hfam) as [->| ->]; [|done].
  fold (block_of x) in *. set (st0 := set_latched _ _ _ _) in *.
  assert (app_inv b reserved m0 A hist st0 fs) as Hinv0.
  { eapply latch_inv; try done; [|right; right; split; [done|destruct Hwf; lia]].
    unfold latch_ok. split; [|split; [|lia]]; [destruct Hb|destruct Hk]; auto. }
  destruct (accept_app b reserved ram_kb m0 A Hdev hist st0 fs _ Hinv0 eq_refl Hwf Hu) as (z & st1 & fs1 & Hab & ->).
  assert (0 < bl_numBlocks (block_of x) <= MAX_BLOCKS m) as Hb1 by (destruct Hwf; lia).
  destruct (app_block_inv b reserved m0 A Hdev hist st0 fs _ z st1 fs1 Hinv0 eq_refl eq_refl Hwf Hu Hfam Hb1 Hno Hw Hab)
    as (Hinv1 & _ & _ & Hk1).
  assert (~ fresh_block b (block_of x) 2 st1) as H2' by (intros []; lia).
  destruct Hab as [Hc|Hi|Hi Ha Hpg|fs' Hst Ht' Htm]; cbn [Z.eqb Pos.eqb] in *.
  - eauto.
  - eapply IH; try done. unfold calls_left in *. cbn. change (appSettingsInvalidated st0) with (appSettingsInvalidated st) in Hi.
    rewrite Hi in Hn. case_match; lia.
  - eapply IH; try done. unfold calls_left in *. cbn [set_app_flash appSettingsInvalidated appErasedMask].
    change (appSettingsInvalidated st0) with (appSettingsInvalidated st) in Hi.
    change (appErasedMask st0) with (appErasedMask st) in *. rewrite Hi, Hpg in Hn.
    destruct (page_index_in b reserved m0 A Hdev (bl_targetAddr (block_of x))) as (H0 & _); [lia|].
    rewrite mask_test_set, Z.eqb_refl; [cbn; lia|done|done|].
    rewrite (am_elen _ _ _ _ _ (proj1 Hinv)). by apply (mask_pos_pages b reserved m0 A Hdev).
  - eauto.
Qed.

(** A bootloader block is busy only while the staging pages are erased. *)
Lemma boot_busy bl st fs s : write_bootloader_block b reserved bl st fs = (Ret 0, s) ->
  bootloaderStagingErased st = false /\ s = snd (erase_bootloader_staging b reserved st fs).
Proof.
  unfold write_bootloader_block, erase_bootloader_staging.
  destruct (in_uicr_space _); [by case_match|]. destruct (in_bootloader_space _ _); [|by case_match].
  destruct (bootloaderStagingErased st); [done|]. intros [= <-]. done.
Qed.

Lemma boot_deliver n : forall nos st fs x, boot_inv b reserved m0 nos st fs -> sector_ok (snd x) ->
  (DFU_BL_IMAGE_MAX_SIZE m - bootloaderEraseOffset st) / PAGE < Z.of_nat n ->
  exists r, deliver n x (st, fs) = Some r.
Proof.
  induction n as [|n IH]; intros nos st fs x Hinv Hx Hn.
  { destruct (bi_offset _ _ _ _ _ _ Hinv). unfold PAGE in *. exfalso. zlia. }
  cbn [Uf2Transfer.deliver fst snd]. pose proof (uf2_block_of_wf _ Hx) as Hwf.
  destruct (write_block_cases b reserved ram_kb lba0 sectors (fst x) (snd x) st fs) as
    [(z & nb & uk & ab & k & -> & _ & _ & _ & Hz & _)|(k & Hfr & Hsyn & ->)].
  { destruct (Z.eqb_spec z 0); [done|]. eauto. }
  destruct Hfr as [Hal Hu Hfam Hnz Hmax Hno Hb Hk Hw].
  destruct Hk as [Hk|Hk]; [destruct Hinv; lia|]. rewrite (bi_kind _ _ _ _ _ _ Hinv) in Hk. subst k.
  destruct Hb as [Hb|Hb]; [destruct Hinv; lia|]. rewrite <- Hb. set (st0 := set_latched _ _ _ _).
  assert (boot_inv b reserved m0 nos st0 fs) as Hinv0 by (by destruct Hinv; split).
  unfold accept_block. change (2 =? UF2_UPDATE_KIND_APPLICATION) with false. cbn match.
  pose proof (boot_switch b reserved m0 A Hdev nos st0 fs _ Hinv0 Hwf Hu) as Hsw.
  destruct (write_bootloader_block b reserved (uf2_block_of (snd x)) st0 fs) as [o [st1 fs1]] eqn:Ew.
  destruct Hsw as (Hinv1 & _ & _ & _ & Ho). destruct Ho as [->|[->|[-> _]]]; cbn [Z.eqb Pos.eqb]; eauto.
  apply boot_busy in Ew as [He Hs]. eapply IH; [done..|].
  destruct (bi_offset _ _ _ _ _ _ Hinv1) as [Ho1 Ho2]. destruct (bi_offset _ _ _ _ _ _ Hinv) as [Hoo1 Hoo2].
  pose proof (boot_geometry b reserved m0 A Hdev) as (_ & _ & _ & HBp & _ & HU & _ & _).
  pose proof (bi_erased _ _ _ _ _ _ Hinv0) as Her. rewrite He, Z.geb_leb in Her. symmetry in Her. apply Z.leb_gt in Her.
  change (bootloaderEraseOffset st0) with (bootloaderEraseOffset st) in Her.
  assert (bootloaderEraseOffset st1 = bootloaderEraseOffset st + PAGE) as ->.
  { unfold erase_bootloader_staging in Hs. rewrite He in Hs. injection Hs as -> _. cbn [set_erase_offset bootloaderEraseOffset].
    change (bootloaderEraseOffset st0) with (bootloaderEraseOffset st). apply u32_small.
    assert (DFU_BL_IMAGE_MAX_SIZE m <= 0xA000) by (unfold DFU_BL_IMAGE_MAX_SIZE; by destruct m).
    unfold PAGE. lia. }
  unfold PAGE in *. zlia.
Qed.

Hypothesis Hcache : fl_addr fs0 = FLASH_CACHE_INVALID_ADDR.

(** "Busy" always ends. In every state any sequence of sectors can reach,
    repeating one sector, as the mass-storage layer does while the answer is 0,
    is answered after at most eleven calls, whatever the sector holds: an
    application block needs at most three and a bootloader block one per page of
    the ten-page staging area. *)
Theorem uf2_busy_ends ss x : Forall sector_ok (snd <$> ss) -> sector_ok (snd x) ->
  exists r, deliver 11 x (uf2_run b reserved ram_kb lba0 sectors ss (fresh_session b reserved fs0)) = Some r.
Proof.
  intros Hok Hx. pose proof (run_inv_fresh b reserved ram_kb lba0 sectors fs0 A Hdev Hcache ss Hok) as Hr.
  destruct (uf2_run _ _ _ _ _ ss _) as [st fs]. cbn [fst snd] in Hr.
  assert (DFU_BL_IMAGE_MAX_SIZE m = 0xA000) as HBL by (unfold DFU_BL_IMAGE_MAX_SIZE; by destruct m).
  destruct Hr as [(hist & Hi & Hf & _ & H0)|(nos & Hi & Hf)].
  2: { eapply boot_deliver; [done..|]. destruct (bi_offset _ _ _ _ _ _ Hi). rewrite HBL. unfold PAGE. zlia. }
  destruct (decide (updateKind st = 0)) as [Hk|Hk].
  2: { eapply app_deliver; [done..| |]; [|unfold calls_left; repeat case_match; lia].
       intros [_ _ _ _ _ _ _ Hk2 _]. destruct (am_kind _ _ _ _ _ (proj1 Hi)) as [?|[? _]]; lia. }
  destruct (H0 Hk) as (-> & He1 & He2 & Hv).
  assert (hist = []) as -> by (destruct (am_kind _ _ _ _ _ (proj1 Hi)) as [?|(_ & _ & ? & _)]; [lia|done]).
  destruct (write_block_cases b reserved ram_kb lba0 sectors (fst x) (snd x) st fs0) as
    [(z & nb & uk & ab & k & Hwb & _ & _ & _ & Hz & _)|(k & Hfr & Hsyn & Hwb)].
  { cbn [Uf2Transfer.deliver fst snd]. rewrite Hwb. destruct (Z.eqb_spec z 0); [done|]. eauto. }
  destruct (family_kind_cases _ _ _ (fr_family _ _ _ _ Hfr)) as [->| ->].
  - eapply app_deliver; [done..| |unfold calls_left; repeat case_match; lia].
    intros [_ _ Hfam _ _ _ _ _ _]. pose proof (fr_family _ _ _ _ Hfr) as Hfam'. unfold block_of in Hfam. congruence.
  - pose proof (uf2_block_of_wf _ Hx) as Hwf.
    pose proof (boot_start b reserved m0 A Hdev st fs0 _ Hi Hk He1 He2 Hv Hcache Hwf Hfr) as Hb.
    assert (deliver 11 x (st, fs0) = deliver 11 x (set_latched (bl_numBlocks (uf2_block_of (snd x))) 2 false st, fs0)) as ->.
    { cbn [Uf2Transfer.deliver fst snd]. rewrite Hwb, write_block_fresh with (k := 2); [done| |done].
      destruct Hfr; split; auto. }
    eapply boot_deliver; [done..|]. destruct (bi_offset _ _ _ _ _ _ Hb). rewrite HBL. unfold PAGE. zlia.
Qed.
End Install.

(** * Witnesses *)

#[local] Existing Instance nvmc_model.

Lemma demo_payload_block : payload (block_of demo_app_sector) = take 256 (demo_vectors 0x4009).
Proof. reflexivity. Qed.

Lemma demo_honest recovery : honest (demo_drive recovery) 0x7000 256 500 10 demo_fs 0x4000 [demo_app_sector] 0x4100.
Proof.
  assert (forall x, x ∈ [demo_app_sector] -> x = demo_app_sector) as H1 by (by intros x ?%list_elem_of_singleton).
  split; try (intros x ->%H1).
  - apply demo_ok. reflexivity.
  - vm_compute. discriminate.
  - reflexivity.
  - split_and!; vm_compute; reflexivity.
  - constructor; [intros Hin; inversion Hin|constructor].
  - constructor; [intros Hin; inversion Hin|constructor].
  - vm_compute. split; [split; [reflexivity|discriminate]|reflexivity].
  - intros a Ha Hm. exists demo_app_sector. split; [constructor|].
    assert (bl_targetAddr (block_of demo_app_sector) = 0x4000) as -> by reflexivity. zlia.
  - assert (bl_targetAddr (block_of demo_app_sector) = 0x4000) as -> by reflexivity. lia.
  - intros _. unfold vectors_fit.
    assert (field32 (payload (block_of demo_app_sector)) 0 = 0x20008000) as -> by reflexivity.
    assert (field32 (payload (block_of demo_app_sector)) 4 = 0x4009) as -> by reflexivity.
    assert (RAM_END 256 = 0x20040000) as -> by reflexivity. split_and!; try done; lia.
Qed.

Lemma uf2_installs_witness :
  exists st fs, deliver_all (demo_drive true) 0x7000 256 500 10 [demo_app_sector; demo_app_sector]
    (fresh_session (demo_drive true) 0x7000 demo_fs) = Some (st, fs) /\ appSize st = 0x4100 - 0x4000.
Proof.
  destruct (uf2_installs (demo_drive true) 0x7000 256 500 10 demo_fs 0x4000 (demo_device true) [demo_app_sector] 0x4100
    [demo_app_sector; demo_app_sector]) as (st & fs & Hd & _ & _ & _ & Hs & _).
  - apply demo_honest.
  - intros x Hx. apply elem_of_cons in Hx as [->|Hx]; [constructor|done].
  - intros x Hx. by constructor.
  - exists st, fs. split; [exact Hd|exact Hs].
Defined.

Lemma uf2_busy_ends_witness : exists r,
  deliver (demo_drive true) 0x7000 256 500 10 11 demo_app_sector
    (uf2_run (demo_drive true) 0x7000 256 500 10 [demo_app_sector] (fresh_session (demo_drive true) 0x7000 demo_fs)) = Some r.
Proof.
  apply (uf2_busy_ends (demo_drive true) 0x7000 256 500 10 demo_fs 0x4000 (demo_device true) eq_refl).
  - constructor; [apply demo_ok; reflexivity|constructor].
  - apply demo_ok. reflexivity.
Defined.
