(* ===== verification/GhostFat.v ===== *)
(** The synthesized FAT16 volume: the read half of [src/usb/uf2/ghostfat.c].
    The volume holds the two information files and CURRENT.UF2, a view of the
    flash from the end of the MBR on.  This is the build without the [MOTA_*]
    options; the information texts, the volume label and the time stamps are
    build constants ([volume]). *)
From S2P Require Import Prelude BootImage Nvm DfuTypes DfuPolicy FlashNrf5x Settings Uf2.

(** * Geometry *)

Definition BPB_SECTORS_PER_CLUSTER : Z := 1.
Definition BPB_RESERVED_SECTORS : Z := 1.
Definition BPB_NUMBER_OF_FATS : Z := 2.
Definition BPB_ROOT_DIR_ENTRIES : Z := 64.
Definition CFG_UF2_NUM_BLOCKS : Z := 0x10109.
Definition BPB_TOTAL_SECTORS : Z := CFG_UF2_NUM_BLOCKS.
Definition BPB_MEDIA_DESCRIPTOR_BYTE : Z := 0xF8.
Definition FAT_ENTRY_SIZE : Z := 2.
Definition FAT_ENTRIES_PER_SECTOR : Z := BPB_SECTOR_SIZE / FAT_ENTRY_SIZE.
Definition BPB_SECTORS_PER_FAT : Z :=
  BPB_TOTAL_SECTORS / FAT_ENTRIES_PER_SECTOR + (if negb (BPB_TOTAL_SECTORS mod FAT_ENTRIES_PER_SECTOR =? 0) then 1 else 0).
Definition DIRENTRIES_PER_SECTOR : Z := BPB_SECTOR_SIZE / 32.
Definition ROOT_DIR_SECTOR_COUNT : Z := BPB_ROOT_DIR_ENTRIES / DIRENTRIES_PER_SECTOR.
Definition NUM_FILES : Z := 3.
Definition NUM_INFO_SECTORS : Z := NUM_FILES - 1.
Definition UF2_FIRST_SECTOR : Z := (NUM_INFO_SECTORS + 2) * BPB_SECTORS_PER_CLUSTER.
Definition FS_START_FAT0_SECTOR : Z := BPB_RESERVED_SECTORS.
Definition FS_START_FAT1_SECTOR : Z := FS_START_FAT0_SECTOR + BPB_SECTORS_PER_FAT.
Definition FS_START_ROOTDIR_SECTOR : Z := FS_START_FAT1_SECTOR + BPB_SECTORS_PER_FAT.
Definition FS_START_CLUSTERS_SECTOR : Z := FS_START_ROOTDIR_SECTOR + ROOT_DIR_SECTOR_COUNT.
Definition CURRENT_UF2_FIRST_LBA : Z := FS_START_CLUSTERS_SECTOR + NUM_INFO_SECTORS.

Definition TRUE_USER_FLASH_SIZE (m : mcu) (reserved : Z) : Z := USER_FLASH_END m reserved - USER_FLASH_START.
Definition UF2_SECTORS (m : mcu) (reserved : Z) : Z :=
  TRUE_USER_FLASH_SIZE m reserved / UF2_FIRMWARE_BYTES_PER_SECTOR +
  (if negb (TRUE_USER_FLASH_SIZE m reserved mod UF2_FIRMWARE_BYTES_PER_SECTOR =? 0) then 1 else 0).

(** The build's constants: the two information texts, the volume label, and
    the compiler's date and time ([compile_date.h]). *)
Record volume := mk_volume {
  infoUf2File : list Z; indexFile : list Z; UF2_VOLUME_LABEL : list Z;
  YEAR_INT : Z; MONTH_INT : Z; DAY_INT : Z; HOUR_INT : Z; MINUTE_INT : Z; SECONDS_INT : Z
}.

Definition DOSDATE (v : volume) : Z :=
  Z.lor (Z.lor (Z.shiftl (YEAR_INT v - 1980) 9) (Z.shiftl (MONTH_INT v) 5)) (Z.shiftl (DAY_INT v) 0).
Definition DOSTIME (v : volume) : Z :=
  Z.lor (Z.lor (Z.shiftl (HOUR_INT v) 11) (Z.shiftl (MINUTE_INT v) 5)) (Z.shiftl (SECONDS_INT v) 0).

(** * Helpers *)

(** [data] zeroed, then [bytes] copied to its front. *)
Definition sector_with (bytes : list Z) : list Z := put (replicate 512 0) 0 bytes.

(** [src] is a C string: past its end it reads as NUL. *)
Fixpoint padded_memcpy (src : list Z) (len : nat) : list Z :=
  match len with
  | O => []
  | S len =>
    if negb (hd 0 src =? 0) then hd 0 src :: padded_memcpy (tl src) len else 0x20 :: padded_memcpy src len
  end.

Record DirEntry := mk_dir {
  de_name : list Z; de_attrs : Z; de_reserved : Z; de_createTimeFine : Z; de_createTime : Z; de_createDate : Z;
  de_lastAccessDate : Z; de_highStartCluster : Z; de_updateTime : Z; de_updateDate : Z; de_startCluster : Z; de_size : Z
}.
Definition dir_bytes (d : DirEntry) : list Z :=
  de_name d ++ [u8 (de_attrs d); u8 (de_reserved d); u8 (de_createTimeFine d)] ++ bytes16 (de_createTime d) ++
  bytes16 (de_createDate d) ++ bytes16 (de_lastAccessDate d) ++ bytes16 (de_highStartCluster d) ++
  bytes16 (de_updateTime d) ++ bytes16 (de_updateDate d) ++ bytes16 (de_startCluster d) ++ bytes32 (de_size d).

(** The packed [FAT_BootBlock] with its initializer. *)
Definition BootBlock (label : list Z) : list Z :=
  [0xeb; 0x3c; 0x90] ++ [0x55; 0x46; 0x32; 0x20; 0x55; 0x46; 0x32; 0x20] ++ bytes16 BPB_SECTOR_SIZE ++
  [BPB_SECTORS_PER_CLUSTER] ++ bytes16 BPB_RESERVED_SECTORS ++ [BPB_NUMBER_OF_FATS] ++ bytes16 BPB_ROOT_DIR_ENTRIES ++
  bytes16 (if BPB_TOTAL_SECTORS >? 0xFFFF then 0 else BPB_TOTAL_SECTORS) ++ [BPB_MEDIA_DESCRIPTOR_BYTE] ++
  bytes16 BPB_SECTORS_PER_FAT ++ bytes16 1 ++ bytes16 1 ++ bytes32 0 ++
  bytes32 (if BPB_TOTAL_SECTORS >? 0xFFFF then BPB_TOTAL_SECTORS else 0) ++ [0x80; 0; 0x29] ++ bytes32 0x00420042 ++
  label ++ [0x46; 0x41; 0x54; 0x31; 0x36; 0x20; 0x20; 0x20].

Section Volume.
Context (b : policy_build) (reserved : Z) (vol : volume).

(** [current_uf2_sectors], from the settings at mount. *)
Definition uf2_init (fl : flash) (settings : bootloader_settings) : Z :=
  let app_start := DFU_BANK_0_REGION_START fl in
  let app_size := bank_0_size (bootloader_settings_get (b_mcu b) fl settings) in
  let uend := USER_FLASH_END (b_mcu b) reserved in
  if (u32 (app_start - USER_FLASH_START) <? TRUE_USER_FLASH_SIZE (b_mcu b) reserved) &&
     (u32 (app_size - 1) <? u32 (uend - app_start))
  then u32 (u32 (u32 (app_start - USER_FLASH_START) + app_size) + UF2_FIRMWARE_BYTES_PER_SECTOR - 1) /
       UF2_FIRMWARE_BYTES_PER_SECTOR
  else UF2_SECTORS (b_mcu b) reserved.

Context (current_uf2_sectors : Z).

(** The 16-bit entries of FAT sector [sectionIdx] the loop stores over the
    zeroed or reserved ones. *)
Definition fat_entry (sectionIdx i : Z) : Z :=
  let current_last_sector := UF2_FIRST_SECTOR + current_uf2_sectors - 1 in
  let v := sectionIdx * FAT_ENTRIES_PER_SECTOR + i in
  if u32 (v - UF2_FIRST_SECTOR) <? current_uf2_sectors then
    if v =? current_last_sector then 0xffff else u16 (v + 1)
  else if (sectionIdx =? 0) && (i <? NUM_INFO_SECTORS + 3) then
    if i =? 0 then 0xff00 + BPB_MEDIA_DESCRIPTOR_BYTE else 0xffff
  else 0.
Definition fat_sector (sectionIdx : Z) : list Z :=
  concat (map (fun i => bytes16 (fat_entry sectionIdx i)) (seqZ 0 FAT_ENTRIES_PER_SECTOR)).

(** Name and size of the file with index [i]; CURRENT.UF2 is the last. *)
Definition file_name (i : Z) : list Z :=
  if i =? 0 then [0x49; 0x4E; 0x46; 0x4F; 0x5F; 0x55; 0x46; 0x32; 0x54; 0x58; 0x54]
  else if i =? 1 then [0x49; 0x4E; 0x44; 0x45; 0x58; 0x20; 0x20; 0x20; 0x48; 0x54; 0x4D]
  else [0x43; 0x55; 0x52; 0x52; 0x45; 0x4E; 0x54; 0x20; 0x55; 0x46; 0x32].
Definition file_content (i : Z) : option (list Z) :=
  if i =? 0 then Some (infoUf2File vol) else if i =? 1 then Some (indexFile vol) else None.

Definition dir_entry (i : Z) : DirEntry :=
  let startCluster := u16 (i + 2) in
  mk_dir (padded_memcpy (file_name i) 11) 0 0 (SECONDS_INT vol mod 2 * 100) (DOSTIME vol) (DOSDATE vol) (DOSDATE vol)
    (Z.shiftr startCluster 16) (DOSTIME vol) (DOSDATE vol) (Z.land startCluster 0xFFFF)
    (match file_content i with Some c => lenZ c | None => u32 (current_uf2_sectors * BPB_SECTOR_SIZE) end).

Definition label_entry : DirEntry :=
  mk_dir (padded_memcpy (UF2_VOLUME_LABEL vol) 11) 0x28 0 0 0 0 0 0 0 0 0 0.

Definition root_sector (sectionIdx : Z) : list Z :=
  let label := if sectionIdx =? 0 then dir_bytes label_entry else [] in
  let remainingEntries := if sectionIdx =? 0 then DIRENTRIES_PER_SECTOR - 1 else DIRENTRIES_PER_SECTOR in
  let first := DIRENTRIES_PER_SECTOR * sectionIdx in
  let count := Z.min remainingEntries (NUM_FILES - first) in
  sector_with (label ++ concat (map (fun i => dir_bytes (dir_entry i)) (seqZ first count))).

(** Block [sectionIdx] of CURRENT.UF2. *)
Definition current_block (fm : mem) (sectionIdx : Z) : list Z :=
  let addr := u32 (USER_FLASH_START + u32 (sectionIdx * UF2_FIRMWARE_BYTES_PER_SECTOR)) in
  bytes32 UF2_MAGIC_START0 ++ bytes32 UF2_MAGIC_START1 ++ bytes32 UF2_FLAG_FAMILYID ++ bytes32 addr ++
  bytes32 UF2_FIRMWARE_BYTES_PER_SECTOR ++ bytes32 sectionIdx ++ bytes32 current_uf2_sectors ++
  bytes32 (CFG_UF2_BOARD_APP_ID b) ++ put (replicate 476 0) 0 (mem_read fm addr UF2_FIRMWARE_BYTES_PER_SECTOR) ++
  bytes32 UF2_MAGIC_END.

Definition read_block (fm : mem) (block_no : Z) : list Z :=
  if block_no =? 0 then put (sector_with (BootBlock (UF2_VOLUME_LABEL vol))) 510 [0x55; 0xaa]
  else if block_no <? FS_START_ROOTDIR_SECTOR then
    let sectionIdx := block_no - FS_START_FAT0_SECTOR in
    fat_sector (if sectionIdx >=? BPB_SECTORS_PER_FAT then sectionIdx - BPB_SECTORS_PER_FAT else sectionIdx)
  else if block_no <? FS_START_CLUSTERS_SECTOR then root_sector (block_no - FS_START_ROOTDIR_SECTOR)
  else if block_no <? BPB_TOTAL_SECTORS then
    let sectionIdx := block_no - FS_START_CLUSTERS_SECTOR in
    if sectionIdx <? NUM_FILES - 1 then
      sector_with (match file_content sectionIdx with Some c => c | None => [] end)
    else
      let sectionIdx := sectionIdx - NUM_INFO_SECTORS in
      if sectionIdx <? current_uf2_sectors then current_block fm sectionIdx else replicate 512 0
  else replicate 512 0.
End Volume.

(** * The volume as a FAT16 host reads it *)

(** The next cluster in FAT [copy], the cluster chain, and the file behind
    directory entry [k]: a reference reader, written from the FAT16 layout. *)
Definition fat16_next (disk : Z -> list Z) (copy c : Z) : Z :=
  field16 (disk (FS_START_FAT0_SECTOR + copy * BPB_SECTORS_PER_FAT + c / FAT_ENTRIES_PER_SECTOR))
    (2 * (c mod FAT_ENTRIES_PER_SECTOR)).
Fixpoint fat16_chain (fuel : nat) (disk : Z -> list Z) (copy c : Z) : option (list Z) :=
  match fuel with
  | O => None
  | S fuel =>
    let v := fat16_next disk copy c in
    if v >=? 0xFFF8 then Some [c] else option_map (cons c) (fat16_chain fuel disk copy v)
  end.
Definition fat16_file (fuel : nat) (disk : Z -> list Z) (copy k : Z) : option (list Z) :=
  let root := disk FS_START_ROOTDIR_SECTOR in
  let start := field16 root (32 * k + 26) in
  let size := field32 root (32 * k + 28) in
  option_map (fun cs => sliceZ (concat (map (fun c => disk (FS_START_CLUSTERS_SECTOR + (c - 2))) cs)) 0 size)
    (fat16_chain fuel disk copy start).

Lemma lenZ_records (f : Z -> list Z) k n a : 0 <= n -> (forall j, a <= j < a + n -> lenZ (f j) = k) ->
  lenZ (concat (map f (seqZ a n))) = k * n.
Proof.
  intros Hn. revert a. pattern n. apply natlike_ind; [|clear n Hn|done]; [intros; by rewrite Z.mul_0_r|].
  intros n Hn IH a Hf. rewrite <- Z.add_1_l, seqZ_app, map_app, concat_app, lenZ_app by lia.
  change (seqZ a 1) with [a]. cbn [map concat]. rewrite app_nil_r, Hf, IH by (intros; try apply Hf; lia). lia.
Qed.

(** Fixed-size records laid end to end. *)
Lemma slice_record (f : Z -> list Z) k n a i : 0 <= k -> 0 <= i < n -> (forall j, a <= j < a + n -> lenZ (f j) = k) ->
  sliceZ (concat (map f (seqZ a n))) (k * i) k = f (a + i).
Proof.
  intros Hk Hi Hf. replace n with (i + (1 + (n - i - 1))) by lia.
  rewrite seqZ_app by lia. rewrite seqZ_app by lia. rewrite !map_app, !concat_app.
  change (seqZ (a + i) 1) with [a + i]. cbn [map concat]. rewrite app_nil_r.
  assert (lenZ (concat (map f (seqZ a i))) = k * i) as Hl.
  { apply lenZ_records; [lia|]. intros; apply Hf; lia. }
  rewrite sliceZ_app_r by lia. rewrite Hl, Z.sub_diag. rewrite sliceZ_app_l by (rewrite ?Hf; lia).
  apply sliceZ_all. rewrite Hf; lia.
Qed.


Lemma sector_with_slice bs off k : 0 <= off -> 0 <= k -> off + k <= lenZ bs ->
  sliceZ (sector_with bs) off k = sliceZ bs off k.
Proof.
  intros. unfold sector_with, put. change (take (Z.to_nat 0) (replicate 512 0)) with (@nil Z).
  cbn [app]. by apply sliceZ_app_l.
Qed.

(** Equality of mapped ranges. *)
Lemma map_seqZ_ext {B} (f g : Z -> B) a a' k : (forall i, 0 <= i < k -> f (a + i) = g (a' + i)) ->
  map f (seqZ a k) = map g (seqZ a' k).
Proof.
  intros Hfg. destruct (Z.le_gt_cases 0 k) as [Hk|Hk].
  2: { unfold seqZ. replace (Z.to_nat k) with 0%nat by lia. done. }
  revert a a' Hfg. pattern k. apply natlike_ind; [done| |done]. intros k' Hk' IH a a' Hfg.
  rewrite (seqZ_cons a), (seqZ_cons a') by lia. cbn [map]. f_equal.
  - specialize (Hfg 0). rewrite !Z.add_0_r in Hfg. apply Hfg. lia.
  - replace (Z.pred (Z.succ k')) with k' by lia. apply IH. intros i Hi.
    replace (Z.succ a + i) with (a + (i + 1)) by lia. replace (Z.succ a' + i) with (a' + (i + 1)) by lia. apply Hfg. lia.
Qed.

Section Reader.
Context (b : policy_build) (reserved : Z) (vol : volume) (n : Z) (fm : mem).
Hypothesis Hn : 1 <= n <= 4096.
Abbreviation disk := (read_block b vol n fm).

Lemma fat_entry_range s i : 0 <= fat_entry n s i < 2 ^ 16.
Proof.
  unfold fat_entry, BPB_MEDIA_DESCRIPTOR_BYTE. repeat case_match; try lia. apply u16_range.
Qed.

Lemma lenZ_bytes16 z : lenZ (bytes16 z) = 2. Proof. done. Qed.
Lemma lenZ_bytes32 z : lenZ (bytes32 z) = 4. Proof. done. Qed.

Lemma fat_sector_field s i : 0 <= i < 256 -> field16 (fat_sector n s) (2 * i) = fat_entry n s i.
Proof.
  intros Hi. unfold field16, fat_sector.
  change FAT_ENTRIES_PER_SECTOR with 256. rewrite slice_record by (done || lia).
  rewrite Z.add_0_l. rewrite <- (app_nil_r (bytes16 _)). apply read_le16_bytes16, fat_entry_range.
Qed.

Lemma fat_next copy c : 0 <= copy <= 1 -> 0 <= c < 0x10000 ->
  fat16_next disk copy c = fat_entry n (c / 256) (c mod 256).
Proof.
  intros Hc Hcl. unfold fat16_next. change FAT_ENTRIES_PER_SECTOR with 256. change FS_START_FAT0_SECTOR with 1.
  change BPB_SECTORS_PER_FAT with 258. unfold read_block. change FS_START_ROOTDIR_SECTOR with 517.
  change FS_START_FAT0_SECTOR with 1. change BPB_SECTORS_PER_FAT with 258. assert (0 <= c / 256 < 256) by zlia.
  destruct (Z.eqb_spec (1 + copy * 258 + c / 256) 0); [lia|].
  destruct (Z.ltb_spec (1 + copy * 258 + c / 256) 517); [|lia]. cbn zeta.
  assert ((if 1 + copy * 258 + c / 256 - 1 >=? 258 then 1 + copy * 258 + c / 256 - 1 - 258
           else 1 + copy * 258 + c / 256 - 1) = c / 256) as ->.
  { rewrite Z.geb_leb. destruct (Z.leb_spec 258 (1 + copy * 258 + c / 256 - 1)); lia. }
  apply fat_sector_field. zlia.
Qed.

Lemma fat_next_current copy j : 0 <= copy <= 1 -> 0 <= j < n ->
  fat16_next disk copy (UF2_FIRST_SECTOR + j) = if j =? n - 1 then 0xFFFF else UF2_FIRST_SECTOR + (j + 1).
Proof.
  intros Hc Hj. change UF2_FIRST_SECTOR with 4. rewrite fat_next by lia. unfold fat_entry.
  change UF2_FIRST_SECTOR with 4. change FAT_ENTRIES_PER_SECTOR with 256.
  assert ((4 + j) / 256 * 256 + (4 + j) mod 256 = 4 + j) as -> by zlia.
  rewrite u32_small by lia. destruct (Z.ltb_spec (4 + j - 4) n); [|lia].
  destruct (Z.eqb_spec (4 + j) (4 + n - 1)), (Z.eqb_spec j (n - 1)); try lia.
  rewrite u16_small by lia. lia.
Qed.

Lemma chain_current copy k : forall j, 0 <= copy <= 1 -> 0 <= j < n -> n - j = Z.of_nat (S k) ->
  fat16_chain (S k) disk copy (UF2_FIRST_SECTOR + j) = Some (seqZ (UF2_FIRST_SECTOR + j) (n - j)).
Proof.
  assert (forall f c, fat16_chain (S f) disk copy c = if fat16_next disk copy c >=? 0xFFF8 then Some [c]
    else option_map (cons c) (fat16_chain f disk copy (fat16_next disk copy c))) as Hu by done.
  induction k as [|k IH]; intros j Hc Hj Hk; rewrite Hu, fat_next_current by done.
  - destruct (Z.eqb_spec j (n - 1)); [|lia]. cbn. replace (n - j) with 1 by lia. done.
  - destruct (Z.eqb_spec j (n - 1)); [lia|]. change UF2_FIRST_SECTOR with 4 in *.
    destruct (Z.geb_spec (4 + (j + 1)) 0xFFF8); [lia|]. rewrite IH by lia.
    cbn [option_map]. rewrite (seqZ_cons (4 + j) (n - j)) by lia. do 3 f_equal; lia.
Qed.

Lemma lenZ_padded src k : lenZ (padded_memcpy src k) = Z.of_nat k.
Proof.
  revert src. induction k as [|k IH]; intros src; cbn [padded_memcpy]; [done|].
  case_match; rewrite lenZ_cons, IH; lia.
Qed.

Lemma lenZ_dir d : lenZ (de_name d) = 11 -> lenZ (dir_bytes d) = 32.
Proof. intros Hl. unfold dir_bytes. autorewrite with lenZ. rewrite Hl. done. Qed.

(** The directory entry of the file with index [i] follows the label. *)
Lemma root_entry i : 0 <= i < 3 -> sliceZ (disk FS_START_ROOTDIR_SECTOR) (32 * (i + 1)) 32 = dir_bytes (dir_entry vol n i).
Proof.
  intros Hi. change (disk FS_START_ROOTDIR_SECTOR) with (root_sector vol n 0). unfold root_sector. cbn [Z.eqb].
  change (Z.min (DIRENTRIES_PER_SECTOR - 1) (NUM_FILES - DIRENTRIES_PER_SECTOR * 0)) with 3.
  change (DIRENTRIES_PER_SECTOR * 0) with 0.
  assert (forall j, lenZ (dir_bytes (dir_entry vol n j)) = 32) as Hd by (intros j; apply lenZ_dir; apply (lenZ_padded _ 11)).
  assert (lenZ (dir_bytes (label_entry vol)) = 32) as Hl by (apply lenZ_dir, (lenZ_padded _ 11)).
  rewrite sector_with_slice by (rewrite ?lenZ_app, ?(lenZ_records _ 32); (done || lia)).
  rewrite sliceZ_app_r by lia. rewrite Hl. replace (32 * (i + 1) - 32) with (32 * i) by lia.
  rewrite slice_record by (done || lia). by rewrite Z.add_0_l.
Qed.

Lemma lenZ_current i : lenZ (current_block b n fm i) = 512.
Proof.
  unfold current_block. cbn zeta. autorewrite with lenZ. rewrite !lenZ_bytes32.
  rewrite lenZ_put; [done|lia|]. rewrite lenZ_mem_read by done. unfold lenZ. rewrite length_replicate. done.
Qed.

Lemma disk_current i : 0 <= i < n -> disk (CURRENT_UF2_FIRST_LBA + i) = current_block b n fm i.
Proof.
  intros Hi. change CURRENT_UF2_FIRST_LBA with 523. unfold read_block. change FS_START_ROOTDIR_SECTOR with 517.
  change FS_START_CLUSTERS_SECTOR with 521. change BPB_TOTAL_SECTORS with 65801. change (NUM_FILES - 1) with 2.
  change NUM_INFO_SECTORS with 2.
  destruct (Z.eqb_spec (523 + i) 0); [lia|]. destruct (Z.ltb_spec (523 + i) 517); [lia|].
  destruct (Z.ltb_spec (523 + i) 521); [lia|]. destruct (Z.ltb_spec (523 + i) 65801); [|lia]. cbn zeta.
  destruct (Z.ltb_spec (523 + i - 521) 2); [lia|]. replace (523 + i - 521 - 2) with i by lia.
  destruct (Z.ltb_spec i n); [done|lia].
Qed.

Lemma field16_slice l a o : 0 <= a -> 0 <= o <= 30 -> field16 l (a + o) = read_le16 (sliceZ (sliceZ l a 32) o 2).
Proof. intros. unfold field16. by rewrite sliceZ_sliceZ by lia. Qed.
Lemma field32_slice l a o : 0 <= a -> 0 <= o <= 28 -> field32 l (a + o) = read_le32 (sliceZ (sliceZ l a 32) o 4).
Proof. intros. unfold field32. by rewrite sliceZ_sliceZ by lia. Qed.

(** C31: A FAT16 host sees CURRENT.UF2 as one well-formed file. Following the
    directory entry and either copy of the FAT, the reference reader finds a
    chain of exactly as many clusters as the drive announces, ending in an
    end-of-chain mark, and reads from it the UF2 blocks of the flash from the
    end of the MBR on, in order and nothing else. *)
Theorem current_file_readable copy : 0 <= copy <= 1 ->
  fat16_file (Z.to_nat n) disk copy 3 = Some (concat (map (current_block b n fm) (seqZ 0 n))).
Proof.
  intros Hc. unfold fat16_file. cbn zeta.
  rewrite (field16_slice _ (32 * 3) 26), (field32_slice _ (32 * 3) 28) by lia.
  change (32 * 3) with (32 * (2 + 1)). rewrite root_entry by lia.
  assert (sliceZ (dir_bytes (dir_entry vol n 2)) 26 2 = bytes16 UF2_FIRST_SECTOR) as -> by reflexivity.
  assert (sliceZ (dir_bytes (dir_entry vol n 2)) 28 4 = bytes32 (u32 (n * 512)) ++ []) as -> by reflexivity.
  assert (read_le16 (bytes16 UF2_FIRST_SECTOR) = UF2_FIRST_SECTOR + 0) as -> by reflexivity.
  rewrite u32_small by lia. rewrite read_le32_bytes32 by lia.
  replace (Z.to_nat n) with (S (Z.to_nat (n - 1))) by lia. rewrite chain_current by lia.
  cbn [option_map]. f_equal.
  assert (map (fun c => disk (FS_START_CLUSTERS_SECTOR + (c - 2))) (seqZ (UF2_FIRST_SECTOR + 0) (n - 0)) =
          map (current_block b n fm) (seqZ 0 n)) as ->.
  { rewrite Z.sub_0_r. apply map_seqZ_ext. intros i Hi. rewrite Z.add_0_l, <- disk_current by done. f_equal.
    change FS_START_CLUSTERS_SECTOR with 521. change UF2_FIRST_SECTOR with 4. change CURRENT_UF2_FIRST_LBA with 523. lia. }
  apply sliceZ_all. rewrite (lenZ_records _ 512) by (try lia; intros; apply lenZ_current). lia.
Qed.
End Reader.

(** The mount-time size is never zero and never exceeds the application region. *)
Lemma uf2_init_range b reserved fl s : 0 <= reserved -> USER_FLASH_START + 256 <= USER_FLASH_END (b_mcu b) reserved ->
  settings_wf s -> 1 <= uf2_init b reserved fl s <= UF2_SECTORS (b_mcu b) reserved /\ UF2_SECTORS (b_mcu b) reserved <= 4096.
Proof.
  intros Hr Hu Hs. unfold uf2_init, UF2_SECTORS, TRUE_USER_FLASH_SIZE, UF2_FIRMWARE_BYTES_PER_SECTOR in *. cbn zeta.
  set (uend := USER_FLASH_END (b_mcu b) reserved) in *.
  assert (uend <= 0xF4000) as Hue by (unfold uend, USER_FLASH_END, BOOTLOADER_REGION_START; destruct (b_mcu b); lia).
  unfold USER_FLASH_START, MBR_SIZE in *.
  set (size := bank_0_size _). assert (0 <= size < 2 ^ 32) as Hsz.
  { unfold size, bootloader_settings_get. destruct (negb _); [cbn; lia|apply Hs]. }
  set (start := DFU_BANK_0_REGION_START fl).
  destruct (_ && _) eqn:Hc; [|destruct (negb _) eqn:?; bool_cases; zlia]. bool_cases.
  destruct (negb _) eqn:?; bool_cases; zlia.
Qed.

(** DOS time keeps seconds in units of two: [__DOSTIME__] stores them unhalved,
    so from the 32nd second on they run into the minutes. *)
Definition dos_minute (t : Z) : Z := Z.land (Z.shiftr t 5) 63.
Definition dos_second (t : Z) : Z := 2 * Z.land t 31.
Lemma dostime_overflow : let v := mk_volume [] [] [] 2024 1 1 12 30 40 in
  dos_minute (DOSTIME v) = 31 /\ dos_second (DOSTIME v) = 16.
Proof. by vm_compute. Qed.

Lemma current_file_readable_witness :
  fat16_file 3 (read_block (mk_build NRF52840 true demo_name 0x2886 0x0044 140) (mk_volume [] [] [] 2024 1 1 0 0 0) 3
    (fun _ => 7)) 1 3 =
  Some (concat (map (current_block (mk_build NRF52840 true demo_name 0x2886 0x0044 140) 3 (fun _ => 7)) (seqZ 0 3))).
Proof.
  apply (current_file_readable _ (mk_volume [] [] [] 2024 1 1 0 0 0) 3 (fun _ => 7)); lia.
Defined.
