(* ===== verification/Uf2Restore.v ===== *)
(** Read and write together: a saved CURRENT.UF2, copied back under any other
    name, reinstalls the application it was made from. *)
From S2P Require Import Prelude BootImage Nvm DfuTypes DfuPolicy FlashNrf5x Settings Uf2 Uf2App Uf2Transfer Uf2Install GhostFat.

(** The eight words, the data and the final magic of a sector are its fields. *)
Lemma uf2_block_fields w0 w1 w2 w3 w4 w5 w6 w7 data w8 :
  Forall (fun w => 0 <= w < 2 ^ 32) [w0; w1; w2; w3; w4; w5; w6; w7; w8] -> lenZ data = 476 ->
  uf2_block_of (bytes32 w0 ++ bytes32 w1 ++ bytes32 w2 ++ bytes32 w3 ++ bytes32 w4 ++ bytes32 w5 ++ bytes32 w6 ++
    bytes32 w7 ++ data ++ bytes32 w8) = mk_uf2_block w0 w1 w2 w3 w4 w5 w6 w7 data w8.
Proof.
  intros Hw Hl. repeat match goal with H : Forall _ (_ :: _) |- _ => inversion H; subst; clear H end.
  unfold uf2_block_of.
  assert (forall w o k, 4 <= o -> sliceZ (bytes32 w ++ k) o 476 = sliceZ k (o - 4) 476) as Es
    by (intros; rewrite sliceZ_app_r by (rewrite lenZ_bytes32; lia); done).
  assert (forall k, field32 (data ++ k) 476 = field32 k 0) as Ed.
  { intros k. unfold field32. rewrite sliceZ_app_r by lia. rewrite Hl. done. }
  repeat match goal with
  | |- context [field32 (bytes32 ?w ++ ?k) ?o] =>
      rewrite (field32_skip32 w k o) by lia; let v := eval compute in (o - 4) in change (o - 4) with v
  | |- context [sliceZ (bytes32 ?w ++ ?k) ?o 476] =>
      rewrite (Es w o k) by lia; let v := eval compute in (o - 4) in change (o - 4) with v
  end.
  rewrite Ed. rewrite !field32_bytes32 by lia.
  rewrite <- (app_nil_r (bytes32 w8)), field32_bytes32 by lia.
  rewrite sliceZ_app_l by lia. by rewrite sliceZ_all by lia.
Qed.

Section Restore.
Context (b : policy_build) (reserved ram_kb : Z) (fs0 : flash_state) (A size : Z).
Context `{Nvmc}.
Abbreviation m := (b_mcu b).
Abbreviation m0 := (fmem fs0).
Abbreviation UEND := (USER_END b reserved).
Hypothesis Hdev : device_ok m reserved m0 A.
Hypothesis Hpid : 0 <= USB_DESC_UF2_PID b < 2 ^ 16.
Hypothesis Hsize : 0 < size <= UEND - A.

(** The sectors the host reads, and the end of the file's last block. *)
Definition file_sectors : Z := (A - USER_FLASH_START + size + 255) / 256.
Definition file_end : Z := USER_FLASH_START + 256 * file_sectors.
Definition saved_file (lba : Z -> Z) : list sector :=
  (fun i => (lba i, current_block b file_sectors m0 i)) <$> seqZ 0 file_sectors.

(** Those are the sectors the drive announces at mount. *)
Lemma uf2_init_size settings : bank_0_size (bootloader_settings_get m (words_of fs0) settings) = size ->
  uf2_init b reserved (words_of fs0) settings = file_sectors.
Proof.
  intros Hs. unfold uf2_init. rewrite Hs.
  assert (DFU_BANK_0_REGION_START (words_of fs0) = A) as -> by apply (dv_base _ _ _ _ Hdev).
  pose proof (base_in b reserved m0 A Hdev) as (HA & _). pose proof (m_facts b reserved m0 A Hdev) as (HU & HE & _ & HE2 & _ & HS & _ & HF & _ & HF2).
  change (USER_FLASH_END m reserved) with UEND. unfold TRUE_USER_FLASH_SIZE. change (USER_FLASH_END m reserved) with UEND.
  unfold UF2_FIRMWARE_BYTES_PER_SECTOR, file_sectors. rewrite HU in *. unfold PAGE in *.
  rewrite (u32_small (A - 4096)) by lia. rewrite (u32_small (A - 4096 + size)) by lia.
  rewrite !u32_small by lia.
  destruct (Z.ltb_spec (A - 4096) (UEND - 4096)); [|lia]. destruct (Z.ltb_spec (size - 1) (UEND - A)); [|lia].
  cbn [andb]. f_equal. lia.
Qed.

Lemma file_geometry : 0 < file_sectors /\ A < file_end <= UEND /\ file_end mod 256 = 0 /\
  file_sectors <= MAX_BLOCKS m /\ USER_FLASH_START = 4096 /\ UEND <= 2 ^ 20 /\ A mod 256 = 0 /\ 0x4000 <= A.
Proof.
  pose proof (base_in b reserved m0 A Hdev) as (HA & _). pose proof (dv_page _ _ _ _ Hdev) as HAp.
  pose proof (m_facts b reserved m0 A Hdev) as (HU & HE & HEp & HE2 & _ & HS & _ & HF & HFm & HF2).
  unfold file_end, file_sectors, MAX_BLOCKS. rewrite HU in *. unfold PAGE in *. split_and!; try lia; zlia.
Qed.

Lemma board_range : 0 <= CFG_UF2_BOARD_APP_ID b < 2 ^ 32.
Proof.
  unfold CFG_UF2_BOARD_APP_ID, expected_board. apply lor_range; [lia|apply u32_range|lia].
Qed.

(** Each saved sector is the block it should be. *)
Lemma saved_block lba i : 0 <= i < file_sectors ->
  exists data, block_of (lba, current_block b file_sectors m0 i) =
    mk_uf2_block UF2_MAGIC_START0 UF2_MAGIC_START1 UF2_FLAG_FAMILYID (USER_FLASH_START + 256 * i) 256 i file_sectors
      (CFG_UF2_BOARD_APP_ID b) data UF2_MAGIC_END /\
    sliceZ data 0 256 = mem_read m0 (USER_FLASH_START + 256 * i) 256.
Proof.
  intros Hi. pose proof file_geometry as (Hp & HE & _ & Hmx & HU & HU2 & _ & HA). pose proof board_range as Hbr.
  assert (USER_FLASH_START + 256 * i < UEND) by (unfold file_end in HE; lia).
  unfold block_of, current_block. cbn [snd]. cbn zeta. unfold UF2_FIRMWARE_BYTES_PER_SECTOR.
  rewrite (u32_small (i * 256)) by lia. rewrite (Z.mul_comm i 256). rewrite u32_small by lia.
  set (data := put (replicate 476 0) 0 _). exists data.
  assert (lenZ (mem_read m0 (USER_FLASH_START + 256 * i) 256) = 256) as Hl by (by apply lenZ_mem_read).
  split.
  - apply uf2_block_fields.
    + assert (file_sectors < 2 ^ 32) by (unfold file_end in HE; lia).
      unfold UF2_MAGIC_START0, UF2_MAGIC_START1, UF2_FLAG_FAMILYID, UF2_MAGIC_END. repeat constructor; lia.
    + unfold data. rewrite lenZ_put; [done|lia|]. rewrite Hl. unfold lenZ. rewrite length_replicate. lia.
  - unfold data, put. change (take (Z.to_nat 0) (replicate 476 0)) with (@nil Z). cbn [app].
    rewrite sliceZ_app_l by lia. apply sliceZ_all. lia.
Qed.

Lemma current_block_ok i : 0 <= i < file_sectors -> sector_ok (current_block b file_sectors m0 i).
Proof.
  intros Hi. split; [|apply lenZ_current]. unfold current_block. cbn zeta. unfold put.
  repeat (apply Forall_app; split); try apply bytes32_bytes.
  - apply Forall_take, Forall_replicate. unfold is_byte. lia.
  - unfold mem_read. apply Forall_forall. intros x Hx. apply in_map_iff in Hx as (k & <- & _).
    apply (dv_bytes _ _ _ _ Hdev).
  - apply Forall_drop, Forall_replicate. unfold is_byte. lia.
Qed.

Lemma in_saved lba x : x ∈ saved_file lba -> exists i, 0 <= i < file_sectors /\ x = (lba i, current_block b file_sectors m0 i).
Proof.
  intros Hx. unfold saved_file in Hx. apply list_elem_of_fmap in Hx as (i & -> & Hi). apply elem_of_seqZ in Hi.
  exists i. split; [lia|done].
Qed.

(** The whole file is what the honest host of [Uf2Install] may send. *)
Lemma saved_file_honest lba :
  (forall i, 0 <= i < file_sectors -> uf2_current_lba_is_synthetic (lba i) CURRENT_UF2_FIRST_LBA file_sectors = false) ->
  vectors_fit A file_end (mem_word m0 A) (mem_word m0 (A + 4)) (RAM_END ram_kb) ->
  honest b reserved ram_kb CURRENT_UF2_FIRST_LBA file_sectors fs0 A (saved_file lba) file_end.
Proof.
  intros Hlba Hvec. pose proof file_geometry as (Hp & HE & HEm & Hmx & HU & HU2 & HAm & HA).
  assert (lenZ (saved_file lba) = file_sectors) as Hlen.
  { unfold lenZ, saved_file. rewrite length_fmap, length_seqZ. lia. }
  split.
  - intros x (i & Hi & ->)%in_saved. by apply current_block_ok.
  - by rewrite Hlen.
  - intros x (i & Hi & ->)%in_saved. by apply Hlba.
  - intros x (i & Hi & ->)%in_saved. destruct (saved_block (lba i) i Hi) as (data & -> & _).
    cbn [bl_familyID bl_numBlocks bl_blockNo bl_targetAddr]. rewrite Hlen.
    split_and!; try done; [|unfold family_kind; by rewrite Z.eqb_refl|lia|unfold file_end; lia].
    unfold is_uf2_block. cbn -[Z.land USER_FLASH_START Z.mul]. rewrite land_255.
    assert ((USER_FLASH_START + 256 * i) mod 256 = 0) as -> by (rewrite HU; zlia). done.
  - assert (bl_blockNo ∘ block_of <$> saved_file lba = id <$> seqZ 0 file_sectors) as ->.
    { unfold saved_file. rewrite <- list_fmap_compose. apply list_fmap_ext. intros k i Hi.
      apply lookup_seqZ in Hi as [-> Hi]. destruct (saved_block (lba (0 + Z.of_nat k)) (0 + Z.of_nat k)) as (data & E & _); [lia|].
      unfold compose. by rewrite E. }
    rewrite list_fmap_id. apply NoDup_seqZ.
  - assert (bl_targetAddr ∘ block_of <$> saved_file lba = (fun i => USER_FLASH_START + 256 * i) <$> seqZ 0 file_sectors) as ->.
    { unfold saved_file. rewrite <- list_fmap_compose. apply list_fmap_ext. intros k i Hi.
      apply lookup_seqZ in Hi as [-> Hi]. destruct (saved_block (lba (0 + Z.of_nat k)) (0 + Z.of_nat k)) as (data & E & _); [lia|].
      unfold compose. by rewrite E. }
    apply NoDup_fmap_2, NoDup_seqZ. intros i j Hij. lia.
  - done.
  - intros a Ha Hma. exists (lba ((a - USER_FLASH_START) / 256), current_block b file_sectors m0 ((a - USER_FLASH_START) / 256)).
    assert (0 <= (a - USER_FLASH_START) / 256 < file_sectors) as Hi by (unfold file_end in *; rewrite HU in *; zlia).
    split.
    + apply list_elem_of_fmap. eexists. split; [done|]. apply elem_of_seqZ. lia.
    + destruct (saved_block (lba ((a - USER_FLASH_START) / 256)) _ Hi) as (data & -> & _). cbn [bl_targetAddr].
      rewrite HU in *. zlia.
  - intros x (i & Hi & ->)%in_saved _. destruct (saved_block (lba i) i Hi) as (data & -> & Hd).
    unfold payload. cbn [bl_targetAddr bl_data]. by rewrite Hd.
  - intros x (i & Hi & ->)%in_saved. destruct (saved_block (lba i) i Hi) as (data & -> & Hd). cbn [bl_targetAddr].
    intros Ht. unfold payload. cbn [bl_data].
    pose proof (word_of_payload m0 A (sliceZ data 0 256) 0) as W0.
    pose proof (word_of_payload m0 A (sliceZ data 0 256) 4) as W4. rewrite Z.add_0_r in W0.
    rewrite Ht in Hd. rewrite W0, W4 by (done || lia). done.
Qed.

(** C17: CURRENT.UF2 is a backup. Read the file the drive shows for an installed
    application, write its sectors back to other places of the disk in any
    order and with any repetitions: every sector is accepted, the application
    is validated again at the same place, and every byte of the SoftDevice and
    the application (to the end of its last 256-byte block) is in flash as it
    was when the file was read. *)
Theorem current_uf2_restores lba ss :
  (forall i, 0 <= i < file_sectors -> uf2_current_lba_is_synthetic (lba i) CURRENT_UF2_FIRST_LBA file_sectors = false) ->
  vectors_fit A file_end (mem_word m0 A) (mem_word m0 (A + 4)) (RAM_END ram_kb) ->
  (forall x, x ∈ ss -> x ∈ saved_file lba) -> (forall x, x ∈ saved_file lba -> x ∈ ss) ->
  exists st fs, deliver_all b reserved ram_kb CURRENT_UF2_FIRST_LBA file_sectors ss (fresh_session b reserved fs0) = Some (st, fs) /\
    aborted st = false /\ appValidated st = true /\ appStart st = A /\ size <= appSize st < size + 256 /\
    (forall x, USER_FLASH_START <= x < file_end -> fmem fs x = m0 x).
Proof.
  intros Hlba Hvec Hss Hall. pose proof (saved_file_honest lba Hlba Hvec) as Hh.
  pose proof file_geometry as (_ & HE & HEm & _ & HU & _ & _ & _).
  destruct (honest_delivery b reserved ram_kb CURRENT_UF2_FIRST_LBA file_sectors fs0 A Hdev _ _ ss Hh Hss Hall)
    as (st & fs & Hd & Hab & Hv & Hs & Hsz & Hmem).
  exists st, fs. split; [done|]. split; [done|]. split; [done|]. split; [done|]. split.
  { rewrite Hsz. unfold file_end, file_sectors in *. rewrite HU in *. zlia. }
  intros x Hx. set (i := (x - USER_FLASH_START) / 256).
  assert (0 <= i < file_sectors) as Hi by (unfold i, file_end in *; rewrite HU in *; zlia).
  destruct (saved_block (lba i) i Hi) as (data & Eb & Hdt).
  assert ((lba i, current_block b file_sectors m0 i) ∈ saved_file lba) as Hin.
  { apply list_elem_of_fmap. eexists. split; [done|]. apply elem_of_seqZ. lia. }
  specialize (Hmem _ Hin). rewrite Eb in Hmem. cbn [bl_targetAddr payload bl_data] in Hmem. unfold payload in Hmem. cbn [bl_data] in Hmem.
  rewrite Hdt in Hmem. specialize (Hmem ltac:(lia)).
  assert (nthZ (mem_read (fmem fs) (USER_FLASH_START + 256 * i) 256) (x mod 256) =
          nthZ (mem_read m0 (USER_FLASH_START + 256 * i) 256) (x mod 256)) as Hx2 by (by rewrite Hmem).
  rewrite !nthZ_mem_read in Hx2 by zlia.
  by replace (USER_FLASH_START + 256 * i + x mod 256) with x in Hx2 by (unfold i; rewrite HU; zlia).
Qed.
End Restore.

#[local] Existing Instance nvmc_model.

(** The demonstration device with an application of 16 bytes. *)
Definition demo_installed : flash_state :=
  mk_flash (fun x => if (0x4000 <=? x) && (x <? 0x4008) then nthZ (bytes32 0x20008000 ++ bytes32 0x4009) (x - 0x4000)
                     else demo_memory x) FLASH_CACHE_INVALID_ADDR (replicate 4096 0).

Lemma demo_installed_device : device_ok (b_mcu (demo_drive true)) 0x7000 (fmem demo_installed) 0x4000.
Proof.
  destruct (demo_device true) as [H1 H2 H3 H4 H5 H6 H7]. split; try done.
  intros x. cbn [demo_installed fmem]. range_case; [|apply H3].
  apply (nthZ_byte _ (x - 0x4000)). apply bytes_by_forallb. reflexivity.
Qed.

Lemma current_uf2_restores_witness : exists st fs,
  deliver_all (demo_drive true) 0x7000 256 CURRENT_UF2_FIRST_LBA (file_sectors 0x4000 16)
    (saved_file (demo_drive true) demo_installed 0x4000 16 (fun i => 2000 + i))
    (fresh_session (demo_drive true) 0x7000 demo_installed) = Some (st, fs) /\ appValidated st = true.
Proof.
  destruct (current_uf2_restores (demo_drive true) 0x7000 256 demo_installed 0x4000 16 demo_installed_device)
    with (lba := fun i => 2000 + i) (ss := saved_file (demo_drive true) demo_installed 0x4000 16 (fun i => 2000 + i))
    as (st & fs & Hd & _ & Hv & _).
  - cbn. lia.
  - vm_compute. split; [reflexivity|discriminate].
  - intros i Hi. unfold uf2_current_lba_is_synthetic. change CURRENT_UF2_FIRST_LBA with 523.
    change (file_sectors 0x4000 16) with 49. destruct (Z.ltb_spec (2000 + i) 523); [done|].
    apply Z.ltb_ge. lia.
  - split_and!; vm_compute; (reflexivity || discriminate).
  - done.
  - done.
  - exists st, fs. split; [exact Hd|exact Hv].
Defined.
