(* ===== verification/Msc.v ===== *)
(** The mass-storage session around the UF2 writer: [src/usb/msc_uf2.c].  The
    callbacks TinyUSB makes are the operations; each returns the new session
    state and what it asked of the rest of the system, in order ([request]).
    The counter read by [app_timer_cnt_get] is an argument of the operations
    that read it.  [UF2_EXIT_ON_EJECT] is a build option. *)
From S2P Require Import Prelude Crc BootImage Nvm DfuTypes DfuPolicy FlashNrf5x Settings Uf2 Uf2App Uf2Boot Uf2Transfer GhostFat.

Definition UF2_APP_COMPLETION_IDLE_MS : Z := 1000.
Definition APP_TIMER_MIN_TIMEOUT_TICKS : Z := 5.
(** [APP_TIMER_TICKS(UF2_APP_COMPLETION_IDLE_MS)]: rounded at 32768 Hz. *)
Definition UF2_APP_COMPLETION_IDLE_TICKS : Z := (UF2_APP_COMPLETION_IDLE_MS * 32768 + 500) / 1000.
Definition app_timer_cnt_diff_compute (ticks_to ticks_from : Z) : Z := Z.land (u32 (ticks_to - ticks_from)) 0x00FFFFFF.

Definition SCSI_CMD_PREVENT_ALLOW_MEDIUM_REMOVAL : Z := 0x1E.
Definition SCSI_CMD_START_STOP_UNIT : Z := 0x1B.
Definition SCSI_SYNCHRONIZE_CACHE : Z := 0x35.
Definition SCSI_SENSE_ILLEGAL_REQUEST : Z := 0x05.

Inductive update_status := Dfu_update_app_complete (app_crc app_size : Z) | Dfu_reset (restart_into_bootloader : bool).
Inductive led := STATE_WRITING_STARTED | STATE_WRITING_FINISHED.
Inductive request :=
| Update_process (s : update_status)
| Led_state (l : led)
| Timer_create
| Timer_start (ticks : Z)
| Activity_mark
| Mbr_copy_bl (bl_src bl_len : Z)
| Set_sense (key asc ascq : Z).

Record msc := mk_msc {
  wr_state : WriteState;
  flash_of : flash_state;
  first_write : bool;
  app_completion_pending : bool;
  app_completion_after_eject : bool;
  app_msc_command_active : bool;
  exit_after_eject : bool;
  app_completion_last_activity : Z
}.

Definition set_wr (st : WriteState) (fs : flash_state) (s : msc) : msc :=
  mk_msc st fs (first_write s) (app_completion_pending s) (app_completion_after_eject s) (app_msc_command_active s)
    (exit_after_eject s) (app_completion_last_activity s).
Definition set_first_write (v : bool) (s : msc) : msc :=
  mk_msc (wr_state s) (flash_of s) v (app_completion_pending s) (app_completion_after_eject s) (app_msc_command_active s)
    (exit_after_eject s) (app_completion_last_activity s).
Definition set_completion (pending after_eject : bool) (s : msc) : msc :=
  mk_msc (wr_state s) (flash_of s) (first_write s) pending after_eject (app_msc_command_active s)
    (exit_after_eject s) (app_completion_last_activity s).
Definition set_active (v : bool) (s : msc) : msc :=
  mk_msc (wr_state s) (flash_of s) (first_write s) (app_completion_pending s) (app_completion_after_eject s) v
    (exit_after_eject s) (app_completion_last_activity s).
Definition set_exit (v : bool) (s : msc) : msc :=
  mk_msc (wr_state s) (flash_of s) (first_write s) (app_completion_pending s) (app_completion_after_eject s)
    (app_msc_command_active s) v (app_completion_last_activity s).
Definition set_activity (t : Z) (s : msc) : msc :=
  mk_msc (wr_state s) (flash_of s) (first_write s) (app_completion_pending s) (app_completion_after_eject s)
    (app_msc_command_active s) (exit_after_eject s) t.

Section Msc.
Context `{Nvmc} (b : policy_build) (reserved ram_kb current_uf2_sectors : Z) (UF2_EXIT_ON_EJECT : bool).
Abbreviation m := (b_mcu b).

(** The CRC loop of [complete_app_update] from [offset]; each round takes a
    page, so one more than the number of pages in [app_size] rounds suffices. *)
Fixpoint crc_loop (fuel : nat) (fm : mem) (app_start app_size offset app_crc : Z) : Z :=
  match fuel with
  | O => app_crc
  | S fuel =>
    if offset <? app_size then
      let remaining := u32 (app_size - offset) in
      let chunk := if remaining >? CODE_PAGE_SIZE then CODE_PAGE_SIZE else remaining in
      let app_crc := crc16_compute (mem_read fm (u32 (app_start + offset)) chunk)
                       (if offset =? 0 then None else Some app_crc) in
      crc_loop fuel fm app_start app_size (u32 (offset + chunk)) app_crc
    else app_crc
  end.

Definition complete_app_update (s : msc) : msc * list request :=
  let st := wr_state s in
  if negb (appValidated st) || (appSize st =? 0) then (set_wr (set_aborted st) (flash_of s) s, [])
  else
    let app_crc := crc_loop (S (Z.to_nat (appSize st / CODE_PAGE_SIZE + 1))) (fmem (flash_of s)) (appStart st) (appSize st) 0 0 in
    (s, [Update_process (Dfu_update_app_complete app_crc (appSize st)); Led_state STATE_WRITING_FINISHED]).

Definition take_pending_app_completion (s : msc) : bool * msc :=
  (app_completion_pending s && negb (aborted (wr_state s)), set_completion false false s).

Definition app_completion_timer_handler (now : Z) (s : msc) : msc * list request :=
  if negb (app_completion_pending s) then (s, [])
  else if app_msc_command_active s then
    (set_activity now s, [Timer_start UF2_APP_COMPLETION_IDLE_TICKS])
  else
    let idle_ticks := app_timer_cnt_diff_compute now (app_completion_last_activity s) in
    if u32 (idle_ticks + APP_TIMER_MIN_TIMEOUT_TICKS) <? UF2_APP_COMPLETION_IDLE_TICKS
    then (s, [Timer_start (u32 (UF2_APP_COMPLETION_IDLE_TICKS - idle_ticks))])
    else
      let '(can_complete, s) := take_pending_app_completion s in
      if can_complete then complete_app_update s else (s, []).

Definition defer_app_completion (now : Z) (s : msc) : msc * list request :=
  let s := set_activity now s in
  if app_completion_pending s then (s, [])
  else (set_completion true (app_completion_after_eject s) s, [Timer_start UF2_APP_COMPLETION_IDLE_TICKS]).

Definition uf2_write_session_reset (s : msc) : msc :=
  let fs := if updateKind (wr_state s) =? UF2_UPDATE_KIND_BOOTLOADER then flash_nrf5x_discard (flash_of s)
            else flash_of s in
  mk_msc (uf2_transfer_reset m reserved) fs true false false false
    (if UF2_EXIT_ON_EJECT then false else exit_after_eject s) (app_completion_last_activity s).

Definition uf2_write_session_init (s : msc) : msc * list request := (uf2_write_session_reset s, [Timer_create]).

Definition uf2_write_session_close (s : msc) : msc * list request :=
  let '(can_complete, s) := take_pending_app_completion s in
  let '(s, out) := if can_complete then complete_app_update s else (s, []) in
  (uf2_write_session_reset s, out).

Definition finish_msc_command (now : Z) (s : msc) : msc :=
  let s := set_active false s in
  let s := set_completion (app_completion_pending s) false s in
  let s := if UF2_EXIT_ON_EJECT then set_exit false s else s in
  if app_completion_pending s then set_activity now s else s.

Definition tud_msc_command_begin_cb (now : Z) (s : msc) : msc :=
  let s := set_active true s in
  if app_completion_pending s then set_activity now s else s.
Definition tud_msc_command_complete_cb (now : Z) (s : msc) : msc := finish_msc_command now s.
Definition tud_msc_reset_cb (now : Z) (s : msc) : msc := finish_msc_command now s.

(** The result; the two known commands are accepted, the others refused. *)
Definition tud_msc_scsi_cb (scsi_cmd0 : Z) : Z * list request :=
  if scsi_cmd0 =? SCSI_CMD_PREVENT_ALLOW_MEDIUM_REMOVAL then (0, [])
  else if scsi_cmd0 =? SCSI_SYNCHRONIZE_CACHE then (0, [])
  else (-1, [Set_sense SCSI_SENSE_ILLEGAL_REQUEST 0x20 0x00]).

(** READ10: the sectors from [lba], or [None] for the refused partial ones. *)
Definition tud_msc_read10_cb (vol : volume) (lba offset bufsize : Z) (s : msc) : option (list Z) :=
  if negb ((offset =? 0) && (bufsize mod 512 =? 0)) then None
  else Some (concat (map (fun i => read_block b vol current_uf2_sectors (fmem (flash_of s)) (u32 (lba + i)))
               (seqZ 0 (bufsize / 512)))).

(** The WRITE10 loop over the sectors left in the buffer: the bytes counted, or
    [None] when the transfer aborted. *)
Fixpoint write10_loop (lba count : Z) (buffer : list (list Z)) (s : msc) : option Z * (msc * list request) :=
  match buffer with
  | [] => (Some count, (s, []))
  | data :: buffer =>
    let '(written, (st, fs)) :=
      write_block b reserved ram_kb CURRENT_UF2_FIRST_LBA current_uf2_sectors lba data (wr_state s) (flash_of s) in
    let s := set_wr st fs s in
    if aborted st then (None, (s, []))
    else if written =? 0 then (Some count, (s, []))
    else
      let '(r, (s, out)) := write10_loop (u32 (lba + 1)) (u32 (count + 512)) buffer s in
      (r, (s, (if written >? 0 then [Activity_mark] else []) ++ out))
  end.

(** [buffer] as 512-byte sectors; -1 for an error. *)
Definition tud_msc_write10_cb (lba offset : Z) (buffer : list (list Z)) (s : msc) : Z * (msc * list request) :=
  if negb (offset =? 0) then (-1, (s, []))
  else
    let '(r, s) := write10_loop lba 0 buffer s in
    (match r with Some count => count | None => -1 end, s).

Definition tud_msc_write10_complete_cb (now : Z) (s : msc) : msc * list request :=
  let st := wr_state s in
  if aborted st then
    (set_completion false false s, [Update_process (Dfu_reset false); Led_state STATE_WRITING_FINISHED])
  else if negb (numBlocks st =? 0) then
    let '(s, out) := if first_write s then (set_first_write false s, [Led_state STATE_WRITING_STARTED]) else (s, []) in
    if numWritten st >=? numBlocks st then
      if updateKind st =? UF2_UPDATE_KIND_BOOTLOADER then
        let new_bootloader := NEW_RECEIVED b reserved in
        let fm := fmem (flash_of s) in
        let copy :=
          if negb (bytes_eqb (mem_read fm new_bootloader (DFU_BL_IMAGE_MAX_SIZE m))
                     (mem_read fm (BOOTLOADER_REGION_START m) (DFU_BL_IMAGE_MAX_SIZE m)))
          then [Mbr_copy_bl new_bootloader (DFU_BL_IMAGE_MAX_SIZE m / 4)] else [] in
        (s, out ++ copy ++ [Update_process (Dfu_reset false); Led_state STATE_WRITING_FINISHED])
      else let '(s, out2) := defer_app_completion now s in (s, out ++ out2)
    else (s, out)
  else (s, []).

Definition tud_msc_scsi_complete_cb (scsi_cmd0 : Z) (s : msc) : msc * list request :=
  if scsi_cmd0 =? SCSI_SYNCHRONIZE_CACHE then (s, [])
  else
    let '(s, out) :=
      if app_completion_after_eject s && (scsi_cmd0 =? SCSI_CMD_START_STOP_UNIT) then
        let '(can_complete, s) := take_pending_app_completion s in
        if can_complete then complete_app_update s else (s, [])
      else (s, []) in
    if UF2_EXIT_ON_EJECT && exit_after_eject s && (scsi_cmd0 =? SCSI_CMD_START_STOP_UNIT)
    then (uf2_write_session_reset s, out ++ [Update_process (Dfu_reset false)])
    else (s, out).

Definition tud_msc_capacity_cb : Z * Z := (CFG_UF2_NUM_BLOCKS, 512).

Definition tud_msc_start_stop_cb (start load_eject : bool) (s : msc) : msc :=
  if load_eject then
    if start then s
    else if app_completion_pending s then set_completion (app_completion_pending s) true s
    else if UF2_EXIT_ON_EJECT then set_exit true s
    else uf2_write_session_reset s
  else s.
End Msc.
