(* ===== verification/MscSafety.v ===== *)
(** When the mass-storage session completes an application: over any sequence
    of callbacks, what a completion request certifies. *)
From S2P Require Import Prelude Crc BootImage Nvm DfuTypes DfuPolicy FlashNrf5x Settings Uf2 Uf2App Uf2Boot Uf2Transfer GhostFat Msc.

(** * The CRC in page-sized pieces *)

Lemma crc16_chain a c : crc16_compute c (Some (crc16_compute a None)) = crc16_compute (a ++ c) None.
Proof. unfold crc16_compute. by rewrite fold_left_app. Qed.

Lemma crc_loop_spec fuel : forall fm start size offset crc,
  0 <= offset <= size -> start + size < 2 ^ 32 -> 0 <= start ->
  (size - offset + PAGE - 1) / PAGE < Z.of_nat fuel ->
  (offset <> 0 -> crc = crc16_compute (mem_read fm start offset) None) -> 0 < size ->
  crc_loop fuel fm start size offset crc = crc16_compute (mem_read fm start size) None.
Proof.
  induction fuel as [|fuel IH]; intros fm start size offset crc Ho H32 H0 Hf Hc Hs; cbn [crc_loop].
  { unfold PAGE in Hf. exfalso. zlia. }
  destruct (Z.ltb_spec offset size).
  2: { replace size with offset by lia. apply Hc. lia. }
  rewrite (u32_small (size - offset)) by lia. change CODE_PAGE_SIZE with PAGE. rewrite Z.gtb_ltb. cbn zeta.
  set (chunk := if PAGE <? size - offset then PAGE else size - offset).
  assert (0 < chunk <= PAGE /\ chunk <= size - offset /\ (chunk = PAGE \/ chunk = size - offset)) as Hch.
  { unfold chunk. destruct (Z.ltb_spec PAGE (size - offset)); unfold PAGE in *; lia. }
  clearbody chunk. rewrite (u32_small (start + offset)), (u32_small (offset + chunk)) by lia.
  apply IH; try lia; [unfold PAGE in *; zlia|].
  intros _. destruct (Z.eqb_spec offset 0) as [->|Hne].
  - by rewrite !Z.add_0_l, Z.add_0_r.
  - rewrite Hc, crc16_chain, <- mem_read_split by lia. done.
Qed.

(** * Callbacks as events *)

Inductive event :=
| Command_begin (now : Z)
| Command_complete (now : Z)
| Bot_reset (now : Z)
| Write10 (lba offset : Z) (buffer : list (list Z))
| Write10_complete (now : Z)
| Scsi_complete (cmd : Z)
| Start_stop (start load_eject : bool)
| Idle_timer (now : Z)
| Usb_mount
| Usb_unmount.

Section Session.
Context `{Nvmc} (b : policy_build) (reserved ram_kb n : Z) (exit_on_eject : bool) (fs0 : flash_state) (A : Z).
Abbreviation m := (b_mcu b).
Abbreviation m0 := (fmem fs0).
Abbreviation UEND := (USER_END b reserved).

(** [tud_mount_cb] resets the session and [tud_umount_cb] closes it. *)
Definition msc_step (e : event) (s : msc) : msc * list request :=
  match e with
  | Command_begin now => (tud_msc_command_begin_cb now s, [])
  | Command_complete now => (tud_msc_command_complete_cb exit_on_eject now s, [])
  | Bot_reset now => (tud_msc_reset_cb exit_on_eject now s, [])
  | Write10 lba offset buffer => snd (tud_msc_write10_cb b reserved ram_kb n lba offset buffer s)
  | Write10_complete now => tud_msc_write10_complete_cb b reserved now s
  | Scsi_complete cmd => tud_msc_scsi_complete_cb b reserved exit_on_eject cmd s
  | Start_stop start eject => (tud_msc_start_stop_cb b reserved exit_on_eject start eject s, [])
  | Idle_timer now => app_completion_timer_handler now s
  | Usb_mount => (uf2_write_session_reset b reserved exit_on_eject s, [])
  | Usb_unmount => uf2_write_session_close b reserved exit_on_eject s
  end.

Definition msc_run (evs : list event) (s : msc) : msc := fold_left (fun s e => fst (msc_step e s)) evs s.

Definition zero_msc : msc := mk_msc (uf2_transfer_reset m reserved) fs0 true false false false false 0.
Definition msc_start : msc := fst (uf2_write_session_init b reserved exit_on_eject zero_msc).

(** The sectors an event writes. *)
Definition event_data (e : event) : list (list Z) := match e with Write10 _ _ buffer => buffer | _ => [] end.
Definition written (evs : list event) : list (list Z) := concat (map event_data evs).

Hypothesis Hdev : device_ok m reserved m0 A.
Hypothesis Hcache : fl_addr fs0 = FLASH_CACHE_INVALID_ADDR.

(** ** The cache between transfers *)

Definition cache_clean (st : WriteState) (fs : flash_state) : Prop :=
  fl_addr fs = FLASH_CACHE_INVALID_ADDR \/ updateKind st = UF2_UPDATE_KIND_BOOTLOADER.

Lemma app_block_cache bl a st fs : fl_addr fs = FLASH_CACHE_INVALID_ADDR ->
  fl_addr (snd (snd (write_app_block b reserved bl a st fs))) = FLASH_CACHE_INVALID_ADDR.
Proof.
  intros Hf. unfold write_app_block, prepare_app_block, uf2_app_flash_next_action.
  repeat (case_match; simplify_eq/=; try done).
Qed.

Lemma boot_block_kind bl st fs : updateKind (fst (snd (write_bootloader_block b reserved bl st fs))) = updateKind st.
Proof.
  unfold write_bootloader_block, erase_bootloader_staging. repeat (case_match; simplify_eq/=; try done).
Qed.
Lemma commit_kind bl k a st : updateKind (commit_block bl k a st) = updateKind st.
Proof. unfold commit_block. destruct (k =? _); by destruct (uf2_transfer_commit _ _ _). Qed.

Lemma write_block_cache lba data st fs : let s := snd (write_block b reserved ram_kb CURRENT_UF2_FIRST_LBA n lba data st fs) in
  cache_clean st fs -> cache_clean (fst s) (snd s).
Proof.
  cbn zeta. unfold cache_clean. intros Hc.
  destruct (write_block_cases b reserved ram_kb CURRENT_UF2_FIRST_LBA n lba data st fs) as
    [(z & nb & uk & ab & k & -> & (_ & Huk & _) & _)|(k & Hfr & _ & ->)].
  { cbn [fst snd set_latched updateKind]. destruct Hc as [?|Hc]; [by left|].
    destruct Huk as [->|[? _]]; [by right|]. unfold UF2_UPDATE_KIND_BOOTLOADER in *. lia. }
  unfold accept_block. set (st0 := set_latched _ _ _ _).
  destruct (family_kind_cases _ _ _ (fr_family _ _ _ _ Hfr)) as [->| ->].
  - assert (fl_addr fs = FLASH_CACHE_INVALID_ADDR) as Hf.
    { destruct Hc as [?|Hc]; [done|]. destruct (fr_kind _ _ _ _ Hfr); unfold UF2_UPDATE_KIND_BOOTLOADER in *; lia. }
    change (1 =? UF2_UPDATE_KIND_APPLICATION) with true. cbn match. left.
    pose proof (app_block_cache (uf2_block_of data) (DFU_BANK_0_REGION_START (words_of fs)) st0 fs Hf) as Ha.
    assert (updateKind (fst (snd (write_app_block b reserved (uf2_block_of data) (DFU_BANK_0_REGION_START (words_of fs)) st0 fs))) = 1) as Hk.
    { unfold write_app_block, prepare_app_block, uf2_app_flash_next_action. repeat (case_match; simplify_eq/=; try done). }
    destruct (write_app_block _ _ _ _ _ _) as [o [st1 fs1]]. cbn [fst snd] in Ha, Hk.
    destruct o; [done|]. cbn [snd]. rewrite commit_kind, Hk. case_match; [|done].
    unfold complete_application. destruct (if _ <? _ then _ else _). done.
  - change (2 =? UF2_UPDATE_KIND_APPLICATION) with false. cbn match. right.
    pose proof (boot_block_kind (uf2_block_of data) st0 fs) as Hk. change (updateKind st0) with 2 in Hk.
    destruct (write_bootloader_block _ _ _ _ _) as [o [st1 fs1]]. cbn [fst snd] in Hk.
    destruct o; [done|]. cbn [snd]. rewrite commit_kind, Hk. change (2 =? UF2_UPDATE_KIND_BOOTLOADER) with true. cbn match.
    assert (updateKind (commit_block (uf2_block_of data) 2 (DFU_BANK_0_REGION_START (words_of fs)) st1) = 2) as Hk2
      by (by rewrite commit_kind).
    case_match; [|done]. unfold complete_bootloader. cbn [fst]. by case_match.
Qed.

(** ** The session invariant *)

(** The flash at the start of the current transfer differs from the original
    only where transfers may write. *)
Definition base_ok (base : flash_state) : Prop :=
  device_ok m reserved (fmem base) A /\ fl_addr base = FLASH_CACHE_INVALID_ADDR.

Definition session_inv (data : list (list Z)) (s : msc) : Prop :=
  exists base ss, base_ok base /\ run_inv b reserved ram_kb base A ss (wr_state s) (flash_of s) /\
    cache_clean (wr_state s) (flash_of s) /\ (forall x, x ∈ ss -> snd x ∈ data) /\ Forall sector_ok (snd <$> ss).

Lemma device_words fm fm' : (forall x, 0x3000 <= x < 0x3010 -> fm x = fm' x) ->
  is_sd_existed (mem_word fm) = is_sd_existed (mem_word fm') /\
  CODE_REGION_1_START (mem_word fm) = CODE_REGION_1_START (mem_word fm').
Proof.
  intros E. unfold CODE_REGION_1_START, is_sd_existed.
  change (MBR_SIZE + SOFTDEVICE_INFO_STRUCT_OFFSET + 4) with 0x3004. change (MBR_SIZE + SD_SIZE_OFFSET) with 0x3008.
  assert (mem_word fm 0x3004 = mem_word fm' 0x3004) as -> by (apply mem_word_ext; intros; apply E; lia).
  assert (mem_word fm 0x3008 = mem_word fm' 0x3008) as -> by (apply mem_word_ext; intros; apply E; lia). done.
Qed.

(** Whatever a transfer did, the device it leaves is again a device. *)
Lemma device_after base ss st fs : base_ok base -> run_inv b reserved ram_kb base A ss st fs ->
  device_ok m reserved (fmem fs) A.
Proof.
  intros [Hb _] Hr. pose proof (base_in b reserved _ A Hb) as (HA & HN & _).
  pose proof (m_facts b reserved _ A Hb) as (_ & _ & _ & HE & _ & HS & _).
  assert (forall x, 0x3000 <= x < 0x3010 -> fmem fs x = fmem base x) as Hsd.
  { intros x Hx. destruct Hr as [(hist & [Hm Hf] & _)|(nos & Hi & _)].
    - rewrite (flash_outside b reserved (fmem base) A hist st) by (done || lia).
      unfold in_settings_word. range_case; [|by rewrite andb_false_r].
      unfold BOOTLOADER_REGION_START in *. destruct m; lia.
    - apply (bi_frame _ _ _ _ _ _ Hi). lia. }
  destruct (device_words _ _ Hsd) as [E1 E2]. destruct Hb. split; try done.
  - intros x. destruct Hr as [(hist & [_ Hf] & _)|(nos & Hi & _)]; [apply (af_bytes _ _ _ _ _ Hf)|].
    apply (bi_bytes _ _ _ _ _ _ Hi).
  - by rewrite E1.
  - by rewrite E2.
Qed.

Lemma session_mono data data' s : session_inv data s -> (forall d, d ∈ data -> d ∈ data') -> session_inv data' s.
Proof.
  intros (base & ss & Hb & Hr & Hc & Hd & Hok) Hsub. exists base, ss. split_and!; auto.
Qed.

(** Only the transfer state and the flash matter. *)
Lemma session_same data s s' : session_inv data s -> wr_state s' = wr_state s -> flash_of s' = flash_of s ->
  session_inv data s'.
Proof. unfold session_inv. by intros Hi -> ->. Qed.

Lemma session_reset data s : session_inv data s ->
  session_inv data (uf2_write_session_reset b reserved exit_on_eject s).
Proof.
  intros (base & ss & Hb & Hr & Hc & Hd & Hok). set (s' := uf2_write_session_reset _ _ _ _).
  assert (fmem (flash_of s') = fmem (flash_of s)) as Ef
    by (unfold s', uf2_write_session_reset; cbn [flash_of]; by case_match).
  assert (base_ok (flash_of s')) as Hb'.
  { split; [rewrite Ef; by eapply device_after|]. unfold s', uf2_write_session_reset. cbn [flash_of].
    destruct (Z.eqb_spec (updateKind (wr_state s)) UF2_UPDATE_KIND_BOOTLOADER); [done|]. by destruct Hc. }
  exists (flash_of s'), []. destruct Hb' as [Hb1 Hb2]. split; [by split|].
  split; [by apply run_inv_reset|]. split; [by left|]. split; [intros x Hx; inversion Hx|constructor].
Qed.

Lemma session_abort data s : session_inv data s -> session_inv data (set_wr (set_aborted (wr_state s)) (flash_of s) s).
Proof.
  intros (base & ss & Hb & Hr & Hc & Hd & Hok). exists base, ss. cbn [set_wr wr_state flash_of].
  split; [done|]. split; [|split_and!; auto]. destruct Hr as [(hist & Hi & Hf & Hh & H0)|(nos & Hi & Hf)].
  - left. exists hist. split_and!; try done. by apply abort_inv.
  - right. exists nos. split; [by destruct Hi; split|]. intros Hx. done.
Qed.

Lemma session_complete data s : session_inv data s -> session_inv data (fst (complete_app_update s)).
Proof.
  intros Hi. unfold complete_app_update. destruct (_ || _); [by apply session_abort|done].
Qed.

Lemma session_write10 buffer : forall data lba count s, session_inv data s -> Forall sector_ok buffer ->
  (forall d, d ∈ buffer -> d ∈ data) ->
  session_inv data (fst (snd (write10_loop b reserved ram_kb n lba count buffer s))).
Proof.
  induction buffer as [|d buffer IH]; intros data lba count s Hi Hok Hsub; cbn [write10_loop]; [done|].
  inversion Hok as [|? ? Hd Hoks]; subst.
  assert (session_inv data (set_wr (fst (snd (write_block b reserved ram_kb CURRENT_UF2_FIRST_LBA n lba d (wr_state s) (flash_of s))))
    (snd (snd (write_block b reserved ram_kb CURRENT_UF2_FIRST_LBA n lba d (wr_state s) (flash_of s)))) s)) as Hs1.
  { destruct Hi as (base & ss & [Hb1 Hb2] & Hr & Hc & Hdata & Hssok). exists base, (ss ++ [(lba, d)]).
    split; [by split|]. cbn [set_wr wr_state flash_of]. split; [|split; [|split]].
    - by apply (run_inv_step b reserved ram_kb CURRENT_UF2_FIRST_LBA n base A Hb1 Hb2 ss _ _ (lba, d)).
    - by apply (write_block_cache lba d).
    - intros x Hx. apply elem_of_app in Hx as [Hx|Hx]; [auto|]. apply list_elem_of_singleton in Hx as ->.
      apply Hsub. constructor.
    - rewrite fmap_app. apply Forall_app. split; [done|]. by apply Forall_singleton. }
  destruct (write_block _ _ _ _ _ _ _ _ _) as [z [st fs]]. cbn [fst snd] in Hs1. cbn zeta.
  destruct (aborted st); [done|]. destruct (z =? 0); [done|].
  specialize (IH data (u32 (lba + 1)) (u32 (count + 512)) _ Hs1 Hoks (fun x Hx => Hsub x (list_elem_of_further _ _ _ Hx))).
  by destruct (write10_loop _ _ _ _ _ _ _ _) as [r [s2 out]].
Qed.

Lemma write10_complete_same now s : let s' := fst (tud_msc_write10_complete_cb b reserved now s) in
  wr_state s' = wr_state s /\ flash_of s' = flash_of s.
Proof.
  unfold tud_msc_write10_complete_cb, defer_app_completion. cbn zeta. destruct (aborted _); [done|].
  destruct (negb (_ =? 0)); [|done].
  destruct (first_write s), (numWritten (wr_state s) >=? numBlocks (wr_state s)),
    (updateKind (wr_state s) =? UF2_UPDATE_KIND_BOOTLOADER), (app_completion_pending s) eqn:E; cbn; rewrite ?E; done.
Qed.

Lemma session_step data e s : session_inv data s -> Forall sector_ok (event_data e) ->
  session_inv (data ++ event_data e) (fst (msc_step e s)).
Proof.
  intros Hi0 Hok. assert (session_inv (data ++ event_data e) s) as Hi
    by (eapply session_mono; [done|]; intros d Hd; apply elem_of_app; auto).
  destruct e; cbn [msc_step fst snd]; cbn [event_data] in *.
  - eapply session_same; [exact Hi|..]; unfold tud_msc_command_begin_cb; cbn; by destruct (app_completion_pending s).
  - eapply session_same; [exact Hi|..]; unfold tud_msc_command_complete_cb, finish_msc_command; cbn;
      by destruct exit_on_eject, (app_completion_pending s).
  - eapply session_same; [exact Hi|..]; unfold tud_msc_reset_cb, finish_msc_command; cbn;
      by destruct exit_on_eject, (app_completion_pending s).
  - unfold tud_msc_write10_cb. destruct (negb _); [done|].
    assert (session_inv (data ++ buffer) (fst (snd (write10_loop b reserved ram_kb n lba 0 buffer s)))) as Hw
      by (apply session_write10; try done; intros d Hd; apply elem_of_app; auto).
    by destruct (write10_loop _ _ _ _ _ _ _ _) as [r [s2 out]].
  - destruct (write10_complete_same now s) as [E1 E2]. by eapply session_same.
  - unfold tud_msc_scsi_complete_cb. destruct (cmd =? SCSI_SYNCHRONIZE_CACHE); [done|].
    assert (session_inv (data ++ []) (set_completion false false s)) as Hc by (by eapply session_same).
    destruct (app_completion_after_eject s && _); cbn [take_pending_app_completion];
      [destruct (app_completion_pending s && _)|].
    + apply session_complete in Hc. destruct (complete_app_update _) as [s2 out]. cbn [fst] in Hc.
      destruct (_ && _ && _); [by apply session_reset|done].
    + destruct (_ && _ && _); [by apply session_reset|done].
    + destruct (_ && _ && _); [by apply session_reset|done].
  - unfold tud_msc_start_stop_cb. destruct load_eject; [|done]. destruct start; [done|].
    destruct (app_completion_pending s); [by eapply session_same|].
    destruct exit_on_eject eqn:He; [by eapply session_same|]. rewrite <- He. by apply session_reset.
  - unfold app_completion_timer_handler. destruct (negb _); [done|]. destruct (app_msc_command_active s); [by eapply session_same|].
    cbn zeta. destruct (_ <? _); [done|]. cbn [take_pending_app_completion].
    assert (session_inv (data ++ []) (set_completion false false s)) as Hc by (by eapply session_same).
    destruct (_ && _); [by apply session_complete|done].
  - by apply session_reset.
  - unfold uf2_write_session_close. cbn [take_pending_app_completion].
    assert (session_inv (data ++ []) (set_completion false false s)) as Hc by (by eapply session_same).
    destruct (_ && _).
    + apply session_complete in Hc. destruct (complete_app_update _) as [s2 out]. by apply session_reset.
    + by apply session_reset.
Qed.

Lemma session_start : session_inv [] msc_start.
Proof.
  exists fs0, []. split; [by split|]. split; [|split; [by left|split; [intros x Hx; inversion Hx|constructor]]].
  by apply run_inv_reset.
Qed.

Lemma session_run evs : Forall sector_ok (written evs) -> forall data s, session_inv data s ->
  session_inv (data ++ written evs) (msc_run evs s).
Proof.
  induction evs as [|e evs IH]; intros Hok data s Hi; [by rewrite app_nil_r|].
  unfold written in *. cbn [map concat] in *. apply Forall_app in Hok as [He Hok].
  unfold msc_run. rewrite fold_left_cons, app_assoc. apply IH; [done|]. by apply session_step.
Qed.

(** ** The completion request *)

Definition app_complete (crc size : Z) : request := Update_process (Dfu_update_app_complete crc size).

Lemma complete_request s crc size : app_complete crc size ∈ snd (complete_app_update s) ->
  appValidated (wr_state s) = true /\ size = appSize (wr_state s) /\
  crc = crc_loop (S (Z.to_nat (size / CODE_PAGE_SIZE + 1))) (fmem (flash_of s)) (appStart (wr_state s)) size 0 0.
Proof.
  unfold complete_app_update. destruct (_ || _) eqn:E; cbn [snd]; intros Hin; [inversion Hin|].
  bool_cases. apply elem_of_cons in Hin as [[= -> ->]|Hin]; [done|].
  apply list_elem_of_singleton in Hin. done.
Qed.

Lemma write10_requests crc size buffer : forall lba count s,
  app_complete crc size ∉ snd (snd (write10_loop b reserved ram_kb n lba count buffer s)).
Proof.
  induction buffer as [|d buffer IH]; intros lba count s; cbn [write10_loop]; [intros Hin; inversion Hin|].
  destruct (write_block _ _ _ _ _ _ _ _ _) as [z [st fs]]. cbn zeta.
  destruct (aborted st); [intros Hin; inversion Hin|]. destruct (z =? 0); [intros Hin; inversion Hin|].
  specialize (IH (u32 (lba + 1)) (u32 (count + 512)) (set_wr st fs s)).
  destruct (write10_loop _ _ _ _ _ _ _ _) as [r [s2 out]]. cbn [snd fst] in *. intros Hin.
  apply elem_of_app in Hin as [Hin|Hin]; [|by apply IH].
  destruct (z >? 0); [|inversion Hin]. by apply list_elem_of_singleton in Hin.
Qed.

(** A request to complete comes from one of three events, and only while the
    transfer is not aborted. *)
Lemma step_request e s crc size : app_complete crc size ∈ snd (msc_step e s) ->
  ((exists now, e = Idle_timer now /\ app_msc_command_active s = false) \/
   (e = Scsi_complete SCSI_CMD_START_STOP_UNIT /\ app_completion_after_eject s = true) \/ e = Usb_unmount) /\
  app_completion_pending s = true /\ aborted (wr_state s) = false /\
  app_complete crc size ∈ snd (complete_app_update (set_completion false false s)).
Proof.
  assert (forall l, app_complete crc size ∈ l -> l = [] -> False) as Hnil by (intros l Hin ->; inversion Hin).
  destruct e; cbn [msc_step snd]; intros Hin; try (by inversion Hin).
  - exfalso. revert Hin. unfold tud_msc_write10_cb. destruct (negb _); [by intros Hin; inversion Hin|].
    pose proof (write10_requests crc size buffer lba 0 s) as Hno.
    destruct (write10_loop _ _ _ _ _ _ _ _) as [r [s2 out]]. exact Hno.
  - exfalso. revert Hin. unfold tud_msc_write10_complete_cb, defer_app_completion. cbn zeta.
    repeat case_match; simplify_eq/=; rewrite ?elem_of_app, ?elem_of_cons, ?elem_of_nil; intuition discriminate.
  - revert Hin. unfold tud_msc_scsi_complete_cb. destruct (cmd =? SCSI_SYNCHRONIZE_CACHE); [by intros Hin; inversion Hin|].
    destruct (app_completion_after_eject s && _) eqn:Hej; cbn [take_pending_app_completion].
    + bool_cases. destruct (app_completion_pending s && negb (aborted (wr_state s))) eqn:Hc.
      * bool_cases. destruct (complete_app_update _) as [s2 out]. intros Hin. split; [right; left; split; [by f_equal|done]|].
        split_and!; try done. cbn [snd]. case_match; cbn [snd] in Hin; [|done].
        apply elem_of_app in Hin as [?|Hin]; [done|]. by apply list_elem_of_singleton in Hin.
      * intros Hin. exfalso. case_match; cbn [snd app] in Hin; [by apply list_elem_of_singleton in Hin|inversion Hin].
    + intros Hin. exfalso. case_match; cbn [snd app] in Hin; [by apply list_elem_of_singleton in Hin|inversion Hin].
  - revert Hin. unfold app_completion_timer_handler. destruct (app_completion_pending s) eqn:Hp; cbn [negb];
      [|by intros Hin; inversion Hin].
    destruct (app_msc_command_active s) eqn:Ha; [intros Hin; by apply list_elem_of_singleton in Hin|]. cbn zeta.
    destruct (_ <? _); [intros Hin; by apply list_elem_of_singleton in Hin|]. unfold take_pending_app_completion. rewrite Hp.
    destruct (aborted (wr_state s)) eqn:Hab; cbn [negb andb]; [by intros Hin; inversion Hin|]. intros Hin.
    split; [left; eauto|]. auto.
  - revert Hin. unfold uf2_write_session_close, take_pending_app_completion.
    destruct (app_completion_pending s) eqn:Hp; cbn [andb]; [|by intros Hin; inversion Hin].
    destruct (aborted (wr_state s)) eqn:Hab; cbn [negb]; [by intros Hin; inversion Hin|].
    destruct (complete_app_update _) as [s2 out]. intros Hin. split; [auto|]. auto.
Qed.

(** The eject flag: an eject was handled, and no command has ended since. *)
Definition command_goes_on (e : event) : Prop :=
  match e with Command_complete _ | Bot_reset _ | Usb_mount | Usb_unmount => False | _ => True end.
Definition ejected (evs : list event) : Prop :=
  exists before after, evs = before ++ Start_stop false true :: after /\ Forall command_goes_on after.

Lemma write10_eject buffer : forall lba count s,
  app_completion_after_eject (fst (snd (write10_loop b reserved ram_kb n lba count buffer s))) = app_completion_after_eject s.
Proof.
  induction buffer as [|d buffer IH]; intros lba count s; cbn [write10_loop]; [done|].
  destruct (write_block _ _ _ _ _ _ _ _ _) as [z [st fs]]. cbn zeta. destruct (aborted st); [done|]. destruct (z =? 0); [done|].
  specialize (IH (u32 (lba + 1)) (u32 (count + 512)) (set_wr st fs s)).
  destruct (write10_loop _ _ _ _ _ _ _ _) as [r [s2 out]]. exact IH.
Qed.

Lemma complete_eject s : app_completion_after_eject (fst (complete_app_update s)) = app_completion_after_eject s.
Proof. unfold complete_app_update. by destruct (_ || _). Qed.

Lemma step_eject e s : app_completion_after_eject (fst (msc_step e s)) = true ->
  e = Start_stop false true \/ (app_completion_after_eject s = true /\ command_goes_on e).
Proof.
  destruct e; cbn [msc_step fst command_goes_on].
  - unfold tud_msc_command_begin_cb. cbn zeta. destruct (app_completion_pending _); auto.
  - unfold tud_msc_command_complete_cb, finish_msc_command. cbn zeta. by destruct exit_on_eject; cbn; destruct (app_completion_pending s).
  - unfold tud_msc_reset_cb, finish_msc_command. cbn zeta. by destruct exit_on_eject; cbn; destruct (app_completion_pending s).
  - unfold tud_msc_write10_cb. destruct (negb _); [auto|]. pose proof (write10_eject buffer lba 0 s) as E.
    destruct (write10_loop _ _ _ _ _ _ _ _) as [r [s2 out]]. cbn [fst snd] in *. rewrite E. auto.
  - unfold tud_msc_write10_complete_cb, defer_app_completion. cbn zeta. destruct (aborted _); [done|]. destruct (negb (_ =? 0)); [|auto].
    destruct (first_write s), (numWritten (wr_state s) >=? numBlocks (wr_state s)), (updateKind (wr_state s) =? UF2_UPDATE_KIND_BOOTLOADER),
      (app_completion_pending s) eqn:E; cbn; rewrite ?E; auto.
  - unfold tud_msc_scsi_complete_cb. destruct (cmd =? SCSI_SYNCHRONIZE_CACHE); [auto|].
    destruct (app_completion_after_eject s) eqn:Ej; [auto|]. cbn [andb]. destruct (_ && _); [done|]. cbn [fst]. by rewrite Ej.
  - unfold tud_msc_start_stop_cb. destruct load_eject; [|auto]. destruct start; auto.
  - unfold app_completion_timer_handler. destruct (negb _); [auto|]. destruct (app_msc_command_active s); [auto|]. cbn zeta.
    destruct (_ <? _); [auto|]. cbn [take_pending_app_completion]. destruct (_ && _); [rewrite complete_eject|]; done.
  - done.
  - unfold uf2_write_session_close. cbn [take_pending_app_completion]. destruct (_ && _); [|done]. by destruct (complete_app_update _).
Qed.

Lemma run_ejected evs : app_completion_after_eject (msc_run evs msc_start) = true -> ejected evs.
Proof.
  induction evs as [|e evs IH] using rev_ind; [done|]. unfold msc_run. rewrite fold_left_app. cbn [fold_left]. fold (msc_run evs msc_start).
  intros [->|[Hf He]]%step_eject; [by exists evs, []|]. destruct (IH Hf) as (l1 & l2 & -> & Hl). exists l1, (l2 ++ [e]).
  split; [by rewrite <- app_assoc|]. apply Forall_app. by split; [|constructor].
Qed.

(** A validated image with its CRC passes the boot decision. *)
Lemma image_bootable fs size p : device_ok m reserved (fmem fs) A -> 0 < size -> A + size <= UEND ->
  vectors_fit A (A + size) (mem_word (fmem fs) A) (mem_word (fmem fs) (A + 4)) (RAM_END ram_kb) ->
  0 <= mem_word (fmem fs) A -> 0 <= mem_word (fmem fs) (A + 4) < 2 ^ 32 ->
  bootloader_app_is_valid m ram_kb (words_of fs) (mem_read (fmem fs) A)
    (bootloader_settings_seal (update_settings (Save_app_complete (crc16_compute (mem_read (fmem fs) A size) None) size) p)) = true.
Proof.
  intros Hd Hs HE (Hsp & Hsp8 & Hrv & Hr) H0 Hrv32. pose proof (base_in b reserved _ A Hd) as (HA & _).
  pose proof (m_facts b reserved _ A Hd) as (_ & HU & _ & HE2 & _ & HS & _ & HF & _ & HF2).
  unfold bootloader_app_is_valid. cbn zeta.
  assert (DFU_BANK_0_REGION_START (words_of fs) = A) as -> by apply (dv_base _ _ _ _ Hd).
  change (words_of fs) with (mem_word (fmem fs)).
  set (sp := mem_word (fmem fs) A) in *. set (rv := mem_word (fmem fs) (A + 4)) in *.
  fold (RAM_END ram_kb). rewrite land_7, Hsp8, land_1, Hrv.
  change (Z.lxor 1 UINT32_MAX) with (Z.lxor (2 ^ 1 - 1) UINT32_MAX). rewrite land_not_mask by lia. change (2 ^ 1) with 2.
  rewrite Hrv, !Z.geb_leb.
  assert ((sp =? 0xFFFFFFFF) = false) as -> by (apply Z.eqb_neq; zlia).
  assert ((rv =? 0xFFFFFFFF) = false) as -> by (apply Z.eqb_neq; unfold PAGE in *; lia).
  assert ((0x20000000 <=? sp) = true) as -> by (apply Z.leb_le; lia).
  assert ((sp <=? RAM_END ram_kb) = true) as -> by (apply Z.leb_le; lia).
  assert ((A <=? rv - 1) = true) as -> by (apply Z.leb_le; lia).
  assert ((rv - 1 <? BOOTLOADER_REGION_START m) = true) as -> by (apply Z.ltb_lt; lia).
  cbn [negb andb Z.eqb]. set (st := update_settings _ p).
  assert (bank_0 (bootloader_settings_seal st) = BANK_VALID_APP /\ bank_0_size (bootloader_settings_seal st) = size /\
    bank_0_crc (bootloader_settings_seal st) = crc16_compute (mem_read (fmem fs) A size) None) as (-> & -> & ->) by done.
  rewrite Z.eqb_refl, seal_integrity, seal_not_legacy. cbn [negb andb].
  rewrite (u32_small (BOOTLOADER_REGION_START m - A)), (u32_small (A + size)), Z.gtb_ltb by (unfold PAGE in *; lia).
  destruct (Z.eqb_spec size 0); [lia|]. destruct (Z.ltb_spec (BOOTLOADER_REGION_START m - A) size); [lia|].
  destruct (Z.leb_spec (A + size) (rv - 1)); [lia|]. cbn [orb]. apply Z.eqb_refl.
Qed.

(** C4: What a completed UF2 update means. Over any sequence of mass-storage
    callbacks, with any sector contents, an application is only reported
    complete when the host has unmounted the volume, when the status of a start-stop
    command has been sent and an eject was handled with no command completed, no
    transport reset and no mount since, or when the idle timer expires with no command in progress;
    the transfer is then not aborted, the reported size lies in the application
    region, every 256-byte block of the image in flash is the payload of an
    application block the host wrote for that address, the reported CRC is the
    CRC of that flash, and the settings record stored for it makes the next boot
    accept the application. *)
Theorem msc_completion_sound evs e crc size : Forall sector_ok (written evs) ->
  let s := msc_run evs msc_start in
  app_complete crc size ∈ snd (msc_step e s) ->
  ((exists now, e = Idle_timer now /\ app_msc_command_active s = false) \/
   (e = Scsi_complete SCSI_CMD_START_STOP_UNIT /\ ejected evs) \/ e = Usb_unmount) /\
  aborted (wr_state s) = false /\ 0 < size /\ A + size <= UEND /\
  (forall a, A <= a < A + size -> a mod 256 = 0 -> exists d, d ∈ written evs /\
     is_uf2_block (uf2_block_of d) = true /\
     family_kind b (bl_familyID (uf2_block_of d)) = Some UF2_UPDATE_KIND_APPLICATION /\
     bl_targetAddr (uf2_block_of d) = a /\ mem_read (fmem (flash_of s)) a 256 = payload (uf2_block_of d)) /\
  crc = crc16_compute (mem_read (fmem (flash_of s)) A size) None /\
  (forall p, bootloader_app_is_valid m ram_kb (words_of (flash_of s)) (mem_read (fmem (flash_of s)) A)
     (bootloader_settings_seal (update_settings (Save_app_complete crc size) p)) = true).
Proof.
  intros Hok. cbn zeta. intros Hin. apply step_request in Hin as (He & _ & Hab & Hin).
  apply complete_request in Hin as (Hv & -> & ->). cbn [set_completion wr_state flash_of] in *.
  pose proof (session_run evs Hok [] _ session_start) as (base & ss & [Hb Hbc] & Hr & _ & Hdata & _). cbn [app] in Hdata.
  set (s := msc_run evs msc_start) in *.
  pose proof (run_inv_validated b reserved ram_kb base A Hb ss _ _ Hr Hv) as (Hs & Hp & _ & HE & _ & Hblocks & Hvec & _).
  pose proof (device_after base ss _ _ (conj Hb Hbc) Hr) as Hd. pose proof (base_in b reserved _ A Hb) as (HA & _).
  pose proof (m_facts b reserved _ A Hb) as (_ & HU & _ & HE2 & _ & HS & _ & HF & _ & HF2).
  assert (forall a, 0 <= mem_word (fmem (flash_of s)) a < 2 ^ 32) as Hw.
  { intros a. pose proof (dv_bytes _ _ _ _ Hd) as Hm. unfold mem_word.
    rewrite le32_add by (unfold is_byte; apply Hm).
    pose proof (Hm a). pose proof (Hm (a + 1)). pose proof (Hm (a + 2)). pose proof (Hm (a + 3)). lia. }
  split; [destruct He as [?|[[? Hj]|?]]; [by left| |by right; right]; right; left; split; [done|by apply run_ejected]|].
  split; [done|]. split; [done|]. split; [done|]. split.
  { intros a Ha Hal. destruct (Hblocks a Ha Hal) as (x & Hx & Hrest). exists (snd x). split; [by apply Hdata|done]. }
  rewrite Hs, crc_loop_spec; try lia; [|unfold PAGE in *; lia|change CODE_PAGE_SIZE with PAGE; unfold PAGE in *; zlia].
  split; [done|]. intros p. apply image_bootable; try done; apply Hw.
Qed.
End Session.

#[local] Existing Instance nvmc_model.

(** The one-block application, its two busy answers, the final status and an
    idle timer after 40000 ticks. *)
Definition demo_events : list event :=
  [Write10 2000 0 [snd demo_app_sector]; Write10 2000 0 [snd demo_app_sector]; Write10 2000 0 [snd demo_app_sector];
   Write10_complete 0].
Abbreviation demo_session := (msc_run (demo_drive true) 0x7000 256 10 false demo_events
  (msc_start (demo_drive true) 0x7000 false demo_fs)).

Lemma msc_completion_sound_witness :
  app_complete 55444 256 ∈ snd (msc_step (demo_drive true) 0x7000 256 10 false (Idle_timer 40000) demo_session) /\
  aborted (wr_state demo_session) = false.
Proof.
  assert (app_complete 55444 256 ∈ snd (msc_step (demo_drive true) 0x7000 256 10 false (Idle_timer 40000) demo_session)) as Hin.
  { assert (snd (msc_step (demo_drive true) 0x7000 256 10 false (Idle_timer 40000) demo_session) =
      [app_complete 55444 256; Led_state STATE_WRITING_FINISHED]) as -> by reflexivity. constructor. }
  split; [exact Hin|].
  assert (Forall sector_ok (written demo_events)) as Hok
    by (repeat (constructor; [apply (demo_ok (0, _)); reflexivity|]); constructor).
  destruct (msc_completion_sound (demo_drive true) 0x7000 256 10 false demo_fs 0x4000 (demo_device true) eq_refl
    demo_events (Idle_timer 40000) 55444 256 Hok Hin) as (_ & Hab & _). exact Hab.
Defined.
