(* ===== verification/Detools.v ===== *)
(** The in-place patch decoder: [src/detools/detools.c] as the bootloader builds
    it (no file I/O, no LZMA or heatshrink, [DETOOLS_CONFIG_IN_PLACE_RESUME=0]).
    The decoder is a state machine fed with chunks of the patch; it stops in the
    middle of any value when a chunk ends and resumes with the next one.  The
    memory it works on is behind three callbacks, here a class; [arg_p] is the
    state [M] they work on. *)
From S2P Require Import Prelude.

Definition s32 (x : Z) : Z := (x + 2147483648) mod 4294967296 - 2147483648.

Definition DETOOLS_OK : Z := 0.
Definition DETOOLS_NOT_IMPLEMENTED : Z := 1.
Definition DETOOLS_BAD_PATCH_TYPE : Z := 3.
Definition DETOOLS_BAD_COMPRESSION : Z := 4.
Definition DETOOLS_INTERNAL_ERROR : Z := 5.
Definition DETOOLS_CORRUPT_PATCH : Z := 9.
Definition DETOOLS_IO_FAILED : Z := 10.
Definition DETOOLS_ALREADY_DONE : Z := 11.
Definition DETOOLS_SHORT_HEADER : Z := 18.
Definition DETOOLS_NOT_ENOUGH_PATCH_DATA : Z := 19.
Definition DETOOLS_ALREADY_FAILED : Z := 24.
Definition DETOOLS_CORRUPT_PATCH_OVERFLOW : Z := 25.
Definition DETOOLS_CORRUPT_PATCH_CRLE_KIND : Z := 26.

Definition PATCH_TYPE_IN_PLACE : Z := 1.
Definition COMPRESSION_NONE : Z := 0.
Definition COMPRESSION_CRLE : Z := 2.

(** * Chunks *)

Record chunk := mk_chunk { c_buf : list Z; c_offset : Z }.

Definition chunk_left (c : chunk) : Z := lenZ (c_buf c) - c_offset c.
Definition chunk_available (c : chunk) : bool := chunk_left c >? 0.

(** [None] is the result 1, more input is needed. *)
Definition chunk_get (c : chunk) : option (Z * chunk) :=
  if negb (chunk_available c) then None
  else Some (nthZ (c_buf c) (c_offset c), mk_chunk (c_buf c) (c_offset c + 1)).

Definition chunk_read (c : chunk) (size : Z) : option (list Z * chunk) :=
  if negb (chunk_available c) then None
  else
    let size := Z.min size (chunk_left c) in
    Some (sliceZ (c_buf c) (c_offset c) size, mk_chunk (c_buf c) (c_offset c + size)).

(** * Variable-length sizes *)

Inductive unpack_usize_state := Usize_first | Usize_consecutive.
Record usize := mk_usize { u_state : unpack_usize_state; u_value : Z; u_offset : Z }.
Record size_state := mk_size { z_state : unpack_usize_state; z_value : Z; z_offset : Z; z_signed : bool }.

Definition is_overflow (value : Z) : bool := value + 7 >? 32.

(** [chunk_unpack_header_size]; the offset grows by 7 from 6 and the decoder
    fails above 25, so six rounds are enough. *)
Fixpoint header_size_loop (fuel : nat) (s : size_state) (c : chunk) : Z * (Z * (size_state * chunk)) :=
  match fuel with
  | O => (- DETOOLS_INTERNAL_ERROR, (0, (s, c)))
  | S fuel =>
    match chunk_get c with
    | None => (1, (0, (s, c)))
    | Some (byte, c) =>
      let next s :=
        if negb (Z.land byte 0x80 =? 0) then header_size_loop fuel s c
        else (0, (z_value s, (mk_size Usize_first (z_value s) (z_offset s) (z_signed s), c))) in
      match z_state s with
      | Usize_first => next (mk_size Usize_consecutive (Z.land byte 0x3f) 6 (z_signed s))
      | Usize_consecutive =>
        if is_overflow (z_offset s) then (- DETOOLS_CORRUPT_PATCH_OVERFLOW, (0, (s, c)))
        else next (mk_size Usize_consecutive (Z.lor (z_value s) (Z.shiftl (Z.land byte 0x7f) (z_offset s)))
                     (z_offset s + 7) (z_signed s))
      end
    end
  end.
Definition chunk_unpack_header_size (c : chunk) (s : size_state) : Z * (Z * (size_state * chunk)) :=
  header_size_loop 6 s c.

(** [unpack_usize]; the offset grows by 7 from 0. *)
Fixpoint usize_loop (fuel : nat) (u : usize) (c : chunk) : Z * (Z * (usize * chunk)) :=
  match fuel with
  | O => (- DETOOLS_INTERNAL_ERROR, (0, (u, c)))
  | S fuel =>
    match chunk_get c with
    | None => (1, (0, (u, c)))
    | Some (byte, c) =>
      if is_overflow (u_offset u) then (- DETOOLS_CORRUPT_PATCH_OVERFLOW, (0, (u, c)))
      else
        let u := mk_usize (u_state u) (Z.lor (u_value u) (Z.shiftl (Z.land byte 0x7f) (u_offset u))) (u_offset u + 7) in
        if negb (Z.land byte 0x80 =? 0) then usize_loop fuel u c else (0, (u_value u, (u, c)))
    end
  end.
Definition unpack_usize_init : usize := mk_usize Usize_first 0 0.
Definition unpack_usize (u : usize) (c : chunk) : Z * (Z * (usize * chunk)) :=
  let u := match u_state u with Usize_first => mk_usize Usize_consecutive 0 0 | Usize_consecutive => u end in
  usize_loop 6 u c.

(** * The patch readers *)

(** The reader's union, tagged with its state. *)
Inductive crle :=
| Crle_idle
| Scattered_size (size : usize)
| Scattered_data (number_of_bytes_left : Z)
| Repeated_repetitions (size : usize)
| Repeated_data (number_of_bytes_left : Z)
| Repeated_data_read (value number_of_bytes_left : Z).

(** One round of the loop of [patch_reader_crle_decompress]: the result, 2 to go
    on, the bytes written to [buf_p] and the new state. *)
Definition crle_step (r : crle) (c : chunk) (size : Z) : Z * (list Z * (crle * chunk)) :=
  match r with
  | Crle_idle =>
      match chunk_get c with
      | None => (1, ([], (r, c)))
      | Some (kind, c) =>
        if kind =? 0 then (2, ([], (Scattered_size unpack_usize_init, c)))
        else if kind =? 1 then (2, ([], (Repeated_repetitions unpack_usize_init, c)))
        else (- DETOOLS_CORRUPT_PATCH_CRLE_KIND, ([], (r, c)))
      end
  | Scattered_size u =>
      let '(res, (n, (u, c))) := unpack_usize u c in
      if negb (res =? 0) then (res, ([], (Scattered_size u, c))) else (2, ([], (Scattered_data n, c)))
  | Scattered_data rest =>
      match chunk_read c (Z.min size rest) with
      | None => (1, ([], (r, c)))
      | Some (buf, c) =>
        let rest := rest - lenZ buf in
        (0, (buf, ((if rest =? 0 then Crle_idle else Scattered_data rest), c)))
      end
  | Repeated_repetitions u =>
      let '(res, (n, (u, c))) := unpack_usize u c in
      if negb (res =? 0) then (res, ([], (Repeated_repetitions u, c))) else (2, ([], (Repeated_data n, c)))
  | Repeated_data rest =>
      match chunk_get c with
      | None => (1, ([], (r, c)))
      | Some (value, c) => (2, ([], (Repeated_data_read value rest, c)))
      end
  | Repeated_data_read value rest =>
      let n := Z.min size rest in
      let rest := rest - n in
      (0, (replicate (Z.to_nat n) value, ((if rest =? 0 then Crle_idle else Repeated_data_read value rest), c)))
  end.

(** From the idle state data is at most three rounds away. *)
Fixpoint crle_loop (fuel : nat) (r : crle) (c : chunk) (size : Z) : Z * (list Z * (crle * chunk)) :=
  match fuel with
  | O => (- DETOOLS_INTERNAL_ERROR, ([], (r, c)))
  | S fuel =>
    let '(res, (buf, (r, c))) := crle_step r c size in
    if res =? 2 then crle_loop fuel r c size else (res, (buf, (r, c)))
  end.
Definition patch_reader_crle_decompress (r : crle) (c : chunk) (size : Z) : Z * (list Z * (crle * chunk)) :=
  crle_loop 4 r c size.

(** The reader before [patch_reader_init], and the two compressions built in. *)
Inductive reader := No_reader | Reader_none (patch_size patch_offset : Z) | Reader_crle (r : crle).

Definition patch_reader_none_decompress (patch_size patch_offset : Z) (c : chunk) (size : Z)
  : Z * (list Z * (reader * chunk)) :=
  let r := Reader_none patch_size patch_offset in
  if u32 (patch_offset + size) >? patch_size then (- DETOOLS_CORRUPT_PATCH, ([], (r, c)))
  else match chunk_read c size with
       | None => (1, ([], (r, c)))
       | Some (buf, c) => (0, (buf, (Reader_none patch_size (u32 (patch_offset + lenZ buf)), c)))
       end.

(** The result, the new reader. *)
Definition patch_reader_init (c : chunk) (patch_size compression : Z) : Z * reader :=
  if compression =? COMPRESSION_NONE then (0, Reader_none patch_size 0)
  else if compression =? COMPRESSION_CRLE then (0, Reader_crle Crle_idle)
  else (- DETOOLS_BAD_COMPRESSION, No_reader).

(** [destroy], called when it is not [NULL]. *)
Definition patch_reader_destroy (r : reader) : Z :=
  match r with
  | Reader_none patch_size patch_offset => if patch_offset =? patch_size then 0 else - DETOOLS_CORRUPT_PATCH
  | _ => 0
  end.

Definition patch_reader_decompress (r : reader) (c : chunk) (size : Z) : Z * (list Z * (reader * chunk)) :=
  match r with
  | No_reader => (- DETOOLS_INTERNAL_ERROR, ([], (r, c)))
  | Reader_none patch_size patch_offset => patch_reader_none_decompress patch_size patch_offset c size
  | Reader_crle r =>
      let '(res, (buf, (r, c))) := patch_reader_crle_decompress r c size in (res, (buf, (Reader_crle r, c)))
  end.

Section Reader.
(** What an uninitialised [byte] holds when a run of length zero makes the
    reader succeed without a byte. *)
Context (uninit : reader -> chunk -> Z).

(** The loop of [patch_reader_unpack_size]; [size] is what the last read left
    in it. *)
Fixpoint unpack_size_loop (fuel : nat) (byte size : Z) (s : size_state) (r : reader) (c : chunk)
  : Z * (Z * (size_state * (reader * chunk))) :=
  match fuel with
  | O => (- DETOOLS_INTERNAL_ERROR, (0, (s, (r, c))))
  | S fuel =>
    let '(res, (buf, (r, c))) := patch_reader_decompress r c size in
    if negb (res =? 0) then (res, (0, (s, (r, c))))
    else
      let byte := match buf with b :: _ => b | [] => byte end in
      let size := lenZ buf in
      let next s :=
        if negb (Z.land byte 0x80 =? 0) then unpack_size_loop fuel byte size s r c
        else
          let value := if z_signed s then - z_value s else z_value s in
          (0, (value, (mk_size Usize_first value (z_offset s) (z_signed s), (r, c)))) in
      match z_state s with
      | Usize_first =>
          next (mk_size Usize_consecutive (Z.land byte 0x3f) 6 (Z.land byte 0x40 =? 0x40))
      | Usize_consecutive =>
          if is_overflow (z_offset s) then (- DETOOLS_CORRUPT_PATCH_OVERFLOW, (0, (s, (r, c))))
          else next (mk_size Usize_consecutive (Z.lor (z_value s) (Z.shiftl (Z.land byte 0x7f) (z_offset s)))
                       (z_offset s + 7) (z_signed s))
      end
  end.
Definition patch_reader_unpack_size (s : size_state) (r : reader) (c : chunk)
  : Z * (Z * (size_state * (reader * chunk))) :=
  unpack_size_loop 6 (uninit r c) 1 s r c.

Definition common_process_size (s : size_state) (r : reader) (c : chunk) (to_pos to_size : Z)
  : Z * (Z * (size_state * (reader * chunk))) :=
  let '(res, (size, x)) := patch_reader_unpack_size s r c in
  if negb (res =? 0) then (res, (size, x))
  else if u32 (to_pos + u32 size) >? to_size then (- DETOOLS_CORRUPT_PATCH, (size, x))
  else (res, (size, x)).
End Reader.

(** * The in-place machine *)

(** The memory callbacks: "zero(0) or negative error code". *)
Class MemCallbacks (M : Type) := {
  mem_read_cb : M -> Z -> Z -> Z * list Z;
  mem_write_cb : M -> Z -> list Z -> Z * M;
  mem_erase_cb : M -> Z -> Z -> Z * M;
  mem_read_result m a n : fst (mem_read_cb m a n) <= 0;
  mem_write_result m a bs : fst (mem_write_cb m a bs) <= 0;
  mem_erase_result m a n : fst (mem_erase_cb m a n) <= 0
}.

Inductive patch_state :=
| State_init | State_dfpatch_size | State_diff_size | State_diff_data | State_extra_size | State_extra_data
| State_adjustment | State_done | State_failed.
Inductive init_state := Init_fixed_header | Init_memory_size | Init_segment_size | Init_shift_size | Init_from_size
| Init_to_size.

Record geometry := mk_geometry { memory_size : Z; segment_size : Z; shift_size : Z; from_size : Z }.
Record segment := mk_segment { sg_index : Z; sg_from_offset : Z; sg_to_offset : Z; sg_to_size : Z; sg_to_pos : Z }.

(** The record for one patch; [mem_of] is the state of the callbacks. *)
Record in_place (M : Type) := mk_in_place {
  st_state : patch_state;
  st_init : init_state;
  st_compression : Z;
  st_geometry : geometry;
  st_to_pos : Z;
  st_to_size : Z;
  st_chunk_size : Z;
  st_segment : segment;
  st_reader : reader;
  st_reader_size : size_state;
  st_chunk : chunk;
  st_size : size_state;
  st_patch_size : Z;
  mem_of : M
}.
Arguments mk_in_place {M}. Arguments st_state {M}. Arguments st_init {M}. Arguments st_compression {M}.
Arguments st_geometry {M}. Arguments st_to_pos {M}. Arguments st_to_size {M}. Arguments st_chunk_size {M}.
Arguments st_segment {M}. Arguments st_reader {M}. Arguments st_reader_size {M}. Arguments st_chunk {M}.
Arguments st_size {M}. Arguments st_patch_size {M}. Arguments mem_of {M}.

Section Setters.
Context {M : Type}.
Implicit Types d : in_place M.

Definition set_state v d := mk_in_place v (st_init d) (st_compression d) (st_geometry d) (st_to_pos d) (st_to_size d)
  (st_chunk_size d) (st_segment d) (st_reader d) (st_reader_size d) (st_chunk d) (st_size d) (st_patch_size d) (mem_of d).
Definition set_chunk v d := mk_in_place (st_state d) (st_init d) (st_compression d) (st_geometry d) (st_to_pos d)
  (st_to_size d) (st_chunk_size d) (st_segment d) (st_reader d) (st_reader_size d) v (st_size d) (st_patch_size d) (mem_of d).
Definition set_mem (v : M) d := mk_in_place (st_state d) (st_init d) (st_compression d) (st_geometry d) (st_to_pos d)
  (st_to_size d) (st_chunk_size d) (st_segment d) (st_reader d) (st_reader_size d) (st_chunk d) (st_size d)
  (st_patch_size d) v.
(** What the header steps change. *)
Definition set_header i comp g s d := mk_in_place (st_state d) i comp g (st_to_pos d) (st_to_size d) (st_chunk_size d)
  (st_segment d) (st_reader d) (st_reader_size d) (st_chunk d) s (st_patch_size d) (mem_of d).
(** What reading through the patch reader changes. *)
Definition set_reader (x : size_state * (reader * chunk)) d := mk_in_place (st_state d) (st_init d) (st_compression d)
  (st_geometry d) (st_to_pos d) (st_to_size d) (st_chunk_size d) (st_segment d) (fst (snd x)) (fst x) (snd (snd x))
  (st_size d) (st_patch_size d) (mem_of d).
Definition set_target pos size d := mk_in_place (st_state d) (st_init d) (st_compression d) (st_geometry d) pos size
  (st_chunk_size d) (st_segment d) (st_reader d) (st_reader_size d) (st_chunk d) (st_size d) (st_patch_size d) (mem_of d).
Definition set_chunk_size v d := mk_in_place (st_state d) (st_init d) (st_compression d) (st_geometry d) (st_to_pos d)
  (st_to_size d) v (st_segment d) (st_reader d) (st_reader_size d) (st_chunk d) (st_size d) (st_patch_size d) (mem_of d).
Definition set_segment v d := mk_in_place (st_state d) (st_init d) (st_compression d) (st_geometry d) (st_to_pos d)
  (st_to_size d) (st_chunk_size d) v (st_reader d) (st_reader_size d) (st_chunk d) (st_size d) (st_patch_size d) (mem_of d).
End Setters.

Section InPlace.
Context {M : Type} `{MemCallbacks M} (uninit : reader -> chunk -> Z).
Implicit Types d : in_place M.

(** One segment copied in pieces of 128 bytes; [fuel] rounds are left. *)
Fixpoint shift_copy (fuel : nat) (read_address write_address segment_size offset : Z) (m : M) : Z * M :=
  match fuel with
  | O => (0, m)
  | S fuel =>
    if offset <? segment_size then
      let size := Z.min 128 (segment_size - offset) in
      let '(res, buf) := mem_read_cb m (u32 (read_address + offset)) size in
      if negb (res =? 0) then (res, m)
      else
        let '(res, m) := mem_write_cb m (u32 (write_address + offset)) buf in
        if negb (res =? 0) then (res, m)
        else shift_copy fuel read_address write_address segment_size (offset + size) m
    else (0, m)
  end.

(** The segments left to move, from the last one down. *)
Fixpoint shift_loop (n : nat) (read_address write_address segment_size : Z) (m : M) : Z * M :=
  match n with
  | O => (0, m)
  | S n =>
    let '(res, m) := mem_erase_cb m write_address segment_size in
    if negb (res =? 0) then (res, m)
    else
      let '(res, m) := shift_copy (S (Z.to_nat (segment_size / 128))) read_address write_address segment_size 0 m in
      if negb (res =? 0) then (res, m)
      else shift_loop n (u32 (read_address - segment_size)) (u32 (write_address - segment_size)) segment_size m
  end.

(** [DIV_CEIL] by zero is 0 as on the Cortex-M, where it does not trap. *)
Definition in_place_shift_memory (g : geometry) (m : M) : Z * M :=
  let number_of_segments :=
    u32 (Z.min (from_size g) (u32 (memory_size g - shift_size g)) + segment_size g - 1) / segment_size g in
  let read_address := u32 (u32 (number_of_segments - 1) * segment_size g) in
  let write_address := u32 (read_address + shift_size g) in
  shift_loop (Z.to_nat number_of_segments) read_address write_address (segment_size g) m.

Definition in_place_process_init_fixed_header d : Z * in_place M :=
  match chunk_get (st_chunk d) with
  | None => (- DETOOLS_SHORT_HEADER, d)
  | Some (byte, c) =>
    let patch_type := Z.land (Z.shiftr byte 4) 0x7 in
    let d := set_chunk c d in
    let comp := Z.land byte 0xf in
    if negb (patch_type =? PATCH_TYPE_IN_PLACE)
    then (- DETOOLS_BAD_PATCH_TYPE, set_header (st_init d) comp (st_geometry d) (st_size d) d)
    else (0, set_header Init_memory_size comp (st_geometry d)
               (mk_size Usize_first (z_value (st_size d)) (z_offset (st_size d)) (z_signed (st_size d))) d)
  end.

(** The field an initialisation state fills, and its successor. *)
Definition set_field (i : init_state) (v : Z) (g : geometry) : geometry :=
  match i with
  | Init_memory_size => mk_geometry v (segment_size g) (shift_size g) (from_size g)
  | Init_segment_size => mk_geometry (memory_size g) v (shift_size g) (from_size g)
  | Init_shift_size => mk_geometry (memory_size g) (segment_size g) v (from_size g)
  | Init_from_size => mk_geometry (memory_size g) (segment_size g) (shift_size g) v
  | _ => g
  end.
Definition next_init (i : init_state) : init_state :=
  match i with
  | Init_fixed_header => Init_memory_size
  | Init_memory_size => Init_segment_size
  | Init_segment_size => Init_shift_size
  | Init_shift_size => Init_from_size
  | Init_from_size => Init_to_size
  | Init_to_size => Init_to_size
  end.

Definition in_place_process_init_geometry d : Z * in_place M :=
  let '(res, (value, (s, c))) := chunk_unpack_header_size (st_chunk d) (st_size d) in
  let d := set_chunk c d in
  if negb (res =? 0) then (res, set_header (st_init d) (st_compression d) (st_geometry d) s d)
  else (0, set_header (next_init (st_init d)) (st_compression d) (set_field (st_init d) (u32 value) (st_geometry d))
             (mk_size Usize_first (z_value s) (z_offset s) (z_signed s)) d).

Definition in_place_process_init_to_size d : Z * in_place M :=
  let '(res, (to_size, (s, c))) := chunk_unpack_header_size (st_chunk d) (st_size d) in
  let d := set_header (st_init d) (st_compression d) (st_geometry d) s (set_chunk c d) in
  if negb (res =? 0) then (res, d)
  else
    let '(res, r) := patch_reader_init c (u32 (st_patch_size d - c_offset c)) (st_compression d) in
    let rs := st_reader_size d in
    let d := set_reader (mk_size Usize_first (z_value rs) (z_offset rs) (z_signed rs), (r, c)) d in
    if negb (res =? 0) then (res, d)
    else if to_size <? 0 then (- DETOOLS_CORRUPT_PATCH, d)
    else
      let sg := st_segment d in
      let d := set_segment (mk_segment 0 (sg_from_offset sg) (sg_to_offset sg) (sg_to_size sg) (sg_to_pos sg))
                 (set_target 0 to_size d) in
      if to_size >? 0 then
        let '(res, m) := in_place_shift_memory (st_geometry d) (mem_of d) in
        let d := set_mem m d in
        if negb (res =? 0) then (res, d) else (0, set_state State_dfpatch_size d)
      else (0, set_state State_done d).

Definition in_place_process_init d : Z * in_place M :=
  match st_init d with
  | Init_fixed_header => in_place_process_init_fixed_header d
  | Init_to_size => in_place_process_init_to_size d
  | _ => in_place_process_init_geometry d
  end.

Definition in_place_process_dfpatch_size d : Z * in_place M :=
  let '(res, (size, x)) := patch_reader_unpack_size uninit (st_reader_size d) (st_reader d) (st_chunk d) in
  let d := set_reader x d in
  if negb (res =? 0) then (res, d)
  else if size >? 0 then (- DETOOLS_NOT_IMPLEMENTED, d)
  else
    let g := st_geometry d in
    let index := sg_index (st_segment d) in
    let to_offset := u32 (index * segment_size g) in
    let sg := mk_segment (u32 (index + 1)) (s32 (Z.max (u32 (segment_size g * u32 (index + 1))) (shift_size g)))
                to_offset (Z.min (segment_size g) (u32 (st_to_size d - to_offset))) 0 in
    let d := set_segment sg (set_state State_diff_size d) in
    let '(res, m) := mem_erase_cb (mem_of d) to_offset (sg_to_size sg) in
    (res, set_mem m d).

Definition in_place_process_size (next_state : patch_state) d : Z * in_place M :=
  let '(res, (size, x)) :=
    common_process_size uninit (st_reader_size d) (st_reader d) (st_chunk d) (st_to_pos d) (st_to_size d) in
  let d := set_reader x d in
  if negb (res =? 0) then (res, d)
  else (0, set_chunk_size (u32 size) (set_state next_state d)).

Definition in_place_process_data (next_state : patch_state) d : Z * in_place M :=
  let to_size := Z.min 128 (st_chunk_size d) in
  if to_size =? 0 then (0, set_state next_state d)
  else
    let '(res, (to, (r, c))) := patch_reader_decompress (st_reader d) (st_chunk d) to_size in
    let d := set_reader (st_reader_size d, (r, c)) d in
    if negb (res =? 0) then (res, d)
    else
      let n := lenZ to in
      let sg := st_segment d in
      let '(res, (to, sg)) :=
        match next_state with
        | State_extra_size =>
            let '(res, from) := mem_read_cb (mem_of d) (u32 (sg_from_offset sg)) n in
            if negb (res =? 0) then (- DETOOLS_IO_FAILED, (to, sg))
            else (0, (zip_with (fun a b => u8 (a + b)) to from,
                      mk_segment (sg_index sg) (s32 (sg_from_offset sg + n)) (sg_to_offset sg) (sg_to_size sg) (sg_to_pos sg)))
        | _ => (0, (to, sg))
        end in
      if negb (res =? 0) then (res, d)
      else
        let d := set_segment sg d in
        let '(res, m) := mem_write_cb (mem_of d) (u32 (sg_to_pos sg + sg_to_offset sg)) to in
        let d := set_mem m d in
        if negb (res =? 0) then (- DETOOLS_IO_FAILED, d)
        else
          (0, set_chunk_size (u32 (st_chunk_size d - n))
                (set_segment (mk_segment (sg_index sg) (sg_from_offset sg) (sg_to_offset sg) (sg_to_size sg)
                                (u32 (sg_to_pos sg + n)))
                   (set_target (u32 (st_to_pos d + n)) (st_to_size d) d))).

Definition in_place_process_adjustment d : Z * in_place M :=
  let '(res, (offset, x)) := patch_reader_unpack_size uninit (st_reader_size d) (st_reader d) (st_chunk d) in
  let d := set_reader x d in
  if negb (res =? 0) then (res, d)
  else
    let sg := st_segment d in
    if st_to_pos d =? st_to_size d then (0, set_state State_done d)
    else if sg_to_pos sg =? sg_to_size sg then (0, set_state State_dfpatch_size d)
    else (0, set_state State_diff_size (set_segment
               (mk_segment (sg_index sg) (s32 (sg_from_offset sg + offset)) (sg_to_offset sg) (sg_to_size sg) (sg_to_pos sg)) d)).

Definition apply_patch_in_place_process_once d : Z * in_place M :=
  match st_state d with
  | State_done => (- DETOOLS_ALREADY_DONE, d)
  | _ =>
    let '(res, d) :=
      match st_state d with
      | State_init => in_place_process_init d
      | State_dfpatch_size => in_place_process_dfpatch_size d
      | State_diff_size => in_place_process_size State_diff_data d
      | State_diff_data => in_place_process_data State_extra_size d
      | State_extra_size => in_place_process_size State_extra_data d
      | State_extra_data => in_place_process_data State_adjustment d
      | State_adjustment => in_place_process_adjustment d
      | _ => (- DETOOLS_ALREADY_FAILED, d)
      end in
    (res, if res <? 0 then set_state State_failed d else d)
  end.

Definition detools_apply_patch_in_place_init (patch_size : Z) (m : M) : in_place M :=
  mk_in_place State_init Init_fixed_header 0 (mk_geometry 0 0 0 0) 0 0 0 (mk_segment 0 0 0 0 0) No_reader
    (mk_size Usize_first 0 0 false) (mk_chunk [] 0) (mk_size Usize_first 0 0 false) patch_size m.

(** The loops below run until their condition fails; [PROCESS_FUEL] rounds
    always suffice ([process_total], [finalize_total]). *)
Definition PROCESS_FUEL : positive := 2 ^ 60.

(** [while (chunk_available(..) && (res >= 0))] *)
Definition process_round (s : Z * in_place M) : (Z * in_place M) + (Z * in_place M) :=
  if chunk_available (st_chunk (snd s)) && (fst s >=? 0)
  then inl (apply_patch_in_place_process_once (snd s)) else inr s.

Definition detools_apply_patch_in_place_process (patch : list Z) d : option (Z * in_place M) :=
  match iterate PROCESS_FUEL process_round (0, set_chunk (mk_chunk patch 0) d) with
  | inl _ => None
  | inr (res, d) => Some (if (res =? 1) || (res =? - DETOOLS_ALREADY_DONE) then 0 else res, d)
  end.

Definition apply_patch_common_finalize (res : Z) (r : reader) (to_size : Z) : Z :=
  let res := if res =? 1 then - DETOOLS_NOT_ENOUGH_PATCH_DATA else res in
  let res := if res =? - DETOOLS_ALREADY_DONE then 0 else res in
  let res := if res =? 0 then patch_reader_destroy r else res in
  if res =? 0 then s32 to_size else res.

(** [do .. while (res == 0)] *)
Definition finalize_round d : in_place M + (Z * in_place M) :=
  let '(res, d) := apply_patch_in_place_process_once d in
  if res =? 0 then inl d else inr (res, d).

Definition detools_apply_patch_in_place_finalize d : option (Z * in_place M) :=
  match iterate PROCESS_FUEL finalize_round (set_chunk (mk_chunk [] 0) d) with
  | inl _ => None
  | inr (res, d) => Some (apply_patch_common_finalize res (st_reader d) (st_to_size d), d)
  end.

(** [patch_read] changes the callbacks' state too. *)
Context (patch_read : M -> Z -> Z * (list Z * M)).

(** The rounds of [in_place_callbacks_process] from [patch_offset]; every
    round takes up to 512 bytes of the patch. *)
Fixpoint callbacks_loop (fuel : nat) (patch_size patch_offset res : Z) d : option (Z * in_place M) :=
  match fuel with
  | O => Some (res, d)
  | S fuel =>
    if (patch_offset <? patch_size) && (res =? 0) then
      let chunk_size := Z.min (patch_size - patch_offset) 512 in
      let '(res, (buf, m)) := patch_read (mem_of d) chunk_size in
      let d := set_mem m d in
      if res =? 0 then
        '(res, d) ← detools_apply_patch_in_place_process buf d;
        callbacks_loop fuel patch_size (patch_offset + chunk_size) res d
      else callbacks_loop fuel patch_size patch_offset (- DETOOLS_IO_FAILED) d
    else Some (res, d)
  end.

Definition in_place_callbacks_process (patch_size : Z) d : option (Z * in_place M) :=
  '(res, d) ← callbacks_loop (S (Z.to_nat (patch_size / 512 + 1))) patch_size 0 0 d;
  '(res', d) ← detools_apply_patch_in_place_finalize d;
  Some (if res =? 0 then res' else res, d).

Definition detools_apply_patch_in_place_callbacks (patch_size : Z) (m : M) : option (Z * M) :=
  '(res, d) ← in_place_callbacks_process patch_size (detools_apply_patch_in_place_init patch_size m);
  Some (res, mem_of d).
End InPlace.
