(* ===== verification/DetoolsSpec.v ===== *)
(** What an in-place patch means: a one-pass reading of the whole patch, with no
    chunks, no partial states and no memory.  A patch is a header, then a
    run-length encoded stream; the stream describes the new image segment by
    segment, each as hunks of old bytes plus differences, new bytes, and a jump
    in the old image. *)
From S2P Require Import Prelude Nvm Detools.

(** * Sizes *)

(** Base-128 digits from bit [offset] on. *)
Fixpoint b128 (offset value : Z) (l : list Z) : option (Z * list Z) :=
  match l with
  | [] => None
  | b :: l =>
    if offset + 7 >? 32 then None
    else
      let value := value + b mod 128 * 2 ^ offset in
      if b <? 128 then Some (value, l) else b128 (offset + 7) value l
  end.

(** A header size: six bits, then base-128 digits. *)
Definition header_size (l : list Z) : option (Z * list Z) :=
  match l with
  | [] => None
  | b :: l => if b <? 128 then Some (b mod 64, l) else b128 6 (b mod 64) l
  end.

(** A size in the stream: bit 6 of the first byte is the sign. *)
Definition stream_size (l : list Z) : option (Z * list Z) :=
  '(v, k) ← header_size l;
  Some (match l with b :: _ => if Z.testbit b 6 then - v else v | [] => v end, k).

(** * The run-length encoding *)

Fixpoint runs (fuel : nat) (l : list Z) : option (list Z) :=
  match fuel, l with
  | _, [] => Some []
  | O, _ => None
  | S fuel, kind :: l =>
    '(n, l) ← b128 0 0 l;
    if (kind =? 0) && (0 <? n) && (n <=? lenZ l)
    then k ← runs fuel (drop (Z.to_nat n) l); Some (take (Z.to_nat n) l ++ k)
    else if (kind =? 1) && (0 <? n) then
      match l with
      | v :: l => k ← runs fuel l; Some (replicate (Z.to_nat n) v ++ k)
      | [] => None
      end
    else None
  end.
Definition crle_decode (l : list Z) : option (list Z) := runs (length l) l.

(** * The image a stream describes *)

Section Image.
Context (g : geometry) (to_size : Z) (old : list Z).

(** Old bytes a segment can still use: the segments before its end have been
    overwritten. The old image starts at [shift_size g]. *)
Definition floor_of (index : Z) : Z := Z.max (segment_size g * (index + 1)) (shift_size g).
Definition segment_length (index : Z) : Z := Z.min (segment_size g) (to_size - index * segment_size g).

(** Where a segment stands: its index, the position in the old image, and how
    much of it is left to write. *)
Record place := mk_place { pl_index : Z; pl_from : Z; pl_left : Z }.

Definition start_of (index : Z) : place := mk_place index (floor_of index) (segment_length index).

(** [n] bytes differing from the old ones. *)
Definition diff_of (p : place) (n : Z) (d : list Z) : list Z :=
  zip_with (fun a b => u8 (a + b)) d (sliceZ old (pl_from p - shift_size g) n).
Definition old_holds (p : place) (n : Z) : bool :=
  (n =? 0) || ((floor_of (pl_index p) <=? pl_from p) && (pl_from p + n <=? shift_size g + lenZ old)).
Definition advance (p : place) (from n : Z) : place := mk_place (pl_index p) (pl_from p + from) (pl_left p - n).

(** The new image, from the bytes [out] it has so far; one unit of [fuel] per
    hunk.  The functions are the points between which a hunk is read. *)
Section Hunk.
Context (next_segment : Z -> list Z -> list Z -> option (list Z)) (hunk : place -> list Z -> list Z -> option (list Z)).

Definition end_of_hunk (p : place) (adjustment : Z) (out l : list Z) : option (list Z) :=
  if lenZ out =? to_size then (if bool_decide (l = []) then Some out else None)
  else if pl_left p =? 0 then next_segment (pl_index p + 1) out l
  else hunk (mk_place (pl_index p) (pl_from p + adjustment) (pl_left p)) out l.
Definition after_extra (p : place) (out l : list Z) : option (list Z) :=
  '(adjustment, l) ← stream_size l; end_of_hunk p adjustment out l.
Definition extra_data (p : place) (n : Z) (out l : list Z) : option (list Z) :=
  if (0 <=? n) && (n <=? pl_left p) && (n <=? lenZ l)
  then after_extra (advance p 0 n) (out ++ take (Z.to_nat n) l) (drop (Z.to_nat n) l) else None.
Definition after_diff (p : place) (out l : list Z) : option (list Z) :=
  '(n, l) ← stream_size l; extra_data p n out l.
Definition diff_data (p : place) (n : Z) (out l : list Z) : option (list Z) :=
  if (0 <=? n) && (n <=? pl_left p) && (n <=? lenZ l) && old_holds p n
  then after_diff (advance p n n) (out ++ diff_of p n (take (Z.to_nat n) l)) (drop (Z.to_nat n) l) else None.
Definition hunk_body (p : place) (out l : list Z) : option (list Z) :=
  '(n, l) ← stream_size l; diff_data p n out l.
End Hunk.

Fixpoint hunk (fuel : nat) (p : place) (out l : list Z) : option (list Z) :=
  match fuel with
  | O => None
  | S fuel =>
    let next_segment index out l :=
      '(dfpatch_size, l) ← stream_size l;
      if dfpatch_size <=? 0 then hunk fuel (start_of index) out l else None in
    hunk_body next_segment (hunk fuel) p out l
  end.
Definition next_segment (fuel : nat) (index : Z) (out l : list Z) : option (list Z) :=
  '(dfpatch_size, l) ← stream_size l;
  if dfpatch_size <=? 0 then hunk fuel (start_of index) out l else None.

Definition image (l : list Z) : option (list Z) := next_segment (length l) 0 [] l.
End Image.

(** * Patches *)

(** The geometry the in-place method needs: whole pages, a real shift, and room
    for the shifted old image and for the new one. *)
Definition geometry_ok (g : geometry) (to_size old_size : Z) : bool :=
  (segment_size g =? PAGE) && (0 <? shift_size g) && (shift_size g mod PAGE =? 0) && (memory_size g mod PAGE =? 0) &&
  (from_size g =? old_size) && (0 <? old_size) && (shift_size g + old_size <=? memory_size g) &&
  (0 <? to_size) && (to_size <=? memory_size g).

Definition header (l : list Z) : option (geometry * Z * list Z) :=
  match l with
  | [] => None
  | fixed :: l =>
    if (Z.land (Z.shiftr fixed 4) 0x7 =? PATCH_TYPE_IN_PLACE) && (Z.land fixed 0xf =? COMPRESSION_CRLE) then
      '(memory, l) ← header_size l;
      '(segment, l) ← header_size l;
      '(shift, l) ← header_size l;
      '(from, l) ← header_size l;
      '(to_size, l) ← header_size l;
      Some (mk_geometry memory segment shift from, to_size, l)
    else None
  end.

(** The new image a patch makes of the old one. *)
Definition patched (old patch : list Z) : option (geometry * list Z) :=
  '(g, to_size, l) ← header patch;
  if geometry_ok g to_size (lenZ old) then
    l ← crle_decode l; new ← image g to_size old l; Some (g, new)
  else None.
