(* ===== verification/DetoolsStream.v ===== *)
(** Chunks do not matter: whatever way the patch is cut, each reader of the
    decoder consumes it as the one-pass reading of [DetoolsSpec] does.  A reader
    that runs out of input keeps in its state exactly what the rest of the
    patch has to be read with. *)
From S2P Require Import Prelude Nvm Detools DetoolsSpec.

(** * Chunks as what is left of them *)

Definition chunk_at (c : chunk) (l : list Z) : Prop :=
  0 <= c_offset c <= lenZ (c_buf c) /\ l = drop (Z.to_nat (c_offset c)) (c_buf c).

Lemma chunk_at_start l : chunk_at (mk_chunk l 0) l.
Proof. split; [cbn; pose proof (lenZ_nonneg l); lia|done]. Qed.

Lemma chunk_at_left c l : chunk_at c l -> chunk_left c = lenZ l.
Proof. intros [H ->]. unfold chunk_left, lenZ in *. rewrite length_drop. lia. Qed.

Lemma chunk_at_drop c l n : chunk_at c l -> 0 <= n <= lenZ l ->
  chunk_at (mk_chunk (c_buf c) (c_offset c + n)) (drop (Z.to_nat n) l).
Proof.
  intros [H ->] Hn. split; cbn.
  - unfold lenZ in *. rewrite length_drop in Hn. lia.
  - rewrite drop_drop. f_equal. lia.
Qed.

Lemma chunk_available_at c l : chunk_at c l -> chunk_available c = match l with [] => false | _ => true end.
Proof.
  intros H. unfold chunk_available. rewrite (chunk_at_left c l) by done.
  destruct l; [done|]. rewrite lenZ_cons. pose proof (lenZ_nonneg l). lia.
Qed.

Lemma chunk_get_at c l : chunk_at c l ->
  match l with
  | [] => chunk_get c = None
  | b :: l => exists c', chunk_get c = Some (b, c') /\ chunk_at c' l
  end.
Proof.
  intros H. unfold chunk_get. rewrite (chunk_available_at c l) by done. destruct l as [|b l]; cbn [negb]; [done|].
  exists (mk_chunk (c_buf c) (c_offset c + 1)). split.
  - do 2 f_equal. destruct H as [H Hl]. unfold nthZ.
    rewrite nth_lookup. rewrite <- (Nat.add_0_r (Z.to_nat (c_offset c))), <- lookup_drop, <- Hl. done.
  - apply (chunk_at_drop c (b :: l) 1 H). rewrite lenZ_cons. pose proof (lenZ_nonneg l). lia.
Qed.

Lemma chunk_read_at c l n : chunk_at c l -> 0 <= n ->
  match l with
  | [] => chunk_read c n = None
  | _ => exists c', chunk_read c n = Some (take (Z.to_nat n) l, c') /\ chunk_at c' (drop (Z.to_nat n) l)
  end.
Proof.
  intros H Hn. unfold chunk_read. rewrite (chunk_available_at c l), (chunk_at_left c l) by done.
  destruct l as [|b l]; cbn [negb]; [done|]. set (k := b :: l) in *. pose proof (lenZ_nonneg k).
  eexists. split; [f_equal; f_equal|].
  - unfold sliceZ. destruct H as [_ <-]. destruct (Z.le_ge_cases n (lenZ k)).
    + by rewrite Z.min_l by lia.
    + rewrite Z.min_r by lia. unfold lenZ in *. rewrite !take_ge by lia. done.
  - destruct (Z.le_ge_cases n (lenZ k)).
    + rewrite Z.min_l by lia. apply (chunk_at_drop c k n H). lia.
    + rewrite Z.min_r by lia. replace (drop (Z.to_nat n) k) with (drop (Z.to_nat (lenZ k)) k)
        by (unfold lenZ in *; rewrite !drop_ge by lia; done).
      apply (chunk_at_drop c k _ H). lia.
Qed.

(** * Bits of a byte *)

Lemma land_127 x : Z.land x 127 = x mod 128. Proof. apply (land_ones_mod x 7). lia. Qed.
Lemma land_63 x : Z.land x 63 = x mod 64. Proof. apply (land_ones_mod x 6). lia. Qed.

Lemma land_128 b : is_byte b -> negb (Z.land b 0x80 =? 0) = negb (b <? 128).
Proof.
  intros Hb. f_equal. change 0x80 with (2 ^ 7). 
  assert (Z.land b (2 ^ 7) = if Z.testbit b 7 then 2 ^ 7 else 0) as ->.
  { apply Z.bits_inj'. intros i Hi. rewrite Z.land_spec, Z.pow2_bits_eqb by lia.
    destruct (Z.eqb_spec 7 i) as [<-|]; [destruct (Z.testbit b 7) eqn:E; [by rewrite Z.pow2_bits_true by lia|by rewrite Z.bits_0]|].
    rewrite andb_false_r. destruct (Z.testbit b 7); [by rewrite Z.pow2_bits_false by lia|by rewrite Z.bits_0]. }
  assert (Z.testbit b 7 = (128 <=? b)) as ->.
  { rewrite Z.testbit_eqb by lia. change (2 ^ 7) with 128. unfold is_byte in Hb.
    destruct (Z.leb_spec 128 b); apply Z.eqb_eq || apply Z.eqb_neq; zlia. }
  unfold is_byte in Hb. destruct (Z.leb_spec 128 b), (Z.ltb_spec b 128); (done || lia).
Qed.

Lemma land_64 b : (Z.land b 0x40 =? 0x40) = Z.testbit b 6.
Proof.
  change 0x40 with (2 ^ 6).
  assert (Z.land b (2 ^ 6) = if Z.testbit b 6 then 2 ^ 6 else 0) as ->.
  { apply Z.bits_inj'. intros i Hi. rewrite Z.land_spec, Z.pow2_bits_eqb by lia.
    destruct (Z.eqb_spec 6 i) as [<-|]; [destruct (Z.testbit b 6) eqn:E; [by rewrite Z.pow2_bits_true by lia|by rewrite Z.bits_0]|].
    rewrite andb_false_r. destruct (Z.testbit b 6); [by rewrite Z.pow2_bits_false by lia|by rewrite Z.bits_0]. }
  by destruct (Z.testbit b 6).
Qed.

(** The next digit does not touch the bits below it. *)
Lemma digit_add v o b : 0 <= o -> 0 <= v < 2 ^ o ->
  Z.lor v (Z.shiftl (Z.land b 0x7f) o) = v + b mod 128 * 2 ^ o.
Proof. intros. rewrite land_127. by apply lor_disjoint_add. Qed.

Lemma digit_range v o b : 0 <= o -> 0 <= v < 2 ^ o -> 0 <= v + b mod 128 * 2 ^ o < 2 ^ (o + 7).
Proof.
  intros Ho Hv. rewrite Z.pow_add_r by lia. change (2 ^ 7) with 128.
  pose proof (Z.mod_pos_bound b 128). nia.
Qed.

(** * Resumable readers *)

(** A reader in state [s] given [l] of its input: it succeeds with a value, uses
    up [l] and goes on in state [s'], or fails; in each case it agrees with
    [sem] whatever input follows. *)
Definition resumed {S A} (sem : S -> list Z -> option (A * list Z)) (inv : S -> Prop) (s : S) (l : list Z)
    (res : Z) (v : A) (s' : S) (l' : list Z) : Prop :=
  (res = 0 /\ lenZ l' < lenZ l /\ bytes l' /\ forall k, sem s (l ++ k) = Some (v, l' ++ k)) \/
  (res = 1 /\ l' = [] /\ inv s' /\ forall k, sem s (l ++ k) = sem s' k) \/
  (res = - DETOOLS_CORRUPT_PATCH_OVERFLOW /\ lenZ l' < lenZ l /\ bytes l' /\ inv s' /\ forall k, sem s (l ++ k) = None).

Lemma resumed_after {S A} (sem : S -> list Z -> option (A * list Z)) inv s s1 b l res v s' l' :
  (forall k, sem s (b :: l ++ k) = sem s1 (l ++ k)) ->
  resumed sem inv s1 l res v s' l' -> resumed sem inv s (b :: l) res v s' l'.
Proof.
  intros E [(-> & Hl & Hb & H)|[(-> & -> & Hi & H)|(-> & Hl & Hb & Hi & H)]]; [left|right; left|right; right]; rewrite ?lenZ_cons.
  - split_and!; [done|lia|done|]. intros k. cbn [app]. by rewrite E.
  - split_and!; [done..|]. intros k. cbn [app]. by rewrite E.
  - split_and!; [done|lia|done|done|]. intros k. cbn [app]. by rewrite E.
Qed.

(** ** Header sizes *)

Definition header_sem (s : size_state) (l : list Z) : option (Z * list Z) :=
  match z_state s with Usize_first => header_size l | Usize_consecutive => b128 (z_offset s) (z_value s) l end.

Definition digits_inv (o v : Z) : Prop := 0 <= o <= 28 /\ (o mod 7 = 0 \/ o mod 7 = 6) /\ 0 <= v < 2 ^ o.
Definition size_inv (s : size_state) : Prop := z_state s = Usize_consecutive -> digits_inv (z_offset s) (z_value s).

(** Rounds a partial size can still take. *)
Definition rounds_left (o : Z) : Z := (41 - o) / 7.

Lemma b128_step o v b l k : is_byte b -> b128 o v ((b :: l) ++ k) =
  if is_overflow o then None
  else if negb (Z.land b 0x80 =? 0) then b128 (o + 7) (v + b mod 128 * 2 ^ o) (l ++ k)
  else Some (v + b mod 128 * 2 ^ o, l ++ k).
Proof.
  intros Hb. cbn [app b128]. unfold is_overflow. destruct (_ >? _); [done|]. rewrite land_128 by done.
  by destruct (b <? 128).
Qed.

Lemma next_digits o v b : digits_inv o v -> is_overflow o = false -> digits_inv (o + 7) (v + b mod 128 * 2 ^ o).
Proof.
  unfold is_overflow. intros (Ho & Hm & Hv) Hf. split; [|split; [|apply digit_range; [lia|done]]]; Z.div_mod_to_equations; lia.
Qed.

Lemma rounds_next o : rounds_left (o + 7) = rounds_left o - 1.
Proof. unfold rounds_left. Z.div_mod_to_equations. lia. Qed.

Lemma header_size_loop_spec fuel : forall s c l, size_inv s -> bytes l -> chunk_at c l ->
  (match z_state s with Usize_first => 6 | Usize_consecutive => rounds_left (z_offset s) end <= Z.of_nat fuel) ->
  exists res v s' c' l', header_size_loop fuel s c = (res, (v, (s', c'))) /\ chunk_at c' l' /\
    resumed header_sem size_inv s l res v s' l' /\ (res = 0 -> 0 <= v < 2 ^ 28 /\ z_state s' = Usize_first).
Proof.
  induction fuel as [|fuel IH]; intros s c l Hi Hb Hc Hf.
  { destruct s as [[|] v o sg]; cbn [z_state z_offset] in *; [lia|]. assert (digits_inv o v) as (Ho & _) by (by apply Hi).
    cbn [z_offset] in Ho. unfold rounds_left in Hf. Z.div_mod_to_equations. lia. }
  cbn [header_size_loop]. pose proof (chunk_get_at c l Hc) as Hg. destruct l as [|b l].
  { rewrite Hg. exists 1, 0, s, c, []. split_and!; try done. right; left. by split_and!. }
  destruct Hg as (c1 & -> & Hc1). apply Forall_cons_1 in Hb as [Hb Hbl].
  (* one digit read, giving [s1] *)
  assert (forall s1, z_state s1 = Usize_consecutive -> size_inv s1 ->
    rounds_left (z_offset s1) <= Z.of_nat fuel ->
    (forall k, header_sem s (b :: l ++ k) =
       if negb (Z.land b 0x80 =? 0) then b128 (z_offset s1) (z_value s1) (l ++ k) else Some (z_value s1, l ++ k)) ->
    exists res v s' c' l',
      (if negb (Z.land b 0x80 =? 0) then header_size_loop fuel s1 c1
       else (0, (z_value s1, (mk_size Usize_first (z_value s1) (z_offset s1) (z_signed s1), c1)))) = (res, (v, (s', c'))) /\
      chunk_at c' l' /\ resumed header_sem size_inv s (b :: l) res v s' l' /\
      (res = 0 -> 0 <= v < 2 ^ 28 /\ z_state s' = Usize_first)) as Hstep.
  { intros s1 Hs1 Hi1 Hr1 Hsem. destruct (negb _) eqn:E.
    - destruct (IH s1 c1 l Hi1 Hbl Hc1) as (res & v & s' & c' & l' & -> & Hc' & Hr & Hv); [by rewrite Hs1|].
      exists res, v, s', c', l'. split_and!; try done. apply (resumed_after _ _ _ s1); [|done].
      intros k. rewrite Hsem. unfold header_sem. by rewrite Hs1.
    - eexists _, _, _, c1, l. split_and!; try done.
      + left. rewrite lenZ_cons. split_and!; [done|lia|done|]. intros k. cbn [app]. by rewrite Hsem.
      + intros _. destruct (Hi1 Hs1) as (Ho & _ & Hv). split; [|done].
        assert (2 ^ z_offset s1 <= 2 ^ 28) by (apply Z.pow_le_mono_r; lia). lia. }
  destruct (z_state s) eqn:Es.
  - apply Hstep; cbn [z_state z_offset z_value]; [done| | |].
    + intros _. rewrite land_63. cbn [z_offset z_value]. unfold digits_inv. split; [lia|]. split; [by right|].
      pose proof (Z.mod_pos_bound b 64). lia.
    + unfold rounds_left. change ((41 - 6) / 7) with 5. lia.
    + intros k. unfold header_sem. rewrite Es. cbn [header_size]. rewrite land_63, land_128 by done.
      by destruct (b <? 128).
  - apply Hi in Es as Hd. destruct (is_overflow (z_offset s)) eqn:Eo.
    + eexists _, _, _, c1, l. split_and!; try done. right; right. rewrite lenZ_cons. split_and!; [done|lia|done|done|].
      intros k. unfold header_sem. rewrite Es, b128_step, Eo; done.
    + apply Hstep; cbn [z_state z_offset z_value]; [done| | |].
      * intros _. cbn [z_offset z_value]. destruct Hd as (? & ? & ?). rewrite digit_add by lia. by apply next_digits.
      * rewrite rounds_next. lia.
      * intros k. unfold header_sem. rewrite Es. destruct Hd as (? & ? & ?). rewrite digit_add by lia.
        change (b :: l ++ k) with ((b :: l) ++ k). rewrite b128_step, Eo by done. by destruct (negb _).
Qed.

Lemma header_unpack_spec s c l : size_inv s -> bytes l -> chunk_at c l ->
  exists res v s' c' l', chunk_unpack_header_size c s = (res, (v, (s', c'))) /\ chunk_at c' l' /\
    resumed header_sem size_inv s l res v s' l' /\ (res = 0 -> 0 <= v < 2 ^ 28 /\ z_state s' = Usize_first).
Proof.
  intros Hi Hb Hc. apply header_size_loop_spec; [done..|]. destruct (z_state s) eqn:E; [done|].
  destruct (Hi E) as (Ho & _). unfold rounds_left. Z.div_mod_to_equations. lia.
Qed.

(** ** Run lengths *)

Definition usize_sem (u : usize) (l : list Z) : option (Z * list Z) :=
  match u_state u with Usize_first => b128 0 0 l | Usize_consecutive => b128 (u_offset u) (u_value u) l end.
Definition usize_inv (u : usize) : Prop := u_state u = Usize_consecutive -> digits_inv (u_offset u) (u_value u).

Lemma usize_loop_spec fuel : forall u c l, u_state u = Usize_consecutive -> usize_inv u -> bytes l -> chunk_at c l ->
  rounds_left (u_offset u) <= Z.of_nat fuel ->
  exists res v u' c' l', usize_loop fuel u c = (res, (v, (u', c'))) /\ chunk_at c' l' /\
    resumed usize_sem usize_inv u l res v u' l' /\ (res = 0 -> 0 <= v < 2 ^ 28).
Proof.
  induction fuel as [|fuel IH]; intros u c l Hu Hi Hb Hc Hf; pose proof (Hi Hu) as (Ho & Hm & Hv).
  { unfold rounds_left in Hf. Z.div_mod_to_equations. lia. }
  cbn [usize_loop]. pose proof (chunk_get_at c l Hc) as Hg. destruct l as [|b l].
  { rewrite Hg. exists 1, 0, u, c, []. split_and!; try done. right; left. by split_and!. }
  destruct Hg as (c1 & -> & Hc1). apply Forall_cons_1 in Hb as [Hb Hbl].
  destruct (is_overflow (u_offset u)) eqn:Eo.
  { eexists _, _, _, c1, l. split_and!; try done. right; right. rewrite lenZ_cons. split_and!; [done|lia|done|done|].
    intros k. unfold usize_sem. rewrite Hu, b128_step, Eo; done. }
  rewrite digit_add by lia. set (u1 := mk_usize _ _ _).
  assert (u_state u1 = Usize_consecutive) as Hu1 by done.
  assert (usize_inv u1) as Hi1 by (intros _; by apply next_digits).
  assert (forall k, usize_sem u (b :: l ++ k) =
    if negb (Z.land b 0x80 =? 0) then usize_sem u1 (l ++ k) else Some (u_value u1, l ++ k)) as Hsem.
  { intros k. unfold usize_sem at 1. rewrite Hu. change (b :: l ++ k) with ((b :: l) ++ k).
    rewrite b128_step, Eo by done. unfold usize_sem. by rewrite Hu1. }
  destruct (negb _) eqn:E.
  - destruct (IH u1 c1 l Hu1 Hi1 Hbl Hc1) as (res & v & s' & c' & l' & -> & Hc' & Hr & Hv').
    { subst u1. cbn [u_offset]. rewrite rounds_next. lia. }
    exists res, v, s', c', l'. split_and!; try done. by apply (resumed_after _ _ _ u1).
  - eexists _, _, _, c1, l. split_and!; try done.
    + left. rewrite lenZ_cons. split_and!; [done|lia|done|]. intros k. cbn [app]. by rewrite Hsem.
    + intros _. destruct (Hi1 Hu1) as (Ho1 & _ & Hv1).
      assert (2 ^ u_offset u1 <= 2 ^ 28) by (apply Z.pow_le_mono_r; lia). lia.
Qed.

Lemma unpack_usize_spec u c l : usize_inv u -> bytes l -> chunk_at c l ->
  exists res v u' c' l', unpack_usize u c = (res, (v, (u', c'))) /\ chunk_at c' l' /\
    resumed usize_sem usize_inv u l res v u' l' /\ (res = 0 -> 0 <= v < 2 ^ 28).
Proof.
  intros Hi Hb Hc. unfold unpack_usize. set (u1 := match u_state u with Usize_first => _ | _ => _ end).
  assert (u_state u1 = Usize_consecutive /\ usize_inv u1 /\ forall k, usize_sem u k = usize_sem u1 k) as (Hu1 & Hi1 & Hs).
  { subst u1. destruct u as [[|] v o]; cbn; [|done]. split; [done|]. split; [|done]. intros _. cbn [u_offset u_value].
    split; [lia|]. split; [by left|]. change (2 ^ 0) with 1. lia. }
  destruct (usize_loop_spec 6 u1 c l Hu1 Hi1 Hb Hc) as (res & v & u' & c' & l' & E & Hc' & Hr & Hv).
  { destruct (Hi1 Hu1) as (Ho & _). unfold rounds_left. Z.div_mod_to_equations. lia. }
  exists res, v, u', c', l'. split_and!; try done.
  destruct Hr as [(-> & Hl & Hb' & H)|[(-> & -> & Hi' & H)|(-> & Hl & Hb' & Hi' & H)]]; [left|right; left|right; right];
    split_and!; try done; intros k; by rewrite Hs.
Qed.

(** ** Run-length decoding *)

Definition scattered (n : Z) (l : list Z) : option (list Z) :=
  if (0 <? n) && (n <=? lenZ l)
  then k ← crle_decode (drop (Z.to_nat n) l); Some (take (Z.to_nat n) l ++ k) else None.
Definition repeated (n : Z) (l : list Z) : option (list Z) :=
  if 0 <? n then
    match l with
    | v :: l => k ← crle_decode l; Some (replicate (Z.to_nat n) v ++ k)
    | [] => None
    end
  else None.

Definition crle_sem (r : crle) (l : list Z) : option (list Z) :=
  match r with
  | Crle_idle => crle_decode l
  | Scattered_size u => '(n, l) ← usize_sem u l; scattered n l
  | Scattered_data n => scattered n l
  | Repeated_repetitions u => '(n, l) ← usize_sem u l; repeated n l
  | Repeated_data n => repeated n l
  | Repeated_data_read v n => if 0 <? n then k ← crle_decode l; Some (replicate (Z.to_nat n) v ++ k) else None
  end.

Definition run_inv (n : Z) : Prop := 0 <= n < 2 ^ 28.
Definition crle_inv (r : crle) : Prop :=
  match r with
  | Crle_idle => True
  | Scattered_size u | Repeated_repetitions u => usize_inv u
  | Scattered_data n | Repeated_data n => run_inv n
  | Repeated_data_read v n => run_inv n /\ is_byte v
  end.

(** Bytes the reader can still deliver, weighed against the input that can
    announce more of them. *)
Definition pending (r : crle) : Z :=
  match r with
  | Scattered_data n | Repeated_data n | Repeated_data_read _ n => n + 1
  | _ => 0
  end.
Definition potential (r : crle) (l : list Z) : Z := 2 ^ 29 * lenZ l + pending r.

Lemma b128_shorter l : forall o v w k, b128 o v l = Some (w, k) -> (length k < length l)%nat.
Proof.
  induction l as [|b l IH]; intros o v w k; cbn [b128]; [done|]. destruct (_ >? _); [done|].
  destruct (b <? 128); [intros [= <- <-]; cbn; lia|]. intros E%IH. cbn. lia.
Qed.

Lemma runs_enough f1 : forall f2 l, (length l <= f1)%nat -> (length l <= f2)%nat -> runs f1 l = runs f2 l.
Proof.
  induction f1 as [|f1 IH]; intros f2 l H1 H2.
  { destruct l; [by destruct f2|cbn in H1; lia]. }
  destruct l as [|kind l]; [by destruct f2|]. destruct f2 as [|f2]; [cbn in H2; lia|]. cbn [length] in *. cbn [runs].
  destruct (b128 0 0 l) as [[n k]|] eqn:E; [|done]. apply b128_shorter in E. cbn [mbind option_bind].
  rewrite (IH f2 (drop (Z.to_nat n) k)) by (rewrite length_drop; lia).
  destruct k as [|v k]; [done|]. cbn [length] in E. by rewrite (IH f2 k) by lia.
Qed.

Lemma crle_decode_cons kind l : crle_decode (kind :: l) =
  '(n, l) ← b128 0 0 l; if kind =? 0 then scattered n l else if kind =? 1 then repeated n l else None.
Proof.
  unfold crle_decode at 1. cbn [length runs]. destruct (b128 0 0 l) as [[n k]|] eqn:E; [|done].
  apply b128_shorter in E. cbn [mbind option_bind].
  unfold scattered, repeated, crle_decode.
  rewrite (runs_enough (length l) (length (drop (Z.to_nat n) k))) by (rewrite ?length_drop; lia).
  destruct (Z.eqb_spec kind 0) as [->|]; cbn [andb].
  - by destruct ((0 <? n) && (n <=? lenZ k)).
  - destruct (kind =? 1); cbn [andb]; [|done]. destruct (0 <? n); [|done]. destruct k as [|v k]; [done|].
    cbn [length] in E. by rewrite (runs_enough (length l) (length k) k) by lia.
Qed.

(** [m] of the [n] bytes of a run. *)
Lemma scattered_part n m l : 0 < m <= n -> m <= lenZ l -> n < 2 ^ 28 ->
  scattered n l = (fun k => take (Z.to_nat m) l ++ k) <$>
    crle_sem (if n - m =? 0 then Crle_idle else Scattered_data (n - m)) (drop (Z.to_nat m) l).
Proof.
  intros Hm Hl _. unfold scattered. replace (0 <? n) with true by lia. cbn [andb].
  assert (lenZ (drop (Z.to_nat m) l) = lenZ l - m) as Hd by (unfold lenZ in *; rewrite length_drop; lia).
  destruct (Z.eqb_spec (n - m) 0) as [E|E].
  - replace n with m by lia. replace (m <=? lenZ l) with true by lia. cbn [crle_sem]. by destruct (crle_decode _).
  - cbn [crle_sem]. unfold scattered. rewrite Hd. replace (0 <? n - m) with true by lia. cbn [andb].
    replace (n - m <=? lenZ l - m) with (n <=? lenZ l) by lia. destruct (n <=? lenZ l) eqn:En; [|done].
    rewrite drop_drop. replace (Z.to_nat m + Z.to_nat (n - m))%nat with (Z.to_nat n) by lia.
    destruct (crle_decode _); [|done]. cbn. f_equal. rewrite app_assoc. f_equal.
    replace (Z.to_nat n) with (Z.to_nat m + Z.to_nat (n - m))%nat by lia. by rewrite take_take_drop.
Qed.

Lemma repeated_read_part v n m l : 0 < m <= n ->
  crle_sem (Repeated_data_read v n) l = (fun k => replicate (Z.to_nat m) v ++ k) <$>
    crle_sem (if n - m =? 0 then Crle_idle else Repeated_data_read v (n - m)) l.
Proof.
  intros Hm. cbn [crle_sem]. replace (0 <? n) with true by lia. destruct (Z.eqb_spec (n - m) 0) as [E|E].
  - replace n with m by lia. cbn [crle_sem]. by destruct (crle_decode _).
  - cbn [crle_sem]. replace (0 <? n - m) with true by lia. destruct (crle_decode _); [|done]. cbn. f_equal.
    rewrite app_assoc. f_equal. rewrite <- replicate_add. f_equal. lia.
Qed.

(** What reading at most [n] bytes through the decoder does. *)
Definition delivered (n : Z) (r : crle) (l : list Z) (res : Z) (bs : list Z) (r' : crle) (l' : list Z) : Prop :=
  bytes l' /\ bytes bs /\ lenZ bs <= n /\ crle_inv r' /\ potential r' l' <= potential r l /\
  ((res = 0 /\ (1 <= n -> potential r' l' < potential r l) /\
      ((forall k, crle_sem r (l ++ k) = None) \/
       ((1 <= n -> bs <> []) /\ forall k, crle_sem r (l ++ k) = (fun d => bs ++ d) <$> crle_sem r' (l' ++ k)))) \/
   (res = 1 /\ l' = [] /\ bs = [] /\ (forall d, crle_sem r' [] = Some d -> d = []) /\
      forall k, crle_sem r (l ++ k) = crle_sem r' k) \/
   (res < 0 /\ bs = [] /\ forall k, crle_sem r (l ++ k) = None)).

(** Rounds of the decoder's loop before it delivers. *)
Definition rank (r : crle) : nat :=
  match r with Crle_idle => 3 | Scattered_size _ => 1 | Scattered_data _ => 0 | Repeated_repetitions _ => 2
             | Repeated_data _ => 1 | Repeated_data_read _ _ => 0 end.

Definition stepped (n : Z) (r : crle) (l : list Z) (res : Z) (bs : list Z) (r' : crle) (l' : list Z) : Prop :=
  delivered n r l res bs r' l' \/
  (res = 2 /\ bs = [] /\ bytes l' /\ crle_inv r' /\ (rank r' < rank r)%nat /\ potential r' l' < potential r l /\
   forall k, crle_sem r (l ++ k) = crle_sem r' (l' ++ k)).

Lemma bytes_drop n l : bytes l -> bytes (drop n l). Proof. apply Forall_drop. Qed.
Lemma bytes_take n l : bytes l -> bytes (take n l). Proof. apply Forall_take. Qed.
#[local] Hint Resolve bytes_drop bytes_take : core.

Lemma lenZ_drop {A} n (l : list A) : 0 <= n <= lenZ l -> lenZ (drop (Z.to_nat n) l) = lenZ l - n.
Proof. unfold lenZ. intros. rewrite length_drop. lia. Qed.
Lemma lenZ_take {A} n (l : list A) : 0 <= n <= lenZ l -> lenZ (take (Z.to_nat n) l) = n.
Proof. unfold lenZ. intros. rewrite length_take. lia. Qed.

(** The two states that read a run length, entering the state [mk n]. *)
Lemma size_stepped n (mk : Z -> crle) (st : usize -> crle) u c l res v u' l' :
  (forall u k, crle_sem (st u) k = '(n, k) ← usize_sem u k; crle_sem (mk n) k) ->
  (forall u, usize_inv u -> crle_inv (st u)) -> (forall v, run_inv v -> crle_inv (mk v)) ->
  (forall u v, rank (mk v) < rank (st u))%nat -> (forall u, pending (st u) = 0) -> (forall v, pending (mk v) = v + 1) ->
  0 <= n -> chunk_at c l -> bytes l -> resumed usize_sem usize_inv u l res v u' l' -> (res = 0 -> 0 <= v < 2 ^ 28) ->
  stepped n (st u) l (if negb (res =? 0) then res else 2) [] (if negb (res =? 0) then st u' else mk v) l'.
Proof.
  intros Hsem Hst Hmk Hrank Hp0 Hp1 Hn Hc Hb Hr Hv. unfold stepped, delivered, potential. rewrite Hp0.
  pose proof (lenZ_nonneg l) as Hn0. pose proof (lenZ_nonneg l') as Hn1.
  destruct Hr as [(-> & Hl & Hb' & H)|[(-> & -> & Hi & H)|(-> & Hl & Hb' & Hi & H)]]; cbn [Z.eqb negb Z.opp DETOOLS_CORRUPT_PATCH_OVERFLOW].
  - right. specialize (Hv eq_refl). rewrite Hp1. split_and!; [done|done|done|by apply Hmk|apply Hrank| |].
    + change (2 ^ 29) with (2 ^ 28 * 2). lia.
    + intros k. by rewrite Hsem, H.
  - left. rewrite Hp0. change (lenZ []) with 0 in *. split_and!; [done|done|done|by apply Hst|lia|].
    right; left. split_and!; [done..| |intros k; by rewrite !Hsem, H].
    intros d. rewrite Hsem. unfold usize_sem. by destruct (u_state u').
  - left. change (negb (- DETOOLS_CORRUPT_PATCH_OVERFLOW =? 0)) with true. cbn iota. rewrite Hp0.
    change (lenZ []) with 0. split_and!; [done|done|done|by apply Hst|lia|].
    right; right. split_and!; [done..|]. intros k. by rewrite Hsem, H.
Qed.

Lemma crle_step_spec r c l n : crle_inv r -> bytes l -> chunk_at c l -> 0 <= n ->
  exists res bs r' c' l', crle_step r c n = (res, (bs, (r', c'))) /\ chunk_at c' l' /\ stepped n r l res bs r' l'.
Proof.
  intros Hi Hb Hc Hn. pose proof (lenZ_nonneg l) as Hl0.
  destruct r as [|u|m|u|m|v m]; cbn [crle_step].
  - pose proof (chunk_get_at c l Hc) as Hg. destruct l as [|kind l].
    { rewrite Hg. exists 1, [], Crle_idle, c, []. split_and!; [done..|]. left. unfold delivered. split_and!; try done.
      right; left. split_and!; [done..| |done]. by intros d [= <-]. }
    destruct Hg as (c1 & -> & Hc1). apply Forall_cons_1 in Hb as [Hb Hbl]. rewrite lenZ_cons in *.
    pose proof (lenZ_nonneg l).
    destruct (Z.eqb_spec kind 0) as [->|K0]; [|destruct (Z.eqb_spec kind 1) as [->|K1]].
    + eexists _, _, _, c1, l. split_and!; [done..|]. right. unfold potential. rewrite lenZ_cons. cbn [pending].
      split_and!; [done|done|done|done|cbn; lia|lia|]. intros k. cbn [app crle_sem]. by rewrite crle_decode_cons.
    + eexists _, _, _, c1, l. split_and!; [done..|]. right. unfold potential. rewrite lenZ_cons. cbn [pending].
      split_and!; [done|done|done|done|cbn; lia|lia|]. intros k. cbn [app crle_sem]. by rewrite crle_decode_cons.
    + eexists _, _, _, c1, l. split_and!; [done..|]. left. unfold delivered, potential. rewrite lenZ_cons. cbn [pending].
      split_and!; [done|done|done|done|lia|]. right; right. split_and!; [done..|]. intros k. cbn [app crle_sem].
      rewrite crle_decode_cons. destruct (b128 _ _ _) as [[? ?]|]; [|done]. cbn [mbind option_bind].
      by rewrite (proj2 (Z.eqb_neq _ _) K0), (proj2 (Z.eqb_neq _ _) K1).
  - destruct (unpack_usize_spec u c l Hi Hb Hc) as (res & v & u' & c' & l' & -> & Hc' & Hr & Hv).
    destruct (negb (res =? 0)) eqn:E; eexists _, _, _, c', l'; (split; [done|]; split; [done|]);
    pose proof (size_stepped n Scattered_data Scattered_size u c l res v u' l') as Hs; rewrite E in Hs; apply Hs; try done; cbn; lia.
  - change (0 <= m < 2 ^ 28) in Hi. pose proof (chunk_read_at c l (Z.min n m) Hc ltac:(lia)) as Hg. destruct l as [|b l].
    { rewrite Hg. exists 1, [], (Scattered_data m), c, []. split_and!; [done..|]. left. unfold delivered. split_and!; try done.
      right; left. split_and!; [done..| |done]. intros d. cbn [crle_sem]. unfold scattered. change (lenZ []) with 0.
      destruct (Z.ltb_spec 0 m), (Z.leb_spec m 0); cbn [andb]; (done || lia). }
    destruct Hg as (c1 & -> & Hc1). set (k := b :: l) in *.
    assert (1 <= lenZ k) as Hk by (subst k; rewrite lenZ_cons; pose proof (lenZ_nonneg l); lia).
    set (i := Z.min (Z.min n m) (lenZ k)).
    assert (take (Z.to_nat (Z.min n m)) k = take (Z.to_nat i) k /\ drop (Z.to_nat (Z.min n m)) k = drop (Z.to_nat i) k) as [Ht Hd].
    { subst i. destruct (Z.le_ge_cases (Z.min n m) (lenZ k)); [by rewrite (Z.min_l _ (lenZ k)) by lia|].
      rewrite (Z.min_r _ (lenZ k)) by lia. unfold lenZ in *. by rewrite !take_ge, !drop_ge by lia. }
    rewrite Ht, Hd in *. rewrite lenZ_take by lia.
    eexists _, _, _, c1, _. split_and!; [done..|]. left. unfold delivered, potential. rewrite lenZ_drop, lenZ_take by lia.
    assert (pending (if m - i =? 0 then Crle_idle else Scattered_data (m - i)) <= m - i + 1 /\
      (m = i -> pending (if m - i =? 0 then Crle_idle else Scattered_data (m - i)) = 0)) as [Hp Hp0].
    { destruct (Z.eqb_spec (m - i) 0); cbn [pending]; lia. }
    cbn [pending] in *. split_and!; [auto|auto|lia|destruct (Z.eqb_spec (m - i) 0); [done|cbn; unfold run_inv; lia]|lia|].
    left. split_and!; [done|destruct (decide (m = i)); lia|].
    destruct (decide (m = 0)) as [->|Hm0]; [by left|right]. split.
    { intros Hn1 E%(f_equal lenZ). rewrite lenZ_take in E by lia. change (lenZ []) with 0 in E. lia. }
    intros fut. destruct (decide (i = 0)) as [Hi0|Hi0].
    { rewrite Hi0. cbn [Z.to_nat take drop app]. rewrite Z.sub_0_r, (proj2 (Z.eqb_neq m 0)) by lia.
      by destruct (crle_sem _ _). }
    cbn [crle_sem]. rewrite (scattered_part m i (k ++ fut)) by (rewrite ?lenZ_app; pose proof (lenZ_nonneg fut); lia).
    rewrite take_app_le, drop_app_le by (unfold lenZ in *; lia). done.
  - destruct (unpack_usize_spec u c l Hi Hb Hc) as (res & v & u' & c' & l' & -> & Hc' & Hr & Hv).
    destruct (negb (res =? 0)) eqn:E; eexists _, _, _, c', l'; (split; [done|]; split; [done|]);
    pose proof (size_stepped n Repeated_data Repeated_repetitions u c l res v u' l') as Hs; rewrite E in Hs; apply Hs; try done; cbn; lia.
  - change (0 <= m < 2 ^ 28) in Hi. pose proof (chunk_get_at c l Hc) as Hg. destruct l as [|v l].
    { rewrite Hg. exists 1, [], (Repeated_data m), c, []. split_and!; [done..|]. left. unfold delivered. split_and!; try done.
      right; left. split_and!; [done..| |done]. intros d. cbn [crle_sem]. unfold repeated. by destruct (0 <? m). }
    destruct Hg as (c1 & -> & Hc1). apply Forall_cons_1 in Hb as [Hb Hbl].
    eexists _, _, _, c1, l. split_and!; [done..|]. right. unfold potential. rewrite lenZ_cons. cbn [pending].
    split_and!; [done|done|done|done|cbn; lia|lia|done].
  - destruct Hi as [Hi Hv]. unfold run_inv in Hi. eexists _, _, _, c, l. split_and!; [done..|]. set (i := Z.min n m).
    left. unfold delivered, potential.
    assert (lenZ (replicate (Z.to_nat i) v) = i) as Hl by (unfold lenZ; rewrite length_replicate; lia). rewrite Hl.
    assert (pending (if m - i =? 0 then Crle_idle else Repeated_data_read v (m - i)) <= m - i + 1 /\
      (m = i -> pending (if m - i =? 0 then Crle_idle else Repeated_data_read v (m - i)) = 0)) as [Hp Hp0].
    { destruct (Z.eqb_spec (m - i) 0); cbn [pending]; lia. }
    cbn [pending] in *. split_and!; [done|by apply Forall_replicate|lia| |lia|].
    { destruct (Z.eqb_spec (m - i) 0); [done|]. split; [unfold run_inv; lia|done]. }
    left. split_and!; [done|destruct (decide (m = i)); lia|].
    destruct (decide (m = 0)) as [->|Hm0]; [by left|right]. split.
    { intros Hn1 E%(f_equal lenZ). rewrite Hl in E. change (lenZ []) with 0 in E. lia. }
    intros fut. destruct (decide (i = 0)) as [Hi0|Hi0].
    { rewrite Hi0. cbn [Z.to_nat replicate app]. rewrite Z.sub_0_r, (proj2 (Z.eqb_neq m 0)) by lia.
      by destruct (crle_sem _ _). }
    apply repeated_read_part. lia.
Qed.

Lemma crle_loop_spec fuel : forall r c l n, crle_inv r -> bytes l -> chunk_at c l -> 0 <= n -> (rank r < fuel)%nat ->
  exists res bs r' c' l', crle_loop fuel r c n = (res, (bs, (r', c'))) /\ chunk_at c' l' /\ delivered n r l res bs r' l'.
Proof.
  induction fuel as [|fuel IH]; intros r c l n Hi Hb Hc Hn Hf; [lia|]. cbn [crle_loop].
  destruct (crle_step_spec r c l n Hi Hb Hc Hn) as (res & bs & r1 & c1 & l1 & -> & Hc1 & [Hd|Hs]).
  - assert ((res =? 2) = false) as ->.
    { destruct Hd as (_ & _ & _ & _ & _ & [(-> & _)|[(-> & _)|(H & _)]]); [done..|]. apply Z.eqb_neq. lia. }
    eexists _, _, _, _, l1. by split_and!.
  - destruct Hs as (-> & -> & Hb1 & Hi1 & Hr & Hp & Hsem). cbn [Z.eqb Pos.eqb].
    destruct (IH r1 c1 l1 n Hi1 Hb1 Hc1 Hn) as (res & bs & r' & c' & l' & -> & Hc' & Hd); [lia|].
    eexists _, _, _, _, l'. split_and!; [done..|]. destruct Hd as (? & ? & ? & ? & Hp' & Hcase).
    split_and!; [done..|lia|].
    destruct Hcase as [(-> & Hlt & Hc2)|[(-> & -> & -> & Hst & Hc2)|(Hneg & -> & Hc2)]].
    + left. split_and!; [done|lia|]. destruct Hc2 as [Hc2|[Hne Hc2]]; [left|right; split; [done|]]; intros k; by rewrite Hsem, Hc2.
    + right; left. split_and!; [done..|]. intros k. by rewrite Hsem, Hc2.
    + right; right. split_and!; [done..|]. intros k. by rewrite Hsem, Hc2.
Qed.

Lemma crle_decompress_spec r c l n : crle_inv r -> bytes l -> chunk_at c l -> 0 <= n ->
  exists res bs r' c' l', patch_reader_crle_decompress r c n = (res, (bs, (r', c'))) /\ chunk_at c' l' /\
    delivered n r l res bs r' l'.
Proof. intros. apply crle_loop_spec; [done..|]. destruct r; cbn; lia. Qed.

(** * Sizes in the stream *)

Definition reader_inv (r : reader) : Prop := match r with Reader_crle r => crle_inv r | _ => True end.
Definition reader_potential (r : reader) (l : list Z) : Z :=
  match r with Reader_crle r => potential r l | _ => 2 ^ 29 * lenZ l end.

Lemma decompress_total r c l n : reader_inv r -> bytes l -> chunk_at c l -> 0 <= n ->
  exists res bs r' c' l', patch_reader_decompress r c n = (res, (bs, (r', c'))) /\ chunk_at c' l' /\
    bytes l' /\ bytes bs /\ lenZ bs <= n /\ reader_inv r' /\ reader_potential r' l' <= reader_potential r l /\
    (res = 0 -> 1 <= n -> reader_potential r' l' < reader_potential r l) /\ res <= 1 /\ (res = 1 -> l' = []).
Proof.
  intros Hi Hb Hc Hn. destruct r as [|ps po|r]; cbn [patch_reader_decompress].
  - eexists _, _, _, c, l. split_and!; done.
  - unfold patch_reader_none_decompress. destruct (_ >? _); [eexists _, _, _, c, l; by split_and!|].
    pose proof (chunk_read_at c l n Hc Hn) as Hg. destruct l as [|b l].
    { rewrite Hg. eexists _, _, _, c, []. by split_and!. }
    destruct Hg as (c1 & -> & Hc1). set (k := b :: l) in *. eexists _, _, _, c1, _. cbn [reader_potential reader_inv].
    assert (1 <= lenZ k) by (subst k; rewrite lenZ_cons; pose proof (lenZ_nonneg l); lia).
    assert (lenZ (drop (Z.to_nat n) k) <= lenZ k /\ (1 <= n -> lenZ (drop (Z.to_nat n) k) < lenZ k)) as [? ?].
    { unfold lenZ in *. rewrite length_drop. lia. }
    split_and!; try done; cbn [reader_potential]; [auto|auto|unfold lenZ; rewrite length_take; lia|lia|lia].
  - destruct (crle_decompress_spec r c l n Hi Hb Hc Hn) as (res & bs & r' & c' & l' & -> & Hc' & Hd).
    eexists _, _, _, _, l'. destruct Hd as (? & ? & ? & ? & ? & Hcase). split_and!; try done.
    + intros ->. destruct Hcase as [(_ & ? & _)|[(? & _)|(? & _)]]; [done|done|lia].
    + destruct Hcase as [(-> & _)|[(-> & _)|(? & _)]]; lia.
    + intros ->. destruct Hcase as [(? & _)|[(_ & -> & _)|(? & _)]]; [done|done|lia].
Qed.

Lemma signed_range (b : bool) v : 0 <= v < 2 ^ 28 -> - 2 ^ 28 < (if b then - v else v) < 2 ^ 28.
Proof. destruct b; lia. Qed.

Section Sizes.
Context (uninit : reader -> chunk -> Z).

Lemma first_digits byte sg : size_inv (mk_size Usize_consecutive (Z.land byte 0x3f) 6 sg).
Proof.
  intros _. cbn [z_offset z_value]. rewrite land_63. split; [lia|]. split; [by right|]. change (2 ^ 6) with 64.
  pose proof (Z.mod_pos_bound byte 64). lia.
Qed.

Lemma next_size_inv s byte : z_state s = Usize_consecutive -> size_inv s -> is_overflow (z_offset s) = false ->
  size_inv (mk_size Usize_consecutive (Z.lor (z_value s) (Z.shiftl (Z.land byte 0x7f) (z_offset s))) (z_offset s + 7) (z_signed s)).
Proof.
  intros Hs Hi Ho _. apply Hi in Hs as Hd. cbn [z_offset z_value]. rewrite digit_add by apply Hd. by apply next_digits.
Qed.

Lemma unpack_size_loop_total fuel : forall byte size s r c l, size_inv s -> reader_inv r -> bytes l -> chunk_at c l ->
  0 <= size ->
  (match z_state s with Usize_first => 6 | Usize_consecutive => rounds_left (z_offset s) end <= Z.of_nat fuel) ->
  exists res v s' r' c' l', unpack_size_loop fuel byte size s r c = (res, (v, (s', (r', c')))) /\ chunk_at c' l' /\
    bytes l' /\ size_inv s' /\ reader_inv r' /\ reader_potential r' l' <= reader_potential r l /\
    (res = 0 -> - 2 ^ 28 < v < 2 ^ 28 /\ (1 <= size -> reader_potential r' l' < reader_potential r l)) /\
    res <= 1 /\ (res = 1 -> l' = []).
Proof.
  induction fuel as [|fuel IH]; intros byte size s r c l Hi Hr Hb Hc Hsz Hf.
  { destruct s as [[|] v o sg]; cbn [z_state z_offset] in *; [lia|]. assert (digits_inv o v) as (Ho & _) by (by apply Hi).
    unfold rounds_left in Hf. Z.div_mod_to_equations. lia. }
  cbn [unpack_size_loop].
  destruct (decompress_total r c l size Hr Hb Hc Hsz) as (res & bs & r1 & c1 & l1 & -> & Hc1 & Hb1 & Hbs & Hlbs & Hr1 & Hp & Hlt & Hres & H1).
  destruct (Z.eqb_spec res 0) as [->|Hne]; cbn [negb]; [|eexists _, _, _, _, _, l1; by split_and!].
  set (byte1 := match bs with b :: _ => b | [] => byte end). pose proof (lenZ_nonneg bs) as Hbs0.
  assert (forall s1, z_state s1 = Usize_consecutive -> size_inv s1 -> rounds_left (z_offset s1) <= Z.of_nat fuel ->
    exists res v s' r' c' l',
      (if negb (Z.land byte1 0x80 =? 0) then unpack_size_loop fuel byte1 (lenZ bs) s1 r1 c1
       else let value := if z_signed s1 then - z_value s1 else z_value s1 in
         (0, (value, (mk_size Usize_first value (z_offset s1) (z_signed s1), (r1, c1))))) = (res, (v, (s', (r', c')))) /\
      chunk_at c' l' /\ bytes l' /\ size_inv s' /\ reader_inv r' /\ reader_potential r' l' <= reader_potential r l /\
      (res = 0 -> - 2 ^ 28 < v < 2 ^ 28 /\ (1 <= size -> reader_potential r' l' < reader_potential r l)) /\
      res <= 1 /\ (res = 1 -> l' = [])) as Hstep.
  { intros s1 Hs1 Hi1 Hf1. destruct (negb (Z.land byte1 0x80 =? 0)).
    - destruct (IH byte1 (lenZ bs) s1 r1 c1 l1 Hi1 Hr1 Hb1 Hc1 Hbs0) as (res & v & s' & r' & c' & l' & -> & ? & ? & ? & ? & ? & Hv & ? & ?).
      { by rewrite Hs1. }
      eexists _, _, _, _, _, l'. split_and!; try done; [lia|]. intros ->. split; [by apply Hv|]. intros. specialize (Hlt eq_refl). lia.
    - eexists _, _, _, _, _, l1. split_and!; try done. intros _. split; [|auto]. apply signed_range.
      destruct (Hi1 Hs1) as (Ho & _ & Hv). assert (2 ^ z_offset s1 <= 2 ^ 28) by (apply Z.pow_le_mono_r; lia). lia. }
  destruct (z_state s) eqn:Es.
  - apply Hstep; [done|apply first_digits|]. cbn [z_offset]. unfold rounds_left. change ((41 - 6) / 7) with 5. lia.
  - destruct (is_overflow (z_offset s)) eqn:Eo; [eexists _, _, _, _, _, l1; by split_and!|].
    apply Hstep; [done|by apply next_size_inv|]. cbn [z_offset]. rewrite rounds_next. lia.
Qed.

Lemma unpack_size_total s r c l : size_inv s -> reader_inv r -> bytes l -> chunk_at c l ->
  exists res v s' r' c' l', patch_reader_unpack_size uninit s r c = (res, (v, (s', (r', c')))) /\ chunk_at c' l' /\
    bytes l' /\ size_inv s' /\ reader_inv r' /\ reader_potential r' l' <= reader_potential r l /\
    (res = 0 -> - 2 ^ 28 < v < 2 ^ 28 /\ reader_potential r' l' < reader_potential r l) /\
    res <= 1 /\ (res = 1 -> l' = []).
Proof.
  intros Hi Hr Hb Hc. unfold patch_reader_unpack_size.
  destruct (unpack_size_loop_total 6 (uninit r c) 1 s r c l Hi Hr Hb Hc) as (res & v & s' & r' & c' & l' & -> & ? & ? & ? & ? & ? & Hv & ? & ?).
  - lia.
  - destruct (z_state s) eqn:E; [lia|]. destruct (Hi E) as (Ho & _). unfold rounds_left. Z.div_mod_to_equations. lia.
  - eexists _, _, _, _, _, l'. split_and!; try done. intros E. specialize (Hv E). split; [by apply Hv|apply Hv; lia].
Qed.

(** A partly read size of the decompressed stream. *)
Definition size_sem (s : size_state) (d : list Z) : option (Z * list Z) :=
  match z_state s with
  | Usize_first => stream_size d
  | Usize_consecutive => '(v, k) ← b128 (z_offset s) (z_value s) d; Some (if z_signed s then - v else v, k)
  end.

(** A read of one byte of the stream. *)
Lemma decompress_one r c l fut D : crle_inv r -> bytes l -> chunk_at c l -> crle_sem r (l ++ fut) = Some D ->
  exists res bs r' c' l', patch_reader_decompress (Reader_crle r) c 1 = (res, (bs, (Reader_crle r', c'))) /\
    chunk_at c' l' /\ bytes l' /\ crle_inv r' /\
    ((res = 0 /\ exists b D', bs = [b] /\ is_byte b /\ D = b :: D' /\ crle_sem r' (l' ++ fut) = Some D') \/
     (res = 1 /\ l' = [] /\ (forall d, crle_sem r' [] = Some d -> d = []) /\ crle_sem r' fut = Some D)).
Proof.
  intros Hi Hb Hc HD. cbn [patch_reader_decompress].
  destruct (crle_decompress_spec r c l 1 Hi Hb Hc) as (res & bs & r' & c' & l' & -> & Hc' & Hd); [lia|].
  eexists _, _, _, _, l'. destruct Hd as (Hb' & Hbs & Hl & Hi' & _ & Hcase). split_and!; try done.
  destruct Hcase as [(-> & _ & [Hn|[Hne He]])|[(-> & -> & -> & Hst & He)|(Hneg & -> & Hn)]].
  - by rewrite Hn in HD.
  - left. split; [done|]. destruct bs as [|b bs]; [by destruct Hne|]. rewrite lenZ_cons in Hl.
    destruct bs as [|? bs]; [|rewrite lenZ_cons in Hl; pose proof (lenZ_nonneg bs); lia].
    rewrite He in HD. destruct (crle_sem r' (l' ++ fut)) as [D'|]; [|done]. injection HD as <-.
    exists b, D'. split_and!; try done. by inversion Hbs.
  - right. by rewrite He in HD.
  - by rewrite Hn in HD.
Qed.

(** What reading a size out of the stream [D] does. *)
Definition sized (s : size_state) (D fut : list Z) (res v : Z) (s' : size_state) (r' : crle) (l' : list Z) : Prop :=
  (res = 0 /\ z_state s' = Usize_first /\ exists D', size_sem s D = Some (v, D') /\ crle_sem r' (l' ++ fut) = Some D') \/
  (res = 1 /\ l' = [] /\ (forall d, crle_sem r' [] = Some d -> d = []) /\
     exists D', crle_sem r' fut = Some D' /\ size_sem s D = size_sem s' D') \/
  (res < 0 /\ size_sem s D = None).

Lemma size_sem_digit s b D : is_byte b ->
  size_sem s (b :: D) =
    match z_state s with
    | Usize_first =>
        let s1 := mk_size Usize_consecutive (Z.land b 0x3f) 6 (Z.land b 0x40 =? 0x40) in
        if negb (Z.land b 0x80 =? 0) then size_sem s1 D
        else Some (if z_signed s1 then - z_value s1 else z_value s1, D)
    | Usize_consecutive =>
        if is_overflow (z_offset s) then None
        else
          let s1 := mk_size Usize_consecutive (z_value s + b mod 128 * 2 ^ z_offset s) (z_offset s + 7) (z_signed s) in
          if negb (Z.land b 0x80 =? 0) then size_sem s1 D
          else Some (if z_signed s1 then - z_value s1 else z_value s1, D)
    end.
Proof.
  intros Hb. unfold size_sem at 1. destruct (z_state s).
  - unfold stream_size. cbn [header_size]. unfold size_sem. cbn [z_state z_offset z_value z_signed].
    rewrite land_63, land_64, land_128 by done. by destruct (b <? 128).
  - change (b :: D) with ([b] ++ D). rewrite b128_step by done. destruct (is_overflow _); [done|].
    unfold size_sem. cbn [z_state z_offset z_value z_signed app]. by destruct (negb _).
Qed.

Lemma unpack_size_loop_sem fuel : forall byte s r c l fut D, size_inv s -> crle_inv r -> bytes l -> chunk_at c l ->
  crle_sem r (l ++ fut) = Some D ->
  (match z_state s with Usize_first => 6 | Usize_consecutive => rounds_left (z_offset s) end <= Z.of_nat fuel) ->
  exists res v s' r' c' l',
    unpack_size_loop fuel byte 1 s (Reader_crle r) c = (res, (v, (s', (Reader_crle r', c')))) /\ chunk_at c' l' /\
    bytes l' /\ size_inv s' /\ crle_inv r' /\ sized s D fut res v s' r' l'.
Proof.
  induction fuel as [|fuel IH]; intros byte s r c l fut D Hi Hr Hb Hc HD Hf.
  { destruct s as [[|] v o sg]; cbn [z_state z_offset] in *; [lia|]. assert (digits_inv o v) as (Ho & _) by (by apply Hi).
    unfold rounds_left in Hf. Z.div_mod_to_equations. lia. }
  cbn [unpack_size_loop].
  destruct (decompress_one r c l fut D Hr Hb Hc HD) as (res & bs & r1 & c1 & l1 & -> & Hc1 & Hb1 & Hr1 & Hcase).
  destruct Hcase as [(-> & b & D1 & -> & Hbb & -> & HD1)|(-> & -> & Hst & HD1)]; cbn [Z.eqb negb].
  2:{ eexists _, _, _, _, _, []. split_and!; try done. right; left. split_and!; try done. by exists D. }
  change (lenZ [b]) with 1.
  assert (forall s1, z_state s1 = Usize_consecutive -> size_inv s1 -> rounds_left (z_offset s1) <= Z.of_nat fuel ->
    size_sem s (b :: D1) = (if negb (Z.land b 0x80 =? 0) then size_sem s1 D1
                            else Some (if z_signed s1 then - z_value s1 else z_value s1, D1)) ->
    exists res v s' r' c' l',
      (if negb (Z.land b 0x80 =? 0) then unpack_size_loop fuel b 1 s1 (Reader_crle r1) c1
       else let value := if z_signed s1 then - z_value s1 else z_value s1 in
         (0, (value, (mk_size Usize_first value (z_offset s1) (z_signed s1), (Reader_crle r1, c1))))) =
         (res, (v, (s', (Reader_crle r', c')))) /\
      chunk_at c' l' /\ bytes l' /\ size_inv s' /\ crle_inv r' /\ sized s (b :: D1) fut res v s' r' l') as Hstep.
  { intros s1 Hs1 Hi1 Hf1 Hsem. destruct (negb (Z.land b 0x80 =? 0)).
    - destruct (IH b s1 r1 c1 l1 fut D1 Hi1 Hr1 Hb1 Hc1 HD1) as (res & v & s' & r' & c' & l' & -> & ? & ? & ? & ? & Hz).
      { by rewrite Hs1. }
      eexists _, _, _, _, _, l'. split_and!; try done. unfold sized in *. by rewrite Hsem.
    - eexists _, _, _, _, _, l1. split_and!; try done. left. split_and!; try done. exists D1. by rewrite Hsem. }
  rewrite (size_sem_digit s b D1 Hbb) in Hstep.
  destruct (z_state s) eqn:Es.
  - apply Hstep; [done|apply first_digits| |done]. cbn [z_offset]. unfold rounds_left. change ((41 - 6) / 7) with 5. lia.
  - destruct (is_overflow (z_offset s)) eqn:Eo.
    { eexists _, _, _, _, _, l1. split_and!; try done. right; right. split; [done|]. by rewrite size_sem_digit, Es, Eo. }
    apply Hi in Es as Hd. apply Hstep; [done|by apply next_size_inv| |].
    + cbn [z_offset]. rewrite rounds_next. lia.
    + by rewrite digit_add by apply Hd.
Qed.

Lemma unpack_size_sem s r c l fut D : size_inv s -> crle_inv r -> bytes l -> chunk_at c l ->
  crle_sem r (l ++ fut) = Some D ->
  exists res v s' r' c' l',
    patch_reader_unpack_size uninit s (Reader_crle r) c = (res, (v, (s', (Reader_crle r', c')))) /\ chunk_at c' l' /\
    bytes l' /\ size_inv s' /\ crle_inv r' /\ sized s D fut res v s' r' l'.
Proof.
  intros Hi Hr Hb Hc HD. apply (unpack_size_loop_sem 6 (uninit (Reader_crle r) c) s r c l); [done..|].
  destruct (z_state s) eqn:E; [lia|]. destruct (Hi E) as (Ho & _). unfold rounds_left. Z.div_mod_to_equations. lia.
Qed.
End Sizes.
