(* ===== verification/DetoolsTotal.v ===== *)
(** The decoder returns, for every patch, and touches memory only through its
    callbacks.  Bytes still to come are weighed against bytes already announced
    by a run, so that each round of the machine either asks for more input or
    lowers the weight. *)
From stdpp Require Import relations.
From S2P Require Import Prelude Nvm Detools DetoolsSpec DetoolsStream.

Section Total.
Context {M : Type} `{MemCallbacks M} (uninit : reader -> chunk -> Z).
Implicit Types d : in_place M.

(** * Memory changes only through the callbacks *)

Inductive cb_step : M -> M -> Prop :=
| Cb_write m a bs : cb_step m (snd (mem_write_cb m a bs))
| Cb_erase m a n : cb_step m (snd (mem_erase_cb m a n)).

Lemma cb_write m a bs res m' : mem_write_cb m a bs = (res, m') -> rtc cb_step m m' /\ res <= 0.
Proof.
  intros E. pose proof (mem_write_result m a bs) as Hr. rewrite E in Hr. split; [|done].
  apply rtc_once. pose proof (Cb_write m a bs) as Hs. by rewrite E in Hs.
Qed.
Lemma cb_erase m a n res m' : mem_erase_cb m a n = (res, m') -> rtc cb_step m m' /\ res <= 0.
Proof.
  intros E. pose proof (mem_erase_result m a n) as Hr. rewrite E in Hr. split; [|done].
  apply rtc_once. pose proof (Cb_erase m a n) as Hs. by rewrite E in Hs.
Qed.
Lemma cb_read m a n res bs : mem_read_cb m a n = (res, bs) -> res <= 0.
Proof. intros E. pose proof (mem_read_result m a n) as Hr. by rewrite E in Hr. Qed.

Lemma shift_copy_steps fuel : forall ra wa sz off m,
  rtc cb_step m (snd (shift_copy fuel ra wa sz off m)) /\ fst (shift_copy fuel ra wa sz off m) <= 0.
Proof.
  induction fuel as [|fuel IH]; intros ra wa sz off m; cbn [shift_copy]; [done|].
  destruct (off <? sz); [|done]. destruct (mem_read_cb _ _ _) as [res buf] eqn:Er. apply cb_read in Er.
  destruct (negb (res =? 0)); [done|]. destruct (mem_write_cb _ _ _) as [res' m1] eqn:Ew. apply cb_write in Ew as [Hm Hres].
  destruct (negb (res' =? 0)); [done|]. destruct (IH ra wa sz (off + Z.min 128 (sz - off)) m1) as [? ?].
  split; [by etrans|done].
Qed.

Lemma shift_loop_steps n : forall ra wa sz m,
  rtc cb_step m (snd (shift_loop n ra wa sz m)) /\ fst (shift_loop n ra wa sz m) <= 0.
Proof.
  induction n as [|n IH]; intros ra wa sz m; cbn [shift_loop]; [done|].
  destruct (mem_erase_cb _ _ _) as [res m1] eqn:Ee. apply cb_erase in Ee as [Hm Hres].
  destruct (negb (res =? 0)); [done|].
  destruct (shift_copy_steps (S (Z.to_nat (sz / 128))) ra wa sz 0 m1) as [Hm2 Hres2].
  destruct (shift_copy _ _ _ _ _ _) as [res2 m2]. cbn [fst snd] in *.
  destruct (negb (res2 =? 0)); [split; [by etrans|done]|]. destruct (IH (u32 (ra - sz)) (u32 (wa - sz)) sz m2) as [? ?].
  split; [by do 2 etrans|done].
Qed.

(** * The weight of a state *)

Definition rest_of (c : chunk) : list Z := drop (Z.to_nat (c_offset c)) (c_buf c).

Definition base_inv d : Prop :=
  size_inv (st_size d) /\ size_inv (st_reader_size d) /\ reader_inv (st_reader d) /\ 0 <= st_chunk_size d.
Definition init_inv d : Prop := st_state d = State_init -> st_reader d = No_reader.
Definition core_inv d : Prop := base_inv d /\ init_inv d.
Definition chunk_inv d : Prop := chunk_at (st_chunk d) (rest_of (st_chunk d)) /\ bytes (rest_of (st_chunk d)).
Definition dt_inv d : Prop := core_inv d /\ chunk_inv d.

Definition weight d : Z :=
  2 * reader_potential (st_reader d) (rest_of (st_chunk d)) +
  match st_state d with State_diff_data | State_extra_data => 1 | _ => 0 end.

Lemma chunk_at_rest c l : chunk_at c l -> rest_of c = l.
Proof. by intros [_ ->]. Qed.

Lemma reader_potential_nonneg r l : reader_inv r -> 0 <= reader_potential r l.
Proof.
  pose proof (lenZ_nonneg l). destruct r as [| |r]; cbn; [lia..|]. unfold potential.
  destruct r; cbn; unfold run_inv; lia.
Qed.
Lemma reader_potential_bound r l : reader_inv r -> reader_potential r l <= 2 ^ 29 * lenZ l + 2 ^ 28.
Proof.
  pose proof (lenZ_nonneg l). destruct r as [| |r]; cbn; [lia..|]. unfold potential.
  destruct r; cbn; unfold run_inv; lia.
Qed.
Lemma weight_nonneg d : core_inv d -> 0 <= weight d.
Proof.
  intros ((_ & _ & Hr & _) & _). unfold weight. pose proof (reader_potential_nonneg _ (rest_of (st_chunk d)) Hr).
  destruct (st_state d); lia.
Qed.

(** What a round of the machine does to the weight and the memory. *)
Definition round_ok d (x : Z * in_place M) : Prop :=
  base_inv (snd x) /\ (0 <= fst x -> init_inv (snd x)) /\ chunk_inv (snd x) /\ rtc cb_step (mem_of d) (mem_of (snd x)) /\ fst x <= 1 /\
  (fst x = 1 -> rest_of (st_chunk (snd x)) = []) /\ (fst x = 0 -> weight (snd x) < weight d).

Lemma unpack_round d : dt_inv d ->
  exists res v s r c, patch_reader_unpack_size uninit (st_reader_size d) (st_reader d) (st_chunk d) = (res, (v, (s, (r, c)))) /\
    dt_inv (set_reader (s, (r, c)) (set_state State_failed d)) /\ res <= 1 /\ (res = 1 -> rest_of c = []) /\
    (res = 0 -> - 2 ^ 28 < v < 2 ^ 28 /\ reader_potential r (rest_of c) < reader_potential (st_reader d) (rest_of (st_chunk d))).
Proof.
  intros [[(Hs & Hrs & Hr & Hk) _] [Hc Hb]].
  destruct (unpack_size_total uninit _ _ _ _ Hrs Hr Hb Hc) as (res & v & s & r & c & l' & -> & Hc' & Hb' & Hs' & Hr' & _ & Hv & Hres & H1).
  pose proof (chunk_at_rest _ _ Hc') as <-. eexists _, _, _, _, _. split_and!; try done.
Qed.

Lemma header_total s c : size_inv s -> chunk_at c (rest_of c) -> bytes (rest_of c) ->
  exists res v s' c', chunk_unpack_header_size c s = (res, (v, (s', c'))) /\ chunk_at c' (rest_of c') /\
    bytes (rest_of c') /\ size_inv s' /\ res <= 1 /\ (res = 1 -> rest_of c' = []) /\
    (res = 0 -> 0 <= v /\ lenZ (rest_of c') < lenZ (rest_of c)).
Proof.
  intros Hs Hc Hb. destruct (header_unpack_spec _ _ _ Hs Hb Hc) as (res & v & s' & c' & l' & -> & Hc' & Hres & Hv).
  pose proof (chunk_at_rest _ _ Hc') as <-. exists res, v, s', c'.
  destruct Hres as [(-> & Hlt & Hb' & _)|[(-> & Hnil & Hi & _)|(-> & Hlt & Hb' & Hi & _)]].
  - destruct (Hv eq_refl) as [? E]. split_and!; try done; [intros E'; congruence|lia].
  - rewrite Hnil in *. split_and!; try done.
  - split_and!; try done.
Qed.

Ltac round_simpl := cbn [fst snd set_chunk set_header set_reader set_target set_chunk_size set_segment set_mem set_state
  st_state st_init st_compression st_geometry st_to_pos st_to_size st_size st_segment st_reader st_reader_size st_chunk
  st_chunk_size st_patch_size mem_of].

Lemma init_geometry_round d : dt_inv d -> st_state d = State_init -> round_ok d (in_place_process_init_geometry d).
Proof.
  intros [[(Hs & Hrs & Hr & Hk) Hn] [Hc Hb]] Ei. specialize (Hn Ei). unfold in_place_process_init_geometry.
  destruct (header_total _ _ Hs Hc Hb) as (res & v & s' & c' & -> & Hc' & Hb' & Hs' & H1 & H2 & H0).
  unfold round_ok, base_inv, init_inv, chunk_inv, weight.
  destruct (Z.eqb_spec res 0) as [->|Hne]; cbn [negb]; round_simpl; rewrite ?Hn, ?Ei; cbn [reader_inv reader_potential].
  - split_and!; try done. specialize (H0 eq_refl). lia.
  - split_and!; try done.
Qed.

Lemma init_header_round d : dt_inv d -> st_state d = State_init -> round_ok d (in_place_process_init_fixed_header d).
Proof.
  intros [[(Hs & Hrs & Hr & Hk) Hn] [Hc Hb]] Ei. specialize (Hn Ei).
  unfold in_place_process_init_fixed_header. pose proof (chunk_get_at _ _ Hc) as Hg.
  destruct (rest_of (st_chunk d)) as [|b l] eqn:El.
  - rewrite Hg. unfold round_ok, base_inv, init_inv, chunk_inv. cbn [fst snd]. rewrite El. split_and!; done.
  - destruct Hg as (c' & -> & Hc'). pose proof (chunk_at_rest _ _ Hc') as Hl. apply Forall_cons_1 in Hb as [_ Hb].
    unfold round_ok, base_inv, init_inv, chunk_inv, weight.
    destruct (negb (_ =? PATCH_TYPE_IN_PLACE)); round_simpl; rewrite ?Hl, ?Hn, ?Ei, ?El;
      cbn [reader_inv reader_potential]; rewrite ?lenZ_cons; split_and!; try done; lia.
Qed.

Lemma init_to_size_round d : dt_inv d -> st_state d = State_init -> round_ok d (in_place_process_init_to_size d).
Proof.
  intros [[(Hs & Hrs & Hr & Hk) Hn] [Hc Hb]] Ei. specialize (Hn Ei). unfold in_place_process_init_to_size.
  destruct (header_total _ _ Hs Hc Hb) as (res & v & s' & c' & -> & Hc' & Hb' & Hs' & H1 & H2 & H0).
  unfold round_ok, base_inv, init_inv, chunk_inv, weight.
  destruct (Z.eqb_spec res 0) as [->|Hne]; cbn [negb]; [|round_simpl; rewrite ?Hn, ?Ei; split_and!; done].
  destruct (H0 eq_refl) as [Hv Hlt].
  assert (forall r, reader_inv r -> reader_potential r (rest_of c') = 2 ^ 29 * lenZ (rest_of c') ->
    round_ok d (let rs := st_reader_size d in
      let d := set_header (st_init d) (st_compression d) (st_geometry d) s' (set_chunk c' d) in
      let d := set_reader (mk_size Usize_first (z_value rs) (z_offset rs) (z_signed rs), (r, c')) d in
      if v <? 0 then (- DETOOLS_CORRUPT_PATCH, d) else
      let sg := st_segment d in
      let d := set_segment (mk_segment 0 (sg_from_offset sg) (sg_to_offset sg) (sg_to_size sg) (sg_to_pos sg)) (set_target 0 v d) in
      if v >? 0 then
        let '(res, m) := in_place_shift_memory (st_geometry d) (mem_of d) in
        let d := set_mem m d in
        if negb (res =? 0) then (res, d) else (0, set_state State_dfpatch_size d)
      else (0, set_state State_done d))) as Hr'.
  { intros r Hri Hrp. unfold round_ok, base_inv, init_inv, chunk_inv, weight. replace (v <? 0) with false by lia. cbv zeta. 
    destruct (v >? 0).
    - pose proof (shift_loop_steps) as Hsh. unfold in_place_shift_memory. round_simpl.
      match goal with |- context [shift_loop ?n ?a ?w ?z ?m] => destruct (Hsh n a w z m) as [Hm Hres]; destruct (shift_loop n a w z m) as [res m'] end.
      cbn [fst snd] in Hm, Hres. destruct (Z.eqb_spec res 0) as [->|Hne]; cbn [negb]; round_simpl; rewrite ?Hrp, ?Hn, ?Ei;
        cbn [reader_potential]; split_and!; try done; lia.
    - round_simpl. rewrite ?Hrp, ?Hn, ?Ei. cbn [reader_potential]. split_and!; try done; lia. }
  unfold patch_reader_init. round_simpl. destruct (st_compression d =? COMPRESSION_NONE);
    [|destruct (st_compression d =? COMPRESSION_CRLE)]; cbn [Z.eqb negb].
  - apply (Hr' (Reader_none _ 0)); [done|]. done.
  - apply (Hr' (Reader_crle Crle_idle)); [done|]. cbn. unfold potential. cbn. lia.
  - round_simpl. split_and!; done.
Qed.

(** The states that begin by reading a size. *)
Lemma sized_round d : dt_inv d -> st_state d <> State_init ->
  exists res v x, patch_reader_unpack_size uninit (st_reader_size d) (st_reader d) (st_chunk d) = (res, (v, x)) /\
    base_inv (set_reader x d) /\ (res <> 0 -> round_ok d (res, set_reader x d)) /\
    forall y, res = 0 -> base_inv (snd y) -> st_state (snd y) <> State_init -> st_reader (snd y) = fst (snd x) ->
      st_chunk (snd y) = snd (snd x) -> rtc cb_step (mem_of d) (mem_of (snd y)) -> fst y <= 0 -> round_ok d y.
Proof.
  intros Hd Hns. destruct (unpack_round d Hd) as (res & v & s & r & c & -> & [[(H1 & H2 & H3 & H4) H5] [Hc Hb]] & Hres & Hr1 & Hr0).
  cbn in H1, H2, H3, H4, H5, Hc, Hb. exists res, v, (s, (r, c)). split; [done|]. split; [done|]. split.
  - intros Hne. unfold round_ok. cbn [fst snd]. split_and!; try done. by intros _ E%Hns.
  - intros [res' d'] Hz Hbase Hn Er Ec Hm Hle. cbn [fst snd] in *. destruct (Hr0 Hz) as [Hv Hp].
    unfold round_ok, chunk_inv, weight. cbn [fst snd]. rewrite Er, Ec. split_and!; try done.
    + by intros _ E%Hn.
    + lia.
    + intros E. lia.
    + intros _. destruct (st_state d'), (st_state d); lia.
Qed.

Lemma dfpatch_round d : dt_inv d -> st_state d = State_dfpatch_size -> round_ok d (in_place_process_dfpatch_size uninit d).
Proof.
  intros Hd Es. unfold in_place_process_dfpatch_size.
  destruct (sized_round d Hd) as (res & v & x & -> & Hb & He & Hk); [congruence|]. cbv zeta.
  destruct (Z.eqb_spec res 0) as [->|Hne]; cbn [negb]; [|by apply He]. specialize (fun y => Hk y eq_refl).
  destruct (v >? 0); [apply Hk; try done; cbn; congruence|].
  destruct (mem_erase_cb _ _ _) as [res m'] eqn:E. apply cb_erase in E as [Hm Hres].
  apply Hk; done.
Qed.

Lemma size_round d next : dt_inv d -> st_state d <> State_init -> next <> State_init ->
  round_ok d (in_place_process_size uninit next d).
Proof.
  intros Hd Es Hnext. unfold in_place_process_size, common_process_size.
  destruct (sized_round d Hd Es) as (res & v & x & -> & Hb & He & Hk).
  destruct (Z.eqb_spec res 0) as [->|Hne]; cbn [negb].
  2:{ rewrite (proj2 (Z.eqb_neq res 0) Hne). by apply He. }
  specialize (fun y => Hk y eq_refl). destruct (_ >? _); cbn [negb Z.eqb]; apply Hk; try done.
  destruct Hb as (? & ? & ? & ?). split_and!; try done. apply u32_range.
Qed.

Lemma adjustment_round d : dt_inv d -> st_state d = State_adjustment -> round_ok d (in_place_process_adjustment uninit d).
Proof.
  intros Hd Es. unfold in_place_process_adjustment.
  destruct (sized_round d Hd) as (res & v & x & -> & Hb & He & Hk); [congruence|].
  destruct (Z.eqb_spec res 0) as [->|Hne]; cbn [negb]; [|by apply He]. specialize (fun y => Hk y eq_refl). cbv zeta.
  destruct (_ =? _); [|destruct (_ =? _)]; apply Hk; done.
Qed.

Lemma data_round d next : dt_inv d ->
  (st_state d = State_diff_data \/ st_state d = State_extra_data) -> (next = State_extra_size \/ next = State_adjustment) ->
  round_ok d (in_place_process_data next d).
Proof.
  intros [[(Hs & Hrs & Hr & Hk) Hn] [Hc Hb]] Es Hnext. unfold in_place_process_data. cbv zeta.
  assert (st_state d <> State_init) as Hni by (destruct Es; congruence).
  destruct (Z.eqb_spec (Z.min 128 (st_chunk_size d)) 0) as [E|E].
  { unfold round_ok, base_inv, init_inv, chunk_inv, weight. round_simpl. split_and!; try done.
    - intros _. destruct Hnext as [-> | ->]; congruence.
    - intros _. destruct Hnext as [-> | ->], Es as [-> | ->]; lia. }
  destruct (decompress_total (st_reader d) (st_chunk d) _ (Z.min 128 (st_chunk_size d)) Hr Hb Hc)
    as (res & bs & r & c & l' & -> & Hc' & Hb' & Hbs & Hl & Hr' & Hp & Hlt & H1 & Hr1); [lia|].
  pose proof (chunk_at_rest _ _ Hc') as <-. pose proof (lenZ_nonneg bs).
  destruct (Z.eqb_spec res 0) as [->|Hne]; cbn [negb].
  2:{ unfold round_ok, base_inv, init_inv, chunk_inv, weight. round_simpl. split_and!; done. }
  specialize (Hlt eq_refl ltac:(lia)).
  (* whatever happens to the bytes, the state's reader part is settled *)
  assert (forall res' sg cs pos m, res' <= 0 -> 0 <= cs -> rtc cb_step (mem_of d) m ->
    round_ok d (res', set_chunk_size cs (set_segment sg (set_target pos (st_to_size d)
      (set_mem m (set_reader (st_reader_size d, (r, c)) d)))))) as Hend.
  { intros res' sg cs pos m Hle Hcs Hm. unfold round_ok, base_inv, init_inv, chunk_inv, weight. round_simpl.
    split_and!; try done; [lia|lia|]. intros _. destruct Es as [-> | ->]; lia. }
  round_simpl. 
  destruct (match next with State_extra_size => _ | _ => _ end) as [res' [to sg]] eqn:Eto.
  assert (res' <= 0) as Hle.
  { destruct Hnext as [-> | ->]; [|by injection Eto as <- _ _]. destruct (mem_read_cb _ _ _) as [rr from] eqn:Er.
    apply cb_read in Er. destruct (negb _); by injection Eto as <- _ _. }
  destruct (negb (res' =? 0)).
  { apply (Hend res' (st_segment d) (st_chunk_size d) (st_to_pos d) (mem_of d)); done. }
  destruct (mem_write_cb _ _ _) as [rw m'] eqn:Ew. apply cb_write in Ew as [Hm Hw].
  destruct (negb (rw =? 0)).
  - apply (Hend (- DETOOLS_IO_FAILED) sg (st_chunk_size d) (st_to_pos d) m'); done.
  - apply (Hend 0 _ (u32 (st_chunk_size d - lenZ bs)) (u32 (st_to_pos d + lenZ bs)) m'); [done|apply u32_range|done].
Qed.

Lemma process_once_round d : dt_inv d -> round_ok d (apply_patch_in_place_process_once uninit d) /\
  init_inv (snd (apply_patch_in_place_process_once uninit d)).
Proof.
  intros Hd.
  assert (forall x, round_ok d x ->
    round_ok d (let '(res, d) := x in (res, if res <? 0 then set_state State_failed d else d)) /\
    init_inv (snd (let '(res, d) := x in (res, if res <? 0 then set_state State_failed d else d)))) as Hfail.
  { intros [res d'] (H1 & H2 & H3 & H4 & H5 & H6 & H7). cbn [fst snd] in *. destruct (Z.ltb_spec res 0).
    - split; [|done]. split_and!; cbn [fst snd]; try done. lia.
    - split; [|by apply H2]. by split_and!. }
  assert (round_ok d (- DETOOLS_ALREADY_FAILED, d)) as Hfailed by (destruct Hd as [[? ?] ?]; by split_and!).
  unfold apply_patch_in_place_process_once. destruct (st_state d) eqn:Es; try (apply Hfail).
  - unfold in_place_process_init. destruct (st_init d);
      [by apply init_header_round|by apply init_geometry_round..|by apply init_to_size_round].
  - by apply dfpatch_round.
  - apply size_round; [done|congruence|done].
  - apply data_round; [done|by left|by left].
  - apply size_round; [done|congruence|done].
  - apply data_round; [done|by right|by right].
  - by apply adjustment_round.
  - destruct Hd as [[? ?] ?]. split; [|done]. by split_and!.
  - exact (Hfail _ Hfailed).
Qed.

(** * The loops end *)

Lemma chunk_available_rest d : chunk_inv d -> chunk_available (st_chunk d) = true <-> rest_of (st_chunk d) <> [].
Proof.
  intros [Hc _]. rewrite (chunk_available_at _ _ Hc). by destruct (rest_of (st_chunk d)).
Qed.

(** Invariant and measure of the feeding loop, over the result of the last
    round. *)
Definition loop_inv d0 (s : Z * in_place M) : Prop :=
  dt_inv (snd s) /\ rtc cb_step (mem_of d0) (mem_of (snd s)) /\ fst s <= 1 /\ (fst s = 1 -> rest_of (st_chunk (snd s)) = []).
Definition loop_weight (s : Z * in_place M) : Z :=
  if chunk_available (st_chunk (snd s)) && (fst s >=? 0) then 1 + weight (snd s) else 0.

Lemma loop_round d0 s s' : loop_inv d0 s -> process_round uninit s = inl s' ->
  loop_inv d0 s' /\ 0 <= loop_weight s' < loop_weight s.
Proof.
  destruct s as [res d]. intros (Hd & Hm & Hle & H1). unfold process_round, loop_weight. cbn [fst snd] in *.
  destruct (chunk_available (st_chunk d) && (res >=? 0)) eqn:E; [|done]. intros [= <-].
  destruct (process_once_round d Hd) as [(Hb & _ & Hc & Hm' & Hle' & H1' & Hw) Hi].
  destruct (apply_patch_in_place_process_once uninit d) as [res' d']. cbn [fst snd] in *.
  pose proof (weight_nonneg d (proj1 Hd)). pose proof (weight_nonneg d' (conj Hb Hi)).
  split; [split_and!; try done; by etrans|]. destruct (chunk_available (st_chunk d') && _) eqn:Ef; [|lia].
  apply andb_true_iff in Ef as [Ea Er]. apply (chunk_available_rest d' Hc) in Ea.
  assert (res' = 0) as -> by (destruct (decide (res' = 1)) as [->|]; [by destruct Ea; apply H1'|lia]). specialize (Hw eq_refl). lia.
Qed.

Lemma start_dt_inv d patch : core_inv d -> bytes patch -> dt_inv (set_chunk (mk_chunk patch 0) d).
Proof. intros Hd Hp. split; [done|]. split; [apply chunk_at_start|done]. Qed.

Lemma start_weight d patch : core_inv d -> lenZ patch < 2 ^ 29 -> weight (set_chunk (mk_chunk patch 0) d) < 2 ^ 60 - 1.
Proof.
  intros ((_ & _ & Hr & _) & _) Hl. unfold weight. cbn [set_chunk st_reader st_state st_chunk].
  change (rest_of (mk_chunk patch 0)) with patch. pose proof (reader_potential_bound _ patch Hr).
  assert (2 ^ 29 * lenZ patch <= 2 ^ 29 * (2 ^ 29 - 1)) by (apply Z.mul_le_mono_nonneg_l; lia).
  destruct (st_state d); lia.
Qed.

Lemma process_total d patch : core_inv d -> bytes patch -> lenZ patch < 2 ^ 29 ->
  exists res d', detools_apply_patch_in_place_process uninit patch d = Some (res, d') /\ core_inv d' /\ res <= 0 /\
    rtc cb_step (mem_of d) (mem_of d').
Proof.
  intros Hd Hb Hl. unfold detools_apply_patch_in_place_process.
  destruct (iterate_ends (process_round uninit) (loop_inv d) (loop_inv d) loop_weight PROCESS_FUEL (0, set_chunk (mk_chunk patch 0) d))
    as ([res d'] & -> & Hi).
  - intros s s'. apply loop_round.
  - intros s s' Hs. unfold process_round. destruct (_ && _); [done|]. by intros [= <-].
  - split_and!; try done. by apply start_dt_inv.
  - unfold loop_weight. cbn [fst snd]. pose proof (start_weight d patch Hd Hl). change (Z.pos PROCESS_FUEL) with (2 ^ 60).
    destruct (_ && _); lia.
  - destruct Hi as ([Hd' _] & Hm & Hle & _). cbn [fst snd] in *. eexists _, d'. split_and!; try done.
    destruct (Z.eqb_spec res 1), (Z.eqb_spec res (- DETOOLS_ALREADY_DONE)); cbn; lia.
Qed.

Lemma finalize_total d : core_inv d ->
  exists res d', detools_apply_patch_in_place_finalize uninit d = Some (res, d') /\ core_inv d' /\
    rtc cb_step (mem_of d) (mem_of d').
Proof.
  intros Hd. unfold detools_apply_patch_in_place_finalize.
  destruct (iterate_ends (finalize_round uninit) (fun e => dt_inv e /\ rtc cb_step (mem_of d) (mem_of e))
    (fun y => core_inv (snd y) /\ rtc cb_step (mem_of d) (mem_of (snd y))) weight PROCESS_FUEL (set_chunk (mk_chunk [] 0) d)) as ([res d'] & -> & Hi).
  - intros e e' [He Hm]. unfold finalize_round.
    destruct (process_once_round e He) as [(Hb & _ & Hc & Hm' & _ & _ & Hw) Hi].
    destruct (apply_patch_in_place_process_once uninit e) as [res' e1]. cbn [fst snd] in *.
    destruct (Z.eqb_spec res' 0) as [->|]; [|done]. intros [= <-]. pose proof (weight_nonneg e1 (conj Hb Hi)).
    split; [split; [done|by etrans]|]. specialize (Hw eq_refl). lia.
  - intros e [res y] [He Hm]. unfold finalize_round.
    destruct (process_once_round e He) as [(Hb & _ & Hc & Hm' & _ & _ & Hw) Hi].
    destruct (apply_patch_in_place_process_once uninit e) as [res' e1]. cbn [fst snd] in *.
    destruct (Z.eqb_spec res' 0) as [->|]; [done|]. intros [= <- <-]. split; [done|by etrans].
  - split; [by apply start_dt_inv|done].
  - pose proof (start_weight d [] Hd ltac:(done)). change (Z.pos PROCESS_FUEL) with (2 ^ 60). lia.
  - destruct Hi as [? ?]. by eexists _, d'.
Qed.

(** * Whole patches *)

Context (patch_read : M -> Z -> Z * (list Z * M)).

(** The state changes by memory callbacks and by reads of the patch. *)
Inductive io_step : M -> M -> Prop :=
| Io_memory m m' : cb_step m m' -> io_step m m'
| Io_patch m n : io_step m (snd (snd (patch_read m n))).

Lemma cb_io m m' : rtc cb_step m m' -> rtc io_step m m'.
Proof. apply rtc_subrel. intros ? ? ?. by apply Io_memory. Qed.

(** Reads of the patch deliver bytes, at most a chunk of them. *)
Context (read_bytes : forall m n, 0 <= n -> fst (patch_read m n) = 0 ->
  bytes (fst (snd (patch_read m n))) /\ lenZ (fst (snd (patch_read m n))) = n).

Lemma callbacks_loop_total fuel : forall patch_size patch_offset res d, core_inv d ->
  exists res' d', callbacks_loop uninit patch_read fuel patch_size patch_offset res d = Some (res', d') /\
    core_inv d' /\ rtc io_step (mem_of d) (mem_of d').
Proof.
  induction fuel as [|fuel IH]; intros ps po res d Hd; cbn [callbacks_loop]; [by eexists _, d|].
  destruct (Z.ltb_spec po ps) as [Hpo|]; cbn [andb]; [|by eexists _, d]. destruct (res =? 0); [|by eexists _, d]. cbv zeta.
  pose proof (read_bytes (mem_of d) (Z.min (ps - po) 512)) as Hrd. pose proof (Io_patch (mem_of d) (Z.min (ps - po) 512)) as Hio.
  destruct (patch_read _ _) as [rr [buf m]]. cbn [fst snd] in *. destruct (Z.eqb_spec rr 0) as [->|].
  - destruct (Hrd ltac:(lia) eq_refl) as [Hb Hl]. assert (core_inv (set_mem m d)) as Hd1 by done.
    destruct (process_total (set_mem m d) buf Hd1 Hb) as (res1 & d1 & -> & Hd2 & _ & Hm); [lia|]. cbn [mbind option_bind].
    destruct (IH ps (po + Z.min (ps - po) 512) res1 d1 Hd2) as (res' & d' & -> & Hd' & Hm'). eexists _, d'.
    split_and!; try done. etrans; [by apply rtc_once|]. etrans; [by apply cb_io|done].
  - destruct (IH ps po (- DETOOLS_IO_FAILED) (set_mem m d) Hd) as (res' & d' & -> & Hd' & Hm'). eexists _, d'.
    split_and!; try done. etrans; [by apply rtc_once|done].
Qed.

Lemma init_core patch_size m : core_inv (detools_apply_patch_in_place_init patch_size m).
Proof. split; [|done]. by split_and!. Qed.

(** A rewrite rule, so that the checker does not have to unfold the loops. *)
Lemma bind_pair {A B C} (x : option (A * B)) (f : A -> B -> option C) a b r :
  x = Some (a, b) -> f a b = r -> ('(a, b) ← x; f a b) = r.
Proof. by intros -> <-. Qed.

Lemma callbacks_process_total patch_size d : core_inv d ->
  exists res d', in_place_callbacks_process uninit patch_read patch_size d = Some (res, d') /\ core_inv d' /\
    rtc io_step (mem_of d) (mem_of d').
Proof.
  intros Hd. unfold in_place_callbacks_process.
  destruct (callbacks_loop_total (S (Z.to_nat (patch_size / 512 + 1))) patch_size 0 0 d Hd) as (res & d1 & E & Hd1 & Hm).
  destruct (finalize_total d1 Hd1) as (res' & d' & E' & Hd' & Hm').
  eexists _, d'. split; [eapply bind_pair; [exact E|eapply bind_pair; [exact E'|reflexivity]]|].
  split; [done|]. etrans; [done|by apply cb_io].
Qed.

Lemma decoder_total patch_size m :
  exists res m', detools_apply_patch_in_place_callbacks uninit patch_read patch_size m = Some (res, m') /\ rtc io_step m m'.
Proof.
  unfold detools_apply_patch_in_place_callbacks.
  destruct (callbacks_process_total patch_size _ (init_core patch_size m)) as (res & d & E & _ & Hm).
  eexists _, _. split; [eapply bind_pair; [exact E|reflexivity]|done].
Qed.

(** C16: every patch is decoded or refused: whatever the bytes of the patch, and
    whatever the callbacks answer, [detools_apply_patch_in_place_callbacks]
    returns, although a few bytes can announce runs of a quarter of a billion
    and a size may be spread over chunks; and it changes the memory only through
    the write and erase callbacks. *)
Theorem decoder_returns patch_size m :
  exists res m', detools_apply_patch_in_place_callbacks uninit patch_read patch_size m = Some (res, m') /\ rtc io_step m m'.
Proof. apply decoder_total. Qed.
End Total.

(** * A memory in which everything works *)

(** A work space of three pages, the patch beside it. *)
Record ram := mk_ram { ram_view : Z -> Z; ram_patch : list Z }.
Definition ram_span : Z := 3 * PAGE.

Definition ram_write (m : ram) (a : Z) (bs : list Z) : ram :=
  mk_ram (fun x => if (a <=? x) && (x <? a + lenZ bs) then nthZ bs (x - a) else ram_view m x) (ram_patch m).
Definition ram_erase (m : ram) (a : Z) : ram :=
  mk_ram (fun x => if (a <=? x) && (x <? a + PAGE) then 255 else ram_view m x) (ram_patch m).
Definition ram_read_patch (m : ram) (n : Z) : Z * (list Z * ram) :=
  if (n <=? lenZ (ram_patch m)) && forallb (fun b => (0 <=? b) && (b <? 256)) (ram_patch m)
  then (0, (take (Z.to_nat n) (ram_patch m), mk_ram (ram_view m) (drop (Z.to_nat n) (ram_patch m)))) else (-1, ([], m)).

#[export] Instance ram_callbacks : MemCallbacks ram.
Proof.
  refine {| mem_read_cb m a n := (0, mem_read (ram_view m) a n);
            mem_write_cb m a bs := (0, ram_write m a bs);
            mem_erase_cb m a n := (0, ram_erase m a) |}; done.
Defined.

(** A patch of 23 bytes for an old image of four. *)
Definition small_patch : list Z :=
  [0x12; 0x80; 0xc0; 0x01; 0x80; 0x40; 0x80; 0x40; 4; 5; 0; 2; 0; 4; 1; 2; 0; 0; 5; 1; 255; 1; 42; 0].
Definition small_ram : ram := mk_ram (fun x => if x <? 4 then x + 1 else 255) small_patch.
Definition no_byte (r : reader) (c : chunk) : Z := 0.

Lemma ram_read_bytes m n : 0 <= n -> fst (ram_read_patch m n) = 0 ->
  bytes (fst (snd (ram_read_patch m n))) /\ lenZ (fst (snd (ram_read_patch m n))) = n.
Proof.
  intros Hn. unfold ram_read_patch. destruct (_ && _) eqn:E; [|done]. apply andb_true_iff in E as [E Eb]. apply bytes_by_forallb in Eb.
  bool_cases. intros _. split; [by apply bytes_take|apply lenZ_take; lia].
Qed.

Lemma decoder_returns_witness :
  exists res m', detools_apply_patch_in_place_callbacks no_byte ram_read_patch 24 small_ram = Some (res, m').
Proof.
  destruct (decoder_returns no_byte ram_read_patch ram_read_bytes 24 small_ram) as (res & m' & E & _). by exists res, m'.
Defined.
