(* ===== verification/DetoolsCorrect.v ===== *)
(** The in-place decoder computes what the patch means: on a memory that works,
    and for every way the patch is cut into chunks, the machine of [Detools]
    leaves in memory the image that [DetoolsSpec.patched] reads out of the patch,
    although it overwrites the old image while it goes. *)
From stdpp Require Import relations.
From S2P Require Import Prelude Nvm Detools DetoolsSpec DetoolsStream DetoolsTotal.

(** A memory that works, seen through the callbacks: [ws_view] is the content of
    the work space, [ws_patch] the part of the patch still to be read.  An erase
    may spoil the whole page it starts. *)
Class Workspace (M : Type) `{MemCallbacks M} (patch_read : M -> Z -> Z * (list Z * M)) := {
  ws_span : Z;
  ws_ok : M -> Prop;
  ws_view : M -> Z -> Z;
  ws_patch : M -> list Z;
  ws_span_range : 0 <= ws_span < 2 ^ 31;
  ws_read m a n : ws_ok m -> 0 <= a -> 0 <= n -> a + n <= ws_span -> mem_read_cb m a n = (0, mem_read (ws_view m) a n);
  ws_write m a bs : ws_ok m -> 0 <= a -> a + lenZ bs <= ws_span -> bytes bs ->
    exists m', mem_write_cb m a bs = (0, m') /\ ws_ok m' /\ ws_patch m' = ws_patch m /\
      forall x, 0 <= x < ws_span ->
        ws_view m' x = if (a <=? x) && (x <? a + lenZ bs) then nthZ bs (x - a) else ws_view m x;
  ws_erase m a n : ws_ok m -> 0 <= a -> a mod PAGE = 0 -> 0 < n <= PAGE -> a + n <= ws_span ->
    exists m', mem_erase_cb m a n = (0, m') /\ ws_ok m' /\ ws_patch m' = ws_patch m /\
      forall x, 0 <= x < ws_span -> ~ (a <= x < a + PAGE) -> ws_view m' x = ws_view m x;
  ws_read_patch m n : ws_ok m -> 0 <= n <= lenZ (ws_patch m) ->
    exists m', patch_read m n = (0, (take (Z.to_nat n) (ws_patch m), m')) /\ ws_ok m' /\
      ws_patch m' = drop (Z.to_nat n) (ws_patch m) /\ forall x, 0 <= x < ws_span -> ws_view m' x = ws_view m x
}.

Section Correct.
Context {M : Type} {patch_read : M -> Z -> Z * (list Z * M)} {HM : MemCallbacks M} {W : Workspace M patch_read}.
Context (uninit : reader -> chunk -> Z).
Implicit Types d : in_place M.

(** [m] holds [bs] from [a] on. *)
Definition holds (m : M) (a : Z) (bs : list Z) : Prop := forall i, 0 <= i < lenZ bs -> ws_view m (a + i) = nthZ bs i.

Lemma bytes_mem_read f a n : (forall i, 0 <= i < n -> is_byte (f (a + i))) -> bytes (mem_read f a n).
Proof.
  intros H. unfold mem_read. apply Forall_fmap, Forall_forall. intros i Hi. apply list_elem_of_In, elem_of_seqZ in Hi.
  apply H. lia.
Qed.

(** * Moving the old image up *)

Lemma copy_room off : off mod 128 = 0 -> 0 <= off < PAGE -> off + 128 <= PAGE.
Proof. unfold PAGE. intros. Z.div_mod_to_equations. lia. Qed.

Lemma shift_copy_spec fuel : forall ra wa off m, ws_ok m -> 0 <= ra -> ra + PAGE <= wa -> wa + PAGE <= ws_span ->
  0 <= off <= PAGE -> off mod 128 = 0 -> PAGE - off <= 128 * Z.of_nat fuel ->
  (forall i, 0 <= i < PAGE -> is_byte (ws_view m (ra + i))) ->
  exists m', shift_copy fuel ra wa PAGE off m = (0, m') /\ ws_ok m' /\ ws_patch m' = ws_patch m /\
    forall x, 0 <= x < ws_span ->
      ws_view m' x = if (wa + off <=? x) && (x <? wa + PAGE) then ws_view m (x - wa + ra) else ws_view m x.
Proof.
  induction fuel as [|fuel IH]; intros ra wa off m Hok Hra Hwa Hspan Hoff Hmod Hf Hby.
  { assert (off = PAGE) as -> by lia. exists m. split_and!; try done. intros x Hx. range_case; [lia|done]. }
  cbn [shift_copy]. pose proof ws_span_range as Hs. assert (0 < PAGE) as HP by done. destruct (Z.ltb_spec off PAGE) as [Ho|Ho].
  2:{ exists m. split_and!; try done. intros x Hx. range_case; [lia|done]. }
  pose proof (copy_room off Hmod ltac:(lia)) as Hroom.
  replace (Z.min 128 (PAGE - off)) with 128 by lia. rewrite !u32_small by lia.
  rewrite ws_read by (done || lia). cbn [Z.eqb negb]. set (bs := mem_read (ws_view m) (ra + off) 128).
  assert (lenZ bs = 128) as Hl by (apply lenZ_mem_read; lia).
  destruct (ws_write m (wa + off) bs Hok) as (m1 & -> & Hok1 & Hp1 & Hv1); [lia|lia| |].
  { apply bytes_mem_read. intros i Hi. rewrite <- Z.add_assoc. apply Hby. lia. }
  cbn [Z.eqb negb]. rewrite Hl in Hv1.
  destruct (IH ra wa (off + 128) m1) as (m2 & -> & Hok2 & Hp2 & Hv2); [done|done|done|done|lia| |lia| |].
  { rewrite Z.add_mod, Hmod by done. done. }
  { intros i Hi. rewrite Hv1 by lia. range_case; [lia|by apply Hby]. }
  exists m2. split_and!; [done|done|congruence|]. intros x Hx. rewrite Hv2 by done.
  destruct (decide (wa + off <= x < wa + off + 128)) as [Hin|Hout].
  - replace ((wa + (off + 128) <=? x) && (x <? wa + PAGE)) with false by lia.
    rewrite Hv1 by lia. replace ((wa + off <=? x) && (x <? wa + off + 128)) with true by lia.
    replace ((wa + off <=? x) && (x <? wa + PAGE)) with true by lia.
    subst bs. rewrite nthZ_mem_read by lia. f_equal. lia.
  - replace ((wa + (off + 128) <=? x) && (x <? wa + PAGE)) with ((wa + off <=? x) && (x <? wa + PAGE)) by lia.
    destruct (_ && _) eqn:E.
    2:{ rewrite Hv1 by lia. by replace ((wa + off <=? x) && (x <? wa + off + 128)) with false by lia. }
    apply andb_true_iff in E as [E1%Z.leb_le E2%Z.ltb_lt]. rewrite Hv1 by lia.
    replace ((wa + off <=? x - wa + ra) && (x - wa + ra <? wa + off + 128)) with false by lia. done.
Qed.

Lemma shift_loop_spec n : forall shift m, ws_ok m -> PAGE <= shift -> shift mod PAGE = 0 ->
  shift + PAGE * Z.of_nat n <= ws_span -> (forall x, 0 <= x < PAGE * Z.of_nat n -> is_byte (ws_view m x)) ->
  let ra := u32 (PAGE * (Z.of_nat n - 1)) in
  exists m', shift_loop n ra (u32 (ra + shift)) PAGE m = (0, m') /\ ws_ok m' /\ ws_patch m' = ws_patch m /\
    forall x, 0 <= x < ws_span ->
      ws_view m' x = if (shift <=? x) && (x <? shift + PAGE * Z.of_nat n) then ws_view m (x - shift) else ws_view m x.
Proof.
  induction n as [|n IH]; intros shift m Hok Hsh Hmod Hspan Hby ra.
  { exists m. split_and!; try done. intros x Hx. range_case; [lia|done]. }
  cbn [shift_loop]. pose proof ws_span_range as Hs. assert (PAGE = 4096) as HP by done.
  set (a := PAGE * Z.of_nat n). assert (ra = a) as -> by (subst ra a; rewrite u32_small; lia).
  assert (a mod PAGE = 0) as Ha by (subst a; rewrite Z.mul_comm; by apply Z.mod_mul).
  assert (PAGE * Z.of_nat (S n) = a + PAGE) as Hn by (subst a; lia). rewrite Hn in *.
  assert (0 <= a) as Ha0 by (subst a; lia). rewrite (u32_small (a + shift)) by lia.
  destruct (ws_erase m (a + shift) PAGE Hok) as (m1 & -> & Hok1 & Hp1 & Hv1); [lia| |lia|lia|].
  { rewrite Z.add_mod, Ha, Hmod by done. done. }
  cbn [Z.eqb negb].
  destruct (shift_copy_spec (S (Z.to_nat (PAGE / 128))) a (a + shift) 0 m1) as (m2 & -> & Hok2 & Hp2 & Hv2);
    [done|lia|lia|lia|lia|done|vm_compute; congruence| |].
  { intros i Hi. rewrite Hv1 by lia. apply Hby. lia. }
  cbn [Z.eqb negb]. replace (u32 (a - PAGE)) with (u32 (PAGE * (Z.of_nat n - 1))) by (f_equal; subst a; lia).
  assert (u32 (a + shift - PAGE) = u32 (u32 (PAGE * (Z.of_nat n - 1)) + shift)) as ->.
  { unfold u32. rewrite Zplus_mod_idemp_l. f_equal. subst a. lia. }
  destruct (IH shift m2 Hok2 Hsh Hmod) as (m3 & -> & Hok3 & Hp3 & Hv3); [subst a; lia| |].
  { intros x Hx. rewrite Hv2 by (subst a; lia). range_case; [subst a; lia|]. rewrite Hv1 by (subst a; lia). apply Hby. subst a. lia. }
  exists m3. split_and!; [done|done|congruence|]. intros x Hx. rewrite Hv3 by done. fold a.
  destruct (decide (a + shift <= x < a + shift + PAGE)) as [Hin|Hout].
  - replace ((shift <=? x) && (x <? shift + a)) with false by lia.
    replace ((shift <=? x) && (x <? shift + (a + PAGE))) with true by lia.
    rewrite Hv2 by lia. replace ((a + shift + 0 <=? x) && (x <? a + shift + PAGE)) with true by lia.
    rewrite Hv1 by lia. f_equal. lia.
  - replace ((shift <=? x) && (x <? shift + (a + PAGE))) with ((shift <=? x) && (x <? shift + a)) by lia.
    destruct (_ && _) eqn:E.
    + apply andb_true_iff in E as [E1%Z.leb_le E2%Z.ltb_lt]. rewrite Hv2 by lia.
      replace ((a + shift + 0 <=? x - shift) && (x - shift <? a + shift + PAGE)) with false by lia. by rewrite Hv1 by lia.
    + rewrite Hv2 by lia. replace ((a + shift + 0 <=? x) && (x <? a + shift + PAGE)) with false by lia.
      by rewrite Hv1 by lia.
Qed.

(** * What is left to do *)

Section Image.
Context (g : geometry) (to_size : Z) (old new : list Z).
Context (Hg : geometry_ok g to_size (lenZ old) = true) (Hspan : memory_size g <= ws_span).

Lemma geometry_facts : segment_size g = PAGE /\ PAGE <= shift_size g /\ shift_size g mod PAGE = 0 /\
  memory_size g mod PAGE = 0 /\ from_size g = lenZ old /\ 0 < lenZ old /\ shift_size g + lenZ old <= memory_size g /\
  0 < to_size <= memory_size g.
Proof.
  unfold geometry_ok in Hg. bool_cases. split_and!; try lia.
  destruct (Z.lt_ge_cases (shift_size g) PAGE); [|done]. rewrite Z.mod_small in * by lia. lia.
Qed.

(** The old bytes from address [lower] of the work space on are untouched. *)
Definition intact (m : M) (lower : Z) : Prop :=
  forall x, lower <= x -> shift_size g <= x < shift_size g + lenZ old -> ws_view m x = nthZ old (x - shift_size g).

Lemma intact_mono m a b : a <= b -> intact m a -> intact m b.
Proof. intros Hab H x Hx. apply H. lia. Qed.

(** The segment record stands at [p]. *)
Definition at_place d (p : place) (out : list Z) : Prop :=
  let sg := st_segment d in
  sg_index sg = pl_index p + 1 /\ sg_from_offset sg = s32 (pl_from p) /\ sg_to_offset sg = pl_index p * PAGE /\
  sg_to_size sg = segment_length g to_size (pl_index p) /\ sg_to_pos sg = sg_to_size sg - pl_left p /\
  0 <= pl_index p /\ 0 <= pl_left p <= sg_to_size sg /\ lenZ out = sg_to_offset sg + sg_to_pos sg /\ lenZ out <= to_size.

Definition next fuel := next_segment g to_size old fuel.
Definition hunks fuel := hunk g to_size old fuel.

(** The continuation of each state, on the bytes [D] still in the stream. *)
Inductive to_do d : list Z -> list Z -> Prop :=
| Do_dfpatch fuel index out D D' size :
    st_state d = State_dfpatch_size -> sg_index (st_segment d) = index -> 0 <= index ->
    lenZ out = index * PAGE -> lenZ out < to_size -> intact (mem_of d) (Z.max (PAGE * index) (shift_size g)) ->
    size_sem (st_reader_size d) D = Some (size, D') -> size <= 0 ->
    hunks fuel (start_of g to_size index) out D' = Some new -> to_do d out D
| Do_diff_size fuel p out D D' n :
    st_state d = State_diff_size -> at_place d p out -> intact (mem_of d) (floor_of g (pl_index p)) ->
    size_sem (st_reader_size d) D = Some (n, D') ->
    diff_data g to_size old (next fuel) (hunks fuel) p n out D' = Some new -> to_do d out D
| Do_diff_data fuel p out D :
    st_state d = State_diff_data -> at_place d p out -> intact (mem_of d) (floor_of g (pl_index p)) ->
    z_state (st_reader_size d) = Usize_first ->
    diff_data g to_size old (next fuel) (hunks fuel) p (st_chunk_size d) out D = Some new -> to_do d out D
| Do_extra_size fuel p out D D' n :
    st_state d = State_extra_size -> at_place d p out -> intact (mem_of d) (floor_of g (pl_index p)) ->
    size_sem (st_reader_size d) D = Some (n, D') ->
    extra_data to_size (next fuel) (hunks fuel) p n out D' = Some new -> to_do d out D
| Do_extra_data fuel p out D :
    st_state d = State_extra_data -> at_place d p out -> intact (mem_of d) (floor_of g (pl_index p)) ->
    z_state (st_reader_size d) = Usize_first ->
    extra_data to_size (next fuel) (hunks fuel) p (st_chunk_size d) out D = Some new -> to_do d out D
| Do_adjustment fuel p out D D' n :
    st_state d = State_adjustment -> at_place d p out -> intact (mem_of d) (floor_of g (pl_index p)) ->
    size_sem (st_reader_size d) D = Some (n, D') ->
    end_of_hunk to_size (next fuel) (hunks fuel) p n out D' = Some new -> to_do d out D
| Do_done : st_state d = State_done -> lenZ new = to_size -> to_do d new [].

(** A state past the header, with [l] left of the chunk, [fut] still to come,
    [out] written and [D] left in the stream. *)
Definition stream d (l fut out D : list Z) : Prop :=
  exists r, st_reader d = Reader_crle r /\ crle_inv r /\ size_inv (st_reader_size d) /\
    chunk_at (st_chunk d) l /\ bytes l /\ bytes fut /\ crle_sem r (l ++ fut) = Some D /\
    st_geometry d = g /\ st_to_size d = to_size /\ st_to_pos d = lenZ out /\
    ws_ok (mem_of d) /\ holds (mem_of d) 0 out /\ bytes out.
Definition streaming d (l fut : list Z) : Prop := exists out D, stream d l fut out D /\ to_do d out D.

(** One round of the machine from such a state. *)
Definition advanced d (fut : list Z) (x : Z * in_place M) : Prop :=
  ws_patch (mem_of (snd x)) = ws_patch (mem_of d) /\
  ((fst x = 0 /\ exists l', streaming (snd x) l' fut) \/
   (fst x = 1 /\ fut <> [] /\ streaming (snd x) [] fut)).

Lemma size_sem_nil s : size_sem s [] = None.
Proof. unfold size_sem, stream_size. by destruct (z_state s). Qed.

Lemma size_read s r c l fut D n D' : size_inv s -> crle_inv r -> bytes l -> chunk_at c l ->
  crle_sem r (l ++ fut) = Some D -> size_sem s D = Some (n, D') ->
  exists res v s' r' c' l',
    patch_reader_unpack_size uninit s (Reader_crle r) c = (res, (v, (s', (Reader_crle r', c')))) /\ chunk_at c' l' /\
    bytes l' /\ size_inv s' /\ crle_inv r' /\
    ((res = 0 /\ v = n /\ z_state s' = Usize_first /\ crle_sem r' (l' ++ fut) = Some D') \/
     (res = 1 /\ l' = [] /\ fut <> [] /\ exists D1, crle_sem r' fut = Some D1 /\ size_sem s' D1 = Some (n, D'))).
Proof.
  intros Hs Hr Hb Hc HD Hn.
  destruct (unpack_size_sem uninit s r c l fut D Hs Hr Hb Hc HD) as (res & v & s' & r' & c' & l' & -> & ? & ? & ? & ? & Hz).
  eexists _, _, _, _, _, l'. split_and!; try done.
  destruct Hz as [(-> & Hf & D1 & E & E')|[(-> & -> & Hst & D1 & E & E')|(_ & E)]]; rewrite Hn in *.
  - left. injection E as <- <-. done.
  - right. split_and!; try done; [|by exists D1]. intros ->. apply Hst in E as ->. by rewrite size_sem_nil in E'.
  - done.
Qed.

Ltac proj := cbn [fst snd set_chunk set_header set_reader set_target set_chunk_size set_segment set_mem set_state
  st_state st_init st_compression st_geometry st_to_pos st_to_size st_size st_segment st_reader st_reader_size st_chunk
  st_chunk_size st_patch_size mem_of sg_index sg_from_offset sg_to_offset sg_to_size sg_to_pos pl_index pl_from pl_left].

Lemma stream_read d l fut out D n D' : stream d l fut out D -> size_sem (st_reader_size d) D = Some (n, D') ->
  exists res v x, patch_reader_unpack_size uninit (st_reader_size d) (st_reader d) (st_chunk d) = (res, (v, x)) /\
    let d' := set_reader x d in
    ((res = 0 /\ v = n /\ z_state (st_reader_size d') = Usize_first /\ exists l', stream d' l' fut out D') \/
     (res = 1 /\ fut <> [] /\ exists D1, stream d' [] fut out D1 /\ size_sem (st_reader_size d') D1 = Some (n, D'))).
Proof.
  intros (r & Er & Hr & Hrs & Hc & Hb & Hbf & HD & Egm & Ets & Etp & Hok & Hh & Hbo) Hn. rewrite Er.
  destruct (size_read _ _ _ _ _ _ _ _ Hrs Hr Hb Hc HD Hn) as (res & v & s' & r' & c' & l' & -> & Hc' & Hb' & Hs' & Hr' & Hcase).
  eexists _, _, _. split; [done|]. destruct Hcase as [(-> & -> & Hf & HD')|(-> & -> & Hfut & D1 & HD1 & Hz)]; proj.
  - left. split_and!; [done..|]. exists l', r'. by split_and!.
  - right. split_and!; [done..|]. exists D1. split; [|done]. exists r'. by split_and!.
Qed.

Lemma first_size_sem s D : z_state s = Usize_first -> size_sem s D = stream_size D.
Proof. unfold size_sem. by intros ->. Qed.

Lemma hunks_start fuel p out D : hunks fuel p out D = Some new ->
  exists f n D', stream_size D = Some (n, D') /\ diff_data g to_size old (next f) (hunks f) p n out D' = Some new.
Proof.
  destruct fuel as [|f]; [done|]. cbn. unfold hunk_body. intros E.
  destruct (stream_size D) as [[n D']|] eqn:Ez; [|done]. by exists f, n, D'.
Qed.

Lemma holds_frame m m' out lo hi : lenZ out <= lo -> lenZ out <= ws_span ->
  (forall x, 0 <= x < ws_span -> ~ (lo <= x < hi) -> ws_view m' x = ws_view m x) -> holds m 0 out -> holds m' 0 out.
Proof. intros Hlo Hs Hv Hh i Hi. rewrite Hv by lia. by apply Hh. Qed.

Lemma intact_frame m m' lower lo hi : hi <= lower -> shift_size g + lenZ old <= ws_span -> 0 <= shift_size g ->
  (forall x, 0 <= x < ws_span -> ~ (lo <= x < hi) -> ws_view m' x = ws_view m x) -> intact m lower -> intact m' lower.
Proof. intros Hhi Hs H0 Hv Hi x Hx Hx'. rewrite Hv by lia. by apply Hi. Qed.

Lemma dfpatch_step d l fut : streaming d l fut -> st_state d = State_dfpatch_size ->
  advanced d fut (in_place_process_dfpatch_size uninit d).
Proof.
  destruct geometry_facts as (Hseg & Hshift & Hsmod & Hmmod & Hfrom & Hold0 & Hroom & Hto).
  pose proof ws_span_range as Hsr. assert (PAGE = 4096) as HP by done.
  intros (out & D & Hst & Hdo) Est.
  destruct Hdo; try congruence. subst index. set (i := sg_index (st_segment d)) in *.
  unfold in_place_process_dfpatch_size.
  destruct (stream_read _ _ _ _ _ _ _ Hst ltac:(eassumption)) as (res & v & x & -> & [(-> & -> & Hf & l' & Hs)|(-> & Hfut & D1 & Hs & Hz)]);
    cbn [Z.eqb negb].
  2:{ split; [done|]. right. split_and!; [done..|]. exists out, D1. split; [done|].
      eapply (Do_dfpatch _ fuel i out D1 D' size); done. }
  replace (size >? 0) with false by lia. cbv zeta.
  destruct Hs as (r & Er & Hr & Hrs & Hc & Hb & Hbf & HD & Egm & Ets & Etp & Hok & Hh & Hbo). rewrite Egm, Ets, Hseg.
  revert Er Hrs Hc Egm Ets Etp Hok Hh Hf. proj. intros Er Hrs Hc Egm Ets Etp Hok Hh Hf. fold i.
  assert (lenZ out < to_size) as Hlt by done. assert (lenZ out = i * PAGE) as Hlo by done.
  rewrite (u32_small (i * PAGE)), (u32_small (i + 1)), (u32_small (PAGE * (i + 1))), (u32_small (to_size - i * PAGE)) by lia.
  destruct (ws_erase (mem_of d) (i * PAGE) (Z.min PAGE (to_size - i * PAGE)) Hok) as (m' & Ee & Hok' & Hp' & Hv');
    [lia|by apply Z.mod_mul|lia|lia|]. rewrite Ee.
  split; [done|]. left. split; [done|]. exists l', out, D'.
  destruct (hunks_start fuel _ out D' ltac:(eassumption)) as (f & n & D2 & En & Ed). split.
  - exists r. proj. split_and!; try done. by eapply (holds_frame (mem_of d) m' out (i * PAGE) (i * PAGE + PAGE)); [lia|lia|..].
  - eapply (Do_diff_size _ f (start_of g to_size i) out D' D2 n); proj; try done.
    + unfold at_place, start_of, floor_of, segment_length. proj. rewrite Hseg. split_and!; try done; lia.
    + cbn [start_of pl_index]. unfold floor_of. rewrite Hseg.
      eapply (intact_frame (mem_of d) m' _ (i * PAGE) (i * PAGE + PAGE)); [lia|lia|lia|done|].
      eapply intact_mono; [|done]. lia.
    + by rewrite first_size_sem.
Qed.
(** A size that fits what is left of the image passes the check. *)
Lemma size_step nxt d l fut out D n D' : stream d l fut out D -> size_sem (st_reader_size d) D = Some (n, D') ->
  0 <= n -> lenZ out + n <= to_size -> to_size < 2 ^ 31 ->
  exists res d', in_place_process_size uninit nxt d = (res, d') /\ st_segment d' = st_segment d /\ mem_of d' = mem_of d /\
    ((res = 0 /\ st_state d' = nxt /\ st_chunk_size d' = n /\ z_state (st_reader_size d') = Usize_first /\
        exists l', stream d' l' fut out D') \/
     (res = 1 /\ fut <> [] /\ st_state d' = st_state d /\
        exists D1, stream d' [] fut out D1 /\ size_sem (st_reader_size d') D1 = Some (n, D'))).
Proof.
  intros Hst Hn H0 Hfit Hts. unfold in_place_process_size, common_process_size.
  pose proof (lenZ_nonneg out) as Hout.
  assert (st_to_pos d = lenZ out /\ st_to_size d = to_size) as [-> ->] by (destruct Hst as (r & Hst); tauto).
  destruct (stream_read _ _ _ _ _ _ _ Hst Hn) as (res & v & x & -> & [(-> & -> & Hf & l' & Hs)|(-> & Hfut & D1 & Hs & Hz)]);
    cbn [Z.eqb negb].
  - rewrite !(u32_small n), (u32_small (lenZ out + n)) by lia. replace (lenZ out + n >? to_size) with false by lia.
    eexists _, _. split; [done|]. proj. split_and!; try done. left. split_and!; try done; [apply u32_small; lia|by exists l'].
  - eexists _, _. split; [done|]. proj. split_and!; try done. right. split_and!; try done. by exists D1.
Qed.

Lemma place_room d p out : at_place d p out -> lenZ out + pl_left p <= to_size.
Proof.
  destruct geometry_facts as (Hseg & _). intros (_ & _ & Ht & Hs & Hp & _ & Hl & Ho & _).
  unfold segment_length in *. rewrite Hseg in *. lia.
Qed.

(** [at_place] looks at the segment only. *)
Lemma at_place_segment d d' p out : st_segment d' = st_segment d -> at_place d p out -> at_place d' p out.
Proof. unfold at_place. by intros ->. Qed.

Lemma diff_size_step d l fut : streaming d l fut -> st_state d = State_diff_size ->
  advanced d fut (in_place_process_size uninit State_diff_data d).
Proof.
  destruct geometry_facts as (Hseg & Hshift & Hsmod & Hmmod & Hfrom & Hold0 & Hroom & Hto).
  pose proof ws_span_range as Hsr. intros (out & D & Hst & Hdo) Est. destruct Hdo; try congruence.
  assert (0 <= n <= pl_left p) as Hn.
  { assert (diff_data g to_size old (next fuel) (hunks fuel) p n out D' = Some new) as E by done. unfold diff_data in E.
    destruct (_ && _) eqn:Hc; [|done]. bool_cases. lia. }
  assert (lenZ out + pl_left p <= to_size) as Hr by (by eapply place_room).
  destruct (size_step State_diff_data d l fut out D n D' Hst) as (res & d' & -> & Esg & Em & Hcase); [done|lia|lia|lia|].
  split; [cbn; by rewrite Em|]. destruct Hcase as [(-> & Es & <- & Hf & l' & Hs)|(-> & Hfut & Es & D1 & Hs & Hz)].
  - left. split; [done|]. exists l', out, D'. split; [done|]. eapply (Do_diff_data _ fuel p); try done.
    + by eapply at_place_segment.
    + cbn. by rewrite Em.
  - right. split_and!; [done|done|]. exists out, D1. split; [done|]. eapply (Do_diff_size _ fuel p); try done.
    + cbn. congruence.
    + by eapply at_place_segment.
    + cbn. by rewrite Em.
Qed.

Lemma extra_size_step d l fut : streaming d l fut -> st_state d = State_extra_size ->
  advanced d fut (in_place_process_size uninit State_extra_data d).
Proof.
  destruct geometry_facts as (Hseg & Hshift & Hsmod & Hmmod & Hfrom & Hold0 & Hroom & Hto).
  pose proof ws_span_range as Hsr. intros (out & D & Hst & Hdo) Est. destruct Hdo; try congruence.
  assert (0 <= n <= pl_left p) as Hn.
  { assert (extra_data to_size (next fuel) (hunks fuel) p n out D' = Some new) as E by done. unfold extra_data in E.
    destruct (_ && _) eqn:Hc; [|done]. bool_cases. lia. }
  assert (lenZ out + pl_left p <= to_size) as Hr by (by eapply place_room).
  destruct (size_step State_extra_data d l fut out D n D' Hst) as (res & d' & -> & Esg & Em & Hcase); [done|lia|lia|lia|].
  split; [cbn; by rewrite Em|]. destruct Hcase as [(-> & Es & <- & Hf & l' & Hs)|(-> & Hfut & Es & D1 & Hs & Hz)].
  - left. split; [done|]. exists l', out, D'. split; [done|]. eapply (Do_extra_data _ fuel p); try done.
    + by eapply at_place_segment.
    + cbn. by rewrite Em.
  - right. split_and!; [done|done|]. exists out, D1. split; [done|]. eapply (Do_extra_size _ fuel p); try done.
    + cbn. congruence.
    + by eapply at_place_segment.
    + cbn. by rewrite Em.
Qed.

Lemma s32_add a b : s32 (s32 a + b) = s32 (a + b).
Proof.
  unfold s32. f_equal. replace ((a + 2147483648) mod 4294967296 - 2147483648 + b + 2147483648)
    with ((a + 2147483648) mod 4294967296 + b) by lia. rewrite Zplus_mod_idemp_l. f_equal. lia.
Qed.

Lemma adjustment_step d l fut : streaming d l fut -> st_state d = State_adjustment ->
  advanced d fut (in_place_process_adjustment uninit d).
Proof.
  destruct geometry_facts as (Hseg & Hshift & Hsmod & Hmmod & Hfrom & Hold0 & Hroom & Hto).
  pose proof ws_span_range as Hsr. intros (out & D & Hst & Hdo) Est. destruct Hdo; try congruence.
  unfold in_place_process_adjustment.
  destruct (stream_read _ _ _ _ _ _ _ Hst ltac:(eassumption)) as (res & v & x & -> & [(-> & -> & Hf & l' & Hs)|(-> & Hfut & D1 & Hs & Hz)]);
    cbn [Z.eqb negb].
  2:{ split; [done|]. right. split_and!; [done..|]. exists out, D1. split; [done|]. by eapply (Do_adjustment _ fuel p out D1 D' n). }
  cbv zeta. assert (st_to_pos (set_reader x d) = lenZ out /\ st_to_size (set_reader x d) = to_size) as [-> ->]
    by (destruct Hs as (r & Hs'); tauto).
  assert (at_place d p out) as Hat by done. destruct Hat as (Hix & Hfo & Hto' & Hts & Htp & Hi0 & Hl & Ho & Hle).
  assert (end_of_hunk to_size (next fuel) (hunks fuel) p n out D' = Some new) as E by done. unfold end_of_hunk in E.
  destruct (Z.eqb_spec (lenZ out) to_size) as [Hfull|Hmore].
  { case_bool_decide as HD; [|done]. injection E as E. subst D' out. split; [done|]. left. split; [done|].
    exists l', new, []. split; [done|]. by apply Do_done. }
  proj. replace (sg_to_pos (st_segment d) =? sg_to_size (st_segment d)) with (pl_left p =? 0) by lia.
  destruct (Z.eqb_spec (pl_left p) 0) as [Hz|Hz]; (split; [done|]); left; (split; [done|]); exists l', out, D'; (split; [done|]).
  - unfold next, next_segment in E. destruct (stream_size D') as [[sz D2]|] eqn:Esz; [|done]. cbn in E.
    destruct (Z.leb_spec sz 0); [|done].
    eapply (Do_dfpatch _ fuel (pl_index p + 1) out D' D2 sz); proj; try done; try lia.
    + unfold segment_length in Hts. rewrite Hseg in Hts. lia.
    + eapply intact_mono; [|done]. unfold floor_of. rewrite Hseg. lia.
    + by rewrite first_size_sem.
  - destruct (hunks_start fuel _ out D' E) as (f & n2 & D2 & En & Ed).
    eapply (Do_diff_size _ f (mk_place (pl_index p) (pl_from p + n) (pl_left p)) out D' D2 n2); proj; try done.
    + unfold at_place. proj. rewrite Hfo, s32_add. split_and!; try done; lia.
    + by rewrite first_size_sem.
Qed.

(** ** The bytes of a hunk *)

Lemma advance_advance p a b x y : advance (advance p a x) b y = advance p (a + b) (x + y).
Proof. unfold advance. cbn. f_equal; lia. Qed.
Lemma advance_0 p : advance p 0 0 = p.
Proof. destruct p. unfold advance. cbn. f_equal; lia. Qed.

Lemma drop_part (bs D : list Z) n : lenZ bs <= n -> drop (Z.to_nat n) (bs ++ D) = drop (Z.to_nat (n - lenZ bs)) D.
Proof. intros H. unfold lenZ in *. rewrite drop_app. rewrite drop_ge by lia. cbn. f_equal. lia. Qed.
Lemma take_part (bs D : list Z) n : lenZ bs <= n ->
  take (Z.to_nat n) (bs ++ D) = bs ++ take (Z.to_nat (n - lenZ bs)) D.
Proof. intros H. unfold lenZ in *. rewrite take_app, take_ge by lia. do 2 f_equal. lia. Qed.

Lemma extra_data_part nx hk p n out bs D : lenZ bs <= n ->
  extra_data to_size nx hk p n out (bs ++ D) = Some new ->
  extra_data to_size nx hk (advance p 0 (lenZ bs)) (n - lenZ bs) (out ++ bs) D = Some new.
Proof.
  intros Hb. pose proof (lenZ_nonneg bs) as H0. unfold extra_data. rewrite lenZ_app. destruct (_ && _) eqn:Hc; [|done]. bool_cases.
  cbn [pl_left advance]. replace (_ && _) with true by (cbn [advance pl_left]; lia).
  rewrite drop_part, take_part, advance_advance, <- app_assoc by done.
  by replace (lenZ bs + (n - lenZ bs)) with n by lia.
Qed.

Lemma diff_of_part p n bs D : lenZ bs <= n -> 0 <= pl_from p - shift_size g -> pl_from p - shift_size g + n <= lenZ old ->
  diff_of g old p n (bs ++ D) = diff_of g old p (lenZ bs) bs ++ diff_of g old (advance p (lenZ bs) (lenZ bs)) (n - lenZ bs) D.
Proof.
  intros Hb H0 H1. pose proof (lenZ_nonneg bs) as Hl. unfold diff_of. cbn [advance pl_from].
  replace n with (lenZ bs + (n - lenZ bs)) at 1 by lia. rewrite sliceZ_split by lia.
  rewrite zip_with_app.
  - by replace (pl_from p - shift_size g + lenZ bs) with (pl_from p + lenZ bs - shift_size g) by lia.
  - pose proof (lenZ_sliceZ old (pl_from p - shift_size g) (lenZ bs)) as E. unfold lenZ in *. lia.
Qed.

Lemma diff_data_part nx hk p n out bs D : 0 < lenZ bs <= n ->
  diff_data g to_size old nx hk p n out (bs ++ D) = Some new ->
  diff_data g to_size old nx hk (advance p (lenZ bs) (lenZ bs)) (n - lenZ bs) (out ++ diff_of g old p (lenZ bs) bs) D = Some new.
Proof.
  destruct geometry_facts as (_ & Hshift & _). assert (0 < PAGE) as HP by done.
  intros Hb. pose proof (lenZ_nonneg D) as H0. unfold diff_data, old_holds. rewrite lenZ_app.
  destruct (_ && _) eqn:Hc; [|done]. bool_cases. assert (shift_size g <= floor_of g (pl_index p)) by (unfold floor_of; lia).
  replace (_ && _) with true by (cbn [advance pl_left pl_index pl_from]; lia).
  rewrite drop_part, take_part, diff_of_part, advance_advance, <- app_assoc by lia.
  by replace (lenZ bs + (n - lenZ bs)) with n by lia.
Qed.

(** Reading [m] bytes of the stream that has them. *)
Lemma stream_bytes d l fut out D m : stream d l fut out D -> 0 < m <= lenZ D ->
  exists res bs r' c', patch_reader_decompress (st_reader d) (st_chunk d) m = (res, (bs, (r', c'))) /\
    let d' := set_reader (st_reader_size d, (r', c')) d in
    ((res = 0 /\ 0 < lenZ bs <= m /\ bytes bs /\ exists l' D', D = bs ++ D' /\ stream d' l' fut out D') \/
     (res = 1 /\ fut <> [] /\ stream d' [] fut out D)).
Proof.
  intros (r & Er & Hr & Hrs & Hc & Hb & Hbf & HD & Egm & Ets & Etp & Hok & Hh & Hbo) Hm. rewrite Er. cbn [patch_reader_decompress].
  destruct (crle_decompress_spec r (st_chunk d) l m Hr Hb Hc) as (res & bs & r' & c' & l' & -> & Hc' & Hd); [lia|].
  eexists _, _, _, _. split; [done|]. cbv zeta. destruct Hd as (Hb' & Hbs & Hl & Hi' & _ & Hcase).
  destruct Hcase as [(-> & _ & [Hn|[Hne He]])|[(-> & -> & -> & Hst & He)|(_ & _ & Hn)]].
  - by rewrite Hn in HD.
  - left. rewrite He in HD. destruct (crle_sem r' (l' ++ fut)) as [D'|] eqn:ED; [|done]. injection HD as <-.
    assert (0 < lenZ bs) by (destruct bs as [|b bs]; [exfalso; apply Hne; [lia|done]|rewrite lenZ_cons; pose proof (lenZ_nonneg bs); lia]).
    split_and!; try done. exists l', D'. split; [done|]. exists r'. proj. by split_and!.
  - right. rewrite He in HD. split_and!; [done| |].
    + intros ->. apply Hst in HD. subst D. change (lenZ []) with 0 in Hm. lia.
    + exists r'. proj. by split_and!.
  - by rewrite Hn in HD.
Qed.

(** Appending to the image. *)
Lemma stream_write d l fut out D bs : stream d l fut out D -> bytes bs -> lenZ out + lenZ bs <= to_size ->
  exists m', mem_write_cb (mem_of d) (lenZ out) bs = (0, m') /\ ws_patch m' = ws_patch (mem_of d) /\
    (forall x, 0 <= x < ws_span -> ~ (lenZ out <= x < lenZ out + lenZ bs) -> ws_view m' x = ws_view (mem_of d) x) /\
    stream (set_target (lenZ out + lenZ bs) (st_to_size d) (set_mem m' d)) l fut (out ++ bs) D.
Proof.
  destruct geometry_facts as (_ & _ & _ & _ & _ & _ & _ & Hto).
  intros (r & Er & Hr & Hrs & Hc & Hb & Hbf & HD & Egm & Ets & Etp & Hok & Hh & Hbo) Hbs Hfit.
  pose proof (lenZ_nonneg out) as H0.
  destruct (ws_write (mem_of d) (lenZ out) bs Hok) as (m' & E & Hok' & Hp & Hv); [done|lia|done|].
  exists m'. split_and!; [done|done| |].
  { intros x Hx Hout. rewrite Hv by done. by replace (_ && _) with false by lia. }
  exists r. proj. split_and!; try done; [by rewrite lenZ_app| |by apply Forall_app_2].
  intros i. rewrite lenZ_app. intros Hi. rewrite Hv by lia. destruct (Z.lt_ge_cases i (lenZ out)) as [Hlt|Hge].
  - replace (_ && _) with false by lia. rewrite nthZ_app_l by lia. apply Hh. lia.
  - replace (_ && _) with true by lia. by rewrite nthZ_app_r by lia.
Qed.

(** The place and the untouched old bytes after [k] more bytes of a segment. *)
Lemma at_place_advance d p out bs from k d' : at_place d p out -> lenZ bs = k -> 0 <= k <= pl_left p ->
  st_segment d' = mk_segment (sg_index (st_segment d)) (s32 (sg_from_offset (st_segment d) + from))
                    (sg_to_offset (st_segment d)) (sg_to_size (st_segment d)) (sg_to_pos (st_segment d) + k) ->
  at_place d' (advance p from k) (out ++ bs).
Proof.
  intros Hat Hb Hk E. assert (lenZ out + pl_left p <= to_size) as Hr by (by eapply place_room).
  destruct Hat as (Hix & Hfo & Hto' & Hts & Htp & Hi0 & Hl & Ho & Hle).
  unfold at_place. rewrite E. proj. cbn [advance pl_index pl_from pl_left]. rewrite Hfo, s32_add, lenZ_app. split_and!; try done; lia.
Qed.

Lemma segment_above d p out k : at_place d p out -> 0 <= k <= pl_left p -> lenZ out + k <= floor_of g (pl_index p).
Proof.
  destruct geometry_facts as (Hseg & _). intros (Hix & Hfo & Hto' & Hts & Htp & Hi0 & Hl & Ho & Hle) Hk.
  unfold floor_of, segment_length in *. rewrite Hseg in *. assert (PAGE = 4096) as HP by done. lia.
Qed.

Lemma extra_data_step d l fut : streaming d l fut -> st_state d = State_extra_data ->
  advanced d fut (in_place_process_data State_adjustment d).
Proof.
  destruct geometry_facts as (Hseg & Hshift & Hsmod & Hmmod & Hfrom & Hold0 & Hroom & Hto).
  pose proof ws_span_range as Hsr. assert (PAGE = 4096) as HP by done. intros (out & D & Hst & Hdo) Est. destruct Hdo; try congruence.
  assert (extra_data to_size (next fuel) (hunks fuel) p (st_chunk_size d) out D = Some new) as E by done.
  pose proof (lenZ_nonneg out) as Hout0.
  assert (0 <= st_chunk_size d <= pl_left p /\ st_chunk_size d <= lenZ D) as (Hn & HnD).
  { unfold extra_data in E. destruct (_ && _) eqn:Hc; [|done]. bool_cases. lia. }
  assert (at_place d p out) as Hat by done. assert (lenZ out + pl_left p <= to_size) as Hr by (by eapply place_room).
  unfold in_place_process_data.
  destruct (Z.eqb_spec (Z.min 128 (st_chunk_size d)) 0) as [Hz|Hz].
  { split; [done|]. left. split; [done|]. exists l, out, D. split; [done|]. assert (st_chunk_size d = 0) as Hn0 by lia. rewrite Hn0 in E.
    unfold extra_data in E. destruct (_ && _); [|done]. rewrite advance_0, take_0, app_nil_r, drop_0 in E.
    unfold after_extra in E. destruct (stream_size D) as [[a D']|] eqn:Ea; [|done].
    eapply (Do_adjustment _ fuel p out D D' a); try done. by rewrite first_size_sem. }
  destruct (stream_bytes d l fut out D (Z.min 128 (st_chunk_size d)) Hst) as (res & bs & r' & c' & -> & Hcase); [lia|].
  cbv zeta in Hcase. destruct Hcase as [(-> & Hbs & Hbb & l' & D' & -> & Hs)|(-> & Hfut & Hs)]; cbn [Z.eqb negb].
  2:{ split; [done|]. right. split_and!; [done|done|]. exists out, D. split; [done|]. by eapply (Do_extra_data _ fuel p). }
  destruct (stream_write _ _ _ _ _ bs Hs Hbb) as (m' & Ew & Hp' & Hfr & Hs'); [lia|]. revert Ew Hp' Hfr. proj. intros Ew Hp' Hfr.
  pose proof Hat as (Hix & Hfo & Hto' & Hts & Htp & Hi0 & Hl & Ho & Hle).
  assert (0 <= sg_to_offset (st_segment d)) by lia.
  rewrite (u32_small (_ + sg_to_offset _)) by lia.
  replace (sg_to_pos (st_segment d) + sg_to_offset (st_segment d)) with (lenZ out) by lia. rewrite Ew. cbn [Z.eqb negb].
  assert (st_to_pos d = lenZ out) as -> by (destruct Hst as (r & Hst); tauto).
  rewrite (u32_small (lenZ out + _)), (u32_small (sg_to_pos _ + _)), (u32_small (st_chunk_size d - _)) by lia.
  split; [done|]. left. split; [done|]. exists l', (out ++ bs), D'. split; [done|].
  eapply (Do_extra_data _ fuel (advance p 0 (lenZ bs))); proj; try done.
  - eapply (at_place_advance d p out bs 0); [done|done|lia|]. proj. f_equal. rewrite Hfo, s32_add. by rewrite Z.add_0_r.
  - eapply (intact_frame (mem_of d) m' _ (lenZ out) (lenZ out + lenZ bs)); [|lia|lia|done|done].
    apply (segment_above d p out (lenZ bs) Hat). lia.
  - apply extra_data_part; [lia|done].
Qed.

Lemma u32_s32 a : u32 (s32 a) = u32 a.
Proof.
  unfold u32, s32. rewrite Zminus_mod_idemp_l. f_equal. lia.
Qed.

Lemma read_old m p k : ws_ok m -> intact m (floor_of g (pl_index p)) -> 0 <= k -> floor_of g (pl_index p) <= pl_from p ->
  pl_from p + k <= shift_size g + lenZ old ->
  mem_read_cb m (u32 (s32 (pl_from p))) k = (0, sliceZ old (pl_from p - shift_size g) k).
Proof.
  destruct geometry_facts as (Hseg & Hshift & _ & _ & _ & _ & Hroom & _). pose proof ws_span_range as Hsr.
  assert (PAGE = 4096) as HP by done. intros Hok Hi Hk Hf Hu.
  assert (shift_size g <= floor_of g (pl_index p)) by (unfold floor_of; lia).
  rewrite u32_s32, u32_small by lia. rewrite ws_read by (done || lia). f_equal. apply eq_by_nthZ.
  - rewrite lenZ_mem_read, lenZ_sliceZ by lia. done.
  - rewrite lenZ_mem_read by lia. intros i Hi'. rewrite nthZ_mem_read, nthZ_sliceZ by lia. rewrite Hi by lia. f_equal. lia.
Qed.

Lemma diff_of_facts p bs : 0 <= pl_from p - shift_size g -> pl_from p + lenZ bs <= shift_size g + lenZ old ->
  lenZ (diff_of g old p (lenZ bs) bs) = lenZ bs /\ bytes (diff_of g old p (lenZ bs) bs).
Proof.
  intros H0 H1. pose proof (lenZ_nonneg bs) as Hl. unfold diff_of. split.
  - pose proof (lenZ_sliceZ old (pl_from p - shift_size g) (lenZ bs)) as E. unfold lenZ in *. rewrite length_zip_with. lia.
  - generalize (sliceZ old (pl_from p - shift_size g) (lenZ bs)). clear. intros l.
    induction bs as [|b bs IH] in l |- *; destruct l; constructor; [|apply IH]. apply u8_range.
Qed.

Lemma diff_data_step d l fut : streaming d l fut -> st_state d = State_diff_data ->
  advanced d fut (in_place_process_data State_extra_size d).
Proof.
  destruct geometry_facts as (Hseg & Hshift & Hsmod & Hmmod & Hfrom & Hold0 & Hroom & Hto).
  pose proof ws_span_range as Hsr. assert (PAGE = 4096) as HP by done. intros (out & D & Hst & Hdo) Est. destruct Hdo; try congruence.
  assert (diff_data g to_size old (next fuel) (hunks fuel) p (st_chunk_size d) out D = Some new) as E by done.
  pose proof (lenZ_nonneg out) as Hout0.
  assert (0 <= st_chunk_size d <= pl_left p /\ st_chunk_size d <= lenZ D /\ old_holds g old p (st_chunk_size d) = true) as (Hn & HnD & Hoh).
  { unfold diff_data in E. destruct (_ && _) eqn:Hc; [|done]. apply andb_true_iff in Hc as [Hc Hoh]. bool_cases. split_and!; [lia..|done]. }
  assert (at_place d p out) as Hat by done. assert (lenZ out + pl_left p <= to_size) as Hr by (by eapply place_room).
  unfold in_place_process_data.
  destruct (Z.eqb_spec (Z.min 128 (st_chunk_size d)) 0) as [Hz|Hz].
  { split; [done|]. left. split; [done|]. exists l, out, D. split; [done|]. assert (st_chunk_size d = 0) as Hn0 by lia. rewrite Hn0 in E.
    unfold diff_data in E. destruct (_ && _); [|done]. rewrite advance_0, take_0, drop_0 in E. cbn [zip_with diff_of] in E.
    unfold after_diff in E. destruct (stream_size D) as [[a D']|] eqn:Ea; [|done]. unfold diff_of in E.
    cbn [zip_with] in E. rewrite app_nil_r in E.
    eapply (Do_extra_size _ fuel p out D D' a); try done. by rewrite first_size_sem. }
  destruct (stream_bytes d l fut out D (Z.min 128 (st_chunk_size d)) Hst) as (res & bs & r' & c' & -> & Hcase); [lia|].
  cbv zeta in Hcase. destruct Hcase as [(-> & Hbs & Hbb & l' & D' & -> & Hs)|(-> & Hfut & Hs)]; cbn [Z.eqb negb].
  2:{ split; [done|]. right. split_and!; [done|done|]. exists out, D. split; [done|]. by eapply (Do_diff_data _ fuel p). }
  unfold old_holds in Hoh. assert (shift_size g <= floor_of g (pl_index p)) as Hfl by (unfold floor_of; lia).
  assert (floor_of g (pl_index p) <= pl_from p) as Hpf by lia.
  destruct (diff_of_facts p bs) as (Hdl & Hdb); [lia|lia|].
  destruct (stream_write _ _ _ _ _ (diff_of g old p (lenZ bs) bs) Hs Hdb) as (m' & Ew & Hp' & Hfr & Hs'); [lia|].
  revert Ew Hp' Hfr. proj. intros Ew Hp' Hfr. rewrite Hdl in Hs', Hfr.
  pose proof Hat as (Hix & Hfo & Hto' & Hts & Htp & Hi0 & Hl & Ho & Hle).
  assert (0 <= sg_to_offset (st_segment d)) by lia.
  assert (st_to_pos d = lenZ out /\ ws_ok (mem_of d)) as [-> Hok] by (destruct Hst as (r & Hst); tauto).
  rewrite Hfo, read_old by (done || lia). cbn [Z.eqb negb]. proj. fold (diff_of g old p (lenZ bs) bs).
  rewrite (u32_small (_ + sg_to_offset _)) by lia.
  replace (sg_to_pos (st_segment d) + sg_to_offset (st_segment d)) with (lenZ out) by lia. rewrite Ew. cbn [Z.eqb negb].
  rewrite (u32_small (lenZ out + _)), (u32_small (sg_to_pos _ + _)), (u32_small (st_chunk_size d - _)) by lia.
  split; [done|]. left. split; [done|]. exists l', (out ++ diff_of g old p (lenZ bs) bs), D'. split; [done|].
  eapply (Do_diff_data _ fuel (advance p (lenZ bs) (lenZ bs))); proj; try done.
  - eapply (at_place_advance d p out _ (lenZ bs)); [done|done|lia|]. proj. by rewrite Hfo.
  - eapply (intact_frame (mem_of d) m' _ (lenZ out) (lenZ out + lenZ bs)); [|lia|lia|done|done].
    apply (segment_above d p out (lenZ bs) Hat). lia.
  - apply diff_data_part; [lia|done].
Qed.

(** One round from any state that is not the last. *)
Lemma stream_step d l fut : streaming d l fut -> st_state d <> State_done ->
  advanced d fut (apply_patch_in_place_process_once uninit d).
Proof.
  intros Hst Hnd. unfold apply_patch_in_place_process_once.
  assert (forall (x : Z * in_place M), advanced d fut x ->
    advanced d fut (let '(res, d) := x in (res, if res <? 0 then set_state State_failed d else d))) as Hw.
  { intros [res e] (Hp & Hc). cbn [fst snd] in *. split; cbn [fst snd].
    - destruct Hc as [(-> & _)|(-> & _)]; done.
    - destruct Hc as [(-> & ?)|(-> & ?)]; [by left|by right]. }
  destruct (st_state d) eqn:Es; try done.
  - destruct Hst as (out & D & _ & Hdo). by destruct Hdo; congruence.
  - apply Hw. by eapply dfpatch_step.
  - apply Hw. by eapply diff_size_step.
  - apply Hw. by eapply diff_data_step.
  - apply Hw. by eapply extra_size_step.
  - apply Hw. by eapply extra_data_step.
  - apply Hw. by eapply adjustment_step.
  - destruct Hst as (out & D & _ & Hdo). by destruct Hdo; congruence.
Qed.

(** * The header *)

(** The fields from [i] on; [n] more follow the one being read. *)
Fixpoint fields (n : nat) (i : init_state) (gm : geometry) (s : size_state) (l : list Z) : option (geometry * Z * list Z) :=
  '(v, l) ← header_sem s l;
  match n with
  | O => Some (gm, v, l)
  | S n => fields n (next_init i) (set_field i v gm) (mk_size Usize_first 0 0 false) l
  end.
Definition fields_left (i : init_state) : nat :=
  match i with
  | Init_fixed_header => 5
  | Init_memory_size => 4
  | Init_segment_size => 3
  | Init_shift_size => 2
  | Init_from_size => 1
  | Init_to_size => 0
  end.

Definition read_so_far d (l : list Z) : option (geometry * Z * list Z) :=
  match st_init d with
  | Init_fixed_header => header l
  | i => if st_compression d =? COMPRESSION_CRLE then fields (fields_left i) i (st_geometry d) (st_size d) l else None
  end.

(** A state in the header; the memory holds the old image where it was put. *)
Definition reading_header d (l fut : list Z) : Prop :=
  st_state d = State_init /\ chunk_at (st_chunk d) l /\ bytes l /\ bytes fut /\ size_inv (st_size d) /\
  ws_ok (mem_of d) /\ holds (mem_of d) 0 old /\ (forall x, 0 <= x < ws_span -> is_byte (ws_view (mem_of d) x)) /\
  (st_init d = Init_fixed_header -> st_geometry d = mk_geometry 0 0 0 0) /\
  exists body D, read_so_far d (l ++ fut) = Some (g, to_size, body) /\ crle_decode body = Some D /\
    image g to_size old D = Some new.

Lemma fields_first n i gm s l : z_state s = Usize_first ->
  fields n i gm s l = fields n i gm (mk_size Usize_first 0 0 false) l.
Proof. intros E. destruct n; cbn [fields]; unfold header_sem; by rewrite E. Qed.

Lemma header_fields fixed l : header (fixed :: l) =
  if (Z.land (Z.shiftr fixed 4) 0x7 =? PATCH_TYPE_IN_PLACE) && (Z.land fixed 0xf =? COMPRESSION_CRLE)
  then fields 4 Init_memory_size (mk_geometry 0 0 0 0) (mk_size Usize_first 0 0 false) l else None.
Proof.
  cbn [header]. destruct (_ && _); [|done]. cbn [fields]. unfold header_sem. cbn [z_state].
  repeat (destruct (header_size _) as [[? ?]|]; [|done]; cbn [mbind option_bind fields next_init set_field z_state]). done.
Qed.

Definition live d (l fut : list Z) : Prop := reading_header d l fut \/ streaming d l fut.

Definition progress d (fut : list Z) (x : Z * in_place M) : Prop :=
  ws_patch (mem_of (snd x)) = ws_patch (mem_of d) /\
  ((fst x = 0 /\ exists l', live (snd x) l' fut) \/ (fst x = 1 /\ fut <> [] /\ live (snd x) [] fut)).

Lemma fixed_header_step d l fut : reading_header d l fut -> st_init d = Init_fixed_header -> l <> [] ->
  progress d fut (in_place_process_init_fixed_header d).
Proof.
  intros (Es & Hc & Hb & Hbf & Hs & Hok & Hh & Hby & Hg0 & body & D & Er & Ec & Ei) Ein Hne.
  unfold in_place_process_init_fixed_header. pose proof (chunk_get_at _ _ Hc) as Hget. destruct l as [|b l]; [done|].
  destruct Hget as (c' & -> & Hc'). unfold read_so_far in Er. rewrite Ein in Er. cbn [app] in Er. rewrite header_fields in Er.
  cbv zeta. destruct (Z.eqb_spec (Z.land (Z.shiftr b 4) 0x7) PATCH_TYPE_IN_PLACE) as [Ht|Ht]; [|done].
  destruct (Z.eqb_spec (Z.land b 0xf) COMPRESSION_CRLE) as [Hcr|Hcr]; [|done]. cbn [negb andb] in *.
  split; [done|]. left. split; [done|]. exists l. left. apply Forall_cons_1 in Hb as [_ Hb].
  unfold reading_header, read_so_far. proj. rewrite Hcr, (Hg0 Ein). split_and!; try done.
  exists body, D. split; [|done]. cbn [Z.eqb]. by rewrite fields_first.
Qed.

Lemma geometry_step d l fut : reading_header d l fut -> st_init d <> Init_fixed_header -> st_init d <> Init_to_size ->
  progress d fut (in_place_process_init_geometry d).
Proof.
  intros (Es & Hc & Hb & Hbf & Hs & Hok & Hh & Hby & Hg0 & body & D & Er & Ec & Ei) Hn1 Hn2.
  unfold in_place_process_init_geometry.
  destruct (header_unpack_spec _ _ _ Hs Hb Hc) as (res & v & s' & c' & l' & -> & Hc' & Hres & Hv).
  assert (st_compression d = COMPRESSION_CRLE /\
    fields (fields_left (st_init d)) (st_init d) (st_geometry d) (st_size d) (l ++ fut) = Some (g, to_size, body)) as [Hcr Ef].
  { unfold read_so_far in Er. destruct (Z.eqb_spec (st_compression d) COMPRESSION_CRLE); [|by destruct (st_init d)].
    by destruct (st_init d). }
  destruct (fields_left (st_init d)) as [|n] eqn:En; [by destruct (st_init d)|]. cbn [fields] in Ef.
  destruct Hres as [(-> & _ & Hb' & Hsem)|[(-> & -> & Hi & Hsem)|(-> & _ & _ & _ & Hsem)]]; rewrite Hsem in Ef; [| |done]; cbn [Z.eqb negb].
  - destruct (Hv eq_refl) as [Hv' Hz]. rewrite u32_small by lia. split; [done|]. left. split; [done|]. exists l'. left.
    unfold reading_header, read_so_far. proj. rewrite Hcr. split_and!; try done.
    + by destruct (st_init d).
    + exists body, D. split; [|done]. cbn [mbind option_bind] in Ef. rewrite <- Ef. destruct (st_init d); try done; injection En as <-; by rewrite fields_first.
  - split; [done|]. right. split_and!; [done| |].
    + intros ->. unfold header_sem in Ef. by destruct (z_state s').
    + left. unfold reading_header, read_so_far. proj. rewrite Hcr. split_and!; try done. exists body, D. split; [|done].
      destruct (st_init d); try done; injection En as <-; exact Ef.
Qed.

Lemma shift_memory_spec m : ws_ok m -> holds m 0 old -> (forall x, 0 <= x < ws_span -> is_byte (ws_view m x)) ->
  exists m', in_place_shift_memory g m = (0, m') /\ ws_ok m' /\ ws_patch m' = ws_patch m /\ intact m' 0.
Proof.
  destruct geometry_facts as (Hseg & Hshift & Hsmod & Hmmod & Hfrom & Hold0 & Hroom & Hto).
  pose proof ws_span_range as Hsr. assert (PAGE = 4096) as HP by done. intros Hok Hh Hby.
  unfold in_place_shift_memory. rewrite Hseg, Hfrom. rewrite (u32_small (memory_size g - _)) by lia.
  replace (Z.min (lenZ old) (memory_size g - shift_size g)) with (lenZ old) by lia. rewrite (u32_small (_ - 1)) by lia.
  set (n := (lenZ old + PAGE - 1) / PAGE).
  assert (1 <= n /\ lenZ old <= PAGE * n < lenZ old + PAGE) as [Hn1 Hn2] by
    (pose proof (Z.div_mod (lenZ old + PAGE - 1) PAGE ltac:(done)); pose proof (Z.mod_pos_bound (lenZ old + PAGE - 1) PAGE ltac:(done)); nia).
  assert (shift_size g + PAGE * n <= memory_size g) as Hn3.
  { rewrite HP in *. apply Z.mod_divide in Hsmod as [a Ha], Hmmod as [b Hb]; [|done..]. lia. }
  rewrite (u32_small (n - 1)) by lia.
  destruct (shift_loop_spec (Z.to_nat n) (shift_size g) m) as (m' & E & Hok' & Hp & Hv); [done|done|done|lia| |].
  { intros x Hx. apply Hby. lia. }
  replace (PAGE * (Z.of_nat (Z.to_nat n) - 1)) with ((n - 1) * PAGE) in E by lia. rewrite E. rewrite Z2Nat.id in Hv by lia.
  exists m'. split_and!; try done. intros x _ Hx. rewrite Hv by lia. replace (_ && _) with true by lia.
  replace (x - shift_size g) with (0 + (x - shift_size g)) at 1 by lia. apply Hh. lia.
Qed.

Lemma to_size_step d l fut : reading_header d l fut -> st_init d = Init_to_size ->
  progress d fut (in_place_process_init_to_size d).
Proof.
  destruct geometry_facts as (Hseg & Hshift & Hsmod & Hmmod & Hfrom & Hold0 & Hroom & Hto).
  intros (Es & Hc & Hb & Hbf & Hs & Hok & Hh & Hby & Hg0 & body & D & Er & Ec & Ei) Ein.
  unfold in_place_process_init_to_size.
  destruct (header_unpack_spec _ _ _ Hs Hb Hc) as (res & v & s' & c' & l' & -> & Hc' & Hres & Hv).
  unfold read_so_far in Er. rewrite Ein in Er. destruct (Z.eqb_spec (st_compression d) COMPRESSION_CRLE) as [Hcr|]; [|done].
  cbn [fields fields_left] in Er. cbv zeta. proj.
  destruct Hres as [(-> & _ & Hb' & Hsem)|[(-> & -> & Hi & Hsem)|(-> & _ & _ & _ & Hsem)]]; rewrite Hsem in Er; [| |done]; cbn [Z.eqb negb].
  - injection Er as Eg -> <-. rewrite Hcr. unfold patch_reader_init. cbn [Z.eqb negb]. replace (to_size <? 0) with false by lia.
    replace (to_size >? 0) with true by lia. proj. rewrite Eg.
    destruct (shift_memory_spec (mem_of d) Hok Hh Hby) as (m' & -> & Hok' & Hp & Hin). cbn [Z.eqb negb].
    split; [done|]. left. split; [done|]. exists l'. right. exists [], D. split.
    + exists Crle_idle. proj. split_and!; try done. intros i Hi. change (lenZ []) with 0 in Hi. lia.
    + unfold image, next_segment in Ei. destruct (stream_size D) as [[sz D2]|] eqn:Esz; [|done]. cbn in Ei.
      destruct (Z.leb_spec sz 0); [|done].
      eapply (Do_dfpatch _ (length D) 0 [] D D2 sz); proj; try done; [change (lenZ []) with 0; lia|].
      eapply intact_mono; [|done]. assert (PAGE = 4096) as HP by done. lia.
  - split; [done|]. right. split_and!; [done| |].
    + intros ->. unfold header_sem in Er. by destruct (z_state s').
    + left. unfold reading_header, read_so_far. proj. rewrite Ein, Hcr. split_and!; try done. exists body, D. split; [|done]. exact Er.
Qed.

Lemma header_step d l fut : reading_header d l fut -> l <> [] -> progress d fut (apply_patch_in_place_process_once uninit d).
Proof.
  intros Hr Hne. assert (progress d fut (in_place_process_init d)) as Hp.
  { unfold in_place_process_init. destruct (st_init d) eqn:Ein.
    - by eapply fixed_header_step.
    - eapply geometry_step; [done|congruence..].
    - eapply geometry_step; [done|congruence..].
    - eapply geometry_step; [done|congruence..].
    - eapply geometry_step; [done|congruence..].
    - by eapply to_size_step. }
  unfold apply_patch_in_place_process_once. destruct Hr as (-> & _).
  destruct (in_place_process_init d) as [res e]. destruct Hp as (Hp & Hc). cbn [fst snd] in *. split; cbn [fst snd].
  - destruct Hc as [(-> & _)|(-> & _)]; done.
  - destruct Hc as [(-> & ?)|(-> & ?)]; [by left|by right].
Qed.

(** * A chunk, and the end of the patch *)

Definition finished d : Prop :=
  st_state d = State_done /\ st_to_size d = to_size /\ ws_ok (mem_of d) /\ holds (mem_of d) 0 new /\ lenZ new = to_size /\
  exists r, st_reader d = Reader_crle r.

Lemma streaming_done d l fut : streaming d l fut -> st_state d = State_done -> finished d.
Proof.
  intros (out & D & (r & Er & Hst) & Hdo) Es. destruct Hdo; try congruence. unfold finished.
  destruct Hst as (_ & _ & _ & _ & _ & _ & _ & ? & _ & ? & ? & _). split_and!; try done. by exists r.
Qed.

(** After a round, and between two chunks. *)
Definition between (w fut : list Z) (s : Z * in_place M) : Prop :=
  ws_patch (mem_of (snd s)) = w /\
  ((finished (snd s) /\ (fst s = 0 \/ fst s = - DETOOLS_ALREADY_DONE)) \/ (fst s = 0 /\ exists l, live (snd s) l fut) \/
   (fst s = 1 /\ fut <> [] /\ live (snd s) [] fut)).
Definition waiting (fut : list Z) d : Prop := finished d \/ live d [] fut.

Lemma live_chunk d l fut : live d l fut -> chunk_at (st_chunk d) l.
Proof. intros [(_ & ? & _)|(out & D & (r & _ & _ & _ & ? & _) & _)]; done. Qed.

Lemma finished_once d : finished d -> apply_patch_in_place_process_once uninit d = (- DETOOLS_ALREADY_DONE, d).
Proof. intros (E & _). unfold apply_patch_in_place_process_once. by rewrite E. Qed.

(** A round from a live state with input left, or past the header. *)
Lemma live_once w fut d l : live d l fut -> (l <> [] \/ fut = []) -> ws_patch (mem_of d) = w ->
  between w fut (apply_patch_in_place_process_once uninit d).
Proof.
  intros Hl Hne Hw. assert (progress d fut (apply_patch_in_place_process_once uninit d) ->
    between w fut (apply_patch_in_place_process_once uninit d)) as Hpr.
  { intros (Hp & Hc). split; [congruence|]. by right. }
  destruct Hl as [Hr|Hs].
  - apply Hpr. eapply header_step; [done|]. destruct Hne as [|Hf]; [done|]. intros ->. subst fut.
    destruct Hr as (_ & _ & _ & _ & _ & _ & _ & _ & _ & body & D & Er & _). cbn [app] in Er.
    unfold read_so_far in Er. destruct (st_init d) eqn:Ein; [done|..]; (destruct (_ =? _); [|done]);
      cbn [fields fields_left] in Er; unfold header_sem in Er; by destruct (z_state (st_size d)).
  - destruct (st_state d) eqn:Es; try (apply Hpr; destruct (stream_step d l fut Hs) as (Hp & Hc); [congruence|]; split; [done|];
      destruct Hc as [(E & l' & ?)|(E & ? & ?)]; [left; split; [done|]; exists l'; by right|right; split_and!; [done|done|by right]]).
    pose proof (streaming_done d l fut Hs Es) as Hf. rewrite (finished_once d Hf). split; [done|]. left. split; [done|]. by right.
Qed.

Lemma to_do_same d d' out D : st_state d' = st_state d -> st_segment d' = st_segment d -> st_reader_size d' = st_reader_size d ->
  st_chunk_size d' = st_chunk_size d -> (forall x, intact (mem_of d) x -> intact (mem_of d') x) -> to_do d out D -> to_do d' out D.
Proof.
  intros Es Eg Er Ec Hi Hdo. destruct Hdo.
  - eapply (Do_dfpatch _ fuel index out D D' size); rewrite ?Es, ?Eg, ?Er; try done. by apply Hi.
  - eapply (Do_diff_size _ fuel p out D D' n); rewrite ?Es, ?Eg, ?Er; try done; [by eapply at_place_segment|by apply Hi].
  - eapply (Do_diff_data _ fuel p out D); rewrite ?Es, ?Eg, ?Er, ?Ec; try done; [by eapply at_place_segment|by apply Hi].
  - eapply (Do_extra_size _ fuel p out D D' n); rewrite ?Es, ?Eg, ?Er; try done; [by eapply at_place_segment|by apply Hi].
  - eapply (Do_extra_data _ fuel p out D); rewrite ?Es, ?Eg, ?Er, ?Ec; try done; [by eapply at_place_segment|by apply Hi].
  - eapply (Do_adjustment _ fuel p out D D' n); rewrite ?Es, ?Eg, ?Er; try done; [by eapply at_place_segment|by apply Hi].
  - apply Do_done; [by rewrite Es|done].
Qed.

(** The next chunk is put in front of what is still to come. *)
Lemma next_chunk d bs fut : waiting (bs ++ fut) d ->
  finished (set_chunk (mk_chunk bs 0) d) \/ live (set_chunk (mk_chunk bs 0) d) bs fut.
Proof.
  intros [Hf|[Hr|Hs]]; [by left|right; left|right; right].
  - destruct Hr as (Es & Hc & Hb & Hbf & Hs & Hok & Hh & Hby & Hg0 & body & D & Er & Ec & Ei). apply Forall_app in Hbf as [Hb1 Hb2].
    unfold reading_header. proj. split_and!; try done; [apply chunk_at_start|]. by exists body, D.
  - destruct Hs as (out & D & (r & Er & Hr & Hrs & Hc & Hb & Hbf & HD & ? & ? & ? & ? & ? & ?) & Hdo). apply Forall_app in Hbf as [Hb1 Hb2].
    exists out, D. split; [|by apply (to_do_same d)]. exists r. proj. split_and!; try done. apply chunk_at_start.
Qed.

Lemma between_round w fut s s' : between w fut s -> process_round uninit s = inl s' -> between w fut s'.
Proof.
  destruct s as [r e]. intros (Hpe & Hc) Er. unfold process_round in Er. cbn [fst snd] in *.
  destruct (chunk_available (st_chunk e) && (r >=? 0)) eqn:Ea; [|done]. injection Er as <-. apply andb_true_iff in Ea as [Ea Er].
  destruct Hc as [(Hf & _)|[(-> & l & Hlv)|(-> & _ & Hlv)]].
  - rewrite (finished_once e Hf). split; [done|]. left. split; [done|]. by right.
  - rewrite (chunk_available_at _ _ (live_chunk _ _ _ Hlv)) in Ea. eapply live_once; [done| |done]. left. by intros ->.
  - rewrite (chunk_available_at _ _ (live_chunk _ _ _ Hlv)) in Ea. done.
Qed.

Lemma between_last w fut s s' : between w fut s -> process_round uninit s = inr s' ->
  ws_patch (mem_of (snd s')) = w /\ waiting fut (snd s') /\ (fst s' = 0 \/ fst s' = 1 \/ fst s' = - DETOOLS_ALREADY_DONE).
Proof.
  destruct s as [r e]. intros (Hpe & Hc) Er. unfold process_round in Er. cbn [fst snd] in *.
  destruct (chunk_available (st_chunk e) && (r >=? 0)) eqn:Ea; [done|]. injection Er as <-. cbn [fst snd]. split; [done|].
  destruct Hc as [(Hf & Hr)|[(-> & l & Hlv)|(-> & _ & Hlv)]].
  - split; [by left|]. destruct Hr; auto.
  - split; [|by left]. right. rewrite (chunk_available_at _ _ (live_chunk _ _ _ Hlv)) in Ea. by destruct l.
  - split; [by right|]. by right; left.
Qed.

Lemma process_spec d bs fut : core_inv d -> bytes bs -> lenZ bs < 2 ^ 29 -> waiting (bs ++ fut) d ->
  exists d', detools_apply_patch_in_place_process uninit bs d = Some (0, d') /\ core_inv d' /\ waiting fut d' /\
    ws_patch (mem_of d') = ws_patch (mem_of d).
Proof.
  intros Hd Hb Hl Hw. unfold detools_apply_patch_in_place_process.
  destruct (iterate_ends (process_round uninit) (fun s => loop_inv d s /\ between (ws_patch (mem_of d)) fut s)
    (fun s => loop_inv d s /\ ws_patch (mem_of (snd s)) = ws_patch (mem_of d) /\ waiting fut (snd s) /\
       (fst s = 0 \/ fst s = 1 \/ fst s = - DETOOLS_ALREADY_DONE))
    loop_weight PROCESS_FUEL (0, set_chunk (mk_chunk bs 0) d)) as ([res d'] & -> & Hi & Hp & Hw' & Hr).
  - intros s s' [Hs1 Hs2] Er. destruct (loop_round uninit d s s' Hs1 Er). split; [|done]. split; [done|]. by eapply between_round.
  - intros s s' [Hs1 Hs2] Er. split; [|by eapply between_last]. unfold process_round in Er. destruct (_ && _); [done|]. by injection Er as <-.
  - split; [split_and!; try done; by apply start_dt_inv|]. split; [done|]. cbn [fst snd].
    destruct (next_chunk d bs fut Hw) as [Hf|Hlv]; [left; split; [done|by left]|]. right; left. split; [done|]. by exists bs.
  - unfold loop_weight. cbn [fst snd]. pose proof (start_weight d bs Hd Hl). change (Z.pos PROCESS_FUEL) with (2 ^ 60).
    destruct (_ && _); lia.
  - exists d'. destruct Hi as ([Hd' _] & _). cbn [fst snd] in *. split_and!; try done. by destruct Hr as [->|[->| ->]].
Qed.

(** Reading the next chunk leaves the work space as it is. *)
Lemma waiting_mem d m fut : waiting fut d -> ws_ok m -> (forall x, 0 <= x < ws_span -> ws_view m x = ws_view (mem_of d) x) ->
  waiting fut (set_mem m d).
Proof.
  destruct geometry_facts as (Hseg & Hshift & Hsmod & Hmmod & Hfrom & Hold0 & Hroom & Hto). assert (PAGE = 4096) as HP by done.
  intros Hw Hok Hv.
  assert (forall bs, lenZ bs <= ws_span -> holds (mem_of d) 0 bs -> holds m 0 bs) as Hhold.
  { intros bs Hbs H i Hi. rewrite Hv by lia. by apply H. }
  destruct Hw as [Hf|[Hr|Hs]]; [left|right; left|right; right].
  - destruct Hf as (Es & Ets & _ & Hh & Hl & Hr). unfold finished. proj. split_and!; try done. apply Hhold; [lia|done].
  - destruct Hr as (Es & Hc & Hb & Hbf & Hs & _ & Hh & Hby & Hg0 & Hrest). unfold reading_header. proj. split_and!; try done.
    + apply Hhold; [lia|done].
    + intros x Hx. rewrite Hv by done. by apply Hby.
  - destruct Hs as (out & D & (r & Er & Hr & Hrs & Hc & Hb & Hbf & HD & ? & ? & ? & _ & Hh & Hbo) & Hdo).
    exists out, D. split.
    + exists r. proj. split_and!; try done. apply Hhold; [|done].
      assert (lenZ out <= to_size); [|lia]. destruct Hdo; try lia; by match goal with Hat : at_place _ _ _ |- _ => destruct Hat as (?&?&?&?&?&?&?&?&?) end.
    + apply (to_do_same d); try done. intros lower H' x Hx Hx'. proj. rewrite Hv by lia. by apply H'.
Qed.

Lemma callbacks_loop_spec fuel : forall patch_size patch_offset d,
  core_inv d -> bytes (ws_patch (mem_of d)) -> ws_ok (mem_of d) -> waiting (ws_patch (mem_of d)) d ->
  patch_size - patch_offset = lenZ (ws_patch (mem_of d)) -> lenZ (ws_patch (mem_of d)) <= 512 * Z.of_nat fuel ->
  exists d', callbacks_loop uninit patch_read fuel patch_size patch_offset 0 d = Some (0, d') /\ core_inv d' /\ waiting [] d' /\
    ws_patch (mem_of d') = [].
Proof.
  induction fuel as [|fuel IH]; intros ps po d Hd Hb Hok Hw Hlen Hf; cbn [callbacks_loop];
    pose proof (lenZ_nonneg (ws_patch (mem_of d))) as H0.
  { destruct (ws_patch (mem_of d)) as [|b l] eqn:Ep; [by exists d|]. rewrite lenZ_cons in Hf. pose proof (lenZ_nonneg l). lia. }
  destruct (Z.ltb_spec po ps) as [Hlt|Hge]; cbn [andb Z.eqb].
  2:{ destruct (ws_patch (mem_of d)) as [|b l] eqn:Ep; [by exists d|]. rewrite lenZ_cons in Hlen. pose proof (lenZ_nonneg l). lia. }
  set (n := Z.min (ps - po) 512).
  destruct (ws_read_patch (mem_of d) n Hok) as (m' & -> & Hok' & Hp & Hv); [lia|]. cbn [Z.eqb].
  assert (lenZ (take (Z.to_nat n) (ws_patch (mem_of d))) = n) as Hln by (apply lenZ_take; lia).
  destruct (process_spec (set_mem m' d) (take (Z.to_nat n) (ws_patch (mem_of d))) (ws_patch m')) as (d1 & -> & Hd1 & Hw1 & Hp1);
    [done|by apply bytes_take|lia| |].
  { rewrite Hp, take_drop. by apply waiting_mem. }
  cbn [mbind option_bind]. proj.
  assert (ws_patch (mem_of d1) = drop (Z.to_nat n) (ws_patch (mem_of d))) as Hp2 by (rewrite Hp1; exact Hp).
  assert (ws_patch m' = ws_patch (mem_of d1)) as Hp3 by (rewrite Hp1; done). rewrite Hp3 in Hw1.
  apply IH; [done| | |done| |].
  - rewrite Hp2. by apply bytes_drop.
  - destruct Hw1 as [(_ & _ & ? & _)|[(_ & _ & _ & _ & _ & ? & _)|(out & D & (r & Hst) & _)]]; [done..|]. tauto.
  - rewrite Hp2, lenZ_drop by lia. lia.
  - rewrite Hp2, lenZ_drop by lia. lia.
Qed.

Definition ending w (s : in_place M) : Prop := ws_patch (mem_of s) = w /\ (finished s \/ exists l, live s l []).

Lemma ending_round w s : ending w s -> match finalize_round uninit s with
  | inl s' => ending w s'
  | inr (res, s') => res = - DETOOLS_ALREADY_DONE /\ ws_patch (mem_of s') = w /\ finished s'
  end.
Proof.
  intros [Hwp He]. unfold finalize_round. destruct He as [Hf|[l Hl]]; [by rewrite (finished_once s Hf)|].
  destruct (live_once _ [] s l Hl ltac:(by right) Hwp) as (Hp & Hc).
  destruct (apply_patch_in_place_process_once uninit s) as [res e]. cbn [fst snd] in *.
  destruct Hc as [(Hf & [-> | ->])|[(-> & H)|(_ & H & _)]]; cbn [Z.eqb]; [by split; [|left]|done|by split; [|right]|done].
Qed.

Lemma decoder_finalize_spec d : core_inv d -> waiting [] d ->
  exists d', detools_apply_patch_in_place_finalize uninit d = Some (lenZ new, d') /\ holds (mem_of d') 0 new /\
    ws_ok (mem_of d') /\ ws_patch (mem_of d') = ws_patch (mem_of d).
Proof.
  destruct geometry_facts as (_ & _ & _ & _ & _ & _ & _ & Hto). pose proof ws_span_range as Hsr.
  intros Hd Hw. unfold detools_apply_patch_in_place_finalize.
  destruct (iterate_ends (finalize_round uninit) (fun e => dt_inv e /\ ending (ws_patch (mem_of d)) e)
    (fun y => fst y = - DETOOLS_ALREADY_DONE /\ ws_patch (mem_of (snd y)) = ws_patch (mem_of d) /\ finished (snd y)) weight PROCESS_FUEL (set_chunk (mk_chunk [] 0) d)) as ([res d'] & -> & Hr & Hf).
  - intros e e' [He Hend] Er. pose proof (ending_round _ e Hend) as Hn. rewrite Er in Hn. unfold finalize_round in Er.
    destruct (process_once_round uninit e He) as [(Hb & _ & Hc & Hm' & _ & _ & Hwt) Hi].
    destruct (apply_patch_in_place_process_once uninit e) as [res' e1]. cbn [fst snd] in *.
    destruct (Z.eqb_spec res' 0) as [->|]; [|done]. injection Er as ->. pose proof (weight_nonneg e' (conj Hb Hi)).
    split; [split; [done|done]|]. specialize (Hwt eq_refl). lia.
  - intros e [res y] [He Hend] Er. pose proof (ending_round _ e Hend) as Hn. by rewrite Er in Hn.
  - split; [by apply start_dt_inv|]. split; [done|]. destruct (next_chunk d [] [] Hw) as [Hf|Hl]; [by left|right; by exists []].
  - pose proof (start_weight d [] Hd ltac:(done)). change (Z.pos PROCESS_FUEL) with (2 ^ 60). lia.
  - cbn [fst snd] in *. destruct Hf as (Hwp & _ & Hts & Hok & Hh & Hl & r & Er). exists d'. split; [|done].
    rewrite Hr, Hts, Er. unfold apply_patch_common_finalize. cbn [Z.eqb patch_reader_destroy].
    change (- DETOOLS_ALREADY_DONE =? 1) with false. change (- DETOOLS_ALREADY_DONE =? - DETOOLS_ALREADY_DONE) with true.
    cbn [Z.eqb]. rewrite Hl. unfold s32. rewrite Z.mod_small by lia. by rewrite Z.add_simpl_r.
Qed.

Lemma init_waiting patch_size m body D : bytes (ws_patch m) -> ws_ok m -> holds m 0 old ->
  (forall x, 0 <= x < ws_span -> is_byte (ws_view m x)) ->
  header (ws_patch m) = Some (g, to_size, body) -> crle_decode body = Some D -> image g to_size old D = Some new ->
  waiting (ws_patch m) (detools_apply_patch_in_place_init patch_size m).
Proof.
  intros Hb Hok Hh Hby Eh Ec Ei. right; left. unfold reading_header, detools_apply_patch_in_place_init.
  proj. split_and!; try done. by exists body, D.
Qed.
End Image.

(** The memory [m] holds the bytes [bs] from address 0 on. *)
Definition contains (m : M) (bs : list Z) : Prop := forall i, 0 <= i < lenZ bs -> ws_view m i = nthZ bs i.

Lemma decoder_makes_image m old g new :
  ws_ok m -> (forall x, 0 <= x < ws_span -> is_byte (ws_view m x)) -> bytes (ws_patch m) -> contains m old ->
  patched old (ws_patch m) = Some (g, new) -> memory_size g <= ws_span ->
  exists m', detools_apply_patch_in_place_callbacks uninit patch_read (lenZ (ws_patch m)) m = Some (lenZ new, m') /\
    contains m' new /\ ws_ok m' /\ ws_patch m' = [].
Proof.
  intros Hok Hby Hb Hc Hp Hspan. unfold patched in Hp. destruct (header (ws_patch m)) as [[[g' to_size] body]|] eqn:Eh; [|done].
  cbn [mbind option_bind] in Hp. destruct (geometry_ok g' to_size (lenZ old)) eqn:Hg; [|done].
  destruct (crle_decode body) as [D|] eqn:Ec; [|done]. cbn [mbind option_bind] in Hp.
  destruct (image g' to_size old D) as [new'|] eqn:Ei; [|done]. injection Hp as -> ->.
  set (d := detools_apply_patch_in_place_init (lenZ (ws_patch m)) m).
  assert (waiting g to_size old new (ws_patch m) d) as Hw by (by eapply init_waiting).
  destruct (callbacks_loop_spec g to_size old new Hg Hspan (S (Z.to_nat (lenZ (ws_patch m) / 512 + 1))) (lenZ (ws_patch m)) 0 d)
    as (d1 & E1 & Hd1 & Hw1 & Hend); [apply init_core|done|done|done|cbn; lia| |].
  { change (ws_patch (mem_of d)) with (ws_patch m). pose proof (lenZ_nonneg (ws_patch m)). Z.div_mod_to_equations. lia. }
  destruct (decoder_finalize_spec g to_size old new Hg Hspan d1 Hd1 Hw1) as (d2 & E2 & Hh & Hok2 & Hp2).
  exists (mem_of d2). split; [|split_and!; [intros i Hi; by apply (Hh i)|done|congruence]].
  unfold detools_apply_patch_in_place_callbacks, in_place_callbacks_process.
  eapply bind_pair; [|reflexivity]. eapply bind_pair; [exact E1|]. eapply bind_pair; [exact E2|reflexivity].
Qed.

(** C2: the in-place decoder makes the image the patch describes: whatever way
    the patch is read chunk by chunk, on a memory that works and holds the old
    image, [detools_apply_patch_in_place_callbacks] returns the length of the new
    image that the one-pass reading [patched] gives, leaves it at address 0,
    although it moves the old image up and overwrites it as it goes, and has read
    the patch to its end. *)
Theorem decoder_correct m old g new :
  ws_ok m -> (forall x, 0 <= x < ws_span -> is_byte (ws_view m x)) -> bytes (ws_patch m) -> contains m old ->
  patched old (ws_patch m) = Some (g, new) -> memory_size g <= ws_span ->
  exists m', detools_apply_patch_in_place_callbacks uninit patch_read (lenZ (ws_patch m)) m = Some (lenZ new, m') /\
    contains m' new /\ ws_ok m' /\ ws_patch m' = [].
Proof. apply decoder_makes_image. Qed.
End Correct.

#[export] Instance ram_workspace : Workspace ram ram_read_patch.
Proof.
  refine {| ws_span := ram_span; ws_ok m := bytes (ram_patch m); ws_view := ram_view; ws_patch := ram_patch |}.
  - done.
  - done.
  - intros m a bs Hok _ _ _. eexists. split; [done|]. by split_and!.
  - intros m a n Hok _ _ _ _. eexists. split; [done|]. split_and!; try done. intros x _ Hx. cbn. by replace (_ && _) with false by lia.
  - intros m n Hok Hn. unfold ram_read_patch. replace (_ && forallb _ _) with true; [|symmetry; apply andb_true_iff; split; [lia|]].
    + eexists. split; [done|]. split_and!; try done. by apply bytes_drop.
    + apply forallb_forall. intros b Hb. pose proof (proj1 (Forall_forall _ _) Hok b Hb) as Hx. unfold is_byte in Hx. lia.
Defined.

Lemma decoder_correct_witness :
  exists m', detools_apply_patch_in_place_callbacks no_byte ram_read_patch (lenZ (ws_patch small_ram)) small_ram =
      Some (lenZ [1; 2; 4; 3; 42], m') /\ contains m' [1; 2; 4; 3; 42] /\ ws_ok m' /\ ws_patch m' = [].
Proof.
  apply (decoder_correct no_byte small_ram [1; 2; 3; 4] (mk_geometry ram_span PAGE PAGE 4)).
  - by apply bytes_by_forallb.
  - intros x Hx. cbn. destruct (Z.ltb_spec x 4); unfold is_byte; lia.
  - by apply bytes_by_forallb.
  - intros i Hi. assert (i = 0 \/ i = 1 \/ i = 2 \/ i = 3) as [->|[->|[->| ->]]] by (change (lenZ [1; 2; 3; 4]) with 4 in Hi; lia); done.
  - vm_compute. reflexivity.
  - done.
Defined.
