(* ===== verification/OtaFlash.v ===== *)
(** The flash side of [src/ota_delta.c]: the flash port, page changes that are
    read back and retried, the one-page write-back cache, and the streaming hash
    of a region.  Flash may fail: [FlashPort] only says that an operation on a
    page leaves the other pages alone; [ReliableFlash] adds what a good part does. *)
From S2P Require Import Prelude Crc Sha256 Nvm.

Class FlashPort (F : Type) := {
  fl_view : F -> mem;
  fl_erase : F -> Z -> F;
  fl_write_words : F -> Z -> list Z -> F;
  view_byte f x : is_byte (fl_view f x);
  erase_outside f a x : ~ (a <= x < a + PAGE) -> fl_view (fl_erase f a) x = fl_view f x;
  write_outside f a bs x : ~ (a <= x < a + lenZ bs) -> fl_view (fl_write_words f a bs) x = fl_view f x
}.

Class ReliableFlash (F : Type) `{FlashPort F} := {
  erase_ones f a x : a mod PAGE = 0 -> a <= x < a + PAGE -> fl_view (fl_erase f a) x = 255;
  write_ands f a bs x : a mod 4 = 0 -> lenZ bs mod 4 = 0 -> a <= x < a + lenZ bs ->
    fl_view (fl_write_words f a bs) x = Z.land (fl_view f x) (nthZ bs (x - a))
}.

Definition fl_read {F} `{FlashPort F} (f : F) (a n : Z) : list Z := mem_read (fl_view f) a n.

(** * Hashing a region *)

(** [memset] of the part of [buf], read from [addr], that the approval field
    covers. *)
Definition normalize_approval (normalize_approval_at addr : Z) (buf : list Z) : list Z :=
  if normalize_approval_at =? UINT32_MAX then buf
  else
    let approval_end := u32 (normalize_approval_at + 4) in
    let chunk_end := u32 (addr + lenZ buf) in
    let overlap_start := Z.max addr normalize_approval_at in
    let overlap_end := Z.min chunk_end approval_end in
    if overlap_start <? overlap_end
    then put buf (overlap_start - addr) (replicate (Z.to_nat (overlap_end - overlap_start)) 0) else buf.

(** The loop of [sha256_read_region] over a reader; a round takes 256 bytes. *)
Fixpoint sha256_read_loop (fuel : nat) (read : Z -> Z -> option (list Z)) (normalize_approval_at addr len : Z)
    (c : sha256_ctx) : option sha256_ctx :=
  match fuel with
  | O => Some c
  | S fuel =>
    if len =? 0 then Some c
    else
      let n := Z.min len 256 in
      buf ← read addr n;
      sha256_read_loop fuel read normalize_approval_at (u32 (addr + n)) (len - n)
        (sha256_update c (normalize_approval normalize_approval_at addr buf))
  end.

(** [stack] is what the context's block buffer holds before it is used. *)
Definition sha256_read_region (stack : list Z) (read : Z -> Z -> option (list Z)) (addr len normalize_approval_at : Z)
    : option (list Z) :=
  c ← sha256_read_loop (S (Z.to_nat (len / 256))) read normalize_approval_at addr len (sha256_init stack);
  Some (sha256_final c).

(** * Verified page changes *)

Section Port.
Context {F : Type} `{FlashPort F}.

Definition FLASH_PAGE_ATTEMPTS : nat := 3.

(** The page's bytes compared with the words asked for, or with the erased
    state. *)
Definition flash_page_matches (f : F) (page : Z) (words : option (list Z)) : bool :=
  bytes_eqb (fl_read f page PAGE) (default (replicate (Z.to_nat PAGE) 255) words).

Fixpoint flash_page_attempts (n : nat) (f : F) (page : Z) (words : option (list Z)) : bool * F :=
  match n with
  | O => (false, f)
  | S n =>
    let f := fl_erase f page in
    let f := match words with Some w => fl_write_words f page w | None => f end in
    if flash_page_matches f page words then (true, f) else flash_page_attempts n f page words
  end.
Definition flash_page_change_verified (f : F) (page : Z) (words : option (list Z)) : bool * F :=
  flash_page_attempts FLASH_PAGE_ATTEMPTS f page words.
Definition flash_page_write_verified (f : F) (page : Z) (words : list Z) : bool * F :=
  flash_page_change_verified f page (Some words).
Definition flash_page_erase_verified (f : F) (page : Z) : bool * F := flash_page_change_verified f page None.

(** * The page cache *)

(** [g_cache], [g_cache_page] (0 is no page) and [g_cache_dirty], over the
    flash. *)
Record store := mk_store { st_flash : F; g_cache : list Z; g_cache_page : Z; g_cache_dirty : bool }.
Implicit Types s : store.

Definition cache_flush s : bool * store :=
  if g_cache_page s =? 0 then (true, s)
  else if g_cache_dirty s then
    let '(ok, f) := flash_page_write_verified (st_flash s) (g_cache_page s) (g_cache s) in
    if ok then (true, mk_store f (g_cache s) 0 false) else (false, mk_store f (g_cache s) (g_cache_page s) true)
  else (true, mk_store (st_flash s) (g_cache s) 0 false).

Definition cache_use s (page : Z) : bool * store :=
  if g_cache_page s =? page then (true, s)
  else
    let '(ok, s) := cache_flush s in
    if negb ok then (false, s) else (true, mk_store (st_flash s) (fl_read (st_flash s) page PAGE) page false).

Definition cread s (addr n : Z) : list Z :=
  let dst := fl_read (st_flash s) addr n in
  if negb (g_cache_page s =? 0) && g_cache_dirty s then
    let cs := g_cache_page s in
    let os := Z.max addr cs in
    let oe := Z.min (u32 (addr + n)) (u32 (cs + PAGE)) in
    if os <? oe then put dst (os - addr) (sliceZ (g_cache s) (os - cs) (oe - os)) else dst
  else dst.

Definition page_of (addr : Z) : Z := Z.land addr (~32 (PAGE - 1))%c.

(** One round per page; [fuel] rounds are left. *)
Fixpoint cwrite_loop (fuel : nat) s (addr : Z) (src : list Z) : bool * store :=
  match fuel with
  | O => (true, s)
  | S fuel =>
    if lenZ src =? 0 then (true, s)
    else
      let page := page_of addr in
      let off := addr - page in
      let chunk := Z.min (PAGE - off) (lenZ src) in
      let '(ok, s) := cache_use s page in
      if negb ok then (false, s)
      else
        cwrite_loop fuel (mk_store (st_flash s) (put (g_cache s) off (take (Z.to_nat chunk) src)) (g_cache_page s) true)
          (u32 (addr + chunk)) (drop (Z.to_nat chunk) src)
  end.
Definition cwrite s (addr : Z) (src : list Z) : bool * store := cwrite_loop (length src) s addr src.

Fixpoint cerase_loop (fuel : nat) s (addr n : Z) : bool * store :=
  match fuel with
  | O => (true, s)
  | S fuel =>
    if n =? 0 then (true, s)
    else
      let page := page_of addr in
      let step := Z.min (PAGE - (addr - page)) n in
      let '(ok, s) :=
        if g_cache_page s =? page
        then (true, mk_store (st_flash s) (replicate (Z.to_nat PAGE) 255) (g_cache_page s) true)
        else let '(ok, f) := flash_page_erase_verified (st_flash s) page in
             (ok, mk_store f (g_cache s) (g_cache_page s) (g_cache_dirty s)) in
      if negb ok then (false, s) else cerase_loop fuel s (u32 (addr + step)) (n - step)
  end.
Definition cerase s (addr n : Z) : bool * store := cerase_loop (Z.to_nat n) s addr n.
End Port.
Arguments store : clear implicits.
Arguments mk_store {F}. Arguments st_flash {F}. Arguments g_cache {F}. Arguments g_cache_page {F}.
Arguments g_cache_dirty {F}.

Lemma flash_page_matches_eq {F} `{FlashPort F} (f : F) page words : flash_page_matches f page words = true <->
  fl_read f page PAGE = default (replicate (Z.to_nat PAGE) 255) words.
Proof. unfold flash_page_matches. apply bytes_eqb_eq. Qed.

(** The comparison of two pages is never to be evaluated by conversion. *)
#[global] Opaque flash_page_matches.
