(* ===== verification/OtaMota.v ===== *)
(** Reading a staged update: the constants of [src/ota_layout.h], the retained
    handoff of [src/ota_hybrid_handoff.h], and the container part of
    [src/ota_delta.c] (where staged bytes come from, the parser, the scan, the
    pre-check of the patch's header, the search for the running image's trailer).
    The build is the internal one of the nRF52840 boards:
    [MOTA_INTERNAL_BOOTLOADER_UPDATE] with the 64 KiB RAM arena, no SD card and no
    external flash. *)
From S2P Require Import Prelude Crc Sha256 Nvm BootImage OtaFlash.

(** * Layout and triggers ([ota_layout.h]) *)

Definition MOTA_NRF52_APP_END : Z := 0xED000.
Definition MOTA_NRF52_BL_START : Z := 0xF4000.
Definition MOTA_NRF52_BL_SIZE : Z := 0xA000.
Definition MOTA_NRF52_INTERNAL_BL_SLOT_START : Z := 0xE2000.
Definition MOTA_NRF52_INTERNAL_BL_SLOT_END : Z := MOTA_NRF52_APP_END.
Definition MOTA_NRF52_STAGE_CEILING_LEGACY : Z := 0xD4000.
Definition MOTA_NRF52_STAGE_CEILING_EXPANDED : Z := MOTA_NRF52_APP_END.
Definition APP_APPLY_END : Z := MOTA_NRF52_APP_END.
Definition GPREGRET_OTA_APPLY : Z := 0x6A.
Definition GPREGRET_BOOTLOADER_APPLY : Z := 0x6B.
Definition GPREGRET2_OTA_STAGE_EXPANDED : Z := 0xED.
Definition GPREGRET2_OTA_STAGE_HYBRID : Z := 0xA6.
Definition MOTA_HYBRID_ARENA_START : Z := 0x20030000.
Definition MOTA_HYBRID_ARENA_SIZE : Z := 0x10000.
Definition MOTA_RESETREAS_SOFTWARE : Z := 4.

(** * The container's wire format *)

Definition MAGIC : list Z := [0x6D; 0x4F; 0x54; 0x41].
Definition TRAILER : list Z := [0x76; 0x6B; 0x34; 0x39; 0x36].
Definition ENDF : list Z := [0x45; 0x6E; 0x64; 0x46].
Definition APRV : list Z := [0x41; 0x50; 0x52; 0x56].
Definition ENDF_LEN : Z := 56.
Definition MOTA_MFL : Z := 197.
Definition MFLAG_FULL : Z := 1.
Definition MFLAG_SIGNED : Z := 2.
Definition MFLAG_BOOTLOADER : Z := 4.
Definition CODEC_FULL : Z := 0.
Definition CODEC_INPLACE : Z := 2.
Definition MOTA_MIN_LEN : Z := 8 + MOTA_MFL + 5.
(** [sizeof(mota_fixed_header_t)] and the offset of its last field. *)
Definition FIXED_HEADER_SIZE : Z := 8 + MOTA_MFL.
Definition APPROVAL_OFFSET : Z := 201.

(** What the boot leaves constant: the application base that the SoftDevice
    announces ([DFU_BANK_0_REGION_START]), the reset reason, the RAM the
    application staged bytes in, and what an uninitialised hash context holds. *)
Class OtaEnv := {
  APP_BASE : Z;
  resetreas_get : Z;
  ram : mem;
  stack_block : list Z;
  app_base_aligned : APP_BASE mod PAGE = 0;
  app_base_range : PAGE <= APP_BASE < MOTA_NRF52_STAGE_CEILING_LEGACY;
  ram_bytes x : is_byte (ram x);
  stack_block_length : length stack_block = 64%nat
}.

(** * The retained handoff ([ota_hybrid_handoff.h]) *)

(** [mota_hybrid_handoff_t] is kept as its 72 bytes. *)
Definition MOTA_HYBRID_HANDOFF_LEN : Z := 72.
Definition MOTA_HYBRID_HANDOFF_MAGIC : list Z := [0x4D; 0x4F; 0x54; 0x41; 0x48; 0x59; 0x42; 0x31].
Definition container_total (h : list Z) : Z := field32 h 16.
Definition flash_start (h : list Z) : Z := field32 h 20.
Definition flash_len (h : list Z) : Z := field32 h 24.
Definition ram_len (h : list Z) : Z := field32 h 28.
Definition container_sha256 (h : list Z) : list Z := sliceZ h 32 32.

Definition mota_hybrid_handoff_valid (h : list Z) : bool :=
  if negb (bytes_eqb (sliceZ h 0 8) MOTA_HYBRID_HANDOFF_MAGIC) || negb (field16 h 8 =? 1) ||
     negb (field16 h 10 =? MOTA_HYBRID_HANDOFF_LEN) || negb (nthZ h 12 =? 1) || negb (nthZ h 13 =? 2) ||
     negb (field16 h 14 =? 0) || (flash_len h =? 0) || (ram_len h =? 0) || (ram_len h >? MOTA_HYBRID_ARENA_SIZE) ||
     (flash_len h >? UINT32_MAX - ram_len h) || negb (container_total h =? u32 (flash_len h + ram_len h))
  then false
  else
    let crc := otafix_crc32_update 0 (sliceZ h 0 64) in
    (crc =? field32 h 64) && (field32 h 68 =? ~32 crc)%c.

Section Mota.
Context `{OtaEnv}.

(** The checks of [hybrid_handoff_take] on the copy it took. *)
Definition hybrid_handoff_accepted (h : list Z) : bool :=
  if negb (resetreas_get =? MOTA_RESETREAS_SOFTWARE) || negb (mota_hybrid_handoff_valid h) ||
     negb (Z.land (flash_start h) (PAGE - 1) =? 0) || negb (Z.land (flash_len h) (PAGE - 1) =? 0) ||
     (flash_start h <? APP_BASE) || (flash_start h >? UINT32_MAX - flash_len h)
  then false
  else
    let flash_end := u32 (flash_start h + flash_len h) in
    if negb (flash_end =? MOTA_NRF52_STAGE_CEILING_EXPANDED) || (container_total h <? MOTA_MIN_LEN) ||
       (flash_start h >? UINT32_MAX - container_total h)
    then false
    else
      let required_flash_len :=
        if container_total h >? MOTA_HYBRID_ARENA_SIZE + PAGE
        then Z.land (u32 (container_total h - MOTA_HYBRID_ARENA_SIZE + PAGE - 1)) (~32 (PAGE - 1))%c else PAGE in
      flash_len h =? required_flash_len.

(** The bytes left in [g_hybrid]; a rejected record keeps them but for the
    total. *)
Definition hybrid_handoff_take (record : list Z) : bool * list Z :=
  if hybrid_handoff_accepted record then (true, record) else (false, put record 16 (bytes32 0)).

(** * Staged bytes *)

Section Source.
(** The flash, and [g_hybrid]. *)
Context (fl : mem) (hybrid : list Z).

Definition hybrid_ram_read (offset len : Z) : option (list Z) :=
  if (offset >? MOTA_HYBRID_ARENA_SIZE) || (len >? MOTA_HYBRID_ARENA_SIZE - offset) then None
  else Some (mem_read ram (MOTA_HYBRID_ARENA_START + offset) len).

Definition hybrid_staged_read (address len : Z) : option (list Z) :=
  if (container_total hybrid =? 0) || (address <? flash_start hybrid) then None
  else
    let offset := address - flash_start hybrid in
    if (offset >? container_total hybrid) || (len >? container_total hybrid - offset) then None
    else
      let chunk := if offset <? flash_len hybrid then Z.min (flash_len hybrid - offset) len else 0 in
      let out := mem_read fl address chunk in
      let offset := offset + chunk in
      let len := len - chunk in
      if len =? 0 then Some out
      else out' ← hybrid_ram_read (u32 (offset - flash_len hybrid)) len; Some (out ++ out').

Definition staged_read (address len : Z) : option (list Z) :=
  if negb (container_total hybrid =? 0) then hybrid_staged_read address len else Some (mem_read fl address len).

(** * The parser *)

Record mota_min := mk_mota {
  mm_is_full : bool; mm_approved : bool; mm_format_ver : Z; mm_flags : Z; mm_hash_algo : Z; mm_block_size_log2 : Z;
  mm_total : Z; mm_image_size : Z; mm_payload_size : Z; mm_payload_addr : Z; mm_approval_addr : Z;
  mm_target_id : Z; mm_fw_version : Z; mm_block_count : Z;
  mm_image_hash : list Z; mm_codec_id : Z; mm_hw_id : list Z; mm_base_hash : list Z
}.

Definition parse_mota_at (addr limit : Z) : option mota_min :=
  if addr >? limit then None
  else
    let avail := limit - addr in
    if avail <? FIXED_HEADER_SIZE + lenZ TRAILER then None
    else
      header ← staged_read addr FIXED_HEADER_SIZE;
      if negb (bytes_eqb (sliceZ header 0 4) MAGIC) then None
      else
        let total := field32 header 4 in
        if (total <? FIXED_HEADER_SIZE + lenZ TRAILER) || (total >? avail) then None
        else
          trailer ← staged_read (u32 (addr + total - lenZ TRAILER)) (lenZ TRAILER);
          if negb (bytes_eqb trailer TRAILER) then None
          else if negb (nthZ header 8 =? 2) && negb (nthZ header 8 =? 3) then None
          else
            let flags := nthZ header 9 in
            let payload_size := field32 header 23 in
            let log2 := nthZ header 27 in
            if (log2 =? 0) || (log2 >? 24) || (payload_size =? 0) then None
            else
              let block_size := Z.shiftl 1 log2 in
              let block_count := Z.shiftr payload_size log2 +
                                 (if negb (Z.land payload_size (block_size - 1) =? 0) then 1 else 0) in
              if (block_count =? 0) || (block_count >? UINT16_MAX) then None
              else
                let payload_offset := FIXED_HEADER_SIZE + block_count * 4 in
                let payload_end := total - lenZ TRAILER in
                if (payload_offset >? payload_end) || negb (payload_size =? payload_end - payload_offset) then None
                else
                  Some (mk_mota (negb (Z.land flags MFLAG_FULL =? 0)) (bytes_eqb (sliceZ header APPROVAL_OFFSET 4) APRV)
                          (nthZ header 8) flags (nthZ header 10) log2 total (field32 header 19) payload_size
                          (u32 (addr + payload_offset)) (u32 (addr + APPROVAL_OFFSET)) (field32 header 11)
                          (field32 header 15) block_count (sliceZ header 32 32) (nthZ header 64) (sliceZ header 65 32)
                          (sliceZ header 97 8)).

(** * The scan *)

(** Page boundaries from [a] down, [n] of them. *)
Fixpoint scan_pages (n : nat) (stage_ceiling a : Z) : option (Z * mota_min) :=
  match n with
  | O => None
  | S n =>
    if a >? APP_BASE then
      let a := a - PAGE in
      match (if bytes_eqb (mem_read fl a 4) MAGIC then parse_mota_at a stage_ceiling else None) with
      | Some o => if Z.land (u32 (stage_ceiling - mm_total o)) (~32 (PAGE - 1))%c =? a then Some (a, o)
                  else scan_pages n stage_ceiling a
      | None => scan_pages n stage_ceiling a
      end
    else None
  end.

(** The address ([None] is 0) and the manifest. *)
Definition scan_mota (stage_ceiling : Z) : option (Z * mota_min) :=
  if negb (container_total hybrid =? 0) then
    let virtual_limit := u32 (flash_start hybrid + container_total hybrid) in
    match parse_mota_at (flash_start hybrid) virtual_limit with
    | Some o =>
        if negb (mm_total o =? container_total hybrid) ||
           (mm_approval_addr o >? u32 (flash_start hybrid + flash_len hybrid - 4)) then None
        else Some (flash_start hybrid, o)
    | None => None
    end
  else if negb (stage_ceiling =? MOTA_NRF52_STAGE_CEILING_LEGACY) && negb (stage_ceiling =? MOTA_NRF52_STAGE_CEILING_EXPANDED)
  then None
  else
    let top := Z.land (stage_ceiling - MOTA_MIN_LEN) (~32 (PAGE - 1))%c in
    scan_pages (Z.to_nat (top / PAGE + 1)) stage_ceiling (top + PAGE).

(** * The patch's header *)

(** The digits after the first; shift grows by 7 from 6 and 32 is refused. *)
Fixpoint dt_header_digits (fuel : nat) (addr len pos b v shift : Z) : option (Z * Z) :=
  match fuel with
  | O => None
  | S fuel =>
    if Z.land b 0x80 =? 0 then Some (v, pos)
    else if pos >=? len then None
    else
      buf ← staged_read (u32 (addr + pos)) 1;
      let b := nthZ buf 0 in
      let bits := Z.land b 0x7F in
      if (shift >=? 32) || (bits >? Z.shiftr UINT32_MAX shift) then None
      else dt_header_digits fuel addr len (pos + 1) b (Z.lor v (Z.shiftl bits shift)) (shift + 7)
  end.

(** The value and the new position. *)
Definition dt_header_u32 (addr len pos : Z) : option (Z * Z) :=
  if pos >=? len then None
  else
    buf ← staged_read (u32 (addr + pos)) 1;
    let b := nthZ buf 0 in
    '(v, pos) ← dt_header_digits 6 addr len (pos + 1) b (Z.land b 0x3F) 6;
    if v >? 0x7FFFFFFF then None else Some (v, pos).

Definition dt_geometry_values_ok (m : mota_min) (body_len ws_span fixed memory segment shift from to : Z) : bool :=
  if negb (Z.land (Z.shiftr fixed 4) 0x07 =? 1) || negb (Z.land fixed 0x0F =? 2) then false
  else if (memory =? 0) || (memory >? ws_span) || negb (segment =? PAGE) || (shift >? memory) ||
          negb (shift mod segment =? 0) || (from >? memory - shift) || (to >? memory) then false
  else if (body_len >? UINT32_MAX - ENDF_LEN) || negb (from =? body_len + ENDF_LEN) then false
  else (to =? mm_image_size m) && (to <=? ws_span).

Definition dt_geometry_sizes (m : mota_min) : option (Z * Z * Z * Z * Z) :=
  let next pos := dt_header_u32 (mm_payload_addr m) (mm_payload_size m) pos in
  '(memory, p) ← next 1;
  '(segment, p) ← next p;
  '(shift, p) ← next p;
  '(from, p) ← next p;
  '(to, _) ← next p;
  Some (memory, segment, shift, from, to).

Definition dt_geometry_ok (m : mota_min) (body_len ws_span : Z) : bool :=
  if mm_payload_size m <? 2 then false
  else
    match staged_read (mm_payload_addr m) 1 with
    | None => false
    | Some fixed =>
      match dt_geometry_sizes m with
      | Some (memory, segment, shift, from, to) =>
          dt_geometry_values_ok m body_len ws_span (nthZ fixed 0) memory segment shift from to
      | None => false
      end
    end.
End Source.

(** * The running image *)

(** Offsets from [off] up, [n] of them. *)
Fixpoint find_body_loop (n : nat) (fl : mem) (off : Z) : option Z :=
  match n with
  | O => None
  | S n =>
    let e := mem_read fl (APP_BASE + off) 8 in
    if bytes_eqb (sliceZ e 0 4) ENDF && (field32 e 4 =? off) then Some off else find_body_loop n fl (off + 1)
  end.

Definition find_body_len (fl : mem) (app_limit : Z) : option Z :=
  if app_limit <=? APP_BASE then None
  else find_body_loop (Z.to_nat (app_limit - APP_BASE - ENDF_LEN + 1)) fl 0.
End Mota.
