(* ===== verification/OtaState.v ===== *)
(** The state of [src/ota_delta.c] between its functions, and the helpers that the
    application update and the bootloader update share: clearing the approval,
    hashing a region, copying a staged image, committing the settings record. *)
From S2P Require Import Prelude Crc Sha256 Nvm BootImage DfuTypes Settings OtaFlash OtaMota.

Definition GPREGRET2_BL_GATE : Z := 0xC1.
Definition GPREGRET2_BL_CONTAINER : Z := 0xC2.
Definition GPREGRET2_BL_POLICY : Z := 0xC3.
Definition GPREGRET2_BL_INTEGRITY : Z := 0xC4.
Definition GPREGRET2_BL_MANIFEST : Z := 0xC5.
Definition GPREGRET2_BL_APPROVAL : Z := 0xC6.
Definition GPREGRET2_BL_COPY : Z := 0xC7.
Definition GPREGRET2_BL_MBR_HANDOFF : Z := 0xC8.
Definition GPREGRET2_BL_MBR_RETURNED : Z := 0xC9.

Section State.
Context {F : Type} `{FlashPort F} `{OtaEnv}.

(** The flash behind its cache, [g_hybrid], the retained record in RAM, and the
    two retained registers. *)
Record ota := mk_ota { o_store : store F; g_hybrid : list Z; o_retained : list Z; gpregret : Z; gpregret2 : Z }.
Implicit Types o : ota.

Definition o_flash o : F := st_flash (o_store o).
Definition set_store s o := mk_ota s (g_hybrid o) (o_retained o) (gpregret o) (gpregret2 o).
Definition set_flash (f : F) o :=
  set_store (mk_store f (g_cache (o_store o)) (g_cache_page (o_store o)) (g_cache_dirty (o_store o))) o.
Definition gpregret_set v o := mk_ota (o_store o) (g_hybrid o) (o_retained o) v (gpregret2 o).
Definition gpregret2_set v o := mk_ota (o_store o) (g_hybrid o) (o_retained o) (gpregret o) v.

(** [fl_read] and [staged_read] as readers. *)
Definition live_read o (a n : Z) : option (list Z) := Some (fl_read (o_flash o) a n).
Definition source_read o : Z -> Z -> option (list Z) := staged_read (fl_view (o_flash o)) (g_hybrid o).

Definition region_hash_valid o (address len : Z) (expected : list Z) (staged : bool) (normalize_approval_at : Z) : bool :=
  match sha256_read_region stack_block (if staged then source_read o else live_read o) address len normalize_approval_at with
  | Some digest => bytes_eqb digest expected
  | None => false
  end.
Definition full_image_hash_valid o (m : mota_min) (address : Z) (staged : bool) : bool :=
  region_hash_valid o address (mm_image_size m) (mm_image_hash m) staged UINT32_MAX.
Definition sha256_region o (addr len : Z) : list Z :=
  default [] (sha256_read_region stack_block (live_read o) addr len UINT32_MAX).

Definition hybrid_authorized_container_valid o : bool :=
  let approval_at := u32 (flash_start (g_hybrid o) + APPROVAL_OFFSET) in
  (container_total (g_hybrid o) >=? FIXED_HEADER_SIZE + lenZ TRAILER) &&
  region_hash_valid o (flash_start (g_hybrid o)) (container_total (g_hybrid o)) (container_sha256 (g_hybrid o)) true approval_at.

Definition clear_approval o (m : mota_min) : bool * ota :=
  let '(ok, s) := cwrite (o_store o) (mm_approval_addr m) [0; 0; 0; 0] in
  if negb ok then (false, set_store s o) else let '(ok, s) := cache_flush s in (ok, set_store s o).

(** [g_cache] is the page buffer; [n] pages are left. *)
Fixpoint copy_pages (n : nat) o (m : mota_min) (destination off : Z) : Z * ota :=
  match n with
  | O => (0, o)
  | S n =>
    if off <? mm_image_size m then
      let len := Z.min (mm_image_size m - off) PAGE in
      match source_read o (u32 (mm_payload_addr m + off)) len with
      | None => (0xBB, set_store (mk_store (o_flash o) (replicate (Z.to_nat PAGE) 255) (g_cache_page (o_store o)) (g_cache_dirty (o_store o))) o)
      | Some buf =>
        let cache := put (replicate (Z.to_nat PAGE) 255) 0 buf in
        let '(ok, f) := flash_page_write_verified (o_flash o) (u32 (destination + off)) cache in
        let o := set_store (mk_store f cache (g_cache_page (o_store o)) (g_cache_dirty (o_store o))) o in
        if negb ok then (0xBF, o) else copy_pages n o m destination (off + PAGE)
      end
    else (0, o)
  end.
Definition copy_staged_full_image o (m : mota_min) (destination : Z) : Z * ota :=
  copy_pages (Z.to_nat (mm_image_size m / PAGE + 1)) o m destination 0.

(** [otah_settings_commit]: the geometry and the trailer first, the two marker
    words last. *)
Definition SETTINGS_ADDRESS : Z := BOOTLOADER_SETTINGS_ADDRESS NRF52840.
Definition ota_settings (bank0 crc size : Z) : bootloader_settings :=
  bootloader_settings_seal (mk_settings bank0 crc BANK_INVALID_APP 0 size 0 0 0 0 0 0).
Definition settings_commit (f : F) (bank0 crc size : Z) : F :=
  let words := settings_bytes (ota_settings bank0 crc size) in
  let f := fl_erase f SETTINGS_ADDRESS in
  let f := fl_write_words f (SETTINGS_ADDRESS + 8) (sliceZ words 8 24) in
  let f := fl_write_words f (SETTINGS_ADDRESS + 4) (sliceZ words 4 4) in
  fl_write_words f SETTINGS_ADDRESS (sliceZ words 0 4).
Definition otah_settings_commit o (bank0 crc size : Z) : ota := set_flash (settings_commit (o_flash o) bank0 crc size) o.

Definition crc16_region o (a len : Z) : Z := crc16_compute (fl_read (o_flash o) a len) None.

Definition finish_app_update o (m : mota_min) : bool * ota :=
  if negb (full_image_hash_valid o m APP_BASE false) then (false, gpregret2_set 0xB7 o)
  else
    let image_crc := crc16_region o APP_BASE (mm_image_size m) in
    let o := otah_settings_commit o BANK_VALID_APP image_crc (mm_image_size m) in
    (true, gpregret2_set 0xB8 o).

Definition fail_apply (result : Z) o : bool * ota := (false, gpregret2_set result o).

(** The settings record as [bootloader_util_settings_get] gives it. *)
Definition flash_settings (f : F) : bootloader_settings := settings_of_bytes (fl_read f SETTINGS_ADDRESS SETTINGS_SIZE).

Definition ota_delta_live_app_fits_below o (limit : Z) : bool :=
  if limit <=? APP_BASE + ENDF_LEN then false
  else
    match find_body_len (fl_view (o_flash o)) limit with
    | None => false
    | Some body_len =>
      if (body_len =? 0) || (body_len >? limit - APP_BASE - ENDF_LEN) then false
      else
        let expected := fl_read (o_flash o) (APP_BASE + body_len + 8) 8 in
        let actual := sha256_region o APP_BASE body_len in
        if negb (bytes_eqb (sliceZ actual 0 8) expected) then false
        else
          let settings := flash_settings (o_flash o) in
          let crc_bound := bootloader_settings_integrity_valid settings && (bank_0 settings =? BANK_VALID_APP) &&
                           negb (bank_0_size settings =? 0) in
          let recorded_size := if crc_bound then bank_0_size settings else 0 in
          let endf_size := body_len + ENDF_LEN in
          negb crc_bound || ((recorded_size >=? endf_size) && (recorded_size <=? limit - APP_BASE))
    end.
End State.
Arguments ota : clear implicits.
Arguments mk_ota {F}. Arguments o_store {F}. Arguments g_hybrid {F}. Arguments o_retained {F}.
Arguments gpregret {F}. Arguments gpregret2 {F}.
