(* ===== verification/OtaBoot.v ===== *)
(** The bootloader update of [src/ota_delta.c] ([apply_bootloader_update]): a
    format-v3 container in the fixed internal slot is checked against this board's
    identity, compacted to the start of its slot and handed to the MBR. *)
From S2P Require Import Prelude Crc Sha256 Nvm BootImage DfuTypes Settings OtaFlash OtaMota OtaState.

(** What the build and the installed bootloader fix; [mbr_copy_bl] tells whether
    the MBR took over (it then does not return). *)
Class BootEnv (F : Type) := {
  USB_DESC_VID : Z;
  USB_DESC_UF2_PID : Z;
  DEVICE_NAME : list Z;
  MOTA_SOFTDEVICE_FAMILY : Z;
  installed_extension : bootloader_update_extension;
  mbr_copy_bl : F -> Z -> Z -> bool
}.

Definition MOTA_BL_STORAGE_STAGE_CEILING : Z := 0x02.
Definition MOTA_BL_STORAGE_BOOT_UPDATE : Z := 0x08.
Definition MOTA_BL_STORAGE_KNOWN : Z := 0x1F.
Definition MOTA_BOOT_UPDATE_STORAGE_FLAGS : Z := Z.lor MOTA_BL_STORAGE_STAGE_CEILING MOTA_BL_STORAGE_BOOT_UPDATE.
Definition MOTA_BOOT_UPDATE_CODEC_MASK : Z := Z.lor (Z.shiftl 1 CODEC_FULL) (Z.shiftl 1 CODEC_INPLACE).
(** The two capability markers' magics, and the whole RAM marker. *)
Definition MOTA_BL_MAGIC : list Z := [0x4D; 0x4F; 0x54; 0x41; 0x42; 0x4C; 0x44; 0x52].
Definition MOTA_BL_INFO_SIZE : Z := 16.
Definition g_mota_ram_info : list Z :=
  [0x4D; 0x4F; 0x54; 0x41; 0x52; 0x41; 0x4D; 0x41] ++ bytes16 1 ++ bytes16 MOTA_HYBRID_HANDOFF_LEN ++
  bytes32 MOTA_HYBRID_ARENA_SIZE.
Definition BOOT_UPDATE_BLOCK_COUNT : Z := 40.
Definition BOOT_UPDATE_RAW_START : Z := MOTA_NRF52_INTERNAL_BL_SLOT_START.

(** How [ota_delta_check_and_apply] can end. *)
Inductive outcome (O : Type) := Returns (applied : bool) (o : O) | Mbr_takes_over (o : O).
Arguments Returns {O}. Arguments Mbr_takes_over {O}.

Section Boot.
Context {F : Type} `{FlashPort F} `{OtaEnv} `{BootEnv F}.
Implicit Types o : ota F.

Definition BOOT_UPDATE_BOARD_ID : Z := Z.lor (u32 (Z.shiftl USB_DESC_VID 16)) USB_DESC_UF2_PID.

(** [BOOT_ID_DIGIT]: a hexadecimal digit of the board id. *)
Definition BOOT_ID_DIGIT (shift : Z) : Z :=
  let n := Z.land (Z.shiftr BOOT_UPDATE_BOARD_ID shift) 0x0F in
  if n <? 10 then 0x30 + n else u8 (0x41 + n - 10).
Definition boot_identity : list Z :=
  [0x4E; 0x52; 0x46; 0x5F; 0x42; 0x4C; 0x5F] ++ map BOOT_ID_DIGIT [28; 24; 20; 16; 12; 8; 4; 0] ++ [0x5F] ++
  put (replicate 16 0) 0 DEVICE_NAME.

(** The target id and the hardware id. *)
Definition boot_update_expected_identity : option (Z * list Z) :=
  let name_len := lenZ DEVICE_NAME in
  if (BOOT_UPDATE_BOARD_ID =? 0) || (BOOT_UPDATE_BOARD_ID =? UINT32_MAX) || (name_len =? 0) || (name_len >? 15) then None
  else if existsb (fun ch => (ch <? 0x21) || (ch >? 0x7E)) DEVICE_NAME then None
  else
    let hash := sha256_final (sha256_update (sha256_init stack_block) boot_identity) in
    let target_id := read_le32 hash in
    if negb (target_id =? 0) && negb (target_id =? UINT32_MAX) then Some (target_id, boot_identity) else None.

Definition boot_vectors_valid (vectors : list Z) : bool :=
  if negb (bootloader_image_vectors_valid NRF52840 vectors 8 MOTA_NRF52_BL_START MOTA_NRF52_BL_SIZE) then false
  else read_le32 vectors <=? MOTA_HYBRID_ARENA_START.

Definition staged_vectors_valid o (payload_addr : Z) : bool :=
  match source_read o payload_addr 8 with
  | Some vectors => boot_vectors_valid vectors
  | None => false
  end.

Definition boot_update_policy_valid (m : mota_min) : bool :=
  match boot_update_expected_identity with
  | None => false
  | Some (expected_target_id, expected_hw_id) =>
    (mm_format_ver m =? 3) && (mm_flags m =? Z.lor (Z.lor MFLAG_FULL MFLAG_SIGNED) MFLAG_BOOTLOADER) &&
    (mm_hash_algo m =? 0x12) && mm_is_full m && (mm_codec_id m =? CODEC_FULL) &&
    (mm_target_id m =? expected_target_id) && negb (mm_fw_version m =? 0) && bytes_eqb (mm_hw_id m) expected_hw_id &&
    bytes_eqb (mm_base_hash m) (replicate 8 0) && (mm_block_size_log2 m =? 10) &&
    (mm_block_count m =? BOOT_UPDATE_BLOCK_COUNT) && (mm_image_size m =? MOTA_NRF52_BL_SIZE) &&
    (mm_payload_size m =? MOTA_NRF52_BL_SIZE)
  end.

(** The scan of [boot_image_caps_valid] from [off] on: the counts of the two
    markers, or [None] where it returns 0. *)
Fixpoint caps_scan (n : nat) (image : list Z) (off matches ram_matches : Z) : option (Z * Z) :=
  match n with
  | O => Some (matches, ram_matches)
  | S n =>
    if off + MOTA_BL_INFO_SIZE <=? MOTA_NRF52_BL_SIZE then
      let candidate := sliceZ image off MOTA_BL_INFO_SIZE in
      let ram_matches := if bytes_eqb candidate g_mota_ram_info then ram_matches + 1 else ram_matches in
      if bytes_eqb candidate g_mota_ram_info && (ram_matches >? 1) then None
      else if negb (bytes_eqb (sliceZ candidate 0 8) MOTA_BL_MAGIC) then caps_scan n image (off + 4) matches ram_matches
      else
        let apply_abi := field16 candidate 8 in
        let codec_mask := field16 candidate 10 in
        let storage i := nthZ candidate (12 + i) in
        if (apply_abi >=? 3) && negb (apply_abi =? UINT16_MAX) &&
           (Z.land codec_mask MOTA_BOOT_UPDATE_CODEC_MASK =? MOTA_BOOT_UPDATE_CODEC_MASK) &&
           negb (Z.land (storage 0) MOTA_BL_STORAGE_BOOT_UPDATE =? 0) &&
           (Z.land (storage 0) (u8 (~32 MOTA_BL_STORAGE_KNOWN)%c) =? 0) &&
           (Z.lor (Z.lor (storage 1) (storage 2)) (storage 3) =? 0)
        then
          if (matches + 1 >? 1) || negb (storage 0 =? MOTA_BOOT_UPDATE_STORAGE_FLAGS) then None
          else caps_scan n image (off + 4) (matches + 1) ram_matches
        else caps_scan n image (off + 4) matches ram_matches
    else Some (matches, ram_matches)
  end.
Definition boot_image_caps_valid (image : list Z) : bool :=
  match caps_scan (Z.to_nat (MOTA_NRF52_BL_SIZE / 4)) image 0 0 0 with
  | None => false
  | Some (matches, ram_matches) => (matches =? 1) && (ram_matches =? 1)
  end.

Definition installed_boot_info : option bootloader_image_info :=
  let e := installed_extension in
  if negb (bootloader_extension_validate e) then None
  else Some (mk_info (ext_boot_version e) (ext_softdevice_family e) (ext_softdevice_fwid e) (ext_app_base e) (ext_layout_abi e)).

(** [SD_FWID_GET(MBR_SIZE)]. *)
Definition runtime_softdevice_fwid (f : F) : Z := u16 (mem_word (fl_view f) (MBR_SIZE + SD_FWID_OFFSET)).

(** [expected_device_name] is the manifest's 16-byte field. *)
Definition expected_device_name : list Z := put (replicate 16 0) 0 DEVICE_NAME.

Definition boot_image_metadata_valid_at (f : F) (address : Z) (m : mota_min) : bool :=
  let image := fl_read f address MOTA_NRF52_BL_SIZE in
  match bootloader_image_info_get NRF52840 false (Some image) MOTA_NRF52_BL_START MOTA_NRF52_BL_SIZE
          BOOT_UPDATE_BOARD_ID (Some expected_device_name) with
  | None => false
  | Some candidate =>
    if negb (boot_image_caps_valid image) then false
    else
      match installed_boot_info with
      | None => false
      | Some installed =>
        (softdevice_family candidate =? softdevice_family installed) &&
        (softdevice_fwid candidate =? softdevice_fwid installed) &&
        (app_base candidate =? app_base installed) && (layout_abi candidate =? layout_abi installed) &&
        (softdevice_family candidate =? MOTA_SOFTDEVICE_FAMILY) &&
        (softdevice_fwid candidate =? runtime_softdevice_fwid f) && (app_base candidate =? APP_BASE) &&
        (layout_abi candidate =? BOOTLOADER_UPDATE_LAYOUT_ABI) && (boot_version candidate =? mm_fw_version m)
      end
  end.

Definition boot_update_reject o (m : mota_min) (result : Z) : bool * ota F :=
  let o := gpregret2_set result o in
  if mm_approved m then
    let '(ok, o) := clear_approval o m in
    (false, if negb ok then gpregret2_set GPREGRET2_BL_APPROVAL o else o)
  else (false, o).

Definition scan_bootloader_mota o (source : Z) : option (Z * mota_min) :=
  if negb (source =? GPREGRET2_OTA_STAGE_EXPANDED) then None
  else
    match scan_mota (fl_view (o_flash o)) (g_hybrid o) MOTA_NRF52_INTERNAL_BL_SLOT_END with
    | Some (address, m) => if address =? MOTA_NRF52_INTERNAL_BL_SLOT_START then Some (address, m) else None
    | None => None
    end.

Definition apply_bootloader_update o : outcome (ota F) :=
  let ret (x : bool * ota F) := Returns (fst x) (snd x) in
  let source := gpregret2 o in
  let o := gpregret2_set GPREGRET2_BL_GATE (gpregret_set 0 o) in
  match scan_bootloader_mota o source with
  | None => ret (fail_apply GPREGRET2_BL_CONTAINER o)
  | Some (_, m) =>
    if negb (mm_approved m) then ret (fail_apply GPREGRET2_BL_CONTAINER o)
    else if negb (boot_update_policy_valid m) then ret (boot_update_reject o m GPREGRET2_BL_POLICY)
    else if negb (staged_vectors_valid o (mm_payload_addr m)) || negb (full_image_hash_valid o m (mm_payload_addr m) true)
    then ret (boot_update_reject o m GPREGRET2_BL_INTEGRITY)
    else if negb (ota_delta_live_app_fits_below o BOOT_UPDATE_RAW_START) then ret (boot_update_reject o m GPREGRET2_BL_POLICY)
    else if negb (boot_image_metadata_valid_at (o_flash o) (mm_payload_addr m) m)
    then ret (boot_update_reject o m GPREGRET2_BL_MANIFEST)
    else
      let '(ok, o) := clear_approval o m in
      if negb ok then ret (fail_apply GPREGRET2_BL_APPROVAL o)
      else
        let '(result, o) := copy_staged_full_image o m BOOT_UPDATE_RAW_START in
        if negb (result =? 0) || negb (full_image_hash_valid o m BOOT_UPDATE_RAW_START false)
        then ret (fail_apply GPREGRET2_BL_COPY o)
        else if negb (boot_image_metadata_valid_at (o_flash o) BOOT_UPDATE_RAW_START m) then ret (fail_apply GPREGRET2_BL_MANIFEST o)
        else
          let o := gpregret2_set GPREGRET2_BL_MBR_HANDOFF o in
          if mbr_copy_bl (o_flash o) BOOT_UPDATE_RAW_START (MOTA_NRF52_BL_SIZE / 4) then Mbr_takes_over o
          else Returns false (gpregret2_set GPREGRET2_BL_MBR_RETURNED o)
  end.
End Boot.
