(* ===== verification/OtaDemo.v ===== *)
(** A device to try the updater on: a flash that works, an application of four
    bytes and its trailer at [APP_BASE], and a staged container that turns it into
    another one of five bytes. *)
From S2P Require Import Prelude Sha256 Nvm BootImage Detools DetoolsSpec OtaFlash OtaMota OtaState OtaBoot.

(** * A NOR flash *)

Definition nor : Type := Z -> Z.

#[export] Instance nor_port : FlashPort nor.
Proof.
  refine {| fl_view f x := u8 (f x);
            fl_erase f p := fun x => if (p <=? x) && (x <? p + PAGE) then 255 else f x;
            fl_write_words f a bs := fun x => if (a <=? x) && (x <? a + lenZ bs) then Z.land (u8 (f x)) (nthZ bs (x - a)) else f x |}.
  - intros f x. apply u8_range.
  - intros f a x Hx. by replace (_ && _) with false by lia.
  - intros f a bs x Hx. by replace (_ && _) with false by lia.
Defined.

#[export] Instance nor_reliable : ReliableFlash nor.
Proof.
  split.
  - intros f a x _ Hx. cbn. by replace (_ && _) with true by lia.
  - intros f a bs x _ _ Hx. cbn. replace (_ && _) with true by lia. unfold u8 at 1. apply Z.mod_small.
    rewrite Z.land_comm. apply (land_range_r 8); [lia|apply u8_range].
Defined.

#[export] Instance demo_env : OtaEnv.
Proof.
  refine {| APP_BASE := 0x26000; resetreas_get := MOTA_RESETREAS_SOFTWARE; ram _ := 0; stack_block := replicate 64 0 |}; done.
Defined.

#[export] Instance demo_boot {F} : BootEnv F := {|
  USB_DESC_VID := 0x239A; USB_DESC_UF2_PID := 0x0071; DEVICE_NAME := [0x54; 0x31; 0x31; 0x34]; MOTA_SOFTDEVICE_FAMILY := 140;
  installed_extension := mk_extension 0 0 0 0 0 0 0 0 0 0 0; mbr_copy_bl _ _ _ := true
|}.

(** * The application and the container *)

Definition demo_body : list Z :=
  [1; 2; 3; 4].
(** Body, marker, length, hash, version, target, hardware id. *)
Definition demo_app : list Z :=
  [1; 2; 3; 4; 69; 110; 100; 70; 4; 0; 0; 0; 159; 100; 167; 71; 225; 185; 127; 19; 1; 0; 0; 0; 2; 0; 0; 0; 0; 0; 0; 0;
   0; 0; 0; 0; 0; 0; 0; 0; 0; 0; 0; 0; 0; 0; 0; 0; 0; 0; 0; 0; 0; 0; 0; 0; 0; 0; 0; 0].
Definition demo_new : list Z :=
  [42; 43; 44; 45; 46].
(** Five new bytes and no old ones. *)
Definition demo_payload : list Z :=
  [18; 128; 192; 1; 128; 64; 128; 64; 60; 5; 0; 9; 0; 0; 5; 42; 43; 44; 45; 46; 0].
(** Format 2, signed, in-place, approved; one leaf. *)
Definition demo_container : list Z :=
  [109; 79; 84; 65; 235; 0; 0; 0; 2; 2; 18; 7; 0; 0; 0; 3; 0; 0; 0; 5; 0; 0; 0; 21; 0; 0; 0; 10; 0; 0; 0; 0; 34; 19;
   134; 141; 26; 111; 30; 245; 28; 174; 122; 212; 23; 98; 3; 6; 229; 11; 119; 54; 50; 249; 180; 134; 250; 144; 90; 67;
   27; 182; 182; 115; 2; 0; 0; 0; 0; 0; 0; 0; 0; 0; 0; 0; 0; 0; 0; 0; 0; 0; 0; 0; 0; 0; 0; 0; 0; 0; 0; 0; 0; 0; 0; 0; 0;
   159; 100; 167; 71; 225; 185; 127; 19; 0; 0; 0; 0; 0; 0; 0; 0; 0; 0; 0; 0; 0; 0; 0; 0; 0; 0; 0; 0; 0; 0; 0; 0; 0; 0; 0;
   0; 0; 0; 0; 0; 0; 0; 0; 0; 0; 0; 0; 0; 0; 0; 0; 0; 0; 0; 0; 0; 0; 0; 0; 0; 0; 0; 0; 0; 0; 0; 0; 0; 0; 0; 0; 0; 0; 0;
   0; 0; 0; 0; 0; 0; 0; 0; 0; 0; 0; 0; 0; 0; 0; 0; 0; 0; 0; 0; 0; 0; 0; 0; 0; 0; 0; 0; 0; 0; 65; 80; 82; 86; 0; 0; 0; 0;
   18; 128; 192; 1; 128; 64; 128; 64; 60; 5; 0; 9; 0; 0; 5; 42; 43; 44; 45; 46; 0; 118; 107; 52; 57; 54].

Definition demo_flash : nor := fun x =>
  if (0xEC000 <=? x) && (x <? 0xEC000 + 235) then nthZ demo_container (x - 0xEC000)
  else if (0x26000 <=? x) && (x <? 0x26000 + 60) then nthZ demo_app (x - 0x26000) else 255.
Definition demo_manifest : mota_min :=
  mk_mota false true 2 2 0x12 10 235 5 21 0xEC0D1 0xEC0C9 7 3 1 (sliceZ demo_container 32 32) CODEC_INPLACE (replicate 32 0)
    (sliceZ demo_container 97 8).

(** After the application asked for the update. *)
Definition demo_state {F} (f : F) : ota F :=
  mk_ota (mk_store f (replicate (Z.to_nat PAGE) 0) 0 false) (replicate 72 0) (replicate 72 0) GPREGRET_OTA_APPLY GPREGRET2_OTA_STAGE_EXPANDED.
(** After the application asked for a bootloader update. *)
Definition demo_boot_request {F} (f : F) : ota F :=
  mk_ota (o_store (demo_state f)) (replicate 72 0) (replicate 72 0) GPREGRET_BOOTLOADER_APPLY GPREGRET2_OTA_STAGE_EXPANDED.
