(* ===== verification/OtaGeometry.v ===== *)
(** The check of the patch's header before the commit point ([dt_geometry_ok])
    against what the decoder will read there ([DetoolsSpec.header]). *)
From S2P Require Import Prelude Sha256 Nvm Detools DetoolsSpec DetoolsStream DetoolsTotal OtaFlash OtaMota OtaState OtaBoot OtaDemo.

Lemma image_length g to_size old l new : image g to_size old l = Some new -> lenZ new = to_size.
Proof.
  assert (forall fuel p out l, hunk g to_size old fuel p out l = Some new -> lenZ new = to_size) as Hh.
  { induction fuel as [|fuel IH]; intros p out k E; cbn [hunk] in E; [done|].
    unfold hunk_body in E. destruct (stream_size k) as [[n k1]|]; [|done]. cbn [mbind option_bind] in E.
    unfold diff_data in E. destruct (_ && _) in E; [|done].
    unfold after_diff in E. destruct (stream_size _) as [[n2 k2]|]; [|done]. cbn [mbind option_bind] in E.
    unfold extra_data in E. destruct (_ && _) in E; [|done].
    unfold after_extra in E. destruct (stream_size _) as [[n3 k3]|]; [|done]. cbn [mbind option_bind] in E.
    unfold end_of_hunk in E. match type of E with context [?a =? to_size] => destruct (Z.eqb_spec a to_size) as [Hl|_] end.
    { destruct (bool_decide _); [|done]. injection E as <-. exact Hl. }
    destruct (_ =? 0); [|by eapply IH]. destruct (stream_size _) as [[n4 k4]|]; [|done]. cbn [mbind option_bind] in E.
    destruct (_ <=? 0); [by eapply IH|done]. }
  intros E. unfold image, next_segment in E. destruct (stream_size _) as [[n k]|]; [|done]. cbn [mbind option_bind] in E.
  destruct (_ <=? 0); [by eapply Hh|done].
Qed.

Section Geometry.
Context `{OtaEnv} (fl : mem) (h : list Z) (addr : Z) (payload : list Z).
Context (Hb : bytes payload) (Ha : 0 <= addr) (Hend : addr + lenZ payload < 2 ^ 32).
Context (Hsrc : forall off n, 0 <= off -> 0 <= n -> off + n <= lenZ payload -> staged_read fl h (addr + off) n = Some (sliceZ payload off n)).

(** Where the rest [l] of the payload starts. *)
Definition position (l : list Z) : Z := lenZ payload - lenZ l.
Definition suffix (l : list Z) : Prop := exists k, payload = k ++ l.

Lemma suffix_tail b l : suffix (b :: l) -> suffix l.
Proof. intros [k E]. exists (k ++ [b]). by rewrite <- app_assoc. Qed.

Lemma suffix_byte b l : suffix (b :: l) -> is_byte b /\ position l = position (b :: l) + 1 /\ position (b :: l) < lenZ payload /\
  staged_read fl h (u32 (addr + position (b :: l))) 1 = Some [b].
Proof.
  intros [k E]. unfold position. rewrite lenZ_cons. pose proof (lenZ_nonneg l).
  assert (lenZ payload = lenZ k + 1 + lenZ l) as Hl by (rewrite E, lenZ_app, lenZ_cons; lia). pose proof (lenZ_nonneg k).
  rewrite u32_small by lia. split; [|split; [lia|split; [lia|]]].
  - pose proof Hb as Hb'. rewrite E in Hb'. apply Forall_app in Hb' as [_ Hb']. by inversion Hb'.
  - rewrite Hsrc by lia. f_equal. apply eq_by_nthZ; rewrite lenZ_sliceZ by lia; [done|]. intros i Hi. rewrite nthZ_sliceZ by lia.
    replace i with 0 by lia. replace (lenZ payload - (1 + lenZ l) + 0) with (lenZ k) by lia.
    rewrite E, nthZ_app_r by lia. by rewrite Z.sub_diag.
Qed.

Lemma header_digits l : forall fuel b0 v shift w k, suffix l -> Z.land b0 0x80 <> 0 -> 0 <= v < 2 ^ shift -> 0 <= shift ->
  shift mod 7 = 6 -> 34 <= shift + 7 * Z.of_nat fuel -> b128 shift v l = Some (w, k) ->
  dt_header_digits fl h fuel addr (lenZ payload) (position l) b0 v shift = Some (w, position k) /\ suffix k /\ 0 <= w < 2 ^ 27.
Proof.
  induction l as [|b l IH]; intros fuel b0 v shift w k Hs Hb0 Hv Hsh Hmod Hf E; cbn [b128] in E; [done|].
  destruct (Z.gtb_spec (shift + 7) 32); [done|]. destruct fuel as [|fuel]; [lia|]. cbn [dt_header_digits].
  destruct (Z.eqb_spec (Z.land b0 0x80) 0) as [|_]; [done|].
  destruct (suffix_byte b l Hs) as (Hby & Hp & Hlt & Hr). replace (position (b :: l) >=? lenZ payload) with false by lia.
  rewrite Hr. cbn [mbind option_bind]. change (nthZ [b] 0) with b.
  assert (Z.land b 0x7F = b mod 128) as -> by (change 0x7F with (Z.ones 7); by rewrite Z.land_ones by lia).
  assert (shift <= 20) as Hs20 by (Z.div_mod_to_equations; lia).
  assert (2 ^ shift <= 2 ^ 20) as Hpow by (apply Z.pow_le_mono_r; lia).
  assert (0 <= b mod 128 < 128) as Hbm by (apply Z.mod_pos_bound; lia).
  assert (2 ^ (shift + 7) = 128 * 2 ^ shift) as Hp7 by (rewrite Z.pow_add_r by lia; lia).
  replace ((shift >=? 32) || (b mod 128 >? Z.shiftr UINT32_MAX shift)) with false.
  2:{ symmetry. apply orb_false_iff. split; [lia|]. rewrite Z.shiftr_div_pow2 by lia.
      assert (128 <= UINT32_MAX / 2 ^ shift) by (apply Z.div_le_lower_bound; unfold UINT32_MAX; lia). lia. }
  rewrite lor_disjoint_add by lia.
  assert (0 <= v + b mod 128 * 2 ^ shift < 2 ^ (shift + 7)) as Hv' by nia.
  rewrite <- Hp. destruct (Z.ltb_spec b 128) as [Hlo|Hhi].
  - injection E as <- <-. assert (Z.land b 0x80 = 0) as Hl0 by (pose proof (land_128 b Hby); lia).
    split_and!; [|by eapply suffix_tail|lia|].
    + destruct fuel as [|fuel]; [lia|]. cbn [dt_header_digits]. by rewrite Hl0.
    + eapply Z.lt_le_trans; [apply Hv'|]. apply Z.pow_le_mono_r; lia.
  - eapply IH; try done; [by eapply suffix_tail| |lia| |lia].
    + pose proof (land_128 b Hby). lia.
    + rewrite Zplus_mod, Hmod. done.
Qed.

Lemma header_u32 l w k : suffix l -> header_size l = Some (w, k) ->
  dt_header_u32 fl h addr (lenZ payload) (position l) = Some (w, position k) /\ suffix k.
Proof.
  intros Hs E. destruct l as [|b l]; [done|]. cbn [header_size] in E. unfold dt_header_u32.
  destruct (suffix_byte b l Hs) as (Hby & Hp & Hlt & Hr). replace (position (b :: l) >=? lenZ payload) with false by lia.
  rewrite Hr. cbn [mbind option_bind]. change (nthZ [b] 0) with b. rewrite <- Hp, land_63.
  assert (0 <= b mod 64 < 64) as Hbm by (apply Z.mod_pos_bound; lia). pose proof (land_128 b Hby) as Hl.
  destruct (Z.ltb_spec b 128) as [Hlo|Hhi].
  - injection E as <- <-. cbn [dt_header_digits]. replace (Z.land b 0x80 =? 0) with true by lia. cbn [mbind option_bind].
    replace (b mod 64 >? 0x7FFFFFFF) with false by lia. split; [done|]. by eapply suffix_tail.
  - destruct (header_digits l 6 b (b mod 64) 6 w k) as (-> & Hk & Hw); try done; [by eapply suffix_tail|lia|].
    cbn [mbind option_bind]. by replace (w >? 0x7FFFFFFF) with false by lia.
Qed.

(** What the pre-check looks at is what the decoder will read. *)
Lemma geometry_checked m body_len span g to_size rest fixed tail : payload = fixed :: tail ->
  header payload = Some (g, to_size, rest) -> mm_payload_addr m = addr -> mm_payload_size m = lenZ payload ->
  dt_geometry_ok fl h m body_len span =
    dt_geometry_values_ok m body_len span fixed (memory_size g) (segment_size g) (shift_size g) (from_size g) to_size.
Proof.
  intros Ep E Hpa Hps. assert (suffix tail) as Hs by (by exists [fixed]). assert (position tail = 1) as Hp1
    by (unfold position; rewrite Ep, lenZ_cons; lia).
  rewrite Ep in E. cbn [header] in E. destruct (_ && _) in E; [|done].
  destruct (header_size tail) as [[memory l1]|] eqn:E1; [|done]. cbn [mbind option_bind] in E.
  destruct (header_size l1) as [[segment l2]|] eqn:E2; [|done]. cbn [mbind option_bind] in E.
  destruct (header_size l2) as [[shift l3]|] eqn:E3; [|done]. cbn [mbind option_bind] in E.
  destruct (header_size l3) as [[from l4]|] eqn:E4; [|done]. cbn [mbind option_bind] in E.
  destruct (header_size l4) as [[to' l5]|] eqn:E5; [|done]. cbn [mbind option_bind] in E. injection E as <- <- <-.
  destruct (header_u32 _ _ _ Hs E1) as [D1 Hs1]. destruct (header_u32 _ _ _ Hs1 E2) as [D2 Hs2].
  destruct (header_u32 _ _ _ Hs2 E3) as [D3 Hs3]. destruct (header_u32 _ _ _ Hs3 E4) as [D4 Hs4].
  destruct (header_u32 _ _ _ Hs4 E5) as [D5 _]. rewrite Hp1 in D1. unfold dt_geometry_ok. rewrite Hpa, Hps.
  assert (2 <= lenZ payload) as Hl2.
  { rewrite Ep, lenZ_cons. destruct tail; [done|]. rewrite lenZ_cons. pose proof (lenZ_nonneg tail). lia. }
  replace (lenZ payload <? 2) with false by lia.
  assert (staged_read fl h addr 1 = Some [fixed]) as ->.
  { destruct (suffix_byte fixed tail) as (_ & _ & _ & Hr); [by exists []|]. unfold position in Hr. rewrite <- Ep, Z.sub_diag, Z.add_0_r, u32_small in Hr by lia. done. }
  unfold dt_geometry_sizes. rewrite Hpa, Hps, D1. cbn [mbind option_bind]. rewrite D2. cbn [mbind option_bind]. rewrite D3. cbn [mbind option_bind].
  rewrite D4. cbn [mbind option_bind]. rewrite D5. done.
Qed.
End Geometry.

(** * Where the check is weaker than the decoder *)

(** A shift of zero passes, but the decoder then erases each page of the old image
    before it copies that page onto itself: a patch that keeps the four old bytes
    makes four erased ones. *)
Definition shift_zero_patch : list Z := [0x12; 128; 192; 1; 128; 64; 0; 4; 4; 0; 8; 0; 4; 0; 0; 0; 0; 0; 0].
Definition shift_zero_ram : DetoolsTotal.ram := mk_ram (fun x => if (0 <=? x) && (x <? 4) then x + 1 else 255) shift_zero_patch.
Lemma shift_zero_gap :
  dt_geometry_values_ok (mk_mota false true 2 2 0x12 10 233 4 19 0 0 0 0 1 [] CODEC_INPLACE [] []) (60 - ENDF_LEN) 0x30000
    0x12 12288 PAGE 0 60 4 = true /\
  geometry_ok (mk_geometry 12288 PAGE 0 60) 4 60 = false /\
  match detools_apply_patch_in_place_callbacks no_byte ram_read_patch (lenZ shift_zero_patch) shift_zero_ram with
  | Some (r, m) => r = 4 /\ mem_read (ram_view m) 0 4 = [255; 255; 255; 255]
  | None => False
  end.
Proof. split; [done|]. split; [done|]. vm_compute. done. Qed.

(** A size with a fifth byte passes, and the decoder refuses it as an overflow. *)
Lemma long_size_gap : let l := [188; 128; 128; 128; 0] in
  dt_header_u32 (nthZ l) (replicate 72 0) 0 5 0 = Some (60, 5) /\ header_size l = None.
Proof. by vm_compute. Qed.
