(* ===== verification/OtaDelta.v ===== *)
(** The application update of [src/ota_delta.c]: the memory callbacks the patch
    decoder works through, and [ota_delta_check_and_apply]. *)
From S2P Require Import Prelude Crc Sha256 Nvm BootImage DfuTypes Settings Detools OtaFlash OtaMota OtaState OtaBoot.

Record apply_ctx := mk_apply { patch_addr : Z; patch_len : Z; patch_pos : Z; ws_lo : Z; ws_hi : Z }.

(** [dt_ws_addr]: a range of the work space, as an address. *)
Definition dt_ws_addr (c : apply_ctx) (off n : Z) : option Z :=
  let span := u32 (ws_hi c - ws_lo c) in
  if (off >? UINT32_MAX) || (n >? UINT32_MAX) then None
  else
    let o := u32 off in
    let z := u32 n in
    if (o >? span) || (z >? span - o) then None else Some (u32 (ws_lo c + o)).

Section Apply.
Context {F : Type} `{FlashPort F} `{OtaEnv}.

(** What the callbacks work on: the module's state and the context. *)
Record dt := mk_dt { dt_ota : ota F; dt_ctx : apply_ctx }.
Implicit Types t : dt.
Definition set_dt_store s t := mk_dt (set_store s (dt_ota t)) (dt_ctx t).

Definition dt_mr t (src n : Z) : Z * list Z :=
  match dt_ws_addr (dt_ctx t) src n with
  | None => (- DETOOLS_IO_FAILED, [])
  | Some addr => (DETOOLS_OK, cread (o_store (dt_ota t)) addr n)
  end.
Definition dt_mw t (dst : Z) (src : list Z) : Z * dt :=
  match dt_ws_addr (dt_ctx t) dst (lenZ src) with
  | None => (- DETOOLS_IO_FAILED, t)
  | Some addr =>
    let '(ok, s) := cwrite (o_store (dt_ota t)) addr src in
    ((if ok then DETOOLS_OK else - DETOOLS_IO_FAILED), set_dt_store s t)
  end.
Definition dt_me t (addr0 n : Z) : Z * dt :=
  match dt_ws_addr (dt_ctx t) addr0 n with
  | None => (- DETOOLS_IO_FAILED, t)
  | Some addr =>
    let '(ok, s) := cerase (o_store (dt_ota t)) addr n in
    ((if ok then DETOOLS_OK else - DETOOLS_IO_FAILED), set_dt_store s t)
  end.
Definition dt_pr t (n : Z) : Z * (list Z * dt) :=
  let c := dt_ctx t in
  if (n >? UINT32_MAX) || (patch_pos c >? patch_len c) || (n >? patch_len c - patch_pos c)
  then (- DETOOLS_IO_FAILED, ([], t))
  else
    match source_read (dt_ota t) (u32 (patch_addr c + patch_pos c)) n with
    | None => (- DETOOLS_IO_FAILED, ([], t))
    | Some dst =>
        (DETOOLS_OK, (dst, mk_dt (dt_ota t) (mk_apply (patch_addr c) (patch_len c) (u32 (patch_pos c + n)) (ws_lo c) (ws_hi c))))
    end.

#[export] Instance dt_callbacks : MemCallbacks dt.
Proof.
  refine {| mem_read_cb := dt_mr; mem_write_cb := dt_mw; mem_erase_cb := dt_me |}.
  - intros m a n. unfold dt_mr. destruct (dt_ws_addr _ _ _); unfold DETOOLS_IO_FAILED, DETOOLS_OK; cbn; lia.
  - intros m a bs. unfold dt_mw. destruct (dt_ws_addr _ _ _); [|cbn; unfold DETOOLS_IO_FAILED; lia].
    destruct (cwrite _ _ _) as [[|] s]; cbn; unfold DETOOLS_IO_FAILED, DETOOLS_OK; lia.
  - intros m a n. unfold dt_me. destruct (dt_ws_addr _ _ _); [|cbn; unfold DETOOLS_IO_FAILED; lia].
    destruct (cerase _ _ _) as [[|] s]; cbn; unfold DETOOLS_IO_FAILED, DETOOLS_OK; lia.
Defined.

Context `{BootEnv F}.
(** The decoder's uninitialised byte, see [Detools]. *)
Context (uninit : reader -> chunk -> Z).
Implicit Types o : ota F.

(** The [reject] label: the approval is cleared and the application boots. *)
Definition reject o (m : mota_min) (result : Z) : bool * ota F :=
  let '(ok, o) := clear_approval (gpregret2_set result o) m in
  (false, if negb ok then gpregret2_set 0xBC o else o).

(** From the commit point on. *)
Definition apply_delta o (m : mota_min) (ws_end : Z) : option (bool * ota F) :=
  let o := otah_settings_commit o BANK_INVALID_APP 0 0 in
  let c := mk_apply (mm_payload_addr m) (mm_payload_size m) 0 APP_BASE ws_end in
  '(r, t) ← detools_apply_patch_in_place_callbacks uninit dt_pr (mm_payload_size m) (mk_dt o c);
  let o := dt_ota t in
  if r <? 0 then Some (fail_apply (Z.lor 0x90 (Z.land (- r) 0x0F)) o)
  else
    let '(ok, s) := cache_flush (o_store o) in
    let o := set_store s o in
    if negb ok then Some (fail_apply 0xBF o)
    else if negb (patch_pos (dt_ctx t) =? patch_len (dt_ctx t)) then Some (fail_apply 0x99 o)
    else if negb (r =? mm_image_size m) then Some (fail_apply 0xB6 o)
    else Some (finish_app_update o m).

(** Everything between the scan and the commit point. *)
Definition check_delta o (mota_addr : Z) (m : mota_min) : option (bool * ota F) :=
  let app_limit := APP_APPLY_END in
  if negb (mm_format_ver m =? 2) || negb (Z.land (mm_flags m) (~32 (Z.lor MFLAG_FULL MFLAG_SIGNED))%c =? 0)
  then Some (reject o m 0xB3)
  else if mm_is_full m || negb (mm_codec_id m =? CODEC_INPLACE) || (mm_image_size m =? 0) ||
          (mm_image_size m >? app_limit - APP_BASE)
  then Some (reject o m 0xB3)
  else
    match find_body_len (fl_view (o_flash o)) app_limit with
    | None => Some (reject o m 0xB4)
    | Some body_len =>
      let base32 := sha256_region o APP_BASE body_len in
      if negb (bytes_eqb (sliceZ base32 0 8) (mm_base_hash m)) then Some (reject o m 0xB5)
      else
        let ws_end := if mota_addr <? app_limit then mota_addr else app_limit in
        let workspace_span := ws_end - APP_BASE in
        if negb (dt_geometry_ok (fl_view (o_flash o)) (g_hybrid o) m body_len workspace_span) then Some (reject o m 0xB9)
        else
          let '(ok, o) := clear_approval o m in
          if negb ok then Some (fail_apply 0xBC o) else apply_delta o m ws_end
    end.

(** [hybrid_handoff_take] on the state: the retained record is zeroed. *)
Definition take_handoff o : bool * ota F :=
  let '(ok, h) := hybrid_handoff_take (o_retained o) in
  (ok, mk_ota (o_store o) h (replicate (Z.to_nat MOTA_HYBRID_HANDOFF_LEN) 0) (gpregret o) (gpregret2 o)).

Definition ota_delta_check_and_apply o : option (outcome (ota F)) :=
  let ret (x : bool * ota F) := Some (Returns (fst x) (snd x)) in
  let trigger := gpregret o in
  if trigger =? GPREGRET_BOOTLOADER_APPLY then Some (apply_bootloader_update o)
  else if negb (trigger =? GPREGRET_OTA_APPLY) then Some (Returns false o)
  else
    let stage_handoff := gpregret2 o in
    let o := gpregret2_set 0xB1 (gpregret_set 0 o) in
    let '(ok, o) := if stage_handoff =? GPREGRET2_OTA_STAGE_HYBRID then take_handoff o else (true, o) in
    if negb ok then ret (fail_apply 0xBE o)
    else
      let stage_ceiling :=
        if (stage_handoff =? GPREGRET2_OTA_STAGE_EXPANDED) || (stage_handoff =? GPREGRET2_OTA_STAGE_HYBRID)
        then MOTA_NRF52_STAGE_CEILING_EXPANDED else MOTA_NRF52_STAGE_CEILING_LEGACY in
      if negb (container_total (g_hybrid o) =? 0) && negb (hybrid_authorized_container_valid o)
      then ret (fail_apply 0xBA o)
      else
        match scan_mota (fl_view (o_flash o)) (g_hybrid o) stage_ceiling with
        | None => ret (fail_apply 0xB2 o)
        | Some (mota_addr, m) =>
          if negb (mm_approved m) then ret (fail_apply 0xB2 o)
          else x ← check_delta o mota_addr m; ret x
        end.
End Apply.
Arguments dt : clear implicits.
Arguments mk_dt {F}. Arguments dt_ota {F}. Arguments dt_ctx {F}.
