(* ===== verification/OtaSteps.v ===== *)
(** What the operations of [OtaFlash] do: which pages they touch on any flash, and
    what the cache and the streaming hash amount to. *)
From stdpp Require Import relations.
From S2P Require Import Prelude Crc Sha256 Nvm OtaFlash.

(** A reader that always answers. *)
Definition reads (read : Z -> Z -> option (list Z)) (m : mem) : Prop :=
  forall a n, read a n = Some (mem_read m a n).

(** * The streaming hash *)

Lemma normalize_none addr buf : normalize_approval UINT32_MAX addr buf = buf.
Proof. done. Qed.

Lemma sha256_read_loop_chunks fuel read : forall addr len c bs, 0 <= len ->
  len <= 256 * Z.of_nat fuel -> 0 <= addr -> addr + len < 2 ^ 32 -> lenZ bs = len ->
  (forall off n, 0 <= off -> 0 <= n -> off + n <= len -> read (addr + off) n = Some (sliceZ bs off n)) ->
  exists chunks, concat chunks = bs /\
    sha256_read_loop fuel read UINT32_MAX addr len c = Some (fold_left sha256_update chunks c).
Proof.
  induction fuel as [|fuel IH]; intros addr len c bs Hl Hf Ha Hal Hb Hr.
  { assert (bs = []) as -> by (destruct bs as [|b bs]; [done|rewrite lenZ_cons in Hb; pose proof (lenZ_nonneg bs); lia]).
    by exists []. }
  cbn [sha256_read_loop]. destruct (Z.eqb_spec len 0) as [->|Hne].
  { assert (bs = []) as -> by (destruct bs as [|b bs]; [done|rewrite lenZ_cons in Hb; pose proof (lenZ_nonneg bs); lia]).
    by exists []. }
  set (n := Z.min len 256). assert (0 < n <= len) as Hn by lia.
  pose proof (Hr 0 n ltac:(lia) ltac:(lia) ltac:(lia)) as H0. rewrite Z.add_0_r in H0. rewrite H0. cbn [mbind option_bind].
  rewrite normalize_none, u32_small by lia.
  assert (bs = sliceZ bs 0 n ++ sliceZ bs n (len - n)) as Eb.
  { rewrite <- (sliceZ_all bs len) at 1 by lia. replace len with (n + (len - n)) at 1 by lia.
    by rewrite sliceZ_split, Z.add_0_l by lia. }
  destruct (IH (addr + n) (len - n) (sha256_update c (sliceZ bs 0 n)) (sliceZ bs n (len - n))) as (chunks & Ec & E);
    [lia|lia|lia|lia|rewrite lenZ_sliceZ; lia| |].
  { intros off k Hoff Hk Hok. rewrite <- Z.add_assoc, Hr by lia. f_equal. apply eq_by_nthZ; rewrite !lenZ_sliceZ by (rewrite ?lenZ_sliceZ; lia).
    - done.
    - intros i Hi. rewrite !nthZ_sliceZ by lia. f_equal. lia. }
  exists (sliceZ bs 0 n :: chunks). split; [cbn [concat]; by rewrite Ec|]. rewrite E. by rewrite fold_left_cons.
Qed.

(** Without normalisation the region is hashed as it is. *)
Lemma sha256_read_region_bytes stack read addr len bs : length stack = 64%nat -> 0 <= len -> 0 <= addr -> addr + len < 2 ^ 32 ->
  lenZ bs = len ->
  (forall off n, 0 <= off -> 0 <= n -> off + n <= len -> read (addr + off) n = Some (sliceZ bs off n)) ->
  sha256_read_region stack read addr len UINT32_MAX = Some (sha256 bs).
Proof.
  intros Hs Hl Ha Hal Hb Hr. unfold sha256_read_region.
  destruct (sha256_read_loop_chunks (S (Z.to_nat (len / 256))) read addr len (sha256_init stack) bs) as (chunks & Ec & ->); try done.
  { Z.div_mod_to_equations. lia. }
  cbn [mbind option_bind]. f_equal. change (sha256_stream stack chunks = sha256 bs). by rewrite sha256_stream_eq, Ec.
Qed.

Lemma sha256_read_region_mem stack m addr len : length stack = 64%nat -> 0 <= len -> 0 <= addr -> addr + len < 2 ^ 32 ->
  sha256_read_region stack (fun a n => Some (mem_read m a n)) addr len UINT32_MAX = Some (sha256 (mem_read m addr len)).
Proof.
  intros. apply sha256_read_region_bytes; try done; [by apply lenZ_mem_read|].
  intros off n ? ? ?. by rewrite sliceZ_mem_read by lia.
Qed.

Section Steps.
Context {F : Type} `{FlashPort F}.
Implicit Types s : store F.

(** * Page operations *)

(** Erasing or programming a page that satisfies [P]. *)
Inductive page_op (P : Z -> Prop) : F -> F -> Prop :=
| Page_erase f p : P p -> page_op P f (fl_erase f p)
| Page_program f p bs : P p -> lenZ bs = PAGE -> page_op P f (fl_write_words f p bs).

Lemma page_op_frame P f f' x : rtc (page_op P) f f' -> (forall p, P p -> ~ (p <= x < p + PAGE)) ->
  fl_view f' x = fl_view f x.
Proof.
  intros Hr Hx. induction Hr as [f|f g h Hs _ IH]; [done|]. rewrite IH. destruct Hs as [f p Hp|f p bs Hp Hl].
  - apply erase_outside. by apply Hx.
  - apply write_outside. rewrite Hl. by apply Hx.
Qed.

Lemma page_op_mono (P Q : Z -> Prop) f f' : (forall p, P p -> Q p) -> rtc (page_op P) f f' -> rtc (page_op Q) f f'.
Proof. intros HPQ. apply rtc_subrel. intros ? ? [? ? ?|? ? ? ? ?]; [apply Page_erase|apply Page_program]; auto. Qed.

Lemma attempts_steps P n : forall f p words ok f', P p -> (forall w, words = Some w -> lenZ w = PAGE) ->
  flash_page_attempts n f p words = (ok, f') ->
  rtc (page_op P) f f' /\ (ok = true -> fl_read f' p PAGE = default (replicate (Z.to_nat PAGE) 255) words).
Proof.
  induction n as [|n IH]; intros f p words ok f' Hp Hw E; cbn [flash_page_attempts] in E.
  { injection E as <- <-. split; [apply rtc_refl|discriminate]. }
  set (f1 := match words with Some w => _ | None => _ end) in E.
  assert (rtc (page_op P) f f1) as H1.
  { eapply rtc_l; [by apply Page_erase|]. subst f1. destruct words as [w|]; [|done].
    apply rtc_once, Page_program; [done|by apply Hw]. }
  clearbody f1. destruct (flash_page_matches f1 p words) eqn:Em.
  - injection E as <- <-. split; [exact H1|]. intros _. exact (proj1 (flash_page_matches_eq _ _ _) Em).
  - destruct (IH f1 p words ok f' Hp Hw E) as [Hr Hok]. split; [by etrans|exact Hok].
Qed.

Lemma write_verified_steps P f p w ok f' : P p -> lenZ w = PAGE -> flash_page_write_verified f p w = (ok, f') ->
  rtc (page_op P) f f' /\ (ok = true -> fl_read f' p PAGE = w).
Proof.
  intros Hp Hw E. destruct (attempts_steps P FLASH_PAGE_ATTEMPTS f p (Some w) ok f' Hp) as [Hr Hok]; [|exact E|].
  - intros w' Ew. by injection Ew as <-.
  - split; [exact Hr|]. intros Ho. exact (Hok Ho).
Qed.
Lemma erase_verified_steps P f p ok f' : P p -> flash_page_erase_verified f p = (ok, f') ->
  rtc (page_op P) f f' /\ (ok = true -> fl_read f' p PAGE = replicate (Z.to_nat PAGE) 255).
Proof.
  intros Hp E. destruct (attempts_steps P FLASH_PAGE_ATTEMPTS f p None ok f' Hp) as [Hr Hok]; [|exact E|].
  - intros w' Ew. discriminate Ew.
  - split; [exact Hr|]. intros Ho. exact (Hok Ho).
Qed.

(** * The cache *)

(** The cache is a page, and a cached page satisfies [P]. *)
Definition cached (P : Z -> Prop) s : Prop := lenZ (g_cache s) = PAGE /\ (g_cache_page s = 0 \/ P (g_cache_page s)).
Definition clean s : Prop := lenZ (g_cache s) = PAGE /\ g_cache_page s = 0.
Definition stepped (P : Z -> Prop) s s' : Prop := rtc (page_op P) (st_flash s) (st_flash s') /\ cached P s'.

Lemma stepped_trans P s1 s2 s3 : stepped P s1 s2 -> stepped P s2 s3 -> stepped P s1 s3.
Proof. intros [H1 _] [H2 Hc]. split; [by etrans|done]. Qed.
Lemma stepped_refl P s : cached P s -> stepped P s s.
Proof. by split. Qed.

Lemma cache_flush_steps P s : cached P s ->
  stepped P s (snd (cache_flush s)) /\ (fst (cache_flush s) = true -> g_cache_page (snd (cache_flush s)) = 0) /\
  g_cache (snd (cache_flush s)) = g_cache s.
Proof.
  intros [Hl Hp]. unfold cache_flush. destruct (Z.eqb_spec (g_cache_page s) 0) as [E|E]; [by split_and!|].
  destruct Hp as [|Hp]; [done|]. destruct (g_cache_dirty s).
  2:{ split; [|done]. split; [done|]. split; [done|by left]. }
  destruct (flash_page_write_verified _ _ _) as [ok f] eqn:Ew.
  destruct (write_verified_steps P _ _ _ _ _ Hp Hl Ew) as [Hr _].
  destruct ok; cbn [fst snd]; (split; [|done]); (split; [done|]); (split; [done|]); [by left|by right].
Qed.

Lemma length_page (f : F) p : lenZ (fl_read f p PAGE) = PAGE.
Proof. by apply lenZ_mem_read. Qed.

Lemma cache_use_steps P s page : cached P s -> P page ->
  stepped P s (snd (cache_use s page)) /\ (fst (cache_use s page) = true -> g_cache_page (snd (cache_use s page)) = page).
Proof.
  intros Hc Hp. unfold cache_use. destruct (Z.eqb_spec (g_cache_page s) page) as [E|E]; [done|].
  destruct (cache_flush_steps P s Hc) as ([Hr Hc'] & _). destruct (cache_flush s) as [ok s1]. cbn [fst snd] in *.
  destruct ok; [|done]. cbn [negb fst snd]. split; [|done]. split; [done|]. split; [apply length_page|by right].
Qed.

Lemma page_of_start x : 0 <= x < 2 ^ 32 -> page_of x = x - x mod PAGE.
Proof. intros. unfold page_of. change (PAGE - 1) with (2 ^ 12 - 1). by rewrite land_not_mask by lia. Qed.

(** The range [lo, hi) lies in pages that satisfy [P]. *)
Definition covers (P : Z -> Prop) (lo hi : Z) : Prop := forall x, lo <= x < hi -> P (x - x mod PAGE).

Lemma page_bounds x : 0 <= x - (x - x mod PAGE) < PAGE.
Proof. pose proof (Z.mod_pos_bound x PAGE ltac:(done)). lia. Qed.

Lemma cwrite_loop_steps P fuel : forall s addr src, cached P s -> 0 <= addr -> addr + lenZ src < 2 ^ 32 ->
  covers P addr (addr + lenZ src) -> stepped P s (snd (cwrite_loop fuel s addr src)).
Proof.
  induction fuel as [|fuel IH]; intros s addr src Hc Ha Hb Hcov; [done|]. cbn [cwrite_loop].
  pose proof (lenZ_nonneg src) as Hls. destruct (Z.eqb_spec (lenZ src) 0) as [|Hne]; [done|].
  rewrite page_of_start by lia. set (page := addr - addr mod PAGE). pose proof (page_bounds addr) as Hoff. fold page in Hoff.
  assert (P page) as Hp by (apply Hcov; lia).
  destruct (cache_use_steps P s page Hc Hp) as [Hs Hok]. destruct (cache_use s page) as [ok s1]. cbn [fst snd] in *.
  destruct ok; [|done]. cbn [negb]. specialize (Hok eq_refl). set (chunk := Z.min (PAGE - (addr - page)) (lenZ src)).
  assert (lenZ (take (Z.to_nat chunk) src) = chunk) as Hlc by (unfold lenZ in *; rewrite length_take; lia).
  assert (lenZ (drop (Z.to_nat chunk) src) = lenZ src - chunk) as Hld by (unfold lenZ in *; rewrite length_drop; lia).
  rewrite (u32_small (addr + chunk)) by lia.
  eapply stepped_trans; [exact Hs|]. eapply stepped_trans; [|apply IH].
  - split; [done|]. destruct Hs as [_ [Hl Hp']]. split; [|done]. cbn [g_cache]. rewrite lenZ_put; lia.
  - destruct Hs as [_ [Hl Hp']]. split; [|done]. cbn [g_cache]. rewrite lenZ_put; lia.
  - lia.
  - lia.
  - intros x Hx. apply Hcov. lia.
Qed.

Lemma cwrite_steps P s addr src : cached P s -> 0 <= addr -> addr + lenZ src < 2 ^ 32 -> covers P addr (addr + lenZ src) ->
  stepped P s (snd (cwrite s addr src)).
Proof. apply cwrite_loop_steps. Qed.

Lemma cerase_loop_steps P fuel : forall s addr n, cached P s -> 0 <= addr -> 0 <= n -> addr + n < 2 ^ 32 ->
  covers P addr (addr + n) -> stepped P s (snd (cerase_loop fuel s addr n)).
Proof.
  induction fuel as [|fuel IH]; intros s addr n Hc Ha Hn Hb Hcov; [done|]. cbn [cerase_loop].
  destruct (Z.eqb_spec n 0) as [|Hne]; [done|]. rewrite page_of_start by lia. set (page := addr - addr mod PAGE).
  pose proof (page_bounds addr) as Hoff. fold page in Hoff. assert (P page) as Hp by (apply Hcov; lia).
  set (x := if g_cache_page s =? page then _ else _).
  assert (stepped P s (snd x)) as Hs.
  { subst x. destruct (Z.eqb_spec (g_cache_page s) page) as [E|E].
    - split; [done|]. destruct Hc as [Hl Hc]. split; [done|]. by right; rewrite E.
    - destruct (flash_page_erase_verified _ _) as [ok f] eqn:Ee. destruct (erase_verified_steps P _ _ _ _ Hp Ee) as [Hr _].
      by split. }
  destruct x as [ok s1]. cbn [snd] in Hs. destruct ok; [|done]. cbn [negb].
  set (step := Z.min (PAGE - (addr - page)) n). rewrite u32_small by lia.
  eapply stepped_trans; [exact Hs|]. apply IH; [apply Hs|lia|lia|lia|]. intros y Hy. apply Hcov. lia.
Qed.

Lemma cerase_steps P s addr n : cached P s -> 0 <= addr -> 0 <= n -> addr + n < 2 ^ 32 -> covers P addr (addr + n) ->
  stepped P s (snd (cerase s addr n)).
Proof. apply cerase_loop_steps. Qed.
End Steps.

(** * On a flash that works *)

Section Reliable.
Context {F : Type} `{ReliableFlash F}.

Lemma land_erased b : is_byte b -> Z.land 255 b = b.
Proof. unfold is_byte. intros. change 255 with (Z.ones 8). rewrite Z.land_comm, Z.land_ones by lia. zlia. Qed.

Lemma page_write_reliable (f : F) p w : p mod PAGE = 0 -> lenZ w = PAGE -> bytes w ->
  exists f', flash_page_write_verified f p w = (true, f') /\
    forall x, fl_view f' x = if (p <=? x) && (x <? p + PAGE) then nthZ w (x - p) else fl_view f x.
Proof.
  intros Hp Hl Hb. assert (PAGE = 4096) as HP by done.
  assert (p mod 4 = 0) by (rewrite HP in Hp; apply Z.mod_divide in Hp as [q ->]; [|done]; replace (q * 4096) with (q * 1024 * 4) by lia; by apply Z_mod_mult).
  set (f1 := fl_write_words (fl_erase f p) p w).
  assert (forall x, fl_view f1 x = if (p <=? x) && (x <? p + PAGE) then nthZ w (x - p) else fl_view f x) as Hv.
  { intros x. destruct ((p <=? x) && (x <? p + PAGE)) eqn:E.
    - bool_cases. subst f1.
      rewrite write_ands, erase_ones; [by apply land_erased, nthZ_byte|done|lia|done|by rewrite Hl|by rewrite Hl].
    - subst f1. rewrite write_outside, erase_outside by lia. done. }
  exists f1. split; [|exact Hv]. unfold flash_page_write_verified, flash_page_change_verified.
  change FLASH_PAGE_ATTEMPTS with 3%nat. cbn [flash_page_attempts]. fold f1.
  replace (flash_page_matches f1 p (Some w)) with true; [done|]. symmetry. apply flash_page_matches_eq. change (default _ (Some w)) with w.
  unfold fl_read. rewrite <- Hl. apply mem_read_eq. intros i Hi. rewrite Hv. replace (_ && _) with true by lia. f_equal. lia.
Qed.

Lemma page_erase_reliable (f : F) p : p mod PAGE = 0 ->
  exists f', flash_page_erase_verified f p = (true, f') /\
    forall x, fl_view f' x = if (p <=? x) && (x <? p + PAGE) then 255 else fl_view f x.
Proof.
  intros Hp. assert (PAGE = 4096) as HP by done. set (f1 := fl_erase f p).
  assert (forall x, fl_view f1 x = if (p <=? x) && (x <? p + PAGE) then 255 else fl_view f x) as Hv.
  { intros x. destruct ((p <=? x) && (x <? p + PAGE)) eqn:E.
    - bool_cases. apply erase_ones; [done|lia].
    - apply erase_outside. lia. }
  exists f1. split; [|exact Hv]. unfold flash_page_erase_verified, flash_page_change_verified.
  change FLASH_PAGE_ATTEMPTS with 3%nat. cbn [flash_page_attempts]. fold f1.
  replace (flash_page_matches f1 p None) with true; [done|]. symmetry. apply flash_page_matches_eq. cbn [default].
  unfold fl_read. replace PAGE with (lenZ (replicate (Z.to_nat PAGE) 255)) at 1 by done.
  apply mem_read_eq. intros i Hi. change (lenZ (replicate (Z.to_nat PAGE) 255)) with PAGE in Hi. rewrite Hv.
  replace (_ && _) with true by lia. unfold nthZ. symmetry. apply nth_lookup_Some, lookup_replicate_2. lia.
Qed.
End Reliable.
