(* ===== verification/OtaCache.v ===== *)
(** The page cache of [src/ota_delta.c] on a flash that works: the flash and the
    cached page together are one memory, which [cread], [cwrite] and [cerase] read
    and update byte by byte, and which [cache_flush] brings down to the flash. *)
From S2P Require Import Prelude Sha256 Nvm OtaFlash OtaSteps.

Section Cache.
Context {F : Type} `{ReliableFlash F}.
Implicit Types s : store F.

(** The memory behind the cache. *)
Definition in_cache s (x : Z) : bool :=
  negb (g_cache_page s =? 0) && g_cache_dirty s && (g_cache_page s <=? x) && (x <? g_cache_page s + PAGE).
Definition cache_view s : mem := fun x => if in_cache s x then nthZ (g_cache s) (x - g_cache_page s) else fl_view (st_flash s) x.

Record coherent s : Prop := {
  coherent_length : lenZ (g_cache s) = PAGE;
  coherent_bytes : bytes (g_cache s);
  coherent_aligned : g_cache_page s mod PAGE = 0;
  coherent_range : 0 <= g_cache_page s /\ g_cache_page s + PAGE < 2 ^ 32;
  coherent_clean : g_cache_page s <> 0 -> g_cache_dirty s = false -> g_cache s = fl_read (st_flash s) (g_cache_page s) PAGE
}.

Lemma clean_coherent s : lenZ (g_cache s) = PAGE -> bytes (g_cache s) -> g_cache_page s = 0 -> coherent s.
Proof. intros Hl Hb Hp. split; [done|done|by rewrite Hp|by rewrite Hp|done]. Qed.

Lemma clean_view s x : g_cache_page s = 0 -> cache_view s x = fl_view (st_flash s) x.
Proof. intros Hp. unfold cache_view, in_cache. by rewrite Hp. Qed.

Lemma fl_read_bytes (f : F) a n : bytes (fl_read f a n).
Proof. unfold fl_read, mem_read. apply Forall_fmap, Forall_forall. intros i _. apply view_byte. Qed.

Lemma cache_view_byte s x : coherent s -> is_byte (cache_view s x).
Proof. intros Hc. unfold cache_view. destruct (in_cache s x); [apply nthZ_byte, Hc|apply view_byte]. Qed.

Lemma cache_flush_reliable s : coherent s -> exists s', cache_flush s = (true, s') /\ coherent s' /\
  g_cache_page s' = 0 /\ forall x, cache_view s' x = cache_view s x.
Proof.
  intros Hc. unfold cache_flush. destruct (Z.eqb_spec (g_cache_page s) 0) as [E|E]; [by exists s|].
  destruct (g_cache_dirty s) eqn:Ed.
  - destruct (page_write_reliable (st_flash s) (g_cache_page s) (g_cache s)) as (f & -> & Hv); [apply Hc..|].
    eexists. split; [reflexivity|]. split; [by apply clean_coherent; [apply Hc|apply Hc|]|]. split; [done|].
    intros x. rewrite clean_view by done. cbn [st_flash]. rewrite Hv. unfold cache_view, in_cache. rewrite Ed.
    by replace (negb (g_cache_page s =? 0)) with true by lia.
  - eexists. split; [reflexivity|]. split; [by apply clean_coherent; [apply Hc|apply Hc|]|]. split; [done|].
    intros x. rewrite clean_view by done. unfold cache_view, in_cache. by rewrite Ed, andb_false_r.
Qed.

Lemma cache_use_reliable s page : coherent s -> page mod PAGE = 0 -> 0 < page -> page + PAGE < 2 ^ 32 ->
  exists s', cache_use s page = (true, s') /\ coherent s' /\ g_cache_page s' = page /\
    (forall x, cache_view s' x = cache_view s x) /\ g_cache s' = mem_read (cache_view s) page PAGE.
Proof.
  intros Hc Hm Hlo Hhi. unfold cache_use. destruct (Z.eqb_spec (g_cache_page s) page) as [E|E].
  - exists s. split_and!; try done. pose proof (coherent_length s Hc) as Hl. destruct (g_cache_dirty s) eqn:Ed.
    + symmetry. rewrite <- Hl. apply mem_read_eq. intros i Hi. unfold cache_view, in_cache. rewrite Ed, E.
      replace (_ && _ && _ && _) with true by lia. f_equal. lia.
    + rewrite (coherent_clean s Hc) by (done || lia). unfold fl_read. rewrite E. apply mem_read_ext. intros x Hx.
      unfold cache_view, in_cache. by rewrite Ed, andb_false_r.
  - destruct (cache_flush_reliable s Hc) as (s1 & -> & Hc1 & Hp1 & Hv1). cbn [negb]. eexists. split; [reflexivity|].
    assert (fl_read (st_flash s1) page PAGE = mem_read (cache_view s) page PAGE) as Hr.
    { unfold fl_read. apply mem_read_ext. intros x Hx. by rewrite <- Hv1, clean_view. }
    split_and!; try done.
    + split; cbn [g_cache g_cache_page g_cache_dirty st_flash]; [by apply lenZ_mem_read|apply fl_read_bytes|done|lia|done].
    + intros x. rewrite <- Hv1, (clean_view s1) by done. unfold cache_view, in_cache. cbn [g_cache_dirty g_cache_page]. by rewrite andb_false_r.
Qed.

Lemma cread_coherent s a n : coherent s -> 0 <= a -> 0 <= n -> a + n < 2 ^ 32 -> cread s a n = mem_read (cache_view s) a n.
Proof.
  intros Hc Ha Hn Hb. unfold cread. pose proof (coherent_range s Hc) as Hr. pose proof (coherent_length s Hc) as Hl.
  assert (PAGE = 4096) as HP by done.
  destruct (negb (g_cache_page s =? 0) && g_cache_dirty s) eqn:E.
  2:{ unfold fl_read. apply mem_read_ext. intros x Hx. unfold cache_view, in_cache. by rewrite E. }
  rewrite (u32_small (a + n)), (u32_small (g_cache_page s + PAGE)) by lia. cbv zeta.
  set (os := Z.max a (g_cache_page s)). set (oe := Z.min (a + n) (g_cache_page s + PAGE)).
  destruct (Z.ltb_spec os oe) as [Hlt|Hge].
  - assert (lenZ (sliceZ (g_cache s) (os - g_cache_page s) (oe - os)) = oe - os) as Hls by (rewrite lenZ_sliceZ; lia).
    unfold fl_read. pose proof (lenZ_mem_read (fl_view (st_flash s)) a n Hn) as Hlr.
    assert (lenZ (put (mem_read (fl_view (st_flash s)) a n) (os - a) (sliceZ (g_cache s) (os - g_cache_page s) (oe - os))) = n)
      as Hlp by (rewrite lenZ_put; lia).
    apply eq_by_nthZ; [rewrite Hlp; by rewrite lenZ_mem_read|]. rewrite Hlp.
    intros i Hi. rewrite nthZ_put, Hls by lia. rewrite !nthZ_mem_read by lia.
    unfold cache_view, in_cache. rewrite E.
    destruct ((g_cache_page s <=? a + i) && (a + i <? g_cache_page s + PAGE)) eqn:Ei.
    + replace (_ && _) with true by lia. rewrite <- andb_assoc, Ei. cbn [andb]. rewrite nthZ_sliceZ by lia. f_equal. lia.
    + replace (_ && _) with false by lia. rewrite <- andb_assoc, Ei. done.
  - unfold fl_read. apply mem_read_ext. intros x Hx. unfold cache_view, in_cache. rewrite E. by replace (_ && _ && _) with false by lia.
Qed.

Lemma page_aligned x : (x - x mod PAGE) mod PAGE = 0.
Proof. rewrite Zminus_mod, Zmod_mod, Z.sub_diag. done. Qed.

Lemma page_above x : PAGE <= x -> PAGE <= x - x mod PAGE.
Proof. intros. assert (PAGE = 4096) as HP by done. rewrite HP in *. Z.div_mod_to_equations. lia. Qed.

Lemma put_bytes l off k : bytes l -> bytes k -> bytes (put l off k).
Proof. intros Hl Hk. unfold put. repeat apply Forall_app_2; auto using Forall_take, Forall_drop. Qed.

Lemma cwrite_loop_coherent fuel : forall s addr src, coherent s -> bytes src -> lenZ src <= Z.of_nat fuel ->
  PAGE <= addr -> addr + lenZ src + PAGE < 2 ^ 32 ->
  exists s', cwrite_loop fuel s addr src = (true, s') /\ coherent s' /\
    forall x, cache_view s' x = if (addr <=? x) && (x <? addr + lenZ src) then nthZ src (x - addr) else cache_view s x.
Proof.
  assert (PAGE = 4096) as HP by done.
  induction fuel as [|fuel IH]; intros s addr src Hc Hb Hf Ha He; cbn [cwrite_loop]; pose proof (lenZ_nonneg src) as Hl.
  { exists s. split_and!; [done|done|]. intros x. by replace (_ && _) with false by lia. }
  destruct (Z.eqb_spec (lenZ src) 0) as [E|E].
  { exists s. split_and!; [done|done|]. intros x. by replace (_ && _) with false by lia. }
  rewrite page_of_start by lia. set (page := addr - addr mod PAGE). pose proof (page_bounds addr) as Hoff. fold page in Hoff.
  pose proof (page_above addr Ha) as Hpa. fold page in Hpa.
  destruct (cache_use_reliable s page Hc (page_aligned addr)) as (s1 & -> & Hc1 & Hp1 & Hv1 & Hcc); [lia|lia|]. cbn [negb].
  set (chunk := Z.min (PAGE - (addr - page)) (lenZ src)). set (part := take (Z.to_nat chunk) src).
  assert (lenZ part = chunk) as Hlp by (unfold part, lenZ in *; rewrite length_take; lia).
  assert (lenZ (drop (Z.to_nat chunk) src) = lenZ src - chunk) as Hld by (unfold lenZ in *; rewrite length_drop; lia).
  pose proof (coherent_length s1 Hc1) as Hl1. rewrite (u32_small (addr + chunk)) by lia.
  set (s2 := mk_store _ _ _ _).
  assert (coherent s2) as Hc2.
  { split; cbn [g_cache g_cache_page g_cache_dirty st_flash s2]; try apply Hc1; [rewrite lenZ_put; lia| |done].
    apply put_bytes; [apply Hc1|by apply Forall_take]. }
  assert (forall x, cache_view s2 x = if (addr <=? x) && (x <? addr + chunk) then nthZ src (x - addr) else cache_view s x) as Hv2.
  { intros x. rewrite <- (Hv1 x). unfold cache_view at 1, in_cache. cbn [g_cache g_cache_page g_cache_dirty st_flash s2]. rewrite Hp1.
    replace (negb (page =? 0) && true) with true by lia. cbn [andb].
    destruct ((page <=? x) && (x <? page + PAGE)) eqn:Ex.
    - bool_cases. rewrite nthZ_put, Hlp by lia. destruct ((addr <=? x) && (x <? addr + chunk)) eqn:Ew.
      + replace (_ && _) with true by lia. unfold part, nthZ. rewrite !nth_lookup, lookup_take_lt by lia. do 2 f_equal. lia.
      + replace (_ && _) with false by lia. rewrite Hcc, nthZ_mem_read by lia. rewrite (Hv1 x). f_equal. lia.
    - replace ((addr <=? x) && _) with false by lia. unfold cache_view, in_cache. rewrite Hp1, <- andb_assoc, Ex, andb_false_r. done. }
  destruct (IH s2 (addr + chunk) (drop (Z.to_nat chunk) src) Hc2 (Forall_drop _ _ _ Hb)) as (s' & -> & Hc' & Hv'); [lia|lia|lia|].
  exists s'. split_and!; [done|done|]. intros x. rewrite Hv', Hld, Hv2.
  destruct ((addr <=? x) && (x <? addr + lenZ src)) eqn:Ex.
  - destruct ((addr + chunk <=? x) && _) eqn:E1.
    + unfold nthZ. rewrite !nth_lookup, lookup_drop. do 2 f_equal. lia.
    + by replace (_ && _) with true by lia.
  - replace ((addr + chunk <=? x) && _) with false by lia. by replace (_ && _) with false by lia.
Qed.

Lemma cwrite_coherent s addr src : coherent s -> bytes src -> PAGE <= addr -> addr + lenZ src + PAGE < 2 ^ 32 ->
  exists s', cwrite s addr src = (true, s') /\ coherent s' /\
    forall x, cache_view s' x = if (addr <=? x) && (x <? addr + lenZ src) then nthZ src (x - addr) else cache_view s x.
Proof. intros. unfold cwrite. apply cwrite_loop_coherent; (done || unfold lenZ; lia). Qed.

(** One page or the start of one. *)
Lemma cerase_coherent s addr n : coherent s -> addr mod PAGE = 0 -> 0 < n <= PAGE -> PAGE <= addr -> addr + PAGE + PAGE < 2 ^ 32 ->
  exists s', cerase s addr n = (true, s') /\ coherent s' /\
    forall x, cache_view s' x = if (addr <=? x) && (x <? addr + PAGE) then 255 else cache_view s x.
Proof.
  intros Hc Hm Hn Ha He. assert (PAGE = 4096) as HP by done. unfold cerase.
  destruct (Z.to_nat n) as [|fuel] eqn:Ef; [lia|]. cbn [cerase_loop]. replace (n =? 0) with false by lia.
  rewrite page_of_start, Hm, Z.sub_0_r by lia. rewrite Z.sub_diag, Z.sub_0_r. rewrite Z.min_r by lia. rewrite Z.sub_diag.
  assert (forall s', cerase_loop fuel s' (u32 (addr + n)) 0 = (true, s')) as Hend by (intros s'; by destruct fuel).
  pose proof (coherent_length s Hc) as Hl. pose proof (coherent_range s Hc) as Hr. pose proof (coherent_aligned s Hc) as Hca.
  destruct (Z.eqb_spec (g_cache_page s) addr) as [E|E]; cbn [negb].
  - rewrite Hend. eexists. split; [reflexivity|]. split.
    + split; cbn [g_cache g_cache_page g_cache_dirty st_flash]; try apply Hc; try done.
      apply Forall_replicate. unfold is_byte. lia.
    + intros x. unfold cache_view, in_cache. cbn [g_cache g_cache_page g_cache_dirty st_flash]. rewrite E.
      replace (negb (addr =? 0) && true) with true by lia. cbn [andb].
      destruct ((addr <=? x) && (x <? addr + PAGE)) eqn:Ex.
      * bool_cases. unfold nthZ. apply nth_lookup_Some, lookup_replicate_2. lia.
      * rewrite <- andb_assoc, Ex. by rewrite andb_false_r.
  - destruct (page_erase_reliable (st_flash s) addr Hm) as (f & -> & Hv). rewrite Hend. eexists. split; [reflexivity|]. split.
    + split; cbn [g_cache g_cache_page g_cache_dirty st_flash]; try apply Hc. intros Hne Hd.
      rewrite (coherent_clean s Hc Hne Hd). unfold fl_read. apply mem_read_ext. intros x Hx. rewrite Hv.
      replace (_ && _) with false; [done|]. symmetry.
      rewrite HP in *. Z.div_mod_to_equations. lia.
    + intros x. unfold cache_view, in_cache. cbn [g_cache g_cache_page g_cache_dirty st_flash]. rewrite Hv.
      destruct ((addr <=? x) && (x <? addr + PAGE)) eqn:Ex; [|done].
      destruct (_ && _ && _ && _) eqn:Ec; [|done]. exfalso. bool_cases. rewrite HP in *. Z.div_mod_to_equations. lia.
Qed.
End Cache.
