(* ===== verification/OtaSafety.v ===== *)
(** What [ota_delta_check_and_apply] can do to the flash, whatever the staged bytes
    and however the flash behaves: which pages change in which order, and what is
    true when an update is reported. *)
From stdpp Require Import relations.
From S2P Require Import Prelude Crc Sha256 Nvm BootImage DfuTypes Settings Detools DetoolsStream DetoolsTotal OtaFlash OtaMota OtaState OtaBoot OtaDemo OtaDelta OtaSteps.

Section Safety.
Context {F : Type} `{FlashPort F} `{OtaEnv} `{BootEnv F} (uninit : reader -> chunk -> Z).
Implicit Types o : ota F.
Implicit Types t : dt F.

(** As the reset leaves the module: nothing cached, no hybrid source. *)
Definition boot_state o : Prop :=
  clean (o_store o) /\ container_total (g_hybrid o) = 0 /\ bytes (g_hybrid o) /\ bytes (o_retained o).

(** * Containers *)

Lemma mem_read_bytes fl a n : (forall x, is_byte (fl x)) -> bytes (mem_read fl a n).
Proof. intros Hb. unfold mem_read. apply Forall_fmap, Forall_forall. intros i _. apply Hb. Qed.

Lemma staged_read_bytes fl hybrid a n l : (forall x, is_byte (fl x)) -> staged_read fl hybrid a n = Some l -> bytes l.
Proof.
  intros Hb E. unfold staged_read in E. destruct (negb _); [|injection E as <-; by apply mem_read_bytes].
  unfold hybrid_staged_read in E. destruct (_ || _); [done|]. destruct (_ || _); [done|].
  destruct (_ =? 0); [injection E as <-; by apply mem_read_bytes|].
  unfold hybrid_ram_read in E. destruct (_ || _); [done|]. injection E as <-.
  apply Forall_app_2; [by apply mem_read_bytes|apply mem_read_bytes, ram_bytes].
Qed.

Lemma staged_read_length fl hybrid a n l : 0 <= n -> staged_read fl hybrid a n = Some l -> lenZ l = n.
Proof.
  intros Hn E. unfold staged_read in E. destruct (negb _); [|injection E as <-; by apply lenZ_mem_read].
  unfold hybrid_staged_read in E. destruct (_ || _); [done|]. destruct (_ || _); [done|].
  set (chunk := if _ <? _ then _ else 0) in E. assert (0 <= chunk <= n) as Hc by (subst chunk; destruct (Z.ltb_spec (a - flash_start hybrid) (flash_len hybrid)); lia).
  destruct (Z.eqb_spec (n - chunk) 0); [injection E as <-; rewrite lenZ_mem_read; lia|].
  unfold hybrid_ram_read in E. destruct (_ || _); [done|]. injection E as <-.
  rewrite lenZ_app, !lenZ_mem_read by lia. lia.
Qed.

Lemma parse_facts fl hybrid addr limit m : (forall x, is_byte (fl x)) ->
  parse_mota_at fl hybrid addr limit = Some m -> 0 <= addr -> limit < 2 ^ 32 ->
  MOTA_MIN_LEN <= mm_total m /\ addr + mm_total m <= limit /\ mm_approval_addr m = addr + APPROVAL_OFFSET /\
  0 < mm_payload_size m /\ addr + FIXED_HEADER_SIZE <= mm_payload_addr m /\
  mm_payload_addr m + mm_payload_size m + lenZ TRAILER = addr + mm_total m /\ 0 <= mm_image_size m < 2 ^ 32.
Proof.
  intros Hby Hp Ha Hl. unfold parse_mota_at in Hp.
  destruct (Z.gtb_spec addr limit); [done|]. destruct (Z.ltb_spec (limit - addr) (FIXED_HEADER_SIZE + lenZ TRAILER)); [done|].
  destruct (staged_read fl hybrid addr FIXED_HEADER_SIZE) as [header|] eqn:Eh; [|done]. cbn [mbind option_bind] in Hp.
  apply staged_read_bytes in Eh; [|done].
  destruct (negb (bytes_eqb _ MAGIC)); [done|].
  set (total := field32 header 4) in *. destruct ((total <? _) || (total >? _)) eqn:Et; [done|].
  destruct (staged_read fl hybrid (u32 _) _) as [trailer|]; [|done]. cbn [mbind option_bind] in Hp.
  destruct (negb (bytes_eqb trailer TRAILER)); [done|]. destruct (negb _ && negb _); [done|].
  set (size := field32 header 23) in *. set (log2 := nthZ header 27) in *.
  destruct ((log2 =? 0) || (log2 >? 24) || (size =? 0)) eqn:Es; [done|].
  assert (0 <= Z.shiftr size log2) as Hsh by (apply Z.shiftr_nonneg, read_le32_range, sliceZ_bytes, Eh).
  set (count := Z.shiftr size log2 + _) in *. destruct ((count =? 0) || (count >? UINT16_MAX)) eqn:Ec; [done|].
  assert (0 <= count) by (subst count; destruct (negb _); lia).
  destruct ((_ >? _) || negb _) eqn:Ep; [done|]. injection Hp as <-.
  cbn [mm_total mm_approval_addr mm_payload_size mm_payload_addr mm_image_size].
  assert (lenZ TRAILER = 5) as HT by done. assert (0 <= size) by (apply read_le32_range, sliceZ_bytes, Eh).
  unfold MOTA_MIN_LEN, FIXED_HEADER_SIZE, MOTA_MFL, APPROVAL_OFFSET, UINT16_MAX in *. bool_cases.
  rewrite !u32_small by lia. split_and!; try lia; apply read_le32_range, sliceZ_bytes, Eh.
Qed.

(** The container a scan accepts: its first page, and where it ends. *)
Definition container_at (hybrid : list Z) (fl : mem) (addr : Z) (m : mota_min) : Prop :=
  exists limit, parse_mota_at fl hybrid addr limit = Some m /\ limit < 2 ^ 32 /\ addr mod PAGE = 0 /\ APP_BASE <= addr /\
    addr < MOTA_NRF52_APP_END /\ (container_total hybrid = 0 -> limit <= MOTA_NRF52_APP_END).

Lemma scan_pages_facts fl hybrid n ceiling : forall a addr m, a mod PAGE = 0 -> a <= MOTA_NRF52_APP_END ->
  scan_pages fl hybrid n ceiling a = Some (addr, m) ->
  parse_mota_at fl hybrid addr ceiling = Some m /\ addr mod PAGE = 0 /\ APP_BASE <= addr < a /\
  mem_read fl addr 4 = MAGIC /\ Z.land (u32 (ceiling - mm_total m)) (~32 (PAGE - 1))%c = addr.
Proof.
  induction n as [|n IH]; intros a addr m Ha Hle E; cbn [scan_pages] in E; [done|].
  destruct (Z.gtb_spec a APP_BASE) as [Hgt|]; [|done].
  assert ((a - PAGE) mod PAGE = 0) as Hm by (rewrite Zminus_mod, Ha; done).
  assert (0 < PAGE) as HP by done.
  assert (scan_pages fl hybrid n ceiling (a - PAGE) = Some (addr, m) ->
    parse_mota_at fl hybrid addr ceiling = Some m /\ addr mod PAGE = 0 /\ APP_BASE <= addr < a /\
    mem_read fl addr 4 = MAGIC /\ Z.land (u32 (ceiling - mm_total m)) (~32 (PAGE - 1))%c = addr) as Hrec.
  { intros Er. destruct (IH _ _ _ Hm ltac:(lia) Er) as (? & ? & ? & ? & ?). split_and!; try done; lia. }
  destruct (bytes_eqb (mem_read fl (a - PAGE) 4) MAGIC) eqn:Eb; [|by apply Hrec].
  destruct (parse_mota_at fl hybrid (a - PAGE) ceiling) as [o'|] eqn:Ep; [|by apply Hrec].
  destruct (Z.eqb_spec (Z.land (u32 (ceiling - mm_total o')) (~32 (PAGE - 1))%c) (a - PAGE)) as [Ez|]; [|by apply Hrec].
  injection E as <- <-. apply bytes_eqb_eq in Eb. pose proof app_base_aligned as Hb. split_and!; try done; [|lia].
  apply Z.mod_divide in Ha as [k ->]; [|done].
  apply Z.mod_divide in Hb as [j Hj]; [|done]. assert (PAGE = 4096) as HP' by done. lia.
Qed.

(** The source in [g_hybrid], if there is one, passed its checks. *)
Definition hybrid_ok (h : list Z) : Prop := bytes h /\ (container_total h = 0 \/ hybrid_handoff_accepted h = true).

Lemma handoff_facts h : bytes h -> hybrid_handoff_accepted h = true ->
  flash_start h mod PAGE = 0 /\ APP_BASE <= flash_start h /\ flash_start h + flash_len h = MOTA_NRF52_APP_END /\
  0 < flash_len h /\ flash_start h + container_total h < 2 ^ 32.
Proof.
  intros Hb E. unfold hybrid_handoff_accepted in E. destruct (_ || _) eqn:E1 in E; [done|].
  destruct (_ || _) eqn:E2 in E; [done|].
  assert (forall i, 0 <= field32 h i < 2 ^ 32) as Hf by (intros i; apply read_le32_range, sliceZ_bytes, Hb).
  pose proof (Hf 20) as Hs. pose proof (Hf 24) as Hl. fold (flash_start h) in Hs. fold (flash_len h) in Hl.
  assert (mota_hybrid_handoff_valid h = true) as Hv by (destruct (mota_hybrid_handoff_valid h); [done|by rewrite orb_true_r in E1]).
  assert (flash_len h <> 0) as Hne.
  { intros Hz. unfold mota_hybrid_handoff_valid in Hv. rewrite Hz in Hv. cbn [Z.eqb] in Hv. rewrite orb_true_r in Hv. done. }
  unfold UINT32_MAX in *. bool_cases. change (PAGE - 1) with 4095 in *. rewrite land_4095 in *.
  rewrite u32_small in * by lia. split_and!; [done|done|done|lia|lia].
Qed.

Lemma scan_facts hybrid fl ceiling addr m : hybrid_ok hybrid -> (forall x, is_byte (fl x)) ->
  scan_mota fl hybrid ceiling = Some (addr, m) -> container_at hybrid fl addr m.
Proof.
  intros [Hb Hh] Hby E. unfold scan_mota in E. destruct (Z.eqb_spec (container_total hybrid) 0) as [Ez|Ez]; cbn [negb] in E.
  - destruct (negb _ && negb _) eqn:Ec; [done|].
    assert (ceiling = MOTA_NRF52_STAGE_CEILING_LEGACY \/ ceiling = MOTA_NRF52_STAGE_CEILING_EXPANDED) as Hc.
    { destruct (Z.eqb_spec ceiling MOTA_NRF52_STAGE_CEILING_LEGACY); [by left|].
      destruct (Z.eqb_spec ceiling MOTA_NRF52_STAGE_CEILING_EXPANDED); [by right|done]. }
    apply scan_pages_facts in E as (Ep & Hm & Hr & _); [|by destruct Hc as [-> | ->]..].
    exists ceiling. split_and!; try done; [by destruct Hc as [-> | ->]|lia| |by destruct Hc as [-> | ->]].
    assert (Z.land (ceiling - MOTA_MIN_LEN) (~32 (PAGE - 1))%c + PAGE <= MOTA_NRF52_APP_END) by (by destruct Hc as [-> | ->]). lia.
  - destruct Hh as [|Hacc]; [done|]. destruct (handoff_facts hybrid Hb Hacc) as (Hm & Hlo & He & Hl & Ht).
    destruct (parse_mota_at _ _ _ _) as [o'|] eqn:Ep; [|done]. destruct (_ || _); [done|]. injection E as <- <-.
    assert (forall i, 0 <= field32 hybrid i < 2 ^ 32) as Hf by (intros i; apply read_le32_range, sliceZ_bytes, Hb).
    pose proof (Hf 20). pose proof (Hf 16). fold (flash_start hybrid) in *. fold (container_total hybrid) in *.
    exists (u32 (flash_start hybrid + container_total hybrid)). split_and!; try done; [apply u32_range|lia].
Qed.

(** * The phases of an update *)

Lemma clean_cached (P : Z -> Prop) (s : store F) : clean s -> cached P s.
Proof. intros [Hl Hp]. split; [done|by left]. Qed.

(** Only the store of the module's state changes. *)
Definition same_module o o' : Prop :=
  g_hybrid o' = g_hybrid o /\ o_retained o' = o_retained o /\ gpregret o' = gpregret o /\ gpregret2 o' = gpregret2 o.

Lemma clear_approval_steps o m addr : clean (o_store o) -> mm_approval_addr m = addr + APPROVAL_OFFSET -> addr mod PAGE = 0 ->
  0 <= addr < MOTA_NRF52_APP_END ->
  let x := clear_approval o m in
  rtc (page_op (eq addr)) (o_flash o) (o_flash (snd x)) /\ same_module o (snd x) /\
  (fst x = true -> clean (o_store (snd x))).
Proof.
  intros Hc Ha Hm Hr. cbv zeta. unfold clear_approval, o_flash. rewrite Ha.
  assert (PAGE = 4096) as HP by done. unfold APPROVAL_OFFSET, MOTA_NRF52_APP_END in *.
  destruct (cwrite (o_store o) (addr + 201) [0; 0; 0; 0]) as [ok s1] eqn:Ew.
  assert (stepped (eq addr) (o_store o) s1) as Hs.
  { change s1 with (snd (ok, s1)). rewrite <- Ew. apply cwrite_steps; [by apply clean_cached|lia|change (lenZ [0; 0; 0; 0]) with 4; lia|].
    intros x Hx. change (lenZ [0; 0; 0; 0]) with 4 in Hx. rewrite HP in *. Z.div_mod_to_equations. lia. }
  destruct ok; cbn [negb fst snd]; [|split_and!; [apply Hs|done..]].
  destruct (cache_flush_steps (eq addr) s1 (proj2 Hs)) as (Hs' & Hok & Hcb). destruct (cache_flush s1) as [ok s2]. cbn [fst snd] in *.
  split_and!; [|done..|].
  - etrans; [apply Hs|apply Hs'].
  - intros ->. split; [apply Hs'|by apply Hok].
Qed.

(** The work space of a decode, as pages. *)
Definition in_ws (ws : Z) (p : Z) : Prop := APP_BASE <= p /\ p + PAGE <= ws.

Lemma app_pages a n ws : ws mod PAGE = 0 -> APP_BASE <= a -> a + n <= ws -> covers (in_ws ws) a (a + n).
Proof.
  intros Hm Ha Hn x Hx. unfold in_ws. pose proof app_base_aligned as Hb. assert (PAGE = 4096) as HP by done. rewrite HP in *.
  Z.div_mod_to_equations. lia.
Qed.

Definition decoding (ws : Z) t t' : Prop :=
  (exists pos, dt_ctx t' = mk_apply (patch_addr (dt_ctx t)) (patch_len (dt_ctx t)) pos (ws_lo (dt_ctx t)) (ws_hi (dt_ctx t))) /\
  same_module (dt_ota t) (dt_ota t') /\ stepped (in_ws ws) (o_store (dt_ota t)) (o_store (dt_ota t')).

Lemma ws_addr_range c off n addr : ws_lo c = APP_BASE -> APP_BASE <= ws_hi c < 2 ^ 32 -> dt_ws_addr c off n = Some addr ->
  APP_BASE <= addr /\ addr + u32 n <= ws_hi c /\ n <= UINT32_MAX.
Proof.
  pose proof app_base_range as Hb. assert (PAGE = 4096) as HP by done. intros Hlo Hhi E. unfold dt_ws_addr in E.
  cbv zeta in E. pose proof (u32_range off). pose proof (u32_range n). rewrite Hlo, (u32_small (ws_hi c - APP_BASE)) in E by lia.
  destruct (orb (off >? _) _) eqn:En; [done|]. destruct (orb (u32 off >? _) _) eqn:Eb; [done|].
  injection E as <-. bool_cases. rewrite u32_small by lia. lia.
Qed.

Lemma decoding_refl ws t : cached (in_ws ws) (o_store (dt_ota t)) -> decoding ws t t.
Proof. intros Hc. split; [exists (patch_pos (dt_ctx t)); by destruct (dt_ctx t)|]. split; [done|]. by apply stepped_refl. Qed.

Lemma decoding_store ws t s : stepped (in_ws ws) (o_store (dt_ota t)) s -> decoding ws t (set_dt_store s t).
Proof. intros Hs. split; [exists (patch_pos (dt_ctx t)); by destruct t as [? []]|]. by split. Qed.

Lemma decoding_step ws t t' : ws_lo (dt_ctx t) = APP_BASE -> ws_hi (dt_ctx t) = ws -> ws mod PAGE = 0 -> APP_BASE <= ws < 2 ^ 32 ->
  cached (in_ws ws) (o_store (dt_ota t)) -> io_step dt_pr t t' -> decoding ws t t'.
Proof.
  pose proof app_base_range as Hb. assert (PAGE = 4096) as HP by done. unfold UINT32_MAX.
  intros Hlo Hhi Hwm Hws Hc Hs. destruct Hs as [t t' Hs|t n].
  - destruct Hs as [t a bs|t a n]; cbn [mem_write_cb mem_erase_cb dt_callbacks].
    + unfold dt_mw. destruct (dt_ws_addr _ _ _) as [addr|] eqn:Ea; [|by apply decoding_refl].
      apply ws_addr_range in Ea as (Ha1 & Ha2 & Ha3); [|done|by rewrite Hhi]. pose proof (lenZ_nonneg bs) as Hl.
      unfold UINT32_MAX in Ha3. rewrite Hhi, u32_small in Ha2 by lia.
      pose proof (cwrite_steps (in_ws ws) (o_store (dt_ota t)) addr bs Hc ltac:(lia) ltac:(lia) ltac:(apply app_pages; done || lia)) as Hs.
      destruct (cwrite _ _ _) as [ok s]. by apply decoding_store.
    + unfold dt_me. destruct (dt_ws_addr _ _ _) as [addr|] eqn:Ea; [|by apply decoding_refl].
      apply ws_addr_range in Ea as (Ha1 & Ha2 & Ha3); [|done|by rewrite Hhi]. rewrite Hhi in Ha2. unfold UINT32_MAX in Ha3.
      destruct (Z.lt_ge_cases n 0) as [Hn|Hn].
      { unfold cerase. replace (Z.to_nat n) with 0%nat by lia. by apply (decoding_refl ws t). }
      rewrite u32_small in Ha2 by lia.
      pose proof (cerase_steps (in_ws ws) (o_store (dt_ota t)) addr n Hc ltac:(lia) Hn ltac:(lia) ltac:(apply app_pages; done || lia)) as Hs.
      destruct (cerase _ _ _) as [ok s]. by apply decoding_store.
  - unfold dt_pr. destruct (_ || _); [by apply decoding_refl|]. destruct (source_read _ _ _); [|by apply decoding_refl].
    split; [by eexists|]. split; [done|]. by apply stepped_refl.
Qed.

Lemma decoding_trans ws t1 t2 t3 : decoding ws t1 t2 -> decoding ws t2 t3 -> decoding ws t1 t3.
Proof.
  intros ((p2 & E2) & (A1 & A2 & A3 & A4) & S2) ((p3 & E3) & (B1 & B2 & B3 & B4) & S3). split; [|split].
  - exists p3. rewrite E3, E2. done.
  - unfold same_module. by rewrite B1, B2, B3, B4.
  - by eapply stepped_trans.
Qed.

Lemma decoding_steps ws t t' : ws_lo (dt_ctx t) = APP_BASE -> ws_hi (dt_ctx t) = ws -> ws mod PAGE = 0 -> APP_BASE <= ws < 2 ^ 32 ->
  cached (in_ws ws) (o_store (dt_ota t)) -> rtc (io_step dt_pr) t t' -> decoding ws t t'.
Proof.
  intros Hlo Hhi Hwm Hws Hc Hr. induction Hr as [t|t t1 t' Hs _ IH]; [by apply decoding_refl|].
  pose proof (decoding_step ws t t1 Hlo Hhi Hwm Hws Hc Hs) as Hs1. eapply decoding_trans; [exact Hs1|].
  destruct Hs1 as ((p & E) & _ & [_ Hc1]). apply IH; [by rewrite E|by rewrite E|done].
Qed.

Lemma dt_pr_bytes t n : 0 <= n -> fst (dt_pr t n) = 0 -> bytes (fst (snd (dt_pr t n))) /\ lenZ (fst (snd (dt_pr t n))) = n.
Proof.
  intros Hn. unfold dt_pr. destruct (_ || _); [done|]. destruct (source_read _ _ _) as [l|] eqn:E; [|done]. intros _. cbn [fst snd].
  split; [by eapply staged_read_bytes, E; apply view_byte|by eapply staged_read_length, E].
Qed.

(** * An update, stage by stage *)

Lemma full_image_hash_live o m a : 0 <= a -> 0 <= mm_image_size m -> a + mm_image_size m < 2 ^ 32 ->
  full_image_hash_valid o m a false = bytes_eqb (sha256 (fl_read (o_flash o) a (mm_image_size m))) (mm_image_hash m).
Proof.
  intros. unfold full_image_hash_valid, region_hash_valid, live_read, fl_read.
  by rewrite sha256_read_region_mem by (apply stack_block_length || lia).
Qed.

Lemma sha256_region_live o a n : 0 <= a -> 0 <= n -> a + n < 2 ^ 32 -> sha256_region o a n = sha256 (fl_read (o_flash o) a n).
Proof. intros. unfold sha256_region, live_read, fl_read. by rewrite sha256_read_region_mem by (apply stack_block_length || lia). Qed.

(** The image at [APP_BASE] is recorded: the step that makes it bootable. *)
Definition recorded (f : F) (m : mota_min) (f' : F) : Prop :=
  sha256 (fl_read f APP_BASE (mm_image_size m)) = mm_image_hash m /\
  f' = settings_commit f BANK_VALID_APP (crc16_compute (fl_read f APP_BASE (mm_image_size m)) None) (mm_image_size m).

Lemma apply_delta_stage o m ws : clean (o_store o) -> ws mod PAGE = 0 -> APP_BASE <= ws < 2 ^ 32 -> 0 <= mm_image_size m < 2 ^ 31 ->
  exists applied o' f, apply_delta uninit o m ws = Some (applied, o') /\ gpregret o' = gpregret o /\
    o_retained o' = o_retained o /\
    rtc (page_op (in_ws ws)) (settings_commit (o_flash o) BANK_INVALID_APP 0 0) f /\
    ((applied = false /\ o_flash o' = f) \/ (applied = true /\ recorded f m (o_flash o'))).
Proof.
  intros Hc Hwm Hws Hsz. unfold apply_delta. set (o1 := otah_settings_commit o _ _ _).
  set (t := mk_dt o1 _). destruct (decoder_total uninit dt_pr dt_pr_bytes (mm_payload_size m) t) as (r & t' & E & Hr).
  rewrite E. cbn [mbind option_bind].
  destruct (decoding_steps ws t t' eq_refl eq_refl Hwm Hws ltac:(by apply clean_cached) Hr) as (_ & (_ & Hre & Hgp & _) & Hs & Hca).
  change (o_retained (dt_ota t)) with (o_retained o) in Hre. change (gpregret (dt_ota t)) with (gpregret o) in Hgp.
  change (st_flash (o_store (dt_ota t))) with (settings_commit (o_flash o) BANK_INVALID_APP 0 0) in Hs.
  clearbody o1. clear E t Hr. destruct (r <? 0).
  { eexists _, _, _. split; [reflexivity|]. split_and!; [done|done|exact Hs|by left]. }
  destruct (cache_flush_steps (in_ws ws) (o_store (dt_ota t')) Hca) as ((Hs2 & Hca2) & _).
  destruct (cache_flush (o_store (dt_ota t'))) as [ok s]. cbn [fst snd] in *.
  pose proof (transitivity Hs Hs2) as Hs3.
  destruct (negb ok). { eexists _, _, _. split; [reflexivity|]. split_and!; [done|done|exact Hs3|by left]. }
  destruct (negb _). { eexists _, _, _. split; [reflexivity|]. split_and!; [done|done|exact Hs3|by left]. }
  destruct (negb _). { eexists _, _, _. split; [reflexivity|]. split_and!; [done|done|exact Hs3|by left]. }
  unfold finish_app_update. pose proof app_base_range as Hb. assert (PAGE = 4096) as HP by done.
  unfold MOTA_NRF52_STAGE_CEILING_LEGACY in Hb. rewrite full_image_hash_live by lia.
  destruct (bytes_eqb _ _) eqn:Eh; cbn [negb]; (eexists _, _, _; split; [reflexivity|]; split_and!; [done|done|exact Hs3|]);
    [right|by left]. split; [done|]. by apply bytes_eqb_eq in Eh.
Qed.

(** Where the staged bytes come from: the retained record, when the handoff
    names it. *)
Definition update_source o : list Z := if gpregret2 o =? GPREGRET2_OTA_STAGE_HYBRID then o_retained o else g_hybrid o.

(** The container at [addr] may be applied to the image that runs. *)
Definition applicable (h : list Z) (f : F) (addr : Z) (m : mota_min) : Prop :=
  mm_approved m = true /\ mm_format_ver m = 2 /\ Z.land (mm_flags m) (~32 (Z.lor MFLAG_FULL MFLAG_SIGNED))%c = 0 /\
  mm_is_full m = false /\ mm_codec_id m = CODEC_INPLACE /\
  0 < mm_image_size m <= APP_APPLY_END - APP_BASE /\
  exists body_len, find_body_len (fl_view f) APP_APPLY_END = Some body_len /\
    sliceZ (sha256 (fl_read f APP_BASE body_len)) 0 8 = mm_base_hash m /\
    dt_geometry_ok (fl_view f) h m body_len (addr - APP_BASE) = true.

(** What one call does to the flash.  Nothing; or the approval of the approved
    container is cleared; or, the approval cleared and the settings record
    invalidated, the pages below the container change; or that and the record of
    the image they hold. *)
Inductive update_run (h : list Z) (f : F) : bool -> F -> Prop :=
| Run_refused : update_run h f false f
| Run_cleared addr m f1 : container_at h (fl_view f) addr m -> mm_approved m = true ->
    rtc (page_op (eq addr)) f f1 -> update_run h f false f1
| Run_failed addr m f1 f2 : container_at h (fl_view f) addr m -> applicable h f addr m ->
    rtc (page_op (eq addr)) f f1 ->
    rtc (page_op (in_ws addr)) (settings_commit f1 BANK_INVALID_APP 0 0) f2 -> update_run h f false f2
| Run_installed addr m f1 f2 f3 : container_at h (fl_view f) addr m -> applicable h f addr m ->
    rtc (page_op (eq addr)) f f1 ->
    rtc (page_op (in_ws addr)) (settings_commit f1 BANK_INVALID_APP 0 0) f2 ->
    recorded f2 m f3 -> update_run h f true f3.

Lemma find_body_range fl limit n : find_body_len fl limit = Some n -> 0 <= n /\ APP_BASE + n + ENDF_LEN <= limit.
Proof.
  unfold find_body_len. destruct (Z.leb_spec limit APP_BASE); [done|].
  assert (forall k off r, find_body_loop k fl off = Some r -> off <= r < off + Z.of_nat k) as Hl.
  { induction k as [|k IH]; intros off r E; cbn [find_body_loop] in E; [done|].
    destruct (_ && _); [injection E as <-; lia|]. apply IH in E. lia. }
  intros E. apply Hl in E. lia.
Qed.

Lemma reject_stage o m addr r : clean (o_store o) -> mm_approval_addr m = addr + APPROVAL_OFFSET -> addr mod PAGE = 0 ->
  0 <= addr < MOTA_NRF52_APP_END ->
  exists o', reject o m r = (false, o') /\ gpregret o' = gpregret o /\ o_retained o' = o_retained o /\
    rtc (page_op (eq addr)) (o_flash o) (o_flash o').
Proof.
  intros Hc Ha Hm Hr. unfold reject.
  destruct (clear_approval_steps (gpregret2_set r o) m addr Hc Ha Hm Hr) as (Hs & (_ & Hre & Hgp & _) & _).
  destruct (clear_approval _ m) as [ok o1]. cbn [fst snd] in *. eexists. split; [reflexivity|]. by destruct ok.
Qed.

Lemma check_delta_stage o m addr : clean (o_store o) -> container_at (g_hybrid o) (fl_view (o_flash o)) addr m ->
  mm_approved m = true ->
  exists applied o', check_delta uninit o addr m = Some (applied, o') /\ gpregret o' = gpregret o /\
    o_retained o' = o_retained o /\ update_run (g_hybrid o) (o_flash o) applied (o_flash o').
Proof.
  intros Hc Hat Happ. pose proof app_base_range as Hb. assert (PAGE = 4096) as HP by done.
  assert (mm_approval_addr m = addr + APPROVAL_OFFSET /\ 0 <= mm_image_size m < 2 ^ 32 /\ addr mod PAGE = 0 /\
    APP_BASE <= addr < MOTA_NRF52_APP_END) as (Ha & Hsz & Hm & Hr).
  { destruct Hat as (limit & Hp & Hl & Hm & Hlo & Hhi & _). apply parse_facts in Hp as (_ & _ & ? & _ & _ & _ & ?);
      [done|apply view_byte|lia|done]. }
  assert (forall r, exists applied o', Some (reject o m r) = Some (applied, o') /\ gpregret o' = gpregret o /\
    o_retained o' = o_retained o /\ update_run (g_hybrid o) (o_flash o) applied (o_flash o')) as Hrej.
  { intros r. destruct (reject_stage o m addr r) as (o' & -> & Hg & Hre & Hs); [done|done|done|lia|].
    exists false, o'. split_and!; try done. by eapply Run_cleared. }
  unfold MOTA_NRF52_STAGE_CEILING_LEGACY, MOTA_NRF52_APP_END in *. unfold check_delta.
  destruct (_ || _) eqn:E1; [apply Hrej|]. apply orb_false_iff in E1 as [Ev Efl].
  destruct (_ || _) eqn:E2; [apply Hrej|]. rewrite !orb_false_iff in E2. destruct E2 as [[[Ef Ecd] Ez] Eg].
  destruct (find_body_len _ _) as [body_len|] eqn:Efb; [|apply Hrej]. pose proof (find_body_range _ _ _ Efb) as [Hb0 Hb1].
  unfold APP_APPLY_END, MOTA_NRF52_APP_END, ENDF_LEN in Hb1, Eg. bool_cases.
  rewrite sha256_region_live by lia.
  destruct (bytes_eqb _ _) eqn:Eh; cbn [negb]; [|apply Hrej]. apply bytes_eqb_eq in Eh.
  replace (addr <? APP_APPLY_END) with true by (unfold APP_APPLY_END, MOTA_NRF52_APP_END; lia).
  destruct (dt_geometry_ok _ _ _ _ _) eqn:Egeo; cbn [negb]; [|apply Hrej].
  assert (applicable (g_hybrid o) (o_flash o) addr m) as Hap.
  { unfold applicable, APP_APPLY_END, MOTA_NRF52_APP_END. split_and!; try done; try lia. by exists body_len. }
  destruct (clear_approval_steps o m addr Hc Ha Hm ltac:(unfold MOTA_NRF52_APP_END; lia)) as (Hs & (_ & Hre & Hgp & _) & Hok).
  destruct (clear_approval o m) as [ok o1]. cbn [fst snd] in *.
  destruct ok; cbn [negb].
  2:{ eexists false, _. split; [reflexivity|]. split_and!; [done|done|]. by eapply Run_cleared. }
  destruct (apply_delta_stage o1 m addr (Hok eq_refl) Hm ltac:(lia) ltac:(lia)) as (applied & o' & f & -> & Hg' & Hre' & Hs' & Hend).
  exists applied, o'. split_and!; [done|congruence|congruence|].
  destruct Hend as [[-> ->]|[-> Hrec]]; [by eapply Run_failed|by eapply Run_installed].
Qed.

(** From the authorization of the source on. *)
Lemma scan_stage o ceiling : clean (o_store o) -> hybrid_ok (g_hybrid o) ->
  exists applied o',
    (if negb (container_total (g_hybrid o) =? 0) && negb (hybrid_authorized_container_valid o)
     then Some (Returns (fst (fail_apply 0xBA o)) (snd (fail_apply 0xBA o)))
     else
       match scan_mota (fl_view (o_flash o)) (g_hybrid o) ceiling with
       | None => Some (Returns (fst (fail_apply 0xB2 o)) (snd (fail_apply 0xB2 o)))
       | Some (addr, m) =>
         if negb (mm_approved m) then Some (Returns (fst (fail_apply 0xB2 o)) (snd (fail_apply 0xB2 o)))
         else x ← check_delta uninit o addr m; Some (Returns (fst x) (snd x))
       end) = Some (Returns applied o') /\
    gpregret o' = gpregret o /\ o_retained o' = o_retained o /\ update_run (g_hybrid o) (o_flash o) applied (o_flash o').
Proof.
  intros Hc Hok.
  assert (forall r, exists applied o', Some (Returns (fst (fail_apply r o)) (snd (fail_apply r o))) = Some (Returns applied o') /\
    gpregret o' = gpregret o /\ o_retained o' = o_retained o /\ update_run (g_hybrid o) (o_flash o) applied (o_flash o')) as Hfail.
  { intros r. eexists false, _. split; [reflexivity|]. split_and!; [done|done|]. apply Run_refused. }
  destruct (_ && _); [apply Hfail|]. destruct (scan_mota _ _ _) as [[addr m]|] eqn:Es; [|apply Hfail].
  apply scan_facts in Es; [|done|apply view_byte]. destruct (mm_approved m) eqn:Em; cbn [negb]; [|apply Hfail].
  destruct (check_delta_stage o m addr Hc Es Em) as (applied & o' & -> & H'). by exists applied, o'.
Qed.

Lemma update_phases o : boot_state o -> gpregret o = GPREGRET_OTA_APPLY ->
  exists applied o', ota_delta_check_and_apply uninit o = Some (Returns applied o') /\ gpregret o' = 0 /\
    (gpregret2 o = GPREGRET2_OTA_STAGE_HYBRID -> o_retained o' = replicate (Z.to_nat MOTA_HYBRID_HANDOFF_LEN) 0) /\
    update_run (update_source o) (o_flash o) applied (o_flash o').
Proof.
  intros (Hc & Ht & Hhb & Hrb) Htr. unfold ota_delta_check_and_apply. rewrite Htr.
  replace (GPREGRET_OTA_APPLY =? GPREGRET_BOOTLOADER_APPLY) with false by done. rewrite Z.eqb_refl. cbn [negb].
  unfold update_source. destruct (Z.eqb_spec (gpregret2 o) GPREGRET2_OTA_STAGE_HYBRID) as [Eh|Eh].
  - unfold take_handoff, hybrid_handoff_take. cbn [o_retained gpregret_set gpregret2_set].
    destruct (hybrid_handoff_accepted (o_retained o)) eqn:Ea; cbn [negb].
    + set (o2 := mk_ota _ _ _ _ _). destruct (scan_stage o2 MOTA_NRF52_STAGE_CEILING_EXPANDED) as (applied & o' & E & Hg & Hr & Hrun);
        [done|by split; [|right]|]. rewrite orb_true_r. exists applied, o'. by split_and!.
    + eexists false, _. split; [reflexivity|]. split_and!; [done|done|]. apply Run_refused.
  - cbn [negb]. set (o1 := gpregret2_set _ _). set (ceiling := if orb _ _ then MOTA_NRF52_STAGE_CEILING_EXPANDED else _).
    destruct (scan_stage o1 ceiling) as (applied & o' & E & Hg & Hr & Hrun); [done|by split; [|left]|].
    exists applied, o'. by split_and!.
Qed.

(** C15: every update request ends, once, with flash changed in the order that
    protects the application. Whatever the staged bytes and the retained records,
    and even on a flash where operations fail, [ota_delta_check_and_apply] returns;
    the trigger and the handoff record are consumed; and flash went through one of
    the runs of [update_run]: no page outside the container's is touched before the
    settings record is invalidated, none at or above the container afterwards, and
    success is reported only when the hash of what was written is the announced
    one. *)
Theorem update_one_shot o : boot_state o -> gpregret o = GPREGRET_OTA_APPLY ->
  exists applied o', ota_delta_check_and_apply uninit o = Some (Returns applied o') /\ gpregret o' = 0 /\
    (gpregret2 o = GPREGRET2_OTA_STAGE_HYBRID -> o_retained o' = replicate (Z.to_nat MOTA_HYBRID_HANDOFF_LEN) 0) /\
    update_run (update_source o) (o_flash o) applied (o_flash o').
Proof. apply update_phases. Qed.
End Safety.

Lemma demo_boot_state {F} `{FlashPort F} (f : F) : boot_state (demo_state f).
Proof. split; [done|]. split; [done|]. split; by apply bytes_by_forallb. Qed.

Lemma update_one_shot_witness : exists applied o',
  ota_delta_check_and_apply no_byte (demo_state demo_flash) = Some (Returns applied o') /\ gpregret o' = 0 /\
  update_run (replicate 72 0) demo_flash applied (o_flash o').
Proof.
  destruct (update_one_shot no_byte (demo_state demo_flash) (demo_boot_state demo_flash) eq_refl) as (applied & o' & E & Hg & _ & Hr).
  exists applied, o'. exact (conj E (conj Hg Hr)).
Defined.
