(* ===== verification/OtaCrash.v ===== *)
(** A reset in the middle of an update.  The flash is wrapped in one that remembers
    every state it went through; whatever the state power fails in, the next boot
    does not start a half-written application. *)
From stdpp Require Import relations.
From S2P Require Import Prelude Crc Sha256 Nvm BootImage DfuTypes Settings Detools DetoolsTotal OtaFlash OtaMota OtaState OtaBoot OtaDemo OtaDelta OtaSteps OtaSafety.

(** * The settings record on a flash that works *)

Section Record.
Context {F : Type} `{ReliableFlash F} `{OtaEnv}.

Lemma ota_settings_wf b crc size : 0 <= b < 2 ^ 16 -> 0 <= crc < 2 ^ 16 -> 0 <= size < 2 ^ 32 ->
  settings_wf (ota_settings b crc size).
Proof. intros. apply seal_wf. unfold settings_wf, BANK_INVALID_APP. cbn -[Z.pow]. lia. Qed.

Lemma settings_bytes_bytes s : bytes (settings_bytes s).
Proof. unfold settings_bytes. rewrite !Forall_app. auto using settings_prefix_bytes, bytes16_bytes. Qed.

Lemma settings_commit_view (f : F) b crc size i : 0 <= i < 32 ->
  fl_view (settings_commit f b crc size) (SETTINGS_ADDRESS + i) = nthZ (settings_bytes (ota_settings b crc size)) i.
Proof.
  intros Hi. unfold settings_commit. set (l := settings_bytes _). assert (lenZ l = 32) as Hl by done.
  assert (SETTINGS_ADDRESS = 0xFF000) as HS by done. assert (PAGE = 4096) as HP by done.
  assert (is_byte (nthZ l i)) as Hby by apply nthZ_byte, settings_bytes_bytes.
  assert (forall o n, 0 <= o -> 0 <= n -> o + n <= 32 -> lenZ (sliceZ l o n) = n) as Hs by (intros; rewrite lenZ_sliceZ; lia).
  assert (fl_view (fl_erase f SETTINGS_ADDRESS) (SETTINGS_ADDRESS + i) = 255) as He by (apply erase_ones; [done|lia]).
  assert (forall g o n, 0 <= o <= i -> i < o + n -> o + n <= 32 -> o mod 4 = 0 -> n mod 4 = 0 ->
    fl_view g (SETTINGS_ADDRESS + i) = 255 -> fl_view (fl_write_words g (SETTINGS_ADDRESS + o) (sliceZ l o n)) (SETTINGS_ADDRESS + i) = nthZ l i) as Hw.
  { intros g o n Ho Hon Hn Hmo Hmn Hg. rewrite write_ands, Hg.
    - rewrite land_erased by (apply nthZ_byte, sliceZ_bytes, settings_bytes_bytes). rewrite nthZ_sliceZ by lia. f_equal. lia.
    - rewrite HS. Z.div_mod_to_equations. lia.
    - by rewrite Hs by lia.
    - rewrite Hs by lia. lia. }
  assert (forall g o n, 0 <= o -> 0 <= n -> o + n <= 32 -> ~ (o <= i < o + n) ->
    fl_view (fl_write_words g (SETTINGS_ADDRESS + o) (sliceZ l o n)) (SETTINGS_ADDRESS + i) = fl_view g (SETTINGS_ADDRESS + i)) as Ho.
  { intros g o n Hlo Hn Hb Hout. apply write_outside. rewrite Hs by lia. lia. }
  rewrite <- (Z.add_0_r SETTINGS_ADDRESS) at 4.
  destruct (Z.lt_ge_cases i 4); [|destruct (Z.lt_ge_cases i 8)].
  - rewrite Hw by (done || lia || rewrite !Ho by lia; done). done.
  - rewrite Ho by lia. rewrite Hw; [done|lia|lia|lia|done|done|]. by rewrite Ho by lia.
  - rewrite !Ho by lia. apply Hw; (done || lia).
Qed.

Lemma flash_settings_commit (f : F) b crc size : 0 <= b < 2 ^ 16 -> 0 <= crc < 2 ^ 16 -> 0 <= size < 2 ^ 32 ->
  flash_settings (settings_commit f b crc size) = ota_settings b crc size.
Proof.
  intros. unfold flash_settings, fl_read. replace SETTINGS_SIZE with (lenZ (settings_bytes (ota_settings b crc size))) by done.
  rewrite mem_read_eq; [|intros i Hi; by apply settings_commit_view].
  rewrite <- (app_nil_r (settings_bytes _)). by apply settings_roundtrip, ota_settings_wf.
Qed.
End Record.

(** The settings page is all that a commit changes. *)
Lemma settings_commit_frame {F} `{FlashPort F} `{OtaEnv} (f : F) b crc size x :
  x < SETTINGS_ADDRESS -> fl_view (settings_commit f b crc size) x = fl_view f x.
Proof.
  intros Hx. unfold settings_commit. set (l := settings_bytes _). assert (lenZ l = 32) as Hl by done.
  rewrite !write_outside, erase_outside by lia. done.
Qed.

(** * A flash with a history *)

Record traced (F : Type) := mk_traced { now : F; past : list F }.
Arguments mk_traced {F}. Arguments now {F}. Arguments past {F}.

#[export] Instance traced_port {F} `{FlashPort F} : FlashPort (traced F).
Proof.
  refine {| fl_view t := fl_view (now t); fl_erase t p := mk_traced (fl_erase (now t) p) (now t :: past t);
            fl_write_words t p bs := mk_traced (fl_write_words (now t) p bs) (now t :: past t) |}.
  - intros t x. apply view_byte.
  - intros t a x. apply erase_outside.
  - intros t a bs x. apply write_outside.
Defined.

Section Crash.
Context {F : Type} `{ReliableFlash F} `{OtaEnv} `{BootEnv (traced F)} (uninit : reader -> chunk -> Z).
Implicit Types t : traced F.
Implicit Types o : ota (traced F).

(** What happened between [t] and [t'], the last state included. *)
Definition since t t' (fs : list F) : Prop := past t' = fs ++ past t.

Lemma page_op_since (P : Z -> Prop) t t' : rtc (page_op P) t t' ->
  exists fs, since t t' fs /\ Forall (fun f => rtc (page_op P) (now t) f) (now t' :: fs).
Proof.
  intros Hr. induction Hr as [t|t t1 t' Hs _ (fs & Hp & Hf)]; [by exists []; split; [|repeat constructor]|].
  assert (page_op P (now t) (now t1) /\ past t1 = now t :: past t) as [Hn Ht]
    by (destruct Hs as [u p Hp'|u p bs Hp' Hl]; (split; [by constructor|done])).
  exists (fs ++ [now t]). unfold since in *. rewrite Hp, Ht, <- app_assoc. split; [done|]. rewrite app_comm_cons.
  apply Forall_app_2; [|by constructor].
  eapply Forall_impl; [|exact Hf]. intros f Hf'. by eapply rtc_l.
Qed.

(** The states a commit goes through differ in the settings page only. *)
Lemma settings_commit_since t b crc size : exists fs, since t (settings_commit t b crc size) fs /\
  Forall (fun f => forall x, x < SETTINGS_ADDRESS -> fl_view f x = fl_view (now t) x) (now (settings_commit t b crc size) :: fs).
Proof.
  unfold since, settings_commit. set (l := settings_bytes _). assert (lenZ l = 32) as Hl by done.
  eexists [_; _; _; _]. split; [reflexivity|].
  repeat constructor; cbn [now fl_write_words fl_erase traced_port past]; intros x Hx; rewrite ?write_outside, ?erase_outside by lia; done.
Qed.

Lemma now_settings_commit t b crc size : now (settings_commit t b crc size) = settings_commit (now t) b crc size.
Proof. reflexivity. Qed.

(** * What the next boot finds *)

(** It stays in the bootloader, whatever the vectors and the image. *)
Definition not_bootable (f : F) : Prop :=
  forall ram_kb fl image, bootloader_app_is_valid NRF52840 ram_kb fl image (flash_settings f) = false.

(** The application area is as it was, up to the container. *)
Definition old_app (h : list Z) (f0 f : F) : Prop :=
  exists limit, (limit = MOTA_NRF52_APP_END \/ exists m, container_at h (fl_view f0) limit m) /\
    forall x, APP_BASE <= x < limit -> fl_view f x = fl_view f0 x.

(** The image at [APP_BASE] is the one the container announces. *)
Definition new_app (h : list Z) (f0 f : F) : Prop :=
  exists addr m, container_at h (fl_view f0) addr m /\ applicable h f0 addr m /\
    sha256 (fl_read f APP_BASE (mm_image_size m)) = mm_image_hash m.

Definition safe_at (h : list Z) (f0 f : F) : Prop := not_bootable f \/ old_app h f0 f \/ new_app h f0 f.

Lemma invalid_not_bootable (f : F) : bank_0 (flash_settings f) = BANK_INVALID_APP -> not_bootable f.
Proof. intros E ram fl image. unfold bootloader_app_is_valid. cbv zeta. destruct (negb _); [done|]. by rewrite E. Qed.

Lemma old_app_frame h f0 f addr m : container_at h (fl_view f0) addr m -> 
  (forall x, APP_BASE <= x < addr -> fl_view f x = fl_view f0 x) -> safe_at h f0 f.
Proof. intros Hat Hf. right; left. exists addr. split; [by right; exists m|done]. Qed.

Lemma app_end_below_settings : MOTA_NRF52_APP_END < SETTINGS_ADDRESS.
Proof. done. Qed.

(** Until the commit point. *)
Lemma cleared_safe h f0 f1 addr m : container_at h (fl_view f0) addr m -> rtc (page_op (eq addr)) f0 f1 ->
  forall x, APP_BASE <= x < addr -> fl_view f1 x = fl_view f0 x.
Proof. intros _ Hr x Hx. eapply page_op_frame; [exact Hr|]. intros p <-. lia. Qed.

(** From the commit point until the image is recorded. *)
Lemma decoding_safe h f0 f1 f addr m : container_at h (fl_view f0) addr m ->
  rtc (page_op (in_ws addr)) (settings_commit f1 BANK_INVALID_APP 0 0) f -> not_bootable f.
Proof.
  intros (_ & _ & _ & Hm & _ & Hhi & _) Hr. apply invalid_not_bootable.
  assert (flash_settings f = flash_settings (settings_commit f1 BANK_INVALID_APP 0 0)) as ->.
  2:{ by rewrite flash_settings_commit. }
  unfold flash_settings, fl_read. f_equal. apply mem_read_ext. intros x Hx. eapply page_op_frame; [exact Hr|].
  intros p [Hp1 Hp2]. assert (PAGE = 4096) as HP by done. pose proof app_base_aligned as Hb.
  assert (SETTINGS_ADDRESS = 0xFF000) as HS by done. unfold MOTA_NRF52_APP_END in Hhi. lia.
Qed.

Lemma cleared_run h t addr m t1 : past t = [] -> container_at h (fl_view (now t)) addr m ->
  rtc (page_op (eq addr)) t t1 -> Forall (safe_at h (now t)) (now t1 :: past t1).
Proof.
  intros Ht Hat Hr. destruct (page_op_since _ _ _ Hr) as (fs & Hp & Hf). unfold since in Hp. rewrite Hp, Ht, app_nil_r.
  eapply Forall_impl; [|exact Hf]. intros f Hf'. eapply old_app_frame; [exact Hat|]. by eapply cleared_safe.
Qed.

Lemma decoding_run h t addr m t1 t2 : past t = [] -> container_at h (fl_view (now t)) addr m ->
  rtc (page_op (eq addr)) t t1 -> rtc (page_op (in_ws addr)) (settings_commit t1 BANK_INVALID_APP 0 0) t2 ->
  Forall (safe_at h (now t)) (now t2 :: past t2).
Proof.
  intros Ht Hat Hr1 Hr2. pose proof (cleared_run h t addr m t1 Ht Hat Hr1) as Hall1.
  destruct (page_op_since _ _ _ Hr1) as (fs1 & _ & Hf1).
  destruct (settings_commit_since t1 BANK_INVALID_APP 0 0) as (fs2 & Hp2 & Hf2). unfold since in Hp2.
  destruct (page_op_since _ _ _ Hr2) as (fs3 & Hp3 & Hf3). unfold since in Hp3. rewrite Hp3, Hp2, app_comm_cons.
  apply Forall_app_2; [|apply Forall_app_2; [|exact (Forall_inv_tail Hall1)]].
  - eapply Forall_impl; [|exact Hf3]. intros f Hf. left. rewrite now_settings_commit in Hf. eapply decoding_safe; [exact Hat|exact Hf].
  - eapply Forall_impl; [|exact (Forall_inv_tail Hf2)]. intros f Hf. eapply old_app_frame; [exact Hat|]. intros x Hx.
    pose proof app_end_below_settings. rewrite Hf by (destruct Hat as (_ & _ & _ & _ & _ & ? & _); lia).
    eapply cleared_safe; [exact Hat|exact (Forall_inv Hf1)|done].
Qed.

Lemma run_safe h t applied t' : past t = [] -> update_run h t applied t' ->
  Forall (safe_at h (now t)) (now t' :: past t').
Proof.
  intros Ht Hrun. destruct Hrun as [|addr m t1 Hat _ Hr1|addr m t1 t2 Hat _ Hr1 Hr2|addr m t1 t2 t3 Hat Hap Hr1 Hr2 [Hsha ->]].
  - rewrite Ht. constructor; [|done]. right; left. exists MOTA_NRF52_APP_END. split; [by left|done].
  - by eapply cleared_run.
  - by eapply decoding_run.
  - pose proof (decoding_run h t addr m t1 t2 Ht Hat Hr1 Hr2) as Hall.
    destruct (settings_commit_since t2 BANK_VALID_APP (crc16_compute (fl_read t2 APP_BASE (mm_image_size m)) None) (mm_image_size m))
      as (fs & Hp & Hf). unfold since in Hp. rewrite Hp, app_comm_cons. apply Forall_app_2; [|exact (Forall_inv_tail Hall)].
    eapply Forall_impl; [|exact Hf]. intros f Hf'. right; right. exists addr, m. split_and!; [done|done|].
    rewrite <- Hsha. f_equal. unfold fl_read. apply mem_read_ext. intros x Hx. apply Hf'.
    destruct Hap as (_ & _ & _ & _ & _ & Hsz & _). pose proof app_end_below_settings. unfold APP_APPLY_END in Hsz. lia.
Qed.

(** C1: no reset during an update starts a half-written application. Take any
    staged bytes and any working flash, and let power fail after any of the page
    erases and programs of [ota_delta_check_and_apply]: either the settings
    record found at the next boot makes [bootloader_app_is_valid] refuse whatever
    is in the application area, or that area is as it was below the container, or
    it holds exactly the image whose SHA-256 the approved container announced. *)
Theorem update_crash_safe o applied o' : boot_state o -> past (o_flash o) = [] -> gpregret o = GPREGRET_OTA_APPLY ->
  ota_delta_check_and_apply uninit o = Some (Returns applied o') ->
  Forall (safe_at (update_source o) (now (o_flash o))) (now (o_flash o') :: past (o_flash o')).
Proof.
  intros Hb Hp Hg E. destruct (update_phases uninit o Hb Hg) as (applied' & o'' & E' & _ & _ & Hrun).
  rewrite E in E'. injection E' as -> ->. by eapply run_safe.
Qed.
End Crash.

Lemma update_crash_safe_witness : exists applied o',
  ota_delta_check_and_apply no_byte (demo_state (mk_traced demo_flash [])) = Some (Returns applied o') /\
  Forall (safe_at (replicate 72 0) demo_flash) (now (o_flash o') :: past (o_flash o')).
Proof.
  pose proof (demo_boot_state (mk_traced demo_flash [])) as Hb.
  destruct (update_phases no_byte (demo_state (mk_traced demo_flash [])) Hb eq_refl) as (applied & o' & E & _).
  exists applied, o'. split; [exact E|].
  exact (update_crash_safe no_byte (demo_state (mk_traced demo_flash [])) applied o' Hb eq_refl eq_refl E).
Defined.
