(* ===== verification/OtaBootSafety.v ===== *)
(** The bootloader update: what is true when the MBR takes over, that the
    compaction of the staged image onto the start of its own slot is exact although
    source and destination overlap, and that a package that passes every check is
    handed over. *)
From stdpp Require Import relations.
From S2P Require Import Prelude Crc Sha256 Nvm BootImage DfuTypes Settings OtaFlash OtaMota OtaState OtaBoot OtaDemo OtaDelta OtaSteps OtaCache OtaSafety.

Section Vetted.
Context {F : Type} `{FlashPort F} `{OtaEnv} `{BootEnv F}.
Implicit Types o : ota F.

(** The pages of the fixed slot. *)
Definition in_slot (p : Z) : Prop := 
  MOTA_NRF52_INTERNAL_BL_SLOT_START <= p /\ p + PAGE <= MOTA_NRF52_INTERNAL_BL_SLOT_END.

Lemma slot_frame (f f' : F) x : rtc (page_op in_slot) f f' ->
  ~ (MOTA_NRF52_INTERNAL_BL_SLOT_START <= x < MOTA_NRF52_INTERNAL_BL_SLOT_END) -> fl_view f' x = fl_view f x.
Proof. intros Hr Hx. eapply page_op_frame; [exact Hr|]. unfold in_slot. intros p Hp. lia. Qed.

Lemma copy_pages_steps n : forall o m off, 0 <= off -> mm_image_size m <= MOTA_NRF52_BL_SIZE ->
  let x := copy_pages n o m BOOT_UPDATE_RAW_START off in
  rtc (page_op in_slot) (o_flash o) (o_flash (snd x)) /\ same_module o (snd x).
Proof.
  induction n as [|n IH]; intros o m off Hoff Hsz; cbn [copy_pages]; [done|].
  destruct (Z.ltb_spec off (mm_image_size m)) as [Hlt|]; [|done]. assert (PAGE = 4096) as HP by done.
  set (len := Z.min _ _). destruct (source_read o _ len) as [buf|] eqn:Eb; [|done].
  apply staged_read_length in Eb; [|lia]. set (cache := put _ 0 buf).
  assert (lenZ cache = PAGE) as Hc by (subst cache; rewrite lenZ_put; unfold lenZ in *; rewrite ?length_replicate; lia).
  rewrite u32_small by (unfold BOOT_UPDATE_RAW_START, MOTA_NRF52_INTERNAL_BL_SLOT_START, MOTA_NRF52_BL_SIZE in *; lia).
  destruct (flash_page_write_verified _ _ _) as [ok f] eqn:Ew.
  assert (in_slot (BOOT_UPDATE_RAW_START + off)) as Hin.
  { unfold in_slot, BOOT_UPDATE_RAW_START, MOTA_NRF52_INTERNAL_BL_SLOT_START, MOTA_NRF52_INTERNAL_BL_SLOT_END, MOTA_NRF52_APP_END,
      MOTA_NRF52_BL_SIZE in *. lia. }
  destruct (write_verified_steps in_slot _ _ _ _ _ Hin Hc Ew) as [Hr _]. destruct ok; cbn [negb]; [|done].
  match goal with |- context [copy_pages n ?o1 m _ _] => destruct (IH o1 m (off + PAGE) ltac:(lia) Hsz) as [Hr2 Hs2] end.
  split; [by etrans|done].
Qed.

Lemma parse_range hybrid fl addr limit m : (forall x, is_byte (fl x)) -> parse_mota_at fl hybrid addr limit = Some m ->
  0 <= addr -> limit < 2 ^ 32 -> mm_approval_addr m = addr + APPROVAL_OFFSET.
Proof. intros Hb Hp Ha Hl. by apply parse_facts in Hp as (_ & _ & ? & _); [|done..]. Qed.

Definition boot_container o m : Prop :=
  container_at (g_hybrid o) (fl_view (o_flash o)) MOTA_NRF52_INTERNAL_BL_SLOT_START m /\ mm_approved m = true.

Lemma clear_boot_approval o m : clean (o_store o) -> boot_container o m ->
  let x := clear_approval o m in
  rtc (page_op in_slot) (o_flash o) (o_flash (snd x)) /\ same_module o (snd x) /\ (fst x = true -> clean (o_store (snd x))).
Proof.
  intros Hc [(limit & Hp & Hl & Hm & _) _].
  destruct (clear_approval_steps o m MOTA_NRF52_INTERNAL_BL_SLOT_START Hc) as (Hr & H'); [|done|done|].
  - eapply parse_range; [apply view_byte|exact Hp|done|done].
  - split; [|done]. eapply page_op_mono; [|exact Hr]. by intros p <-.
Qed.

Lemma boot_reject_stage o m r : clean (o_store o) -> boot_container o m ->
  rtc (page_op in_slot) (o_flash o) (o_flash (snd (boot_update_reject o m r))) /\
  fst (boot_update_reject o m r) = false /\ gpregret (snd (boot_update_reject o m r)) = gpregret o.
Proof.
  intros Hc Hb. unfold boot_update_reject. destruct (mm_approved m); [|done].
  destruct (clear_boot_approval (gpregret2_set r o) m Hc Hb) as (Hr & (_ & _ & Hg & _) & _).
  destruct (clear_approval _ m) as [ok o1]. cbn [fst snd] in *. by destruct ok.
Qed.

(** What the MBR is told to copy has been checked where it lies. *)
Definition vetted o m o' : Prop :=
  boot_container o m /\ boot_update_policy_valid m = true /\
  ota_delta_live_app_fits_below o MOTA_NRF52_INTERNAL_BL_SLOT_START = true /\
  sha256 (fl_read (o_flash o') BOOT_UPDATE_RAW_START MOTA_NRF52_BL_SIZE) = mm_image_hash m /\
  boot_image_metadata_valid_at (o_flash o') BOOT_UPDATE_RAW_START m = true /\
  mbr_copy_bl (o_flash o') BOOT_UPDATE_RAW_START (MOTA_NRF52_BL_SIZE / 4) = true.

Lemma policy_size m : boot_update_policy_valid m = true ->
  mm_image_size m = MOTA_NRF52_BL_SIZE /\ mm_payload_size m = MOTA_NRF52_BL_SIZE /\ mm_block_count m = BOOT_UPDATE_BLOCK_COUNT.
Proof. unfold boot_update_policy_valid. destruct boot_update_expected_identity as [[? ?]|]; [|done]. intros E. bool_cases. done. Qed.

(** After the scan found the container. *)
Lemma boot_vetted_stage o : boot_state o -> gpregret o = GPREGRET_BOOTLOADER_APPLY ->
  match apply_bootloader_update o with
  | Mbr_takes_over o' => exists m, vetted o m o'
  | Returns applied _ => applied = false
  end /\
  let o' := match apply_bootloader_update o with Mbr_takes_over o' => o' | Returns _ o' => o' end in
  gpregret o' = 0 /\ rtc (page_op in_slot) (o_flash o) (o_flash o').
Proof.
  intros (Hc & Ht & Hhb & _) Hg. unfold apply_bootloader_update. set (o1 := gpregret2_set _ _).
  assert (clean (o_store o1) /\ gpregret o1 = 0 /\ o_flash o1 = o_flash o) as (Hc1 & Hg1 & Hf1) by done.
  destruct (scan_bootloader_mota o1 _) as [[addr m0]|] eqn:Es; [|by split_and!].
  destruct (mm_approved m0) eqn:Ha; cbn [negb]; [|by split_and!].
  assert (boot_container o1 m0) as Hb.
  { unfold scan_bootloader_mota in Es. destruct (negb _); [done|]. destruct (scan_mota _ _ _) as [[a m1]|] eqn:Em; [|done].
    destruct (Z.eqb_spec a MOTA_NRF52_INTERNAL_BL_SLOT_START) as [->|]; [|done]. injection Es as <- <-. split; [|done].
    eapply scan_facts; [by split; [|left]|apply view_byte|exact Em]. }
  assert (forall r, match Returns (fst (boot_update_reject o1 m0 r)) (snd (boot_update_reject o1 m0 r)) with
    | Mbr_takes_over o' => exists m, vetted o m o' | Returns applied _ => applied = false end /\
    gpregret (snd (boot_update_reject o1 m0 r)) = 0 /\
    rtc (page_op in_slot) (o_flash o) (o_flash (snd (boot_update_reject o1 m0 r)))) as Hrej.
  { intros r. destruct (boot_reject_stage o1 m0 r Hc1 Hb) as (Hr & Hf & Hgp). by rewrite Hgp. }
  destruct (boot_update_policy_valid m0) eqn:Hpol; cbn [negb]; [|apply Hrej]. destruct (policy_size m0 Hpol) as (Hsz & _ & _).
  destruct (_ || _); [apply Hrej|]. destruct (ota_delta_live_app_fits_below o1 _) eqn:Hlive; cbn [negb]; [|apply Hrej].
  destruct (boot_image_metadata_valid_at (o_flash o1) _ _); cbn [negb]; [|apply Hrej].
  destruct (clear_boot_approval o1 m0 Hc1 Hb) as (Hr1 & (_ & _ & Hgp1 & _) & _).
  destruct (clear_approval o1 m0) as [ok o2]. cbn [fst snd] in *. destruct ok; cbn [negb]; [|by split_and!].
  destruct (copy_pages_steps (Z.to_nat (mm_image_size m0 / PAGE + 1)) o2 m0 0 ltac:(lia) ltac:(lia)) as (Hr2 & (_ & _ & Hgp2 & _)).
  fold (copy_staged_full_image o2 m0 BOOT_UPDATE_RAW_START) in *.
  destruct (copy_staged_full_image o2 m0 BOOT_UPDATE_RAW_START) as [res o3]. cbn [fst snd] in *.
  pose proof (transitivity Hr1 Hr2) as Hr. rewrite full_image_hash_live by (rewrite ?Hsz; done).
  destruct (_ || _) eqn:Eh; [by split_and!; [|cbn; congruence|]|]. apply orb_false_iff in Eh as [_ Eh].
  apply negb_false_iff, bytes_eqb_eq in Eh.
  destruct (boot_image_metadata_valid_at (o_flash o3) _ m0) eqn:Emeta; cbn [negb]; [|by split_and!; [|cbn; congruence|]].
  destruct (mbr_copy_bl _ _ _) eqn:Embr; [|by split_and!; [|cbn; congruence|]].
  split_and!; [|cbn; congruence|exact Hr]. exists m0. unfold vetted. rewrite Hsz in Eh. exact (conj Hb (conj Hpol (conj Hlive (conj Eh (conj Emeta Embr))))).
Qed.

(** C8: the MBR is only told to copy an image that has been checked where it
    lies. Whatever is staged and whatever a failing flash does,
    [apply_bootloader_update] ends with the trigger consumed, changes no page
    outside the fixed slot (the application, the installed bootloader and the
    settings stay), and hands over only when the 40 KiB at the start of the slot
    have the SHA-256 of an approved container that passes the policy and carry this
    board's metadata, and the running application ends below the slot; otherwise it
    reports failure. *)
Theorem boot_update_vetted o : boot_state o -> gpregret o = GPREGRET_BOOTLOADER_APPLY ->
  match apply_bootloader_update o with
  | Mbr_takes_over o' => exists m, vetted o m o'
  | Returns applied _ => applied = false
  end /\
  let o' := match apply_bootloader_update o with Mbr_takes_over o' => o' | Returns _ o' => o' end in
  gpregret o' = 0 /\ rtc (page_op in_slot) (o_flash o) (o_flash o').
Proof. apply boot_vetted_stage. Qed.
End Vetted.

(** * A package that passes every check *)

Section Accepted.
Context {F : Type} `{ReliableFlash F} `{OtaEnv} `{BootEnv F}.
Implicit Types o : ota F.

Lemma clear_approval_reliable o m addr : coherent (o_store o) -> g_cache_page (o_store o) = 0 ->
  mm_approval_addr m = addr + APPROVAL_OFFSET -> PAGE <= addr < MOTA_NRF52_APP_END ->
  exists o', clear_approval o m = (true, o') /\ same_module o o' /\ coherent (o_store o') /\ g_cache_page (o_store o') = 0 /\
    forall x, fl_view (o_flash o') x =
      if (addr + APPROVAL_OFFSET <=? x) && (x <? addr + APPROVAL_OFFSET + 4) then 0 else fl_view (o_flash o) x.
Proof.
  intros Hc Hp Ha Hr. unfold clear_approval. rewrite Ha. assert (PAGE = 4096) as HP by done.
  unfold MOTA_NRF52_APP_END, APPROVAL_OFFSET in *.
  destruct (cwrite_coherent (o_store o) (addr + 201) [0; 0; 0; 0] Hc) as (s1 & -> & Hc1 & Hv1);
    [by repeat constructor|lia|change (lenZ [0; 0; 0; 0]) with 4; lia|]. cbn [negb].
  destruct (cache_flush_reliable s1 Hc1) as (s2 & -> & Hc2 & Hp2 & Hv2). eexists. split; [reflexivity|]. split_and!; try done.
  intros x. unfold o_flash. cbn [set_store o_store]. rewrite <- (clean_view s2), Hv2, Hv1, <- (clean_view (o_store o)) by done.
  change (lenZ [0; 0; 0; 0]) with 4. destruct (_ && _) eqn:E; [|done]. bool_cases. unfold nthZ.
  set (i := Z.to_nat (x - (addr + 201))). assert (i < 4)%nat by lia. by do 4 (destruct i as [|i]; [done|]); lia.
Qed.

Lemma source_read_plain o a n : container_total (g_hybrid o) = 0 -> source_read o a n = Some (fl_read (o_flash o) a n).
Proof. intros Ht. unfold source_read, staged_read. by rewrite Ht. Qed.

(** Forward, page by page, onto a lower address: the source may overlap the
    destination. *)
Lemma copy_pages_exact n : forall o m dst off,
  container_total (g_hybrid o) = 0 -> dst mod PAGE = 0 -> off mod PAGE = 0 -> 0 <= off -> 0 <= dst <= mm_payload_addr m ->
  mm_payload_addr m + mm_image_size m < 2 ^ 32 -> mm_image_size m - off <= PAGE * Z.of_nat n ->
  exists o', copy_pages n o m dst off = (0, o') /\ same_module o o' /\
    (forall x, dst + off <= x < dst + mm_image_size m -> fl_view (o_flash o') x = fl_view (o_flash o) (mm_payload_addr m + (x - dst))) /\
    (forall x, x < dst + off -> fl_view (o_flash o') x = fl_view (o_flash o) x).
Proof.
  assert (PAGE = 4096) as HP by done.
  induction n as [|n IH]; intros o m dst off Ht Hd Ho Hz Hdst Hsz Hn; cbn [copy_pages].
  { exists o. split_and!; try done. intros x Hx. lia. }
  destruct (Z.ltb_spec off (mm_image_size m)) as [Hlt|Hge].
  2:{ exists o. split_and!; try done. intros x Hx. lia. }
  set (len := Z.min _ _). rewrite (u32_small (mm_payload_addr m + off)), source_read_plain by (done || lia).
  set (buf := fl_read _ _ _). assert (lenZ buf = len) as Hlb by (subst buf; unfold fl_read; rewrite lenZ_mem_read; lia).
  set (cache := put _ 0 buf). assert (lenZ (replicate (Z.to_nat PAGE) 255) = PAGE) as Hlr by done.
  destruct (page_write_reliable (o_flash o) (dst + off) cache) as (f & E & Hv).
  { rewrite Zplus_mod, Hd, Ho. done. }
  { subst cache. rewrite lenZ_put; lia. }
  { subst cache. apply put_bytes; [apply Forall_replicate; unfold is_byte; lia|apply fl_read_bytes]. }
  rewrite u32_small, E by lia. cbn [negb]. set (o1 := set_store _ o).
  destruct (IH o1 m dst (off + PAGE)) as (o' & -> & Hs & Hnew & Hold); try done; [|lia|lia|].
  { rewrite Zplus_mod, Ho, Z_mod_same_full. done. }
  exists o'. split; [done|]. split; [done|]. split.
  - intros x Hx. destruct (Z.lt_ge_cases x (dst + (off + PAGE))) as [Hlo|Hhi].
    + rewrite Hold by done. change (o_flash o1) with f. rewrite Hv. replace (_ && _) with true by lia.
      subst cache. rewrite nthZ_put by lia. replace (_ && _) with true by lia. subst buf. unfold fl_read.
      rewrite nthZ_mem_read by lia. f_equal. lia.
    + rewrite Hnew by lia. change (o_flash o1) with f. rewrite Hv. by replace (_ && _) with false by lia.
  - intros x Hx. rewrite Hold by lia. change (o_flash o1) with f. rewrite Hv. by replace (_ && _) with false by lia.
Qed.

Lemma staged_image_moved o m dst : container_total (g_hybrid o) = 0 -> dst mod PAGE = 0 -> 0 <= dst <= mm_payload_addr m ->
  0 <= mm_image_size m -> mm_payload_addr m + mm_image_size m < 2 ^ 32 ->
  exists o', copy_staged_full_image o m dst = (0, o') /\
    fl_read (o_flash o') dst (mm_image_size m) = fl_read (o_flash o) (mm_payload_addr m) (mm_image_size m) /\
    forall x, x < dst -> fl_view (o_flash o') x = fl_view (o_flash o) x.
Proof.
  intros Ht Hd Hdst Hsz Hb. assert (PAGE = 4096) as HP by done. unfold copy_staged_full_image.
  destruct (copy_pages_exact (Z.to_nat (mm_image_size m / PAGE + 1)) o m dst 0) as (o' & E & _ & Hnew & Hold); try done.
  { rewrite HP. Z.div_mod_to_equations. lia. }
  exists o'. split; [exact E|]. split; [|intros x Hx; apply Hold; lia].
  unfold fl_read. apply eq_by_nthZ; [by rewrite !lenZ_mem_read|]. rewrite lenZ_mem_read by done. intros i Hi.
  rewrite !nthZ_mem_read by lia. rewrite Hnew by lia. f_equal. lia.
Qed.

Lemma full_image_hash_staged o m a : container_total (g_hybrid o) = 0 -> 0 <= a -> 0 <= mm_image_size m -> a + mm_image_size m < 2 ^ 32 ->
  full_image_hash_valid o m a true = bytes_eqb (sha256 (fl_read (o_flash o) a (mm_image_size m))) (mm_image_hash m).
Proof.
  intros Ht Ha Hs Hb. unfold full_image_hash_valid, region_hash_valid.
  rewrite (sha256_read_region_bytes stack_block (source_read o) a (mm_image_size m) (fl_read (o_flash o) a (mm_image_size m)));
    try done; [apply stack_block_length|by apply lenZ_mem_read|].
  intros off n ? ? ?. rewrite source_read_plain by done. unfold fl_read. by rewrite sliceZ_mem_read by lia.
Qed.

(** The metadata check looks at the image's bytes and at the SoftDevice only. *)
Lemma metadata_ext (f f' : F) a a' m :
  fl_read f' a' MOTA_NRF52_BL_SIZE = fl_read f a MOTA_NRF52_BL_SIZE ->
  (forall x, x < MOTA_NRF52_INTERNAL_BL_SLOT_START -> fl_view f' x = fl_view f x) ->
  boot_image_metadata_valid_at f' a' m = boot_image_metadata_valid_at f a m.
Proof.
  intros Hr Hf. unfold boot_image_metadata_valid_at. rewrite Hr.
  replace (runtime_softdevice_fwid f') with (runtime_softdevice_fwid f); [done|].
  unfold runtime_softdevice_fwid, mem_word. by rewrite !Hf by done.
Qed.

(** The package passes the checks of [apply_bootloader_update]. *)
Record acceptable o m : Prop := {
  acc_found : scan_bootloader_mota o GPREGRET2_OTA_STAGE_EXPANDED = Some (MOTA_NRF52_INTERNAL_BL_SLOT_START, m);
  acc_approved : mm_approved m = true;
  acc_policy : boot_update_policy_valid m = true;
  acc_vectors : staged_vectors_valid o (mm_payload_addr m) = true;
  acc_hash : sha256 (fl_read (o_flash o) (mm_payload_addr m) MOTA_NRF52_BL_SIZE) = mm_image_hash m;
  acc_live : ota_delta_live_app_fits_below o MOTA_NRF52_INTERNAL_BL_SLOT_START = true;
  acc_metadata : boot_image_metadata_valid_at (o_flash o) (mm_payload_addr m) m = true
}.

Lemma package_handed_over o m : boot_state o -> bytes (g_cache (o_store o)) ->
  gpregret o = GPREGRET_BOOTLOADER_APPLY -> gpregret2 o = GPREGRET2_OTA_STAGE_EXPANDED -> acceptable o m ->
  exists o', apply_bootloader_update o =
      (if mbr_copy_bl (o_flash o') BOOT_UPDATE_RAW_START (MOTA_NRF52_BL_SIZE / 4) then Mbr_takes_over o'
       else Returns false (gpregret2_set GPREGRET2_BL_MBR_RETURNED o')) /\
    fl_read (o_flash o') BOOT_UPDATE_RAW_START MOTA_NRF52_BL_SIZE = fl_read (o_flash o) (mm_payload_addr m) MOTA_NRF52_BL_SIZE /\
    forall x, x < MOTA_NRF52_INTERNAL_BL_SLOT_START -> fl_view (o_flash o') x = fl_view (o_flash o) x.
Proof.
  intros (Hc & Ht & Hhb & _) Hcb Hg Hg2 [Hfound Happ Hpol Hvec Hhash Hlive Hmeta]. unfold apply_bootloader_update. rewrite Hg2.
  set (o1 := gpregret2_set GPREGRET2_BL_GATE _). change (scan_bootloader_mota o1) with (scan_bootloader_mota o). rewrite Hfound, Happ, Hpol.
  cbn [negb]. change (staged_vectors_valid o1) with (staged_vectors_valid o). rewrite Hvec. destruct (policy_size m Hpol) as (Hsz & _ & _).
  assert (container_at (g_hybrid o) (fl_view (o_flash o)) MOTA_NRF52_INTERNAL_BL_SLOT_START m) as (limit & Hp & Hl & _).
  { unfold scan_bootloader_mota in Hfound. destruct (negb _); [done|]. destruct (scan_mota _ _ _) as [[a m1]|] eqn:Em; [|done].
    destruct (Z.eqb_spec a MOTA_NRF52_INTERNAL_BL_SLOT_START) as [->|]; [|done]. injection Hfound as ->.
    eapply scan_facts; [by split; [|left]|apply view_byte|exact Em]. }
  destruct (parse_facts _ _ _ _ _ ltac:(apply view_byte) Hp ltac:(done) Hl) as (_ & Htot & Ha & _ & Hpa & Hpe & _).
  assert (lenZ TRAILER = 5) as HT by done. assert (PAGE = 4096) as HP by done.
  unfold FIXED_HEADER_SIZE, MOTA_MFL, MOTA_NRF52_INTERNAL_BL_SLOT_START in Hpa. unfold MOTA_NRF52_INTERNAL_BL_SLOT_START in Htot, Hpe.
  assert (MOTA_NRF52_BL_SIZE = 40960) as HBL by done. pose proof (policy_size m Hpol) as (_ & Hps & _).
  rewrite (full_image_hash_staged o1) by (done || lia). rewrite Hsz, <- Hhash.
  change (o_flash o1) with (o_flash o). rewrite bytes_eqb_refl. cbn [negb orb].
  change (ota_delta_live_app_fits_below o1) with (ota_delta_live_app_fits_below o).
  change BOOT_UPDATE_RAW_START with MOTA_NRF52_INTERNAL_BL_SLOT_START. rewrite Hlive. cbn [negb].
  rewrite Hmeta. cbn [negb].
  destruct (clear_approval_reliable o1 m MOTA_NRF52_INTERNAL_BL_SLOT_START) as (o2 & -> & Hs2 & _ & _ & Hv2); [by apply clean_coherent; [apply Hc| |apply Hc]|apply Hc|done|done|].
  cbn [negb]. unfold copy_staged_full_image. destruct Hs2 as (Hh2 & _).
  destruct (copy_pages_exact (Z.to_nat (mm_image_size m / PAGE + 1)) o2 m MOTA_NRF52_INTERNAL_BL_SLOT_START 0) as (o3 & -> & Hs3 & Hnew & Hold);
    [by rewrite Hh2|done|done|done|unfold MOTA_NRF52_INTERNAL_BL_SLOT_START; lia|lia|rewrite Hsz; done|].
  cbn [Z.eqb negb orb].
  assert (fl_read (o_flash o3) MOTA_NRF52_INTERNAL_BL_SLOT_START MOTA_NRF52_BL_SIZE = fl_read (o_flash o) (mm_payload_addr m) MOTA_NRF52_BL_SIZE) as Hcopy.
  { unfold fl_read. apply eq_by_nthZ; [by rewrite !lenZ_mem_read by done|]. rewrite lenZ_mem_read by done. intros i Hi.
    rewrite !nthZ_mem_read by lia. rewrite Hnew by lia. rewrite Hv2. unfold APPROVAL_OFFSET, MOTA_NRF52_INTERNAL_BL_SLOT_START.
    replace (_ && _) with false by lia. change (o_flash o1) with (o_flash o). f_equal. lia. }
  assert (forall x, x < MOTA_NRF52_INTERNAL_BL_SLOT_START -> fl_view (o_flash o3) x = fl_view (o_flash o) x) as Hframe.
  { intros x Hx. rewrite Hold by lia. rewrite Hv2. unfold APPROVAL_OFFSET. by replace (_ && _) with false by lia. }
  rewrite full_image_hash_live by (rewrite ?Hsz; done). rewrite Hsz, Hcopy, <- Hhash, bytes_eqb_refl. cbn [negb].
  rewrite (metadata_ext (o_flash o) (o_flash o3) (mm_payload_addr m)) by done. rewrite Hmeta. cbn [negb].
  exists (gpregret2_set GPREGRET2_BL_MBR_HANDOFF o3). split; [|by split]. by destruct (mbr_copy_bl _ _ _).
Qed.

(** The staged image is moved down onto the start of its own slot exactly. On
    a flash that works, [copy_staged_full_image] onto a page boundary at or below
    the source ends without error and leaves there the bytes the source held
    before, although the page it writes may hold source bytes still to be read;
    what lies below stays. *)
Theorem boot_image_compacted o m dst : container_total (g_hybrid o) = 0 -> dst mod PAGE = 0 -> 0 <= dst <= mm_payload_addr m ->
  0 <= mm_image_size m -> mm_payload_addr m + mm_image_size m < 2 ^ 32 ->
  exists o', copy_staged_full_image o m dst = (0, o') /\
    fl_read (o_flash o') dst (mm_image_size m) = fl_read (o_flash o) (mm_payload_addr m) (mm_image_size m) /\
    forall x, x < dst -> fl_view (o_flash o') x = fl_view (o_flash o) x.
Proof. apply staged_image_moved. Qed.
End Accepted.

Lemma boot_update_vetted_witness :
  let o := demo_boot_request demo_flash in
  let o' := match apply_bootloader_update o with Mbr_takes_over o' => o' | Returns _ o' => o' end in
  gpregret o' = 0 /\ rtc (page_op in_slot) demo_flash (o_flash o').
Proof. exact (proj2 (boot_update_vetted (demo_boot_request demo_flash) (demo_boot_state demo_flash) eq_refl)). Defined.

(** The demo container, moved from its payload onto its own first page. *)
Lemma boot_image_compacted_witness : exists o', copy_staged_full_image (demo_state demo_flash) demo_manifest 0xEC000 = (0, o') /\
  fl_read (o_flash o') 0xEC000 5 = fl_read demo_flash 0xEC0D1 5.
Proof.
  destruct (boot_image_compacted (demo_state demo_flash) demo_manifest 0xEC000) as (o' & E & Hr & _).
  - reflexivity.
  - reflexivity.
  - cbn. lia.
  - cbn. lia.
  - cbn. lia.
  - exists o'. exact (conj E Hr).
Defined.
