(* ===== verification/OtaInstall.v ===== *)
(** The update that succeeds: on a flash that works, the callbacks of
    [src/ota_delta.c] give the decoder a work space that works, so an approved
    container for the image that runs installs the image its patch describes, and
    the settings record makes it the application. *)
From stdpp Require Import relations.
From S2P Require Import Prelude Crc Sha256 Nvm BootImage DfuTypes Settings Detools DetoolsSpec DetoolsStream DetoolsTotal DetoolsCorrect OtaFlash OtaMota OtaGeometry OtaState OtaBoot OtaDemo OtaDelta OtaSteps OtaCache OtaSafety OtaCrash OtaBootSafety.

(** * Staged bytes as one memory *)

Section Staged.
Context `{OtaEnv}.

Definition staged_byte (fl : mem) (h : list Z) : mem := fun x =>
  if container_total h =? 0 then fl x
  else if x - flash_start h <? flash_len h then fl x else ram (MOTA_HYBRID_ARENA_START + (x - flash_start h - flash_len h)).

(** The read is within the container. *)
Definition readable (h : list Z) (a n : Z) : Prop :=
  container_total h = 0 \/
  (flash_start h <= a /\ a - flash_start h + n <= container_total h /\
   (n = 0 \/ a - flash_start h + n <= flash_len h \/ a - flash_start h + n - flash_len h <= MOTA_HYBRID_ARENA_SIZE)).

Lemma header_field_range h i : bytes h -> 0 <= field32 h i < 2 ^ 32.
Proof. intros Hb. apply read_le32_range, sliceZ_bytes, Hb. Qed.

Lemma staged_read_byte fl h a n l : bytes h -> 0 <= n -> staged_read fl h a n = Some l ->
  readable h a n /\ l = mem_read (staged_byte fl h) a n.
Proof.
  intros Hb Hn E. unfold staged_read in E. unfold readable, staged_byte. destruct (Z.eqb_spec (container_total h) 0) as [Et|Et]; cbn [negb] in E.
  { injection E as <-. split; [by left|]. apply mem_read_ext. done. }
  pose proof (header_field_range h 16 Hb). pose proof (header_field_range h 20 Hb). pose proof (header_field_range h 24 Hb).
  fold (container_total h) (flash_start h) (flash_len h) in *.
  unfold hybrid_staged_read in E. destruct (orb _ _) eqn:E1; [done|]. destruct (orb _ _) eqn:E2 in E; [done|]. bool_cases.
  unfold MOTA_HYBRID_ARENA_SIZE in *.
  destruct (Z.ltb_spec (a - flash_start h) (flash_len h)) as [Hlt|Hge].
  - destruct (Z.eqb_spec (n - Z.min (flash_len h - (a - flash_start h)) n) 0) as [Ez|Ez].
    { injection E as <-. split; [right; lia|]. rewrite Z.min_r by lia. apply mem_read_ext. intros x Hx.
      by replace (x - flash_start h <? flash_len h) with true by lia. }
    assert (flash_len h - (a - flash_start h) < n) as Hsplit by lia. rewrite Z.min_l in E, Ez by lia. unfold hybrid_ram_read in E.
    rewrite u32_small in E by lia. destruct (orb _ _) eqn:E3 in E; [done|]. unfold MOTA_HYBRID_ARENA_SIZE in E3. bool_cases. injection E as <-.
    split; [right; lia|]. replace n with (flash_len h - (a - flash_start h) + (n - (flash_len h - (a - flash_start h)))) at 2 by lia.
    rewrite mem_read_split by lia. f_equal.
    + apply mem_read_ext. intros x Hx. by replace (x - flash_start h <? flash_len h) with true by lia.
    + apply eq_by_nthZ; [by rewrite !lenZ_mem_read by lia|]. rewrite lenZ_mem_read by lia. intros i Hi. rewrite !nthZ_mem_read by lia.
      cbv beta. replace (_ <? flash_len h) with false by lia. f_equal. lia.
  - rewrite Z.sub_0_r in E. destruct (Z.eqb_spec n 0) as [->|Ez]; [injection E as <-; split; [right; lia|done]|].
    unfold hybrid_ram_read in E. rewrite u32_small in E by lia. destruct (orb _ _) eqn:E3 in E; [done|].
    unfold MOTA_HYBRID_ARENA_SIZE in E3. bool_cases. injection E as <-. split; [right; lia|]. cbn [app].
    change (mem_read fl a 0 ++ ?l) with l.
    apply eq_by_nthZ; [by rewrite !lenZ_mem_read by lia|]. rewrite lenZ_mem_read by lia. intros i Hi. rewrite !nthZ_mem_read by lia.
    cbv beta. replace (_ <? flash_len h) with false by lia. f_equal. lia.
Qed.
Lemma staged_read_ok fl h a n : bytes h -> 0 <= n -> readable h a n -> staged_read fl h a n = Some (mem_read (staged_byte fl h) a n).
Proof.
  intros Hb Hn Hr. assert (exists l, staged_read fl h a n = Some l) as [l E].
  2:{ rewrite E. apply staged_read_byte in E as [_ ->]; done. }
  unfold staged_read. unfold readable in Hr. destruct (Z.eqb_spec (container_total h) 0) as [Et|Et]; cbn [negb]; [by eexists|].
  destruct Hr as [|(Hlo & Hhi & Hram)]; [done|].
  pose proof (header_field_range h 16 Hb). pose proof (header_field_range h 20 Hb). pose proof (header_field_range h 24 Hb).
  fold (container_total h) (flash_start h) (flash_len h) in *. unfold hybrid_staged_read.
  destruct (orb _ _) eqn:E1; [lia|]. destruct (orb _ _) eqn:E2 in |- *; [lia|].
  set (chunk := if a - flash_start h <? flash_len h then _ else 0).
  destruct (Z.eqb_spec (n - chunk) 0) as [Ez|Ez]; [by eexists|]. unfold hybrid_ram_read.
  assert (a - flash_start h + chunk >= flash_len h /\ 0 <= chunk <= n) as [Hge Hc].
  { subst chunk. destruct (Z.ltb_spec (a - flash_start h) (flash_len h)); lia. }
  rewrite u32_small by lia. destruct (orb _ _) eqn:E3 in |- *; [lia|]. by eexists.
Qed.

Lemma staged_read_sub fl h a n l off k : bytes h -> staged_read fl h a n = Some l -> 0 <= off -> 0 <= k -> off + k <= n ->
  staged_read fl h (a + off) k = Some (sliceZ l off k).
Proof.
  intros Hb E Ho Hk Hn. destruct (staged_read_byte fl h a n l Hb ltac:(lia) E) as [Hr ->].
  rewrite staged_read_ok by (done || (unfold readable in *; lia)). by rewrite sliceZ_mem_read by lia.
Qed.

(** Only flash below the end of the application area is read. *)
Lemma staged_read_frame fl fl' h a n lo : bytes h -> 0 <= n -> lo <= a ->
  (container_total h = 0 -> a + n <= MOTA_NRF52_APP_END) ->
  (container_total h <> 0 -> flash_start h + flash_len h = MOTA_NRF52_APP_END) ->
  (forall x, lo <= x < MOTA_NRF52_APP_END -> fl' x = fl x) -> staged_read fl' h a n = staged_read fl h a n.
Proof.
  intros Hb Hn Hlo Hplain Hhyb Hf.
  assert (mem_read (staged_byte fl' h) a n = mem_read (staged_byte fl h) a n) as Heq.
  { apply mem_read_ext. intros x Hx. unfold staged_byte. destruct (Z.eqb_spec (container_total h) 0); [apply Hf; lia|].
    destruct (Z.ltb_spec (x - flash_start h) (flash_len h)); [apply Hf; lia|done]. }
  destruct (staged_read fl h a n) as [l|] eqn:E.
  - apply staged_read_byte in E as [Hr ->]; [|done..]. by rewrite staged_read_ok, Heq.
  - destruct (staged_read fl' h a n) as [l|] eqn:E'; [|done]. apply staged_read_byte in E' as [Hr _]; [|done..].
    by rewrite staged_read_ok in E.
Qed.
End Staged.

(** * The callbacks as a work space *)

Lemma mem_read_shift m a b n : mem_read (fun x => m (b + x)) a n = mem_read m (b + a) n.
Proof. unfold mem_read. apply map_ext_in. intros i _. f_equal. lia. Qed.

Section Install.
Context {F : Type} `{ReliableFlash F} `{OtaEnv} `{BootEnv F} (uninit : reader -> chunk -> Z).
Implicit Types o : ota F.
Implicit Types t : dt F.

Section Space.
(** The end of the work space, the handoff, and where the payload is staged. *)
Context (ws : Z) (h : list Z) (pa : Z) (payload : list Z).
Context (Hwm : ws mod PAGE = 0) (Hws : APP_BASE <= ws < MOTA_NRF52_APP_END) (Hh : bytes h).
Context (Hpa : ws <= pa) (Hpe : pa + lenZ payload < 2 ^ 32).
Context (Hplain : container_total h = 0 -> pa + lenZ payload <= MOTA_NRF52_APP_END).
Context (Hhyb : container_total h <> 0 -> flash_start h + flash_len h = MOTA_NRF52_APP_END).

Definition sourced (f : F) : Prop := forall off n, 0 <= off -> 0 <= n -> off + n <= lenZ payload ->
  staged_read (fl_view f) h (pa + off) n = Some (sliceZ payload off n).

Definition dt_ok t : Prop :=
  coherent (o_store (dt_ota t)) /\ cached (in_ws ws) (o_store (dt_ota t)) /\ g_hybrid (dt_ota t) = h /\ sourced (o_flash (dt_ota t)) /\
  patch_addr (dt_ctx t) = pa /\ patch_len (dt_ctx t) = lenZ payload /\ 0 <= patch_pos (dt_ctx t) <= lenZ payload /\
  ws_lo (dt_ctx t) = APP_BASE /\ ws_hi (dt_ctx t) = ws.

Definition dt_view t : Z -> Z := fun x => cache_view (o_store (dt_ota t)) (APP_BASE + x).
Definition dt_patch t : list Z := drop (Z.to_nat (patch_pos (dt_ctx t))) payload.

Lemma sourced_frame f f' : rtc (page_op (in_ws ws)) f f' -> sourced f -> sourced f'.
Proof.
  intros Hr Hs off n Ho Hn Hb. rewrite <- (Hs off n Ho Hn Hb). apply (staged_read_frame _ _ _ _ _ ws); try done; [lia|intros Ht; pose proof (Hplain Ht); lia|].
  intros x Hx. eapply page_op_frame; [exact Hr|]. intros p Hp. unfold in_ws in Hp. lia.
Qed.

Lemma ws_addr_in t off n : dt_ok t -> 0 <= off -> 0 <= n -> off + n <= ws - APP_BASE ->
  dt_ws_addr (dt_ctx t) off n = Some (APP_BASE + off).
Proof.
  intros (_ & _ & _ & _ & _ & _ & _ & Hlo & Hhi) Ho Hn Hb. pose proof app_base_range. assert (PAGE = 4096) as HP by done.
  unfold MOTA_NRF52_APP_END in *. unfold dt_ws_addr, UINT32_MAX. rewrite Hlo, Hhi, !u32_small by lia.
  replace (orb (off >? 4294967295) _) with false by lia. by replace (orb _ _) with false by lia.
Qed.

(** A change of the store that stays within the work space. *)
Lemma dt_ok_store t s : dt_ok t -> coherent s -> stepped (in_ws ws) (o_store (dt_ota t)) s -> dt_ok (set_dt_store s t).
Proof.
  intros (Hc & Hca & Hg & Hs & Hrest) Hc' [Hr Hca']. unfold dt_ok. cbn [set_dt_store dt_ota dt_ctx set_store o_store g_hybrid].
  split_and!; try done; try tauto; [|by destruct Hrest as (? & ? & ? & ? & ?)..]. by eapply sourced_frame.
Qed.

Definition dt_workspace : Workspace (dt F) dt_pr.
Proof using All.
  pose proof app_base_range as Hab. assert (PAGE = 4096) as HP by done.
  refine {| ws_span := ws - APP_BASE; ws_ok := dt_ok; ws_view := dt_view; ws_patch := dt_patch |}.
  - unfold MOTA_NRF52_APP_END in *. lia.
  - intros t a n Hok Ha Hn Hb. cbn [mem_read_cb dt_callbacks]. unfold dt_mr. rewrite ws_addr_in by done.
    unfold dt_view. rewrite mem_read_shift. unfold MOTA_NRF52_APP_END in *. rewrite cread_coherent; [done|apply Hok|lia..].
  - intros t a bs Hok Ha Hb Hby. cbn [mem_write_cb dt_callbacks]. unfold dt_mw. pose proof (lenZ_nonneg bs). rewrite ws_addr_in by (done || lia).
    pose proof Hok as (Hc & Hca & _). unfold MOTA_NRF52_APP_END in *.
    destruct (cwrite_coherent (o_store (dt_ota t)) (APP_BASE + a) bs Hc Hby) as (s & E & Hc' & Hv); [lia|lia|].
    assert (stepped (in_ws ws) (o_store (dt_ota t)) s) as Hst.
    { change s with (snd (true, s)). rewrite <- E. apply cwrite_steps; [done|lia|lia|apply app_pages; [done|lia|lia]]. }
    rewrite E. eexists. split; [reflexivity|]. split; [by apply dt_ok_store|]. split; [done|].
    intros x Hx. unfold dt_view. cbn [set_dt_store dt_ota set_store o_store]. rewrite Hv.
    destruct ((a <=? x) && (x <? a + lenZ bs)) eqn:Ex.
    + replace (_ && _) with true by lia. f_equal. lia.
    + by replace (_ && _) with false by lia.
  - intros t a n Hok Ha Hm Hn Hb. cbn [mem_erase_cb dt_callbacks]. unfold dt_me. rewrite ws_addr_in by (done || lia).
    pose proof Hok as (Hc & Hca & _). pose proof app_base_aligned as Hba. unfold MOTA_NRF52_APP_END in *.
    assert ((APP_BASE + a) mod PAGE = 0) as Hal by (rewrite Zplus_mod, Hm, Hba; done).
    destruct (cerase_coherent (o_store (dt_ota t)) (APP_BASE + a) n Hc Hal Hn) as (s & E & Hc' & Hv); [lia|lia|].
    assert (stepped (in_ws ws) (o_store (dt_ota t)) s) as Hst.
    { change s with (snd (true, s)). rewrite <- E. apply cerase_steps; [done|lia|lia|lia|apply app_pages; [done|lia|lia]]. }
    rewrite E. eexists. split; [reflexivity|]. split; [by apply dt_ok_store|]. split; [done|].
    intros x Hx Hout. unfold dt_view. cbn [set_dt_store dt_ota set_store o_store]. rewrite Hv.
    by replace (_ && _) with false by lia.
  - intros t n Hok Hn. pose proof Hok as (Hc & Hca & Hg & Hs & Hpa' & Hpl & Hpos & Hlo & Hhi). unfold dt_pr, dt_patch in *.
    assert (lenZ (drop (Z.to_nat (patch_pos (dt_ctx t))) payload) = lenZ payload - patch_pos (dt_ctx t)) as Hld
      by (unfold lenZ in *; rewrite length_drop; lia).
    rewrite Hpl, Hpa'. unfold UINT32_MAX. pose proof app_base_range. destruct (orb _ _) eqn:E1; [lia|].
    rewrite u32_small by lia. unfold source_read. rewrite Hg, Hs by lia. eexists. split; [reflexivity|]. split.
    { unfold dt_ok. cbn [dt_ota dt_ctx patch_addr patch_len patch_pos ws_lo ws_hi]. rewrite u32_small by lia. split_and!; try done; lia. }
    split; [|done]. cbn [dt_ctx patch_pos]. rewrite u32_small, drop_drop by lia. f_equal. lia.
Defined.
End Space.

(** * From the commit point to the recorded image *)

Lemma patched_sizes old payload g new : patched old payload = Some (g, new) -> lenZ old <= memory_size g.
Proof.
  unfold patched. destruct (header payload) as [[[g' to_size] body]|]; [|done]. cbn [mbind option_bind].
  destruct (geometry_ok g' to_size (lenZ old)) eqn:Hg; [|done]. destruct (crle_decode body); [|done]. cbn [mbind option_bind].
  destruct (image _ _ _ _); [|done]. intros E. injection E as <- _. unfold geometry_ok in Hg. bool_cases. lia.
Qed.

Lemma finish_recorded o m new : 0 <= mm_image_size m <= MOTA_NRF52_APP_END - APP_BASE ->
  fl_read (o_flash o) APP_BASE (mm_image_size m) = new -> sha256 new = mm_image_hash m ->
  exists o', finish_app_update o m = (true, o') /\ gpregret2 o' = 0xB8 /\
    fl_read (o_flash o') APP_BASE (mm_image_size m) = new /\
    flash_settings (o_flash o') = ota_settings BANK_VALID_APP (crc16_compute new None) (mm_image_size m).
Proof.
  intros Hsz Hnew Hsha. pose proof app_base_range as Hab. assert (PAGE = 4096) as HP by done.
  assert (MOTA_NRF52_APP_END = 970752 /\ SETTINGS_ADDRESS = 1044480) as [HE HS] by done.
  unfold finish_app_update. rewrite full_image_hash_live by lia. rewrite Hnew, Hsha, (proj2 (bytes_eqb_eq _ _) eq_refl). cbn [negb].
  unfold crc16_region. rewrite Hnew. eexists. split; [reflexivity|]. split; [done|].
  change (o_flash (gpregret2_set 0xB8 (otah_settings_commit o ?b ?c ?s))) with (settings_commit (o_flash o) b c s). split.
  - rewrite <- Hnew at 2. unfold fl_read. apply mem_read_ext. intros x Hx. apply settings_commit_frame. lia.
  - apply flash_settings_commit; [done| |lia]. apply crc16_range. rewrite <- Hnew. apply fl_read_bytes.
Qed.

Lemma apply_delta_installs o m ws payload old g new :
  coherent (o_store o) -> g_cache_page (o_store o) = 0 -> bytes (g_hybrid o) ->
  ws mod PAGE = 0 -> APP_BASE <= ws < MOTA_NRF52_APP_END -> ws <= mm_payload_addr m ->
  mm_payload_addr m + lenZ payload < 2 ^ 32 ->
  (container_total (g_hybrid o) = 0 -> mm_payload_addr m + lenZ payload <= MOTA_NRF52_APP_END) ->
  (container_total (g_hybrid o) <> 0 -> flash_start (g_hybrid o) + flash_len (g_hybrid o) = MOTA_NRF52_APP_END) ->
  mm_payload_size m = lenZ payload -> sourced (g_hybrid o) (mm_payload_addr m) payload (o_flash o) -> bytes payload ->
  fl_read (o_flash o) APP_BASE (lenZ old) = old -> patched old payload = Some (g, new) -> memory_size g <= ws - APP_BASE ->
  lenZ new = mm_image_size m -> mm_image_size m <= ws - APP_BASE -> sha256 new = mm_image_hash m ->
  exists o', apply_delta uninit o m ws = Some (true, o') /\ gpregret2 o' = 0xB8 /\
    fl_read (o_flash o') APP_BASE (lenZ new) = new /\
    flash_settings (o_flash o') = ota_settings BANK_VALID_APP (crc16_compute new None) (lenZ new).
Proof.
  intros Hc Hpg Hh Hwm Hws Hpa Hpe Hplain Hhyb Hps Hsrc Hby Hold Hpatch Hmem Hlen Hfit Hsha.
  pose proof app_base_range as Hab. assert (PAGE = 4096) as HP by done. pose proof (lenZ_nonneg new) as Hln. pose proof (lenZ_nonneg payload) as Hlp.
  assert (MOTA_NRF52_APP_END = 970752 /\ SETTINGS_ADDRESS = 1044480) as [HE HS] by done.
  pose proof (patched_sizes _ _ _ _ Hpatch) as Hlo. unfold apply_delta. set (o1 := otah_settings_commit o _ _ _). set (t := mk_dt o1 _).
  set (W := dt_workspace ws (g_hybrid o) (mm_payload_addr m) payload Hwm Hws Hh Hpa Hpe Hplain Hhyb).
  assert (forall x, x < SETTINGS_ADDRESS -> fl_view (o_flash o1) x = fl_view (o_flash o) x) as Hframe
    by (intros x Hx; by apply settings_commit_frame).
  assert (@ws_ok _ _ _ W t) as Hok.
  { change (dt_ok ws (g_hybrid o) (mm_payload_addr m) payload t). unfold dt_ok. subst t.
    cbn [dt_ota dt_ctx patch_addr patch_len patch_pos ws_lo ws_hi]. split_and!; try done; try lia.
    - apply clean_coherent; [apply Hc..|done].
    - apply clean_cached. split; [apply Hc|done].
    - intros off n Ho Hn Hb. rewrite <- (Hsrc off n Ho Hn Hb). apply (staged_read_frame _ _ _ _ _ 0); try done; [lia|intros Ht; pose proof (Hplain Ht); lia|].
      intros x Hx. apply Hframe. lia. }
  assert (forall x, @ws_view _ _ _ W t x = cache_view (o_store o1) (APP_BASE + x)) as Hview by done.
  assert (forall x, cache_view (o_store o1) x = fl_view (o_flash o1) x) as Hclean by (intros x; by apply clean_view).
  destruct (@decoder_makes_image _ _ _ W uninit t old g new) as (t' & E & Hnew & Hok' & Hend); try done.
  { intros x Hx. rewrite Hview, Hclean. apply view_byte. }
  { intros i Hi. rewrite Hview, Hclean, Hframe by lia. rewrite <- Hold at 1. unfold fl_read. by rewrite nthZ_mem_read. }
  change (@ws_patch _ _ _ W t) with payload in E. rewrite Hps, E. cbn [mbind option_bind].
  destruct (Z.ltb_spec (lenZ new) 0) as [|_]; [lia|].
  change (dt_ok ws (g_hybrid o) (mm_payload_addr m) payload t') in Hok'. destruct Hok' as (Hc' & _ & _ & _ & _ & Hpl & Hpos & _).
  destruct (cache_flush_reliable (o_store (dt_ota t')) Hc') as (s & -> & _ & Hp' & Hv'). cbn [negb].
  assert (patch_pos (dt_ctx t') = patch_len (dt_ctx t')) as ->.
  { change (@ws_patch _ _ _ W t') with (drop (Z.to_nat (patch_pos (dt_ctx t'))) payload) in Hend.
    apply (f_equal length) in Hend. rewrite length_drop in Hend. cbn [length] in Hend. unfold lenZ in *. lia. }
  rewrite Z.eqb_refl, Hlen, Z.eqb_refl. cbn [negb].
  destruct (finish_recorded (set_store s (dt_ota t')) m new) as (o' & -> & Hg2 & Hr & Hset); [lia| |done|].
  - rewrite <- Hlen. unfold fl_read. apply mem_read_eq. intros i Hi. unfold o_flash. cbn [set_store o_store].
    rewrite <- clean_view, Hv' by done. exact (Hnew i Hi).
  - exists o'. split; [reflexivity|]. split; [exact Hg2|]. split; [exact Hr|exact Hset].
Qed.

(** * The whole update *)

(** The request in the retained registers leads to the container at [addr]. *)
Definition update_ceiling o : Z :=
  if (gpregret2 o =? GPREGRET2_OTA_STAGE_EXPANDED) || (gpregret2 o =? GPREGRET2_OTA_STAGE_HYBRID)
  then MOTA_NRF52_STAGE_CEILING_EXPANDED else MOTA_NRF52_STAGE_CEILING_LEGACY.
Definition offered o (addr : Z) (m : mota_min) : Prop :=
  gpregret o = GPREGRET_OTA_APPLY /\
  (gpregret2 o = GPREGRET2_OTA_STAGE_HYBRID ->
     hybrid_handoff_accepted (o_retained o) = true /\ hybrid_authorized_container_valid (snd (take_handoff o)) = true) /\
  scan_mota (fl_view (o_flash o)) (update_source o) (update_ceiling o) = Some (addr, m).

(** The image that runs, its trailer included. *)
Definition running_image (f : F) : option (list Z) :=
  body_len ← find_body_len (fl_view f) APP_APPLY_END; Some (fl_read f APP_BASE (body_len + ENDF_LEN)).

(** What the update leaves behind. *)
Definition installed (new : list Z) o' : Prop :=
  gpregret2 o' = 0xB8 /\ fl_read (o_flash o') APP_BASE (lenZ new) = new /\
  flash_settings (o_flash o') = ota_settings BANK_VALID_APP (crc16_compute new None) (lenZ new).

Lemma check_delta_installs o addr m payload old g new :
  clean (o_store o) -> bytes (g_cache (o_store o)) -> hybrid_ok (g_hybrid o) ->
  container_at (g_hybrid o) (fl_view (o_flash o)) addr m -> applicable (g_hybrid o) (o_flash o) addr m ->
  source_read o (mm_payload_addr m) (mm_payload_size m) = Some payload ->
  running_image (o_flash o) = Some old -> patched old payload = Some (g, new) -> sha256 new = mm_image_hash m ->
  exists o', check_delta uninit o addr m = Some (true, o') /\ installed new o'.
Proof.
  intros Hcl Hcb [Hh Hhok] (limit & Hp & Hl & Hm & Hlo & Hhi & Hplain) (_ & Hv & Hfl & Hfull & Hcd & Hsz & body_len & Hfb & Hbase & Hgeo) Hpay Hold Hpatch Hsha.
  pose proof app_base_range as Hab. assert (PAGE = 4096) as HP by done.
  destruct (parse_facts (fl_view (o_flash o)) (g_hybrid o) addr limit m ltac:(apply view_byte) Hp ltac:(lia) Hl) as (_ & Htot & Ha & Hps & Hpa & Hpe & _). assert (lenZ TRAILER = 5) as HT by done.
  unfold running_image in Hold. rewrite Hfb in Hold. cbn [mbind option_bind] in Hold. injection Hold as <-.
  pose proof (find_body_range _ _ _ Hfb) as [Hb0 Hb1].
  pose proof (patched_sizes _ _ _ _ Hpatch) as Hlo'. unfold fl_read in Hlo'. rewrite lenZ_mem_read in Hlo' by (unfold ENDF_LEN; lia).
  assert (lenZ payload = mm_payload_size m) as Hlp by (eapply staged_read_length; [|exact Hpay]; lia). assert (bytes payload) as Hby by (eapply staged_read_bytes; [|exact Hpay]; apply view_byte).
  assert (sourced (g_hybrid o) (mm_payload_addr m) payload (o_flash o)) as Hsrc
    by (intros off n ? ? ?; eapply staged_read_sub; [done|exact Hpay|lia..]).
  assert (memory_size g <= addr - APP_BASE /\ lenZ new = mm_image_size m /\ mm_image_size m <= addr - APP_BASE) as (Hmem & Hln & Hfit).
  { pose proof Hpatch as Hpt. unfold patched in Hpt. destruct (header payload) as [[[g' to_size] rest]|] eqn:Eh; [|done]. cbn [mbind option_bind] in Hpt.
    destruct (DetoolsSpec.geometry_ok _ _ _); [|done]. destruct (crle_decode rest); [|done]. cbn [mbind option_bind] in Hpt.
    destruct (image g' to_size _ _) as [new'|] eqn:Ei; [|done]. injection Hpt as -> ->. apply image_length in Ei.
    destruct payload as [|fixed tail] eqn:Epay; [done|]. rewrite <- Epay in *.
    assert (0 <= mm_payload_addr m /\ mm_payload_addr m + lenZ payload < 2 ^ 32) as [Hpa0 Hpa1] by (unfold FIXED_HEADER_SIZE, MOTA_MFL in Hpa; lia).
    rewrite (geometry_checked (fl_view (o_flash o)) (g_hybrid o) (mm_payload_addr m) payload Hby Hpa0 Hpa1 Hsrc m body_len _ _ _ _ _ _ Epay Eh eq_refl (eq_sym Hlp)) in Hgeo.
    unfold dt_geometry_values_ok in Hgeo. destruct (_ || _) in Hgeo; [done|]. destruct (_ || _) eqn:E1 in Hgeo; [done|].
    destruct (_ || _) eqn:E2 in Hgeo; [done|]. bool_cases. lia. }
  unfold MOTA_NRF52_STAGE_CEILING_LEGACY, MOTA_NRF52_APP_END, FIXED_HEADER_SIZE, MOTA_MFL, APP_APPLY_END, ENDF_LEN in *.
  unfold check_delta. rewrite Hv, Hfl, Hfull, Hcd, !Z.eqb_refl. cbn [negb orb].
  replace (mm_image_size m =? 0) with false by lia. replace (mm_image_size m >? _) with false by (unfold APP_APPLY_END, MOTA_NRF52_APP_END; lia). cbn [orb].
  change (find_body_len (fl_view (o_flash o)) APP_APPLY_END) with (find_body_len (fl_view (o_flash o)) MOTA_NRF52_APP_END).
  rewrite Hfb, sha256_region_live, Hbase, (proj2 (bytes_eqb_eq _ _) eq_refl) by lia. cbn [negb].
  replace (addr <? APP_APPLY_END) with true by (unfold APP_APPLY_END, MOTA_NRF52_APP_END; lia). rewrite Hgeo. cbn [negb].
  destruct (clear_approval_reliable o m addr) as (o1 & -> & (Hg1 & _) & Hc1 & Hp1 & Hv1);
    [by apply clean_coherent; [apply Hcl| |apply Hcl]|apply Hcl|done|unfold MOTA_NRF52_APP_END; lia|]. cbn [negb].
  unfold APPROVAL_OFFSET in Hv1.
  assert (container_total (g_hybrid o) <> 0 -> flash_start (g_hybrid o) + flash_len (g_hybrid o) = MOTA_NRF52_APP_END) as Hhyb.
  { intros Hne. destruct Hhok as [|Hacc]; [done|]. by destruct (handoff_facts _ Hh Hacc) as (_ & _ & ? & _). }
  destruct (apply_delta_installs o1 m addr payload (fl_read (o_flash o) APP_BASE (body_len + 56)) g new) as (o' & E & Hi);
    rewrite ?Hg1; try done; try (unfold MOTA_NRF52_APP_END; lia).
  - intros off n Ho Hn Hb. rewrite <- (Hsrc off n Ho Hn Hb). apply (staged_read_frame _ _ _ _ _ (addr + 205)); try done; [lia| |].
    + intros Ht. specialize (Hplain Ht). unfold MOTA_NRF52_APP_END. lia.
    + intros x Hx. rewrite Hv1. by replace (_ && _) with false by lia.
  - unfold fl_read at 2. rewrite lenZ_mem_read by lia. apply mem_read_ext. intros x Hx. rewrite Hv1. by replace (_ && _) with false by lia.
  - exists o'. split; [exact E|exact Hi].
Qed.

(** C3: an update that passes the checks installs the image. Let the flash work,
    let an approved container be found where the request points, for the image
    that runs, and let its payload describe, by the one-pass reading [patched], an
    image with the announced SHA-256. Then [ota_delta_check_and_apply] reports
    success; the new image is at [APP_BASE], although the decoder worked through a
    one-page cache over flash and overwrote the image it read from; and the
    settings record, intact, names that image and its CRC. *)
Theorem update_installs o addr m payload old g new :
  boot_state o -> bytes (g_cache (o_store o)) -> offered o addr m -> applicable (update_source o) (o_flash o) addr m ->
  staged_read (fl_view (o_flash o)) (update_source o) (mm_payload_addr m) (mm_payload_size m) = Some payload ->
  running_image (o_flash o) = Some old -> patched old payload = Some (g, new) -> sha256 new = mm_image_hash m ->
  exists o', ota_delta_check_and_apply uninit o = Some (Returns true o') /\ installed new o'.
Proof.
  intros (Hc & Ht & Hhb & Hrb) Hcb (Htr & Hhand & Hscan) Happ Hpay Hold Hpatch Hsha.
  unfold ota_delta_check_and_apply. rewrite Htr.
  replace (GPREGRET_OTA_APPLY =? GPREGRET_BOOTLOADER_APPLY) with false by done. rewrite Z.eqb_refl. cbn [negb].
  pose proof Happ as [Hap _]. unfold update_source, update_ceiling in *.
  destruct (Z.eqb_spec (gpregret2 o) GPREGRET2_OTA_STAGE_HYBRID) as [Eh|Eh].
  - destruct (Hhand Eh) as [Hacc Hauth]. unfold take_handoff, hybrid_handoff_take in *. cbn [o_retained gpregret_set gpregret2_set].
    rewrite Hacc in *. cbn [negb snd] in *. rewrite orb_true_r in *. cbn [g_hybrid].
    change (hybrid_authorized_container_valid (mk_ota (o_store o) (o_retained o) (replicate (Z.to_nat MOTA_HYBRID_HANDOFF_LEN) 0) (gpregret o) (gpregret2 o)))
      with (hybrid_authorized_container_valid (mk_ota (o_store o) (o_retained o) (replicate (Z.to_nat MOTA_HYBRID_HANDOFF_LEN) 0) 0 0xB1)) in Hauth.
    change (o_store (gpregret2_set 0xB1 (gpregret_set 0 o))) with (o_store o). cbn [gpregret gpregret2 gpregret_set gpregret2_set].
    set (o2 := mk_ota (o_store o) (o_retained o) (replicate (Z.to_nat MOTA_HYBRID_HANDOFF_LEN) 0) 0 0xB1) in *. rewrite Hauth. cbn [negb]. rewrite andb_false_r.
    change (o_flash o2) with (o_flash o). change (g_hybrid o2) with (o_retained o). rewrite Hscan, Hap. cbn [negb].
    assert (container_at (o_retained o) (fl_view (o_flash o)) addr m) as Hat by (eapply scan_facts; [by split; [|right]|apply view_byte|exact Hscan]).
    destruct (check_delta_installs o2 addr m payload old g new Hc Hcb ltac:(by split; [|right]) Hat Happ Hpay Hold Hpatch Hsha) as (o' & E & Hi).
    rewrite E. exists o'. split; [reflexivity|exact Hi].
  - cbn [negb]. set (o1 := gpregret2_set 0xB1 _). change (g_hybrid o1) with (g_hybrid o). rewrite Ht, Z.eqb_refl. cbn [negb andb].
    change (o_flash o1) with (o_flash o). rewrite Hscan, Hap. cbn [negb].
    assert (container_at (g_hybrid o) (fl_view (o_flash o)) addr m) as Hat by (eapply scan_facts; [by split; [|left]|apply view_byte|exact Hscan]).
    destruct (check_delta_installs o1 addr m payload old g new Hc Hcb ltac:(by split; [|left]) Hat Happ Hpay Hold Hpatch Hsha) as (o' & E & Hi).
    rewrite E. exists o'. split; [reflexivity|exact Hi].
Qed.
End Install.

Lemma update_installs_witness : exists o',
  ota_delta_check_and_apply no_byte (demo_state demo_flash) = Some (Returns true o') /\ installed demo_new o'.
Proof.
  apply (update_installs no_byte (demo_state demo_flash) 0xEC000 demo_manifest demo_payload demo_app (mk_geometry 12288 PAGE PAGE 60) demo_new).
  - apply demo_boot_state.
  - apply bytes_by_forallb. vm_compute. reflexivity.
  - split; [done|]. split; [done|]. vm_compute. reflexivity.
  - split_and!; try done. exists 4. split_and!; vm_compute; reflexivity.
  - vm_compute. reflexivity.
  - vm_compute. reflexivity.
  - vm_compute. reflexivity.
  - vm_compute. reflexivity.
Defined.
