(* ===== verification/Scheduler.v ===== *)
(** The event scheduler: [app_scheduler.c], with [APP_SCHEDULER_WITH_PAUSE] and
    [APP_SCHEDULER_WITH_PROFILER] off as in [sdk_config.h].  Interrupt handlers
    and the main loop put events into a ring of [m_queue_size + 1] slots; the
    main loop runs them.  A handler is a program over the rest of the device
    whose only access to the ring is [app_sched_event_put]; a put can itself be
    interrupted, between taking its slot and filling it, by puts of interrupt
    handlers.  The ring is shown to be a bounded first-in first-out queue. *)
From S2P Require Import Prelude Nvm DfuTypes.

Section Scheduler.
(** Function pointers of handlers. *)
Context {H : Type}.

Record event_header := mk_header { handler : option H; event_data_size : Z }.

(** The statics; [m_queue_event_headers] and [m_queue_event_data] are the two
    parts of the buffer given to [app_sched_init]. *)
Record sched := mk_sched {
  m_queue_event_headers : list event_header; m_queue_event_data : list Z;
  m_queue_start_index : Z; m_queue_end_index : Z; m_queue_event_size : Z; m_queue_size : Z
}.

Definition set_start_index (i : Z) (s : sched) : sched :=
  mk_sched (m_queue_event_headers s) (m_queue_event_data s) i (m_queue_end_index s) (m_queue_event_size s) (m_queue_size s).
Definition set_end_index (i : Z) (s : sched) : sched :=
  mk_sched (m_queue_event_headers s) (m_queue_event_data s) (m_queue_start_index s) i (m_queue_event_size s) (m_queue_size s).
Definition set_slot (hs : list event_header) (d : list Z) (s : sched) : sched :=
  mk_sched hs d (m_queue_start_index s) (m_queue_end_index s) (m_queue_event_size s) (m_queue_size s).

Definition next_index (s : sched) (index : Z) : Z :=
  if index <? m_queue_size s then u8 (index + 1) else 0.
Definition app_sched_queue_full (s : sched) : bool := next_index s (m_queue_end_index s) =? m_queue_start_index s.
Definition app_sched_queue_empty (s : sched) : bool := m_queue_end_index s =? m_queue_start_index s.

(** [aligned] is [is_word_aligned(p_event_buffer)]; [headers] and [data] are
    what the buffer holds. *)
Definition app_sched_init (event_size queue_size : Z) (aligned : bool) (headers : list event_header) (data : list Z)
    (s : sched) : Z * sched :=
  if negb aligned then (NRF_ERROR_INVALID_PARAM, s)
  else (NRF_SUCCESS, mk_sched headers data 0 0 event_size queue_size).

Definition app_sched_queue_space_get (s : sched) : Z :=
  let start := m_queue_start_index s in
  let end_ := m_queue_end_index s in
  u16 (m_queue_size s - (if end_ >=? start then end_ - start else m_queue_size s + 1 - start + end_)).

(** The critical region of [app_sched_event_put]: the slot taken, or 0xFFFF. *)
Definition reserve (s : sched) : Z * sched :=
  if negb (app_sched_queue_full s)
  then (m_queue_end_index s, set_end_index (next_index s (m_queue_end_index s)) s) else (0xFFFF, s).

(** What follows it: [p_event_data] is [None] for NULL. *)
Definition fill (event_index : Z) (p_event_data : option (list Z)) (size : Z) (h : H) (s : sched) : Z * sched :=
  if negb (event_index =? 0xFFFF) then
    match p_event_data with
    | Some d =>
      if size >? 0 then
        (NRF_SUCCESS,
         set_slot (<[Z.to_nat event_index := mk_header (Some h) size]> (m_queue_event_headers s))
           (put (m_queue_event_data s) (event_index * m_queue_event_size s) (sliceZ d 0 size)) s)
      else (NRF_SUCCESS, set_slot (<[Z.to_nat event_index := mk_header (Some h) 0]> (m_queue_event_headers s)) (m_queue_event_data s) s)
    | None => (NRF_SUCCESS, set_slot (<[Z.to_nat event_index := mk_header (Some h) 0]> (m_queue_event_headers s)) (m_queue_event_data s) s)
    end
  else (NRF_ERROR_NO_MEM, s).

(** A call of [app_sched_event_put], with the calls interrupt handlers make
    while it is between [reserve] and [fill]. *)
#[warnings="-register-all"] Inductive put_call := Put (p_event_data : option (list Z)) (size : Z) (h : H) (interrupts : list put_call).

Fixpoint app_sched_event_put (c : put_call) (s : sched) : Z * sched :=
  let '(Put d size h interrupts) := c in
  if size <=? m_queue_event_size s then
    let '(event_index, s) := reserve s in
    let s := fold_left (fun s c => snd (app_sched_event_put c s)) interrupts s in
    fill event_index d size h s
  else (NRF_ERROR_INVALID_LENGTH, fold_left (fun s c => snd (app_sched_event_put c s)) interrupts s).

(** What a handler, or the code that interrupts it, does: it may put events and
    look at the result, and it leaves the rest of the device changed. *)
Inductive prog (W : Type) := Done (w : W) | PutThen (c : put_call) (k : Z -> prog W).
Arguments Done {W}.
Arguments PutThen {W}.

Context {W : Type} (run_handler : H -> list Z -> W -> prog W).

Fixpoint exec (p : prog W) (s : sched) : sched * W :=
  match p with
  | Done w => (s, w)
  | PutThen c k => let '(err, s) := app_sched_event_put c s in exec (k err) s
  end.

(** The body of the loop of [app_sched_execute]; a call through a null handler
    does not return. *)
Definition execute_one (s : sched) (w : W) : option (sched * W) :=
  let event_index := m_queue_start_index s in
  match m_queue_event_headers s !! Z.to_nat event_index with
  | Some (mk_header (Some h) size) =>
    let data := sliceZ (m_queue_event_data s) (event_index * m_queue_event_size s) size in
    let '(s, w) := exec (run_handler h data w) s in
    Some (set_start_index (next_index s (m_queue_start_index s)) s, w)
  | _ => None
  end.

(** [app_sched_execute]; no fuel left is a loop that does not end. *)
Fixpoint app_sched_execute (fuel : nat) (s : sched) (w : W) : option (sched * W) :=
  if app_sched_queue_empty s then Some (s, w) else
  match fuel with
  | O => None
  | S fuel => '(s, w) ← execute_one s w; app_sched_execute fuel s w
  end.

(** * The contract: a bounded first-in first-out queue *)

(** An event as its handler will receive it. *)
Definition event : Type := H * list Z.
Definition event_of (d : option (list Z)) (size : Z) (h : H) : event :=
  (h, match d with Some d => sliceZ d 0 size | None => [] end).

(** The queue of [cap] events whose longest is [size] bytes. A put that is
    interrupted has taken its place first. *)
Section Fifo.
Context (cap max_size : Z).

Fixpoint fifo_put (c : put_call) (q : list event) : Z * list event :=
  let '(Put d size h interrupts) := c in
  let others q := fold_left (fun q c => snd (fifo_put c q)) interrupts q in
  if size >? max_size then (NRF_ERROR_INVALID_LENGTH, others q)
  else if lenZ q =? cap then (NRF_ERROR_NO_MEM, others q)
  else (NRF_SUCCESS, others (q ++ [event_of d size h])).

Fixpoint fifo_exec (p : prog W) (q : list event) : list event * W :=
  match p with
  | Done w => (q, w)
  | PutThen c k => let '(err, q) := fifo_put c q in fifo_exec (k err) q
  end.

(** Run the oldest event, which keeps its place until its handler is done. *)
Fixpoint fifo_execute (fuel : nat) (q : list event) (w : W) : option (list event * W) :=
  match q with
  | [] => Some ([], w)
  | (h, d) :: _ =>
    match fuel with
    | O => None
    | S fuel => let '(q, w) := fifo_exec (run_handler h d w) q in fifo_execute fuel (tail q) w
    end
  end.
End Fifo.
End Scheduler.
Arguments prog {H} W.
Arguments Done {H W} w.
Arguments PutThen {H W} c k.

(** * Refinement *)

Lemma slice_of_put (buf s : list Z) off o n : 0 <= off -> off + lenZ s <= lenZ buf -> 0 <= o -> 0 <= n -> o + n <= lenZ buf ->
  o + n <= off \/ off + lenZ s <= o -> sliceZ (put buf off s) o n = sliceZ buf o n.
Proof.
  intros. apply eq_by_nthZ; [rewrite !lenZ_sliceZ; rewrite ?lenZ_put; lia|].
  rewrite lenZ_sliceZ by (rewrite ?lenZ_put; lia). intros i Hi.
  rewrite !nthZ_sliceZ, nthZ_put by lia.
  destruct (Z.leb_spec off (o + i)), (Z.ltb_spec (o + i) (off + lenZ s)); cbn [andb]; done || lia.
Qed.

Lemma slice_put_same (buf s : list Z) off : 0 <= off -> off + lenZ s <= lenZ buf -> sliceZ (put buf off s) off (lenZ s) = s.
Proof.
  intros. assert (0 <= lenZ s) by (unfold lenZ; lia).
  apply eq_by_nthZ; [rewrite lenZ_sliceZ; rewrite ?lenZ_put; lia|].
  rewrite lenZ_sliceZ by (rewrite ?lenZ_put; lia). intros i Hi. rewrite nthZ_sliceZ, nthZ_put by lia.
  destruct (Z.leb_spec off (off + i)), (Z.ltb_spec (off + i) (off + lenZ s)); cbn [andb]; try lia. f_equal. lia.
Qed.

Lemma mod_apart a n j k : 0 <= j < n -> 0 <= k < n -> (a + j) mod n = (a + k) mod n -> j = k.
Proof.
  intros Hj Hk E. pose proof (Z.div_mod (a + j) n ltac:(lia)) as Dj. pose proof (Z.div_mod (a + k) n ltac:(lia)) as Dk.
  rewrite E in Dj. assert (j - k = n * ((a + j) / n - (a + k) / n)) by lia. assert ((a + j) / n - (a + k) / n = 0) by nia. lia.
Qed.

Lemma succ_mod x n : 1 < n -> (x + 1) mod n = if x mod n <? n - 1 then x mod n + 1 else 0.
Proof.
  intros Hn. rewrite Z.add_mod, (Z.mod_small 1 n) by lia. pose proof (Z.mod_pos_bound x n ltac:(lia)).
  destruct (Z.ltb_spec (x mod n) (n - 1)); [apply Z.mod_small; lia|].
  replace (x mod n + 1) with n by lia. apply Z.mod_same. lia.
Qed.

Section Ring.
Context {H : Type}.
Implicit Types (s : sched (H := H)) (q : list (option (event (H := H)))).

(** The call, its data and those of the interrupting calls are as the API asks:
    the data holds the announced bytes. *)
Fixpoint put_wf (c : put_call (H := H)) : Prop :=
  let '(Put d size h interrupts) := c in
  0 <= size /\ match d with Some d => size <= lenZ d | None => True end /\
  fold_right (fun c P => put_wf c /\ P) True interrupts.

Fixpoint put_call_rect' (P : put_call (H := H) -> Prop)
    (f : forall d size h cs, Forall P cs -> P (Put d size h cs)) (c : put_call) : P c :=
  match c with
  | Put d size h cs =>
    f d size h cs ((fix all cs : Forall P cs :=
      match cs with [] => Forall_nil_2 _ | c :: cs => Forall_cons_2 _ _ _ (put_call_rect' P f c) (all cs) end) cs)
  end.

(** Slot [k] of the ring, counted from the start index. *)
Definition slot_index s (k : Z) : Z := (m_queue_start_index s + k) mod (m_queue_size s + 1).

(** Slot [i] holds event [e]. *)
Definition slot_holds s (i : Z) (e : event (H := H)) : Prop :=
  m_queue_event_headers s !! Z.to_nat i = Some (mk_header (Some (fst e)) (lenZ (snd e))) /\
  lenZ (snd e) <= m_queue_event_size s /\
  sliceZ (m_queue_event_data s) (i * m_queue_event_size s) (lenZ (snd e)) = snd e.

Record dims (cap size : Z) s : Prop := {
  dm_cap : m_queue_size s = cap /\ 0 < cap <= 255;
  dm_size : m_queue_event_size s = size /\ 0 <= size;
  dm_headers : lenZ (m_queue_event_headers s) = cap + 1;
  dm_data : lenZ (m_queue_event_data s) = size * (cap + 1)
}.

(** The ring holds [q], oldest first; a slot taken by an interrupted put and
    not yet filled is [None]. *)
Record holds (cap size : Z) q s : Prop := {
  ho_dims : dims cap size s;
  ho_start : 0 <= m_queue_start_index s <= cap;
  ho_len : lenZ q <= cap;
  ho_end : m_queue_end_index s = slot_index s (lenZ q);
  ho_slots k e : 0 <= k -> q !! Z.to_nat k = Some (Some e) -> slot_holds s (slot_index s k) e
}.

Lemma slot_range cap size s k : dims cap size s -> 0 <= slot_index s k <= cap.
Proof.
  intros [[Hc ?] _ _ _]. unfold slot_index. rewrite Hc.
  pose proof (Z.mod_pos_bound (m_queue_start_index s + k) (cap + 1)). lia.
Qed.

Lemma slot_start cap size q s : holds cap size q s -> slot_index s 0 = m_queue_start_index s.
Proof.
  intros [[[Hc ?] _ _ _] Hs _ _ _]. unfold slot_index. rewrite Hc, Z.add_0_r. apply Z.mod_small. lia.
Qed.

Lemma next_index_slot cap size s k : dims cap size s -> next_index s (slot_index s k) = slot_index s (k + 1).
Proof.
  intros [[Hc ?] _ _ _]. unfold next_index, slot_index. rewrite Hc.
  rewrite Z.add_assoc, succ_mod by lia. replace (cap + 1 - 1) with cap by lia.
  pose proof (Z.mod_pos_bound (m_queue_start_index s + k) (cap + 1) ltac:(lia)).
  destruct (Z.ltb_spec ((m_queue_start_index s + k) mod (cap + 1)) cap); [apply u8_small; lia|done].
Qed.

Lemma slot_apart cap size s j k : dims cap size s -> 0 <= j <= cap -> 0 <= k <= cap -> slot_index s j = slot_index s k -> j = k.
Proof.
  intros [[Hc ?] _ _ _] Hj Hk. unfold slot_index. rewrite Hc. intros E.
  by apply (mod_apart (m_queue_start_index s) (cap + 1)); lia.
Qed.

Lemma queue_full_iff cap size q s : holds cap size q s -> app_sched_queue_full s = (lenZ q =? cap).
Proof.
  intros Hh. pose proof (slot_start _ _ _ _ Hh) as E0. destruct Hh as [D Hs Hl He _]. unfold app_sched_queue_full. rewrite He, (next_index_slot cap size) by done.
  assert (0 <= lenZ q) by (unfold lenZ; lia). destruct D as [[Hc ?] _ _ _].
  rewrite <- E0.
  destruct (Z.eqb_spec (lenZ q) cap) as [->|Hn].
  - apply Z.eqb_eq. unfold slot_index. rewrite Hc, Z.add_0_r. rewrite <- (Z.mul_1_l (cap + 1)) at 1. apply Z.mod_add. lia.
  - apply Z.eqb_neq. unfold slot_index. rewrite Hc. intros E.
    apply (mod_apart (m_queue_start_index s) (cap + 1)) in E; lia.
Qed.

Lemma queue_empty_iff cap size q s : holds cap size q s -> app_sched_queue_empty s = bool_decide (q = []).
Proof.
  intros Hh. pose proof (slot_start _ _ _ _ Hh) as E0. destruct Hh as [D Hs Hl He _]. unfold app_sched_queue_empty. rewrite He.
  assert (0 <= lenZ q) by (unfold lenZ; lia). pose proof D as [[Hc ?] _ _ _].
  destruct q as [|e q]; [rewrite bool_decide_true by done; apply Z.eqb_eq; done|].
  rewrite bool_decide_false by done. apply Z.eqb_neq. rewrite <- E0. intros E.
  apply (slot_apart cap size) in E; [|done|lia|lia]. unfold lenZ in E. cbn in E. lia.
Qed.

Lemma reserve_full cap size q s : holds cap size q s -> lenZ q = cap -> reserve s = (0xFFFF, s).
Proof. intros Hh Hq. unfold reserve. rewrite (queue_full_iff _ _ _ _ Hh), Hq, Z.eqb_refl. done. Qed.

Lemma reserve_spec cap size q s : holds cap size q s -> lenZ q <> cap ->
  exists s', reserve s = (slot_index s (lenZ q), s') /\ holds cap size (q ++ [None]) s' /\
    m_queue_start_index s' = m_queue_start_index s.
Proof.
  intros Hh Hq. pose proof (queue_full_iff _ _ _ _ Hh) as Hf. rewrite (proj2 (Z.eqb_neq _ _) Hq) in Hf.
  destruct Hh as [D Hs Hl He Hk]. unfold reserve. rewrite Hf. cbn [negb]. rewrite He, (next_index_slot cap size) by done.
  eexists. split; [reflexivity|]. split; [|done].
  assert (lenZ (q ++ [None : option (event (H := H))]) = lenZ q + 1) as Hlen by (rewrite lenZ_app; done).
  destruct D as [Dc Ds Dh Dd]. constructor; cbn; try done.
  - lia.
  - by rewrite Hlen.
  - intros k e Hk0 Hl2. apply lookup_app_Some in Hl2 as [Hl2|[Hge Hl2]]; [by apply Hk|].
    by apply list_lookup_singleton_Some in Hl2 as [_ ?].
Qed.

(** Storing event [e] in slot [i]. *)
Definition store (i : Z) (e : event (H := H)) s s' : Prop :=
  m_queue_event_headers s' = <[Z.to_nat i := mk_header (Some (fst e)) (lenZ (snd e))]> (m_queue_event_headers s) /\
  (m_queue_event_data s' = put (m_queue_event_data s) (i * m_queue_event_size s) (snd e) \/
   snd e = [] /\ m_queue_event_data s' = m_queue_event_data s) /\
  m_queue_start_index s' = m_queue_start_index s /\ m_queue_end_index s' = m_queue_end_index s /\
  m_queue_event_size s' = m_queue_event_size s /\ m_queue_size s' = m_queue_size s.

Lemma fill_stores i d n h s : 0 <= i <= 255 -> 0 <= n -> match d with Some d => n <= lenZ d | None => True end ->
  exists s', fill i d n h s = (NRF_SUCCESS, s') /\ store i (event_of d n h) s s'.
Proof.
  intros Hi Hn Hd. unfold fill. replace (i =? 0xFFFF) with false by (symmetry; apply Z.eqb_neq; lia). cbn [negb].
  destruct d as [d|]; cbn [event_of]; [|eexists; split; [reflexivity|]; split_and!; cbn; try done; by right].
  assert (lenZ (sliceZ d 0 n) = n) as Hl by (rewrite lenZ_sliceZ; lia).
  destruct (Z.gtb_spec n 0); (eexists; split; [reflexivity|]); unfold store; cbn; rewrite Hl; split_and!; try done.
  - by left.
  - assert (n = 0) as -> by lia. done.
  - right. split; [|done]. apply sliceZ_nil. lia.
Qed.

Lemma store_holds cap size q1 q2 e s s' : holds cap size (q1 ++ None :: q2) s -> lenZ (snd e) <= size ->
  store (slot_index s (lenZ q1)) e s s' -> holds cap size (q1 ++ Some e :: q2) s'.
Proof.
  intros [D Hs Hl He Hk] Hsz (S1 & S2 & S3 & S4 & S5 & S6). pose proof (slot_range cap size s (lenZ q1) D) as Hr.
  pose proof D as [[Dc ?] [Ds ?] Dh Dd].
  assert (lenZ (q1 ++ Some e :: q2) = lenZ (q1 ++ None :: q2)) as Hlen by (rewrite !lenZ_app, !lenZ_cons; done).
  assert (forall k, slot_index s' k = slot_index s k) as Hsl by (intros k; unfold slot_index; by rewrite S3, S6).
  assert (0 <= lenZ (snd e)) as He0 by (unfold lenZ; lia). assert (0 <= lenZ q1) as Hq1 by (unfold lenZ; lia).
  set (i := slot_index s (lenZ q1)) in *.
  assert (i * size + lenZ (snd e) <= lenZ (m_queue_event_data s)) as Hfit by (rewrite Dd; nia).
  assert (lenZ (m_queue_event_data s') = lenZ (m_queue_event_data s)) as Hld.
  { destruct S2 as [->|[_ ->]]; [|done]. apply lenZ_put; rewrite ?Ds; nia. }
  constructor.
  - constructor; [by rewrite S6|by rewrite S5|rewrite S1; unfold lenZ in *; by rewrite length_insert|by rewrite Hld].
  - by rewrite S3.
  - by rewrite Hlen.
  - by rewrite S4, Hsl, Hlen.
  - intros k x Hk0 Hx. rewrite Hsl. destruct (decide (k = lenZ q1)) as [->|Hne].
    + replace (Z.to_nat (lenZ q1)) with (length q1) in Hx by (unfold lenZ; lia). rewrite list_lookup_middle in Hx by done.
      injection Hx as <-. fold i. unfold slot_holds. rewrite S1, S5, Ds. split_and!; [|done|].
      * apply list_lookup_insert_eq. unfold lenZ in Dh. lia.
      * destruct S2 as [->|[-> _]]; [|by apply sliceZ_nil]. rewrite Ds. apply slice_put_same; [nia|done].
    + assert ((q1 ++ None :: q2) !! Z.to_nat k = Some (Some x)) as Hx'.
      { rewrite <- Hx. destruct (decide (k < lenZ q1)); [rewrite !lookup_app_l by (unfold lenZ in *; lia); done|].
        rewrite !lookup_app_r by (unfold lenZ in *; lia).
        destruct (Z.to_nat k - length q1)%nat eqn:E; [unfold lenZ in *; lia|done]. }
      destruct (Hk k x Hk0 Hx') as (X1 & X2 & X3). apply lookup_lt_Some in Hx.
      assert (k < lenZ (q1 ++ None :: q2)) as Hkl by (rewrite <- Hlen; unfold lenZ; lia).
      assert (lenZ q1 < lenZ (q1 ++ None :: q2)) as Hql by (rewrite lenZ_app, lenZ_cons; unfold lenZ; lia).
      assert (slot_index s k <> i) as Hap.
      { intros E. apply (slot_apart cap size) in E; [done|done|lia|lia]. }
      pose proof (slot_range cap size s k D) as Hr2. unfold slot_holds. rewrite S1, S5, Ds in *. split_and!; [|done|].
      * rewrite list_lookup_insert_ne by lia. done.
      * assert (0 <= lenZ (snd x)) by (unfold lenZ; lia).
        destruct S2 as [->|[_ ->]]; [|done]. rewrite slice_of_put; [done|nia|done|nia|lia|rewrite Dd; nia|].
        destruct (decide (slot_index s k < i)); [left|right]; nia.
Qed.
End Ring.

Section Refinement.
Context {H W : Type} (run_handler : H -> list Z -> W -> prog (H := H) W) (cap size : Z).
Implicit Types (s : sched (H := H)) (q : list (option (event (H := H)))) (c : put_call (H := H)).

(** A put answers what the queue answers and adds what the queue adds, whatever
    slots are still to be filled. *)
Definition put_refined c : Prop := put_wf c -> forall q qe s, holds cap size q s -> lenZ qe = lenZ q ->
  exists err s' new, app_sched_event_put c s = (err, s') /\ fifo_put cap size c qe = (err, qe ++ new) /\
    holds cap size (q ++ (Some <$> new)) s' /\ m_queue_start_index s' = m_queue_start_index s.

Lemma interrupts_refined cs : Forall put_refined cs -> fold_right (fun c P => put_wf c /\ P) True cs ->
  forall q qe s, holds cap size q s -> lenZ qe = lenZ q ->
  exists s' new, fold_left (fun s c => snd (app_sched_event_put c s)) cs s = s' /\
    fold_left (fun x c => snd (fifo_put cap size c x)) cs qe = qe ++ new /\
    holds cap size (q ++ (Some <$> new)) s' /\ m_queue_start_index s' = m_queue_start_index s.
Proof.
  induction 1 as [|c cs Hc _ IH]; intros Hw q qe s Hh Hl; cbn [fold_left].
  - exists s, []. cbn. by rewrite !app_nil_r.
  - destruct Hw as [Hwc Hw]. destruct (Hc Hwc q qe s Hh Hl) as (err & s1 & n1 & E1 & F1 & H1 & S1). rewrite E1, F1. cbn [snd].
    assert (lenZ (qe ++ n1) = lenZ (q ++ (Some <$> n1))) as Hl1 by (rewrite !lenZ_app; unfold lenZ in *; rewrite length_fmap; lia).
    destruct (IH Hw _ _ s1 H1 Hl1) as (s2 & n2 & E2 & F2 & H2 & S2). exists s2, (n1 ++ n2).
    rewrite fmap_app, !app_assoc. rewrite S2. done.
Qed.

Lemma put_refines c : put_refined c.
Proof.
  induction c as [d n h cs IH] using put_call_rect'. intros (Hn & Hd & Hw) q qe s Hh Hl. cbn [app_sched_event_put fifo_put].
  rewrite (proj1 (dm_size _ _ _ (ho_dims _ _ _ _ Hh))), Z.gtb_ltb. destruct (Z.leb_spec n size) as [Hns|Hns], (Z.ltb_spec size n) as [Hsn|Hsn]; try lia.
  2: { destruct (interrupts_refined cs IH Hw q qe s Hh Hl) as (s' & new & E & F & H1 & S1). exists NRF_ERROR_INVALID_LENGTH, s', new.
       by rewrite E, F. }
  rewrite Hl. destruct (Z.eqb_spec (lenZ q) cap) as [Hc|Hc].
  - rewrite (reserve_full cap size q) by done.
    destruct (interrupts_refined cs IH Hw q qe s Hh Hl) as (s' & new & E & F & H1 & S1). exists NRF_ERROR_NO_MEM, s', new.
    rewrite E, F. done.
  - destruct (reserve_spec cap size q s Hh Hc) as (s1 & E1 & H1 & S1). rewrite E1.
    destruct (interrupts_refined cs IH Hw (q ++ [None]) (qe ++ [event_of d n h]) s1 H1) as (s2 & new & E2 & F2 & H2 & S2).
    { rewrite !lenZ_app, Hl. done. }
    rewrite E2, F2.
    assert (slot_index s2 (lenZ q) = slot_index s (lenZ q)) as Es.
    { unfold slot_index. rewrite S2, S1. by rewrite (proj1 (dm_cap _ _ _ (ho_dims _ _ _ _ H2))), (proj1 (dm_cap _ _ _ (ho_dims _ _ _ _ Hh))). }
    rewrite <- Es. pose proof (slot_range cap size s2 (lenZ q) (ho_dims _ _ _ _ H2)) as Hr.
    pose proof (proj2 (dm_cap _ _ _ (ho_dims _ _ _ _ H2))).
    destruct (fill_stores (slot_index s2 (lenZ q)) d n h s2 ltac:(lia) Hn Hd) as (s3 & E3 & Hst). rewrite E3.
    exists NRF_SUCCESS, s3, (event_of d n h :: new). rewrite <- app_assoc. split; [done|]. split; [done|].
    pose proof Hst as (_ & _ & S3 & _). rewrite S3, S2, S1. split; [|done].
    rewrite <- app_assoc in H2. refine (store_holds cap size q (Some <$> new) (event_of d n h) s2 s3 H2 _ Hst).
    unfold event_of. cbn [snd]. destruct d as [d|]; [|pose proof (dm_size _ _ _ (ho_dims _ _ _ _ H2)); unfold lenZ; cbn [length]; lia].
    rewrite lenZ_sliceZ; lia.
Qed.

(** Programs whose puts are well formed. *)
Inductive prog_wf : prog (H := H) W -> Prop :=
| wf_done w : prog_wf (Done w)
| wf_put c k : put_wf c -> (forall err, prog_wf (k err)) -> prog_wf (PutThen c k).
Hypothesis handlers_wf : forall h d w, prog_wf (run_handler h d w).

(** The ring holds exactly the events [qe]. *)
Definition queued (qe : list (event (H := H))) s : Prop := holds cap size (Some <$> qe) s.

Lemma exec_refines p : prog_wf p -> forall qe s, queued qe s ->
  exists s' new w, exec p s = (s', w) /\ fifo_exec cap size p qe = (qe ++ new, w) /\ queued (qe ++ new) s' /\
    m_queue_start_index s' = m_queue_start_index s.
Proof.
  induction 1 as [w|c k Hc _ IH]; intros qe s Hq; cbn [exec fifo_exec].
  - exists s, [], w. by rewrite app_nil_r.
  - destruct (put_refines c Hc (Some <$> qe) qe s Hq) as (err & s1 & n1 & E1 & F1 & H1 & S1); [unfold lenZ; by rewrite length_fmap|].
    rewrite E1, F1. rewrite <- fmap_app in H1. destruct (IH err (qe ++ n1) s1 H1) as (s2 & n2 & w & E2 & F2 & H2 & S2).
    exists s2, (n1 ++ n2), w. rewrite !app_assoc, S2. done.
Qed.

Lemma advance qe e s : queued (e :: qe) s -> queued qe (set_start_index (next_index s (m_queue_start_index s)) s).
Proof.
  intros Hh. pose proof (slot_start _ _ _ _ Hh) as E0. pose proof Hh as [D Hs Hl He Hk].
  rewrite <- E0, (next_index_slot cap size) by done. pose proof (slot_range cap size s (0 + 1) D) as Hr.
  cbn [fmap list_fmap] in Hl, He. rewrite lenZ_cons in Hl, He.
  pose proof D as [[Dc ?] ? ? ?].
  assert (forall k, slot_index (set_start_index (slot_index s (0 + 1)) s) k = slot_index s (1 + k)) as Hsl.
  { intros k. unfold slot_index. cbn. rewrite Dc, Zplus_mod_idemp_l. f_equal. lia. }
  constructor; cbn [set_start_index m_queue_start_index m_queue_end_index]; [by destruct D|done|unfold lenZ in *; lia| |].
  - rewrite Hsl, He. done.
  - intros k x Hk0 Hx. rewrite Hsl. apply Hk; [lia|]. replace (Z.to_nat (1 + k)) with (S (Z.to_nat k)) by lia. exact Hx.
Qed.

Lemma execute_refines fuel : forall qe s w, queued qe s ->
  match fifo_execute run_handler cap size fuel qe w with
  | Some (qe', w') => exists s', app_sched_execute run_handler fuel s w = Some (s', w') /\ queued qe' s'
  | None => app_sched_execute run_handler fuel s w = None
  end.
Proof.
  induction fuel as [|fuel IH]; intros qe s w Hq; cbn [app_sched_execute fifo_execute];
    rewrite (queue_empty_iff _ _ _ _ Hq); destruct qe as [|[h d] qe]; cbn [fmap list_fmap].
  - rewrite bool_decide_true by done. by exists s.
  - by rewrite bool_decide_false.
  - rewrite bool_decide_true by done. by exists s.
  - rewrite bool_decide_false by done.
    destruct (ho_slots _ _ _ _ Hq 0 (h, d) ltac:(lia) eq_refl) as (X1 & _ & X3). rewrite (slot_start _ _ _ _ Hq) in X1, X3.
    unfold execute_one. rewrite X1. cbn [fst snd] in *. rewrite X3.
    destruct (exec_refines _ (handlers_wf h d w) _ _ Hq) as (s1 & new & w1 & E1 & F1 & H1 & _). rewrite E1, F1. cbn [mbind option_bind].
    cbn [app tail]. apply IH. by apply (advance (qe ++ new) (h, d)).
Qed.

(** What the device does with the scheduler. *)
Inductive sched_op := OpPut (c : put_call (H := H)) | OpExecute (fuel : nat) | OpSpace.
Definition op_wf (o : sched_op) : Prop := match o with OpPut c => put_wf c | _ => True end.

Definition sched_step (o : sched_op) (x : sched * W) : option (Z * (sched * W)) :=
  let '(s, w) := x in
  match o with
  | OpPut c => let '(err, s) := app_sched_event_put c s in Some (err, (s, w))
  | OpExecute fuel => '(s, w) ← app_sched_execute run_handler fuel s w; Some (0, (s, w))
  | OpSpace => Some (app_sched_queue_space_get s, (s, w))
  end.
Definition fifo_step (o : sched_op) (x : list event * W) : option (Z * (list event * W)) :=
  let '(q, w) := x in
  match o with
  | OpPut c => let '(err, q) := fifo_put cap size c q in Some (err, (q, w))
  | OpExecute fuel => '(q, w) ← fifo_execute run_handler cap size fuel q w; Some (0, (q, w))
  | OpSpace => Some (cap - lenZ q, (q, w))
  end.

Section Steps.
Context {S : Type} (step : sched_op -> S -> option (Z * S)).
Fixpoint steps (ops : list sched_op) (x : S) : option (list Z * S) :=
  match ops with
  | [] => Some ([], x)
  | o :: ops => '(a, x) ← step o x; '(r, x) ← steps ops x; Some (a :: r, x)
  end.
End Steps.

Lemma space_refines qe s : queued qe s -> app_sched_queue_space_get s = cap - lenZ qe.
Proof.
  intros [[[Dc ?] _ _ _] Hs Hl He _]. unfold app_sched_queue_space_get.
  assert (lenZ (Some <$> qe : list (option event)) = lenZ qe) as El by (unfold lenZ; by rewrite length_fmap).
  rewrite El in *. unfold slot_index in He. rewrite Dc in *. rewrite He. assert (0 <= lenZ qe) by (unfold lenZ; lia).
  set (st := m_queue_start_index s) in *.
  assert ((if (st + lenZ qe) mod (cap + 1) >=? st then (st + lenZ qe) mod (cap + 1) - st
           else cap + 1 - st + (st + lenZ qe) mod (cap + 1)) = lenZ qe) as ->.
  { destruct (decide (st + lenZ qe < cap + 1)); [rewrite Z.mod_small by lia|].
    - destruct (Z.geb_spec (st + lenZ qe) st); lia.
    - replace ((st + lenZ qe) mod (cap + 1)) with (st + lenZ qe - (cap + 1)).
      + destruct (Z.geb_spec (st + lenZ qe - (cap + 1)) st); lia.
      + apply (Z.mod_unique_pos _ _ 1); lia. }
  apply u16_small. lia.
Qed.

Lemma sched_step_refines o : op_wf o -> forall qe s w, queued qe s ->
  match fifo_step o (qe, w) with
  | Some (a, (qe', w')) => exists s', sched_step o (s, w) = Some (a, (s', w')) /\ queued qe' s'
  | None => sched_step o (s, w) = None
  end.
Proof.
  intros Ho qe s w Hq. destruct o as [c|fuel|]; cbn [fifo_step sched_step].
  - destruct (put_refines c Ho (Some <$> qe) qe s Hq) as (err & s1 & n1 & E1 & F1 & H1 & _); [unfold lenZ; by rewrite length_fmap|].
    rewrite E1, F1. rewrite <- fmap_app in H1. by exists s1.
  - pose proof (execute_refines fuel _ _ w Hq) as He. destruct (fifo_execute _ _ _ _ _ _) as [[qe1 w1]|]; cbn [mbind option_bind].
    + destruct He as (s1 & -> & H1). by exists s1.
    + by rewrite He.
  - rewrite (space_refines _ _ Hq). by exists s.
Qed.

Lemma steps_refine ops : Forall op_wf ops -> forall qe s w, queued qe s ->
  match steps fifo_step ops (qe, w) with
  | Some (r, (qe', w')) => exists s', steps sched_step ops (s, w) = Some (r, (s', w')) /\ queued qe' s'
  | None => steps sched_step ops (s, w) = None
  end.
Proof.
  induction 1 as [|o ops Ho _ IH]; intros qe s w Hq; cbn [steps]; [by exists s|].
  pose proof (sched_step_refines o Ho _ _ w Hq) as Hs. destruct (fifo_step o _) as [[a [qe1 w1]]|]; cbn [mbind option_bind].
  2: by rewrite Hs.
  destruct Hs as (s1 & -> & H1). cbn [mbind option_bind]. specialize (IH _ _ w1 H1).
  destruct (steps fifo_step ops _) as [[r [qe' w']]|]; cbn [mbind option_bind]; [|by rewrite IH].
  destruct IH as (s' & -> & Hq'). by exists s'.
Qed.

End Refinement.

(** C22: the scheduler is a bounded first-in first-out queue. From
    [app_sched_init] on, whatever is put, from the main loop, from handlers that
    are running or by interrupts in the middle of another put: every put answers
    what a queue of [cap] events answers (only a full queue and an event longer
    than [size] are refused), the free space is what the queue has left, and the
    handlers run in the order the events took their places, each with the data it
    was put with, so the device ends up in the same state. *)
Theorem scheduler_is_fifo {H W} (run_handler : H -> list Z -> W -> prog W) cap size headers data s0 ops (w : W) :
  0 < cap <= 255 -> 0 <= size -> lenZ headers = cap + 1 -> lenZ data = size * (cap + 1) ->
  (forall h d w, prog_wf (run_handler h d w)) -> Forall op_wf ops ->
  (fun '(answers, (_, w)) => (answers, w)) <$> steps (sched_step run_handler) ops (snd (app_sched_init size cap true headers data s0), w) =
  (fun '(answers, (_, w)) => (answers, w)) <$> steps (fifo_step run_handler cap size) ops ([], w).
Proof.
  intros Hc Hs Hh Hd Hw Ho.
  assert (queued cap size [] (snd (app_sched_init size cap true headers data s0))) as Hq.
  { constructor; unfold lenZ; cbn; [by constructor|lia|lia| |intros k e _; by rewrite lookup_nil]. unfold slot_index. cbn. rewrite Z.mod_small; lia. }
  pose proof (steps_refine run_handler cap size Hw ops Ho [] _ w Hq) as Hr.
  destruct (steps (fifo_step _ _ _) ops _) as [[r [qe w']]|]; [|by rewrite Hr]. by destruct Hr as (s' & -> & _).
Qed.

(** * A concrete run *)

(** Handler 0 notes its data; handler 1 puts two events, one of them
    interrupted by a third. *)
Definition demo_handler (h : bool) (d : list Z) (w : list Z) : prog (list Z) :=
  if h then PutThen (Put (Some [7]) 1 false [Put (Some [8; 9]) 2 false []])
              (fun err => PutThen (Put None 0 false []) (fun err' => Done (w ++ [100 + err; 100 + err'])))
  else Done (w ++ d).
Lemma demo_handler_wf h d w : prog_wf (demo_handler h d w).
Proof. destruct h; cbn; repeat (constructor || intros); cbn; done. Qed.

Definition demo_init : sched (H := bool) := mk_sched [] [] 0 0 0 0.
Definition demo_sched_ops : list (sched_op (H := bool)) :=
  [OpPut (Put (Some [1; 2; 3]) 2 false []); OpPut (Put None 0 true []); OpPut (Put (Some [1; 2; 3]) 3 false []); OpSpace;
   OpPut (Put (Some [4]) 1 false []); OpPut (Put (Some [5]) 1 false []); OpExecute 9; OpSpace].

Lemma scheduler_is_fifo_witness :
  (fun '(answers, (_, w)) => (answers, w)) <$>
    steps (sched_step demo_handler) demo_sched_ops
      (snd (app_sched_init 2 3 true (replicate 4 (mk_header None 0)) (replicate 8 0) demo_init), []) =
  Some ([0; 0; 9; 1; 0; 4; 0; 3], [1; 2; 100; 104; 4; 7]).
Proof.
  rewrite (scheduler_is_fifo demo_handler 3 2); [vm_compute; reflexivity|lia|lia|done|done|apply demo_handler_wf|].
  repeat constructor; cbn; done.
Defined.
