(* ===== verification/SerialQueue.v ===== *)
(** The queue between the HCI transport and the DFU engine:
    [dfu_transport_serial.c] with the scheduler it posts to.  Received packets
    stay in their pool buffers; the module keeps four elements that point at
    them, and an event per packet makes the main loop hand them to the engine
    and free them.  The engine is known only through [DfuEngine], which
    [SingleBank.v] implements. *)
From S2P Require Import Prelude Nvm DfuTypes SingleBank MemPool Slip HciTransport Scheduler.

(** What the transport calls in the engine; each result is the C result code. *)
Class DfuEngine := {
  eng : Type;
  eng_start_pkt_handle : dfu_start_packet -> eng -> option (Z * eng);
  eng_init_pkt_handle : data_packet -> eng -> option (Z * eng);
  eng_init_pkt_complete : eng -> option (Z * eng);
  eng_data_pkt_handle : data_packet -> eng -> option (Z * eng);
  eng_image_validate : eng -> option (Z * eng);
  eng_image_activate : eng -> option (Z * eng);
  eng_register_callback : eng -> eng
}.

(** The single-bank engine. *)
Section SingleBankEngine.
Context `{Nvmc, PStorage} (SIGNED_FW : bool) (build : DfuPolicy.policy_build) (DFU_APP_DATA_RESERVED : Z) (is_ota : bool).
Context {tc_state : Type} (tc_sha256_init : option tc_state)
  (tc_sha256_update : tc_state -> list Z -> option tc_state)
  (tc_sha256_final : tc_state -> option (list Z))
  (uECC_valid_public_key : list Z -> Z) (uECC_verify : list Z -> list Z -> list Z -> Z) (pk : list Z).
Context (app_timer_stop app_timer_start : sb_state -> Z) (fuel : nat).

Definition single_bank_engine : DfuEngine := {|
  eng := sb_state;
  eng_start_pkt_handle := dfu_start_pkt_handle SIGNED_FW build DFU_APP_DATA_RESERVED is_ota app_timer_stop app_timer_start;
  eng_init_pkt_handle := dfu_init_pkt_handle app_timer_stop app_timer_start;
  eng_init_pkt_complete := dfu_init_pkt_complete SIGNED_FW build is_ota tc_sha256_init tc_sha256_update tc_sha256_final
    uECC_valid_public_key uECC_verify pk;
  eng_data_pkt_handle := fun p => dfu_data_pkt_handle SIGNED_FW is_ota app_timer_stop app_timer_start fuel (Some p);
  eng_image_validate := dfu_image_validate SIGNED_FW build tc_sha256_init tc_sha256_update tc_sha256_final
    app_timer_stop app_timer_start;
  eng_image_activate := dfu_image_activate app_timer_stop;
  eng_register_callback := dfu_register_callback
|}.
End SingleBankEngine.

Definition MAX_BUFFERS : Z := 4.

(** [dfu_update_packet_t]: [p_data] is the pool buffer the payload is in, past
    its packet type word. *)
Record dfu_update_packet := mk_update { packet_type : Z; p_data : option Z; plen : Z }.

(** The scheduler's handlers; other modules' events are [Other_event]. *)
Inductive sched_handler := Process_dfu_packet | Other_event.
Inductive led_event := STATE_WRITING_STARTED | STATE_WRITING_FINISHED.

Section SerialQueue.
Context `{Serial, DfuEngine}.

(** [m_data_queue], and the parts of the device the module acts on. *)
Record serial_dfu := mk_serial {
  elements : list dfu_update_packet; count : Z;
  scheduler : sched (H := sched_handler); engine : eng;
  dfu_activity : bool; leds : list led_event
}.
Abbreviation dworld := (@world _ serial_dfu).

Definition set_queue (es : list dfu_update_packet) (n : Z) (u : serial_dfu) : serial_dfu :=
  mk_serial es n (scheduler u) (engine u) (dfu_activity u) (leds u).
Definition set_scheduler (s : sched) (u : serial_dfu) : serial_dfu :=
  mk_serial (elements u) (count u) s (engine u) (dfu_activity u) (leds u).
Definition set_engine (e : eng) (u : serial_dfu) : serial_dfu :=
  mk_serial (elements u) (count u) (scheduler u) e (dfu_activity u) (leds u).
Definition bootloader_dfu_activity_mark (u : serial_dfu) : serial_dfu :=
  mk_serial (elements u) (count u) (scheduler u) (engine u) true (leds u).
Definition led_state (l : led_event) (u : serial_dfu) : serial_dfu :=
  mk_serial (elements u) (count u) (scheduler u) (engine u) (dfu_activity u) (leds u ++ [l]).
Definition on_upper (f : serial_dfu -> serial_dfu) (w : dworld) : dworld :=
  (fst w, set_upper (f (upper (snd w))) (snd w)).

Definition DATA_QUEUE_FULL (u : serial_dfu) : bool := MAX_BUFFERS - 1 =? count u.
Definition DATA_QUEUE_EMPTY (u : serial_dfu) : bool := 0 =? count u.

(** [data_queue_element_init]: the type, the pointer and the length. *)
Definition no_packet : dfu_update_packet := mk_update INVALID_PACKET None 0.
Definition data_queue_element_init (i : Z) (es : list dfu_update_packet) : list dfu_update_packet :=
  <[Z.to_nat i := no_packet]> es.

Definition data_queue_init (u : serial_dfu) : serial_dfu :=
  set_queue (fold_left (fun es i => data_queue_element_init i es) (seqZ 0 MAX_BUFFERS) (elements u)) 0 u.

Definition data_queue_element_free (element_index : Z) (w : dworld) : option (Z * dworld) :=
  if MAX_BUFFERS >? element_index then
    let u := upper (snd w) in
    let e := nth (Z.to_nat element_index) (elements u) no_packet in
    if negb (INVALID_PACKET =? packet_type e) then
      let w := on_upper (set_queue (data_queue_element_init element_index (elements u)) (u8 (count u - 1))) w in
      let '(retval, t) := hci_transport_rx_pkt_consume (p_data e) (snd w) in
      _ ← APP_ERROR_CHECK retval; Some (NRF_SUCCESS, (fst w, t))
    else Some (NRF_SUCCESS, w)
  else Some (NRF_ERROR_INVALID_PARAM, w).

(** The first free element, from [index] on. *)
Fixpoint find_free (index : Z) (es : list dfu_update_packet) : option Z :=
  match es with
  | [] => None
  | e :: es => if INVALID_PACKET =? packet_type e then Some index else find_free (index + 1) es
  end.

(** [data_queue_element_alloc]; the element found, if any. *)
Definition data_queue_element_alloc (packet_type : Z) (u : serial_dfu) : Z * option Z * serial_dfu :=
  if DATA_QUEUE_FULL u then (NRF_ERROR_NO_MEM, None, u) else
  match find_free 0 (elements u) with
  | Some i =>
    let e := nth (Z.to_nat i) (elements u) no_packet in
    (NRF_SUCCESS, Some i,
     set_queue (<[Z.to_nat i := mk_update packet_type (p_data e) (plen e)]> (elements u)) (u8 (count u + 1)) u)
  | None => (NRF_ERROR_NO_MEM, None, u)
  end.

Definition data_queue_flush (w : dworld) : option dworld :=
  foldr (fun i (k : dworld -> option dworld) (w : dworld) => '(_, w) ← data_queue_element_free i w; k w) Some (seqZ 0 MAX_BUFFERS) w.

(** [dfu_cb_handler]: an engine error reported by callback stops the device. *)
Definition dfu_cb_handler (packet result : Z) : option unit := APP_ERROR_CHECK result.

(** The [n] bytes after the packet type word of the packet in buffer [b]. *)
Definition payload_bytes (w : dworld) (b : option Z) (off n : Z) : list Z :=
  match b with
  | Some b => (fun i => rx_mem (fst w) b (PKT_HDR_SIZE + off + i)) <$> seqZ 0 n
  | None => []
  end.
Definition SIZEOF_START_PACKET : Z := 16.
(** The [dfu_start_packet_t] at an address, little-endian with its padding. *)
Definition start_of_bytes (p : list Z) : dfu_start_packet :=
  mk_start (nthZ p 0) (read_le32 (sliceZ p 4 4)) (read_le32 (sliceZ p 8 4)) (read_le32 (sliceZ p 12 4)).
(** Pool buffers are word-aligned, and so is the data behind header and type. *)
Definition packet_of (w : dworld) (e : dfu_update_packet) : data_packet :=
  mk_packet (plen e) true (payload_bytes w (p_data e) 4 (plen e * 4)).

Definition call_engine (f : eng -> option (Z * eng)) (w : dworld) : option (Z * dworld) :=
  '(r, e) ← f (engine (upper (snd w))); Some (r, on_upper (set_engine e) w).

(** The [switch] of [process_dfu_packet]; true when it returns from inside it. *)
Definition handle_element (e : dfu_update_packet) (w : dworld) : option (bool * dworld) :=
  if packet_type e =? DATA_PACKET then
    '(_, w) ← call_engine (eng_data_pkt_handle (packet_of w e)) w; Some (false, w)
  else if packet_type e =? START_PACKET then
    '(retval, w) ← call_engine (eng_start_pkt_handle (start_of_bytes (payload_bytes w (p_data e) 4 SIZEOF_START_PACKET))) w;
    Some (false, if retval =? NRF_SUCCESS then on_upper bootloader_dfu_activity_mark w else w)
  else if packet_type e =? INIT_PACKET then
    '(retval, w) ← call_engine (eng_init_pkt_handle (packet_of w e)) w;
    if retval =? NRF_SUCCESS then
      '(retval, w) ← call_engine eng_init_pkt_complete w;
      Some (false, if retval =? NRF_SUCCESS then on_upper (led_state STATE_WRITING_STARTED) w else w)
    else Some (false, w)
  else if packet_type e =? STOP_DATA_PACKET then
    '(retval, w) ← call_engine eng_image_validate w;
    if retval =? NRF_SUCCESS then
      '(retval, w) ← call_engine eng_image_activate w;
      Some (if retval =? NRF_SUCCESS then (true, on_upper (led_state STATE_WRITING_FINISHED) w) else (false, w))
    else Some (false, w)
  else Some (false, w).

(** One round of the [for] loop. *)
Definition process_element (index : Z) (w : dworld) : option (bool * dworld) :=
  let e := nth (Z.to_nat index) (elements (upper (snd w))) no_packet in
  if negb (INVALID_PACKET =? packet_type e) then
    '(returned, w) ← handle_element e w;
    if (returned : bool) then Some (true, w) else
    '(retval, w) ← data_queue_element_free index w;
    _ ← APP_ERROR_CHECK retval; Some (false, w)
  else Some (false, w).

Fixpoint process_elements (indices : list Z) (w : dworld) : option (bool * dworld) :=
  match indices with
  | [] => Some (false, w)
  | i :: indices => '(returned, w) ← process_element i w; if (returned : bool) then Some (true, w) else process_elements indices w
  end.

Fixpoint process_loop (fuel : nat) (w : dworld) : option dworld :=
  if DATA_QUEUE_EMPTY (upper (snd w)) then Some w else
  match fuel with
  | O => None
  | S fuel => '(returned, w) ← process_elements (seqZ 0 MAX_BUFFERS) w; if (returned : bool) then Some w else process_loop fuel w
  end.

(** A pass leaves the queue empty, so the [while] runs once. *)
Definition process_dfu_packet (w : dworld) : option dworld := process_loop 1 w.

(** What is wrong with a packet of type [packet_type] and [len] bytes. *)
Definition packet_check (packet_type len : Z) : Z :=
  if (packet_type <? INIT_PACKET) || (packet_type >? STOP_DATA_PACKET) || (packet_type =? STOP_INIT_PACKET)
  then NRF_ERROR_INVALID_PARAM
  else if ((packet_type =? START_PACKET) && negb (len =? 4 + SIZEOF_START_PACKET)) ||
          ((packet_type =? STOP_DATA_PACKET) && negb (len =? 4)) ||
          ((packet_type =? DATA_PACKET) && negb (len mod 4 =? 0))
  then NRF_ERROR_INVALID_LENGTH
  else NRF_SUCCESS.

Definition rpc_transport_event_handler (w : dworld) : option dworld :=
  let '(retval, p_rpc_cmd_buffer, rpc_cmd_length_read, t) := hci_transport_rx_pkt_extract (snd w) in
  let w := (fst w, t) in
  let '(retval, w) :=
    if retval =? NRF_SUCCESS then
      let ptype := read_le32 (payload_bytes w p_rpc_cmd_buffer 0 4) in
      let retval := packet_check ptype rpc_cmd_length_read in
      if retval =? NRF_SUCCESS then
        let '(retval, s) := app_sched_event_put (Put None 0 Process_dfu_packet []) (scheduler (upper (snd w))) in
        let w := on_upper (set_scheduler s) w in
        if retval =? NRF_SUCCESS then
          let '(retval, i, u) := data_queue_element_alloc ptype (upper (snd w)) in
          let u :=
            match i with
            | Some i => set_queue (<[Z.to_nat i := mk_update ptype p_rpc_cmd_buffer (u32 (rpc_cmd_length_read / 4 - 1))]> (elements u)) (count u) u
            | None => u
            end in
          (retval, on_upper (fun _ => u) w)
        else (retval, w)
      else (retval, w)
    else (retval, w) in
  match p_rpc_cmd_buffer with
  | Some _ =>
    if negb (retval =? NRF_SUCCESS) then
      let '(retval, t) := hci_transport_rx_pkt_consume p_rpc_cmd_buffer (snd w) in
      _ ← APP_ERROR_CHECK retval; Some (fst w, t)
    else Some w
  | None => Some w
  end.

(** The scheduler's call of a handler, and [app_sched_execute] of the main loop. *)
Definition run_sched_handler (h : sched_handler) (d : list Z) (w : option dworld) : prog (H := sched_handler) (option dworld) :=
  Done (match h with Process_dfu_packet => w ← w; process_dfu_packet w | Other_event => w end).
Definition main_execute (fuel : nat) (w : dworld) : option dworld :=
  '(s, w) ← app_sched_execute run_sched_handler fuel (scheduler (upper (snd w))) (Some w);
  w ← w; Some (on_upper (set_scheduler s) w).

Context (tx_done_handle : bool -> dworld -> option dworld) (timer_create timer_start timer_stop : dworld -> Z).
Abbreviation serial_events := (slip_event_handle rpc_transport_event_handler tx_done_handle timer_start timer_stop EVENT_DEPTH).

(** [fifo]: what the USB port has received before the transport was opened. *)
Definition dfu_transport_serial_update_start (uart_init : Z) (fifo : list Z) (w : dworld) : option (Z * dworld) :=
  let w := on_upper data_queue_init w in
  let w := on_upper (fun u => set_engine (eng_register_callback (engine u)) u) w in
  let '(err_code, w) := hci_transport_open timer_create uart_init w in
  _ ← APP_ERROR_CHECK err_code;
  '(err_code, w) ← hci_transport_evt_handler_reg true w;
  _ ← APP_ERROR_CHECK err_code;
  '(_, w) ← hci_slip_process_pending_rx serial_events fifo w;
  Some (NRF_SUCCESS, w).

Definition dfu_transport_serial_close (uart_close : Z) (w : dworld) : option (Z * dworld) :=
  w ← data_queue_flush w; hci_transport_close timer_stop uart_close w.
End SerialQueue.

(** * What the engine sees *)

(** The packet type and the data of a payload. *)
Definition ptype_of (p : list Z) : Z := read_le32 (sliceZ p 0 4).
Definition words_of (p : list Z) : Z := u32 (lenZ p / 4 - 1).
Definition acceptable (p : list Z) : bool := packet_check (ptype_of p) (lenZ p) =? NRF_SUCCESS.

Section Contract.
Context `{DfuEngine}.

(** The engine, whether an update has started, and the LED. *)
Definition core : Type := eng * bool * list led_event.

(** One packet handed to the engine, and whether it completed the update. *)
Definition serve (p : list Z) (x : core) : option (bool * core) :=
  let '(e, act, l) := x in
  let packet := mk_packet (words_of p) true (sliceZ p 4 (words_of p * 4)) in
  if ptype_of p =? DATA_PACKET then '(_, e) ← eng_data_pkt_handle packet e; Some (false, (e, act, l))
  else if ptype_of p =? START_PACKET then
    '(r, e) ← eng_start_pkt_handle (start_of_bytes (sliceZ p 4 SIZEOF_START_PACKET)) e;
    Some (false, (e, if r =? NRF_SUCCESS then true else act, l))
  else if ptype_of p =? INIT_PACKET then
    '(r, e) ← eng_init_pkt_handle packet e;
    if r =? NRF_SUCCESS then
      '(r, e) ← eng_init_pkt_complete e; Some (false, (e, act, if r =? NRF_SUCCESS then l ++ [STATE_WRITING_STARTED] else l))
    else Some (false, (e, act, l))
  else
    '(r, e) ← eng_image_validate e;
    if r =? NRF_SUCCESS then
      '(r, e) ← eng_image_activate e;
      Some (if r =? NRF_SUCCESS then (true, (e, act, l ++ [STATE_WRITING_FINISHED])) else (false, (e, act, l)))
    else Some (false, (e, act, l)).

(** The packets waiting are served in order up to a STOP that completes the
    update, which stays in the queue. *)
Fixpoint serve_all (ps : list (list Z)) (x : core) : option (list (list Z) * core) :=
  match ps with
  | [] => Some ([], x)
  | p :: ps' => '(finished, x) ← serve p x; if (finished : bool) then Some (ps, x) else serve_all ps' x
  end.
(** As many times as there are events. *)
Fixpoint serve_rounds (n : nat) (ps : list (list Z)) (x : core) : option (list (list Z) * core) :=
  match n with O => Some (ps, x) | S n => '(ps, x) ← serve_all ps x; serve_rounds n ps x end.
End Contract.

(** * The queue keeps the packets *)

Section Proofs.
Context `{Serial, DfuEngine}.
Abbreviation dworld := (@world _ serial_dfu).

Definition core_of (u : serial_dfu) : core := (engine u, dfu_activity u, leds u).
Definition with_core (x : core) (u : serial_dfu) : serial_dfu :=
  mk_serial (elements u) (count u) (scheduler u) (fst (fst x)) (snd (fst x)) (snd x).

(** Buffer [b] holds payload [p] behind its header. *)
Definition payload_in (m : Z -> Z -> Z) (b : Z) (p : list Z) : Prop :=
  forall o n, 0 <= o -> 0 <= n -> o + n <= lenZ p -> (fun i => m b (PKT_HDR_SIZE + o + i)) <$> seqZ 0 n = sliceZ p o n.
Definition payload_ok (p : list Z) : Prop := acceptable p = true /\ 4 <= lenZ p < HCI_RX_BUF_SIZE.

Definition element_for (b : Z) (p : list Z) : dfu_update_packet := mk_update (ptype_of p) (Some b) (words_of p).

(** The elements, from [i] free ones on: the waiting packets [ps], which lie in
    the buffers [ex]. *)
Record waiting (i : nat) (ex : list Z) (ps : list (list Z)) (m : Z -> Z -> Z) (u : serial_dfu) : Prop := {
  wt_length : length ex = length ps;
  wt_room : (i + length ps <= Z.to_nat MAX_BUFFERS)%nat;
  wt_elements : elements u = replicate i no_packet ++ zip_with element_for ex ps ++
                  replicate (Z.to_nat MAX_BUFFERS - i - length ps) no_packet;
  wt_count : count u = lenZ ps;
  wt_memory : Forall2 (payload_in m) ex ps;
  wt_ok : Forall payload_ok ps
}.

Lemma acceptable_type p : acceptable p = true ->
  (ptype_of p = INIT_PACKET \/ ptype_of p = START_PACKET \/ ptype_of p = DATA_PACKET \/ ptype_of p = STOP_DATA_PACKET) /\
  (ptype_of p = START_PACKET -> lenZ p = 4 + SIZEOF_START_PACKET).
Proof.
  unfold acceptable, packet_check, INIT_PACKET, STOP_DATA_PACKET, STOP_INIT_PACKET, START_PACKET, DATA_PACKET. rewrite Z.gtb_ltb.
  destruct (Z.ltb_spec (ptype_of p) 1), (Z.ltb_spec 5 (ptype_of p)), (Z.eqb_spec (ptype_of p) 2); cbn [orb]; try done.
  intros Hc. split; [lia|]. intros E. rewrite E in Hc. cbn [Z.eqb Pos.eqb andb] in Hc.
  destruct (Z.eqb_spec (lenZ p) (4 + SIZEOF_START_PACKET)); done.
Qed.

Lemma words_small p : payload_ok p -> words_of p = lenZ p / 4 - 1 /\ 0 <= words_of p /\ 4 + words_of p * 4 <= lenZ p.
Proof. intros [_ Hl]. unfold words_of, HCI_RX_BUF_SIZE in *. rewrite u32_small by zlia. zlia. Qed.

Lemma payload_bytes_in (w : dworld) b p o n : payload_in (rx_mem (fst w)) b p -> 0 <= o -> 0 <= n -> o + n <= lenZ p ->
  payload_bytes w (Some b) o n = sliceZ p o n.
Proof. intros Hp. apply Hp. Qed.

Lemma handle_element_serves (w : dworld) b p : payload_ok p -> payload_in (rx_mem (fst w)) b p ->
  handle_element (element_for b p) w =
  '(finished, x) ← serve p (core_of (upper (snd w))); Some (finished, on_upper (with_core x) w).
Proof.
  intros Hok Hp. destruct (words_small p Hok) as (_ & Hw0 & Hw). destruct (acceptable_type p (proj1 Hok)) as (Ht & Hst).
  unfold handle_element, serve, core_of, element_for, call_engine. cbn [packet_type].
  assert (packet_of w (mk_update (ptype_of p) (Some b) (words_of p)) =
          mk_packet (words_of p) true (sliceZ p 4 (words_of p * 4))) as ->.
  { unfold packet_of. cbn [plen p_data]. by rewrite (payload_bytes_in w b p) by (done || lia). }
  destruct (Z.eqb_spec (ptype_of p) DATA_PACKET).
  { destruct (eng_data_pkt_handle _ _) as [[r e']|]; done. }
  destruct (Z.eqb_spec (ptype_of p) START_PACKET) as [E|].
  { cbn [p_data]. rewrite (payload_bytes_in w b p) by (done || (rewrite ?Hst by done; unfold SIZEOF_START_PACKET; lia)).
    destruct (eng_start_pkt_handle _ _) as [[r e']|]; [|done]. cbn [mbind option_bind]. destruct (r =? NRF_SUCCESS); done. }
  destruct (Z.eqb_spec (ptype_of p) INIT_PACKET).
  { destruct (eng_init_pkt_handle _ _) as [[r e']|]; [|done]. cbn [mbind option_bind]. destruct (r =? NRF_SUCCESS); [|done].
    cbn [on_upper snd set_upper upper set_engine engine]. destruct (eng_init_pkt_complete e') as [[r2 e2]|]; [|done]. cbn [mbind option_bind].
    destruct (r2 =? NRF_SUCCESS); done. }
  destruct (Z.eqb_spec (ptype_of p) STOP_DATA_PACKET); [|lia].
  destruct (eng_image_validate _) as [[r e']|]; [|done]. cbn [mbind option_bind]. destruct (r =? NRF_SUCCESS); [|done].
  cbn [on_upper snd set_upper upper set_engine engine]. destruct (eng_image_activate e') as [[r2 e2]|]; [|done]. cbn [mbind option_bind].
  destruct (r2 =? NRF_SUCCESS); done.
Qed.

(** The world with another pool and another state of this module. *)
Definition moves (q : pool) (u : serial_dfu) (w : dworld) : dworld :=
  (fst w, set_upper u (set_rx_side (m_is_slip_decode_ready (snd w)) (mp_slip_used_rx_buffer (snd w)) q (snd w))).
Lemma on_upper_moves f (w : dworld) : on_upper f w = moves (mem_pool (snd w)) (f (upper (snd w))) w.
Proof. by destruct w as [st []]. Qed.
Lemma moves_moves q u q' u' (w : dworld) : moves q' u' (moves q u w) = moves q' u' w.
Proof. done. Qed.
Lemma moves_same (w : dworld) : moves (mem_pool (snd w)) (upper (snd w)) w = w.
Proof. by destruct w as [st []]. Qed.

Lemma payload_type p : payload_ok p -> (INVALID_PACKET =? ptype_of p) = false.
Proof.
  intros [Ha _]. destruct (acceptable_type p Ha) as (Ht & _). apply Z.eqb_neq.
  unfold INVALID_PACKET, INIT_PACKET, START_PACKET, DATA_PACKET, STOP_DATA_PACKET in *. lia.
Qed.

Lemma waiting_free i ex m u j : waiting i ex [] m u -> nth j (elements u) no_packet = no_packet.
Proof.
  intros [Hl Hr He _ _ _]. rewrite He. destruct ex; [|done]. cbn. rewrite Nat.sub_0_r, <- replicate_add.
  rewrite nth_lookup. destruct (replicate _ _ !! j) as [e|] eqn:E; [|done]. by apply lookup_replicate in E as [-> _].
Qed.

Lemma waiting_zero i ex m u : waiting i ex [] m u -> waiting 0 [] [] m u.
Proof.
  intros [Hl Hr He Hc _ _]. destruct ex; [|done]. constructor; try done; [cbn; lia|].
  rewrite He. cbn [zip_with app length]. rewrite !Nat.sub_0_r, <- replicate_add. cbn [replicate app]. f_equal. cbn in *. lia.
Qed.

(** The first waiting packet is element [i]; freeing it frees its buffer. *)
Lemma waiting_head i b ex p ps m u : waiting i (b :: ex) (p :: ps) m u ->
  nth i (elements u) no_packet = element_for b p /\ (i < Z.to_nat MAX_BUFFERS)%nat /\ payload_ok p /\ payload_in m b p.
Proof.
  intros [Hl Hr He _ Hm Hok]. inversion Hm; subst. inversion Hok; subst.
  rewrite He, nth_lookup, lookup_app_r by (by rewrite length_replicate). rewrite length_replicate, Nat.sub_diag. cbn in *. split_and!; done || lia.
Qed.

Lemma element_freed i b ex p ps (w : dworld) b0 : let m := rx_mem (fst w) in
  waiting i (b :: ex) (p :: ps) m (upper (snd w)) -> pool_at (mem_pool (snd w)) (b :: ex) b0 ->
  exists q' u', data_queue_element_free (Z.of_nat i) w = Some (NRF_SUCCESS, moves q' u' w) /\
    waiting (S i) ex ps m u' /\ pool_at q' ex b0 /\ core_of u' = core_of (upper (snd w)) /\ scheduler u' = scheduler (upper (snd w)).
Proof.
  intros m Hw Hp. destruct (waiting_head _ _ _ _ _ _ _ Hw) as (Hn & Hi & Hok & _).
  destruct (pool_release _ _ _ _ Hp) as (q' & Q & Hp'). unfold data_queue_element_free. cbn zeta. rewrite Nat2Z.id, Hn.
  replace (MAX_BUFFERS >? Z.of_nat i) with true by (symmetry; rewrite Z.gtb_ltb; apply Z.ltb_lt; unfold MAX_BUFFERS in *; lia).
  cbn [packet_type element_for]. rewrite (payload_type p Hok). cbn [negb p_data element_for].
  unfold hci_transport_rx_pkt_consume. cbn [on_upper snd set_upper mem_pool]. rewrite Q. cbn [APP_ERROR_CHECK Z.eqb NRF_SUCCESS mbind option_bind].
  set (u1 := set_queue _ _ _). exists q', u1. split; [done|]. split; [|done].
  destruct Hw as [Hl Hr He Hc Hm Hk]. inversion Hm; subst. inversion Hk; subst.
  constructor; cbn [u1 set_queue elements count length] in *; try done; [lia|lia| |].
  - unfold data_queue_element_init. rewrite Nat2Z.id, He, insert_app_r_alt by (rewrite length_replicate; done).
    rewrite length_replicate, Nat.sub_diag. cbn [zip_with app insert list_insert].
    rewrite (replicate_S_end i), <- app_assoc. cbn [app].
    replace (Z.to_nat MAX_BUFFERS - i - S (length ps))%nat with (Z.to_nat MAX_BUFFERS - S i - length ps)%nat by lia. done.
  - rewrite Hc, lenZ_cons. rewrite u8_small; [lia|]. unfold lenZ, MAX_BUFFERS in *. cbn in *. lia.
Qed.

(** The device while packets wait: element [i] is the first of them. *)
Record pending (i : nat) (ex : list Z) (ps : list (list Z)) (b0 : Z) (x : core) (s : sched) (w : dworld) : Prop := {
  pd_waiting : waiting i ex ps (rx_mem (fst w)) (upper (snd w));
  pd_pool : pool_at (mem_pool (snd w)) ex b0;
  pd_core : core_of (upper (snd w)) = x;
  pd_sched : scheduler (upper (snd w)) = s
}.

Lemma waiting_same i ex ps m u u' : waiting i ex ps m u -> elements u' = elements u -> count u' = count u -> waiting i ex ps m u'.
Proof. intros [] E1 E2. constructor; by rewrite ?E1, ?E2. Qed.

(** One waiting packet: it goes to the engine and, unless it completed the
    update, its element and its buffer are freed. *)
Lemma element_processed i b ex p ps b0 x s w : pending i (b :: ex) (p :: ps) b0 x s w ->
  match serve p x with
  | Some (finished, x') => exists q' u', process_element (Z.of_nat i) w = Some (finished, moves q' u' w) /\
      if finished then pending i (b :: ex) (p :: ps) b0 x' s (moves q' u' w) else pending (S i) ex ps b0 x' s (moves q' u' w)
  | None => process_element (Z.of_nat i) w = None
  end.
Proof.
  intros [Hw Hp Hx Hs]. destruct (waiting_head _ _ _ _ _ _ _ Hw) as (Hn & Hi & Hok & Hm).
  unfold process_element. rewrite Nat2Z.id, Hn. cbn [packet_type element_for]. rewrite (payload_type p Hok). cbn [negb].
  change (mk_update (ptype_of p) (Some b) (words_of p)) with (element_for b p).
  rewrite (handle_element_serves w b p Hok Hm), Hx. destruct (serve p x) as [[finished x']|]; [|done]. cbn [mbind option_bind].
  set (w1 := on_upper (with_core x') w). assert (w1 = moves (mem_pool (snd w)) (with_core x' (upper (snd w))) w) as E1 by apply on_upper_moves.
  assert (core_of (upper (snd w1)) = x') as Hx1 by (rewrite E1; by destruct x' as [[e a] l]).
  assert (waiting i (b :: ex) (p :: ps) (rx_mem (fst w1)) (upper (snd w1))) as Hw1 by (rewrite E1; by apply (waiting_same _ _ _ _ _ _ Hw)).
  destruct finished.
  - eexists _, _. rewrite <- E1. split; [done|]. constructor; [done|by rewrite E1|done|by rewrite E1].
  - destruct (element_freed i b ex p ps w1 b0 Hw1) as (q' & u' & Ef & Hw' & Hp' & Hc' & Hs'); [by rewrite E1|].
    exists q', u'. rewrite Ef. cbn [mbind option_bind APP_ERROR_CHECK Z.eqb NRF_SUCCESS]. rewrite E1, moves_moves. split; [done|].
    constructor; cbn [moves fst snd set_upper set_rx_side upper mem_pool]; try done; [by rewrite Hc'|by rewrite Hs', E1].
Qed.

Lemma elements_skipped ix (w : dworld) l : (forall j, In j ix -> nth (Z.to_nat j) (elements (upper (snd w))) no_packet = no_packet) ->
  process_elements (ix ++ l) w = process_elements l w.
Proof.
  induction ix as [|j ix IH]; intros Hj; [done|]. cbn [app process_elements]. unfold process_element. rewrite Hj by (by left).
  cbn [no_packet packet_type INVALID_PACKET Z.eqb negb mbind option_bind]. apply IH. intros. apply Hj. by right.
Qed.

Lemma elements_processed ps : forall i ex b0 x s w, pending i ex ps b0 x s w ->
  match serve_all ps x with
  | Some (rest, x') => exists q' u' i' ex',
      process_elements (seqZ (Z.of_nat i) (MAX_BUFFERS - Z.of_nat i)) w = Some (bool_decide (rest <> []), moves q' u' w) /\
      pending i' ex' rest b0 x' s (moves q' u' w)
  | None => process_elements (seqZ (Z.of_nat i) (MAX_BUFFERS - Z.of_nat i)) w = None
  end.
Proof.
  induction ps as [|p ps IH]; intros i ex b0 x s w Hp; cbn [serve_all].
  - exists (mem_pool (snd w)), (upper (snd w)), i, ex. rewrite moves_same. split; [|done].
    rewrite <- (app_nil_r (seqZ _ _)). rewrite elements_skipped; [done|]. intros j _. by eapply waiting_free, Hp.
  - pose proof (pd_waiting _ _ _ _ _ _ _ Hp) as Hw. destruct ex as [|b ex]; [by destruct Hw|].
    destruct (waiting_head _ _ _ _ _ _ _ Hw) as (_ & Hi & _). pose proof (element_processed _ _ _ _ _ _ _ _ _ Hp) as He.
    rewrite seqZ_cons by (unfold MAX_BUFFERS in *; lia). cbn [process_elements].
    destruct (serve p x) as [[finished x']|]; cbn [mbind option_bind]; [|by rewrite He].
    destruct He as (q1 & u1 & E1 & H1). rewrite E1. cbn [mbind option_bind]. destruct finished.
    + eexists q1, u1, i, (b :: ex). split; [|done]. by rewrite bool_decide_true.
    + specialize (IH _ _ _ _ _ _ H1). replace (Z.of_nat (S i)) with (Z.succ (Z.of_nat i)) in IH by lia.
      replace (MAX_BUFFERS - Z.succ (Z.of_nat i)) with (Z.pred (MAX_BUFFERS - Z.of_nat i)) in IH by lia.
      destruct (serve_all ps x') as [[rest x2]|]; [|exact IH]. destruct IH as (q2 & u2 & i2 & ex2 & E2 & H2).
      exists q2, u2, i2, ex2. rewrite moves_moves in E2, H2. done.
Qed.

(** The scheduled handler. *)
Lemma packet_processed i ex ps b0 x s w : pending i ex ps b0 x s w ->
  match serve_all ps x with
  | Some (rest, x') => exists q' u' i' ex', process_dfu_packet w = Some (moves q' u' w) /\ pending i' ex' rest b0 x' s (moves q' u' w)
  | None => process_dfu_packet w = None
  end.
Proof.
  intros Hp. unfold process_dfu_packet. cbn [process_loop].
  pose proof (pd_waiting _ _ _ _ _ _ _ Hp) as Hw.
  assert (DATA_QUEUE_EMPTY (upper (snd w)) = bool_decide (ps = [])) as Hne.
  { unfold DATA_QUEUE_EMPTY. rewrite (wt_count _ _ _ _ _ Hw). by destruct ps. }
  rewrite Hne. destruct ps as [|p ps].
  { exists (mem_pool (snd w)), (upper (snd w)), i, ex. by rewrite moves_same. }
  rewrite bool_decide_false by done.
  pose proof (elements_processed _ _ _ _ _ _ _ Hp) as He. pose proof (wt_room _ _ _ _ _ Hw) as Hr. cbn [length] in Hr.
  assert (process_elements (seqZ 0 MAX_BUFFERS) w = process_elements (seqZ (Z.of_nat i) (MAX_BUFFERS - Z.of_nat i)) w) as Es.
  { replace MAX_BUFFERS with (Z.of_nat i + (MAX_BUFFERS - Z.of_nat i)) at 1 by lia. rewrite seqZ_app by (unfold MAX_BUFFERS in *; lia).
    rewrite Z.add_0_l. apply elements_skipped. intros j Hj. apply list_elem_of_In, elem_of_seqZ in Hj.
    rewrite (wt_elements _ _ _ _ _ Hw), nth_lookup, lookup_app_l by (rewrite length_replicate; lia).
    rewrite lookup_replicate_2 by lia. done. }
  rewrite Es. destruct (serve_all (p :: ps) x) as [[rest x']|]; cbn [mbind option_bind]; [|by rewrite He].
  destruct He as (q' & u' & i' & ex' & E & H'). rewrite E. cbn [mbind option_bind].
  exists q', u', i', ex'. split; [|done]. destruct rest as [|r rest]; [|done]. rewrite bool_decide_false by (intros Hf; apply Hf; reflexivity).
  pose proof (wt_count _ _ _ _ _ (pd_waiting _ _ _ _ _ _ _ H')) as Hc. cbn [moves snd set_upper set_rx_side upper] in Hc.
  unfold DATA_QUEUE_EMPTY. cbn [moves snd set_upper set_rx_side upper]. by rewrite Hc.
Qed.

(** * The main loop *)

(** The scheduler of [boards.c]: thirty events of [size] bytes. *)
Definition SCHED_QUEUE_SIZE : Z := 30.
Context (size : Z).
Definition events (n : nat) : list (event (H := sched_handler)) := replicate n (Process_dfu_packet, []).

Fixpoint process_rounds (n : nat) (w : option dworld) : option dworld :=
  match n with O => w | S n => process_rounds n (w ← w; process_dfu_packet w) end.

Lemma rounds_none n : process_rounds n None = None.
Proof. by induction n. Qed.

Lemma rounds_served n : forall i ex ps b0 x s w, pending i ex ps b0 x s w ->
  match serve_rounds n ps x with
  | Some (rest, x') => exists q' u' i' ex', process_rounds n (Some w) = Some (moves q' u' w) /\ pending i' ex' rest b0 x' s (moves q' u' w)
  | None => process_rounds n (Some w) = None
  end.
Proof.
  induction n as [|n IH]; intros i ex ps b0 x s w Hp; cbn [serve_rounds process_rounds].
  - exists (mem_pool (snd w)), (upper (snd w)), i, ex. by rewrite moves_same.
  - pose proof (packet_processed _ _ _ _ _ _ _ Hp) as Hs. cbn [mbind option_bind].
    destruct (serve_all ps x) as [[rest x']|]; cbn [mbind option_bind]; [|by rewrite Hs, rounds_none].
    destruct Hs as (q1 & u1 & i1 & ex1 & E1 & H1). rewrite E1. specialize (IH _ _ _ _ _ _ _ H1).
    destruct (serve_rounds n rest x') as [[rest2 x2]|]; [|exact IH].
    destruct IH as (q2 & u2 & i2 & ex2 & E2 & H2). rewrite moves_moves in E2, H2. by exists q2, u2, i2, ex2.
Qed.

Lemma events_run n : forall fuel w, (n <= fuel)%nat ->
  fifo_execute run_sched_handler SCHED_QUEUE_SIZE size fuel (events n) w = Some ([], process_rounds n w).
Proof.
  induction n as [|n IH]; intros fuel w Hf; [by destruct fuel|]. destruct fuel as [|fuel]; [lia|].
  cbn [events replicate fifo_execute fifo_exec run_sched_handler tail process_rounds]. apply IH. lia.
Qed.

(** [app_sched_execute] with one event for each packet that arrived. *)
Lemma main_served n fuel i ex ps b0 x s w : pending i ex ps b0 x s w -> queued SCHED_QUEUE_SIZE size (events n) s -> (n <= fuel)%nat ->
  match serve_rounds n ps x with
  | Some (rest, x') => exists q' u' i' ex' s', main_execute fuel w = Some (moves q' u' w) /\
      queued SCHED_QUEUE_SIZE size [] s' /\ pending i' ex' rest b0 x' s' (moves q' u' w)
  | None => main_execute fuel w = None
  end.
Proof.
  intros Hp Hq Hf. unfold main_execute. rewrite (pd_sched _ _ _ _ _ _ _ Hp).
  pose proof (execute_refines run_sched_handler SCHED_QUEUE_SIZE size (fun h d w => wf_done _) fuel _ _ (Some w) Hq) as He.
  rewrite events_run in He by done. destruct He as (s' & Es & Hq'). rewrite Es. cbn [mbind option_bind].
  pose proof (rounds_served n _ _ _ _ _ _ _ Hp) as Hr. destruct (serve_rounds n ps x) as [[rest x']|]; [|by rewrite Hr].
  destruct Hr as (q' & u' & i' & ex' & Er & [Hw Hl Hc Hs]). rewrite Er. cbn [mbind option_bind].
  exists q', (set_scheduler s' u'), i', ex', s'. rewrite on_upper_moves, moves_moves. split; [done|]. split; [done|].
  constructor; [by apply (waiting_same _ _ _ _ _ _ Hw)|done|done|done].
Qed.

(** * The module as the transport's client *)

Definition serial_take (p : list Z) (a : list (list Z) * core) : option (list (list Z) * core) :=
  if acceptable p && (lenZ (fst a) <? MAX_BUFFERS - 1) then Some (fst a ++ [p], snd a) else None.

Definition serial_ready (a : list (list Z) * core) (b : Z) (q : pool) (m : Z -> Z -> Z) (u : serial_dfu) : Prop :=
  exists ex, waiting 0 ex (fst a) m u /\ pool_at q ex b /\ core_of u = snd a /\
    queued SCHED_QUEUE_SIZE size (events (length (fst a))) (scheduler u).

Lemma serial_ready_mem a b q m m' u : serial_ready a b q m u -> (forall b' i, b' <> b -> m' b' i = m b' i) -> serial_ready a b q m' u.
Proof.
  intros (ex & [Hl Hr He Hc Hm Hk] & Hp & Hx & Hq) Hm'. exists ex. split; [|done]. constructor; try done.
  pose proof (proj1 (pool_at_apart _ _ _ Hp)) as Hnd. apply list.NoDup_app in Hnd as (_ & Hap & _).
  assert (Forall (fun b' => b' <> b) ex) as Hne.
  { apply Forall_forall. intros b' Hin ->. apply (Hap b); [by apply list_elem_of_In|by apply list_elem_of_singleton]. }
  revert Hne. clear -Hm Hm'. induction Hm as [|b' p ex ps Hb _ IH]; intros Hne; [constructor|].
  inversion Hne as [|? ? Hne1 Hne2]; subst. constructor; [|by apply IH]. intros o n Ho Hn Hon. rewrite <- Hb by done.
  apply list_fmap_ext. intros k x _. by apply Hm'.
Qed.

Lemma find_free_waiting ex ps m u : waiting 0 ex ps m u -> lenZ ps < MAX_BUFFERS -> find_free 0 (elements u) = Some (lenZ ps).
Proof.
  intros [Hl Hr He _ _ Hk] Hroom. rewrite He. cbn [replicate app]. clear He.
  assert (forall k r, (0 < r)%nat -> find_free k (zip_with element_for ex ps ++ replicate r no_packet) = Some (k + lenZ ps)) as Hf.
  { revert ex Hl. clear -Hk. induction Hk as [|p ps Hp _ IH]; intros [|b ex] Hl k r Hr; try discriminate.
    - destruct r; [lia|]. cbn. f_equal. unfold lenZ. cbn. lia.
    - cbn [zip_with app find_free element_for packet_type]. rewrite (payload_type p Hp).
      rewrite IH by (cbn in Hl; lia || done). f_equal. rewrite lenZ_cons. lia. }
  rewrite Hf; [done|]. unfold lenZ, MAX_BUFFERS in *. lia.
Qed.

(** An acceptable packet takes the next free element. *)
Lemma packet_queued ex ps m u b p : waiting 0 ex ps m u -> lenZ ps < MAX_BUFFERS - 1 -> payload_ok p -> payload_in m b p ->
  exists u1, data_queue_element_alloc (ptype_of p) u = (NRF_SUCCESS, Some (lenZ ps), u1) /\
    let u2 := set_queue (<[Z.to_nat (lenZ ps) := element_for b p]> (elements u1)) (count u1) u1 in
    waiting 0 (ex ++ [b]) (ps ++ [p]) m u2 /\ core_of u2 = core_of u /\ scheduler u2 = scheduler u.
Proof.
  intros Hw Hroom Hok Hin. pose proof Hw as [Hl Hr He Hc Hm Hk]. unfold data_queue_element_alloc, DATA_QUEUE_FULL.
  rewrite Hc. replace (MAX_BUFFERS - 1 =? lenZ ps) with false by (symmetry; apply Z.eqb_neq; lia).
  rewrite (find_free_waiting ex ps m u) by (done || lia). eexists. split; [reflexivity|]. cbn zeta.
  split; [|done]. assert (Z.to_nat (lenZ ps) = length ps) as En by (unfold lenZ; lia).
  constructor; cbn [set_queue elements count].
  - by rewrite !length_app, Hl.
  - rewrite length_app. unfold lenZ, MAX_BUFFERS in *. cbn. lia.
  - rewrite list_insert_insert_eq, En, He. cbn [replicate app].
    assert (length (zip_with element_for ex ps) = length ps) as Ez by (rewrite length_zip_with; lia).
    rewrite insert_app_r_alt by lia. rewrite Ez, Nat.sub_diag, zip_with_app by done. rewrite <- app_assoc. f_equal.
    rewrite length_app. cbn [length zip_with app].
    replace (Z.to_nat MAX_BUFFERS - 0 - length ps)%nat with (S (Z.to_nat MAX_BUFFERS - 0 - (length ps + 1)))%nat
      by (unfold lenZ, MAX_BUFFERS in *; cbn; lia). done.
  - rewrite lenZ_app. change (lenZ [p]) with 1. apply u8_small. unfold lenZ, MAX_BUFFERS in *. lia.
  - apply Forall2_app; [done|]. constructor; [done|constructor].
  - apply Forall_app. split; [done|]. constructor; [done|constructor].
Qed.

Lemma event_posted n s : queued SCHED_QUEUE_SIZE size (events n) s -> (n < 3)%nat ->
  exists s', app_sched_event_put (Put None 0 Process_dfu_packet []) s = (NRF_SUCCESS, s') /\
    queued SCHED_QUEUE_SIZE size (events (S n)) s'.
Proof.
  intros Hq Hn. pose proof (dm_size _ _ _ (ho_dims _ _ _ _ Hq)) as [_ Hs].
  destruct (put_refines SCHED_QUEUE_SIZE size (Put None 0 Process_dfu_packet []) ltac:(cbn; lia) (Some <$> events n) (events n) s Hq)
    as (err & s' & new & E & F & Hh & _); [by unfold lenZ; rewrite length_fmap|].
  cbn [fifo_put fold_left] in F. replace (0 >? size) with false in F by (symmetry; rewrite Z.gtb_ltb; apply Z.ltb_ge; lia).
  replace (lenZ (events n) =? SCHED_QUEUE_SIZE) with false in F
    by (symmetry; apply Z.eqb_neq; unfold events, lenZ, SCHED_QUEUE_SIZE; rewrite length_replicate; lia).
  injection F as <- F. apply app_inv_head in F. subst new. exists s'. split; [exact E|]. rewrite <- fmap_app in Hh.
  unfold queued, events in *. by rewrite replicate_S_end.
Qed.

Lemma payload_of_packet (m : Z -> Z -> Z) b p : buffer_holds m b p -> 10 <= lenZ p -> payload_in m b (payload_of p) /\ lenZ (payload_of p) = lenZ p - 6.
Proof.
  intros Hb Hl. assert (lenZ (payload_of p) = lenZ p - 6) as Hlen.
  { unfold payload_of, PKT_HDR_SIZE, PKT_CRC_SIZE. rewrite lenZ_sliceZ; lia. }
  split; [|done]. intros o n Ho Hn Hon. rewrite Hlen in Hon. unfold payload_of, PKT_HDR_SIZE, PKT_CRC_SIZE in *.
  rewrite sliceZ_sliceZ by lia. apply Hb; lia.
Qed.

Lemma serial_ready_step a a' b q m u p : serial_ready a b q m u -> 10 <= lenZ p < HCI_RX_BUF_SIZE -> buffer_holds m b p ->
  serial_take (payload_of p) a = Some a' ->
  exists q1 b' q2, hci_mem_pool_rx_data_size_set (lenZ p) q = (NRF_SUCCESS, q1) /\
    hci_mem_pool_rx_produce true HCI_RX_BUF_SIZE q1 = (NRF_SUCCESS, Some b', q2) /\
    forall st t, rx_mem st = m -> mem_pool t = q2 -> upper t = u -> m_is_slip_decode_ready t = true ->
      mp_slip_used_rx_buffer t = Some b' ->
      exists q' u', rpc_transport_event_handler (st, t) = Some (st, set_upper u' (set_rx_side false (Some b') q' t)) /\ serial_ready a' b' q' m u'.
Proof.
  destruct a as [ps x]. unfold serial_take. cbn [fst snd]. intros (ex & Hw & Hp & Hx & Hq) [H10 Hlen] Hb Htk.
  cbn [fst snd] in *. destruct (acceptable (payload_of p)) eqn:Hacc; [|done]. cbn [andb] in Htk. destruct (Z.ltb_spec (lenZ ps) (MAX_BUFFERS - 1)) as [Hroom|]; [|done].
  injection Htk as <-. destruct (payload_of_packet m b p Hb H10) as (Hin & Hpl). set (pl := payload_of p) in *.
  assert (payload_ok pl) as Hok by (split; [done|lia]). pose proof (wt_length _ _ _ _ _ Hw) as Hl.
  destruct (pool_arrival q ex b (lenZ p) Hp) as (q1 & b' & q2 & q3 & Q1 & Q2 & Q3 & Hp3).
  { unfold lenZ, MAX_BUFFERS, HCI_RX_BUF_QUEUE_SIZE in *. lia. }
  exists q1, b', q2. split; [done|]. split; [done|]. intros st t Em Eq Eu Er Es.
  unfold rpc_transport_event_handler, hci_transport_rx_pkt_extract. cbn [snd fst]. rewrite Er, Eq, Q3.
  replace (u16 (lenZ p -32 (PKT_HDR_SIZE + PKT_CRC_SIZE))%c) with (lenZ pl)
    by (unfold PKT_HDR_SIZE, PKT_CRC_SIZE, HCI_RX_BUF_SIZE in *; zlia).
  cbn [fmap option_fmap option_map fst Z.eqb NRF_SUCCESS]. cbn zeta.
  rewrite (payload_bytes_in _ b pl 0 4) by (cbn [fst]; rewrite ?Em; done || lia). fold (ptype_of pl).
  pose proof Hacc as Hc. unfold acceptable in Hc. rewrite Hc. cbn [snd set_rx_side upper]. rewrite Eu.
  destruct (event_posted (length ps) (scheduler u) Hq) as (s' & Ep & Hq'); [unfold lenZ, MAX_BUFFERS in *; lia|]. rewrite Ep.
  cbn [Z.eqb NRF_SUCCESS on_upper snd set_upper upper set_rx_side]. rewrite Eu.
  destruct (packet_queued ex ps m (set_scheduler s' u) b pl) as (u1 & Ea & Hw2 & Hc2 & Hs2); try done.
  { by apply (waiting_same _ _ _ _ _ _ Hw). }
  rewrite Ea. cbn [Z.eqb NRF_SUCCESS negb]. eexists q3, _. split.
  - rewrite Es. unfold on_upper. cbn [fst snd set_upper set_rx_side]. reflexivity.
  - exists (ex ++ [b]). cbn [fst snd]. split; [exact Hw2|]. split; [done|]. split; [by rewrite <- Hx; exact Hc2|].
    rewrite length_app. cbn [length]. rewrite Nat.add_1_r. cbn in Hs2 |- *. rewrite Hs2. exact Hq'.
Qed.

#[global] Instance serial_client : Client serial_dfu (list (list Z) * core) rpc_transport_event_handler := {
  ready := serial_ready; take_payload := serial_take; ready_mem := serial_ready_mem; ready_step := serial_ready_step
}.
End Proofs.
