(* ===== verification/SerialSession.v ===== *)
(** Serial sessions: bursts of packets on the wire, each followed by a round of
    the main loop, through SLIP, the HCI transport, the buffer pool, the packet
    queue and the scheduler into the DFU engine; and what a rejected packet
    between two good ones does. *)
From S2P Require Import Prelude Nvm DfuTypes FlashNrf5x SingleBank SingleBankSerial MemPool Slip HciTransport Scheduler SerialQueue.

Section Session.
Context `{Serial, DfuEngine} (size : Z).
Abbreviation dworld := (@world _ serial_dfu).
Context (tx_done_handle : bool -> dworld -> option dworld) (timer_start timer_stop : dworld -> Z).
Abbreviation serial_events := (slip_event_handle rpc_transport_event_handler tx_done_handle timer_start timer_stop EVENT_DEPTH).
#[local] Existing Instance serial_client.

(** The device with packets [a] waiting, listening for sequence number [e]. *)
Definition serial_listening (a : list (list Z) * core) (e : Z) (w : dworld) : Prop :=
  listening_to (C := serial_client size) a e w.

(** Packets that fit a buffer, framed one after the other. *)
Definition fits (p : list Z) : Prop := p <> [] /\ lenZ p < HCI_RX_BUF_SIZE.
Definition on_wire (ps : list (list Z)) : list Z := concat (slip_frame <$> ps).

Lemma take_acceptable ps : forall a x, Forall (fun p => acceptable p = true) ps -> lenZ a + lenZ ps <= MAX_BUFFERS - 1 ->
  take_payloads (C := serial_client size) ps (a, x) = Some (a ++ ps, x).
Proof.
  induction ps as [|p ps IH]; intros a x Hps Hl; cbn [take_payloads]; [by rewrite app_nil_r|].
  inversion Hps as [|? ? Hp Hps']; subst. rewrite lenZ_cons in Hl. pose proof (lenZ_nonneg ps).
  cbn [take_payload serial_client]. unfold serial_take. cbn [fst snd]. rewrite Hp. cbn [andb].
  replace (lenZ a <? MAX_BUFFERS - 1) with true by (symmetry; apply Z.ltb_lt; lia). cbn [mbind option_bind].
  rewrite IH; [by rewrite <- app_assoc|done|rewrite lenZ_app; change (lenZ [p]) with 1; lia].
Qed.

(** A burst is received: its payloads wait in order, one event each. *)
Lemma burst_received ps e x w : serial_listening ([], x) e w -> Forall fits ps ->
  Forall (fun p => acceptable p = true) (deliveries e ps) -> lenZ (deliveries e ps) <= MAX_BUFFERS - 1 ->
  exists w1, hci_slip_process_pending_rx serial_events (on_wire ps) w = Some ([], w1) /\
    serial_listening (deliveries e ps, x) (foldl next_expected e ps) w1 /\
    (m_current_state (fst w) = SLIP_READY -> ~ refuses ->
     m_current_state (fst w1) = SLIP_READY /\ sent (sl_port (fst w1)) = sent (sl_port (fst w)) ++ acknowledgements e ps).
Proof.
  intros L Hf Ha Hl. apply (frames_delivered (C := serial_client size) tx_done_handle timer_start timer_stop ps ([], x) _ e w L Hf).
  by apply (take_acceptable (deliveries e ps) []).
Qed.

(** The main loop then serves them. *)
Lemma burst_served ps e x w fuel : serial_listening (ps, x) e w -> (length ps <= fuel)%nat ->
  match serve_rounds (length ps) ps x with
  | Some (rest, x') => exists w2, main_execute fuel w = Some w2 /\ fst w2 = fst w /\ core_of (upper (snd w2)) = x' /\
      (rest = [] -> serial_listening ([], x') e w2)
  | None => main_execute fuel w = None
  end.
Proof.
  intros [L1 (b & L2 & L3 & (ex & Hw & Hp & Hx & Hq)) L4 L5 L6 L7 L8 L9] Hf. cbn [fst snd] in *.
  assert (pending 0 ex ps b x (scheduler (upper (snd w))) w) as Hpd by done.
  pose proof (main_served size (length ps) fuel 0 ex ps b x _ w Hpd Hq Hf) as Hm.
  destruct (serve_rounds (length ps) ps x) as [[rest x']|]; [|done].
  destruct Hm as (q' & u' & i' & ex' & s' & E & Hq' & [Hw' Hp' Hx' Hs']). exists (moves q' u' w). split; [exact E|].
  split; [done|]. split; [done|]. intros ->.
  assert (ex' = []) as -> by (pose proof (wt_length _ _ _ _ _ Hw') as Hl; by destruct ex').
  constructor; try done. exists b. split; [done|]. split; [done|]. exists []. cbn [fst snd length events replicate].
  split; [by apply (waiting_zero i' [])|]. split; [done|]. split; [done|]. by rewrite Hs'.
Qed.

(** The engine fed with payloads one by one, none of which completes the
    update. *)
Fixpoint feed (ps : list (list Z)) (x : core) : option core :=
  match ps with
  | [] => Some x
  | p :: ps => '(finished, x) ← serve p x; if (finished : bool) then None else feed ps x
  end.

Lemma feed_app ps qs : forall x, feed (ps ++ qs) x = (x ← feed ps x; feed qs x).
Proof.
  induction ps as [|p ps IH]; intros x; [done|]. cbn [app feed]. destruct (serve p x) as [[[] x']|]; [done| |done].
  cbn [mbind option_bind]. apply IH.
Qed.

Lemma feed_served ps : forall x x', feed ps x = Some x' -> serve_all ps x = Some ([], x').
Proof.
  induction ps as [|p ps IH]; intros x x'; cbn [feed serve_all]; [by intros [= <-]|].
  destruct (serve p x) as [[[] x1]|]; try done. cbn [mbind option_bind]. apply IH.
Qed.

Lemma rounds_nothing n x : serve_rounds n [] x = Some ([], x).
Proof. by induction n. Qed.

Lemma feed_rounds ps x x' : feed ps x = Some x' -> serve_rounds (length ps) ps x = Some ([], x').
Proof.
  intros Hf. destruct ps as [|p ps]; [by injection Hf as <-|]. cbn [length serve_rounds]. rewrite (feed_served _ _ _ Hf).
  cbn [mbind option_bind]. apply rounds_nothing.
Qed.

(** A session: every burst is received by the USB task and then served by the
    main loop, which has [fuel] rounds. *)
Fixpoint serial_session (fuel : nat) (bursts : list (list (list Z))) (w : dworld) : option dworld :=
  match bursts with
  | [] => Some w
  | ps :: bursts =>
    '(_, w) ← hci_slip_process_pending_rx serial_events (on_wire ps) w;
    w ← main_execute fuel w; serial_session fuel bursts w
  end.

Lemma deliveries_app ps qs : forall e, deliveries e (ps ++ qs) = deliveries e ps ++ deliveries (foldl next_expected e ps) qs.
Proof. induction ps as [|p ps IH]; intros e; [done|]. cbn. by rewrite IH, app_assoc. Qed.
Lemma acknowledgements_app ps qs : forall e,
  acknowledgements e (ps ++ qs) = acknowledgements e ps ++ acknowledgements (foldl next_expected e ps) qs.
Proof. induction ps as [|p ps IH]; intros e; [done|]. cbn. by rewrite IH, app_assoc. Qed.
Lemma deliveries_length ps : forall e, lenZ (deliveries e ps) <= lenZ ps.
Proof.
  induction ps as [|p ps IH]; intros e; [done|]. cbn. rewrite lenZ_app, lenZ_cons. specialize (IH (next_expected e p)).
  destruct (accepts e p); [change (lenZ [payload_of p]) with 1|change (lenZ (@nil (list Z))) with 0]; lia.
Qed.

Lemma session_served fuel bursts : (3 <= fuel)%nat -> forall e x x' w, serial_listening ([], x) e w ->
  Forall (fun ps => Forall fits ps /\ lenZ ps <= MAX_BUFFERS - 1) bursts ->
  Forall (fun p => acceptable p = true) (deliveries e (concat bursts)) -> feed (deliveries e (concat bursts)) x = Some x' ->
  exists w', serial_session fuel bursts w = Some w' /\ core_of (upper (snd w')) = x' /\
    serial_listening ([], x') (foldl next_expected e (concat bursts)) w' /\
    (m_current_state (fst w) = SLIP_READY -> ~ refuses -> m_current_state (fst w') = SLIP_READY /\
     sent (sl_port (fst w')) = sent (sl_port (fst w)) ++ acknowledgements e (concat bursts)).
Proof.
  intros Hfuel. induction bursts as [|ps bursts IH]; intros e x x' w L Hb Ha Hf; cbn [serial_session concat] in *.
  - injection Hf as <-. exists w. split; [done|]. pose proof L as [_ (b & _ & _ & (ex & _ & _ & Hx & _)) _ _ _ _ _ _].
    split; [exact Hx|]. split; [done|]. intros Hs _. by rewrite app_nil_r.
  - inversion Hb as [|? ? [Hfit Hlen] Hb']; subst. rewrite deliveries_app in Ha, Hf. apply Forall_app in Ha as [Ha1 Ha2].
    rewrite feed_app in Hf. destruct (feed (deliveries e ps) x) as [x1|] eqn:Hf1; [|done]. cbn [mbind option_bind] in Hf.
    pose proof (deliveries_length ps e) as Hd.
    destruct (burst_received ps e x w L Hfit Ha1) as (w1 & E1 & L1 & A1); [lia|].
    pose proof (burst_served _ _ _ _ fuel L1) as Hs. rewrite (feed_rounds _ _ _ Hf1) in Hs.
    destruct Hs as (w2 & E2 & S2 & _ & L2); [unfold lenZ, MAX_BUFFERS in *; lia|].
    destruct (IH _ _ _ w2 (L2 eq_refl) Hb' Ha2 Hf) as (w3 & E3 & X3 & L3 & A3). exists w3.
    rewrite E1. cbn [mbind option_bind]. rewrite E2. cbn [mbind option_bind]. rewrite foldl_app. split; [exact E3|].
    split; [done|]. split; [done|]. intros Hr Hn. destruct (A1 Hr Hn) as (R1 & T1).
    rewrite <- S2 in R1. destruct (A3 R1 Hn) as (R3 & ->). split; [done|]. by rewrite S2, T1, acknowledgements_app, app_assoc.
Qed.

Lemma session_app fuel bs cs : forall w, serial_session fuel (bs ++ cs) w = (w ← serial_session fuel bs w; serial_session fuel cs w).
Proof.
  induction bs as [|ps bs IH]; intros w; [done|]. cbn [app serial_session].
  destruct (hci_slip_process_pending_rx _ _ w) as [[r w1]|]; [|done]. cbn [mbind option_bind].
  destruct (main_execute fuel w1) as [w2|]; [|done]. cbn [mbind option_bind]. apply IH.
Qed.

(** C21: the serial transport hands the engine exactly what was sent. Let a
    listening device receive bursts of at most three packets, valid or not,
    repeated or not, the main loop running after each burst, where what the HCI
    layer delivers are well-formed DFU packets. Then every delivered packet goes
    to the engine once, in the order of the wire; the last burst may complete the
    update, and a STOP that does is served again for each event left over. The
    engine's state, the activity mark and the LED are those of serving the
    payloads one by one; if nothing is left over the device listens again, with
    every buffer, queue element and event freed; and on a port that takes what it
    is given, the valid packets, and only those, are acknowledged in order. *)
Theorem serial_session_exact fuel bursts last e x x1 x2 rest w : (3 <= fuel)%nat -> serial_listening ([], x) e w ->
  Forall (fun ps => Forall fits ps /\ lenZ ps <= MAX_BUFFERS - 1) (bursts ++ [last]) ->
  let e1 := foldl next_expected e (concat bursts) in
  Forall (fun p => acceptable p = true) (deliveries e (concat bursts) ++ deliveries e1 last) ->
  feed (deliveries e (concat bursts)) x = Some x1 ->
  serve_rounds (length (deliveries e1 last)) (deliveries e1 last) x1 = Some (rest, x2) ->
  exists w', serial_session fuel (bursts ++ [last]) w = Some w' /\ core_of (upper (snd w')) = x2 /\
    (rest = [] -> serial_listening ([], x2) (foldl next_expected e1 last) w') /\
    (m_current_state (fst w) = SLIP_READY -> ~ refuses ->
     sent (sl_port (fst w')) = sent (sl_port (fst w)) ++ acknowledgements e (concat bursts ++ last)).
Proof.
  intros Hfuel L Hb e1 Ha Hf Hr. apply Forall_app in Hb as [Hb Hlast]. apply Forall_app in Ha as [Ha Ha1].
  inversion Hlast as [|? ? [Hfit Hlen] _]; subst.
  destruct (session_served fuel bursts Hfuel e x x1 w L Hb Ha Hf) as (w1 & E1 & X1 & L1 & A1). fold e1 in L1.
  pose proof (deliveries_length last e1) as Hd.
  destruct (burst_received last e1 x1 w1 L1 Hfit Ha1) as (w2 & E2 & L2 & A2); [lia|].
  pose proof (burst_served _ _ _ _ fuel L2) as Hs. rewrite Hr in Hs.
  destruct Hs as (w3 & E3 & S3 & X3 & L3); [unfold lenZ, MAX_BUFFERS in *; lia|].
  exists w3. rewrite session_app, E1. cbn [mbind option_bind serial_session]. rewrite E2. cbn [mbind option_bind]. rewrite E3.
  split; [done|]. split; [done|]. split; [done|]. intros Hs Hn. rewrite acknowledgements_app, S3.
  destruct (A1 Hs Hn) as (R1 & T1). destruct (A2 R1 Hn) as (_ & ->). by rewrite T1, app_assoc.
Qed.
End Session.

(** * With the single-bank engine: an image from the wire into flash *)

(** A DATA packet with a whole number of words, and its data. *)
Definition data_payload (p : list Z) : Prop :=
  ptype_of p = DATA_PACKET /\ lenZ p mod 4 = 0 /\ 4 < lenZ p < HCI_RX_BUF_SIZE /\ bytes p.
Definition engine_packet (p : list Z) : data_packet := mk_packet (words_of p) true (sliceZ p 4 (words_of p * 4)).

Lemma data_payload_ok p : data_payload p ->
  acceptable p = true /\
  (packet_wf (engine_packet p) /\ 0 < packet_length (engine_packet p) /\ bytes (p_data_packet (engine_packet p)) /\
   word_aligned (engine_packet p) = true) /\
  packet_data (engine_packet p) = drop 4 p.
Proof.
  intros (Ht & H4 & Hl & Hb). assert (words_of p = lenZ p / 4 - 1) as Ew.
  { unfold words_of, HCI_RX_BUF_SIZE in *. apply u32_small. zlia. }
  assert (4 + words_of p * 4 = lenZ p) as E by (rewrite Ew; zlia). assert (0 < words_of p) as Hw by lia.
  assert (sliceZ p 4 (words_of p * 4) = drop 4 p) as Es.
  { unfold sliceZ. change (Z.to_nat 4) with 4%nat. apply take_ge. rewrite length_drop. unfold lenZ in E. lia. }
  split; [|split; [split_and!|]].
  - unfold acceptable, packet_check. rewrite Ht, H4. done.
  - unfold packet_wf. cbn. rewrite lenZ_sliceZ; lia.
  - done.
  - cbn. by apply sliceZ_bytes.
  - done.
  - unfold packet_data. cbn. rewrite sliceZ_all; [done|]. rewrite lenZ_sliceZ; lia.
Qed.

Section Image.
Context `{Serial, Nvmc, PStorage} (size : Z).
Context (SIGNED_FW : bool) (build : DfuPolicy.policy_build) (DFU_APP_DATA_RESERVED : Z).
Context {tc_state : Type} (tc_sha256_init : option tc_state)
  (tc_sha256_update : tc_state -> list Z -> option tc_state) (tc_sha256_final : tc_state -> option (list Z))
  (uECC_valid_public_key : list Z -> Z) (uECC_verify : list Z -> list Z -> list Z -> Z) (pk : list Z).
Context (app_timer_stop app_timer_start : sb_state -> Z).
Hypothesis stop_ok : forall st, app_timer_stop st = NRF_SUCCESS.
Hypothesis start_ok : forall st, app_timer_start st = NRF_SUCCESS.
#[local] Instance serial_engine : DfuEngine :=
  single_bank_engine SIGNED_FW build DFU_APP_DATA_RESERVED false tc_sha256_init tc_sha256_update tc_sha256_final
    uECC_valid_public_key uECC_verify pk app_timer_stop app_timer_start 0.
Abbreviation dworld := (@world _ serial_dfu).
Context (tx_done_handle : bool -> dworld -> option dworld) (timer_start timer_stop : dworld -> Z).

Lemma feed_data ps : forall st act l rs st', Forall data_payload ps ->
  data_packets SIGNED_FW app_timer_stop app_timer_start (engine_packet <$> ps) st = Some (rs, st') ->
  feed ps (st, act, l) = Some (st', act, l).
Proof.
  induction ps as [|p ps IH]; intros st act l rs st' Hps; cbn [fmap list_fmap data_packets feed]; [by intros [= _ <-]|].
  inversion Hps as [|? ? Hp Hps']; subst. destruct (dfu_data_pkt_handle _ _ _ _ _ _ st) as [[r st1]|] eqn:E; [|done]. cbn [mbind option_bind].
  destruct (data_packets _ _ _ _ st1) as [[rs' st2]|] eqn:E2; [|done]. intros [= _ <-].
  unfold serve. rewrite (proj1 Hp), Z.eqb_refl. cbn [eng_data_pkt_handle serial_engine single_bank_engine].
  change (mk_packet (words_of p) true (sliceZ p 4 (words_of p * 4))) with (engine_packet p). rewrite E. cbn [mbind option_bind].
  by apply (IH _ _ _ rs').
Qed.

(** C19: an image sent over the serial line is the image in flash, on a device
    with a SoftDevice. Let the
    single-bank engine have prepared its bank ([bank_ready]: page-aligned, above the SoftDevice's information
    page, erased, the DFU timer not expired) and wait for data, and let the timer module
    succeed. Without a SoftDevice the bank's start can move with the data
    ([sdless_base_moves]) and this does not hold. Whatever the
    split into DATA packets of whole words, the split into bursts of at most three
    frames, the repeated and the damaged frames between them: when the payloads
    delivered make up an image of the announced size, the session ends, the
    engine has received it all, and the bytes its validation will read from flash
    are the data of the packets, in order. *)
Theorem image_over_the_wire fuel bursts e st act l w : (3 <= fuel)%nat ->
  bank_ready st [] -> 0 < m_image_size st -> serial_listening size ([], (st, act, l)) e w ->
  Forall (fun ps => Forall fits ps /\ lenZ ps <= MAX_BUFFERS - 1) bursts ->
  Forall data_payload (deliveries e (concat bursts)) ->
  lenZ (concat (drop 4 <$> deliveries e (concat bursts))) = m_image_size st ->
  exists w', serial_session tx_done_handle timer_start timer_stop fuel bursts w = Some w' /\
    let st' := engine (upper (snd w')) in
    stored_image st' = concat (drop 4 <$> deliveries e (concat bursts)) /\
    m_data_received st' = m_image_size st /\ m_dfu_state st' = DFU_STATE_RX_DATA_PKT.
Proof.
  intros Hfuel Hr Hsz L Hb Hd Hlen. set (ps := deliveries e (concat bursts)) in *.
  assert (map packet_data (engine_packet <$> ps) = drop 4 <$> ps) as Em.
  { clear -Hd. induction Hd as [|p ps Hp _ IH]; [done|]. cbn. by rewrite (proj2 (proj2 (data_payload_ok p Hp))), IH. }
  destruct (data_packets_run SIGNED_FW app_timer_stop app_timer_start stop_ok start_ok (engine_packet <$> ps) st [] Hr) as (st' & E & Hr' & Z' & _ & F').
  { apply Forall_fmap. eapply Forall_impl; [|exact Hd]. intros p Hp. apply (data_payload_ok p Hp). }
  { rewrite Em. change (lenZ (@nil Z)) with 0. lia. }
  { intros En. apply fmap_nil_inv in En. rewrite En in Hlen. change (0 = m_image_size st) in Hlen. lia. }
  rewrite Em, app_nil_l in Hr'.
  assert (Forall (fun p => acceptable p = true) ps) as Ha.
  { eapply Forall_impl; [|exact Hd]. intros p Hp. apply (data_payload_ok p Hp). }
  destruct (session_served size tx_done_handle timer_start timer_stop fuel bursts Hfuel e _ _ w L Hb Ha (feed_data _ _ act l _ _ Hd E)) as (w' & Ew & X & _).
  exists w'. split; [exact Ew|]. injection X as -> _ _. pose proof Hr' as (Hs & _ & _ & _ & _ & _ & _ & Hrec & _).
  split; [|split; [by rewrite Hrec|done]]. apply bank_ready_stored; [done|by rewrite Z'|done].
Qed.
End Image.

(** * A concrete device *)

Import Line.
#[local] Existing Instance serial_client.

(** The device as start-up leaves it, with engine state [x], and its transport
    opened by [dfu_transport_serial_update_start]. *)
Section Device.
Context `{DfuEngine} (x : eng).
Abbreviation dworld := (@world line_serial serial_dfu).
Definition sched0 : sched (H := sched_handler) :=
  snd (app_sched_init 8 SCHED_QUEUE_SIZE true (replicate 31 (mk_header None 0)) (replicate 248 0) (mk_sched [] [] 0 0 0 0)).
Definition device0 : dworld :=
  (slip0, mk_transport TX_STATE_IDLE false false None 0 0 [] 0 false 0 false pool0
            (mk_serial (replicate 4 no_packet) 0 sched0 x false [])).
Definition done_handle (r : bool) (w : dworld) : option dworld := Some w.
Definition timer_fine (w : dworld) : Z := NRF_SUCCESS.
Definition device_started : option (Z * dworld) :=
  dfu_transport_serial_update_start done_handle timer_fine timer_fine timer_fine NRF_SUCCESS [] device0.
Definition device : dworld := match device_started with Some (_, w) => w | None => device0 end.

Lemma device_listening : serial_listening 8 ([], (eng_register_callback x, false, [])) 1 device.
Proof.
  constructor; try done. exists 0. split; [done|]. split; [done|]. exists []. split; [constructor; done || (vm_compute; lia) || constructor|]. split; [|split; [done|]].
  - exists (mk_queue false [] [0] 1 (replicate 16 0)), 0, 0, 1. split; [|done]. constructor; try done.
    intros i Hi. change (ring 0 (0 + 1)) with [0]. change (free_index (mem_pool (snd device))) with 1.
    destruct (decide (i = 0)) as [->|Hn]; [done|].
    rewrite bool_decide_false; [|intros Hf; apply list_elem_of_singleton in Hf; done].
    change 1 with (2 ^ 0). by apply Z.pow2_bits_false.
  - constructor; [by constructor|done|done|done|]. intros k ev _ Hev. cbn in Hev. by rewrite lookup_nil in Hev.
Qed.
End Device.

(** DATA packets of four bytes, on the wire with sequence number [n]. *)
Definition data_frame (n : Z) (data : list Z) : list Z := demo_packet n ([4; 0; 0; 0] ++ data).

Lemma acceptable_all ps : forallb acceptable ps = true -> Forall (fun p => acceptable p = true) ps.
Proof. induction ps as [|p ps IH]; cbn; [constructor|]. intros [? ?]%andb_prop. constructor; [done|by apply IH]. Qed.

Lemma data_payloads_all ps :
  forallb (fun p => (ptype_of p =? DATA_PACKET) && (lenZ p mod 4 =? 0) && (4 <? lenZ p) && (lenZ p <? HCI_RX_BUF_SIZE) &&
                    forallb (fun b => (0 <=? b) && (b <? 256)) p) ps = true -> Forall data_payload ps.
Proof.
  induction ps as [|p ps IH]; cbn [forallb]; [constructor|].
  intros [[[[[? ?]%andb_prop ?]%andb_prop ?]%andb_prop ?]%andb_prop ?]%andb_prop. constructor; [|by apply IH].
  split; [by apply Z.eqb_eq|]. split; [by apply Z.eqb_eq|]. split; [split; by apply Z.ltb_lt|]. by apply bytes_by_forallb.
Qed.

(** Two bursts: the first word, noise and a repetition; then the second word. *)
Definition demo_bursts : list (list (list Z)) :=
  [[data_frame 1 [1; 2; 3; 4]; [1; 2; 3]; data_frame 1 [1; 2; 3; 4]]; [data_frame 2 [5; 6; 7; 8]]].
Lemma demo_bursts_ok : Forall (fun ps => Forall fits ps /\ lenZ ps <= MAX_BUFFERS - 1) demo_bursts.
Proof. repeat constructor; done. Qed.

(** An engine that counts what it is given and accepts everything. *)
Definition counting_engine : DfuEngine := {|
  eng := list Z;
  eng_start_pkt_handle p e := Some (NRF_SUCCESS, e ++ [app_image_size p]);
  eng_init_pkt_handle p e := Some (NRF_SUCCESS, e);
  eng_init_pkt_complete e := Some (NRF_SUCCESS, e);
  eng_data_pkt_handle p e := Some (NRF_SUCCESS, e ++ p_data_packet p);
  eng_image_validate e := Some (NRF_SUCCESS, e);
  eng_image_activate e := Some (NRF_SUCCESS, e);
  eng_register_callback e := e
|}.

(** A START for four bytes, INIT and DATA in one burst, then STOP in another. *)
Definition demo_start : list Z := [3; 0; 0; 0; 4; 0; 0; 0; 0; 0; 0; 0; 0; 0; 0; 0; 4; 0; 0; 0].
Definition demo_update : list (list Z) :=
  [demo_packet 1 demo_start; demo_packet 2 [1; 0; 0; 0; 9; 9]; data_frame 3 [1; 2; 3; 4]].

Lemma serial_session_exact_witness :
  exists w', serial_session (H0 := counting_engine) done_handle timer_fine timer_fine 3 ([demo_update] ++ [[demo_packet 4 [5; 0; 0; 0]]])
      (device (H := counting_engine) []) = Some w' /\
    core_of (upper (snd w')) = ([4; 1; 2; 3; 4], true, [STATE_WRITING_STARTED; STATE_WRITING_FINISHED]) /\
    lenZ (sent (sl_port (fst w'))) = 24.
Proof.
  destruct (serial_session_exact (H0 := counting_engine) 8 done_handle timer_fine timer_fine 3 [demo_update] [demo_packet 4 [5; 0; 0; 0]] 1
    ([], false, []) ([4; 1; 2; 3; 4], true, [STATE_WRITING_STARTED]) ([4; 1; 2; 3; 4], true, [STATE_WRITING_STARTED; STATE_WRITING_FINISHED])
    [[5; 0; 0; 0]] (device (H := counting_engine) [])) as (w' & E & X & _ & A).
  - lia.
  - exact (device_listening (H := counting_engine) []).
  - repeat constructor; done.
  - apply acceptable_all. vm_compute. reflexivity.
  - vm_compute. reflexivity.
  - vm_compute. reflexivity.
  - exists w'. split; [exact E|]. split; [exact X|]. rewrite A; [vm_compute; reflexivity|reflexivity|exact line_never_refuses].
Defined.

(** Concrete engine of [image_over_the_wire]: the demo bank of [SingleBankSerial.v]. *)
#[local] Existing Instance nvmc_model.
#[local] Existing Instance pstorage_none.
Definition demo_engine : DfuEngine :=
  single_bank_engine false DfuPolicy.demo_build 0 false (Some tt) (fun s _ => Some s) (fun _ => None) (fun _ => 1) (fun _ _ _ => 1) []
    ok_timer ok_timer 0.
Definition demo_device : @world line_serial serial_dfu := device (H := demo_engine) demo_waiting.

Lemma registered_again (st : sb_state) : m_data_pkt_cb st = true -> dfu_register_callback st = st.
Proof. destruct st; cbn. by intros ->. Qed.

Lemma demo_listening : serial_listening (H0 := demo_engine) 8 ([], (demo_waiting, false, [])) 1 demo_device.
Proof.
  pose proof (device_listening (H := demo_engine) demo_waiting) as L. cbn [eng_register_callback demo_engine single_bank_engine] in L.
  rewrite (registered_again demo_waiting) in L by (vm_compute; reflexivity). exact L.
Qed.

Lemma image_over_the_wire_witness :
  exists w', serial_session (H0 := demo_engine) done_handle timer_fine timer_fine 3 demo_bursts demo_device = Some w' /\
    stored_image (engine (H0 := demo_engine) (upper (snd w'))) = [1; 2; 3; 4; 5; 6; 7; 8].
Proof.
  destruct (image_over_the_wire 8 false DfuPolicy.demo_build 0 (Some tt) (fun s _ => Some s) (fun _ => None) (fun _ => 1) (fun _ _ _ => 1) []
    ok_timer ok_timer (fun _ => eq_refl) (fun _ => eq_refl) done_handle timer_fine timer_fine 3 demo_bursts 1 demo_waiting false [] demo_device)
    as (w' & E & S & _).
  - lia.
  - exact (proj1 demo_bank_ready).
  - rewrite (proj2 demo_bank_ready). lia.
  - exact demo_listening.
  - exact demo_bursts_ok.
  - apply data_payloads_all. vm_compute. reflexivity.
  - rewrite (proj2 demo_bank_ready). vm_compute. reflexivity.
  - exists w'. split; [exact E|]. etransitivity; [exact S|vm_compute; reflexivity].
Defined.

(** A rejected packet between two good ones stops the device. Three packets
    arrive in one burst, the middle one with a type the protocol does not know:
    it is freed at once, before the first, and when the first is freed the pool
    gives back the buffer of the third as well; freeing that one after the engine
    has had it is then an error, which ends in the error handler. The same three
    packets with a main loop round between them are served. *)
Theorem rejected_between_resets :
  let bad := demo_packet 2 [9; 0; 0; 0] in
  let burst := [data_frame 1 [1; 2; 3; 4]; bad; data_frame 3 [5; 6; 7; 8]] in
  let start := device (H := counting_engine) [] in
  serial_session (H0 := counting_engine) done_handle timer_fine timer_fine 30 [burst] start = None /\
  (fun w => engine (H0 := counting_engine) (upper (snd w))) <$>
    serial_session (H0 := counting_engine) done_handle timer_fine timer_fine 30 ((fun p => [p]) <$> burst) start =
    Some [1; 2; 3; 4; 5; 6; 7; 8].
Proof. split; vm_compute; reflexivity. Qed.
