(* ===== verification/Pstorage.v ===== *)
(** The flash queue of the BLE build: [pstorage_raw.c] over the SoftDevice's
    flash API.  Requests wait in a ring of eighteen commands; a store whose page
    is not erased yet triggers a lazy erase, and the stores behind it wait in a
    ring of eight buffered packets.  One SoftDevice request is in progress at a
    time; its completion event drives the queue.  The registered callbacks are
    programs over the rest of the device that may call the module again. *)
From S2P Require Import Prelude Nvm DfuTypes SingleBank.

(** What the module asks of the SoftDevice: [sd_flash_write] of words and
    [sd_flash_page_erase]. *)
Inductive sd_request := SdWrite (address : Z) (data : list Z) | SdErase (page_number : Z).
Class SoftDevice := {
  sd : Type;
  sd_flash_request : sd_request -> sd -> Z * sd
}.

Definition INVALID_OPCODE : Z := 0.
Definition SOC_MAX_WRITE_SIZE : Z := 4096.
Definition PENDING_PACKET_SIZE : Z := 256.
Definition PENDING_PACKET_COUNT : Z := 8.
Definition PSTORAGE_CMD_QUEUE_SIZE : Z := 18.
Definition PSTORAGE_NUM_OF_PAGES : Z := 4.
Definition PSTORAGE_FLASH_PAGE_SIZE : Z := 4096.
Definition CMD_FLAG_NONE : Z := 0.
Definition CMD_FLAG_LAZY_ERASE : Z := 1.
Definition CMD_FLAG_PENDING_STORE : Z := 2.
Inductive flash_access_t := FLASH_ACCESS_IDLE | FLASH_ACCESS_IN_FLIGHT | FLASH_ACCESS_WAIT_BUSY.
#[global] Instance flash_access_eq_dec : EqDecision flash_access_t.
Proof. solve_decision. Defined.
(** [NRF_EVT_FLASH_OPERATION_SUCCESS] and [_ERROR], and any other event. *)
Inductive sys_event := EVT_FLASH_OPERATION_SUCCESS | EVT_FLASH_OPERATION_ERROR | EVT_OTHER.

Record pstorage_handle := mk_handle { module_id : Z; block_id : Z }.

(** Where a command's data lies: the caller's memory, which stays as it is until
    the callback, or the buffer of a pending packet. *)
Inductive data_ref := No_data | Caller_data (d : list Z) | Pending_data (slot : Z).

Record cmd_queue_element := mk_cmd {
  op_code : Z; flags : Z; c_size : Z; c_offset : Z; storage_addr : pstorage_handle; p_data_addr : data_ref
}.
Record pending_packet := mk_pending {
  valid : bool; pp_handle : pstorage_handle; pp_offset : Z; pp_size : Z; p_data_orig : list Z; pp_data : list Z
}.

(** [m_cmd_queue], [m_app_table], the pending ring and the other statics. *)
Record pstorage := mk_ps {
  rp : Z; count : Z; flash_access : flash_access_t; cmd : list cmd_queue_element;
  m_app_table : list bool; m_next_app_instance : Z; m_round_val : Z;
  m_pending_packets : list pending_packet; m_pending_read_idx : Z; m_pending_write_idx : Z; m_pending_count : Z;
  m_lazy_erase_active : bool; m_lazy_erase_page : Z; m_processing_pending : bool
}.

(** A callback's arguments. *)
Record notification := mk_note { n_handle : pstorage_handle; n_op : Z; n_result : Z; n_data : data_ref; n_size : Z }.

Section Pstorage.
Context `{SoftDevice} {W : Type}.

(** What a callback may do: call [pstorage_store] or [pstorage_clear] and go on
    with the result. *)
Inductive api_call :=
| Store (dest : pstorage_handle) (src : list Z) (src_aligned : bool) (size offset : Z)
| Clear (dest : pstorage_handle) (size : Z).
Inductive cb_prog := Cb_done (w : W) | Cb_call (c : api_call) (k : Z -> cb_prog).
Context (callback : notification -> W -> cb_prog).

(** The module, the lazy-erase globals it shares with the engine, the
    SoftDevice and the rest of the device. *)
Record dev := mk_dev { q : pstorage; lz : lazy_erase; soft : sd; world : W }.

(** Field updates. *)
Definition set_q (p : pstorage) (s : dev) : dev := mk_dev p (lz s) (soft s) (world s).
Definition set_soft (x : sd) (s : dev) : dev := mk_dev (q s) (lz s) x (world s).
Definition set_lz (l : lazy_erase) (s : dev) : dev := mk_dev (q s) l (soft s) (world s).
Definition set_ring (r c : Z) (cs : list cmd_queue_element) (round : Z) (p : pstorage) : pstorage :=
  mk_ps r c (flash_access p) cs (m_app_table p) (m_next_app_instance p) round (m_pending_packets p)
    (m_pending_read_idx p) (m_pending_write_idx p) (m_pending_count p) (m_lazy_erase_active p) (m_lazy_erase_page p) (m_processing_pending p).
Definition set_access (a : flash_access_t) (p : pstorage) : pstorage :=
  mk_ps (rp p) (count p) a (cmd p) (m_app_table p) (m_next_app_instance p) (m_round_val p) (m_pending_packets p)
    (m_pending_read_idx p) (m_pending_write_idx p) (m_pending_count p) (m_lazy_erase_active p) (m_lazy_erase_page p) (m_processing_pending p).
Definition set_round (r : Z) (p : pstorage) : pstorage := set_ring (rp p) (count p) (cmd p) r p.
Definition set_pending (ps : list pending_packet) (r w c : Z) (p : pstorage) : pstorage :=
  mk_ps (rp p) (count p) (flash_access p) (cmd p) (m_app_table p) (m_next_app_instance p) (m_round_val p) ps r w c
    (m_lazy_erase_active p) (m_lazy_erase_page p) (m_processing_pending p).
Definition set_lazy_erase (active : bool) (page : Z) (p : pstorage) : pstorage :=
  mk_ps (rp p) (count p) (flash_access p) (cmd p) (m_app_table p) (m_next_app_instance p) (m_round_val p) (m_pending_packets p)
    (m_pending_read_idx p) (m_pending_write_idx p) (m_pending_count p) active page (m_processing_pending p).
Definition set_processing (b : bool) (p : pstorage) : pstorage :=
  mk_ps (rp p) (count p) (flash_access p) (cmd p) (m_app_table p) (m_next_app_instance p) (m_round_val p) (m_pending_packets p)
    (m_pending_read_idx p) (m_pending_write_idx p) (m_pending_count p) (m_lazy_erase_active p) (m_lazy_erase_page p) b.

Definition empty_cmd : cmd_queue_element := mk_cmd INVALID_OPCODE CMD_FLAG_NONE 0 0 (mk_handle PSTORAGE_NUM_OF_PAGES 0) No_data.
Definition cmd_queue_element_init (index : Z) (cs : list cmd_queue_element) : list cmd_queue_element :=
  <[Z.to_nat index := empty_cmd]> cs.
Definition cmd_at (i : Z) (p : pstorage) : cmd_queue_element := nth (Z.to_nat i) (cmd p) empty_cmd.

Definition empty_pending : pending_packet := mk_pending false (mk_handle 0 0) 0 0 [] [].
Definition pending_at (i : Z) (p : pstorage) : pending_packet := nth (Z.to_nat i) (m_pending_packets p) empty_pending.
Definition invalidate (x : pending_packet) : pending_packet :=
  mk_pending false (pp_handle x) (pp_offset x) (pp_size x) (p_data_orig x) (pp_data x).

(** [cmd_queue_init] and [pending_packets_init]. *)
Definition cmd_queue_init (p : pstorage) : pstorage :=
  set_access FLASH_ACCESS_IDLE (set_ring 0 0 (replicate (Z.to_nat PSTORAGE_CMD_QUEUE_SIZE) empty_cmd) 0 p).
Definition pending_packets_init (p : pstorage) : pstorage :=
  set_processing false (set_lazy_erase false 0 (set_pending (invalidate <$> m_pending_packets p) 0 0 0 p)).

Definition pending_packet_add (h : pstorage_handle) (p_data : list Z) (size offset : Z) (p : pstorage) : bool * pstorage :=
  if (m_pending_count p >=? PENDING_PACKET_COUNT) || (size >? PENDING_PACKET_SIZE) then (false, p) else
  let x := pending_at (m_pending_write_idx p) p in
  let x := mk_pending true h offset size p_data (put (pp_data x) 0 (sliceZ p_data 0 size)) in
  (true, set_pending (<[Z.to_nat (m_pending_write_idx p) := x]> (m_pending_packets p)) (m_pending_read_idx p)
           (u8 (m_pending_write_idx p + 1) mod PENDING_PACKET_COUNT) (u8 (m_pending_count p + 1)) p).

Definition pending_packet_peek (p : pstorage) : option pending_packet :=
  if m_pending_count p =? 0 then None else Some (pending_at (m_pending_read_idx p) p).

Definition pending_packet_pop (p : pstorage) : pstorage :=
  if m_pending_count p >? 0 then
    set_pending (<[Z.to_nat (m_pending_read_idx p) := invalidate (pending_at (m_pending_read_idx p) p)]> (m_pending_packets p))
      (u8 (m_pending_read_idx p + 1) mod PENDING_PACKET_COUNT) (m_pending_write_idx p) (u8 (m_pending_count p - 1)) p
  else p.

(** [if (i >= PSTORAGE_CMD_QUEUE_SIZE) i -= PSTORAGE_CMD_QUEUE_SIZE] *)
Definition wrap_index (i : Z) : Z := if i >=? PSTORAGE_CMD_QUEUE_SIZE then i - PSTORAGE_CMD_QUEUE_SIZE else i.

Definition cmd_queue_head_pop (p : pstorage) : cmd_queue_element * pstorage :=
  (cmd_at (rp p) p,
   set_ring (wrap_index (u8 (rp p + 1))) (u8 (count p - 1)) (cmd_queue_element_init (rp p) (cmd p)) 0 p).

(** The bytes [sd_flash_write] reads: [words] words at [offset] of the data. *)
Definition data_bytes (r : data_ref) (p : pstorage) : list Z :=
  match r with No_data => [] | Caller_data d => d | Pending_data i => pp_data (pending_at i p) end.

Definition cmd_process (s : dev) : Z * dev :=
  let p := q s in
  if count p =? 0 then (NRF_SUCCESS, s) else
  let c := cmd_at (rp p) p in
  let '(retval, x) :=
    if op_code c =? PSTORAGE_STORE_OP_CODE then
      let offset := u32 (m_round_val p * SOC_MAX_WRITE_SIZE) in
      let size := u32 (c_size c - offset) in
      let words := if size <? SOC_MAX_WRITE_SIZE then size / 4 else SOC_MAX_WRITE_SIZE / 4 in
      sd_flash_request (SdWrite (u32 (block_id (storage_addr c) + u32 (c_offset c + offset)))
                          (sliceZ (data_bytes (p_data_addr c) p) offset (words * 4))) (soft s)
    else if op_code c =? PSTORAGE_CLEAR_OP_CODE then
      sd_flash_request (SdErase (u32 (block_id (storage_addr c) / PSTORAGE_FLASH_PAGE_SIZE + m_round_val p))) (soft s)
    else (NRF_ERROR_FORBIDDEN, soft s) in
  (retval,
   set_soft x (set_q (set_access (if retval =? NRF_ERROR_BUSY then FLASH_ACCESS_WAIT_BUSY
                                  else if negb (retval =? NRF_SUCCESS) then FLASH_ACCESS_IDLE
                                  else FLASH_ACCESS_IN_FLIGHT) p) s)).

Definition cmd_queue_enqueue (opcode : Z) (p_storage_addr : pstorage_handle) (data : data_ref) (size offset flag : Z) (s : dev) : Z * dev :=
  let p := q s in
  if negb (count p =? PSTORAGE_CMD_QUEUE_SIZE) then
    let queue_was_empty := count p =? 0 in
    let write_index := wrap_index (u8 (rp p + count p)) in
    let p1 := set_ring (rp p) (u8 (count p + 1))
                (<[Z.to_nat write_index := mk_cmd opcode flag size offset p_storage_addr data]> (cmd p)) (m_round_val p) p in
    let s := set_q p1 s in
    if queue_was_empty && bool_decide (flash_access p = FLASH_ACCESS_IDLE) then
      let '(retval, s) := cmd_process s in
      if retval =? NRF_ERROR_BUSY then (NRF_SUCCESS, s)
      else if negb (retval =? NRF_SUCCESS) then
        (retval, set_q (set_ring (rp (q s)) (u8 (count (q s) - 1)) (cmd_queue_element_init write_index (cmd (q s))) 0 (q s)) s)
      else (retval, s)
    else (NRF_SUCCESS, s)
  else (NRF_ERROR_NO_MEM, s).

(** [dfu_page_erased[i] == 0] *)
Definition page_needs_erase (l : lazy_erase) (e : list Z) (i : Z) : bool :=
  (i <? dfu_image_page_count l) && (nthZ e i =? 0).

Definition lazy_erase_check_and_trigger (h : pstorage_handle) (size offset : Z) (s : dev) : Z * dev :=
  let target_addr := u32 (block_id h + offset) in
  match dfu_page_erased (lz s) with
  | None => (NRF_SUCCESS, s)
  | Some e =>
    if target_addr <? dfu_base_address (lz s) then (NRF_SUCCESS, s) else
    let page_index := u32 (target_addr - dfu_base_address (lz s)) / PSTORAGE_FLASH_PAGE_SIZE in
    let end_addr := u32 (target_addr + size - 1) in
    let end_page_index := u32 (end_addr - dfu_base_address (lz s)) / PSTORAGE_FLASH_PAGE_SIZE in
    let start_needs_erase := page_needs_erase (lz s) e page_index in
    let end_needs_erase := negb (end_page_index =? page_index) && page_needs_erase (lz s) e end_page_index in
    if negb start_needs_erase && negb end_needs_erase then (NRF_SUCCESS, s) else
    let erase_page := if start_needs_erase then page_index else end_page_index in
    let s := set_q (set_lazy_erase true erase_page (q s)) s in
    let erase_handle := mk_handle (module_id h) (u32 (dfu_base_address (lz s) + erase_page * PSTORAGE_FLASH_PAGE_SIZE)) in
    let '(ret, s) := cmd_queue_enqueue PSTORAGE_CLEAR_OP_CODE erase_handle No_data PSTORAGE_FLASH_PAGE_SIZE 0 CMD_FLAG_LAZY_ERASE s in
    if negb (ret =? NRF_SUCCESS) then (ret, set_q (set_lazy_erase false (m_lazy_erase_page (q s)) (q s)) s)
    else (NRF_SUCCESS, s)
  end.

Definition pending_work (p : pstorage) : bool := m_lazy_erase_active p || m_processing_pending p || (m_pending_count p >? 0).

Definition buffer_packet (dest : pstorage_handle) (src : list Z) (size offset : Z) (s : dev) : Z * dev :=
  let '(ok, p) := pending_packet_add dest src size offset (q s) in
  if ok : bool then (NRF_SUCCESS, set_q p s) else (NRF_ERROR_NO_MEM, s).

Definition pstorage_store (dest : pstorage_handle) (src : list Z) (src_aligned : bool) (size offset : Z) (s : dev) : Z * dev :=
  if negb src_aligned || negb (u32 (block_id dest + offset) mod 4 =? 0) then (NRF_ERROR_INVALID_ADDR, s) else
  if pending_work (q s) then buffer_packet dest src size offset s else
  let '(ret, s) := lazy_erase_check_and_trigger dest size offset s in
  if negb (ret =? NRF_SUCCESS) then (ret, s) else
  if m_lazy_erase_active (q s) then buffer_packet dest src size offset s
  else cmd_queue_enqueue PSTORAGE_STORE_OP_CODE dest (Caller_data src) size offset CMD_FLAG_NONE s.

Definition pstorage_clear (dest : pstorage_handle) (size : Z) (s : dev) : Z * dev :=
  if pending_work (q s) then (NRF_ERROR_NO_MEM, s)
  else cmd_queue_enqueue PSTORAGE_CLEAR_OP_CODE dest No_data size 0 CMD_FLAG_NONE s.

Definition call_api (c : api_call) (s : dev) : Z * dev :=
  match c with
  | Store dest src al size offset => pstorage_store dest src al size offset s
  | Clear dest size => pstorage_clear dest size s
  end.
Fixpoint run_callback (p : cb_prog) (s : dev) : dev :=
  match p with
  | Cb_done w => mk_dev (q s) (lz s) (soft s) w
  | Cb_call c k => let '(r, s) := call_api c s in run_callback (k r) s
  end.

(** [app_notify] and [app_notify_buffered]: nothing is called for a handle
    without a registered callback. *)
Definition notify (n : notification) (s : dev) : dev :=
  let m := module_id (n_handle n) in
  if (m <? PSTORAGE_NUM_OF_PAGES) && nth (Z.to_nat m) (m_app_table (q s)) false
  then run_callback (callback n (world s)) s else s.
Definition app_notify (result : Z) (c : cmd_queue_element) (s : dev) : dev :=
  notify (mk_note (storage_addr c) (op_code c) result (p_data_addr c) (c_size c)) s.
Definition app_notify_buffered (result : Z) (x : pending_packet) (s : dev) : dev :=
  notify (mk_note (pp_handle x) PSTORAGE_STORE_OP_CODE result (Caller_data (p_data_orig x)) (pp_size x)) s.

Fixpoint abort_loop (packets_to_abort : nat) (result : Z) (s : dev) : dev :=
  match packets_to_abort with
  | O => s
  | S n =>
    match pending_packet_peek (q s) with
    | None => s
    | Some x => abort_loop n result (app_notify_buffered result x (set_q (pending_packet_pop (q s)) s))
    end
  end.
Definition pending_packets_abort (result : Z) (s : dev) : dev :=
  let n := Z.to_nat (m_pending_count (q s)) in
  abort_loop n result (set_q (set_processing false (set_lazy_erase false 0 (q s))) s).

Definition cmd_queue_fail_head (result : Z) (s : dev) : dev :=
  let '(failed, p) := cmd_queue_head_pop (q s) in
  let s := set_q p s in
  if negb (Z.land (flags failed) (Z.lor CMD_FLAG_LAZY_ERASE CMD_FLAG_PENDING_STORE) =? 0)
  then pending_packets_abort result s else app_notify result failed s.

(** [cmd_queue_dequeue] and [process_pending_packets] call each other and run
    callbacks that can add work; no fuel left is a call that does not return. *)
Section Queue.
Context (dequeue : dev -> option dev).
Definition process_pending_with (s : dev) : option dev :=
  if m_processing_pending (q s) || m_lazy_erase_active (q s) || (count (q s) >? 0) then Some s else
  match pending_packet_peek (q s) with
  | None => Some s
  | Some x =>
    let '(ret, s) := lazy_erase_check_and_trigger (pp_handle x) (pp_size x) (pp_offset x) s in
    if negb (ret =? NRF_SUCCESS) then dequeue (pending_packets_abort ret s) else
    if m_lazy_erase_active (q s) then Some s else
    let s := set_q (set_processing true (q s)) s in
    let '(ret, s) := cmd_queue_enqueue PSTORAGE_STORE_OP_CODE (pp_handle x) (Pending_data (m_pending_read_idx (q s)))
                       (pp_size x) (pp_offset x) CMD_FLAG_PENDING_STORE s in
    if negb (ret =? NRF_SUCCESS) then dequeue (pending_packets_abort ret s) else Some s
  end.
End Queue.
Fixpoint cmd_queue_dequeue (fuel : nat) (s : dev) : option dev :=
  match fuel with
  | O => None
  | S fuel =>
    if (count (q s) >? 0) && bool_decide (flash_access (q s) = FLASH_ACCESS_IDLE) then
      let '(retval, s) := cmd_process s in
      if (retval =? NRF_SUCCESS) || (retval =? NRF_ERROR_BUSY) then Some s
      else cmd_queue_dequeue fuel (cmd_queue_fail_head retval s)
    else if (count (q s) =? 0) && (m_pending_count (q s) >? 0) && negb (m_processing_pending (q s)) && negb (m_lazy_erase_active (q s))
    then process_pending_with (cmd_queue_dequeue fuel) s else Some s
  end.
Definition process_pending_packets (fuel : nat) : dev -> option dev := process_pending_with (cmd_queue_dequeue fuel).

(** A completed command: its bookkeeping and its callback. *)
Definition command_completed (fuel : nat) (completed : cmd_queue_element) (s : dev) : option dev :=
  if negb (Z.land (flags completed) CMD_FLAG_LAZY_ERASE =? 0) then
    let s :=
      match dfu_page_erased (lz s) with
      | Some e =>
        if m_lazy_erase_page (q s) <? dfu_image_page_count (lz s)
        then set_lz (mk_lazy (Some (put e (m_lazy_erase_page (q s)) [1])) (dfu_image_page_count (lz s)) (dfu_base_address (lz s))) s
        else s
      | None => s
      end in
    process_pending_packets fuel (set_q (set_lazy_erase false (m_lazy_erase_page (q s)) (q s)) s)
  else if negb (Z.land (flags completed) CMD_FLAG_PENDING_STORE =? 0) then
    Some (match pending_packet_peek (q s) with
          | Some x => app_notify_buffered NRF_SUCCESS x (set_q (set_processing false (pending_packet_pop (q s))) s)
          | None => set_q (set_processing false (q s)) s
          end)
  else Some (app_notify NRF_SUCCESS completed s).

Definition pstorage_sys_event_handler (fuel : nat) (sys_evt : sys_event) (s : dev) : option dev :=
  match sys_evt with
  | EVT_OTHER => Some s
  | _ =>
    if bool_decide (flash_access (q s) = FLASH_ACCESS_WAIT_BUSY) then
      cmd_queue_dequeue fuel (set_q (set_access FLASH_ACCESS_IDLE (q s)) s)
    else if bool_decide (flash_access (q s) = FLASH_ACCESS_IN_FLIGHT) then
      let s := set_q (set_access FLASH_ACCESS_IDLE (q s)) s in
      match sys_evt with
      | EVT_FLASH_OPERATION_SUCCESS =>
        let c := cmd_at (rp (q s)) (q s) in
        let s := set_q (set_round (u32 (m_round_val (q s) + 1)) (q s)) s in
        s ← (if u32 (m_round_val (q s) * SOC_MAX_WRITE_SIZE) >=? c_size c then
               let '(completed, p) := cmd_queue_head_pop (q s) in
               command_completed fuel completed (set_q p s)
             else Some s);
        if count (q s) >? 0 then cmd_queue_dequeue fuel s
        else if (m_pending_count (q s) >? 0) && negb (m_processing_pending (q s)) && negb (m_lazy_erase_active (q s))
        then process_pending_packets fuel s else Some s
      | _ => cmd_queue_dequeue fuel (cmd_queue_fail_head NRF_ERROR_TIMEOUT s)
      end
    else Some s
  end.

Definition pstorage_init (s : dev) : Z * dev :=
  let p := pending_packets_init (cmd_queue_init (q s)) in
  (NRF_SUCCESS,
   set_q (mk_ps (rp p) (count p) (flash_access p) (cmd p) (replicate (Z.to_nat PSTORAGE_NUM_OF_PAGES) false) 0 0 (m_pending_packets p)
            (m_pending_read_idx p) (m_pending_write_idx p) (m_pending_count p) (m_lazy_erase_active p) (m_lazy_erase_page p) (m_processing_pending p)) s).

(** [cb] tells whether the module registers a callback; the handle's module id
    is returned. *)
Definition pstorage_register (cb : bool) (s : dev) : Z * option Z * dev :=
  let p := q s in
  if m_next_app_instance p =? PSTORAGE_NUM_OF_PAGES then (NRF_ERROR_NO_MEM, None, s) else
  (NRF_SUCCESS, Some (m_next_app_instance p),
   set_q (mk_ps (rp p) (count p) (flash_access p) (cmd p) (<[Z.to_nat (m_next_app_instance p) := cb]> (m_app_table p))
            (u32 (m_next_app_instance p + 1)) (m_round_val p) (m_pending_packets p)
            (m_pending_read_idx p) (m_pending_write_idx p) (m_pending_count p) (m_lazy_erase_active p) (m_lazy_erase_page p) (m_processing_pending p)) s).

Definition pstorage_block_identifier_get : Z := NRF_ERROR_NOT_SUPPORTED.
End Pstorage.

(** * The SoftDevice, as documented *)

(** What a request does to the flash bytes. *)
Definition request_effect (r : sd_request) (m : mem) : mem :=
  match r with
  | SdWrite a d => fun x => if (a <=? x) && (x <? a + lenZ d) then Z.land (m x) (nthZ d (x - a)) else m x
  | SdErase p => fun x => if (p * PSTORAGE_FLASH_PAGE_SIZE <=? x) && (x <? (p + 1) * PSTORAGE_FLASH_PAGE_SIZE) then 255 else m x
  end.

(** [nrf_soc.h]: a request inside the application's flash, word-aligned and at
    most a page long, is accepted unless one is in progress; its completion is
    told by exactly one event; requests of others are in progress in between,
    outside the application's flash. [sd_current] is the request in progress:
    [Some None] for one that is not the module's. [sd_evt_get] polls an event. *)
Class SoftDeviceSpec `{SoftDevice} := {
  sd_evt_get : sd -> option sys_event * sd;
  app_start : Z; app_end : Z;
  sd_mem : sd -> mem;
  sd_current : sd -> option (option sd_request);
  request_ok (r : sd_request) : Prop :=
    match r with
    | SdWrite a d => a mod 4 = 0 /\ 0 < lenZ d <= SOC_MAX_WRITE_SIZE /\ lenZ d mod 4 = 0 /\ app_start <= a /\ a + lenZ d <= app_end
    | SdErase p => app_start <= p * PSTORAGE_FLASH_PAGE_SIZE /\ (p + 1) * PSTORAGE_FLASH_PAGE_SIZE <= app_end
    end;
  same_app (m m' : mem) : Prop := forall x, app_start <= x < app_end -> m' x = m x;
  sd_accepts r x : request_ok r -> sd_current x = None ->
    exists x', sd_flash_request r x = (NRF_SUCCESS, x') /\ sd_current x' = Some (Some r) /\ same_app (sd_mem x) (sd_mem x');
  sd_is_busy r x : sd_current x <> None ->
    exists x', sd_flash_request r x = (NRF_ERROR_BUSY, x') /\ sd_current x' = sd_current x /\ same_app (sd_mem x) (sd_mem x');
  sd_event x :
    let '(e, x') := sd_evt_get x in
    match sd_current x, e with
    | None, Some EVT_FLASH_OPERATION_SUCCESS | None, Some EVT_FLASH_OPERATION_ERROR => False
    | None, _ => sd_current x' <> None -> sd_current x' = Some None
    | Some _, Some EVT_FLASH_OPERATION_SUCCESS | Some _, Some EVT_FLASH_OPERATION_ERROR => sd_current x' = None
    | Some _, _ => sd_current x' = sd_current x
    end /\
    same_app (match sd_current x, e with
              | Some (Some r), Some EVT_FLASH_OPERATION_SUCCESS => request_effect r (sd_mem x)
              | _, _ => sd_mem x
              end) (sd_mem x')
}.

(** [proc_soc] of [main.c]. *)
Section ProcSoc.
Context `{SoftDeviceSpec} {W : Type} (callback : notification -> W -> cb_prog (W := W)).
Definition proc_soc (fuel : nat) (s : dev (W := W)) : option (Z * dev (W := W)) :=
  let '(e, x) := sd_evt_get (soft s) in
  match e with
  | None => Some (NRF_ERROR_NOT_FOUND, set_soft x s)
  | Some ev => s ← pstorage_sys_event_handler callback fuel ev (set_soft x s); Some (NRF_SUCCESS, s)
  end.
End ProcSoc.
