(* ===== verification/PstorageStores.v ===== *)
(** What the flash queue of the BLE build promises the DFU engine: stores of
    consecutive chunks, accepted in any interleaving with the SoftDevice's
    events, end up in flash in order, each on erased words, with one callback
    each; nothing is lost and nothing is stuck. *)
From S2P Require Import Prelude Nvm DfuTypes SingleBank Pstorage.

(** * Rings *)

Section Rings.
Implicit Types (p : pstorage).

Definition ring_slot (r k : Z) : Z := wrap_index (r + k).

Lemma ring_slot_range r k : 0 <= r < PSTORAGE_CMD_QUEUE_SIZE -> 0 <= k < PSTORAGE_CMD_QUEUE_SIZE ->
  0 <= ring_slot r k < PSTORAGE_CMD_QUEUE_SIZE.
Proof. unfold ring_slot, wrap_index. rewrite Z.geb_leb. destruct (Z.leb_spec PSTORAGE_CMD_QUEUE_SIZE (r + k)); lia. Qed.

Lemma ring_slot_inj r j k : 0 <= j < PSTORAGE_CMD_QUEUE_SIZE -> 0 <= k < PSTORAGE_CMD_QUEUE_SIZE ->
  0 <= r < PSTORAGE_CMD_QUEUE_SIZE -> ring_slot r j = ring_slot r k -> j = k.
Proof.
  unfold ring_slot, wrap_index. rewrite !Z.geb_leb.
  destruct (Z.leb_spec PSTORAGE_CMD_QUEUE_SIZE (r + j)), (Z.leb_spec PSTORAGE_CMD_QUEUE_SIZE (r + k)); lia.
Qed.

(** The command ring holds [cs], the oldest first. *)
Record commands (cs : list cmd_queue_element) p : Prop := {
  cm_length : lenZ (cmd p) = PSTORAGE_CMD_QUEUE_SIZE;
  cm_rp : 0 <= rp p < PSTORAGE_CMD_QUEUE_SIZE;
  cm_count : count p = lenZ cs /\ lenZ cs <= PSTORAGE_CMD_QUEUE_SIZE;
  cm_at k c : 0 <= k -> cs !! Z.to_nat k = Some c -> cmd_at (ring_slot (rp p) k) p = c
}.

Lemma commands_same cs p p' : commands cs p -> cmd p' = cmd p -> rp p' = rp p -> count p' = count p -> commands cs p'.
Proof. intros [] E1 E2 E3. constructor; unfold cmd_at; by rewrite ?E1, ?E2, ?E3. Qed.

Lemma commands_add cs c p : commands cs p -> lenZ cs < PSTORAGE_CMD_QUEUE_SIZE ->
  commands (cs ++ [c])
    (set_ring (rp p) (u8 (count p + 1)) (<[Z.to_nat (wrap_index (u8 (rp p + count p))) := c]> (cmd p)) (m_round_val p) p).
Proof.
  intros [Hl Hr [Hc _] Ha] Hroom. assert (0 <= lenZ cs) by (unfold lenZ; lia). unfold PSTORAGE_CMD_QUEUE_SIZE in *.
  rewrite Hc, u8_small, u8_small by lia.
  pose proof (ring_slot_range (rp p) (lenZ cs) Hr ltac:(unfold PSTORAGE_CMD_QUEUE_SIZE; lia)) as Hs. fold (ring_slot (rp p) (lenZ cs)).
  unfold PSTORAGE_CMD_QUEUE_SIZE in *. constructor; cbn [set_ring cmd rp count]; unfold PSTORAGE_CMD_QUEUE_SIZE.
  - unfold lenZ in *. by rewrite length_insert.
  - done.
  - rewrite lenZ_app. change (lenZ [c]) with 1. lia.
  - intros k x Hk Hx. unfold cmd_at. cbn [set_ring cmd]. destruct (decide (k = lenZ cs)) as [->|Hne].
    + replace (Z.to_nat (lenZ cs)) with (length cs + 0)%nat in Hx by (unfold lenZ; lia).
      rewrite lookup_app_r, Nat.add_comm, Nat.add_sub in Hx by lia. injection Hx as <-.
      rewrite nth_lookup, list_lookup_insert_eq; [done|]. unfold lenZ in *. lia.
    + assert (k < lenZ cs) as Hlt.
      { apply lookup_lt_Some in Hx. rewrite length_app in Hx. cbn in Hx. unfold lenZ in *. lia. }
      rewrite lookup_app_l in Hx by (unfold lenZ in *; lia).
      pose proof (ring_slot_range (rp p) k Hr ltac:(unfold PSTORAGE_CMD_QUEUE_SIZE; lia)) as Hs2.
      rewrite nth_lookup, list_lookup_insert_ne, <- nth_lookup.
      * by apply Ha.
      * intros E. apply Z2Nat.inj in E; [|lia|lia]. apply ring_slot_inj in E; unfold PSTORAGE_CMD_QUEUE_SIZE; lia.
Qed.

Lemma commands_pop c cs p : commands (c :: cs) p ->
  exists p', cmd_queue_head_pop p = (c, p') /\ commands cs p' /\ m_round_val p' = 0 /\
    p' = set_ring (rp p') (count p') (cmd p') 0 p.
Proof.
  intros [Hl Hr [Hc Hm] Ha]. rewrite lenZ_cons in Hc, Hm. assert (0 <= lenZ cs) by (unfold lenZ; lia). unfold PSTORAGE_CMD_QUEUE_SIZE in *.
  assert (cmd_at (rp p) p = c) as E0.
  { rewrite <- (Ha 0 c) by done. f_equal. unfold ring_slot, wrap_index, PSTORAGE_CMD_QUEUE_SIZE. rewrite Z.geb_leb.
    destruct (Z.leb_spec 18 (rp p + 0)); lia. }
  unfold cmd_queue_head_pop. rewrite E0. eexists. split; [reflexivity|]. split; [|done].
  assert (wrap_index (u8 (rp p + 1)) = ring_slot (rp p) 1) as E1 by (unfold ring_slot; by rewrite u8_small by lia). rewrite E1.
  pose proof (ring_slot_range (rp p) 1 Hr ltac:(unfold PSTORAGE_CMD_QUEUE_SIZE; lia)) as Hs.
  assert (forall k, 0 <= k -> k + 1 < 18 -> ring_slot (ring_slot (rp p) 1) k = ring_slot (rp p) (k + 1)) as Hk.
  { intros k Hk0 Hk1. unfold ring_slot, wrap_index, PSTORAGE_CMD_QUEUE_SIZE. rewrite !Z.geb_leb.
    repeat match goal with |- context [18 <=? ?x] => destruct (Z.leb_spec 18 x) end; lia. }
  constructor; cbn [set_ring cmd rp count]; unfold cmd_queue_element_init, PSTORAGE_CMD_QUEUE_SIZE in *.
  - unfold lenZ in *. by rewrite length_insert.
  - done.
  - rewrite Hc, u8_small; lia.
  - intros k x Hk0 Hx. assert (k < lenZ cs) as Hlt by (apply lookup_lt_Some in Hx; unfold lenZ; lia).
    rewrite Hk by lia. unfold cmd_at. cbn [set_ring cmd].
    pose proof (ring_slot_range (rp p) (k + 1) Hr ltac:(unfold PSTORAGE_CMD_QUEUE_SIZE; lia)) as Hs2.
    rewrite nth_lookup, list_lookup_insert_ne, <- nth_lookup.
    + apply Ha; [lia|]. replace (Z.to_nat (k + 1)) with (S (Z.to_nat k)) by lia. exact Hx.
    + unfold PSTORAGE_CMD_QUEUE_SIZE in *. intros E. apply Z2Nat.inj in E; [|lia|lia].
      assert (ring_slot (rp p) (k + 1) = ring_slot (rp p) 0) as E2.
      { rewrite <- E. unfold ring_slot, wrap_index, PSTORAGE_CMD_QUEUE_SIZE. rewrite Z.geb_leb. destruct (Z.leb_spec 18 (rp p + 0)); lia. }
      apply ring_slot_inj in E2; unfold PSTORAGE_CMD_QUEUE_SIZE; lia.
Qed.

(** The pending ring holds chunks [ps] at consecutive offsets from [off] on. *)
Definition pending_is (h : pstorage_handle) (off : Z) (d : list Z) (x : pending_packet) : Prop :=
  pp_handle x = h /\ pp_offset x = off /\ pp_size x = lenZ d /\ p_data_orig x = d /\ sliceZ (pp_data x) 0 (lenZ d) = d.
Definition pending_slot (r k : Z) : Z := (r + k) mod PENDING_PACKET_COUNT.

Record buffered (h : pstorage_handle) (off : Z) (ps : list (list Z)) p : Prop := {
  bf_length : lenZ (m_pending_packets p) = PENDING_PACKET_COUNT;
  bf_data : Forall (fun x => lenZ (pp_data x) = PENDING_PACKET_SIZE) (m_pending_packets p);
  bf_read : 0 <= m_pending_read_idx p < PENDING_PACKET_COUNT;
  bf_count : m_pending_count p = lenZ ps /\ lenZ ps <= PENDING_PACKET_COUNT;
  bf_write : m_pending_write_idx p = pending_slot (m_pending_read_idx p) (lenZ ps);
  bf_at k d : 0 <= k -> ps !! Z.to_nat k = Some d ->
    pending_is h (off + lenZ (concat (take (Z.to_nat k) ps))) d (pending_at (pending_slot (m_pending_read_idx p) k) p)
}.

Lemma buffered_same h off ps p p' : buffered h off ps p -> m_pending_packets p' = m_pending_packets p ->
  m_pending_read_idx p' = m_pending_read_idx p -> m_pending_write_idx p' = m_pending_write_idx p ->
  m_pending_count p' = m_pending_count p -> buffered h off ps p'.
Proof. intros [] E1 E2 E3 E4. constructor; unfold pending_at; by rewrite ?E1, ?E2, ?E3, ?E4. Qed.

Lemma pending_slot_range r k : 0 <= pending_slot r k < PENDING_PACKET_COUNT.
Proof. unfold pending_slot, PENDING_PACKET_COUNT. zlia. Qed.

Lemma buffered_full h off ps d o p : buffered h off ps p -> lenZ d <= PENDING_PACKET_SIZE ->
  lenZ ps = PENDING_PACKET_COUNT -> pending_packet_add h d (lenZ d) o p = (false, p).
Proof. intros B Hd Hn. unfold pending_packet_add. rewrite (proj1 (bf_count _ _ _ _ B)), Hn. done. Qed.

Lemma buffered_add h off ps d p : buffered h off ps p -> 0 < lenZ d <= PENDING_PACKET_SIZE -> lenZ ps < PENDING_PACKET_COUNT ->
  exists p', pending_packet_add h d (lenZ d) (off + lenZ (concat ps)) p = (true, p') /\ buffered h off (ps ++ [d]) p' /\
    p' = set_pending (m_pending_packets p') (m_pending_read_idx p') (m_pending_write_idx p') (m_pending_count p') p /\
    m_pending_read_idx p' = m_pending_read_idx p.
Proof.
  intros [Hl Hd Hr [Hc _] Hw Ha] Hsz Hroom. unfold pending_packet_add. rewrite Hc.
  replace (lenZ ps >=? PENDING_PACKET_COUNT) with false by (symmetry; rewrite Z.geb_leb; apply Z.leb_gt; lia).
  replace (lenZ d >? PENDING_PACKET_SIZE) with false by (symmetry; rewrite Z.gtb_ltb; apply Z.ltb_ge; lia).
  cbn [orb]. eexists. split; [reflexivity|]. split; [|done]. assert (0 <= lenZ ps) as Hps by (unfold lenZ; lia).
  pose proof (pending_slot_range (m_pending_read_idx p) (lenZ ps)) as Hs.
  set (w := m_pending_write_idx p) in *. set (x := mk_pending _ _ _ _ _ _).
  assert (lenZ (pp_data (pending_at w p)) = PENDING_PACKET_SIZE) as Hb.
  { unfold pending_at. rewrite nth_lookup. destruct (m_pending_packets p !! Z.to_nat w) as [y|] eqn:Ey.
    - rewrite Forall_lookup in Hd. by apply (Hd _ _ Ey).
    - apply lookup_ge_None in Ey. unfold lenZ in *. lia. }
  assert (sliceZ d 0 (lenZ d) = d) as Ed by (apply sliceZ_all; lia).
  constructor; cbn [set_pending m_pending_packets m_pending_read_idx m_pending_count m_pending_write_idx].
  - unfold lenZ in *. by rewrite length_insert.
  - apply Forall_insert; [done|]. cbn. rewrite Ed, lenZ_put; [exact Hb|lia|]. rewrite Hb. unfold PENDING_PACKET_SIZE in *. lia.
  - done.
  - rewrite lenZ_app. change (lenZ [d]) with 1. unfold PENDING_PACKET_COUNT in *. rewrite u8_small; lia.
  - rewrite lenZ_app. change (lenZ [d]) with 1. rewrite Hw. unfold pending_slot, PENDING_PACKET_COUNT in *. rewrite u8_small by zlia. zlia.
  - intros k y Hk Hy. destruct (decide (k = lenZ ps)) as [->|Hne].
    + replace (Z.to_nat (lenZ ps)) with (length ps) in * by (unfold lenZ; lia). rewrite list_lookup_middle in Hy by done.
      injection Hy as <-. rewrite take_app_length, <- Hw. fold w. unfold pending_at. cbn [set_pending m_pending_packets].
      rewrite nth_lookup, list_lookup_insert_eq by (unfold lenZ in *; lia). cbn [default from_option id]. unfold pending_is. cbn. rewrite Ed.
      split_and!; try done. unfold put, sliceZ. change (Z.to_nat 0) with 0%nat. rewrite take_0. cbn [app]. rewrite drop_0.
      rewrite take_app_le by (unfold lenZ; lia). rewrite take_ge; [done|]. unfold lenZ. lia.
    + assert (k < lenZ ps) as Hlt.
      { apply lookup_lt_Some in Hy. rewrite length_app in Hy. cbn in Hy. unfold lenZ in *. lia. }
      rewrite lookup_app_l in Hy by (unfold lenZ in *; lia). rewrite take_app_le by (unfold lenZ in *; lia).
      pose proof (Ha k y Hk Hy) as Hp. unfold pending_at in *. cbn [set_pending m_pending_packets].
      rewrite nth_lookup, list_lookup_insert_ne, <- nth_lookup; [exact Hp|].
      rewrite Hw. pose proof (pending_slot_range (m_pending_read_idx p) k). intros E. apply Z2Nat.inj in E; [|lia|lia].
      unfold pending_slot, PENDING_PACKET_COUNT in *. zlia.
Qed.

Lemma buffered_peek h off d ps p : buffered h off (d :: ps) p ->
  exists x, pending_packet_peek p = Some x /\ x = pending_at (m_pending_read_idx p) p /\ pending_is h off d x.
Proof.
  intros [_ _ Hr [Hc _] _ Ha]. unfold pending_packet_peek. rewrite Hc, lenZ_cons.
  replace (1 + lenZ ps =? 0) with false by (symmetry; apply Z.eqb_neq; unfold lenZ; lia).
  eexists. split; [reflexivity|]. split; [reflexivity|]. specialize (Ha 0 d ltac:(lia) eq_refl). cbn in Ha. rewrite Z.add_0_r in Ha.
  unfold pending_slot, PENDING_PACKET_COUNT in *. by rewrite Z.add_0_r, Z.mod_small in Ha by lia.
Qed.

Lemma buffered_pop h off d ps p : buffered h off (d :: ps) p ->
  buffered h (off + lenZ d) ps (pending_packet_pop p) /\
  pending_packet_pop p = set_pending (m_pending_packets (pending_packet_pop p)) (m_pending_read_idx (pending_packet_pop p))
    (m_pending_write_idx (pending_packet_pop p)) (m_pending_count (pending_packet_pop p)) p.
Proof.
  intros [Hl Hd Hr [Hc Hm] Hw Ha]. rewrite lenZ_cons in *. assert (0 <= lenZ ps) as Hps by (unfold lenZ; lia).
  unfold pending_packet_pop. rewrite Hc. replace (1 + lenZ ps >? 0) with true by (symmetry; rewrite Z.gtb_ltb; apply Z.ltb_lt; lia).
  split; [|done]. set (r := m_pending_read_idx p) in *.
  assert (u8 (r + 1) mod PENDING_PACKET_COUNT = pending_slot r 1) as Er by (unfold pending_slot, PENDING_PACKET_COUNT in *; by rewrite u8_small by lia).
  rewrite Er. assert (forall k, pending_slot (pending_slot r 1) k = pending_slot r (k + 1)) as Hk.
  { intros k. unfold pending_slot. rewrite Zplus_mod_idemp_l. f_equal. lia. }
  constructor; cbn [set_pending m_pending_packets m_pending_read_idx m_pending_count m_pending_write_idx].
  - unfold lenZ in *. by rewrite length_insert.
  - apply Forall_insert; [done|]. unfold pending_at. rewrite nth_lookup.
    destruct (m_pending_packets p !! Z.to_nat r) as [y|] eqn:Ey; [|apply lookup_ge_None in Ey; unfold lenZ in *; lia].
    rewrite Forall_lookup in Hd. by apply (Hd _ _ Ey).
  - apply pending_slot_range.
  - unfold PENDING_PACKET_COUNT in *. rewrite u8_small; lia.
  - rewrite Hw, Hk. f_equal. lia.
  - intros k y Hk0 Hy. rewrite Hk. specialize (Ha (k + 1) y ltac:(lia)).
    replace (Z.to_nat (k + 1)) with (S (Z.to_nat k)) in Ha by lia. specialize (Ha Hy). cbn [take concat] in Ha. rewrite lenZ_app, Z.add_assoc in Ha.
    unfold pending_at in *. cbn [set_pending m_pending_packets]. rewrite nth_lookup, list_lookup_insert_ne, <- nth_lookup; [exact Ha|].
    assert (k < lenZ ps) as Hlt by (apply lookup_lt_Some in Hy; unfold lenZ; lia).
    pose proof (pending_slot_range r (k + 1)). intros E. apply Z2Nat.inj in E; [|unfold r; lia|lia].
    unfold pending_slot, PENDING_PACKET_COUNT in *. zlia.
Qed.
End Rings.

(** * The queue and the SoftDevice *)

Section Stores.
Context `{SoftDeviceSpec} {W : Type} (log : notification -> W -> W).
Abbreviation dev := (@dev _ W).
Implicit Types (p : pstorage) (s : dev).

(** A callback that only takes note. *)
Definition noting (n : notification) (w : W) : cb_prog (W := W) := Cb_done (log n w).

(** The request a command makes, when it is done in one round. *)
Definition request_of p (c : cmd_queue_element) : sd_request :=
  if op_code c =? PSTORAGE_STORE_OP_CODE
  then SdWrite (u32 (block_id (storage_addr c) + u32 (c_offset c))) (sliceZ (data_bytes (p_data_addr c) p) 0 (c_size c / 4 * 4))
  else SdErase (u32 (block_id (storage_addr c) / PSTORAGE_FLASH_PAGE_SIZE)).
(** A store of less than a page, or the erase of one. *)
Definition one_round (c : cmd_queue_element) : Prop :=
  op_code c = PSTORAGE_STORE_OP_CODE /\ 0 < c_size c < SOC_MAX_WRITE_SIZE \/
  op_code c = PSTORAGE_CLEAR_OP_CODE /\ c_size c = SOC_MAX_WRITE_SIZE.

(** The head of a non-empty queue is in progress or waits for the end of
    another's request; an empty queue has none in progress. *)
Definition access_ok (cs : list cmd_queue_element) s : Prop :=
  match cs with
  | [] => flash_access (q s) = FLASH_ACCESS_IDLE /\ (sd_current (soft s) <> None -> sd_current (soft s) = Some None)
  | c :: _ =>
    flash_access (q s) = FLASH_ACCESS_IN_FLIGHT /\ sd_current (soft s) = Some (Some (request_of (q s) c)) \/
    flash_access (q s) = FLASH_ACCESS_WAIT_BUSY /\ sd_current (soft s) = Some None
  end.

(** What the queue operations leave alone. *)
Definition beside p := (m_app_table p, m_next_app_instance p, m_round_val p, (m_pending_packets p, m_pending_read_idx p,
  m_pending_write_idx p, m_pending_count p), (m_lazy_erase_active p, m_lazy_erase_page p, m_processing_pending p)).
Definition undisturbed s s' : Prop := beside (q s') = beside (q s) /\ lz s' = lz s /\ world s' = world s /\
  same_app (sd_mem (soft s)) (sd_mem (soft s')).

Lemma same_app_refl m : same_app m m.
Proof. done. Qed.
Lemma same_app_trans m1 m2 m3 : same_app m1 m2 -> same_app m2 m3 -> same_app m1 m3.
Proof. intros A B x Hx. by rewrite B, A. Qed.
Lemma undisturbed_trans s1 s2 s3 : undisturbed s1 s2 -> undisturbed s2 s3 -> undisturbed s1 s3.
Proof.
  intros (A1 & A2 & A3 & A4) (B1 & B2 & B3 & B4). unfold undisturbed. rewrite B1, B2, B3.
  split; [done|]. split; [done|]. split; [done|]. by eapply same_app_trans.
Qed.

Lemma request_of_same p p' c : m_pending_packets p' = m_pending_packets p -> request_of p' c = request_of p c.
Proof. intros E. unfold request_of, data_bytes, pending_at. destruct (p_data_addr c); by rewrite ?E. Qed.

(** The head of the queue is handed to the SoftDevice. *)
Lemma head_started c cs s : commands (c :: cs) (q s) -> m_round_val (q s) = 0 -> one_round c -> request_ok (request_of (q s) c) ->
  (sd_current (soft s) <> None -> sd_current (soft s) = Some None) ->
  exists ret s', cmd_process s = (ret, s') /\ (ret = NRF_SUCCESS \/ ret = NRF_ERROR_BUSY) /\
    commands (c :: cs) (q s') /\ access_ok (c :: cs) s' /\ undisturbed s s'.
Proof.
  intros Hc Hr Ho Hok Hcur. pose proof Hc as [_ Hrp [Hcnt _] Ha]. specialize (Ha 0 c ltac:(lia) eq_refl).
  assert (ring_slot (rp (q s)) 0 = rp (q s)) as E0.
  { unfold ring_slot, wrap_index, PSTORAGE_CMD_QUEUE_SIZE in *. rewrite Z.geb_leb. destruct (Z.leb_spec 18 (rp (q s) + 0)); lia. }
  rewrite E0 in Ha. unfold cmd_process. rewrite Hcnt, lenZ_cons.
  replace (1 + lenZ cs =? 0) with false by (symmetry; apply Z.eqb_neq; unfold lenZ; lia). rewrite Ha, Hr.
  match goal with |- context [let '(retval, x) := ?b in _] => assert (b = sd_flash_request (request_of (q s) c) (soft s)) as -> end.
  { unfold request_of. change (u32 (0 * SOC_MAX_WRITE_SIZE)) with 0. rewrite !Z.add_0_r, Z.sub_0_r. destruct Ho as [[-> Hs]|[-> Hs]]; cbn [Z.eqb Pos.eqb PSTORAGE_STORE_OP_CODE PSTORAGE_CLEAR_OP_CODE].
    - unfold SOC_MAX_WRITE_SIZE in *. rewrite (u32_small (c_size c)) by lia. by replace (c_size c <? 4096) with true by (symmetry; apply Z.ltb_lt; lia).
    - done. }
  destruct (sd_current (soft s)) as [cur|] eqn:Ecur.
  - destruct (sd_is_busy (request_of (q s) c) (soft s)) as (x' & E & E1 & E2); [by rewrite Ecur|]. rewrite E.
    eexists _, _. split; [reflexivity|]. split; [by right|]. split; [by apply (commands_same _ _ _ Hc)|]. split; [|done].
    right. cbn. rewrite E1, Ecur. by rewrite Hcur.
  - destruct (sd_accepts (request_of (q s) c) (soft s) Hok Ecur) as (x' & E & E1 & E2). rewrite E.
    eexists _, _. split; [reflexivity|]. split; [by left|]. split; [by apply (commands_same _ _ _ Hc)|]. split; [|done].
    left. done.
Qed.

(** A command joins the queue, and is started if it is alone. *)
Lemma enqueued cs op h data size off flag s : let c := mk_cmd op flag size off h data in
  commands cs (q s) -> access_ok cs s -> m_round_val (q s) = 0 -> lenZ cs < PSTORAGE_CMD_QUEUE_SIZE -> one_round c ->
  request_ok (request_of (q s) c) ->
  exists s', cmd_queue_enqueue op h data size off flag s = (NRF_SUCCESS, s') /\ commands (cs ++ [c]) (q s') /\
    access_ok (cs ++ [c]) s' /\ undisturbed s s'.
Proof.
  intros c Hc Hacc Hr Hroom Ho Hok. unfold cmd_queue_enqueue. pose proof (proj1 (cm_count _ _ Hc)) as Hcnt.
  replace (count (q s) =? PSTORAGE_CMD_QUEUE_SIZE) with false by (symmetry; apply Z.eqb_neq; lia). cbn [negb]. fold c.
  set (p1 := set_ring _ _ _ _ _). assert (commands (cs ++ [c]) p1) as H1 by (by apply commands_add).
  destruct cs as [|c0 cs].
  - rewrite Hcnt. cbn [access_ok] in Hacc. destruct Hacc as [Hacc Hcur]. rewrite Hacc. cbn [lenZ length Z.of_nat Z.eqb bool_decide andb].
    destruct (head_started c [] (set_q p1 s) H1 Hr Ho) as (ret & s' & E & Hret & Hc' & Ha' & Hu'); [done|done|].
    rewrite bool_decide_true by done. rewrite E. exists s'. split; [|done]. by destruct Hret as [-> | ->].
  - rewrite Hcnt, lenZ_cons. replace (1 + lenZ cs =? 0) with false by (symmetry; apply Z.eqb_neq; unfold lenZ; lia). cbn [andb].
    eexists. split; [reflexivity|]. split; [exact H1|]. split; [exact Hacc|]. done.
Qed.

Lemma enqueue_refused cs op h data size off flag s : commands cs (q s) -> lenZ cs = PSTORAGE_CMD_QUEUE_SIZE ->
  cmd_queue_enqueue op h data size off flag s = (NRF_ERROR_NO_MEM, s).
Proof. intros Hc Hl. unfold cmd_queue_enqueue. by rewrite (proj1 (cm_count _ _ Hc)), Hl. Qed.

(** The rest of the queue goes on after the head is gone. *)
Lemma next_started fuel cs s : commands cs (q s) -> m_round_val (q s) = 0 -> flash_access (q s) = FLASH_ACCESS_IDLE ->
  Forall (fun c => one_round c /\ request_ok (request_of (q s) c)) cs -> cs <> [] ->
  (sd_current (soft s) <> None -> sd_current (soft s) = Some None) ->
  exists s', cmd_queue_dequeue noting (S fuel) s = Some s' /\ commands cs (q s') /\ access_ok cs s' /\ undisturbed s s'.
Proof.
  intros Hc Hr Hacc Hok Hne Hcur. destruct cs as [|c cs]; [done|]. inversion Hok as [|? ? [Ho Hq] _]; subst.
  destruct (head_started c cs s Hc Hr Ho Hq Hcur) as (ret & s' & E & Hret & Hc' & Ha' & Hu'). cbn [cmd_queue_dequeue].
  rewrite (proj1 (cm_count _ _ Hc)), lenZ_cons, Hacc, E.
  replace (1 + lenZ cs >? 0) with true by (symmetry; rewrite Z.gtb_ltb; apply Z.ltb_lt; unfold lenZ; lia).
  rewrite bool_decide_true by done. cbn [andb]. exists s'. split; [|done]. by destruct Hret as [-> | ->].
Qed.

(** * Stores of consecutive chunks *)

(** The bank: [npages] pages from [base] on, inside the application's flash;
    [m] is the registered module. *)
Context (base npages m : Z).
Definition bank_ok : Prop :=
  base mod PSTORAGE_FLASH_PAGE_SIZE = 0 /\ 0 < npages /\ 0 <= app_start <= base /\
  base + npages * PSTORAGE_FLASH_PAGE_SIZE <= app_end /\ app_end <= 2 ^ 32 /\ 0 <= m < PSTORAGE_NUM_OF_PAGES.
Hypothesis bank : bank_ok.
Definition bank_handle : pstorage_handle := mk_handle m base.

Definition chunk_ok (d : list Z) : Prop := 0 < lenZ d <= PENDING_PACKET_SIZE /\ lenZ d mod 4 = 0 /\ bytes d.
Definition flagged (e : list Z) (i : Z) : Prop := nthZ e (i / PSTORAGE_FLASH_PAGE_SIZE) <> 0.

Definition store_cmd (off : Z) (d : list Z) : cmd_queue_element :=
  mk_cmd PSTORAGE_STORE_OP_CODE CMD_FLAG_NONE (lenZ d) off bank_handle (Caller_data d).
Fixpoint store_cmds (off : Z) (ds : list (list Z)) : list cmd_queue_element :=
  match ds with [] => [] | d :: ds => store_cmd off d :: store_cmds (off + lenZ d) ds end.
Definition erase_cmd (page : Z) : cmd_queue_element :=
  mk_cmd PSTORAGE_CLEAR_OP_CODE CMD_FLAG_LAZY_ERASE PSTORAGE_FLASH_PAGE_SIZE 0
    (mk_handle m (u32 (base + page * PSTORAGE_FLASH_PAGE_SIZE))) No_data.
Definition pending_cmd (off : Z) (d : list Z) (slot : Z) : cmd_queue_element :=
  mk_cmd PSTORAGE_STORE_OP_CODE CMD_FLAG_PENDING_STORE (lenZ d) off bank_handle (Pending_data slot).
Definition note_of (d : list Z) : notification := mk_note bank_handle PSTORAGE_STORE_OP_CODE NRF_SUCCESS (Caller_data d) (lenZ d).

(** The commands that wait, by what the module is doing: plain stores [pl];
    plain stores and a lazy erase behind them; the store of the first buffered
    chunk. *)
Inductive doing (e : list Z) (off : Z) (pl pd : list (list Z)) p : list cmd_queue_element -> Prop :=
| Plain : m_lazy_erase_active p = false -> m_processing_pending p = false -> pd = [] ->
    doing e off pl pd p (store_cmds off pl)
| Erasing page : m_lazy_erase_active p = true -> m_lazy_erase_page p = page -> m_processing_pending p = false -> pd <> [] ->
    0 <= page < npages -> nthZ e page = 0 -> doing e off pl pd p (store_cmds off pl ++ [erase_cmd page])
| Flushing d rest : m_lazy_erase_active p = false -> m_processing_pending p = true -> pl = [] -> pd = d :: rest ->
    (forall i, off <= i < off + lenZ d -> flagged e i) -> doing e off pl pd p [pending_cmd off d (m_pending_read_idx p)].

(** The chunks [dn] are in flash, and the other bytes of erased pages are ones. *)
Definition flash_ok (dn : list (list Z)) (e : list Z) (mm : mem) : Prop :=
  (forall i, 0 <= i < lenZ (concat dn) -> mm (base + i) = nthZ (concat dn) i) /\
  (forall i, lenZ (concat dn) <= i < npages * PSTORAGE_FLASH_PAGE_SIZE -> flagged e i -> mm (base + i) = 255).

(** [dn] chunks are in flash, [pl] wait as plain stores, [pd] are buffered;
    [e] flags the erased pages, [w0] is the callbacks' state at the start. *)
Record contents (w0 : W) (dn pl pd : list (list Z)) (e : list Z) s : Prop := {
  st_chunks : Forall chunk_ok (dn ++ pl ++ pd);
  st_fits : lenZ (concat (dn ++ pl ++ pd)) <= npages * PSTORAGE_FLASH_PAGE_SIZE;
  st_table : lz s = mk_lazy (Some e) npages base /\ npages <= lenZ e;
  st_erased i : 0 <= i < lenZ (concat (dn ++ pl)) -> flagged e i;
  st_flash : flash_ok dn e (sd_mem (soft s));
  st_pending : buffered bank_handle (lenZ (concat (dn ++ pl))) pd (q s);
  st_round : m_round_val (q s) = 0;
  st_callback : nth (Z.to_nat m) (m_app_table (q s)) false = true;
  st_world : world s = fold_left (fun w d => log (note_of d) w) dn w0
}.

(** The module's state between two calls. *)
Definition stored (w0 : W) (dn pl pd : list (list Z)) (e : list Z) s : Prop :=
  contents w0 dn pl pd e s /\
  exists cs, doing e (lenZ (concat dn)) pl pd (q s) cs /\ commands cs (q s) /\ access_ok cs s.

Lemma doing_same e off pl pd p p' cs : doing e off pl pd p cs -> m_lazy_erase_active p' = m_lazy_erase_active p ->
  m_lazy_erase_page p' = m_lazy_erase_page p -> m_processing_pending p' = m_processing_pending p ->
  m_pending_read_idx p' = m_pending_read_idx p -> doing e off pl pd p' cs.
Proof.
  intros D E1 E2 E3 E4. destruct D as [| |d rest]; [apply Plain|apply Erasing|rewrite <- E4; apply (Flushing _ _ _ _ _ d rest)]; congruence || done.
Qed.

(** What [contents] reads. *)
Definition kept s s' : Prop :=
  m_app_table (q s') = m_app_table (q s) /\ m_round_val (q s') = m_round_val (q s) /\
  (m_pending_packets (q s'), m_pending_read_idx (q s'), m_pending_write_idx (q s'), m_pending_count (q s')) =
  (m_pending_packets (q s), m_pending_read_idx (q s), m_pending_write_idx (q s), m_pending_count (q s)) /\
  lz s' = lz s /\ world s' = world s /\ same_app (sd_mem (soft s)) (sd_mem (soft s')).

Lemma undisturbed_kept s s' : undisturbed s s' -> kept s s'.
Proof.
  intros (B & ? & ? & ?). unfold beside in B. injection B as B1 _ B2 B3 B4 B5 B6 _ _ _. unfold kept. by rewrite B1, B2, B3, B4, B5, B6.
Qed.

Lemma in_bank i : 0 <= i < npages * PSTORAGE_FLASH_PAGE_SIZE -> app_start <= base + i < app_end.
Proof. destruct bank as (_ & _ & ? & ? & _). lia. Qed.

Lemma concat_app_len (a b : list (list Z)) : lenZ (concat (a ++ b)) = lenZ (concat a) + lenZ (concat b).
Proof. by rewrite concat_app, lenZ_app. Qed.

Lemma flash_ok_same dn e m1 m2 : lenZ (concat dn) <= npages * PSTORAGE_FLASH_PAGE_SIZE -> same_app m1 m2 ->
  flash_ok dn e m1 -> flash_ok dn e m2.
Proof.
  intros Hdn Hs [F1 F2]. pose proof (lenZ_nonneg (concat dn)). split; intros i Hi; [|intros Hf].
  - rewrite Hs by (apply in_bank; lia). by apply F1.
  - rewrite Hs by (apply in_bank; lia). by apply F2.
Qed.

Lemma contents_done_fits w0 dn pl pd e s : contents w0 dn pl pd e s -> lenZ (concat dn) <= npages * PSTORAGE_FLASH_PAGE_SIZE.
Proof. intros C. pose proof (st_fits _ _ _ _ _ _ C) as Hf. rewrite concat_app_len in Hf. pose proof (lenZ_nonneg (concat (pl ++ pd))). lia. Qed.

Lemma contents_kept w0 dn pl pd e s s' : contents w0 dn pl pd e s -> kept s s' -> contents w0 dn pl pd e s'.
Proof.
  intros C (K1 & K2 & K3 & K4 & K5 & K6). pose proof (contents_done_fits _ _ _ _ _ _ C) as Hdn.
  destruct C as [C1 C2 C3 C4 C5 C7 C8 C9 C10]. injection K3 as K31 K32 K33 K34.
  constructor; rewrite ?K1, ?K2, ?K4, ?K5; try done; [by eapply flash_ok_same|by apply (buffered_same _ _ _ _ _ C7)].
Qed.

Lemma store_cmds_app off a b : store_cmds off (a ++ b) = store_cmds off a ++ store_cmds (off + lenZ (concat a)) b.
Proof.
  revert off. induction a as [|d a IH]; intros off; cbn [app store_cmds concat].
  - f_equal. unfold lenZ. cbn. lia.
  - rewrite IH, lenZ_app. by rewrite Z.add_assoc.
Qed.

Lemma store_cmds_length ds : forall off, lenZ (store_cmds off ds) = lenZ ds.
Proof. induction ds as [|d ds IH]; intros off; [done|]. cbn [store_cmds]. by rewrite !lenZ_cons, IH. Qed.

(** A chunk's bytes lie in the page it starts in or the page it ends in. *)
Lemma chunk_pages e off n : 0 <= off -> 0 < n <= PENDING_PACKET_SIZE ->
  (forall i, off <= i < off + n -> flagged e i) <->
  nthZ e (off / PSTORAGE_FLASH_PAGE_SIZE) <> 0 /\ nthZ e ((off + n - 1) / PSTORAGE_FLASH_PAGE_SIZE) <> 0.
Proof.
  unfold flagged, PENDING_PACKET_SIZE, PSTORAGE_FLASH_PAGE_SIZE. intros Ho Hn. split.
  - intros Hf. split; [apply Hf; lia|]. replace (off + n - 1) with (off + n - 1) by lia. apply Hf. lia.
  - intros [Hs He] i Hi. assert (i / 4096 = off / 4096 \/ i / 4096 = (off + n - 1) / 4096) as [-> | ->] by zlia; done.
Qed.

(** What the commands ask of the SoftDevice. *)
Lemma store_request f off d p (r : data_ref) : chunk_ok d -> 0 <= off -> off + lenZ d <= npages * PSTORAGE_FLASH_PAGE_SIZE -> off mod 4 = 0 ->
  sliceZ (data_bytes r p) 0 (lenZ d) = d ->
  let c := mk_cmd PSTORAGE_STORE_OP_CODE f (lenZ d) off bank_handle r in
  request_of p c = SdWrite (base + off) d /\ request_ok (request_of p c).
Proof.
  intros ((Hd0 & Hd1) & H4 & _) Ho Hfit Hal Hdata c. destruct bank as (Hb & Hn & (Ha0 & Ha1) & Hend & H32 & _).
  unfold PSTORAGE_FLASH_PAGE_SIZE, PENDING_PACKET_SIZE in *.
  assert (request_of p c = SdWrite (base + off) d) as E.
  { unfold request_of. cbn [c op_code storage_addr bank_handle block_id c_offset c_size p_data_addr Z.eqb Pos.eqb PSTORAGE_STORE_OP_CODE].
    rewrite (u32_small off), u32_small by lia. f_equal. replace (lenZ d / 4 * 4) with (lenZ d) by zlia. done. }
  rewrite E. split; [done|]. cbn. unfold SOC_MAX_WRITE_SIZE. split; [zlia|]. lia.
Qed.

Lemma erase_request page p : 0 <= page < npages ->
  request_of p (erase_cmd page) = SdErase (base / PSTORAGE_FLASH_PAGE_SIZE + page) /\ request_ok (request_of p (erase_cmd page)).
Proof.
  intros Hp. destruct bank as (Hb & Hn & (Ha0 & Ha1) & Hend & H32 & _). unfold PSTORAGE_FLASH_PAGE_SIZE in *.
  assert (base + page * 4096 < 2 ^ 32) as Hlt by lia.
  assert (request_of p (erase_cmd page) = SdErase (base / 4096 + page)) as E.
  { unfold request_of, erase_cmd, PSTORAGE_FLASH_PAGE_SIZE.
    cbn [op_code storage_addr block_id Z.eqb Pos.eqb PSTORAGE_STORE_OP_CODE PSTORAGE_CLEAR_OP_CODE].
    rewrite (u32_small (base + page * 4096)) by lia. f_equal. rewrite u32_small by zlia. rewrite Z.div_add by lia. lia. }
  rewrite E. split; [done|]. cbn. unfold PSTORAGE_FLASH_PAGE_SIZE. zlia.
Qed.

Lemma chunks_aligned l : Forall chunk_ok l -> lenZ (concat l) mod 4 = 0.
Proof. induction 1 as [|d l (_ & H4 & _) _ IH]; [done|]. cbn. rewrite lenZ_app. zlia. Qed.

(** The lazy erase decides by the pages a chunk touches. *)
Lemma lazy_checked e off n s : lz s = mk_lazy (Some e) npages base -> 0 <= off -> 0 < n <= PENDING_PACKET_SIZE ->
  off + n <= npages * PSTORAGE_FLASH_PAGE_SIZE ->
  (forall i, off <= i < off + n -> flagged e i) /\ lazy_erase_check_and_trigger bank_handle n off s = (NRF_SUCCESS, s) \/
  exists page, 0 <= page < npages /\ nthZ e page = 0 /\
    lazy_erase_check_and_trigger bank_handle n off s =
    let '(ret, s) := cmd_queue_enqueue PSTORAGE_CLEAR_OP_CODE (mk_handle m (u32 (base + page * PSTORAGE_FLASH_PAGE_SIZE))) No_data
                       PSTORAGE_FLASH_PAGE_SIZE 0 CMD_FLAG_LAZY_ERASE (set_q (set_lazy_erase true page (q s)) s) in
    if negb (ret =? NRF_SUCCESS) then (ret, set_q (set_lazy_erase false (m_lazy_erase_page (q s)) (q s)) s) else (NRF_SUCCESS, s).
Proof.
  intros Hl Ho Hn Hfit. destruct bank as (Hb & Hn0 & (Ha0 & Ha1) & Hend & H32 & _).
  rewrite (chunk_pages e off n Ho Hn). unfold PENDING_PACKET_SIZE, PSTORAGE_FLASH_PAGE_SIZE in *.
  unfold lazy_erase_check_and_trigger. rewrite Hl. cbn [dfu_page_erased dfu_base_address bank_handle block_id module_id].
  rewrite (u32_small (base + off)) by lia. replace (base + off <? base) with false by (symmetry; apply Z.ltb_ge; lia).
  rewrite (u32_small (base + off + n - 1)) by lia.
  replace (base + off - base) with off by lia. replace (base + off + n - 1 - base) with (off + n - 1) by lia.
  rewrite (u32_small off), (u32_small (off + n - 1)) by lia. unfold PSTORAGE_FLASH_PAGE_SIZE, page_needs_erase. cbn [dfu_image_page_count].
  assert (off / 4096 < npages /\ (off + n - 1) / 4096 < npages /\ 0 <= off / 4096 /\ 0 <= (off + n - 1) / 4096) as (P1 & P2 & P3 & P4) by zlia.
  rewrite (proj2 (Z.ltb_lt _ _) P1), (proj2 (Z.ltb_lt _ _) P2). cbn [andb].
  destruct (Z.eqb_spec (nthZ e (off / 4096)) 0) as [E1|E1]; cbn [negb andb].
  - right. exists (off / 4096). cbn [set_q lz]. rewrite Hl. done.
  - destruct (Z.eqb_spec ((off + n - 1) / 4096) (off / 4096)) as [E2|E2]; cbn [negb andb].
    + left. rewrite E2. split; [split; exact E1|reflexivity].
    + destruct (Z.eqb_spec (nthZ e ((off + n - 1) / 4096)) 0) as [E3|E3]; cbn [negb]; [|left; split; [split; [exact E1|exact E3]|reflexivity]].
      right. exists ((off + n - 1) / 4096). cbn [set_q lz]. rewrite Hl. done.
Qed.
(** What a completed write and a completed erase do to the bank. *)
Lemma flash_written dn d e m1 m2 : lenZ (concat dn) + lenZ d <= npages * PSTORAGE_FLASH_PAGE_SIZE -> bytes d ->
  (forall i, lenZ (concat dn) <= i < lenZ (concat dn) + lenZ d -> flagged e i) -> flash_ok dn e m1 ->
  same_app (request_effect (SdWrite (base + lenZ (concat dn)) d) m1) m2 -> flash_ok (dn ++ [d]) e m2.
Proof.
  intros Hfit Hb Hf [F1 F2] Hs. pose proof (lenZ_nonneg (concat dn)). pose proof (lenZ_nonneg d). set (off := lenZ (concat dn)) in *.
  assert (forall i, 0 <= i < npages * PSTORAGE_FLASH_PAGE_SIZE -> m2 (base + i) =
    if (off <=? i) && (i <? off + lenZ d) then Z.land (m1 (base + i)) (nthZ d (i - off)) else m1 (base + i)) as Hm.
  { intros i Hi. rewrite Hs by (by apply in_bank). cbn [request_effect]. replace (base + i - (base + off)) with (i - off) by lia.
    destruct (Z.leb_spec (base + off) (base + i)), (Z.leb_spec off i), (Z.ltb_spec (base + i) (base + off + lenZ d)), (Z.ltb_spec i (off + lenZ d));
      cbn [andb]; done || lia. }
  assert (concat (dn ++ [d]) = concat dn ++ d) as E by (rewrite concat_app; cbn; by rewrite app_nil_r).
  unfold flash_ok. rewrite E, lenZ_app. fold off. split; intros i Hi.
  - rewrite Hm by lia. destruct (Z.leb_spec off i), (Z.ltb_spec i (off + lenZ d)); cbn [andb]; try lia.
    + rewrite F2 by (try apply Hf; lia). rewrite nthZ_app_r by (fold off; lia). fold off. rewrite Z.land_comm, land_255. apply Z.mod_small. by apply nthZ_byte.
    + rewrite F1 by lia. by rewrite nthZ_app_l by (fold off; lia).
  - intros Hfl. rewrite Hm by lia. destruct (Z.leb_spec off i), (Z.ltb_spec i (off + lenZ d)); cbn [andb]; try lia; by apply F2; [lia|].
Qed.

Lemma flash_erased dn e page m1 m2 : 0 <= page < npages -> npages <= lenZ e -> nthZ e page = 0 ->
  (forall i, 0 <= i < lenZ (concat dn) -> flagged e i) -> lenZ (concat dn) <= npages * PSTORAGE_FLASH_PAGE_SIZE -> flash_ok dn e m1 ->
  same_app (request_effect (SdErase (base / PSTORAGE_FLASH_PAGE_SIZE + page)) m1) m2 -> flash_ok dn (put e page [1]) m2.
Proof.
  intros Hp Hl Hz Hd Hdn [F1 F2] Hs. destruct bank as (Hb & _). unfold flash_ok, flagged, PSTORAGE_FLASH_PAGE_SIZE in *.
  assert (forall i, 0 <= i < npages * 4096 -> m2 (base + i) = if i / 4096 =? page then 255 else m1 (base + i)) as Hm.
  { intros i Hi. rewrite Hs by (by apply in_bank). cbn [request_effect]. unfold PSTORAGE_FLASH_PAGE_SIZE.
    destruct (Z.leb_spec ((base / 4096 + page) * 4096) (base + i)), (Z.ltb_spec (base + i) ((base / 4096 + page + 1) * 4096)), (Z.eqb_spec (i / 4096) page);
      cbn [andb]; done || zlia. }
  pose proof (lenZ_nonneg (concat dn)). split; intros i Hi; [|intros Hf].
  - rewrite Hm by lia. destruct (Z.eqb_spec (i / 4096) page) as [E|E]; [|by apply F1].
    exfalso. apply (Hd i Hi). by rewrite <- E in Hz.
  - rewrite Hm by lia. destruct (Z.eqb_spec (i / 4096) page) as [E|E]; [done|]. apply F2; [lia|].
    rewrite nthZ_put in Hf by (change (lenZ [1]) with 1; zlia).
    destruct (Z.leb_spec page (i / 4096)), (Z.ltb_spec (i / 4096) (page + lenZ [1])); cbn [andb] in Hf; change (lenZ [1]) with 1 in *; done || lia.
Qed.

(** * The commands that wait *)

Definition sound p (c : cmd_queue_element) : Prop := one_round c /\ request_ok (request_of p c).

Lemma store_sound f off d p r : chunk_ok d -> 0 <= off -> off + lenZ d <= npages * PSTORAGE_FLASH_PAGE_SIZE -> off mod 4 = 0 ->
  sliceZ (data_bytes r p) 0 (lenZ d) = d -> sound p (mk_cmd PSTORAGE_STORE_OP_CODE f (lenZ d) off bank_handle r).
Proof.
  intros Hd Ho Hf Ha Hs. split; [|by apply store_request]. left. split; [done|]. destruct Hd as [[??] _].
  unfold PENDING_PACKET_SIZE, SOC_MAX_WRITE_SIZE in *. cbn [c_size]. lia.
Qed.

Lemma erase_sound page p : 0 <= page < npages -> sound p (erase_cmd page).
Proof. intros Hp. split; [by right|by apply erase_request]. Qed.

Lemma stores_sound p ds : Forall chunk_ok ds -> forall off, 0 <= off -> off + lenZ (concat ds) <= npages * PSTORAGE_FLASH_PAGE_SIZE ->
  off mod 4 = 0 -> Forall (sound p) (store_cmds off ds).
Proof.
  induction 1 as [|d ds Hd _ IH]; intros off Ho Hf Ha; [constructor|]. cbn [store_cmds concat] in *. rewrite lenZ_app in Hf.
  pose proof (lenZ_nonneg (concat ds)). pose proof Hd as (Hd0 & Hd4 & _). constructor.
  - apply store_sound; try done; [lia|]. apply sliceZ_all. lia.
  - apply IH; [lia|lia|zlia].
Qed.

Lemma done_chunks w0 dn pl pd e s : contents w0 dn pl pd e s -> Forall chunk_ok dn /\ Forall chunk_ok pl /\ Forall chunk_ok pd.
Proof. intros [Hc _ _ _ _ _ _ _ _]. rewrite !Forall_app in Hc. tauto. Qed.

Lemma chunks_fit w0 dn pl pd e s : contents w0 dn pl pd e s -> 
  lenZ (concat dn) + lenZ (concat pl) + lenZ (concat pd) <= npages * PSTORAGE_FLASH_PAGE_SIZE /\
  0 <= lenZ (concat dn) /\ 0 <= lenZ (concat pl) /\ 0 <= lenZ (concat pd) /\ lenZ (concat dn) mod 4 = 0.
Proof.
  intros C. pose proof (st_fits _ _ _ _ _ _ C) as Hf. rewrite !concat_app_len in Hf. pose proof (chunks_aligned dn (proj1 (done_chunks _ _ _ _ _ _ C))).
  repeat split; try apply lenZ_nonneg; [lia|done].
Qed.

(** The first buffered chunk and its request. *)
Lemma first_pending w0 dn pl pd e s d rest : contents w0 dn pl pd e s -> pl = [] -> pd = d :: rest ->
  exists x, pending_packet_peek (q s) = Some x /\ pending_is bank_handle (lenZ (concat dn)) d x /\
    let c := pending_cmd (lenZ (concat dn)) d (m_pending_read_idx (q s)) in
    sound (q s) c /\ request_of (q s) c = SdWrite (base + lenZ (concat dn)) d.
Proof.
  intros C -> ->. pose proof (st_pending _ _ _ _ _ _ C) as B. rewrite app_nil_r in B.
  destruct (buffered_peek _ _ _ _ _ B) as (x & E & Ex & Hx). exists x. split; [done|]. split; [done|].
  destruct (done_chunks _ _ _ _ _ _ C) as (_ & _ & Hd). inversion Hd as [|? ? Hd1 _]; subst. destruct (chunks_fit _ _ _ _ _ _ C) as (Hf & Hn & _ & _ & Ha). cbn [concat] in Hf.
  rewrite lenZ_app in Hf. pose proof (lenZ_nonneg (concat rest)). destruct Hx as (_ & _ & _ & _ & Hs).
  split; [apply store_sound|apply store_request]; try done; cbn [concat] in *; rewrite ?lenZ_app in *; change (lenZ (@nil Z)) with 0 in *; lia.
Qed.

Lemma doing_sound w0 dn pl pd e s cs : contents w0 dn pl pd e s -> doing e (lenZ (concat dn)) pl pd (q s) cs -> Forall (sound (q s)) cs.
Proof.
  intros C. destruct (done_chunks _ _ _ _ _ _ C) as (_ & Hpl & _). destruct (chunks_fit _ _ _ _ _ _ C) as (Hf & Hn & Hn1 & Hn2 & Ha).
  assert (Forall (sound (q s)) (store_cmds (lenZ (concat dn)) pl)) as Hs by (apply stores_sound; try done; lia).
  intros D. destruct D as [| page | d rest _ _ Epl Epd]; [done| |].
  - apply Forall_app. split; [done|]. constructor; [by apply erase_sound|constructor].
  - destruct (first_pending _ _ _ _ _ _ d rest C Epl Epd) as (x & _ & _ & Hx & _). by constructor.
Qed.

(** The next buffered chunk is stored, or the page it needs is erased first. *)
Lemma pending_processed fuel w0 dn pd e s : contents w0 dn [] pd e s -> pd <> [] -> commands [] (q s) -> access_ok [] s ->
  m_lazy_erase_active (q s) = false -> m_processing_pending (q s) = false ->
  exists s', process_pending_packets noting fuel s = Some s' /\ stored w0 dn [] pd e s'.
Proof.
  intros C Hne Hc Hacc Hla Hpr. destruct pd as [|d rest]; [done|].
  destruct (first_pending _ _ _ _ _ _ d rest C eq_refl eq_refl) as (x & Ex & (X1 & X2 & X3 & _) & [Ho Hok] & _).
  destruct (done_chunks _ _ _ _ _ _ C) as (_ & _ & Hd). inversion Hd as [|? ? Hd1 _]; subst. destruct Hd1 as (Hd1 & _).
  destruct (chunks_fit _ _ _ _ _ _ C) as (Hf & Hn & _ & _ & _). cbn [concat] in Hf. rewrite lenZ_app in Hf.
  pose proof (lenZ_nonneg (concat rest)). pose proof (lenZ_nonneg (@nil Z)).
  unfold process_pending_packets, process_pending_with. rewrite Hla, Hpr, (proj1 (cm_count _ _ Hc)), Ex, X1, X2, X3. cbn [orb lenZ length Z.of_nat Z.gtb Z.compare].
  pose proof (proj1 (st_table _ _ _ _ _ _ C)) as Hl.
  destruct (lazy_checked e (lenZ (concat dn)) (lenZ d) s Hl) as [[Hfl ->]|(page & Hp & Hz & ->)]; [lia|lia|lia| |].
  - cbn [negb Z.eqb NRF_SUCCESS]. rewrite Hla.
    destruct (enqueued [] PSTORAGE_STORE_OP_CODE bank_handle (Pending_data (m_pending_read_idx (q s))) (lenZ d) (lenZ (concat dn)) CMD_FLAG_PENDING_STORE
      (set_q (set_processing true (q s)) s)) as (s' & E & Hc' & Ha' & U); try done; [by apply (commands_same _ _ _ Hc)|by apply (st_round _ _ _ _ _ _ C)|].
    cbn [set_q q] in E |- *. change (m_pending_read_idx (set_processing true (q s))) with (m_pending_read_idx (q s)). rewrite E.
    exists s'. split; [done|]. split; [eapply contents_kept; [exact C|]|].
    + apply undisturbed_kept in U. exact U.
    + destruct U as (U & _). unfold beside in U. injection U as _ _ _ _ U1 _ _ U2 _ U3. cbn in U1, U2, U3. cbn [app] in *.
      eexists. split; [|split; [exact Hc'|exact Ha']]. rewrite <- U1. apply (Flushing _ _ _ _ _ d rest); try done; congruence.
  - destruct (enqueued [] PSTORAGE_CLEAR_OP_CODE (mk_handle m (u32 (base + page * PSTORAGE_FLASH_PAGE_SIZE))) No_data PSTORAGE_FLASH_PAGE_SIZE 0
      CMD_FLAG_LAZY_ERASE (set_q (set_lazy_erase true page (q s)) s)) as (s' & E & Hc' & Ha' & U); try done.
    { by apply (commands_same _ _ _ Hc). } { by apply (st_round _ _ _ _ _ _ C). } { by right. } { by apply erase_request. }
    rewrite E. cbn [negb Z.eqb NRF_SUCCESS].
    pose proof (undisturbed_kept _ _ U) as K. destruct U as (U & _). unfold beside in U. injection U as _ _ _ _ _ _ _ U2 U3 U4. cbn in U2, U3, U4.
    rewrite U2. exists s'. split; [done|]. split; [eapply contents_kept; [exact C|exact K]|].
    eexists. split; [|split; [exact Hc'|exact Ha']]. apply (Erasing _ _ [] _ _ page); try done. congruence.
Qed.

(** * A store *)

(** What one more chunk needs. *)
Definition next_chunk (dn pl pd : list (list Z)) (d : list Z) : Prop :=
  chunk_ok d /\ lenZ (concat (dn ++ pl ++ pd ++ [d])) <= npages * PSTORAGE_FLASH_PAGE_SIZE.
Definition next_offset (dn pl pd : list (list Z)) : Z := lenZ (concat (dn ++ pl ++ pd)).

Lemma next_facts w0 dn pl pd e s d : contents w0 dn pl pd e s -> next_chunk dn pl pd d ->
  next_offset dn pl pd = lenZ (concat dn) + lenZ (concat pl) + lenZ (concat pd) /\
  next_offset dn pl pd + lenZ d <= npages * PSTORAGE_FLASH_PAGE_SIZE /\ 0 <= next_offset dn pl pd /\ next_offset dn pl pd mod 4 = 0 /\
  0 < lenZ d <= PENDING_PACKET_SIZE.
Proof.
  intros C [[Hd _] Hf]. unfold next_offset. rewrite !concat_app_len in *. cbn [concat] in Hf. rewrite app_nil_r in Hf.
  destruct (done_chunks _ _ _ _ _ _ C) as (C1 & C2 & C3). apply chunks_aligned in C1, C2, C3.
  pose proof (lenZ_nonneg (concat dn)). pose proof (lenZ_nonneg (concat pl)). pose proof (lenZ_nonneg (concat pd)). split_and!; lia || zlia.
Qed.

(** The chunk joins the buffered ones. *)
Lemma packet_added w0 dn pl pd e s d : contents w0 dn pl pd e s -> next_chunk dn pl pd d -> lenZ pd < PENDING_PACKET_COUNT ->
  exists p', pending_packet_add bank_handle d (lenZ d) (next_offset dn pl pd) (q s) = (true, p') /\
    contents w0 dn pl (pd ++ [d]) e (set_q p' s) /\ m_pending_read_idx p' = m_pending_read_idx (q s) /\
    p' = set_pending (m_pending_packets p') (m_pending_read_idx p') (m_pending_write_idx p') (m_pending_count p') (q s).
Proof.
  intros C N Hroom. pose proof (next_facts _ _ _ _ _ _ _ C N) as (_ & _ & _ & _ & Hd). destruct N as [Hok Hf].
  destruct C as [C1 C2 C3 C4 C5 C7 C8 C9 C10].
  destruct (buffered_add _ _ _ d _ C7 Hd Hroom) as (p' & E & B & Ep & Er). exists p'.
  assert (next_offset dn pl pd = lenZ (concat (dn ++ pl)) + lenZ (concat pd)) as -> by (unfold next_offset; by rewrite app_assoc, concat_app_len).
  split; [exact E|]. split; [|done]. constructor; cbn [set_q q lz soft world]; try done.
  - rewrite !Forall_app in *. split; [tauto|]. split; [tauto|]. split; [tauto|]. by constructor.
  - by rewrite Ep.
  - by rewrite Ep.
Qed.

Lemma access_ok_same cs s s' : access_ok cs s -> soft s' = soft s -> flash_access (q s') = flash_access (q s) ->
  (forall c, head cs = Some c -> request_of (q s') c = request_of (q s) c) -> access_ok cs s'.
Proof. intros A E1 E2 Hr. destruct cs as [|c cs]; unfold access_ok in *; rewrite E1, E2; [done|]. by rewrite (Hr c eq_refl). Qed.

(** A caller's store and an erase ask the same whatever is buffered. *)
Lemma plain_requests p p' off pl page c : head (store_cmds off pl ++ [erase_cmd page]) = Some c -> request_of p' c = request_of p c.
Proof. destruct pl as [|d pl]; intros [= <-]; reflexivity. Qed.

Definition bank_store (dn pl pd : list (list Z)) (d : list Z) (s : dev) : Z * dev :=
  pstorage_store bank_handle d true (lenZ d) (next_offset dn pl pd) s.

(** While the module has pending work, the chunk is buffered or refused. *)
Lemma buffering w0 dn pl pd e s d cs : contents w0 dn pl pd e s -> doing e (lenZ (concat dn)) pl pd (q s) cs -> commands cs (q s) ->
  access_ok cs s -> pd <> [] -> next_chunk dn pl pd d ->
  exists r s', buffer_packet bank_handle d (lenZ d) (next_offset dn pl pd) s = (r, s') /\
    (r = NRF_SUCCESS /\ stored w0 dn pl (pd ++ [d]) e s' \/ r = NRF_ERROR_NO_MEM /\ s' = s /\ lenZ pd = PENDING_PACKET_COUNT).
Proof.
  intros C D Hc A Hne N. unfold buffer_packet. pose proof (next_facts _ _ _ _ _ _ _ C N) as (_ & _ & _ & _ & Hd).
  destruct (decide (lenZ pd = PENDING_PACKET_COUNT)) as [Hfull|Hroom].
  { rewrite (buffered_full _ _ _ _ _ _ (st_pending _ _ _ _ _ _ C)) by (done || lia). by exists NRF_ERROR_NO_MEM, s; split; [|right]. }
  pose proof (proj2 (bf_count _ _ _ _ (st_pending _ _ _ _ _ _ C))) as Hm.
  destruct (packet_added _ _ _ _ _ _ _ C N) as (p' & -> & C' & Er & Ep); [lia|].
  exists NRF_SUCCESS, (set_q p' s). split; [done|]. left. split; [done|]. split; [done|]. exists cs.
  split; [|split; [by rewrite Ep; apply (commands_same _ _ _ Hc)|apply (access_ok_same cs s); try done; [by rewrite Ep|]]].
  - cbn [set_q q]. destruct D as [| page | d0 rest H1 H2 Epl Epd]; [done| |].
    + apply Erasing; try done; try by rewrite Ep. by destruct pd.
    + rewrite <- Er. apply (Flushing _ _ _ _ _ d0 (rest ++ [d])); try done; try by rewrite Ep. by rewrite Epd.
  - intros c Hh. destruct D as [| page | d0 rest H1 H2 Epl Epd]; [done|by eapply plain_requests|]. injection Hh as <-.
    destruct (first_pending _ _ _ _ _ _ d0 rest C Epl Epd) as (_ & _ & _ & _ & ->).
    destruct (first_pending _ _ _ _ _ _ d0 (rest ++ [d]) C' Epl) as (_ & _ & _ & _ & E2); [by rewrite Epd|]. cbn [set_q q] in *. by rewrite Er in E2.
Qed.

Lemma buffered_empty h off off' p : buffered h off [] p -> buffered h off' [] p.
Proof. intros []. by constructor. Qed.

(** With every page of the chunk erased it joins the plain stores. *)
Lemma store_queued w0 dn pl e s d : contents w0 dn pl [] e s -> doing e (lenZ (concat dn)) pl [] (q s) (store_cmds (lenZ (concat dn)) pl) ->
  commands (store_cmds (lenZ (concat dn)) pl) (q s) -> access_ok (store_cmds (lenZ (concat dn)) pl) s -> next_chunk dn pl [] d ->
  (forall i, next_offset dn pl [] <= i < next_offset dn pl [] + lenZ d -> flagged e i) -> lenZ pl < PSTORAGE_CMD_QUEUE_SIZE ->
  m_lazy_erase_active (q s) = false -> m_processing_pending (q s) = false ->
  exists s', cmd_queue_enqueue PSTORAGE_STORE_OP_CODE bank_handle (Caller_data d) (lenZ d) (next_offset dn pl []) CMD_FLAG_NONE s = (NRF_SUCCESS, s') /\
    stored w0 dn (pl ++ [d]) [] e s'.
Proof.
  intros C D Hc A N Hfl Hroom Hla Hpr. pose proof (next_facts _ _ _ _ _ _ _ C N) as (Eo & Hfit & Ho & Ha4 & Hd). destruct N as [Hok Hf].
  destruct (store_sound CMD_FLAG_NONE (next_offset dn pl []) d (q s) (Caller_data d)) as [S1 S2]; try done; [apply sliceZ_all; lia|].
  destruct (enqueued _ PSTORAGE_STORE_OP_CODE bank_handle (Caller_data d) (lenZ d) (next_offset dn pl []) CMD_FLAG_NONE s Hc A) as (s' & E & Hc' & A' & U); try done.
  { by apply (st_round _ _ _ _ _ _ C). } { by rewrite store_cmds_length. }
  rewrite E. exists s'. split; [done|]. pose proof (undisturbed_kept _ _ U) as K.
  assert (store_cmds (lenZ (concat dn)) (pl ++ [d]) = store_cmds (lenZ (concat dn)) pl ++ [store_cmd (next_offset dn pl []) d]) as Es.
  { rewrite store_cmds_app. cbn [store_cmds]. rewrite Eo. change (lenZ (concat [])) with 0. by rewrite Z.add_0_r. }
  split.
  - destruct (contents_kept _ _ _ _ _ _ _ C K) as [C1 C2 C3 C4 C5 C7 C8 C9 C10]. rewrite app_nil_r in C1. constructor; try done.
    + rewrite app_nil_r, app_assoc. apply Forall_app. split; [done|]. by constructor.
    + by rewrite app_nil_r.
    + rewrite app_assoc, concat_app_len. cbn [concat]. rewrite app_nil_r. intros i Hi. unfold next_offset in Hfl. rewrite app_nil_r in Hfl.
      destruct (decide (i < lenZ (concat (dn ++ pl)))); [by apply C4; lia|]. apply Hfl. lia.
    + by eapply buffered_empty.
  - exists (store_cmds (lenZ (concat dn)) (pl ++ [d])). split; [|rewrite Es; split; [exact Hc'|exact A']]. destruct U as (U & _). unfold beside in U.
    injection U as _ _ _ _ _ _ _ U2 _ U3. apply Plain; congruence.
Qed.

(** A chunk whose page is not erased yet starts the erase and is buffered. *)
Lemma store_erases w0 dn pl e s d page : contents w0 dn pl [] e s ->
  commands (store_cmds (lenZ (concat dn)) pl) (q s) -> access_ok (store_cmds (lenZ (concat dn)) pl) s -> next_chunk dn pl [] d ->
  0 <= page < npages -> nthZ e page = 0 -> lenZ pl < PSTORAGE_CMD_QUEUE_SIZE -> m_processing_pending (q s) = false ->
  exists s1 s', cmd_queue_enqueue PSTORAGE_CLEAR_OP_CODE (mk_handle m (u32 (base + page * PSTORAGE_FLASH_PAGE_SIZE))) No_data PSTORAGE_FLASH_PAGE_SIZE 0
      CMD_FLAG_LAZY_ERASE (set_q (set_lazy_erase true page (q s)) s) = (NRF_SUCCESS, s1) /\
    m_lazy_erase_active (q s1) = true /\ buffer_packet bank_handle d (lenZ d) (next_offset dn pl []) s1 = (NRF_SUCCESS, s') /\
    stored w0 dn pl [d] e s'.
Proof.
  intros C Hc A N Hp Hz Hroom Hpr.
  destruct (enqueued (store_cmds (lenZ (concat dn)) pl) PSTORAGE_CLEAR_OP_CODE (mk_handle m (u32 (base + page * PSTORAGE_FLASH_PAGE_SIZE))) No_data
    PSTORAGE_FLASH_PAGE_SIZE 0 CMD_FLAG_LAZY_ERASE (set_q (set_lazy_erase true page (q s)) s)) as (s1 & E & Hc' & A' & U); try done.
  { by apply (commands_same _ _ _ Hc). }
  { by apply (st_round _ _ _ _ _ _ C). } { by rewrite store_cmds_length. } { by right. } { by apply erase_request. }
  rewrite E. pose proof (undisturbed_kept _ _ U) as K. destruct U as (U & _). unfold beside in U. injection U as _ _ _ _ _ _ _ U2 U3 U4.
  cbn in U2, U3, U4. assert (contents w0 dn pl [] e s1) as C1 by (eapply contents_kept; [exact C|exact K]).
  destruct (packet_added _ _ _ _ _ _ _ C1 N) as (p' & Ea & C' & _ & Ep); [done|]. exists s1, (set_q p' s1).
  split; [done|]. split; [done|]. unfold buffer_packet. rewrite Ea. split; [done|]. split; [done|]. eexists.
  split; [|split; [cbn [set_q q]; rewrite Ep; by apply (commands_same _ _ _ Hc')|apply (access_ok_same _ s1 _ A'); try done; [by cbn [set_q q]; rewrite Ep|]]].
  - apply (Erasing _ _ pl _ _ page); try done; cbn [set_q q]; rewrite Ep; cbn; congruence.
  - intros c. apply plain_requests.
Qed.

(** A store of the next chunk is taken, or refused for lack of room. *)
Lemma store_step w0 dn pl pd e s d : stored w0 dn pl pd e s -> next_chunk dn pl pd d ->
  exists r s' pl' pd', bank_store dn pl pd d s = (r, s') /\ stored w0 dn pl' pd' e s' /\
    (r = NRF_SUCCESS /\ pl' ++ pd' = pl ++ pd ++ [d] \/
     r = NRF_ERROR_NO_MEM /\ pl' = pl /\ pd' = pd /\ (lenZ pd = PENDING_PACKET_COUNT \/ lenZ pl = PSTORAGE_CMD_QUEUE_SIZE)).
Proof.
  intros [C (cs & D & Hc & A)] N. pose proof (next_facts _ _ _ _ _ _ _ C N) as (Eo & Hfit & Ho & Ha4 & Hd).
  unfold bank_store, pstorage_store. cbn [negb orb block_id bank_handle]. destruct bank as (Hb & Hn0 & (Ha0 & Ha1) & Hend & H32 & _).
  unfold PSTORAGE_FLASH_PAGE_SIZE in *. rewrite (u32_small (base + next_offset dn pl pd)) by lia.
  replace ((base + next_offset dn pl pd) mod 4 =? 0) with true by (symmetry; apply Z.eqb_eq; zlia). cbn [negb].
  destruct (decide (pd = [])) as [->|Hne].
  2:{ assert (pending_work (q s) = true) as -> by (destruct D as [? ? ?|? E1|? ? ? E1]; [done| |]; unfold pending_work; by rewrite E1, ?orb_true_r).
      destruct (buffering _ _ _ _ _ _ _ _ C D Hc A Hne N) as (r & s' & E & [[-> S]|(-> & -> & Hl)]).
      - exists NRF_SUCCESS, s', pl, (pd ++ [d]). split; [done|]. split; [done|]. by left.
      - exists NRF_ERROR_NO_MEM, s, pl, pd. split; [done|]. split; [by split; [|exists cs]|]. right. by repeat split; try left. }
  destruct D as [Hla Hpr _| |]; [|done..].
  assert (pending_work (q s) = false) as ->.
  { unfold pending_work. by rewrite Hla, Hpr, (proj1 (bf_count _ _ _ _ (st_pending _ _ _ _ _ _ C))). }
  pose proof (proj1 (st_table _ _ _ _ _ _ C)) as Hl. pose proof (proj2 (cm_count _ _ Hc)) as Hm. rewrite store_cmds_length in Hm.
  assert (stored w0 dn pl [] e s) as S0 by (split; [done|]; eexists; split; [by apply Plain|done]).
  destruct (lazy_checked e (next_offset dn pl []) (lenZ d) s Hl) as [[Hfl ->]|(page & Hp & Hz & ->)]; [lia|lia|unfold PSTORAGE_FLASH_PAGE_SIZE; lia| |].
  - cbn [negb Z.eqb NRF_SUCCESS]. rewrite Hla. destruct (decide (lenZ pl = PSTORAGE_CMD_QUEUE_SIZE)) as [Hfull|Hroom].
    + rewrite (enqueue_refused _ _ _ _ _ _ _ _ Hc) by (by rewrite store_cmds_length).
      exists NRF_ERROR_NO_MEM, s, pl, []. split; [done|]. split; [done|]. right. by repeat split; try right.
    + destruct (store_queued w0 dn pl e s d C) as (s' & -> & S); try done; [by apply Plain|lia|].
      exists NRF_SUCCESS, s', (pl ++ [d]), []. split; [done|]. split; [done|]. left. by rewrite app_nil_r.
  - destruct (decide (lenZ pl = PSTORAGE_CMD_QUEUE_SIZE)) as [Hfull|Hroom].
    + rewrite (enqueue_refused (store_cmds (lenZ (concat dn)) pl)) by (try (by rewrite store_cmds_length); by apply (commands_same _ _ _ Hc)).
      cbn [negb Z.eqb NRF_ERROR_NO_MEM NRF_SUCCESS]. eexists NRF_ERROR_NO_MEM, _, pl, []. split; [reflexivity|]. split; [|right; by repeat split; try right].
      split; [by apply (contents_kept _ _ _ _ _ _ _ C)|]. eexists. split; [by apply Plain|]. split; [by apply (commands_same _ _ _ Hc)|].
      apply (access_ok_same _ s); try done.
    + destruct (store_erases w0 dn pl e s d page C) as (s1 & s' & -> & Hact & E & S); try done; [lia|].
      cbn [negb Z.eqb NRF_SUCCESS]. rewrite Hact, E. exists NRF_SUCCESS, s', pl, [d]. split; [done|]. split; [done|]. by left.
Qed.

(** * An event *)

(** The end of the handler: the next command, or the next buffered chunk. *)
Definition goes_on (fuel : nat) (s : dev) : option dev :=
  if count (q s) >? 0 then cmd_queue_dequeue noting fuel s
  else if (m_pending_count (q s) >? 0) && negb (m_processing_pending (q s)) && negb (m_lazy_erase_active (q s))
  then process_pending_packets noting fuel s else Some s.

Lemma count_pos cs s : commands cs (q s) -> (count (q s) >? 0) = negb (bool_decide (cs = [])).
Proof.
  intros Hc. rewrite (proj1 (cm_count _ _ Hc)). destruct cs as [|c cs]; [done|]. rewrite lenZ_cons, bool_decide_false by done.
  rewrite Z.gtb_ltb. apply Z.ltb_lt. unfold lenZ. lia.
Qed.

Lemma goes_on_busy fuel cs s : commands cs (q s) -> access_ok cs s -> cs <> [] -> goes_on (S fuel) s = Some s.
Proof.
  intros Hc A Hne. unfold goes_on. cbn [cmd_queue_dequeue]. rewrite (count_pos _ _ Hc), bool_decide_false by done. cbn [negb].
  destruct cs as [|c cs]; [done|]. rewrite (proj1 (cm_count _ _ Hc)), lenZ_cons.
  replace (1 + lenZ cs =? 0) with false by (symmetry; apply Z.eqb_neq; unfold lenZ; lia).
  destruct A as [[-> _]|[-> _]]; by rewrite bool_decide_false.
Qed.

Lemma goes_on_next fuel w0 dn pl pd e s cs : contents w0 dn pl pd e s -> doing e (lenZ (concat dn)) pl pd (q s) cs -> commands cs (q s) ->
  flash_access (q s) = FLASH_ACCESS_IDLE -> (sd_current (soft s) <> None -> sd_current (soft s) = Some None) -> cs <> [] ->
  exists s', cmd_queue_dequeue noting (S fuel) s = Some s' /\ stored w0 dn pl pd e s'.
Proof.
  intros C D Hc Hacc Hcur Hne.
  destruct (next_started fuel cs s Hc (st_round _ _ _ _ _ _ C) Hacc (doing_sound _ _ _ _ _ _ _ C D) Hne Hcur) as (s' & E & Hc' & A' & U).
  exists s'. split; [exact E|]. split; [eapply contents_kept; [exact C|by apply undisturbed_kept]|]. exists cs. split; [|done].
  destruct U as (U & _). unfold beside in U. injection U as _ _ _ _ U1 _ _ U2 U3 U4. by apply (doing_same _ _ _ _ _ _ _ D).
Qed.

(** What is left of the commands, and whether the tail of the handler leaves
    the module in a proper state again. *)
Lemma goes_on_stored fuel w0 dn pl pd e s cs : contents w0 dn pl pd e s -> commands cs (q s) ->
  flash_access (q s) = FLASH_ACCESS_IDLE -> sd_current (soft s) = None ->
  doing e (lenZ (concat dn)) pl pd (q s) cs \/ cs = [] /\ pl = [] /\ m_lazy_erase_active (q s) = false /\ m_processing_pending (q s) = false ->
  exists s', goes_on (S fuel) s = Some s' /\ stored w0 dn pl pd e s'.
Proof.
  intros C Hc Hacc Hcur D. pose proof (proj1 (bf_count _ _ _ _ (st_pending _ _ _ _ _ _ C))) as Hn.
  unfold goes_on. rewrite (count_pos _ _ Hc), Hn. destruct (decide (cs = [])) as [->|Hne].
  - rewrite bool_decide_true by done. cbn [negb].
    assert (pl = [] /\ m_lazy_erase_active (q s) = false /\ m_processing_pending (q s) = false) as (-> & Hla & Hpr).
    { destruct D as [D|(_ & D)]; [|done]. remember [] as cs0 eqn:Ecs. destruct D as [| |]; [by destruct pl|by destruct pl|done]. }
    rewrite Hla, Hpr. cbn [negb andb]. rewrite !andb_true_r. destruct pd as [|d pd].
    + exists s. split; [done|]. split; [done|]. exists []. split; [by apply (Plain _ _ [] [])|]. split; [done|]. split; [done|]. by rewrite Hcur.
    + replace (lenZ (d :: pd) >? 0) with true by (symmetry; rewrite lenZ_cons, Z.gtb_ltb; apply Z.ltb_lt; unfold lenZ; lia).
      apply (pending_processed (S fuel) w0 dn (d :: pd) e s); try done.
  - rewrite bool_decide_false by done. cbn [negb]. destruct D as [D|[? _]]; [|done].
    apply (goes_on_next _ _ _ _ _ _ _ _ C D Hc Hacc); [|done]. by rewrite Hcur.
Qed.

(** The SoftDevice has done what the head asked for. *)
Lemma handler_completes fuel c cs s : commands (c :: cs) (q s) -> m_round_val (q s) = 0 -> one_round c ->
  flash_access (q s) = FLASH_ACCESS_IN_FLIGHT ->
  exists p, pstorage_sys_event_handler noting fuel EVT_FLASH_OPERATION_SUCCESS s =
      (s ← command_completed noting fuel c (set_q p s); goes_on fuel s) /\
    commands cs p /\ p = set_ring (rp p) (count p) (cmd p) 0 (set_access FLASH_ACCESS_IDLE (q s)).
Proof.
  intros Hc Hr Ho Hacc. unfold pstorage_sys_event_handler. rewrite Hacc. rewrite bool_decide_false, bool_decide_true by done.
  set (p0 := set_round (u32 (m_round_val (q (set_q (set_access FLASH_ACCESS_IDLE (q s)) s)) + 1)) (set_access FLASH_ACCESS_IDLE (q s))).
  assert (commands (c :: cs) p0) as Hc0 by (by apply (commands_same _ _ _ Hc)).
  destruct (commands_pop c cs p0 Hc0) as (p & E & Hcp & _ & Ep). exists p.
  pose proof (cm_at _ _ Hc 0 c ltac:(lia) eq_refl) as Ha. pose proof (cm_rp _ _ Hc) as Hrp.
  assert (ring_slot (rp (q s)) 0 = rp (q s)) as E0.
  { unfold ring_slot, wrap_index, PSTORAGE_CMD_QUEUE_SIZE in *. rewrite Z.geb_leb. destruct (Z.leb_spec 18 (rp (q s) + 0)); lia. }
  rewrite E0 in Ha. cbn [set_q q]. change (cmd_at (rp (set_access FLASH_ACCESS_IDLE (q s))) (set_access FLASH_ACCESS_IDLE (q s))) with (cmd_at (rp (q s)) (q s)).
  rewrite Ha. change (m_round_val (set_access FLASH_ACCESS_IDLE (q s))) with (m_round_val (q s)) in *.
  change (set_round (u32 (m_round_val (q s) + 1)) (set_access FLASH_ACCESS_IDLE (q s))) with p0.
  assert (m_round_val p0 = 1) as -> by (unfold p0; cbn; by rewrite Hr). change (u32 (1 * SOC_MAX_WRITE_SIZE)) with 4096.
  replace (4096 >=? c_size c) with true by (symmetry; rewrite Z.geb_leb; apply Z.leb_le; destruct Ho as [[_ ?]|[_ ?]]; unfold SOC_MAX_WRITE_SIZE in *; lia).
  rewrite E. split; [done|]. split; [exact Hcp|exact Ep].
Qed.

Lemma chunk_written w0 dn pl pd e s d pl' pd' s' : contents w0 dn pl pd e s -> pl ++ pd = d :: pl' ++ pd' ->
  (forall i, 0 <= i < lenZ (concat ((dn ++ [d]) ++ pl')) -> flagged e i) ->
  same_app (request_effect (SdWrite (base + lenZ (concat dn)) d) (sd_mem (soft s))) (sd_mem (soft s')) ->
  buffered bank_handle (lenZ (concat ((dn ++ [d]) ++ pl'))) pd' (q s') -> lz s' = lz s -> m_round_val (q s') = 0 ->
  m_app_table (q s') = m_app_table (q s) -> world s' = log (note_of d) (world s) -> contents w0 (dn ++ [d]) pl' pd' e s'.
Proof.
  intros [C1 C2 C3 C4 C5 C7 C8 C9 C10] Ed Hfl Hm B El Er Et Ew. rewrite Ed in C1, C2.
  assert (dn ++ d :: pl' ++ pd' = (dn ++ [d]) ++ pl' ++ pd') as Ea by (by rewrite <- app_assoc). rewrite Ea in C1, C2.
  constructor; try done; rewrite ?El, ?Et, ?Ew; try done.
  - rewrite concat_app_len in C2. rewrite concat_app_len in C2, Hfl. pose proof (lenZ_nonneg (concat (pl' ++ pd'))). pose proof (lenZ_nonneg (concat pl')).
    rewrite concat_app_len in Hfl. cbn [concat] in *. rewrite app_nil_r in *. pose proof (lenZ_nonneg (concat dn)). pose proof (lenZ_nonneg d).
    apply (flash_written dn d e (sd_mem (soft s))); try done; [lia| |intros i Hi; apply Hfl; lia].
    rewrite !Forall_app in C1. destruct C1 as ((_ & Cd) & _). inversion Cd as [|? ? (_ & _ & ?) _]. done.
  - by rewrite fold_left_app, C10.
Qed.

(** The callback of a chunk is called. *)
Definition noted (d : list Z) (s : dev) : dev := mk_dev (q s) (lz s) (soft s) (log (note_of d) (world s)).

Lemma notified d s : nth (Z.to_nat m) (m_app_table (q s)) false = true -> notify noting (note_of d) s = noted d s.
Proof.
  intros Ht. unfold notify. cbn [note_of n_handle bank_handle module_id]. rewrite Ht. destruct bank as (_ & _ & _ & _ & _ & Hm).
  by replace (m <? PSTORAGE_NUM_OF_PAGES) with true by (symmetry; apply Z.ltb_lt; lia).
Qed.

(** How many pages are marked erased. *)
Definition erased_pages (e : list Z) : Z := lenZ (filter (fun f => f <> 0) (take (Z.to_nat npages) e)).

Lemma erased_pages_put e page : 0 <= page < npages -> npages <= lenZ e -> nthZ e page = 0 ->
  erased_pages (put e page [1]) = erased_pages e + 1.
Proof.
  intros Hp Hl Hz. unfold erased_pages. set (n := Z.to_nat npages). set (k := Z.to_nat page).
  assert (k < n)%nat as Hk by (unfold k, n; lia). assert (n <= length e)%nat as Hn by (unfold n, lenZ in *; lia).
  assert (e !! k = Some 0) as He.
  { unfold nthZ in Hz. fold k in Hz. destruct (e !! k) as [z|] eqn:E; [|apply lookup_ge_None in E; lia].
    rewrite <- Hz. f_equal. symmetry. by apply nth_lookup_Some. }
  assert (put e page [1] = take k e ++ 1 :: drop (S k) e) as ->.
  { unfold put. fold k. cbn [app length]. by rewrite Nat.add_1_r. }
  rewrite <- (take_drop_middle e k 0 He) at 3.
  replace n with (length (take k e) + (n - k))%nat by (rewrite length_take; lia). rewrite !take_app_add.
  replace (n - k)%nat with (S (n - k - 1)) by lia. cbn [take]. rewrite !list.filter_app, !lenZ_app.
  rewrite (filter_cons_True _ 1), (filter_cons_False _ 0) by lia. rewrite lenZ_cons. lia.
Qed.

(** Completed commands: a plain store, a lazy erase, the store of a buffered
    chunk.  [s] is the state when the SoftDevice was asked, [p] the queue without
    the head. *)
Definition popped p s : Prop := p = set_ring (rp p) (count p) (cmd p) 0 (set_access FLASH_ACCESS_IDLE (q s)).
Definition after (p : pstorage) (x : sd) (s : dev) : dev := set_q p (set_soft x s).

Lemma store_completed fuel w0 dn d pl pd e s cs p x : contents w0 dn (d :: pl) pd e s -> popped p s -> commands cs p -> sd_current x = None ->
  same_app (request_effect (request_of (q s) (store_cmd (lenZ (concat dn)) d)) (sd_mem (soft s))) (sd_mem x) ->
  doing e (lenZ (concat dn) + lenZ d) pl pd (q s) cs ->
  exists s', (s ← command_completed noting (S fuel) (store_cmd (lenZ (concat dn)) d) (after p x s); goes_on (S fuel) s) = Some s' /\
    stored w0 (dn ++ [d]) pl pd e s'.
Proof.
  intros C Ep Hc Hx Hm D.
  change (command_completed _ _ (store_cmd _ d) ?t) with (Some (notify noting (note_of d) t)). cbn [mbind option_bind].
  rewrite notified by (unfold after; cbn [set_q q]; rewrite Ep; by apply (st_callback _ _ _ _ _ _ C)).
  destruct (chunks_fit _ _ _ _ _ _ C) as (Hf & Hn & _ & Hn2 & Ha). cbn [concat] in Hf. rewrite lenZ_app in Hf. pose proof (lenZ_nonneg (concat pl)).
  destruct (done_chunks _ _ _ _ _ _ C) as (_ & Hd & _). inversion Hd as [|? ? Hd1 _]; subst.
  destruct (store_request CMD_FLAG_NONE (lenZ (concat dn)) d (q s) (Caller_data d) Hd1) as [Er _]; try done; [lia|apply sliceZ_all; lia|].
  fold (store_cmd (lenZ (concat dn)) d) in Er. rewrite Er in Hm. assert (concat (dn ++ [d]) = concat dn ++ d) as Ec by (rewrite concat_app; cbn; by rewrite app_nil_r).
  apply (goes_on_stored fuel _ _ _ _ _ _ cs).
  - apply (chunk_written w0 dn (d :: pl) pd e s d pl pd); try done; unfold noted, after; cbn [set_q set_soft q lz soft world].
    + intros i Hi. apply (st_erased _ _ _ _ _ _ C). by rewrite <- app_assoc in Hi.
    + rewrite <- app_assoc. rewrite Ep. by apply (buffered_same _ _ _ _ _ (st_pending _ _ _ _ _ _ C)).
    + by rewrite Ep.
    + by rewrite Ep.
  - exact Hc.
  - cbn. by rewrite Ep.
  - exact Hx.
  - left. rewrite Ec, lenZ_app. apply (doing_same _ _ _ _ _ _ _ D); cbn; by rewrite Ep.
Qed.

Lemma erase_completed fuel w0 dn pd e s page p x : contents w0 dn [] pd e s -> popped p s -> commands [] p -> sd_current x = None ->
  same_app (request_effect (request_of (q s) (erase_cmd page)) (sd_mem (soft s))) (sd_mem x) ->
  m_lazy_erase_page (q s) = page -> m_processing_pending (q s) = false -> pd <> [] -> 0 <= page < npages -> nthZ e page = 0 ->
  exists s', (s ← command_completed noting (S fuel) (erase_cmd page) (after p x s); goes_on (S fuel) s) = Some s' /\
    stored w0 dn [] pd (put e page [1]) s'.
Proof.
  intros C Ep Hc Hx Hm Hpage Hpr Hne Hp Hz. pose proof (st_table _ _ _ _ _ _ C) as [Hl He].
  unfold command_completed. cbn [erase_cmd flags]. change (negb (Z.land CMD_FLAG_LAZY_ERASE CMD_FLAG_LAZY_ERASE =? 0)) with true. cbv beta iota.
  unfold after. cbn [set_q set_soft q lz]. rewrite Hl. cbn [dfu_page_erased dfu_image_page_count dfu_base_address].
  assert (m_lazy_erase_page p = page) as -> by (by rewrite Ep). replace (page <? npages) with true by (symmetry; apply Z.ltb_lt; lia).
  cbn [set_lz set_q set_soft q lz soft world]. set (s1 := set_q _ _).
  destruct (chunks_fit _ _ _ _ _ _ C) as (Hf & Hn & Hn1 & Hn2 & Ha). rewrite (proj1 (erase_request page (q s) Hp)) in Hm.
  assert (lenZ (put e page [1]) = lenZ e) as Hle by (apply lenZ_put; [lia|change (lenZ [1]) with 1; lia]).
  assert (forall i, 0 <= i -> flagged e i -> flagged (put e page [1]) i) as Hmore.
  { unfold flagged, PSTORAGE_FLASH_PAGE_SIZE. intros i Hi Hfl. rewrite nthZ_put by (change (lenZ [1]) with 1; zlia).
    destruct (Z.leb_spec page (i / 4096)), (Z.ltb_spec (i / 4096) (page + lenZ [1])); cbn [andb]; try done. change (lenZ [1]) with 1 in *.
    by replace (i / 4096 - page) with 0 by lia. }
  assert (contents w0 dn [] pd (put e page [1]) s1) as C1.
  { destruct C as [C1 C2 C3 C4 C5 C7 C8 C9 C10]. constructor; unfold s1; cbn [set_q set_lz q lz soft world]; try done.
    - split; [done|lia].
    - intros i Hi. by apply Hmore, C4; [lia|].
    - rewrite app_nil_r in C4. apply (flash_erased dn e page (sd_mem (soft s))); try done; lia.
    - rewrite Ep. by apply (buffered_same _ _ _ _ _ C7).
    - by rewrite Ep.
    - by rewrite Ep. }
  destruct (pending_processed (S fuel) w0 dn pd _ s1 C1 Hne) as (s' & E & S); unfold s1; try done.
  - by apply (commands_same _ _ _ Hc).
  - split; [cbn; by rewrite Ep|]. cbn. by rewrite Hx.
  - cbn. by rewrite Ep.
  - fold s1. rewrite E. cbn [mbind option_bind]. exists s'. split; [|exact S]. destruct S as [C' (cs & D' & Hc' & A')].
    apply (goes_on_busy fuel cs s'); try done. by destruct D'.
Qed.

Lemma flush_completed fuel w0 dn d pd e s p x : contents w0 dn [] (d :: pd) e s -> popped p s -> commands [] p -> sd_current x = None ->
  let c := pending_cmd (lenZ (concat dn)) d (m_pending_read_idx (q s)) in
  same_app (request_effect (request_of (q s) c) (sd_mem (soft s))) (sd_mem x) ->
  m_lazy_erase_active (q s) = false -> (forall i, lenZ (concat dn) <= i < lenZ (concat dn) + lenZ d -> flagged e i) ->
  exists s', (s ← command_completed noting (S fuel) c (after p x s); goes_on (S fuel) s) = Some s' /\
    stored w0 (dn ++ [d]) [] pd e s'.
Proof.
  intros C Ep Hc Hx c Hm Hla Hfl. pose proof (st_pending _ _ _ _ _ _ C) as B. rewrite app_nil_r in B.
  assert (buffered bank_handle (lenZ (concat dn)) (d :: pd) p) as Bp by (rewrite Ep; by apply (buffered_same _ _ _ _ _ B)).
  destruct (buffered_peek _ _ _ _ _ Bp) as (y & Ey & _ & (Y1 & _ & Y3 & Y4 & _)). destruct (buffered_pop _ _ _ _ _ Bp) as (B' & Eq).
  destruct (first_pending _ _ _ _ _ _ d pd C eq_refl eq_refl) as (_ & _ & _ & _ & Er). fold c in Er. rewrite Er in Hm.
  set (p1 := set_processing false (pending_packet_pop p)).
  assert (command_completed noting (S fuel) c (after p x s) = Some (notify noting (note_of d) (after p1 x s))) as ->.
  { unfold command_completed. cbn [c pending_cmd flags]. change (Z.land CMD_FLAG_PENDING_STORE CMD_FLAG_LAZY_ERASE =? 0) with true.
    change (Z.land CMD_FLAG_PENDING_STORE CMD_FLAG_PENDING_STORE =? 0) with false. cbn [negb].
    change (q (after p x s)) with p. rewrite Ey. unfold app_notify_buffered. by rewrite Y1, Y3, Y4. }
  assert (commands [] p1 /\ flash_access p1 = FLASH_ACCESS_IDLE /\ m_round_val p1 = 0 /\ m_app_table p1 = m_app_table (q s) /\
    m_lazy_erase_active p1 = false) as (H1 & H2 & H3 & H4 & H5).
  { unfold p1. rewrite Eq. split; [by apply (commands_same _ _ _ Hc)|]. unfold popped in Ep. rewrite Ep. done. }
  cbn [mbind option_bind]. rewrite notified by (change (q (after p1 x s)) with p1; rewrite H4; by apply (st_callback _ _ _ _ _ _ C)).
  assert (concat (dn ++ [d]) = concat dn ++ d) as Ec by (rewrite concat_app; cbn; by rewrite app_nil_r).
  apply (goes_on_stored fuel _ _ _ _ _ _ []); try done; [|by right].
  apply (chunk_written w0 dn [] (d :: pd) e s d [] pd); try done; rewrite ?app_nil_r, Ec, ?lenZ_app.
  - intros i Hi. destruct (decide (i < lenZ (concat dn))); [|apply Hfl; lia]. apply (st_erased _ _ _ _ _ _ C). rewrite app_nil_r. lia.
  - unfold p1. cbn. by apply (buffered_same _ _ _ _ _ B').
Qed.

(** The handler returns with the module in a proper state, nothing lost, and
    [n] more chunks in flash or pages erased. *)
Definition moves_on (w0 : W) (dn pl pd : list (list Z)) (e : list Z) (n : Z) (o : option dev) : Prop :=
  exists s' dn' pl' pd' e', o = Some s' /\ stored w0 dn' pl' pd' e' s' /\ dn' ++ pl' ++ pd' = dn ++ pl ++ pd /\
    lenZ dn' + erased_pages e' = lenZ dn + erased_pages e + n.

Lemma stays w0 dn pl pd e s : stored w0 dn pl pd e s -> moves_on w0 dn pl pd e 0 (Some s).
Proof. intros S. exists s, dn, pl, pd, e. split; [done|]. split; [done|]. split; [done|lia]. Qed.

(** The module's own request has completed: one more chunk is in flash, or one
    more page is erased. *)
Lemma own_completed fuel w0 dn pl pd e s c cs x : contents w0 dn pl pd e s -> doing e (lenZ (concat dn)) pl pd (q s) (c :: cs) ->
  commands (c :: cs) (q s) -> flash_access (q s) = FLASH_ACCESS_IN_FLIGHT -> sd_current x = None ->
  same_app (request_effect (request_of (q s) c) (sd_mem (soft s))) (sd_mem x) ->
  moves_on w0 dn pl pd e 1 (pstorage_sys_event_handler noting (S fuel) EVT_FLASH_OPERATION_SUCCESS (set_soft x s)).
Proof.
  intros C D Hc Hacc Hx Hm. pose proof (doing_sound _ _ _ _ _ _ _ C D) as Hs. inversion Hs as [|? ? [Ho _] _]; subst.
  destruct (handler_completes (S fuel) c cs (set_soft x s) Hc (st_round _ _ _ _ _ _ C) Ho Hacc) as (p & -> & Hp & Ep).
  change (set_q p (set_soft x s)) with (after p x s). change (q (set_soft x s)) with (q s) in Ep. fold (popped p s) in Ep.
  assert (forall d (l : list (list Z)), (dn ++ [d]) ++ l = dn ++ d :: l) as Ea by (intros; by rewrite <- app_assoc).
  assert (forall d, lenZ (dn ++ [d]) = lenZ dn + 1) as El by (intros; by rewrite lenZ_app).
  remember (c :: cs) as cs0 eqn:Ecs. destruct D as [Hla Hpr Epd|page Hla Hpg Hpr Hne Hpage Hz|d rest Hla Hpr Epl Epd Hfl].
  - destruct pl as [|d pl]; [done|]. injection Ecs as <- <-.
    destruct (store_completed fuel w0 dn d pl pd e s _ p x C Ep Hp Hx Hm) as (s' & E & S); [by apply Plain|].
    exists s', (dn ++ [d]), pl, pd, e. split; [exact E|]. split; [exact S|]. split; [apply Ea|rewrite El; lia].
  - destruct pl as [|d pl]; injection Ecs as <- <-.
    + destruct (erase_completed fuel w0 dn pd e s page p x C Ep Hp Hx Hm) as (s' & E & S); try done.
      exists s', dn, [], pd, (put e page [1]). split; [exact E|]. split; [exact S|]. split; [done|].
      rewrite erased_pages_put; [lia|done|by apply (st_table _ _ _ _ _ _ C)|done].
    + destruct (store_completed fuel w0 dn d pl pd e s _ p x C Ep Hp Hx Hm) as (s' & E & S); [by apply Erasing|].
      exists s', (dn ++ [d]), pl, pd, e. split; [exact E|]. split; [exact S|]. split; [apply Ea|rewrite El; lia].
  - subst pl pd. injection Ecs as <- <-.
    destruct (flush_completed fuel w0 dn d rest e s p x C Ep Hp Hx Hm Hla Hfl) as (s' & E & S).
    exists s', (dn ++ [d]), [], rest, e. split; [exact E|]. split; [exact S|]. split; [apply Ea|rewrite El; lia].
Qed.

(** * Polling the SoftDevice *)

(** The SoftDevice does what it accepts. *)
Definition reliable : Prop :=
  forall x r, sd_current x = Some (Some r) -> fst (sd_evt_get x) <> Some EVT_FLASH_OPERATION_ERROR.
Definition own_completion (s : dev) : Z :=
  match sd_current (soft s), fst (sd_evt_get (soft s)) with
  | Some (Some _), Some EVT_FLASH_OPERATION_SUCCESS => 1
  | _, _ => 0
  end.

Lemma soft_changed w0 dn pl pd e s cs x : contents w0 dn pl pd e s -> doing e (lenZ (concat dn)) pl pd (q s) cs -> commands cs (q s) ->
  access_ok cs (set_soft x s) -> same_app (sd_mem (soft s)) (sd_mem x) -> stored w0 dn pl pd e (set_soft x s).
Proof. intros C D Hc A Hm. split; [by apply (contents_kept _ _ _ _ _ _ _ C)|]. by exists cs. Qed.

Lemma poll_step fuel w0 dn pl pd e s : reliable -> stored w0 dn pl pd e s ->
  moves_on w0 dn pl pd e (own_completion s) (snd <$> proc_soc noting (S fuel) s).
Proof.
  intros R [C (cs & D & Hc & A)]. unfold proc_soc, own_completion. pose proof (sd_event (soft s)) as Hev. specialize (R (soft s)).
  destruct (sd_evt_get (soft s)) as [ev x]. cbn [fst] in *. destruct Hev as [Hcur Hm].
  assert (access_ok cs (set_soft x s) -> same_app (sd_mem (soft s)) (sd_mem x) -> moves_on w0 dn pl pd e 0 (Some (set_soft x s))) as Hquiet.
  { intros A' Hm'. apply stays. by apply (soft_changed _ _ _ _ _ _ cs). }
  destruct cs as [|c cs].
  - (* nothing asked for *)
    destruct A as [Hacc Hcu]. assert (access_ok [] (set_soft x s) /\ same_app (sd_mem (soft s)) (sd_mem x)) as [A' Hm'].
    { destruct (sd_current (soft s)) as [[r|]|]; [by specialize (Hcu ltac:(done))| |]; destruct ev as [[| |]|]; split; try done; (split; [done|]);
        cbn [soft set_soft]; try done; by rewrite Hcur. }
    assert (match sd_current (soft s), ev with Some (Some _), Some EVT_FLASH_OPERATION_SUCCESS => 1 | _, _ => 0 end = 0) as ->.
    { destruct (sd_current (soft s)) as [[r|]|]; [by specialize (Hcu ltac:(done))|done..]. }
    specialize (Hquiet A' Hm'). destruct ev as [[| |]|]; try exact Hquiet; cbn [pstorage_sys_event_handler q set_soft]; rewrite Hacc; exact Hquiet.
  - destruct A as [[Hacc Hcu]|[Hacc Hcu]]; rewrite Hcu in *.
    + destruct ev as [[| |]|].
      * pose proof (own_completed fuel w0 dn pl pd e s c cs x C D Hc Hacc Hcur Hm) as Ho.
        by destruct (pstorage_sys_event_handler noting (S fuel) _ _) as [s'|].
      * by specialize (R _ eq_refl).
      * apply Hquiet; [|done]. left. cbn. by rewrite Hcur.
      * apply Hquiet; [|done]. left. cbn. by rewrite Hcur.
    + destruct ev as [[| |]|].
      1,2: destruct (goes_on_next fuel w0 dn pl pd e (set_q (set_access FLASH_ACCESS_IDLE (q s)) (set_soft x s)) (c :: cs)) as (s' & E & S);
        [by apply (contents_kept _ _ _ _ _ _ _ C)|by apply (doing_same _ _ _ _ _ _ _ D)|by apply (commands_same _ _ _ Hc)|done|cbn; by rewrite Hcur|done|];
        unfold pstorage_sys_event_handler; change (q (set_soft x s)) with (q s); rewrite Hacc, bool_decide_true by done; rewrite E; by apply stays.
      * apply Hquiet; [|done]. right. cbn. by rewrite Hcur.
      * apply Hquiet; [|done]. right. cbn. by rewrite Hcur.
Qed.
End Stores.

(** * Sessions *)

Section Session.
Context `{SoftDeviceSpec} (base npages : Z).
Abbreviation dev := (@dev _ (list notification)).

(** The DFU engine's use of the module: it stores the next chunk, or the main
    loop polls the SoftDevice.  The callbacks are written down. *)
Inductive action := AStore (d : list Z) | APoll.
Definition logged : notification -> list notification -> cb_prog (W := list notification) := noting (fun n w => w ++ [n]).

(** What was accepted; for each store refused for lack of room, how many chunks
    were outstanding; how many of the module's requests have completed. *)
Record session_run := mk_run { accepted : list (list Z); refused : list Z; completed : Z; device : dev }.

Definition session_step (fuel : nat) (a : action) (r : session_run) : option session_run :=
  let s := device r in
  match a with
  | AStore d =>
    let '(code, s') := pstorage_store (bank_handle base 0) d true (lenZ d) (lenZ (concat (accepted r))) s in
    if code =? NRF_SUCCESS then Some (mk_run (accepted r ++ [d]) (refused r) (completed r) s')
    else if code =? NRF_ERROR_NO_MEM then
      Some (mk_run (accepted r) (refused r ++ [lenZ (accepted r) - lenZ (world s')]) (completed r) s')
    else None
  | APoll => '(_, s') ← proc_soc logged fuel s; Some (mk_run (accepted r) (refused r) (completed r + own_completion s) s')
  end.
Definition session (fuel : nat) (acts : list action) (r : session_run) : option session_run :=
  foldl (fun r a => r ← r; session_step fuel a r) (Some r) acts.

Definition data_of (a : action) : list Z := match a with AStore d => d | APoll => [] end.
Definition action_ok (a : action) : Prop := match a with AStore d => chunk_ok d | APoll => True end.

(** A run under way: [pl] and [pd] are accepted and wait, the first [dn] chunks
    are in flash. *)
Definition under_way (e0 : list Z) (r : session_run) : Prop :=
  exists dn pl pd e, accepted r = dn ++ pl ++ pd /\ stored (fun n w => w ++ [n]) base npages 0 [] dn pl pd e (device r) /\
    completed r = lenZ dn + erased_pages npages e - erased_pages npages e0 /\ Forall (fun n => PENDING_PACKET_COUNT <= n) (refused r).

Context (bank : bank_ok base npages 0) (healthy : reliable).

Lemma notes_world dn : fold_left (fun w d => w ++ [note_of base 0 d]) dn [] = note_of base 0 <$> dn.
Proof. assert (forall w, fold_left (fun w d => w ++ [note_of base 0 d]) dn w = w ++ (note_of base 0 <$> dn)) as E.
  { induction dn as [|d dn IH]; intros w; cbn; [by rewrite app_nil_r|]. by rewrite IH, <- app_assoc. }
  apply E.
Qed.

Lemma session_stepped fuel e0 a r : under_way e0 r -> action_ok a ->
  lenZ (concat (accepted r)) + lenZ (data_of a) <= npages * PSTORAGE_FLASH_PAGE_SIZE ->
  exists r', session_step (S fuel) a r = Some r' /\ under_way e0 r' /\ lenZ (concat (accepted r')) <= lenZ (concat (accepted r)) + lenZ (data_of a).
Proof.
  intros (dn & pl & pd & e & Ea & S & Ec & Hr) Ha Hf. destruct a as [d|]; unfold session_step.
  - rewrite Ea. assert (next_chunk npages dn pl pd d) as N.
    { split; [exact Ha|]. replace (dn ++ pl ++ pd ++ [d]) with ((dn ++ pl ++ pd) ++ [d]) by (by rewrite <- !app_assoc).
      rewrite <- Ea, concat_app_len. cbn [concat data_of] in *. by rewrite app_nil_r. }
    destruct (store_step _ base npages 0 bank _ _ _ _ _ _ _ S N) as (code & s' & pl' & pd' & E & S' & Hcase).
    unfold bank_store, next_offset in E. rewrite E. destruct Hcase as [[-> Ep]|(-> & -> & -> & Hfull)].
    + cbn [Z.eqb NRF_SUCCESS]. eexists. split; [reflexivity|]. split.
      * exists dn, pl', pd', e. cbn [accepted device completed refused]. split; [by rewrite Ep, <- !app_assoc|]. by split.
      * cbn [accepted data_of]. rewrite (concat_app_len (dn ++ pl ++ pd)). cbn [concat]. by rewrite app_nil_r.
    + change (NRF_ERROR_NO_MEM =? NRF_SUCCESS) with false. change (NRF_ERROR_NO_MEM =? NRF_ERROR_NO_MEM) with true. cbv iota.
      eexists. split; [reflexivity|]. split; [|cbn [accepted data_of]; pose proof (lenZ_nonneg d); lia].
      exists dn, pl, pd, e. cbn [accepted device completed refused]. split; [done|]. split; [done|]. split; [done|].
      apply Forall_app. split; [done|]. constructor; [|done].
      rewrite (st_world _ _ _ _ _ _ _ _ _ _ (proj1 S')), notes_world, !lenZ_app. unfold lenZ. rewrite length_fmap.
      unfold PENDING_PACKET_COUNT, PSTORAGE_CMD_QUEUE_SIZE, lenZ in *. lia.
  - destruct (poll_step (fun n w => w ++ [n]) base npages 0 bank fuel _ _ _ _ _ _ healthy S) as (s' & dn' & pl' & pd' & e' & E & S' & Ep & En).
    change (noting (fun n w => w ++ [n])) with logged in E.
    destruct (proc_soc logged (Datatypes.S fuel) (device r)) as [[code s1]|]; [|done]. injection E as ->. cbn [mbind option_bind].
    eexists. split; [reflexivity|]. cbn [accepted data_of]. split; [|rewrite lenZ_nil; lia].
    exists dn', pl', pd', e'. cbn [accepted device completed refused]. split; [by rewrite Ep|]. split; [done|]. split; [lia|done].
Qed.

Lemma session_run_on fuel e0 acts : Forall action_ok acts -> forall r, under_way e0 r ->
  lenZ (concat (accepted r)) + lenZ (concat (data_of <$> acts)) <= npages * PSTORAGE_FLASH_PAGE_SIZE ->
  exists r', session (S fuel) acts r = Some r' /\ under_way e0 r'.
Proof.
  unfold session. induction 1 as [|a acts Ha _ IH]; intros r U Hf; [by exists r|]. cbn [fmap list_fmap concat] in Hf. rewrite lenZ_app in Hf.
  pose proof (lenZ_nonneg (concat (data_of <$> acts))).
  destruct (session_stepped fuel e0 a r U Ha) as (r1 & E & U1 & Hlen); [unfold fmap in *; lia|].
  cbn [foldl]. cbn [mbind option_bind]. rewrite E. apply IH; [done|]. unfold fmap in *. lia.
Qed.

(** The stores asked for, in order. *)
Fixpoint stores (acts : list action) : list (list Z) :=
  match acts with [] => [] | AStore d :: acts => d :: stores acts | APoll :: acts => stores acts end.

Lemma session_accepts fuel acts : forall r r', session fuel acts r = Some r' -> exists got,
  accepted r' = accepted r ++ got /\ got `sublist_of` stores acts /\ lenZ got + lenZ (refused r') - lenZ (refused r) = lenZ (stores acts).
Proof.
  unfold session. induction acts as [|a acts IH]; intros r r'; cbn [foldl].
  { intros [= <-]. exists []. rewrite app_nil_r. split; [done|]. split; [done|]. cbn [stores]. rewrite lenZ_nil. lia. }
  cbn [mbind option_bind]. destruct (session_step fuel a r) as [r1|] eqn:E1.
  2:{ intros E. exfalso. clear -E. induction acts; [done|auto]. }
  intros E. destruct (IH _ _ E) as (got & Eg & Hs & Hn). destruct a as [d|]; cbn [session_step] in E1.
  - destruct (pstorage_store _ _ _ _ _ _) as [code s']. cbn [stores]. destruct (code =? NRF_SUCCESS); [|destruct (code =? NRF_ERROR_NO_MEM); [|done]];
      injection E1 as <-; cbn [accepted refused] in *.
    + exists (d :: got). rewrite Eg, <- app_assoc. split; [done|]. split; [by apply sublist_skip|]. rewrite !lenZ_cons. lia.
    + exists got. split; [done|]. split; [by apply sublist_cons|]. rewrite lenZ_cons. rewrite lenZ_app in Hn. change (lenZ [_]) with 1 in Hn. lia.
  - destruct (proc_soc _ _ _) as [[code s']|]; [|done]. injection E1 as <-. by exists got.
Qed.

(** What the DFU engine's start leaves: the module initialised, its callback
    registered and no page of the bank known to be erased. *)
Definition started (s : dev) : dev := snd (pstorage_register true (snd (pstorage_init s))).
Record startable (e : list Z) (s : dev) : Prop := {
  sa_ring : lenZ (m_pending_packets (q s)) = PENDING_PACKET_COUNT /\ Forall (fun x => lenZ (pp_data x) = PENDING_PACKET_SIZE) (m_pending_packets (q s));
  sa_table : lz s = mk_lazy (Some e) npages base /\ npages <= lenZ e /\ Forall (fun f => f = 0) e;
  sa_soft : sd_current (soft s) <> None -> sd_current (soft s) = Some None;
  sa_world : world s = []
}.

Lemma started_stored e s : startable e s -> stored (fun n w => w ++ [n]) base npages 0 [] [] [] [] e (started s).
Proof.
  intros [[R1 R2] (T1 & T2 & T3) Hs Hw]. assert (forall i, ~ flagged e i) as Hz.
  { intros i Hf. apply Hf. unfold nthZ. rewrite nth_lookup. destruct (e !! _) as [f|] eqn:E; [|done]. rewrite Forall_lookup in T3. by apply (T3 _ _ E). }
  split.
  - constructor; try done.
    + destruct bank as (_ & ? & _). unfold PSTORAGE_FLASH_PAGE_SIZE. change (lenZ _) with 0. lia.
    + intros i Hi. change (0 <= i < 0) in Hi. lia.
    + split; intros i Hi; [change (0 <= i < 0) in Hi; lia|intros Hf; by destruct (Hz i)].
    + constructor; try done. unfold started. cbn. unfold lenZ. by rewrite length_fmap.
      unfold started. cbn. apply Forall_fmap. eapply Forall_impl; [|exact R2]. done.
  - exists []. split; [by apply (Plain _ _ _ _ _ [] [])|]. split; [|split; [done|exact Hs]]. constructor; try done.
Qed.

Lemma erased_pages_range e : 0 <= npages -> 0 <= erased_pages npages e <= npages.
Proof.
  intros Hn. unfold erased_pages. split; [apply lenZ_nonneg|].
  pose proof (length_filter (fun f => f <> 0) (take (Z.to_nat npages) e)) as Hl. rewrite length_take in Hl. unfold lenZ. lia.
Qed.

(** C20: the flash queue stores exactly what it accepts, on a SoftDevice whose
    flash works: no operation it has taken ends in [NRF_EVT_FLASH_OPERATION_ERROR]
    ([reliable]; such an event drops the pending chunks, each with an error callback). From [pstorage_init] on,
    let the engine store consecutive chunks of at most a pending buffer into the
    bank, and poll the SoftDevice in between, in any order, while the SoftDevice
    may be busy with its own flash requests. A store is refused only for lack of
    room, and then at least eight accepted chunks are outstanding. The callbacks
    come once per chunk, in order, each after its chunk is in flash: the bank
    starts with exactly those chunks, although no page was erased beforehand.
    While a chunk is outstanding the SoftDevice is working, so the queue never
    stalls; and it needs at most one request per chunk and one per page. *)
Theorem pstorage_stores_exact fuel e s acts : startable e s -> Forall action_ok acts ->
  lenZ (concat (data_of <$> acts)) <= npages * PSTORAGE_FLASH_PAGE_SIZE ->
  exists r, session (S fuel) acts (mk_run [] [] 0 (started s)) = Some r /\
    accepted r `sublist_of` stores acts /\ lenZ (accepted r) + lenZ (refused r) = lenZ (stores acts) /\
    Forall (fun n => 8 <= n) (refused r) /\
    let n := length (world (device r)) in
    let in_flash := concat (take n (accepted r)) in
    world (device r) = note_of base 0 <$> take n (accepted r) /\
    mem_read (sd_mem (soft (device r))) base (lenZ in_flash) = in_flash /\
    ((n < length (accepted r))%nat -> sd_current (soft (device r)) <> None) /\
    completed r <= lenZ (accepted r) + npages.
Proof.
  intros Hs Ha Hf. assert (under_way e (mk_run [] [] 0 (started s))) as U.
  { exists [], [], [], e. split; [done|]. split; [by apply started_stored|]. split; [cbn [completed]; change (lenZ _) with 0; lia|done]. }
  destruct (session_run_on fuel e acts Ha _ U Hf) as (r & E & (dn & pl & pd & e' & Ea & S & Ec & Hr)).
  exists r. split; [exact E|]. destruct (session_accepts _ _ _ _ E) as (got & Eg & Hsub & Hn). cbn [accepted refused app] in *.
  rewrite Eg. split; [done|]. change (lenZ (@nil Z)) with 0 in Hn. split; [lia|]. split; [exact Hr|]. rewrite <- Eg, Ea.
  destruct S as [C (cs & D & _ & A)]. pose proof (st_world _ _ _ _ _ _ _ _ _ _ C) as Hw. rewrite notes_world in Hw.
  rewrite Hw, length_fmap, take_app_length. cbv zeta. split; [done|].
  destruct (st_flash _ _ _ _ _ _ _ _ _ _ C) as [F _]. split; [|split].
  - apply eq_by_nthZ; rewrite ?lenZ_mem_read by apply lenZ_nonneg; [done|]. intros i Hi. rewrite nthZ_mem_read by done. by apply F.
  - intros Hlt. destruct D as [_ _ Epd|page _ _ _ _ _ _|d rest _ _ _ _ _].
    + destruct pl as [|d pl]; [subst pd; rewrite !app_nil_r in Hlt; lia|]. cbn in A. destruct A as [[_ ->]|[_ ->]]; done.
    + destruct pl as [|d pl]; cbn in A; destruct A as [[_ ->]|[_ ->]]; done.
    + cbn in A. destruct A as [[_ ->]|[_ ->]]; done.
  - destruct bank as (_ & Hnp & _). pose proof (erased_pages_range e ltac:(lia)). pose proof (erased_pages_range e' ltac:(lia)).
    rewrite Ec, !lenZ_app. pose proof (lenZ_nonneg pl). pose proof (lenZ_nonneg pd). lia.
Qed.
End Session.

(** * A concrete SoftDevice *)

(** It is done with a request at the next poll, unless [slow] says the poll comes
    too early. *)
Record demo_sd := mk_demo { dm_current : option (option sd_request); dm_mem : mem; slow : list bool }.
Definition too_early (x : demo_sd) : bool := match slow x with b :: _ => b | [] => false end.
#[global] Instance demo_softdevice : SoftDevice := {|
  sd := demo_sd;
  sd_flash_request r x :=
    match dm_current x with
    | None => (NRF_SUCCESS, mk_demo (Some (Some r)) (dm_mem x) (slow x))
    | Some _ => (NRF_ERROR_BUSY, x)
    end
|}.
#[global, refine] Instance demo_spec : @SoftDeviceSpec demo_softdevice := {|
  sd_evt_get := fun x : @sd demo_softdevice =>
    if too_early x then (Some EVT_OTHER, mk_demo (dm_current x) (dm_mem x) (tail (slow x))) else
    match dm_current x with
    | None => (None, x)
    | Some None => (Some EVT_FLASH_OPERATION_SUCCESS, mk_demo None (dm_mem x) (tail (slow x)))
    | Some (Some r) => (Some EVT_FLASH_OPERATION_SUCCESS, mk_demo None (request_effect r (dm_mem x)) (tail (slow x)))
    end;
  app_start := 0x26000; app_end := 0x74000; sd_mem := dm_mem; sd_current := dm_current
|}.
Proof.
  - intros r x _ E. cbn in *. rewrite E. eexists. split; [reflexivity|]. done.
  - intros r x E. cbn in *. destruct (dm_current x) as [c|] eqn:Ec; [|done]. exists x. by rewrite Ec.
  - intros x. cbn. destruct (too_early x), (dm_current x) as [[r|]|] eqn:Ec; cbn; rewrite ?Ec; try done.
Defined.

(** Three chunks across a page boundary, the first polls on the SoftDevice's own
    request, and a fourth chunk after the others are in flash. *)
Definition demo_chunk (b : Z) : list Z := replicate 256 b.
Definition demo_queue : pstorage :=
  mk_ps 3 0 FLASH_ACCESS_IDLE [] [] 0 7 (replicate 8 (mk_pending true (mk_handle 0 0) 0 0 [] (replicate 256 170))) 5 1 4 true 9 true.
Definition demo_table : list Z := [0; 0; 0].
Definition demo_dev : @dev demo_softdevice (list notification) :=
  @mk_dev demo_softdevice _ demo_queue (mk_lazy (Some demo_table) 2 0x30000) (mk_demo (Some None) (fun _ => 85) [true; false; true]) [].
Definition demo_actions : list action :=
  [AStore (demo_chunk 1); AStore (demo_chunk 2); APoll; APoll; APoll; AStore (demo_chunk 3); APoll; APoll; APoll; APoll; AStore (demo_chunk 4)].

Lemma pstorage_stores_exact_witness :
  exists r, session 0x30000 1 demo_actions (mk_run [] [] 0 (started demo_dev)) = Some r /\
    accepted r = demo_chunk <$> [1; 2; 3; 4] /\ length (world (device r)) = 3%nat /\
    mem_read (sd_mem (soft (device r))) 0x30000 768 = concat (demo_chunk <$> [1; 2; 3]).
Proof.
  destruct (pstorage_stores_exact 0x30000 2) with (fuel := 0%nat) (e := demo_table) (s := demo_dev) (acts := demo_actions) as (r & E & _ & _ & _ & Hw & Hm & _).
  - unfold bank_ok. split_and!; vm_compute; reflexivity || discriminate.
  - intros x q. cbn. destruct (too_early x); [done|]. by destruct (dm_current x) as [[|]|].
  - constructor; try (cbn; done). split; [done|]. apply Forall_forall. intros y Hy. apply list_elem_of_In, elem_of_replicate in Hy as [-> _]. done.
    split; [done|]. split; [done|]. repeat constructor.
  - assert (forall b, is_byte b -> chunk_ok (demo_chunk b)) as Hc.
    { intros b Hb. split; [by vm_compute|]. split; [reflexivity|]. by apply Forall_replicate. }
    unfold demo_actions. repeat (apply Forall_cons; [first [exact I|apply Hc; unfold is_byte; lia]|]). constructor.
  - vm_compute. discriminate.
  - exists r. split; [exact E|].
    assert ((fun r => (accepted r, length (world (device r)))) <$> session 0x30000 1 demo_actions (mk_run [] [] 0 (started demo_dev)) =
      Some (demo_chunk <$> [1; 2; 3; 4], 3%nat)) as Er by (vm_compute; reflexivity).
    rewrite E in Er. injection Er as Ea En. split; [exact Ea|]. split; [exact En|]. rewrite Ea, En in Hm. exact Hm.
Defined.
