(* ===== verification/Boot.v ===== *)
(** Start-up and the control loop: [main] and [check_dfu_mode] of [main.c],
    [dfu_entry.h], [dfu_timeout.h], [usb_wait.c], and the session control of
    [bootloader.c] ([bootloader_dfu_start], [wait_for_events],
    [bootloader_dfu_update_process] and the callbacks around them), for the chips
    with USB (the nRF52832 runs a timed serial session in place of the double-reset
    window and is not described).  A boot starts from what survives a reset; the transports and engines
    appear as the events they cause while the loop waits. *)
From S2P Require Import Prelude Crc BootImage Nvm DfuTypes Settings.

Definition DFU_MAGIC_OTA_APPJUM : Z := 0xB1.
Definition DFU_MAGIC_OTA_RESET : Z := 0xA8.
Definition DFU_MAGIC_SERIAL_ONLY_RESET : Z := 0x4e.
Definition DFU_MAGIC_UF2_RESET : Z := 0x57.
Definition DFU_MAGIC_SKIP : Z := 0x6d.
Definition DFU_DBL_RESET_MAGIC : Z := 0x5A1AD5.
Definition DFU_DBL_RESET_APP : Z := 0x4ee5677e.
Definition DFU_DBL_RESET_DELAY : Z := 500.
Definition DFU_USB_ENUMERATION_TIMEOUT_MS : Z := 30000.
Definition DFU_USB_VBUS_SETTLE_MS : Z := 3000.
Definition DFU_SINGLE_TAP_TIMEOUT_MS : Z := 3000.

(** * Small helpers *)

Definition dfu_entry_reset_magic (gpregret : Z) : Z :=
  if gpregret =? DFU_MAGIC_OTA_APPJUM then DFU_MAGIC_OTA_RESET else gpregret.

Inductive dfu_single_button_route :=
  DFU_SINGLE_BUTTON_UNCHANGED | DFU_SINGLE_BUTTON_USB | DFU_SINGLE_BUTTON_BLE | DFU_SINGLE_BUTTON_USB_PROBE.
Definition dfu_entry_single_button_route (explicit_ble explicit_usb double_reset button_held : bool) : dfu_single_button_route :=
  if explicit_ble then DFU_SINGLE_BUTTON_BLE
  else if explicit_usb || double_reset then DFU_SINGLE_BUTTON_USB
  else if button_held then DFU_SINGLE_BUTTON_USB_PROBE else DFU_SINGLE_BUTTON_UNCHANGED.

Definition dfu_timeout_ticks (milliseconds : Z) : Z :=
  let whole := milliseconds / 125 in
  let remainder := u32 (milliseconds - u32 (whole * 125)) in
  u32 (u32 (Z.shiftl whole 12) + u32 (u32 (remainder * 4096) + 62) / 125).

Definition dfu_buttonless_timeout_ms (serial_only_dfu uf2_dfu : bool) : Z :=
  if serial_only_dfu || uf2_dfu then DFU_USB_ENUMERATION_TIMEOUT_MS else DFU_SINGLE_TAP_TIMEOUT_MS.

(** * State *)

(** What survives a reset: the general-purpose retention register, the sticky
    RESETPIN bit of RESETREAS, the double-reset word in RAM and the flash. *)
Record retained := mk_retained { GPREGRET : Z; RESETPIN : bool; dbl_reset_mem : Z; code : mem }.

Inductive bootloader_status :=
  BOOTLOADER_UPDATING | BOOTLOADER_SETTINGS_SAVING | BOOTLOADER_COMPLETE | BOOTLOADER_TIMEOUT | BOOTLOADER_SYS_RESET | BOOTLOADER_RESET_TO_SELF.
#[export] Instance bootloader_status_eq_dec : EqDecision bootloader_status.
Proof. solve_decision. Defined.

(** The statics of [bootloader.c]; [startup_timer] tells whether it is armed. *)
Record control := mk_control {
  m_update_status : bootloader_status; m_cancel_timeout_on_usb : bool; m_usb_was_mounted : bool;
  m_startup_dfu_has_activity : bool; m_app_update_complete : bool; m_settings_store_pending : Z; startup_timer : option Z
}.
Definition control_init : control := mk_control BOOTLOADER_UPDATING false false false false 0 None.

(** Operations of the settings module in the flash queue. *)
Inductive settings_op := Settings_clear | Settings_store (offset : Z) (data : list Z).

(** [dfu_update_status_t] as the engines report it. *)
Inductive update_status := Update (u : save_status) | Dfu_timeout | Dfu_reset (restart_into_bootloader : bool) | Other_status.

(** What the engines do to the record: report a status, or clear its first word
    ([flash_nrf5x_invalidate_app_settings], when a UF2 transfer begins to rewrite
    the application). *)
Inductive report := Reported (u : update_status) | Settings_invalidated.

(** What is done to the outside world. *)
Inductive boot_action :=
| Usb_init (cdc_only : bool) | Usb_teardown | Ble_start | Softdevice_disable | Mbr_init_sd
| Dfu_start (ota : bool) (timeout_ms : Z) (cancel_timeout_on_usb : bool)
| Flash_protect (address size : Z).

(** A boot under way; [reported] lists the reports for the theorems. *)
Record boot := mk_boot {
  kept : retained; ota_dfu : bool; ota_was_connected : bool; sd_inited : bool; now : Z;
  control_of : control; settings_queue : list settings_op; actions : list boot_action; reported : list report
}.
Definition start (r : retained) : boot := mk_boot r false false false 0 control_init [] [] [].

(** How a boot ends: reset, application started at an address, an error that the
    error handler ends with a reset, or still in the wait loop. *)
Inductive outcome := System_reset | App_started (app_addr : Z) | App_error | Waiting.

(** Field updates. *)
Definition set_kept (r : retained) (s : boot) : boot :=
  mk_boot r (ota_dfu s) (ota_was_connected s) (sd_inited s) (now s) (control_of s) (settings_queue s) (actions s) (reported s).
Definition set_gpregret (g : Z) (s : boot) : boot :=
  set_kept (mk_retained g (RESETPIN (kept s)) (dbl_reset_mem (kept s)) (code (kept s))) s.
Definition set_dbl_reset (d : Z) (s : boot) : boot :=
  set_kept (mk_retained (GPREGRET (kept s)) (RESETPIN (kept s)) d (code (kept s))) s.
Definition set_code (c : mem) (s : boot) : boot :=
  set_kept (mk_retained (GPREGRET (kept s)) (RESETPIN (kept s)) (dbl_reset_mem (kept s)) c) s.
Definition set_ota (b : bool) (s : boot) : boot :=
  mk_boot (kept s) b (ota_was_connected s) (sd_inited s) (now s) (control_of s) (settings_queue s) (actions s) (reported s).
Definition set_connected (s : boot) : boot :=
  mk_boot (kept s) (ota_dfu s) true (sd_inited s) (now s) (control_of s) (settings_queue s) (actions s) (reported s).
Definition set_sd_inited (b : bool) (s : boot) : boot :=
  mk_boot (kept s) (ota_dfu s) (ota_was_connected s) b (now s) (control_of s) (settings_queue s) (actions s) (reported s).
Definition delay_ms (d : Z) (s : boot) : boot :=
  mk_boot (kept s) (ota_dfu s) (ota_was_connected s) (sd_inited s) (now s + d) (control_of s) (settings_queue s) (actions s) (reported s).
Definition set_control (c : control) (s : boot) : boot :=
  mk_boot (kept s) (ota_dfu s) (ota_was_connected s) (sd_inited s) (now s) c (settings_queue s) (actions s) (reported s).
Definition set_settings_queue (l : list settings_op) (s : boot) : boot :=
  mk_boot (kept s) (ota_dfu s) (ota_was_connected s) (sd_inited s) (now s) (control_of s) l (actions s) (reported s).
Definition act (a : boot_action) (s : boot) : boot :=
  mk_boot (kept s) (ota_dfu s) (ota_was_connected s) (sd_inited s) (now s) (control_of s) (settings_queue s) (actions s ++ [a]) (reported s).
Definition note_report (u : report) (s : boot) : boot :=
  mk_boot (kept s) (ota_dfu s) (ota_was_connected s) (sd_inited s) (now s) (control_of s) (settings_queue s) (actions s) (reported s ++ [u]).
Definition set_status (u : bootloader_status) (c : control) : control :=
  mk_control u (m_cancel_timeout_on_usb c) (m_usb_was_mounted c) (m_startup_dfu_has_activity c) (m_app_update_complete c) (m_settings_store_pending c) (startup_timer c).
Definition set_store_pending (n : Z) (c : control) : control :=
  mk_control (m_update_status c) (m_cancel_timeout_on_usb c) (m_usb_was_mounted c) (m_startup_dfu_has_activity c) (m_app_update_complete c) n (startup_timer c).
Definition set_app_complete (c : control) : control :=
  mk_control (m_update_status c) (m_cancel_timeout_on_usb c) (m_usb_was_mounted c) (m_startup_dfu_has_activity c) true (m_settings_store_pending c) (startup_timer c).
Definition set_mounted (c : control) : control :=
  mk_control (m_update_status c) (m_cancel_timeout_on_usb c) true (m_startup_dfu_has_activity c) (m_app_update_complete c) (m_settings_store_pending c) (startup_timer c).
Definition with_control (f : control -> control) (s : boot) : boot := set_control (f (control_of s)) s.

(** A step goes on, or ends the boot. *)
Inductive res (A : Type) := Go (a : A) | Halt (o : outcome) (s : boot).
Arguments Go {A}. Arguments Halt {A}.
Definition res_bind {A B} (m : res A) (k : A -> res B) : res B := match m with Go a => k a | Halt o s => Halt o s end.
Notation "x <- m ;; k" := (res_bind m (fun x => k)) (at level 100, m at next level, right associativity).
Definition app_error_check (err_code : Z) (s : boot) : res boot := if err_code =? NRF_SUCCESS then Go s else Halt App_error s.

Section Boot.
Context `{Nvmc} (m : mcu) (ram_kb : Z).

Definition settings_now (s : boot) : bootloader_settings := settings_of_bytes (mem_read (code (kept s)) (BOOTLOADER_SETTINGS_ADDRESS m) SETTINGS_SIZE).
Definition app_valid (c : mem) : bool :=
  bootloader_app_is_valid m ram_kb (mem_word c) (mem_read c (DFU_BANK_0_REGION_START (mem_word c)))
    (settings_of_bytes (mem_read c (BOOTLOADER_SETTINGS_ADDRESS m) SETTINGS_SIZE)).
Definition bootloader_dfu_sd_in_progress (s : boot) : bool :=
  bootloader_update_settings_valid m (mem_word (code (kept s))) (settings_now s).

(** * The session *)

(** [pstorage_callback_handler] *)
Definition pstorage_callback_handler (store : bool) (result : Z) (s : boot) : res boot :=
  s <- app_error_check result s ;;
  let c := control_of s in
  if bool_decide (m_update_status c = BOOTLOADER_SETTINGS_SAVING) && store && negb (m_settings_store_pending c =? 0) then
    let c := set_store_pending (u8 (m_settings_store_pending c - 1)) c in
    Go (set_control (if m_settings_store_pending c =? 0 then set_status BOOTLOADER_COMPLETE c else c) s)
  else Go s.

(** [bootloader_settings_save]; over BLE the three operations join the flash
    queue, which takes them when it has room and completes them in order. *)
Definition settings_save (r : bootloader_settings) (s : boot) : res boot :=
  let bs := settings_bytes (bootloader_settings_seal r) in
  let a := BOOTLOADER_SETTINGS_ADDRESS m in
  if ota_dfu s then
    Go (with_control (set_store_pending 2)
          (set_settings_queue (settings_queue s ++
             [Settings_clear; Settings_store (GEOMETRY_WORD * 4) (drop 8 bs); Settings_store 0 (take 8 bs)]) s))
  else
    let c := nvmc_page_erase (code (kept s)) a in
    let c := nvmc_words_write c (a + GEOMETRY_WORD * 4) (drop 8 bs) in
    let c := nvmc_words_write c a (take 8 bs) in
    pstorage_callback_handler true NRF_SUCCESS (with_control (set_store_pending 1) (set_code c s)).

(** [close]: what closing the transport returns. *)
Definition bootloader_dfu_update_process (close : Z) (u : update_status) (s : boot) : res boot :=
  let s := note_report (Reported u) s in
  match u with
  | Update st =>
    let r := update_settings st (settings_now s) in
    let s := match st with Save_app_complete _ _ => with_control set_app_complete s | _ => s end in
    let s := match st with Save_bank_0_erased => s | _ => with_control (set_status BOOTLOADER_SETTINGS_SAVING) s end in
    settings_save r s
  | Dfu_timeout => s <- app_error_check close s ;; Go (with_control (set_status BOOTLOADER_TIMEOUT) s)
  | Dfu_reset restart => Go (with_control (set_status (if restart then BOOTLOADER_RESET_TO_SELF else BOOTLOADER_SYS_RESET)) s)
  | Other_status => Go s
  end.

Definition bootloader_timeout_startup_dfu (close : Z) (s : boot) : res boot :=
  if negb (m_startup_dfu_has_activity (control_of s)) then bootloader_dfu_update_process close Dfu_timeout s else Go s.

Definition dfu_startup_timer_handler (close : Z) (s : boot) : res boot :=
  let c := control_of s in
  if m_cancel_timeout_on_usb c && m_usb_was_mounted c then Go s else bootloader_timeout_startup_dfu close s.

(** What happens while the loop waits: an engine or a transport writes flash
    (outside the settings page), clears the record's first word, reports a status, marks activity, sees the volume
    mounted or a BLE connection; the startup timer fires; the flash queue completes
    an operation of the settings module. *)
Inductive boot_event :=
| Ev_code (f : mem -> mem) | Ev_status (u : update_status) | Ev_activity | Ev_usb_mounted | Ev_ble_connected
| Ev_startup_timer | Ev_settings_done (result : Z) | Ev_settings_invalidated.

Definition settings_op_effect (o : settings_op) (c : mem) : mem :=
  match o with
  | Settings_clear => nvmc_page_erase c (BOOTLOADER_SETTINGS_ADDRESS m)
  | Settings_store off d => nvmc_words_write c (BOOTLOADER_SETTINGS_ADDRESS m + off) d
  end.

Definition boot_event_step (close : Z) (e : boot_event) (s : boot) : res boot :=
  let c := control_of s in
  match e with
  | Ev_code f =>
    let old := code (kept s) in
    Go (set_code (fun x => if (BOOTLOADER_SETTINGS_ADDRESS m <=? x) && (x <? BOOTLOADER_SETTINGS_ADDRESS m + PAGE) then old x else f old x) s)
  | Ev_status u => bootloader_dfu_update_process close u s
  | Ev_activity =>
    Go (set_control (mk_control (m_update_status c) (m_cancel_timeout_on_usb c) (m_usb_was_mounted c) true (m_app_update_complete c) (m_settings_store_pending c) (startup_timer c)) s)
  | Ev_usb_mounted => Go (with_control set_mounted s)
  | Ev_ble_connected => Go (set_connected s)
  | Ev_startup_timer => match startup_timer c with Some _ => dfu_startup_timer_handler close s | None => Go s end
  | Ev_settings_done result =>
    match settings_queue s with
    | [] => Go s
    | o :: os =>
      pstorage_callback_handler (match o with Settings_store _ _ => true | Settings_clear => false end) result
        (set_settings_queue os (if result =? NRF_SUCCESS then set_code (settings_op_effect o (code (kept s))) s else s))
    end
  | Ev_settings_invalidated =>
    Go (note_report Settings_invalidated (set_code (nvmc_words_write (code (kept s)) (BOOTLOADER_SETTINGS_ADDRESS m) (bytes32 0)) s))
  end.

Fixpoint events_step (close : Z) (es : list boot_event) (s : boot) : res boot :=
  match es with [] => Go s | e :: es => s <- boot_event_step close e s ;; events_step close es s end.

Definition finished (c : control) : bool :=
  bool_decide (m_update_status c = BOOTLOADER_COMPLETE) || bool_decide (m_update_status c = BOOTLOADER_TIMEOUT) ||
  bool_decide (m_update_status c = BOOTLOADER_SYS_RESET) || bool_decide (m_update_status c = BOOTLOADER_RESET_TO_SELF).

(** A pass of the loop: its events, and whether VBUS is present after them. *)
Definition wait_round (close : Z) (r : list boot_event * bool) (s : boot) : res boot :=
  s <- events_step close (fst r) s ;;
  let c := control_of s in
  if m_cancel_timeout_on_usb c && m_usb_was_mounted c && negb (snd r) then bootloader_timeout_startup_dfu close s else Go s.

Fixpoint wait_for_events (close : Z) (rounds : list (list boot_event * bool)) (s : boot) : res boot :=
  match rounds with
  | [] => Halt Waiting s
  | r :: rounds => s <- wait_round close r s ;; if finished (control_of s) then Go s else wait_for_events close rounds s
  end.

(** * Selecting the mode *)

(** The options of a board: its buttons and what [board.h] says about them. *)
Record entry_build := mk_entry_build {
  BUTTON_DFU : bool; BUTTON_DFU_OTA : bool; BUTTON_DFU_PROBE_USB : bool; BUTTON_DFU_SKIP_HOLD : bool;
  BUTTON_DFU_DELAY_MS : option Z; DEFAULT_TO_OTA_DFU : bool
}.

(** What a boot meets, by the milliseconds since its start: the buttons, the USB
    port, the results of [dfu_init] and of closing the transport, and what happens
    in each pass of the wait loop. *)
Record boot_env := mk_env {
  button_dfu : Z -> bool; button_ota : Z -> bool; vbus : Z -> bool; tud_mounted : Z -> bool;
  dfu_init_result : Z; close_result : Z; rounds : list (list boot_event * bool)
}.
Context (bld : entry_build) (env : boot_env).

Fixpoint usb_wait_loop (n : nat) (elapsed_ms t : Z) : bool * Z :=
  match n with
  | O => (vbus env t && tud_mounted env t, t)
  | S n =>
    if vbus env t then if tud_mounted env t then (true, t) else usb_wait_loop n (elapsed_ms + 1) (t + 1)
    else if elapsed_ms >=? DFU_USB_VBUS_SETTLE_MS then (false, t) else usb_wait_loop n (elapsed_ms + 1) (t + 1)
  end.
(** The mount callback runs inside it when the host enumerates the device. *)
Definition usb_wait_for_mount (timeout_ms : Z) (s : boot) : bool * boot :=
  let '(r, t) := usb_wait_loop (Z.to_nat timeout_ms) 0 (now s) in
  let s := delay_ms (t - now s) s in (r, if r : bool then with_control set_mounted s else s).

(** Waiting for the button: until it is released or has been held long enough,
    which is remembered; or just for its release. *)
Fixpoint hold_latch (n : nat) (waited delay t : Z) : bool * Z :=
  match n with
  | O => (false, t)
  | S n =>
    if button_dfu env t then if waited >=? delay then (true, t) else hold_latch n (waited + 10) delay (t + 10)
    else (false, t)
  end.
Fixpoint release_wait (n : nat) (waited delay t : Z) : Z :=
  match n with
  | O => t
  | S n => if waited <? delay then if negb (button_dfu env t) then t else release_wait n (u16 (waited + 10)) delay (t + 10) else t
  end.

(** What [check_dfu_mode] reads from the registers. *)
Record entry := mk_entry { explicit_ble : bool; serial_only_dfu : bool; uf2_dfu : bool; dfu_skip : bool; double_reset : bool; explicit_start : bool }.
Definition read_entry (s : boot) : entry * boot :=
  let gpregret := GPREGRET (kept s) in
  let ble := (gpregret =? DFU_MAGIC_OTA_APPJUM) || (gpregret =? DFU_MAGIC_OTA_RESET) in
  let serial := gpregret =? DFU_MAGIC_SERIAL_ONLY_RESET in
  let uf2 := gpregret =? DFU_MAGIC_UF2_RESET in
  let skip := gpregret =? DFU_MAGIC_SKIP in
  let double := (dbl_reset_mem (kept s) =? DFU_DBL_RESET_MAGIC) && RESETPIN (kept s) in
  let dfu_start := ble || serial || uf2 || double in
  let s := set_ota ble (set_sd_inited (gpregret =? DFU_MAGIC_OTA_APPJUM) s) in
  (mk_entry ble serial uf2 skip double dfu_start, if dfu_start || skip then set_gpregret 0 s else s).

(** The buttons: [inl] when [check_dfu_mode] returns, [inr] with [dfu_start] and
    [dfu_button_pressed] when it goes on. *)
Definition read_buttons (e : entry) (s : boot) : boot + bool * bool * boot :=
  if dfu_skip e && (if BUTTON_DFU_SKIP_HOLD bld then negb (button_dfu env (now s)) else true) then inl s else
  let '(pressed, s) :=
    match BUTTON_DFU_DELAY_MS bld with
    | Some d =>
      if negb (BUTTON_DFU bld) then (false, s)
      else if BUTTON_DFU_PROBE_USB bld then
        if negb (explicit_start e) then let '(p, t) := hold_latch (Z.to_nat (d / 10 + 2)) 0 d (now s) in (p, delay_ms (t - now s) s) else (false, s)
      else let t := release_wait (Z.to_nat (d / 10 + 1)) 0 d (now s) in (false, delay_ms (t - now s) s)
    | None => (false, s)
    end in
  if negb (BUTTON_DFU bld) then inr (explicit_start e, false, s)
  else if BUTTON_DFU_PROBE_USB bld then
    let pressed := match BUTTON_DFU_DELAY_MS bld with Some _ => pressed | None => negb (explicit_start e) && button_dfu env (now s) end in
    if BUTTON_DFU_SKIP_HOLD bld && dfu_skip e && negb pressed then inl s else inr (explicit_start e || pressed, pressed, s)
  else inr (explicit_start e || button_dfu env (now s), false, s).

(** [APP_ASKS_FOR_SINGLE_TAP_RESET] *)
Definition app_asks_for_single_tap_reset (c : mem) : bool :=
  mem_word c (DFU_BANK_0_REGION_START (mem_word c) + 0x200) =? 0x87eeb07c.

(** What is decided before the double-reset window. *)
Record decision := mk_decision { valid_app : bool; app_single_tap : bool; just_start_app : bool; dfu_start : bool; dfu_button_pressed : bool }.
Definition decide_start (e : entry) (start pressed : bool) (s : boot) : decision * boot :=
  let s := if BUTTON_DFU bld && BUTTON_DFU_OTA bld then set_ota (ota_dfu s || (button_dfu env (now s) && button_ota env (now s))) s else s in
  let valid := app_valid (code (kept s)) in
  let just := valid && negb start && (dbl_reset_mem (kept s) =? DFU_DBL_RESET_APP) in
  let tap := app_asks_for_single_tap_reset (code (kept s)) in
  let start := start || (negb just && tap) in
  let s := if DEFAULT_TO_OTA_DFU bld && (negb valid || start) && negb (serial_only_dfu e) && negb (uf2_dfu e) then set_ota true s else s in
  (mk_decision valid tap just start pressed, s).

(** The first reset is remembered while the window is open. *)
Definition open_window (d : decision) (s : boot) : boot :=
  if negb (just_start_app d || dfu_start d) && RESETPIN (kept s) then set_dbl_reset DFU_DBL_RESET_MAGIC s else s.
Definition close_window (d : decision) (s : boot) : boot :=
  let s := if negb (just_start_app d || dfu_start d) && RESETPIN (kept s) then delay_ms DFU_DBL_RESET_DELAY s else s in
  set_dbl_reset (if app_single_tap d then DFU_DBL_RESET_APP else 0) s.

(** The transport: whether USB is probed first, and the single-button rule. *)
Definition choose_transport (e : entry) (d : decision) (s : boot) : bool * bool * boot :=
  let probe := negb (valid_app d) && negb (ota_dfu s) && negb (serial_only_dfu e) && negb (uf2_dfu e) && negb (double_reset e) in
  let s := if (dfu_start d || negb (valid_app d)) && negb (serial_only_dfu e) && negb (uf2_dfu e) && negb (double_reset e) && negb probe
           then set_ota true s else s in
  if BUTTON_DFU_PROBE_USB bld && BUTTON_DFU bld then
    match dfu_entry_single_button_route (explicit_ble e) (serial_only_dfu e || uf2_dfu e) (double_reset e) (dfu_button_pressed d) with
    | DFU_SINGLE_BUTTON_USB_PROBE => (true, true, set_ota false s)
    | DFU_SINGLE_BUTTON_USB => (probe, false, set_ota false s)
    | DFU_SINGLE_BUTTON_BLE => (probe, false, set_ota true s)
    | DFU_SINGLE_BUTTON_UNCHANGED => (probe, false, s)
    end
  else (probe, false, s).

Definition bootloader_dfu_start (ota : bool) (timeout_ms : Z) (cancel_timeout_on_usb : bool) (s : boot) : res boot :=
  let c := control_of s in
  let s := act (Dfu_start ota timeout_ms cancel_timeout_on_usb)
             (set_control (mk_control (m_update_status c) (cancel_timeout_on_usb && negb ota) false false false
                             (m_settings_store_pending c) (startup_timer c)) s) in
  if negb (dfu_init_result env =? NRF_SUCCESS) then Go s else
  let s := if negb ota && negb (timeout_ms =? 0) then
      let c := control_of s in
      set_control (mk_control (m_update_status c) (m_cancel_timeout_on_usb c) (m_usb_was_mounted c) (m_startup_dfu_has_activity c)
                     (m_app_update_complete c) (m_settings_store_pending c) (Some (dfu_timeout_ticks timeout_ms))) s
    else s in
  wait_for_events (close_result env) (rounds env) s.

(** The DFU branch of [check_dfu_mode]. *)
Definition enter_dfu (e : entry) (d : decision) (probe_usb single_button_probe : bool) (s : boot) : res boot :=
  let s := if negb (ota_dfu s) then set_sd_inited false (act Softdevice_disable s) else s in
  let s :=
    if probe_usb then
      let '(up, s) := usb_wait_for_mount DFU_USB_ENUMERATION_TIMEOUT_MS (act (Usb_init false) s) in
      if up : bool then s else set_ota true (act Usb_teardown s)
    else s in
  let s :=
    if ota_dfu s then act Ble_start (set_sd_inited true (if sd_inited s then s else act Mbr_init_sd s))
    else if negb probe_usb then act (Usb_init (serial_only_dfu e)) s else s in
  s <- (if (app_single_tap d || uf2_dfu e || serial_only_dfu e) && negb single_button_probe
        then bootloader_dfu_start (ota_dfu s) (dfu_buttonless_timeout_ms (serial_only_dfu e) (uf2_dfu e)) true s
        else bootloader_dfu_start (ota_dfu s) 0 probe_usb s) ;;
  Go (if ota_dfu s then act Usb_teardown (act Softdevice_disable s) else act Usb_teardown s).

(** [check_dfu_mode] up to the double-reset window, and after it. *)
Definition before_window (s : boot) : boot + entry * decision * boot :=
  let '(e, s) := read_entry s in
  match read_buttons e s with
  | inl s => inl s
  | inr (start, pressed, s) => let '(d, s) := decide_start e start pressed s in inr (e, d, open_window d s)
  end.
Definition after_window (e : entry) (d : decision) (s : boot) : res boot :=
  let s := close_window d s in
  let '(probe_usb, single_button_probe, s) := choose_transport e d s in
  if dfu_start d || negb (valid_app d) then enter_dfu e d probe_usb single_button_probe s else Go s.
Definition check_dfu_mode (s : boot) : res boot :=
  match before_window s with
  | inl s => Go s
  | inr (e, d, s) => after_window e d s
  end.

(** * The boot *)

(** [bootloader_util_flash_protect]: what it protects, when the arguments are
    acceptable; the protection registers themselves are the hardware's. *)
Definition bootloader_util_flash_protect (address size : Z) (s : boot) : boot :=
  if negb (Z.land size (CODE_PAGE_SIZE - 1) =? 0) || negb (Z.land address (CODE_PAGE_SIZE - 1) =? 0) ||
     (address >? BOOTLOADER_SETTINGS_ADDRESS m) then s
  else act (Flash_protect address size) s.

Definition bootloader_app_start (s : boot) : res boot :=
  let s := bootloader_util_flash_protect 0 MBR_SIZE s in
  let s := bootloader_util_flash_protect (BOOTLOADER_REGION_START m)
             (BOOTLOADER_SETTINGS_ADDRESS m + CODE_PAGE_SIZE - BOOTLOADER_REGION_START m) s in
  Halt (App_started (DFU_BANK_0_REGION_START (mem_word (code (kept s))))) s.

Definition bootloader_must_reset_to_self (s : boot) : bool := bool_decide (m_update_status (control_of s) = BOOTLOADER_RESET_TO_SELF).
Definition bootloader_dfu_app_update_complete (s : boot) : bool :=
  m_app_update_complete (control_of s) && bool_decide (m_update_status (control_of s) = BOOTLOADER_COMPLETE).

(** The image swap of [ImageSwap] ([None] when it ends in the error handler) and
    the staged-container updater of [OtaDelta], as [main] meets them: the flash,
    and for the updater the retained register too. *)
Context (bootloader_dfu_sd_update_continue : mem -> option mem) (ota_delta_check_and_apply : Z -> mem -> bool * Z * mem).

Definition continue_sd_update (s : boot) : res boot :=
  match bootloader_dfu_sd_update_continue (code (kept s)) with
  | None => Halt App_error s
  | Some c =>
    s <- bootloader_dfu_update_process (close_result env) (Update Save_sd_swapped) (set_code c s) ;;
    s <- wait_for_events (close_result env) (rounds env) s ;;
    Halt System_reset (set_gpregret 0 s)
  end.

Definition leave (s : boot) : res boot :=
  if bootloader_dfu_app_update_complete s then Halt System_reset s else
  let must_be_reentered := bootloader_must_reset_to_self s in
  let '(applied, g, c) := ota_delta_check_and_apply (GPREGRET (kept s)) (code (kept s)) in
  let s := set_code c (set_gpregret g s) in
  if applied : bool then Halt System_reset s else
  if negb must_be_reentered && app_valid (code (kept s)) && negb (bootloader_dfu_sd_in_progress s) then
    let s := if is_sd_existed (mem_word (code (kept s))) then act Softdevice_disable (if sd_inited s then s else act Mbr_init_sd s) else s in
    bootloader_app_start (set_dbl_reset 0 s)
  else Halt System_reset (if ota_was_connected s then set_gpregret DFU_MAGIC_OTA_RESET s else s).

Definition main_steps (s : boot) : res boot :=
  let requested_entry := u8 (GPREGRET (kept s)) in
  let reset_entry := dfu_entry_reset_magic requested_entry in
  if negb (reset_entry =? requested_entry) then Halt System_reset (set_gpregret reset_entry s) else
  if bootloader_dfu_sd_in_progress s then continue_sd_update s else
  s <- check_dfu_mode s ;; leave s.

(** A boot, from what the reset left; [main] does not return. *)
Definition main (r : retained) : outcome * boot :=
  match main_steps (start r) with Go s => (System_reset, s) | Halt o s => (o, s) end.
End Boot.

(** A pin reset sets its sticky bit; what else survives is kept. *)
Definition pin_reset (r : retained) : retained := mk_retained (GPREGRET r) true (dbl_reset_mem r) (code r).
