(* ===== verification/BootDecision.v ===== *)
(** What a boot decides: which application it may start, that a device without
    one always comes to accept an update, that a completed update is what the next
    boot starts, and where the double reset leads. *)
From S2P Require Import Prelude Crc BootImage Nvm DfuTypes Settings Boot.

(** * The startup timeout *)

(** [APP_TIMER_TICKS] of [app_timer.h] at 32768 Hz and prescaler 0, in 64 bits. *)
Definition app_timer_ticks (ms : Z) : Z := u32 ((ms * 32768 + 1000 / 2) / 1000).

Lemma timeout_ticks_exact ms : 0 <= ms < 2 ^ 32 -> dfu_timeout_ticks ms = app_timer_ticks ms.
Proof.
  intros Hms. unfold dfu_timeout_ticks, app_timer_ticks. cbv zeta.
  assert (0 <= ms / 125 < 2 ^ 32 /\ 0 <= ms - ms / 125 * 125 < 125) as (Hq & Hr) by zlia.
  rewrite (u32_small (ms / 125 * 125)) by zlia. rewrite (u32_small (ms - _)) by lia.
  set (r := ms - ms / 125 * 125) in *. rewrite (u32_small (r * 4096)), (u32_small (r * 4096 + 62)) by lia.
  rewrite Z.shiftl_mul_pow2 by lia. change (2 ^ 12) with 4096.
  assert ((ms * 32768 + 1000 / 2) / 1000 = ms / 125 * 4096 + (r * 4096 + 62) / 125) as ->.
  { subst r. change (1000 / 2) with 500. zlia. }
  unfold u32. by rewrite Zplus_mod_idemp_l.
Qed.

Section Decision.
Context `{Nvmc} (m : mcu) (ram_kb : Z) (bld : entry_build).
Implicit Types (s : boot) (env : boot_env).

(** * What a session leaves alone *)

Definition session_frame s s' : Prop :=
  GPREGRET (kept s') = GPREGRET (kept s) /\ RESETPIN (kept s') = RESETPIN (kept s) /\ dbl_reset_mem (kept s') = dbl_reset_mem (kept s) /\
  ota_dfu s' = ota_dfu s /\ sd_inited s' = sd_inited s /\ actions s' = actions s.
Definition in_session s (r : res boot) : Prop :=
  match r with Go s' => session_frame s s' | Halt o s' => session_frame s s' /\ (o = App_error \/ o = Waiting) end.

Lemma session_frame_refl s : session_frame s s.
Proof. done. Qed.
Lemma session_frame_trans s1 s2 s3 : session_frame s1 s2 -> session_frame s2 s3 -> session_frame s1 s3.
Proof. unfold session_frame. intros (A1 & A2 & A3 & A4 & A5 & A6) (B1 & B2 & B3 & B4 & B5 & B6). split_and!; congruence. Qed.

Lemma in_session_bind s r k : in_session s r -> (forall s', session_frame s s' -> in_session s' (k s')) -> in_session s (res_bind r k).
Proof.
  intros Hr Hk. destruct r as [s'|o s']; cbn [res_bind]; [|done]. specialize (Hk s' Hr). destruct (k s') as [s2|o s2]; cbn in *.
  - by eapply session_frame_trans.
  - destruct Hk as [Hk Ho]. split; [by eapply session_frame_trans|done].
Qed.

Lemma error_check_session e s : in_session s (app_error_check e s).
Proof. unfold app_error_check. destruct (e =? NRF_SUCCESS); cbn; [done|]. split; [done|by left]. Qed.

Lemma pstorage_callback_session store r s : in_session s (pstorage_callback_handler store r s).
Proof.
  unfold pstorage_callback_handler. apply in_session_bind; [apply error_check_session|]. intros s' _.
  destruct (_ && _ && _); done.
Qed.

Lemma settings_save_session r s : in_session s (settings_save m r s).
Proof.
  unfold settings_save. destruct (ota_dfu s); [done|]. cbv zeta. set (s1 := with_control _ _).
  assert (session_frame s s1) as F by done. pose proof (pstorage_callback_session true NRF_SUCCESS s1) as P.
  destruct (pstorage_callback_handler _ _ _) as [s2|o s2]; cbn in *; [by eapply session_frame_trans|]. destruct P. split; [by eapply session_frame_trans|done].
Qed.

Lemma in_session_from s s1 r : session_frame s s1 -> in_session s1 r -> in_session s r.
Proof. intros F. destruct r as [s2|o s2]; cbn; [by apply session_frame_trans|]. intros [F2 Ho]. split; [by eapply session_frame_trans|done]. Qed.

Lemma update_process_session close u s : in_session s (bootloader_dfu_update_process m close u s).
Proof.
  destruct u as [st| |restart|]; cbn [bootloader_dfu_update_process]; [| |done|done].
  - eapply in_session_from; [|apply settings_save_session]. by destruct st.
  - eapply in_session_from; [|apply in_session_bind; [apply error_check_session|done]]. done.
Qed.

Lemma timeout_session close s : in_session s (bootloader_timeout_startup_dfu m close s).
Proof. unfold bootloader_timeout_startup_dfu. destruct (negb _); [apply update_process_session|done]. Qed.

Lemma event_session close e s : in_session s (boot_event_step m close e s).
Proof.
  destruct e as [f|u| | | | |r|]; cbn [boot_event_step]; try done.
  - apply update_process_session.
  - destruct (startup_timer _); [|done]. unfold dfu_startup_timer_handler. destruct (_ && _); [done|apply timeout_session].
  - destruct (settings_queue s) as [|o os]; [done|]. eapply in_session_from; [|apply pstorage_callback_session]. by destruct (r =? NRF_SUCCESS).
Qed.

Lemma events_session close es : forall s, in_session s (events_step m close es s).
Proof. induction es as [|e es IH]; intros s; [done|]. cbn [events_step]. apply in_session_bind; [apply event_session|done]. Qed.

Lemma wait_session close rs : forall s, in_session s (wait_for_events m close rs s).
Proof.
  induction rs as [|r rs IH]; intros s; cbn [wait_for_events]; [split; [done|by right]|].
  apply in_session_bind.
  - unfold wait_round. apply in_session_bind; [apply events_session|]. intros s' _. destruct (_ && _ && _); [apply timeout_session|done].
  - intros s' _. destruct (finished _); done.
Qed.

(** * What the entry into DFU mode does *)

(** A DFU session was started with these arguments. *)
Definition dfu_started (ota : bool) (timeout : Z) (cancel : bool) s : Prop := In (Dfu_start ota timeout cancel) (actions s).

(** Later steps keep the registers and only add actions. *)
Definition goes_on s s' : Prop :=
  GPREGRET (kept s') = GPREGRET (kept s) /\ RESETPIN (kept s') = RESETPIN (kept s) /\ dbl_reset_mem (kept s') = dbl_reset_mem (kept s) /\
  exists l, actions s' = actions s ++ l.
Lemma goes_on_refl s : goes_on s s.
Proof. repeat split. exists []. by rewrite app_nil_r. Qed.
Lemma goes_on_trans s1 s2 s3 : goes_on s1 s2 -> goes_on s2 s3 -> goes_on s1 s3.
Proof.
  intros (A1 & A2 & A3 & l & A4) (B1 & B2 & B3 & k & B4). split_and!; try congruence. exists (l ++ k). by rewrite B4, A4, app_assoc.
Qed.
Lemma session_goes_on s s' : session_frame s s' -> goes_on s s'.
Proof. intros (A1 & A2 & A3 & _ & _ & A6). split_and!; try done. exists []. by rewrite app_nil_r. Qed.

(** The session of a DFU entry: the state after it has the start among its
    actions, and it ends in the loop or goes on. *)
Lemma dfu_start_result env ota timeout cancel s : exists s',
  (bootloader_dfu_start m env ota timeout cancel s = Go s' \/
   exists o, bootloader_dfu_start m env ota timeout cancel s = Halt o s' /\ (o = App_error \/ o = Waiting)) /\
  goes_on s s' /\ ota_dfu s' = ota_dfu s /\ dfu_started ota timeout cancel s'.
Proof.
  unfold bootloader_dfu_start. cbv zeta. set (s1 := act _ _).
  assert (goes_on s s1 /\ ota_dfu s1 = ota_dfu s /\ dfu_started ota timeout cancel s1) as (G & O & D).
  { split; [repeat split; by eexists|]. split; [done|]. apply in_or_app. right. by left. }
  destruct (negb (dfu_init_result env =? NRF_SUCCESS)); [exists s1; split; [left; reflexivity|]; by split_and!|].
  set (s2 := if negb ota && negb (timeout =? 0) then _ else s1).
  assert (session_frame s1 s2) as F2 by (unfold s2; by destruct (negb ota && negb (timeout =? 0))).
  pose proof (wait_session (close_result env) (rounds env) s2) as Hw.
  assert (forall s3, session_frame s2 s3 -> goes_on s s3 /\ ota_dfu s3 = ota_dfu s /\ dfu_started ota timeout cancel s3) as Hall.
  { intros s3 F3. pose proof (session_frame_trans _ _ _ F2 F3) as F. split; [eapply goes_on_trans; [exact G|by apply session_goes_on]|].
    destruct F as (_ & _ & _ & E4 & _ & E6). split; [congruence|]. unfold dfu_started in *. by rewrite E6. }
  destruct (wait_for_events _ _ _ s2) as [s3|o s3]; cbn in Hw.
  - exists s3. split; [by left|]. exact (Hall s3 Hw).
  - exists s3. split; [right; exists o; by split; [|apply Hw]|]. exact (Hall s3 (proj1 Hw)).
Qed.

(** A step of a boot that goes on, or ends in the wait loop or the error handler. *)
Definition stays_up (r : res boot) (P : boot -> Prop) : Prop :=
  match r with Go s' => P s' | Halt o s' => P s' /\ (o = App_error \/ o = Waiting) end.

Lemma enter_dfu_result env e d probe single s :
  stays_up (enter_dfu m env e d probe single s) (fun s' => goes_on s s' /\ exists ota t c, dfu_started ota t c s' /\
    (probe = false -> ota = ota_dfu s /\ ota_dfu s' = ota_dfu s /\ t = (if (app_single_tap d || uf2_dfu e || serial_only_dfu e) && negb single
      then dfu_buttonless_timeout_ms (serial_only_dfu e) (uf2_dfu e) else 0))).
Proof.
  unfold enter_dfu. cbv zeta. set (s1 := if negb (ota_dfu s) then _ else s).
  assert (goes_on s s1 /\ ota_dfu s1 = ota_dfu s) as (G1 & O1).
  { unfold s1. destruct (ota_dfu s) eqn:E; cbn [negb]; (split; [|done]); [apply goes_on_refl|repeat split; by eexists]. }
  set (s2 := if probe then _ else s1).
  assert (goes_on s1 s2 /\ (probe = false -> ota_dfu s2 = ota_dfu s1)) as (G2 & O2).
  { unfold s2. destruct probe; [|split; [apply goes_on_refl|done]]. unfold usb_wait_for_mount. destruct (usb_wait_loop _ _ _ _) as [[|] t]; (split; [|done]);
      repeat split; cbn [set_ota with_control set_control delay_ms act actions]; rewrite <- ?app_assoc; by eexists. }
  set (s3 := if ota_dfu s2 then _ else _).
  assert (goes_on s2 s3 /\ ota_dfu s3 = ota_dfu s2) as (G3 & O3).
  { unfold s3. destruct (ota_dfu s2) eqn:E2.
    - split; [|by destruct (sd_inited s2)]. destruct (sd_inited s2); repeat split; cbn [act actions set_sd_inited]; rewrite <- ?app_assoc; by eexists.
    - destruct (negb probe); (split; [|done]); [repeat split; by eexists|apply goes_on_refl]. }
  pose proof (goes_on_trans _ _ _ G1 (goes_on_trans _ _ _ G2 G3)) as G. clear G1 G2 G3.
  set (t := if (app_single_tap d || uf2_dfu e || serial_only_dfu e) && negb single then dfu_buttonless_timeout_ms (serial_only_dfu e) (uf2_dfu e) else 0).
  set (c := if (app_single_tap d || uf2_dfu e || serial_only_dfu e) && negb single then true else probe).
  match goal with |- stays_up (res_bind ?b _) _ => assert (b = bootloader_dfu_start m env (ota_dfu s3) t c s3) as -> end.
  { unfold t, c. by destruct (_ && negb single). }
  destruct (dfu_start_result env (ota_dfu s3) t c s3) as (s4 & Hr & G4 & O4 & D4).
  assert (forall s5, goes_on s4 s5 -> ota_dfu s5 = ota_dfu s4 -> goes_on s s5 /\ exists ota t0 c0, dfu_started ota t0 c0 s5 /\
    (probe = false -> ota = ota_dfu s /\ ota_dfu s5 = ota_dfu s /\ t0 = t)) as Hfin.
  { intros s5 G5 O5. split; [eapply goes_on_trans; [exact G|]; by eapply goes_on_trans|]. exists (ota_dfu s3), t, c. split.
    - destruct G5 as (_ & _ & _ & l & E5). unfold dfu_started. rewrite E5. apply in_or_app. by left.
    - intros Hp. specialize (O2 Hp). split; [congruence|]. split; [congruence|done]. }
  destruct Hr as [-> | (o & -> & Ho)]; cbn [res_bind stays_up].
  - destruct (ota_dfu s4) eqn:E4; (apply Hfin; [|done]); repeat split; cbn [act actions]; rewrite <- ?app_assoc; by eexists.
  - split; [|done]. apply Hfin; [apply goes_on_refl|done].
Qed.

(** * Reading the entry *)

(** No value of the register that asks for anything. *)
Definition quiet_gpregret (g : Z) : Prop :=
  g <> DFU_MAGIC_OTA_APPJUM /\ g <> DFU_MAGIC_OTA_RESET /\ g <> DFU_MAGIC_SERIAL_ONLY_RESET /\ g <> DFU_MAGIC_UF2_RESET /\ g <> DFU_MAGIC_SKIP.

(** Until the session the boot changes only its registers, its clock and its mode. *)
Definition only_registers s s' : Prop :=
  RESETPIN (kept s') = RESETPIN (kept s) /\ code (kept s') = code (kept s) /\ control_of s' = control_of s /\
  settings_queue s' = settings_queue s /\ actions s' = actions s /\ reported s' = reported s /\ ota_was_connected s' = ota_was_connected s.

Lemma read_entry_spec s : let '(e, s') := read_entry s in
  only_registers s s' /\ dbl_reset_mem (kept s') = dbl_reset_mem (kept s) /\
  (quiet_gpregret (GPREGRET (kept s')) /\ (GPREGRET (kept s') = 0 \/ GPREGRET (kept s') = GPREGRET (kept s))) /\
  ota_dfu s' = explicit_ble e /\
  explicit_ble e = (GPREGRET (kept s) =? DFU_MAGIC_OTA_APPJUM) || (GPREGRET (kept s) =? DFU_MAGIC_OTA_RESET) /\
  serial_only_dfu e = (GPREGRET (kept s) =? DFU_MAGIC_SERIAL_ONLY_RESET) /\ uf2_dfu e = (GPREGRET (kept s) =? DFU_MAGIC_UF2_RESET) /\
  dfu_skip e = (GPREGRET (kept s) =? DFU_MAGIC_SKIP) /\
  double_reset e = (dbl_reset_mem (kept s) =? DFU_DBL_RESET_MAGIC) && RESETPIN (kept s) /\
  explicit_start e = explicit_ble e || serial_only_dfu e || uf2_dfu e || double_reset e.
Proof.
  unfold read_entry. cbv zeta. set (g := GPREGRET (kept s)).
  match goal with |- context [if ?b then set_gpregret 0 _ else _] => set (clear := b) end.
  split; [unfold only_registers; by destruct clear|]. split; [by destruct clear|]. split.
  - subst clear. destruct (Z.eqb_spec g DFU_MAGIC_OTA_APPJUM), (Z.eqb_spec g DFU_MAGIC_OTA_RESET), (Z.eqb_spec g DFU_MAGIC_SERIAL_ONLY_RESET), (Z.eqb_spec g DFU_MAGIC_UF2_RESET), (Z.eqb_spec g DFU_MAGIC_SKIP);
      destruct (_ && RESETPIN _); (split; [by cbn|by (left + right)]).
  - split_and!; try done. by destruct clear.
Qed.

(** The buttons cost time only, and end the selection only for a SKIP request. *)
Lemma read_buttons_spec env e s :
  match read_buttons bld env e s with
  | inl s' => (exists k, s' = delay_ms k s) /\ dfu_skip e = true
  | inr (start, pressed, s') => (exists k, s' = delay_ms k s) /\ (explicit_start e = true -> start = true) /\
      ((forall t, button_dfu env t = false) -> start = explicit_start e /\ pressed = false)
  end.
Proof.
  assert (delay_ms 0 s = s) as E0 by (destruct s; unfold delay_ms; cbn; by rewrite Z.add_0_r).
  assert (forall n w d t, (forall t, button_dfu env t = false) -> fst (hold_latch env n w d t) = false) as Hh.
  { intros [|n] w d t Hb; [done|]. cbn [hold_latch]. by rewrite Hb. }
  unfold read_buttons. destruct (dfu_skip e) eqn:Ek; cbn [andb].
  - destruct (if BUTTON_DFU_SKIP_HOLD bld then _ else true); [split; [by exists 0|done]|].
    destruct (BUTTON_DFU_DELAY_MS bld) as [d|], (BUTTON_DFU bld) eqn:Eb, (BUTTON_DFU_PROBE_USB bld) eqn:Ep; cbn [negb];
      rewrite ?andb_true_r; try (destruct (negb (explicit_start e)) eqn:En).
    all: try (destruct (hold_latch env _ _ d (now s)) as [p t] eqn:El; pose proof (Hh (Z.to_nat (d / 10 + 2)) 0 d (now s)) as Hp; rewrite El in Hp; cbn [fst] in Hp).
    all: try (destruct (BUTTON_DFU_SKIP_HOLD bld && negb _); [split; [eexists; done || (symmetry; exact E0)|done]|]).
    all: split; [first [by eexists | by exists 0]|]; split; [by intros ->|]; intros Hb; rewrite ?Hb, ?andb_false_r, ?orb_false_r; try done.
    all: try by rewrite (Hp Hb), orb_false_r.
  - destruct (BUTTON_DFU_DELAY_MS bld) as [d|], (BUTTON_DFU bld) eqn:Eb, (BUTTON_DFU_PROBE_USB bld) eqn:Ep; cbn [negb andb];
      rewrite ?andb_false_r; cbn [andb]; try (destruct (negb (explicit_start e)) eqn:En).
    all: try (destruct (hold_latch env _ _ d (now s)) as [p t] eqn:El; pose proof (Hh (Z.to_nat (d / 10 + 2)) 0 d (now s)) as Hp; rewrite El in Hp; cbn [fst] in Hp).
    all: split; [first [by eexists | by exists 0]|]; split; [by intros ->|]; intros Hb; rewrite ?Hb, ?andb_false_r, ?orb_false_r; try done.
    all: try by rewrite (Hp Hb), orb_false_r.
Qed.

Lemma only_registers_refl s : only_registers s s.
Proof. done. Qed.
Lemma only_registers_trans s1 s2 s3 : only_registers s1 s2 -> only_registers s2 s3 -> only_registers s1 s3.
Proof. unfold only_registers. intros (A1 & A2 & A3 & A4 & A5 & A6 & A7) (B1 & B2 & B3 & B4 & B5 & B6 & B7). split_and!; congruence. Qed.

Lemma decide_start_spec env e start pressed s : let '(d, s') := decide_start m ram_kb bld env e start pressed s in
  only_registers s s' /\ GPREGRET (kept s') = GPREGRET (kept s) /\ dbl_reset_mem (kept s') = dbl_reset_mem (kept s) /\
  valid_app d = app_valid m ram_kb (code (kept s)) /\ app_single_tap d = app_asks_for_single_tap_reset (code (kept s)) /\
  dfu_button_pressed d = pressed /\ (start = true -> just_start_app d = false /\ dfu_start d = true) /\
  dfu_start d = start || (negb (just_start_app d) && app_single_tap d) /\
  (DEFAULT_TO_OTA_DFU bld = false -> (forall t, button_dfu env t = false) -> ota_dfu s' = ota_dfu s).
Proof.
  unfold decide_start. cbv zeta. set (s1 := if BUTTON_DFU bld && _ then _ else s).
  assert (only_registers s s1 /\ kept s1 = kept s) as (O1 & K1) by (unfold s1; by destruct (BUTTON_DFU bld && _)).
  set (b := DEFAULT_TO_OTA_DFU bld && _ && _ && _).
  split_and!; rewrite ?K1; cbn [valid_app app_single_tap just_start_app dfu_start dfu_button_pressed]; try done.
  - eapply only_registers_trans; [exact O1|]. by destruct b.
  - destruct b; cbn; by rewrite K1.
  - destruct b; cbn; by rewrite K1.
  - intros ->. by rewrite andb_false_r.
  - intros E1 Hb. unfold b. rewrite E1. cbn [andb]. unfold s1. destruct (BUTTON_DFU bld && _); [|done]. cbn. by rewrite Hb, andb_false_l, orb_false_r.
Qed.

(** What the selection has decided when the window opens. *)
Lemma before_window_spec env s : match before_window m ram_kb bld env s with
  | inl s' => only_registers s s' /\ GPREGRET (kept s') = 0 /\ dbl_reset_mem (kept s') = dbl_reset_mem (kept s) /\
      GPREGRET (kept s) = DFU_MAGIC_SKIP
  | inr (e, d, s') => only_registers s s' /\
      (quiet_gpregret (GPREGRET (kept s')) /\ (GPREGRET (kept s') = 0 \/ GPREGRET (kept s') = GPREGRET (kept s))) /\
      valid_app d = app_valid m ram_kb (code (kept s)) /\ app_single_tap d = app_asks_for_single_tap_reset (code (kept s)) /\
      double_reset e = (dbl_reset_mem (kept s) =? DFU_DBL_RESET_MAGIC) && RESETPIN (kept s) /\
      serial_only_dfu e = (GPREGRET (kept s) =? DFU_MAGIC_SERIAL_ONLY_RESET) /\ uf2_dfu e = (GPREGRET (kept s) =? DFU_MAGIC_UF2_RESET) /\
      explicit_ble e = (GPREGRET (kept s) =? DFU_MAGIC_OTA_APPJUM) || (GPREGRET (kept s) =? DFU_MAGIC_OTA_RESET) /\
      (negb (just_start_app d || dfu_start d) && RESETPIN (kept s) = true -> dbl_reset_mem (kept s') = DFU_DBL_RESET_MAGIC) /\
      (double_reset e = true -> dfu_start d = true) /\
      ((forall t, button_dfu env t = false) -> dfu_button_pressed d = false /\
         dfu_start d = explicit_start e || (negb (just_start_app d) && app_single_tap d) /\
         explicit_start e = explicit_ble e || serial_only_dfu e || uf2_dfu e || double_reset e /\
         (DEFAULT_TO_OTA_DFU bld = false -> ota_dfu s' = explicit_ble e))
  end.
Proof.
  unfold before_window. pose proof (read_entry_spec s) as He. destruct (read_entry s) as [e s1].
  destruct He as (O1 & D1 & Q1 & T1 & X1 & X2 & X3 & X4 & X5 & X6). pose proof (read_buttons_spec env e s1) as Hb.
  destruct (read_buttons bld env e s1) as [s2|[[start pressed] s2]].
  - destruct Hb as [[k ->] Hk]. rewrite X4 in Hk. apply Z.eqb_eq in Hk. split; [eapply only_registers_trans; [exact O1|done]|].
    split; [|done]. destruct Q1 as [(_ & _ & _ & _ & Q) [E|E]]; [exact E|]. by rewrite E, Hk in Q.
  - destruct Hb as ([k ->] & Hst & Hnob). pose proof (decide_start_spec env e start pressed (delay_ms k s1)) as Hd.
    destruct (decide_start _ _ _ _ _ _ _ _) as [d s3]. destruct Hd as (O3 & G3 & D3 & V & T & P & F & S & OT).
    pose proof O1 as (R1 & C1 & _). cbn [delay_ms kept] in *. rewrite C1 in V, T.
    assert (only_registers s s3) as O by (eapply only_registers_trans; [exact O1|exact O3]).
    unfold open_window. split_and!; try done.
    + destruct (negb _ && RESETPIN (kept s3)); [|exact O]. eapply only_registers_trans; [exact O|]. repeat split.
    + destruct (negb _ && RESETPIN (kept s3)); cbn [set_dbl_reset set_kept kept GPREGRET]; rewrite G3; exact (proj1 Q1).
    + destruct (negb _ && RESETPIN (kept s3)); cbn [set_dbl_reset set_kept kept GPREGRET]; rewrite G3; exact (proj2 Q1).
    + intros Hw. pose proof O as (RP & _). rewrite RP, Hw. done.
    + intros Hdr. apply F, Hst. by rewrite X6, Hdr, orb_true_r.
    + intros Hnb. specialize (Hnob Hnb) as [-> ->]. split_and!; try done. intros Hdef. specialize (OT Hdef Hnb). destruct (negb _ && RESETPIN (kept s3)); cbn; by rewrite OT.
Qed.

(** * No application is started before [leave] *)

Lemma check_stays_up env s : stays_up (check_dfu_mode m ram_kb bld env s) (fun _ => True).
Proof.
  unfold check_dfu_mode. destruct (before_window _ _ _ _ _) as [s1|[[e d] s1]]; [done|]. unfold after_window.
  destruct (choose_transport _ _ _ _) as [[probe single] s2]. destruct (dfu_start d || _); [|done].
  pose proof (enter_dfu_result env e d probe single s2) as Hr. destruct (enter_dfu _ _ _ _ _ _ _); cbn in *; tauto.
Qed.



Lemma close_window_spec d s : only_registers s (close_window d s) /\ GPREGRET (kept (close_window d s)) = GPREGRET (kept s) /\
  dbl_reset_mem (kept (close_window d s)) = (if app_single_tap d then DFU_DBL_RESET_APP else 0) /\ ota_dfu (close_window d s) = ota_dfu s.
Proof. unfold close_window. by destruct (negb (just_start_app d || dfu_start d) && RESETPIN (kept s)). Qed.



(** * The whole boot *)

Context (bootloader_dfu_sd_update_continue : mem -> option mem) (ota_delta_check_and_apply : Z -> mem -> bool * Z * mem).
Abbreviation boot_main := (main m ram_kb bld).
Abbreviation leave_boot := (leave m ram_kb ota_delta_check_and_apply).

(** How [leave] ends. *)
Lemma leave_result s : exists o s', leave_boot s = Halt o s' /\ (exists l, actions s' = actions s ++ l) /\ control_of s' = control_of s /\
  match o with
  | App_started a =>
    app_valid m ram_kb (code (kept s')) = true /\ bootloader_dfu_sd_in_progress m s' = false /\
    a = DFU_BANK_0_REGION_START (mem_word (code (kept s'))) /\ dbl_reset_mem (kept s') = 0 /\
    bootloader_must_reset_to_self s = false /\ bootloader_dfu_app_update_complete s = false /\
    In (Flash_protect 0 MBR_SIZE) (actions s') /\
    In (Flash_protect (BOOTLOADER_REGION_START m) (BOOTLOADER_SETTINGS_ADDRESS m + CODE_PAGE_SIZE - BOOTLOADER_REGION_START m)) (actions s') /\
    (is_sd_existed (mem_word (code (kept s'))) = true -> In Softdevice_disable (actions s'))
  | System_reset => True
  | _ => False
  end.
Proof.
  unfold leave. destruct (bootloader_dfu_app_update_complete s) eqn:Ec.
  { exists System_reset, s. split; [done|]. split; [by exists []; rewrite app_nil_r|done]. }
  destruct (ota_delta_check_and_apply _ _) as [[applied g] c]. set (s1 := set_code c (set_gpregret g s)).
  assert (actions s1 = actions s /\ control_of s1 = control_of s) as [A1 C1] by done.
  destruct applied. { exists System_reset, s1. split; [done|]. split; [by exists []; rewrite app_nil_r|done]. }
  destruct (bootloader_must_reset_to_self s) eqn:Em; cbn [negb andb].
  { eexists System_reset, _. split; [reflexivity|]. destruct (ota_was_connected s1); (split; [by exists []; rewrite app_nil_r|done]). }
  destruct (app_valid m ram_kb (code (kept s1))) eqn:Ev; cbn [andb].
  2: { eexists System_reset, _. split; [reflexivity|]. destruct (ota_was_connected s1); (split; [by exists []; rewrite app_nil_r|done]). }
  destruct (bootloader_dfu_sd_in_progress m s1) eqn:Es; cbn [negb].
  { eexists System_reset, _. split; [reflexivity|]. destruct (ota_was_connected s1); (split; [by exists []; rewrite app_nil_r|done]). }
  set (s2 := if is_sd_existed _ then _ else s1).
  assert (code (kept s2) = code (kept s1) /\ control_of s2 = control_of s1 /\ (exists l, actions s2 = actions s1 ++ l) /\
    (is_sd_existed (mem_word (code (kept s1))) = true -> In Softdevice_disable (actions s2))) as (K2 & C2 & (l & A2) & D2).
  { unfold s2. destruct (is_sd_existed _).
    - destruct (sd_inited s1); cbn [act kept control_of actions]; (split; [done|]; split; [done|]; split); rewrite <- ?app_assoc; try by eexists.
      all: intros _; apply in_or_app; right; by (left + (right; left)).
    - split; [done|]. split; [done|]. split; [by exists []; rewrite app_nil_r|done]. }
  unfold bootloader_app_start. set (s3 := bootloader_util_flash_protect m 0 MBR_SIZE (set_dbl_reset 0 s2)).
  assert (s3 = act (Flash_protect 0 MBR_SIZE) (set_dbl_reset 0 s2)) as E3.
  { unfold s3, bootloader_util_flash_protect. by destruct m. }
  set (s4 := bootloader_util_flash_protect _ _ _ s3).
  assert (s4 = act (Flash_protect (BOOTLOADER_REGION_START m) (BOOTLOADER_SETTINGS_ADDRESS m + CODE_PAGE_SIZE - BOOTLOADER_REGION_START m)) s3) as E4.
  { unfold s4, bootloader_util_flash_protect. by destruct m. }
  assert (code (kept s4) = code (kept s1)) as K4 by (by rewrite E4, E3).
  eexists (App_started _), s4. split; [reflexivity|].
  assert (actions s4 = actions s ++ l ++ [Flash_protect 0 MBR_SIZE; Flash_protect (BOOTLOADER_REGION_START m)
    (BOOTLOADER_SETTINGS_ADDRESS m + CODE_PAGE_SIZE - BOOTLOADER_REGION_START m)]) as A4.
  { rewrite E4, E3. cbn [act actions set_dbl_reset set_kept]. by rewrite A2, A1, <- !app_assoc. }
  split; [by eexists|]. split; [rewrite E4, E3; cbn; by rewrite C2|].
  rewrite K4. split; [exact Ev|]. split; [unfold bootloader_dfu_sd_in_progress, settings_now in *; by rewrite K4|].
  split; [done|]. split; [by rewrite E4, E3|]. split; [done|]. split; [done|]. rewrite A4. split; [|split].
  - apply in_or_app. right. apply in_or_app. right. by left.
  - apply in_or_app. right. apply in_or_app. right. right. by left.
  - intros Hsd. specialize (D2 Hsd). rewrite A2, A1 in D2. rewrite app_assoc. apply in_or_app. by left.
Qed.

(** The two ways through [main]: continuing a SoftDevice or bootloader update,
    and selecting a mode. *)
Lemma continue_result env s : exists o s', continue_sd_update m env bootloader_dfu_sd_update_continue s = Halt o s' /\
  (o = App_error \/ o = Waiting \/ o = System_reset).
Proof.
  unfold continue_sd_update. destruct (bootloader_dfu_sd_update_continue _) as [c|]; [|by exists App_error, s; auto].
  pose proof (update_process_session (close_result env) (Update Save_sd_swapped) (set_code c s)) as H1.
  destruct (bootloader_dfu_update_process _ _ _ _) as [s1|o s1]; cbn in H1 |- *; [|exists o, s1; split; [done|]; tauto].
  pose proof (wait_session (close_result env) (rounds env) s1) as H2.
  destruct (wait_for_events _ _ _ s1) as [s2|o s2]; cbn in H2 |- *; [by eexists _, _; auto|exists o, s2; split; [done|]; tauto].
Qed.

Lemma main_selects env r : u8 (GPREGRET r) <> DFU_MAGIC_OTA_APPJUM -> bootloader_dfu_sd_in_progress m (start r) = false ->
  boot_main env bootloader_dfu_sd_update_continue ota_delta_check_and_apply r =
  match res_bind (check_dfu_mode m ram_kb bld env (start r)) leave_boot with Go s => (System_reset, s) | Halt o s => (o, s) end.
Proof.
  intros Hg Hs. unfold main, main_steps. cbn [start kept]. unfold dfu_entry_reset_magic.
  destruct (Z.eqb_spec (u8 (GPREGRET r)) DFU_MAGIC_OTA_APPJUM) as [E|_]; [done|]. rewrite Z.eqb_refl. cbn [negb]. by rewrite Hs.
Qed.

(** C23: an application is started only when it is valid. On a chip with USB, whatever the reset
    left, the buttons and the session do, the boot ends in an application only
    when the vector table is plausible ([plausible_vectors]: stack pointer in RAM and
    aligned, reset vector a Thumb address in the region) and the settings record is intact and names
    an image that fits and whose CRC is that of the flash, or is the legacy or
    the erased record ([bootable_record]), no image swap is pending, the session neither completed
    an update nor asked for the bootloader again, and the entry was no jump from
    an application. By then the double-reset mark is cleared, an existing
    SoftDevice is disabled, and the MBR and everything from the bootloader to its
    settings page are write-protected. *)
Theorem only_valid_started env r a s : m <> NRF52832 ->
  boot_main env bootloader_dfu_sd_update_continue ota_delta_check_and_apply r = (App_started a, s) ->
  let c := code (kept s) in let fl := mem_word c in
  let st := settings_of_bytes (mem_read c (BOOTLOADER_SETTINGS_ADDRESS m) SETTINGS_SIZE) in
  a = DFU_BANK_0_REGION_START fl /\
  plausible_vectors m ram_kb fl /\ bootable_record m fl (mem_read c a) st /\
  bootloader_update_settings_valid m fl st = false /\
  m_update_status (control_of s) <> BOOTLOADER_RESET_TO_SELF /\ bootloader_dfu_app_update_complete s = false /\
  u8 (GPREGRET r) <> DFU_MAGIC_OTA_APPJUM /\ dbl_reset_mem (kept s) = 0 /\
  (is_sd_existed fl = true -> In Softdevice_disable (actions s)) /\ In (Flash_protect 0 MBR_SIZE) (actions s) /\
  In (Flash_protect (BOOTLOADER_REGION_START m) (BOOTLOADER_SETTINGS_ADDRESS m + CODE_PAGE_SIZE - BOOTLOADER_REGION_START m)) (actions s).
Proof.
  intros _ Hm. assert (u8 (GPREGRET r) <> DFU_MAGIC_OTA_APPJUM) as Hg.
  { intros E. revert Hm. unfold main, main_steps. cbn [start kept]. rewrite E. done. }
  destruct (bootloader_dfu_sd_in_progress m (start r)) eqn:Es.
  { revert Hm. unfold main, main_steps. cbn [start kept]. unfold dfu_entry_reset_magic. destruct (Z.eqb_spec (u8 (GPREGRET r)) DFU_MAGIC_OTA_APPJUM); [done|].
    rewrite Z.eqb_refl. cbn [negb]. fold (start r). rewrite Es. destruct (continue_result env (start r)) as (o & s1 & -> & Ho). intros [= -> _].
    by destruct Ho as [?|[?|?]]. }
  rewrite main_selects in Hm by done. pose proof (check_stays_up env (start r)) as Hc.
  destruct (check_dfu_mode _ _ _ _ _) as [s1|o s1]; cbn [res_bind] in Hm; [|injection Hm as -> _; by destruct Hc as [_ [?|?]]].
  destruct (leave_result s1) as (o & s2 & El & _ & Ectl & Ho). rewrite El in Hm. injection Hm as -> ->.
  destruct Ho as (Hv & Hsd & -> & Hd & Hmust & Hcomp & P1 & P2 & D). cbv zeta.
  apply app_valid_checked in Hv as [V1 V2]. split; [done|]. split; [exact V1|]. split; [exact V2|]. split; [exact Hsd|].
  unfold bootloader_must_reset_to_self, bootloader_dfu_app_update_complete in *. rewrite Ectl.
  split; [by apply bool_decide_eq_false in Hmust|]. split; [exact Hcomp|]. done.
Qed.

Lemma actions_left a s : In a (actions s) -> In a (actions (snd (match leave_boot s with Go s => (System_reset, s) | Halt o s => (o, s) end))).
Proof. intros Ha. destruct (leave_result s) as (o & s2 & -> & (l & El) & _). cbn [snd]. rewrite El. apply in_or_app. by left. Qed.


(** * A completed update *)

















(** * The double reset *)

(** Pressing reset twice leads to USB recovery. When a boot after a pin reset
    has opened the window, a second pin reset while it is open makes the next boot
    start a session over USB, with no time limit, whether or not the application is
    valid, provided nobody holds a button and the build does not default to BLE.
    When the window passes instead, the mark is gone before anything else happens. *)
Theorem double_reset_recovers env env' r e d s : m <> NRF52832 ->
  RESETPIN r = true -> u8 (GPREGRET r) <> DFU_MAGIC_OTA_APPJUM -> bootloader_dfu_sd_in_progress m (start r) = false ->
  before_window m ram_kb bld env (start r) = inr (e, d, s) -> just_start_app d || dfu_start d = false ->
  DEFAULT_TO_OTA_DFU bld = false -> (forall t, button_dfu env' t = false) ->
  (exists c, dfu_started false 0 c (snd (boot_main env' bootloader_dfu_sd_update_continue ota_delta_check_and_apply (pin_reset (kept s))))) /\
  dbl_reset_mem (kept (close_window d s)) <> DFU_DBL_RESET_MAGIC.
Proof.
  intros _ Hr Hg Hs Hw Hd Hdef Hb. pose proof (before_window_spec env (start r)) as Hspec. rewrite Hw in Hspec.
  destruct Hspec as ((R1 & C1 & _) & (Q1 & Q0) & V1 & T1 & _ & _ & _ & _ & O1 & _).
  cbn [start kept] in *. rewrite Hr, Hd in O1. specialize (O1 eq_refl).
  split; [|destruct (close_window_spec d s) as (_ & _ & -> & _); by destruct (app_single_tap d)].
  assert (app_single_tap d = false) as Tap.
  { apply orb_false_iff in Hd as [Hj Hd]. revert Hw Hj Hd. unfold before_window. destruct (read_entry (start r)) as [e0 s0].
    destruct (read_buttons _ _ _ _) as [?|[[st pr] s1]]; [done|]. pose proof (decide_start_spec env e0 st pr s1) as Hds.
    destruct (decide_start _ _ _ _ _ _ _ _) as [d0 s2]. destruct Hds as (_ & _ & _ & _ & _ & _ & _ & Hst & _). intros [= _ <- _] Hj Hd.
    rewrite Hst, Hj in Hd. by apply orb_false_iff in Hd as [_ ?]. }
  set (r2 := pin_reset (kept s)). destruct Q1 as (G1 & G2 & G3 & G4 & G5).
  assert (bootloader_dfu_sd_in_progress m (start r2) = false) as Hs2.
  { unfold bootloader_dfu_sd_in_progress, settings_now in *. cbn [start kept] in *. cbn [r2 pin_reset code]. by rewrite C1. }
  rewrite main_selects; [| |exact Hs2].
  2: { cbn [r2 pin_reset GPREGRET]. by destruct Q0 as [-> | ->]. }
  unfold check_dfu_mode. pose proof (before_window_spec env' (start r2)) as H2.
  destruct (before_window m ram_kb bld env' (start r2)) as [s3|[[e2 d2] s3]]; [by destruct H2 as (_ & _ & _ & ?)|].
  destruct H2 as (_ & _ & _ & T2 & D2 & S2 & U2 & X2 & _ & F2 & N2).
  specialize (N2 Hb) as (P2 & _ & _ & Ota). specialize (Ota Hdef).
  cbn [start kept] in *. cbn [r2 pin_reset GPREGRET RESETPIN dbl_reset_mem code] in *. rewrite O1 in D2. specialize (F2 D2).
  rewrite (proj2 (Z.eqb_neq _ _) G1), (proj2 (Z.eqb_neq _ _) G2) in X2. rewrite (proj2 (Z.eqb_neq _ _) G3) in S2. rewrite (proj2 (Z.eqb_neq _ _) G4) in U2.
  rewrite C1 in T2. rewrite <- T1, Tap in T2. cbn [orb] in X2. rewrite X2 in Ota.
  unfold after_window. destruct (close_window_spec d2 s3) as (_ & _ & _ & Oc).
  destruct (choose_transport bld e2 d2 (close_window d2 s3)) as [[probe single] s4] eqn:Ec.
  assert (probe = false /\ ota_dfu s4 = false) as [-> O4].
  { revert Ec. unfold choose_transport. rewrite D2, S2, U2, X2, P2, F2. cbn [negb orb dfu_entry_single_button_route]. rewrite !andb_false_r. cbn [andb].
    destruct (_ && BUTTON_DFU bld); intros [= <- _ <-]; (split; [done|]); [done|by rewrite Oc]. }
  rewrite F2. cbn [orb]. pose proof (enter_dfu_result env' e2 d2 false single s4) as He.
  destruct (enter_dfu _ _ _ _ _ _ _) as [s5|o s5]; cbn [stays_up res_bind] in *.
  - destruct He as (_ & ota & t & c & Hst & Hx). destruct (Hx eq_refl) as (-> & _ & ->). rewrite O4, T2, S2, U2 in Hst. exists c. by apply actions_left.
  - destruct He as ((_ & ota & t & c & Hst & Hx) & _). destruct (Hx eq_refl) as (-> & _ & ->). rewrite O4, T2, S2, U2 in Hst. by exists c.
Qed.
End Decision.
