(* ===== verification/BootDemo.v ===== *)
(** Concrete boots of an nRF52840 board: the start-up theorems at work, and the
    USB probe that does not notice the cable being pulled. *)
From S2P Require Import Prelude Crc BootImage Nvm DfuTypes Settings Boot BootDecision.

#[local] Existing Instance nvmc_model.

(** An nRF52840 board with one button, without a SoftDevice. *)
Definition demo_board : entry_build := mk_entry_build true false false false None false.
Definition demo_env (usb : bool) (rounds : list (list boot_event * bool)) : boot_env :=
  mk_env (fun _ => false) (fun _ => false) (fun _ => usb) (fun _ => usb) NRF_SUCCESS NRF_SUCCESS rounds.
Definition no_container (g : Z) (c : mem) : bool * Z * mem := (false, g, c).
Abbreviation demo_main := (main NRF52840 256 demo_board).

(** An erased flash, and one with the start of an application. *)
Definition erased_flash : mem := fun _ => 255.
Definition demo_vectors : list Z := [0; 0x10; 0; 0x20; 0x11; 0x10; 0; 0].
Definition app_flash : mem := fun x => if (0x1000 <=? x) && (x <? 0x1008) then nthZ demo_vectors (x - 0x1000) else 255.

Lemma fst_pair {A B} (p : A * B) a : fst p = a -> p = (a, snd p).
Proof. intros <-. by destruct p. Qed.

Definition demo_start : boot := snd (demo_main (demo_env false []) Some no_container (mk_retained 0 true 0 app_flash)).
Lemma only_valid_started_witness :
  demo_main (demo_env false []) Some no_container (mk_retained 0 true 0 app_flash) = (App_started 0x1000, demo_start) /\
  u8 0 <> DFU_MAGIC_OTA_APPJUM /\ dbl_reset_mem (kept demo_start) = 0.
Proof.
  assert (demo_main (demo_env false []) Some no_container (mk_retained 0 true 0 app_flash) = (App_started 0x1000, demo_start)) as E
    by (unfold demo_start; apply fst_pair; vm_compute; reflexivity).
  split; [exact E|].
  destruct (only_valid_started NRF52840 256 demo_board Some no_container (demo_env false []) (mk_retained 0 true 0 app_flash) 0x1000 demo_start ltac:(discriminate) E)
    as (_ & _ & _ & _ & _ & _ & A & B & _). split; [exact A|exact B].
Defined.



(** * The USB probe and the cable *)

(** With no event and the host not known to have mounted the volume, the loop
    waits for ever, with or without VBUS. *)
Lemma wait_idle `{Nvmc} m close n s : m_usb_was_mounted (control_of s) = false -> finished (control_of s) = false ->
  wait_for_events m close (replicate n ([], false)) s = Halt Waiting s.
Proof.
  intros Hm Hf. induction n as [|n IH]; [done|]. cbn [replicate wait_for_events]. unfold wait_round. cbn [fst snd events_step res_bind].
  rewrite Hm, andb_false_r. cbn [andb res_bind]. by rewrite Hf.
Qed.

Definition demo_probe : boot := snd (demo_main (demo_env true []) Some no_container (mk_retained 0 false 0 erased_flash)).
Lemma probe_enters rounds :
  check_dfu_mode NRF52840 256 demo_board (demo_env true rounds) (start (mk_retained 0 false 0 erased_flash)) =
  res_bind (wait_for_events NRF52840 NRF_SUCCESS rounds demo_probe)
    (fun s => Go (if ota_dfu s then act Usb_teardown (act Softdevice_disable s) else act Usb_teardown s)).
Proof.
  let v := eval vm_compute in demo_probe in change demo_probe with v. cbv -[wait_for_events]. reflexivity.
Qed.

(** No application and an attached host: the volume is mounted during the probe,
    but [bootloader_dfu_start] forgets it; the session was asked to end when the
    cable is pulled, and it does not, however long VBUS stays away. *)
Lemma probe_unplug_missed n :
  let '(o, s) := demo_main (demo_env true (replicate n ([], false))) Some no_container (mk_retained 0 false 0 erased_flash) in
  o = Waiting /\ In (Dfu_start false 0 true) (actions s) /\ m_cancel_timeout_on_usb (control_of s) = true /\
  m_usb_was_mounted (control_of s) = false.
Proof.
  assert (exists k, forall rounds, demo_main (demo_env true rounds) Some no_container (mk_retained 0 false 0 erased_flash) =
    match wait_for_events NRF52840 NRF_SUCCESS rounds demo_probe with Go s => k s | Halt o s => (o, s) end) as [k Hk].
  { exists (fun s => match leave NRF52840 256 no_container (if ota_dfu s then act Usb_teardown (act Softdevice_disable s) else act Usb_teardown s) with
      | Go s => (System_reset, s) | Halt o s => (o, s) end).
    intros rounds. rewrite main_selects by (vm_compute; congruence). rewrite probe_enters.
    destruct (wait_for_events NRF52840 NRF_SUCCESS rounds demo_probe) as [s|o s]; [|done]. cbn [res_bind]. by destruct (ota_dfu s). }
  rewrite Hk, wait_idle by (vm_compute; reflexivity). split; [done|]. split; [vm_compute; tauto|]. split; vm_compute; reflexivity.
Qed.
